(* ===== verification/_CoqProject ===== *)
-Q . S2P
Prelude.v
GoErrors.v
GoRuntime.v
Params.v
Api.v
Validation.v
State.v
TuningSet.v
Executor.v
Reconcile.v
Client.v
Modifier.v
Namespaces.v
Measurement.v
Float64.v
FloatInt.v
Latency.v
PodStartup.v
Reporter.v
Dependency.v
Compile.v
TestRun.v
Pods.v
RuntimeObjects.v
Indexer.v
ControlledPods.v
Cluster.v
Chaos.v
Waiting.v
Jobs.v
Prometheus.v
ApiResponsiveness.v
TemplateFunctions.v
Templates.v
Flags.v
Provider.v
PromStack.v
Measurements.v
Gatherers.v
ResourceUsage.v
Services.v
SystemMetrics.v
SchedulerMetrics.v
Availability.v
ServiceLatency.v
PodCommand.v
NetworkPolicy.v
ClaimLatency.v
NetworkPerf.v
Probes.v
MetricsGrabber.v
Dra.v
Profile.v
Kubemark.v
Bundle.v
AddonMeasurements.v
ObjectStores.v
Listing.v
Ssh.v
PromClients.v
Main.v
