(* ===== verification/Prelude.v ===== *)
(** * ClusterLoader2: a verification library

    ClusterLoader2 (the Go program under src/) loads a Kubernetes cluster as a
    test config says and measures whether the cluster meets its objectives.
    The library translates the program's own logic into executable
    definitions, file by file, and proves the properties that make it correct.

    ** The program

    - The command line (pkg/flags) and the environment select a provider
      (pkg/provider), override files and the test configs.
    - A test config is a template (pkg/config): it is rendered with a mapping,
      decoded, modified (pkg/modifier), its modules are inlined
      (pkg/test/modules.go), defaults are set and it is validated (api/).
    - The executor (pkg/test/simple_test_executor.go) runs its steps in order.
      A step is either phases, which create, patch and delete numbered objects
      in numbered namespaces at the pace of a tuning set (pkg/tuningset)
      through a client that retries (pkg/framework), or measurements
      (pkg/measurement). What exists is remembered in the test state
      (pkg/state); what failed goes to the reporter, whose count of failures is
      the exit status.
    - Measurements watch pods, controllers, jobs, volumes or Prometheus
      (pkg/prometheus) and fail with a metric violation when an objective is
      missed; the chaos monkey (pkg/chaos) kills nodes meanwhile.

    ** How the code is translated

    - Go's [int], [int32], [uint64] are [Z] with the wrap-around written out
      where it can occur; [float64] is the Standard Library's executable
      binary64. Maps are [gmap]s; a loop over a map is over an arbitrary
      permutation of its entries ([MapRange]). [interface{}] is [Params.value].
    - [(value, error)] is [result] or a pair; a call that can panic returns an
      [outcome]; errors are trees, so that [errors.Is] can be computed.
    - The cluster, file systems, random sources, clocks, JSON, YAML and the
      template engine are arguments, mostly methods of a class with the
      documented laws of the call. State is passed explicitly.
    - Goroutines are steps whose order is an argument or a step relation; a
      section under a lock is one step. Informer events and queue items arrive
      in any order the informer allows. The substeps of a step and the deletions
      of namespaces each run to their end, in any order, without interleaving;
      the gathering of a measurement sees entries that no longer change.
    - Loops bounded by data are structural; loops that wait are functions of
      the rounds they observe ([None]: still waiting), so that a theorem says at
      which round they end. Fuel occurs in the flattening of modules (any bound
      above the nesting depth gives the same result, and a self-including
      module has none), in the namespace loop, which diverges for the largest
      int32, and in the scheduler of a phase (shown to be enough).

    ** Files, bottom up

    - [Prelude], [GoErrors], [GoRuntime], [Float64], [FloatInt]: integers,
      strings, [fmt], errors (pkg/errors), results, work queues
      (workerqueue.go), rounding of the percentile index, and integers carried
      in binary64.
    - [Params]: parameter maps, durations, selectors (pkg/util/{util,selector}.go).
    - [Api], [Validation]: the config types, defaults and the validator (api/).
    - [State]: pkg/state. [TuningSet]: pkg/tuningset.
    - [Executor], [Reconcile]: ExecutePhase and ExecuteObject, and the theorem
      that a phase makes the cluster hold the objects it declares, against the
      interface of cluster calls [ClusterLaws].
    - [Client]: pkg/framework/client and multiclient.go, for a server that
      loses answers and deletes with grace periods and finalizers; it discharges
      [ClusterLaws] for one that deletes at once ([NoGrace]).
    - [Namespaces]: automanaged namespaces (framework.go).
    - [Modifier], [TemplateFunctions], [Templates], [Compile]: from the
      template to a compiled config. [Templates] also builds the mapping, and
      shows its caches to be what [Compile] and [Executor] assume.
    - [Measurement], [Dependency], [Reporter], [TestRun]: the measurement and
      dependency managers, the reporter, and the run of a test with its
      cleanup.
    - [Latency], [PodStartup]: phase latencies, percentiles, thresholds, and
      the pod startup measurement.
    - [Pods], [RuntimeObjects], [Indexer], [ControlledPods], [Cluster],
      [Waiting], [Jobs]: everything that waits for pods, controllers, nodes,
      volumes, jobs or conditions (pkg/measurement/util, pkg/util/cluster.go,
      the measurements wait_for_*.go, job_lifecycle_latency.go and sleep.go).
    - [Chaos]: the node killer, the monkey and its measurement.
    - [Prometheus], [ApiResponsiveness]: queries, histograms, the common part
      of Prometheus based measurements, the API responsiveness objective.
    - [Flags], [Provider], [PromStack]: flags, the table of providers, and the
      controller of the Prometheus stack.
    - [Measurements], [Gatherers], [ResourceUsage], [SystemMetrics],
      [SchedulerMetrics]: the timer, the measurements over Prometheus queries,
      the scheduling throughput, the resource usage of containers with its
      workers, restarts and OOMs of system pods, and the scraped histograms of
      scheduler and etcd (a file names the Go files it models at its top).
    - [Availability], [ServiceLatency]: the API availability measurement with
      its goroutine and its pauses, and the reachability of services and
      ingresses, as transition systems.
    - [PodCommand], [NetworkPolicy], [ClaimLatency], [NetworkPerf]: commands in
      pods with their goroutines, the clients and policies of the network
      policy test, allocation of resource claims and load balancer updates,
      and the pairing of network test workers.
    - [Services]: templated manifests, informers, the exec service, image
      preloading and the metadata file.
    - [Probes], [MetricsGrabber], [Profile], [Kubemark], [AddonMeasurements],
      [Bundle]: the probers and their verdict, metrics scraped from the
      components, profiles of the control plane, the process table of the
      kubemark master, commands, kube-state-metrics, NEG and DNS measurements,
      and the bundle that forwards to sixteen of them.
    - [Dra]: the DRA driver as a dependency. [ObjectStores], [Listing]: the
      caches measurements read and the retried reads of the client.
    - [Ssh], [PromClients]: commands over SSH, directly or through a bastion,
      for the providers of [Provider]; queries to a managed Prometheus, the
      snapshot of its database and the rest config of all clients.
    - [Main]: the program of cmd/clusterloader.go: its flags, validation and
      completion of the config, set-up, compilation of the scenarios, the run
      of the tests and the exit status.

    ** What the theorems show

    - Reconciliation and effects: a phase reaches exactly the declared
      replicas ([ExecutePhase_reconciles]); a retried call has exactly its
      effect, a deletion possibly still under way, or reports an error, after
      at most six attempts; clients are used in turn; namespaces are created and
      deleted as recorded; nodes are killed at most once.
    - Control: steps run in order up to the first critical error; failures are
      counted exactly; a failed set-up runs no step and still cleans up; every
      tuning set runs every action once, when its parameters say.
    - Configuration: validation decides the declarative specification; a
      compiled config is ready to run; flattening, overriding, the mapping, the
      flags and the Prometheus settings have their documented precedence.
    - Measurements: recorded times, indexed pods, tracked controllers, counted
      nodes and histograms are invariants under every sequence of events; the
      verdicts are equivalent to statements about the observed latencies; the
      wait loops succeed exactly at the first listing that is as desired.
    - Transport: a command over SSH and a query to a managed Prometheus succeed
      exactly when the attempts the code makes were answered; a store lists
      exactly the selected objects.
    - Program: the exit status counts the failed items and is zero exactly when
      every test succeeded ([exit_status_correct]); manifests are applied
      completely or with an error.
    - Machine arithmetic: resource versions, percentile indexes and template
      arithmetic at their width.
    - Errors: panics, lost updates and unreachable recoveries the code has are
      stated as theorems where they contradict its intent.

    ** Not modelled

    Logging; JSON, YAML, text/template, pflag, ginkgo, client-go, gcloud, the
    SSH protocol, HTTP and the cloud libraries (arguments and interfaces); the
    pprof server and the signal handler of the Prometheus controller (I/O); the
    three way merge patch of an object (a library's); the local PromQL executor,
    a double for tests around Prometheus' engine; registration of measurements
    in [init], Go interface declarations and plain getters, which have no
    behaviour of their own. *)

(** * Shared prelude *)

From Stdlib Require Export Ascii.
From stdpp Require Export base tactics option list gmap strings pretty sorting.
From Stdlib Require Export ZArith Lia.
From Stdlib Require Import SpecFloat.

#[global] Set Default Goal Selector "!".
#[global] Set Warnings "-register-all,-implicit-create-rewrite-hint-db,-clear-no-such-hyp".
Open Scope Z_scope.

(** ** Machine integers

    Go's [int32] and [int] (64 bits on the supported platforms) are [Z] with
    their wrap-around written out. *)

Definition wrap32 (z : Z) : Z := (z + 2 ^ 31) mod 2 ^ 32 - 2 ^ 31.
Definition wrap64 (z : Z) : Z := (z + 2 ^ 63) mod 2 ^ 64 - 2 ^ 63.
Definition MaxInt32 : Z := 2 ^ 31 - 1.
Definition MaxUint64 : Z := 2 ^ 64 - 1.

Definition int32_range (z : Z) : Prop := - 2 ^ 31 <= z <= MaxInt32.

Lemma wrap32_id z : int32_range z -> wrap32 z = z.
Proof.
  unfold int32_range, MaxInt32, wrap32. intros ?. rewrite Z.mod_small; lia.
Qed.

Lemma wrap32_range z : int32_range (wrap32 z).
Proof.
  unfold int32_range, MaxInt32, wrap32.
  pose proof (Z.mod_pos_bound (z + 2 ^ 31) (2 ^ 32)). lia.
Qed.

Lemma wrap64_id z : - 2 ^ 63 <= z < 2 ^ 63 -> wrap64 z = z.
Proof. unfold wrap64. intros ?. rewrite Z.mod_small; lia. Qed.

Lemma wrap64_range z : - 2 ^ 63 <= wrap64 z < 2 ^ 63.
Proof.
  unfold wrap64. pose proof (Z.mod_pos_bound (z + 2 ^ 63) (2 ^ 64)). lia.
Qed.

(** ** float64

    IEEE 754 binary64 values in the Standard Library's executable
    specification of floating point; no axiom is involved. *)

Definition float64 : Type := spec_float.

Definition f64_of_Z (z : Z) : float64 := binary_normalize 53 1024 z 0 false.
Definition f64_mul (x y : float64) : float64 := SFmul 53 1024 x y.
Definition f64_div (x y : float64) : float64 := SFdiv 53 1024 x y.
Definition f64_ltb (x y : float64) : bool := SFltb x y.
Definition f64_leb (x y : float64) : bool := SFleb x y.

(** [int(x)]: truncation toward zero. Go leaves NaN and out-of-range values
    to the platform; amd64 produces the most negative integer. *)
Definition f64_to_int (x : float64) : Z :=
  match x with
  | S754_zero _ => 0
  | S754_finite s m e =>
      let a := if 0 <=? e then Z.pos m * 2 ^ e else Z.pos m / 2 ^ (- e) in
      let v := if s then - a else a in
      if (- 2 ^ 63 <=? v) && (v <? 2 ^ 63) then v else - 2 ^ 63
  | _ => - 2 ^ 63
  end.

(** ** Strings: decimal numerals and [fmt.Sprintf] *)

Declare Scope go_scope.
Delimit Scope go_scope with go.
Open Scope string_scope.
Open Scope list_scope.
Open Scope Z_scope.

Definition is_digit (a : Ascii.ascii) : bool :=
  let n := Ascii.N_of_ascii a in ((48 <=? n)%N && (n <=? 57)%N).

Definition digit_value (a : Ascii.ascii) : Z := Z.of_N (Ascii.N_of_ascii a) - 48.

(** Value of a digit string, most significant digit first. *)
Fixpoint parse_digits (acc : Z) (s : string) : option Z :=
  match s with
  | EmptyString => Some acc
  | String a s' =>
      if is_digit a then parse_digits (10 * acc + digit_value a) s' else None
  end.

(** [strconv.ParseUint(s, 10, 64)]: [None] for every error. *)
Definition ParseUint (s : string) : option Z :=
  match s with
  | EmptyString => None
  | _ => match parse_digits 0 s with
         | Some v => if v <=? MaxUint64 then Some v else None
         | None => None
         end
  end.

(** [strconv.FormatUint(v, 10)]. *)
Definition FormatUint (v : Z) : string := pretty (Z.to_N v).

(** [strconv.ParseInt(s, 10, bits)]; [Atoi] is the 64 bit case. On a range
    error Go also returns the nearest bound; [inr] carries that value. *)
Definition ParseInt (bits : Z) (s : string) : Z + Z :=
  let hi := 2 ^ (bits - 1) in
  let body (neg : bool) (t : string) : Z + Z :=
    match t with
    | EmptyString => inr 0
    | _ => match parse_digits 0 t with
           | None => inr 0
           | Some v =>
               if neg then (if v <=? hi then inl (- v) else inr (- hi))
               else (if v <? hi then inl v else inr (hi - 1))
           end
    end in
  match s with
  | String a t =>
      if Ascii.eqb a "-"%char then body true t
      else if Ascii.eqb a "+"%char then body false t
      else body false s
  | EmptyString => inr 0
  end.
Definition Atoi : string -> Z + Z := ParseInt 64.

(** [strconv.ParseBool]. *)
Definition ParseBool (s : string) : option bool :=
  if bool_decide (s ∈ ["1"; "t"; "T"; "true"; "TRUE"; "True"]) then Some true
  else if bool_decide (s ∈ ["0"; "f"; "F"; "false"; "FALSE"; "False"]) then Some false
  else None.

(** Operands of a format string, already reduced to what their verb prints. *)
Inductive fmtarg :=
| FStr (s : string)
| FInt (z : Z).

Definition fmt_plain (a : fmtarg) : string :=
  match a with FStr s => s | FInt z => pretty z end.

(** [%02d]: at least two characters, zero padded after the sign. *)
Definition fmt_pad2 (a : fmtarg) : string :=
  match a with
  | FInt z => if (0 <=? z) && (z <? 10) then "0" +:+ pretty z else pretty z
  | FStr s => s
  end.

Definition hex_digit (n : nat) : Ascii.ascii := Ascii.ascii_of_nat (if (n <? 10)%nat then 48 + n else 87 + n)%nat.

(** [strconv.Quote] of a character below 128; the others are kept, as those
    of printable runes are. *)
Definition quote_char (a : Ascii.ascii) (s : string) : string :=
  let n := Ascii.nat_of_ascii a in
  let esc (b : Ascii.ascii) := String "\"%char (String b s) in
  if ((n =? 34) || (n =? 92))%nat then esc a
  else if (n =? 7)%nat then esc "a"%char
  else if (n =? 8)%nat then esc "b"%char
  else if (n =? 9)%nat then esc "t"%char
  else if (n =? 10)%nat then esc "n"%char
  else if (n =? 11)%nat then esc "v"%char
  else if (n =? 12)%nat then esc "f"%char
  else if (n =? 13)%nat then esc "r"%char
  else if ((n <? 32) || (n =? 127))%nat
  then String "\"%char (String "x"%char (String (hex_digit (n / 16)) (String (hex_digit (n mod 16)) s)))
  else String a s.

Fixpoint quote_chars (s : string) : string :=
  match s with
  | EmptyString => String (Ascii.ascii_of_nat 34) EmptyString
  | String a s' => quote_char a (quote_chars s')
  end.

Definition fmt_quote (a : fmtarg) : string := String (Ascii.ascii_of_nat 34) (quote_chars (fmt_plain a)).

Definition is_verb (a : Ascii.ascii) : bool :=
  let n := Ascii.N_of_ascii a in ((97 <=? n)%N && (n <=? 122)%N) || (n =? 84)%N.

(** The subset of [fmt.Sprintf] the program uses: [%v %s %d %w %q %T %02d] and the
    flags [+] and [#], which do not change strings and integers. *)
Fixpoint Sprintf_go (pad : option bool) (f : string) (args : list fmtarg) : string :=
  match f with
  | EmptyString => EmptyString
  | String a f' =>
      match pad with
      | None =>
          if Ascii.eqb a "%"%char then Sprintf_go (Some false) f' args
          else String a (Sprintf_go None f' args)
      | Some p =>
          if is_verb a then
            match args with
            | [] => "%!(MISSING)" +:+ Sprintf_go None f' []
            | x :: args' =>
                (if Ascii.eqb a "q"%char then fmt_quote x
                 else if p then fmt_pad2 x else fmt_plain x)
                  +:+ Sprintf_go None f' args'
            end
          else if Ascii.eqb a "%"%char then String a (Sprintf_go None f' args)
          else Sprintf_go (Some (p || Ascii.eqb a "0"%char)) f' args
      end
  end.
Definition Sprintf (f : string) (args : list fmtarg) : string := Sprintf_go None f args.

(** [fmt.Sprintf("%v-%d", base, i)], the naming scheme of namespaces and objects. *)
Definition indexed_name (base : string) (i : Z) : string :=
  Sprintf "%v-%d" [FStr base; FInt i].

Lemma string_app_cons a (s t : string) : String a s +:+ t = String a (s +:+ t).
Proof. reflexivity. Qed.

Lemma string_app_nil_r (s : string) : s +:+ "" = s.
Proof. induction s as [|a s IH]; [done|]. by rewrite string_app_cons, IH. Qed.

Lemma string_app_inj_l (s t1 t2 : string) : s +:+ t1 = s +:+ t2 -> t1 = t2.
Proof.
  induction s as [|a s IH]; [done|]. rewrite !string_app_cons. intros [= ?]. auto.
Qed.

Lemma indexed_name_eq base i : indexed_name base i = base +:+ "-" +:+ pretty i.
Proof.
  unfold indexed_name, Sprintf. cbn. rewrite string_app_nil_r. reflexivity.
Qed.

#[global] Arguments indexed_name : simpl never.

Lemma indexed_name_inj base i j : indexed_name base i = indexed_name base j -> i = j.
Proof.
  rewrite !indexed_name_eq. intros H%string_app_inj_l.
  apply (string_app_inj_l "-") in H. by apply (inj pretty).
Qed.

(** Printing then parsing a 64 bit unsigned integer gives it back. *)

Lemma pretty_N_char_digit (x : N) :
  (x < 10)%N ->
  is_digit (pretty_N_char x) = true /\ digit_value (pretty_N_char x) = Z.of_N x.
Proof.
  intros Hx.
  assert (x ∈ [0;1;2;3;4;5;6;7;8;9]%N) as H.
  { rewrite !elem_of_cons. lia. }
  repeat (apply elem_of_cons in H as [->|H]; [by vm_compute|]).
  by apply not_elem_of_nil in H.
Qed.

Lemma parse_digits_pretty_go (x : N) :
  forall s acc, exists k, (x < 10 ^ k)%N /\
    parse_digits acc (pretty_N_go x s) = parse_digits (acc * Z.of_N (10 ^ k) + Z.of_N x) s.
Proof.
  induction x as [x IH] using (well_founded_induction N.lt_wf_0). intros s acc.
  destruct (decide (x = 0%N)) as [->|Hx].
  - exists 0%N. rewrite pretty_N_go_0. split; [done|]. f_equal. lia.
  - rewrite pretty_N_go_step by lia.
    destruct (IH (x `div` 10)%N) with (s := String (pretty_N_char (x `mod` 10)) s) (acc := acc)
      as (k & Hk & ->); [apply N.div_lt; lia|].
    destruct (pretty_N_char_digit (x `mod` 10)) as [Hd Hv]; [by apply N.mod_lt|].
    exists (N.succ k). rewrite N.pow_succ_r'.
    pose proof (N.div_mod x 10 ltac:(done)) as Hdm.
    pose proof (N.mod_lt x 10 ltac:(done)). split; [nia|].
    cbn [parse_digits]. rewrite Hd, Hv. f_equal. nia.
Qed.

Lemma ParseUint_FormatUint v :
  0 <= v <= MaxUint64 -> ParseUint (FormatUint v) = Some v.
Proof.
  intros Hv. unfold FormatUint.
  assert (parse_digits 0 (pretty (Z.to_N v)) = Some v) as Hp.
  { unfold pretty, pretty_N. case_decide as H0.
    - assert (v = 0) as -> by lia. reflexivity.
    - destruct (parse_digits_pretty_go (Z.to_N v) "" 0) as (k & _ & ->).
      cbn. f_equal. lia. }
  unfold ParseUint. destruct (pretty (Z.to_N v)) as [|a s] eqn:Hs.
  - injection Hp as <-. discriminate Hs.
  - rewrite Hp. rewrite (proj2 (Z.leb_le _ _)); [done|lia].
Qed.

(** ** Indexed names are injective in both components *)

Fixpoint str_has (x : ascii) (s : string) : bool :=
  match s with
  | EmptyString => false
  | String a s' => Ascii.eqb a x || str_has x s'
  end.

Lemma str_has_app x s t : str_has x (s +:+ t) = str_has x s || str_has x t.
Proof.
  induction s as [|a s IH]; [done|]. rewrite string_app_cons. cbn. by rewrite IH, orb_assoc.
Qed.

Lemma pretty_N_go_no_dash n s :
  str_has "-" s = false -> str_has "-" (pretty_N_go n s) = false.
Proof.
  revert s. induction n as [n IH] using (well_founded_induction N.lt_wf_0). intros s Hs.
  destruct (decide (n = 0%N)) as [->|Hn]; [by rewrite pretty_N_go_0|].
  rewrite pretty_N_go_step by lia. apply IH; [apply N.div_lt; lia|]. cbn.
  rewrite Hs, orb_false_r. apply Ascii.eqb_neq. intros Hc.
  destruct (pretty_N_char_digit (n `mod` 10)) as [Hd _]; [by apply N.mod_lt|].
  rewrite Hc in Hd. done.
Qed.

Lemma pretty_nonneg_no_dash i : 0 <= i -> str_has "-" (pretty i) = false.
Proof.
  intros Hi. destruct i as [|p|p]; [done| |lia].
  change (pretty (Z.pos p)) with (pretty (N.pos p)). unfold pretty at 1, pretty_N.
  case_decide; [done|]. by apply pretty_N_go_no_dash.
Qed.

Lemma last_dash_unique s1 s2 d1 d2 :
  str_has "-" d1 = false -> str_has "-" d2 = false ->
  s1 +:+ "-" +:+ d1 = s2 +:+ "-" +:+ d2 -> s1 = s2 /\ d1 = d2.
Proof.
  intros H1 H2. revert s2.
  assert (forall s (d d' : string), str_has "-" d = false -> String "-" (s +:+ "-" +:+ d') <> String "-" d) as Hx.
  { intros s d d' Hd [= Heq]. rewrite <- Heq, str_has_app in Hd. cbn in Hd.
    by rewrite orb_true_r in Hd. }
  induction s1 as [|a s1 IH]; intros [|b s2] Heq; rewrite ?string_app_cons in Heq.
  - split; [done|]. by apply (string_app_inj_l "-") in Heq.
  - injection Heq as Ha Hb. subst b.
    exfalso. apply (Hx s2 d1 d2 H1). f_equal. symmetry. exact Hb.
  - injection Heq as Ha Hb. subst a.
    exfalso. apply (Hx s1 d2 d1 H2). f_equal. exact Hb.
  - injection Heq as -> Heq. destruct (IH s2 Heq) as [-> ->]. done.
Qed.

Lemma indexed_name_inj2 b1 b2 i j :
  0 <= i -> 0 <= j -> indexed_name b1 i = indexed_name b2 j -> b1 = b2 /\ i = j.
Proof.
  rewrite !indexed_name_eq. intros Hi Hj Heq.
  apply last_dash_unique in Heq as [-> Heq]; try by apply pretty_nonneg_no_dash.
  split; [done|]. by apply (inj pretty).
Qed.

(** ** Lists *)
Lemma list_elem_of_concat {A} (x : A) (ls : list (list A)) :
  x ∈ concat ls <-> exists l, l ∈ ls /\ x ∈ l.
Proof.
  induction ls as [|l ls IH]; cbn; [set_solver|]. rewrite elem_of_app, IH. set_solver.
Qed.

Lemma filter_all {A} (P : A -> Prop) `{!forall x, Decision (P x)} l :
  Forall P l -> filter P l = l.
Proof. induction 1 as [|x l Hx _ IH]; [done|]. rewrite filter_cons_True by done. by rewrite IH. Qed.

Lemma filter_none {A} (P : A -> Prop) `{!forall x, Decision (P x)} l :
  Forall (fun x => ~ P x) l -> filter P l = [].
Proof. induction 1 as [|x l Hx _ IH]; [done|]. by rewrite filter_cons_False. Qed.

(** ** The byte order on strings, of [sort.Strings] *)
Definition string_le (a b : string) : Prop := String.leb a b = true.
#[export] Instance string_le_dec a b : Decision (string_le a b).
Proof. unfold string_le. apply _. Defined.

Lemma string_le_cons a b s t :
  string_le (String a s) (String b t) <-> (Ascii.N_of_ascii a < Ascii.N_of_ascii b)%N \/ (a = b /\ string_le s t).
Proof.
  unfold string_le, String.leb. cbn [String.compare].
  destruct (Ascii.compare a b) eqn:Hc.
  - apply Ascii.compare_eq_iff in Hc as ->. split; [auto|]. intros [?|[_ ?]]; [lia|done].
  - apply N.compare_lt_iff in Hc. split; [auto|done].
  - apply N.compare_gt_iff in Hc. split; [done|]. intros [?|[-> _]]; lia.
Qed.

#[export] Instance string_le_total : Total string_le.
Proof. intros a b. apply String.leb_total. Qed.

#[export] Instance string_le_trans : Transitive string_le.
Proof.
  intros a. induction a as [|x a IH]; intros [|y b] [|z c]; try done.
  rewrite !string_le_cons. intros [?|[-> ?]] [?|[-> ?]]; [left; lia|by left|by left|right; eauto].
Qed.

#[export] Instance string_le_antisymm : AntiSymm (=) string_le.
Proof. intros a b. apply String.leb_antisym. Qed.
