(* ===== verification/GoErrors.v ===== *)
(** * Errors (pkg/errors, and the error values of the rest of the program)

    The error tree the program builds with [errors.New], [fmt.Errorf] and its
    own error types; [errors.Is] over it; the thread-safe [ErrorList]; and the
    result monad used for Go's [(value, error)] returns. *)

From S2P Require Import Prelude.

(** Errors compared by identity in the program. *)
Inductive sentinel :=
| SCritical        (* errors.ErrCritical *)
| SEmptyFile.      (* config.ErrorEmptyFile *)

#[export] Instance sentinel_eq_dec : EqDecision sentinel.
Proof. solve_decision. Defined.

(** [AErr] is an error printed by [%v] or [%s]; [AWrap] one printed by [%w],
    which [errors.Is] can reach. *)
Inductive error :=
| Sentinel (s : sentinel)
| Errorf (format : string) (args : list errarg)
| FieldError (kind : string) (path : string) (detail : string)
| MetricViolation (metric reason : string)
| KeyNotFound (key : string)
| External (tag : string)
| ListError (errs : list error)
with errarg :=
| AStr (s : string)
| AInt (z : Z)
| AErr (e : error)
| AWrap (e : error).

(** [err.Error()]. The errors of package [field] do not keep the offending value,
    which the text of an invalid one shows between its kind and its detail. *)
Definition join (sep : string) (l : list string) : string :=
  match l with
  | [] => ""
  | x :: l' => fold_left (fun acc y => acc +:+ sep +:+ y) l' x
  end.

Definition newline : string := String (ascii_of_nat 10) "".

Fixpoint Error (e : error) : string :=
  let render (a : errarg) : fmtarg :=
    match a with
    | AStr s => FStr s
    | AInt z => FInt z
    | AErr e' | AWrap e' => FStr (Error e')
    end in
  match e with
  | Sentinel SCritical => "criticl error"
  | Sentinel SEmptyFile => "emptyfile"
  | Errorf f args => Sprintf f (map render args)
  | FieldError kind path detail => path +:+ ": " +:+ kind +:+ ": " +:+ detail
  | MetricViolation m r => m +:+ ": " +:+ r
  | KeyNotFound k => Sprintf "key %s not found" [FStr k]
  | External t => t
  | ListError errs => "[" +:+ join newline (map Error errs) +:+ "]"
  end.

(** [errors.Is(err, target)] for a sentinel target: identity, or any error
    reachable through [%w]. [ErrorList] and the typed errors have no [Unwrap]. *)
Fixpoint Is (e : error) (t : sentinel) : bool :=
  match e with
  | Sentinel s => bool_decide (s = t)
  | Errorf _ args =>
      existsb (fun a => match a with AWrap e' => Is e' t | _ => false end) args
  | _ => false
  end.

Definition ErrCritical : error := Sentinel SCritical.
Definition ErrorEmptyFile : error := Sentinel SEmptyFile.

Definition NewErrCritical (err : error) : error :=
  Errorf "%w: %w" [AWrap ErrCritical; AWrap err].

Definition NewMetricViolationError (metric reason : string) : error :=
  MetricViolation metric reason.

Definition IsMetricViolationError (err : error) : bool :=
  match err with MetricViolation _ _ => true | _ => false end.

(** ** ErrorList

    The list is guarded by its mutex in every mutating method, so an execution
    is a sequence of these calls. A nil pointer is [None]. *)
Record ErrorList := mkErrorList { errors : list error }.

Definition NewErrorList (errs : list error) : ErrorList := mkErrorList errs.

Definition IsEmpty (e : ErrorList) : bool :=
  match errors e with [] => true | _ => false end.

Definition Append (e : ErrorList) (errs : list error) : ErrorList :=
  mkErrorList (errors e ++ errs).

Definition Concat (e : ErrorList) (e2 : option ErrorList) : ErrorList :=
  match e2 with
  | None => e
  | Some e2 => mkErrorList (errors e ++ errors e2)
  end.

Fixpoint has_loop (errs : list error) (target : sentinel) : bool :=
  match errs with
  | [] => false
  | err :: errs' => if Is err target then true else has_loop errs' target
  end.

Definition Has (e : ErrorList) (target : sentinel) : bool := has_loop (errors e) target.

(** The loop of [String]: a newline after every error but the last. *)
Fixpoint string_loop (errs : list error) : string :=
  match errs with
  | [] => ""
  | [err] => Error err
  | err :: errs' => Error err +:+ newline +:+ string_loop errs'
  end.

Definition ErrorList_String (e : ErrorList) : string :=
  "[" +:+ string_loop (errors e) +:+ "]".

(** ** Results *)
Inductive result (A : Type) :=
| Ok (a : A)
| Err (e : error).
Arguments Ok {_} _.
Arguments Err {_} _.

#[export] Instance result_ret : MRet result := fun A a => Ok a.
#[export] Instance result_bind : MBind result := fun A B f r =>
  match r with Ok a => f a | Err e => Err e end.
#[export] Instance result_fmap : FMap result := fun A B f r =>
  match r with Ok a => Ok (f a) | Err e => Err e end.

Definition is_ok {A} (r : result A) : bool := match r with Ok _ => true | Err _ => false end.

(** Take apart a successful or failing computation in a hypothesis. *)
Ltac destruct_result H :=
  match type of H with
  | match ?m with Ok _ => _ | Err _ => _ end = _ =>
      let E := fresh "E" in destruct m eqn:E; simplify_eq
  end.

(** ** Facts *)

Lemma existsb_Exists {A} (f : A -> bool) l : existsb f l = true <-> Exists (fun x => f x = true) l.
Proof. rewrite existsb_exists, Exists_exists. setoid_rewrite list_elem_of_In. done. Qed.

Lemma has_loop_existsb errs t : has_loop errs t = existsb (fun e => Is e t) errs.
Proof. induction errs as [|e errs IH]; [done|]. cbn. rewrite IH. by destruct (Is e t). Qed.

Lemma Has_true_iff e t : Has e t = true <-> Exists (fun err => Is err t = true) (errors e).
Proof. unfold Has. rewrite has_loop_existsb. apply existsb_Exists. Qed.

Lemma Has_app l1 l2 t :
  Has (mkErrorList (l1 ++ l2)) t = Has (mkErrorList l1) t || Has (mkErrorList l2) t.
Proof. unfold Has. cbn. rewrite !has_loop_existsb. apply existsb_app. Qed.

Lemma IsEmpty_true_iff e : IsEmpty e = true <-> errors e = [].
Proof. unfold IsEmpty. by destruct (errors e). Qed.

Lemma IsEmpty_app l1 l2 :
  IsEmpty (mkErrorList (l1 ++ l2)) = IsEmpty (mkErrorList l1) && IsEmpty (mkErrorList l2).
Proof. by destruct l1, l2. Qed.

(** Appends from different goroutines may arrive in any order: lists equal up
    to the order of their errors. *)
Definition errs_equiv (e1 e2 : ErrorList) : Prop := errors e1 ≡ₚ errors e2.

#[export] Instance errs_equiv_equiv : Equivalence errs_equiv.
Proof.
  unfold errs_equiv. split; red; [done|by symmetry|intros; by etrans].
Qed.

#[export] Instance Has_proper : Proper (errs_equiv ==> eq ==> eq) Has.
Proof.
  intros e1 e2 He t ? <-. apply eq_true_iff_eq. rewrite !Has_true_iff, !Exists_exists.
  unfold errs_equiv in He. by setoid_rewrite He.
Qed.

#[export] Instance IsEmpty_proper : Proper (errs_equiv ==> eq) IsEmpty.
Proof.
  intros e1 e2 He. apply eq_true_iff_eq. rewrite !IsEmpty_true_iff. unfold errs_equiv in He.
  split; intros H; rewrite H in He; [by apply Permutation_nil_l in He|by apply Permutation_nil_r in He].
Qed.

#[export] Instance Concat_proper : Proper (errs_equiv ==> eq ==> errs_equiv) Concat.
Proof.
  intros e1 e2 He [e|] ? <-; [|done]. unfold errs_equiv in *. cbn. by rewrite He.
Qed.

Lemma Is_wrapped e t f pre post :
  Is e t = true -> Is (Errorf f (pre ++ AWrap e :: post)) t = true.
Proof. intros H. cbn. rewrite existsb_app. cbn. rewrite H. by rewrite orb_true_r. Qed.

Create HintDb golist.
#[export] Hint Rewrite @Has_app @IsEmpty_app @length_app @length_fmap : golist.

(** [NewErrCritical] and every [%w] wrapper around it stay critical. *)
Lemma NewErrCritical_critical err : Is (NewErrCritical err) SCritical = true.
Proof. done. Qed.
#[export] Hint Resolve NewErrCritical_critical Is_wrapped : golist.

(** What a call ends with: a value, a returned error, or a run-time panic. *)
Inductive outcome (A : Type) :=
| Returns (a : A)
| Fails (e : error)
| Panics.
Arguments Returns {_} _.
Arguments Fails {_} _.
Arguments Panics {_}.

#[export] Instance outcome_bind : MBind outcome := fun A B f o =>
  match o with Returns a => f a | Fails e => Fails e | Panics => Panics end.
