(* ===== verification/GoRuntime.v ===== *)
(** * The Go runtime and client-go's work queue, as far as the measurements see them

    Map iteration order, channels that are closed to stop a goroutine, and
    client-go's work queue with its documented behaviour, which also carries
    the program's worker queue
    (pkg/measurement/util/workerqueue/workerqueue.go). *)

From S2P Require Import Prelude.

(** Go ranges over a map in any order; [loop] tells loop executions apart. *)
Class MapRange := {
  range : forall {V : Type}, string -> gmap string V -> list (string * V);
  range_perm : forall (V : Type) loop (m : gmap string V), range loop m ≡ₚ map_to_list m;
}.

Lemma range_NoDup_fst `{MapRange} {V} loop (m : gmap string V) : NoDup (range loop m).*1.
Proof. rewrite range_perm. apply NoDup_fst_map_to_list. Qed.

Lemma range_to_map `{MapRange} {V} loop (m : gmap string V) : list_to_map (range loop m) = m.
Proof. rewrite (list_to_map_proper _ (map_to_list m)); [apply list_to_map_to_list|apply range_NoDup_fst|apply range_perm]. Qed.

Lemma elem_of_range `{MapRange} {V} loop (m : gmap string V) k v : (k, v) ∈ range loop m <-> m !! k = Some v.
Proof. rewrite range_perm. apply elem_of_map_to_list. Qed.

(** client-go's [workqueue]: items are handed out in order; [ShutDown] makes
    the queue ignore new items, and [Get] reports the end once the items
    already queued are consumed. [Get] on an empty live queue blocks. *)
Inductive get_result (A Q : Type) :=
| Blocks
| Quit
| Item (a : A) (q : Q).
Arguments Blocks {_ _}.
Arguments Quit {_ _}.
Arguments Item {_ _} _ _.

Class WorkQueue (A : Type) := {
  queue : Type;
  NewTyped : queue;
  queue_Add : queue -> A -> queue;
  queue_ShutDown : queue -> queue;
  queue_Get : queue -> get_result A queue;
  pending : queue -> list A;
  shutting_down : queue -> bool;
  NewTyped_spec : pending NewTyped = [] /\ shutting_down NewTyped = false;
  Add_spec : forall q a, shutting_down (queue_Add q a) = shutting_down q /\
    pending (queue_Add q a) = if shutting_down q then pending q else pending q ++ [a];
  ShutDown_spec : forall q, shutting_down (queue_ShutDown q) = true /\
    pending (queue_ShutDown q) = pending q;
  Get_spec : forall q, match queue_Get q with
    | Blocks => pending q = [] /\ shutting_down q = false
    | Quit => pending q = [] /\ shutting_down q = true
    | Item a q' => pending q = a :: pending q' /\ shutting_down q' = shutting_down q
    end;
}.

(** [stopCh]: nil, or a channel that is open or closed. *)
Inductive chan_state := ChanNil | ChanOpen | ChanClosed.

(** ** workerqueue.go: functions run by workers *)

Section WorkerQueue.
Context {F : Type} {WQ : WorkQueue F}.

(** The queue and the number of workers; the functions are their own codes. *)
Record WorkerQueue := mkWorkerQueue { wq_queue : queue; wq_workers : Z }.

Definition NewWorkerQueue (size : Z) : WorkerQueue := mkWorkerQueue NewTyped (Z.max 0 size).

Definition WorkerQueue_Add (wq : WorkerQueue) (f : F) : WorkerQueue :=
  mkWorkerQueue (queue_Add (wq_queue wq) f) (wq_workers wq).

Section Worker.
Context {S : Type} (run : F -> S -> S).

(** One iteration of [worker]: [None] while it blocks, otherwise whether it
    goes on. *)
Definition worker_step (wq : WorkerQueue) (s : S) : option (bool * WorkerQueue * S) :=
  match queue_Get (wq_queue wq) with
  | Blocks => None
  | Quit => Some (false, wq, s)
  | Item f q => Some (true, mkWorkerQueue q (wq_workers wq), run f s)
  end.

(** A single worker, run until it blocks or quits. *)
Fixpoint worker (fuel : nat) (wq : WorkerQueue) (s : S) : WorkerQueue * S :=
  match fuel with
  | O => (wq, s)
  | Datatypes.S fuel' =>
      match worker_step wq s with
      | Some (true, wq', s') => worker fuel' wq' s'
      | _ => (wq, s)
      end
  end.

(** [Stop] shuts the queue down and waits for the worker, which first runs
    everything already queued. *)
Definition WorkerQueue_Stop (wq : WorkerQueue) (s : S) : WorkerQueue * S :=
  let wq := mkWorkerQueue (queue_ShutDown (wq_queue wq)) (wq_workers wq) in
  worker (length (pending (wq_queue wq))) wq s.

(** A worker runs the queued functions in order. *)
Lemma worker_drains fuel wq s :
  (length (pending (wq_queue wq)) <= fuel)%nat ->
  exists wq', worker fuel wq s = (wq', fold_left (fun s f => run f s) (pending (wq_queue wq)) s) /\
    pending (wq_queue wq') = [] /\ shutting_down (wq_queue wq') = shutting_down (wq_queue wq).
Proof.
  revert wq s. induction fuel as [|fuel IH]; intros wq s Hlen.
  { destruct (pending (wq_queue wq)) eqn:Hp; cbn in Hlen; [|lia]. by exists wq. }
  cbn [worker]. unfold worker_step. pose proof (Get_spec (wq_queue wq)) as Hg.
  destruct (queue_Get (wq_queue wq)) as [| |f q].
  - destruct Hg as [Hp _]. exists wq. by rewrite Hp.
  - destruct Hg as [Hp _]. exists wq. by rewrite Hp.
  - destruct Hg as [Hp Hd]. rewrite Hp in Hlen |- *. cbn in Hlen.
    destruct (IH (mkWorkerQueue q (wq_workers wq)) (run f s)) as (wq' & -> & H1 & H2); [cbn; lia|].
    exists wq'. cbn in *. split; [done|]. split; [done|]. congruence.
Qed.

Lemma WorkerQueue_Stop_drains wq s :
  exists wq', WorkerQueue_Stop wq s = (wq', fold_left (fun s f => run f s) (pending (wq_queue wq)) s) /\
    pending (wq_queue wq') = [] /\ shutting_down (wq_queue wq') = true.
Proof.
  unfold WorkerQueue_Stop. cbn [wq_queue]. destruct (ShutDown_spec (wq_queue wq)) as [Hd Hp].
  destruct (worker_drains (length (pending (queue_ShutDown (wq_queue wq))))
    (mkWorkerQueue (queue_ShutDown (wq_queue wq)) (wq_workers wq)) s) as (wq' & -> & H1 & H2); [done|].
  exists wq'. cbn in *. rewrite Hp. split; [done|]. split; [done|]. congruence.
Qed.
End Worker.
End WorkerQueue.

(** ** A handler behind a queue

    An informer adds items while a worker takes them and runs a handler on the
    state, in any interleaving; [qsteps] collects what was added. *)

Section QueueRun.
Context {A T : Type} {WQ : WorkQueue A} (handle : T -> A -> T).

(** One call of the worker's loop body; [None] while it blocks. *)
Definition work_next (qs : queue * T) : option (bool * (queue * T)) :=
  match queue_Get qs.1 with
  | Blocks => None
  | Quit => Some (false, qs)
  | Item a q => Some (true, (q, handle qs.2 a))
  end.

Inductive qsteps : queue * T -> list A -> queue * T -> Prop :=
| qsteps_refl qs : qsteps qs [] qs
| qsteps_add q s a added qs' : qsteps (queue_Add q a, s) added qs' -> qsteps (q, s) (a :: added) qs'
| qsteps_work qs qs1 added qs' : work_next qs = Some (true, qs1) -> qsteps qs1 added qs' -> qsteps qs added qs'.

(** With a live queue nothing is lost or reordered. *)
Lemma qsteps_live qs added qs' :
  qsteps qs added qs' -> shutting_down qs.1 = false ->
  exists processed, processed ++ pending qs'.1 = pending qs.1 ++ added /\
    qs'.2 = fold_left handle processed qs.2 /\ shutting_down qs'.1 = false.
Proof.
  induction 1 as [qs|q s a added qs' _ IH|qs qs1 added qs' Hw _ IH]; intros Hd.
  - exists []. by rewrite app_nil_r.
  - destruct (Add_spec q a) as [Hd' Hp]. cbn in Hd. rewrite Hd in Hp, Hd'.
    destruct (IH Hd') as (pr & Hpr & Hs & Hl). exists pr. cbn in *. rewrite Hp, <- app_assoc in Hpr. done.
  - unfold work_next in Hw. pose proof (Get_spec qs.1) as Hg.
    destruct (queue_Get qs.1) as [| |a q]; [done..|]. injection Hw as <-. destruct Hg as [Hp Hq]. cbn in IH.
    destruct (IH ltac:(congruence)) as (pr & Hpr & Hs & Hl). exists (a :: pr).
    split_and!; [by rewrite Hp, <- app_comm_cons, Hpr|done|done].
Qed.

(** A queue that is shut down takes nothing any more. *)
Lemma qsteps_dead qs added qs' :
  qsteps qs added qs' -> shutting_down qs.1 = true ->
  exists processed, processed ++ pending qs'.1 = pending qs.1 /\ qs'.2 = fold_left handle processed qs.2.
Proof.
  induction 1 as [qs|q s a added qs' _ IH|qs qs1 added qs' Hw _ IH]; intros Hd.
  - by exists [].
  - destruct (Add_spec q a) as [Hd' Hp]. cbn in Hd. rewrite Hd in Hp, Hd'.
    destruct (IH Hd') as (pr & Hpr & Hs). exists pr. cbn in *. by rewrite Hp in Hpr.
  - unfold work_next in Hw. pose proof (Get_spec qs.1) as Hg.
    destruct (queue_Get qs.1) as [| |a q]; [done..|]. injection Hw as <-. destruct Hg as [Hp Hq]. cbn in IH.
    destruct (IH ltac:(congruence)) as (pr & Hpr & Hs). exists (a :: pr).
    split; [by rewrite Hp, <- app_comm_cons, Hpr|done].
Qed.
End QueueRun.

(** ** Instances for witnesses *)

(** A queue that meets the interface. *)
#[local, refine] Instance list_queue (A : Type) : WorkQueue A := {|
  queue := list A * bool;
  NewTyped := ([], false);
  queue_Add q a := if q.2 then q else (q.1 ++ [a], false);
  queue_ShutDown q := (q.1, true);
  queue_Get q := match q.1 with
                 | a :: l => Item a (l, q.2)
                 | [] => if q.2 then Quit else Blocks
                 end;
  pending q := q.1;
  shutting_down q := q.2;
  NewTyped_spec := _;
  Add_spec := _;
  ShutDown_spec := _;
  Get_spec := _;
|}.
Proof.
  - done.
  - intros [l []] a; done.
  - intros [l b]; done.
  - intros [[|a l] []]; done.
Defined.

#[local] Instance list_range : MapRange := {
  range V loop m := map_to_list m;
  range_perm V loop m := Permutation_refl _;
}.
