(* ===== verification/Params.v ===== *)
(** * Parameter maps and durations (pkg/util/util.go, api/extensions.go)

    [map[string]interface{}] values and the typed getters every measurement
    reads its parameters with, map copying, and [time.ParseDuration]. *)

From S2P Require Import Prelude GoErrors.
From Stdlib Require Import SpecFloat.

(** A Go [interface{}] as decoded from YAML or JSON, or built by the program.
    A map's values are stored under its keys. *)
Inductive value :=
| VNil
| VInt (z : Z)
| VInt64 (z : Z)
| VInt32 (z : Z)
| VUint (z : Z)
| VUint64 (z : Z)
| VUint32 (z : Z)
| VFloat64 (f : float64)
| VFloat32 (f : float64)
| VBool (b : bool)
| VString (s : string)
| VMap (m : gmap string value)
| VSlice (l : list value).

Abbreviation params := (gmap string value).

(** What the getters use of [strconv] and [fmt] beyond the prelude: the value
    and error of [ParseFloat(s, 64)], and the [%v] rendering of a value. *)
Class GoLib := {
  ParseFloat : string -> float64 * option error;
  Sprint : value -> string;
}.

(** ** time.ParseDuration *)
Module Duration.

Definition is_digit_or_dot (a : ascii) : bool := is_digit a || Ascii.eqb a "."%char.

(** [leadingInt]: the leading digits, or [None] past 2^63. *)
Fixpoint leadingInt (x : Z) (s : string) : option (Z * string) :=
  match s with
  | String a s' =>
      if is_digit a then
        if 2 ^ 63 / 10 <? x then None
        else let x' := x * 10 + digit_value a in
             if 2 ^ 63 <? x' then None else leadingInt x' s'
      else Some (x, s)
  | EmptyString => Some (x, s)
  end.

(** [leadingFraction]: digits past the precision limit are dropped. *)
Fixpoint leadingFraction (x : Z) (scale : float64) (overflow : bool) (s : string)
  : Z * float64 * string :=
  match s with
  | String a s' =>
      if is_digit a then
        if overflow then leadingFraction x scale true s'
        else if (2 ^ 63 - 1) / 10 <? x then leadingFraction x scale true s'
        else let y := x * 10 + digit_value a in
             if 2 ^ 63 <? y then leadingFraction x scale true s'
             else leadingFraction y (f64_mul scale (f64_of_Z 10)) false s'
      else (x, scale, s)
  | EmptyString => (x, scale, s)
  end.

(** The unit: everything up to the next digit or dot. *)
Fixpoint span_unit (s : string) : string * string :=
  match s with
  | String a s' =>
      if is_digit_or_dot a then ("", s)
      else let '(u, r) := span_unit s' in (String a u, r)
  | EmptyString => ("", "")
  end.

Definition Nanosecond : Z := 1.
Definition Microsecond : Z := 1000 * Nanosecond.
Definition Millisecond : Z := 1000 * Microsecond.
Definition Second : Z := 1000 * Millisecond.
Definition Minute : Z := 60 * Second.
Definition Hour : Z := 60 * Minute.

Definition byte (n : nat) : ascii := ascii_of_nat n.

Definition unitMap (u : string) : option Z :=
  if String.eqb u "ns" then Some Nanosecond
  else if String.eqb u "us" then Some Microsecond
  else if String.eqb u (String (byte 194) (String (byte 181) "s")) then Some Microsecond
  else if String.eqb u (String (byte 206) (String (byte 188) "s")) then Some Microsecond
  else if String.eqb u "ms" then Some Millisecond
  else if String.eqb u "s" then Some Second
  else if String.eqb u "m" then Some Minute
  else if String.eqb u "h" then Some Hour
  else None.

(** One [number unit] group: its value in nanoseconds and the rest. *)
Definition parse_group (s : string) : option (Z * string) :=
  match s with
  | EmptyString => None
  | String a _ =>
      if negb (is_digit_or_dot a) then None
      else
        '(v, s1) ← leadingInt 0 s;
        let pre := negb (Nat.eqb (String.length s) (String.length s1)) in
        let '(f, scale, s2, post) :=
          match s1 with
          | String c t =>
              if Ascii.eqb c "."%char then
                let '(f, scale, t') := leadingFraction 0 (f64_of_Z 1) false t in
                (f, scale, t', negb (Nat.eqb (String.length t) (String.length t')))
              else (0, f64_of_Z 1, s1, false)
          | EmptyString => (0, f64_of_Z 1, s1, false)
          end in
        if negb pre && negb post then None
        else
          let '(u, rest) := span_unit s2 in
          if String.eqb u "" then None
          else
            unit ← unitMap u;
            if 2 ^ 63 / unit <? v then None
            else
              let v' := v * unit in
              let v'' := if 0 <? f
                         then v' + f64_to_int (f64_mul (f64_of_Z f) (f64_div (f64_of_Z unit) scale))
                         else v' in
              if 2 ^ 63 <? v'' then None else Some (v'', rest)
  end.

(** The group loop; every group consumes a character, so the length of the
    string is enough fuel. *)
Fixpoint parse_groups (fuel : nat) (d : Z) (s : string) : option Z :=
  match s with
  | EmptyString => Some d
  | _ =>
      match fuel with
      | O => None
      | S fuel' =>
          '(v, rest) ← parse_group s;
          if 2 ^ 63 <? d + v then None else parse_groups fuel' (d + v) rest
      end
  end.

Definition ParseDuration (orig : string) : result Z :=
  let invalid := Err (Errorf "time: invalid duration %q" [AStr orig]) in
  let '(neg, s) :=
    match orig with
    | String a s' =>
        if Ascii.eqb a "-"%char then (true, s')
        else if Ascii.eqb a "+"%char then (false, s')
        else (false, orig)
    | EmptyString => (false, orig)
    end in
  if String.eqb s "0" then Ok 0
  else if String.eqb s "" then invalid
  else match parse_groups (String.length s) 0 s with
       | None => invalid
       | Some d =>
           if neg then Ok (- d)
           else if 2 ^ 63 - 1 <? d then invalid else Ok d
       end.

Example parse_1h2m3s : ParseDuration "1h2m3.5s" = Ok 3723500000000.
Proof. vm_compute. reflexivity. Qed.
Example parse_bad_unit : is_ok (ParseDuration "10x") = false.
Proof. reflexivity. Qed.
Example parse_neg : ParseDuration "-1.5h" = Ok (-5400000000000).
Proof. vm_compute. reflexivity. Qed.

End Duration.

(** ** Getters *)
Section Getters.
Context `{GoLib}.

Definition IsErrKeyNotFound (err : option error) : bool :=
  match err with Some (KeyNotFound _) => true | _ => false end.

(** Go returns a pair: the value is meaningful even next to an error, and
    [OrDefault] inspects only the error. *)
Definition getString (dict : params) (key : string) : string * option error :=
  match dict !! key with
  | None | Some VNil => ("", Some (KeyNotFound key))
  | Some (VString s) => (s, None)
  | Some v => ("", Some (Errorf "type assertion error: %v is not a string" [AStr (Sprint v)]))
  end.

Definition getInt (dict : params) (key : string) : Z * option error :=
  match dict !! key with
  | None => (0, Some (KeyNotFound key))
  | Some v =>
      let fail := (0, Some (Errorf "type assertion error: %v is not an int" [AStr (Sprint v)])) in
      match v with
      | VInt i => (i, None)
      | VFloat64 f => (f64_to_int f, None)
      | VString s =>
          match Atoi s with
          | inr i => (i, None)      (* err != nil *)
          | inl _ => fail
          end
      | _ => fail
      end
  end.

Definition getFloat64 (dict : params) (key : string) : float64 * option error :=
  match dict !! key with
  | None => (S754_zero false, Some (KeyNotFound key))
  | Some v =>
      let fail := (S754_zero false,
                   Some (Errorf "type assertion error: %v is not a float" [AStr (Sprint v)])) in
      match v with
      | VFloat64 f => (f, None)
      | VString s =>
          match ParseFloat s with
          | (f, Some _) => (f, None)      (* err != nil *)
          | (_, None) => fail
          end
      | _ => fail
      end
  end.

Definition getBool (dict : params) (key : string) : bool * option error :=
  match dict !! key with
  | None => (false, Some (KeyNotFound key))
  | Some v =>
      let fail := (false, Some (Errorf "type assertion error: %v is not a bool" [AStr (Sprint v)])) in
      match v with
      | VBool b => (b, None)
      | VString s =>
          match ParseBool s with
          | None => (false, None)      (* err != nil *)
          | Some _ => fail
          end
      | _ => fail
      end
  end.

Definition getDuration (dict : params) (key : string) : Z * option error :=
  match getString dict key with
  | (_, Some err) => (0, Some err)
  | (durationString, None) =>
      match Duration.ParseDuration durationString with
      | Err err => (0, Some (Errorf "parsing duration error: %v" [AErr err]))
      | Ok duration => (duration, None)
      end
  end.

Definition getMap (dict : params) (key : string) : option params * option error :=
  match dict !! key with
  | None | Some VNil => (None, Some (KeyNotFound key))
  | Some (VMap m) => (Some m, None)
  | Some v => (None, Some (Errorf "type assertion error: %v is not a map" [AStr (Sprint v)]))
  end.

Fixpoint map_array_loop (l : list value) (res : list params) : list params * option error :=
  match l with
  | [] => (res, None)
  | VMap m :: l' => map_array_loop l' (res ++ [m])
  | v :: _ => ([], Some (Errorf "type assertion error: %v is not a map" [AStr (Sprint v)]))
  end.

Definition getMapArray (dict : params) (key : string) : list params * option error :=
  match dict !! key with
  | None | Some VNil => ([], Some (KeyNotFound key))
  | Some (VSlice l) => map_array_loop l []
  | Some v => ([], Some (Errorf "type assertion error: %v is not a []map" [AStr (Sprint v)]))
  end.

Definition getStringArray (dict : params) (key : string) : list string * option error :=
  match dict !! key with
  | None | Some VNil => ([], Some (KeyNotFound key))
  | Some (VSlice l) => (map Sprint l, None)
  | Some v => ([], Some (Errorf "type assertion error: %v is not a slice" [AStr (Sprint v)]))
  end.

(** [labels.Parse] belongs to apimachinery. *)
Definition getLabelSelector {Selector : Type} (labels_Parse : string -> result Selector)
  (dict : params) (key : string) : option Selector * option error :=
  match getString dict key with
  | (_, Some err) => (None, Some err)
  | (v, None) =>
      match labels_Parse v with
      | Err err => (None, Some err)
      | Ok selector => (Some selector, None)
      end
  end.

(** The shape shared by all five [Get<T>OrDefault]. *)
Definition orDefault {A} (r : A * option error) (defaultValue : A) : A * option error :=
  let '(v, err) := r in
  if IsErrKeyNotFound err then (defaultValue, None) else (v, err).

Definition GetStringOrDefault dict key d := orDefault (getString dict key) d.
Definition GetIntOrDefault dict key d := orDefault (getInt dict key) d.
Definition GetFloat64OrDefault dict key d := orDefault (getFloat64 dict key) d.
Definition GetDurationOrDefault dict key d := orDefault (getDuration dict key) d.
Definition GetBoolOrDefault dict key d := orDefault (getBool dict key) d.

End Getters.

(** ** Maps

    Go iterates a map in an arbitrary order; the entries are given as a list. *)
Definition CopyMap_entries (entries : list (string * value)) (dest : params) : params :=
  fold_left (fun d kv => <[kv.1 := kv.2]> d) entries dest.

Definition CopyMap (src dest : params) : params := CopyMap_entries (map_to_list src) dest.

Definition CloneMap (src : params) : params := CopyMap src ∅.

Definition dns1123_characters : list ascii :=
  String.list_ascii_of_string "abcdefghijklmnopqrstuvwxyz0123456789".

(** [rand.Intn(36)] draws, one per position. *)
Definition RandomDNS1123String (draw : nat -> nat) (len : nat) : string :=
  String.string_of_list_ascii
    (map (fun i => nth (draw i mod 36)%nat dns1123_characters "a"%char) (seq 0 len)).

(** ** Object selectors (pkg/util/selector.go) *)
Record ObjectSelector := mkObjectSelector {
  sel_Namespace : string;
  sel_LabelSelector : string;
  sel_FieldSelector : string;
}.

Definition NamespaceAll : string := "".

Definition NewObjectSelector : ObjectSelector := mkObjectSelector NamespaceAll "" "".

(** [Parse] assigns each field before checking its error, so a failure leaves
    the fields read so far (and the zero value of the failing one) behind. *)
Definition Parse `{GoLib} (o : ObjectSelector) (p : params) : ObjectSelector * option error :=
  let '(ns, err) := GetStringOrDefault p "namespace" NamespaceAll in
  let o1 := mkObjectSelector ns (sel_LabelSelector o) (sel_FieldSelector o) in
  match err with
  | Some _ => (o1, err)
  | None =>
      let '(ls, err) := GetStringOrDefault p "labelSelector" "" in
      let o2 := mkObjectSelector ns ls (sel_FieldSelector o) in
      match err with
      | Some _ => (o2, err)
      | None =>
          let '(fs, err) := GetStringOrDefault p "fieldSelector" "" in
          (mkObjectSelector ns ls fs, err)
      end
  end.

Definition CreateSelectorsString (namespace labelSelector fieldSelector : string) : string :=
  let l := (if String.eqb namespace NamespaceAll then []
            else [Sprintf "namespace(%s)" [FStr namespace]])
        ++ (if String.eqb labelSelector "" then []
            else [Sprintf "labelSelector(%s)" [FStr labelSelector]])
        ++ (if String.eqb fieldSelector "" then []
            else [Sprintf "fieldSelector(%s)" [FStr fieldSelector]]) in
  match l with
  | [] => "everything"
  | _ => join ", " l
  end.

Definition ObjectSelector_String (o : ObjectSelector) : string :=
  CreateSelectorsString (sel_Namespace o) (sel_LabelSelector o) (sel_FieldSelector o).

(** ** Properties *)

Lemma CopyMap_entries_lookup entries dest k :
  NoDup entries.*1 ->
  CopyMap_entries entries dest !! k =
    match (list_to_map entries : params) !! k with Some v => Some v | None => dest !! k end.
Proof.
  revert dest. induction entries as [|[k' v] entries IH]; intros dest Hnd.
  - done.
  - apply NoDup_cons in Hnd as [Hni Hnd]. cbn. rewrite IH by done.
    destruct (decide (k = k')) as [->|Hne].
    + rewrite not_elem_of_list_to_map_1 by done. by rewrite !lookup_insert_eq.
    + by rewrite !(lookup_insert_ne _ k' k) by done.
Qed.

Lemma CopyMap_any_order src dest entries :
  entries ≡ₚ map_to_list src -> CopyMap_entries entries dest = src ∪ dest.
Proof.
  intros Hp. apply map_eq. intros k. rewrite lookup_union.
  assert (NoDup entries.*1) as Hnd by (rewrite Hp; apply NoDup_fst_map_to_list).
  rewrite CopyMap_entries_lookup by done.
  rewrite (list_to_map_proper entries (map_to_list src)) by done.
  rewrite list_to_map_to_list. by destruct (src !! k), (dest !! k).
Qed.

Lemma CopyMap_union src dest : CopyMap src dest = src ∪ dest.
Proof. by apply CopyMap_any_order. Qed.

Lemma CloneMap_id src : CloneMap src = src.
Proof. unfold CloneMap. rewrite CopyMap_union. apply (right_id_L ∅ (∪)). Qed.

(** a parameter given as a string is decoded the wrong way round. [getInt],
    [getBool] and [getFloat64] test [err != nil] after [strconv], so a string
    that parses is rejected with a type assertion error, and a string that does
    not parse is accepted with the value [strconv] returns next to its error. *)
Theorem string_params_inverted `{GoLib} (dict : params) key s :
  dict !! key = Some (VString s) ->
  (forall i, Atoi s = inl i -> exists e, getInt dict key = (0, Some e) /\ IsErrKeyNotFound (Some e) = false) /\
  (forall i, Atoi s = inr i -> getInt dict key = (i, None)) /\
  (forall b, ParseBool s = Some b ->
     exists e, getBool dict key = (false, Some e) /\ IsErrKeyNotFound (Some e) = false) /\
  (ParseBool s = None -> getBool dict key = (false, None)) /\
  (forall f, ParseFloat s = (f, None) ->
     exists e, getFloat64 dict key = (S754_zero false, Some e) /\ IsErrKeyNotFound (Some e) = false) /\
  (forall f e, ParseFloat s = (f, Some e) -> getFloat64 dict key = (f, None)).
Proof.
  intros Hk. unfold getInt, getBool, getFloat64. rewrite Hk.
  repeat split.
  all: intros; simplify_eq; repeat case_match; simplify_eq; eauto.
Qed.

(** A [GoLib] on which examples compute. *)
Definition sample_golib : GoLib := {|
  ParseFloat := fun s => if String.eqb s "1.5" then (S754_finite false 3 (-1), None)
                         else (S754_zero false, Some (External "invalid syntax"));
  Sprint := fun v => match v with VString s => s | _ => "?" end;
|}.

Lemma string_params_inverted_witness :
  (@getInt sample_golib {["n" := VString "100"]} "n").1 = 0 /\
  (exists e, @getInt sample_golib {["n" := VString "100"]} "n" = (0, Some e)
             /\ IsErrKeyNotFound (Some e) = false).
Proof.
  split; [reflexivity|].
  apply (@string_params_inverted sample_golib {["n" := VString "100"]} "n" "100"
           (lookup_singleton_eq "n" (VString "100"))) with (i := 100).
  reflexivity.
Defined.

(** A missing key takes the default in every [OrDefault] getter; an explicit
    null takes it only in the string-based getters and is a type error in the
    int, float and bool ones; an error other than a missing key is never
    replaced by the default. *)
Theorem default_only_for_missing_key `{GoLib} (dict : params) key :
  (forall i f b s d,
     dict !! key = None ->
     GetIntOrDefault dict key i = (i, None) /\ GetFloat64OrDefault dict key f = (f, None) /\
     GetBoolOrDefault dict key b = (b, None) /\ GetStringOrDefault dict key s = (s, None) /\
     GetDurationOrDefault dict key d = (d, None)) /\
  (forall i f b s d,
     dict !! key = Some VNil ->
     GetStringOrDefault dict key s = (s, None) /\ GetDurationOrDefault dict key d = (d, None) /\
     is_Some (GetIntOrDefault dict key i).2 /\ is_Some (GetFloat64OrDefault dict key f).2 /\
     is_Some (GetBoolOrDefault dict key b).2) /\
  (forall A (r : A * option error) d e,
     r.2 = Some e -> IsErrKeyNotFound (Some e) = false -> orDefault r d = r).
Proof.
  unfold GetIntOrDefault, GetFloat64OrDefault, GetBoolOrDefault, GetStringOrDefault,
    GetDurationOrDefault, getDuration, getString, getInt, getFloat64, getBool.
  split_and!.
  1,2: intros * Hk; rewrite Hk; cbn; split_and!; done.
  intros A [v err] d e He Hn. cbn in *. simplify_eq. by destruct e.
Qed.

Lemma default_only_for_missing_key_witness :
  @GetIntOrDefault sample_golib ∅ "timeout" 7 = (7, None).
Proof.
  apply (@default_only_for_missing_key sample_golib ∅ "timeout");
    [exact (S754_zero false) | exact true | exact "" | exact 0 | reflexivity].
Defined.

(** Copying a parameter map is order independent: whatever order Go iterates
    the source in, the destination becomes the left-biased union (source values
    win, other keys are kept), and a clone equals its source. *)
Lemma CopyMap_correct (src dest : params) entries :
  entries ≡ₚ map_to_list src ->
  CopyMap_entries entries dest = src ∪ dest /\ CopyMap src dest = src ∪ dest /\ CloneMap src = src.
Proof.
  intros Hp. split_and!; [by apply CopyMap_any_order|apply CopyMap_union|apply CloneMap_id].
Qed.

