(* ===== verification/Api.v ===== *)
(** * The test API (api/types.go, api/default.go, api/extensions.go)

    The configuration of a test as Go structs: a pointer field is an [option],
    a slice of pointers a [list], [int32] and [time.Duration] are [Z]. A nil
    slice is kept apart from an empty one only where the code looks at it
    ([Phase.NamespaceList]). *)

From S2P Require Import Prelude GoErrors Params.

Record TestScenario := mkTestScenario {
  ts_Identifier : string;
  ts_ConfigPath : string;
  ts_OverridePaths : list string;
}.

(** [metav1.LabelSelector] is opaque here: its printed form. *)
Record ListUnknownObjectOptions := mkListUnknownObjectOptions {
  luo_LabelSelector : string;
}.

Record Object := mkObject {
  Basename : string;
  ObjectTemplatePath : string;
  TemplateFillMap : option params;
  ListUnknown : option ListUnknownObjectOptions;
}.

Record NamespaceConfig := mkNamespaceConfig {
  Number : Z;                                   (* int32 *)
  Prefix : string;
  DeleteStaleNamespaces : option bool;
  DeleteAutomanagedNamespaces : option bool;
  EnableExistingNamespaces : option bool;
  DeleteNamespaceTimeout : option Z;
}.

Record NamespaceRange := mkNamespaceRange {
  Min : Z;                                      (* int32 *)
  Max : Z;                                      (* int32 *)
  nr_Basename : option string;
}.

Record QPSLoad := mkQPSLoad { QPS : float64 }.
Record RandomizedLoad := mkRandomizedLoad { AverageQPS : float64 }.
Record SteppedLoad := mkSteppedLoad { BurstSize : Z; StepDelay : Z }.
Record PoissonLoad := mkPoissonLoad { ExpectedActionsPerSecond : float64 }.
Record TimeLimitedLoad := mkTimeLimitedLoad { TimeLimit : Z }.
Record RandomizedTimeLimitedLoad := mkRandomizedTimeLimitedLoad { rtl_TimeLimit : Z }.
Record ParallelismLimitedLoad := mkParallelismLimitedLoad { ParallelismLimit : Z }.
Record GlobalQPSLoad := mkGlobalQPSLoad { gql_QPS : float64; Burst : Z }.

Record TuningSet := mkTuningSet {
  tset_Name : string;
  InitialDelay : Z;
  tset_QPSLoad : option QPSLoad;
  tset_RandomizedLoad : option RandomizedLoad;
  tset_SteppedLoad : option SteppedLoad;
  tset_TimeLimitedLoad : option TimeLimitedLoad;
  tset_RandomizedTimeLimitedLoad : option RandomizedTimeLimitedLoad;
  tset_ParallelismLimitedLoad : option ParallelismLimitedLoad;
  tset_GlobalQPSLoad : option GlobalQPSLoad;
  tset_PoissonLoad : option PoissonLoad;
}.

Record Phase := mkPhase {
  PhaseNamespaceRange : option NamespaceRange;
  NamespaceList : option (list string);         (* None: nil slice *)
  ReplicasPerNamespace : Z;                     (* int32 *)
  PhaseTuningSet : string;
  ObjectBundle : list Object;
}.

Record MeasurementInstanceConfig := mkMeasurementInstanceConfig {
  mi_Identifier : string;
  mi_Params : params;
}.

Record Measurement := mkMeasurement {
  Method : string;
  meas_Params : params;
  Identifier : string;
  Instances : list MeasurementInstanceConfig;
}.

Record ModuleRef := mkModuleRef {
  mod_Path : string;
  mod_Params : option params;
}.

Record Step := mkStep {
  Phases : list Phase;
  Measurements : list Measurement;
  StepModule : ModuleRef;
  step_Name : string;
}.

Record Module_ := mkModule { module_Steps : list Step }.

Record Dependency := mkDependency {
  dep_Name : string;
  dep_Method : string;
  dep_Timeout : Z;
  dep_Params : params;
}.

Record NodeFailureConfig := mkNodeFailureConfig {
  FailureRate : float64;
  Interval : Z;
  JitterFactor : float64;
  SimulatedDowntime : Z;
}.

Record ChaosMonkeyConfig := mkChaosMonkeyConfig {
  NodeFailure : option NodeFailureConfig;
  ExcludedNodes : option (gset string);         (* None: nil set *)
}.

Record Config := mkConfig {
  conf_Name : string;
  Dependencies : list Dependency;
  AutomanagedNamespaces : Z;                    (* int32 *)
  Namespace : NamespaceConfig;
  Steps : list Step;
  TuningSets : list TuningSet;
  ChaosMonkey : ChaosMonkeyConfig;
}.

(** ** Extensions *)
Definition IsMeasurement (s : Step) : bool := (0 <? Z.of_nat (length (Measurements s))).
Definition IsPhase (s : Step) : bool := (0 <? Z.of_nat (length (Phases s))).
Definition IsModule (s : Step) : bool := negb (String.eqb (mod_Path (StepModule s)) "").

(** ** Defaults *)
Definition DefaultNamespaceDeletionTimeout : Z := 10 * Duration.Minute.

(** [draw] are the random draws behind [util.RandomDNS1123String(6)]. *)
Definition NamespaceConfig_SetDefaults (draw : nat -> nat) (ns : NamespaceConfig) : NamespaceConfig :=
  mkNamespaceConfig
    (if Number ns =? 0 then 1 else Number ns)
    (if String.eqb (Prefix ns) "" then Sprintf "test-%s" [FStr (RandomDNS1123String draw 6)]
     else Prefix ns)
    (match DeleteStaleNamespaces ns with None => Some false | b => b end)
    (match DeleteAutomanagedNamespaces ns with None => Some true | b => b end)
    (match EnableExistingNamespaces ns with None => Some false | b => b end)
    (match DeleteNamespaceTimeout ns with
     | None => Some DefaultNamespaceDeletionTimeout | t => t end).

Definition set_Namespace (conf : Config) (ns : NamespaceConfig) : Config :=
  mkConfig (conf_Name conf) (Dependencies conf) (AutomanagedNamespaces conf) ns
    (Steps conf) (TuningSets conf) (ChaosMonkey conf).

Definition set_Number (ns : NamespaceConfig) (n : Z) : NamespaceConfig :=
  mkNamespaceConfig n (Prefix ns) (DeleteStaleNamespaces ns) (DeleteAutomanagedNamespaces ns)
    (EnableExistingNamespaces ns) (DeleteNamespaceTimeout ns).

Definition set_Steps (conf : Config) (steps : list Step) : Config :=
  mkConfig (conf_Name conf) (Dependencies conf) (AutomanagedNamespaces conf) (Namespace conf)
    steps (TuningSets conf) (ChaosMonkey conf).

Definition SetDefaults (draw : nat -> nat) (conf : Config) : Config :=
  let ns := NamespaceConfig_SetDefaults draw (Namespace conf) in
  if (Number ns =? 1) && (1 <? AutomanagedNamespaces conf)
  then set_Namespace conf (set_Number ns (AutomanagedNamespaces conf))
  else set_Namespace conf ns.

(** Every pointer of the namespace section is set: the executor dereferences
    them without checks. *)
Definition namespace_complete (ns : NamespaceConfig) : Prop :=
  is_Some (DeleteStaleNamespaces ns) /\ is_Some (DeleteAutomanagedNamespaces ns) /\
  is_Some (EnableExistingNamespaces ns) /\ is_Some (DeleteNamespaceTimeout ns) /\
  Number ns <> 0 /\ Prefix ns <> "".

Lemma NamespaceConfig_SetDefaults_complete draw ns :
  namespace_complete (NamespaceConfig_SetDefaults draw ns).
Proof.
  unfold namespace_complete, NamespaceConfig_SetDefaults. cbn.
  destruct ns as [n p [b1|] [b2|] [b3|] [t|]]; cbn;
    (split_and!; eauto; [destruct (Z.eqb_spec n 0); lia|]).
  all: destruct (String.eqb_spec p ""); [discriminate|done].
Qed.

Lemma NamespaceConfig_SetDefaults_fixed draw ns :
  namespace_complete ns -> NamespaceConfig_SetDefaults draw ns = ns.
Proof.
  destruct ns as [n p s a e t]. unfold namespace_complete, NamespaceConfig_SetDefaults. cbn.
  intros ([? ->] & [? ->] & [? ->] & [? ->] & Hn & Hp).
  apply Z.eqb_neq in Hn as ->. by apply String.eqb_neq in Hp as ->.
Qed.

Lemma SetDefaults_complete draw conf : namespace_complete (Namespace (SetDefaults draw conf)).
Proof.
  pose proof (NamespaceConfig_SetDefaults_complete draw (Namespace conf)) as Hc. unfold SetDefaults.
  set (ns := NamespaceConfig_SetDefaults draw (Namespace conf)) in *. cbn zeta.
  destruct ((Number ns =? 1) && (1 <? AutomanagedNamespaces conf)) eqn:Hb; [|exact Hc].
  destruct Hc as (?&?&?&?&?&?). by split_and!; cbn; try lia.
Qed.

Lemma SetDefaults_Steps draw conf : Steps (SetDefaults draw conf) = Steps conf.
Proof. unfold SetDefaults. cbn zeta. by case_match. Qed.

Lemma SetDefaults_fixed draw conf :
  namespace_complete (Namespace conf) ->
  (Number (Namespace conf) =? 1) && (1 <? AutomanagedNamespaces conf) = false -> SetDefaults draw conf = conf.
Proof.
  intros Hc Hb. unfold SetDefaults. rewrite NamespaceConfig_SetDefaults_fixed by done. rewrite Hb.
  by destruct conf.
Qed.

(** [SetDefaults] leaves every namespace pointer set, with a positive-by-default
    namespace count and a non-empty prefix, and running it again (with any
    other random draws) changes nothing. *)
Theorem SetDefaults_complete_idempotent draw draw' conf :
  namespace_complete (Namespace (SetDefaults draw conf)) /\
  SetDefaults draw' (SetDefaults draw conf) = SetDefaults draw conf.
Proof.
  split; [apply SetDefaults_complete|]. apply SetDefaults_fixed; [apply SetDefaults_complete|].
  unfold SetDefaults. set (ns := NamespaceConfig_SetDefaults draw (Namespace conf)). cbn zeta.
  destruct ((Number ns =? 1) && (1 <? AutomanagedNamespaces conf)) eqn:Hb; cbn; [|done].
  destruct (Z.eqb_spec (AutomanagedNamespaces conf) 1); [lia|done].
Qed.
