(* ===== verification/Validation.v ===== *)
(** * Config validation (api/validation.go)

    [ConfigValidator] as functions from the config to the field errors in the
    order the code appends them, and the declarative predicate it decides. *)

From S2P Require Import Prelude GoErrors Params Api.
From Stdlib Require Import SpecFloat.

(** ** field.Path *)
Definition NewPath (name : string) : string := name.
Definition Child (p name : string) : string := p +:+ "." +:+ name.
Definition Index (p : string) (i : nat) : string := p +:+ "[" +:+ pretty (Z.of_nat i) +:+ "]".

Definition Invalid (path detail : string) : error := FieldError "Invalid value" path detail.
Definition Forbidden (path detail : string) : error := FieldError "Forbidden" path detail.
Definition Required (path detail : string) : error := FieldError "Required value" path detail.

(** A [for i := range l] loop that appends the errors of each element. *)
Definition for_range {A} (l : list A) (f : nat -> A -> list error) : list error :=
  concat (imap f l).

Definition guard_err (b : bool) (e : error) : list error := if b then [e] else [].

Lemma guard_err_nil b e : guard_err b e = [] <-> b = false.
Proof. by destruct b. Qed.

Lemma for_range_nil {A} (l : list A) f :
  for_range l f = [] <-> forall i x, l !! i = Some x -> f i x = [].
Proof.
  unfold for_range. revert f. induction l as [|a l IH]; intros f; cbn.
  - split; [intros _ i x H; by rewrite lookup_nil in H|done].
  - rewrite app_nil, IH. split.
    + intros [H0 Hs] [|i] x Hi; [by simplify_eq/=|by apply (Hs i)].
    + intros H. split; [by apply (H 0%nat)|intros i x Hi; by apply (H (S i))].
Qed.

#[export] Hint Rewrite guard_err_nil @for_range_nil : valid.

Definition f64_zero : float64 := S754_zero false.

Section Validator.
(** The registries filled by [init] functions, the file system as seen by
    [os.Stat], the working directory, and apimachinery's subdomain check. *)
Context (RegisteredDependencies RegisteredMeasurements : gmap string bool).
Context (IsNotExist : string -> bool) (cwd : string).
Context (IsDNS1123Subdomain : string -> list string).
Context (configDir : string).

(** Indexing a Go map yields the zero value for an absent key. *)
Definition registered (m : gmap string bool) (k : string) : bool := default false (m !! k).

Definition fileExists (path : string) : bool :=
  let e1 := IsNotExist (Sprintf "%s/%s/%s" [FStr cwd; FStr configDir; FStr path]) in
  let e := if e1 then IsNotExist (Sprintf "%s/%s" [FStr configDir; FStr path]) else e1 in
  negb e.

Definition validateNamespace (ns : NamespaceConfig) (fldPath : string) : list error :=
  guard_err (Number ns <=? 0) (Invalid (Child fldPath "number") "must be positive").

Definition validateNamespaceRange (nr : NamespaceRange) (fldPath : string) : list error :=
  guard_err (Min nr <? 0) (Invalid (Child fldPath "min") "must be non-negative")
  ++ guard_err (Max nr <? Min nr) (Invalid (Child fldPath "max") "must be greater than min").

Definition validateObject (o : Object) (fldPath : string) : list error :=
  map (Invalid (Child fldPath "basename")) (IsDNS1123Subdomain (Basename o))
  ++ guard_err (negb (fileExists (ObjectTemplatePath o)))
       (Invalid (Child fldPath "objectTemplatePath") "file must exist").

Definition validatePhase (p : Phase) (fldPath : string) : list error :=
  guard_err (match NamespaceList p, PhaseNamespaceRange p with
             | Some _, Some _ => true | _, _ => false end)
    (Forbidden fldPath "must specify at most 1 of namespaceList and namespaceRange")
  ++ match PhaseNamespaceRange p with
     | Some nr => validateNamespaceRange nr (Child fldPath "namespaceRange")
     | None => []
     end
  ++ guard_err (ReplicasPerNamespace p <? 0)
       (Invalid (Child fldPath "replicasPerNamespace") "must be non-negative")
  ++ for_range (ObjectBundle p) (fun i o =>
       validateObject o (Index (Child fldPath "objectBundle") i)).

Definition validateMeasurementMethod (method fldPath : string) : list error :=
  guard_err (String.eqb method "") (Required fldPath "method is required")
  ++ guard_err (negb (registered RegisteredMeasurements method))
       (Invalid fldPath "measurement method is not registered").

Definition validateMeasurement (m : Measurement) (fldPath : string) : list error :=
  guard_err (negb (Nat.eqb (length (Instances m)) 0) && negb (String.eqb (Identifier m) ""))
    (Invalid (Child fldPath "Identifier") " cannot be non empty when Instances specified")
  ++ guard_err (Nat.eqb (length (Instances m)) 0 && String.eqb (Identifier m) "")
       (Invalid (Child fldPath "Identifier") " and Instances cannot be both empty")
  ++ validateMeasurementMethod (Method m) (Child fldPath "method").

Definition validateStep (s : Step) (fldPath : string) : list error :=
  let isPhasesEmpty := Nat.eqb (length (Phases s)) 0 in
  let isMeasurementsEmpty := Nat.eqb (length (Measurements s)) 0 in
  for_range (Phases s) (fun i p => validatePhase p (Index (Child fldPath "phases") i))
  ++ for_range (Measurements s) (fun i m =>
       validateMeasurement m (Index (Child fldPath "measurements") i))
  ++ guard_err (isPhasesEmpty && isMeasurementsEmpty)
       (Invalid (Child fldPath "measurements") "can't be empty with empty phases")
  ++ guard_err (negb isPhasesEmpty && negb isMeasurementsEmpty)
       (Invalid (Child fldPath "measurements") "can't be non-empty with non-empty phases").

(** The inner search loop with its [break]. *)
Fixpoint declared (name : string) (ts : list TuningSet) : bool :=
  match ts with
  | [] => false
  | t :: ts' => if String.eqb name (tset_Name t) then true else declared name ts'
  end.

Definition validateTuningSetInPhase (s : Step) (ts : list TuningSet) (fldPath : string) : list error :=
  for_range (Phases s) (fun i p =>
    guard_err (negb (String.eqb (PhaseTuningSet p) "") && negb (declared (PhaseTuningSet p) ts))
      (Invalid (Child (Index (Child fldPath "phases") i) "tuningSet")
         "tuning set referenced has not been declared")).

Definition handleTuningSetInPhase (c : Config) : list error :=
  for_range (Steps c) (fun i s =>
    validateTuningSetInPhase s (TuningSets c) (Index (NewPath "steps") i)).

Definition validateQPSLoad (ql : QPSLoad) (fldPath : string) : list error :=
  guard_err (f64_leb (QPS ql) f64_zero) (Invalid (Child fldPath "qps") "must have positive value").
Definition validateRandomizedLoad (rl : RandomizedLoad) (fldPath : string) : list error :=
  guard_err (f64_leb (AverageQPS rl) f64_zero)
    (Invalid (Child fldPath "averageQps") "must have positive value").
Definition validateSteppedLoad (sl : SteppedLoad) (fldPath : string) : list error :=
  guard_err (BurstSize sl <=? 0) (Invalid (Child fldPath "burstSize") "must have positive value").
Definition validateTimeLimitedLoad (t : TimeLimitedLoad) (fldPath : string) : list error :=
  guard_err (TimeLimit t <=? 0) (Invalid (Child fldPath "timeLimit") "must have positive value").
Definition validateRandomizedTimeLimitedLoad (t : RandomizedTimeLimitedLoad) (fldPath : string) : list error :=
  guard_err (rtl_TimeLimit t <=? 0) (Invalid (Child fldPath "timeLimit") "must have positive value").
Definition validateParallelismTimeLimitedLoad (p : ParallelismLimitedLoad) (fldPath : string) : list error :=
  guard_err (ParallelismLimit p <=? 0)
    (Invalid (Child fldPath "parallelismLimit") "must have positive value").
Definition validateGlobalQPSLoad (gl : GlobalQPSLoad) (fldPath : string) : list error :=
  guard_err (f64_leb (gql_QPS gl) f64_zero) (Invalid (Child fldPath "qps") "must have positive value")
  ++ guard_err (Burst gl <=? 0) (Invalid (Child fldPath "burst") "must have positive value").
Definition validatePoissonLoad (rl : PoissonLoad) (fldPath : string) : list error :=
  guard_err (f64_leb (ExpectedActionsPerSecond rl) f64_zero)
    (Invalid (Child fldPath "expectedActionsPerSecond") "must have positive value").

(** One [if ts.X != nil] block: the counter increment and the errors. *)
Definition load_block {A} (o : option A) (validate : A -> string -> list error) (path : string)
  : nat * list error :=
  match o with Some a => (1%nat, validate a path) | None => (0%nat, []) end.

Definition tuning_set_blocks (ts : TuningSet) (fldPath : string) : list (nat * list error) :=
    [ load_block (tset_QPSLoad ts) validateQPSLoad (Child fldPath "qpsLoad");
      load_block (tset_RandomizedLoad ts) validateRandomizedLoad (Child fldPath "randomizedLoad");
      load_block (tset_SteppedLoad ts) validateSteppedLoad (Child fldPath "steppedLoad");
      load_block (tset_TimeLimitedLoad ts) validateTimeLimitedLoad (Child fldPath "timeLimitedLoad");
      load_block (tset_RandomizedTimeLimitedLoad ts) validateRandomizedTimeLimitedLoad
        (Child fldPath "randomizedTimeLimitedLoad");
      load_block (tset_ParallelismLimitedLoad ts) validateParallelismTimeLimitedLoad
        (Child fldPath "parallelismLimitedLoad");
      load_block (tset_GlobalQPSLoad ts) validateGlobalQPSLoad (Child fldPath "globalQPSLoad");
      load_block (tset_PoissonLoad ts) validatePoissonLoad (Child fldPath "poissonLoad") ].

Definition validateTuningSet (ts : TuningSet) (fldPath : string) : list error :=
  let blocks := tuning_set_blocks ts fldPath in
  let tuningSetsNumber := foldr Nat.add 0%nat blocks.*1 in
  concat blocks.*2
  ++ guard_err (negb (Nat.eqb tuningSetsNumber 1))
       (Forbidden fldPath "must specify exactly 1 tuning set type").

Definition validateDependencyMethod (method fldPath : string) : list error :=
  guard_err (String.eqb method "") (Required fldPath "method is required")
  ++ guard_err (negb (registered RegisteredDependencies method))
       (Invalid fldPath "dependency method is not registered").

Definition validateDependency (d : Dependency) (fldPath : string) : list error :=
  guard_err (String.eqb (dep_Name d) "") (Required (Child fldPath "name") "name is required")
  ++ guard_err (dep_Timeout d <? 0) (Invalid (Child fldPath "timeout") "timeout cannot be negative")
  ++ validateDependencyMethod (dep_Method d) (Child fldPath "method").

Definition validate_fields (c : Config) : list error :=
  guard_err (AutomanagedNamespaces c <? 0)
    (Invalid (NewPath "automanagedNamespaces") "must be non-negative")
  ++ validateNamespace (Namespace c) (NewPath "namespace")
  ++ for_range (Dependencies c) (fun i d => validateDependency d (Index (NewPath "dependencies") i))
  ++ for_range (TuningSets c) (fun i t => validateTuningSet t (Index (NewPath "tuningSets") i))
  ++ guard_err (Nat.eqb (length (Steps c)) 0) (Invalid (NewPath "steps") "cannot be empty")
  ++ for_range (Steps c) (fun i s => validateStep s (Index (NewPath "steps") i))
  ++ handleTuningSetInPhase c.

Definition toErrorList (fldErrors : list error) : ErrorList :=
  fold_left (fun errList e => Append errList [e]) fldErrors (NewErrorList []).

(** [None] is the nil [*ErrorList]: the config is valid. *)
Definition Validate (c : Config) : option ErrorList :=
  let allErrs := validate_fields c in
  if Nat.eqb (length allErrs) 0 then None else Some (toErrorList allErrs).

(** ** What a valid config is *)

Definition valid_load (ts : TuningSet) : Prop :=
  (forall l, tset_QPSLoad ts = Some l -> f64_leb (QPS l) f64_zero = false) /\
  (forall l, tset_RandomizedLoad ts = Some l -> f64_leb (AverageQPS l) f64_zero = false) /\
  (forall l, tset_SteppedLoad ts = Some l -> 0 < BurstSize l) /\
  (forall l, tset_TimeLimitedLoad ts = Some l -> 0 < TimeLimit l) /\
  (forall l, tset_RandomizedTimeLimitedLoad ts = Some l -> 0 < rtl_TimeLimit l) /\
  (forall l, tset_ParallelismLimitedLoad ts = Some l -> 0 < ParallelismLimit l) /\
  (forall l, tset_GlobalQPSLoad ts = Some l -> f64_leb (gql_QPS l) f64_zero = false /\ 0 < Burst l) /\
  (forall l, tset_PoissonLoad ts = Some l -> f64_leb (ExpectedActionsPerSecond l) f64_zero = false).

Definition load_count (ts : TuningSet) : nat :=
  let n {A} (o : option A) := match o with Some _ => 1%nat | None => 0%nat end in
  (n (tset_QPSLoad ts) + n (tset_RandomizedLoad ts) + n (tset_SteppedLoad ts)
   + n (tset_TimeLimitedLoad ts) + n (tset_RandomizedTimeLimitedLoad ts)
   + n (tset_ParallelismLimitedLoad ts) + n (tset_GlobalQPSLoad ts) + n (tset_PoissonLoad ts))%nat.

Definition valid_object (o : Object) : Prop :=
  IsDNS1123Subdomain (Basename o) = [] /\ fileExists (ObjectTemplatePath o) = true.

Definition valid_phase_fields (p : Phase) : Prop :=
  (NamespaceList p = None \/ PhaseNamespaceRange p = None) /\
  (forall nr, PhaseNamespaceRange p = Some nr -> 0 <= Min nr <= Max nr) /\
  0 <= ReplicasPerNamespace p /\
  (forall o, o ∈ ObjectBundle p -> valid_object o).

Definition valid_tuning_ref (ts : list TuningSet) (p : Phase) : Prop :=
  PhaseTuningSet p = "" \/ PhaseTuningSet p ∈ tset_Name <$> ts.

Definition valid_phase (ts : list TuningSet) (p : Phase) : Prop :=
  valid_phase_fields p /\ valid_tuning_ref ts p.

Definition valid_measurement (m : Measurement) : Prop :=
  (Instances m = [] <-> Identifier m <> "") /\
  Method m <> "" /\ registered RegisteredMeasurements (Method m) = true.

Definition valid_step (ts : list TuningSet) (s : Step) : Prop :=
  (Phases s = [] <-> Measurements s <> []) /\
  (forall p, p ∈ Phases s -> valid_phase ts p) /\
  (forall m, m ∈ Measurements s -> valid_measurement m).

Definition valid_dependency (d : Dependency) : Prop :=
  dep_Name d <> "" /\ 0 <= dep_Timeout d /\
  dep_Method d <> "" /\ registered RegisteredDependencies (dep_Method d) = true.

Definition valid_config (c : Config) : Prop :=
  0 <= AutomanagedNamespaces c /\ 0 < Number (Namespace c) /\
  (forall d, d ∈ Dependencies c -> valid_dependency d) /\
  (forall t, t ∈ TuningSets c -> valid_load t /\ load_count t = 1%nat) /\
  Steps c <> [] /\
  (forall s, s ∈ Steps c -> valid_step (TuningSets c) s).

(** ** The validator decides it *)

Lemma for_range_nil_elem {A} (l : list A) f (P : A -> Prop) :
  (forall i x, f i x = [] <-> P x) -> (for_range l f = [] <-> forall x, x ∈ l -> P x).
Proof.
  intros Hf. rewrite for_range_nil. setoid_rewrite Hf. setoid_rewrite list_elem_of_lookup.
  naive_solver.
Qed.

Lemma length_eqb_0 {A} (l : list A) : Nat.eqb (length l) 0 = bool_decide (l = []).
Proof. by destruct l. Qed.

Lemma String_eqb_decide s t : String.eqb s t = bool_decide (s = t).
Proof. destruct (String.eqb_spec s t); case_bool_decide; congruence. Qed.

Lemma declared_elem name ts : declared name ts = bool_decide (name ∈ tset_Name <$> ts).
Proof.
  induction ts as [|t ts IH]; [done|]. cbn [declared]. rewrite IH, String_eqb_decide.
  repeat case_bool_decide; set_solver.
Qed.

Lemma load_block_nil {A} (o : option A) v path :
  (load_block o v path).2 = [] <-> forall a, o = Some a -> v a path = [].
Proof. destruct o; cbn; naive_solver. Qed.

Lemma tuning_set_blocks_count t path :
  foldr Nat.add 0%nat (tuning_set_blocks t path).*1 = load_count t.
Proof.
  unfold load_count, tuning_set_blocks, load_block.
  by destruct (tset_QPSLoad t), (tset_RandomizedLoad t), (tset_SteppedLoad t), (tset_TimeLimitedLoad t),
    (tset_RandomizedTimeLimitedLoad t), (tset_ParallelismLimitedLoad t), (tset_GlobalQPSLoad t),
    (tset_PoissonLoad t).
Qed.

Lemma validateTuningSet_nil t path :
  validateTuningSet t path = [] <-> valid_load t /\ load_count t = 1%nat.
Proof.
  unfold validateTuningSet.
  rewrite app_nil, guard_err_nil, negb_false_iff, Nat.eqb_eq, tuning_set_blocks_count.
  apply and_iff_compat_r. unfold tuning_set_blocks, valid_load.
  cbn [fmap list_fmap concat]. rewrite !app_nil, !load_block_nil.
  unfold validateQPSLoad, validateRandomizedLoad, validateSteppedLoad, validateTimeLimitedLoad,
    validateRandomizedTimeLimitedLoad, validateParallelismTimeLimitedLoad, validateGlobalQPSLoad,
    validatePoissonLoad.
  setoid_rewrite app_nil. setoid_rewrite guard_err_nil. setoid_rewrite Z.leb_gt. tauto.
Qed.

Lemma validateMeasurement_nil m path : validateMeasurement m path = [] <-> valid_measurement m.
Proof.
  unfold validateMeasurement, validateMeasurementMethod, valid_measurement.
  rewrite !app_nil, !guard_err_nil, negb_false_iff, length_eqb_0, !String_eqb_decide.
  repeat case_bool_decide; cbn; intuition congruence.
Qed.

Lemma validateDependency_nil d path : validateDependency d path = [] <-> valid_dependency d.
Proof.
  unfold validateDependency, validateDependencyMethod, valid_dependency.
  rewrite !app_nil, !guard_err_nil, negb_false_iff, !String_eqb_decide, Z.ltb_ge.
  rewrite !bool_decide_eq_false. tauto.
Qed.

Lemma validateObject_nil o path : validateObject o path = [] <-> valid_object o.
Proof.
  unfold validateObject, valid_object.
  rewrite app_nil, guard_err_nil, negb_false_iff. apply and_iff_compat_r.
  by destruct (IsDNS1123Subdomain (Basename o)).
Qed.

Lemma validatePhase_nil p path : validatePhase p path = [] <-> valid_phase_fields p.
Proof.
  unfold validatePhase, validateNamespaceRange, valid_phase_fields.
  rewrite !app_nil, !guard_err_nil, Z.ltb_ge.
  rewrite (for_range_nil_elem _ _ _ (fun i x => validateObject_nil x _)).
  destruct (NamespaceList p), (PhaseNamespaceRange p) as [nr|]; cbn;
    rewrite ?app_nil, ?guard_err_nil, ?Z.ltb_ge; naive_solver.
Qed.

Lemma tuning_ref_nil ts p e :
  guard_err (negb (String.eqb (PhaseTuningSet p) "") && negb (declared (PhaseTuningSet p) ts)) e = []
  <-> valid_tuning_ref ts p.
Proof.
  unfold valid_tuning_ref. rewrite guard_err_nil, declared_elem, String_eqb_decide.
  repeat case_bool_decide; cbn; intuition congruence.
Qed.

Lemma exclusive_step {A B} (l : list A) (k : list B) :
  bool_decide (l = []) && bool_decide (k = []) = false /\
  negb (bool_decide (l = [])) && negb (bool_decide (k = [])) = false
  <-> (l = [] <-> k <> []).
Proof. destruct l, k; cbn; naive_solver. Qed.

Lemma validateStep_nil ts s path path' :
  (validateStep s path = [] /\ validateTuningSetInPhase s ts path' = []) <-> valid_step ts s.
Proof.
  unfold validateStep, validateTuningSetInPhase, valid_step, valid_phase.
  rewrite !app_nil, !guard_err_nil, !length_eqb_0, exclusive_step.
  rewrite (for_range_nil_elem (Measurements s) _ _ (fun i x => validateMeasurement_nil x _)).
  rewrite (for_range_nil_elem (Phases s) _ _ (fun i x => validatePhase_nil x _)).
  rewrite (for_range_nil_elem (Phases s) _ _ (fun i x => tuning_ref_nil ts x _)).
  clear. generalize (fun p => valid_phase_fields p) as A, (fun p => valid_tuning_ref ts p) as B, valid_measurement as D. naive_solver.
Qed.

Lemma validate_fields_nil c : validate_fields c = [] <-> valid_config c.
Proof.
  unfold validate_fields, handleTuningSetInPhase, valid_config, validateNamespace.
  rewrite !app_nil, !guard_err_nil, length_eqb_0, bool_decide_eq_false, Z.ltb_ge, Z.leb_gt.
  rewrite (for_range_nil_elem (Dependencies c) _ _ (fun i x => validateDependency_nil x _)).
  rewrite (for_range_nil_elem (TuningSets c) _ _ (fun i x => validateTuningSet_nil x _)).
  rewrite !for_range_nil. setoid_rewrite list_elem_of_lookup.
  split.
  - intros (?&?&?&?&?&H1&H2). split_and!; try done. intros s [i Hs].
    eapply validateStep_nil; eauto.
  - intros (?&?&?&?&?&Hs). split_and!; try done; intros i s Hi.
    all: eapply validateStep_nil, Hs; eauto.
Qed.

Lemma toErrorList_errors errs : errors (toErrorList errs) = errs.
Proof.
  unfold toErrorList. assert (forall acc,
    errors (fold_left (fun l e => Append l [e]) errs acc) = errors acc ++ errs) as H.
  { induction errs as [|e errs IH]; intros acc; cbn; [by rewrite app_nil_r|].
    rewrite IH. cbn. by rewrite <- app_assoc. }
  apply H.
Qed.

Lemma Validate_None_iff c : Validate c = None <-> valid_config c.
Proof.
  unfold Validate. rewrite <- validate_fields_nil, length_eqb_0.
  case_bool_decide; [done|split; [discriminate|done]].
Qed.

Lemma valid_step_exclusive c s : valid_config c -> s ∈ Steps c -> IsMeasurement s = negb (IsPhase s).
Proof.
  intros Hv Hs. destruct (proj2 (proj2 (proj2 (proj2 (proj2 Hv)))) s Hs) as [Hx _].
  unfold IsMeasurement, IsPhase. destruct (Measurements s), (Phases s); cbn; naive_solver.
Qed.

Lemma Validate_Some_errors c el :
  Validate c = Some el -> errors el = validate_fields c /\ IsEmpty el = false.
Proof.
  unfold Validate. rewrite length_eqb_0. case_bool_decide as H; [discriminate|]. intros [= <-].
  unfold IsEmpty. rewrite toErrorList_errors. by destruct (validate_fields c).
Qed.

(** C4: the validator is sound and complete for the declarative notion of a valid
    config: it returns nil exactly on the valid ones, and otherwise a non-empty
    error list holding every field error in the order found. *)
Theorem Validate_decides c :
  (Validate c = None <-> valid_config c) /\
  (forall el, Validate c = Some el -> errors el = validate_fields c /\ IsEmpty el = false).
Proof. split; [apply Validate_None_iff|apply Validate_Some_errors]. Qed.

(** A step that passed validation is either a list of measurements or a list
    of phases, never both and never neither, so [IsMeasurement] and [IsPhase]
    classify it. *)
Lemma validated_step_exclusive c s :
  Validate c = None -> s ∈ Steps c -> IsMeasurement s = negb (IsPhase s).
Proof. intros Hv. by apply valid_step_exclusive, Validate_None_iff. Qed.

End Validator.

(** ** A small valid config on which the validator computes *)
Definition sample_object : Object := mkObject "deployment" "deployment.yaml" None None.

Definition sample_phase : Phase :=
  mkPhase (Some (mkNamespaceRange 1 2 None)) None 3 "Uniform" [sample_object].

Definition no_module : ModuleRef := mkModuleRef "" None.

Definition sample_tuning_set : TuningSet :=
  mkTuningSet "Uniform" 0 (Some (mkQPSLoad (f64_of_Z 10))) None None None None None None None.

Definition sample_config : Config :=
  mkConfig "load" [] 0
    (NamespaceConfig_SetDefaults (fun _ => 0%nat) (mkNamespaceConfig 2 "" None None None None))
    [ mkStep [] [mkMeasurement "Timer" ∅ "t1" []] no_module "start";
      mkStep [sample_phase] [] no_module "create" ]
    [sample_tuning_set]
    (mkChaosMonkeyConfig None None).

Definition sample_registry : gmap string bool := {["Timer" := true]}.

Definition sample_validate : Config -> option ErrorList :=
  Validate ∅ sample_registry (fun _ => false) "/" (fun _ => []) "dir".

Example sample_config_valid : sample_validate sample_config = None.
Proof. vm_compute. reflexivity. Qed.

Example sample_config_invalid :
  errors <$> sample_validate (set_Steps sample_config []) =
    Some [Invalid "steps" "cannot be empty"].
Proof. vm_compute. reflexivity. Qed.

