(* ===== verification/State.v ===== *)
(** * Cluster state (pkg/state)

    [NamespacesState] keeps pointers to [InstancesState]: the executor mutates
    the pointed-to struct after storing it, so the model has an explicit heap of
    [InstancesState] cells and the two-level map holds their addresses. Every
    method runs under the state's lock and is one atomic step. *)

From S2P Require Import Prelude GoErrors Params Api.

Record InstancesState := mkInstancesState {
  DesiredReplicaCount : Z;      (* int32 *)
  CurrentReplicaCount : Z;      (* int32 *)
  inst_Object : Object;
}.

Record InstancesIdentifier := mkInstancesIdentifier {
  id_Basename : string;
  id_ObjectKind : string;
  id_APIGroup : string;
}.

#[export] Instance InstancesIdentifier_eq_dec : EqDecision InstancesIdentifier.
Proof. solve_decision. Defined.

#[export] Instance InstancesIdentifier_countable : Countable InstancesIdentifier.
Proof.
  apply (inj_countable' (fun i => (id_Basename i, id_ObjectKind i, id_APIGroup i))
           (fun '(b, k, g) => mkInstancesIdentifier b k g)).
  by intros [].
Defined.

Abbreviation loc := nat.

Record NamespacesState := mkNamespacesState {
  heap : gmap nat InstancesState;
  namespaceStates : gmap string (gmap InstancesIdentifier nat);
}.

Definition newNamespacesState : NamespacesState := mkNamespacesState ∅ ∅.

(** [&state.InstancesState{...}] *)
Definition alloc (st : NamespacesState) (i : InstancesState) : NamespacesState * loc :=
  let l := fresh (dom (heap st)) in
  (mkNamespacesState (<[l := i]> (heap st)) (namespaceStates st), l).

(** Assignments through a pointer. *)
Definition setDesired (st : NamespacesState) (l : loc) (n : Z) : NamespacesState :=
  mkNamespacesState
    (alter (fun i => mkInstancesState n (CurrentReplicaCount i) (inst_Object i)) l (heap st))
    (namespaceStates st).

Definition currentToDesired (st : NamespacesState) (l : loc) : NamespacesState :=
  mkNamespacesState
    (alter (fun i => mkInstancesState (DesiredReplicaCount i) (DesiredReplicaCount i) (inst_Object i))
       l (heap st))
    (namespaceStates st).

Definition Get (st : NamespacesState) (namespace : string) (id : InstancesIdentifier) : option loc :=
  match namespaceStates st !! namespace with
  | None => None
  | Some m => m !! id
  end.

Definition Set_ (st : NamespacesState) (namespace : string) (id : InstancesIdentifier) (l : loc)
  : NamespacesState :=
  let m := match namespaceStates st !! namespace with None => ∅ | Some m => m end in
  mkNamespacesState (heap st) (<[namespace := <[id := l]> m]> (namespaceStates st)).

Definition print_id (i : InstancesIdentifier) : string :=
  Sprintf "{Basename:%s ObjectKind:%s APIGroup:%s}"
    [FStr (id_Basename i); FStr (id_ObjectKind i); FStr (id_APIGroup i)].

Definition Delete (st : NamespacesState) (namespace : string) (id : InstancesIdentifier)
  : NamespacesState * option error :=
  match namespaceStates st !! namespace with
  | None => (st, Some (Errorf "namespace %v not found" [AStr namespace]))
  | Some m =>
      match m !! id with
      | None => (st, Some (Errorf "no instances of %+v found in %v namespace"
                             [AStr (print_id id); AStr namespace]))
      | Some _ =>
          (mkNamespacesState (heap st) (<[namespace := delete id m]> (namespaceStates st)), None)
      end
  end.

(** What a reader of [Get] sees: the pointed-to struct. *)
Definition lookup_instances (st : NamespacesState) (namespace : string) (id : InstancesIdentifier)
  : option InstancesState :=
  l ← Get st namespace id; heap st !! l.

(** ** Resource versions *)
Record ResourceTypeIdentifier := mkResourceTypeIdentifier {
  rt_ObjectKind : string;
  rt_APIGroup : string;
}.

#[export] Instance ResourceTypeIdentifier_eq_dec : EqDecision ResourceTypeIdentifier.
Proof. solve_decision. Defined.

#[export] Instance ResourceTypeIdentifier_countable : Countable ResourceTypeIdentifier.
Proof.
  apply (inj_countable' (fun i => (rt_ObjectKind i, rt_APIGroup i))
           (fun '(k, g) => mkResourceTypeIdentifier k g)).
  by intros [].
Defined.

Abbreviation ResourcesVersionsState := (gmap ResourceTypeIdentifier Z).

Definition newResourcesVersionsState : ResourcesVersionsState := ∅.

Definition RV_Get (rs : gmap ResourceTypeIdentifier Z) (id : ResourceTypeIdentifier) : string * bool :=
  match rs !! id with
  | None => ("0", false)
  | Some v => (FormatUint v, true)
  end.

Definition RV_Set (rs : gmap ResourceTypeIdentifier Z) (id : ResourceTypeIdentifier) (resourceVersion : string)
  : gmap ResourceTypeIdentifier Z * option error :=
  match ParseUint resourceVersion with
  | None => (rs, Some (Errorf "incorrect version format" []))
  | Some version =>
      let version := match rs !! id with
                     | Some current => if version <? current then current else version
                     | None => version
                     end in
      (<[id := version]> rs, None)
  end.

Record State := mkState {
  namespacesState : NamespacesState;
  resourcesVersionState : gmap ResourceTypeIdentifier Z;
}.

Definition NewState : State := mkState newNamespacesState newResourcesVersionsState.

(** ** The namespaces state *)

(** Every stored pointer is allocated. *)
Definition state_wf (st : NamespacesState) : Prop :=
  forall ns id l, Get st ns id = Some l -> is_Some (heap st !! l).

Lemma alloc_fresh st i : heap st !! (alloc st i).2 = None.
Proof. cbn. apply not_elem_of_dom. apply is_fresh. Qed.

Lemma Get_Set st ns id l ns' id' :
  Get (Set_ st ns id l) ns' id' =
    if decide (ns = ns' /\ id = id') then Some l else Get st ns' id'.
Proof.
  unfold Get, Set_. cbn. destruct (decide (ns = ns')) as [->|Hns].
  - rewrite lookup_insert_eq. destruct (decide (id = id')) as [->|Hid].
    + rewrite lookup_insert_eq. by rewrite decide_True.
    + rewrite lookup_insert_ne by done. rewrite decide_False by naive_solver.
      destruct (namespaceStates st !! ns'); [done|by rewrite lookup_empty].
  - rewrite lookup_insert_ne by done. by rewrite decide_False by naive_solver.
Qed.

Lemma Get_alloc st i ns id : Get (alloc st i).1 ns id = Get st ns id.
Proof. done. Qed.

Lemma Get_setDesired st l n ns id : Get (setDesired st l n) ns id = Get st ns id.
Proof. done. Qed.

Lemma Get_currentToDesired st l ns id : Get (currentToDesired st l) ns id = Get st ns id.
Proof. done. Qed.

Lemma heap_Set st ns id l : heap (Set_ st ns id l) = heap st.
Proof. done. Qed.

#[export] Hint Rewrite Get_Set Get_alloc Get_setDesired Get_currentToDesired heap_Set : state.

Lemma state_wf_new : state_wf newNamespacesState.
Proof. intros ns id l H. unfold Get in H. cbn in H. by rewrite lookup_empty in H. Qed.

Lemma is_Some_alter {A} (f : A -> A) l (m : gmap nat A) l' :
  is_Some (alter f l m !! l') <-> is_Some (m !! l').
Proof.
  rewrite lookup_alter. case_decide; [subst|done]. by rewrite fmap_is_Some.
Qed.

Lemma state_wf_alloc st i : state_wf st -> state_wf (alloc st i).1.
Proof.
  intros Hwf ns id l H. apply Hwf in H as [x Hx]. unfold alloc. cbn.
  rewrite lookup_insert. case_decide; eauto.
Qed.

Lemma state_wf_setDesired st l n : state_wf st -> state_wf (setDesired st l n).
Proof. intros Hwf ns id l' H. cbn. rewrite is_Some_alter. by apply (Hwf ns id). Qed.

Lemma state_wf_currentToDesired st l : state_wf st -> state_wf (currentToDesired st l).
Proof. intros Hwf ns id l' H. cbn. rewrite is_Some_alter. by apply (Hwf ns id). Qed.

Lemma state_wf_Set st ns id l :
  state_wf st -> is_Some (heap st !! l) -> state_wf (Set_ st ns id l).
Proof.
  intros Hwf Hl ns' id' l'. rewrite Get_Set, heap_Set. case_decide; [by intros [= <-]|apply Hwf].
Qed.

Lemma state_wf_Delete st ns id : state_wf st -> state_wf (Delete st ns id).1.
Proof.
  intros Hwf ns' id' l'. unfold Delete.
  destruct (namespaceStates st !! ns) as [m|] eqn:Hm; [|apply Hwf].
  destruct (m !! id) eqn:Hid; [|apply Hwf].
  unfold Get. cbn. destruct (decide (ns = ns')) as [->|Hne].
  - rewrite lookup_insert_eq, lookup_delete. case_decide; [done|].
    intros Hg. apply (Hwf ns' id'). unfold Get. by rewrite Hm.
  - rewrite lookup_insert_ne by done. apply Hwf.
Qed.

Create HintDb state.
#[export] Hint Resolve state_wf_new state_wf_alloc state_wf_setDesired state_wf_currentToDesired
  state_wf_Set state_wf_Delete : state.

(** [Delete] removes exactly one entry: it succeeds iff the entry is present,
    afterwards that entry is absent and every other one unchanged; when it
    reports an error the state is untouched. A later [Set] restores the entry. *)
Theorem Delete_correct st ns id :
  ((Delete st ns id).2 = None <-> is_Some (Get st ns id)) /\
  ((Delete st ns id).2 <> None -> (Delete st ns id).1 = st) /\
  (forall ns' id', Get (Delete st ns id).1 ns' id' =
     if decide (ns = ns' /\ id = id') then None else Get st ns' id') /\
  (forall l, Get st ns id = Some l -> forall ns' id',
     Get (Set_ (Delete st ns id).1 ns id l) ns' id' = Get st ns' id').
Proof.
  assert (forall ns' id', Get (Delete st ns id).1 ns' id' =
     if decide (ns = ns' /\ id = id') then None else Get st ns' id') as HG.
  { intros ns' id'. unfold Delete, Get at 1 2.
    destruct (decide (ns = ns')) as [->|Hne].
    - destruct (namespaceStates st !! ns') as [m|] eqn:Hm; cbn; [|rewrite Hm; by case_decide].
      destruct (m !! id) eqn:Hid; cbn; [|rewrite Hm].
      + rewrite lookup_insert_eq, lookup_delete. repeat case_decide; naive_solver.
      + case_decide as Hd; [by destruct Hd; subst|done].
    - rewrite decide_False by naive_solver. repeat case_match; cbn in *; simplify_eq; try done.
      all: rewrite lookup_insert_ne in * by done; congruence. }
  split_and!.
  - unfold Delete, Get. destruct (namespaceStates st !! ns) as [m|].
    + destruct (m !! id); split; intros Hx; try done; by destruct Hx.
    + split; intros Hx; [done|by destruct Hx].
  - unfold Delete. repeat case_match; done.
  - done.
  - intros l Hl ns' id'. rewrite Get_Set, HG. case_decide as Hd; [|done]. by destruct Hd; subst.
Qed.

(** ** Resource versions only grow *)

Definition RV_run (rs : gmap ResourceTypeIdentifier Z) (ops : list (ResourceTypeIdentifier * string))
  : gmap ResourceTypeIdentifier Z :=
  fold_left (fun rs op => (RV_Set rs op.1 op.2).1) ops rs.

(** The versions recorded for [id], in order. *)
Definition versions_of (id : ResourceTypeIdentifier) (ops : list (ResourceTypeIdentifier * string)) : list Z :=
  omap (fun op => if decide (op.1 = id) then ParseUint op.2 else None) ops.

Definition max_version (init : option Z) (vs : list Z) : option Z :=
  fold_left (fun acc v => Some (match acc with Some c => Z.max c v | None => v end)) vs init.

Lemma RV_Set_lookup rs id s id' :
  (RV_Set rs id s).1 !! id' =
    max_version (rs !! id') (versions_of id' [(id, s)]).
Proof.
  unfold RV_Set, versions_of. cbn. destruct (ParseUint s) as [v|] eqn:Hp; cbn.
  - rewrite lookup_insert. case_decide as Hd; [subst; cbn|done].
    destruct (rs !! id') as [c|]; [|done]. f_equal. destruct (Z.ltb_spec v c); lia.
  - by case_decide.
Qed.

Lemma RV_run_lookup ops rs id :
  RV_run rs ops !! id = max_version (rs !! id) (versions_of id ops).
Proof.
  revert rs. induction ops as [|[i s] ops IH]; intros rs; [done|].
  unfold RV_run in *. cbn [fold_left]. rewrite IH, RV_Set_lookup. cbn.
  case_decide; [|done]. by destruct (ParseUint s).
Qed.

Lemma ParseUint_range s v : ParseUint s = Some v -> 0 <= v <= MaxUint64.
Proof.
  assert (forall t acc w, 0 <= acc -> parse_digits acc t = Some w -> 0 <= w) as Hpos.
  { induction t as [|a t IH]; cbn; intros acc w Hacc H; [by simplify_eq|].
    destruct (is_digit a) eqn:Hd; [|done]. apply IH in H; [done|].
    unfold is_digit, digit_value in *. apply andb_true_iff in Hd as [?%N.leb_le _]. lia. }
  unfold ParseUint. destruct s as [|a s]; [done|].
  destruct (parse_digits 0 (String a s)) as [w|] eqn:Hw; [|done].
  destruct (Z.leb_spec w MaxUint64); [|done]. intros [= <-]. split; [|done].
  by apply (Hpos _ 0 w) in Hw.
Qed.

Lemma max_version_spec vs c :
  max_version (Some c) vs = Some (foldr Z.max c vs).
Proof.
  revert c. induction vs as [|v vs IH]; intros c; [done|].
  change (max_version (Some (Z.max c v)) vs = Some (Z.max v (foldr Z.max c vs))).
  rewrite IH. f_equal.
  clear IH. revert c v. induction vs as [|w vs IH]; intros c v; cbn; [lia|].
  rewrite !IH. cbn. lia.
Qed.

(** C5: from a fresh state, after any sequence of [Set] calls (malformed versions
    included, which are rejected and change nothing), [Get] of a resource type
    answers ("0", false) if no well-formed version was recorded for it and
    otherwise the decimal of the greatest one, which parses back to that
    maximum: versions never go backwards whatever order updates arrive in. *)
Theorem RV_Get_is_max ops id :
  let vs := versions_of id ops in
  match vs with
  | [] => RV_Get (RV_run newResourcesVersionsState ops) id = ("0", false)
  | v :: vs' =>
      RV_Get (RV_run newResourcesVersionsState ops) id = (FormatUint (foldr Z.max v vs'), true) /\
      ParseUint (FormatUint (foldr Z.max v vs')) = Some (foldr Z.max v vs')
  end.
Proof.
  unfold RV_Get, newResourcesVersionsState. rewrite RV_run_lookup, lookup_empty.
  assert (forall w, w ∈ versions_of id ops -> 0 <= w <= MaxUint64) as Hr.
  { unfold versions_of. intros w (op & _ & Hop)%list_elem_of_omap. case_decide; [|done].
    by apply ParseUint_range in Hop. }
  destruct (versions_of id ops) as [|v vs]; cbn [max_version]; [done|].
  unfold max_version. cbn [fold_left]. fold (max_version (Some v) vs).
  rewrite max_version_spec. split; [done|]. apply ParseUint_FormatUint.
  induction vs as [|w vs IH]; cbn; [apply Hr; set_solver|].
  specialize (IH ltac:(set_solver)). specialize (Hr w ltac:(set_solver)). lia.
Qed.
