(* ===== verification/TuningSet.v ===== *)
(** * Tuning sets (pkg/tuningset)

    A tuning set turns a list of actions into launches. Time is an ideal clock
    in nanoseconds: [time.Sleep d] advances it by [d] when positive, starting a
    goroutine takes none. [Execute] yields the launches [(time, action)] in the
    order they happen; [None] is a run-time panic. Randomness, [math.Log], the
    rate limiter of x/time/rate and client-go's [ParallelizeUntil] are given. *)

From S2P Require Import Prelude GoErrors Params Api Validation.
From Stdlib Require Import SpecFloat.

Definition sleep (now d : Z) : Z := now + Z.max 0 d.

(** ** The environment of one [Execute] call *)
Record exec_env := mkEnv {
  env_rand : nat -> float64;             (* i-th rand.Float64(), in [0,1) *)
  env_int63n : Z -> nat -> Z;            (* i-th rand.Int63n(n) *)
  env_log : float64 -> float64;          (* math.Log *)
  env_wait : nat -> Z * option error;    (* i-th limiter.Wait: delay and error *)
  env_parallelize : Z -> nat -> list (Z * nat);  (* ParallelizeUntil(workers, pieces): offsets, pieces *)
}.

(** [time.Duration(int(float64(time.Second) / qps))] *)
Definition qps_sleep (qps : float64) : Z :=
  f64_to_int (f64_div (f64_of_Z Duration.Second) qps).

(** [sleepDuration] of randomized_load.go *)
Definition sleepDuration (draw : float64) (avgQPS : float64) : Z :=
  let randomFactor := f64_mul (f64_of_Z 2) draw in
  f64_to_int (f64_div (f64_mul randomFactor (f64_of_Z Duration.Second)) avgQPS).

(** [interArrivalTime]: [float64(time.Second) * (-math.Log(1-p) / MeanRate)] *)
Definition interArrivalTime (log : float64 -> float64) (draw meanRate : float64) : Z :=
  f64_to_int (f64_mul (f64_of_Z Duration.Second)
    (f64_div (SFopp (log (SFsub 53 1024 (f64_of_Z 1) draw))) meanRate)).

Section Execute.
Context {A : Type} (env : exec_env).

(** [for i := range actions { wg.Start(actions[i]); time.Sleep(delay(i)) }] *)
Fixpoint launch_loop (delay : nat -> Z) (i : nat) (now : Z) (actions : list A) : list (Z * A) :=
  match actions with
  | [] => []
  | a :: rest => (now, a) :: launch_loop delay (S i) (sleep now (delay i)) rest
  end.

Definition qpsLoad_Execute (p : QPSLoad) (now : Z) (actions : list A) : option (list (Z * A)) :=
  let sleepDuration := qps_sleep (QPS p) in
  Some (launch_loop (fun _ => sleepDuration) 0 now actions).

Definition randomizedLoad_Execute (p : RandomizedLoad) (now : Z) (actions : list A)
  : option (list (Z * A)) :=
  Some (launch_loop (fun i => sleepDuration (env_rand env i) (AverageQPS p)) 0 now actions).

(** [(i+1) % int(BurstSize)] panics for a zero burst as soon as there is an action. *)
Definition steppedLoad_Execute (p : SteppedLoad) (now : Z) (actions : list A)
  : option (list (Z * A)) :=
  match actions with
  | [] => Some []
  | _ =>
      if BurstSize p =? 0 then None
      else Some (launch_loop
             (fun i => if Z.rem (Z.of_nat i + 1) (BurstSize p) =? 0 then StepDelay p else 0)
             0 now actions)
  end.

Definition timeLimitedLoad_Execute (p : TimeLimitedLoad) (now : Z) (actions : list A)
  : option (list (Z * A)) :=
  match actions with
  | [] => Some []
  | _ =>
      let sleepDuration := Z.quot (TimeLimit p) (Z.of_nat (length actions)) in
      Some (launch_loop (fun _ => sleepDuration) 0 now actions)
  end.

(** Every goroutine starts at once and sleeps on its own before acting. *)
Definition randomizedTimeLimitedLoad_Execute (p : RandomizedTimeLimitedLoad) (now : Z)
  (actions : list A) : option (list (Z * A)) :=
  let timeLimit := rtl_TimeLimit p in
  Some (imap (fun i a => (if 0 <? timeLimit then sleep now (env_int63n env timeLimit i) else now, a))
          actions).

(** Pieces out of range would index past the slice and panic. *)
Definition parallelismLimitedLoad_Execute (p : ParallelismLimitedLoad) (now : Z) (actions : list A)
  : option (list (Z * A)) :=
  mapM (fun '(t, i) => a ← actions !! i; Some (now + t, a))
    (env_parallelize env (ParallelismLimit p) (length actions)).

Fixpoint global_loop (i : nat) (now : Z) (actions : list A) : list (Z * A) :=
  match actions with
  | [] => []
  | a :: rest =>
      let '(d, err) := env_wait env i in
      let now' := sleep now d in
      match err with
      | Some _ => global_loop (S i) now' rest
      | None => (now', a) :: global_loop (S i) now' rest
      end
  end.

Definition globalQPSLoad_Execute (now : Z) (actions : list A) : option (list (Z * A)) :=
  Some (global_loop 0 now actions).

(** [now] is the clock, [next] is [actionNextLaunch]. *)
Fixpoint poisson_loop (rate : float64) (i : nat) (now next : Z) (actions : list A) : list (Z * A) :=
  match actions with
  | [] => []
  | a :: rest =>
      let now' := sleep now (next - now) in
      (now', a) :: poisson_loop rate (S i) now'
                     (next + interArrivalTime (env_log env) (env_rand env i) rate) rest
  end.

Definition poissonLoad_Execute (p : PoissonLoad) (now : Z) (actions : list A)
  : option (list (Z * A)) :=
  Some (poisson_loop (ExpectedActionsPerSecond p) 0 now now actions).

End Execute.

(** ** The factory *)

(** What [CreateTuningSet] returns: the concrete type behind the interface. The
    global load carries the address of its shared limiter. *)
Inductive tuning_set :=
| TQps (p : QPSLoad)
| TRandomized (p : RandomizedLoad)
| TStepped (p : SteppedLoad)
| TTimeLimited (p : TimeLimitedLoad)
| TRandomizedTimeLimited (p : RandomizedTimeLimitedLoad)
| TParallelismLimited (p : ParallelismLimitedLoad)
| TGlobalQPS (limiter : nat)
| TPoisson (p : PoissonLoad).

Definition Execute {A} (env : exec_env) (ts : tuning_set) (now : Z) (actions : list A)
  : option (list (Z * A)) :=
  match ts with
  | TQps p => qpsLoad_Execute p now actions
  | TRandomized p => randomizedLoad_Execute env p now actions
  | TStepped p => steppedLoad_Execute p now actions
  | TTimeLimited p => timeLimitedLoad_Execute p now actions
  | TRandomizedTimeLimited p => randomizedTimeLimitedLoad_Execute env p now actions
  | TParallelismLimited p => parallelismLimitedLoad_Execute env p now actions
  | TGlobalQPS _ => globalQPSLoad_Execute env now actions
  | TPoisson p => poissonLoad_Execute env p now actions
  end.

(** Limiters live in [limiters], by address; [existing] maps names to them. *)
Record globalQPSLoadFactory := mkGlobalFactory {
  existing : gmap string nat;
  limiters : list GlobalQPSLoad;
}.

Definition newGlobalQPSLoadFactory : globalQPSLoadFactory := mkGlobalFactory ∅ [].

Definition GetOrCreate (f : globalQPSLoadFactory) (name : string) (p : GlobalQPSLoad)
  : globalQPSLoadFactory * nat :=
  match existing f !! name with
  | Some l => (f, l)
  | None =>
      let l := length (limiters f) in
      (mkGlobalFactory (<[name := l]> (existing f)) (limiters f ++ [p]), l)
  end.

Record simpleFactory := mkFactory {
  tuningSetMap : gmap string TuningSet;
  globalFactory : globalQPSLoadFactory;
}.

Definition NewFactory : simpleFactory := mkFactory ∅ newGlobalQPSLoadFactory.

Definition Init (tf : simpleFactory) (tuningSets : list TuningSet) : simpleFactory :=
  mkFactory (fold_left (fun m t => <[tset_Name t := t]> m) tuningSets ∅) (globalFactory tf).

Definition CreateTuningSet (tf : simpleFactory) (name : string) : simpleFactory * result tuning_set :=
  match tuningSetMap tf !! name with
  | None => (tf, Err (Errorf "tuningset %s not found" [AStr name]))
  | Some t =>
      match tset_QPSLoad t with Some p => (tf, Ok (TQps p)) | None =>
      match tset_RandomizedLoad t with Some p => (tf, Ok (TRandomized p)) | None =>
      match tset_SteppedLoad t with Some p => (tf, Ok (TStepped p)) | None =>
      match tset_TimeLimitedLoad t with Some p => (tf, Ok (TTimeLimited p)) | None =>
      match tset_RandomizedTimeLimitedLoad t with Some p => (tf, Ok (TRandomizedTimeLimited p)) | None =>
      match tset_ParallelismLimitedLoad t with Some p => (tf, Ok (TParallelismLimited p)) | None =>
      match tset_GlobalQPSLoad t with
      | Some p => let '(g, l) := GetOrCreate (globalFactory tf) name p in
                  (mkFactory (tuningSetMap tf) g, Ok (TGlobalQPS l))
      | None =>
      match tset_PoissonLoad t with Some p => (tf, Ok (TPoisson p)) | None =>
        (tf, Err (Errorf "incorrect tuning set: %v" [AStr (tset_Name t)]))
      end end end end end end end end
  end.

(** ** Launch schedules *)

(** Time slept by the first [k] iterations. *)
Fixpoint slept (delay : nat -> Z) (i k : nat) : Z :=
  match k with
  | O => 0
  | S k' => Z.max 0 (delay i) + slept delay (S i) k'
  end.

Lemma launch_loop_lookup {A} delay i now (actions : list A) k :
  launch_loop delay i now actions !! k = (fun a => (now + slept delay i k, a)) <$> actions !! k.
Proof.
  revert i now k. induction actions as [|a actions IH]; intros i now [|k]; cbn; try done.
  - by rewrite Z.add_0_r.
  - rewrite IH. unfold sleep. destruct (actions !! k); cbn; [|done]. do 2 f_equal. lia.
Qed.

Lemma launch_loop_actions {A} delay i now (actions : list A) :
  (launch_loop delay i now actions).*2 = actions.
Proof.
  apply list_eq. intros k. rewrite list_lookup_fmap, launch_loop_lookup.
  by destruct (actions !! k).
Qed.

Lemma slept_nonneg delay i k : 0 <= slept delay i k.
Proof. revert i. induction k as [|k IH]; intros i; cbn; [lia|]. specialize (IH (S i)). lia. Qed.

Lemma slept_const d i k : slept (fun _ => d) i k = Z.of_nat k * Z.max 0 d.
Proof. revert i. induction k as [|k IH]; intros i; cbn -[Z.max]; [lia|]. rewrite IH. lia. Qed.

Lemma launch_loop_times {A} delay i now (actions : list A) t :
  t ∈ (launch_loop delay i now actions).*1 -> now <= t.
Proof.
  intros ([t' a] & -> & [k Hk]%list_elem_of_lookup)%list_elem_of_fmap.
  rewrite launch_loop_lookup in Hk. destruct (actions !! k); simplify_eq/=.
  pose proof (slept_nonneg delay i k). lia.
Qed.

Lemma slept_snoc delay i k : slept delay i (S k) = slept delay i k + Z.max 0 (delay (i + k)%nat).
Proof.
  revert i. induction k as [|k IH]; intros i; cbn -[Z.max].
  - rewrite Nat.add_0_r. lia.
  - specialize (IH (S i)). cbn -[Z.max] in IH. rewrite IH, Nat.add_succ_r. lia.
Qed.

(** The stepped delays: after every [b]-th action. *)
Lemma slept_stepped b d k :
  0 < b -> 0 <= d ->
  slept (fun i => if Z.rem (Z.of_nat i + 1) b =? 0 then d else 0) 0 k = Z.of_nat k / b * d.
Proof.
  intros Hb Hd. induction k as [|k IH]; [by rewrite Z.div_0_l by lia|].
  rewrite slept_snoc, IH. cbn [Nat.add]. rewrite Z.rem_mod_nonneg by lia.
  rewrite Nat2Z.inj_succ. unfold Z.succ.
  pose proof (Z.div_mod (Z.of_nat k + 1) b ltac:(lia)).
  pose proof (Z.mod_pos_bound (Z.of_nat k + 1) b ltac:(lia)).
  destruct (Z.eqb_spec ((Z.of_nat k + 1) mod b) 0) as [Hm|Hm].
  - assert (Z.of_nat k / b = (Z.of_nat k + 1) / b - 1) as ->; [|nia].
    symmetry. apply (Z.div_unique _ _ _ (b - 1)); lia.
  - assert (Z.of_nat k / b = (Z.of_nat k + 1) / b) as ->; [|lia].
    symmetry. apply (Z.div_unique _ _ _ ((Z.of_nat k + 1) mod b - 1)); lia.
Qed.

(** a stepped load starts its actions in bursts: action [i] starts exactly
    [i / BurstSize] step delays after the beginning, so no instant sees more
    than one burst; every action is started, in order. *)
Theorem steppedLoad_schedule {A} (p : SteppedLoad) now (actions : list A) :
  0 < BurstSize p -> 0 <= StepDelay p ->
  exists launches,
    steppedLoad_Execute p now actions = Some launches /\
    launches.*2 = actions /\
    (forall (i : nat) a, actions !! i = Some a ->
       launches !! i = Some (now + Z.of_nat i / BurstSize p * StepDelay p, a)) /\
    (0 < StepDelay p -> forall i j ti tj ai aj,
       launches !! i = Some (ti, ai) -> launches !! j = Some (tj, aj) ->
       ti = tj -> Z.abs (Z.of_nat i - Z.of_nat j) < BurstSize p).
Proof.
  intros Hb Hd. set (delay := fun i => if Z.rem (Z.of_nat i + 1) (BurstSize p) =? 0
                                       then StepDelay p else 0).
  exists (launch_loop delay 0 now actions).
  assert (forall k, launch_loop delay 0 now actions !! k =
    (fun a => (now + Z.of_nat k / BurstSize p * StepDelay p, a)) <$> actions !! k) as Hl.
  { intros k. rewrite launch_loop_lookup. unfold delay. by rewrite slept_stepped. }
  split_and!.
  - unfold steppedLoad_Execute. destruct actions; [done|].
    destruct (Z.eqb_spec (BurstSize p) 0); [lia|done].
  - apply launch_loop_actions.
  - intros i a Ha. by rewrite Hl, Ha.
  - intros Hpos i j ti tj ai aj Hi Hj Heq. rewrite Hl in Hi, Hj.
    destruct (actions !! i), (actions !! j); simplify_eq/=.
    assert (Z.of_nat i / BurstSize p = Z.of_nat j / BurstSize p) as Hq by nia.
    pose proof (Z.div_mod (Z.of_nat i) (BurstSize p) ltac:(lia)).
    pose proof (Z.div_mod (Z.of_nat j) (BurstSize p) ltac:(lia)).
    pose proof (Z.mod_pos_bound (Z.of_nat i) (BurstSize p) ltac:(lia)).
    pose proof (Z.mod_pos_bound (Z.of_nat j) (BurstSize p) ltac:(lia)). nia.
Qed.

Lemma steppedLoad_schedule_witness :
  exists launches,
    steppedLoad_Execute (mkSteppedLoad 2 10) 100 ["a"; "b"; "c"] = Some launches /\
    launches.*2 = ["a"; "b"; "c"] /\
    (forall (i : nat) a, ["a"; "b"; "c"] !! i = Some a ->
       launches !! i = Some (100 + Z.of_nat i / 2 * 10, a)) /\
    (0 < 10 -> forall i j ti tj ai aj,
       launches !! i = Some (ti, ai) -> launches !! j = Some (tj, aj) ->
       ti = tj -> Z.abs (Z.of_nat i - Z.of_nat j) < 2).
Proof. apply (steppedLoad_schedule (mkSteppedLoad 2 10) 100 ["a"; "b"; "c"]); cbn; lia. Defined.

(** a time limited load spreads its actions evenly: consecutive starts are
    [TimeLimit / n] apart and the last action starts within the limit. *)
Theorem timeLimitedLoad_within_limit {A} (p : TimeLimitedLoad) now (actions : list A) :
  0 < TimeLimit p ->
  exists launches,
    timeLimitedLoad_Execute p now actions = Some launches /\
    launches.*2 = actions /\
    forall i t a, launches !! i = Some (t, a) ->
      t = now + Z.of_nat i * (TimeLimit p / Z.of_nat (length actions)) /\
      now <= t <= now + TimeLimit p.
Proof.
  intros Hlim. unfold timeLimitedLoad_Execute. destruct actions as [|a0 rest]; [by exists []|].
  set (actions := a0 :: rest). set (n := Z.of_nat (length actions)).
  assert (0 < n) as Hn by (unfold n; cbn; lia).
  eexists. split; [done|]. split; [apply launch_loop_actions|].
  intros i t a Hi. rewrite launch_loop_lookup, slept_const in Hi. fold n in Hi.
  destruct (actions !! i) as [a'|] eqn:Ha; simplify_eq/=.
  apply lookup_lt_Some in Ha. rewrite Z.quot_div_nonneg by lia.
  pose proof (Z.div_pos (TimeLimit p) n ltac:(lia) Hn).
  pose proof (Z.mul_div_le (TimeLimit p) n Hn).
  rewrite Z.max_r by lia. split; [done|].
  assert (Z.of_nat i <= n) as Hin by (unfold n, actions; cbn in *; lia).
  pose proof (Z.mul_le_mono_nonneg_r _ _ (TimeLimit p / n) ltac:(done) Hin).
  pose proof (Z.mul_nonneg_nonneg (Z.of_nat i) (TimeLimit p / n)). lia.
Qed.

Lemma timeLimitedLoad_within_limit_witness :
  exists launches,
    timeLimitedLoad_Execute (mkTimeLimitedLoad 10) 0 [1; 2; 3] = Some launches /\
    launches.*2 = [1; 2; 3] /\
    forall i t a, launches !! i = Some (t, a) ->
      t = 0 + Z.of_nat i * (10 / Z.of_nat (length [1; 2; 3])) /\ 0 <= t <= 0 + 10.
Proof. apply (timeLimitedLoad_within_limit (mkTimeLimitedLoad 10) 0 [1; 2; 3]). cbn. lia. Defined.

(** ** Every action runs exactly once *)

(** Documented behaviour of what a tuning set calls: [ParallelizeUntil] with a
    positive worker count processes every piece once; [Limiter.Wait] returns an
    error only for a request above the burst, which is at least one;
    [rand.Int63n(n)] is in [0, n). *)
Definition env_ok (env : exec_env) (ts : tuning_set) (n : nat) : Prop :=
  match ts with
  | TParallelismLimited p =>
      (env_parallelize env (ParallelismLimit p) n).*2 ≡ₚ seq 0 n /\
      Forall (fun t => 0 <= t) (env_parallelize env (ParallelismLimit p) n).*1
  | TGlobalQPS _ => forall i, (env_wait env i).2 = None
  | TRandomizedTimeLimited p =>
      0 < rtl_TimeLimit p -> forall i, 0 <= env_int63n env (rtl_TimeLimit p) i < rtl_TimeLimit p
  | TStepped p => 0 < BurstSize p
  | _ => True
  end.

Lemma poisson_loop_spec {A} env rate i now next (actions : list A) :
  (poisson_loop env rate i now next actions).*2 = actions /\
  Forall (fun t => now <= t) (poisson_loop env rate i now next actions).*1.
Proof.
  revert i now next. induction actions as [|a actions IH]; intros i now next; cbn; [done|].
  destruct (IH (S i) (sleep now (next - now))
             (next + interArrivalTime (env_log env) (env_rand env i) rate)) as [H1 H2].
  split; [by f_equal|]. unfold sleep in *. constructor; [lia|].
  eapply Forall_impl; [exact H2|]. cbn. lia.
Qed.

Lemma global_loop_spec {A} env i now (actions : list A) :
  (forall j, (env_wait env j).2 = None) ->
  (global_loop env i now actions).*2 = actions /\
  Forall (fun t => now <= t) (global_loop env i now actions).*1.
Proof.
  intros Hw. revert i now. induction actions as [|a actions IH]; intros i now; cbn; [done|].
  specialize (Hw i). destruct (env_wait env i) as [d err]. cbn in Hw. subst. cbn.
  destruct (IH (S i) (sleep now d)) as [H1 H2]. split; [by f_equal|].
  unfold sleep in *. constructor; [lia|]. eapply Forall_impl; [exact H2|]. cbn. lia.
Qed.

Lemma omap_fmap_list {A B C} (f : B -> option C) (g : A -> B) (l : list A) :
  omap f (g <$> l) = omap (fun x => f (g x)) l.
Proof. induction l as [|a l IH]; [done|]. cbn. by rewrite IH. Qed.

Lemma fmap_lookup_seq {A} (l : list A) : omap (fun i => l !! i) (seq 0 (length l)) = l.
Proof.
  induction l as [|a l IH]; [done|]. cbn. f_equal. rewrite <- fmap_S_seq, omap_fmap_list. exact IH.
Qed.

Lemma parallel_spec {A} (pieces : list (Z * nat)) now (actions : list A) :
  pieces.*2 ≡ₚ seq 0 (length actions) -> Forall (fun t => 0 <= t) pieces.*1 ->
  exists ls, mapM (fun '(t, i) => a ← actions !! i; Some (now + t, a)) pieces = Some ls /\
    ls.*2 ≡ₚ actions /\ Forall (fun t => now <= t) ls.*1.
Proof.
  intros Hp Ht.
  assert (Forall (fun i => i < length actions)%nat pieces.*2) as Hlt.
  { apply Forall_forall. intros i Hi. rewrite Hp in Hi. apply elem_of_seq in Hi. lia. }
  assert (exists ls, mapM (fun '(t, i) => a ← actions !! i; Some (now + t, a)) pieces = Some ls /\
    ls.*2 = omap (fun i => actions !! i) pieces.*2 /\ Forall (fun t => now <= t) ls.*1)
    as (ls & Hls & Heq & Hge).
  { clear Hp. induction pieces as [|[t i] pieces IH]; [by exists []|].
    apply Forall_cons in Ht as [Ht0 Ht], Hlt as [Hlt0 Hlt].
    destruct (IH Ht Hlt) as (ls & Hls & Heq & Hge).
    destruct (lookup_lt_is_Some_2 actions i Hlt0) as [a Ha].
    exists ((now + t, a) :: ls). cbn in *. rewrite Ha. cbn. rewrite Hls. cbn.
    split_and!; [done|by f_equal|]. constructor; [lia|done]. }
  exists ls. split_and!; [done| |done]. rewrite Heq, Hp. by rewrite fmap_lookup_seq.
Qed.

Lemma slept_ext f g i k :
  (forall j, Z.max 0 (f j) = Z.max 0 (g j)) -> slept f i k = slept g i k.
Proof. intros Hfg. revert i. induction k as [|k IH]; intros i; cbn -[Z.max]; [done|]. by rewrite Hfg, IH. Qed.

Lemma global_loop_lookup {A} env i now (actions : list A) k :
  (forall j, (env_wait env j).2 = None) ->
  global_loop env i now actions !! k =
    (fun a => (now + slept (fun j => (env_wait env j).1) i (S k), a)) <$> actions !! k.
Proof.
  intros Hw. revert i now k. induction actions as [|a actions IH]; intros i now k; [by destruct k|].
  cbn [global_loop]. specialize (Hw i) as Hi. destruct (env_wait env i) as [d err] eqn:Hd. cbn in Hi. subst err.
  destruct k as [|k]; cbn -[Z.max slept].
  - do 2 f_equal. cbn -[Z.max]. rewrite Hd. unfold sleep. cbn -[Z.max]. lia.
  - rewrite IH. destruct (actions !! k); cbn -[Z.max slept]; [|done]. do 2 f_equal.
    cbn -[Z.max]. rewrite Hd. unfold sleep. cbn -[Z.max]. lia.
Qed.

Lemma poisson_loop_lookup {A} env rate i now (actions : list A) k :
  let gap j := interArrivalTime (env_log env) (env_rand env j) rate in
  (forall j, 0 <= gap j) ->
  poisson_loop env rate (S i) now (now + gap i) actions !! k =
    (fun a => (now + slept gap i (S k), a)) <$> actions !! k.
Proof.
  cbn zeta. intros Hg. revert i now k. induction actions as [|a actions IH]; intros i now k; [by destruct k|].
  cbn [poisson_loop]. pose proof (Hg i) as Hi.
  replace (sleep now _) with (now + interArrivalTime (env_log env) (env_rand env i) rate) by (unfold sleep; lia).
  destruct k as [|k]; cbn -[Z.max slept]; [|rewrite IH; destruct (actions !! k); cbn -[Z.max slept]; [|done]];
    do 2 f_equal; cbn -[Z.max]; lia.
Qed.

(** When the [k]-th of [n] actions is to start: at a fixed pace, after the
    random sleeps drawn for the actions before it, after every full burst,
    evenly over the time limit, at a random time within it, when the limiter
    has admitted it and those before it, or after the arrival gaps drawn for the
    actions before it. A parallelism limited load promises no time. *)
Definition due (env : exec_env) (ts : tuning_set) (now : Z) (n k : nat) (t : Z) : Prop :=
  match ts with
  | TQps p => t = now + Z.of_nat k * Z.max 0 (qps_sleep (QPS p))
  | TRandomized p => t = now + slept (fun i => sleepDuration (env_rand env i) (AverageQPS p)) 0 k
  | TStepped p => t = now + Z.of_nat k / BurstSize p * Z.max 0 (StepDelay p)
  | TTimeLimited p =>
      t = now + Z.of_nat k * Z.max 0 (TimeLimit p ÷ Z.of_nat n) /\ t <= now + Z.max 0 (TimeLimit p)
  | TRandomizedTimeLimited p => t <= now + Z.max 0 (rtl_TimeLimit p)
  | TParallelismLimited _ => True
  | TGlobalQPS _ => t = now + slept (fun i => (env_wait env i).1) 0 (S k)
  | TPoisson p =>
      let gap i := interArrivalTime (env_log env) (env_rand env i) (ExpectedActionsPerSecond p) in
      (forall i, 0 <= gap i) -> t = now + slept gap 0 k
  end.

(** Every tuning set but the parallelism limited one starts in the order given. *)
Definition in_order (ts : tuning_set) : bool :=
  match ts with TParallelismLimited _ => false | _ => true end.

Lemma launch_loop_due {A} delay now (actions : list A) (P : nat -> Z -> Prop) :
  (forall k, (k < length actions)%nat -> P k (now + slept delay 0 k)) ->
  forall k t a, launch_loop delay 0 now actions !! k = Some (t, a) -> P k t.
Proof.
  intros HP k t a. rewrite launch_loop_lookup. destruct (actions !! k) eqn:Ha; cbn; [|done].
  intros [= <- <-]. apply HP. by eapply lookup_lt_Some.
Qed.

Lemma even_pace limit n k :
  (k < n)%nat -> Z.of_nat k * Z.max 0 (limit ÷ Z.of_nat n) <= Z.max 0 limit.
Proof.
  intros Hk. destruct (Z.leb_spec limit 0) as [Hl|Hl].
  - assert (limit ÷ Z.of_nat n <= 0) as Hq; [|nia].
    rewrite <- (Z.opp_involutive limit), Z.quot_opp_l by lia.
    pose proof (Z.quot_pos (- limit) (Z.of_nat n)). lia.
  - rewrite Z.quot_div_nonneg by lia.
    pose proof (Z.mul_div_le limit (Z.of_nat n) ltac:(lia)).
    pose proof (Z.div_pos limit (Z.of_nat n) ltac:(lia) ltac:(lia)). nia.
Qed.

(** The schedule of the tuning sets that launch in order. *)
Lemma Execute_schedule {A} env ts now (actions : list A) launches :
  env_ok env ts (length actions) -> Execute env ts now actions = Some launches ->
  forall k t a, launches !! k = Some (t, a) -> due env ts now (length actions) k t.
Proof.
  intros Hok He. destruct ts as [p|p|p|p|p|p|l|p]; cbn in *.
  - apply (inj Some) in He as <-. apply launch_loop_due. intros k _. by rewrite slept_const.
  - apply (inj Some) in He as <-. by apply launch_loop_due.
  - unfold steppedLoad_Execute in He. destruct actions as [|a0 rest]; [by apply (inj Some) in He as <-|].
    destruct (Z.eqb_spec (BurstSize p) 0); [lia|]. apply (inj Some) in He as <-. apply launch_loop_due. intros k _.
    rewrite <- (slept_stepped (BurstSize p) (Z.max 0 (StepDelay p))) by lia.
    f_equal. apply slept_ext. intros j. destruct (_ =? 0); lia.
  - unfold timeLimitedLoad_Execute in He. destruct actions as [|a0 rest]; [by apply (inj Some) in He as <-|].
    apply (inj Some) in He as <-. apply launch_loop_due. intros k Hk. rewrite slept_const.
    pose proof (even_pace (TimeLimit p) _ _ Hk). lia.
  - apply (inj Some) in He as <-. intros k t a. rewrite list_lookup_imap. destruct (actions !! k); cbn; [|done].
    intros [= <- _]. destruct (Z.ltb_spec 0 (rtl_TimeLimit p)) as [Hl|Hl]; [|lia].
    specialize (Hok Hl k). unfold sleep. lia.
  - done.
  - apply (inj Some) in He as <-. intros k t a. rewrite global_loop_lookup by done.
    destruct (actions !! k); cbn -[slept]; [|done]. by intros [= <- _].
  - apply (inj Some) in He as <-. intros k t a Hk Hg. unfold poissonLoad_Execute in *. destruct actions as [|a0 rest]; [done|].
    cbn [poisson_loop] in Hk. replace (sleep now (now - now)) with now in Hk by (unfold sleep; lia).
    destruct k as [|k]; cbn -[slept interArrivalTime] in Hk; [injection Hk as <- _; cbn; lia|].
    pose proof (poisson_loop_lookup env (ExpectedActionsPerSecond p) 0 now rest k Hg) as Hl. cbn beta in Hl.
    pose proof (eq_trans (eq_sym Hl) Hk) as Ht. destruct (rest !! k); cbn -[slept] in Ht; [|done].
    by injection Ht as <- _.
Qed.

Lemma Execute_launches {A} env ts now (actions : list A) :
  env_ok env ts (length actions) ->
  exists launches, Execute env ts now actions = Some launches /\
    launches.*2 ≡ₚ actions /\ (in_order ts = true -> launches.*2 = actions) /\
    Forall (fun t => now <= t) launches.*1.
Proof.
  intros Hok.
  assert (forall delay, let l := launch_loop delay 0 now actions in
    l.*2 ≡ₚ actions /\ (in_order ts = true -> l.*2 = actions) /\ Forall (fun t => now <= t) l.*1) as HL.
  { intros delay. cbn zeta. rewrite launch_loop_actions. split_and!; [done..|].
    apply Forall_forall. intros t. apply launch_loop_times. }
  assert (forall l : list (Z * A), l.*2 = actions /\ Forall (fun t => now <= t) l.*1 ->
    l.*2 ≡ₚ actions /\ (in_order ts = true -> l.*2 = actions) /\ Forall (fun t => now <= t) l.*1) as HE.
  { intros l [-> ?]. done. }
  destruct ts as [p|p|p|p|p|p|l|p]; cbn in *; try (eexists; split; [done|]; apply HL).
  - unfold steppedLoad_Execute. destruct actions as [|a rest]; [by exists []|].
    destruct (Z.eqb_spec (BurstSize p) 0); [lia|]. eexists. split; [done|]. apply HL.
  - unfold timeLimitedLoad_Execute. destruct actions as [|a rest]; [by exists []|].
    eexists. split; [done|]. apply HL.
  - eexists. split; [done|]. apply HE. split.
    + apply list_eq. intros i. rewrite list_lookup_fmap, list_lookup_imap. by destruct (actions !! i).
    + apply Forall_forall. intros t ([t' a] & -> & Hin)%list_elem_of_fmap. cbn.
      apply elem_of_lookup_imap in Hin as (i & b & Heq & _). simplify_eq.
      destruct (0 <? rtl_TimeLimit p); unfold sleep; lia.
  - destruct Hok as [Hp Ht]. destruct (parallel_spec _ now actions Hp Ht) as (ls & ? & ? & ?). by exists ls.
  - eexists. split; [done|]. apply HE. by apply global_loop_spec.
  - eexists. split; [done|]. apply HE. apply poisson_loop_spec.
Qed.


(** An environment with no randomness, an always-admitting limiter and a
    sequential [ParallelizeUntil]. *)
Definition sample_env : exec_env :=
  mkEnv (fun _ => f64_zero) (fun _ _ => 0) (fun x => x) (fun _ => (5, None))
    (fun _ n => (fun i => (0, i)) <$> seq 0 n).


(** ** The factory and the validator agree *)

Lemma Init_lookup tf tsets name t :
  tuningSetMap (Init tf tsets) !! name = Some t -> t ∈ tsets /\ tset_Name t = name.
Proof.
  unfold Init. cbn. induction tsets as [|x tsets IH] using rev_ind; [done|].
  rewrite fold_left_app. cbn. rewrite lookup_insert. case_decide; [intros; simplify_eq; set_solver|].
  intros [? ?]%IH. set_solver.
Qed.

Lemma Init_declared tf tsets name :
  is_Some (tuningSetMap (Init tf tsets) !! name) <-> name ∈ tset_Name <$> tsets.
Proof.
  unfold Init. cbn. induction tsets as [|x tsets IH] using rev_ind.
  - cbn. rewrite lookup_empty. split; [by intros []|set_solver].
  - rewrite fold_left_app, fmap_app, elem_of_app, <- IH. cbn. rewrite lookup_insert.
    case_decide; subst; set_solver.
Qed.

(** The parameters [Execute] relies on are positive. *)
Definition params_ok (ts : tuning_set) : Prop :=
  match ts with
  | TQps p => f64_leb (QPS p) f64_zero = false
  | TRandomized p => f64_leb (AverageQPS p) f64_zero = false
  | TStepped p => 0 < BurstSize p
  | TTimeLimited p => 0 < TimeLimit p
  | TRandomizedTimeLimited p => 0 < rtl_TimeLimit p
  | TParallelismLimited p => 0 < ParallelismLimit p
  | TGlobalQPS _ => True
  | TPoisson p => f64_leb (ExpectedActionsPerSecond p) f64_zero = false
  end.

Lemma CreateTuningSet_valid tf tsets name :
  name ∈ tset_Name <$> tsets ->
  (forall t, t ∈ tsets -> valid_load t /\ load_count t = 1%nat) ->
  exists ts, (CreateTuningSet (Init tf tsets) name).2 = Ok ts /\ params_ok ts.
Proof.
  intros Hn Hv. destruct (proj2 (Init_declared tf tsets name) Hn) as [t Ht].
  pose proof (Init_lookup _ _ _ _ Ht) as [Hin _].
  destruct (Hv t Hin) as [(V1&V2&V3&V4&V5&V6&V7&V8) Hc].
  unfold CreateTuningSet. rewrite Ht. unfold load_count in Hc.
  repeat case_match; cbn; simplify_eq/=; eauto.
  all: eexists; split; [done|]; cbn; eauto.
Qed.

Section WithValidator.
Context (deps meas : gmap string bool) (notExist : string -> bool) (cwd : string)
  (dns : string -> list string) (dir : string).
Let V := Validate deps meas notExist cwd dns dir.

(** a validated config never fails at tuning set creation for a phase that
    names its tuning set: the factory finds it, builds it, and its parameters
    are positive, whatever limiters were created before. *)
Theorem validated_tuning_set_created c s p tf :
  V c = None -> s ∈ Steps c -> p ∈ Phases s -> PhaseTuningSet p <> "" ->
  exists ts, (CreateTuningSet (Init tf (TuningSets c)) (PhaseTuningSet p)).2 = Ok ts /\ params_ok ts.
Proof.
  intros Hv Hs Hp Hne. apply Validate_None_iff in Hv as (_&_&_&Ht&_&Hst).
  destruct (Hst s Hs) as (_&Hph&_). destruct (Hph p Hp) as (_&[?|?]); [done|].
  by apply CreateTuningSet_valid.
Qed.

(** The validator lets a phase leave its tuning set empty (the reference check
    skips the empty name), but unless a tuning set with an empty name is
    declared the factory then refuses it, so the phase fails at run time with
    "tuningset  not found". *)
Theorem empty_tuning_set_passes_validation_but_fails c s p tf :
  V c = None -> s ∈ Steps c -> p ∈ Phases s -> PhaseTuningSet p = "" ->
  "" ∉ tset_Name <$> TuningSets c ->
  CreateTuningSet (Init tf (TuningSets c)) (PhaseTuningSet p)
    = (Init tf (TuningSets c), Err (Errorf "tuningset %s not found" [AStr ""])).
Proof.
  intros _ _ _ -> Hni. unfold CreateTuningSet.
  destruct (tuningSetMap (Init tf (TuningSets c)) !! "") eqn:Hl; [|done].
  exfalso. apply Hni, (Init_declared tf). rewrite Hl. eauto.
Qed.
End WithValidator.

Lemma validated_tuning_set_created_witness :
  exists ts, (CreateTuningSet (Init NewFactory (TuningSets sample_config)) "Uniform").2 = Ok ts
             /\ params_ok ts.
Proof.
  apply (validated_tuning_set_created ∅ sample_registry (fun _ => false) "/" (fun _ => []) "dir"
           sample_config (mkStep [sample_phase] [] no_module "create") sample_phase NewFactory).
  - vm_compute. reflexivity.
  - right. left.
  - left.
  - discriminate.
Defined.

Definition untuned_phase : Phase := mkPhase None None 1 "" [sample_object].
Definition untuned_config : Config :=
  set_Steps sample_config [mkStep [untuned_phase] [] no_module "create"].

Lemma empty_tuning_set_passes_validation_but_fails_witness :
  CreateTuningSet (Init NewFactory (TuningSets untuned_config)) ""
    = (Init NewFactory (TuningSets untuned_config), Err (Errorf "tuningset %s not found" [AStr ""])).
Proof.
  apply (empty_tuning_set_passes_validation_but_fails ∅ sample_registry (fun _ => false) "/"
           (fun _ => []) "dir" untuned_config (mkStep [untuned_phase] [] no_module "create")
           untuned_phase NewFactory).
  - vm_compute. reflexivity.
  - left.
  - left.
  - reflexivity.
  - apply (bool_decide_unpack _). vm_compute. exact I.
Defined.

(** ** Global rate limiters are shared by name *)

(** Addresses are allocated and no two names share one. *)
Definition global_wf (f : globalQPSLoadFactory) : Prop :=
  (forall n l, existing f !! n = Some l -> (l < length (limiters f))%nat) /\
  (forall n1 n2 l, existing f !! n1 = Some l -> existing f !! n2 = Some l -> n1 = n2).

Lemma GetOrCreate_spec f name p f' l :
  global_wf f -> GetOrCreate f name p = (f', l) ->
  global_wf f' /\ existing f' !! name = Some l /\
  (forall n l0, existing f !! n = Some l0 -> existing f' !! n = Some l0).
Proof.
  intros [Hb Hi] Hg. unfold GetOrCreate in Hg.
  destruct (existing f !! name) as [l0|] eqn:He; simplify_eq; [done|]. cbn.
  split; [split|split].
  - intros n l Hl. cbn in *. rewrite length_app. cbn. rewrite lookup_insert in Hl. case_decide; simplify_eq; [lia|].
    apply Hb in Hl. lia.
  - intros n1 n2 l. cbn. rewrite !lookup_insert. repeat case_decide; intros H1 H2; simplify_eq; try done.
    + apply Hb in H2. lia.
    + apply Hb in H1. lia.
    + by apply (Hi n1 n2 l).
  - by rewrite lookup_insert_eq.
  - intros n l0 Hn. rewrite lookup_insert_ne by congruence. done.
Qed.

Lemma CreateTuningSet_global tf name tf' r :
  global_wf (globalFactory tf) -> CreateTuningSet tf name = (tf', r) ->
  global_wf (globalFactory tf') /\
  (forall n l, existing (globalFactory tf) !! n = Some l -> existing (globalFactory tf') !! n = Some l) /\
  (forall l, r = Ok (TGlobalQPS l) -> existing (globalFactory tf') !! name = Some l).
Proof.
  intros Hwf Hc. unfold CreateTuningSet in Hc.
  repeat case_match; simplify_eq; try (split_and!; [done|done|intros; done]).
  destruct (GetOrCreate_spec _ _ _ _ _ Hwf H7) as (?&?&?).
  cbn. split_and!; [done|done|]. intros l [= <-]. done.
Qed.

(** A run of the factory: any sequence of [CreateTuningSet], its results. *)
Fixpoint create_all (tf : simpleFactory) (names : list string)
  : simpleFactory * list (result tuning_set) :=
  match names with
  | [] => (tf, [])
  | n :: names' =>
      let '(tf1, r) := CreateTuningSet tf n in
      let '(tf2, rs) := create_all tf1 names' in (tf2, r :: rs)
  end.

Lemma create_all_spec tf names tf' rs :
  global_wf (globalFactory tf) -> create_all tf names = (tf', rs) ->
  global_wf (globalFactory tf') /\
  (forall n l, existing (globalFactory tf) !! n = Some l -> existing (globalFactory tf') !! n = Some l) /\
  (forall i n l, names !! i = Some n -> rs !! i = Some (Ok (TGlobalQPS l)) ->
     existing (globalFactory tf') !! n = Some l).
Proof.
  revert tf tf' rs. induction names as [|n names IH]; intros tf tf' rs Hwf Hc; cbn in Hc.
  { simplify_eq. split_and!; [done|done|intros; done]. }
  destruct (CreateTuningSet tf n) as [tf1 r] eqn:H1.
  destruct (create_all tf1 names) as [tf2 rs'] eqn:H2. simplify_eq.
  destruct (CreateTuningSet_global _ _ _ _ Hwf H1) as (Hwf1 & Hm1 & Hr1).
  destruct (IH _ _ _ Hwf1 H2) as (Hwf2 & Hm2 & Hr2).
  split_and!; [done|by eauto|]. intros [|i] m l Hm Hr; cbn in *; simplify_eq; eauto.
Qed.

Lemma global_wf_new : global_wf newGlobalQPSLoadFactory.
Proof. split; intros *; cbn; by rewrite lookup_empty. Qed.

(** all phases naming the same global tuning set share one rate limiter, and
    different names never share: over any sequence of [CreateTuningSet] calls
    two global loads have the same limiter iff their names agree. *)
Theorem global_limiter_shared_by_name tsets names i j ni nj li lj :
  let results := (create_all (Init NewFactory tsets) names).2 in
  names !! i = Some ni -> names !! j = Some nj ->
  results !! i = Some (Ok (TGlobalQPS li)) ->
  results !! j = Some (Ok (TGlobalQPS lj)) ->
  (li = lj <-> ni = nj).
Proof.
  cbn. destruct (create_all (Init NewFactory tsets) names) as [tf' rs] eqn:Hc. cbn.
  intros Hi Hj Hri Hrj.
  destruct (create_all_spec _ _ _ _ (global_wf_new : global_wf (globalFactory (Init NewFactory tsets))) Hc)
    as ([_ Hinj] & _ & Hr).
  pose proof (Hr _ _ _ Hi Hri). pose proof (Hr _ _ _ Hj Hrj). naive_solver.
Qed.

Definition sample_global (name : string) : TuningSet :=
  mkTuningSet name 0 None None None None None None (Some (mkGlobalQPSLoad (f64_of_Z 5) 1)) None.

Lemma global_limiter_shared_by_name_witness : (0%nat = 1%nat <-> "g1" = "g2").
Proof.
  apply (global_limiter_shared_by_name [sample_global "g1"; sample_global "g2"]
           ["g1"; "g2"; "g1"] 0 1 "g1" "g2" 0 1).
  all: vm_compute; reflexivity.
Defined.
