(* ===== verification/Executor.v ===== *)
(** * The phase executor (pkg/test/simple_test_executor.go)

    [ExecuteObject], [ExecutePhase] and their helpers. The template provider,
    the cluster framework and apimachinery's selector parsing are interfaces;
    the state of pkg/state and the tuning sets are the components of this
    development. *)

From S2P Require Import Prelude GoErrors Params Api Validation State TuningSet.

(** ** Interfaces *)

Record GroupVersionKind := mkGVK { Group : string; Version : string; Kind : string }.

(** [unstructured.Unstructured]: its type and the rest of its content. *)
Record Unstructured := mkUnstructured { u_gvk : GroupVersionKind; u_content : params }.

(** What the executor uses of [config.TemplateProvider] (it caches, so two calls
    agree) and of the context's template mapping. *)
Class TemplateProvider := {
  RawToObject : string -> result Unstructured;
  TemplateToObject : string -> params -> result Unstructured;
  templateMapping : params;
}.

(** What it uses of [framework.Framework] (with [GetNumObjectsMatchingSelector]),
    over a cluster of type [C]. *)
Class Framework (C : Type) := {
  CreateObject : C -> string -> string -> Unstructured -> C * option error;
  PatchObject : C -> string -> string -> Unstructured -> C * option error;
  DeleteObject : C -> GroupVersionKind -> string -> string -> C * option error;
  GetNumObjectsMatchingSelector : C -> string -> GroupVersionKind -> string -> result Z;
  LabelSelectorAsSelector : string -> result string;
  GetAutomanagedNamespacePrefix : C -> string;
}.

Inductive OperationType := createObject | patchObject | deleteObject | unknownOperation (n : Z).

(** ** ExecuteObject *)
Section Objects.
Context {C : Type} `{TemplateProvider} `{Framework C}.

(** The template mapping of one replica. *)
Definition object_mapping (object : Object) (namespace : string) (replicaIndex : Z) (objName : string)
  : params :=
  let mapping := CloneMap templateMapping in
  let mapping := match TemplateFillMap object with
                 | Some fill => CopyMap fill mapping
                 | None => mapping
                 end in
  <["Namespace" := VString namespace]>
    (<["Name" := VString objName]>
      (<["Index" := VInt32 replicaIndex]>
        (<["BaseName" := VString (Basename object)]> mapping))).

(** The last switch of [ExecuteObject], on an object that was read. *)
Definition apply_operation (c : C) (namespace objName : string) (obj : Unstructured)
  (operation : OperationType) : C * ErrorList :=
  let report fmt '(c', err) :=
    match err with
    | Some e => (c', Append (NewErrorList []) [Errorf fmt [AStr namespace; AStr objName; AErr e]])
    | None => (c', NewErrorList [])
    end in
  match operation with
  | createObject =>
      report "namespace %v object %v creation error: %v" (CreateObject c namespace objName obj)
  | patchObject =>
      report "namespace %v object %v updating error: %v" (PatchObject c namespace objName obj)
  | deleteObject =>
      report "namespace %v object %v deletion error: %v" (DeleteObject c (u_gvk obj) namespace objName)
  | unknownOperation _ => (c, NewErrorList [])
  end.

Definition ExecuteObject (c : C) (object : Object) (namespace : string) (replicaIndex : Z)
  (operation : OperationType) : C * ErrorList :=
  let objName := indexed_name (Basename object) replicaIndex in
  let path := ObjectTemplatePath object in
  let continue (fmt : string) (r : result Unstructured) : C * ErrorList :=
    match r with
    | Ok obj => apply_operation c namespace objName obj operation
    | Err (Sentinel SEmptyFile) => (c, NewErrorList [])
    | Err err => (c, NewErrorList [Errorf fmt [AStr path; AErr err]])
    end in
  match operation with
  | createObject | patchObject =>
      continue "reading template (%v) error: %v"
        (TemplateToObject path (object_mapping object namespace replicaIndex objName))
  | deleteObject => continue "reading template (%v) for deletion error: %v" (RawToObject path)
  | unknownOperation n =>
      (c, NewErrorList [Errorf "unsupported operation %v for namespace %v object %v"
                          [AInt n; AStr namespace; AStr objName]])
  end.

(** ** Helpers of ExecutePhase *)

Definition getIdentifier (object : Object) : result InstancesIdentifier :=
  match RawToObject (ObjectTemplatePath object) with
  | Err err => Err (Errorf "reading template (%v) for identifier error: %v"
                      [AStr (ObjectTemplatePath object); AErr err])
  | Ok obj => Ok (mkInstancesIdentifier (Basename object) (Kind (u_gvk obj)) (Group (u_gvk obj)))
  end.

(** A failed listing is reported as zero replicas with no error. *)
Definition getReplicaCountOfNewObject (c : C) (namespace : string) (object : Object) : result Z :=
  match ListUnknown object with
  | None => Ok 0
  | Some opts =>
      selector ← LabelSelectorAsSelector (luo_LabelSelector opts);
      obj ← RawToObject (ObjectTemplatePath object);
      match GetNumObjectsMatchingSelector c namespace (u_gvk obj) selector with
      | Err _ => Ok 0
      | Ok replicaCount => Ok (wrap32 replicaCount)
      end
  end.

(** [for i := Min; i <= Max; i++] over [int32]; [None] when the fuel runs out. *)
Fixpoint namespaces_loop (fuel : nat) (nsBasename : string) (i max : Z) : option (list string) :=
  match fuel with
  | O => None
  | S fuel' =>
      if i <=? max then
        rest ← namespaces_loop fuel' nsBasename (wrap32 (i + 1)) max;
        Some (indexed_name nsBasename i :: rest)
      else Some []
  end.

Definition createNamespacesList (fuel : nat) (c : C) (namespaceRange : option NamespaceRange)
  : option (list string) :=
  match namespaceRange with
  | None => Some [""]
  | Some nr =>
      let nsBasename := match nr_Basename nr with
                        | Some b => b
                        | None => GetAutomanagedNamespacePrefix c
                        end in
      namespaces_loop fuel nsBasename (Min nr) (Max nr)
  end.

(** [uninitialized = -1]; [prev] is the previous element, for the message. *)
Fixpoint verify_loop (expected : Z) (prev : option InstancesState) (l : list InstancesState)
  : option error :=
  match l with
  | [] => None
  | i :: l' =>
      if negb (expected =? -1) && negb (CurrentReplicaCount i =? expected) then
        Some (Errorf "bundle error: %s has %d replicas while %s has %d"
                [AStr (Basename (inst_Object i)); AInt (CurrentReplicaCount i);
                 AStr (from_option (fun p => Basename (inst_Object p)) "" prev);
                 AInt (from_option CurrentReplicaCount 0 prev)])
      else verify_loop (CurrentReplicaCount i) (Some i) l'
  end.

Definition verifyBundleCorrectness (instancesStates : list InstancesState) : option error :=
  verify_loop (-1) None instancesStates.

(** ** ExecutePhase: planning *)

(** The closures appended to [actions], with what they capture. *)
Record action := mkAction {
  act_op : OperationType;
  act_namespace : string;
  act_index : Z;
  act_instances : list loc;      (* instancesStates *)
}.

(** The loop over the object bundle of one namespace: the pointers collected in
    [instancesStates], or the error of an early return. *)
Fixpoint bundle_loop (c : C) (replicas : Z) (nsName : string) (bundle : list Object)
  (st : NamespacesState) (acc : list loc) : NamespacesState * result (list loc) :=
  match bundle with
  | [] => (st, Ok acc)
  | o :: bundle' =>
      match getIdentifier o with
      | Err err => (st, Err err)
      | Ok id =>
          match (match Get st nsName id with
                 | Some l => Ok (st, l)
                 | None =>
                     n ← getReplicaCountOfNewObject c nsName o;
                     Ok (alloc st (mkInstancesState 0 n o))
                 end) with
          | Err err => (st, Err err)
          | Ok (st1, l) =>
              let st2 := Set_ (setDesired st1 l replicas) nsName id l in
              bundle_loop c replicas nsName bundle' st2 (acc ++ [l])
          end
      end
  end.

(** [*instancesStates[j]] for every [j]. *)
Definition deref (st : NamespacesState) (locs : list loc) : list InstancesState :=
  omap (fun l => heap st !! l) locs.

(** [for replicaCounter := lo; replicaCounter < hi; replicaCounter++]; the
    counter stays below [hi], so it cannot overflow. *)
Definition counters (lo hi : Z) : list Z := seqZ lo (hi - lo).

(** The actions of one namespace, in the order they are appended. *)
Definition namespace_actions (nsName : string) (locs : list loc) (current replicas : Z) : list action :=
  map (fun i => mkAction deleteObject nsName i locs) (counters replicas current)
  ++ (if current =? replicas
      then map (fun i => mkAction patchObject nsName i locs) (counters 0 replicas) else [])
  ++ map (fun i => mkAction createObject nsName i locs) (counters current replicas).

(** How planning ends: [Return] is an early return of [ExecutePhase]. *)
Inductive plan_outcome :=
| Planned
| Return (errs : option ErrorList).

Record plan_state := mkPlan {
  plan_st : NamespacesState;
  plan_actions : list action;
  plan_defers : list (string * list loc);      (* in registration order *)
}.

Fixpoint plan_loop (c : C) (phase : Phase) (nsList : list string) (p : plan_state)
  : plan_state * plan_outcome :=
  match nsList with
  | [] => (p, Planned)
  | nsName :: nsList' =>
      let '(st, r) := bundle_loop c (ReplicasPerNamespace phase) nsName (ObjectBundle phase)
                        (plan_st p) [] in
      let p1 := mkPlan st (plan_actions p) (plan_defers p) in
      match r with
      | Err err => (p1, Return (Some (NewErrorList [err])))
      | Ok locs =>
          match verifyBundleCorrectness (deref st locs) with
          | Some err => (p1, Return (Some (NewErrorList [err])))
          | None =>
              match deref st locs with
              | [] => (p1, Return None)
              | first :: _ =>
                  plan_loop c phase nsList'
                    (mkPlan st
                       (plan_actions p ++ namespace_actions nsName locs
                          (CurrentReplicaCount first) (ReplicasPerNamespace phase))
                       (plan_defers p ++ [(nsName, locs)]))
              end
          end
      end
  end.

(** ** ExecutePhase: running the actions *)

Record object_op := mkOp {
  op_object : Object;
  op_namespace : string;
  op_index : Z;
  op_type : OperationType;
}.

Definition run_op (c : C) (o : object_op) : C * ErrorList :=
  ExecuteObject c (op_object o) (op_namespace o) (op_index o) (op_type o).

(** A started action: the object operations it has left, and whether it stops at
    its first error ([break]) or goes on (deletion). *)
Record thread := mkThread { th_ops : list object_op; th_stop : bool }.

(** The closure bodies. Deletion visits the bundle in reverse and skips objects
    with too few replicas; nothing changes the counts while actions run. *)
Definition action_thread (bundle : list Object) (st : NamespacesState) (a : action) : thread :=
  match act_op a with
  | deleteObject =>
      mkThread
        (rev (omap (fun '(o, l) =>
                      match heap st !! l with
                      | Some i => if act_index a <? CurrentReplicaCount i
                                  then Some (mkOp o (act_namespace a) (act_index a) deleteObject)
                                  else None
                      | None => None
                      end) (zip bundle (act_instances a))))
        false
  | op => mkThread (map (fun o => mkOp o (act_namespace a) (act_index a) op) bundle) true
  end.

(** What is left of a thread after its operation returned [el]. *)
Definition thread_next (t : thread) (rest : list object_op) (el : ErrorList) : thread :=
  if th_stop t && negb (IsEmpty el) then mkThread [] (th_stop t) else mkThread rest (th_stop t).

(** Goroutines interleave at the granularity of one object operation; the shared
    error list is appended under its lock. *)
Inductive pool_step : list thread * C * ErrorList -> list thread * C * ErrorList -> Prop :=
| pool_step_intro pre t o rest post c errs c' el :
    th_ops t = o :: rest ->
    run_op c o = (c', el) ->
    pool_step (pre ++ t :: post, c, errs)
              (pre ++ thread_next t rest el :: post, c',
               if IsEmpty el then errs else Concat errs (Some el)).

Definition pool_done (pool : list thread) : Prop := Forall (fun t => th_ops t = []) pool.

(** [wg.Wait] returned: every interleaving that runs all threads to the end. *)
Definition pool_run (pool : list thread) (c : C) (c' : C) (errs : ErrorList) : Prop :=
  exists pool', rtc pool_step (pool, c, NewErrorList []) (pool', c', errs) /\ pool_done pool'.

(** One thread at a time, as an executable schedule. *)
Fixpoint run_thread_ops (stop : bool) (ops : list object_op) (c : C) (errs : ErrorList) : C * ErrorList :=
  match ops with
  | [] => (c, errs)
  | o :: rest =>
      let '(c', el) := run_op c o in
      let errs' := if IsEmpty el then errs else Concat errs (Some el) in
      if stop && negb (IsEmpty el) then (c', errs') else run_thread_ops stop rest c' errs'
  end.

Fixpoint run_sequential (pool : list thread) (c : C) (errs : ErrorList) : C * ErrorList :=
  match pool with
  | [] => (c, errs)
  | t :: pool' =>
      let '(c', errs') := run_thread_ops (th_stop t) (th_ops t) c errs in
      run_sequential pool' c' errs'
  end.

(** ** ExecutePhase: the deferred state update *)

(** One deferred closure; on a template error [id] is the zero identifier. *)
Definition deferred_one (nsName : string) (st : NamespacesState) (ol : Object * loc) : NamespacesState :=
  let id := match getIdentifier ol.1 with Ok id => id | Err _ => mkInstancesIdentifier "" "" "" end in
  Set_ (currentToDesired st ol.2) nsName id ol.2.

Definition deferred (bundle : list Object) (st : NamespacesState) (d : string * list loc) : NamespacesState :=
  fold_left (deferred_one d.1) (zip bundle d.2) st.

(** Deferred calls run in the reverse order of their registration. *)
Definition run_defers (bundle : list Object) (st : NamespacesState) (defers : list (string * list loc))
  : NamespacesState :=
  fold_left (deferred bundle) (rev defers) st.

(** ** ExecutePhase *)

(** How the actions are scheduled: the tuning set starts them, the runtime
    interleaves them. *)
Definition scheduler : Type := tuning_set -> list thread -> C -> C * ErrorList.

Definition sequential_scheduler : scheduler := fun _ pool c => run_sequential pool c (NewErrorList []).

Record phase_result := mkPhaseResult {
  pr_state : NamespacesState;
  pr_factory : simpleFactory;
  pr_cluster : C;
  pr_errors : option ErrorList;
}.

(** The namespaces of a phase: its explicit list, or else its range. *)
Definition phase_namespaces (fuel : nat) (c : C) (phase : Phase) : option (list string) :=
  match NamespaceList phase with
  | Some l => Some l
  | None => createNamespacesList fuel c (PhaseNamespaceRange phase)
  end.

(** [None]: the namespace loop did not finish within [fuel]. *)
Definition ExecutePhase (fuel : nat) (sched : scheduler) (phase : Phase)
  (st : NamespacesState) (tf : simpleFactory) (c : C) : option phase_result :=
  nsList ← phase_namespaces fuel c phase;
  let '(tf', r) := CreateTuningSet tf (PhaseTuningSet phase) in
  match r with
  | Err err =>
      Some (mkPhaseResult st tf' c (Some (NewErrorList [Errorf "tuning set creation error: %v" [AErr err]])))
  | Ok tuningSet =>
      let '(p, out) := plan_loop c phase nsList (mkPlan st [] []) in
      match out with
      | Return errs =>
          Some (mkPhaseResult (run_defers (ObjectBundle phase) (plan_st p) (plan_defers p)) tf' c errs)
      | Planned =>
          let pool := map (action_thread (ObjectBundle phase) (plan_st p)) (plan_actions p) in
          let '(c', errs) := sched tuningSet pool c in
          Some (mkPhaseResult (run_defers (ObjectBundle phase) (plan_st p) (plan_defers p)) tf' c' (Some errs))
      end
  end.

(** A scheduler that runs what the tuning set starts: every thread, to the end. *)
Definition fair_scheduler (sched : scheduler) : Prop :=
  forall ts pool c, pool_run pool c (sched ts pool c).1 (sched ts pool c).2.

End Objects.

(** ** The namespace list *)

Lemma namespaces_loop_spec fuel base i max :
  - 2 ^ 31 <= i -> max < MaxInt32 -> (Z.to_nat (max - i + 1) < fuel)%nat ->
  namespaces_loop fuel base i max = Some (indexed_name base <$> seqZ i (max - i + 1)).
Proof.
  revert i. induction fuel as [|fuel IH]; intros i Hi Hmax Hf; [lia|]. cbn [namespaces_loop].
  destruct (Z.leb_spec i max).
  - rewrite wrap32_id by (unfold int32_range, MaxInt32 in *; lia).
    rewrite IH by (unfold MaxInt32 in *; lia).
    rewrite (seqZ_cons i) by lia. cbn. repeat f_equal; lia.
  - rewrite seqZ_nil by lia. done.
Qed.

Lemma namespaces_loop_diverges fuel base i :
  int32_range i -> namespaces_loop fuel base i MaxInt32 = None.
Proof.
  revert i. induction fuel as [|fuel IH]; intros i Hi; [done|]. cbn [namespaces_loop].
  rewrite (proj2 (Z.leb_le _ _)) by (unfold int32_range in Hi; lia).
  rewrite IH by apply wrap32_range. done.
Qed.

(** for a namespace range with [0 <= Min <= Max] below the largest [int32],
    the loop terminates and yields [Max - Min + 1] pairwise distinct names
    "<base>-Min" .. "<base>-Max", the base being the range's own or the
    automanaged prefix; without a range it yields the cluster scope alone. *)
Theorem createNamespacesList_correct {C} `{Framework C} (c : C) nr fuel :
  0 <= Min nr <= Max nr -> Max nr < MaxInt32 ->
  (Z.to_nat (Max nr - Min nr + 1) < fuel)%nat ->
  let base := default (GetAutomanagedNamespacePrefix c) (nr_Basename nr) in
  exists l, createNamespacesList fuel c (Some nr) = Some l /\
    l = indexed_name base <$> seqZ (Min nr) (Max nr - Min nr + 1) /\
    NoDup l /\ Z.of_nat (length l) = Max nr - Min nr + 1 /\
    createNamespacesList fuel c None = Some [""].
Proof.
  intros Hm Hmax Hf base. eexists. split_and!; [|reflexivity| | |done].
  - unfold createNamespacesList. rewrite namespaces_loop_spec by lia. subst base.
    by destruct (nr_Basename nr).
  - apply (NoDup_fmap_2_strong); [|apply NoDup_seqZ]. intros x y _ _. apply indexed_name_inj.
  - rewrite length_fmap, length_seqZ. lia.
Qed.

(** a range whose [Max] is the largest [int32], which validation accepts, makes
    the loop run forever: the counter wraps around below [Max] again, so no
    amount of fuel finishes it. *)
Theorem createNamespacesList_overflow_diverges {C} `{Framework C} (c : C) nr fuel :
  0 <= Min nr <= Max nr -> Max nr = MaxInt32 ->
  createNamespacesList fuel c (Some nr) = None /\
  validateNamespaceRange nr "namespaceRange" = [].
Proof.
  intros Hm Hmax. split.
  - unfold createNamespacesList. rewrite Hmax. apply namespaces_loop_diverges.
    unfold int32_range, MaxInt32 in *. lia.
  - unfold validateNamespaceRange, guard_err.
    by rewrite (proj2 (Z.ltb_ge _ _)), (proj2 (Z.ltb_ge _ _)) by lia.
Qed.

(** ** Bundle verification *)

Lemma verify_loop_None expected prev l :
  expected <> -1 -> Forall (fun i => 0 <= CurrentReplicaCount i) l ->
  verify_loop expected prev l = None <-> Forall (fun i => CurrentReplicaCount i = expected) l.
Proof.
  revert expected prev. induction l as [|i l IH]; intros e prev He Hl; [done|].
  apply Forall_cons in Hl as [Hi Hl]. cbn. rewrite Forall_cons.
  destruct (Z.eqb_spec e (-1)); [done|]. cbn.
  destruct (Z.eqb_spec (CurrentReplicaCount i) e) as [Heq|Hne]; cbn.
  - rewrite Heq, IH by done. naive_solver.
  - split; [done|naive_solver].
Qed.

Lemma verifyBundle_None l n :
  Forall (fun i => 0 <= CurrentReplicaCount i) l ->
  match l with [] => True | i :: _ => CurrentReplicaCount i = n end ->
  verifyBundleCorrectness l = None <-> Forall (fun i => CurrentReplicaCount i = n) l.
Proof.
  destruct l as [|i l]; [done|]. intros Hl Hn. apply Forall_cons in Hl as [Hi Hl].
  unfold verifyBundleCorrectness. cbn. rewrite verify_loop_None by (done || lia).
  rewrite Forall_cons. naive_solver.
Qed.

(** [verifyBundleCorrectness] accepts a bundle (of non-negative counts) exactly
    when all its objects have the same current replica count. *)
Lemma verifyBundleCorrectness_correct l :
  Forall (fun i => 0 <= CurrentReplicaCount i) l ->
  verifyBundleCorrectness l = None <->
  (forall i j, i ∈ l -> j ∈ l -> CurrentReplicaCount i = CurrentReplicaCount j).
Proof.
  intros Hl. destruct l as [|i0 l]; [split; [set_solver|done]|].
  rewrite (verifyBundle_None _ (CurrentReplicaCount i0)) by done. rewrite Forall_forall.
  split; [intros Ha i j Hi Hj; by rewrite (Ha i), (Ha j)|].
  intros Ha i Hi. apply Ha; set_solver.
Qed.

(** ** The sequential schedule is one of the interleavings *)
Section Sequential.
Context {C : Type} `{TemplateProvider} `{Framework C}.

Lemma run_thread_ops_steps stop ops pre post c errs :
  exists t, th_ops t = [] /\
    rtc pool_step (pre ++ mkThread ops stop :: post, c, errs)
      (pre ++ t :: post, (run_thread_ops stop ops c errs).1, (run_thread_ops stop ops c errs).2).
Proof.
  revert c errs. induction ops as [|o ops IH]; intros c errs.
  { exists (mkThread [] stop). split; [done|apply rtc_refl]. }
  cbn [run_thread_ops]. destruct (run_op c o) as [c' el] eqn:Ho.
  pose proof (pool_step_intro pre (mkThread (o :: ops) stop) o ops post c errs c' el eq_refl Ho) as Hs.
  unfold thread_next in Hs. cbn [th_stop] in Hs. destruct (stop && negb (IsEmpty el)).
  - eexists. split; [|by eapply rtc_once]. done.
  - destruct (IH c' (if IsEmpty el then errs else Concat errs (Some el))) as (t & Ht & Hr).
    exists t. split; [done|]. eapply rtc_l; [exact Hs|exact Hr].
Qed.

Lemma run_sequential_steps pool pre c errs :
  pool_done pre ->
  exists pool', pool_done pool' /\
    rtc pool_step (pre ++ pool, c, errs)
      (pool', (run_sequential pool c errs).1, (run_sequential pool c errs).2).
Proof.
  revert pre c errs. induction pool as [|[ops stop] pool IH]; intros pre c errs Hpre.
  { exists pre. rewrite app_nil_r. split; [done|apply rtc_refl]. }
  cbn [run_sequential th_stop th_ops].
  destruct (run_thread_ops_steps stop ops pre pool c errs) as (t & Ht & Hr).
  destruct (run_thread_ops stop ops c errs) as [c1 errs1]. cbn in Hr.
  destruct (IH (pre ++ [t]) c1 errs1) as (pool' & Hd & Hr').
  { apply Forall_app. split; [done|]. by repeat constructor. }
  exists pool'. split; [done|]. etrans; [exact Hr|]. by rewrite <- app_assoc in Hr'.
Qed.

Lemma sequential_scheduler_fair : fair_scheduler sequential_scheduler.
Proof.
  intros ts pool c. unfold sequential_scheduler.
  destruct (run_sequential_steps pool [] c (NewErrorList [])) as (pool' & Hd & Hr); [by constructor|].
  exists pool'. done.
Qed.
End Sequential.

(** ** An in-memory cluster

    The smallest implementation of the interfaces: a set of objects, and two
    templates. It shows that the hypotheses of the theorems can hold. *)

(** An object managed by the test: namespace, API group, kind, name. *)
Definition key : Type := string * string * string * string.

Definition key_of (ns : string) (id : InstancesIdentifier) (i : Z) : key :=
  (ns, id_APIGroup id, id_ObjectKind id, indexed_name (id_Basename id) i).

Definition obj_key (ns name : string) (g : GroupVersionKind) : key := (ns, Group g, Kind g, name).

Definition sample_gvk (path : string) : option GroupVersionKind :=
  if String.eqb path "deployment.yaml" then Some (mkGVK "apps" "v1" "Deployment")
  else if String.eqb path "service.yaml" then Some (mkGVK "" "v1" "Service")
  else None.

Definition sample_template (path : string) (m : params) : result Unstructured :=
  match sample_gvk path with
  | Some g => Ok (mkUnstructured g m)
  | None => Err (External "not found")
  end.

Definition sample_provider : TemplateProvider :=
  {| RawToObject := fun path => sample_template path ∅;
     TemplateToObject := sample_template;
     templateMapping := ∅ |}.

Definition sample_framework : Framework (gset key) :=
  {| CreateObject := fun c ns name obj => ({[obj_key ns name (u_gvk obj)]} ∪ c, None);
     PatchObject := fun c _ _ _ => (c, None);
     DeleteObject := fun c g ns name => (c ∖ {[obj_key ns name g]}, None);
     GetNumObjectsMatchingSelector := fun _ _ _ _ => Ok 0;
     LabelSelectorAsSelector := Ok;
     GetAutomanagedNamespacePrefix := fun _ => "test-abcdef" |}.

Lemma createNamespacesList_correct_witness :
  exists l, @createNamespacesList _ sample_framework 5 ∅ (Some (mkNamespaceRange 1 3 None)) = Some l /\
    NoDup l /\ length l = 3%nat.
Proof.
  destruct (@createNamespacesList_correct _ sample_framework ∅ (mkNamespaceRange 1 3 None) 5)
    as (l & Hl & _ & Hnd & Hlen & _); [cbn; lia|cbn; unfold MaxInt32; lia|cbn; lia|].
  exists l. split_and!; [done..|]. cbn in Hlen. lia.
Defined.

Lemma createNamespacesList_overflow_diverges_witness :
  @createNamespacesList _ sample_framework 1000 ∅ (Some (mkNamespaceRange 1 MaxInt32 None)) = None /\
  validateNamespaceRange (mkNamespaceRange 1 MaxInt32 None) "namespaceRange" = [].
Proof.
  apply (@createNamespacesList_overflow_diverges _ sample_framework ∅ (mkNamespaceRange 1 MaxInt32 None) 1000).
  - cbn. unfold MaxInt32. lia.
  - reflexivity.
Defined.

