(* ===== verification/Reconcile.v ===== *)
(** * What a phase promises: reconciliation

    A phase declares that in every namespace of its list every object of its
    bundle has exactly [ReplicasPerNamespace] replicas, named "<basename>-0" and
    up. This file states that contract over the set of objects in the cluster
    and proves that [ExecutePhase] implements it for every interleaving of its
    actions, the recorded state staying in step with the cluster. *)

From S2P Require Import Prelude GoErrors Params Api Validation State TuningSet Executor.

(** ** The cluster the framework talks to *)

(** The Kubernetes API as the framework's callers see it: a call that returns no
    error has had its effect on the set of managed objects (creation tolerates
    an existing object, deletion a missing one). Nothing is assumed of calls
    that fail. *)
Class ClusterLaws (C : Type) `{Framework C} := {
  objs : C -> gset key;
  create_effect c ns name obj c' :
    CreateObject c ns name obj = (c', None) -> objs c' = {[obj_key ns name (u_gvk obj)]} ∪ objs c;
  patch_effect c ns name obj c' :
    PatchObject c ns name obj = (c', None) -> objs c' = objs c;
  delete_effect c ns name gvk c' :
    DeleteObject c gvk ns name = (c', None) -> objs c' = objs c ∖ {[obj_key ns name gvk]};
}.

Lemma key_of_inj ns1 ns2 id1 id2 i j :
  0 <= i -> 0 <= j -> key_of ns1 id1 i = key_of ns2 id2 j -> ns1 = ns2 /\ id1 = id2 /\ i = j.
Proof.
  destruct id1 as [b1 k1 g1], id2 as [b2 k2 g2]. unfold key_of. cbn. intros Hi Hj [= -> -> -> Heq].
  apply indexed_name_inj2 in Heq as [-> ->]; done.
Qed.

Section Reconcile.
Context {C : Type} `{TP : TemplateProvider} `{FW : Framework C} `{CL : !ClusterLaws C}.

(** Templates are readable, never render to an empty file, and rendering does
    not change the kind the raw template shows. *)
Definition template_ok (o : Object) (id : InstancesIdentifier) : Prop :=
  getIdentifier o = Ok id /\
  forall m, match TemplateToObject (ObjectTemplatePath o) m with
            | Ok obj => Kind (u_gvk obj) = id_ObjectKind id /\ Group (u_gvk obj) = id_APIGroup id
            | Err (Sentinel SEmptyFile) => False
            | Err _ => True
            end.

Lemma template_ok_raw o id :
  template_ok o id ->
  exists raw, RawToObject (ObjectTemplatePath o) = Ok raw /\
    id = mkInstancesIdentifier (Basename o) (Kind (u_gvk raw)) (Group (u_gvk raw)).
Proof.
  intros [Hid _]. unfold getIdentifier in Hid. destruct (RawToObject _) as [raw|]; simplify_eq. eauto.
Qed.

(** ** One object operation *)

Definition op_key (o : object_op) (id : InstancesIdentifier) : key := key_of (op_namespace o) id (op_index o).

(** The three operations of the executor, on an object with a good template. *)
Definition op_ok (o : object_op) (id : InstancesIdentifier) : Prop :=
  template_ok (op_object o) id /\
  (op_type o = createObject \/ op_type o = patchObject \/ op_type o = deleteObject).

Definition op_effect (o : object_op) (id : InstancesIdentifier) (s : gset key) : gset key :=
  match op_type o with
  | createObject => {[op_key o id]} ∪ s
  | deleteObject => s ∖ {[op_key o id]}
  | _ => s
  end.

Lemma run_op_effect c o id c' el :
  op_ok o id -> run_op c o = (c', el) -> IsEmpty el = true -> objs c' = op_effect o id (objs c).
Proof.
  intros [Ht Hty] Hrun Hel.
  destruct (template_ok_raw _ _ Ht) as (raw & Hraw & Hid).
  destruct Ht as [_ Htmpl].
  destruct o as [ob ns i ty]. unfold run_op, ExecuteObject, op_effect, op_key, key_of in *. cbn in *.
  destruct Hty as [-> | [-> | ->]]; cbn in Hrun.
  - specialize (Htmpl (object_mapping ob ns i (indexed_name (Basename ob) i))).
    destruct (TemplateToObject _ _) as [obj|e].
    + destruct (CreateObject c ns (indexed_name (Basename ob) i) obj) as [c1 [err|]] eqn:Hc;
        injection Hrun as <- <-; [done|].
      apply create_effect in Hc. rewrite Hc. unfold obj_key. destruct Htmpl as [-> ->]. by subst id.
    + by destruct e as [[]| | | | | |]; simplify_eq.
  - specialize (Htmpl (object_mapping ob ns i (indexed_name (Basename ob) i))).
    destruct (TemplateToObject _ _) as [obj|e].
    + destruct (PatchObject c ns (indexed_name (Basename ob) i) obj) as [c1 [err|]] eqn:Hc;
        injection Hrun as <- <-; [done|].
      by apply patch_effect in Hc.
    + by destruct e as [[]| | | | | |]; simplify_eq.
  - rewrite Hraw in Hrun. cbn in Hrun.
    destruct (DeleteObject c (u_gvk raw) ns (indexed_name (Basename ob) i)) as [c1 [err|]] eqn:Hc;
      injection Hrun as <- <-; [done|].
    apply delete_effect in Hc. rewrite Hc. by subst id.
Qed.

(** ** A pool of actions, in any interleaving *)

Definition pool_ops (pool : list thread) : list object_op := concat (th_ops <$> pool).

Definition creates (ops : list object_op) (k : key) : Prop :=
  exists o id, o ∈ ops /\ op_ok o id /\ op_type o = createObject /\ op_key o id = k.
Definition deletes (ops : list object_op) (k : key) : Prop :=
  exists o id, o ∈ ops /\ op_ok o id /\ op_type o = deleteObject /\ op_key o id = k.

Definition ops_ok (ops : list object_op) : Prop :=
  (forall o, o ∈ ops -> exists id, op_ok o id) /\
  (forall k, creates ops k -> ~ deletes ops k).

Lemma pool_ops_app p1 p2 : pool_ops (p1 ++ p2) = pool_ops p1 ++ pool_ops p2.
Proof. unfold pool_ops. by rewrite fmap_app, concat_app. Qed.

Lemma pool_step_ops pre t o rest post :
  th_ops t = o :: rest ->
  pool_ops (pre ++ t :: post) ≡ₚ o :: pool_ops (pre ++ mkThread rest (th_stop t) :: post).
Proof.
  intros Ht. rewrite !pool_ops_app. unfold pool_ops at 2 4. cbn. rewrite Ht.
  cbn. symmetry. apply Permutation_middle.
Qed.

Lemma op_ok_unique o id id' : op_ok o id -> op_ok o id' -> id = id'.
Proof. intros [[H1 _] _] [[H2 _] _]. congruence. Qed.

Lemma creates_cons o id ops k :
  op_ok o id -> creates (o :: ops) k <-> (op_type o = createObject /\ op_key o id = k) \/ creates ops k.
Proof.
  intros Ho. unfold creates. setoid_rewrite elem_of_cons. split.
  - intros (o' & id' & [->|Hin] & Hok & Hty & Hk); [|by eauto 10].
    left. by rewrite (op_ok_unique _ _ _ Ho Hok).
  - intros [[Hty Hk]|(o' & id' & ?)]; [by eauto 10|naive_solver].
Qed.

Lemma deletes_cons o id ops k :
  op_ok o id -> deletes (o :: ops) k <-> (op_type o = deleteObject /\ op_key o id = k) \/ deletes ops k.
Proof.
  intros Ho. unfold deletes. setoid_rewrite elem_of_cons. split.
  - intros (o' & id' & [->|Hin] & Hok & Hty & Hk); [|by eauto 10].
    left. by rewrite (op_ok_unique _ _ _ Ho Hok).
  - intros [[Hty Hk]|(o' & id' & ?)]; [by eauto 10|naive_solver].
Qed.

#[local] Instance creates_proper : Proper ((≡ₚ) ==> eq ==> iff) creates.
Proof. intros l1 l2 Hl k ? <-. unfold creates. by setoid_rewrite Hl. Qed.
#[local] Instance deletes_proper : Proper ((≡ₚ) ==> eq ==> iff) deletes.
Proof. intros l1 l2 Hl k ? <-. unfold deletes. by setoid_rewrite Hl. Qed.
#[local] Instance ops_ok_proper : Proper ((≡ₚ) ==> iff) ops_ok.
Proof.
  intros l1 l2 Hl. unfold ops_ok. setoid_rewrite Hl. done.
Qed.

Lemma ops_ok_cons o ops : ops_ok (o :: ops) -> (exists id, op_ok o id) /\ ops_ok ops.
Proof.
  intros [Ha Hd]. split; [apply Ha; set_solver|].
  destruct (Ha o ltac:(set_solver)) as [id Hid].
  split; [intros o' ?; apply Ha; set_solver|]. intros k Hc Hx.
  apply (Hd k); [rewrite creates_cons by done|rewrite deletes_cons by done]; auto.
Qed.

(** The set of objects after a run: what was created, and what was there and not
    deleted. *)
Definition final_objs (ops : list object_op) (s s' : gset key) : Prop :=
  forall k, k ∈ s' <-> creates ops k \/ (k ∈ s /\ ~ deletes ops k).

Lemma final_objs_step o id ops s s' :
  op_ok o id -> ops_ok (o :: ops) ->
  final_objs ops (op_effect o id s) s' -> final_objs (o :: ops) s s'.
Proof.
  intros Ho [_ Hdisj] Hf k. rewrite (Hf k), creates_cons, deletes_cons by done.
  specialize (Hdisj k). rewrite creates_cons, deletes_cons in Hdisj by done.
  unfold op_effect. destruct Ho as [_ [Hty|[Hty|Hty]]]; rewrite Hty in *.
  - rewrite elem_of_union, elem_of_singleton. naive_solver.
  - naive_solver.
  - rewrite elem_of_difference, elem_of_singleton. naive_solver.
Qed.

Lemma pool_steps_final pool c errs pool' c' errs' :
  rtc pool_step (pool, c, errs) (pool', c', errs') ->
  pool_done pool' -> IsEmpty errs' = true -> ops_ok (pool_ops pool) ->
  IsEmpty errs = true /\ final_objs (pool_ops pool) (objs c) (objs c').
Proof.
  intros Hrtc. remember (pool, c, errs) as s eqn:Hs. remember (pool', c', errs') as s' eqn:Hs'.
  revert pool c errs Hs. induction Hrtc as [s|s1 s2 s3 Hstep Hrtc IH]; intros pool c errs -> Hd He Hok.
  - injection Hs' as <- <- <-. split; [done|]. intros k. unfold pool_done in Hd.
    assert (pool_ops pool = []) as ->.
    { unfold pool_ops. clear -Hd. induction Hd as [|t pool Ht Hd IH]; [done|]. cbn. by rewrite Ht. }
    unfold creates, deletes. set_solver.
  - inversion Hstep as [pre t o rest post c0 errs0 c1 el Ht Hrun]; simplify_eq.
    pose proof (pool_step_ops pre t o rest post Ht) as Hperm.
    rewrite Hperm in Hok. destruct (ops_ok_cons _ _ Hok) as [[id Hid] Hok'].
    destruct (IsEmpty el) eqn:Hel.
    + unfold thread_next in IH. rewrite Hel, andb_false_r in IH.
      destruct (IH eq_refl _ _ _ eq_refl Hd He Hok') as [He1 Hf]. split; [done|].
      rewrite (run_op_effect _ _ _ _ _ Hid Hrun Hel) in Hf.
      intros k. rewrite Hperm. by apply (final_objs_step o id).
    + exfalso. assert (forall x y, rtc pool_step x y -> IsEmpty y.2 = true -> IsEmpty x.2 = true) as Hmono.
      { clear. intros x y Hr. induction Hr as [|x y z Hxy _ IH]; [done|]. intros Hz%IH.
        inversion Hxy; subst; cbn in *. destruct (IsEmpty el); [done|].
        unfold Concat in Hz. rewrite IsEmpty_app in Hz. by apply andb_true_iff in Hz as [? _]. }
      apply Hmono in Hrtc; [|done]. cbn in Hrtc. unfold Concat in Hrtc.
      rewrite IsEmpty_app in Hrtc. apply andb_true_iff in Hrtc as [_ Hrtc].
      destruct el. cbn in Hrtc. congruence.
Qed.

Lemma pool_run_final pool c c' errs :
  pool_run pool c c' errs -> IsEmpty errs = true -> ops_ok (pool_ops pool) ->
  final_objs (pool_ops pool) (objs c) (objs c').
Proof. intros (pool' & Hr & Hd) He Hok. by eapply pool_steps_final in Hr as [_ ?]. Qed.

(** ** The recorded state *)

(** Every stored pointer is allocated and no two entries share a cell. *)
Definition state_ok (st : NamespacesState) : Prop :=
  state_wf st /\
  forall ns id ns' id' l, Get st ns id = Some l -> Get st ns' id' = Some l -> ns = ns' /\ id = id'.

Lemma state_ok_new : state_ok newNamespacesState.
Proof.
  split; [apply state_wf_new|]. intros ns id ns' id' l Hg. unfold Get in Hg. cbn in Hg.
  by rewrite lookup_empty in Hg.
Qed.

(** The replica count [ExecutePhase] starts from: the recorded one, or for an
    object it sees for the first time the one it asks the cluster for. *)
Definition current_count (c : C) (st : NamespacesState) (ns : string) (o : Object)
  (id : InstancesIdentifier) : result Z :=
  match lookup_instances st ns id with
  | Some i => Ok (CurrentReplicaCount i)
  | None => getReplicaCountOfNewObject c ns o
  end.

(** A cell planned for [n] replicas that has [cur] of them. *)
Definition planned (st : NamespacesState) (ns : string) (n cur : Z) (oid : Object * InstancesIdentifier)
  (l : loc) : Prop :=
  Get st ns oid.2 = Some l /\
  exists i, heap st !! l = Some i /\ DesiredReplicaCount i = n /\ CurrentReplicaCount i = cur.

(** Nothing a reader sees changed at [(ns, id)]. *)
Definition same_at (st st' : NamespacesState) (ns : string) (id : InstancesIdentifier) : Prop :=
  Get st' ns id = Get st ns id /\ lookup_instances st' ns id = lookup_instances st ns id.

Lemma same_at_trans st1 st2 st3 ns id : same_at st1 st2 ns id -> same_at st2 st3 ns id -> same_at st1 st3 ns id.
Proof. unfold same_at. intuition congruence. Qed.

Lemma planned_same st st' ns n cur oid l :
  same_at st st' ns oid.2 -> planned st ns n cur oid l -> planned st' ns n cur oid l.
Proof.
  intros [HG HL] (Hg & i & Hi & ?). split; [congruence|]. exists i.
  unfold lookup_instances in HL. rewrite HG, Hg in HL. cbn in HL. split; [congruence|done].
Qed.

Lemma current_count_same c st st' ns o id :
  same_at st st' ns id -> current_count c st' ns o id = current_count c st ns o id.
Proof. intros [_ HL]. unfold current_count. by rewrite HL. Qed.

(** The body of the bundle loop: one object. *)
Definition plan_object (c : C) (n : Z) (ns : string) (o : Object) (id : InstancesIdentifier)
  (st : NamespacesState) : option (NamespacesState * loc) :=
  match Get st ns id with
  | Some l => Some (Set_ (setDesired st l n) ns id l, l)
  | None =>
      match getReplicaCountOfNewObject c ns o with
      | Ok k => let '(st1, l) := alloc st (mkInstancesState 0 k o) in
                Some (Set_ (setDesired st1 l n) ns id l, l)
      | Err _ => None
      end
  end.

Lemma plan_object_spec c n ns o id st cur :
  state_ok st -> current_count c st ns o id = Ok cur ->
  exists st' l, plan_object c n ns o id st = Some (st', l) /\ state_ok st' /\
    planned st' ns n cur (o, id) l /\
    forall ns' id', ns' <> ns \/ id' <> id -> same_at st st' ns' id'.
Proof.
  intros [Hwf Hinj] Hcur. unfold plan_object, current_count, lookup_instances in *.
  destruct (Get st ns id) as [l|] eqn:Hg; cbn in Hcur.
  - destruct (Hwf _ _ _ Hg) as [i Hi]. rewrite Hi in Hcur. simplify_eq.
    eexists _, l. split; [done|]. split_and!.
    + split; [apply state_wf_Set; [by apply state_wf_setDesired|cbn; rewrite is_Some_alter; eauto]|].
      intros ns1 id1 ns2 id2 l'. autorewrite with state.
      repeat case_decide; intros; simplify_eq; naive_solver.
    + split; [cbn; autorewrite with state; by rewrite decide_True|]. cbn.
      eexists. rewrite lookup_alter_eq, Hi. done.
    + intros ns' id' Hne. unfold same_at, lookup_instances. autorewrite with state.
      rewrite decide_False by naive_solver. split; [done|]. cbn.
      destruct (Get st ns' id') as [l'|] eqn:Hg'; [|done]. cbn.
      rewrite lookup_alter_ne; [done|]. intros ->. naive_solver.
  - destruct (getReplicaCountOfNewObject c ns o) as [k|]; simplify_eq.
    pose proof (alloc_fresh st (mkInstancesState 0 cur o)) as Hfr.
    assert (forall ns' id' l', Get st ns' id' = Some l' -> l' <> (alloc st (mkInstancesState 0 cur o)).2) as Hnew.
    { intros ns' id' l' Hl' ->. destruct (Hwf _ _ _ Hl') as [? ?]. congruence. }
    unfold alloc in *. cbn [snd] in *. set (l := fresh _) in *. eexists _, l. split; [done|]. split_and!.
    + split.
      * apply state_wf_Set; [apply state_wf_setDesired|cbn; rewrite is_Some_alter, lookup_insert_eq; eauto].
        apply (state_wf_alloc st). done.
      * intros ns1 id1 ns2 id2 l'. rewrite !Get_Set.
        change (Get (setDesired _ _ _)) with (Get st). 
        repeat case_decide; intros; simplify_eq; naive_solver.
    + split; [rewrite Get_Set; cbn; by rewrite decide_True|]. cbn.
      eexists. rewrite lookup_alter_eq, lookup_insert_eq. done.
    + intros ns' id' Hne. unfold same_at, lookup_instances. rewrite Get_Set.
      rewrite decide_False by naive_solver. change (Get (setDesired _ _ _)) with (Get st).
      split; [done|]. cbn. destruct (Get st ns' id') as [l'|] eqn:Hg'; [|done]. cbn.
      specialize (Hnew _ _ _ Hg'). by rewrite lookup_alter_ne, lookup_insert_ne.
Qed.

(** The bundle loop, one object at a time. *)
Lemma bundle_loop_cons c n ns o id bundle st acc :
  getIdentifier o = Ok id ->
  forall st' l, plan_object c n ns o id st = Some (st', l) ->
  bundle_loop c n ns (o :: bundle) st acc = bundle_loop c n ns bundle st' (acc ++ [l]).
Proof.
  intros Hid st' l Hp. cbn [bundle_loop]. rewrite Hid. unfold plan_object in Hp.
  destruct (Get st ns id) as [l0|]; [by simplify_eq|].
  destruct (getReplicaCountOfNewObject c ns o) as [k|]; [|done]. cbn in *. by simplify_eq.
Qed.

(** The objects of a bundle with their identifiers, which are pairwise distinct. *)
Definition bundle_ok (bs : list (Object * InstancesIdentifier)) : Prop :=
  NoDup bs.*2 /\ Forall (fun oid => template_ok oid.1 oid.2) bs.

Lemma bundle_loop_spec c n ns cur bs st acc :
  bundle_ok bs -> state_ok st ->
  Forall (fun oid => current_count c st ns oid.1 oid.2 = Ok (cur oid)) bs ->
  exists st' locs, bundle_loop c n ns bs.*1 st acc = (st', Ok (acc ++ locs)) /\ state_ok st' /\
    Forall2 (fun oid => planned st' ns n (cur oid) oid) bs locs /\
    forall ns' id', ns' <> ns \/ id' ∉ bs.*2 -> same_at st st' ns' id'.
Proof.
  revert st acc. induction bs as [|[o id] bs IH]; intros st acc [Hnd Hts] Hst Hcur.
  { exists st, []. rewrite app_nil_r. split_and!; [done..|]. intros. by split. }
  cbn in Hnd. apply NoDup_cons in Hnd as [Hnin Hnd].
  apply Forall_cons in Hts as [[Hid _] Hts], Hcur as [Hc Hcur]. cbn in Hid, Hc.
  destruct (plan_object_spec c n ns o id st _ Hst Hc) as (st1 & l & Hp & Hst1 & Hpl & Hsame).
  rewrite fmap_cons. cbn [fst]. rewrite (bundle_loop_cons _ _ _ _ id _ _ _ Hid _ _ Hp).
  assert (Forall (fun oid => current_count c st1 ns oid.1 oid.2 = Ok (cur oid)) bs) as Hcur1.
  { rewrite Forall_forall in Hcur |- *. intros [o' id'] Hin. cbn. rewrite <- (Hcur _ Hin). cbn.
    apply current_count_same, Hsame. right. intros ->. apply Hnin.
    apply list_elem_of_fmap. by exists (o', id). }
  destruct (IH st1 (acc ++ [l]) (conj Hnd Hts) Hst1 Hcur1) as (st2 & locs & -> & Hst2 & Hf & Hsame2).
  exists st2, (l :: locs). rewrite <- app_assoc. split_and!; [done..| |].
  - constructor; [|done]. eapply planned_same; [|done]. apply Hsame2. by right.
  - intros ns' id' Hne. eapply same_at_trans; [apply Hsame|apply Hsame2]; set_solver.
Qed.

Lemma deref_planned st ns n cur bs locs :
  Forall2 (fun oid => planned st ns n (cur oid) oid) bs locs ->
  CurrentReplicaCount <$> deref st locs = cur <$> bs.
Proof.
  induction 1 as [|oid l bs locs (_ & i & Hi & _ & Hc) _ IH]; [done|].
  unfold deref in *. cbn. rewrite Hi. cbn. by f_equal.
Qed.

(** ** Planning a phase *)
Section Phase.
Context (c : C) (phase : Phase) (bs : list (Object * InstancesIdentifier)) (cnt : string -> Z).
Hypothesis Hbundle : ObjectBundle phase = bs.*1.
Hypothesis Hbs : bundle_ok bs.
Hypothesis Hne : bs <> [].
Hypothesis Hcnt : forall ns, 0 <= cnt ns.

#[local] Abbreviation n := (ReplicasPerNamespace phase).

(** Every object of the bundle starts from [cnt ns] replicas in [ns]. *)
Definition starts_from (st : NamespacesState) (nsList : list string) : Prop :=
  forall ns o id, ns ∈ nsList -> (o, id) ∈ bs -> current_count c st ns o id = Ok (cnt ns).

Definition phase_actions (ds : list (string * list loc)) : list action :=
  concat (map (fun d => namespace_actions d.1 d.2 (cnt d.1) n) ds).

Definition ds_planned (st : NamespacesState) (ds : list (string * list loc)) : Prop :=
  Forall (fun d => Forall2 (planned st d.1 n (cnt d.1)) bs d.2) ds.

Lemma plan_loop_cons nsName nsList p :
  state_ok (plan_st p) -> starts_from (plan_st p) [nsName] ->
  exists st locs, state_ok st /\ Forall2 (planned st nsName n (cnt nsName)) bs locs /\
    (forall ns' id', ns' <> nsName \/ id' ∉ bs.*2 -> same_at (plan_st p) st ns' id') /\
    plan_loop c phase (nsName :: nsList) p =
    plan_loop c phase nsList
      (mkPlan st (plan_actions p ++ namespace_actions nsName locs (cnt nsName) n)
         (plan_defers p ++ [(nsName, locs)])).
Proof.
  intros Hst Hstart.
  destruct (bundle_loop_spec c n nsName (fun _ => cnt nsName) bs (plan_st p) [] Hbs Hst)
    as (st & locs & Hb & Hst' & Hf & Hsame).
  { apply Forall_forall. intros [o id] Hin. apply (Hstart nsName o id); set_solver. }
  exists st, locs. split_and!; [done| exact Hf |done|]. cbn [plan_loop]. rewrite Hbundle, Hb. cbn [app].
  pose proof (deref_planned _ _ _ (fun _ => cnt nsName) _ _ Hf) as Hcur.
  destruct (deref st locs) as [|i rest] eqn:Hd.
  { destruct bs; [done|discriminate]. }
  assert (Forall (fun i => CurrentReplicaCount i = cnt nsName) (i :: rest)) as Hall.
  { apply Forall_forall. intros x Hx. apply (list_elem_of_fmap_2 CurrentReplicaCount) in Hx.
    rewrite Hcur in Hx. by apply list_elem_of_fmap in Hx as (? & -> & _). }
  clear Hcur. rename Hall into Hcur.
  assert (verifyBundleCorrectness (i :: rest) = None) as ->.
  { apply (verifyBundle_None (i :: rest) (cnt nsName)); [|by apply Forall_cons in Hcur as [? _]|done].
    eapply Forall_impl; [exact Hcur|]. intros x ->. apply Hcnt. }
  by apply Forall_cons in Hcur as [-> _].
Qed.

Lemma ds_planned_same st st' ds :
  (forall ns id, ns ∈ ds.*1 -> same_at st st' ns id) -> ds_planned st ds -> ds_planned st' ds.
Proof.
  intros Hsame Hds. unfold ds_planned in *. rewrite Forall_forall in Hds |- *. intros d Hd.
  eapply Forall2_impl; [by apply Hds|]. intros oid l. apply planned_same, Hsame.
  by apply list_elem_of_fmap_2.
Qed.

Lemma plan_loop_spec nsList rest p :
  NoDup nsList -> state_ok (plan_st p) -> starts_from (plan_st p) nsList ->
  exists st ds, ds.*1 = nsList /\
    plan_loop c phase (nsList ++ rest) p =
      plan_loop c phase rest (mkPlan st (plan_actions p ++ phase_actions ds) (plan_defers p ++ ds)) /\
    state_ok st /\ ds_planned st ds /\
    forall ns id, ns ∉ nsList \/ id ∉ bs.*2 -> same_at (plan_st p) st ns id.
Proof.
  revert p. induction nsList as [|ns nsList IH]; intros p Hnd Hst Hstart.
  { exists (plan_st p), []. unfold phase_actions. cbn. rewrite !app_nil_r. destruct p.
    split_and!; [done..|by constructor|]. intros. by split. }
  apply NoDup_cons in Hnd as [Hnin Hnd].
  cbn [app]. destruct (plan_loop_cons ns (nsList ++ rest) p Hst) as (st1 & locs & Hst1 & Hf & Hsame1 & ->).
  { intros ns' o id ?. apply Hstart. set_solver. }
  edestruct (IH (mkPlan st1 (plan_actions p ++ namespace_actions ns locs (cnt ns) n)
                  (plan_defers p ++ [(ns, locs)])) Hnd Hst1) as (st & ds & Hds & -> & Hst' & Hp & Hsame).
  { intros ns' o id Hin Hb. rewrite <- (Hstart ns' o id) by set_solver. cbn.
    apply current_count_same, Hsame1. left. intros ->. done. }
  exists st, ((ns, locs) :: ds). cbn in *. split_and!.
  - by rewrite Hds.
  - unfold phase_actions. cbn. by rewrite <- !app_assoc.
  - done.
  - constructor; [|done]. cbn. eapply Forall2_impl; [exact Hf|]. intros oid l.
    apply planned_same, Hsame. by left.
  - intros ns' id' Hx. eapply same_at_trans; [apply Hsame1|apply Hsame]; set_solver.
Qed.

(** ** The operations of the planned actions *)

(** What is done to replica [i] of a namespace with [cur] replicas. *)
Definition does (cur : Z) (op : OperationType) (i : Z) : Prop :=
  (op = deleteObject /\ n <= i < cur) \/ (op = patchObject /\ cur = n /\ 0 <= i < n) \/
  (op = createObject /\ cur <= i < n).

Lemma elem_of_counters i lo hi : i ∈ counters lo hi <-> lo <= i < hi.
Proof. unfold counters. rewrite elem_of_seqZ. lia. Qed.

Lemma elem_of_namespace_actions a ns locs cur :
  a ∈ namespace_actions ns locs cur n <->
  exists op i, a = mkAction op ns i locs /\ does cur op i.
Proof.
  unfold namespace_actions, does. rewrite !elem_of_app.
  assert (forall op lo hi, a ∈ map (fun i => mkAction op ns i locs) (counters lo hi) <->
            exists i, a = mkAction op ns i locs /\ lo <= i < hi) as Hm.
  { intros op lo hi. rewrite (list_elem_of_fmap (fun i => mkAction op ns i locs)).
    by setoid_rewrite elem_of_counters. }
  rewrite !Hm. destruct (Z.eqb_spec cur n) as [->|Hn]; [rewrite Hm|rewrite elem_of_nil]; naive_solver.
Qed.

Lemma action_thread_ops st ns locs cur op i :
  Forall2 (planned st ns n cur) bs locs -> does cur op i ->
  th_ops (action_thread bs.*1 st (mkAction op ns i locs)) ≡ₚ map (fun oid => mkOp oid.1 ns i op) bs.
Proof.
  intros Hf Hd. unfold action_thread. cbn [act_op act_namespace act_index act_instances].
  destruct Hd as [[-> Hi]|[[-> Hi]|[-> Hi]]]; cbn [th_ops];
    [|by rewrite (map_map fst)|by rewrite (map_map fst)].
  rewrite <- Permutation_rev. clear Hbundle Hbs Hne.
  induction Hf as [|[o id] l bs' locs' (_ & x & Hx & _ & Hc) _ IH]; [done|]. cbn.
  rewrite Hx, Hc, (proj2 (Z.ltb_lt _ _)) by lia. cbn. by constructor.
Qed.

Lemma elem_of_pool st ds o :
  ds_planned st ds ->
  o ∈ pool_ops (map (action_thread bs.*1 st) (phase_actions ds)) <->
  exists ns ob id op i, ns ∈ ds.*1 /\ (ob, id) ∈ bs /\ does (cnt ns) op i /\ o = mkOp ob ns i op.
Proof.
  intros Hds. unfold ds_planned in Hds. rewrite Forall_forall in Hds. unfold pool_ops, phase_actions.
  rewrite list_elem_of_concat. split.
  - intros (l & Hl & Ho). apply list_elem_of_fmap in Hl as (t & -> & Ht).
    apply list_elem_of_fmap in Ht as (a & -> & Ha). apply list_elem_of_concat in Ha as (as' & Has & Ha).
    apply list_elem_of_fmap in Has as ([ns locs] & -> & Hd). cbn in Ha.
    apply elem_of_namespace_actions in Ha as (op & i & -> & Hdo).
    rewrite (action_thread_ops st ns locs (cnt ns) op i) in Ho; [|by apply (Hds (ns, locs))|done].
    apply list_elem_of_fmap in Ho as ([ob id] & -> & Hin). exists ns, ob, id, op, i.
    split_and!; [|done..]. apply list_elem_of_fmap. by exists (ns, locs).
  - intros (ns & ob & id & op & i & Hns & Hin & Hdo & ->).
    apply list_elem_of_fmap in Hns as ([ns' locs] & Heq & Hd). cbn in Heq. subst ns'.
    exists (th_ops (action_thread bs.*1 st (mkAction op ns i locs))). split.
    + do 2 apply list_elem_of_fmap_2. apply list_elem_of_concat.
      exists (namespace_actions ns locs (cnt ns) n). split.
      * apply (list_elem_of_fmap_2 (fun d => namespace_actions d.1 d.2 (cnt d.1) n) _ (ns, locs)). done.
      * apply elem_of_namespace_actions. eauto.
    + rewrite (action_thread_ops st ns locs (cnt ns) op i); [|by apply (Hds (ns, locs))|done].
      apply list_elem_of_fmap. by exists (ob, id).
Qed.

Lemma creates_pool st ds k :
  ds_planned st ds ->
  creates (pool_ops (map (action_thread bs.*1 st) (phase_actions ds))) k <->
  exists ns id i, ns ∈ ds.*1 /\ id ∈ bs.*2 /\ cnt ns <= i < n /\ k = key_of ns id i.
Proof.
  intros Hds. destruct Hbs as [_ Hts]. rewrite Forall_forall in Hts. unfold creates.
  setoid_rewrite (elem_of_pool st ds _ Hds). split.
  - intros (o & id' & (ns & ob & id & op & i & Hns & Hin & Hdo & ->) & [[Hid' _] _] & Hty & <-).
    cbn in *. destruct (Hts _ Hin) as [Hid _]. cbn in Hid. rewrite Hid in Hid'. simplify_eq.
    exists ns, id', i. split; [done|]. split; [by apply (list_elem_of_fmap_2 snd _ (ob, id'))|]. split; [|done].
    destruct Hdo as [[? _]|[[? _]|[_ ?]]]; [done..|lia].
  - intros (ns & id & i & Hns & Hin & Hi & ->). apply list_elem_of_fmap in Hin as ([ob id0] & Heq & Hin).
    cbn in Heq. subst id0. exists (mkOp ob ns i createObject), id. split; [|split; [by split; [apply (Hts _ Hin)|left]|done]].
    exists ns, ob, id, createObject, i. split_and!; [done..| |done]. right; right. split; [done|lia].
Qed.

Lemma deletes_pool st ds k :
  ds_planned st ds ->
  deletes (pool_ops (map (action_thread bs.*1 st) (phase_actions ds))) k <->
  exists ns id i, ns ∈ ds.*1 /\ id ∈ bs.*2 /\ n <= i < cnt ns /\ k = key_of ns id i.
Proof.
  intros Hds. destruct Hbs as [_ Hts]. rewrite Forall_forall in Hts. unfold deletes.
  setoid_rewrite (elem_of_pool st ds _ Hds). split.
  - intros (o & id' & (ns & ob & id & op & i & Hns & Hin & Hdo & ->) & [[Hid' _] _] & Hty & <-).
    cbn in *. destruct (Hts _ Hin) as [Hid _]. cbn in Hid. rewrite Hid in Hid'. simplify_eq.
    exists ns, id', i. split; [done|]. split; [by apply (list_elem_of_fmap_2 snd _ (ob, id'))|]. split; [|done].
    destruct Hdo as [[_ ?]|[[? _]|[? _]]]; [lia|done..].
  - intros (ns & id & i & Hns & Hin & Hi & ->). apply list_elem_of_fmap in Hin as ([ob id0] & Heq & Hin).
    cbn in Heq. subst id0. exists (mkOp ob ns i deleteObject), id.
    split; [|split; [by split; [apply (Hts _ Hin)|right; right]|done]].
    exists ns, ob, id, deleteObject, i. split_and!; [done..| |done]. left. split; [done|lia].
Qed.


Lemma pool_ops_ok st ds :
  ds_planned st ds -> ops_ok (pool_ops (map (action_thread bs.*1 st) (phase_actions ds))).
Proof.
  intros Hds. split.
  - intros o Ho. apply (elem_of_pool st ds o Hds) in Ho as (ns & ob & id & op & i & _ & Hin & Hdo & ->).
    exists id. destruct Hbs as [_ Hts]. rewrite Forall_forall in Hts. split; [by apply (Hts _ Hin)|].
    cbn. unfold does in Hdo. naive_solver.
  - intros k. rewrite creates_pool, deletes_pool by done.
    intros (ns & id & i & _ & _ & Hi & ->) (ns' & id' & i' & _ & _ & Hi' & Hk).
    pose proof (Hcnt ns). apply key_of_inj in Hk as (-> & -> & ->); lia.
Qed.

(** ** The deferred updates *)

Definition settle (i : InstancesState) : InstancesState :=
  mkInstancesState (DesiredReplicaCount i) (DesiredReplicaCount i) (inst_Object i).

(** [st'] is [st] with the cells of [L] settled. *)
Definition settled (st st' : NamespacesState) (L : list loc) : Prop :=
  (forall ns id, Get st' ns id = Get st ns id) /\
  forall l, heap st' !! l = if decide (l ∈ L) then settle <$> heap st !! l else heap st !! l.

Lemma settled_trans st1 st2 st3 L1 L2 :
  settled st1 st2 L1 -> settled st2 st3 L2 -> settled st1 st3 (L1 ++ L2).
Proof.
  intros [HG1 HH1] [HG2 HH2]. split; [intros; by rewrite HG2|]. intros l. rewrite HH2, HH1.
  destruct (heap st1 !! l); repeat case_decide; set_solver.
Qed.

Lemma settled_fold {E} (step : NamespacesState -> E -> NamespacesState) (cells : E -> list loc)
  (ok : E -> NamespacesState -> Prop) (es : list E) st :
  (forall e st, ok e st -> settled st (step st e) (cells e)) ->
  (forall e st st', ok e st -> (forall ns id, Get st' ns id = Get st ns id) -> ok e st') ->
  Forall (fun e => ok e st) es ->
  settled st (fold_left step es st) (concat (map cells es)).
Proof.
  intros Hstep Hok. revert st. induction es as [|e es IH]; intros st Hes; cbn.
  { split; [done|]. intros l. by rewrite decide_False by set_solver. }
  apply Forall_cons in Hes as [He Hes]. eapply settled_trans; [by apply Hstep|]. apply IH.
  eapply Forall_impl; [exact Hes|]. intros e' He'. apply (Hok _ st); [done|]. by apply Hstep.
Qed.

Definition entry_ok (ns : string) (ol : Object * loc) (st : NamespacesState) : Prop :=
  exists id, getIdentifier ol.1 = Ok id /\ Get st ns id = Some ol.2.

Lemma deferred_one_settled ns ol st : entry_ok ns ol st -> settled st (deferred_one ns st ol) [ol.2].
Proof.
  intros (id & Hid & Hg). unfold deferred_one. rewrite Hid. split.
  - intros ns' id'. rewrite Get_Set. change (Get (currentToDesired _ _)) with (Get st).
    case_decide as Hd; [by destruct Hd; subst|done].
  - intros l. cbn. rewrite lookup_alter. repeat case_decide; set_solver.
Qed.

Lemma deferred_settled bundle d st :
  Forall (fun ol => entry_ok d.1 ol st) (zip bundle d.2) ->
  settled st (deferred bundle st d) (concat (map (fun ol => [ol.2]) (zip bundle d.2))).
Proof.
  apply (settled_fold (deferred_one d.1) (fun ol => [ol.2]) (entry_ok d.1)).
  - intros ol st'. apply deferred_one_settled.
  - intros ol st1 st2 (id & Hid & Hg) HG. exists id. by rewrite HG.
Qed.

Definition defer_cells (bundle : list Object) (d : string * list loc) : list loc :=
  concat (map (fun ol => [ol.2]) (zip bundle d.2)).

Lemma run_defers_settled st ds :
  ds_planned st ds ->
  settled st (run_defers bs.*1 st ds) (concat (map (defer_cells bs.*1) (rev ds))).
Proof.
  intros Hds. apply (settled_fold (deferred bs.*1) (defer_cells bs.*1)
    (fun d st => Forall (fun ol => entry_ok d.1 ol st) (zip bs.*1 d.2))).
  - intros d st'. apply deferred_settled.
  - intros d st1 st2 Hok HG. eapply Forall_impl; [exact Hok|]. intros ol (id & Hid & Hg).
    exists id. by rewrite HG.
  - apply Forall_rev. eapply Forall_impl; [exact Hds|]. intros [ns locs]. cbn. intros Hf.
    destruct Hbs as [_ Hts]. clear -Hf Hts. revert Hts.
    induction Hf as [|[o id] l bs' locs' [Hg _] _ IH]; [constructor|]. intros [[Hid _] Hts]%Forall_cons.
    constructor; [|by apply IH]. by exists id.
Qed.

Lemma elem_of_defer_cells ns locs st cur l :
  Forall2 (planned st ns n cur) bs locs ->
  l ∈ defer_cells bs.*1 (ns, locs) <-> exists id, id ∈ bs.*2 /\ Get st ns id = Some l.
Proof.
  intros Hf. unfold defer_cells. cbn [snd]. clear Hbundle Hbs Hne.
  induction Hf as [|[o id] l' bs' locs' [Hg _] _ IH]; cbn in *; [set_solver|].
  rewrite elem_of_cons, IH. split.
  - intros [->|(id' & Hin & Hg')]; [exists id|exists id']; set_solver.
  - intros (id' & [->|Hin]%elem_of_cons & Hg'); [left; congruence|right; eauto].
Qed.

Lemma elem_of_all_cells st ds l :
  ds_planned st ds ->
  l ∈ concat (map (defer_cells bs.*1) (rev ds)) <->
  exists ns id, ns ∈ ds.*1 /\ id ∈ bs.*2 /\ Get st ns id = Some l.
Proof.
  unfold ds_planned. rewrite Forall_forall. intros Hds. rewrite list_elem_of_concat. split.
  - intros (L & HL & Hl). apply list_elem_of_fmap in HL as ([ns locs] & -> & Hd).
    rewrite <- Permutation_rev in Hd.
    apply (elem_of_defer_cells _ _ st (cnt ns)) in Hl as (id & ? & ?); [|by apply (Hds (ns, locs))].
    exists ns, id. split_and!; [|done..]. by apply (list_elem_of_fmap_2 fst _ (ns, locs)).
  - intros (ns & id & Hns & Hid & Hg). apply list_elem_of_fmap in Hns as ([ns' locs] & Heq & Hd).
    cbn in Heq. subst ns'. exists (defer_cells bs.*1 (ns, locs)). split.
    + apply list_elem_of_fmap_2. by rewrite <- Permutation_rev.
    + apply (elem_of_defer_cells _ _ st (cnt ns)); [by apply (Hds (ns, locs))|eauto].
Qed.

(** After the deferred updates every planned entry has as many replicas as
    desired, and every other entry is as before. *)
Lemma run_defers_spec st ds :
  state_ok st -> ds_planned st ds ->
  state_ok (run_defers bs.*1 st ds) /\
  (forall ns id, ns ∈ ds.*1 -> id ∈ bs.*2 ->
     exists i, lookup_instances (run_defers bs.*1 st ds) ns id = Some i /\
       DesiredReplicaCount i = n /\ CurrentReplicaCount i = n) /\
  (forall ns id, ns ∉ ds.*1 \/ id ∉ bs.*2 -> same_at st (run_defers bs.*1 st ds) ns id).
Proof.
  intros [Hwf Hinj] Hds. destruct (run_defers_settled st ds Hds) as [HG HH].
  set (st' := run_defers bs.*1 st ds) in *. split_and!.
  - split; [|intros *; rewrite !HG; apply Hinj]. intros ns id l. rewrite HG, HH. intros Hl%Hwf.
    case_decide; [by rewrite fmap_is_Some|done].
  - intros ns id Hns Hid. pose proof Hns as Hns'.
    apply list_elem_of_fmap in Hns' as ([ns' locs] & Heq & Hd).
    cbn in Heq. subst ns'. unfold ds_planned in Hds. pose proof Hds as Hds'.
    rewrite Forall_forall in Hds. specialize (Hds _ Hd). cbn in Hds.
    apply list_elem_of_fmap in Hid as ([o id'] & Heq & Hin). cbn in Heq. subst id'.
    apply list_elem_of_lookup in Hin as [j Hj].
    destruct (Forall2_lookup_l _ _ _ _ _ Hds Hj) as (l & _ & Hg & i & Hi & Hdes & _).
    cbn in Hg. exists (settle i). unfold lookup_instances. rewrite HG, Hg. cbn.
    rewrite HH. case_decide as Hx; [by rewrite Hi|]. destruct Hx. apply (elem_of_all_cells st ds l Hds').
    exists ns, id. split_and!; [done| |done]. apply list_elem_of_fmap. exists (o, id). split; [done|].
    by eapply list_elem_of_lookup_2.
  - intros ns id Hout. split; [apply HG|]. unfold lookup_instances. rewrite HG.
    destruct (Get st ns id) as [l|] eqn:Hg; [|done]. cbn. rewrite HH.
    case_decide as Hx; [exfalso|done].
    apply (elem_of_all_cells st ds l Hds) in Hx as (ns' & id' & ? & ? & Hg').
    destruct (Hinj _ _ _ _ _ Hg Hg') as [-> ->]. tauto.
Qed.
End Phase.

(** ** The contract *)

(** What a phase needs: a readable bundle of distinct objects, distinct
    namespaces, a tuning set, and every object of the bundle starting from
    [cnt ns] replicas in [ns], which are the ones the cluster has. *)
Record phase_ready (fuel : nat) (phase : Phase) (st : NamespacesState) (tf : simpleFactory) (c : C)
  (nsList : list string) (bs : list (Object * InstancesIdentifier)) (cnt : string -> Z) : Prop := {
  ready_namespaces : phase_namespaces fuel c phase = Some nsList;
  ready_distinct : NoDup nsList;
  ready_tuning_set : exists tf' ts, CreateTuningSet tf (PhaseTuningSet phase) = (tf', Ok ts);
  ready_bundle : ObjectBundle phase = bs.*1;
  ready_bundle_ok : bundle_ok bs;
  ready_nonempty : bs <> [];
  ready_replicas : 0 <= ReplicasPerNamespace phase;
  ready_state : state_ok st;
  ready_counts : forall ns, 0 <= cnt ns;
  ready_start : starts_from c bs cnt st nsList;
  ready_sync : forall ns id i, ns ∈ nsList -> id ∈ bs.*2 -> 0 <= i -> key_of ns id i ∈ objs c <-> i < cnt ns;
}.

(** The cluster after a run without errors. *)
Lemma final_objs_reconciled (n : Z) (nsList : list string) (ids : list InstancesIdentifier) (cnt : string -> Z)
  (ops : list object_op) (s s' : gset key) :
  (forall ns, 0 <= cnt ns) -> 0 <= n ->
  (forall ns id i, ns ∈ nsList -> id ∈ ids -> 0 <= i -> key_of ns id i ∈ s <-> i < cnt ns) ->
  (forall k, creates ops k <-> exists ns id i, ns ∈ nsList /\ id ∈ ids /\ cnt ns <= i < n /\ k = key_of ns id i) ->
  (forall k, deletes ops k <-> exists ns id i, ns ∈ nsList /\ id ∈ ids /\ n <= i < cnt ns /\ k = key_of ns id i) ->
  final_objs ops s s' ->
  (forall ns id i, ns ∈ nsList -> id ∈ ids -> 0 <= i -> key_of ns id i ∈ s' <-> i < n) /\
  (forall k, (forall ns id i, ns ∈ nsList -> id ∈ ids -> 0 <= i -> k <> key_of ns id i) -> k ∈ s' <-> k ∈ s).
Proof.
  intros Hcnt Hn Hs Hcr Hde Hf. split.
  - intros ns id i Hns Hid Hi. rewrite (Hf _), Hcr, Hde, (Hs ns id i) by done. split.
    + intros [(ns' & id' & i' & _ & _ & Hi' & Hk)|[Hlt Hnd]].
      * pose proof (Hcnt ns'). apply key_of_inj in Hk as (_ & _ & ->); lia.
      * destruct (Z.lt_ge_cases i n); [done|]. destruct Hnd. exists ns, id, i. by split_and!.
    + intros Hlt. destruct (Z.lt_ge_cases i (cnt ns)) as [Hc|Hc].
      * right. split; [done|]. intros (ns' & id' & i' & _ & _ & Hi' & Hk).
        apply key_of_inj in Hk as (_ & _ & ->); lia.
      * left. exists ns, id, i. by split_and!.
  - intros k Hout. rewrite (Hf k), Hcr, Hde. split.
    + intros [(ns & id & i & ? & ? & ? & ->)|[? _]]; [|done].
      pose proof (Hcnt ns). destruct (Hout ns id i); done || lia.
    + intros Hk. right. split; [done|]. intros (ns & id & i & ? & ? & ? & ->).
      destruct (Hout ns id i); done || lia.
Qed.

(** C1: refinement of the phase contract. On a phase that is ready, [ExecutePhase]
    returns for every fair interleaving of its actions, and it records
    [ReplicasPerNamespace] current and desired replicas for exactly the objects
    of the bundle in exactly the listed namespaces. If it reports no errors, the
    cluster then holds, of each of these objects in each of these namespaces,
    precisely the replicas 0 .. ReplicasPerNamespace - 1, whether it scaled up,
    scaled down or patched, and every other object is untouched. *)
Theorem ExecutePhase_reconciles fuel sched phase st tf c nsList bs cnt :
  fair_scheduler sched -> phase_ready fuel phase st tf c nsList bs cnt ->
  let n := ReplicasPerNamespace phase in
  exists r errs, ExecutePhase fuel sched phase st tf c = Some r /\ pr_errors r = Some errs /\
    state_ok (pr_state r) /\
    (forall ns id, ns ∈ nsList -> id ∈ bs.*2 ->
       exists i, lookup_instances (pr_state r) ns id = Some i /\
         DesiredReplicaCount i = n /\ CurrentReplicaCount i = n) /\
    (forall ns id, ns ∉ nsList \/ id ∉ bs.*2 ->
       lookup_instances (pr_state r) ns id = lookup_instances st ns id) /\
    (IsEmpty errs = true ->
       (forall ns id i, ns ∈ nsList -> id ∈ bs.*2 -> 0 <= i ->
          key_of ns id i ∈ objs (pr_cluster r) <-> i < n) /\
       (forall k, (forall ns id i, ns ∈ nsList -> id ∈ bs.*2 -> 0 <= i -> k <> key_of ns id i) ->
          k ∈ objs (pr_cluster r) <-> k ∈ objs c)).
Proof.
  intros Hfair [Hns Hnd (tf' & ts & Hts) Hb Hbs Hne Hn Hst Hcnt Hstart Hsync]. cbn zeta.
  destruct (plan_loop_spec c phase bs cnt Hb Hbs Hne Hcnt nsList [] (mkPlan st [] []) Hnd Hst Hstart)
    as (st1 & ds & Hds & Hplan & Hst1 & Hpl & Hsame1).
  rewrite app_nil_r in Hplan. cbn in Hplan, Hsame1.
  destruct (run_defers_spec phase bs cnt Hb Hbs Hne Hcnt st1 ds Hst1 Hpl) as (Hst2 & Hin & Hout).
  rewrite Hds in Hin, Hout. unfold ExecutePhase. rewrite Hns, Hts. cbn [mbind option_bind].
  rewrite Hplan, Hb. cbn [plan_st plan_actions plan_defers].
  set (pool := map _ _). specialize (Hfair ts pool c).
  destruct (sched ts pool c) as [c' errs]. cbn in Hfair.
  eexists _, errs. do 5 (split; [done || idtac|]); cbn [pr_state pr_cluster].
  - intros ns id Hx. by rewrite (proj2 (Hout ns id Hx)), (proj2 (Hsame1 ns id Hx)).
  - intros He. eapply (final_objs_reconciled _ nsList bs.*2 cnt (pool_ops pool)); [done..| | |].
    + intros k. subst pool. rewrite (creates_pool phase bs cnt Hbs st1 ds k Hpl). by rewrite Hds.
    + intros k. subst pool. rewrite (deletes_pool phase bs cnt Hbs st1 ds k Hpl). by rewrite Hds.
    + eapply pool_run_final; [done..|]. by apply (pool_ops_ok phase bs cnt Hbs Hcnt st1 ds).
Qed.

(** ** Early returns *)

(** A bundle whose objects start from different counts in [ns]. *)
Definition inconsistent (c : C) (st : NamespacesState) (bs : list (Object * InstancesIdentifier))
  (cur : Object * InstancesIdentifier -> Z) (ns : string) : Prop :=
  Forall (fun oid => current_count c st ns oid.1 oid.2 = Ok (cur oid)) bs /\
  Forall (fun oid => 0 <= cur oid) bs /\ exists a b, a ∈ bs /\ b ∈ bs /\ cur a <> cur b.

Lemma plan_loop_inconsistent c phase bs cur ns rest p :
  ObjectBundle phase = bs.*1 -> bundle_ok bs -> state_ok (plan_st p) ->
  inconsistent c (plan_st p) bs cur ns ->
  exists st e, plan_loop c phase (ns :: rest) p =
      (mkPlan st (plan_actions p) (plan_defers p), Return (Some (NewErrorList [e]))) /\ state_ok st /\
    forall ns' id', ns' <> ns \/ id' ∉ bs.*2 -> same_at (plan_st p) st ns' id'.
Proof.
  intros Hb Hbs Hst (Hcur & Hpos & a & b & Ha & Hb' & Hab).
  destruct (bundle_loop_spec c (ReplicasPerNamespace phase) ns cur bs (plan_st p) [] Hbs Hst Hcur)
    as (st & locs & Hbl & Hst' & Hf & Hsame). cbn [app] in Hbl.
  pose proof (deref_planned _ _ _ _ _ _ Hf) as Hd.
  assert (forall x, x ∈ bs -> exists i, i ∈ deref st locs /\ CurrentReplicaCount i = cur x) as Hget.
  { intros x Hx. apply (list_elem_of_fmap_2 cur) in Hx. rewrite <- Hd in Hx.
    apply list_elem_of_fmap in Hx as (i & ? & ?). eauto. }
  destruct (verifyBundleCorrectness (deref st locs)) as [e|] eqn:He.
  - exists st, e. split_and!; [|done..]. cbn [plan_loop]. by rewrite Hb, Hbl, He.
  - exfalso. destruct (deref st locs) as [|i0 is0] eqn:Hds; [by destruct (Hget a Ha) as (? & ?%elem_of_nil & _)|].
    apply (verifyBundle_None (i0 :: is0) (CurrentReplicaCount i0)) in He; [|apply Forall_forall|done].
    + rewrite Forall_forall in He. destruct (Hget a Ha) as (x & Hx & Hcx), (Hget b Hb') as (y & Hy & Hcy).
      apply He in Hx, Hy. congruence.
    + intros x Hx. apply (list_elem_of_fmap_2 CurrentReplicaCount) in Hx. rewrite Hd in Hx.
      apply list_elem_of_fmap in Hx as (y & -> & Hy). rewrite Forall_forall in Hpos. by apply Hpos.
Qed.

(** a bundle that is inconsistent in one namespace makes [ExecutePhase] skip
    the whole phase: it returns that one error and calls the cluster for
    nothing. The deferred updates of the namespaces planned before it still run,
    so these are recorded as having [ReplicasPerNamespace] replicas although no
    object was created or deleted: state and cluster are out of step. *)
Theorem ExecutePhase_skipped_phase_recorded fuel sched phase st tf c good bad rest bs cnt cur :
  phase_namespaces fuel c phase = Some (good ++ bad :: rest) -> NoDup (good ++ bad :: rest) ->
  (exists tf' ts, CreateTuningSet tf (PhaseTuningSet phase) = (tf', Ok ts)) ->
  ObjectBundle phase = bs.*1 -> bundle_ok bs -> bs <> [] -> state_ok st -> (forall ns, 0 <= cnt ns) ->
  starts_from c bs cnt st good -> inconsistent c st bs cur bad ->
  exists r e, ExecutePhase fuel sched phase st tf c = Some r /\
    pr_errors r = Some (NewErrorList [e]) /\ pr_cluster r = c /\
    forall ns id, ns ∈ good -> id ∈ bs.*2 ->
      exists i, lookup_instances (pr_state r) ns id = Some i /\
        CurrentReplicaCount i = ReplicasPerNamespace phase.
Proof.
  intros Hns Hnd (tf' & ts & Hts) Hb Hbs Hne Hst Hcnt Hstart Hinc.
  apply NoDup_app in Hnd as (Hgood & Hdisj & _).
  assert (bad ∉ good) as Hbad by (intros Hx; apply (Hdisj _ Hx); set_solver).
  destruct (plan_loop_spec c phase bs cnt Hb Hbs Hne Hcnt good (bad :: rest) (mkPlan st [] []) Hgood Hst Hstart)
    as (st1 & ds & Hds & Hplan & Hst1 & Hpl & Hsame). cbn in Hplan, Hsame.
  destruct (plan_loop_inconsistent c phase bs cur bad rest
              (mkPlan st1 (phase_actions phase cnt ds) ds) Hb Hbs Hst1)
    as (st2 & e & Hplan2 & Hst2 & Hsame2); [|cbn in Hplan2, Hsame2].
  { destruct Hinc as (Hcur & Hrest). split; [|done]. eapply Forall_impl; [exact Hcur|].
    intros oid <-. apply current_count_same, Hsame. by left. }
  assert (ds_planned phase bs cnt st2 ds) as Hpl2.
  { eapply ds_planned_same; [|exact Hpl]. intros ns id Hx. apply Hsame2. left. intros ->. by rewrite Hds in Hx. }
  destruct (run_defers_spec phase bs cnt Hb Hbs Hne Hcnt st2 ds Hst2 Hpl2) as (_ & Hin & _).
  unfold ExecutePhase. rewrite Hns, Hts. cbn [mbind option_bind]. rewrite Hplan, Hplan2, Hb.
  eexists _, e. do 3 (split; [done|]). intros ns id Hx Hid. rewrite <- Hds in Hx.
  destruct (Hin ns id Hx Hid) as (i & ? & ? & ?). eauto.
Qed.
End Reconcile.

(** ** The contract at work *)
Section Witnesses.
#[local] Existing Instance sample_provider.
#[local] Existing Instance sample_framework.

#[local] Instance sample_laws : ClusterLaws (gset key).
Proof.
  refine {| objs := fun c : gset key => c |}; cbn; intros; by simplify_eq.
Defined.

Definition web : Object := mkObject "web" "deployment.yaml" None None.
Definition svc : Object := mkObject "svc" "service.yaml" None None.
Definition sample_bundle : list (Object * InstancesIdentifier) :=
  [ (web, mkInstancesIdentifier "web" "Deployment" "apps");
    (svc, mkInstancesIdentifier "svc" "Service" "") ].
Definition scale_to (n : Z) : Phase :=
  mkPhase None (Some ["ns-1"; "ns-2"]) n "Uniform" [web; svc].
Definition sample_factory : simpleFactory := Init NewFactory [sample_tuning_set].

Lemma sample_bundle_ok : bundle_ok sample_bundle.
Proof.
  split; [by apply (bool_decide_unpack _); vm_compute|].
  repeat constructor; cbn; done.
Qed.

Lemma sample_ready : phase_ready 10 (scale_to 3) newNamespacesState sample_factory (∅ : gset key)
  ["ns-1"; "ns-2"] sample_bundle (fun _ => 0).
Proof.
  split; try done.
  - by apply (bool_decide_unpack _); vm_compute.
  - eexists _, _. vm_compute. reflexivity.
  - apply sample_bundle_ok.
  - intros ns o id _ Ho. unfold current_count, lookup_instances, Get. cbn. rewrite lookup_empty. cbn.
    unfold getReplicaCountOfNewObject. unfold sample_bundle in Ho.
    apply elem_of_cons in Ho as [[= -> _]|[[= -> _]|[]%elem_of_nil]%elem_of_cons]; done.
  - intros ns id i _ _ Hi. cbn. split; [set_solver|lia].
Qed.

(** Scaling two namespaces from nothing to three replicas. *)
Lemma ExecutePhase_reconciles_witness :
  exists r errs,
    ExecutePhase 10 sequential_scheduler (scale_to 3) newNamespacesState sample_factory (∅ : gset key) = Some r /\
    pr_errors r = Some errs /\
    (IsEmpty errs = true -> forall i, 0 <= i ->
       key_of "ns-2" (mkInstancesIdentifier "svc" "Service" "") i ∈ pr_cluster r <-> i < 3).
Proof.
  destruct (ExecutePhase_reconciles 10 sequential_scheduler (scale_to 3) newNamespacesState sample_factory
              (∅ : gset key) ["ns-1"; "ns-2"] sample_bundle (fun _ => 0)
              sequential_scheduler_fair sample_ready) as (r & errs & Hr & He & _ & _ & _ & Hcl).
  exists r, errs. do 2 (split; [done|]). intros Hemp i Hi.
  apply (proj1 (Hcl Hemp)); [right; left|right; left|done].
Defined.

(** The errors are in fact empty there, and six objects of each kind exist. *)
Example scale_up_runs :
  match ExecutePhase 10 sequential_scheduler (scale_to 3) newNamespacesState sample_factory (∅ : gset key) with
  | Some r => pr_errors r = Some (NewErrorList []) /\ size (pr_cluster r) = 12%nat
  | None => False
  end.
Proof. vm_compute. done. Qed.

(** [ns-2] already has two deployments but no service. *)
Definition skewed_state : NamespacesState :=
  let '(st, l) := alloc newNamespacesState (mkInstancesState 2 2 web) in
  Set_ st "ns-2" (mkInstancesIdentifier "web" "Deployment" "apps") l.

Lemma skewed_ok : state_ok skewed_state.
Proof.
  split.
  - unfold skewed_state, alloc. apply state_wf_Set; [apply (state_wf_alloc newNamespacesState), state_wf_new|].
    cbn. rewrite lookup_insert_eq. eauto.
  - intros ns id ns' id' l. unfold skewed_state, alloc. rewrite !Get_Set. unfold Get. cbn.
    rewrite !lookup_empty. repeat case_decide; naive_solver.
Qed.

Lemma ExecutePhase_skipped_phase_recorded_witness :
  exists r e,
    ExecutePhase 10 sequential_scheduler (scale_to 3) skewed_state sample_factory (∅ : gset key) = Some r /\
    pr_errors r = Some (NewErrorList [e]) /\ pr_cluster r = ∅ /\
    exists i, lookup_instances (pr_state r) "ns-1" (mkInstancesIdentifier "web" "Deployment" "apps") = Some i /\
      CurrentReplicaCount i = 3.
Proof.
  destruct (ExecutePhase_skipped_phase_recorded 10 sequential_scheduler (scale_to 3) skewed_state sample_factory
              (∅ : gset key) ["ns-1"] "ns-2" [] sample_bundle (fun _ => 0)
              (fun oid => if String.eqb (Basename oid.1) "web" then 2 else 0))
    as (r & e & Hr & He & Hc & Hi).
  - reflexivity.
  - by apply (bool_decide_unpack _); vm_compute.
  - eexists _, _. vm_compute. reflexivity.
  - reflexivity.
  - apply sample_bundle_ok.
  - done.
  - apply skewed_ok.
  - done.
  - intros ns o id ->%list_elem_of_singleton Ho. unfold sample_bundle in Ho.
    apply elem_of_cons in Ho as [[= -> ->]|[[= -> ->]|[]%elem_of_nil]%elem_of_cons]; vm_compute; done.
  - split; [repeat constructor; vm_compute; done|]. split; [repeat constructor; vm_compute; done|].
    exists (web, mkInstancesIdentifier "web" "Deployment" "apps"), (svc, mkInstancesIdentifier "svc" "Service" "").
    split; [set_solver|]. split; [set_solver|]. vm_compute. done.
  - exists r, e. do 3 (split; [done|]). apply Hi; left.
Defined.
End Witnesses.
