(* ===== verification/Client.v ===== *)
(** * API calls (pkg/framework/client/objects.go, pkg/framework/multiclient.go)

    Every call the framework makes of the API server goes through
    [RetryFunction] and exponential backoff. The API server, apimachinery's
    error predicates and [wait.ExponentialBackoff] are interfaces with their
    documented laws; from these the file derives the laws of [ClusterLaws] that
    the phase executor relies on, for calls that are retried, answered twice or
    lost on the way. *)

From S2P Require Import Prelude GoErrors Params Api State Executor Reconcile.

(** ** Error classification *)

(** The predicates of apimachinery ([apierrs], [utilnet]) and of [net.Error]. *)
Class ApiErrors := {
  IsAlreadyExists : error -> bool;
  IsNotFound : error -> bool;
  IsInternalError : error -> bool;
  IsTimeout : error -> bool;
  IsServerTimeout : error -> bool;
  IsTooManyRequests : error -> bool;
  IsUnauthorized : error -> bool;
  IsProbableEOF : error -> bool;
  IsConnectionReset : error -> bool;
  SuggestsClientDelay : error -> bool;
  (* err.(apierrs.APIStatus): reason and the kind of the details *)
  APIStatus : error -> option (string * option string);
  (* err.(net.Error): Temporary and Timeout *)
  NetError : error -> option (bool * bool);
}.

Definition http2ClientConnectionLostErr : string := "http2: client connection lost".

Section Errors.
Context `{ApiErrors}.

Definition isResourceQuotaConflictError (err : error) : bool :=
  match APIStatus err with
  | None => false
  | Some (reason, details) =>
      if negb (String.eqb reason "Conflict") then false
      else match details with
           | Some kind => String.eqb kind "resourcequotas"
           | None => false
           end
  end.

Definition IsRetryableAPIError (err : error) : bool :=
  if IsInternalError err || IsTimeout err || IsServerTimeout err || IsTooManyRequests err
     || IsProbableEOF err || IsConnectionReset err || isResourceQuotaConflictError err
     || IsUnauthorized err
  then true
  else if SuggestsClientDelay err then true
  else false.

Definition IsRetryableNetError (err : error) : bool :=
  match NetError err with
  | Some (temporary, timeout) => temporary || timeout
  | None => if String.eqb (Error err) http2ClientConnectionLostErr then true else false
  end.

(** ** Retries *)

Record APICallOptions := mkOptions {
  shouldAllowError : option (error -> bool);
  shouldRetryError : option (error -> bool);
}.

Definition Allow (p : error -> bool) : APICallOptions := mkOptions (Some p) None.
Definition Retry (p : error -> bool) : APICallOptions := mkOptions None (Some p).

(** The loops over the collected predicates. *)
Fixpoint any_pred (fs : list (error -> bool)) (err : error) : bool :=
  match fs with
  | [] => false
  | f :: fs' => if f err then true else any_pred fs' err
  end.

(** The verdict of the wrapped function on the error of one call. *)
Definition retry_verdict (options : list APICallOptions) (err : option error) : bool * option error :=
  match err with
  | None => (true, None)
  | Some err =>
      if any_pred (omap shouldAllowError options) err then (true, None)
      else if any_pred (omap shouldRetryError options) err then (false, None)
      else if IsRetryableAPIError err || IsRetryableNetError err then (false, None)
      else (false, Some err)
  end.

Definition RetryFunction {C} (f : C -> C * option error) (options : list APICallOptions)
  (c : C) : C * (bool * option error) :=
  let '(c', err) := f c in (c', retry_verdict options err).

(** [wait.ConditionFunc] over a world [C]. *)
Definition ConditionFunc (C : Type) : Type := C -> C * (bool * option error).
End Errors.

(** [wait.ExponentialBackoff] with its documented behaviour: the condition is
    checked at most [Steps] times; the wait ends as soon as it answers true or
    fails, and otherwise with a timeout error. *)
Class Backoff := {
  ExponentialBackoff : forall {C : Type}, nat -> ConditionFunc C -> C -> C * option error;
  ErrWaitTimeout : error;
  backoff_none {C} (f : ConditionFunc C) c : ExponentialBackoff 0 f c = (c, Some ErrWaitTimeout);
  backoff_step {C} n (f : ConditionFunc C) c :
    ExponentialBackoff (S n) f c =
      match f c with
      | (c', (_, Some err)) => (c', Some err)
      | (c', (true, None)) => (c', None)
      | (c', (false, None)) => ExponentialBackoff n f c'
      end;
}.

Definition retryBackoffSteps : nat := 6.

(** ** The API server *)

Record GroupVersionResource := mkGVR { gvr_Group : string; gvr_Version : string; Resource : string }.

(** The dynamic client, [strings.ToLower] on a kind, gengo's plural namer and
    the merge patch library. *)
Class ApiServer (C : Type) := {
  api_Create : C -> GroupVersionResource -> string -> string -> Unstructured -> C * option error;
  api_Get : C -> GroupVersionResource -> string -> string -> result Unstructured;
  api_Patch : C -> GroupVersionResource -> string -> string -> string -> C * option error;
  api_Delete : C -> GroupVersionResource -> string -> string -> C * option error;
  LowercasePluralName : GroupVersionKind -> string;
  ToLower : string -> string;
  createPatch : Unstructured -> Unstructured -> result string;
}.

Section Calls.
Context {C : Type} `{ApiErrors} `{Backoff} `{ApiServer C}.

Definition RetryWithExponentialBackOff (fn : ConditionFunc C) (c : C) : C * option error :=
  ExponentialBackoff retryBackoffSteps fn c.

(** [strings.HasSuffix] *)
Definition HasSuffix (s suffix : string) : bool :=
  String.eqb (String.substring (String.length s - String.length suffix) (String.length suffix) s) suffix.

Definition pluralResource (kind : GroupVersionKind) : GroupVersionResource :=
  let lowerKind := ToLower (Kind kind) in
  if HasSuffix lowerKind "endpoints" then mkGVR (Group kind) (Version kind) lowerKind
  else mkGVR (Group kind) (Version kind) (LowercasePluralName kind).

Definition client_CreateObject (options : list APICallOptions) (c : C) (namespace name : string)
  (obj : Unstructured) : C * option error :=
  let gvr := pluralResource (u_gvk obj) in
  let options := options ++ [Allow IsAlreadyExists] in
  RetryWithExponentialBackOff
    (RetryFunction (fun c => api_Create c gvr namespace name obj) options) c.

Definition client_PatchObject (options : list APICallOptions) (c : C) (namespace name : string)
  (obj : Unstructured) : C * option error :=
  let gvr := pluralResource (u_gvk obj) in
  RetryWithExponentialBackOff
    (RetryFunction (fun c =>
       match api_Get c gvr namespace name with
       | Err err => (c, Some err)
       | Ok currentObj =>
           match createPatch currentObj obj with
           | Err err => (c, Some (Errorf "creating patch diff error: %v" [AErr err]))
           | Ok patch => api_Patch c gvr namespace name patch
           end
       end) options) c.

Definition client_DeleteObject (options : list APICallOptions) (c : C) (gvk : GroupVersionKind)
  (namespace name : string) : C * option error :=
  let gvr := pluralResource gvk in
  let options := options ++ [Allow IsNotFound] in
  RetryWithExponentialBackOff
    (RetryFunction (fun c => api_Delete c gvr namespace name) options) c.

(** ** What the API server guarantees

    [api_objs] are the objects the test asked for that the server still serves;
    what controllers create and what the garbage collector removes with them
    (the dependants of a deleted object, which background propagation removes
    after the call) is not among them. A call that succeeds has had its effect;
    one that fails has had it or not (the answer may be lost), except that
    "already exists" and "not found" tell the truth. *)
Class ApiLaws := {
  api_objs : C -> gset key;
  create_ok c g ns name obj c' :
    u_gvk obj = g -> api_Create c (pluralResource g) ns name obj = (c', None) ->
    api_objs c' = {[obj_key ns name g]} ∪ api_objs c;
  create_failed c g ns name obj c' e :
    u_gvk obj = g -> api_Create c (pluralResource g) ns name obj = (c', Some e) ->
    api_objs c' = api_objs c \/ api_objs c' = {[obj_key ns name g]} ∪ api_objs c;
  create_exists c g ns name obj c' e :
    u_gvk obj = g -> api_Create c (pluralResource g) ns name obj = (c', Some e) ->
    IsAlreadyExists e = true -> obj_key ns name g ∈ api_objs c';
}.
Context `{!ApiLaws}.

(** A deletion that is accepted removes the object, or marks it: with a grace
    period or finalizers the object stays and is only being terminated. A patch
    that takes the last finalizer away removes an object being terminated. *)
Definition obj_removed (c c' : C) (t t' : gset key) (k : key) : Prop :=
  api_objs c' = api_objs c ∖ {[k]} /\ t' = t ∖ {[k]}.
Definition obj_marked (c c' : C) (t t' : gset key) (k : key) : Prop :=
  api_objs c' = api_objs c /\ t' = {[k]} ∪ t.
Definition obj_untouched (c c' : C) (t t' : gset key) : Prop :=
  api_objs c' = api_objs c /\ t' = t.

Class DeleteLaws := {
  api_terminating : C -> gset key;
  terminating_served c : api_terminating c ⊆ api_objs c;
  create_terminating c g ns name obj :
    api_terminating (api_Create c (pluralResource g) ns name obj).1 = api_terminating c;
  delete_ok c g ns name c' :
    api_Delete c (pluralResource g) ns name = (c', None) ->
    obj_removed c c' (api_terminating c) (api_terminating c') (obj_key ns name g) \/
    obj_marked c c' (api_terminating c) (api_terminating c') (obj_key ns name g);
  delete_failed c g ns name c' e :
    api_Delete c (pluralResource g) ns name = (c', Some e) ->
    obj_untouched c c' (api_terminating c) (api_terminating c') \/
    obj_removed c c' (api_terminating c) (api_terminating c') (obj_key ns name g) \/
    obj_marked c c' (api_terminating c) (api_terminating c') (obj_key ns name g);
  delete_missing c g ns name c' e :
    api_Delete c (pluralResource g) ns name = (c', Some e) ->
    IsNotFound e = true -> obj_key ns name g ∉ api_objs c';
  patch_effect c g ns name p c' e :
    api_Patch c (pluralResource g) ns name p = (c', e) ->
    obj_untouched c c' (api_terminating c) (api_terminating c') \/
    (obj_key ns name g ∈ api_terminating c /\
     obj_removed c c' (api_terminating c) (api_terminating c') (obj_key ns name g));
}.
Context `{!DeleteLaws}.

(** An invariant of a retried call: it holds whenever the wait ends, and what a
    "done" verdict means holds when it ends without error. *)
Lemma ExponentialBackoff_ind {X} (I : X -> Prop) (Q : X -> Prop) (f : ConditionFunc X) n c c' err :
  (forall c c' v, I c -> f c = (c', v) -> I c') ->
  (forall c c' b, I c -> f c = (c', (b, None)) -> b = true -> Q c') ->
  I c -> ExponentialBackoff n f c = (c', err) -> I c' /\ (err = None -> Q c').
Proof.
  intros HI HQ. revert c. induction n as [|n IH]; intros c Hc.
  { rewrite backoff_none. by intros [= <- <-]. }
  rewrite backoff_step. destruct (f c) as [c1 [b [e|]]] eqn:Hf; [destruct b|].
  1, 2: intros [= <- <-]; split; [by eapply HI|done].
  - destruct b; [|apply IH; by eapply HI].
    intros [= <- <-]. split; [by eapply HI|]. intros _. by eapply HQ.
Qed.

(** The verdict "done": success, or an allowed error. *)
Lemma retry_verdict_done options err b :
  retry_verdict options err = (b, None) -> b = true ->
  err = None \/ exists e, err = Some e /\ any_pred (omap shouldAllowError options) e = true.
Proof.
  unfold retry_verdict. destruct err as [e|]; [|by left]. intros Hv ->. right. exists e. split; [done|].
  destruct (any_pred (omap shouldAllowError options) e); [done|]. by repeat case_match; simplify_eq.
Qed.

Lemma RetryFunction_done {X} (f : X -> X * option error) x y b :
  RetryFunction f [] x = (y, (b, None)) -> b = true -> f x = (y, None).
Proof.
  unfold RetryFunction. destruct (f x) as [z err]. intros Heq Hb.
  injection Heq as -> Hv. by destruct (retry_verdict_done [] err b Hv Hb) as [->|(e & _ & Ha)].
Qed.

(** Which errors a creation forgives: "already exists" only, unless the
    caller's options forgive more. *)
Lemma create_allows options e :
  omap shouldAllowError options = [] ->
  any_pred (omap shouldAllowError (options ++ [Allow IsAlreadyExists])) e = true -> IsAlreadyExists e = true.
Proof. intros Ho. rewrite omap_app, Ho. cbn. by destruct (IsAlreadyExists e). Qed.

(** What a creation leaves behind, whether it returns an error or not. *)
Lemma client_CreateObject_options options c ns name obj c' err :
  omap shouldAllowError options = [] -> client_CreateObject options c ns name obj = (c', err) ->
  let k := obj_key ns name (u_gvk obj) in
  (api_objs c' = api_objs c \/ api_objs c' = {[k]} ∪ api_objs c) /\
  (err = None -> api_objs c' = {[k]} ∪ api_objs c).
Proof.
  intros Ho. unfold client_CreateObject, RetryWithExponentialBackOff. intros Hb. cbn zeta.
  set (k := obj_key ns name (u_gvk obj)).
  eapply (ExponentialBackoff_ind
    (fun x => api_objs x = api_objs c \/ api_objs x = {[k]} ∪ api_objs c)
    (fun x => api_objs x = {[k]} ∪ api_objs c)) in Hb as [Hi Hq]; [by split| | |by left].
  - intros x x' v Hx. unfold RetryFunction. destruct (api_Create _ _ _ _ _) as [y [e|]] eqn:Hc; intros [= <- _].
    + destruct (create_failed _ _ _ _ _ _ _ eq_refl Hc) as [->| ->]; [done|]. right.
      destruct Hx as [-> | ->]; set_solver.
    + rewrite (create_ok _ _ _ _ _ _ eq_refl Hc). right. destruct Hx as [-> | ->]; set_solver.
  - intros x x' b Hx. unfold RetryFunction. destruct (api_Create _ _ _ _ _) as [y e] eqn:Hc.
    intros [= <- Hv] Hbt. destruct (retry_verdict_done _ _ _ Hv Hbt) as [->|(e' & -> & Ha)].
    + rewrite (create_ok _ _ _ _ _ _ eq_refl Hc). destruct Hx as [-> | ->]; set_solver.
    + apply (create_allows _ _ Ho) in Ha.
      pose proof (create_exists _ _ _ _ _ _ _ eq_refl Hc Ha) as Hin. fold k in Hin.
      destruct (create_failed _ _ _ _ _ _ _ eq_refl Hc) as [Heq|Heq]; fold k in Heq;
        destruct Hx as [Hx|Hx]; rewrite Hx in Heq; rewrite Heq in Hin |- *; set_solver.
Qed.

Lemma client_CreateObject_effect c ns name obj c' :
  client_CreateObject [] c ns name obj = (c', None) ->
  api_objs c' = {[obj_key ns name (u_gvk obj)]} ∪ api_objs c.
Proof. intros Hb. by apply (client_CreateObject_options [] c ns name obj c' None). Qed.

(** A creation leaves what is being terminated as it is. *)
Lemma client_CreateObject_terminating options c ns name obj c' err :
  client_CreateObject options c ns name obj = (c', err) -> api_terminating c' = api_terminating c.
Proof.
  unfold client_CreateObject, RetryWithExponentialBackOff. intros Hb.
  eapply (ExponentialBackoff_ind (fun x => api_terminating x = api_terminating c) (fun _ => True))
    in Hb as [Hi _]; [done| |done|done].
  intros x x' v Hx. unfold RetryFunction.
  pose proof (create_terminating x (u_gvk obj) ns name obj) as Ht.
  destruct (api_Create _ _ _ _ _) as [y e]. intros [= <- _]. cbn in Ht. congruence.
Qed.

(** What a retried deletion of [k] has done so far, seen from the cluster [c]
    it started from. *)
Definition deletion_progress (k : key) (c x : C) : Prop :=
  obj_untouched c x (api_terminating c) (api_terminating x) \/
  obj_removed c x (api_terminating c) (api_terminating x) k \/
  obj_marked c x (api_terminating c) (api_terminating x) k.

Definition deletion_done (k : key) (c x : C) : Prop :=
  obj_removed c x (api_terminating c) (api_terminating x) k \/
  obj_marked c x (api_terminating c) (api_terminating x) k.

Lemma deletion_done_step k c x y :
  deletion_progress k c x -> deletion_done k x y -> deletion_done k c y.
Proof.
  pose proof (terminating_served y) as Hs.
  unfold deletion_progress, deletion_done, obj_untouched, obj_removed, obj_marked.
  intros [[Ho Ht]|[[Ho Ht]|[Ho Ht]]] [[Ho' Ht']|[Ho' Ht']]; rewrite Ho in Ho'; rewrite Ht in Ht'.
  - by left.
  - by right.
  - left. rewrite Ho', Ht'. clear. set_solver.
  - exfalso. rewrite Ho', Ht' in Hs. clear -Hs. set_solver.
  - left. rewrite Ho', Ht'. clear. set_solver.
  - right. rewrite Ho', Ht'. clear. set_solver.
Qed.

Lemma deletion_progress_step k c x y :
  deletion_progress k c x -> deletion_progress k x y -> deletion_progress k c y.
Proof.
  intros Hx [[Ho Ht]|Hy]; [|right; by eapply deletion_done_step].
  destruct Hx as [[? ?]|[[? ?]|[? ?]]]; [left|right; left|right; right]; split; congruence.
Qed.

Lemma deletion_gone k c x :
  deletion_progress k c x -> k ∉ api_objs x -> deletion_done k c x.
Proof.
  pose proof (terminating_served x) as Hs.
  intros [[Ho Ht]|[?|?]] Hk; [|by left|by right]. left. rewrite Ho in Hs, Hk. rewrite Ht in Hs.
  split; rewrite ?Ho, ?Ht; clear -Hs Hk; set_solver.
Qed.

Lemma client_DeleteObject_effect c g ns name c' err :
  client_DeleteObject [] c g ns name = (c', err) ->
  deletion_progress (obj_key ns name g) c c' /\
  (err = None -> deletion_done (obj_key ns name g) c c').
Proof.
  unfold client_DeleteObject, RetryWithExponentialBackOff. intros Hb. set (k := obj_key ns name g).
  eapply (ExponentialBackoff_ind (deletion_progress k c) (deletion_done k c)) in Hb as [Hi Hq];
    [by split| | |by left].
  - intros x x' v Hx. unfold RetryFunction. destruct (api_Delete _ _ _ _) as [y [e|]] eqn:Hc; intros [= <- _];
      eapply deletion_progress_step; try exact Hx.
    + exact (delete_failed _ _ _ _ _ _ Hc).
    + right. exact (delete_ok _ _ _ _ _ Hc).
  - intros x x' b Hx. unfold RetryFunction. destruct (api_Delete _ _ _ _) as [y e] eqn:Hc.
    intros [= <- Hv] Hbt. destruct (retry_verdict_done _ _ _ Hv Hbt) as [->|(e' & -> & Ha)].
    + eapply deletion_done_step; [exact Hx|exact (delete_ok _ _ _ _ _ Hc)].
    + cbn in Ha. assert (IsNotFound e' = true) as Hae by (by destruct (IsNotFound e')).
      apply deletion_gone; [|exact (delete_missing _ _ _ _ _ _ Hc Hae)].
      eapply deletion_progress_step; [exact Hx|exact (delete_failed _ _ _ _ _ _ Hc)].
Qed.

(** What patches of [k] may have done to the set of objects. *)
Definition patch_progress (k : key) (c x : C) : Prop :=
  obj_untouched c x (api_terminating c) (api_terminating x) \/
  (k ∈ api_terminating c /\ obj_removed c x (api_terminating c) (api_terminating x) k).

Lemma patch_progress_step k c x y :
  patch_progress k c x -> patch_progress k x y -> patch_progress k c y.
Proof.
  intros [[Ho Ht]|(Hk & Ho & Ht)] [[Ho' Ht']|(Hk' & Ho' & Ht')]; rewrite Ho in Ho'; rewrite Ht in Ht'.
  - by left.
  - right. rewrite Ht in Hk'. by split_and!.
  - right. by split_and!.
  - rewrite Ht in Hk'. clear -Hk'. set_solver.
Qed.

(** A patch that is reported as applied was computed from the object read in
    that same attempt. *)
Lemma client_PatchObject_effect c ns name obj c' err :
  client_PatchObject [] c ns name obj = (c', err) ->
  let k := obj_key ns name (u_gvk obj) in
  let gvr := pluralResource (u_gvk obj) in
  patch_progress k c c' /\
  (err = None -> exists x current patch,
     patch_progress k c x /\ api_Get x gvr ns name = Ok current /\ createPatch current obj = Ok patch /\
     api_Patch x gvr ns name patch = (c', None)).
Proof.
  unfold client_PatchObject, RetryWithExponentialBackOff. intros Hb. cbn zeta.
  set (k := obj_key ns name (u_gvk obj)).
  eapply (ExponentialBackoff_ind (patch_progress k c)
    (fun y => exists x current patch, patch_progress k c x /\
       api_Get x (pluralResource (u_gvk obj)) ns name = Ok current /\ createPatch current obj = Ok patch /\
       api_Patch x (pluralResource (u_gvk obj)) ns name patch = (y, None))) in Hb as [Hi Hq];
    [by split| | |by left].
  - intros x x' v Hx. unfold RetryFunction.
    destruct (api_Get _ _ _ _) as [cur|]; [|by intros [= <- _]].
    destruct (createPatch cur obj) as [p|]; [|by intros [= <- _]].
    destruct (api_Patch _ _ _ _ _) as [y e] eqn:Hp. intros [= <- _].
    eapply patch_progress_step; [exact Hx|exact (patch_effect _ _ _ _ _ _ _ Hp)].
  - intros x y b Hx Hf Hbt. pose proof (RetryFunction_done _ _ _ _ Hf Hbt) as Hy. cbn beta in Hy.
    destruct (api_Get _ _ _ _) as [cur|] eqn:Hg; [|done].
    destruct (createPatch cur obj) as [p|] eqn:Hcp; [|done]. by exists x, cur, p.
Qed.

(** C8: what the object calls of the framework have done once they return, for a
    server that loses answers, executes calls it reports as failed and deletes
    with grace periods and finalizers. [CreateObject] without error: exactly
    that object was added, or was there before, and what was being deleted still
    is. [DeleteObject] without error: exactly that object is gone, or nothing is
    gone and it is being terminated; with an error, at most this happened.
    [PatchObject] without error: its last attempt read the object, computed the
    patch from what it read and had it applied, and no attempt removed an
    object, but for one being terminated. *)
Theorem retried_calls_have_exact_effect c ns name obj :
  let k := obj_key ns name (u_gvk obj) in
  let gvr := pluralResource (u_gvk obj) in
  (forall c' err, client_CreateObject [] c ns name obj = (c', err) ->
     api_terminating c' = api_terminating c /\
     (api_objs c' = api_objs c \/ api_objs c' = {[k]} ∪ api_objs c) /\
     (err = None -> api_objs c' = {[k]} ∪ api_objs c)) /\
  (forall c' err, client_DeleteObject [] c (u_gvk obj) ns name = (c', err) ->
     let gone := api_objs c' = api_objs c ∖ {[k]} /\ api_terminating c' = api_terminating c ∖ {[k]} in
     let terminating := api_objs c' = api_objs c /\ api_terminating c' = {[k]} ∪ api_terminating c in
     let unchanged := api_objs c' = api_objs c /\ api_terminating c' = api_terminating c in
     (unchanged \/ gone \/ terminating) /\ (err = None -> gone \/ terminating)) /\
  (forall c' err, client_PatchObject [] c ns name obj = (c', err) ->
     (api_objs c' = api_objs c \/ (k ∈ api_terminating c /\ api_objs c' = api_objs c ∖ {[k]})) /\
     (err = None -> exists x current patch,
        (api_objs x = api_objs c \/ (k ∈ api_terminating c /\ api_objs x = api_objs c ∖ {[k]})) /\
        api_Get x gvr ns name = Ok current /\ createPatch current obj = Ok patch /\
        api_Patch x gvr ns name patch = (c', None))).
Proof.
  cbn zeta. split_and!; intros c' err Hr.
  - split; [by eapply client_CreateObject_terminating|]. by apply (client_CreateObject_options []).
  - by apply client_DeleteObject_effect.
  - apply client_PatchObject_effect in Hr as [Hp Hq]. split.
    + destruct Hp as [[? _]|(? & ? & _)]; auto.
    + intros ->. destruct (Hq eq_refl) as (x & cur & p & Hx & Hrest). exists x, cur, p. split; [|done].
      destruct Hx as [[? _]|(? & ? & _)]; auto.
Qed.

(** The framework of the executor, over the API server. *)
Definition api_framework (count : C -> string -> GroupVersionKind -> string -> result Z)
  (selector : string -> result string) (prefix : C -> string) : Framework C :=
  {| CreateObject := client_CreateObject [];
     PatchObject := client_PatchObject [];
     DeleteObject := client_DeleteObject [];
     GetNumObjectsMatchingSelector := count;
     LabelSelectorAsSelector := selector;
     GetAutomanagedNamespacePrefix := prefix |}.

(** On a server that deletes at once (no finalizers, no grace periods) the
    calls meet the contract the executor is proved against. *)
Class NoGrace := no_grace c : api_terminating c = ∅.

#[export] Instance api_cluster_laws `{!NoGrace} count selector prefix :
  @ClusterLaws C (api_framework count selector prefix).
Proof.
  refine (@Build_ClusterLaws C (api_framework count selector prefix) api_objs _ _ _); cbn.
  - intros. by apply client_CreateObject_effect.
  - intros c ns name obj c' Hp. apply client_PatchObject_effect in Hp as [[[? _]|(Hk & _)] _]; [done|].
    rewrite no_grace in Hk. set_solver.
  - intros c ns name g c' Hd. apply client_DeleteObject_effect in Hd as [_ Hd].
    destruct (Hd eq_refl) as [[? _]|[_ Ht]]; [done|]. rewrite !no_grace in Ht. set_solver.
Defined.

(** ** How often a call is made *)

Lemma any_pred_spec fs e : any_pred fs e = true <-> exists p, p ∈ fs /\ p e = true.
Proof.
  induction fs as [|f fs IH]; cbn; [split; [done|by intros (p & Hp%not_elem_of_nil & _)]|].
  destruct (f e) eqn:Hf; [|rewrite IH]; split.
  - intros _. exists f. split; [by left|done].
  - done.
  - intros (p & Hp & He). exists p. split; [by right|done].
  - intros (p & [->|Hp]%elem_of_cons & He); [congruence|eauto].
Qed.

(** Some option of the call carries a predicate, selected by [sel], that
    accepts the error. *)
Definition some_option (sel : APICallOptions -> option (error -> bool)) (options : list APICallOptions)
  (e : error) : Prop :=
  exists o p, o ∈ options /\ sel o = Some p /\ p e = true.

Lemma some_option_spec sel options e : any_pred (omap sel options) e = true <-> some_option sel options e.
Proof.
  rewrite any_pred_spec. unfold some_option. split.
  - intros (p & (o & Ho & Hs)%list_elem_of_omap & He). eauto.
  - intros (o & p & Ho & Hs & He). exists p. split; [|done]. apply list_elem_of_omap. eauto.
Qed.

Definition error_allowed (options : list APICallOptions) (e : error) : Prop := some_option shouldAllowError options e.
Definition error_retried (options : list APICallOptions) (e : error) : Prop :=
  some_option shouldRetryError options e \/ IsRetryableAPIError e = true \/ IsRetryableNetError e = true.

Lemma retry_verdict_cases options err :
  match err with
  | None => retry_verdict options err = (true, None)
  | Some e => (error_allowed options e /\ retry_verdict options err = (true, None)) \/
              (~ error_allowed options e /\ error_retried options e /\ retry_verdict options err = (false, None)) \/
              (~ error_allowed options e /\ ~ error_retried options e /\ retry_verdict options err = (false, Some e))
  end.
Proof.
  destruct err as [e|]; [|done]. unfold error_allowed, error_retried. rewrite <- !some_option_spec. cbn.
  destruct (any_pred (omap shouldAllowError options) e); [auto|].
  destruct (any_pred (omap shouldRetryError options) e); [auto 10|].
  destruct (IsRetryableAPIError e); [auto 10|]. destruct (IsRetryableNetError e); [auto 10|].
  right. right. split_and!; [done| |done]. by intros [?|[?|?]].
Qed.

(** Attempts of the call that all failed with errors to be retried. *)
Inductive failed_attempts (f : C -> C * option error) (options : list APICallOptions) :
  C -> list error -> C -> Prop :=
| attempts_nil c : failed_attempts f options c [] c
| attempts_cons c c1 e es c2 :
    f c = (c1, Some e) -> ~ error_allowed options e -> error_retried options e ->
    failed_attempts f options c1 es c2 -> failed_attempts f options c (e :: es) c2.

Lemma backoff_attempts f options n c :
  exists es c1, failed_attempts f options c es c1 /\
    ((length es = n /\ ExponentialBackoff n (RetryFunction f options) c = (c1, Some ErrWaitTimeout)) \/
     ((length es < n)%nat /\ exists c2 answer,
        f c1 = (c2, answer) /\
        match answer with
        | None => ExponentialBackoff n (RetryFunction f options) c = (c2, None)
        | Some e => (error_allowed options e /\ ExponentialBackoff n (RetryFunction f options) c = (c2, None)) \/
                    (~ error_allowed options e /\ ~ error_retried options e /\
                     ExponentialBackoff n (RetryFunction f options) c = (c2, Some e))
        end)).
Proof.
  revert c. induction n as [|n IH]; intros c.
  { exists [], c. split; [constructor|]. left. by rewrite backoff_none. }
  destruct (f c) as [c1 err] eqn:Hf. pose proof (retry_verdict_cases options err) as Hv.
  assert (forall r, retry_verdict options err = r -> RetryFunction f options c = (c1, r)) as Hrf
    by (intros r <-; unfold RetryFunction; by rewrite Hf).
  destruct err as [e|];
    [destruct Hv as [[Ha Hv]|[(Ha & Hr & Hv)|(Ha & Hr & Hv)]]|]; apply Hrf in Hv; rewrite backoff_step, Hv.
  - exists [], c. split; [constructor|]. right. split; [cbn; lia|]. exists c1, (Some e). auto.
  - destruct (IH c1) as (es & c2 & Hes & Hcase). exists (e :: es), c2.
    split; [by econstructor|]. cbn. destruct Hcase as [[-> ?]|[? ?]]; [by left|right]. split; [lia|done].
  - exists [], c. split; [constructor|]. right. split; [cbn; lia|]. exists c1, (Some e). auto.
  - exists [], c. split; [constructor|]. right. split; [cbn; lia|]. by exists c1, None.
Qed.

(** C37: how a call made through [RetryWithExponentialBackOff] and [RetryFunction]
    ends, for any call and any options. There are attempts that failed with
    errors to be retried (none of them allowed); either there were six of them,
    no seventh attempt is made and the timeout error is returned, or there were
    fewer and the next attempt decides: it succeeded, or failed with an error
    some option allows, and no error is returned, or it failed with an error
    that is neither allowed nor retryable, which is returned. *)
Theorem RetryFunction_outcome (f : C -> C * option error) options c :
  let run := RetryWithExponentialBackOff (RetryFunction f options) c in
  exists es c1, failed_attempts f options c es c1 /\
    ((length es = 6%nat /\ run = (c1, Some ErrWaitTimeout)) \/
     ((length es < 6)%nat /\ exists c2 answer,
        f c1 = (c2, answer) /\
        match answer with
        | None => run = (c2, None)
        | Some e => (error_allowed options e /\ run = (c2, None)) \/
                    (~ error_allowed options e /\ ~ error_retried options e /\ run = (c2, Some e))
        end)).
Proof. exact (backoff_attempts f options 6 c). Qed.
End Calls.

(** ** Sets of clients *)
Section MultiClient.
Context {A : Type} (PrepareAndCreate : nat -> result A).

(** [clients] is a slice of interface values; a slot not yet filled is nil. *)
Record MultiClientSet := mkMultiClientSet {
  clients : list A;
  current : Z;
}.

(** The creation loop. The check of [number] is inside it. *)
Fixpoint create_clients (number : Z) (i n : nat) (acc : list A) : result (list A) :=
  match n with
  | O => Ok acc
  | S n' =>
      if number <? 1 then Err (Errorf "incorrect clients number" [])
      else match PrepareAndCreate i with
           | Err err => Err (Errorf "creating clientset failed: %v" [AErr err])
           | Ok a => create_clients number (S i) n' (acc ++ [a])
           end
  end.

(** [make] panics on a negative length. *)
Definition NewMultiClientSet (number : Z) : outcome MultiClientSet :=
  if number <? 0 then Panics
  else match create_clients number 0 (Z.to_nat number) [] with
       | Ok l => Returns (mkMultiClientSet l 0)
       | Err e => Fails e
       end.

(** Integer division by zero panics. *)
Definition GetClient (m : MultiClientSet) : outcome (MultiClientSet * A) :=
  if Z.of_nat (length (clients m)) =? 0 then Panics
  else
    let current' := Z.rem (current m + 1) (Z.of_nat (length (clients m))) in
    match clients m !! Z.to_nat current' with
    | Some a => Returns (mkMultiClientSet (clients m) current', a)
    | None => Panics
    end.

(** A sequence of [GetClient] calls. *)
Fixpoint get_clients (n : nat) (m : MultiClientSet) : outcome (list A) :=
  match n with
  | O => Returns []
  | S n' => r ← GetClient m; rest ← get_clients n' r.1; Returns (r.2 :: rest)
  end.

Lemma create_clients_length number i n acc l :
  create_clients number i n acc = Ok l -> length l = (length acc + n)%nat.
Proof.
  revert i acc. induction n as [|n IH]; intros i acc; cbn; [intros [= <-]; lia|].
  destruct (number <? 1); [done|]. destruct (PrepareAndCreate i); [|done].
  intros Hl. apply IH in Hl. rewrite length_app in Hl. cbn in Hl. lia.
Qed.

Definition multi_wf (m : MultiClientSet) : Prop := 0 <= current m < Z.of_nat (length (clients m)).

Lemma GetClient_spec m :
  multi_wf m -> exists a, clients m !! Z.to_nat ((current m + 1) mod Z.of_nat (length (clients m))) = Some a /\
    GetClient m = Returns (mkMultiClientSet (clients m) ((current m + 1) mod Z.of_nat (length (clients m))), a).
Proof.
  intros [H0 H1]. unfold GetClient. rewrite (proj2 (Z.eqb_neq _ _)) by lia.
  rewrite Z.rem_mod_nonneg by lia.
  pose proof (Z.mod_pos_bound (current m + 1) (Z.of_nat (length (clients m))) ltac:(lia)) as Hb.
  destruct (lookup_lt_is_Some_2 (clients m) (Z.to_nat ((current m + 1) mod Z.of_nat (length (clients m))))
              ltac:(lia)) as [a Ha].
  exists a. cbn zeta. by rewrite Ha.
Qed.

Lemma get_clients_spec n m :
  multi_wf m -> exists l, get_clients n m = Returns l /\ length l = n /\
    forall k, (k < n)%nat ->
      l !! k = clients m !! Z.to_nat ((current m + 1 + Z.of_nat k) mod Z.of_nat (length (clients m))).
Proof.
  revert m. induction n as [|n IH]; intros m Hm; cbn.
  { exists []. split_and!; [done..|lia]. }
  destruct (GetClient_spec m Hm) as (a & Ha & ->). cbn.
  set (len := Z.of_nat (length (clients m))) in *.
  destruct (IH (mkMultiClientSet (clients m) ((current m + 1) mod len))) as (l & -> & Hl & Hk).
  { split; cbn; fold len; apply Z.mod_pos_bound; unfold multi_wf in Hm; fold len in Hm; lia. }
  exists (a :: l). cbn in *. split_and!; [done|lia|]. intros [|k] Hlt; cbn.
  - by rewrite Z.add_0_r.
  - rewrite Hk by lia. fold len. do 2 f_equal.
    unfold multi_wf in Hm; fold len in Hm.
    rewrite <- Z.add_assoc, Zplus_mod_idemp_l. f_equal. lia.
Qed.

(** Reading [n] places from any place on, around a list of [n], gives all of it. *)
Lemma rotation_perm (xs l : list A) (c : Z) :
  0 <= c -> length l = length xs ->
  (forall k, (k < length xs)%nat -> l !! k = xs !! Z.to_nat ((c + Z.of_nat k) mod Z.of_nat (length xs))) -> l ≡ₚ xs.
Proof.
  intros Hc Hlen Hk. set (n := length xs) in *.
  destruct (decide (n = 0)%nat) as [H0|H0].
  { destruct xs; [|done]. by destruct l. }
  set (r := Z.to_nat (c mod Z.of_nat n)).
  pose proof (Z.mod_pos_bound c (Z.of_nat n) ltac:(lia)) as Hr.
  assert (l = drop r xs ++ take r xs) as ->; [|by rewrite Permutation_app_comm, take_drop].
  apply list_eq_same_length with n; [|done|].
  - rewrite length_app, length_drop, length_take. fold n. lia.
  - intros k x y Hkn Hx Hy. rewrite Hk in Hx by done. rewrite lookup_app, lookup_drop in Hy.
    rewrite <- Zplus_mod_idemp_l in Hx. destruct (decide (r + k < n)%nat) as [Hlt|Hge].
    + rewrite Z.mod_small in Hx by lia.
      replace (Z.to_nat (c mod Z.of_nat n + Z.of_nat k)) with (r + k)%nat in Hx by lia. rewrite Hx in Hy. congruence.
    + rewrite (lookup_ge_None_2 xs) in Hy by (fold n; lia). rewrite length_drop, lookup_take in Hy. fold n in Hy.
      case_decide as Hd; [|done].
      replace ((c mod Z.of_nat n + Z.of_nat k) mod Z.of_nat n) with (c mod Z.of_nat n + Z.of_nat k - Z.of_nat n) in Hx
        by (apply (Z.mod_unique_pos _ _ 1); lia).
      replace (Z.to_nat (c mod Z.of_nat n + Z.of_nat k - Z.of_nat n)) with (k - (n - r))%nat in Hx by lia. congruence.
Qed.

(** C31: a set created for a positive number of clients holds that many, and
    shares them evenly: no call of [GetClient] ever panics, the k-th call (from
    0) gets the client at place k+1 modulo the number, and any [number]
    consecutive calls, from wherever in the run, use every client of the set
    exactly once. The calls are serialised by the set's lock. *)
Theorem GetClient_round_robin number m :
  0 < number -> NewMultiClientSet number = Returns m ->
  Z.of_nat (length (clients m)) = number /\
  forall calls, exists l, get_clients calls m = Returns l /\ length l = calls /\
    (forall k, (k < calls)%nat -> l !! k = clients m !! Z.to_nat ((Z.of_nat k + 1) mod number)) /\
    (forall start, (start + Z.to_nat number <= calls)%nat -> take (Z.to_nat number) (drop start l) ≡ₚ clients m).
Proof.
  intros Hn Hnew. assert (current m = 0 /\ Z.of_nat (length (clients m)) = number) as [Hcur Hlen].
  { revert Hnew. unfold NewMultiClientSet. rewrite (proj2 (Z.ltb_ge _ _)) by lia.
    destruct (create_clients _ _ _ _) as [l|e] eqn:Hc; [|done]. intros [= <-]. apply create_clients_length in Hc. cbn in *. lia. }
  split; [done|]. intros calls. destruct (get_clients_spec calls m) as (l & Hg & Hl & Hk); [unfold multi_wf; lia|].
  rewrite Hcur, Hlen in Hk. exists l. split_and!; [done|done| |].
  - intros k Hlt. rewrite Hk by done. do 3 f_equal. lia.
  - intros start Hs. apply (rotation_perm _ _ (Z.of_nat start + 1)); [lia|rewrite length_take, length_drop; lia|].
    intros k Hlt. rewrite lookup_take, lookup_drop. rewrite decide_True by lia. rewrite Hk by lia.
    rewrite Hlen. do 3 f_equal. lia.
Qed.

(** [number] is only checked inside the creation loop, so a set of no clients is
    created without error and panics at its first use; with at least one client
    a set that was created can always be used. *)
Theorem empty_MultiClientSet_panics :
  (exists m, NewMultiClientSet 0 = Returns m /\ GetClient m = Panics) /\
  (forall number m, 0 < number -> NewMultiClientSet number = Returns m ->
     multi_wf m /\ exists m' a, GetClient m = Returns (m', a)).
Proof.
  split; [by eexists|]. intros number m Hn. unfold NewMultiClientSet.
  rewrite (proj2 (Z.ltb_ge _ _)) by lia.
  destruct (create_clients number 0 (Z.to_nat number) []) as [l|] eqn:Hc; [|done]. intros [= <-].
  apply create_clients_length in Hc. cbn in Hc.
  assert (multi_wf (mkMultiClientSet l 0)) as Hwf by (unfold multi_wf; cbn; lia).
  split; [done|]. destruct (GetClient_spec _ Hwf) as (a & _ & Hg). eauto.
Qed.
End MultiClient.

(** Three clients, seven calls. *)
Lemma GetClient_round_robin_witness :
  exists m l, NewMultiClientSet (fun i => Ok i) 3 = Returns m /\ get_clients 7 m = Returns l /\
    l = [1; 2; 0; 1; 2; 0; 1]%nat /\ take 3 (drop 3 l) ≡ₚ clients m.
Proof.
  destruct (GetClient_round_robin (fun i => Ok i) 3 (mkMultiClientSet [0; 1; 2]%nat 0) eq_refl eq_refl) as [_ Hc].
  destruct (Hc 7%nat) as (l & Hg & _ & _ & Hp). eexists _, l. split; [reflexivity|]. split; [exact Hg|].
  split; [|by apply (Hp 3%nat); cbn; lia]. cbn in Hg. by injection Hg as <-.
Defined.

(** ** A server that loses answers

    The first calls have their effect but time out. *)
Section Flaky.
Definition flaky : Type := gset key * nat.

#[local] Instance flaky_errors : ApiErrors :=
  {| IsAlreadyExists := fun e => match e with External t => String.eqb t "exists" | _ => false end;
     IsNotFound := fun e => match e with External t => String.eqb t "missing" | _ => false end;
     IsInternalError := fun _ => false;
     IsTimeout := fun e => match e with External t => String.eqb t "timeout" | _ => false end;
     IsServerTimeout := fun _ => false; IsTooManyRequests := fun _ => false; IsUnauthorized := fun _ => false;
     IsProbableEOF := fun _ => false; IsConnectionReset := fun _ => false; SuggestsClientDelay := fun _ => false;
     APIStatus := fun _ => None; NetError := fun _ => None |}.

Fixpoint backoff_loop {C} (n : nat) (f : ConditionFunc C) (c : C) : C * option error :=
  match n with
  | O => (c, Some (External "timed out waiting for the condition"))
  | S n' => match f c with
            | (c', (_, Some err)) => (c', Some err)
            | (c', (true, None)) => (c', None)
            | (c', (false, None)) => backoff_loop n' f c'
            end
  end.

#[local] Instance simple_backoff : Backoff :=
  {| ExponentialBackoff := @backoff_loop; ErrWaitTimeout := External "timed out waiting for the condition";
     backoff_none := fun _ _ _ => eq_refl; backoff_step := fun _ _ _ _ => eq_refl |}.

Definition flaky_answer (s : gset key) (fuel : nat) (ok : option error) : flaky * option error :=
  match fuel with
  | O => ((s, O), ok)
  | S n => ((s, n), Some (External "timeout"))
  end.

#[local] Instance flaky_server : ApiServer flaky :=
  {| api_Create := fun c _ ns name obj =>
       let k := obj_key ns name (u_gvk obj) in
       flaky_answer ({[k]} ∪ c.1) c.2 (if decide (k ∈ c.1) then Some (External "exists") else None);
     api_Get := fun _ g ns name => Ok (mkUnstructured (mkGVK (gvr_Group g) (gvr_Version g) (Resource g)) ∅);
     api_Patch := fun c _ _ _ _ => (c, None);
     api_Delete := fun c g ns name =>
       let k := obj_key ns name (mkGVK (gvr_Group g) (gvr_Version g) (Resource g)) in
       flaky_answer (c.1 ∖ {[k]}) c.2 (if decide (k ∈ c.1) then None else Some (External "missing"));
     LowercasePluralName := Kind; ToLower := fun s => s;
     createPatch := fun _ _ => Ok "" |}.

Lemma flaky_plural g : pluralResource g = mkGVR (Group g) (Version g) (Kind g).
Proof. unfold pluralResource. by destruct (HasSuffix _ _). Qed.

#[local] Instance flaky_laws : ApiLaws (C := flaky).
Proof.
  refine {| api_objs := (fst : flaky -> gset key) |}; cbn; unfold flaky_answer; rewrite ?flaky_plural; cbn.
  all: intros [s f] g ns name; cbn.
  - intros obj c' <-. destruct f; [|done]. case_decide; intros [= <-]; done.
  - intros obj c' e <-. destruct f; [case_decide|]; intros [= <-]; cbn; by right.
  - intros obj c' e <-. destruct f; [case_decide|]; intros [= <- <-]; cbn; set_solver.
Defined.

#[local] Instance flaky_deletes : DeleteLaws (C := flaky).
Proof.
  refine {| api_terminating := fun _ : flaky => ∅ |}; unfold obj_removed, obj_marked, obj_untouched; cbn; unfold flaky_answer.
  all: intros [s f]; cbn.
  - set_solver.
  - done.
  - intros g ns name c'. rewrite flaky_plural. cbn. destruct f; [|done]. left.
    case_decide; simplify_eq. split; [done|set_solver].
  - intros g ns name c' e. rewrite flaky_plural. cbn. intros Hd. right. left.
    destruct f; [case_decide|]; simplify_eq; (split; [done|set_solver]).
  - intros g ns name c' e. rewrite flaky_plural. cbn. destruct f; [case_decide|]; intros [= <- <-]; cbn; set_solver.
  - intros g ns name p c' e [= <- _]. by left.
Defined.

#[local] Instance flaky_at_once : NoGrace (C := flaky).
Proof. done. Defined.
End Flaky.

(** ** A server with finalizers

    It loses answers too, and a deletion first marks the object; deleting it
    again, after the grace period, removes it. *)
Section Finalizers.
#[local] Existing Instances flaky_errors simple_backoff.
Definition slow : Type := gset key * gset key * nat.

Definition slow_answer (objs terminating : gset key) (fuel : nat) (ok : option error) : slow * option error :=
  match fuel with
  | O => ((objs, terminating, O), ok)
  | S n => ((objs, terminating, n), Some (External "timeout"))
  end.

#[local] Instance slow_server : ApiServer slow :=
  {| api_Create := fun c _ ns name obj =>
       let k := obj_key ns name (u_gvk obj) in
       slow_answer ({[k]} ∪ c.1.1) c.1.2 c.2 (if decide (k ∈ c.1.1 ∪ c.1.2) then Some (External "exists") else None);
     api_Get := fun _ g ns name => Ok (mkUnstructured (mkGVK (gvr_Group g) (gvr_Version g) (Resource g)) ∅);
     api_Patch := fun c _ _ _ _ => (c, None);
     api_Delete := fun c g ns name =>
       let k := obj_key ns name (mkGVK (gvr_Group g) (gvr_Version g) (Resource g)) in
       if decide (k ∈ c.1.2) then slow_answer (c.1.1 ∖ {[k]}) (c.1.2 ∖ {[k]}) c.2 None
       else if decide (k ∈ c.1.1) then slow_answer (c.1.1 ∖ {[k]}) ({[k]} ∪ c.1.2) c.2 None
       else slow_answer c.1.1 c.1.2 c.2 (Some (External "missing"));
     LowercasePluralName := Kind; ToLower := fun s => s;
     createPatch := fun _ _ => Ok "" |}.

Lemma slow_plural g : pluralResource (C := slow) g = mkGVR (Group g) (Version g) (Kind g).
Proof. unfold pluralResource. by destruct (HasSuffix _ _). Qed.

#[local] Instance slow_laws : ApiLaws (C := slow).
Proof.
  refine {| api_objs := (fun c : slow => c.1.1 ∪ c.1.2) |}; cbn; unfold slow_answer.
  all: intros [[s t] f] g ns name; cbn.
  - intros obj c' <-. destruct f; [|done]. case_decide; intros [= <-]; cbn. by rewrite (assoc_L (∪)).
  - intros obj c' e <-. destruct f; [case_decide|]; intros [= <-]; cbn; right; by rewrite (assoc_L (∪)).
  - intros obj c' e <-. destruct f; [case_decide|]; intros [= <- <-]; cbn; set_solver.
Defined.

#[local] Instance slow_deletes : DeleteLaws (C := slow).
Proof.
  refine {| api_terminating := (fun c : slow => c.1.2) |};
    unfold obj_removed, obj_marked, obj_untouched; cbn; unfold slow_answer.
  all: intros [[s t] f]; cbn.
  - set_solver.
  - intros g ns name obj. by destruct f.
  - intros g ns name c'. rewrite slow_plural. cbn.
    repeat case_decide; destruct f; intros; simplify_eq; cbn; [left|right]; split; try done; try set_solver.
    apply set_eq. intros x. destruct (decide (x = obj_key ns name (mkGVK (Group g) (Version g) (Kind g)))); set_solver.
  - intros g ns name c' e. rewrite slow_plural. cbn.
    repeat case_decide; destruct f; intros; simplify_eq; cbn;
      [right; left; split; set_solver|right; right|by left|by left]. split; [|done].
    apply set_eq. intros x. destruct (decide (x = obj_key ns name (mkGVK (Group g) (Version g) (Kind g)))); set_solver.
  - intros g ns name c' e. rewrite slow_plural. cbn.
    repeat case_decide; destruct f; intros [= <- <-]; cbn; set_solver.
  - intros g ns name p c' e [= <- _]. by left.
Defined.

(** Two lost answers, then "already exists": exactly one new object. *)
Lemma retried_calls_have_exact_effect_witness :
  let obj := mkUnstructured (mkGVK "apps" "v1" "Deployment") ∅ in
  exists c', client_CreateObject [] ((∅, ∅, 2%nat) : slow) "ns" "web-0" obj = (c', None) /\
    c'.1.1 ∪ c'.1.2 = {[obj_key "ns" "web-0" (u_gvk obj)]} ∪ (∅ ∪ ∅).
Proof.
  cbn zeta. set (obj := mkUnstructured (mkGVK "apps" "v1" "Deployment") ∅).
  destruct (client_CreateObject [] ((∅, ∅, 2%nat) : slow) "ns" "web-0" obj) as [c' err] eqn:Hc.
  assert (err = None) as -> by (apply (f_equal snd) in Hc; vm_compute in Hc; done).
  exists c'. split; [done|].
  exact (proj2 (proj2 (proj1 (retried_calls_have_exact_effect ((∅, ∅, 2%nat) : slow) "ns" "web-0" obj) c' None Hc)) eq_refl).
Defined.
End Finalizers.
