(* ===== verification/Modifier.v ===== *)
(** * The test modifier (pkg/modifier/modifier.go)

    Skipping steps by name and overwriting single values of the config by a
    "Path.To.Field=value" flag, which the code does through [reflect]. *)

From S2P Require Import Prelude GoErrors Params Api.

(** [strings.Split(s, sep)] for a one-character separator. *)
Fixpoint split_go (sep : Ascii.ascii) (acc s : string) : list string :=
  match s with
  | EmptyString => [acc]
  | String a s' =>
      if Ascii.eqb a sep then acc :: split_go sep "" s'
      else split_go sep (acc +:+ String a EmptyString) s'
  end.
Definition Split (sep : Ascii.ascii) (s : string) : list string := split_go sep "" s.

(** ** Reflection *)

(** A [reflect.Value]: the kinds the modifier distinguishes. A pointer carries
    the zero value of its element type. *)
Inductive node :=
| NBool (b : bool)
| NString (s : string)
| NInt (bits z : Z)
| NStruct (fields : list (string * node))
| NPtr (zero : node) (target : option node)
| NOther (kind : string).

Fixpoint field (p : string) (fields : list (string * node)) : option node :=
  match fields with
  | [] => None
  | (q, v) :: rest => if String.eqb p q then Some v else field p rest
  end.

Fixpoint set_field (p : string) (v : node) (fields : list (string * node)) : list (string * node) :=
  match fields with
  | [] => []
  | (q, w) :: rest => if String.eqb p q then (q, v) :: rest else (q, w) :: set_field p v rest
  end.

Definition kind_of (n : node) : string :=
  match n with
  | NBool _ => "bool" | NString _ => "string" | NInt _ _ => "int"
  | NStruct _ => "struct" | NPtr _ _ => "ptr" | NOther k => k
  end.

(** [overwriteValue]: the new value of the node; [strconv]'s error text is
    external. *)
Definition overwriteValue (nd : node) (v k : string) : outcome node :=
  match nd with
  | NBool _ =>
      match ParseBool v with
      | Some b => Returns (NBool b)
      | None => Fails (Errorf "test config overwrite error: Cannot parse '%s' for key '%s' to bool: %v"
                         [AStr v; AStr k; AErr (External "strconv.ParseBool")])
      end
  | NString _ => Returns (NString v)
  | NInt bits _ =>
      match ParseInt bits v with
      | inl z => Returns (NInt bits z)
      | inr _ => Fails (Errorf "test config overwrite error: Cannot parse '%s' for key '%s' to int: %v"
                          [AStr v; AStr k; AErr (External "strconv.ParseInt")])
      end
  | _ => Fails (Errorf "unsupported kind: %v for key %s" [AStr (kind_of nd); AStr k])
  end.

(** The walk along [parameterPath] and the assignment at its end. [FieldByName]
    panics on a value that is not a struct; a nil pointer on the way is replaced
    by a pointer to a zero value. *)
Fixpoint overwrite_path (path : list string) (v k : string) (cur : node) : outcome node :=
  match path with
  | [] => overwriteValue cur v k
  | p :: rest =>
      match cur with
      | NStruct fields =>
          match field p fields with
          | None => Fails (Errorf "cannot overwrite config for key '%s'. Path does not exist" [AStr k])
          | Some (NPtr zero target) =>
              child ← overwrite_path rest v k (default zero target);
              Returns (NStruct (set_field p (NPtr zero (Some child)) fields))
          | Some child =>
              child' ← overwrite_path rest v k child;
              Returns (NStruct (set_field p child' fields))
          end
      | _ => Panics
      end
  end.

Definition overwrite_one (o : string) (root : node) : outcome node :=
  match Split "=" o with
  | [k; v] => overwrite_path (Split "." k) v k root
  | _ => Fails (Errorf "not a key=value pair: '%s'" [AStr o])
  end.

Fixpoint overwrite_all (os : list string) (root : node) : outcome node :=
  match os with
  | [] => Returns root
  | o :: os' => root' ← overwrite_one o root; overwrite_all os' root'
  end.

(** ** The config as reflection sees it *)

Definition ptr_node {A} (zero : node) (f : A -> node) (o : option A) : node := NPtr zero (f <$> o).

Definition node_failure_node (n : NodeFailureConfig) : node :=
  NStruct [("FailureRate", NOther "float64"); ("Interval", NInt 64 (Interval n));
           ("JitterFactor", NOther "float64"); ("SimulatedDowntime", NInt 64 (SimulatedDowntime n))].

Definition zero_node_failure : NodeFailureConfig := mkNodeFailureConfig (f64_of_Z 0) 0 (f64_of_Z 0) 0.

Definition namespace_node (ns : NamespaceConfig) : node :=
  NStruct [("Number", NInt 32 (Number ns)); ("Prefix", NString (Prefix ns));
           ("DeleteStaleNamespaces", ptr_node (NBool false) NBool (DeleteStaleNamespaces ns));
           ("DeleteAutomanagedNamespaces", ptr_node (NBool false) NBool (DeleteAutomanagedNamespaces ns));
           ("EnableExistingNamespaces", ptr_node (NBool false) NBool (EnableExistingNamespaces ns));
           ("DeleteNamespaceTimeout", ptr_node (NInt 64 0) (NInt 64) (DeleteNamespaceTimeout ns))].

Definition config_node (c : Config) : node :=
  NStruct [("Name", NString (conf_Name c)); ("Dependencies", NOther "slice");
           ("AutomanagedNamespaces", NInt 32 (AutomanagedNamespaces c));
           ("Namespace", namespace_node (Namespace c));
           ("Steps", NOther "slice"); ("TuningSets", NOther "slice");
           ("ChaosMonkey", NStruct
              [("NodeFailure", ptr_node (node_failure_node zero_node_failure) node_failure_node
                                 (NodeFailure (ChaosMonkey c)));
               ("ExcludedNodes", NOther "map")])].

(** Reading the values back; what reflection cannot overwrite comes from [c]. *)
Definition get_string (p : string) (l : list (string * node)) : string :=
  match field p l with Some (NString s) => s | _ => "" end.
Definition get_int (p : string) (l : list (string * node)) : Z :=
  match field p l with Some (NInt _ z) => z | _ => 0 end.
Definition get_struct (p : string) (l : list (string * node)) : list (string * node) :=
  match field p l with Some (NStruct l') => l' | _ => [] end.
Definition get_bool_ptr (p : string) (l : list (string * node)) : option bool :=
  match field p l with Some (NPtr _ (Some (NBool b))) => Some b | _ => None end.
Definition get_int_ptr (p : string) (l : list (string * node)) : option Z :=
  match field p l with Some (NPtr _ (Some (NInt _ z))) => Some z | _ => None end.

Definition node_config (c : Config) (root : node) : Config :=
  match root with
  | NStruct l =>
      let ns := get_struct "Namespace" l in
      let nf := match field "NodeFailure" (get_struct "ChaosMonkey" l) with
                | Some (NPtr _ (Some (NStruct m))) =>
                    let old := default zero_node_failure (NodeFailure (ChaosMonkey c)) in
                    Some (mkNodeFailureConfig (FailureRate old) (get_int "Interval" m)
                            (JitterFactor old) (get_int "SimulatedDowntime" m))
                | _ => None
                end in
      mkConfig (get_string "Name" l) (Dependencies c) (get_int "AutomanagedNamespaces" l)
        (mkNamespaceConfig (get_int "Number" ns) (get_string "Prefix" ns)
           (get_bool_ptr "DeleteStaleNamespaces" ns) (get_bool_ptr "DeleteAutomanagedNamespaces" ns)
           (get_bool_ptr "EnableExistingNamespaces" ns) (get_int_ptr "DeleteNamespaceTimeout" ns))
        (Steps c) (TuningSets c) (mkChaosMonkeyConfig nf (ExcludedNodes (ChaosMonkey c)))
  | _ => c
  end.

(** ** The modifier *)
Record simpleModifier := mkModifier {
  overwriteTestConfig : list string;
  skipSteps : list string;
}.

Fixpoint name_skipped (name : string) (skip : list string) : bool :=
  match skip with
  | [] => false
  | i :: skip' => if String.eqb i name then true else name_skipped name skip'
  end.

Definition modifySkipSteps (m : simpleModifier) (c : Config) : Config :=
  set_Steps c (fold_left (fun acc s => if name_skipped (step_Name s) (skipSteps m) then acc else acc ++ [s])
                 (Steps c) []).

Definition modifyOverwrite (m : simpleModifier) (c : Config) : outcome Config :=
  root ← overwrite_all (overwriteTestConfig m) (config_node c); Returns (node_config c root).

Definition ChangeTest (m : simpleModifier) (c : Config) : outcome Config :=
  modifyOverwrite m (modifySkipSteps m c).

(** ** Properties *)

Lemma node_config_node c : node_config c (config_node c) = c.
Proof.
  destruct c as [name deps auto [num pre [b1|] [b2|] [b3|] [t|]] steps ts [[[fr iv jf sd]|] ex]];
    reflexivity.
Qed.

Lemma name_skipped_elem name skip : name_skipped name skip = true <-> name ∈ skip.
Proof.
  induction skip as [|i skip IH]; cbn; [split; [done|set_solver]|].
  rewrite elem_of_cons. destruct (String.eqb_spec i name) as [->|Hne]; naive_solver.
Qed.

Lemma skip_fold skip l acc :
  fold_left (fun acc s => if name_skipped (step_Name s) skip then acc else acc ++ [s]) l acc =
  acc ++ filter (fun s => step_Name s ∉ skip) l.
Proof.
  revert acc. induction l as [|s l IH]; intros acc; cbn [fold_left]; [by rewrite filter_nil, app_nil_r|].
  rewrite IH, filter_cons. pose proof (name_skipped_elem (step_Name s) skip) as Hs.
  destruct (name_skipped (step_Name s) skip).
  - rewrite decide_False; [done|]. tauto.
  - rewrite decide_True; [by rewrite <- app_assoc|]. intros Hx. by apply Hs in Hx.
Qed.

(** Without overwrites, [ChangeTest] keeps exactly the steps whose name is not
    in the skip list, in order, and touches nothing else of the config;
    running it a second time, as [CompileTestConfig] and [RunTest] do, changes
    nothing. *)
Lemma ChangeTest_skips skip c :
  let m := mkModifier [] skip in
  let c' := set_Steps c (filter (fun s => step_Name s ∉ skip) (Steps c)) in
  ChangeTest m c = Returns c' /\ ChangeTest m c' = Returns c'.
Proof.
  cbn zeta. unfold ChangeTest, modifyOverwrite, modifySkipSteps.
  cbn [overwriteTestConfig skipSteps overwrite_all mbind outcome_bind].
  rewrite !skip_fold. cbn [app]. rewrite !node_config_node. split; [done|]. do 2 f_equal.
  cbn [Steps set_Steps]. rewrite list_filter_filter_l; [done|]. tauto.
Qed.

(** Reading along a path, through pointers (a nil one reads as the zero value). *)
Fixpoint read_path (path : list string) (cur : node) : option node :=
  match path with
  | [] => Some cur
  | p :: rest =>
      match cur with
      | NStruct fields =>
          match field p fields with
          | None => None
          | Some (NPtr zero target) => read_path rest (default zero target)
          | Some child => read_path rest child
          end
      | _ => None
      end
  end.

Lemma field_set_eq p v l : is_Some (field p l) -> field p (set_field p v l) = Some v.
Proof.
  induction l as [|[q w] l IH]; cbn; [by intros []|]. destruct (String.eqb p q) eqn:Hpq; cbn; rewrite Hpq; auto.
Qed.

Lemma field_set_ne p q v l : p <> q -> field q (set_field p v l) = field q l.
Proof.
  intros Hne. induction l as [|[r w] l IH]; cbn; [done|].
  destruct (String.eqb_spec p r) as [->|Hpr]; cbn.
  - by destruct (String.eqb_spec q r) as [->|].
  - by destruct (String.eqb q r).
Qed.

(** Two paths that part at some component. *)
Fixpoint diverge (p q : list string) : bool :=
  match p, q with
  | a :: p', b :: q' => if String.eqb a b then diverge p' q' else true
  | _, _ => false
  end.

Definition is_ptr (n : node) : bool := match n with NPtr _ _ => true | _ => false end.

Lemma overwriteValue_not_ptr nd v k nd' : overwriteValue nd v k = Returns nd' -> is_ptr nd' = false.
Proof. unfold overwriteValue. repeat case_match; intros; by simplify_eq. Qed.

Lemma overwrite_path_not_ptr path v k cur cur' :
  overwrite_path path v k cur = Returns cur' -> is_ptr cur' = false.
Proof.
  destruct path as [|p rest]; cbn; [apply overwriteValue_not_ptr|].
  destruct cur as [| | |l| |]; try done. destruct (field p l) as [child|]; [|done].
  destruct child; cbn; match goal with |- context [overwrite_path ?a ?b ?c ?d] =>
    destruct (overwrite_path a b c d) end; cbn; intros; by simplify_eq.
Qed.

(** One step of the walk, the pointer cases folded together. *)
Definition enter (child : node) : node :=
  match child with NPtr zero target => default zero target | _ => child end.
Definition leave (child child' : node) : node :=
  match child with NPtr zero _ => NPtr zero (Some child') | _ => child' end.

Lemma overwrite_path_cons p rest v k cur cur' :
  overwrite_path (p :: rest) v k cur = Returns cur' ->
  exists l child child', cur = NStruct l /\ field p l = Some child /\
    overwrite_path rest v k (enter child) = Returns child' /\
    cur' = NStruct (set_field p (leave child child') l).
Proof.
  cbn. destruct cur as [| | |l| |]; try done. destruct (field p l) as [child|] eqn:Hf; [|done].
  intros Ho. exists l, child. destruct child; cbn [enter leave] in *; cbn in Ho;
    match type of Ho with context [overwrite_path ?a ?b ?c ?d] =>
      destruct (overwrite_path a b c d) as [x| |] eqn:Hx end; cbn in Ho; simplify_eq; eauto.
Qed.

Lemma read_path_cons p rest l child :
  field p l = Some child -> read_path (p :: rest) (NStruct l) = read_path rest (enter child).
Proof. intros Hf. cbn. rewrite Hf. by destruct child. Qed.

Lemma enter_leave child child' : is_ptr child' = false -> enter (leave child child') = child'.
Proof. by destruct child, child'. Qed.

(** What an overwrite leaves at a value [old]: the value the text stands for, by
    the kind of the old one. *)
Definition written (old : node) (text : string) (new : node) : Prop :=
  match old with
  | NBool _ => exists b, ParseBool text = Some b /\ new = NBool b
  | NString _ => new = NString text
  | NInt bits _ => exists z, ParseInt bits text = inl z /\ new = NInt bits z
  | _ => False
  end.

Lemma overwriteValue_written old text k new : overwriteValue old text k = Returns new <-> written old text new.
Proof.
  unfold overwriteValue, written. destruct old; try (split; [done|by intros []]).
  - destruct (ParseBool text) as [b'|]; [split; [intros [= <-]; eauto|by intros (? & [= <-] & ->)]|].
    split; [done|by intros (? & ? & _)].
  - split; [by intros [= <-]|by intros ->].
  - destruct (ParseInt bits text) as [z'|]; [split; [intros [= <-]; eauto|by intros (? & [= <-] & ->)]|].
    split; [done|by intros (? & ? & _)].
Qed.

(** An overwrite that succeeds was of a value that is there, leaves at its path
    what the text stands for, and every path that parts from it as it was. *)
Lemma overwrite_path_effect path v k root root' :
  overwrite_path path v k root = Returns root' ->
  (exists old new, read_path path root = Some old /\ written old v new /\ read_path path root' = Some new) /\
  (forall q, diverge path q = true -> read_path q root' = read_path q root).
Proof.
  revert root root'. induction path as [|p rest IH]; intros root root' Ho.
  { cbn in *. apply overwriteValue_written in Ho. split; [by eauto|]. intros [|]; discriminate. }
  apply overwrite_path_cons in Ho as (l & child & child' & -> & Hf & Ho & ->).
  pose proof (overwrite_path_not_ptr _ _ _ _ _ Ho) as Hp.
  destruct (IH _ _ Ho) as [(old & new & H1 & H2 & H3) Hq].
  assert (field p (set_field p (leave child child') l) = Some (leave child child')) as Hs
    by (apply field_set_eq; eauto).
  split.
  - exists old, new. rewrite (read_path_cons _ _ _ _ Hf), (read_path_cons _ _ _ _ Hs), enter_leave by done.
    done.
  - intros [|b q]; cbn [diverge]; [done|]. destruct (String.eqb_spec p b) as [->|Hne]; intros Hd.
    + rewrite (read_path_cons _ _ _ _ Hf), (read_path_cons _ _ _ _ Hs), enter_leave by done. by apply Hq.
    + cbn. by rewrite field_set_ne.
Qed.

Lemma overwrite_path_total path v k root old new :
  read_path path root = Some old -> written old v new -> exists root', overwrite_path path v k root = Returns root'.
Proof.
  revert root. induction path as [|p rest IH]; intros root Hr Hw.
  { injection Hr as ->. exists new. by apply overwriteValue_written. }
  destruct root as [| | |l| |]; try done. destruct (field p l) as [child|] eqn:Hf; [|by cbn in Hr; rewrite Hf in Hr].
  rewrite (read_path_cons _ _ _ _ Hf) in Hr. destruct (IH _ Hr Hw) as [child' Hc].
  cbn. rewrite Hf. destruct child; cbn [enter] in Hc; rewrite Hc; by eexists.
Qed.

(** *** The text of a flag *)

Lemma split_go_app sep acc s t :
  split_go sep acc (s +:+ String sep t) = split_go sep acc s ++ split_go sep "" t.
Proof.
  revert acc. induction s as [|a s IH]; intros acc.
  { change ("" +:+ String sep t) with (String sep t). cbn [split_go]. by rewrite Ascii.eqb_refl. }
  rewrite string_app_cons. cbn [split_go]. destruct (Ascii.eqb a sep); [|apply IH]. by rewrite IH.
Qed.

Lemma string_app_snoc acc a (s : string) : (acc +:+ String a "") +:+ s = acc +:+ String a s.
Proof. induction acc as [|b acc IH]; [done|]. by rewrite !string_app_cons, IH. Qed.

Lemma split_go_none sep acc s : str_has sep s = false -> split_go sep acc s = [acc +:+ s].
Proof.
  revert acc. induction s as [|a s IH]; intros acc; cbn; [by rewrite string_app_nil_r|].
  intros [Ha Hs]%orb_false_iff. rewrite Ha, IH by done. by rewrite string_app_snoc.
Qed.

(** The key of a path: its components, without dots or equal signs, joined by dots. *)
Definition component (p : string) : Prop := str_has "." p = false /\ str_has "=" p = false.

Lemma Split_join path : path <> [] -> Forall component path -> Split "." (join "." path) = path.
Proof.
  destruct path as [|x path]; [done|]. intros _ [[Hx _] Hp]%Forall_cons. cbn [join]. unfold Split.
  induction path as [|y path IH] using rev_ind; [by apply split_go_none|].
  apply Forall_app in Hp as [Hp [[Hy _] _]%Forall_cons]. rewrite fold_left_app. cbn [fold_left].
  change ("." +:+ y) with (String "." y). rewrite split_go_app, IH by done. by rewrite split_go_none.
Qed.

Lemma join_no_eq path : Forall component path -> str_has "=" (join "." path) = false.
Proof.
  destruct path as [|x path]; [done|]. intros [[_ Hx] Hp]%Forall_cons. cbn [join].
  induction path as [|y path IH] using rev_ind; [done|].
  apply Forall_app in Hp as [Hp [[_ Hy] _]%Forall_cons]. rewrite fold_left_app. cbn [fold_left].
  rewrite !str_has_app, IH by done. cbn. by rewrite Hy.
Qed.

Lemma overwrite_one_path path text root :
  path <> [] -> Forall component path -> str_has "=" text = false ->
  overwrite_one (join "." path +:+ "=" +:+ text) root = overwrite_path path text (join "." path) root.
Proof.
  intros Hne Hp Ht. unfold overwrite_one, Split at 1. change ("=" +:+ text) with (String "=" text).
  rewrite split_go_app, !split_go_none by (done || by apply join_no_eq). cbn [app].
  change ("" +:+ join "." path) with (join "." path). change ("" +:+ text) with text. by rewrite Split_join.
Qed.

(** *** Printed values are read back *)

Lemma parse_digits_pretty (n : N) : parse_digits 0 (pretty n) = Some (Z.of_N n).
Proof.
  unfold pretty, pretty_N. case_decide as H0; [by subst|].
  by destruct (parse_digits_pretty_go n "" 0) as (k & _ & ->).
Qed.

Lemma ParseInt_pretty bits z : - 2 ^ (bits - 1) <= z < 2 ^ (bits - 1) -> ParseInt bits (pretty z) = inl z.
Proof.
  intros Hz.
  assert (forall n : N, exists a t, pretty n = String a t /\ is_digit a = true) as Hd.
  { intros n. pose proof (parse_digits_pretty n) as Hp. destruct (pretty n) as [|a t] eqn:Hn.
    - exfalso. assert (pretty n = pretty 0%N -> False) as Hne by (by rewrite Hn).
      injection Hp as Hp. assert (n = 0%N) as -> by lia. by apply Hne.
    - exists a, t. split; [done|]. cbn in Hp. by destruct (is_digit a). }
  assert (forall n : N, Z.of_N n < 2 ^ (bits - 1) -> ParseInt bits (pretty n) = inl (Z.of_N n)) as Hpos.
  { intros n Hn. pose proof (parse_digits_pretty n) as Hp. destruct (Hd n) as (a & t & Ha & Hda). rewrite Ha in *.
    unfold ParseInt. assert (Ascii.eqb a "-" = false /\ Ascii.eqb a "+" = false) as [-> ->].
    { split; destruct (Ascii.eqb_spec a "-"), (Ascii.eqb_spec a "+"); subst; try done; by cbn in Hda. }
    rewrite Hp. by rewrite (proj2 (Z.ltb_lt _ _)). }
  destruct z as [|p|p].
  - exact (Hpos 0%N ltac:(lia)).
  - exact (Hpos (N.pos p) ltac:(lia)).
  - change (pretty (Z.neg p)) with (String "-" (pretty (N.pos p))). unfold ParseInt. cbn [Ascii.eqb].
    pose proof (parse_digits_pretty (N.pos p)) as Hp. destruct (Hd (N.pos p)) as (a & t & Ha & _).
    change (Ascii.eqb "-" "-") with true. cbn [Bool.eqb]. rewrite Ha in *. rewrite Hp.
    rewrite (proj2 (Z.leb_le _ _)) by lia. done.
Qed.

(** [text] is how [new] is printed, and [new] can be stored in the place of [old]. *)
Definition prints (old new : node) (text : string) : Prop :=
  match old, new with
  | NBool _, NBool b => text = if b then "true" else "false"
  | NString _, NString s => text = s
  | NInt bits _, NInt bits' z => bits' = bits /\ - 2 ^ (bits - 1) <= z < 2 ^ (bits - 1) /\ text = pretty z
  | _, _ => False
  end.

Lemma prints_written old new text : prints old new text -> written old text new.
Proof.
  destruct old, new; cbn; try done.
  - intros ->. exists b0. by destruct b0.
  - by intros ->.
  - intros (-> & Hz & ->). exists z0. split; [by apply ParseInt_pretty|done].
Qed.


Definition bare_config : Config :=
  mkConfig "t" [] 0 (mkNamespaceConfig 0 "" None None None None) [] [] (mkChaosMonkeyConfig None None).


(** A path through a value that is no struct does not get the promised "Path does
    not exist" error: [FieldByName] panics. *)
Lemma overwrite_through_scalar_panics c rest v k : overwrite_path ("Name" :: "x" :: rest) v k (config_node c) = Panics.
Proof. done. Qed.

Example overwrite_number :
  Namespace <$> (match modifyOverwrite (mkModifier ["Namespace.Number=42"] []) bare_config
    with Returns c => Some c | _ => None end) = Some (mkNamespaceConfig 42 "" None None None None).
Proof. vm_compute. reflexivity. Qed.

Example overwrite_out_of_range :
  match modifyOverwrite (mkModifier ["Namespace.Number=214748364800"] []) bare_config
  with Fails _ => true | _ => false end = true.
Proof. vm_compute. reflexivity. Qed.
