(* ===== verification/Namespaces.v ===== *)
(** * Automanaged namespaces (pkg/framework/framework.go, client/objects.go)

    Creating, listing and deleting the namespaces of a test. The namespace API
    is an interface: deleting a namespace only marks it, it disappears some time
    later; calls may fail after having had their effect. *)

From S2P Require Import Prelude GoErrors Params Api Validation State Executor Client Modifier.

(** The API calls used on namespaces, [wait.PollImmediate], and
    [regexp.MatchString]. *)
Class NamespaceServer (C : Type) := {
  ns_List : C -> C * result (list string);
  ns_Create : C -> string -> C * option error;
  ns_Delete : C -> string -> C * option error;
  ns_Get : C -> string -> C * option error;
  PollImmediate : Z -> Z -> ConditionFunc C -> C -> C * option error;
  MatchString : string -> string -> result bool;
}.

Section Namespaces.
Context {C : Type} `{AE : ApiErrors} `{BO : Backoff} `{NS : NamespaceServer C}.

(** The state of [framework.Framework] these methods use. *)
Record FrameworkState := mkFrameworkState {
  automanagedNamespacePrefix : string;
  automanagedNamespaces : gmap string bool;
}.

(** ** The client calls *)

(** [ListNamespaces]: the list of the last successful attempt. *)
Definition client_ListNamespaces (c : C) : C * result (list string) :=
  let '(cl, err) :=
    ExponentialBackoff retryBackoffSteps
      (RetryFunction (fun cl : C * list string =>
         match ns_List cl.1 with
         | (c', Err e) => ((c', cl.2), Some e)
         | (c', Ok l) => ((c', l), None)
         end) []) (c, []) in
  (cl.1, match err with Some e => Err e | None => Ok cl.2 end).

Definition client_CreateNamespace (c : C) (namespace : string) : C * option error :=
  RetryWithExponentialBackOff (RetryFunction (fun c => ns_Create c namespace) [Allow IsAlreadyExists]) c.

Definition client_DeleteNamespace (c : C) (namespace : string) : C * option error :=
  RetryWithExponentialBackOff (RetryFunction (fun c => ns_Delete c namespace) [Allow IsNotFound]) c.

Definition defaultNamespaceDeletionInterval : Z := 5 * Duration.Second.

(** [retryWaitFunc] of [WaitForDeleteNamespace]. *)
Definition namespace_gone (namespace : string) (c : C) : C * (bool * option error) :=
  match ns_Get c namespace with
  | (c', Some err) =>
      if IsNotFound err then (c', (true, None))
      else if negb (IsRetryableAPIError err) then (c', (false, Some err))
      else (c', (false, None))
  | (c', None) => (c', (false, None))
  end.

Definition WaitForDeleteNamespace (c : C) (namespace : string) (timeout : Z) : C * option error :=
  PollImmediate defaultNamespaceDeletionInterval timeout (namespace_gone namespace) c.

(** ** Framework methods *)

Definition removeAutomanagedNamespace (f : FrameworkState) (namespace : string) : FrameworkState :=
  mkFrameworkState (automanagedNamespacePrefix f) (delete namespace (automanagedNamespaces f)).

(** The loop of [CreateAutomanagedNamespaces] from [i] on, [n] rounds. *)
Fixpoint create_loop (existing : list string) (allow del : bool) (i : Z) (n : nat)
  (f : FrameworkState) (c : C) : FrameworkState * C * option error :=
  match n with
  | O => (f, c, None)
  | S n' =>
      let name := indexed_name (automanagedNamespacePrefix f) i in
      let '(c', err) :=
        if bool_decide (name ∈ existing) then
          (c, if negb allow then Some (Errorf "automanaged namespace %s already created" [AStr name]) else None)
        else client_CreateNamespace c name in
      match err with
      | Some e => (f, c', Some e)
      | None =>
          create_loop existing allow del (i + 1) n'
            (mkFrameworkState (automanagedNamespacePrefix f) (<[name := del]> (automanagedNamespaces f))) c'
      end
  end.

Definition CreateAutomanagedNamespaces (f : FrameworkState) (c : C) (namespaceCount : Z) (allow del : bool)
  : FrameworkState * C * option error :=
  match client_ListNamespaces c with
  | (c', Err err) => (f, c', Some err)
  | (c', Ok existing) => create_loop existing allow del 1 (Z.to_nat namespaceCount) f c'
  end.

Definition deleteNamespace (timeout : Z) (f : FrameworkState) (c : C) (namespace : string)
  : FrameworkState * C * option error :=
  match client_DeleteNamespace c namespace with
  | (c1, Some err) => (f, c1, Some err)
  | (c1, None) =>
      match WaitForDeleteNamespace c1 namespace timeout with
      | (c2, Some err) => (f, c2, Some err)
      | (c2, None) => (removeAutomanagedNamespace f namespace, c2, None)
      end
  end.

(** The goroutines of [DeleteNamespaces], in the order in which they run. *)
Definition delete_one (timeout : Z) (s : FrameworkState * C * ErrorList) (namespace : string)
  : FrameworkState * C * ErrorList :=
  let '(f, c, errList) := s in
  let '(f', c', err) := deleteNamespace timeout f c namespace in
  (f', c', match err with Some e => Append errList [e] | None => errList end).

Definition DeleteNamespaces (order : list string -> list string) (f : FrameworkState) (c : C)
  (namespaces : list string) (timeout : Z) : FrameworkState * C * ErrorList :=
  fold_left (delete_one timeout) (order namespaces) (f, c, NewErrorList []).

(** The namespaces [DeleteAutomanagedNamespaces] starts a goroutine for. *)
Definition to_delete (f : FrameworkState) : list string :=
  omap (fun kv => if (kv.2 : bool) then Some kv.1 else None) (map_to_list (automanagedNamespaces f)).

(** One goroutine per namespace: [order] is the order in which they end. Each acts
    on its own namespace, and on the shared table under a lock; they run one
    after the other here, and do not interleave. *)
Definition DeleteAutomanagedNamespaces (order : list string -> list string) (f : FrameworkState) (c : C)
  (timeout : Z) : FrameworkState * C * ErrorList :=
  fold_left (delete_one timeout) (order (to_delete f)) (f, c, NewErrorList []).

(** ** Listing *)

Fixpoint all_chars (p : Ascii.ascii -> bool) (s : string) : bool :=
  match s with EmptyString => true | String a s' => p a && all_chars p s' end.

Definition is_lower_alnum (a : Ascii.ascii) : bool :=
  is_digit a || (let n := Ascii.N_of_ascii a in (97 <=? n)%N && (n <=? 122)%N).

(** The regexp ^test-[a-z0-9]+-[0-9]+$ *)
Definition namespaceID (name : string) : bool :=
  match Split "-" name with
  | [t; id; num] =>
      String.eqb t "test" && negb (String.eqb id "") && all_chars is_lower_alnum id
      && negb (String.eqb num "") && all_chars is_digit num
  | _ => false
  end.

Definition isAutomanagedNamespaceCurrentPrefix (f : FrameworkState) (name : string) : result bool :=
  MatchString (automanagedNamespacePrefix f +:+ "-[1-9][0-9]*") name.

Definition isStaleAutomanagedNamespace (f : FrameworkState) (name : string) : bool :=
  if namespaceID name then
    match automanagedNamespaces f !! name with Some _ => false | None => true end
  else false.

Fixpoint list_loop (f : FrameworkState) (nss current stale : list string) : list string * list string * option error :=
  match nss with
  | [] => (current, stale, None)
  | name :: nss' =>
      match isAutomanagedNamespaceCurrentPrefix f name with
      | Err err => (current, stale, Some err)
      | Ok true => list_loop f nss' (current ++ [name]) stale
      | Ok false =>
          if isStaleAutomanagedNamespace f name then list_loop f nss' current (stale ++ [name])
          else list_loop f nss' current stale
      end
  end.

Definition ListAutomanagedNamespaces (f : FrameworkState) (c : C) : C * (list string * list string * option error) :=
  match client_ListNamespaces c with
  | (c', Err err) => (c', ([], [], Some err))
  | (c', Ok nss) => (c', list_loop f nss [] [])
  end.

(** ** What the namespace API guarantees *)

Class NamespaceLaws := {
  nss : C -> gset string;
  marked : C -> gset string;      (* being terminated *)
  (* outside [S] nothing appears, and only marked namespaces disappear *)
  stable (S : gset string) (c c' : C) : Prop :=
    forall m, m ∉ S -> (m ∉ marked c -> m ∉ marked c') /\ (m ∈ nss c -> m ∉ marked c -> m ∈ nss c') /\
      (m ∉ nss c -> m ∉ nss c');
  list_law c c' r : ns_List c = (c', r) ->
    stable ∅ c c' /\ (forall l, r = Ok l -> forall n, n ∈ l <-> n ∈ nss c');
  create_law c n c' r : ns_Create c n = (c', r) ->
    stable {[n]} c c' /\ (n ∉ marked c -> n ∉ marked c') /\
    (r = None -> n ∈ nss c') /\ (forall e, r = Some e -> IsAlreadyExists e = true -> n ∈ nss c');
  delete_law c n c' r : ns_Delete c n = (c', r) ->
    stable {[n]} c c' /\ (n ∉ nss c -> n ∉ nss c');
  get_law c n c' r : ns_Get c n = (c', r) ->
    stable ∅ c c' /\ (forall e, r = Some e -> IsNotFound e = true -> n ∉ nss c');
  (* while polling, time passes *)
  poll_law (I : C -> Prop) (f : ConditionFunc C) interval timeout c c' r :
    (forall x x', I x -> stable ∅ x x' -> I x') -> (forall x x' v, I x -> f x = (x', v) -> I x') ->
    I c -> PollImmediate interval timeout f c = (c', r) ->
    I c' /\ (r = None -> exists x, I x /\ f x = (c', (true, None)));
}.
Context `{NL : !NamespaceLaws}.

Lemma stable_refl S c : stable S c c.
Proof. intros m _. split; [done|done]. Qed.

Lemma stable_trans S c1 c2 c3 : stable S c1 c2 -> stable S c2 c3 -> stable S c1 c3.
Proof. intros H1 H2 m Hm. destruct (H1 m Hm) as (?&?&?), (H2 m Hm) as (?&?&?). naive_solver. Qed.

Lemma stable_mono S S' c c' : S ⊆ S' -> stable S c c' -> stable S' c c'.
Proof. intros HS Hst m Hm. apply Hst. set_solver. Qed.

Lemma client_ListNamespaces_spec c c' r :
  client_ListNamespaces c = (c', r) ->
  stable ∅ c c' /\ (forall l, r = Ok l -> forall n, n ∈ l <-> n ∈ nss c').
Proof.
  unfold client_ListNamespaces.
  destruct (ExponentialBackoff _ _ _) as [cl err] eqn:Hb. intros [= <- <-].
  eapply (ExponentialBackoff_ind (fun x => stable ∅ c x.1) (fun x => forall n, n ∈ x.2 <-> n ∈ nss x.1)) in Hb
    as [Hs Hq]; [| | |apply stable_refl].
  - split; [done|]. intros l. destruct err; [done|]. intros [= <-]. by apply Hq.
  - intros x x' v Hx. unfold RetryFunction. destruct (ns_List x.1) as [y [l|e]] eqn:Hl; intros [= <- _];
      apply list_law in Hl as [Hl _]; by eapply stable_trans.
  - intros x x' b Hx. unfold RetryFunction. destruct (ns_List x.1) as [y [l|e]] eqn:Hl; intros [= <- Hv] Hbt.
    + apply list_law in Hl as [_ Hl]. by apply Hl.
    + subst b. by destruct (IsRetryableAPIError e || IsRetryableNetError e).
Qed.

Lemma client_CreateNamespace_spec c n c' r :
  client_CreateNamespace c n = (c', r) ->
  stable {[n]} c c' /\ (n ∉ marked c -> n ∉ marked c') /\ (r = None -> n ∈ nss c').
Proof.
  unfold client_CreateNamespace, RetryWithExponentialBackOff. intros Hb.
  eapply (ExponentialBackoff_ind (fun x => stable {[n]} c x /\ (n ∉ marked c -> n ∉ marked x)) (fun x => n ∈ nss x))
    in Hb as [[Hs Hm] Hq]; [done| | |by split; [apply stable_refl|]].
  - intros x x' v [Hx Hm]. unfold RetryFunction. destruct (ns_Create x n) as [y e] eqn:Hc; intros [= <- _].
    apply create_law in Hc as (Hc & Hc' & _). split; [by eapply stable_trans|auto].
  - intros x x' b Hx. unfold RetryFunction. destruct (ns_Create x n) as [y e] eqn:Hc; intros [= <- Hv] Hbt.
    apply create_law in Hc as (_ & _ & H1 & H2).
    apply (retry_verdict_done [Allow IsAlreadyExists]) in Hv as [->|(e' & -> & Ha)]; [by apply H1| |done].
    apply (H2 e'); [done|]. cbn in Ha. by destruct (IsAlreadyExists e').
Qed.

Lemma client_DeleteNamespace_spec c n c' r :
  client_DeleteNamespace c n = (c', r) -> stable {[n]} c c' /\ (n ∉ nss c -> n ∉ nss c').
Proof.
  unfold client_DeleteNamespace, RetryWithExponentialBackOff. intros Hb.
  eapply (ExponentialBackoff_ind (fun x => stable {[n]} c x /\ (n ∉ nss c -> n ∉ nss x)) (fun _ => True)) in Hb
    as [Hs _]; [done| |done|by split; [apply stable_refl|]].
  intros x x' v [Hx Hn]. unfold RetryFunction. destruct (ns_Delete x n) as [y e] eqn:Hc; intros [= <- _].
  apply delete_law in Hc as [Hc Hc']. split; [by eapply stable_trans|auto].
Qed.

Lemma WaitForDeleteNamespace_spec c n t c' r :
  WaitForDeleteNamespace c n t = (c', r) -> stable ∅ c c' /\ (r = None -> n ∉ nss c').
Proof.
  unfold WaitForDeleteNamespace. intros Hp.
  assert (forall x x' v, namespace_gone n x = (x', v) -> stable ∅ x x' /\ (v = (true, None) -> n ∉ nss x')) as Hg.
  { intros x x' v. unfold namespace_gone. destruct (ns_Get x n) as [y [e|]] eqn:Hg; apply get_law in Hg as [Hs Hn].
    - destruct (IsNotFound e) eqn:Hnf; [|destruct (negb (IsRetryableAPIError e))]; intros [= <- <-]; split; try done.
      intros _. by eapply Hn.
    - intros [= <- <-]. split; done. }
  eapply (poll_law (fun x => stable ∅ c x)) in Hp as [Hs Hq]; [| | |apply stable_refl].
  - split; [done|]. intros Hr. destruct (Hq Hr) as (x & _ & Hx). by apply Hg in Hx as [_ Hx]; auto.
  - intros x x' Hx Hxx. by eapply stable_trans.
  - intros x x' v Hx Hv. apply Hg in Hv as [Hv _]. by eapply stable_trans.
Qed.

(** One deletion. *)
Lemma deleteNamespace_spec t f c n f' c' r :
  deleteNamespace t f c n = (f', c', r) ->
  stable {[n]} c c' /\ (n ∉ nss c -> n ∉ nss c') /\
  match r with
  | None => n ∉ nss c' /\ f' = removeAutomanagedNamespace f n
  | Some _ => f' = f
  end.
Proof.
  unfold deleteNamespace. destruct (client_DeleteNamespace c n) as [c1 [e|]] eqn:Hd;
    apply client_DeleteNamespace_spec in Hd as [Hs Hn]; [by intros [= <- <- <-]|].
  destruct (WaitForDeleteNamespace c1 n t) as [c2 e] eqn:Hw. apply WaitForDeleteNamespace_spec in Hw as [Hs' Hn'].
  assert (stable {[n]} c c2) as Hst.
  { eapply stable_trans; [done|]. eapply stable_mono; [|exact Hs']. set_solver. }
  assert (n ∉ nss c -> n ∉ nss c2) as Hab.
  { intros Hx. apply Hn in Hx. destruct (Hs' n ltac:(set_solver)) as (_ & _ & Ha). auto. }
  destruct e; intros [= <- <- <-]; split_and!; try done. by apply Hn'.
Qed.

(** ** The life of the namespaces of a test *)

(** The namespaces "<prefix>-i" .. of a loop of [n] rounds from [i]. *)
Definition loop_names (prefix : string) (i : Z) (n : nat) : list string :=
  indexed_name prefix <$> seqZ i (Z.of_nat n).

Lemma loop_names_S prefix i n :
  loop_names prefix i (S n) = indexed_name prefix i :: loop_names prefix (i + 1) n.
Proof. unfold loop_names. rewrite seqZ_cons by lia. cbn. do 3 f_equal. lia. Qed.

Definition owned (del : bool) (ns : list string) (m : gmap string bool) : gmap string bool :=
  fold_left (fun m n => <[n := del]> m) ns m.

Lemma create_loop_spec existing allow del i n f c f' c' :
  (forall m, m ∈ loop_names (automanagedNamespacePrefix f) i n -> m ∉ marked c /\ (m ∈ existing -> m ∈ nss c)) ->
  create_loop existing allow del i n f c = (f', c', None) ->
  let ns := loop_names (automanagedNamespacePrefix f) i n in
  stable (list_to_set ns) c c' /\
  (forall m, m ∈ ns -> m ∈ nss c' /\ m ∉ marked c') /\
  f' = mkFrameworkState (automanagedNamespacePrefix f) (owned del ns (automanagedNamespaces f)) /\
  (allow = false -> forall m, m ∈ ns -> m ∉ existing).
Proof.
  revert i f c. induction n as [|n IH]; intros i f c Hmk; cbn [create_loop].
  { intros [= <- <-]. cbn. split_and!; [apply stable_refl|set_solver|by destruct f|set_solver]. }
  cbn zeta. rewrite loop_names_S in *. set (name := indexed_name (automanagedNamespacePrefix f) i) in *.
  match goal with |- context [let '(_, _) := ?x in _] => destruct x as [c1 err] eqn:Hstep end.
  destruct err as [e|]; [done|]. intros Hl.
  assert (stable {[name]} c c1 /\ name ∉ marked c1 /\ name ∈ nss c1 /\ (allow = false -> name ∉ existing))
    as (Hs1 & Hm1 & Hin1 & Hal).
  { case_bool_decide as Hd.
    - injection Hstep as <- He. split_and!; [apply stable_refl|apply Hmk; set_solver|apply Hmk; [set_solver|done]|].
      intros ->. discriminate.
    - apply client_CreateNamespace_spec in Hstep as (Hs & Hm & Hn). split_and!; [done| |by apply Hn|done].
      apply Hm, Hmk. set_solver. }
  assert (forall m, m ∉ marked c -> m ∉ marked c1) as Hmm.
  { intros m Hm. destruct (decide (m = name)) as [->|Hne]; [done|]. apply (Hs1 m); [set_solver|done]. }
  assert (forall m, m ∈ nss c -> m ∉ marked c -> m ∈ nss c1) as Hnn.
  { intros m Hm Hm'. destruct (decide (m = name)) as [->|Hne]; [done|]. apply (Hs1 m); [set_solver|done..]. }
  apply IH in Hl as (Hs2 & Hin2 & -> & Hal2); cbn [automanagedNamespacePrefix automanagedNamespaces] in *.
  - split_and!.
    + eapply stable_trans; (eapply stable_mono; [|done]); set_solver.
    + intros m [->|Hm]%elem_of_cons; [|by apply Hin2].
      destruct (decide (name ∈ loop_names (automanagedNamespacePrefix f) (i + 1) n)) as [Hd|Hd]; [by apply Hin2|].
      destruct (Hs2 name ltac:(set_solver)) as (? & ? & ?). auto.
    + done.
    + intros Ha m [->|Hm]%elem_of_cons; [by apply Hal|by apply Hal2].
  - intros m Hm. destruct (Hmk m) as [Hm1' Hm2]; [set_solver|]. split; [by apply Hmm|]. auto.
Qed.

(** Deleting a list of namespaces. *)
Lemma delete_fold_spec t ns f c errs f' c' errs' :
  fold_left (delete_one t) ns (f, c, errs) = (f', c', errs') -> IsEmpty errs' = true ->
  IsEmpty errs = true /\ stable (list_to_set ns) c c' /\
  (forall m, m ∉ nss c -> m ∉ nss c') /\ (forall m, m ∈ ns -> m ∉ nss c') /\
  automanagedNamespacePrefix f' = automanagedNamespacePrefix f /\
  (forall m, automanagedNamespaces f' !! m = if decide (m ∈ ns) then None else automanagedNamespaces f !! m).
Proof.
  revert f c errs. induction ns as [|n ns IH]; intros f c errs; cbn [fold_left].
  { intros [= <- <- <-] He. split_and!; [done|apply stable_refl|done|set_solver|done|done]. }
  unfold delete_one at 2. destruct (deleteNamespace t f c n) as [[f1 c1] r] eqn:Hd.
  apply deleteNamespace_spec in Hd as (Hs & Hn & Hr). intros Hf He.
  apply IH in Hf as (He1 & Hs1 & Hab & Hdel & Hpre & Hown); [|done].
  destruct r as [e|].
  { unfold Append in He1. rewrite IsEmpty_app in He1. by apply andb_true_iff in He1 as [_ ?]. }
  destruct Hr as [Hgone ->]. cbn in Hpre. split_and!; try done.
  - eapply stable_trans; (eapply stable_mono; [|done]); set_solver.
  - intros m Hm. apply Hab. destruct (decide (m = n)) as [->|Hne]; [done|].
    destruct (Hs m ltac:(set_solver)) as (_ & _ & Hx). auto.
  - intros m [->|Hm]%elem_of_cons; [by apply Hab|by apply Hdel].
  - intros m. rewrite Hown. cbn. rewrite lookup_delete.
    repeat case_decide; try done; set_solver.
Qed.

Lemma owned_lookup del ns m n :
  owned del ns m !! n = if decide (n ∈ ns) then Some del else m !! n.
Proof.
  unfold owned. revert m. induction ns as [|x ns IH]; intros m; cbn [fold_left].
  { by rewrite decide_False by set_solver. }
  rewrite IH, lookup_insert. repeat case_decide; try done; set_solver.
Qed.

Lemma elem_of_to_delete f n : n ∈ to_delete f <-> automanagedNamespaces f !! n = Some true.
Proof.
  unfold to_delete. rewrite list_elem_of_omap. split.
  - intros ([k []] & Hin & Hk); cbn in Hk; simplify_eq. by apply elem_of_map_to_list in Hin.
  - intros Hl. exists (n, true). split; [by apply elem_of_map_to_list|done].
Qed.

(** C9: the namespaces of a test come and go as a whole. Let none of
    "<prefix>-1" .. "<prefix>-n" be marked for termination when the creation has
    listed the namespaces (such a one answers that it already exists and then
    vanishes). If creating them and, at the end, deleting them report no errors,
    then in between all of them existed, afterwards none of them does and none is
    tracked any more, and every other namespace that was not already being
    terminated at the start is there exactly if it was. Namespaces of these
    names that existed before count as the test's own: they are deleted too;
    unless existing ones are allowed, there were none but terminating ones. *)
Theorem namespace_lifecycle order prefix n allow t c f1 c1 f2 c2 errs :
  (forall l, order l ≡ₚ l) ->
  let names := loop_names prefix 1 n in
  (forall c' l, client_ListNamespaces c = (c', Ok l) -> forall m, m ∈ names -> m ∉ marked c') ->
  CreateAutomanagedNamespaces (mkFrameworkState prefix ∅) c (Z.of_nat n) allow true = (f1, c1, None) ->
  DeleteAutomanagedNamespaces order f1 c1 t = (f2, c2, errs) -> IsEmpty errs = true ->
  (forall m, m ∈ names -> m ∈ nss c1) /\
  (forall m, m ∈ names -> m ∉ nss c2) /\ automanagedNamespaces f2 = ∅ /\
  (forall m, m ∉ names -> m ∉ marked c -> m ∈ nss c2 <-> m ∈ nss c) /\
  (allow = false -> forall m, m ∈ names -> m ∉ nss c \/ m ∈ marked c).
Proof.
  intros Hord names Hmk Hc Hd He. unfold CreateAutomanagedNamespaces in Hc.
  destruct (client_ListNamespaces c) as [c0 [l|]] eqn:Hl; [|done].
  pose proof (Hmk c0 l eq_refl) as Hmk0. apply client_ListNamespaces_spec in Hl as [Hs0 Hlist].
  specialize (Hlist l eq_refl). rewrite Nat2Z.id in Hc.
  apply create_loop_spec in Hc as (Hs1 & Hin & -> & Hal).
  2: { intros m Hm. split; [by apply Hmk0|by apply Hlist]. }
  cbn [automanagedNamespacePrefix automanagedNamespaces] in *. fold names in Hs1, Hin, Hal, Hd.
  unfold DeleteAutomanagedNamespaces in Hd. set (f1 := mkFrameworkState prefix (owned true names ∅)) in *.
  assert (forall m, m ∈ order (to_delete f1) <-> m ∈ names) as Hdel.
  { intros m. rewrite Hord, elem_of_to_delete. subst f1. cbn [automanagedNamespaces].
    rewrite owned_lookup, lookup_empty. by case_decide. }
  apply delete_fold_spec in Hd as (_ & Hs2 & Hab & Hgone & _ & Hown); [|done].
  split_and!.
  - intros m Hm. by apply Hin.
  - intros m Hm. by apply Hgone, Hdel.
  - apply map_eq. intros m. rewrite Hown. subst f1. cbn [automanagedNamespaces].
    rewrite owned_lookup, !lookup_empty. pose proof (Hdel m). repeat case_decide; tauto.
  - intros m Hm Hnm. destruct (Hs0 m ltac:(set_solver)) as (M0 & P0 & A0).
    destruct (Hs1 m ltac:(set_solver)) as (M1 & P1 & A1).
    destruct (Hs2 m) as (M2 & P2 & A2); [rewrite elem_of_list_to_set, Hdel; done|].
    split; [|auto]. intros H2. destruct (decide (m ∈ nss c)) as [|Hno]; [done|]. exfalso. apply A0, A1, A2 in Hno. done.
  - intros Ha m Hm. specialize (Hal Ha m Hm). rewrite Hlist in Hal.
    destruct (decide (m ∈ nss c)) as [Hx|]; [|by left]. destruct (decide (m ∈ marked c)); [by right|].
    exfalso. apply Hal. by apply (Hs0 m ltac:(set_solver)).
Qed.
End Namespaces.

(** ** A namespace server that deletes at once *)
Section SimpleServer.
#[local] Existing Instance flaky_errors.
#[local] Existing Instance simple_backoff.

#[local] Instance simple_namespaces : NamespaceServer (gset string) :=
  {| ns_List := fun c => (c, Ok (elements c));
     ns_Create := fun c n => ({[n]} ∪ c, if decide (n ∈ c) then Some (External "exists") else None);
     ns_Delete := fun c n => (c ∖ {[n]}, if decide (n ∈ c) then None else Some (External "missing"));
     ns_Get := fun c n => (c, if decide (n ∈ c) then None else Some (External "missing"));
     PollImmediate := fun _ _ f c =>
       match f c with
       | (c', (true, None)) => (c', None)
       | (c', (_, Some e)) => (c', Some e)
       | (c', (false, None)) => (c', Some (External "timed out waiting for the condition"))
       end;
     MatchString := fun _ _ => Ok false |}.

#[local] Instance simple_namespace_laws : NamespaceLaws (C := gset string).
Proof.
  refine {| nss := fun c : gset string => c; marked := fun _ => ∅ |}; cbn.
  - intros c c' r [= <- <-]. split; [intros m; set_solver|]. intros l [= <-] n. by rewrite elem_of_elements.
  - intros c n c' r [= <- <-]. split_and!; [intros m; set_solver|done|set_solver|set_solver].
  - intros c n c' r [= <- <-]. split; [intros m; set_solver|set_solver].
  - intros c n c' r [= <- <-]. split; [intros m; set_solver|]. intros e. case_decide; [done|]. by intros [= <-].
  - intros I f _ _ c c' r _ Hf Hc. destruct (f c) as [c1 [[] [e|]]] eqn:Hfc; intros [= <- <-];
      (split; [by eapply Hf|]); try done. intros _. eauto.
Defined.

Definition default_only : gset string := {["default"]}.
Definition created : FrameworkState * gset string * option error :=
  CreateAutomanagedNamespaces (mkFrameworkState "test-x" ∅) default_only 2 false true.
Definition deleted : FrameworkState * gset string * ErrorList :=
  DeleteAutomanagedNamespaces (fun l => l) created.1.1 created.1.2 5.

Lemma default_exists : "default" ∈ default_only.
Proof. unfold default_only. set_solver. Qed.

Lemma namespace_lifecycle_witness :
  "test-x-2" ∈ created.1.2 /\ "test-x-2" ∉ deleted.1.2 /\ "default" ∈ deleted.1.2.
Proof.
  destruct (namespace_lifecycle (fun l => l) "test-x" 2 false 5 default_only created.1.1 created.1.2
              deleted.1.1 deleted.1.2 deleted.2) as (H1 & H2 & _ & H4 & _).
  - done.
  - intros c' l _ m _. apply not_elem_of_empty.
  - assert (created.2 = None) as Hc by (vm_compute; reflexivity).
    unfold created in *. destruct (CreateAutomanagedNamespaces _ _ _ _ _) as [[f c] r]. cbn in Hc. by subst r.
  - unfold deleted. by destruct (DeleteAutomanagedNamespaces _ _ _ _) as [[f c] r].
  - vm_compute. reflexivity.
  - split; [apply H1; right; left|]. split; [apply H2; right; left|].
    apply (H4 "default"); [|apply not_elem_of_empty|exact default_exists].
    intros Hx. repeat (apply elem_of_cons in Hx as [?|Hx]; [done|]). by apply elem_of_nil in Hx.
Defined.
End SimpleServer.
