(* ===== verification/Measurement.v ===== *)
(** * Measurements (pkg/measurement/{factory,manager,measurement_executor}.go)

    The measurement implementations are values of an interface ([Measurement],
    [createMeasurementFunc]); the factory that registers them, the manager that
    keeps their instances and the executor of (wrapper) measurements are
    modelled in full. *)

From S2P Require Import Prelude GoErrors Params Api Validation State.

Record Summary := mkSummary {
  SummaryName : string;
  SummaryExt : string;
  SummaryTime : Z;
  SummaryContent : string;
}.

(** [strings.TrimPrefix(ext, ".")] *)
Definition CreateSummary (now : Z) (name ext content : string) : Summary :=
  mkSummary name
    (match ext with String "."%char rest => rest | _ => ext end)
    now content.

(** The config an instance is executed with. *)
Record MeasurementConfig := mkMeasurementConfig {
  cfg_Params : params;
  cfg_Identifier : string;
  cfg_ClusterVersion : string;
}.

(** The interface [Measurement] over a world [W], with instances [M] (pointers)
    and constructors [F]. *)
Class MeasurementLib (W M F : Type) := {
  run_createFunc : F -> W -> W * M;
  instance_Execute : M -> MeasurementConfig -> W -> W * list Summary * option error;
  instance_Dispose : M -> W -> W;
  ServerVersion : W -> result string;
}.

Section Manager.
Context {W M F : Type} `{MeasurementLib W M F}.

(** ** The factory, with the registry the validator reads *)
Record measurementFactory := mkMeasurementFactory {
  createFuncs : gmap string F;
  RegisteredMeasurements : gmap string bool;
}.

Definition newMeasurementFactory : measurementFactory := mkMeasurementFactory ∅ ∅.

Definition register (mc : measurementFactory) (methodName : string) (createFunc : F)
  : measurementFactory * option error :=
  match createFuncs mc !! methodName with
  | Some _ => (mc, Some (Errorf "measurement with method %v already exists" [AStr methodName]))
  | None =>
      (mkMeasurementFactory (<[methodName := createFunc]> (createFuncs mc))
         (<[methodName := true]> (RegisteredMeasurements mc)), None)
  end.

Definition createMeasurement (mc : measurementFactory) (methodName : string) (w : W) : W * result M :=
  match createFuncs mc !! methodName with
  | None => (w, Err (Errorf "unknown measurement method %s" [AStr methodName]))
  | Some createFunc => let '(w', m) := run_createFunc createFunc w in (w', Ok m)
  end.

(** ** The manager *)
Record measurementManager := mkManager {
  measurements : gmap string (gmap string M);
  summaries : list Summary;
}.

Definition CreateManager : measurementManager := mkManager ∅ [].

(** Runs under the manager's lock. The inner map is created even when the method
    turns out to be unknown. *)
Definition getMeasurementInstance (mc : measurementFactory) (mm : measurementManager)
  (methodName identifier : string) (w : W) : measurementManager * W * result M :=
  let inner := default ∅ (measurements mm !! methodName) in
  let mm1 := mkManager (<[methodName := inner]> (measurements mm)) (summaries mm) in
  match inner !! identifier with
  | Some m => (mm1, w, Ok m)
  | None =>
      match createMeasurement mc methodName w with
      | (w', Err err) => (mm1, w', Err err)
      | (w', Ok m) =>
          (mkManager (<[methodName := <[identifier := m]> inner]> (measurements mm)) (summaries mm), w', Ok m)
      end
  end.

Definition Manager_Execute (mc : measurementFactory) (mm : measurementManager)
  (methodName identifier : string) (ps : params) (w : W) : measurementManager * W * option error :=
  match getMeasurementInstance mc mm methodName identifier w with
  | (mm1, w1, Err err) => (mm1, w1, Some err)
  | (mm1, w1, Ok m) =>
      match ServerVersion w1 with
      | Err _ => (mm1, w1, Some (Errorf "failed to get cluster version" []))
      | Ok v =>
          let '(w2, ss, err) := instance_Execute m (mkMeasurementConfig ps identifier v) w1 in
          (mkManager (measurements mm1) (summaries mm1 ++ ss), w2, err)
      end
  end.

Definition GetSummaries (mm : measurementManager) : list Summary := summaries mm.

(** The range loops over the maps visit every instance once, in some order. *)
Definition instances_of (mm : measurementManager) : list M :=
  concat (map (fun kv => (map_to_list kv.2).*2) (map_to_list (measurements mm))).

Definition Dispose (order : list M -> list M) (mm : measurementManager) (w : W) : W :=
  fold_left (fun w m => instance_Dispose m w) (order (instances_of mm)) w.

(** ** Executing a measurement of a step *)

Definition formatError (method identifier : string) (err : error) : error :=
  Errorf "measurement call %s - %s error: %w" [AStr method; AStr identifier; AWrap err].

(** One call of the manager, its error appended to the list. *)
Definition execute_call (mc : measurementFactory) (method : string)
  (s : measurementManager * W * ErrorList) (call : string * params) : measurementManager * W * ErrorList :=
  let '(mm, w, errList) := s in
  let '(mm', w', err) := Manager_Execute mc mm method call.1 call.2 w in
  (mm', w', match err with
            | Some e => Append errList [formatError method call.1 e]
            | None => errList
            end).

Definition executeSingleMeasurement (mc : measurementFactory) (m : Measurement)
  (mm : measurementManager) (w : W) : measurementManager * W * ErrorList :=
  execute_call mc (Method m) (mm, w, NewErrorList []) (Identifier m, meas_Params m).

(** The parameters of one wrapped instance: a clone of the wrapper's with the
    instance's written over it. *)
Definition instance_params (m : Measurement) (inst : MeasurementInstanceConfig) : params :=
  CopyMap (mi_Params inst) (CopyMap (meas_Params m) ∅).

Definition wrapper_calls (m : Measurement) : list (string * params) :=
  map (fun inst => (mi_Identifier inst, instance_params m inst)) (Instances m).

(** The goroutines of the wrapped instances, in the order in which they run;
    [order] permutes the calls. *)
Definition executeWrapperMeasurement (order : list (string * params) -> list (string * params))
  (mc : measurementFactory) (m : Measurement) (mm : measurementManager) (w : W)
  : measurementManager * W * ErrorList :=
  fold_left (execute_call mc (Method m)) (order (wrapper_calls m)) (mm, w, NewErrorList []).

Definition Execute (order : list (string * params) -> list (string * params))
  (mc : measurementFactory) (m : Measurement) (mm : measurementManager) (w : W)
  : measurementManager * W * ErrorList :=
  if negb (String.eqb (Identifier m) "") then executeSingleMeasurement mc m mm w
  else executeWrapperMeasurement order mc m mm w.

(** ** The registry *)

(** What every sequence of registrations establishes: the validator's registry
    names exactly the methods the factory can create. *)
Definition factory_ok (mc : measurementFactory) : Prop :=
  forall method, RegisteredMeasurements mc !! method = Some true <-> is_Some (createFuncs mc !! method).

Lemma factory_ok_new : factory_ok newMeasurementFactory.
Proof. intros m. cbn. rewrite !lookup_empty. split; [done|by intros []]. Qed.

Lemma factory_ok_register mc name f : factory_ok mc -> factory_ok (register mc name f).1.
Proof.
  intros Hok m. unfold register. destruct (createFuncs mc !! name) eqn:He; [apply Hok|]. cbn.
  destruct (decide (name = m)) as [->|Hne].
  - rewrite !lookup_insert_eq. naive_solver.
  - rewrite !lookup_insert_ne by done. apply Hok.
Qed.

Definition register_all (regs : list (string * F)) : measurementFactory :=
  fold_left (fun mc r => (register mc r.1 r.2).1) regs newMeasurementFactory.

Lemma factory_ok_all regs : factory_ok (register_all regs).
Proof.
  unfold register_all. assert (forall mc, factory_ok mc ->
    factory_ok (fold_left (fun mc r => (register mc r.1 r.2).1) regs mc)) as Hgen.
  { induction regs as [|r regs IH]; intros mc Hmc; [done|]. cbn. by apply IH, factory_ok_register. }
  apply Hgen, factory_ok_new.
Qed.

(** The first registration of a name wins. *)
Lemma register_lookup mc name f m :
  createFuncs (register mc name f).1 !! m =
    match createFuncs mc !! m with
    | Some g => Some g
    | None => if decide (name = m) then Some f else None
    end.
Proof.
  unfold register. destruct (createFuncs mc !! name) as [g|] eqn:He; cbn.
  - destruct (createFuncs mc !! m) eqn:Hm; [done|]. case_decide; [congruence|done].
  - destruct (decide (name = m)) as [->|Hne].
    + by rewrite lookup_insert_eq, He.
    + rewrite lookup_insert_ne by done. by destruct (createFuncs mc !! m).
Qed.

Lemma registered_true m k : registered m k = true <-> m !! k = Some true.
Proof. unfold registered. destruct (m !! k) as [[]|]; naive_solver. Qed.

(** after any sequence of registrations, [createMeasurement] succeeds for every
    method of a measurement that passed validation against the registry, and
    fails with "unknown measurement method" for every method the validator
    would reject as not registered. *)
Theorem validated_measurement_creatable regs deps IsNotExist cwd dns configDir config s m w :
  Validate deps (RegisteredMeasurements (register_all regs)) IsNotExist cwd dns configDir config = None ->
  s ∈ Steps config -> m ∈ Measurements s ->
  (exists w' inst, createMeasurement (register_all regs) (Method m) w = (w', Ok inst)) /\
  (forall method, registered (RegisteredMeasurements (register_all regs)) method = false ->
     createMeasurement (register_all regs) method w =
       (w, Err (Errorf "unknown measurement method %s" [AStr method]))).
Proof.
  intros Hv Hs Hm. apply Validate_None_iff in Hv. pose proof (factory_ok_all regs) as Hok.
  destruct (proj2 (proj2 (proj2 (proj2 (proj2 Hv)))) s Hs) as (_ & _ & Hms).
  destruct (Hms m Hm) as (_ & _ & Hreg). split.
  - apply registered_true, Hok in Hreg as [f Hf]. unfold createMeasurement. rewrite Hf.
    destruct (run_createFunc f w) as [w' inst]. eauto.
  - intros method Hno. unfold createMeasurement.
    destruct (createFuncs (register_all regs) !! method) eqn:Hf; [|done].
    assert (registered (RegisteredMeasurements (register_all regs)) method = true); [|congruence].
    apply registered_true, Hok. eauto.
Qed.

(** ** Instances are created once *)

Definition instance_at (mm : measurementManager) (method identifier : string) : option M :=
  inner ← measurements mm !! method; inner !! identifier.

Lemma getMeasurementInstance_spec mc mm method identifier w mm' w' r :
  getMeasurementInstance mc mm method identifier w = (mm', w', r) ->
  summaries mm' = summaries mm /\
  (forall m, r = Ok m -> instance_at mm' method identifier = Some m) /\
  (forall m, instance_at mm method identifier = Some m -> r = Ok m /\ w' = w) /\
  (forall method' identifier' m, instance_at mm method' identifier' = Some m ->
     instance_at mm' method' identifier' = Some m).
Proof.
  unfold getMeasurementInstance, instance_at. cbn zeta.
  destruct (measurements mm !! method) as [inner|] eqn:Hin; cbn [default from_option id].
  - destruct (inner !! identifier) as [m0|] eqn:Hid.
    + intros [= <- <- <-]. cbn. rewrite insert_id by done. split_and!; [done| |naive_solver|done].
      intros m [= <-]. by rewrite Hin.
    + destruct (createMeasurement mc method w) as [w1 [m1|e]]; intros [= <- <- <-]; cbn.
      * split_and!; [done| |naive_solver|].
        { intros m [= <-]. rewrite lookup_insert_eq. cbn. by rewrite lookup_insert_eq. }
        { intros method' id' m. destruct (decide (method = method')) as [->|]; [|by rewrite lookup_insert_ne].
          rewrite lookup_insert_eq, Hin. cbn. intros Hm. rewrite lookup_insert_ne; [done|congruence]. }
      * rewrite insert_id by done. split_and!; [done|naive_solver..].
  - rewrite lookup_empty. destruct (createMeasurement mc method w) as [w1 [m1|e]]; intros [= <- <- <-]; cbn.
    + split_and!; [done| |naive_solver|].
      { intros m [= <-]. rewrite lookup_insert_eq. cbn. by rewrite lookup_insert_eq. }
      { intros method' id' m. destruct (decide (method = method')) as [->|]; [|by rewrite lookup_insert_ne].
        by rewrite Hin. }
    + split_and!; [done|naive_solver..|].
      intros method' id' m. destruct (decide (method = method')) as [->|]; [|by rewrite lookup_insert_ne].
      by rewrite Hin.
Qed.

Lemma Manager_Execute_keeps mc mm method identifier ps w mm' w' err method' identifier' m :
  Manager_Execute mc mm method identifier ps w = (mm', w', err) ->
  instance_at mm method' identifier' = Some m -> instance_at mm' method' identifier' = Some m.
Proof.
  unfold Manager_Execute.
  destruct (getMeasurementInstance mc mm method identifier w) as [[mm1 w1] r] eqn:Hg.
  apply getMeasurementInstance_spec in Hg as (_ & _ & _ & Hk). intros He Hm. apply Hk in Hm.
  destruct r as [m0|]; [destruct (ServerVersion w1); [|by simplify_eq]|by simplify_eq].
  destruct (instance_Execute m0 _ w1) as [[w2 ss] err2]. simplify_eq. done.
Qed.

(** A sequence of manager calls. *)
Definition run_calls (mc : measurementFactory) (calls : list (string * string * params))
  (s : measurementManager * W) : measurementManager * W :=
  fold_left (fun s call => (Manager_Execute mc s.1 call.1.1 call.1.2 call.2 s.2).1) calls s.

(** an instance lives from its first use to the end: once a call with method
    and identifier succeeded in creating an instance, after any later sequence
    of calls the manager hands out that same instance for them, without
    running a constructor. So "start" and "gather" reach the same object. *)
Theorem measurement_instance_is_unique mc mm w method identifier mm1 w1 m calls :
  getMeasurementInstance mc mm method identifier w = (mm1, w1, Ok m) ->
  let s := run_calls mc calls (mm1, w1) in
  exists mm2, getMeasurementInstance mc s.1 method identifier s.2 = (mm2, s.2, Ok m).
Proof.
  intros Hg. apply getMeasurementInstance_spec in Hg as (_ & Hm & _ & _). specialize (Hm m eq_refl).
  cbn zeta. assert (instance_at (run_calls mc calls (mm1, w1)).1 method identifier = Some m) as Hs.
  { clear -Hm. revert mm1 w1 Hm. induction calls as [|[[me id] ps] calls IH]; intros mm1 w1 Hm; [done|].
    cbn. destruct (Manager_Execute mc mm1 me id ps w1) as [[mm2 w2] e] eqn:He. cbn.
    apply IH. by eapply Manager_Execute_keeps. }
  destruct (run_calls mc calls (mm1, w1)) as [mm2 w2]. cbn in *.
  destruct (getMeasurementInstance mc mm2 method identifier w2) as [[mm3 w3] r] eqn:Hg.
  apply getMeasurementInstance_spec in Hg as (_ & _ & Hr & _). destruct (Hr _ Hs) as [-> ->]. eauto.
Qed.

(** ** What a measurement reports *)

(** The calls a measurement makes of the manager, in running order. *)
Definition measurement_calls (order : list (string * params) -> list (string * params)) (m : Measurement)
  : list (string * params) :=
  if negb (String.eqb (Identifier m) "") then [(Identifier m, meas_Params m)] else order (wrapper_calls m).

(** Their errors. *)
Fixpoint call_errors (mc : measurementFactory) (method : string) (calls : list (string * params))
  (mm : measurementManager) (w : W) : list (string * error) :=
  match calls with
  | [] => []
  | call :: calls' =>
      let '(mm', w', err) := Manager_Execute mc mm method call.1 call.2 w in
      match err with
      | Some e => (call.1, e) :: call_errors mc method calls' mm' w'
      | None => call_errors mc method calls' mm' w'
      end
  end.

Lemma fold_execute_call mc method calls mm w errs :
  errors (fold_left (execute_call mc method) calls (mm, w, errs)).2 =
  errors errs ++ map (fun ie => formatError method ie.1 ie.2) (call_errors mc method calls mm w).
Proof.
  revert mm w errs. induction calls as [|call calls IH]; intros mm w errs; cbn; [by rewrite app_nil_r|].
  destruct (Manager_Execute mc mm method call.1 call.2 w) as [[mm' w'] [e|]]; rewrite IH; cbn; [|done].
  by rewrite <- app_assoc.
Qed.

(** [Execute] reports exactly the errors of its manager calls, each wrapped
    with method and identifier, none lost; and the wrapping is transparent to
    [errors.Is]: the list has a critical error iff one of the calls returned
    one. Each wrapped instance is called with the wrapper's parameters, its own
    taking precedence. *)
Theorem measurement_Execute_reports order mc m mm w :
  let calls := measurement_calls order m in
  let errs := (Execute order mc m mm w).2 in
  errors errs = map (fun ie => formatError (Method m) ie.1 ie.2) (call_errors mc (Method m) calls mm w) /\
  Has errs SCritical = existsb (fun ie => Is ie.2 SCritical) (call_errors mc (Method m) calls mm w) /\
  wrapper_calls m = map (fun inst => (mi_Identifier inst, mi_Params inst ∪ meas_Params m)) (Instances m).
Proof.
  cbn zeta. assert (errors (Execute order mc m mm w).2 =
    map (fun ie => formatError (Method m) ie.1 ie.2)
      (call_errors mc (Method m) (measurement_calls order m) mm w)) as Herr.
  { unfold Execute, measurement_calls. case_match.
    - apply (fold_execute_call mc (Method m) [(Identifier m, meas_Params m)]).
    - unfold executeWrapperMeasurement. apply fold_execute_call. }
  split_and!; [done| |].
  - unfold Has. rewrite Herr, has_loop_existsb.
    generalize (call_errors mc (Method m) (measurement_calls order m) mm w) as l.
    induction l as [|[i e] l IH]; [done|]. cbn. by rewrite orb_false_r, IH.
  - unfold wrapper_calls. apply map_ext. intros inst. unfold instance_params.
    by rewrite !CopyMap_union, (right_id_L ∅ (∪)).
Qed.
End Manager.

Arguments measurementFactory : clear implicits.
Arguments measurementManager : clear implicits.

(** ** Concurrent measurements and the summaries

    The measurements of a step run in goroutines of their own, and
    [mm.summaries = append(mm.summaries, ...)] is outside the manager's lock: a
    goroutine loads the slice, and stores the longer one in a second step. *)
Inductive writer :=
| WLoad (ss : list Summary)
| WStore (old ss : list Summary)
| WDone.

Inductive summaries_step : list Summary * list writer -> list Summary * list writer -> Prop :=
| step_load shared pre ss post :
    summaries_step (shared, pre ++ WLoad ss :: post) (shared, pre ++ WStore shared ss :: post)
| step_store shared pre old ss post :
    summaries_step (shared, pre ++ WStore old ss :: post) (old ++ ss, pre ++ WDone :: post).

(** summaries can be lost. Two measurements of one step that both finish can
    leave the manager with the summaries of only one of them, as well as with
    both. *)
Theorem concurrent_summaries_can_be_lost shared s1 s2 :
  rtc summaries_step (shared, [WLoad s1; WLoad s2]) (shared ++ s2, [WDone; WDone]) /\
  rtc summaries_step (shared, [WLoad s1; WLoad s2]) ((shared ++ s1) ++ s2, [WDone; WDone]).
Proof.
  split.
  - eapply rtc_l; [apply (step_load shared [] s1 [WLoad s2])|].
    eapply rtc_l; [apply (step_load shared [WStore shared s1] s2 [])|].
    eapply rtc_l; [apply (step_store shared [] shared s1 [WStore shared s2])|].
    eapply rtc_l; [apply (step_store (shared ++ s1) [WDone] shared s2 [])|]. apply rtc_refl.
  - eapply rtc_l; [apply (step_load shared [] s1 [WLoad s2])|].
    eapply rtc_l; [apply (step_store shared [] shared s1 [WLoad s2])|].
    eapply rtc_l; [apply (step_load (shared ++ s1) [WDone] s2 [])|].
    eapply rtc_l; [apply (step_store (shared ++ s1) [WDone] (shared ++ s1) s2 [])|]. apply rtc_refl.
Qed.

(** ** A small library: instances count their executions *)
Definition counting_lib : MeasurementLib (gmap nat Z) nat string :=
  {| run_createFunc := fun _ w => (<[size w := 0]> w, size w);
     instance_Execute := fun m _ w =>
       (alter (Z.add 1) m w, [mkSummary "count" "json" 0 ""], None);
     instance_Dispose := fun m w => delete m w;
     ServerVersion := fun _ => Ok "v1.30" |}.

Lemma validated_measurement_creatable_witness :
  exists w' inst, @createMeasurement _ _ _ counting_lib (register_all [("Timer", "timer")]) "Timer" ∅ = (w', Ok inst).
Proof.
  eapply (@validated_measurement_creatable _ _ _ counting_lib [("Timer", "timer")] ∅ (fun _ => false) "/"
            (fun _ => []) "dir" sample_config
            (mkStep [] [mkMeasurement "Timer" ∅ "t1" []] no_module "start")
            (mkMeasurement "Timer" ∅ "t1" [])).
  - vm_compute. reflexivity.
  - vm_compute. left.
  - left.
Defined.

Lemma measurement_instance_is_unique_witness :
  let mc := register_all [("Timer", "timer")] in
  let s := @run_calls _ _ _ counting_lib mc [("Timer", "b", ∅); ("Timer", "a", ∅)]
             (@getMeasurementInstance _ _ _ counting_lib mc CreateManager "Timer" "a" ∅).1 in
  exists mm2, @getMeasurementInstance _ _ _ counting_lib mc s.1 "Timer" "a" s.2 = (mm2, s.2, Ok 0%nat).
Proof.
  cbn zeta. set (mc := register_all [("Timer", "timer")]).
  destruct (@getMeasurementInstance _ _ _ counting_lib mc CreateManager "Timer" "a" ∅) as [[mm1 w1] r] eqn:Hg.
  assert (r = Ok 0%nat) as -> by (vm_compute in Hg; congruence).
  apply (@measurement_instance_is_unique _ _ _ counting_lib mc CreateManager ∅ "Timer" "a" mm1 w1).
  exact Hg.
Defined.
