(* ===== verification/Float64.v ===== *)
(** * Rank computation in binary64

    [math.Ceil] and the facts about IEEE rounding behind the index expression
    [int(math.Ceil(float64(n)/100))] of the percentile code: the conversion of
    a small integer is exact, a division by 100 is off by at most two units in
    the last place and exact when the quotient is an integer, and therefore
    the index is the exact integer ceiling. *)

From S2P Require Import Prelude.
From Stdlib Require Import SpecFloat.

(** [math.Ceil]; the sign of a zero result is the sign of the argument. *)
Definition f64_ceil (x : float64) : float64 :=
  match x with
  | S754_finite s m e =>
      if 0 <=? e then x
      else
        let a := if s then - (Z.pos m / 2 ^ (- e)) else - ((- Z.pos m) / 2 ^ (- e)) in
        binary_normalize 53 1024 a 0 s
  | _ => x
  end.

(** Ceiling of the quotient of two integers. *)
Definition cdiv (a b : Z) : Z := - ((- a) / b).

Lemma cdiv_spec a b k : 0 < b -> (k - 1) * b < a <= k * b -> cdiv a b = k.
Proof.
  intros Hb Ha. unfold cdiv.
  rewrite <- (Z.div_unique_pos (- a) b (- k) (k * b - a)); lia.
Qed.

(** ** Binary digits *)

Lemma digits2_pos_log2 m : Z.pos (digits2_pos m) = Z.log2 (Z.pos m) + 1.
Proof.
  induction m as [m IH|m IH|]; cbn [digits2_pos]; [| |done].
  - rewrite Pos2Z.inj_succ, IH. rewrite Pos2Z.inj_xI, Z.log2_succ_double; lia.
  - rewrite Pos2Z.inj_succ, IH. rewrite (Pos2Z.inj_xO m), Z.log2_double; lia.
Qed.

Lemma Zdigits2_eq z d : 0 < d -> 2 ^ (d - 1) <= z < 2 ^ d -> Zdigits2 z = d.
Proof.
  intros Hd Hz. assert (0 < z) by (pose proof (Z.pow_pos_nonneg 2 (d - 1)); lia).
  destruct z as [|p|p]; try lia. cbn [Zdigits2]. rewrite digits2_pos_log2.
  rewrite (Z.log2_unique' (Z.pos p) (d - 1) (Z.pos p - 2 ^ (d - 1))); [lia|lia| |lia].
  replace d with (Z.succ (d - 1)) in Hz at 2 by lia. rewrite Z.pow_succ_r in Hz; lia.
Qed.

Lemma log2_bounds x : 0 < x -> 2 ^ (Z.log2 x) <= x < 2 ^ (Z.log2 x + 1).
Proof. intros Hx. apply (Z.log2_spec x Hx). Qed.

(** ** Rounding *)

Lemma fexp64 e : -1000 <= e -> fexp 53 1024 e = e - 53.
Proof. unfold fexp, emin. lia. Qed.

Lemma shr_fexp_53 m e l :
  2 ^ 52 <= m < 2 ^ 53 -> -1000 <= e ->
  shr_fexp 53 1024 m e l = (shr_record_of_loc m l, e).
Proof.
  intros Hm He. unfold shr_fexp. rewrite (Zdigits2_eq m 53), fexp64 by lia.
  replace (53 + e - 53 - e) with 0 by lia. done.
Qed.

Lemma shr_fexp_54 m e l :
  2 ^ 53 <= m < 2 ^ 54 -> -1000 <= e ->
  shr_fexp 53 1024 m e l = (shr_1 (shr_record_of_loc m l), e + 1).
Proof.
  intros Hm He. unfold shr_fexp. rewrite (Zdigits2_eq m 54), fexp64 by lia.
  replace (54 + e - 53 - e) with 1 by lia. done.
Qed.

Lemma loc_of_shr_record_of_loc m l : loc_of_shr_record (shr_record_of_loc m l) = l.
Proof. by destruct l as [|[]]. Qed.

Lemma shr_m_of_loc m l : shr_m (shr_record_of_loc m l) = m.
Proof. by destruct l as [|[]]. Qed.

Lemma round_nearest_even_bounds m l :
  m <= round_nearest_even m l <= m + 1 /\ (l = loc_Exact -> round_nearest_even m l = m).
Proof. destruct l as [|[]]; cbn; try destruct (Z.even m); split; try lia; done. Qed.

Lemma shr_m_shr_1 m l : 0 <= m -> shr_m (shr_1 (shr_record_of_loc m l)) = m / 2.
Proof.
  intros Hm. destruct m as [|p|p]; [by destruct l as [|[]]| |lia].
  rewrite <- Z.div2_div. destruct l as [|[]], p as [p|p|]; done.
Qed.

Lemma shr_1_even_exact m :
  0 < m -> Z.even m = true ->
  loc_of_shr_record (shr_1 (shr_record_of_loc m loc_Exact)) = loc_Exact.
Proof. intros Hm He. destruct m as [|[p|p|]|p]; done. Qed.

(** The second half of a rounding step: renormalising after a carry does not
    change the value. *)
Lemma round_carry s r e :
  2 ^ 52 <= r <= 2 ^ 53 -> -1000 <= e <= 900 ->
  exists m e',
    (let '(mrs, e'') := shr_fexp 53 1024 r e loc_Exact in
     match shr_m mrs with
     | Z0 => S754_zero s
     | Zpos m => if Z.leb e'' (Z.sub 1024 53) then S754_finite s m e'' else S754_infinity s
     | _ => S754_nan
     end) = S754_finite s m e' /\ e <= e' <= e + 1 /\ Z.pos m * 2 ^ (e' - e) = r.
Proof.
  intros Hr He. destruct (decide (r = 2 ^ 53)) as [->|].
  - rewrite shr_fexp_54 by lia. exists (Z.to_pos (2 ^ 52)), (e + 1).
    change (shr_m _) with (2 ^ 52). cbn -[Z.leb Z.add Z.sub Z.pow].
    rewrite (proj2 (Z.leb_le _ _)) by lia.
    replace (e + 1 - e) with 1 by lia. split; [done|]. split; [lia|done].
  - rewrite shr_fexp_53 by lia. rewrite shr_m_of_loc.
    destruct r as [|p|p]; try lia. exists p, e.
    rewrite (proj2 (Z.leb_le _ _)) by lia. rewrite Z.sub_diag. split; [done|]. lia.
Qed.

(** A rounding of [q] at exponent [e] yields a finite number of value
    [v * 2^e] with [v] within two units of [q], and [v = q] when nothing is
    lost. *)
Lemma binary_round_aux_near q e l :
  2 ^ 52 <= q < 2 ^ 54 -> -1000 <= e <= 800 ->
  exists m e', binary_round_aux 53 1024 false q e l = S754_finite false m e' /\
    e <= e' <= e + 2 /\
    q - 1 <= Z.pos m * 2 ^ (e' - e) <= q + 2 /\
    (l = loc_Exact -> Z.even q = true -> Z.pos m * 2 ^ (e' - e) = q).
Proof.
  intros Hq He. unfold binary_round_aux. destruct (decide (q < 2 ^ 53)) as [Hlt|Hge].
  - rewrite shr_fexp_53 by lia. rewrite shr_m_of_loc, loc_of_shr_record_of_loc.
    destruct (round_nearest_even_bounds q l) as [Hb Hx].
    destruct (round_carry false (round_nearest_even q l) e) as (m & e' & -> & He' & Hv); [lia|lia|].
    exists m, e'. split; [done|]. split; [lia|]. split; [lia|]. intros Hl _. rewrite Hv. auto.
  - rewrite shr_fexp_54 by lia. rewrite shr_m_shr_1 by lia.
    destruct (round_nearest_even_bounds (q / 2) (loc_of_shr_record (shr_1 (shr_record_of_loc q l))))
      as [Hb Hx].
    pose proof (Z.div_mod q 2 ltac:(lia)) as Hdm. pose proof (Z.mod_pos_bound q 2).
    match goal with |- context [round_nearest_even ?a ?b] => set (r := round_nearest_even a b) in * end.
    destruct (round_carry false r (e + 1)) as (m & e' & -> & He' & Hv); [lia|lia|].
    assert (Z.pos m * 2 ^ (e' - e) = 2 * r) as Hv2.
    { replace (e' - e) with (Z.succ (e' - (e + 1))) by lia. rewrite Z.pow_succ_r by lia. lia. }
    exists m, e'. split; [done|]. split; [lia|]. split; [lia|]. intros -> Hev.
    rewrite Hv2. rewrite Hx by (apply shr_1_even_exact; [lia|done]).
    apply Z.even_spec in Hev as [k ->]. rewrite (Z.mul_comm 2 k), Z.div_mul; lia.
Qed.

(** ** Integers *)

Lemma pos_iter_xO m d : Z.pos (Pos.iter xO m d) = Z.pos m * 2 ^ Z.pos d.
Proof.
  induction d as [|d IH] using Pos.peano_ind; [cbn; lia|].
  rewrite Pos.iter_succ, (Pos2Z.inj_xO (Pos.iter _ _ _)), IH, Pos2Z.inj_succ, Z.pow_succ_r; lia.
Qed.

Lemma f64_of_Z_exact x :
  0 < x < 2 ^ 53 ->
  exists m, f64_of_Z x = S754_finite false m (Z.log2 x - 52) /\
    Z.pos m = x * 2 ^ (52 - Z.log2 x).
Proof.
  intros Hx. pose proof (log2_bounds x ltac:(lia)) as Hl.
  assert (0 <= Z.log2 x < 53) as Hd.
  { split; [apply Z.log2_nonneg|]. apply Z.log2_lt_pow2; lia. }
  assert (exists mz, binary_normalize 53 1024 x 0 false =
            binary_round_aux 53 1024 false (Z.pos mz) (Z.log2 x - 52) loc_Exact /\
            Z.pos mz = x * 2 ^ (52 - Z.log2 x)) as (mz & Hn & Hmz).
  { destruct x as [|p|p]; try lia. cbn [binary_normalize]. unfold binary_round, shl_align.
    rewrite digits2_pos_log2, fexp64 by lia.
    destruct (Z.log2 (Z.pos p) + 1 + 0 - 53 - 0) as [|k|k] eqn:Hk; [|lia|].
    - exists p. replace (Z.log2 (Z.pos p)) with 52 by lia. split; [done|]. lia.
    - eexists. split; [f_equal; lia|]. rewrite pos_iter_xO. do 2 f_equal. lia. }
  exists mz. split; [|done]. unfold f64_of_Z. rewrite Hn.
  assert (2 ^ 52 <= Z.pos mz < 2 ^ 53) as Hr.
  { rewrite Hmz. replace (2 ^ 52) with (2 ^ Z.log2 x * 2 ^ (52 - Z.log2 x))
      by (rewrite <- Z.pow_add_r by lia; f_equal; lia).
    replace (2 ^ 53) with (2 ^ (Z.log2 x + 1) * 2 ^ (52 - Z.log2 x))
      by (rewrite <- Z.pow_add_r by lia; f_equal; lia).
    pose proof (Z.pow_pos_nonneg 2 (52 - Z.log2 x)). nia. }
  unfold binary_round_aux. rewrite shr_fexp_53 by lia. cbn [shr_record_of_loc shr_m loc_of_shr_record round_nearest_even].
  rewrite shr_fexp_53 by lia. cbn [shr_record_of_loc shr_m].
  rewrite (proj2 (Z.leb_le _ _)) by lia. done.
Qed.

Lemma f64_to_int_of_Z x : 0 <= x < 2 ^ 53 -> f64_to_int (f64_of_Z x) = x.
Proof.
  intros Hx. destruct (decide (x = 0)) as [->|]; [done|].
  destruct (f64_of_Z_exact x) as (m & -> & Hm); [lia|].
  assert (0 <= Z.log2 x < 53).
  { split; [apply Z.log2_nonneg|]. apply Z.log2_lt_pow2; lia. }
  pose proof (Z.pow_pos_nonneg 2 (52 - Z.log2 x)).
  assert ((if 0 <=? Z.log2 x - 52 then Z.pos m * 2 ^ (Z.log2 x - 52)
           else Z.pos m / 2 ^ (- (Z.log2 x - 52))) = x) as Hv.
  { rewrite Hm. destruct (0 <=? Z.log2 x - 52) eqn:Hle.
    - apply Z.leb_le in Hle. replace (Z.log2 x) with 52 by lia. cbn. lia.
    - replace (- (Z.log2 x - 52)) with (52 - Z.log2 x) by lia. rewrite Z.div_mul; lia. }
  unfold f64_to_int. rewrite Hv.
  rewrite (proj2 (Z.leb_le _ _)), (proj2 (Z.ltb_lt _ _)) by lia. done.
Qed.

(** ** Division by 100 *)

Lemma f64_100 : f64_of_Z 100 = S754_finite false (Z.to_pos (100 * 2 ^ 46)) (-46).
Proof. reflexivity. Qed.

(** The unrounded quotient of the division: [x * 2^(59 - log2 x)] by 100. *)
Lemma div100_core m x :
  0 < x < 2 ^ 40 -> Z.pos m = x * 2 ^ (52 - Z.log2 x) ->
  exists l, SFdiv_core_binary 53 1024 (Z.pos m) (Z.log2 x - 52) (100 * 2 ^ 46) (-46) =
      (x * 2 ^ (59 - Z.log2 x) / 100, Z.log2 x - 59, l) /\
    (x mod 100 = 0 -> l = loc_Exact).
Proof.
  intros Hx Hm. pose proof (log2_bounds x ltac:(lia)) as Hl.
  assert (0 <= Z.log2 x < 40) as Hd.
  { split; [apply Z.log2_nonneg|]. apply Z.log2_lt_pow2; lia. }
  assert (Zdigits2 (Z.pos m) = 53) as Hdig.
  { apply Zdigits2_eq; [lia|]. rewrite Hm.
    replace (2 ^ (53 - 1)) with (2 ^ Z.log2 x * 2 ^ (52 - Z.log2 x))
      by (rewrite <- Z.pow_add_r by lia; f_equal; lia).
    replace (2 ^ 53) with (2 ^ (Z.log2 x + 1) * 2 ^ (52 - Z.log2 x))
      by (rewrite <- Z.pow_add_r by lia; f_equal; lia).
    pose proof (Z.pow_pos_nonneg 2 (52 - Z.log2 x)). nia. }
  unfold SFdiv_core_binary. rewrite Hdig, (Zdigits2_eq (100 * 2 ^ 46) 53), fexp64 by lia.
  rewrite Z.min_l by lia.
  replace (Z.log2 x - 52 - -46 - (53 + (Z.log2 x - 52) - (53 + -46) - 53)) with 53 by lia.
  rewrite Z.shiftl_mul_pow2, Hm by lia.
  assert (x * 2 ^ (52 - Z.log2 x) * 2 ^ 53 = x * 2 ^ (59 - Z.log2 x) * 2 ^ 46) as ->.
  { rewrite <- !Z.mul_assoc, <- !Z.pow_add_r by lia. do 2 f_equal. lia. }
  replace (53 + (Z.log2 x - 52) - (53 + -46) - 53) with (Z.log2 x - 59) by lia.
  pose proof (Z.div_eucl_eq (x * 2 ^ (59 - Z.log2 x) * 2 ^ 46) (100 * 2 ^ 46) ltac:(lia)) as Heq.
  pose proof (Z.mod_pos_bound (x * 2 ^ (59 - Z.log2 x) * 2 ^ 46) (100 * 2 ^ 46) ltac:(lia)) as Hr.
  pose proof (Z.div_mul_cancel_r (x * 2 ^ (59 - Z.log2 x)) 100 (2 ^ 46) ltac:(lia) ltac:(lia)) as Hq.
  unfold Z.modulo in Hr. unfold Z.div in Hq at 1.
  destruct (Z.div_eucl (x * 2 ^ (59 - Z.log2 x) * 2 ^ 46) (100 * 2 ^ 46)) as [q r].
  subst q. eexists. split; [reflexivity|]. intros H0.
  apply Z.mod_divide in H0 as [k ->]; [|lia].
  replace (k * 100 * 2 ^ (59 - Z.log2 (k * 100))) with (k * 2 ^ (59 - Z.log2 (k * 100)) * 100) in Heq by lia.
  rewrite Z.div_mul in Heq by lia. assert (r = 0) as -> by lia. done.
Qed.

(** The index computation of the percentile code is the integer ceiling. *)
Lemma ceil_div_100_exact x :
  0 < x < 2 ^ 40 ->
  f64_to_int (f64_ceil (f64_div (f64_of_Z x) (f64_of_Z 100))) = cdiv x 100.
Proof.
  intros Hx. destruct (f64_of_Z_exact x) as (m & -> & Hm); [lia|].
  destruct (div100_core m x Hx Hm) as (l & Hcore & Hex).
  pose proof (log2_bounds x ltac:(lia)) as Hl.
  assert (0 <= Z.log2 x < 40) as Hd.
  { split; [apply Z.log2_nonneg|]. apply Z.log2_lt_pow2; lia. }
  rewrite f64_100. unfold f64_div. cbn [SFdiv].
  change (Z.pos (Z.to_pos (100 * 2 ^ 46))) with (100 * 2 ^ 46). rewrite Hcore. cbn [xorb].
  set (P := 2 ^ (59 - Z.log2 x)) in *. set (q := x * P / 100) in *.
  assert (2 ^ 20 <= P) as HP by (apply Z.pow_le_mono_r; lia).
  assert (100 * q <= x * P < 100 * q + 100) as Hq.
  { pose proof (Z.div_mod (x * P) 100 ltac:(lia)). pose proof (Z.mod_pos_bound (x * P) 100). lia. }
  assert (2 ^ 59 <= x * P < 2 ^ 60) as HxP.
  { unfold P. replace (2 ^ 59) with (2 ^ Z.log2 x * 2 ^ (59 - Z.log2 x))
      by (rewrite <- Z.pow_add_r by lia; f_equal; lia).
    replace (2 ^ 60) with (2 ^ (Z.log2 x + 1) * 2 ^ (59 - Z.log2 x))
      by (rewrite <- Z.pow_add_r by lia; f_equal; lia). fold P. nia. }
  destruct (binary_round_aux_near q (Z.log2 x - 59) l) as (m' & e' & -> & He' & Hv & Hvx); [lia|lia|].
  set (v := Z.pos m' * 2 ^ (e' - (Z.log2 x - 59))) in *.
  assert (cdiv (Z.pos m') (2 ^ (- e')) = cdiv x 100) as Hc; last first.
  { cbn [f64_ceil]. rewrite (proj2 (Z.leb_gt _ _)) by lia. fold (cdiv (Z.pos m') (2 ^ (- e'))).
    rewrite Hc. apply f64_to_int_of_Z. unfold cdiv.
    pose proof (Z.div_mod (- x) 100 ltac:(lia)). pose proof (Z.mod_pos_bound (- x) 100). lia. }
  assert (P = 2 ^ (- e') * 2 ^ (e' - (Z.log2 x - 59))) as HPe.
  { unfold P. rewrite <- Z.pow_add_r by lia. f_equal. lia. }
  assert (0 < 2 ^ (- e')) by (apply Z.pow_pos_nonneg; lia).
  assert (0 < 2 ^ (e' - (Z.log2 x - 59))) by (apply Z.pow_pos_nonneg; lia).
  set (k := cdiv x 100).
  assert ((k - 1) * 100 < x <= k * 100) as Hk.
  { unfold k, cdiv. pose proof (Z.div_mod (- x) 100 ltac:(lia)). pose proof (Z.mod_pos_bound (- x) 100). lia. }
  assert ((k - 1) * P < v <= k * P) as HvP.
  { destruct (decide (x mod 100 = 0)) as [Hz|Hz].
    - assert (x = k * 100) as Hxk.
      { apply Z.mod_divide in Hz as [j ->]; [|lia]. nia. }
      assert (q = k * P) as Hqk by nia.
      rewrite Hvx; [nia|by auto|]. rewrite Hqk, Z.even_mul.
      unfold P. replace (59 - Z.log2 x) with (Z.succ (58 - Z.log2 x)) by lia.
      rewrite Z.pow_succ_r, Z.even_mul by lia. apply orb_true_r.
    - assert (x <> k * 100) by (intros Hxk; apply Hz; rewrite Hxk; by apply Z.mod_mul). nia. }
  apply cdiv_spec; [done|]. unfold v in HvP. rewrite HPe in HvP. nia.
Qed.
