(* ===== verification/FloatInt.v ===== *)
(** * Integers carried in binary64

    The template functions do integer arithmetic in [float64]. The operations
    they use beyond the prelude's, and the facts that make them exact: an
    integer below 2^53 in magnitude has one binary64 value, and sums,
    differences and products of such integers are exact as long as the result
    is one too. *)

From S2P Require Import Prelude GoErrors Float64.
From Stdlib Require Import SpecFloat.

Definition f64_add (x y : float64) : float64 := SFadd 53 1024 x y.
Definition f64_sub (x y : float64) : float64 := SFsub 53 1024 x y.
Definition f64_eqb (x y : float64) : bool := SFeqb x y.

(** [math.Max] and [math.Min], with their special cases in Go's order. *)
Definition math_Max (x y : float64) : float64 :=
  match x, y with
  | S754_infinity false, _ => x
  | _, S754_infinity false => y
  | S754_nan, _ => S754_nan
  | _, S754_nan => S754_nan
  | S754_zero sx, S754_zero _ => if sx then y else x
  | _, _ => if f64_ltb y x then x else y
  end.

Definition math_Min (x y : float64) : float64 :=
  match x, y with
  | S754_infinity true, _ => x
  | _, S754_infinity true => y
  | S754_nan, _ => S754_nan
  | _, S754_nan => S754_nan
  | S754_zero sx, S754_zero _ => if sx then x else y
  | _, _ => if f64_ltb x y then x else y
  end.

(** [x] is small enough for every integer of its size to be a [float64]. *)
Definition small (x : Z) : Prop := - 2 ^ 53 < x < 2 ^ 53.

(** [f] is the integer [x]; zero has two signs. *)
Definition is_int (f : float64) (x : Z) : Prop :=
  if decide (x = 0) then exists s, f = S754_zero s else f = f64_of_Z x.

Lemma iter_shr_exact p a :
  0 < a -> iter_pos shr_1 p (Build_shr_record (a * 2 ^ Z.pos p) false false) = Build_shr_record a false false.
Proof.
  revert a. induction p as [p IH|p IH|]; intros a Ha; cbn [iter_pos].
  - assert (shr_1 (Build_shr_record (a * 2 ^ Z.pos p~1) false false) =
            Build_shr_record (a * 2 ^ Z.pos p * 2 ^ Z.pos p) false false) as ->; last first.
    { rewrite IH; [by apply IH|]. pose proof (Z.pow_pos_nonneg 2 (Z.pos p)). nia. }
    replace (a * 2 ^ Z.pos p~1) with (2 * (a * 2 ^ Z.pos p * 2 ^ Z.pos p)); last first.
    { rewrite <- Z.mul_assoc, <- Z.pow_add_r by lia. replace (Z.pos p~1) with (Z.succ (Z.pos p + Z.pos p)) by lia.
      rewrite Z.pow_succ_r by lia. lia. }
    assert (0 < a * 2 ^ Z.pos p * 2 ^ Z.pos p) by (pose proof (Z.pow_pos_nonneg 2 (Z.pos p)); nia).
    destruct (a * 2 ^ Z.pos p * 2 ^ Z.pos p) as [|q|q]; [lia|done|lia].
  - replace (a * 2 ^ Z.pos p~0) with (a * 2 ^ Z.pos p * 2 ^ Z.pos p); last first.
    { rewrite <- Z.mul_assoc, <- Z.pow_add_r by lia. do 2 f_equal. lia. }
    rewrite IH; [by apply IH|]. pose proof (Z.pow_pos_nonneg 2 (Z.pos p)). nia.
  - destruct a as [|q|q]; [lia| |lia]. replace (Z.pos q * 2 ^ 1) with (Z.pos q~0) by lia. done.
Qed.

Lemma shr_exact a e n :
  0 < a -> 0 <= n ->
  shr (shr_record_of_loc (a * 2 ^ n) loc_Exact) e n = (Build_shr_record a false false, e + n).
Proof.
  intros Ha Hn. destruct n as [|p|p]; [|by cbn [shr shr_record_of_loc]; rewrite iter_shr_exact|lia].
  cbn [shr shr_record_of_loc]. rewrite Z.pow_0_r, Z.mul_1_r, Z.add_0_r. done.
Qed.

(** The normalised mantissa of an integer. *)
Definition mantissa (x : Z) : Z := x * 2 ^ (52 - Z.log2 x).

Lemma log2_small x : 0 < x < 2 ^ 53 -> 0 <= Z.log2 x < 53.
Proof. intros Hx. split; [apply Z.log2_nonneg|]. apply Z.log2_lt_pow2; lia. Qed.

Lemma scale_pow x a b : 0 <= a -> 0 <= b -> x * 2 ^ a * 2 ^ b = x * 2 ^ (a + b).
Proof. intros ??. by rewrite <- Z.mul_assoc, <- Z.pow_add_r. Qed.

Lemma mantissa_bounds x : 0 < x < 2 ^ 53 -> 2 ^ 52 <= mantissa x < 2 ^ 53.
Proof.
  intros Hx. pose proof (log2_small x Hx). pose proof (log2_bounds x ltac:(lia)) as Hl. unfold mantissa.
  replace (2 ^ 52) with (2 ^ Z.log2 x * 2 ^ (52 - Z.log2 x)) by (rewrite <- Z.pow_add_r by lia; f_equal; lia).
  replace (2 ^ 53) with (2 ^ (Z.log2 x + 1) * 2 ^ (52 - Z.log2 x))
    by (rewrite <- Z.pow_add_r by lia; f_equal; lia).
  pose proof (Z.pow_pos_nonneg 2 (52 - Z.log2 x)). nia.
Qed.

Lemma Zdigits2_scaled x k : 0 < x -> 0 <= k -> Zdigits2 (x * 2 ^ k) = Z.log2 x + 1 + k.
Proof.
  intros Hx Hk. pose proof (log2_bounds x Hx) as Hl. pose proof (Z.log2_nonneg x). apply Zdigits2_eq; [lia|].
  replace (2 ^ (Z.log2 x + 1 + k - 1)) with (2 ^ Z.log2 x * 2 ^ k) by (rewrite <- Z.pow_add_r by lia; f_equal; lia).
  replace (2 ^ (Z.log2 x + 1 + k)) with (2 ^ (Z.log2 x + 1) * 2 ^ k) by (rewrite <- Z.pow_add_r by lia; f_equal; lia).
  pose proof (Z.pow_pos_nonneg 2 k). nia.
Qed.

(** Rounding an integer given with enough low zero bits does not change it. *)
Lemma round_exact s x e :
  0 < x < 2 ^ 53 -> e <= Z.log2 x - 52 -> -900 <= e ->
  binary_round_aux 53 1024 s (x * 2 ^ (- e)) e loc_Exact =
  S754_finite s (Z.to_pos (mantissa x)) (Z.log2 x - 52).
Proof.
  intros Hx He Hmin. pose proof (log2_small x Hx). pose proof (mantissa_bounds x Hx) as Hm.
  unfold binary_round_aux. unfold shr_fexp at 1.
  rewrite Zdigits2_scaled, fexp64 by lia.
  replace (Z.log2 x + 1 + - e + e - 53 - e) with (Z.log2 x - 52 - e) by lia.
  replace (x * 2 ^ (- e)) with (mantissa x * 2 ^ (Z.log2 x - 52 - e))
    by (unfold mantissa; rewrite scale_pow by lia; do 2 f_equal; lia).
  rewrite shr_exact by lia. cbn [shr_m loc_of_shr_record round_nearest_even].
  rewrite shr_fexp_53 by lia. cbn [shr_record_of_loc shr_m].
  replace (e + (Z.log2 x - 52 - e)) with (Z.log2 x - 52) by lia.
  destruct (mantissa x) as [|p|p]; [lia| |lia].
  rewrite (proj2 (Z.leb_le _ _)) by lia. done.
Qed.

(** The binary64 value of a small nonzero integer. *)
Definition int_float (x : Z) : float64 :=
  S754_finite (x <? 0) (Z.to_pos (mantissa (Z.abs x))) (Z.log2 (Z.abs x) - 52).

Lemma binary_round_int s p x k :
  0 < x < 2 ^ 53 -> 0 <= k <= 900 -> Z.pos p = x * 2 ^ k ->
  binary_round 53 1024 s p (- k) = S754_finite s (Z.to_pos (mantissa x)) (Z.log2 x - 52).
Proof.
  intros Hx Hk Hp. pose proof (log2_small x Hx). unfold binary_round, shl_align.
  replace (Z.pos (digits2_pos p)) with (Z.log2 x + 1 + k)
    by (rewrite <- (Zdigits2_scaled x k) by lia; by rewrite <- Hp).
  rewrite fexp64 by lia. replace (Z.log2 x + 1 + k + - k - 53 - - k) with (Z.log2 x - 52 + k) by lia.
  replace (Z.log2 x + 1 + k + - k - 53) with (Z.log2 x - 52) by lia.
  destruct (Z.log2 x - 52 + k) as [|d|d] eqn:Hd.
  - replace (Z.pos p) with (x * 2 ^ (- (- k))) by (rewrite Z.opp_involutive; done). apply round_exact; lia.
  - replace (Z.pos p) with (x * 2 ^ (- (- k))) by (rewrite Z.opp_involutive; done). apply round_exact; lia.
  - rewrite pos_iter_xO, Hp, scale_pow by lia.
    replace (k + Z.pos d) with (- (Z.log2 x - 52)) by lia. apply round_exact; lia.
Qed.

Lemma normalize_int x k :
  small x -> x <> 0 -> 0 <= k <= 900 -> binary_normalize 53 1024 (x * 2 ^ k) (- k) false = int_float x.
Proof.
  unfold small. intros Hx Hx0 Hk. pose proof (Z.pow_pos_nonneg 2 k ltac:(lia) ltac:(lia)) as Hpow.
  unfold int_float. destruct (Z.ltb_spec x 0).
  - destruct (x * 2 ^ k) as [|p|p] eqn:Hp; [nia|nia|]. cbn [binary_normalize]. apply binary_round_int; [lia|lia|].
    rewrite Z.abs_neq by lia. lia.
  - destruct (x * 2 ^ k) as [|p|p] eqn:Hp; [nia| |nia]. cbn [binary_normalize]. apply binary_round_int; [lia|lia|].
    rewrite Z.abs_eq by lia. lia.
Qed.

Lemma f64_of_Z_int x : small x -> x <> 0 -> f64_of_Z x = int_float x.
Proof.
  intros Hx Hx0. pose proof (normalize_int x 0 Hx Hx0) as H.
  rewrite Z.pow_0_r, Z.mul_1_r in H. apply H. lia.
Qed.

(** Aligning the mantissa to a smaller exponent. *)
Lemma shl_align_int x ez :
  0 < x < 2 ^ 53 -> ez <= Z.log2 x - 52 -> ez <= 0 ->
  Z.pos (fst (shl_align (Z.to_pos (mantissa x)) (Z.log2 x - 52) ez)) = x * 2 ^ (- ez).
Proof.
  intros Hx Hez Hez0. pose proof (mantissa_bounds x Hx). pose proof (log2_small x Hx). unfold shl_align.
  destruct (ez - (Z.log2 x - 52)) as [|d|d] eqn:Hd; [|lia|]; cbn [fst].
  - rewrite Z2Pos.id by lia. unfold mantissa. do 2 f_equal. lia.
  - rewrite pos_iter_xO, Z2Pos.id by lia. unfold mantissa. rewrite scale_pow by lia. do 2 f_equal. lia.
Qed.

Lemma align_signed x ez :
  small x -> x <> 0 -> ez <= Z.log2 (Z.abs x) - 52 -> ez <= 0 ->
  cond_Zopp (x <? 0) (Z.pos (fst (shl_align (Z.to_pos (mantissa (Z.abs x))) (Z.log2 (Z.abs x) - 52) ez))) =
  x * 2 ^ (- ez).
Proof.
  unfold small. intros Hx Hx0 He Hez. rewrite shl_align_int by lia. unfold cond_Zopp.
  destruct (Z.ltb_spec x 0); [rewrite Z.abs_neq by lia|rewrite Z.abs_eq by lia]; lia.
Qed.

Lemma is_int_0 s : is_int (S754_zero s) 0.
Proof. unfold is_int. rewrite decide_True by done. by exists s. Qed.

Lemma is_int_nonzero f x : x <> 0 -> small x -> is_int f x <-> f = int_float x.
Proof. intros Hx Hs. unfold is_int. rewrite decide_False by done. by rewrite f64_of_Z_int. Qed.

Lemma is_int_of_Z x : is_int (f64_of_Z x) x.
Proof. unfold is_int. destruct (decide (x = 0)) as [->|]; [by exists false|done]. Qed.

Lemma normalize_is_int x k :
  small x -> 0 <= k <= 900 -> is_int (binary_normalize 53 1024 (x * 2 ^ k) (- k) false) x.
Proof.
  intros Hx Hk. destruct (decide (x = 0)) as [->|]; [apply is_int_0|].
  apply is_int_nonzero; [done|done|]. by apply normalize_int.
Qed.

(** ** The operations are exact on small integers *)

Lemma log2_abs_small x : small x -> x <> 0 -> 0 <= Z.log2 (Z.abs x) < 53.
Proof. unfold small. intros Hx Hx0. apply log2_small. lia. Qed.

Lemma f64_add_int f g x y :
  is_int f x -> is_int g y -> small x -> small y -> small (x + y) -> is_int (f64_add f g) (x + y).
Proof.
  intros Hf Hg Hx Hy Hxy. destruct (decide (x = 0)) as [->|Hx0].
  { unfold is_int in Hf. rewrite decide_True in Hf by done. destruct Hf as [s ->].
    destruct (decide (y = 0)) as [->|Hy0].
    - unfold is_int in Hg. rewrite decide_True in Hg by done. destruct Hg as [s' ->].
      destruct s, s'; apply is_int_0.
    - apply is_int_nonzero in Hg as ->; [|done|done]. rewrite Z.add_0_l. by apply is_int_nonzero. }
  apply is_int_nonzero in Hf as ->; [|done|done]. destruct (decide (y = 0)) as [->|Hy0].
  { unfold is_int in Hg. rewrite decide_True in Hg by done. destruct Hg as [s' ->].
    rewrite Z.add_0_r. by apply is_int_nonzero. }
  apply is_int_nonzero in Hg as ->; [|done|done].
  pose proof (log2_abs_small x Hx Hx0). pose proof (log2_abs_small y Hy Hy0).
  unfold f64_add, int_float. cbn [SFadd].
  set (ez := Z.min (Z.log2 (Z.abs x) - 52) (Z.log2 (Z.abs y) - 52)).
  rewrite !align_signed by (try done; lia). rewrite <- Z.mul_add_distr_r.
  replace ez with (- (- ez)) at 2 by lia. apply normalize_is_int; [done|lia].
Qed.

Lemma f64_sub_int f g x y :
  is_int f x -> is_int g y -> small x -> small y -> small (x - y) -> is_int (f64_sub f g) (x - y).
Proof.
  intros Hf Hg Hx Hy Hxy. destruct (decide (y = 0)) as [->|Hy0].
  { unfold is_int in Hg. rewrite decide_True in Hg by done. destruct Hg as [s ->].
    rewrite Z.sub_0_r. destruct (decide (x = 0)) as [->|Hx0].
    - unfold is_int in Hf. rewrite decide_True in Hf by done. destruct Hf as [s' ->].
      destruct s, s'; apply is_int_0.
    - apply is_int_nonzero in Hf as ->; [|done|done]. by apply is_int_nonzero. }
  apply is_int_nonzero in Hg as ->; [|done|done]. destruct (decide (x = 0)) as [->|Hx0].
  { unfold is_int in Hf. rewrite decide_True in Hf by done. destruct Hf as [s' ->].
    rewrite Z.sub_0_l in *. apply is_int_nonzero; [lia|done|].
    unfold f64_sub, int_float. cbn [SFsub]. rewrite Z.abs_opp. f_equal.
    destruct (Z.ltb_spec y 0), (Z.ltb_spec (- y) 0); (done || lia). }
  apply is_int_nonzero in Hf as ->; [|done|done].
  pose proof (log2_abs_small x Hx Hx0). pose proof (log2_abs_small y Hy Hy0).
  unfold f64_sub, int_float. cbn [SFsub].
  set (ez := Z.min (Z.log2 (Z.abs x) - 52) (Z.log2 (Z.abs y) - 52)).
  rewrite !align_signed by (try done; lia). rewrite <- Z.mul_sub_distr_r.
  replace ez with (- (- ez)) at 2 by lia. apply normalize_is_int; [done|lia].
Qed.

Lemma f64_mul_int f g x y :
  is_int f x -> is_int g y -> small x -> small y -> small (x * y) -> is_int (f64_mul f g) (x * y).
Proof.
  intros Hf Hg Hx Hy Hxy. destruct (decide (x = 0)) as [->|Hx0].
  { unfold is_int in Hf. rewrite decide_True in Hf by done. destruct Hf as [s ->].
    rewrite Z.mul_0_l. destruct (decide (y = 0)) as [->|Hy0].
    - unfold is_int in Hg. rewrite decide_True in Hg by done. destruct Hg as [s' ->]. apply is_int_0.
    - apply is_int_nonzero in Hg as ->; [|done|done]. apply is_int_0. }
  apply is_int_nonzero in Hf as ->; [|done|done]. destruct (decide (y = 0)) as [->|Hy0].
  { unfold is_int in Hg. rewrite decide_True in Hg by done. destruct Hg as [s' ->].
    rewrite Z.mul_0_r. apply is_int_0. }
  apply is_int_nonzero in Hg as ->; [|done|done]. apply is_int_nonzero; [nia|done|].
  pose proof (log2_abs_small x Hx Hx0). pose proof (log2_abs_small y Hy Hy0). unfold small in *.
  pose proof (mantissa_bounds (Z.abs x) ltac:(lia)). pose proof (mantissa_bounds (Z.abs y) ltac:(lia)).
  unfold f64_mul, int_float. cbn [SFmul]. rewrite Pos2Z.inj_mul, !Z2Pos.id by lia.
  pose proof (Z.log2_mul_below (Z.abs x) (Z.abs y) ltac:(lia) ltac:(lia)) as Hl.
  rewrite <- Z.abs_mul in Hl.
  replace (mantissa (Z.abs x) * mantissa (Z.abs y)) with
    (Z.abs (x * y) * 2 ^ (- (Z.log2 (Z.abs x) - 52 + (Z.log2 (Z.abs y) - 52)))); last first.
  { unfold mantissa. rewrite Z.abs_mul.
    replace (- (Z.log2 (Z.abs x) - 52 + (Z.log2 (Z.abs y) - 52)))
      with (52 - Z.log2 (Z.abs x) + (52 - Z.log2 (Z.abs y))) by lia.
    rewrite Z.pow_add_r by lia. lia. }
  rewrite round_exact by (pose proof (Z.abs_nonneg (x * y)); lia). f_equal.
  destruct (Z.ltb_spec x 0), (Z.ltb_spec y 0), (Z.ltb_spec (x * y) 0); (done || nia).
Qed.

Lemma f64_to_int_small f x : is_int f x -> small x -> f64_to_int f = x.
Proof.
  intros Hf Hx. destruct (decide (x = 0)) as [->|Hx0].
  { unfold is_int in Hf. rewrite decide_True in Hf by done. by destruct Hf as [s ->]. }
  apply is_int_nonzero in Hf as ->; [|done|done]. pose proof (log2_abs_small x Hx Hx0). unfold small in Hx.
  pose proof (mantissa_bounds (Z.abs x) ltac:(lia)).
  unfold int_float, f64_to_int. rewrite Z2Pos.id by lia.
  assert ((if 0 <=? Z.log2 (Z.abs x) - 52 then mantissa (Z.abs x) * 2 ^ (Z.log2 (Z.abs x) - 52)
           else mantissa (Z.abs x) / 2 ^ (- (Z.log2 (Z.abs x) - 52))) = Z.abs x) as ->.
  { unfold mantissa. pose proof (Z.pow_pos_nonneg 2 (52 - Z.log2 (Z.abs x))). case_match eqn:Hle.
    - apply Z.leb_le in Hle. replace (Z.log2 (Z.abs x)) with 52 by lia. cbn. lia.
    - replace (- (Z.log2 (Z.abs x) - 52)) with (52 - Z.log2 (Z.abs x)) by lia. rewrite Z.div_mul; lia. }
  destruct (Z.ltb_spec x 0).
  - rewrite Z.abs_neq, Z.opp_involutive by lia.
    rewrite (proj2 (Z.leb_le _ _)), (proj2 (Z.ltb_lt _ _)) by lia. done.
  - rewrite Z.abs_eq by lia. rewrite (proj2 (Z.leb_le _ _)), (proj2 (Z.ltb_lt _ _)) by lia. done.
Qed.

(** ** Comparison *)

Lemma mantissa_compare x y :
  0 < x < 2 ^ 53 -> 0 < y < 2 ^ 53 -> Z.log2 x = Z.log2 y -> (mantissa x ?= mantissa y) = (x ?= y).
Proof.
  intros Hx Hy Hl. pose proof (log2_small x Hx). pose proof (log2_small y Hy). unfold mantissa. rewrite <- Hl.
  symmetry. apply Zmult_compare_compat_r. apply Z.lt_gt, Z.pow_pos_nonneg; lia.
Qed.

(** Exponent first, then mantissa: the order of the positive integers. *)
Lemma magnitude_compare x y :
  0 < x < 2 ^ 53 -> 0 < y < 2 ^ 53 ->
  match Z.log2 x - 52 ?= Z.log2 y - 52 with
  | Lt => Lt | Gt => Gt
  | Eq => Pos.compare_cont Eq (Z.to_pos (mantissa x)) (Z.to_pos (mantissa y))
  end = (x ?= y).
Proof.
  intros Hx Hy. pose proof (mantissa_bounds x Hx). pose proof (mantissa_bounds y Hy).
  destruct (Z.compare_spec (Z.log2 x - 52) (Z.log2 y - 52)) as [Hl|Hl|Hl].
  - change (Pos.compare_cont Eq ?a ?b) with (Pos.compare a b).
    rewrite <- mantissa_compare by lia. by rewrite Z2Pos.inj_compare by lia.
  - symmetry. apply Z.compare_lt_iff, Z.log2_lt_cancel. lia.
  - symmetry. apply Z.compare_gt_iff, Z.log2_lt_cancel. lia.
Qed.

Lemma int_float_ltb x y :
  small x -> small y -> x <> 0 -> y <> 0 -> f64_ltb (int_float x) (int_float y) = (x <? y).
Proof.
  unfold small. intros Hx Hy Hx0 Hy0. unfold f64_ltb, SFltb, int_float. cbn [SFcompare].
  destruct (Z.ltb_spec x 0), (Z.ltb_spec y 0).
  - pose proof (magnitude_compare (Z.abs x) (Z.abs y) ltac:(lia) ltac:(lia)) as Hm.
    assert ((Z.abs x ?= Z.abs y) = (y ?= x)) as Hxy.
    { rewrite !Z.abs_neq by lia. destruct (Z.compare_spec (- x) (- y)), (Z.compare_spec y x); (done || lia). }
    rewrite Hxy in Hm. unfold Z.ltb. rewrite (Z.compare_antisym y x), <- Hm.
    by destruct (Z.log2 (Z.abs x) - 52 ?= Z.log2 (Z.abs y) - 52).
  - symmetry. apply Z.ltb_lt. lia.
  - symmetry. apply Z.ltb_ge. lia.
  - pose proof (magnitude_compare (Z.abs x) (Z.abs y) ltac:(lia) ltac:(lia)) as Hm.
    rewrite Hm. rewrite !Z.abs_eq by lia. done.
Qed.

(** An integer is zero, with either sign, or the canonical value. *)
Lemma is_int_cases f x :
  is_int f x -> small x -> (x = 0 /\ exists s, f = S754_zero s) \/ (x <> 0 /\ f = int_float x).
Proof.
  intros Hf Hx. destruct (decide (x = 0)) as [->|Hx0].
  - left. unfold is_int in Hf. by rewrite decide_True in Hf.
  - right. split; [done|]. by apply is_int_nonzero.
Qed.

Lemma f64_ltb_int f g x y : is_int f x -> is_int g y -> small x -> small y -> f64_ltb f g = (x <? y).
Proof.
  intros Hf Hg Hx Hy.
  destruct (is_int_cases f x Hf Hx) as [[-> [s ->]]|[Hx0 ->]], (is_int_cases g y Hg Hy) as [[-> [s' ->]]|[Hy0 ->]].
  - done.
  - unfold f64_ltb, SFltb, int_float. cbn [SFcompare]. destruct (Z.ltb_spec y 0), (Z.ltb_spec 0 y); (done || lia).
  - unfold f64_ltb, SFltb, int_float. cbn [SFcompare]. destruct (Z.ltb_spec x 0); done.
  - by apply int_float_ltb.
Qed.

Lemma math_Max_int f g x y : is_int f x -> is_int g y -> small x -> small y -> is_int (math_Max f g) (Z.max x y).
Proof.
  intros Hf Hg Hx Hy. pose proof (f64_ltb_int g f y x Hg Hf Hy Hx) as Hlt.
  assert (is_int (if f64_ltb g f then f else g) (Z.max x y)) as Hpick.
  { rewrite Hlt. destruct (Z.ltb_spec y x); [by rewrite Z.max_l by lia|by rewrite Z.max_r by lia]. }
  destruct (is_int_cases f x Hf Hx) as [[-> [s ->]]|[Hx0 ->]], (is_int_cases g y Hg Hy) as [[-> [s' ->]]|[Hy0 ->]];
    try exact Hpick.
  cbn. destruct s; apply is_int_0.
Qed.

Lemma math_Min_int f g x y : is_int f x -> is_int g y -> small x -> small y -> is_int (math_Min f g) (Z.min x y).
Proof.
  intros Hf Hg Hx Hy. pose proof (f64_ltb_int f g x y Hf Hg Hx Hy) as Hlt.
  assert (is_int (if f64_ltb f g then f else g) (Z.min x y)) as Hpick.
  { rewrite Hlt. destruct (Z.ltb_spec x y); [by rewrite Z.min_l by lia|by rewrite Z.min_r by lia]. }
  destruct (is_int_cases f x Hf Hx) as [[-> [s ->]]|[Hx0 ->]], (is_int_cases g y Hg Hy) as [[-> [s' ->]]|[Hy0 ->]];
    try exact Hpick.
  cbn. destruct s; apply is_int_0.
Qed.

Lemma small_0 : small 0.
Proof. unfold small. lia. Qed.

#[export] Hint Resolve is_int_of_Z is_int_0 small_0 f64_add_int f64_sub_int f64_mul_int f64_to_int_small
  math_Max_int math_Min_int : golist.
