(* ===== verification/Latency.v ===== *)
(** * Latency metrics (pkg/measurement/util: phase_latency.go,
      latency_metric.go, metrics.go, and the data types of perftype.go)

    The table of transition times the latency measurements fill, the latency
    of a transition over all objects, its percentiles, and the threshold
    checks. Times are nanoseconds ([Z]); a [time.Duration] is an [int64]. The
    percentile ranks are computed in binary64 as in the source; [None] is an
    index-out-of-range panic. *)

From S2P Require Import Prelude GoErrors Params Float64.
From Stdlib Require Import SpecFloat.

(** ** time.Time and time.Duration *)

(** The zero [time.Time]: January 1, year 1. *)
Definition zeroTime : Z := -62135596800 * 10 ^ 9.
Definition minDuration : Z := - 2 ^ 63.
Definition maxDuration : Z := 2 ^ 63 - 1.

(** [t.Sub(u)] saturates. *)
Definition Time_Sub (t u : Z) : Z := Z.max minDuration (Z.min maxDuration (t - u)).

Definition Second : Z := 10 ^ 9.
Definition Millisecond : Z := 10 ^ 6.

(** [Duration.String]: the [prec] low decimal digits of [v] as a fraction,
    without trailing zeros, and the remaining integer part. *)
Fixpoint fmtFrac (prec : nat) (print : bool) (v : Z) (acc : string) : Z * string :=
  match prec with
  | O => (v, if print then "." +:+ acc else acc)
  | S prec' =>
      let digit := v mod 10 in
      let print := print || negb (digit =? 0) in
      fmtFrac prec' print (v / 10) (if print then pretty digit +:+ acc else acc)
  end.

Definition micro_s : string := String (ascii_of_nat 194) (String (ascii_of_nat 181) "s").

Definition Duration_String (d : Z) : string :=
  if d =? 0 then "0s"
  else
    let u := Z.abs d in
    let body :=
      if u <? Second then
        let '(prec, unit) :=
          if u <? 1000 then (0%nat, "ns")
          else if u <? Millisecond then (3%nat, micro_s) else (6%nat, "ms") in
        let '(v, s) := fmtFrac prec false u unit in pretty v +:+ s
      else
        let '(secs, s) := fmtFrac 9 false u "s" in
        let s := pretty (secs mod 60) +:+ s in
        let mins := secs / 60 in
        if 0 <? mins then
          let s := pretty (mins mod 60) +:+ "m" +:+ s in
          let hours := mins / 60 in
          if 0 <? hours then pretty hours +:+ "h" +:+ s else s
        else s in
    if d <? 0 then "-" +:+ body else body.

(** ** latency_metric.go *)

Record LatencyMetric := mkLatencyMetric { Perc50 : Z; Perc90 : Z; Perc99 : Z }.

(** The constants 0.5, 0.9 and 0.99, correctly rounded. *)
Definition f64_half : float64 := f64_div (f64_of_Z 1) (f64_of_Z 2).
Definition f64_0_9 : float64 := f64_div (f64_of_Z 9) (f64_of_Z 10).
Definition f64_0_99 : float64 := f64_div (f64_of_Z 99) (f64_of_Z 100).

Definition SetQuantile (metric : LatencyMetric) (quantile : float64) (latency : Z) : LatencyMetric :=
  if SFeqb quantile f64_half then mkLatencyMetric latency (Perc90 metric) (Perc99 metric)
  else if SFeqb quantile f64_0_9 then mkLatencyMetric (Perc50 metric) latency (Perc99 metric)
  else if SFeqb quantile f64_0_99 then mkLatencyMetric (Perc50 metric) (Perc90 metric) latency
  else metric.

Definition too_high (perc : string) (got expected : Z) : error :=
  Errorf ("too high latency " +:+ perc +:+ " percentile: got %v expected: %v")
    [AStr (Duration_String got); AStr (Duration_String expected)].

Definition VerifyThresholdByPercentile (metric : LatencyMetric)
    (perc50Threshold perc90Threshold perc99Threshold : Z) : option error :=
  if perc50Threshold <? Perc50 metric then Some (too_high "50th" (Perc50 metric) perc50Threshold)
  else if perc90Threshold <? Perc90 metric then Some (too_high "90th" (Perc90 metric) perc90Threshold)
  else if perc99Threshold <? Perc99 metric then Some (too_high "99th" (Perc99 metric) perc99Threshold)
  else None.

Definition VerifyThreshold (metric : LatencyMetric) (threshold : Z) : option error :=
  if threshold <? Perc50 metric then Some (too_high "50th" (Perc50 metric) threshold)
  else if threshold <? Perc90 metric then Some (too_high "90th" (Perc90 metric) threshold)
  else if threshold <? Perc99 metric then Some (too_high "99th" (Perc99 metric) threshold)
  else None.

(** ** perftype.go *)

Record DataItem := mkDataItem {
  di_Data : gmap string float64;
  di_Unit : string;
  di_Labels : gmap string string;
}.

Record PerfData := mkPerfData {
  pd_Version : string;
  pd_DataItems : list DataItem;
  pd_Labels : gmap string string;
}.

Definition in_ms (d : Z) : float64 := f64_div (f64_of_Z d) (f64_of_Z Millisecond).

Definition ToPerfData (metric : LatencyMetric) (name : string) : DataItem :=
  mkDataItem
    {[ "Perc50" := in_ms (Perc50 metric); "Perc90" := in_ms (Perc90 metric);
       "Perc99" := in_ms (Perc99 metric) ]}
    "ms" {[ "Metric" := name ]}.

(** [visit]: the order in which the map is ranged over. *)
Definition LatencyMapToPerfData (visit : list (string * LatencyMetric)) : PerfData :=
  mkPerfData "1.0" (map (fun '(name, l) => ToPerfData l name) visit) ∅.

(** ** Percentiles *)

Record latencyData := mkLatencyData { ld_key : string; ld_latency : Z }.

(** [LatencySlice.Less]. *)
Definition Less (a b : latencyData) : bool := ld_latency a <? ld_latency b.

(** The order of [sort.Sort]: [a] may precede [b] unless [b] is less. *)
Definition ld_le (a b : latencyData) : Prop := Less b a = false.
#[export] Instance ld_le_dec a b : Decision (ld_le a b).
Proof. unfold ld_le. apply _. Defined.
Lemma ld_le_iff a b : ld_le a b <-> ld_latency a <= ld_latency b.
Proof. apply Z.ltb_ge. Qed.
#[export] Instance ld_le_total : Total ld_le.
Proof. intros a b. rewrite !ld_le_iff. lia. Qed.
#[export] Instance ld_le_trans : Transitive ld_le.
Proof. intros a b c. rewrite !ld_le_iff. lia. Qed.

(** [sort.Sort(LatencySlice(lag))]; the order of equal latencies, which
    [sort.Sort] leaves open, is not observable in what follows. *)
Definition sort_latencies (lag : list latencyData) : list latencyData := merge_sort ld_le lag.

(** [int(math.Ceil(float64(length*q)/100))-1], the index of a percentile. *)
Definition percentile_index (length q : Z) : Z :=
  wrap64 (f64_to_int (f64_ceil (f64_div (f64_of_Z (wrap64 (length * q))) (f64_of_Z 100))) - 1).

Definition percentile (latencies : list latencyData) (q : Z) : option Z :=
  let i := percentile_index (Z.of_nat (length latencies)) q in
  if i <? 0 then None else ld_latency <$> latencies !! Z.to_nat i.

Definition NewLatencyMetric (latencies : list latencyData) : option LatencyMetric :=
  match latencies with
  | [] => Some (mkLatencyMetric 0 0 0)
  | _ =>
      perc50 ← percentile latencies 50;
      perc90 ← percentile latencies 90;
      perc99 ← percentile latencies 99;
      Some (mkLatencyMetric perc50 perc90 perc99)
  end.

(** A Prometheus sample: its labels and its value. *)
Record Sample := mkSample { s_Metric : gmap string string; s_Value : float64 }.

(** [SampleString]: the [%v] rendering of a sample (prometheus/common). *)
Fixpoint prometheus_loop `{GoLib} (SampleString : Sample -> string) (metric : LatencyMetric) (samples : list Sample) : result LatencyMetric :=
  match samples with
  | [] => Ok metric
  | sample :: rest =>
      match s_Metric sample !! "quantile" with
      | None => Err (Errorf "quantile missing in sample %v" [AStr (SampleString sample)])
      | Some val =>
          match ParseFloat val with
          | (_, Some err) => Err err
          | (quantile, None) =>
              let latency := f64_to_int (f64_mul (s_Value sample) (f64_of_Z Second)) in
              prometheus_loop SampleString (SetQuantile metric quantile latency) rest
          end
      end
  end.

Definition NewLatencyMetricPrometheus `{GoLib} (SampleString : Sample -> string)
    (samples : list Sample) : result LatencyMetric :=
  prometheus_loop SampleString (mkLatencyMetric 0 0 0) samples.

(** ** phase_latency.go *)

Record Transition := mkTransition { From : string; To : string; Threshold : Z }.

(** [times]: object key -> phase -> time. *)
Record ObjectTransitionTimes := mkObjectTransitionTimes {
  ott_name : string;
  ott_times : gmap string (gmap string Z);
}.

Record KeyTimestamp := mkKeyTimestamp { kt_Key : string; kt_Timestamp : Z }.

Definition NewObjectTransitionTimes (name : string) : ObjectTransitionTimes :=
  mkObjectTransitionTimes name ∅.

Definition OTT_Set (o : ObjectTransitionTimes) (key phase : string) (t : Z) : ObjectTransitionTimes :=
  let times := match ott_times o !! key with
               | Some _ => ott_times o
               | None => <[key := ∅]> (ott_times o)
               end in
  mkObjectTransitionTimes (ott_name o) (alter (fun entry => <[phase := t]> entry) key times).

Definition OTT_Get (o : ObjectTransitionTimes) (key phase : string) : Z * bool :=
  match ott_times o !! key with
  | Some entry => match entry !! phase with Some val => (val, true) | None => (zeroTime, false) end
  | None => (zeroTime, false)
  end.

Definition OTT_Count (o : ObjectTransitionTimes) (phase : string) : Z :=
  fold_left (fun count '(_, entry) =>
      match (entry : gmap string Z) !! phase with Some _ => count + 1 | None => count end)
    (map_to_list (ott_times o)) 0.

Definition kt_le (a b : KeyTimestamp) : Prop := kt_Timestamp a <= kt_Timestamp b.
#[export] Instance kt_le_dec a b : Decision (kt_le a b).
Proof. unfold kt_le. apply _. Defined.
#[export] Instance kt_le_total : Total kt_le.
Proof. intros a b. unfold kt_le. lia. Qed.
#[export] Instance kt_le_trans : Transitive kt_le.
Proof. intros a b c. unfold kt_le. lia. Qed.

(** [visit]: the order in which [o.times] is ranged over. *)
Definition phase_keys (visit : list (string * gmap string Z)) (phase : string) : list KeyTimestamp :=
  omap (fun '(key, entry) => mkKeyTimestamp key <$> entry !! phase) visit.

Definition GetOrderedKeys (visit : list (string * gmap string Z)) (phase : string) : list KeyTimestamp :=
  merge_sort kt_le (phase_keys visit phase).

Definition KeyFilterFunc : Type := string -> bool.
Definition MatchAll : KeyFilterFunc := fun _ => true.

(** One iteration of the inner loop: the latency the entry contributes. *)
Definition entry_latency (transition : Transition) (filter : KeyFilterFunc)
    (e : string * gmap string Z) : option latencyData :=
  let '(key, transitionTimes) := e in
  if negb (filter key) then None
  else
    fromPhaseTime ← transitionTimes !! From transition;
    toPhaseTime ← transitionTimes !! To transition;
    let latencyTime := Time_Sub toPhaseTime fromPhaseTime in
    Some (mkLatencyData key (if latencyTime <? 0 then 0 else latencyTime)).

(** The body of the outer loop. [printLatencies] recomputes the metric of the
    same slice; its panics are those of [NewLatencyMetric]. *)
Definition transition_metric (transition : Transition) (filter : KeyFilterFunc)
    (visit : list (string * gmap string Z)) : option LatencyMetric :=
  NewLatencyMetric (sort_latencies (omap (entry_latency transition filter) visit)).

(** [visit name]: the order in which the iteration for transition [name]
    ranges over [o.times]; it may differ from one iteration to the next. *)
Definition CalculateTransitionsLatency (visit : string -> list (string * gmap string Z))
    (t : gmap string Transition) (filter : KeyFilterFunc) : option (gmap string LatencyMetric) :=
  list_to_map <$>
    mapM (fun '(name, transition) =>
        pair name <$> transition_metric transition filter (visit name))
      (map_to_list t).

(** ** metrics.go: the metric names of an API server version *)

Record Version := mkVersion { v_Major : string; v_Minor : string }.

Definition GetApiserverSLI (v : Version) : string :=
  if String.eqb (v_Major v) "1" && String.ltb (v_Minor v) "23" then "apiserver_request_duration_seconds"
  else if String.eqb (v_Major v) "1" && String.ltb (v_Minor v) "26" then "apiserver_request_slo_duration_seconds"
  else "apiserver_request_sli_duration_seconds".

Definition GetApiserverLatency (v : Version) : string :=
  if String.eqb (v_Major v) "1" && String.ltb (v_Minor v) "23"
  then "apiserver:apiserver_request_latency_1m:histogram_quantile"
  else if String.eqb (v_Major v) "1" && String.ltb (v_Minor v) "26"
  then "apiserver:apiserver_request_slo_latency_1m:histogram_quantile"
  else "apiserver:apiserver_request_sli_latency_1m:histogram_quantile".

(** ** The percentile index *)

Lemma percentile_index_exact n q :
  0 < n < 2 ^ 32 -> 0 < q <= 100 -> percentile_index n q = cdiv (n * q) 100 - 1.
Proof.
  intros Hn Hq. unfold percentile_index.
  rewrite (wrap64_id (n * q)) by nia. rewrite ceil_div_100_exact by nia.
  apply wrap64_id. unfold cdiv.
  pose proof (Z.div_mod (- (n * q)) 100 ltac:(lia)). pose proof (Z.mod_pos_bound (- (n * q)) 100). nia.
Qed.

Lemma cdiv_100_bounds n q :
  0 < n -> 0 < q <= 100 -> 1 <= cdiv (n * q) 100 <= n /\
    n * q <= 100 * cdiv (n * q) 100 /\ 100 * (cdiv (n * q) 100 - 1) < n * q.
Proof.
  intros Hn Hq. unfold cdiv.
  pose proof (Z.div_mod (- (n * q)) 100 ltac:(lia)). pose proof (Z.mod_pos_bound (- (n * q)) 100). nia.
Qed.

(** ** Nearest-rank percentiles *)

Definition count_le (t : Z) (l : list Z) : Z := Z.of_nat (length (filter (fun x => x <= t) l)).
Definition count_lt (t : Z) (l : list Z) : Z := Z.of_nat (length (filter (fun x => x < t) l)).

(** [p] is the [q]-th percentile of [l]: it is one of the values, at least
    [q] percent of the values are at most [p], and less than [q] percent are
    strictly below it. *)
Definition nearest_rank (q p : Z) (l : list Z) : Prop :=
  p ∈ l /\ q * Z.of_nat (length l) <= 100 * count_le p l /\
  100 * count_lt p l < q * Z.of_nat (length l).

Lemma count_le_perm t l k : l ≡ₚ k -> count_le t l = count_le t k.
Proof. intros Hp. unfold count_le. by rewrite Hp. Qed.

Lemma count_lt_perm t l k : l ≡ₚ k -> count_lt t l = count_lt t k.
Proof. intros Hp. unfold count_lt. by rewrite Hp. Qed.

Lemma nearest_rank_perm q p l k : l ≡ₚ k -> nearest_rank q p l -> nearest_rank q p k.
Proof.
  intros Hp. unfold nearest_rank. rewrite (count_le_perm _ _ _ Hp), (count_lt_perm _ _ _ Hp).
  by rewrite Hp.
Qed.

Lemma count_le_mono s t l : s <= t -> count_le s l <= count_le t l.
Proof.
  intros Hst. unfold count_le. induction l as [|x l IH]; [done|].
  rewrite !filter_cons. repeat case_decide; cbn [length]; lia.
Qed.

Lemma count_le_lt s t l : s < t -> count_le s l <= count_lt t l.
Proof.
  intros Hst. unfold count_le, count_lt. induction l as [|x l IH]; [done|].
  rewrite !filter_cons. repeat case_decide; cbn [length]; lia.
Qed.

(** A threshold on a percentile is a bound on a share of the values. *)
Lemma nearest_rank_threshold q p l t :
  nearest_rank q p l -> p <= t <-> q * Z.of_nat (length l) <= 100 * count_le t l.
Proof.
  intros (_ & Hle & Hlt). split; intros H.
  - pose proof (count_le_mono p t l H). lia.
  - destruct (decide (p <= t)) as [|Hn]; [done|].
    pose proof (count_le_lt t p l ltac:(lia)). lia.
Qed.

Lemma sorted_nearest_rank q l i p :
  StronglySorted Z.le l -> l !! i = Some p ->
  q * Z.of_nat (length l) <= 100 * Z.of_nat (S i) ->
  100 * Z.of_nat i < q * Z.of_nat (length l) ->
  nearest_rank q p l.
Proof.
  intros Hs Hi H1 H2. split; [by eapply list_elem_of_lookup_2|].
  rewrite <- (take_drop_middle l i p Hi) in Hs.
  apply StronglySorted_app in Hs as (Hto & _ & [_ Hr]%StronglySorted_inv).
  assert (Forall (fun x => x <= p) (take i l)) as Hl.
  { apply Forall_forall. intros x Hx. eapply Hto; [done|]. left. }
  assert (length (take i l) = i) as Hlen.
  { rewrite length_take. apply lookup_lt_Some in Hi. lia. }
  unfold count_le, count_lt. rewrite <- (take_drop_middle l i p Hi) at 2 3.
  rewrite !filter_app, !filter_cons. rewrite decide_True by lia. rewrite decide_False by lia.
  rewrite (filter_all _ (take i l)) by done.
  rewrite (filter_none (fun x => x < p) (drop (S i) l)); last first.
  { eapply Forall_impl; [exact Hr|]. cbn. lia. }
  pose proof (length_filter (fun x => x < p) (take i l)).
  rewrite !length_app. cbn [length]. lia.
Qed.

Lemma sort_latencies_sorted lag : StronglySorted Z.le (ld_latency <$> sort_latencies lag).
Proof.
  unfold sort_latencies. pose proof (StronglySorted_merge_sort ld_le lag) as Hs.
  induction Hs as [|x l _ IH Hx]; constructor; [done|].
  apply Forall_fmap. eapply Forall_impl; [exact Hx|]. intros y. apply ld_le_iff.
Qed.

Lemma percentile_nearest_rank lag q :
  StronglySorted Z.le (ld_latency <$> lag) -> 0 < Z.of_nat (length lag) < 2 ^ 32 -> 0 < q <= 100 ->
  exists p, percentile lag q = Some p /\ nearest_rank q p (ld_latency <$> lag).
Proof.
  intros Hs Hn Hq. unfold percentile. rewrite percentile_index_exact by done.
  destruct (cdiv_100_bounds (Z.of_nat (length lag)) q) as (Hc & Hlo & Hhi); [lia|done|].
  rewrite (proj2 (Z.ltb_ge _ _)) by lia.
  set (i := Z.to_nat (cdiv (Z.of_nat (length lag) * q) 100 - 1)).
  destruct (lookup_lt_is_Some_2 lag i) as [d Hd]; [lia|].
  exists (ld_latency d). rewrite Hd. split; [done|].
  apply sorted_nearest_rank with (i := i); [done|by rewrite list_lookup_fmap, Hd| |];
    rewrite length_fmap; lia.
Qed.

(** What [NewLatencyMetric] reports of a list of latencies. *)
Definition is_metric (m : LatencyMetric) (l : list Z) : Prop :=
  (l = [] -> m = mkLatencyMetric 0 0 0) /\
  (l <> [] -> nearest_rank 50 (Perc50 m) l /\ nearest_rank 90 (Perc90 m) l /\ nearest_rank 99 (Perc99 m) l).

Lemma is_metric_perm m l k : l ≡ₚ k -> is_metric m l -> is_metric m k.
Proof.
  intros Hp [H0 H1]. split.
  - intros ->. apply H0. by apply Permutation_nil_r.
  - intros Hk. destruct H1 as (? & ? & ?); [intros ->; by apply Permutation_nil_l in Hp|].
    split; [|split]; by eapply nearest_rank_perm.
Qed.

Lemma NewLatencyMetric_correct lag :
  StronglySorted Z.le (ld_latency <$> lag) -> Z.of_nat (length lag) < 2 ^ 32 ->
  exists m, NewLatencyMetric lag = Some m /\ is_metric m (ld_latency <$> lag).
Proof.
  intros Hs Hn. unfold NewLatencyMetric. destruct lag as [|d lag]; [by eexists|].
  assert (0 < Z.of_nat (length (d :: lag)) < 2 ^ 32) as Hn' by (cbn [length] in *; lia).
  destruct (percentile_nearest_rank (d :: lag) 50) as (p50 & -> & H50); [done..|].
  destruct (percentile_nearest_rank (d :: lag) 90) as (p90 & -> & H90); [done..|].
  destruct (percentile_nearest_rank (d :: lag) 99) as (p99 & -> & H99); [done..|].
  eexists. split; [reflexivity|]. split; [done|]. auto.
Qed.

(** ** The verdict on a metric *)

Definition share_within (q t : Z) (l : list Z) : Prop :=
  q * Z.of_nat (length l) <= 100 * count_le t l.

Lemma is_metric_within m l t50 t90 t99 :
  is_metric m l -> 0 <= t50 -> 0 <= t90 -> 0 <= t99 ->
  (Perc50 m <= t50 <-> share_within 50 t50 l) /\
  (Perc90 m <= t90 <-> share_within 90 t90 l) /\
  (Perc99 m <= t99 <-> share_within 99 t99 l).
Proof.
  intros [H0 H1] ???. unfold share_within. destruct l as [|x l].
  - rewrite H0 by done. unfold count_le. cbn. lia.
  - destruct H1 as (H50 & H90 & H99); [done|].
    split; [|split]; by apply nearest_rank_threshold.
Qed.

Lemma VerifyThresholdByPercentile_iff m l t50 t90 t99 :
  is_metric m l -> 0 <= t50 -> 0 <= t90 -> 0 <= t99 ->
  VerifyThresholdByPercentile m t50 t90 t99 = None <->
  share_within 50 t50 l /\ share_within 90 t90 l /\ share_within 99 t99 l.
Proof.
  intros Hm H1 H2 H3. destruct (is_metric_within m l t50 t90 t99 Hm H1 H2 H3) as (<- & <- & <-).
  unfold VerifyThresholdByPercentile.
  destruct (Z.ltb_spec t50 (Perc50 m)), (Z.ltb_spec t90 (Perc90 m)), (Z.ltb_spec t99 (Perc99 m));
    split; try done; lia.
Qed.

Lemma VerifyThreshold_iff m l t :
  is_metric m l -> 0 <= t -> VerifyThreshold m t = None <-> share_within 99 t l.
Proof.
  intros Hm Ht. change (VerifyThreshold m t) with (VerifyThresholdByPercentile m t t t).
  rewrite (VerifyThresholdByPercentile_iff m l) by done.
  unfold share_within. pose proof (Zle_0_nat (length l)). lia.
Qed.

(** ** Transition times *)

Lemma OTT_Get_true o key phase t :
  OTT_Get o key phase = (t, true) <-> exists e, ott_times o !! key = Some e /\ e !! phase = Some t.
Proof.
  unfold OTT_Get. destruct (ott_times o !! key) as [e|]; [|naive_solver].
  destruct (e !! phase) eqn:He; naive_solver.
Qed.

(** [d] is the latency of object [key] over the transition. *)
Definition latency_of (o : ObjectTransitionTimes) (tr : Transition) (filter : KeyFilterFunc)
    (key : string) (d : Z) : Prop :=
  filter key = true /\
  exists from to, OTT_Get o key (From tr) = (from, true) /\ OTT_Get o key (To tr) = (to, true) /\
    d = Z.max 0 (Time_Sub to from).

(** [s] lists every object that made the transition, once, with its latency. *)
Definition is_sample (o : ObjectTransitionTimes) (tr : Transition) (filter : KeyFilterFunc)
    (s : list (string * Z)) : Prop :=
  NoDup s.*1 /\ forall key d, (key, d) ∈ s <-> latency_of o tr filter key d.

Lemma entry_latency_Some tr flt key e x :
  entry_latency tr flt (key, e) = Some x <->
  flt key = true /\ exists from to, e !! From tr = Some from /\ e !! To tr = Some to /\
    x = mkLatencyData key (Z.max 0 (Time_Sub to from)).
Proof.
  cbn. destruct (flt key); cbn; [|naive_solver].
  destruct (e !! From tr) as [from|]; cbn; [|naive_solver].
  destruct (e !! To tr) as [to|]; cbn; [|naive_solver].
  assert ((if Time_Sub to from <? 0 then 0 else Time_Sub to from) = Z.max 0 (Time_Sub to from)) as ->.
  { destruct (Z.ltb_spec (Time_Sub to from) 0); lia. }
  naive_solver.
Qed.

Definition ld_pair (x : latencyData) : string * Z := (ld_key x, ld_latency x).

Lemma ld_key_entry_sublist tr flt visit :
  ld_key <$> omap (entry_latency tr flt) visit `sublist_of` visit.*1.
Proof.
  induction visit as [|[key e] visit IH]; [done|].
  cbn [omap list_omap]. destruct (entry_latency tr flt (key, e)) as [x|] eqn:Hx.
  - apply entry_latency_Some in Hx as (_ & from & to & _ & _ & ->). cbn. by apply sublist_skip.
  - cbn. by apply sublist_cons.
Qed.

Lemma entries_are_sample o tr flt visit :
  visit ≡ₚ map_to_list (ott_times o) ->
  is_sample o tr flt (ld_pair <$> omap (entry_latency tr flt) visit).
Proof.
  intros Hv. split.
  - rewrite <- list_fmap_compose. change (compose fst ld_pair) with ld_key.
    eapply sublist_NoDup; [|apply ld_key_entry_sublist].
    rewrite Hv. apply NoDup_fst_map_to_list.
  - intros key d. rewrite list_elem_of_fmap. unfold latency_of.
    setoid_rewrite list_elem_of_omap. setoid_rewrite OTT_Get_true. split.
    + intros (x & [= -> ->] & [k e] & Hin & Hx). rewrite Hv in Hin.
      apply elem_of_map_to_list in Hin.
      apply entry_latency_Some in Hx as (Hf & from & to & ? & ? & ->). cbn. naive_solver.
    + intros (Hf & from & to & (e & He & ?) & (e' & He' & ?) & ->). simplify_eq.
      exists (mkLatencyData key (Z.max 0 (Time_Sub to from))). split; [done|].
      exists (key, e). split; [rewrite Hv; by apply elem_of_map_to_list|].
      apply entry_latency_Some. naive_solver.
Qed.

Lemma transition_metric_correct o tr flt visit :
  visit ≡ₚ map_to_list (ott_times o) -> Z.of_nat (size (ott_times o)) < 2 ^ 32 ->
  exists m s, transition_metric tr flt visit = Some m /\ is_sample o tr flt s /\ is_metric m s.*2.
Proof.
  intros Hv Hn. unfold transition_metric. set (lag := omap (entry_latency tr flt) visit).
  assert (sort_latencies lag ≡ₚ lag) as Hp by apply merge_sort_Permutation.
  destruct (NewLatencyMetric_correct (sort_latencies lag)) as (m & -> & Hm).
  - apply sort_latencies_sorted.
  - rewrite Hp. pose proof (sublist_length _ _ (ld_key_entry_sublist tr flt visit)) as Hl.
    rewrite !length_fmap in Hl. fold lag in Hl.
    rewrite Hv, length_map_to_list in Hl. lia.
  - exists m, (ld_pair <$> lag). split; [done|]. split; [by apply entries_are_sample|].
    eapply is_metric_perm; [|exact Hm]. rewrite Hp, <- list_fmap_compose. done.
Qed.

Lemma CalculateTransitionsLatency_lookup visit t flt f :
  (forall name tr, t !! name = Some tr -> transition_metric tr flt (visit name) = Some (f name tr)) ->
  CalculateTransitionsLatency visit t flt = Some (map_imap (fun name tr => Some (f name tr)) t).
Proof.
  intros Hf. unfold CalculateTransitionsLatency.
  assert (mapM (fun '(name, transition) => pair name <$> transition_metric transition flt (visit name))
            (map_to_list t) = Some ((fun '(name, tr) => (name, f name tr)) <$> map_to_list t)) as ->.
  { apply mapM_Some. apply Forall2_fmap_r, Forall_Forall2_diag, Forall_forall.
    intros [name tr] Hin%elem_of_map_to_list. cbn. by rewrite (Hf _ _ Hin). }
  cbn. f_equal. apply map_eq. intros name. rewrite map_lookup_imap.
  destruct (t !! name) as [tr|] eqn:Ht; cbn.
  - apply elem_of_list_to_map_1.
    + rewrite <- list_fmap_compose. erewrite list_fmap_ext; [apply NoDup_fst_map_to_list|].
      by intros ? [].
    + apply list_elem_of_fmap. exists (name, tr). split; [done|]. by apply elem_of_map_to_list.
  - apply not_elem_of_list_to_map_1. rewrite list_elem_of_fmap. intros ([n x] & -> & Hin).
    apply list_elem_of_fmap in Hin as ([n' tr] & [= -> ->] & Hin%elem_of_map_to_list). cbn in *. congruence.
Qed.

Section Transitions.
Context (o : ObjectTransitionTimes) (visit : string -> list (string * gmap string Z)).
Hypothesis visit_times : forall name, visit name ≡ₚ map_to_list (ott_times o).
Hypothesis times_size : Z.of_nat (size (ott_times o)) < 2 ^ 32.

Lemma CalculateTransitionsLatency_total t flt :
  exists m, CalculateTransitionsLatency visit t flt = Some m /\
    forall name, match t !! name with
                 | None => m !! name = None
                 | Some tr => exists lm s, m !! name = Some lm /\ is_sample o tr flt s /\ is_metric lm s.*2
                 end.
Proof.
  pose (f name tr := default (mkLatencyMetric 0 0 0) (transition_metric tr flt (visit name))).
  assert (forall name tr, transition_metric tr flt (visit name) = Some (f name tr)) as Hf.
  { intros name tr. unfold f.
    by destruct (transition_metric_correct o tr flt (visit name)) as (m & s & -> & _). }
  eexists. split; [by apply CalculateTransitionsLatency_lookup|].
  intros name. rewrite map_lookup_imap. destruct (t !! name) as [tr|]; [|done].
  destruct (transition_metric_correct o tr flt (visit name)) as (m & s & Hm & Hs & Hms); [done..|].
  exists m, s. cbn. rewrite <- Hm, Hf. done.
Qed.

(** C25: the latency metrics are the nearest-rank percentiles of the observed
    latencies: whatever order the maps are ranged over in, and with the
    ranks computed in floating point, [CalculateTransitionsLatency] does not
    panic, reports a metric for exactly the given transitions, and its
    Perc50, Perc90 and Perc99 are the percentiles of the list that has each
    matching object with both phases recorded exactly once, with its
    non-negative latency (all zero when there is none). *)
Theorem transition_percentiles_correct t flt :
  exists m, CalculateTransitionsLatency visit t flt = Some m /\
    forall name, match t !! name with
                 | None => m !! name = None
                 | Some tr => exists lm s, m !! name = Some lm /\ is_sample o tr flt s /\ is_metric lm s.*2
                 end.
Proof. apply CalculateTransitionsLatency_total. Qed.

(** C26: the threshold checks decide the latency objective: for non-negative
    thresholds [VerifyThresholdByPercentile] passes exactly when at least 50,
    90 and 99 percent of the observed latencies are within the respective
    threshold, and [VerifyThreshold] exactly when 99 percent are within it. *)
Theorem latency_verdict_correct t flt name tr t50 t90 t99 :
  t !! name = Some tr -> 0 <= t50 -> 0 <= t90 -> 0 <= t99 ->
  exists m lm s, CalculateTransitionsLatency visit t flt = Some m /\ m !! name = Some lm /\
    is_sample o tr flt s /\
    (VerifyThresholdByPercentile lm t50 t90 t99 = None <->
       share_within 50 t50 s.*2 /\ share_within 90 t90 s.*2 /\ share_within 99 t99 s.*2) /\
    (VerifyThreshold lm t99 = None <-> share_within 99 t99 s.*2).
Proof.
  intros Ht H50 H90 H99. destruct (CalculateTransitionsLatency_total t flt) as (m & Hm & Hl).
  specialize (Hl name). rewrite Ht in Hl. destruct Hl as (lm & s & Hlm & Hs & His).
  exists m, lm, s. do 3 (split; [done|]).
  split; [by apply VerifyThresholdByPercentile_iff|by apply VerifyThreshold_iff].
Qed.
End Transitions.

(** ** The table of transition times *)

Lemma OTT_Set_lookup o key phase t :
  ott_times (OTT_Set o key phase t) !! key = Some (<[phase := t]> (default ∅ (ott_times o !! key))).
Proof.
  cbn. destruct (ott_times o !! key) as [e|] eqn:He; cbn.
  - by rewrite lookup_alter, decide_True, He.
  - by rewrite lookup_alter, decide_True, lookup_insert, decide_True.
Qed.

Lemma OTT_Get_Set o key phase t key' phase' :
  OTT_Get (OTT_Set o key phase t) key' phase' =
    if bool_decide (key = key' /\ phase = phase') then (t, true) else OTT_Get o key' phase'.
Proof.
  destruct (decide (key = key')) as [<-|Hk].
  - unfold OTT_Get. rewrite OTT_Set_lookup. destruct (decide (phase = phase')) as [<-|Hp].
    + rewrite lookup_insert, decide_True by done. by rewrite bool_decide_true.
    + rewrite lookup_insert_ne by done. rewrite bool_decide_false by naive_solver.
      by destruct (ott_times o !! key) as [e|].
  - rewrite bool_decide_false by naive_solver. unfold OTT_Get, OTT_Set. cbn.
    rewrite lookup_alter_ne by done. destruct (ott_times o !! key); [done|].
    by rewrite lookup_insert_ne.
Qed.

Lemma phase_keys_count (l : list (string * gmap string Z)) phase n :
  fold_left (fun count '(_, entry) =>
      match (entry : gmap string Z) !! phase with Some _ => count + 1 | None => count end) l n =
  n + Z.of_nat (length (phase_keys l phase)).
Proof.
  revert n. induction l as [|[k e] l IH]; intros n; [cbn; lia|].
  cbn [fold_left]. rewrite IH. unfold phase_keys. cbn [omap list_omap].
  destruct (e !! phase); cbn [fmap option_fmap option_map length]; lia.
Qed.

(** The keys with a phase, as [Count] counts them. *)
Definition phase_dom (o : ObjectTransitionTimes) (phase : string) : gset string :=
  dom (filter (fun p => is_Some (p.2 !! phase)) (ott_times o)).

Lemma elem_of_phase_dom o phase key : key ∈ phase_dom o phase <-> (OTT_Get o key phase).2 = true.
Proof.
  unfold phase_dom, OTT_Get. rewrite elem_of_dom. split.
  - intros [m Hm]. apply map_lookup_filter_Some in Hm as [-> [t Ht]]. cbn in Ht. by rewrite Ht.
  - destruct (ott_times o !! key) as [m|] eqn:Hm; [|done]. destruct (m !! phase) eqn:Ht; [|done]. intros _.
    exists m. apply map_lookup_filter_Some. split; [done|]. cbn. by rewrite Ht.
Qed.

Lemma OTT_Count_dom o phase : OTT_Count o phase = Z.of_nat (size (phase_dom o phase)).
Proof.
  unfold OTT_Count, phase_dom. rewrite phase_keys_count. rewrite size_dom. rewrite Z.add_0_l. f_equal.
  generalize (ott_times o) as m. clear. intros m.
  unfold phase_keys. induction m as [|k e m Hk IH] using map_ind.
  { rewrite map_filter_empty, map_to_list_empty, map_size_empty. done. }
  rewrite map_to_list_insert by done. cbn [omap list_omap]. destruct (e !! phase) as [t|] eqn:He.
  - rewrite map_filter_insert_True by (cbn; by rewrite He). rewrite map_size_insert_None by (apply map_lookup_filter_None; by left).
    cbn. by rewrite IH.
  - rewrite map_filter_insert_False by (cbn; rewrite He; by intros []). rewrite delete_id by done. cbn. by rewrite IH.
Qed.

(** The table of transition times: [Get] returns what the last [Set] of the
    same key and phase stored and is unaffected by other writes, and
    [GetOrderedKeys] lists exactly the keys with the phase recorded, each
    once with its time, in time order; [Count] is their number. *)
Theorem transition_times_correct o visit phase :
  visit ≡ₚ map_to_list (ott_times o) ->
  (forall key ph t key' ph', OTT_Get (OTT_Set o key ph t) key' ph' =
     if bool_decide (key = key' /\ ph = ph') then (t, true) else OTT_Get o key' ph') /\
  (forall key t, mkKeyTimestamp key t ∈ GetOrderedKeys visit phase <-> OTT_Get o key phase = (t, true)) /\
  NoDup (kt_Key <$> GetOrderedKeys visit phase) /\
  Sorted kt_le (GetOrderedKeys visit phase) /\
  OTT_Count o phase = Z.of_nat (length (GetOrderedKeys visit phase)).
Proof.
  intros Hv. assert (GetOrderedKeys visit phase ≡ₚ phase_keys visit phase) as Hp
    by apply merge_sort_Permutation.
  split; [intros; apply OTT_Get_Set|]. split; [|split; [|split]].
  - intros key t. rewrite Hp, OTT_Get_true. unfold phase_keys. rewrite list_elem_of_omap. split.
    + intros ([k e] & Hin & Hx). rewrite Hv, elem_of_map_to_list in Hin.
      destruct (e !! phase) eqn:He; [|done]. cbn in Hx. naive_solver.
    + intros (e & He & Ht). exists (key, e). rewrite Hv, elem_of_map_to_list. by rewrite Ht.
  - rewrite Hp. apply (sublist_NoDup _ visit.*1).
    + rewrite Hv. apply NoDup_fst_map_to_list.
    + clear. induction visit as [|[k e] l IH]; [done|]. unfold phase_keys. cbn [omap list_omap].
      destruct (e !! phase); cbn; [by apply sublist_skip|by apply sublist_cons].
  - apply Sorted_merge_sort, _.
  - unfold OTT_Count. rewrite phase_keys_count, Hp. unfold phase_keys. by rewrite Hv.
Qed.

(** The server version is compared as a string: minor version 9 sorts after
    26, so the metric names of a 1.9 server are those of 1.26 and later. *)
Lemma GetApiserverSLI_minor_9 :
  GetApiserverSLI (mkVersion "1" "9") = GetApiserverSLI (mkVersion "1" "26") /\
  GetApiserverSLI (mkVersion "1" "9") <> GetApiserverSLI (mkVersion "1" "10").
Proof. by vm_compute. Qed.

(** ** Witnesses: three pods, one of them not yet running *)

Definition ex_times : ObjectTransitionTimes :=
  OTT_Set (OTT_Set (OTT_Set (OTT_Set (OTT_Set (NewObjectTransitionTimes "t")
    "ns/a" "create" 0) "ns/a" "run" (3 * Second)) "ns/b" "create" (2 * Second))
    "ns/b" "run" Second) "ns/c" "create" (5 * Second).

Definition ex_transitions : gmap string Transition :=
  {[ "create_to_run" := mkTransition "create" "run" 0 ]}.

Example ex_metric :
  CalculateTransitionsLatency (fun _ => map_to_list (ott_times ex_times)) ex_transitions MatchAll =
  Some {[ "create_to_run" := mkLatencyMetric 0 (3 * Second) (3 * Second) ]}.
Proof. by vm_compute. Qed.

Example ex_duration :
  Duration_String (90 * Second + 500000000) = "1m30.5s" /\ Duration_String 1500000 = "1.5ms" /\
  Duration_String (-3600 * Second) = "-1h0m0s" /\ Duration_String 1001 = "1.001" +:+ micro_s.
Proof. by vm_compute. Qed.

Lemma transition_percentiles_correct_witness :
  exists m, CalculateTransitionsLatency (fun _ => map_to_list (ott_times ex_times)) ex_transitions MatchAll
    = Some m /\ m !! "create_to_run" <> None.
Proof.
  destruct (transition_percentiles_correct ex_times (fun _ => map_to_list (ott_times ex_times)))
    with (t := ex_transitions) (flt := MatchAll) as (m & Hm & Hl).
  - done.
  - by vm_compute.
  - exists m. split; [exact Hm|]. specialize (Hl "create_to_run"). cbn in Hl.
    destruct Hl as (lm & s & -> & _). done.
Defined.

Lemma latency_verdict_correct_witness :
  exists m lm s, CalculateTransitionsLatency (fun _ => map_to_list (ott_times ex_times)) ex_transitions MatchAll
    = Some m /\ m !! "create_to_run" = Some lm /\
    is_sample ex_times (mkTransition "create" "run" 0) MatchAll s /\
    (VerifyThreshold lm Second = None <-> share_within 99 Second s.*2).
Proof.
  destruct (latency_verdict_correct ex_times (fun _ => map_to_list (ott_times ex_times)))
    with (t := ex_transitions) (flt := MatchAll) (name := "create_to_run")
         (tr := mkTransition "create" "run" 0) (t50 := 0) (t90 := 0) (t99 := Second)
    as (m & lm & s & H1 & H2 & H3 & _ & H4); [done|by vm_compute|done|done|done|done|].
  exists m, lm, s. auto.
Defined.

Lemma transition_times_correct_witness :
  length (GetOrderedKeys (map_to_list (ott_times ex_times)) "create") = 3%nat /\
  OTT_Count ex_times "create" = Z.of_nat (length (GetOrderedKeys (map_to_list (ott_times ex_times)) "create")).
Proof.
  split; [by vm_compute|].
  apply (transition_times_correct ex_times (map_to_list (ott_times ex_times)) "create"). done.
Defined.
