(* ===== verification/PodStartup.v ===== *)
(** * The pod startup latency measurement
      (pkg/measurement/common/slos/pod_startup_latency.go,
      pkg/measurement/util/pods_metadata.go)

    Pod events are queued by the informer's handler and processed by a worker,
    which records when a pod was created, started and first seen running;
    [gather] adds the scheduling times from events, computes the transition
    latencies and compares pod startup with its thresholds.

    The work queue (client-go) is an interface with its documented behaviour;
    the informer, the listing of events and the JSON encoder are parameters.
    [None] is a panic. *)

From S2P Require Import Prelude GoErrors GoRuntime Params Measurement Float64 Latency.

(** ** pods_metadata.go *)

Record PodsMetadata := mkPodsMetadata { pm_name : string; pm_metadata : gmap string bool }.

Definition NewPodsMetadata (name : string) : PodsMetadata := mkPodsMetadata name ∅.

Definition SetStateless (o : PodsMetadata) (key : string) (stateless : bool) : PodsMetadata :=
  mkPodsMetadata (pm_name o) (<[key := stateless]> (pm_metadata o)).

Definition FilterStateless (o : PodsMetadata) (key : string) : bool :=
  match pm_metadata o !! key with Some stateless => stateless | None => false end.

Definition FilterStateful (o : PodsMetadata) (key : string) : bool := negb (FilterStateless o key).

(** ** Pods and events *)

Record Volume := mkVolume {
  vol_EmptyDir : bool; vol_DownwardAPI : bool; vol_ConfigMap : bool; vol_Secret : bool; vol_Projected : bool;
}.

(** [sp_Started]: per container status, [State.Running.StartedAt] if running. *)
Record SPod := mkSPod {
  sp_Namespace : string;
  sp_Name : string;
  sp_Phase : string;
  sp_CreationTimestamp : Z;
  sp_Started : list (option Z);
  sp_Volumes : list Volume;
}.

(** The object of an informer event: nil for a deletion, a pod, or another
    type, which the handler ignores. *)
Inductive eventObj := ObjNil | ObjPod (pod : SPod) | ObjOther.

Record eventData := mkEventData { ed_obj : eventObj; ed_recvTime : Z }.

(** A [corev1.Event] of the scheduler. *)
Record SchedEvent := mkSchedEvent {
  se_Namespace : string; se_Name : string; EventTime : Z; FirstTimestamp : Z;
}.

Definition createPhase : string := "create".
Definition schedulePhase : string := "schedule".
Definition runPhase : string := "run".
Definition watchPhase : string := "watch".
Definition podStartupLatencyMeasurementName : string := "PodStartupLatency".
Definition defaultPodStartupLatencyThreshold : Z := 5 * Second.
Definition defaultSchedulerName : string := "default-scheduler".

Definition createMetaNamespaceKey (namespace name : string) : string := namespace +:+ "/" +:+ name.

Definition isPodStateless (pod : SPod) : bool :=
  forallb (fun v => vol_EmptyDir v || vol_DownwardAPI v || vol_ConfigMap v || vol_Secret v || vol_Projected v)
    (sp_Volumes pod).

Definition pod_key (pod : SPod) : string := createMetaNamespaceKey (sp_Namespace pod) (sp_Name pod).

(** ** The measurement *)

Section Measurement.
Context {GL : GoLib} {MR : MapRange} {WQ : WorkQueue eventData}.
Context (PrettyPrintJSON : PerfData -> result string).

Record podStartupLatencyMeasurement := mkPodStartup {
  selector : ObjectSelector;
  isRunning : bool;
  stopCh : chan_state;
  eventQueue : queue;
  podStartupEntries : ObjectTransitionTimes;
  podMetadata : PodsMetadata;
  threshold : Z;
  perc50Threshold : Z;
  perc90Threshold : Z;
  perc99Threshold : Z;
  mapEventsByOrder : bool;
}.

Definition createPodStartupLatencyMeasurement : podStartupLatencyMeasurement :=
  mkPodStartup NewObjectSelector false ChanNil NewTyped
    (NewObjectTransitionTimes podStartupLatencyMeasurementName)
    (NewPodsMetadata podStartupLatencyMeasurementName) 0 0 0 0 false.

Definition with_queue (p : podStartupLatencyMeasurement) (q : queue) :=
  mkPodStartup (selector p) (isRunning p) (stopCh p) q (podStartupEntries p) (podMetadata p)
    (threshold p) (perc50Threshold p) (perc90Threshold p) (perc99Threshold p) (mapEventsByOrder p).

Definition with_data (p : podStartupLatencyMeasurement) (e : ObjectTransitionTimes) (m : PodsMetadata) :=
  mkPodStartup (selector p) (isRunning p) (stopCh p) (eventQueue p) e m
    (threshold p) (perc50Threshold p) (perc90Threshold p) (perc99Threshold p) (mapEventsByOrder p).

Definition with_settings (p : podStartupLatencyMeasurement) (sel : ObjectSelector) (t t50 t90 t99 : Z) (b : bool) :=
  mkPodStartup sel (isRunning p) (stopCh p) (eventQueue p) (podStartupEntries p) (podMetadata p) t t50 t90 t99 b.

(** [addEvent], called by the informer for every change. *)
Definition addEvent (p : podStartupLatencyMeasurement) (obj : eventObj) (now : Z) :=
  with_queue p (queue_Add (eventQueue p) (mkEventData obj now)).

(** The latest start among the running containers; zero when none runs. *)
Definition latest_start (pod : SPod) : Z :=
  fold_left (fun startTime cs =>
      match cs with
      | Some startedAt => if startTime <? startedAt then startedAt else startTime
      | None => startTime
      end) (sp_Started pod) zeroTime.

Definition record_running (entries : ObjectTransitionTimes) (key : string) (pod : SPod) (recvTime : Z)
  : ObjectTransitionTimes :=
  let entries := OTT_Set entries key watchPhase recvTime in
  let entries := OTT_Set entries key createPhase (sp_CreationTimestamp pod) in
  let startTime := latest_start pod in
  if startTime =? zeroTime then entries else OTT_Set entries key runPhase startTime.

Definition processEvent (p : podStartupLatencyMeasurement) (event : eventData) : podStartupLatencyMeasurement :=
  match ed_obj event with
  | ObjNil | ObjOther => p
  | ObjPod pod =>
      let key := pod_key pod in
      let meta := SetStateless (podMetadata p) key (isPodStateless pod) in
      let entries :=
        if String.eqb (sp_Phase pod) "Running" then
          match OTT_Get (podStartupEntries p) key createPhase with
          | (_, true) => podStartupEntries p
          | (_, false) => record_running (podStartupEntries p) key pod (ed_recvTime event)
          end
        else podStartupEntries p in
      with_data p entries meta
  end.

(** One call of [processNextWorkItem]; [None] while it blocks. *)
Definition processNextWorkItem (p : podStartupLatencyMeasurement)
  : option (bool * podStartupLatencyMeasurement) :=
  match queue_Get (eventQueue p) with
  | Blocks => None
  | Quit => Some (false, p)
  | Item event q => Some (true, processEvent (with_queue p q) event)
  end.

(** [synced]: the result of [StartAndSync]. *)
Definition start (p : podStartupLatencyMeasurement) (synced : option error)
  : podStartupLatencyMeasurement * option error :=
  if isRunning p then (p, None)
  else
    (mkPodStartup (selector p) true ChanOpen (eventQueue p) (podStartupEntries p) (podMetadata p)
       (threshold p) (perc50Threshold p) (perc90Threshold p) (perc99Threshold p) (mapEventsByOrder p),
     synced).

(** Closing a nil or closed channel panics. *)
Definition stop (p : podStartupLatencyMeasurement) : option podStartupLatencyMeasurement :=
  if isRunning p then
    match stopCh p with
    | ChanOpen =>
        Some (mkPodStartup (selector p) false ChanClosed (queue_ShutDown (eventQueue p))
                (podStartupEntries p) (podMetadata p) (threshold p) (perc50Threshold p)
                (perc90Threshold p) (perc99Threshold p) (mapEventsByOrder p))
    | ChanNil | ChanClosed => None
    end
  else Some p.

Definition Dispose (p : podStartupLatencyMeasurement) : option podStartupLatencyMeasurement := stop p.

(** ** gather *)

Definition podStartupTransitions : gmap string Transition :=
  {[ "create_to_schedule" := mkTransition createPhase schedulePhase 0;
     "schedule_to_run" := mkTransition schedulePhase runPhase 0;
     "run_to_watch" := mkTransition runPhase watchPhase 0;
     "schedule_to_watch" := mkTransition schedulePhase watchPhase 0;
     "pod_startup" := mkTransition createPhase watchPhase 0 ]}.

Definition podStartupTransitionsWithThreshold (threshold : Z) : gmap string Transition :=
  alter (fun tr => mkTransition (From tr) (To tr) threshold) "pod_startup" podStartupTransitions.

(** The time of a scheduling event. *)
Definition event_time (e : SchedEvent) : Z :=
  if EventTime e =? zeroTime then FirstTimestamp e else EventTime e.

Definition event_key (e : SchedEvent) : string := createMetaNamespaceKey (se_Namespace e) (se_Name e).

Definition ev_le (a b : SchedEvent) : Prop := event_time a <= event_time b.
#[export] Instance ev_le_dec a b : Decision (ev_le a b).
Proof. unfold ev_le. apply _. Defined.

Definition set_schedule (entries : ObjectTransitionTimes) (kt : string * Z) : ObjectTransitionTimes :=
  OTT_Set entries kt.1 schedulePhase kt.2.

(** The key and time each filtered event is recorded under: its own pod's, or,
    with [mapEventsByOrder], the pods and the events matched in time order. *)
Definition schedule_times (p : podStartupLatencyMeasurement) (filtered : list SchedEvent) : list (string * Z) :=
  if mapEventsByOrder p then
    let orderedCreates := GetOrderedKeys (range "GetOrderedKeys" (ott_times (podStartupEntries p))) createPhase in
    zip (kt_Key <$> orderedCreates) (event_time <$> merge_sort ev_le filtered)
  else (fun e => (event_key e, event_time e)) <$> filtered.

Definition tracked (p : podStartupLatencyMeasurement) (e : SchedEvent) : bool :=
  (OTT_Get (podStartupEntries p) (event_key e) createPhase).2.

Definition gatherScheduleTimes (p : podStartupLatencyMeasurement) (listed : result (list SchedEvent))
  : podStartupLatencyMeasurement * option error :=
  match listed with
  | Err err => (p, Some err)
  | Ok schedEvents =>
      let filtered := List.filter (tracked p) schedEvents in
      (with_data p (fold_left set_schedule (schedule_times p filtered) (podStartupEntries p)) (podMetadata p), None)
  end.

Definition checks (p : podStartupLatencyMeasurement) : list (string * KeyFilterFunc) :=
  [("", MatchAll); ("Stateless", FilterStateless (podMetadata p)); ("Stateful", FilterStateful (podMetadata p))].

Fixpoint check_loop (p : podStartupLatencyMeasurement) (identifier : string) (now : Z)
    (cs : list (string * KeyFilterFunc)) (summaries : list Summary) (err : option error)
  : option (list Summary * option error) :=
  match cs with
  | [] => Some (summaries, err)
  | (namePrefix, flt) :: rest =>
      let transitions := podStartupTransitionsWithThreshold (threshold p) in
      podStartupLatency ←
        CalculateTransitionsLatency
          (fun name => range (namePrefix +:+ name) (ott_times (podStartupEntries p))) transitions flt;
      metric ← podStartupLatency !! "pod_startup";
      let err := match VerifyThresholdByPercentile metric (perc50Threshold p) (perc90Threshold p) (perc99Threshold p) with
                 | Some slosErr => Some (NewMetricViolationError "pod startup" (Error slosErr))
                 | None => err
                 end in
      match PrettyPrintJSON (LatencyMapToPerfData (range namePrefix podStartupLatency)) with
      | Err jsonErr => Some ([], Some jsonErr)
      | Ok content =>
          let summaryName := Sprintf "%s%s_%s" [FStr namePrefix; FStr podStartupLatencyMeasurementName; FStr identifier] in
          check_loop p identifier now rest (summaries ++ [CreateSummary now summaryName "json" content]) err
      end
  end.

(** [listed]: the answer of the API server to the listing of events. [stop] closes
    the channel and does not wait for the worker, which may go on recording
    events; here the entries do not change while they are evaluated. *)
Definition gather (p : podStartupLatencyMeasurement) (listed : result (list SchedEvent))
    (identifier : string) (now : Z)
  : option (podStartupLatencyMeasurement * (list Summary * option error)) :=
  if negb (isRunning p) then
    Some (p, ([], Some (Errorf "metric %s has not been started" [AStr podStartupLatencyMeasurementName])))
  else
    p ← stop p;
    match gatherScheduleTimes p listed with
    | (p, Some err) => Some (p, ([], Some err))
    | (p, None) => pair p <$> check_loop p identifier now (checks p) [] None
    end.

(** ** Execute *)

(** Go assigns each field before it looks at the error. *)
Definition read_settings (p : podStartupLatencyMeasurement) (dict : params)
  : podStartupLatencyMeasurement * option error :=
  let '(sel, err) := Parse (selector p) dict in
  let p := with_settings p sel (threshold p) (perc50Threshold p) (perc90Threshold p) (perc99Threshold p) (mapEventsByOrder p) in
  if err is Some _ then (p, err) else
  let '(t, err) := GetDurationOrDefault dict "threshold" defaultPodStartupLatencyThreshold in
  let p := with_settings p sel t (perc50Threshold p) (perc90Threshold p) (perc99Threshold p) (mapEventsByOrder p) in
  if err is Some _ then (p, err) else
  let '(t50, err) := GetDurationOrDefault dict "perc50Threshold" t in
  let p := with_settings p sel t t50 (perc90Threshold p) (perc99Threshold p) (mapEventsByOrder p) in
  if err is Some _ then (p, err) else
  let '(t90, err) := GetDurationOrDefault dict "perc90Threshold" t in
  let p := with_settings p sel t t50 t90 (perc99Threshold p) (mapEventsByOrder p) in
  if err is Some _ then (p, err) else
  let '(t99, err) := GetDurationOrDefault dict "perc99Threshold" t in
  let p := with_settings p sel t t50 t90 t99 (mapEventsByOrder p) in
  if err is Some _ then (p, err) else
  let '(b, err) := GetBoolOrDefault dict "mapEventsByOrder" false in
  (with_settings p sel t t50 t90 t99 b, err).

(** [list_events]: the listing of the scheduler's events. *)
Definition Execute (p : podStartupLatencyMeasurement) (dict : params) (identifier : string)
    (synced : option error) (list_events : string -> result (list SchedEvent)) (now : Z)
  : option (podStartupLatencyMeasurement * (list Summary * option error)) :=
  match getString dict "action" with
  | (_, Some err) => Some (p, ([], Some err))
  | (action, None) =>
      if String.eqb action "start" then
        match read_settings p dict with
        | (p, Some err) => Some (p, ([], Some err))
        | (p, None) => let '(p, err) := start p synced in Some (p, ([], err))
        end
      else if String.eqb action "gather" then
        match GetStringOrDefault dict "schedulerName" defaultSchedulerName with
        | (_, Some err) => Some (p, ([], Some err))
        | (schedulerName, None) => gather p (list_events schedulerName) identifier now
        end
      else Some (p, ([], Some (Errorf "unknown action %v" [AStr action])))
  end.

(** ** Recording *)

Lemma record_running_get entries key pod recv key' ph :
  OTT_Get (record_running entries key pod recv) key' ph =
    if bool_decide (key = key') then
      if bool_decide (ph = runPhase /\ latest_start pod <> zeroTime) then (latest_start pod, true)
      else if bool_decide (ph = createPhase) then (sp_CreationTimestamp pod, true)
      else if bool_decide (ph = watchPhase) then (recv, true)
      else OTT_Get entries key' ph
    else OTT_Get entries key' ph.
Proof.
  unfold record_running. destruct (Z.eqb_spec (latest_start pod) zeroTime) as [Hz|Hz];
    rewrite !OTT_Get_Set; repeat case_bool_decide; naive_solver.
Qed.

(** The first event that shows the pod [key] running, with its arrival time. *)
Definition running_event (key : string) (e : eventData) : option (SPod * Z) :=
  match ed_obj e with
  | ObjPod pod => if bool_decide (pod_key pod = key /\ sp_Phase pod = "Running")
                  then Some (pod, ed_recvTime e) else None
  | _ => None
  end.

Definition first_running (key : string) (l : list eventData) : option (SPod * Z) :=
  head (omap (running_event key) l).

(** The phases recorded for a pod whose first running event is [f]. *)
Definition recorded (o : ObjectTransitionTimes) (key : string) (f : option (SPod * Z)) : Prop :=
  match f with
  | None => forall ph, (OTT_Get o key ph).2 = false
  | Some (pod, recv) =>
      OTT_Get o key createPhase = (sp_CreationTimestamp pod, true) /\
      OTT_Get o key watchPhase = (recv, true) /\
      OTT_Get o key runPhase =
        (if latest_start pod =? zeroTime then (zeroTime, false) else (latest_start pod, true)) /\
      (OTT_Get o key schedulePhase).2 = false
  end.

Lemma OTT_Get_false o key ph : (OTT_Get o key ph).2 = false -> OTT_Get o key ph = (zeroTime, false).
Proof. unfold OTT_Get. repeat case_match; naive_solver. Qed.

Lemma recorded_create o key f :
  recorded o key f -> (OTT_Get o key createPhase).2 = bool_decide (is_Some f).
Proof.
  destruct f as [[pod recv]|]; cbn; [intros [-> _]; done|]. intros H. by rewrite H.
Qed.

Definition data (p : podStartupLatencyMeasurement) : ObjectTransitionTimes * PodsMetadata :=
  (podStartupEntries p, podMetadata p).

Lemma processEvent_data p p' e : data p = data p' -> data (processEvent p e) = data (processEvent p' e).
Proof.
  unfold data, processEvent. intros [= He Hm]. destruct (ed_obj e); cbn; rewrite ?He, ?Hm; done.
Qed.

Lemma fold_processEvent_data l p p' :
  data p = data p' -> data (fold_left processEvent l p) = data (fold_left processEvent l p').
Proof.
  revert p p'. induction l as [|e l IH]; [done|]. intros p p' H. cbn. by apply IH, processEvent_data.
Qed.

Lemma processEvent_recorded p e key f :
  recorded (podStartupEntries p) key f ->
  recorded (podStartupEntries (processEvent p e)) key
    (match f with Some x => Some x | None => running_event key e end).
Proof.
  intros Hr. pose proof (recorded_create _ _ _ Hr) as Hc. unfold processEvent, running_event.
  destruct (ed_obj e) as [|pod|]; [by destruct f| |by destruct f]. cbn.
  destruct (String.eqb_spec (sp_Phase pod) "Running") as [Hrun|Hrun]; last first.
  { rewrite bool_decide_false by naive_solver. by destruct f. }
  destruct (decide (pod_key pod = key)) as [<-|Hk].
  - destruct (OTT_Get (podStartupEntries p) (pod_key pod) createPhase) as [t b]. cbn in Hc. subst b.
    destruct f as [x|]; [done|]. cbn. rewrite bool_decide_true by done. cbn in Hr.
    pose proof (OTT_Get_false _ _ _ (Hr runPhase)) as Hrr.
    unfold recorded. rewrite !record_running_get, !(bool_decide_true (pod_key pod = pod_key pod)), Hrr by done.
    specialize (Hr schedulePhase). destruct (Z.eqb_spec (latest_start pod) zeroTime);
      split_and!; repeat case_bool_decide; naive_solver.
  - rewrite bool_decide_false by naive_solver.
    destruct (OTT_Get (podStartupEntries p) (pod_key pod) createPhase) as [t []]; [by destruct f|].
    assert (forall ph, OTT_Get (record_running (podStartupEntries p) (pod_key pod) pod (ed_recvTime e)) key ph =
                       OTT_Get (podStartupEntries p) key ph) as Hsame.
    { intros ph. by rewrite record_running_get, bool_decide_false. }
    unfold recorded in *. destruct f as [[pod' recv']|]; [by rewrite !Hsame|].
    intros ph. by rewrite Hsame.
Qed.

Lemma processed_recorded l p key :
  recorded (podStartupEntries p) key None ->
  recorded (podStartupEntries (fold_left processEvent l p)) key (first_running key l).
Proof.
  intros H0. induction l as [|e l IH] using rev_ind; [done|].
  rewrite fold_left_app. cbn. unfold first_running. rewrite omap_app, head_app. fold (first_running key l).
  apply (processEvent_recorded _ e) in IH.
  destruct (first_running key l); [done|]. cbn.
  by destruct (running_event key e).
Qed.

(** The classification of a pod by the last event about it. *)
Definition pod_event (key : string) (e : eventData) : option bool :=
  match ed_obj e with
  | ObjPod pod => if bool_decide (pod_key pod = key) then Some (isPodStateless pod) else None
  | _ => None
  end.

Lemma processed_metadata l p key :
  pm_metadata (podMetadata (fold_left processEvent l p)) !! key =
  match last (omap (pod_event key) l) with Some b => Some b | None => pm_metadata (podMetadata p) !! key end.
Proof.
  induction l as [|e l IH] using rev_ind; [done|].
  rewrite fold_left_app, omap_app. cbn. unfold processEvent at 1, pod_event at 2.
  destruct (ed_obj e) as [|pod|]; cbn; rewrite ?app_nil_r; [done| |done].
  case_bool_decide as Hk.
  - subst key. by rewrite lookup_insert, decide_True, last_snoc.
  - by rewrite lookup_insert_ne, app_nil_r.
Qed.

(** ** The queue *)

(** The informer adds events and the worker consumes them, in any order;
    [msteps p added p'] collects what was added. *)
Inductive msteps : podStartupLatencyMeasurement -> list eventData -> podStartupLatencyMeasurement -> Prop :=
| msteps_refl p : msteps p [] p
| msteps_add p obj now added p' :
    msteps (addEvent p obj now) added p' -> msteps p (mkEventData obj now :: added) p'
| msteps_work p p1 added p' :
    processNextWorkItem p = Some (true, p1) -> msteps p1 added p' -> msteps p added p'.

(** With a live queue nothing is lost or reordered. *)
Lemma msteps_live p added p' :
  msteps p added p' -> shutting_down (eventQueue p) = false ->
  exists processed, processed ++ pending (eventQueue p') = pending (eventQueue p) ++ added /\
    data p' = data (fold_left processEvent processed p).
Proof.
  induction 1 as [p|p obj now added p' _ IH|p p1 added p' Hw _ IH]; intros Hd.
  - exists []. by rewrite app_nil_r.
  - destruct (Add_spec (eventQueue p) (mkEventData obj now)) as [Hd' Hp]. rewrite Hd in Hp, Hd'.
    destruct (IH Hd') as (pr & Hpr & Hdata). exists pr. cbn in Hpr. rewrite Hp in Hpr. split.
    + rewrite Hpr, <- app_assoc. done.
    + rewrite Hdata. by apply fold_processEvent_data.
  - unfold processNextWorkItem in Hw. pose proof (Get_spec (eventQueue p)) as Hg.
    destruct (queue_Get (eventQueue p)) as [| |e q]; [done..|]. simplify_eq. destruct Hg as [Hp Hq].
    assert (eventQueue (processEvent (with_queue p q) e) = q) as Hqe
      by (unfold processEvent; by destruct (ed_obj e)).
    rewrite Hqe in IH. destruct (IH ltac:(congruence)) as (pr & Hpr & Hdata).
    exists (e :: pr). split; [by rewrite Hp, <- app_comm_cons, Hpr|].
    rewrite Hdata. cbn. apply fold_processEvent_data. by apply processEvent_data.
Qed.

(** A queue that is shut down and drained never delivers again. *)
Lemma msteps_dead p added p' :
  msteps p added p' -> shutting_down (eventQueue p) = true -> pending (eventQueue p) = [] ->
  data p' = data p.
Proof.
  induction 1 as [p|p obj now added p' _ IH|p p1 added p' Hw _ IH]; intros Hd Hp; [done| |].
  - destruct (Add_spec (eventQueue p) (mkEventData obj now)) as [Hd' Hp']. rewrite Hd in Hp', Hd'.
    rewrite IH; [done|done|]. cbn. congruence.
  - unfold processNextWorkItem in Hw. pose proof (Get_spec (eventQueue p)) as Hg.
    destruct (queue_Get (eventQueue p)) as [| |e q]; [done..|]. destruct Hg as [Hp' _]. congruence.
Qed.

(** C24: what the pod startup measurement observes: for any interleaving of
    the informer's deliveries with the worker, once the queue is drained each
    pod has, from the first event that shows it running, its creation time,
    the arrival time of that event and the latest start of its containers
    (later events change none of them), a pod never seen running has no
    phase recorded, and every pod is classified by the last event about it. *)
Theorem observed_pods_recorded p synced added p' key :
  p = (start createPodStartupLatencyMeasurement synced).1 ->
  msteps p added p' -> pending (eventQueue p') = [] ->
  recorded (podStartupEntries p') key (first_running key added) /\
  FilterStateless (podMetadata p') key = default false (last (omap (pod_event key) added)) /\
  FilterStateful (podMetadata p') key = negb (FilterStateless (podMetadata p') key).
Proof.
  intros -> Hs He. destruct NewTyped_spec as [Hp Hd].
  destruct (msteps_live _ _ _ Hs Hd) as (pr & Hpr & Hdata).
  rewrite He, app_nil_r in Hpr. cbn in Hpr. rewrite Hp in Hpr. cbn in Hpr. subst pr.
  unfold data in Hdata. injection Hdata as -> ->. split; [|split; [|done]].
  - apply processed_recorded. intros ph. done.
  - unfold FilterStateless. rewrite processed_metadata. cbn.
    by destruct (last (omap (pod_event key) added)).
Qed.

(** a measurement that was stopped cannot be started again: the second
    start succeeds, but its queue is still shut down, so once the old items
    are drained no event of the second run is ever recorded. *)
Theorem restarted_measurement_is_deaf p p1 p2 synced added p3 :
  stop p = Some p1 -> isRunning p = true -> pending (eventQueue p1) = [] ->
  start p1 synced = (p2, synced) -> msteps p2 added p3 ->
  podStartupEntries p3 = podStartupEntries p1 /\ podMetadata p3 = podMetadata p1 /\ isRunning p2 = true.
Proof.
  unfold stop. intros Hs Hr. rewrite Hr in Hs. destruct (stopCh p); [done| |done]. injection Hs as <-.
  cbn. intros Hp. unfold start. cbn. intros [= <-] Hm.
  apply msteps_dead in Hm as [= -> ->]; [done| |done]. cbn. apply ShutDown_spec.
Qed.

(** ** Scheduling times *)

Lemma set_schedule_frame l o key ph :
  ph <> schedulePhase -> OTT_Get (fold_left set_schedule l o) key ph = OTT_Get o key ph.
Proof.
  intros Hph. revert o. induction l as [|kt l IH]; [done|]. intros o. cbn. rewrite IH.
  unfold set_schedule. rewrite OTT_Get_Set, bool_decide_false; naive_solver.
Qed.

Definition known (o : ObjectTransitionTimes) (key : string) : Prop := is_Some (ott_times o !! key).

Lemma OTT_Set_dom o key ph t :
  known o key -> dom (ott_times (OTT_Set o key ph t)) = dom (ott_times o).
Proof. intros [e He]. unfold OTT_Set. cbn. rewrite He. apply dom_alter_L. Qed.

Lemma set_schedule_dom l o :
  Forall (fun kt => known o kt.1) l -> dom (ott_times (fold_left set_schedule l o)) = dom (ott_times o).
Proof.
  revert o. induction l as [|kt l IH]; [done|]. intros o [Hk Hl]%Forall_cons. cbn.
  assert (dom (ott_times (set_schedule o kt)) = dom (ott_times o)) as Hd by (by apply OTT_Set_dom).
  rewrite IH; [done|]. eapply Forall_impl; [exact Hl|]. unfold known. intros x Hx.
  apply elem_of_dom. rewrite Hd. by apply elem_of_dom.
Qed.

Lemma OTT_Get_known o key ph : (OTT_Get o key ph).2 = true -> known o key.
Proof. unfold OTT_Get, known. destruct (ott_times o !! key); [eauto|done]. Qed.

Lemma phase_keys_known o visit ph kt :
  visit ≡ₚ map_to_list (ott_times o) -> kt ∈ GetOrderedKeys visit ph -> known o (kt_Key kt).
Proof.
  intros Hv. unfold GetOrderedKeys. rewrite merge_sort_Permutation. unfold phase_keys.
  rewrite list_elem_of_omap. intros ([k e] & Hin & Hx). rewrite Hv, elem_of_map_to_list in Hin.
  destruct (e !! ph); [|done]. cbn in Hx. injection Hx as <-. by exists e.
Qed.

Lemma schedule_times_known p l :
  Forall (fun kt => known (podStartupEntries p) kt.1) (schedule_times p (List.filter (tracked p) l)).
Proof.
  apply Forall_forall. intros [key t]. unfold schedule_times. destruct (mapEventsByOrder p); cbn.
  - intros Hin%elem_of_zip_l. apply list_elem_of_fmap in Hin as (kt & -> & Hin).
    eapply phase_keys_known; [|exact Hin]. apply range_perm.
  - intros (e & [= -> ->] & Hin)%list_elem_of_fmap. apply list_elem_of_In, filter_In in Hin as [_ Ht].
    by apply OTT_Get_known in Ht.
Qed.

(** Scheduling times only add to pods already tracked. *)
Lemma gatherScheduleTimes_frame p l p' :
  gatherScheduleTimes p (Ok l) = (p', None) ->
  dom (ott_times (podStartupEntries p')) = dom (ott_times (podStartupEntries p)) /\
  forall key ph, ph <> schedulePhase ->
    OTT_Get (podStartupEntries p') key ph = OTT_Get (podStartupEntries p) key ph.
Proof.
  cbn. intros [= <-]. cbn. split.
  - apply set_schedule_dom, schedule_times_known.
  - intros key ph Hph. by apply set_schedule_frame.
Qed.

(** ** The verdict *)

(** The objective over the pods [flt] selects: 50, 90 and 99 percent of the
    times from creation to the first running event within the thresholds. *)
Definition meets_objective (o : ObjectTransitionTimes) (flt : KeyFilterFunc) (t50 t90 t99 : Z) : Prop :=
  exists s, is_sample o (mkTransition createPhase watchPhase 0) flt s /\
    share_within 50 t50 s.*2 /\ share_within 90 t90 s.*2 /\ share_within 99 t99 s.*2.

Lemma is_sample_unique o tr flt s s' : is_sample o tr flt s -> is_sample o tr flt s' -> s ≡ₚ s'.
Proof.
  intros [Hn H] [Hn' H']. apply NoDup_Permutation; [by eapply NoDup_fmap_1|by eapply NoDup_fmap_1|].
  intros [k d]. by rewrite H, H'.
Qed.

Lemma share_within_perm q t l k : l ≡ₚ k -> share_within q t l <-> share_within q t k.
Proof. intros Hp. unfold share_within. rewrite (count_le_perm _ _ _ Hp). by rewrite Hp. Qed.

Lemma meets_objective_ext o o' flt t50 t90 t99 :
  (forall key ph, ph <> schedulePhase -> OTT_Get o key ph = OTT_Get o' key ph) ->
  meets_objective o flt t50 t90 t99 <-> meets_objective o' flt t50 t90 t99.
Proof.
  intros H. unfold meets_objective, is_sample, latency_of. cbn.
  by setoid_rewrite H.
Qed.

Definition thresholds_ok (p : podStartupLatencyMeasurement) : Prop :=
  0 <= perc50Threshold p /\ 0 <= perc90Threshold p /\ 0 <= perc99Threshold p.

Definition passes (p : podStartupLatencyMeasurement) (flt : KeyFilterFunc) : Prop :=
  meets_objective (podStartupEntries p) flt (perc50Threshold p) (perc90Threshold p) (perc99Threshold p).

Lemma check_metric p flt loop :
  Z.of_nat (size (ott_times (podStartupEntries p))) < 2 ^ 32 -> thresholds_ok p ->
  exists lat metric,
    CalculateTransitionsLatency (fun name => range (loop +:+ name) (ott_times (podStartupEntries p)))
      (podStartupTransitionsWithThreshold (threshold p)) flt = Some lat /\
    lat !! "pod_startup" = Some metric /\
    (VerifyThresholdByPercentile metric (perc50Threshold p) (perc90Threshold p) (perc99Threshold p) = None
     <-> passes p flt).
Proof.
  intros Hn (H50 & H90 & H99).
  destruct (CalculateTransitionsLatency_total (podStartupEntries p)
              (fun name => range (loop +:+ name) (ott_times (podStartupEntries p)))
              (fun name => range_perm _ _ _) Hn (podStartupTransitionsWithThreshold (threshold p)) flt)
    as (lat & Hlat & Hl).
  specialize (Hl "pod_startup").
  change (podStartupTransitionsWithThreshold (threshold p) !! "pod_startup")
    with (Some (mkTransition createPhase watchPhase (threshold p))) in Hl.
  destruct Hl as (metric & s & Hm & Hs & Hms).
  change (is_sample (podStartupEntries p) (mkTransition createPhase watchPhase 0) flt s) in Hs.
  exists lat, metric. split; [done|]. split; [done|].
  rewrite (VerifyThresholdByPercentile_iff metric s.*2) by done. unfold passes. split.
  - intros Hw. exists s. split; [exact Hs|exact Hw].
  - intros (s' & Hs' & Hw).
    assert (s.*2 ≡ₚ s'.*2) as Hp by (apply fmap_Permutation; by eapply is_sample_unique).
    by rewrite !(share_within_perm _ _ _ _ Hp).
Qed.

Definition summary_name (identifier prefix : string) : string :=
  Sprintf "%s%s_%s" [FStr prefix; FStr podStartupLatencyMeasurementName; FStr identifier].

Lemma check_loop_correct p identifier now :
  (forall d, exists content, PrettyPrintJSON d = Ok content) ->
  Z.of_nat (size (ott_times (podStartupEntries p))) < 2 ^ 32 -> thresholds_ok p ->
  forall cs summaries err,
  exists ss err', check_loop p identifier now cs summaries err = Some (summaries ++ ss, err') /\
    SummaryName <$> ss = summary_name identifier <$> cs.*1 /\
    (err' = None <-> err = None /\ Forall (passes p) cs.*2) /\
    (forall e, err' = Some e -> err = Some e \/ IsMetricViolationError e = true).
Proof.
  intros Hjson Hn Ht. induction cs as [|[prefix flt] cs IH]; intros summaries err.
  { exists [], err. rewrite app_nil_r. cbn. naive_solver. }
  destruct (check_metric p flt prefix Hn Ht) as (lat & metric & Hlat & Hm & Hv).
  cbn [check_loop]. rewrite Hlat. cbn [mbind option_bind]. rewrite Hm. cbn [mbind option_bind].
  destruct (Hjson (LatencyMapToPerfData (range prefix lat))) as [content ->].
  match goal with |- context [check_loop p _ _ cs ?s ?e] => destruct (IH s e) as (ss & err' & -> & Hss & He & Hx) end.
  eexists (_ :: ss), err'. rewrite <- app_assoc. split; [reflexivity|].
  split; [cbn; by f_equal|]. rewrite fmap_cons, Forall_cons, <- Hv. cbn [snd].
  destruct (VerifyThresholdByPercentile metric _ _ _); (split; [rewrite He|]).
  - split; [by intros [? _]|by intros (_ & ? & _)].
  - intros x He'. right. destruct (Hx x He') as [[= <-]|Hv']; [done|exact Hv'].
  - tauto.
  - exact Hx.
Qed.

(** The stop channel of a running measurement is open. *)
Definition running_inv (p : podStartupLatencyMeasurement) : Prop :=
  isRunning p = true -> stopCh p = ChanOpen.

(** C11: the verdict of the pod startup measurement: on a running measurement
    whose listing of events and JSON encoding succeed, and while no further event
    is recorded, [gather] neither panics nor loses a summary, stops the
    measurement, and reports an error, a metric violation, exactly when among
    all, the stateless or the stateful pods of which both the creation and the
    running phase were recorded, less than 50, 90 or 99 percent were seen running
    within the respective threshold after their creation. Pods that were never
    seen running do not count, whatever their number. *)
Theorem gather_decides_objective p events identifier now :
  (forall d, exists content, PrettyPrintJSON d = Ok content) ->
  running_inv p -> isRunning p = true -> thresholds_ok p ->
  Z.of_nat (size (ott_times (podStartupEntries p))) < 2 ^ 32 ->
  exists p' summaries err,
    gather p (Ok events) identifier now = Some (p', (summaries, err)) /\ isRunning p' = false /\
    SummaryName <$> summaries = summary_name identifier <$> [""; "Stateless"; "Stateful"] /\
    (err = None <-> passes p MatchAll /\ passes p (FilterStateless (podMetadata p)) /\
                    passes p (FilterStateful (podMetadata p))) /\
    (forall e, err = Some e -> IsMetricViolationError e = true).
Proof.
  intros Hjson Hinv Hrun Hthr Hn. unfold gather, stop. rewrite Hrun, (Hinv Hrun). cbn [negb mbind option_bind].
  match goal with |- context [gatherScheduleTimes ?q _] => set (p1 := q) end.
  destruct (gatherScheduleTimes p1 (Ok events)) as [p2 oe] eqn:Hg.
  assert (oe = None) as -> by (cbn in Hg; congruence).
  destruct (gatherScheduleTimes_frame _ _ _ Hg) as [Hdom Hframe].
  assert (isRunning p2 = false /\ podMetadata p2 = podMetadata p /\ thresholds_ok p2 /\
          perc50Threshold p2 = perc50Threshold p /\ perc90Threshold p2 = perc90Threshold p /\
          perc99Threshold p2 = perc99Threshold p) as (Hr2 & Hm2 & Ht2 & E50 & E90 & E99).
  { cbn in Hg. injection Hg as <-. done. }
  destruct (check_loop_correct p2 identifier now Hjson) with (cs := checks p2) (summaries := @nil Summary)
    (err := @None error) as (ss & err & -> & Hss & He & Hx); [|done|].
  { rewrite <- size_dom, Hdom, size_dom. done. }
  exists p2, ss, err. split; [done|]. split; [done|]. split; [done|]. split; [|naive_solver].
  rewrite He. unfold checks. cbn [fmap list_fmap snd]. rewrite !Forall_cons, Hm2.
  unfold passes. rewrite E50, E90, E99.
  rewrite !(meets_objective_ext _ _ _ _ _ _ Hframe). naive_solver.
Qed.

(** The invariant holds initially and survives every operation, so stopping
    never closes a channel twice. *)
Lemma running_inv_create : running_inv createPodStartupLatencyMeasurement.
Proof. done. Qed.

Lemma stop_total p : running_inv p -> exists p', stop p = Some p' /\ running_inv p' /\ isRunning p' = false.
Proof.
  intros Hi. unfold stop, running_inv in *. destruct (isRunning p) eqn:Hr.
  - rewrite Hi by done. eexists. split; [reflexivity|]. done.
  - exists p. rewrite Hr. done.
Qed.

Lemma read_settings_running p dict :
  isRunning (read_settings p dict).1 = isRunning p /\ stopCh (read_settings p dict).1 = stopCh p.
Proof. unfold read_settings. repeat case_match; done. Qed.

Lemma start_inv p synced : running_inv p -> running_inv (start p synced).1.
Proof. unfold start. by destruct (isRunning p). Qed.

Lemma gather_not_running p listed identifier now :
  isRunning p = false -> gather p listed identifier now =
    Some (p, ([], Some (Errorf "metric %s has not been started" [AStr podStartupLatencyMeasurementName]))).
Proof. intros Hr. unfold gather. by rewrite Hr. Qed.

Lemma gather_inv p listed identifier now p' r :
  running_inv p -> gather p listed identifier now = Some (p', r) -> running_inv p' /\ isRunning p' = false.
Proof.
  intros Hi. destruct (isRunning p) eqn:Hr.
  - unfold gather. destruct (stop_total p Hi) as (q & -> & Hq & Hqr). rewrite Hr.
    cbn [negb mbind option_bind].
    assert (running_inv (gatherScheduleTimes q listed).1 /\ isRunning (gatherScheduleTimes q listed).1 = false)
      as [Hqi Hqn] by (by destruct listed).
    destruct (gatherScheduleTimes q listed) as [q' [err|]]; [by intros [= <- <-]|].
    destruct (check_loop q' identifier now (checks q') [] None); [|done]. by intros [= <- <-].
  - rewrite gather_not_running by done. by intros [= <- <-].
Qed.

Lemma Execute_inv p dict identifier synced list_events now p' r :
  running_inv p -> Execute p dict identifier synced list_events now = Some (p', r) -> running_inv p'.
Proof.
  intros Hi. unfold Execute. destruct (getString dict "action") as [action [err|]]; [by intros [= <- <-]|].
  destruct (String.eqb action "start").
  - destruct (read_settings_running p dict) as [H1 H2].
    assert (running_inv (read_settings p dict).1) as Hs by (unfold running_inv; by rewrite H1, H2).
    destruct (read_settings p dict) as [q [err|]]; [by intros [= <- <-]|].
    pose proof (start_inv q synced Hs) as Hst. destruct (start q synced). by intros [= <- <-].
  - destruct (String.eqb action "gather"); [|by intros [= <- <-]].
    destruct (GetStringOrDefault dict _ _) as [sn [err|]]; [by intros [= <- <-]|].
    intros Hg. by eapply gather_inv.
Qed.
End Measurement.

(** ** Witnesses *)

#[local] Existing Instances list_queue list_range.

Definition ex_pod (name phase : string) (created started : Z) : SPod :=
  mkSPod "ns" name phase created [Some started] [].

Definition ex_started : podStartupLatencyMeasurement := (start createPodStartupLatencyMeasurement None).1.

Definition ex_events : list eventData :=
  [mkEventData (ObjPod (ex_pod "a" "Pending" 0 zeroTime)) Second;
   mkEventData (ObjPod (ex_pod "a" "Running" 0 Second)) (2 * Second);
   mkEventData (ObjPod (ex_pod "a" "Running" 0 Second)) (9 * Second)].

Definition ex_worked : podStartupLatencyMeasurement :=
  with_queue (fold_left processEvent ex_events ex_started) ([], false).

Lemma ex_run : msteps ex_started ex_events ex_worked.
Proof.
  apply msteps_add, msteps_add. eapply msteps_work; [reflexivity|].
  apply msteps_add. do 2 (eapply msteps_work; [reflexivity|]). apply msteps_refl.
Defined.

Lemma observed_pods_recorded_witness :
  recorded (podStartupEntries ex_worked) "ns/a" (Some (ex_pod "a" "Running" 0 Second, 2 * Second)).
Proof.
  apply (observed_pods_recorded ex_started None ex_events ex_worked "ns/a"); [done|apply ex_run|done].
Defined.

Definition ex_stopped : podStartupLatencyMeasurement := default ex_worked (stop ex_worked).
Definition ex_restarted : podStartupLatencyMeasurement := (start ex_stopped None).1.

Lemma restarted_measurement_is_deaf_witness :
  exists p3, msteps ex_restarted [mkEventData (ObjPod (ex_pod "b" "Running" 0 Second)) Second] p3 /\
    podStartupEntries p3 = podStartupEntries ex_stopped.
Proof.
  eexists. split; [apply msteps_add, msteps_refl|].
  apply (restarted_measurement_is_deaf ex_worked ex_stopped ex_restarted None
    [mkEventData (ObjPod (ex_pod "b" "Running" 0 Second)) Second]);
    [reflexivity|reflexivity|reflexivity|reflexivity|]. apply msteps_add, msteps_refl.
Defined.

Definition ex_json (d : PerfData) : result string := Ok "{}".

Definition ex_configured : podStartupLatencyMeasurement :=
  with_settings ex_worked NewObjectSelector Second Second Second Second false.

(** Two seconds from creation to the first running event exceed one second. *)
Example ex_gather :
  match gather ex_json ex_configured (Ok []) "id" 0 with
  | Some (_, (summaries, Some err)) => length summaries = 3%nat /\ IsMetricViolationError err = true
  | _ => False
  end.
Proof. by vm_compute. Qed.

Lemma gather_decides_objective_witness :
  exists p' summaries err, gather ex_json ex_configured (Ok []) "id" 0 = Some (p', (summaries, err)) /\
    isRunning p' = false /\ length summaries = 3%nat.
Proof.
  destruct (gather_decides_objective ex_json ex_configured [] "id" 0) as (p' & ss & err & H1 & H2 & H3 & _).
  - by exists "{}".
  - by intros _.
  - done.
  - by split.
  - by vm_compute.
  - exists p', ss, err. split; [exact H1|]. split; [exact H2|].
    apply (f_equal length) in H3. rewrite !length_fmap in H3. exact H3.
Defined.
