(* ===== verification/Reporter.v ===== *)
(** * Step results and the test reporter (pkg/test/step_summary.go, simple_reporter.go)

    Substeps report from their own goroutines, under the lock of the
    [StepResult]: a run is a sequence of [AddSubStepResult]/[AddStepError] calls
    in completion order. Times are readings of a clock passed in. *)

From stdpp Require Import sorting.
From S2P Require Import Prelude GoErrors.

Record substepResult := mkSubstepResult {
  sub_name : string;
  sub_id : Z;
  sub_duration : Z;
  sub_err : ErrorList;
}.

Record StepResult := mkStepResult {
  sr_startTime : Z;
  sr_name : string;
  sr_err : ErrorList;
  sr_results : list substepResult;
}.

Definition NewStepResult (now : Z) (stepName : string) : StepResult :=
  mkStepResult now stepName (NewErrorList []) [].

Definition AddSubStepResult (s : StepResult) (now : Z) (name : string) (id : Z) (err : ErrorList)
  : StepResult :=
  let duration := now - sr_startTime s in
  mkStepResult (sr_startTime s) (sr_name s) (sr_err s)
    (sr_results s ++ [mkSubstepResult name id duration err]).

Definition AddStepError (s : StepResult) (errs : option ErrorList) : StepResult :=
  mkStepResult (sr_startTime s) (sr_name s) (Concat (sr_err s) errs) (sr_results s).

Definition getAllErrorsUnsafe (s : StepResult) : ErrorList :=
  fold_left (fun errList value => Concat errList (Some (sub_err value))) (sr_results s)
    (Concat (NewErrorList []) (Some (sr_err s))).

Definition GetAllErrors (s : StepResult) : ErrorList := getAllErrorsUnsafe s.

(** [sort.Slice] by id, in place. *)
Definition id_le (a b : substepResult) : Prop := sub_id a <= sub_id b.
#[export] Instance id_le_dec : RelDecision id_le.
Proof. intros a b. unfold id_le. apply _. Defined.

Definition sort_results (l : list substepResult) : list substepResult := merge_sort id_le l.

Definition getAllResults (s : StepResult) (now : Z) : StepResult * list substepResult :=
  let results := match sr_results s with
                 | [] => [mkSubstepResult (sr_name s) 0 (now - sr_startTime s) (getAllErrorsUnsafe s)]
                 | _ => []
                 end in
  let sorted := sort_results (sr_results s) in
  (mkStepResult (sr_startTime s) (sr_name s) (sr_err s) sorted,
   results ++ map (fun r => mkSubstepResult (sr_name s +:+ " " +:+ sub_name r) 0 (sub_duration r) (sub_err r))
                sorted).

(** ** The reporter *)
Inductive SpecState := SpecStatePassed | SpecStateFailed.

Record SpecSummary := mkSpecSummary {
  ComponentTexts : list string;
  spec_RunTime : Z;
  spec_State : SpecState;
  spec_Failure : option string;
}.

Record simpleReporter := mkReporter {
  testName : string;
  SuiteDescription : string;
  suiteStart : Z;
  NumberOfFailedSpecs : Z;
  suite_RunTime : Z;
  stepsSummaries : list SpecSummary;
  completed : list SpecSummary;      (* passed to junitReporter.SpecDidComplete *)
}.

Definition CreateSimpleReporter (testSuiteDescription : string) : simpleReporter :=
  mkReporter "" testSuiteDescription 0 0 0 [] [].

Definition SetTestName (str : simpleReporter) (name : string) : simpleReporter :=
  mkReporter name (SuiteDescription str) (suiteStart str) (NumberOfFailedSpecs str) (suite_RunTime str)
    (stepsSummaries str) (completed str).

Definition GetNumberOfFailedTestItems (str : simpleReporter) : Z := NumberOfFailedSpecs str.

Definition BeginTestSuite (str : simpleReporter) (now : Z) : simpleReporter :=
  mkReporter (testName str) (SuiteDescription str) now (NumberOfFailedSpecs str) (suite_RunTime str)
    (stepsSummaries str) (completed str).

Definition EndTestSuite (str : simpleReporter) (now : Z) : simpleReporter :=
  mkReporter (testName str) (SuiteDescription str) (suiteStart str) (NumberOfFailedSpecs str)
    (now - suiteStart str) (stepsSummaries str) (completed str).

Definition handleSummary (str : simpleReporter) (summary : SpecSummary) (errList : ErrorList)
  : simpleReporter * SpecSummary :=
  if IsEmpty errList then
    (str, mkSpecSummary (ComponentTexts summary) (spec_RunTime summary) SpecStatePassed (spec_Failure summary))
  else
    (mkReporter (testName str) (SuiteDescription str) (suiteStart str) (NumberOfFailedSpecs str + 1)
       (suite_RunTime str) (stepsSummaries str) (completed str),
     mkSpecSummary (ComponentTexts summary) (spec_RunTime summary) SpecStateFailed
       (Some (ErrorList_String errList))).

Definition ReportTestStepFinish (str : simpleReporter) (duration : Z) (stepName : string) (errList : ErrorList)
  : simpleReporter :=
  let summary := mkSpecSummary
    [SuiteDescription str; Sprintf "%s: %s" [FStr (testName str); FStr stepName]]
    duration SpecStatePassed None in
  let '(str1, summary1) := handleSummary str summary errList in
  mkReporter (testName str1) (SuiteDescription str1) (suiteStart str1) (NumberOfFailedSpecs str1)
    (suite_RunTime str1) (stepsSummaries str1 ++ [summary1]) (completed str1).

Definition ReportTestStep (str : simpleReporter) (result : StepResult) (now : Z) : simpleReporter :=
  fold_left (fun str r => ReportTestStepFinish str (sub_duration r) (sub_name r) (sub_err r))
    (getAllResults result now).2 str.

Definition ReportTestFinish (str : simpleReporter) (duration : Z) (testConfigPath : string)
  (errList : ErrorList) : simpleReporter :=
  let summary := mkSpecSummary
    [SuiteDescription str; Sprintf "%s overall (%s)" [FStr (testName str); FStr testConfigPath]]
    duration SpecStatePassed None in
  let '(str1, summary1) := handleSummary str summary errList in
  mkReporter (testName str1) (SuiteDescription str1) (suiteStart str1) (NumberOfFailedSpecs str1)
    (suite_RunTime str1) [] (completed str1 ++ summary1 :: stepsSummaries str1).

(** ** Completion order does not matter *)

(** What a goroutine of a step reports when it finishes. *)
Inductive event :=
| SubStepDone (now : Z) (name : string) (id : Z) (err : ErrorList)
| PhaseDone (errs : option ErrorList).

Definition record_event (s : StepResult) (e : event) : StepResult :=
  match e with
  | SubStepDone now name id err => AddSubStepResult s now name id err
  | PhaseDone errs => AddStepError s errs
  end.

Definition record_events (s : StepResult) (es : list event) : StepResult := fold_left record_event es s.

Definition event_errors (e : event) : list error :=
  match e with
  | SubStepDone _ _ _ err => errors err
  | PhaseDone errs => from_option errors [] errs
  end.

Definition event_substep (start : Z) (e : event) : option substepResult :=
  match e with
  | SubStepDone now name id err => Some (mkSubstepResult name id (now - start) err)
  | PhaseDone _ => None
  end.

Lemma record_events_results es s :
  sr_results (record_events s es) = sr_results s ++ omap (event_substep (sr_startTime s)) es /\
  sr_startTime (record_events s es) = sr_startTime s /\ sr_name (record_events s es) = sr_name s.
Proof.
  unfold record_events. revert s. induction es as [|e es IH]; intros s; cbn; [by rewrite app_nil_r|].
  destruct (IH (record_event s e)) as (-> & -> & ->). destruct e; cbn; [|done].
  by rewrite <- app_assoc.
Qed.

Lemma fold_Concat l e :
  errors (fold_left (fun errList value => Concat errList (Some (sub_err value))) l e) =
  errors e ++ concat (map (fun r => errors (sub_err r)) l).
Proof.
  revert e. induction l as [|r l IH]; intros e; cbn; [by rewrite app_nil_r|].
  rewrite IH. cbn. by rewrite <- app_assoc.
Qed.

Lemma getAllErrors_errors s :
  errors (GetAllErrors s) = errors (sr_err s) ++ concat (map (fun r => errors (sub_err r)) (sr_results s)).
Proof. unfold GetAllErrors, getAllErrorsUnsafe. by rewrite fold_Concat. Qed.

(** No error is lost or invented, whatever the order. *)
Lemma record_events_errors es s :
  errors (GetAllErrors (record_events s es)) ≡ₚ errors (GetAllErrors s) ++ concat (map event_errors es).
Proof.
  unfold record_events. revert s. induction es as [|e es IH]; intros s; cbn; [by rewrite app_nil_r|].
  rewrite IH. rewrite !getAllErrors_errors. destruct e as [now name id err|[errs|]]; cbn.
  - rewrite map_app, concat_app. cbn. rewrite app_nil_r. by rewrite !app_assoc.
  - rewrite <- !app_assoc. f_equiv. rewrite !app_assoc. f_equiv. apply Permutation_app_comm.
  - done.
Qed.

Lemma sort_results_perm l : sort_results l ≡ₚ l.
Proof. apply merge_sort_Permutation. Qed.

#[export] Instance id_le_total : Total id_le.
Proof. intros a b. unfold id_le. lia. Qed.
#[export] Instance id_le_trans : Transitive id_le.
Proof. intros a b c. unfold id_le. lia. Qed.

(** Sorting lists with distinct ids gives one result for all permutations. *)
Lemma sorted_unique (l1 l2 : list substepResult) :
  StronglySorted id_le l1 -> StronglySorted id_le l2 -> NoDup (sub_id <$> l1) -> l1 ≡ₚ l2 -> l1 = l2.
Proof.
  revert l2. induction l1 as [|a l1 IH]; intros l2 Hs1 Hs2 Hnd Hp.
  { by apply Permutation_nil in Hp. }
  destruct l2 as [|b l2]; [by apply Permutation_nil_r in Hp|].
  apply StronglySorted_inv in Hs1 as [Hs1 Ha], Hs2 as [Hs2 Hb].
  rewrite Forall_forall in Ha, Hb. cbn in Hnd. apply NoDup_cons in Hnd as [Hni Hnd].
  assert (a = b) as ->.
  { assert (b ∈ a :: l1) as [->|Hb1]%elem_of_cons by (rewrite Hp; set_solver); [done|].
    assert (a ∈ b :: l2) as [->|Ha2]%elem_of_cons by (rewrite <- Hp; set_solver); [done|].
    exfalso. apply Hni. apply list_elem_of_fmap. exists b. split; [|done].
    pose proof (Ha _ Hb1). pose proof (Hb _ Ha2). unfold id_le in *. lia. }
  f_equal. apply IH; [done..|]. by apply Permutation_cons_inv in Hp.
Qed.

Lemma sort_results_unique l1 l2 :
  NoDup (sub_id <$> l1) -> l1 ≡ₚ l2 -> sort_results l1 = sort_results l2.
Proof.
  intros Hnd Hp. apply sorted_unique; [apply (StronglySorted_merge_sort id_le)..| |].
  - by rewrite sort_results_perm.
  - by rewrite !sort_results_perm.
Qed.

(** The ids of the substeps a step started. *)
Definition event_ids (es : list event) : list Z :=
  omap (fun e => match e with SubStepDone _ _ id _ => Some id | PhaseDone _ => None end) es.

Lemma event_ids_results start es : sub_id <$> omap (event_substep start) es = event_ids es.
Proof. induction es as [|[now name id err|errs] es IH]; cbn; [done|by f_equal|done]. Qed.

(** A step of measurements only or of phases only, as validation guarantees. *)
Definition unmixed (es : list event) : Prop :=
  Forall (fun e => match e with SubStepDone _ _ _ _ => True | PhaseDone _ => False end) es \/
  Forall (fun e => match e with SubStepDone _ _ _ _ => False | PhaseDone _ => True end) es.

(** the report of a step does not depend on the order in which its goroutines
    finish. For two orders of the same events (substeps with distinct ids), the
    reported entries of a step of measurements are the same list, sorted by
    id, and the errors returned are the same up to order: in particular
    emptiness and the presence of a critical error agree. *)
Theorem step_report_order_independent start name now es es' :
  es ≡ₚ es' -> NoDup (event_ids es) ->
  let s := record_events (NewStepResult start name) es in
  let s' := record_events (NewStepResult start name) es' in
  (event_ids es <> [] -> (getAllResults s now).2 = (getAllResults s' now).2) /\
  errors (GetAllErrors s) ≡ₚ errors (GetAllErrors s') /\
  errors (GetAllErrors s) ≡ₚ concat (map event_errors es) /\
  IsEmpty (GetAllErrors s) = IsEmpty (GetAllErrors s') /\
  Has (GetAllErrors s) SCritical = Has (GetAllErrors s') SCritical.
Proof.
  intros Hp Hnd. cbn zeta.
  assert (errors (GetAllErrors (record_events (NewStepResult start name) es)) ≡ₚ
          errors (GetAllErrors (record_events (NewStepResult start name) es'))) as He.
  { rewrite !record_events_errors. by rewrite Hp. }
  assert (errs_equiv (GetAllErrors (record_events (NewStepResult start name) es))
            (GetAllErrors (record_events (NewStepResult start name) es'))) as Hq.
  { unfold errs_equiv. exact He. }
  split_and!; [|done|by rewrite record_events_errors|by rewrite Hq|by rewrite Hq].
  intros Hne. unfold getAllResults.
  destruct (record_events_results es (NewStepResult start name)) as (Hr & _ & Hn).
  destruct (record_events_results es' (NewStepResult start name)) as (Hr' & _ & Hn').
  cbn in Hr, Hr'. rewrite Hr, Hr', Hn, Hn'.
  assert (omap (event_substep start) es ≡ₚ omap (event_substep start) es') as Hpo by (by rewrite Hp).
  rewrite <- (sort_results_unique _ _ ltac:(by rewrite event_ids_results) Hpo).
  rewrite <- (event_ids_results start) in Hne.
  destruct (omap (event_substep start) es) as [|r rs] eqn:H1; [done|].
  destruct (omap (event_substep start) es') as [|r' rs']; [|done].
  by apply Permutation_nil_r in Hpo.
Qed.

Lemma step_report_order_independent_witness :
  let e1 := SubStepDone 5 "[00] - a" 0 (NewErrorList []) in
  let e2 := SubStepDone 4 "[01] - b" 1 (NewErrorList [ErrCritical]) in
  (getAllResults (record_events (NewStepResult 0 "s") [e1; e2]) 9).2 =
  (getAllResults (record_events (NewStepResult 0 "s") [e2; e1]) 9).2.
Proof.
  cbn zeta. eapply (step_report_order_independent 0 "s" 9).
  - apply Permutation_swap.
  - by apply (bool_decide_unpack _); vm_compute.
  - discriminate.
Defined.

(** ** Every failure is counted *)

Definition failed_results (l : list substepResult) : list substepResult :=
  filter (fun r => IsEmpty (sub_err r) = false) l.

Lemma failed_results_cons r l :
  failed_results (r :: l) = if IsEmpty (sub_err r) then failed_results l else r :: failed_results l.
Proof. unfold failed_results. rewrite filter_cons. by destruct (IsEmpty (sub_err r)). Qed.
#[local] Arguments failed_results : simpl never.

Lemma report_fold l str :
  let str' := fold_left (fun str r => ReportTestStepFinish str (sub_duration r) (sub_name r) (sub_err r)) l str in
  NumberOfFailedSpecs str' = NumberOfFailedSpecs str + Z.of_nat (length (failed_results l)) /\
  length (stepsSummaries str') = (length (stepsSummaries str) + length l)%nat /\
  completed str' = completed str.
Proof.
  revert str. induction l as [|r l IH]; intros str; cbn.
  { change (failed_results []) with (@nil substepResult). cbn. split_and!; try done; lia. }
  destruct (IH (ReportTestStepFinish str (sub_duration r) (sub_name r) (sub_err r))) as (-> & -> & ->).
  unfold ReportTestStepFinish, handleSummary. rewrite failed_results_cons.
  destruct (IsEmpty (sub_err r)); cbn; rewrite length_app; cbn; split_and!; try done; lia.
Qed.

Lemma concat_errors_nil (l : list substepResult) :
  concat (map (fun r => errors (sub_err r)) l) = [] <-> failed_results l = [].
Proof.
  induction l as [|r l IH]; [done|]. cbn. rewrite failed_results_cons.
  unfold IsEmpty. destruct (errors (sub_err r)); cbn; [exact IH|]. split; discriminate.
Qed.

Lemma failed_results_perm l l' : l ≡ₚ l' -> length (failed_results l) = length (failed_results l').
Proof. intros Hp. unfold failed_results. by rewrite Hp. Qed.

Lemma failed_results_rename f l :
  length (failed_results (map (fun r => mkSubstepResult (f r) 0 (sub_duration r) (sub_err r)) l)) =
  length (failed_results l).
Proof.
  induction l as [|r l IH]; [done|]. cbn [map]. rewrite !failed_results_cons. cbn [sub_err].
  by destruct (IsEmpty (sub_err r)); cbn; rewrite IH.
Qed.

Lemma phases_only_results start name es :
  Forall (fun e => match e with SubStepDone _ _ _ _ => False | PhaseDone _ => True end) es ->
  sr_results (record_events (NewStepResult start name) es) = [].
Proof.
  intros Hp. rewrite (proj1 (record_events_results es _)). cbn.
  induction Hp as [|[]]; done.
Qed.

Lemma measurements_only_err start name es :
  Forall (fun e => match e with SubStepDone _ _ _ _ => True | PhaseDone _ => False end) es ->
  sr_err (record_events (NewStepResult start name) es) = NewErrorList [].
Proof.
  unfold record_events. intros Hp.
  assert (forall s, sr_err (fold_left record_event es s) = sr_err s) as Hgen; [|apply Hgen].
  induction Hp as [|[] es Hx _ IH]; intros s; [done|by cbn; rewrite IH|done].
Qed.

Lemma step_failure_counted str start name now es :
  unmixed es ->
  let s := record_events (NewStepResult start name) es in
  let str' := ReportTestStep str s now in
  (NumberOfFailedSpecs str < NumberOfFailedSpecs str' <-> IsEmpty (GetAllErrors s) = false) /\
  (NumberOfFailedSpecs str' = NumberOfFailedSpecs str <-> IsEmpty (GetAllErrors s) = true) /\
  length (stepsSummaries str') =
    (length (stepsSummaries str) + Nat.max 1 (length (sr_results s)))%nat.
Proof.
  intros Hmix. cbn zeta. set (s := record_events (NewStepResult start name) es).
  unfold ReportTestStep. destruct (report_fold (getAllResults s now).2 str) as (-> & -> & _).
  assert ((length (failed_results (getAllResults s now).2) = 0)%nat <-> IsEmpty (GetAllErrors s) = true) as Hf.
  { rewrite IsEmpty_true_iff, getAllErrors_errors. unfold getAllResults. cbn [snd].
    destruct (sr_results s) as [|r rs] eqn:Hr.
    - cbn. rewrite app_nil_r, failed_results_cons. cbn [sub_err].
      pose proof (getAllErrors_errors s) as Hg. rewrite Hr in Hg. cbn in Hg. rewrite app_nil_r in Hg.
      rewrite <- Hg, <- IsEmpty_true_iff. unfold GetAllErrors.
      change (failed_results []) with (@nil substepResult).
      destruct (IsEmpty (getAllErrorsUnsafe s)); cbn; split; done.
    - cbn [app]. rewrite (failed_results_rename (fun r => sr_name s +:+ " " +:+ sub_name r)).
      rewrite (failed_results_perm _ _ (sort_results_perm _)). destruct Hmix as [Hm|Hm].
      + subst s. rewrite measurements_only_err by done. cbn [errors NewErrorList app].
        rewrite concat_errors_nil, length_zero_iff_nil. done.
      + subst s. rewrite phases_only_results in Hr by done. discriminate. }
  split_and!.
  - rewrite <- not_true_iff_false, <- Hf. lia.
  - rewrite <- Hf. lia.
  - unfold getAllResults. cbn [snd]. f_equal. rewrite length_app, length_map.
    rewrite (Permutation_length (sort_results_perm (sr_results s))). destruct (sr_results s); cbn; lia.
Qed.

(** a step that is all measurements or all phases (every validated step is)
    adds to the reporter's failure count exactly when it returned errors: the
    count grows by the number of failed substeps, so a step that failed can
    never be reported as passed nor a passed one as failed; and every substep
    (or the phase step itself) gets one entry in the report. *)
Theorem step_failure_is_reported str start name now es :
  unmixed es ->
  let s := record_events (NewStepResult start name) es in
  let str' := ReportTestStep str s now in
  (NumberOfFailedSpecs str < NumberOfFailedSpecs str' <-> IsEmpty (GetAllErrors s) = false) /\
  (NumberOfFailedSpecs str' = NumberOfFailedSpecs str <-> IsEmpty (GetAllErrors s) = true) /\
  length (stepsSummaries str') =
    (length (stepsSummaries str) + Nat.max 1 (length (sr_results s)))%nat.
Proof. apply step_failure_counted. Qed.

Lemma step_failure_is_reported_witness :
  let s := record_events (NewStepResult 0 "s")
             [SubStepDone 5 "a" 0 (NewErrorList [ErrCritical]); SubStepDone 6 "b" 1 (NewErrorList [])] in
  NumberOfFailedSpecs (CreateSimpleReporter "suite") <
  NumberOfFailedSpecs (ReportTestStep (CreateSimpleReporter "suite") s 9).
Proof.
  cbn zeta. eapply step_failure_is_reported.
  - left. repeat constructor.
  - reflexivity.
Defined.
