(* ===== verification/Dependency.v ===== *)
(** * Dependencies (pkg/dependency/{factory,manager}.go)

    Set up before the test's steps, torn down after them in reverse order. The
    implementations (DRA drivers and the like) are values of the interface
    [Dependency]; whether a set-up beats its deadline is the environment's
    choice. *)

From S2P Require Import Prelude GoErrors Params Api.

Record DependencyConfig := mkDependencyConfig {
  dcfg_Params : params;
  dcfg_Method : string;
  dcfg_ClusterVersion : string;
}.

(** The interface [Dependency] over a world [W], with instances [D] and
    constructors [F]. [SetupRace] is the select on the result of [Setup] and the
    deadline: [None] when the deadline comes first. *)
Class DependencyLib (W D F : Type) := {
  dep_createFunc : F -> W -> W * D;
  Setup : D -> DependencyConfig -> W -> W * option error;
  SetupRace : D -> DependencyConfig -> Z -> W -> W * option (option error);
  Teardown : D -> DependencyConfig -> W -> W * option error;
  dep_ServerVersion : W -> result string;
}.

Section Dependencies.
Context {W D F : Type} `{DependencyLib W D F}.

Record dependencyFactory := mkDependencyFactory {
  dep_createFuncs : gmap string F;
  RegisteredDependencies : gmap string bool;
}.

Definition newDependencyFactory : dependencyFactory := mkDependencyFactory ∅ ∅.

Definition dep_register (df : dependencyFactory) (methodName : string) (createFunc : F)
  : dependencyFactory * option error :=
  match dep_createFuncs df !! methodName with
  | Some _ => (df, Some (Errorf "dependency with method %v already exists" [AStr methodName]))
  | None =>
      (mkDependencyFactory (<[methodName := createFunc]> (dep_createFuncs df))
         (<[methodName := true]> (RegisteredDependencies df)), None)
  end.

Definition createDependency (df : dependencyFactory) (methodName : string) (w : W) : W * result D :=
  match dep_createFuncs df !! methodName with
  | None => (w, Err (Errorf "unknown dependency method %s" [AStr methodName]))
  | Some createFunc => let '(w', d) := dep_createFunc createFunc w in (w', Ok d)
  end.

Record dependencyInstance := mkDependencyInstance { di_Dependency : Dependency; di_dependency : D }.

Record dependencyManager := mkDependencyManager {
  dependencies : gmap string D;
  setupDependencies : list dependencyInstance;
}.

Definition CreateDependencyManager : dependencyManager := mkDependencyManager ∅ [].

Definition getDependencyInstance (df : dependencyFactory) (dm : dependencyManager) (methodName : string) (w : W)
  : dependencyManager * W * result D :=
  match dependencies dm !! methodName with
  | Some d => (dm, w, Ok d)
  | None =>
      match createDependency df methodName w with
      | (w', Err err) => (dm, w', Err err)
      | (w', Ok d) =>
          (mkDependencyManager (<[methodName := d]> (dependencies dm)) (setupDependencies dm), w', Ok d)
      end
  end.

(** [dep.Timeout.ToTimeDuration()] prints through the clock package. *)
Definition setupSingleDependency (df : dependencyFactory) (dm : dependencyManager) (dep : Dependency) (w : W)
  : dependencyManager * W * option error :=
  match getDependencyInstance df dm (dep_Method dep) w with
  | (dm1, w1, Err err) => (dm1, w1, Some err)
  | (dm1, w1, Ok d) =>
      match dep_ServerVersion w1 with
      | Err err => (dm1, w1, Some (Errorf "failed to get cluster version: %w" [AWrap err]))
      | Ok v =>
          let config := mkDependencyConfig (dep_Params dep) (dep_Method dep) v in
          let failed e := Some (Errorf "dependency %s setup failed: %w" [AStr (dep_Name dep); AWrap e]) in
          let '(w2, err) :=
            if 0 <? dep_Timeout dep then
              match SetupRace d config (dep_Timeout dep) w1 with
              | (w2, Some (Some e)) => (w2, failed e)
              | (w2, Some None) => (w2, None)
              | (w2, None) => (w2, Some (Errorf "dependency %s setup timed out after %v"
                                           [AStr (dep_Name dep); AInt (dep_Timeout dep)]))
              end
            else
              match Setup d config w1 with
              | (w2, Some e) => (w2, failed e)
              | (w2, None) => (w2, None)
              end in
          match err with
          | Some e => (dm1, w2, Some e)
          | None =>
              (mkDependencyManager (dependencies dm1) (setupDependencies dm1 ++ [mkDependencyInstance dep d]),
               w2, None)
          end
      end
  end.

Definition setup_one (df : dependencyFactory) (s : dependencyManager * W * ErrorList) (dep : Dependency)
  : dependencyManager * W * ErrorList :=
  let '(dm, w, errList) := s in
  let '(dm', w', err) := setupSingleDependency df dm dep w in
  (dm', w', match err with Some e => Append errList [e] | None => errList end).

Definition SetupDependencies (df : dependencyFactory) (dm : dependencyManager) (deps : list Dependency) (w : W)
  : dependencyManager * W * ErrorList :=
  fold_left (setup_one df) deps (dm, w, NewErrorList []).

Definition teardownDependencyInstance (inst : dependencyInstance) (w : W) : W * option error :=
  match dep_ServerVersion w with
  | Err err => (w, Some (Errorf "failed to get cluster version during teardown: %w" [AWrap err]))
  | Ok v =>
      let dep := di_Dependency inst in
      match Teardown (di_dependency inst) (mkDependencyConfig (dep_Params dep) (dep_Method dep) v) w with
      | (w', Some e) =>
          (w', Some (Errorf "dependency %s teardown failed: %w" [AStr (dep_Name dep); AWrap e]))
      | (w', None) => (w', None)
      end
  end.

(** [for i := len(dm.setupDependencies) - 1; i >= 0; i--] *)
Fixpoint teardown_loop (insts : list dependencyInstance) (n : nat) (w : W) (errList : ErrorList) : W * ErrorList :=
  match n with
  | O => (w, errList)
  | S i =>
      match insts !! i with
      | None => (w, errList)
      | Some inst =>
          let '(w', err) := teardownDependencyInstance inst w in
          teardown_loop insts i w' (match err with Some e => Append errList [e] | None => errList end)
      end
  end.

Definition TeardownDependencies (dm : dependencyManager) (w : W) : W * ErrorList :=
  teardown_loop (setupDependencies dm) (length (setupDependencies dm)) w (NewErrorList []).

(** ** Set-up and teardown *)

(** What each set-up of a sequence returned. *)
Fixpoint setup_trace (df : dependencyFactory) (deps : list Dependency) (dm : dependencyManager) (w : W)
  : list (Dependency * option error) :=
  match deps with
  | [] => []
  | dep :: deps' =>
      let '(dm', w', err) := setupSingleDependency df dm dep w in
      (dep, err) :: setup_trace df deps' dm' w'
  end.

(** The dependencies whose set-up succeeded, in order. *)
Definition set_up (trace : list (Dependency * option error)) : list Dependency :=
  omap (fun t => match t.2 with None => Some t.1 | Some _ => None end) trace.

Lemma getDependencyInstance_tracked df dm m w dm' w' r :
  getDependencyInstance df dm m w = (dm', w', r) -> setupDependencies dm' = setupDependencies dm.
Proof. unfold getDependencyInstance. repeat case_match; intros; by simplify_eq. Qed.

Lemma setupSingleDependency_tracked df dm dep w dm' w' err :
  setupSingleDependency df dm dep w = (dm', w', err) ->
  di_Dependency <$> setupDependencies dm' =
    (di_Dependency <$> setupDependencies dm) ++ match err with None => [dep] | Some _ => [] end.
Proof.
  unfold setupSingleDependency.
  destruct (getDependencyInstance df dm (dep_Method dep) w) as [[dm1 w1] [d|e]] eqn:Hg;
    apply getDependencyInstance_tracked in Hg; [|intros; simplify_eq; by rewrite Hg, app_nil_r].
  destruct (dep_ServerVersion w1) as [v|e]; [|intros; simplify_eq; by rewrite Hg, app_nil_r].
  match goal with |- context [let '(_, _) := ?x in _] => destruct x as [w2 [e|]] end; intros; simplify_eq.
  - by rewrite Hg, app_nil_r.
  - cbn. by rewrite fmap_app, Hg.
Qed.

Lemma SetupDependencies_spec df deps dm w errs :
  let '(dm', _, errs') := fold_left (setup_one df) deps (dm, w, errs) in
  di_Dependency <$> setupDependencies dm' =
    (di_Dependency <$> setupDependencies dm) ++ set_up (setup_trace df deps dm w) /\
  errors errs' = errors errs ++ omap snd (setup_trace df deps dm w).
Proof.
  revert dm w errs. induction deps as [|dep deps IH]; intros dm w errs; cbn.
  { by rewrite !app_nil_r. }
  destruct (setupSingleDependency df dm dep w) as [[dm1 w1] err] eqn:Hs.
  apply setupSingleDependency_tracked in Hs.
  specialize (IH dm1 w1 (match err with Some e => Append errs [e] | None => errs end)).
  destruct (fold_left (setup_one df) deps _) as [[dm2 w2] errs2]. destruct IH as [-> ->].
  rewrite Hs. unfold set_up. destruct err; cbn; by rewrite <- ?app_assoc, ?app_nil_r.
Qed.

Lemma setup_trace_deps df deps dm w : (setup_trace df deps dm w).*1 = deps.
Proof.
  revert dm w. induction deps as [|dep deps IH]; intros dm w; [done|]. cbn.
  destruct (setupSingleDependency df dm dep w) as [[dm1 w1] err]. cbn. by rewrite IH.
Qed.

(** The teardown loop is a fold over the reversed list. *)
Definition teardown_one (s : W * ErrorList) (inst : dependencyInstance) : W * ErrorList :=
  let '(w', err) := teardownDependencyInstance inst s.1 in
  (w', match err with Some e => Append s.2 [e] | None => s.2 end).

Lemma teardown_loop_fold insts n w errs :
  (n <= length insts)%nat ->
  teardown_loop insts n w errs = fold_left teardown_one (rev (take n insts)) (w, errs).
Proof.
  revert w errs. induction n as [|n IH]; intros w errs Hn; cbn [teardown_loop]; [by rewrite take_0|].
  destruct (lookup_lt_is_Some_2 insts n ltac:(lia)) as [inst Hi]. rewrite Hi.
  rewrite (take_S_r _ _ _ Hi), rev_app_distr. cbn [rev app fold_left]. unfold teardown_one at 2.
  cbn [fst snd]. destruct (teardownDependencyInstance inst w) as [w' err]. apply IH. lia.
Qed.

(** every dependency of the config is set up in order, a failure (or a missed
    deadline) not stopping the rest; each one ends either tracked or in the
    error list. [TeardownDependencies] then tears down exactly the tracked
    ones, each once, last set up first, going on after errors. *)
Theorem teardown_reverses_setup df deps w :
  let '(dm, w1, errs) := SetupDependencies df CreateDependencyManager deps w in
  let trace := setup_trace df deps CreateDependencyManager w in
  trace.*1 = deps /\
  di_Dependency <$> setupDependencies dm = set_up trace /\
  errors errs = omap snd trace /\
  (length (setupDependencies dm) + length (errors errs) = length deps)%nat /\
  exists order, di_Dependency <$> order = rev (set_up trace) /\
    forall w2, TeardownDependencies dm w2 = fold_left teardown_one order (w2, NewErrorList []).
Proof.
  pose proof (SetupDependencies_spec df deps CreateDependencyManager w (NewErrorList [])) as Hs.
  unfold SetupDependencies. destruct (fold_left (setup_one df) deps _) as [[dm w1] errs]. cbn in Hs.
  destruct Hs as [Ht He]. split_and!; [apply setup_trace_deps|done|done| |].
  - assert (length (di_Dependency <$> setupDependencies dm) = length (setupDependencies dm)) as <-
      by apply length_fmap.
    rewrite Ht, He. transitivity (length (setup_trace df deps CreateDependencyManager w)).
    + generalize (setup_trace df deps CreateDependencyManager w) as t. unfold set_up.
      induction t as [|[d [e|]] t IH]; cbn; [done|lia..].
    + rewrite <- (length_fmap fst), setup_trace_deps. done.
  - exists (rev (setupDependencies dm)). split; [rewrite <- Ht; apply map_rev|].
    intros w2. unfold TeardownDependencies. rewrite teardown_loop_fold by done. by rewrite firstn_all.
Qed.

(** A set-up that misses its deadline is reported and not tracked, so nothing
    tears it down although its goroutine may still be creating resources. *)
Lemma timed_out_setup_is_not_tracked df dep w d w1 v w2 :
  getDependencyInstance df CreateDependencyManager (dep_Method dep) w = (mkDependencyManager {[dep_Method dep := d]} [], w1, Ok d) ->
  dep_ServerVersion w1 = Ok v -> 0 < dep_Timeout dep ->
  SetupRace d (mkDependencyConfig (dep_Params dep) (dep_Method dep) v) (dep_Timeout dep) w1 = (w2, None) ->
  exists dm errs, SetupDependencies df CreateDependencyManager [dep] w = (dm, w2, errs) /\
    IsEmpty errs = false /\ forall w3, TeardownDependencies dm w3 = (w3, NewErrorList []).
Proof.
  intros Hg Hv Ht Hr. unfold SetupDependencies. cbn [fold_left]. unfold setup_one, setupSingleDependency.
  rewrite Hg, Hv, (proj2 (Z.ltb_lt _ _)) by lia. rewrite Hr. eexists _, _. done.
Qed.
End Dependencies.

Arguments dependencyFactory : clear implicits.
Arguments dependencyManager : clear implicits.

(** ** A library whose set-ups take their time *)

(** The world is a log of calls; a set-up named "slow" misses every deadline. *)
Definition logging_lib : DependencyLib (list string) string string :=
  {| dep_createFunc := fun f w => (w, f);
     Setup := fun d _ w => (w ++ ["setup " +:+ d], None);
     SetupRace := fun d _ _ w =>
       (w ++ ["setup " +:+ d], if String.eqb d "slow" then None else Some None);
     Teardown := fun d _ w => (w ++ ["teardown " +:+ d], None);
     dep_ServerVersion := fun _ => Ok "v1.30" |}.

Definition sample_dependencies : dependencyFactory string :=
  (dep_register (dep_register (dep_register newDependencyFactory "a" "a").1 "b" "b").1 "slow" "slow").1.


Example teardown_runs_in_reverse :
  let deps := [mkDependency "x" "a" 0 ∅; mkDependency "y" "slow" 5 ∅; mkDependency "z" "b" 5 ∅] in
  let '(dm, w, errs) := @SetupDependencies _ _ _ logging_lib sample_dependencies CreateDependencyManager deps [] in
  w = ["setup a"; "setup slow"; "setup b"] /\ length (errors errs) = 1%nat /\
  (@TeardownDependencies _ _ _ logging_lib dm w).1 =
    ["setup a"; "setup slow"; "setup b"; "teardown b"; "teardown a"].
Proof. vm_compute. done. Qed.
