(* ===== verification/Compile.v ===== *)
(** * Compiling a test (pkg/test/{modules,test}.go)

    Loading the config template, skipping and overwriting, flattening the
    modules it includes, defaulting and validating it. *)

From S2P Require Import Prelude GoErrors Params Api Validation Executor Modifier.

(** The template provider's two other readers: a module and a whole config. *)
Class TemplateLoader := {
  TemplateInto : string -> params -> result Module_;
  TemplateToConfig : string -> params -> result Config;
}.

(** The deprecated command line options read while compiling. *)
Record ClusterConfig := mkClusterConfig {
  cc_DeleteStaleNamespaces : bool;
  cc_DeleteAutomanagedNamespaces : bool;
}.

Section Compile.
Context `{TemplateProvider} `{TemplateLoader}.

Definition loadModule (moduleRef : ModuleRef) : result Module_ :=
  if String.eqb (mod_Path moduleRef) "" then
    Err (Errorf "path not set: %#v" [AStr (mod_Path moduleRef)])
  else
    let mapping := CloneMap templateMapping in
    let mapping := match mod_Params moduleRef with
                   | Some ps => CopyMap ps mapping
                   | None => mapping
                   end in
    match TemplateInto (mod_Path moduleRef) mapping with
    | Err err => Err (Errorf "error while processing module %#v: %w" [AStr (mod_Path moduleRef); AWrap err])
    | Ok module => Ok module
    end.

(** The loop of [flattenModuleSteps], [rec] being the recursive call on the steps
    of a loaded module. *)
Fixpoint flatten_loop (rec : list Step -> option (result (list Step))) (steps processed : list Step)
  : option (result (list Step)) :=
  match steps with
  | [] => Some (Ok processed)
  | step :: steps' =>
      if IsModule step then
        match loadModule (StepModule step) with
        | Err err => Some (Err err)
        | Ok module =>
            match rec (module_Steps module) with
            | None => None
            | Some (Err err) => Some (Err err)
            | Some (Ok inner) => flatten_loop rec steps' (processed ++ inner)
            end
        end
      else flatten_loop rec steps' (processed ++ [step])
  end.

(** [fuel] bounds the nesting of modules; [None] when it runs out. *)
Fixpoint flattenModuleSteps (fuel : nat) (unprocessedSteps : list Step) : option (result (list Step)) :=
  match fuel with
  | O => None
  | S fuel' => flatten_loop (flattenModuleSteps fuel') unprocessedSteps []
  end.

(** [filepath.Base] and [filepath.Dir] of the config path are arguments. *)
Definition CompileTestConfig (fuel : nat) (draw : nat -> nat) (m : simpleModifier) (cc : ClusterConfig)
  (RegisteredDependencies RegisteredMeasurements : gmap string bool)
  (IsNotExist : string -> bool) (cwd : string) (IsDNS1123Subdomain : string -> list string)
  (base dir : string) : option (outcome (option Config * ErrorList)) :=
  match TemplateToConfig base (CloneMap templateMapping) with
  | Err err => Some (Returns (None, NewErrorList [Errorf "config reading error: %v" [AErr err]]))
  | Ok testConfig =>
      match ChangeTest m testConfig with
      | Panics => Some Panics
      | Fails err => Some (Returns (None, NewErrorList [Errorf "config mutation error: %v" [AErr err]]))
      | Returns testConfig =>
          match flattenModuleSteps fuel (Steps testConfig) with
          | None => None
          | Some (Err err) =>
              Some (Returns (None, NewErrorList [Errorf "error flattening module steps: %w" [AWrap err]]))
          | Some (Ok steps) =>
              let testConfig := set_Steps testConfig steps in
              let ns := Namespace testConfig in
              let ns := mkNamespaceConfig (Number ns) (Prefix ns)
                (match DeleteStaleNamespaces ns with
                 | None => Some (cc_DeleteStaleNamespaces cc) | b => b end)
                (match DeleteAutomanagedNamespaces ns with
                 | None => Some (cc_DeleteAutomanagedNamespaces cc) | b => b end)
                (EnableExistingNamespaces ns) (DeleteNamespaceTimeout ns) in
              let testConfig := SetDefaults draw (set_Namespace testConfig ns) in
              match Validate RegisteredDependencies RegisteredMeasurements IsNotExist cwd IsDNS1123Subdomain dir testConfig with
              | Some err => Some (Returns (Some testConfig, err))
              | None => Some (Returns (Some testConfig, NewErrorList []))
              end
          end
      end
  end.

(** ** What flattening computes *)

(** The specification: a step that is no module stands for itself, a module for
    the flattened steps of what it loads. *)
Inductive flattens : list Step -> list Step -> Prop :=
| flattens_nil : flattens [] []
| flattens_step s ss out :
    IsModule s = false -> flattens ss out -> flattens (s :: ss) (s :: out)
| flattens_module s m ss inner out :
    IsModule s = true -> loadModule (StepModule s) = Ok m ->
    flattens (module_Steps m) inner -> flattens ss out -> flattens (s :: ss) (inner ++ out).

Lemma flatten_loop_sound rec steps acc out :
  (forall l o, rec l = Some (Ok o) -> flattens l o) ->
  flatten_loop rec steps acc = Some (Ok out) -> exists o, out = acc ++ o /\ flattens steps o.
Proof.
  intros Hrec. revert acc. induction steps as [|s steps IH]; intros acc; cbn.
  { intros [= <-]. exists []. rewrite app_nil_r. split; [done|constructor]. }
  destruct (IsModule s) eqn:Hm.
  - destruct (loadModule (StepModule s)) as [m|] eqn:Hl; [|done].
    destruct (rec (module_Steps m)) as [[inner|]|] eqn:Hr; try done.
    intros (o & -> & Ho)%IH. exists (inner ++ o). rewrite <- app_assoc. split; [done|].
    econstructor; eauto.
  - intros (o & -> & Ho)%IH. exists (s :: o). rewrite <- app_assoc. split; [done|by constructor].
Qed.

Lemma flattenModuleSteps_sound fuel steps out :
  flattenModuleSteps fuel steps = Some (Ok out) -> flattens steps out.
Proof.
  revert steps out. induction fuel as [|fuel IH]; intros steps out; cbn; [done|].
  intros Hf. apply flatten_loop_sound in Hf as (o & -> & Ho); [done|exact IH].
Qed.

Lemma flatten_loop_mono rec rec' steps acc r :
  (forall l r, rec l = Some r -> rec' l = Some r) ->
  flatten_loop rec steps acc = Some r -> flatten_loop rec' steps acc = Some r.
Proof.
  intros Hrec. revert acc. induction steps as [|s steps IH]; intros acc; cbn; [done|].
  destruct (IsModule s); [|apply IH].
  destruct (loadModule (StepModule s)) as [m|]; [|done].
  destruct (rec (module_Steps m)) as [r'|] eqn:Hr; [|done]. rewrite (Hrec _ _ Hr).
  destruct r'; [apply IH|done].
Qed.

Lemma flattenModuleSteps_mono f g steps r :
  (f <= g)%nat -> flattenModuleSteps f steps = Some r -> flattenModuleSteps g steps = Some r.
Proof.
  revert g steps r. induction f as [|f IH]; intros g steps r Hfg; [done|].
  destruct g as [|g]; [lia|]. cbn. apply flatten_loop_mono. intros l r'. apply IH. lia.
Qed.

(** What was collected so far does not matter to how the loop ends. *)
Lemma flatten_loop_acc rec steps acc acc' o :
  flatten_loop rec steps acc = Some (Ok o) -> exists o', flatten_loop rec steps acc' = Some (Ok o').
Proof.
  revert acc acc' o. induction steps as [|s steps IH]; intros acc acc' o; cbn; [eauto|].
  destruct (IsModule s); [|apply IH]. destruct (loadModule (StepModule s)) as [m|]; [|done].
  destruct (rec (module_Steps m)) as [[inner|]|]; try done. apply IH.
Qed.

Lemma flattenModuleSteps_complete steps out :
  flattens steps out -> exists fuel o, flattenModuleSteps fuel steps = Some (Ok o).
Proof.
  induction 1 as [|s ss out Hm _ (f & o & IH)|s m ss inner out Hm Hl _ (f1 & o1 & IH1) _ (f2 & o2 & IH2)].
  - by exists 1%nat, [].
  - destruct f as [|f]; [done|]. exists (S f). cbn in IH |- *. rewrite Hm. by eapply flatten_loop_acc.
  - destruct f2 as [|f2]; [done|]. exists (S (Nat.max f1 f2)). cbn in IH2 |- *. rewrite Hm, Hl.
    rewrite (flattenModuleSteps_mono f1 (Nat.max f1 f2) _ _ (Nat.le_max_l _ _) IH1). eapply flatten_loop_acc.
    eapply flatten_loop_mono; [|exact IH2]. intros l r. apply flattenModuleSteps_mono. lia.
Qed.

Lemma flattens_det steps o1 o2 : flattens steps o1 -> flattens steps o2 -> o1 = o2.
Proof.
  intros H1. revert o2. induction H1 as [|s ss out Hm _ IH|s m ss inner out Hm Hl _ IHi _ IHo]; intros o2 H2.
  - by inversion H2.
  - inversion H2; subst; [f_equal; auto|congruence].
  - inversion H2; subst; [congruence|]. f_equal; [apply IHi|by apply IHo]. congruence.
Qed.

Lemma flattens_no_modules steps out : flattens steps out -> Forall (fun s => IsModule s = false) out.
Proof.
  induction 1; [constructor|by constructor|]. by apply Forall_app.
Qed.

(** C29: [flattenModuleSteps] computes the flattening: it succeeds, for all large
    enough nesting bounds, exactly when every module reachable from the steps
    loads and the nesting is finite, and then yields the module steps replaced,
    in place and in order, by what they contain, so that no module step is
    left. *)
Theorem flattenModuleSteps_correct steps out :
  (flattens steps out <->
     exists fuel, forall f, (fuel <= f)%nat -> flattenModuleSteps f steps = Some (Ok out)) /\
  (flattens steps out -> Forall (fun s => IsModule s = false) out).
Proof.
  split; [split|apply flattens_no_modules].
  - intros Hf. destruct (flattenModuleSteps_complete _ _ Hf) as (fuel & o & Ho).
    exists fuel. intros f Hle. apply (flattenModuleSteps_mono _ f) in Ho; [|done]. rewrite Ho. do 2 f_equal.
    apply flattenModuleSteps_sound in Ho. by eapply flattens_det.
  - intros [fuel Hf]. by apply (flattenModuleSteps_sound fuel), Hf.
Qed.

(** a module that includes itself is never flattened: for no nesting bound does
    the recursion end, so the program overflows its stack instead of reporting
    an error. *)
Theorem recursive_module_diverges s m :
  IsModule s = true -> loadModule (StepModule s) = Ok m -> head (module_Steps m) = Some s ->
  forall fuel, flattenModuleSteps fuel [s] = None /\ ~ exists out, flattens [s] out.
Proof.
  intros Hm Hl Hh. destruct (module_Steps m) as [|s' rest] eqn:Hst; [done|]. cbn in Hh. simplify_eq.
  assert (forall fuel ss, flattenModuleSteps fuel (s :: ss) = None) as Hd.
  { induction fuel as [|fuel IH]; intros ss; [done|]. cbn. rewrite Hm, Hl, Hst. by rewrite IH. }
  intros fuel. split; [apply Hd|]. intros [out Ho].
  destruct (flattenModuleSteps_complete _ _ Ho) as (f & o & Hf). by rewrite Hd in Hf.
Qed.

(** C6: a config that compiles without errors is fit to run: it passed validation
    as it is, none of its steps is a module, every namespace pointer the
    executor dereferences is set, and each of its steps is either measurements
    or phases. *)
Theorem CompileTestConfig_ready fuel draw md cc deps meas IsNotExist cwd dns base dir c :
  CompileTestConfig fuel draw md cc deps meas IsNotExist cwd dns base dir = Some (Returns (Some c, NewErrorList [])) ->
  valid_config deps meas IsNotExist cwd dns dir c /\
  Forall (fun s => IsModule s = false) (Steps c) /\
  namespace_complete (Namespace c) /\
  Forall (fun s => IsMeasurement s = negb (IsPhase s)) (Steps c).
Proof.
  unfold CompileTestConfig. destruct (TemplateToConfig _ _) as [c0|]; [|done].
  destruct (ChangeTest md c0) as [c1| |]; try done.
  destruct (flattenModuleSteps fuel (Steps c1)) as [[steps|]|] eqn:Hf; try done. cbn zeta.
  match goal with |- context [SetDefaults draw ?x] => set (c2 := x) end.
  destruct (Validate _ _ _ _ _ _ (SetDefaults draw c2)) as [e|] eqn:Hv.
  { intros [= _ He]. exfalso. subst e. by apply Validate_Some_errors in Hv as [_ ?]. }
  intros [= <-]. apply Validate_None_iff in Hv. split; [done|]. split_and!.
  - apply flattenModuleSteps_sound, flattens_no_modules in Hf. rewrite SetDefaults_Steps. exact Hf.
  - apply SetDefaults_complete.
  - apply Forall_forall. intros s Hs. by eapply valid_step_exclusive.
Qed.
End Compile.

(** ** A loader with a config, a module and a module that includes itself *)
Definition module_step (path : string) : Step := mkStep [] [] (mkModuleRef path None) "".

Definition sample_loader : TemplateLoader :=
  {| TemplateInto := fun path _ =>
       if String.eqb path "loop.yaml" then Ok (mkModule [module_step "loop.yaml"])
       else if String.eqb path "module.yaml" then Ok (mkModule (Steps sample_config))
       else Err (External "no such file");
     TemplateToConfig := fun _ _ => Ok (set_Steps sample_config [module_step "module.yaml"]) |}.

Lemma recursive_module_diverges_witness :
  @flattenModuleSteps sample_provider sample_loader 100 [module_step "loop.yaml"] = None.
Proof.
  apply (@recursive_module_diverges sample_provider sample_loader (module_step "loop.yaml")
           (mkModule [module_step "loop.yaml"])).
  all: vm_compute; reflexivity.
Defined.

Definition sample_compile : option (outcome (option Config * ErrorList)) :=
  @CompileTestConfig sample_provider sample_loader 3 (fun _ => 0%nat) (mkModifier [] [])
    (mkClusterConfig false true) ∅ sample_registry (fun _ => false) "/" (fun _ => []) "config.yaml" "dir".

Lemma CompileTestConfig_ready_witness :
  exists c, sample_compile = Some (Returns (Some c, NewErrorList [])) /\
    Forall (fun s => IsModule s = false) (Steps c) /\ length (Steps c) = 2%nat.
Proof.
  eexists. split; [vm_compute; reflexivity|]. split; [|reflexivity].
  eapply (@CompileTestConfig_ready sample_provider sample_loader 3 (fun _ => 0%nat) (mkModifier [] [])
    (mkClusterConfig false true) ∅ sample_registry (fun _ => false) "/" (fun _ => []) "config.yaml" "dir").
  vm_compute. reflexivity.
Defined.
