(* ===== verification/TestRun.v ===== *)
(** * Running a test (pkg/test/simple_test_executor.go)

    [ExecuteStep], [ExecuteTestSteps], [prepareTestNamespaces], [ExecuteTest]
    with its deferred cleanup, and [RunTest]: the composition of the phase
    executor, the measurements, the dependencies and the reporter. The
    goroutines of a step run in an order chosen by the environment. *)

From S2P Require Import Prelude GoErrors Params Api Validation State TuningSet Executor Measurement Reporter Dependency Modifier.

(** What the executor uses beside the components of this development: the clock,
    the automanaged namespaces of the framework (its own file), the chaos
    monkey, and the report directory. *)
Class TestEnv (W : Type) := {
  Now : W -> Z;
  SetAutomanagedNamespacePrefix : string -> W -> W;
  ListAutomanagedNamespaces : W -> W * result (list string * list string);
  DeleteNamespaces : list string -> Z -> W -> W * ErrorList;
  CreateAutomanagedNamespaces : Z -> bool -> bool -> W -> W * option error;
  DeleteAutomanagedNamespaces : Z -> W -> W * ErrorList;
  start_NodeKiller : NodeFailureConfig -> gset string -> W -> W * option error;
  close_stopCh : W -> W;
  chaos_Wait : W -> W;
  ReportDir : string;
  WriteFile : string -> string -> W -> W * option error;
  summary_path : string -> string -> Summary -> string;
}.

Section TestRun.
Context {W M F D DF : Type} `{TP : TemplateProvider} `{FW : Framework W} `{ML : MeasurementLib W M F}
  `{DL : DependencyLib W D DF} `{TE : TestEnv W}.

Record Context_ := mkContext {
  ctx_state : NamespacesState;
  ctx_tuning : simpleFactory;
  ctx_manager : measurementManager M;
  ctx_dependencies : dependencyManager D;
  ctx_reporter : simpleReporter;
  ctx_world : W;
}.

(** The choices of the environment and the factories of the program. *)
Record run_env := mkRunEnv {
  re_fuel : nat;
  re_sched : @scheduler W;
  re_goroutines : forall A, list A -> list A;       (* the order goroutines run in *)
  re_measurements : measurementFactory F;
  re_dependencies : dependencyFactory DF;
}.

Definition set_world (ctx : Context_) (w : W) : Context_ :=
  mkContext (ctx_state ctx) (ctx_tuning ctx) (ctx_manager ctx) (ctx_dependencies ctx) (ctx_reporter ctx) w.
Definition set_reporter (ctx : Context_) (r : simpleReporter) : Context_ :=
  mkContext (ctx_state ctx) (ctx_tuning ctx) (ctx_manager ctx) (ctx_dependencies ctx) r (ctx_world ctx).

(** ** A step *)

Inductive substep :=
| SubMeasurement (i : nat) (m : Measurement)
| SubPhase (p : Phase).

Definition substeps (step : Step) : list substep :=
  imap (fun i m => SubMeasurement i m) (Measurements step) ++ map SubPhase (Phases step).

(** One goroutine of a step, run to its end. The goroutines of a step interleave;
    here they run one after the other, in any order ([re_goroutines]). The actions
    of a phase do interleave, in [ExecutePhase]. *)
Definition run_substep (env : run_env) (ctx : Context_) (s : substep) : option (Context_ * event) :=
  match s with
  | SubMeasurement i m =>
      let '(mm, w, errList) := Execute (re_goroutines env _) (re_measurements env) m (ctx_manager ctx) (ctx_world ctx) in
      Some (mkContext (ctx_state ctx) (ctx_tuning ctx) mm (ctx_dependencies ctx) (ctx_reporter ctx) w,
            SubStepDone (Now w) (Sprintf "[%02d] - %s" [FInt (Z.of_nat i); FStr (Identifier m)]) (Z.of_nat i) errList)
  | SubPhase p =>
      r ← ExecutePhase (re_fuel env) (re_sched env) p (ctx_state ctx) (ctx_tuning ctx) (ctx_world ctx);
      Some (mkContext (pr_state r) (pr_factory r) (ctx_manager ctx) (ctx_dependencies ctx) (ctx_reporter ctx)
              (pr_cluster r),
            PhaseDone (pr_errors r))
  end.

Fixpoint run_substeps (env : run_env) (ctx : Context_) (l : list substep) : option (Context_ * list event) :=
  match l with
  | [] => Some (ctx, [])
  | s :: l' =>
      '(ctx1, e) ← run_substep env ctx s;
      '(ctx2, es) ← run_substeps env ctx1 l';
      Some (ctx2, e :: es)
  end.

(** [None]: a namespace loop of a phase does not finish. *)
Definition ExecuteStep (env : run_env) (ctx : Context_) (step : Step) (name : string)
  : option (Context_ * ErrorList) :=
  let stepResults := NewStepResult (Now (ctx_world ctx)) name in
  '(ctx1, events) ← run_substeps env ctx (re_goroutines env _ (substeps step));
  let stepResults := record_events stepResults events in
  let allErrors := GetAllErrors stepResults in
  let ctx2 := set_reporter ctx1 (ReportTestStep (ctx_reporter ctx1) stepResults (Now (ctx_world ctx1))) in
  Some (ctx2, allErrors).

Definition isErrsCritical (errList : ErrorList) : bool := Has errList SCritical.

Definition step_name (i : nat) (step : Step) : string :=
  let namePrefix := if String.eqb (step_Name step) ""
                    then "[autogenerated, please name your step in the test config]"
                    else step_Name step in
  Sprintf "[step: %02d] %s" [FInt (Z.of_nat i + 1); FStr namePrefix].

Fixpoint steps_loop (env : run_env) (ctx : Context_) (i : nat) (steps : list Step) (errList : ErrorList)
  : option (Context_ * ErrorList) :=
  match steps with
  | [] => Some (ctx, errList)
  | step :: steps' =>
      '(ctx1, stepErrList) ← ExecuteStep env ctx step (step_name i step);
      if negb (IsEmpty stepErrList) then
        let errList1 := Concat errList (Some stepErrList) in
        if isErrsCritical stepErrList then Some (ctx1, errList1)
        else steps_loop env ctx1 (S i) steps' errList1
      else steps_loop env ctx1 (S i) steps' errList
  end.

Definition ExecuteTestSteps (env : run_env) (ctx : Context_) (steps : list Step) : option (Context_ * ErrorList) :=
  steps_loop env ctx 0 steps (NewErrorList []).

(** ** Namespaces *)

(** A nil pointer in the namespace section panics when dereferenced. *)
Definition deref_ptr {A} (o : option A) : outcome A :=
  match o with Some a => Returns a | None => Panics end.

Definition prepareTestNamespaces (conf : Config) (w : W) : W * outcome (option error) :=
  let ns := Namespace conf in
  match ListAutomanagedNamespaces w with
  | (w1, Err err) => (w1, Returns (Some (Errorf "automanaged namespaces listing failed: %w" [AWrap err])))
  | (w1, Ok (current, stale)) =>
      (* *conf.Namespace.EnableExistingNamespaces is read only for a non-empty list *)
      match (match current with
             | [] => Returns false
             | _ => b ← deref_ptr (EnableExistingNamespaces ns); Returns (negb b)
             end) with
      | Panics => (w1, Panics)
      | Fails e => (w1, Fails e)
      | Returns true => (w1, Returns (Some (Errorf "pre-existing automanaged namespaces found" [])))
      | Returns false =>
          match deref_ptr (DeleteStaleNamespaces ns) with
          | Returns deleteStaleNS =>
              let '(w2, ok) :=
                match stale with
                | [] => (w1, Returns tt)
                | _ => if deleteStaleNS then
                         match DeleteNamespaceTimeout ns with
                         | Some t => ((DeleteNamespaces stale t w1).1, Returns tt)   (* errors are logged *)
                         | None => (w1, Panics)
                         end
                       else (w1, Returns tt)
                end in
              match ok, EnableExistingNamespaces ns, Api.DeleteAutomanagedNamespaces ns with
              | Returns _, Some allow, Some del =>
                  match CreateAutomanagedNamespaces (Number ns) allow del w2 with
                  | (w3, Some err) =>
                      (w3, Returns (Some (Errorf "automanaged namespaces creation failed: %w" [AWrap err])))
                  | (w3, None) => (w3, Returns None)
                  end
              | _, _, _ => (w2, Panics)
              end
          | _ => (w1, Panics)
          end
      end
  end.

(** ** The whole test *)

(** [Monkey.Init]: whether there is a wait group to wait for. *)
Definition Monkey_Init (config : ChaosMonkeyConfig) (w : W) : W * result bool :=
  match NodeFailure config with
  | None => (w, Ok false)
  | Some nf =>
      match start_NodeKiller nf (default ∅ (ExcludedNodes config)) w with
      | (w', Some err) => (w', Err err)
      | (w', None) => (w', Ok true)
      end
  end.

(** [cleanupTestResourcesAndDependencies]; the errors are only logged. *)
Definition cleanup (env : run_env) (ctx : Context_) (conf : Config) : Context_ * outcome unit :=
  let w1 := Dispose (re_goroutines env _) (ctx_manager ctx) (ctx_world ctx) in
  match Api.DeleteAutomanagedNamespaces (Namespace conf) with
  | None => (set_world ctx w1, Panics)
  | Some false => (set_world ctx (TeardownDependencies (ctx_dependencies ctx) w1).1, Returns tt)
  | Some true =>
      match DeleteNamespaceTimeout (Namespace conf) with
      | None => (set_world ctx w1, Panics)
      | Some t =>
          let '(w2, errList) := DeleteAutomanagedNamespaces t w1 in
          if negb (IsEmpty errList) then (set_world ctx w2, Returns tt)
          else (set_world ctx (TeardownDependencies (ctx_dependencies ctx) w2).1, Returns tt)
      end
  end.

Fixpoint write_summaries (confName identifier : string) (ss : list Summary) (w : W) (errList : ErrorList)
  : W * ErrorList :=
  match ss with
  | [] => (w, errList)
  | summary :: ss' =>
      if String.eqb ReportDir "" then write_summaries confName identifier ss' w errList
      else
        let testDistinctor := if negb (String.eqb identifier "") then "_" +:+ identifier else "" in
        let filePath := summary_path ReportDir (confName +:+ testDistinctor) summary in
        match WriteFile filePath (SummaryContent summary) w with
        | (w', Some err) =>
            write_summaries confName identifier ss' w'
              (Append errList [Errorf "writing to file %v error: %v" [AStr filePath; AErr err]])
        | (w', None) => write_summaries confName identifier ss' w' errList
        end
  end.

(** The body of [ExecuteTest], without the deferred cleanup. *)
Definition test_body (env : run_env) (ctx : Context_) (identifier : string) (conf : Config)
  : option (Context_ * outcome ErrorList) :=
  let ctx := mkContext (ctx_state ctx) (Init (ctx_tuning ctx) (TuningSets conf)) (ctx_manager ctx)
               (ctx_dependencies ctx) (ctx_reporter ctx) (ctx_world ctx) in
  match Monkey_Init (ChaosMonkey conf) (ctx_world ctx) with
  | (w1, Err err) =>
      Some (set_world ctx (close_stopCh w1),
            Returns (NewErrorList [Errorf "error while creating chaos monkey: %v" [AErr err]]))
  | (w1, Ok waitGroup) =>
      match prepareTestNamespaces conf w1 with
      | (w2, Panics) => Some (set_world ctx w2, Panics)
      | (w2, Fails e) => Some (set_world ctx w2, Fails e)
      | (w2, Returns (Some err)) =>
          Some (set_world ctx w2,
                Returns (NewErrorList [Errorf "error while preparing test namespaces: %w" [AWrap err]]))
      | (w2, Returns None) =>
          let '(dm, w3, setupErrList) :=
            match Dependencies conf with
            | [] => (ctx_dependencies ctx, w2, NewErrorList [])
            | deps => SetupDependencies (re_dependencies env) (ctx_dependencies ctx) deps w2
            end in
          let ctx := mkContext (ctx_state ctx) (ctx_tuning ctx) (ctx_manager ctx) dm (ctx_reporter ctx) w3 in
          if negb (IsEmpty setupErrList) then Some (set_world ctx (close_stopCh w3), Returns setupErrList)
          else
            '(ctx, errList) ← ExecuteTestSteps env ctx (Steps conf);
            let w := close_stopCh (ctx_world ctx) in
            let w := if waitGroup then chaos_Wait w else w in
            let '(w, errList) :=
              write_summaries (conf_Name conf) identifier (GetSummaries (ctx_manager ctx)) w errList in
            Some (set_world ctx w, Returns errList)
      end
  end.

(** A deferred call runs on every way out, a panic included. *)
Definition ExecuteTest (env : run_env) (ctx : Context_) (identifier : string) (conf : Config)
  : option (Context_ * outcome ErrorList) :=
  let ctx := set_world ctx (SetAutomanagedNamespacePrefix (Prefix (Namespace conf)) (ctx_world ctx)) in
  '(ctx, r) ← test_body env ctx identifier conf;
  match cleanup env ctx conf with
  | (ctx, Returns _) => Some (ctx, r)
  | (ctx, _) => Some (ctx, Panics)
  end.

Definition RunTest (env : run_env) (ctx : Context_) (m : simpleModifier) (identifier : string) (testConfig : Config)
  : option (Context_ * outcome ErrorList) :=
  let testName := if String.eqb identifier "" then conf_Name testConfig else identifier in
  let ctx := set_reporter ctx (SetTestName (ctx_reporter ctx) testName) in
  match ChangeTest m testConfig with
  | Panics => Some (ctx, Panics)
  | Fails err => Some (ctx, Returns (NewErrorList [Errorf "config mutation error: %v" [AErr err]]))
  | Returns testConfig => ExecuteTest env ctx identifier testConfig
  end.

(** ** Steps run in order until one is critical *)

#[local] Arguments step_name : simpl never.
#[local] Arguments ExecuteStep : simpl never.

(** What each step would return, all of them executed one after the other. *)
Fixpoint run_all (env : run_env) (ctx : Context_) (i : nat) (steps : list Step)
  : option (list (Context_ * ErrorList)) :=
  match steps with
  | [] => Some []
  | step :: steps' =>
      '(ctx1, errs) ← ExecuteStep env ctx step (step_name i step);
      rest ← run_all env ctx1 (S i) steps';
      Some ((ctx1, errs) :: rest)
  end.

(** The steps up to and including the first critical one. *)
Fixpoint until_critical (trace : list (Context_ * ErrorList)) : list (Context_ * ErrorList) :=
  match trace with
  | [] => []
  | r :: trace' => if isErrsCritical r.2 then [r] else r :: until_critical trace'
  end.

Definition final_ctx (ctx : Context_) (trace : list (Context_ * ErrorList)) : Context_ :=
  from_option fst ctx (last trace).

Lemma IsEmpty_not_critical e : IsEmpty e = true -> isErrsCritical e = false.
Proof. unfold IsEmpty, isErrsCritical, Has. by destruct (errors e). Qed.

Lemma final_ctx_cons ctx r trace : final_ctx ctx (r :: trace) = final_ctx r.1 trace.
Proof. unfold final_ctx. rewrite last_cons. by destruct (last trace). Qed.

Lemma steps_loop_spec env ctx i steps errs trace :
  run_all env ctx i steps = Some trace ->
  steps_loop env ctx i steps errs =
    Some (final_ctx ctx (until_critical trace),
          mkErrorList (errors errs ++ concat (map (fun r => errors r.2) (until_critical trace)))).
Proof.
  revert ctx i errs trace. induction steps as [|step steps IH]; intros ctx i errs trace; cbn.
  { intros [= <-]. cbn. rewrite app_nil_r. by destruct errs. }
  destruct (ExecuteStep env ctx step (step_name i step)) as [[ctx1 e]|]; [|done]. cbn.
  destruct (run_all env ctx1 (S i) steps) as [rest|] eqn:Hr; [|done]. cbn. intros [= <-].
  cbn [until_critical snd]. destruct (IsEmpty e) eqn:He.
  - rewrite IsEmpty_not_critical by done. cbn [negb]. rewrite (IH _ _ _ _ Hr), final_ctx_cons. cbn.
    apply IsEmpty_true_iff in He. by rewrite He.
  - cbn [negb]. destruct (isErrsCritical e) eqn:Hc.
    + rewrite final_ctx_cons. cbn. by rewrite app_nil_r.
    + rewrite (IH _ _ _ _ Hr), final_ctx_cons. cbn. by rewrite app_assoc.
Qed.

(** C2: the steps of a test run strictly in order; the first step with a critical
    error (wrapped or not) is the last one executed, steps with other errors do
    not stop the test; the errors returned are those of the executed steps in
    order, and without a critical error every step is executed. *)
Theorem ExecuteTestSteps_stops_at_critical env ctx steps trace :
  run_all env ctx 0 steps = Some trace ->
  let executed := until_critical trace in
  ExecuteTestSteps env ctx steps =
    Some (final_ctx ctx executed, mkErrorList (concat (map (fun r => errors r.2) executed))) /\
  (exists rest, trace = executed ++ rest) /\
  Forall (fun r => isErrsCritical r.2 = false) (take (pred (length executed)) executed) /\
  (Forall (fun r => isErrsCritical r.2 = false) trace -> executed = trace).
Proof.
  intros Hr. cbn zeta. split_and!.
  - by apply (steps_loop_spec env ctx 0 steps (NewErrorList [])).
  - clear. induction trace as [|r trace [rest IH]]; [by exists []|]. cbn.
    destruct (isErrsCritical r.2); [by exists trace|]. exists rest. cbn. by rewrite <- IH.
  - clear. induction trace as [|r trace IH]; [constructor|]. cbn.
    destruct (isErrsCritical r.2) eqn:Hc; [constructor|]. cbn.
    destruct (until_critical trace) as [|r' l] eqn:Hu; [constructor|]. cbn in *. by constructor.
  - clear. induction 1 as [|r trace Hc _ IH]; [done|]. cbn. by rewrite Hc, IH.
Qed.

(** ** Failures are counted *)

(** The goroutines of a step all run, each once. *)
Definition all_run (env : run_env) : Prop := forall A (l : list A), re_goroutines env A l ≡ₚ l.

Definition substep_event (s : substep) (e : event) : Prop :=
  match s, e with
  | SubMeasurement i _, SubStepDone _ _ id _ => id = Z.of_nat i
  | SubPhase _, PhaseDone _ => True
  | _, _ => False
  end.

Lemma run_substep_keeps env ctx s ctx' e :
  run_substep env ctx s = Some (ctx', e) -> substep_event s e /\ ctx_reporter ctx' = ctx_reporter ctx.
Proof.
  destruct s as [i m|p]; cbn [run_substep].
  - destruct (Execute _ _ _ _ _) as [[mm w] errs]. intros [= <- <-]. done.
  - destruct (ExecutePhase _ _ _ _ _ _) as [r|]; [|done]. cbn. intros [= <- <-]. done.
Qed.

Lemma run_substeps_events env ctx l ctx' es :
  run_substeps env ctx l = Some (ctx', es) ->
  Forall2 substep_event l es /\ ctx_reporter ctx' = ctx_reporter ctx.
Proof.
  revert ctx es. induction l as [|s l IH]; intros ctx es; cbn [run_substeps].
  { intros [= <- <-]. split; [constructor|done]. }
  destruct (run_substep env ctx s) as [[ctx1 e]|] eqn:Hs; [|done]. cbn.
  destruct (run_substeps env ctx1 l) as [[ctx2 es']|] eqn:Hl; [|done]. cbn. intros [= <- <-].
  apply run_substep_keeps in Hs as [He Hr]. apply IH in Hl as [Hes Hr']. split; [by constructor|congruence].
Qed.

Lemma step_events_unmixed env step es :
  all_run env -> IsMeasurement step = negb (IsPhase step) ->
  Forall2 substep_event (re_goroutines env _ (substeps step)) es -> unmixed es.
Proof.
  intros Hall Hex Hf. unfold IsMeasurement, IsPhase in Hex. specialize (Hall _ (substeps step)).
  destruct (Measurements step) as [|m ms] eqn:Hms, (Phases step) as [|p ps] eqn:Hps; cbn in Hex; try discriminate.
  - right. assert (Forall (fun s => match s with SubPhase _ => True | _ => False end)
      (re_goroutines env _ (substeps step))) as Hs.
    { rewrite Hall. unfold substeps. rewrite Hms, Hps. cbn [imap app]. apply Forall_map, Forall_true. done. }
    clear -Hf Hs. induction Hf as [|s e l es He _ IH]; [constructor|].
    apply Forall_cons in Hs as [Hs Hs']. constructor; [by destruct s, e|by apply IH].
  - left. assert (Forall (fun s => match s with SubMeasurement _ _ => True | _ => False end)
      (re_goroutines env _ (substeps step))) as Hs.
    { rewrite Hall. unfold substeps. rewrite Hps. cbn [map]. rewrite app_nil_r.
      apply Forall_forall. intros s (i & x & -> & _)%elem_of_lookup_imap_1. done. }
    clear -Hf Hs. induction Hf as [|s e l es He _ IH]; [constructor|].
    apply Forall_cons in Hs as [Hs Hs']. constructor; [by destruct s, e|by apply IH].
Qed.

Lemma ExecuteStep_counts env ctx step name ctx' errs :
  all_run env -> IsMeasurement step = negb (IsPhase step) ->
  ExecuteStep env ctx step name = Some (ctx', errs) ->
  if IsEmpty errs then NumberOfFailedSpecs (ctx_reporter ctx') = NumberOfFailedSpecs (ctx_reporter ctx)
  else NumberOfFailedSpecs (ctx_reporter ctx) < NumberOfFailedSpecs (ctx_reporter ctx').
Proof.
  intros Hall Hex. unfold ExecuteStep.
  destruct (run_substeps env ctx _) as [[ctx1 es]|] eqn:Hr; [|done]. cbn. intros [= <- <-].
  apply run_substeps_events in Hr as [Hf Hrep]. cbn. rewrite Hrep.
  destruct (step_failure_counted (ctx_reporter ctx) (Now (ctx_world ctx)) name (Now (ctx_world ctx1)) es
              (step_events_unmixed _ _ _ Hall Hex Hf)) as (H1 & H2 & _).
  destruct (IsEmpty (GetAllErrors _)); [by apply H2|by apply H1].
Qed.

(** C7: on steps as validation leaves them and whatever the order of the
    goroutines, the reporter's number of failed items grows during
    [ExecuteTestSteps] exactly when errors are returned: the exit status of the
    program, which is read from that number, is right. *)
Theorem failed_steps_are_counted env ctx steps ctx' errs :
  all_run env -> Forall (fun s => IsMeasurement s = negb (IsPhase s)) steps ->
  ExecuteTestSteps env ctx steps = Some (ctx', errs) ->
  (IsEmpty errs = false <-> NumberOfFailedSpecs (ctx_reporter ctx) < NumberOfFailedSpecs (ctx_reporter ctx')) /\
  NumberOfFailedSpecs (ctx_reporter ctx) <= NumberOfFailedSpecs (ctx_reporter ctx').
Proof.
  intros Hall Hex. unfold ExecuteTestSteps.
  assert (forall i errs0, steps_loop env ctx i steps errs0 = Some (ctx', errs) ->
    NumberOfFailedSpecs (ctx_reporter ctx) <= NumberOfFailedSpecs (ctx_reporter ctx') /\
    exists more, errors errs = errors errs0 ++ more /\
      (more <> [] <-> NumberOfFailedSpecs (ctx_reporter ctx) < NumberOfFailedSpecs (ctx_reporter ctx'))) as Hgen.
  { revert ctx Hex. induction steps as [|step steps IH]; intros ctx Hex i errs0; cbn.
    { intros [= <- <-]. split; [done|]. exists []. rewrite app_nil_r. split; [done|]. split; [done|lia]. }
    apply Forall_cons in Hex as [Hs Hex].
    destruct (ExecuteStep env ctx step (step_name i step)) as [[ctx1 e]|] eqn:He; [|done]. cbn.
    apply ExecuteStep_counts in He; [|done..]. destruct (IsEmpty e) eqn:Hem; cbn [negb].
    - intros Hl. apply IH in Hl as (Hle & more & Hm & Hiff); [|done]. rewrite He in *. eauto.
    - assert (errors e <> []) as Hne by (intros Hx; apply IsEmpty_true_iff in Hx; congruence).
      destruct (isErrsCritical e).
      + intros [= <- <-]. split; [lia|]. exists (errors e). split; [done|]. tauto.
      + intros Hl. apply IH in Hl as (Hle & more & Hm & Hiff); [|done]. split; [lia|].
        exists (errors e ++ more). cbn in Hm. rewrite app_assoc. split; [done|].
        split; [lia|]. intros _ [Hx _]%app_nil. done. }
  intros Hl. apply Hgen in Hl as (Hle & more & Hm & Hiff). cbn in Hm. split; [|done].
  rewrite <- Hiff, <- Hm. unfold IsEmpty. by destruct (errors errs).
Qed.

(** ** Namespaces, set-up and cleanup *)

(** with a config whose namespace section is complete (every compiled one),
    [prepareTestNamespaces] never dereferences nil, and it returns no error only
    if the namespaces could be listed, no namespace of the current prefix
    existed unless existing ones are enabled, and creating
    [conf.Namespace.Number] namespaces with the configured options succeeded;
    an error of the deletion of stale namespaces is ignored. *)
Theorem prepareTestNamespaces_correct conf w :
  namespace_complete (Namespace conf) ->
  exists w' r, prepareTestNamespaces conf w = (w', Returns r) /\
    (r = None -> exists w1 current stale w2 allow del,
       ListAutomanagedNamespaces w = (w1, Ok (current, stale)) /\
       EnableExistingNamespaces (Namespace conf) = Some allow /\
       Api.DeleteAutomanagedNamespaces (Namespace conf) = Some del /\
       (current = [] \/ allow = true) /\
       CreateAutomanagedNamespaces (Number (Namespace conf)) allow del w2 = (w', None)).
Proof.
  intros ([st Hst] & [del Hdel] & [allow Hal] & [t Ht] & _). unfold prepareTestNamespaces.
  destruct (ListAutomanagedNamespaces w) as [w1 [[current stale]|e]] eqn:Hl; [|by eexists _, _].
  rewrite Hst, Hdel, Hal, Ht. cbn [deref_ptr mbind outcome_bind].
  assert (exists b, (match current with [] => Returns false | _ :: _ => Returns (negb allow) end) = Returns b /\
            (b = false -> current = [] \/ allow = true)) as (b & -> & Hb).
  { destruct current; [by exists false; eauto|]. exists (negb allow). split; [done|]. destruct allow; eauto. }
  destruct b; [by eexists _, _|]. specialize (Hb eq_refl).
  match goal with |- context [let '(_, _) := ?x in _] =>
    assert (exists w2, x = (w2, Returns tt)) as [w2 ->] by (destruct stale; [eauto|]; destruct st; eauto) end.
  destruct (CreateAutomanagedNamespaces (Number (Namespace conf)) allow del w2) as [w3 [e|]] eqn:Hc;
    eexists _, _; (split; [done|]); [done|]. intros _. eexists w1, current, stale, w2, allow, del. done.
Qed.

(** cleanup disposes every measurement instance, whatever happens next; it
    tears the dependencies down only if no namespace had to be deleted or all
    deletions succeeded. When deleting the namespaces fails, the dependencies
    are left in place. *)
Theorem cleanup_correct env ctx conf del t :
  Api.DeleteAutomanagedNamespaces (Namespace conf) = Some del ->
  DeleteNamespaceTimeout (Namespace conf) = Some t ->
  let w1 := Dispose (re_goroutines env _) (ctx_manager ctx) (ctx_world ctx) in
  let after_namespaces := if del then DeleteAutomanagedNamespaces t w1 else (w1, NewErrorList []) in
  (cleanup env ctx conf).2 = Returns tt /\
  ctx_world (cleanup env ctx conf).1 =
    if IsEmpty after_namespaces.2
    then (TeardownDependencies (ctx_dependencies ctx) after_namespaces.1).1
    else after_namespaces.1.
Proof.
  intros Hd Ht. cbn zeta. unfold cleanup. rewrite Hd, Ht. destruct del; cbn [snd fst]; [|done].
  destruct (DeleteAutomanagedNamespaces t _) as [w2 errs]. cbn. by destruct (IsEmpty errs).
Qed.

(** The deferred cleanup runs after whatever the body returned. *)
Lemma ExecuteTest_cleans_up env ctx identifier conf ctx1 r u :
  test_body env (set_world ctx (SetAutomanagedNamespacePrefix (Prefix (Namespace conf)) (ctx_world ctx))) identifier conf = Some (ctx1, r) ->
  (cleanup env ctx1 conf).2 = Returns u ->
  ExecuteTest env ctx identifier conf = Some ((cleanup env ctx1 conf).1, r).
Proof.
  intros Hb Hc. unfold ExecuteTest. rewrite Hb. cbn [mbind option_bind].
  destruct (cleanup env ctx1 conf) as [ctx2 r2]. cbn in Hc. by subst r2.
Qed.

(** Nothing runs on a cluster that is not prepared. If preparing the namespaces
    fails, or setting up a dependency does, [ExecuteTest] returns that error,
    executes no step and reports none, and still cleans up. In the first case
    the stop channel is not closed, so a chaos monkey that was started goes on
    killing nodes. *)
Lemma ExecuteTest_aborts env ctx identifier conf w1 wg w2 :
  let tuned := mkContext (ctx_state ctx) (Init (ctx_tuning ctx) (TuningSets conf)) (ctx_manager ctx) in
  Monkey_Init (ChaosMonkey conf) (SetAutomanagedNamespacePrefix (Prefix (Namespace conf)) (ctx_world ctx)) = (w1, Ok wg) ->
  (forall e u, prepareTestNamespaces conf w1 = (w2, Returns (Some e)) ->
     let stopped := tuned (ctx_dependencies ctx) (ctx_reporter ctx) w2 in
     (cleanup env stopped conf).2 = Returns u ->
     ExecuteTest env ctx identifier conf =
       Some ((cleanup env stopped conf).1,
             Returns (NewErrorList [Errorf "error while preparing test namespaces: %w" [AWrap e]]))) /\
  (forall dm w3 errs d ds u, prepareTestNamespaces conf w1 = (w2, Returns None) -> Dependencies conf = d :: ds ->
     SetupDependencies (re_dependencies env) (ctx_dependencies ctx) (d :: ds) w2 = (dm, w3, errs) -> IsEmpty errs = false ->
     let stopped := tuned dm (ctx_reporter ctx) (close_stopCh w3) in
     (cleanup env stopped conf).2 = Returns u ->
     ExecuteTest env ctx identifier conf = Some ((cleanup env stopped conf).1, Returns errs)).
Proof.
  cbn zeta. intros Hm. split.
  - intros e u Hp. apply ExecuteTest_cleans_up. unfold test_body.
    cbn [ctx_world set_world ctx_state ctx_tuning ctx_manager ctx_dependencies ctx_reporter]. by rewrite Hm, Hp.
  - intros dm w3 errs d ds u Hp Hd Hs He. apply ExecuteTest_cleans_up. unfold test_body.
    cbn [ctx_world set_world ctx_state ctx_tuning ctx_manager ctx_dependencies ctx_reporter].
    by rewrite Hm, Hp, Hd, Hs, He.
Qed.
End TestRun.

(** ** A world that records calls

    Every operation appends a line; the measurement "critical" fails with a
    critical error. *)
Section LogWorld.
Definition log : Type := list string.

#[local] Existing Instance sample_provider.
#[local] Existing Instance logging_lib.

#[local] Instance log_framework : Framework log :=
  {| CreateObject := fun w ns name _ => (w ++ ["create " +:+ ns +:+ "/" +:+ name], None);
     PatchObject := fun w ns name _ => (w ++ ["patch " +:+ ns +:+ "/" +:+ name], None);
     DeleteObject := fun w _ ns name => (w ++ ["delete " +:+ ns +:+ "/" +:+ name], None);
     GetNumObjectsMatchingSelector := fun _ _ _ _ => Ok 0;
     LabelSelectorAsSelector := Ok;
     GetAutomanagedNamespacePrefix := fun _ => "test-abcdef" |}.

#[local] Instance log_measurements : MeasurementLib log string string :=
  {| run_createFunc := fun f w => (w, f);
     instance_Execute := fun m _ w =>
       (w ++ ["measure " +:+ m], [],
        if String.eqb m "critical" then Some (NewErrCritical (External "broken")) else None);
     instance_Dispose := fun m w => w ++ ["dispose " +:+ m];
     ServerVersion := fun _ => Ok "v1.30" |}.

#[local] Instance log_env : TestEnv log :=
  {| Now := fun w => Z.of_nat (length w);
     SetAutomanagedNamespacePrefix := fun p w => w ++ ["prefix " +:+ p];
     ListAutomanagedNamespaces := fun w => (w, Ok ([], ["test-old-1"]));
     DeleteNamespaces := fun l _ w => (w ++ l, NewErrorList []);
     CreateAutomanagedNamespaces := fun n _ _ w =>
       (w, if n =? 13 then Some (External "quota") else None);
     DeleteAutomanagedNamespaces := fun _ w => (w ++ ["delete namespaces"], NewErrorList [External "stuck"]);
     start_NodeKiller := fun _ _ w => (w ++ ["start node killer"], None);
     close_stopCh := fun w => w ++ ["stop node killer"];
     chaos_Wait := fun w => w;
     ReportDir := "";
     WriteFile := fun _ _ w => (w, None);
     summary_path := fun d n _ => d +:+ n |}.

Definition log_registry : measurementFactory string :=
  register_all [("Timer", "timer"); ("Critical", "critical")].

Definition log_run : run_env :=
  mkRunEnv 10 sequential_scheduler (fun _ l => rev l)
    log_registry sample_dependencies.

Definition log_ctx : Context_ (W := log) (M := string) (D := string) :=
  mkContext newNamespacesState (Init NewFactory [sample_tuning_set]) CreateManager CreateDependencyManager
    (CreateSimpleReporter "suite") [].

Definition log_steps : list Step :=
  [ mkStep [] [mkMeasurement "Timer" ∅ "t1" []; mkMeasurement "Critical" ∅ "c1" []] no_module "start";
    mkStep [sample_phase] [] no_module "create" ].

Lemma log_run_all : all_run log_run.
Proof. intros A l. cbn. symmetry. apply Permutation_rev. Qed.

(** The phase of the second step never runs. *)
Lemma ExecuteTestSteps_stops_at_critical_witness :
  exists trace, run_all log_run log_ctx 0 log_steps = Some trace /\ length trace = 2%nat /\
    ExecuteTestSteps log_run log_ctx log_steps =
      Some (final_ctx log_ctx (until_critical trace),
            mkErrorList (concat (map (fun r => errors r.2) (until_critical trace)))) /\
    ctx_world (final_ctx log_ctx (until_critical trace)) = ["measure critical"; "measure timer"].
Proof.
  destruct (run_all log_run log_ctx 0 log_steps) as [trace|] eqn:Hr; [|by vm_compute in Hr].
  exists trace. split; [done|].
  destruct (ExecuteTestSteps_stops_at_critical log_run log_ctx log_steps trace Hr) as (He & _).
  split_and!; [|exact He|].
  - apply (f_equal (fmap length)) in Hr. vm_compute in Hr. by injection Hr.
  - apply (f_equal (fmap (fun t => ctx_world (final_ctx log_ctx (until_critical t))))) in Hr.
    vm_compute in Hr. by injection Hr.
Defined.

Lemma failed_steps_are_counted_witness :
  exists ctx' errs, ExecuteTestSteps log_run log_ctx log_steps = Some (ctx', errs) /\
    (IsEmpty errs = false <-> 0 < NumberOfFailedSpecs (ctx_reporter ctx')).
Proof.
  destruct (ExecuteTestSteps log_run log_ctx log_steps) as [[ctx' errs]|] eqn:Hr; [|by vm_compute in Hr].
  exists ctx', errs. split; [done|].
  eapply (failed_steps_are_counted log_run log_ctx log_steps); [apply log_run_all| |exact Hr].
  repeat constructor.
Defined.

Lemma prepareTestNamespaces_correct_witness :
  exists w' r, prepareTestNamespaces sample_config ([] : log) = (w', Returns r).
Proof.
  destruct (prepareTestNamespaces_correct sample_config ([] : log)) as (w' & r & Hp & _).
  - repeat split; eauto; discriminate.
  - eauto.
Defined.

(** Namespace deletion gets stuck: the tracked dependency is not torn down. *)
Definition stuck_ctx : Context_ (W := log) (M := string) (D := string) :=
  mkContext newNamespacesState NewFactory CreateManager
    (mkDependencyManager ∅ [mkDependencyInstance (mkDependency "x" "a" 0 ∅) "a"])
    (CreateSimpleReporter "suite") [].

Lemma cleanup_correct_witness :
  (cleanup log_run stuck_ctx sample_config).2 = Returns tt /\
  ctx_world (cleanup log_run stuck_ctx sample_config).1 = ["delete namespaces"].
Proof.
  destruct (cleanup_correct log_run stuck_ctx sample_config true DefaultNamespaceDeletionTimeout
              eq_refl eq_refl) as [Hr Hw].
  split; [exact Hr|]. rewrite Hw. vm_compute. reflexivity.
Defined.

Definition doomed_config : Config :=
  mkConfig "load" [] 0
    (NamespaceConfig_SetDefaults (fun _ => 0%nat) (mkNamespaceConfig 13 "p" None None None None))
    log_steps [sample_tuning_set]
    (mkChaosMonkeyConfig (Some (mkNodeFailureConfig (f64_of_Z 1) 5 (f64_of_Z 0) 5)) None).

(** The node killer was started and nothing stops it. *)
Lemma ExecuteTest_aborts_witness :
  exists ctx' errs, ExecuteTest log_run log_ctx "" doomed_config = Some (ctx', Returns errs) /\
    ctx_world ctx' = ["prefix p"; "start node killer"; "delete namespaces"].
Proof.
  pose proof (ExecuteTest_aborts log_run log_ctx "" doomed_config ["prefix p"; "start node killer"] true
                ["prefix p"; "start node killer"] eq_refl) as [Ha _].
  eexists _, _. split; [|shelve].
  apply (Ha (Errorf "automanaged namespaces creation failed: %w" [AWrap (External "quota")]) tt); reflexivity.
  Unshelve. reflexivity.
Defined.
End LogWorld.
