(* ===== verification/Pods.v ===== *)
(** * Pod status and waiting for pods (pkg/measurement/util/{pods,wait_for_pods}.go) *)

From S2P Require Import Prelude GoErrors Params.

Record PodCondition := mkCondition { cond_Type : string; cond_Status : string }.

(** What the code reads of a [corev1.Pod]. *)
Record Pod := mkPod {
  pod_Name : string;
  pod_Namespace : string;
  DeletionTimestamp : option Z;
  pod_Phase : string;
  Conditions : list PodCondition;
  NodeName : string;
}.

Definition PodRunning : string := "Running".
Definition PodPending : string := "Pending".
Definition PodSucceeded : string := "Succeeded".
Definition PodFailed : string := "Failed".
Definition PodUnknown : string := "Unknown".

Inductive Status :=
| Unknown | Terminating | RunningAndReady | RunningButNotReady
| PendingScheduled | PendingNotScheduled | Inactive.

#[export] Instance Status_eq_dec : EqDecision Status.
Proof. solve_decision. Defined.

Definition Status_String (s : Status) : string :=
  match s with
  | Unknown => "Unknown" | Terminating => "Terminating" | RunningAndReady => "RunningAndReady"
  | RunningButNotReady => "RunningButNotReady" | PendingScheduled => "PendingScheduled"
  | PendingNotScheduled => "PendingNotScheduled" | Inactive => "Inactive"
  end.

(** The loop over the conditions with its [break]. *)
Fixpoint ready_loop (cs : list PodCondition) : bool :=
  match cs with
  | [] => false
  | c :: cs' =>
      if String.eqb (cond_Type c) "Ready" && String.eqb (cond_Status c) "True" then true else ready_loop cs'
  end.

Definition podStatus (p : Pod) : Status :=
  match DeletionTimestamp p with
  | Some _ => Terminating
  | None =>
      if String.eqb (pod_Phase p) PodRunning then
        if ready_loop (Conditions p) then RunningAndReady else RunningButNotReady
      else if String.eqb (pod_Phase p) PodPending then
        if String.eqb (NodeName p) "" then PendingNotScheduled else PendingScheduled
      else if String.eqb (pod_Phase p) PodSucceeded || String.eqb (pod_Phase p) PodFailed then Inactive
      else Unknown
  end.

(** ** Counting *)
Record PodsStartupStatus := mkStartup {
  st_Expected : Z;
  st_Terminating : Z;
  st_Running : Z;
  st_Scheduled : Z;
  st_RunningButNotReady : Z;
  st_Waiting : Z;
  st_Pending : Z;
  st_Unknown : Z;
  st_Inactive : Z;
  st_Created : Z;
  st_RunningUpdated : Z;
  st_LastIsPodUpdatedError : option error;
}.

Definition PodsStartupStatus_String (s : PodsStartupStatus) : string :=
  Sprintf "Pods: %d out of %d created, %d running (%d updated), %d pending scheduled, %d not scheduled, %d inactive, %d terminating, %d unknown, %d runningButNotReady "
    [FInt (st_Created s); FInt (st_Expected s); FInt (st_Running s); FInt (st_RunningUpdated s);
     FInt (st_Pending s); FInt (st_Waiting s); FInt (st_Inactive s); FInt (st_Terminating s);
     FInt (st_Unknown s); FInt (st_RunningButNotReady s)].

(** [s.field += n] for the counters, and a new last error. *)
Definition bump (s : PodsStartupStatus) (term run sched rbnr wait pend unk inact created upd : Z)
  (err : option error) : PodsStartupStatus :=
  mkStartup (st_Expected s) (st_Terminating s + term) (st_Running s + run) (st_Scheduled s + sched)
    (st_RunningButNotReady s + rbnr) (st_Waiting s + wait) (st_Pending s + pend) (st_Unknown s + unk)
    (st_Inactive s + inact) (st_Created s + created) (st_RunningUpdated s + upd)
    (match err with Some e => Some e | None => st_LastIsPodUpdatedError s end).

(** The body of the loop. *)
Definition count_pod (isPodUpdated : option (Pod -> option error)) (s : PodsStartupStatus) (p : Pod)
  : PodsStartupStatus :=
  match DeletionTimestamp p with
  | Some _ => bump s 1 0 0 0 0 0 0 0 0 0 None
  | None =>
      let sched := if String.eqb (NodeName p) "" then 0 else 1 in
      if String.eqb (pod_Phase p) PodRunning then
        if ready_loop (Conditions p) then
          match isPodUpdated with
          | None => bump s 0 1 sched 0 0 0 0 0 1 1 None
          | Some f => match f p with
                      | Some err => bump s 0 1 sched 0 0 0 0 0 1 0 (Some err)
                      | None => bump s 0 1 sched 0 0 0 0 0 1 1 None
                      end
          end
        else bump s 0 0 sched 1 0 0 0 0 1 0 None
      else if String.eqb (pod_Phase p) PodPending then
        if String.eqb (NodeName p) "" then bump s 0 0 sched 0 1 0 0 0 1 0 None
        else bump s 0 0 sched 0 0 1 0 0 1 0 None
      else if String.eqb (pod_Phase p) PodSucceeded || String.eqb (pod_Phase p) PodFailed then
        bump s 0 0 sched 0 0 0 0 1 1 0 None
      else if String.eqb (pod_Phase p) PodUnknown then bump s 0 0 sched 0 0 0 1 0 1 0 None
      else bump s 0 0 sched 0 0 0 0 0 1 0 None
  end.

Definition ComputePodsStartupStatus (pods : list Pod) (expected : Z)
  (isPodUpdated : option (Pod -> option error)) : PodsStartupStatus :=
  fold_left (count_pod isPodUpdated) pods (mkStartup expected 0 0 0 0 0 0 0 0 0 0 None).

(** ** Differences *)
Definition nonExist : string := "NonExist".

Record podDiffInfo := mkDiff {
  oldHostname : string;
  oldPhase : string;
  hostname : string;
  phase : string;
}.

Definition DiffPods (oldPods curPods : list Pod) : gmap string podDiffInfo :=
  let m := fold_left (fun m pod =>
    <[pod_Name pod := mkDiff nonExist nonExist (NodeName pod) (pod_Phase pod)]> m) curPods ∅ in
  fold_left (fun m pod =>
    match m !! pod_Name pod with
    | Some info => <[pod_Name pod := mkDiff (NodeName pod) (pod_Phase pod) (hostname info) (phase info)]> m
    | None => <[pod_Name pod := mkDiff (NodeName pod) (pod_Phase pod) nonExist nonExist]> m
    end) oldPods m.

(** The map is ranged over in some order. *)
Definition DeletedPods (d : gmap string podDiffInfo) : list string :=
  omap (fun kv => if String.eqb (hostname kv.2) nonExist then Some kv.1 else None) (map_to_list d).
Definition AddedPods (d : gmap string podDiffInfo) : list string :=
  omap (fun kv => if String.eqb (oldHostname kv.2) nonExist then Some kv.1 else None) (map_to_list d).

(** ** Pod infos *)
Record PodInfo := mkPodInfo {
  info_Name : string;
  info_Hostname : string;
  info_Phase : string;
  info_Status : Status;
  info_Namespace : string;
}.

Definition ComputePodsStatus (pods : list Pod) : list PodInfo :=
  map (fun p => mkPodInfo (pod_Name p) (NodeName p) (pod_Phase p) (podStatus p) (pod_Namespace p)) pods.

Definition NotRunningAndReady (ps : list PodInfo) : list PodInfo :=
  fold_left (fun res info => if negb (bool_decide (info_Status info = RunningAndReady)) then res ++ [info] else res)
    ps [].

(** ** WaitForPods *)

Record WaitForPodOptions := mkWaitOptions {
  CountErrorMargin : Z;
  IsPodUpdated : option (Pod -> option error);
}.

(** What the [select] of one round receives. [desired] is the value
    [options.DesiredPodCount()] has then. *)
Inductive round :=
| CtxDone (deadlineExceeded : bool) (desired : Z)
| Interval (desired : Z) (listed : result (list Pod)).

Inductive wait_result :=
| WaitOk
| WaitErr (pods : option (list PodInfo)) (err : error).

Definition wait_condition (options : WaitForPodOptions) (pods : list Pod) (desiredPodCount : Z) : bool :=
  let podsStatus := ComputePodsStartupStatus pods desiredPodCount (IsPodUpdated options) in
  let len := Z.of_nat (length pods) in
  ((len =? st_Running podsStatus + st_Inactive podsStatus)
   && (st_Running podsStatus =? st_RunningUpdated podsStatus)
   && (st_RunningUpdated podsStatus =? desiredPodCount))
  || ((0 <? CountErrorMargin options)
      && (desiredPodCount - CountErrorMargin options <=? st_RunningUpdated podsStatus)
      && (len - st_Inactive podsStatus <=? desiredPodCount)
      && (st_Inactive podsStatus <=? CountErrorMargin options)).

Definition done_error (ps_String : string) (deadline : bool) (desired : Z) (status : PodsStartupStatus) : error :=
  if deadline then
    Errorf "got %w while waiting for %d pods to be running in %s - summary of pods : %s"
      [AWrap (External "context deadline exceeded"); AInt desired; AStr ps_String;
       AStr (PodsStartupStatus_String status)]
  else External "context canceled".

(** The loop; [None]: it is still waiting after the given rounds. *)
Fixpoint wait_loop (ps_String : string) (options : WaitForPodOptions) (rounds : list round)
  (oldPods : list Pod) (oldPodsStatus : PodsStartupStatus) : option wait_result :=
  match rounds with
  | [] => None
  | CtxDone deadline desired :: _ =>
      Some (WaitErr (Some (NotRunningAndReady (ComputePodsStatus oldPods)))
              (done_error ps_String deadline desired oldPodsStatus))
  | Interval _ (Err err) :: _ => Some (WaitErr None (Errorf "failed to list pods: %w" [AWrap err]))
  | Interval desired (Ok pods) :: rounds' =>
      if wait_condition options pods desired then Some WaitOk
      else wait_loop ps_String options rounds' pods
             (ComputePodsStartupStatus pods desired (IsPodUpdated options))
  end.

Definition WaitForPods (ps_String : string) (options : WaitForPodOptions) (first : result (list Pod))
  (rounds : list round) : option wait_result :=
  match first with
  | Err err => Some (WaitErr None (Errorf "failed to list pods: %w" [AWrap err]))
  | Ok oldPods => wait_loop ps_String options rounds oldPods (mkStartup 0 0 0 0 0 0 0 0 0 0 0 None)
  end.

(** ** The two classifications agree *)

Definition count_status (s : Status) (pods : list Pod) : Z :=
  Z.of_nat (length (filter (fun p => podStatus p = s) pods)).

Definition known_phase (p : Pod) : Prop :=
  pod_Phase p ∈ [PodRunning; PodPending; PodSucceeded; PodFailed; PodUnknown].

(** Ready pods [isPodUpdated] has no objection to. *)
Definition updated (f : option (Pod -> option error)) (p : Pod) : bool :=
  bool_decide (podStatus p = RunningAndReady) &&
  match f with None => true | Some f => match f p with None => true | Some _ => false end end.

Definition count_if (f : Pod -> bool) (pods : list Pod) : Z := Z.of_nat (length (filter (fun p => f p = true) pods)).

Lemma count_status_cons s p pods :
  count_status s (p :: pods) = (if bool_decide (podStatus p = s) then 1 else 0) + count_status s pods.
Proof. unfold count_status. rewrite filter_cons. case_bool_decide; case_decide; try done; cbn; lia. Qed.

Lemma count_if_cons f p pods : count_if f (p :: pods) = (if f p then 1 else 0) + count_if f pods.
Proof. unfold count_if. rewrite filter_cons. destruct (f p) eqn:Hf; case_decide; try done; cbn [length]; lia. Qed.

(** Compare concrete statuses and add up. *)
Ltac count_cases :=
  cbn; split_and!; intros; repeat case_bool_decide; cbn; first [congruence | lia].

(** One pod adds one to exactly the counter of its status. *)
Lemma count_pod_spec f s p :
  let s' := count_pod f s p in
  let one b := if (b : bool) then 1 else 0 in
  let st x := one (bool_decide (podStatus p = x)) in
  st_Expected s' = st_Expected s /\
  st_Terminating s' = st_Terminating s + st Terminating /\
  st_Running s' = st_Running s + st RunningAndReady /\
  st_RunningButNotReady s' = st_RunningButNotReady s + st RunningButNotReady /\
  st_Pending s' = st_Pending s + st PendingScheduled /\
  st_Waiting s' = st_Waiting s + st PendingNotScheduled /\
  st_Inactive s' = st_Inactive s + st Inactive /\
  (known_phase p -> st_Unknown s' = st_Unknown s + st Unknown) /\
  st_Created s' = st_Created s + (1 - st Terminating) /\
  st_RunningUpdated s' = st_RunningUpdated s + one (updated f p).
Proof.
  cbn zeta. unfold count_pod, podStatus, updated, podStatus, known_phase.
  destruct (DeletionTimestamp p); [count_cases|].
  destruct (String.eqb_spec (pod_Phase p) PodRunning) as [Hr|Hr].
  { destruct (ready_loop (Conditions p)); [destruct f as [f|]; [destruct (f p)|]|]; count_cases. }
  destruct (String.eqb_spec (pod_Phase p) PodPending) as [Hp|Hp].
  { destruct (String.eqb (NodeName p) ""); count_cases. }
  destruct (String.eqb_spec (pod_Phase p) PodSucceeded) as [Hs|Hs]; [count_cases|].
  destruct (String.eqb_spec (pod_Phase p) PodFailed) as [Hf|Hf]; [count_cases|].
  cbn [orb]. destruct (String.eqb_spec (pod_Phase p) PodUnknown) as [Hu|Hu]; [count_cases|].
  assert (pod_Phase p ∉ [PodRunning; PodPending; PodSucceeded; PodFailed; PodUnknown]) as Hk
    by (rewrite !elem_of_cons, elem_of_nil; tauto).
  count_cases.
Qed.

Lemma count_fold f pods s :
  let s' := fold_left (count_pod f) pods s in
  st_Expected s' = st_Expected s /\
  st_Terminating s' = st_Terminating s + count_status Terminating pods /\
  st_Running s' = st_Running s + count_status RunningAndReady pods /\
  st_RunningButNotReady s' = st_RunningButNotReady s + count_status RunningButNotReady pods /\
  st_Pending s' = st_Pending s + count_status PendingScheduled pods /\
  st_Waiting s' = st_Waiting s + count_status PendingNotScheduled pods /\
  st_Inactive s' = st_Inactive s + count_status Inactive pods /\
  (Forall known_phase pods -> st_Unknown s' = st_Unknown s + count_status Unknown pods) /\
  st_Created s' = st_Created s + (Z.of_nat (length pods) - count_status Terminating pods) /\
  st_RunningUpdated s' = st_RunningUpdated s + count_if (updated f) pods.
Proof.
  revert s. induction pods as [|p pods IH]; intros s.
  { cbn. unfold count_status, count_if. cbn. split_and!; intros; lia. }
  cbn [fold_left]. destruct (count_pod_spec f s p) as (E & T & R & N & P & W & I & U & C & D).
  destruct (IH (count_pod f s p)) as (E' & T' & R' & N' & P' & W' & I' & U' & C' & D').
  rewrite !count_status_cons, count_if_cons, E', T', R', N', P', W', I', C', D'.
  cbn [length]. split_and!; try lia.
  intros [Hk Hks]%Forall_cons. specialize (U Hk). specialize (U' Hks). lia.
Qed.

(** [ComputePodsStartupStatus] counts by the same classification as
    [podStatus], which it reimplements: on pods in one of the five phases the
    API defines, every counter is the number of pods of that status, the
    counters partition the pods, [Created] is everything not terminating and
    [RunningUpdated] the ready pods accepted by [isPodUpdated]. *)
Theorem ComputePodsStartupStatus_counts pods expected f :
  Forall known_phase pods ->
  let s := ComputePodsStartupStatus pods expected f in
  st_Terminating s = count_status Terminating pods /\ st_Running s = count_status RunningAndReady pods /\
  st_RunningButNotReady s = count_status RunningButNotReady pods /\
  st_Pending s = count_status PendingScheduled pods /\ st_Waiting s = count_status PendingNotScheduled pods /\
  st_Inactive s = count_status Inactive pods /\ st_Unknown s = count_status Unknown pods /\
  st_RunningUpdated s = count_if (updated f) pods /\
  st_Created s = Z.of_nat (length pods) - st_Terminating s /\
  st_Created s = st_Running s + st_RunningButNotReady s + st_Pending s + st_Waiting s + st_Inactive s + st_Unknown s.
Proof.
  intros Hk. cbn zeta. unfold ComputePodsStartupStatus.
  destruct (count_fold f pods (mkStartup expected 0 0 0 0 0 0 0 0 0 0 None))
    as (_ & T & R & N & P & W & I & U & C & D). specialize (U Hk). cbn in *.
  rewrite T, R, N, P, W, I, U, C, D. split_and!; try lia.
  clear. induction pods as [|p pods IH]; [done|]. rewrite !count_status_cons. cbn [length].
  destruct (podStatus p); repeat case_bool_decide; cbn; first [congruence | lia].
Qed.

Definition ready_pod (name : string) : Pod :=
  mkPod name "ns" None PodRunning [mkCondition "Ready" "True"] "node-1".

Lemma ComputePodsStartupStatus_counts_witness :
  let pods := [ready_pod "a"; mkPod "b" "ns" None PodPending [] ""; mkPod "c" "ns" (Some 5) PodRunning [] "n"] in
  st_Created (ComputePodsStartupStatus pods 3 None) = 3 - st_Terminating (ComputePodsStartupStatus pods 3 None).
Proof.
  cbn zeta. apply (ComputePodsStartupStatus_counts
    [ready_pod "a"; mkPod "b" "ns" None PodPending [] ""; mkPod "c" "ns" (Some 5) PodRunning [] "n"] 3 None).
  repeat constructor; cbn; set_solver.
Defined.

(** ** Differences are differences *)

Definition names (pods : list Pod) : list string := pod_Name <$> pods.

(** Real hosts are not called "NonExist". *)
Definition hosts_ok (pods : list Pod) : Prop := Forall (fun p => NodeName p <> nonExist) pods.

(** What the second loop maintains, [seen] being the old pods visited. *)
Definition diff_inv (cur seen : list string) (m : gmap string podDiffInfo) : Prop :=
  forall n, match m !! n with
            | Some info => (hostname info = nonExist <-> n ∉ cur) /\ (oldHostname info = nonExist <-> n ∉ seen) /\
                           (n ∈ cur \/ n ∈ seen)
            | None => n ∉ cur /\ n ∉ seen
            end.

Lemma diff_cur_inv cur :
  hosts_ok cur ->
  diff_inv (names cur) [] (fold_left (fun m pod =>
    <[pod_Name pod := mkDiff nonExist nonExist (NodeName pod) (pod_Phase pod)]> m) cur ∅).
Proof.
  induction cur as [|p cur IH] using rev_ind; intros Hh; [intros n; cbn; rewrite lookup_empty; set_solver|].
  apply Forall_app in Hh as [Hh [Hp _]%Forall_cons]. intros n. rewrite fold_left_app. cbn [fold_left].
  specialize (IH Hh n). unfold names in *. rewrite fmap_app. cbn.
  rewrite lookup_insert. case_decide as Hd.
  - subst n. cbn. split_and!; [split; [done|set_solver]|split; [set_solver|done]|set_solver].
  - destruct (fold_left _ cur ∅ !! n) as [info|]; set_solver.
Qed.

Lemma diff_old_inv cur seen m p :
  NodeName p <> nonExist -> diff_inv cur seen m ->
  diff_inv cur (seen ++ [pod_Name p])
    (match m !! pod_Name p with
     | Some info => <[pod_Name p := mkDiff (NodeName p) (pod_Phase p) (hostname info) (phase info)]> m
     | None => <[pod_Name p := mkDiff (NodeName p) (pod_Phase p) nonExist nonExist]> m
     end).
Proof.
  intros Hp Hi n. pose proof (Hi (pod_Name p)) as Hip. pose proof (Hi n) as Hin.
  destruct (decide (pod_Name p = n)) as [Hn|Hn].
  - subst n. destruct (m !! pod_Name p) as [info|]; rewrite lookup_insert_eq; cbn; set_solver.
  - destruct (m !! pod_Name p) as [info|]; rewrite lookup_insert_ne by done;
      destruct (m !! n) as [info'|]; set_solver.
Qed.

Lemma DiffPods_inv old cur :
  hosts_ok old -> hosts_ok cur -> diff_inv (names cur) (names old) (DiffPods old cur).
Proof.
  intros Ho Hc. unfold DiffPods. pose proof (diff_cur_inv cur Hc) as H0.
  set (m := fold_left _ cur ∅) in *. clearbody m.
  change (names old) with ([] ++ names old). generalize dependent m. generalize (@nil string) as seen.
  induction old as [|p old IH]; intros seen m H0; cbn [fold_left]; [by rewrite app_nil_r|].
  apply Forall_cons in Ho as [Hp Ho].
  change (names (p :: old)) with ([pod_Name p] ++ names old). rewrite app_assoc.
  apply IH; [done|]. by apply diff_old_inv.
Qed.

(** the diff of two listings names exactly the pods that disappeared and
    exactly those that appeared. *)
Theorem DiffPods_correct old cur :
  hosts_ok old -> hosts_ok cur ->
  (forall n, n ∈ DeletedPods (DiffPods old cur) <-> n ∈ names old /\ n ∉ names cur) /\
  (forall n, n ∈ AddedPods (DiffPods old cur) <-> n ∈ names cur /\ n ∉ names old).
Proof.
  intros Ho Hc. pose proof (DiffPods_inv old cur Ho Hc) as Hi.
  assert (forall (f : podDiffInfo -> string) n,
    n ∈ omap (fun kv => if String.eqb (f kv.2) nonExist then Some kv.1 else None) (map_to_list (DiffPods old cur)) <->
    exists info, DiffPods old cur !! n = Some info /\ f info = nonExist) as Hf.
  { intros f n. rewrite list_elem_of_omap. split.
    - intros ([k info] & Hin & Hk). cbn in Hk. apply elem_of_map_to_list in Hin.
      destruct (String.eqb_spec (f info) nonExist); [|done]. simplify_eq. eauto.
    - intros (info & Hl & Hn). exists (n, info). split; [by apply elem_of_map_to_list|]. cbn. by rewrite Hn. }
  split; intros n; unfold DeletedPods, AddedPods; rewrite Hf; specialize (Hi n);
    destruct (DiffPods old cur !! n) as [info|]; set_solver.
Qed.

Lemma DiffPods_correct_witness :
  "b" ∈ DeletedPods (DiffPods [ready_pod "a"; ready_pod "b"] [ready_pod "a"; ready_pod "c"]).
Proof.
  apply (DiffPods_correct [ready_pod "a"; ready_pod "b"] [ready_pod "a"; ready_pod "c"]).
  - repeat constructor; discriminate.
  - repeat constructor; discriminate.
  - split; set_solver.
Defined.

(** ** What waiting for pods waits for *)

(** A round that keeps the loop going. *)
Definition keeps_waiting (options : WaitForPodOptions) (r : round) : Prop :=
  match r with
  | Interval desired (Ok pods) => wait_condition options pods desired = false
  | _ => False
  end.

Lemma wait_loop_ok name options rounds old st :
  wait_loop name options rounds old st = Some WaitOk <->
  exists pre desired pods post, rounds = pre ++ Interval desired (Ok pods) :: post /\
    Forall (keeps_waiting options) pre /\ wait_condition options pods desired = true.
Proof.
  revert old st. induction rounds as [|r rounds IH]; intros old st; cbn.
  { split; [done|]. intros (pre & d & pods & post & Hr & _). by destruct pre. }
  assert (forall x xs, (exists pre desired pods post, x :: xs = pre ++ Interval desired (Ok pods) :: post /\
      Forall (keeps_waiting options) pre /\ wait_condition options pods desired = true) <->
    (exists desired pods, x = Interval desired (Ok pods) /\ wait_condition options pods desired = true) \/
    (keeps_waiting options x /\ exists pre desired pods post, xs = pre ++ Interval desired (Ok pods) :: post /\
      Forall (keeps_waiting options) pre /\ wait_condition options pods desired = true)) as Hcons.
  { intros x xs. split.
    - intros ([|y pre] & d & pods & post & Hx & Hpre & Hc); cbn in Hx; simplify_eq; [left; eauto|].
      apply Forall_cons in Hpre as [Hy Hpre]. right. eauto 10.
    - intros [(d & pods & -> & Hc)|(Hk & pre & d & pods & post & -> & Hpre & Hc)].
      + by exists [], d, pods, xs.
      + exists (x :: pre), d, pods, post. split_and!; [done|by constructor|done]. }
  rewrite Hcons. destruct r as [dl d|d [pods|e]]; cbn.
  - split; [done|]. intros [(? & ? & ? & _)|[[] _]]. done.
  - destruct (wait_condition options pods d) eqn:Hc.
    + split; [|done]. intros _. left. eauto.
    + rewrite IH. split; [by right|]. intros [(? & ? & [= <- <-] & ?)|[_ ?]]; [congruence|done].
  - split; [done|]. intros [(? & ? & ? & _)|[[] _]]. done.
Qed.

Lemma updated_le f p :
  (if updated f p then 1 else 0) <= (if bool_decide (podStatus p = RunningAndReady) then 1 else 0).
Proof. unfold updated. case_bool_decide; cbn; [by case_match|done]. Qed.

Lemma status_excl p :
  (if bool_decide (podStatus p = RunningAndReady) then 1 else 0) +
  (if bool_decide (podStatus p = Inactive) then 1 else 0) <= 1.
Proof. repeat case_bool_decide; try congruence; lia. Qed.

(** Without an error margin the condition says: every pod is ready and updated, or
    inactive, and as many as desired are ready. *)
Lemma wait_condition_exact options pods desired :
  CountErrorMargin options <= 0 -> wait_condition options pods desired = true ->
  count_status RunningAndReady pods = desired /\
  Forall (fun p => updated (IsPodUpdated options) p = true \/ podStatus p = Inactive) pods.
Proof.
  intros Hm. unfold wait_condition. rewrite (proj2 (Z.ltb_ge _ _)) by done. cbn [andb].
  rewrite orb_false_r, !andb_true_iff, !Z.eqb_eq. intros [[Hlen Hru] Hd].
  unfold ComputePodsStartupStatus in *.
  destruct (count_fold (IsPodUpdated options) pods (mkStartup desired 0 0 0 0 0 0 0 0 0 0 None))
    as (_ & _ & R & _ & _ & _ & I & _ & _ & D). cbn in R, I, D.
  rewrite R, I in Hlen. rewrite R, D in Hru. rewrite D in Hd. split; [lia|].
  set (f := IsPodUpdated options) in *. clearbody f. clear -Hlen Hru.
  assert (forall pods, count_if (updated f) pods <= count_status RunningAndReady pods /\
            count_status RunningAndReady pods + count_status Inactive pods <= Z.of_nat (length pods)) as Hb.
  { clear. induction pods as [|p pods [IH1 IH2]]; [done|]. rewrite count_if_cons, !count_status_cons. cbn [length].
    pose proof (updated_le f p). pose proof (status_excl p). lia. }
  induction pods as [|p pods IH]; [constructor|].
  rewrite !count_status_cons in *. rewrite count_if_cons in Hru. cbn [length] in Hlen.
  destruct (Hb pods) as [Hb1 Hb2].
  pose proof (updated_le f p) as Hu. pose proof (status_excl p) as Hs.
  constructor.
  - destruct (updated f p); [by left|]. right. repeat case_bool_decide; try done; lia.
  - apply IH; lia.
Qed.

(** C27: [WaitForPods] returns success exactly at the first round whose listing
    meets the condition, before which it saw neither the context end nor a
    failed listing. Without an error margin that listing consists of exactly
    the desired number of running, ready and updated pods and otherwise only of
    inactive ones: pods that are pending, terminating, not ready or not updated
    keep it waiting. *)
Theorem WaitForPods_correct name options first rounds :
  (WaitForPods name options (Ok first) rounds = Some WaitOk <->
     exists pre desired pods post, rounds = pre ++ Interval desired (Ok pods) :: post /\
       Forall (keeps_waiting options) pre /\ wait_condition options pods desired = true) /\
  (CountErrorMargin options <= 0 -> forall pods desired, wait_condition options pods desired = true ->
     count_status RunningAndReady pods = desired /\
     Forall (fun p => updated (IsPodUpdated options) p = true \/ podStatus p = Inactive) pods).
Proof.
  split; [apply wait_loop_ok|]. intros Hm pods desired. by apply wait_condition_exact.
Qed.
