(* ===== verification/RuntimeObjects.v ===== *)
(** * Controller objects (pkg/measurement/util/runtimeobjects)

    How many pods a controller object wants: the replica count of the typed
    and unstructured forms, and for daemon sets a counter of the nodes their
    pods can run on, kept up to date by node events. apimachinery's access to
    unstructured content and component-helpers' matching of taints and node
    selectors are an interface. *)

From S2P Require Import Prelude GoErrors Params Client Pods.

(** ** Kubernetes types *)

Record Toleration := mkToleration {
  tol_Key : string;
  tol_Operator : string;
  tol_Value : string;
  tol_Effect : string;
  tol_Seconds : option Z;
}.

Record Taint := mkTaint { taint_Key : string; taint_Value : string; taint_Effect : string }.

(** [Affinity]: nil or its node affinity; a node affinity: its required node
    selector or nil. *)
Record Affinity (NodeSelector : Type) := mkAffinity { NodeAffinity : option (option NodeSelector) }.
Arguments mkAffinity {_} _.
Arguments NodeAffinity {_} _.

Record ObjectMeta := mkObjectMeta {
  om_Namespace : string;
  om_Name : string;
  om_UID : string;
  om_ResourceVersion : string;
}.

(** apimachinery and component-helpers. The Nested accessors answer the field,
    that it is missing, or that it has another type. *)
Class K8sLib := {
  NodeSelector : Type;
  PodSpecBody : Type;
  Node : Type;
  node_Taints : Node -> list Taint;
  NestedMap : gmap string value -> list string -> result (option (gmap string value));
  NestedInt64 : gmap string value -> list string -> result (option Z);
  NestedStringMap : gmap string value -> list string -> result (option (gmap string string));
  NestedSlice : gmap string value -> list string -> result (option (list value));
  AffinityFromUnstructured : gmap string value -> Affinity NodeSelector * option error;
  TolerationFromUnstructured : gmap string value -> Toleration * option error;
  TemplateFromUnstructured : gmap string value -> result PodSpecBody;
  DeepDerivative : PodSpecBody -> PodSpecBody -> bool;
  specs_DeepEqual : option value -> option value -> bool;
  LabelSelectorAsSelector : gmap string string -> result string;
  MatchNodeSelectorTerms : Node -> NodeSelector -> result bool;
  FindMatchingUntoleratedTaint : list Taint -> list Toleration -> (Taint -> bool) -> option Taint;
}.

(** [Toleration.MatchToleration]: tolerations are unique by key, effect,
    operator and value. *)
Definition MatchToleration (t u : Toleration) : bool :=
  String.eqb (tol_Key t) (tol_Key u) && String.eqb (tol_Effect t) (tol_Effect u)
  && String.eqb (tol_Operator t) (tol_Operator u) && String.eqb (tol_Value t) (tol_Value u).

Section RuntimeObjects.
Context {KL : K8sLib}.

(** What the code reads of a [corev1.PodSpec]. *)
Record PodSpec := mkPodSpec {
  ps_NodeSelector : gmap string string;
  ps_Affinity : option (Affinity NodeSelector);
  ps_Tolerations : list Toleration;
  ps_HostNetwork : bool;
}.

(** A typed controller: its kind, [Spec.Replicas], [Spec.Parallelism] for
    jobs, [Spec.Template.Spec] for daemon sets, and the spec as a value. *)
Inductive typedKind :=
| ReplicationController | ReplicaSet | Deployment | StatefulSet | DaemonSet | Job | OtherKind.

Record typedSpec := mkTypedSpec {
  ts_Replicas : option Z;
  ts_Parallelism : option Z;
  ts_PodSpec : PodSpec;
  ts_Value : value;
}.

Inductive runtimeObject :=
| Unstructured (om : ObjectMeta) (kind : string) (content : gmap string value)
| Typed (om : ObjectMeta) (kind : typedKind) (spec : typedSpec).

Definition obj_meta (o : runtimeObject) : ObjectMeta :=
  match o with Unstructured om _ _ => om | Typed om _ _ => om end.

(** ** Reading objects *)

Definition GetResourceVersionFromRuntimeObject (obj : runtimeObject) : result Z :=
  let version := om_ResourceVersion (obj_meta obj) in
  if String.eqb version "" then Ok 0
  else match ParseUint version with
       | Some v => Ok v
       | None => Err (External "strconv.ParseUint")
       end.

Definition getSpecFromUnstrutured (om : ObjectMeta) (content : gmap string value)
  : result (gmap string value) :=
  match NestedMap content ["spec"] with
  | Err err => Err (Errorf "try to acquire spec failed, %v" [AErr err])
  | Ok None => Err (Errorf "try to acquire spec failed, no field spec for obj %s" [AStr (om_Name om)])
  | Ok (Some spec) => Ok spec
  end.

(** [Ok None] is the nil interface. [ObjString]: the [%v] of an object. *)
Definition GetSpecFromRuntimeObject (ObjString : runtimeObject -> string) (obj : option runtimeObject)
  : result (option value) :=
  match obj with
  | None => Ok None
  | Some (Unstructured om kind content) =>
      match getSpecFromUnstrutured om content with
      | Err err => Err err
      | Ok spec => Ok (Some (VMap spec))
      end
  | Some (Typed om OtherKind spec as o) =>
      Err (Errorf "unsupported kind when getting spec: %v" [AStr (ObjString o)])
  | Some (Typed om _ spec) => Ok (Some (ts_Value spec))
  end.

Definition IsEqualRuntimeObjectsSpec (ObjString : runtimeObject -> string)
    (runtimeObj1 runtimeObj2 : option runtimeObject) : result bool :=
  spec1 ← GetSpecFromRuntimeObject ObjString runtimeObj1;
  spec2 ← GetSpecFromRuntimeObject ObjString runtimeObj2;
  Ok (specs_DeepEqual spec1 spec2).

(** The predicate is applied to the spec of a pod. *)
Definition getIsPodUpdatedPodPredicateFromUnstructured (ContentString : string) (content : gmap string value)
  : result (PodSpecBody -> option error) :=
  match NestedMap content ["spec"; "template"] with
  | Err err => Err (Errorf "failed to get pod template: %v" [AErr err])
  | Ok None => Err (Errorf "spec.template is not set in object %v" [AStr ContentString])
  | Ok (Some templateMap) =>
      match TemplateFromUnstructured templateMap with
      | Err _ => Err (Errorf "failed to parse spec.teemplate as v1.PodTemplateSpec" [])
      | Ok template =>
          Ok (fun podSpec =>
                if negb (DeepDerivative template podSpec)
                then Some (External "Not matching templates") else None)
      end
  end.

Definition GetIsPodUpdatedPredicateFromRuntimeObject (ObjString : runtimeObject -> string)
    (obj : runtimeObject) : result (PodSpecBody -> option error) :=
  match obj with
  | Unstructured _ _ content => getIsPodUpdatedPodPredicateFromUnstructured (ObjString obj) content
  | Typed _ _ _ => Err (Errorf "unsupported kind when getting updated pod predicate: %v" [AStr (ObjString obj)])
  end.

(** ** Tolerations of daemon set pods *)

Fixpoint toleration_loop (toleration : Toleration) (old : list Toleration) (new : list Toleration) (updated : bool)
  : list Toleration :=
  match old with
  | [] => if updated then new else new ++ [toleration]
  | t :: old' =>
      if MatchToleration toleration t
      then toleration_loop toleration old' (new ++ [toleration]) true
      else toleration_loop toleration old' (new ++ [t]) updated
  end.

Definition with_tolerations (spec : PodSpec) (ts : list Toleration) : PodSpec :=
  mkPodSpec (ps_NodeSelector spec) (ps_Affinity spec) ts (ps_HostNetwork spec).

Definition addOrUpdateTolerationInPodSpec (spec : PodSpec) (toleration : Toleration) : PodSpec :=
  with_tolerations spec (toleration_loop toleration (ps_Tolerations spec) [] false).

Definition exists_toleration (key effect : string) : Toleration := mkToleration key "Exists" "" effect None.

Definition daemon_tolerations (hostNetwork : bool) : list Toleration :=
  [exists_toleration "node.kubernetes.io/not-ready" "NoExecute";
   exists_toleration "node.kubernetes.io/disk-pressure" "NoSchedule";
   exists_toleration "node.kubernetes.io/memory-pressure" "NoSchedule";
   exists_toleration "node.kubernetes.io/pid-pressure" "NoSchedule";
   exists_toleration "node.kubernetes.io/unschedulable" "NoSchedule"]
  ++ (if hostNetwork then [exists_toleration "node.kubernetes.io/network-unavailable" "NoSchedule"] else []).

Definition addOrUpdateDaemonPodTolerations (spec : PodSpec) : PodSpec :=
  fold_left addOrUpdateTolerationInPodSpec (daemon_tolerations (ps_HostNetwork spec)) spec.

(** A panic is [None]: the type assertion on an element that is no map. *)
Fixpoint tolerations_loop (spec : PodSpec) (l : list value) : option (PodSpec * option error) :=
  match l with
  | [] => Some (spec, None)
  | VMap m :: l' =>
      match TolerationFromUnstructured m with
      | (_, Some err) => Some (spec, Some err)
      | (t, None) => tolerations_loop (addOrUpdateTolerationInPodSpec spec t) l'
      end
  | _ :: _ => None
  end.

Definition getDaemonSetTolerationsFromUnstructuredSpec (p : gmap string value) (spec : PodSpec)
  : option (PodSpec * option error) :=
  let spec := addOrUpdateDaemonPodTolerations spec in
  match NestedSlice p ["tolerations"] with
  | Err err => Some (spec, Some err)
  | Ok None => Some (spec, None)
  | Ok (Some l) => tolerations_loop spec l
  end.

(** A missing template or spec gives a nil parser, which reads like an empty one. *)
Definition newDaemonSetPodSpecParser (spec : gmap string value) : result (gmap string value) :=
  match NestedMap spec ["template"] with
  | Err err => Err err
  | Ok None => Ok ∅
  | Ok (Some template) =>
      match NestedMap template ["spec"] with
      | Err err => Err err
      | Ok None => Ok ∅
      | Ok (Some podSpec) => Ok podSpec
      end
  end.

Definition getDaemonSetNodeSelectorFromUnstructuredSpec (p : gmap string value) (spec : PodSpec)
  : PodSpec * option error :=
  let set sel := mkPodSpec sel (ps_Affinity spec) (ps_Tolerations spec) (ps_HostNetwork spec) in
  match NestedStringMap p ["nodeSelector"] with
  | Err err => (set ∅, Some err)
  | Ok sel => (set (default ∅ sel), None)
  end.

Definition getDaemonSetAffinityFromUnstructuredSpec (p : gmap string value) (spec : PodSpec)
  : PodSpec * option error :=
  match NestedMap p ["affinity"] with
  | Err err => (spec, Some err)
  | Ok None => (spec, None)
  | Ok (Some m) =>
      let '(affinity, err) := AffinityFromUnstructured m in
      (mkPodSpec (ps_NodeSelector spec) (Some affinity) (ps_Tolerations spec) (ps_HostNetwork spec), err)
  end.

(** ** Replicas watchers *)

Record NodeCounter := mkNodeCounter {
  nc_nodeSelector : string;
  nc_affinity : option (Affinity NodeSelector);
  nc_tolerations : list Toleration;
  nc_replicas : Z;
}.

Definition NewNodeCounter (nodeSelector : string) (affinity : option (Affinity NodeSelector))
    (tolerations : list Toleration) : NodeCounter := mkNodeCounter nodeSelector affinity tolerations 0.

(** The implementations of the [ReplicasWatcher] interface. *)
Inductive ReplicasWatcher :=
| ConstReplicas (ReplicasCount : Z)
| NodeCounterWatcher (n : NodeCounter).

Definition Replicas (w : ReplicasWatcher) : Z :=
  match w with
  | ConstReplicas n => n
  | NodeCounterWatcher n => nc_replicas n
  end.

Definition podMatchesNodeAffinity (affinity : option (Affinity NodeSelector)) (node : Node) : result bool :=
  match affinity with
  | Some a =>
      match NodeAffinity a with
      | Some nodeAffinity =>
          match nodeAffinity with
          | None => Ok true
          | Some required => MatchNodeSelectorTerms node required
          end
      | None => Ok true
      end
  | None => Ok true
  end.

(** The object of a node event: nil, a node, or another type. *)
Inductive nodeObj := NodeNil | NodeObj (n : Node) | NodeOther.

Definition blocking_effect (t : Taint) : bool :=
  String.eqb (taint_Effect t) "NoExecute" || String.eqb (taint_Effect t) "NoSchedule".

Definition shouldRun (n : NodeCounter) (obj : nodeObj) : bool * option error :=
  match obj with
  | NodeNil => (false, None)
  | NodeOther => (false, Some (External "unexpected type of obj"))
  | NodeObj node =>
      let '(matched, err) :=
        match podMatchesNodeAffinity (nc_affinity n) node with
        | Ok b => (b, None)
        | Err err => (false, Some err)
        end in
      let hasUntoleratedTaint :=
        match FindMatchingUntoleratedTaint (node_Taints node) (nc_tolerations n) blocking_effect with
        | Some _ => true | None => false
        end in
      (negb hasUntoleratedTaint && matched, err)
  end.

Definition NodeCounter_handleObject (n : NodeCounter) (oldObj newObj : nodeObj) : NodeCounter * option error :=
  match shouldRun n oldObj with
  | (_, Some err) => (n, Some err)
  | (oldO, None) =>
      match shouldRun n newObj with
      | (_, Some err) => (n, Some err)
      | (newO, None) =>
          if Bool.eqb newO oldO then (n, None)
          else
            let replicas := if newO && negb oldO then nc_replicas n + 1 else nc_replicas n - 1 in
            (mkNodeCounter (nc_nodeSelector n) (nc_affinity n) (nc_tolerations n) (wrap64 replicas), None)
      end
  end.

Definition getDaemonSetNumSchedulableNodes (podSpec : PodSpec) : result ReplicasWatcher :=
  match LabelSelectorAsSelector (ps_NodeSelector podSpec) with
  | Err err => Err err
  | Ok selector => Ok (NodeCounterWatcher (NewNodeCounter selector (ps_Affinity podSpec) (ps_Tolerations podSpec)))
  end.

Definition emptyPodSpec : PodSpec := mkPodSpec ∅ None [] false.

Definition int64_replicas (what : string) (r : result (option Z)) : result ReplicasWatcher :=
  match r with
  | Err err => Err (Errorf ("try to acquire " +:+ what +:+ " failed, %v") [AErr err])
  | Ok None => Ok (ConstReplicas 0)
  | Ok (Some replicas) => Ok (ConstReplicas replicas)
  end.

Definition tryAcquireReplicasFromUnstructuredSpec (spec : gmap string value) (kind : string)
  : option (result ReplicasWatcher) :=
  if String.eqb kind "DaemonSet" then
    match newDaemonSetPodSpecParser spec with
    | Err err => Some (Err err)
    | Ok parser =>
        match getDaemonSetNodeSelectorFromUnstructuredSpec parser emptyPodSpec with
        | (_, Some err) => Some (Err err)
        | (podSpec, None) =>
            match getDaemonSetAffinityFromUnstructuredSpec parser podSpec with
            | (_, Some err) => Some (Err err)
            | (podSpec, None) =>
                match getDaemonSetTolerationsFromUnstructuredSpec parser podSpec with
                | None => None
                | Some (_, Some err) => Some (Err err)
                | Some (podSpec, None) => Some (getDaemonSetNumSchedulableNodes podSpec)
                end
            end
        end
    end
  else if String.eqb kind "Job" then Some (int64_replicas "job parallelism" (NestedInt64 spec ["parallelism"]))
  else Some (int64_replicas "replicas" (NestedInt64 spec ["replicas"])).

Definition getReplicasFromUnstrutured (om : ObjectMeta) (kind : string) (content : gmap string value)
  : option (result ReplicasWatcher) :=
  match getSpecFromUnstrutured om content with
  | Err err => Some (Err err)
  | Ok spec => tryAcquireReplicasFromUnstructuredSpec spec kind
  end.

Definition GetReplicasFromRuntimeObject (ObjString : runtimeObject -> string) (obj : option runtimeObject)
  : option (result ReplicasWatcher) :=
  match obj with
  | None => Some (Ok (ConstReplicas 0))
  | Some (Unstructured om kind content) => getReplicasFromUnstrutured om kind content
  | Some (Typed _ (ReplicationController | ReplicaSet | Deployment | StatefulSet) spec) =>
      Some (Ok (ConstReplicas (default 0 (ts_Replicas spec))))
  | Some (Typed _ DaemonSet spec) => Some (getDaemonSetNumSchedulableNodes (ts_PodSpec spec))
  | Some (Typed _ Job spec) => Some (Ok (ConstReplicas (default 0 (ts_Parallelism spec))))
  | Some (Typed _ OtherKind spec as o) =>
      Some (Err (Errorf "unsupported kind when getting number of replicas: %v" [AStr (ObjString o)]))
  end.

(** ** Tolerations: facts *)

Definition tol_key (t : Toleration) : string * string * string * string :=
  (tol_Key t, tol_Effect t, tol_Operator t, tol_Value t).

Lemma MatchToleration_iff t u : MatchToleration t u = true <-> tol_key t = tol_key u.
Proof.
  unfold MatchToleration, tol_key. rewrite !andb_true_iff, !String.eqb_eq.
  split; [intros [[[-> ->] ->] ->]; done|intros [= -> -> -> ->]; done].
Qed.

(** The loop replaces the tolerations with the key of the new one, or appends it. *)
Lemma toleration_loop_spec t old new updated :
  toleration_loop t old new updated =
    new ++ ((fun u => if MatchToleration t u then t else u) <$> old)
    ++ (if updated || existsb (MatchToleration t) old then [] else [t]).
Proof.
  revert new updated. induction old as [|u old IH]; intros new updated; cbn.
  - rewrite orb_false_r. destruct updated; by rewrite ?app_nil_r.
  - destruct (MatchToleration t u); rewrite IH; cbn [orb]; rewrite <- app_assoc; [|done].
    by rewrite orb_true_r.
Qed.

Lemma addOrUpdate_keys spec t :
  forall k, k ∈ tol_key <$> ps_Tolerations (addOrUpdateTolerationInPodSpec spec t) <->
            k ∈ tol_key <$> ps_Tolerations spec \/ k = tol_key t.
Proof.
  intros k. cbn. rewrite toleration_loop_spec. cbn [app orb].
  assert (tol_key <$> ((fun u => if MatchToleration t u then t else u) <$> ps_Tolerations spec) =
          tol_key <$> ps_Tolerations spec) as Hk.
  { rewrite <- list_fmap_compose. apply list_fmap_ext. intros _ u _. cbn.
    destruct (MatchToleration t u) eqn:Hm; [|done]. by apply MatchToleration_iff. }
  rewrite fmap_app, Hk, elem_of_app. destruct (existsb (MatchToleration t) (ps_Tolerations spec)) eqn:He.
  - rewrite elem_of_nil. apply existsb_exists in He as (u & Hu%list_elem_of_In & Hm%MatchToleration_iff).
    split; [naive_solver|]. intros [?| ->]; [naive_solver|]. left. rewrite Hm. by apply list_elem_of_fmap_2.
  - cbn. rewrite list_elem_of_singleton. done.
Qed.

Lemma addOrUpdate_nodup spec t :
  NoDup (tol_key <$> ps_Tolerations spec) ->
  NoDup (tol_key <$> ps_Tolerations (addOrUpdateTolerationInPodSpec spec t)).
Proof.
  intros Hnd. cbn. rewrite toleration_loop_spec. cbn [app orb].
  assert (tol_key <$> ((fun u => if MatchToleration t u then t else u) <$> ps_Tolerations spec) =
          tol_key <$> ps_Tolerations spec) as Hk.
  { rewrite <- list_fmap_compose. apply list_fmap_ext. intros _ u _. cbn.
    destruct (MatchToleration t u) eqn:Hm; [|done]. by apply MatchToleration_iff. }
  rewrite fmap_app, Hk. destruct (existsb (MatchToleration t) (ps_Tolerations spec)) eqn:He.
  - by rewrite app_nil_r.
  - cbn. apply NoDup_app. split; [done|]. split; [|apply NoDup_singleton].
    intros k Hin ->%list_elem_of_singleton.
    apply list_elem_of_fmap in Hin as (u & Hm & Hu).
    assert (existsb (MatchToleration t) (ps_Tolerations spec) = true) as Ht; [|congruence].
    apply existsb_exists. exists u. split; [by apply list_elem_of_In|]. by apply MatchToleration_iff.
Qed.


(** ** The node counter follows the nodes *)

Definition of_node (o : option Node) : nodeObj := match o with Some n => NodeObj n | None => NodeNil end.

(** The nodes of the cluster under a node event: the node's new state, or
    [None] when it is deleted; the informer hands over the old state too. *)
Definition node_step (nm : NodeCounter * gmap string Node) (ev : string * option Node)
  : NodeCounter * gmap string Node :=
  let '(n, m) := nm in
  ((NodeCounter_handleObject n (of_node (m !! ev.1)) (of_node ev.2)).1,
   partial_alter (fun _ => ev.2) ev.1 m).

(** Whether a daemon pod runs on the node, and that the node can be judged. *)
Definition runs_on (n : NodeCounter) (node : Node) : bool := (shouldRun n (NodeObj node)).1.
Definition judged (n : NodeCounter) (node : Node) : Prop := (shouldRun n (NodeObj node)).2 = None.

Definition num_running (n : NodeCounter) (m : gmap string Node) : nat :=
  size (filter (fun kv : string * Node => runs_on n kv.2 = true) m).

Definition same_settings (n n' : NodeCounter) : Prop :=
  nc_affinity n' = nc_affinity n /\ nc_tolerations n' = nc_tolerations n.

Lemma same_settings_shouldRun n n' obj : same_settings n n' -> shouldRun n' obj = shouldRun n obj.
Proof. intros [Ha Ht]. unfold shouldRun. by rewrite Ha, Ht. Qed.

Lemma num_running_settings n n' m : same_settings n n' -> num_running n' m = num_running n m.
Proof.
  intros Hs. unfold num_running, runs_on. f_equal. apply map_filter_ext. intros k x _.
  by rewrite (same_settings_shouldRun n n').
Qed.

(** One event changes the number of nodes by the difference of the verdicts. *)
Lemma num_running_alter n m k v :
  Z.of_nat (num_running n (partial_alter (fun _ => v) k m)) =
  Z.of_nat (num_running n m)
  - (if m !! k is Some x then if runs_on n x then 1 else 0 else 0)
  + (if v is Some y then if runs_on n y then 1 else 0 else 0).
Proof.
  unfold num_running. set (P := fun kv : string * Node => runs_on n kv.2 = true).
  assert (filter P m !! k = (if m !! k is Some x then if runs_on n x then Some x else None else None)) as Hl.
  { rewrite map_lookup_filter. destruct (m !! k) as [x|]; [|done]. cbn. unfold P; cbn.
    destruct (runs_on n x) eqn:Hr; [by rewrite option_guard_True|by rewrite option_guard_False]. }
  assert (filter P (delete k m) = delete k (filter P m)) as Hd by apply map_filter_delete.
  assert (Z.of_nat (size (filter P (delete k m))) =
          Z.of_nat (size (filter P m)) - (if m !! k is Some x then if runs_on n x then 1 else 0 else 0)) as Hsd.
  { rewrite Hd, map_size_delete, Hl.
    destruct (m !! k) as [x|]; [|unfold id; lia]. destruct (runs_on n x); [|unfold id; lia].
    assert (size (filter P m) <> 0%nat); [|lia].
    intros He%map_size_empty_inv. rewrite He in Hl. by rewrite lookup_empty in Hl. }
  destruct v as [y|]; cbn [partial_alter].
  - change (partial_alter (fun _ => Some y) k m) with (<[k := y]> m).
    rewrite <- (insert_delete_eq m), map_filter_insert.
    unfold P at 1; cbn. destruct (decide (runs_on n y = true)) as [Hy|Hy].
    + rewrite map_size_insert_None; [rewrite Hy; lia|]. rewrite map_lookup_filter, lookup_delete_eq. done.
    + rewrite delete_delete_eq, Hsd. destruct (runs_on n y); [done|]. lia.
  - change (partial_alter (fun _ => None) k m) with (delete k m). rewrite Hsd. lia.
Qed.

Lemma handleObject_step n m k v :
  (forall x, m !! k = Some x -> judged n x) -> (forall y, v = Some y -> judged n y) ->
  nc_replicas n = Z.of_nat (num_running n m) ->
  Z.of_nat (num_running n m) < 2 ^ 62 ->
  let n' := (NodeCounter_handleObject n (of_node (m !! k)) (of_node v)).1 in
  same_settings n n' /\
  nc_replicas n' = Z.of_nat (num_running n (partial_alter (fun _ => v) k m)).
Proof.
  intros Hx Hy Hr Hlt. cbn zeta. rewrite num_running_alter.
  assert (exists b, shouldRun n (of_node (m !! k)) = (b, None) /\
            (if m !! k is Some x then if runs_on n x then 1 else 0 else 0) = (if b then 1 else 0))
    as (bo & Ho & ->).
  { destruct (m !! k) as [x|]; [|by exists false]. exists (runs_on n x).
    unfold judged, runs_on in *. specialize (Hx x eq_refl). cbn [of_node].
    destruct (shouldRun n (NodeObj x)). cbn in *. by subst. }
  assert (exists b, shouldRun n (of_node v) = (b, None) /\
            (if v is Some y then if runs_on n y then 1 else 0 else 0) = (if b then 1 else 0))
    as (bn & Hn & ->).
  { destruct v as [y|]; [|by exists false]. exists (runs_on n y).
    unfold judged, runs_on in *. specialize (Hy y eq_refl). cbn [of_node].
    destruct (shouldRun n (NodeObj y)). cbn in *. by subst. }
  unfold NodeCounter_handleObject. rewrite Ho, Hn.
  destruct bo, bn; cbn; (split; [done|]); rewrite ?wrap64_id; lia.
Qed.

(** C18: the node counter of a daemon set: after any sequence of node events,
    as the informer delivers them and as long as the nodes can be judged, the
    number of replicas is the number of nodes that exist, match the node
    affinity and have no blocking taint the pods do not tolerate. *)
Theorem NodeCounter_counts nodeSelector affinity tolerations events :
  let n := NewNodeCounter nodeSelector affinity tolerations in
  Forall (fun ev : string * option Node => forall node, ev.2 = Some node -> judged n node) events ->
  Z.of_nat (length events) < 2 ^ 62 ->
  let '(n', m) := fold_left node_step events (n, ∅) in
  Replicas (NodeCounterWatcher n') = Z.of_nat (num_running n m).
Proof.
  cbn zeta. set (n := NewNodeCounter nodeSelector affinity tolerations). intros Hj Hlen.
  assert (let '(n', m) := fold_left node_step events (n, ∅) in
          same_settings n n' /\ nc_replicas n' = Z.of_nat (num_running n m) /\
          (num_running n m <= length events)%nat /\ map_Forall (fun _ x => judged n x) m) as H.
  2:{ destruct (fold_left node_step events (n, ∅)) as [n' m]. by destruct H as (_ & ? & _). }
  induction events as [|[k v] events IH] using rev_ind.
  { cbn. split; [done|]. split; [done|]. split; [done|]. apply map_Forall_empty. }
  rewrite fold_left_app. cbn [fold_left].
  apply Forall_app in Hj as [Hj [Hv _]%Forall_cons]. rewrite length_app in *. cbn [length] in *.
  specialize (IH Hj ltac:(lia)).
  destruct (fold_left node_step events (n, ∅)) as [n' m]. destruct IH as (Hs & Hr & Hle & Hm).
  cbn [node_step fst snd] in *.
  assert (forall x, judged n x -> judged n' x) as Hjj.
  { intros x. unfold judged. by rewrite (same_settings_shouldRun n n'). }
  destruct (handleObject_step n' m k v) as [Hs' Hr'].
  - intros x Hx. apply Hjj. by apply (Hm k).
  - intros y Hy. apply Hjj. by apply Hv.
  - by rewrite (num_running_settings n n').
  - rewrite (num_running_settings n n') by done. lia.
  - rewrite (num_running_settings n n') in Hr' by done.
    split; [destruct Hs, Hs'; split; congruence|]. split; [done|]. split.
    + pose proof (num_running_alter n m k v) as Ha.
      destruct v as [y|]; [destruct (runs_on n y)|]; destruct (m !! k) as [x|]; [destruct (runs_on n x)| |destruct (runs_on n x)| |destruct (runs_on n x)|]; lia.
    + intros k' x. destruct (decide (k = k')) as [<-|Hk].
      * rewrite lookup_partial_alter_eq. intros ->. by apply Hv.
      * rewrite lookup_partial_alter_ne by done. apply Hm.
Qed.

(** The pod spec read from an unstructured daemon set never has the host
    network: the toleration that depends on it is never added. *)
Lemma unstructured_ignores_host_network p sel spec err :
  getDaemonSetNodeSelectorFromUnstructuredSpec p emptyPodSpec = (sel, None) ->
  getDaemonSetAffinityFromUnstructuredSpec p sel = (spec, err) ->
  daemon_tolerations (ps_HostNetwork spec) = daemon_tolerations false.
Proof.
  unfold getDaemonSetNodeSelectorFromUnstructuredSpec, getDaemonSetAffinityFromUnstructuredSpec.
  intros H1 H2. repeat case_match; simplify_eq; done.
Qed.
End RuntimeObjects.

(** ** Witnesses: a small library on which the functions run *)

Fixpoint nested (m : gmap string value) (path : list string) : result (option value) :=
  match path with
  | [] => Ok (Some (VMap m))
  | [k] => Ok (m !! k)
  | k :: path' =>
      match m !! k with
      | None => Ok None
      | Some (VMap m') => nested m' path'
      | Some _ => Err (External "accessor error")
      end
  end.

Definition nested_as {A} (f : value -> option A) (m : gmap string value) (path : list string) : result (option A) :=
  match nested m path with
  | Err e => Err e
  | Ok None => Ok None
  | Ok (Some v) => match f v with Some a => Ok (Some a) | None => Err (External "accessor error") end
  end.

Definition tolerates (ts : list Toleration) (t : Taint) : bool :=
  existsb (fun x => String.eqb (tol_Key x) (taint_Key t) && String.eqb (tol_Effect x) (taint_Effect t)) ts.

(** Specs are told apart by their replica count. *)
Definition spec_code (v : value) : option Z :=
  match v with VMap m => match m !! "replicas" with Some (VInt64 z) => Some z | _ => None end | _ => None end.

#[local] Instance small_k8s : K8sLib := {|
  NodeSelector := string;
  PodSpecBody := string;
  Node := string * list Taint;
  node_Taints n := n.2;
  NestedMap := nested_as (fun v => match v with VMap m => Some m | _ => None end);
  NestedInt64 := nested_as (fun v => match v with VInt64 z => Some z | _ => None end);
  NestedStringMap := nested_as (fun v => match v with
    | VMap m => Some (omap (fun v => match v with VString s => Some s | _ => None end) m) | _ => None end);
  NestedSlice := nested_as (fun v => match v with VSlice l => Some l | _ => None end);
  AffinityFromUnstructured m := (mkAffinity None, None);
  TolerationFromUnstructured m :=
    (exists_toleration (match m !! "key" with Some (VString s) => s | _ => "" end)
       (match m !! "effect" with Some (VString s) => s | _ => "" end), None);
  TemplateFromUnstructured m := Ok "";
  DeepDerivative := String.eqb;
  specs_DeepEqual a b := bool_decide (spec_code <$> a = spec_code <$> b);
  LabelSelectorAsSelector m := Ok "";
  MatchNodeSelectorTerms n s := Ok (String.eqb n.1 s);
  FindMatchingUntoleratedTaint taints ts f := head (List.filter (fun t => f t && negb (tolerates ts t)) taints);
|}.

Definition ex_node_events : list (string * option Node) :=
  [("n1", Some ("n1", [])); ("n2", Some ("n2", [mkTaint "gpu" "" "NoSchedule"])); ("n3", Some ("n3", []));
   ("n2", Some ("n2", [])); ("n1", None)].

Lemma NodeCounter_counts_witness :
  let '(n', m) := fold_left node_step ex_node_events (NewNodeCounter "" None [], ∅) in
  Replicas (NodeCounterWatcher n') = Z.of_nat (num_running (NewNodeCounter "" None []) m).
Proof.
  apply (NodeCounter_counts "" None [] ex_node_events); [|done].
  repeat constructor; intros node [= <-]; done.
Defined.

Example ex_node_count :
  Replicas (NodeCounterWatcher (fold_left node_step ex_node_events (NewNodeCounter "" None [], ∅)).1) = 2.
Proof. by vm_compute. Qed.

(** A daemon set with the host network still lacks its toleration. *)
Example ex_daemonset :
  match tryAcquireReplicasFromUnstructuredSpec
    {[ "template" := VMap {[ "spec" := VMap {[ "hostNetwork" := VBool true;
       "tolerations" := VSlice [VMap {[ "key" := VString "gpu"; "effect" := VString "NoSchedule" ]}] ]} ]} ]}
    "DaemonSet" with
  | Some (Ok (NodeCounterWatcher n)) => nc_tolerations n = daemon_tolerations false ++ [exists_toleration "gpu" "NoSchedule"]
  | _ => False
  end.
Proof. by vm_compute. Qed.
