(* ===== verification/Indexer.v ===== *)
(** * Finding the pods of a controller
      (pkg/measurement/util/controlled_pods_indexer.go, the pod stores of
      pkg/measurement/util/object_store.go)

    Pods are found by the UID of their controller; for deployments through
    the replica sets in between, which are kept after their deletion as long
    as pods refer to them. client-go's [cache.Indexer] is an interface with
    its documented behaviour. Its errors (an unknown index, an object of
    another type) cannot occur with the indexers and objects used here and
    are left out. *)

From S2P Require Import Prelude GoErrors Pods RuntimeObjects.

(** client-go's thread-safe store: objects by key, and an index that finds the
    objects whose index values include a given one. *)
Class CacheIndexer := {
  cstore : Type -> Type;
  c_contents : forall {A}, cstore A -> gmap string A;
  c_new : forall {A}, cstore A;
  c_Add : forall {A}, (A -> string) -> cstore A -> A -> cstore A;
  c_Delete : forall {A}, (A -> string) -> cstore A -> A -> cstore A;
  c_GetByKey : forall {A}, cstore A -> string -> option A;
  c_ByIndex : forall {A}, (A -> list string) -> cstore A -> string -> list A;
  c_new_spec : forall A, c_contents (@c_new A) = ∅;
  c_Add_spec : forall A (key : A -> string) s a, c_contents (c_Add key s a) = <[key a := a]> (c_contents s);
  c_Delete_spec : forall A (key : A -> string) s a, c_contents (c_Delete key s a) = delete (key a) (c_contents s);
  c_GetByKey_spec : forall A (s : cstore A) k, c_GetByKey s k = c_contents s !! k;
  c_ByIndex_spec : forall A (idx : A -> list string) s v a,
    a ∈ c_ByIndex idx s v <-> exists k, c_contents s !! k = Some a /\ v ∈ idx a;
}.

(** ** Objects *)

(** A pod with its key and the UID of its controller, if any. *)
Record ipod := mkIPod { ip_key : string; ip_pod : Pod; ip_controller : option string }.

(** A replica set: its UID and the UID of its controller. *)
Record rset := mkRSet { rs_uid : string; rs_controller : option string }.

(** What an informer hands to a delete handler: the last state, or a
    tombstone with the key when the deletion itself was missed. *)
Inductive deletedObj (A : Type) :=
| Deleted (a : A)
| DeletedFinalStateUnknown (key : string).
Arguments Deleted {_} _.
Arguments DeletedFinalStateUnknown {_} _.

Section Indexer.
Context {CI : CacheIndexer}.

Definition controller_index (c : option string) : list string :=
  match c with Some uid => [uid] | None => [] end.

(** [controllerUIDIndexFunc] on pods and on replica sets. *)
Definition pod_index (p : ipod) : list string := controller_index (ip_controller p).
Definition rs_index (r : rset) : list string := controller_index (rs_controller r).

Definition deletionHandlingUIDKeyFunc (obj : deletedObj rset) : string :=
  match obj with
  | DeletedFinalStateUnknown key => key
  | Deleted r => rs_uid r
  end.
Definition rs_key (r : rset) : string := deletionHandlingUIDKeyFunc (Deleted r).

(** A tombstone has no metadata: both answer the empty UID for it. *)
Definition getControllerInfo (obj : deletedObj ipod) : string :=
  match obj with
  | Deleted p => default "" (ip_controller p)
  | DeletedFinalStateUnknown _ => ""
  end.

Definition getObjUID (obj : deletedObj rset) : string :=
  match obj with
  | Deleted r => rs_uid r
  | DeletedFinalStateUnknown _ => ""
  end.

Record ControlledPodsIndexer := mkIndexer {
  podsIndexer : cstore ipod;
  rsIndexer : cstore rset;
  rsPendingDeletion : gset string;
}.

Definition NewControlledPodsIndexer : ControlledPodsIndexer := mkIndexer c_new c_new ∅.

Definition appendPodsControlledBy (p : ControlledPodsIndexer) (res : list ipod) (uid : string) : list ipod :=
  res ++ c_ByIndex pod_index (podsIndexer p) uid.

Definition clearRSDataIfPossibleLocked (p : ControlledPodsIndexer) (rsUID : string) : ControlledPodsIndexer :=
  if negb (bool_decide (rsUID ∈ rsPendingDeletion p)) then p
  else
    match appendPodsControlledBy p [] rsUID with
    | _ :: _ => p
    | [] =>
        let pending := rsPendingDeletion p ∖ {[rsUID]} in
        match c_GetByKey (rsIndexer p) rsUID with
        | None => mkIndexer (podsIndexer p) (rsIndexer p) pending
        | Some obj => mkIndexer (podsIndexer p) (c_Delete rs_key (rsIndexer p) obj) pending
        end
    end.

(** The informers update their own store, then call the handlers. *)
Definition pod_UpdateFunc (p : ControlledPodsIndexer) (oldObj newObj : ipod) : ControlledPodsIndexer :=
  let oldOwnerUID := getControllerInfo (Deleted oldObj) in
  let newOwnerUID := getControllerInfo (Deleted newObj) in
  if String.eqb oldOwnerUID newOwnerUID then p else clearRSDataIfPossibleLocked p oldOwnerUID.

Definition pod_DeleteFunc (p : ControlledPodsIndexer) (obj : deletedObj ipod) : ControlledPodsIndexer :=
  clearRSDataIfPossibleLocked p (getControllerInfo obj).

Definition rs_AddFunc (p : ControlledPodsIndexer) (obj : rset) : ControlledPodsIndexer :=
  mkIndexer (podsIndexer p) (c_Add rs_key (rsIndexer p) obj) (rsPendingDeletion p).

Definition rs_UpdateFunc : ControlledPodsIndexer -> rset -> ControlledPodsIndexer := rs_AddFunc.

Definition rs_DeleteFunc (p : ControlledPodsIndexer) (obj : deletedObj rset) : ControlledPodsIndexer :=
  let rsUID := getObjUID obj in
  clearRSDataIfPossibleLocked
    (mkIndexer (podsIndexer p) (rsIndexer p) (rsPendingDeletion p ∪ {[rsUID]})) rsUID.

Definition PodsControlledBy (p : ControlledPodsIndexer) (kind uid : string) : list ipod :=
  let podOwners := if String.eqb kind "Deployment" then rs_uid <$> c_ByIndex rs_index (rsIndexer p) uid
                   else [uid] in
  fold_left (appendPodsControlledBy p) podOwners [].

(** [OwnerReferenceBasedPodStore.List] *)
Definition OwnerReferenceBasedPodStore_List (p : ControlledPodsIndexer) (owner : string * string) : list Pod :=
  ip_pod <$> PodsControlledBy p owner.1 owner.2.

Definition OwnerReferenceBasedPodStore_String (om : ObjectMeta) : string :=
  Sprintf "namespace(%s), controlledBy(%s)" [FStr (om_Namespace om); FStr (om_Name om)].

(** ** Events of a cluster

    The pod informer changes its store and then notifies the handlers, which run
    later, in the order of the notifications; the handlers of the other informer
    run in between, so nothing orders pod events against replica set events. *)

Inductive notification :=
| PodUpdated (old new : ipod)
| PodDeleted (obj : deletedObj ipod).

Inductive event :=
| PodSet (p : ipod)                          (* the pod store gets a new or updated pod *)
| PodGone (key : string) (missed : bool)     (* or loses one; the deletion may have been missed *)
| PodNotified                                (* the next pod notification is handled *)
| RSSet (r : rset)                           (* a replica set notification is handled *)
| RSGone (uid : string) (missed : bool).

(** The pods in the informer's store and the notifications not handled yet; the
    last state of every replica set ever seen and those seen deleted. Of the
    latter, [w_bereft] are those that at some moment since had no pod;
    [w_missed] are the controllers that lost a pod by a missed deletion. *)
Record world := mkWorld {
  w_pods : gmap string ipod;
  w_queue : list notification;
  w_last : gmap string rset;
  w_deleted : gset string;
  w_bereft : gset string;
  w_missed : gset string;
}.

Definition controllers (pods : gmap string ipod) : gset string :=
  list_to_set (omap (fun kp => ip_controller kp.2) (map_to_list pods)).

Definition note_bereft (w : world) : world :=
  mkWorld (w_pods w) (w_queue w) (w_last w) (w_deleted w)
    (w_bereft w ∪ (w_deleted w ∖ controllers (w_pods w))) (w_missed w).

Definition world_step (w : world) (e : event) : world :=
  note_bereft
  match e with
  | PodSet p =>
      mkWorld (<[ip_key p := p]> (w_pods w))
        (w_queue w ++ match w_pods w !! ip_key p with Some old => [PodUpdated old p] | None => [] end)
        (w_last w) (w_deleted w) (w_bereft w) (w_missed w)
  | PodGone key missed =>
      match w_pods w !! key with
      | None => w
      | Some old =>
          mkWorld (delete key (w_pods w))
            (w_queue w ++ [PodDeleted (if missed then DeletedFinalStateUnknown key else Deleted old)])
            (w_last w) (w_deleted w) (w_bereft w)
            (if missed then w_missed w ∪ list_to_set (controller_index (ip_controller old)) else w_missed w)
      end
  | PodNotified => mkWorld (w_pods w) (tail (w_queue w)) (w_last w) (w_deleted w) (w_bereft w) (w_missed w)
  | RSSet r => mkWorld (w_pods w) (w_queue w) (<[rs_uid r := r]> (w_last w)) (w_deleted w) (w_bereft w) (w_missed w)
  | RSGone uid missed =>
      mkWorld (w_pods w) (w_queue w) (w_last w) (if missed then w_deleted w else w_deleted w ∪ {[uid]})
        (w_bereft w) (w_missed w)
  end.

Definition with_pods (p : ControlledPodsIndexer) (ps : cstore ipod) : ControlledPodsIndexer :=
  mkIndexer ps (rsIndexer p) (rsPendingDeletion p).

Definition indexer_step (w : world) (p : ControlledPodsIndexer) (e : event) : ControlledPodsIndexer :=
  match e with
  | PodSet new => with_pods p (c_Add ip_key (podsIndexer p) new)
  | PodGone key _ =>
      match w_pods w !! key with
      | None => p
      | Some old => with_pods p (c_Delete ip_key (podsIndexer p) old)
      end
  | PodNotified =>
      match w_queue w with
      | [] => p
      | PodUpdated old new :: _ => pod_UpdateFunc p old new
      | PodDeleted obj :: _ => pod_DeleteFunc p obj
      end
  | RSSet r => rs_AddFunc p r
  | RSGone uid missed =>
      match w_last w !! uid with
      | None => p
      | Some old => rs_DeleteFunc p (if missed then DeletedFinalStateUnknown uid else Deleted old)
      end
  end.

Definition has_pod (w : world) (uid : string) : Prop :=
  exists k p, w_pods w !! k = Some p /\ ip_controller p = Some uid.

(** UIDs are not empty and not reused; a replica set is seen before it is deleted,
    and not again afterwards. *)
Definition event_ok (w : world) (e : event) : Prop :=
  match e with
  | PodSet p => ip_controller p <> Some ""
  | PodGone _ _ | PodNotified => True
  | RSSet r => (rs_uid r ∉ w_deleted w) /\ rs_uid r <> ""
  | RSGone uid _ => is_Some (w_last w !! uid) /\ uid ∉ w_deleted w
  end.

Definition world0 : world := mkWorld ∅ [] ∅ ∅ ∅ ∅.

Inductive reachable : world -> ControlledPodsIndexer -> Prop :=
| reach_init : reachable world0 NewControlledPodsIndexer
| reach_step w p e : reachable w p -> event_ok w e -> reachable (world_step w e) (indexer_step w p e).

(** ** The invariant *)

(** The notification tells that a pod of [u] is not one any more. *)
Definition leaves (u : string) (n : notification) : Prop :=
  match n with
  | PodUpdated old new => getControllerInfo (Deleted old) = u /\ getControllerInfo (Deleted new) <> u
  | PodDeleted (Deleted old) => getControllerInfo (Deleted old) = u
  | PodDeleted (DeletedFinalStateUnknown _) => False
  end.

(** There is, or will be, a reason to look at [u] again; or the last one was missed. *)
Definition watched (w : world) (u : string) : Prop :=
  has_pod w u \/ Exists (leaves u) (w_queue w) \/ u ∈ w_missed w.

Record inv (w : world) (p : ControlledPodsIndexer) : Prop := {
  inv_pods : c_contents (podsIndexer p) = w_pods w;
  inv_keys : map_Forall (fun k x => ip_key x = k /\ ip_controller x <> Some "") (w_pods w);
  inv_last : map_Forall (fun u r => rs_uid r = u /\ u <> "") (w_last w);
  inv_deleted : forall u, u ∈ w_deleted w -> is_Some (w_last w !! u);
  inv_bereft : forall u, u ∈ w_deleted w -> u ∉ w_bereft w -> has_pod w u;
  inv_pending : forall u, u ∈ rsPendingDeletion p -> u ∈ w_deleted w /\ watched w u;
  inv_sound : forall u r, c_contents (rsIndexer p) !! u = Some r ->
    w_last w !! u = Some r /\ (u ∈ w_deleted w -> u ∈ rsPendingDeletion p);
  inv_complete : forall u r, w_last w !! u = Some r -> u ∉ w_bereft w -> c_contents (rsIndexer p) !! u = Some r;
}.

Lemma elem_appendPods p res uid x :
  x ∈ appendPodsControlledBy p res uid <->
  x ∈ res \/ exists k, c_contents (podsIndexer p) !! k = Some x /\ ip_controller x = Some uid.
Proof.
  unfold appendPodsControlledBy. rewrite elem_of_app, c_ByIndex_spec. unfold pod_index.
  assert (forall c, uid ∈ controller_index c <-> c = Some uid) as Hc.
  { intros [u|]; cbn; [rewrite list_elem_of_singleton|rewrite elem_of_nil]; naive_solver. }
  by setoid_rewrite Hc.
Qed.

Lemma appendPods_nil w p uid :
  c_contents (podsIndexer p) = w_pods w -> appendPodsControlledBy p [] uid = [] <-> ~ has_pod w uid.
Proof.
  intros Hp. pose proof (fun x => elem_appendPods p [] uid x) as He. rewrite Hp in He. split.
  - intros Hnil (k & x & Hx & Hc). rewrite Hnil in He.
    apply (not_elem_of_nil x), He. eauto.
  - intros Hno. destruct (appendPodsControlledBy p [] uid) as [|x l]; [done|]. exfalso. apply Hno.
    destruct (proj1 (He x)) as [H|(k & ? & ?)]; [left|by apply not_elem_of_nil in H|]. by exists k, x.
Qed.

Lemma elem_controllers pods u :
  u ∈ controllers pods <-> exists k p, pods !! k = Some p /\ ip_controller p = Some u.
Proof.
  unfold controllers. rewrite elem_of_list_to_set, list_elem_of_omap. split.
  - intros ([k p] & Hin%elem_of_map_to_list & Hc). eauto.
  - intros (k & p & Hin & Hc). exists (k, p). by rewrite elem_of_map_to_list.
Qed.

Lemma note_bereft_has_pod w u : u ∈ w_deleted w -> u ∉ w_bereft (note_bereft w) -> has_pod w u.
Proof.
  cbn. intros Hd Hb. apply elem_controllers. apply dec_stable. intros Hn. apply Hb.
  apply elem_of_union_r, elem_of_difference. done.
Qed.

Lemma deleted_nonempty w p u : inv w p -> u ∈ w_deleted w -> u <> "".
Proof. intros Hi Hu. destruct (inv_deleted _ _ Hi u Hu) as [r Hr]. by apply (inv_last _ _ Hi u r). Qed.

(** Clearing forgets the replica set if it is to be deleted and has no pod, and
    does nothing otherwise. *)
Lemma clear_cases w p uid :
  c_contents (podsIndexer p) = w_pods w ->
  (forall r, c_contents (rsIndexer p) !! uid = Some r -> rs_uid r = uid) ->
  let p' := clearRSDataIfPossibleLocked p uid in
  (p' = p /\ (uid ∈ rsPendingDeletion p -> has_pod w uid)) \/
  (uid ∈ rsPendingDeletion p /\ ~ has_pod w uid /\ podsIndexer p' = podsIndexer p /\
   rsPendingDeletion p' = rsPendingDeletion p ∖ {[uid]} /\
   c_contents (rsIndexer p') = delete uid (c_contents (rsIndexer p))).
Proof.
  intros Hp Hk. cbn zeta. unfold clearRSDataIfPossibleLocked.
  case_bool_decide as Hin; cbn [negb]; [|by left].
  pose proof (appendPods_nil w p uid Hp) as Hnil.
  destruct (appendPodsControlledBy p [] uid) as [|x l] eqn:Ha; last first.
  { left. split; [done|]. intros _.
    assert (x ∈ appendPodsControlledBy p [] uid) as Hx by (rewrite Ha; left).
    apply elem_appendPods in Hx as [Hx|(k & Hx & Hc)]; [by apply not_elem_of_nil in Hx|].
    rewrite Hp in Hx. by exists k, x. }
  right. split; [done|]. split; [by apply Hnil|]. rewrite c_GetByKey_spec.
  destruct (c_contents (rsIndexer p) !! uid) as [obj|] eqn:Hg; cbn; (split; [done|]); (split; [done|]).
  - rewrite c_Delete_spec. unfold rs_key, deletionHandlingUIDKeyFunc. by rewrite (Hk obj).
  - by rewrite delete_id.
Qed.

Lemma inv_init : inv world0 NewControlledPodsIndexer.
Proof.
  split; cbn; rewrite ?c_new_spec.
  - done.
  - apply map_Forall_empty.
  - apply map_Forall_empty.
  - intros u. set_solver.
  - intros u. set_solver.
  - intros u. set_solver.
  - intros u r. by rewrite lookup_empty.
  - intros u r. by rewrite lookup_empty.
Qed.

(** A change of the pod store: the replica sets are not touched, and whoever
    loses a pod gets a notification, unless it was missed. *)
Lemma inv_store w w' p ps :
  inv w p -> c_contents ps = w_pods w' ->
  map_Forall (fun k x => ip_key x = k /\ ip_controller x <> Some "") (w_pods w') ->
  w_last w' = w_last w -> w_deleted w' = w_deleted w -> w_bereft w' = w_bereft w ->
  (forall u, u ∈ w_deleted w -> watched w u -> watched w' u) ->
  inv (note_bereft w') (with_pods p ps).
Proof.
  intros [Hp Hk Hl Hd Hb Hpend Hs Hc] Hps Hk' El Ed Eb Hw. split; cbn; rewrite ?El, ?Ed, ?Eb; try done.
  - intros u Hu Hnb. apply (note_bereft_has_pod w'); [by rewrite Ed|]. cbn. by rewrite Ed, Eb.
  - intros u [Hu Hwu]%Hpend. split; [done|]. by apply Hw.
  - intros u r Hr Hnb. apply Hc; [done|]. intros Hin. apply Hnb. by apply elem_of_union_l.
Qed.

(** What remains of the pods of [u] when the one under [key] is taken away. *)
Lemma has_pod_without w key u :
  has_pod w u ->
  (exists k p, k <> key /\ w_pods w !! k = Some p /\ ip_controller p = Some u) \/
  (exists old, w_pods w !! key = Some old /\ ip_controller old = Some u).
Proof. intros (k & p & Hk & Hc). destruct (decide (k = key)) as [->|]; eauto 10. Qed.

Lemma inv_PodSet w p x : inv w p -> event_ok w (PodSet x) -> inv (world_step w (PodSet x)) (indexer_step w p (PodSet x)).
Proof.
  intros Hi Hx. pose proof Hi as [Hp Hk _ _ _ _ _ _].
  eapply (inv_store w); cbn [w_pods w_last w_deleted w_bereft w_missed w_queue]; try done.
  - by rewrite c_Add_spec, Hp.
  - by apply map_Forall_insert_2.
  - intros u Hu [Hh|[Hq|Hm]]; [|by right; left; apply Exists_app; left|by right; right].
    unfold watched, has_pod. cbn [w_pods w_queue w_missed].
    destruct (has_pod_without w (ip_key x) u Hh) as [(k & q & Hne & Hq & Hc)|(old & Hold & Hc)].
    { left. exists k, q. by rewrite lookup_insert_ne. }
    destruct (decide (ip_controller x = Some u)) as [Hxu|Hxu].
    { left. exists (ip_key x), x. by rewrite lookup_insert_eq. }
    right. left. rewrite Hold. apply Exists_app. right. constructor. cbn. rewrite Hc. split; [done|].
    pose proof (deleted_nonempty _ _ _ Hi Hu). destruct (ip_controller x); cbn; naive_solver.
Qed.

Lemma inv_PodGone w p key missed :
  inv w p -> inv (world_step w (PodGone key missed)) (indexer_step w p (PodGone key missed)).
Proof.
  intros Hi. pose proof Hi as [Hp Hk _ _ _ _ _ _]. unfold world_step, indexer_step.
  destruct (w_pods w !! key) as [old|] eqn:Hold; last first.
  { destruct p as [ps rs pe]. by apply (inv_store w w (mkIndexer ps rs pe) ps). }
  destruct (Hk _ _ Hold) as [Hkey _].
  eapply (inv_store w); cbn [w_pods w_last w_deleted w_bereft w_missed w_queue]; try done.
  - by rewrite c_Delete_spec, Hp, Hkey.
  - by apply map_Forall_delete.
  - intros u Hu Hw. unfold watched, has_pod. cbn [w_pods w_queue w_missed].
    destruct Hw as [Hh|[Hq|Hm]].
    + destruct (has_pod_without w key u Hh) as [(k & q & Hne & Hq & Hc)|(o & Ho & Hc)].
      { left. exists k, q. by rewrite lookup_delete_ne. }
      simplify_eq. right. rewrite Hc. destruct missed.
      * right. apply elem_of_union_r. cbn. set_solver.
      * left. apply Exists_app. right. constructor. cbn. by rewrite Hc.
    + right. left. apply Exists_app. by left.
    + right. right. destruct missed; [by apply elem_of_union_l|done].
Qed.

Lemma Exists_tail u (q : list notification) :
  Exists (leaves u) q -> (exists n, head q = Some n /\ leaves u n) \/ Exists (leaves u) (tail q).
Proof. destruct q as [|n q]; [by intros ?%Exists_nil|]. intros [?|?]%Exists_cons; cbn; eauto. Qed.

(** The controller the handler of the next notification looks at, if it does. *)
Definition looked_at (w : world) : option string :=
  match w_queue w with
  | [] => None
  | PodUpdated old new :: _ =>
      if String.eqb (getControllerInfo (Deleted old)) (getControllerInfo (Deleted new)) then None
      else Some (getControllerInfo (Deleted old))
  | PodDeleted obj :: _ => Some (getControllerInfo obj)
  end.

Lemma notified_step w p :
  indexer_step w p PodNotified =
  match looked_at w with Some u => clearRSDataIfPossibleLocked p u | None => p end.
Proof.
  unfold looked_at. cbn. destruct (w_queue w) as [|[old new|obj] q]; [done| |done].
  unfold pod_UpdateFunc. by destruct (String.eqb _ _).
Qed.

Lemma leaves_looked_at w u n : head (w_queue w) = Some n -> leaves u n -> looked_at w = Some u.
Proof.
  unfold looked_at. destruct (w_queue w) as [|[old new|[old|k]] q]; cbn; intros [= <-]; cbn.
  - intros [<- Hne]. destruct (String.eqb_spec (default "" (ip_controller old)) (default "" (ip_controller new))); congruence.
  - by intros <-.
  - done.
Qed.

Lemma inv_PodNotified w p : inv w p -> inv (world_step w PodNotified) (indexer_step w p PodNotified).
Proof.
  intros Hi. pose proof Hi as [Hp Hk Hl Hd Hb Hpend Hs Hc]. rewrite notified_step.
  assert (forall p', podsIndexer p' = podsIndexer p ->
    (forall u, u ∈ rsPendingDeletion p' -> u ∈ rsPendingDeletion p /\ (looked_at w = Some u -> has_pod w u)) ->
    (forall u r, c_contents (rsIndexer p') !! u = Some r ->
       c_contents (rsIndexer p) !! u = Some r /\ (u ∈ rsPendingDeletion p -> u ∈ rsPendingDeletion p')) ->
    (forall u r, c_contents (rsIndexer p) !! u = Some r ->
       c_contents (rsIndexer p') !! u = Some r \/ u ∈ w_deleted w /\ ~ has_pod w u) ->
    inv (world_step w PodNotified) p') as Hstep.
  { intros p' Ep Hpe Hso Hco. split; cbn; rewrite ?Ep; try done.
    - intros u Hu Hnb. by apply (note_bereft_has_pod w).
    - intros u [Hu Hlook]%Hpe. destruct (Hpend u Hu) as [Hdu Hw]. split; [done|].
      destruct Hw as [Hh|[Hq|Hm]]; [by left| |by right; right].
      apply Exists_tail in Hq as [(n & Hn & Hlv)|Hq]; [|by right; left].
      left. apply Hlook. by eapply leaves_looked_at.
    - intros u r [Hr Hpu]%Hso. destruct (Hs u r Hr) as [Hlast Hdel]. auto.
    - intros u r Hr Hnb. apply not_elem_of_union in Hnb as [Hnb Hnd].
      destruct (Hco u r (Hc u r Hr Hnb)) as [?|[Hdu Hno]]; [done|]. exfalso. apply Hno.
      apply elem_controllers. apply dec_stable. intros Hn. apply Hnd. by apply elem_of_difference. }
  destruct (looked_at w) as [u|] eqn:Hu; [|by apply Hstep; auto].
  destruct (clear_cases w p u Hp) as [[-> Hh]|(Hin & Hno & Ep & Epend & Ers)].
  { intros r Hr. destruct (Hs u r Hr) as [Hlast _]. by apply (Hl u r). }
  - apply Hstep; auto. intros v Hv. split; [done|]. intros [= <-]. by apply Hh.
  - destruct (Hpend u Hin) as [Hdu _]. apply Hstep; try done.
    + intros v. rewrite Epend, elem_of_difference, elem_of_singleton. intros [? Hne]. split; [done|].
      intros [= <-]. done.
    + intros v r. rewrite Ers, lookup_delete_Some, Epend, elem_of_difference, elem_of_singleton. naive_solver.
    + intros v r Hr. rewrite Ers. destruct (decide (v = u)) as [->|Hne]; [by right|].
      left. by rewrite lookup_delete_ne.
Qed.

Lemma inv_RSSet w p r : inv w p -> event_ok w (RSSet r) -> inv (world_step w (RSSet r)) (indexer_step w p (RSSet r)).
Proof.
  intros [Hp Hk Hl Hd Hb Hpend Hs Hc] [Hnd Hne].
  assert (forall u x, c_contents (c_Add rs_key (rsIndexer p) r) !! u = Some x <->
    (u = rs_uid r /\ x = r) \/ (u <> rs_uid r /\ c_contents (rsIndexer p) !! u = Some x)) as Hadd.
  { intros u x. rewrite c_Add_spec, lookup_insert_Some. unfold rs_key, deletionHandlingUIDKeyFunc. naive_solver. }
  split; cbn; try done.
  - by apply map_Forall_insert_2.
  - intros u Hu. rewrite lookup_insert_is_Some. destruct (decide (rs_uid r = u)); auto.
  - intros u Hu Hnb. by apply (note_bereft_has_pod w).
  - intros u x [[-> ->]|[Hu Hx]]%Hadd.
    + by rewrite lookup_insert_eq.
    + rewrite lookup_insert_ne by done. by apply Hs.
  - intros u x Hx Hnb. apply not_elem_of_union in Hnb as [Hnb _]. apply Hadd.
    apply lookup_insert_Some in Hx as [[<- <-]|[? Hx]]; [by left|]. right. split; [done|]. by apply Hc.
Qed.

(** A tombstone tells the handlers nothing. *)
Lemma tombstone_ignored w p key :
  inv w p ->
  let p' := rs_DeleteFunc p (DeletedFinalStateUnknown key) in
  podsIndexer p' = podsIndexer p /\ rsPendingDeletion p' = rsPendingDeletion p /\
  c_contents (rsIndexer p') = c_contents (rsIndexer p).
Proof.
  intros Hi. pose proof Hi as [Hp Hk Hl Hd Hb Hpend Hs Hc]. cbn zeta. unfold rs_DeleteFunc. cbn [getObjUID].
  assert ("" ∉ rsPendingDeletion p) as Hne.
  { intros [Hu _]%Hpend. by apply (deleted_nonempty _ _ _ Hi) in Hu. }
  assert (c_contents (rsIndexer p) !! "" = None) as Hnone.
  { destruct (c_contents (rsIndexer p) !! "") as [r|] eqn:Hr; [|done].
    destruct (Hs _ _ Hr) as [Hlast _]. by destruct (Hl _ _ Hlast). }
  destruct (clear_cases w (mkIndexer (podsIndexer p) (rsIndexer p) (rsPendingDeletion p ∪ {[""]})) "")
    as [[_ Hh]|(_ & _ & Ep & Epe & Ers)]; cbn; try done.
  - intros r. cbn. by rewrite Hnone.
  - exfalso. destruct (Hh ltac:(set_solver)) as (k & x & Hx & Hcx). by destruct (Hk _ _ Hx).
  - cbn in Ep, Epe, Ers. rewrite Ep, Epe, Ers. split_and!; [done|set_solver|by rewrite delete_id].
Qed.

Lemma inv_RSGone w p uid missed :
  inv w p -> event_ok w (RSGone uid missed) -> inv (world_step w (RSGone uid missed)) (indexer_step w p (RSGone uid missed)).
Proof.
  intros Hi [[r0 Hr] Hnd]. pose proof Hi as [Hp Hk Hl Hd Hb Hpend Hs Hc]. cbn [indexer_step]. rewrite Hr.
  destruct missed.
  { destruct (tombstone_ignored w p uid Hi) as (Ep & Epe & Ers).
    split; cbn; rewrite ?Ep, ?Epe, ?Ers; try done.
    - intros u Hu Hnb. by apply (note_bereft_has_pod w).
    - intros u x Hx Hnb. apply Hc; [done|]. set_solver. }
  destruct (Hl _ _ Hr) as [Huid Hne]. unfold rs_DeleteFunc. cbn [getObjUID]. rewrite Huid.
  set (p1 := mkIndexer (podsIndexer p) (rsIndexer p) (rsPendingDeletion p ∪ {[uid]})).
  assert (forall p', podsIndexer p' = podsIndexer p ->
    (forall u, u ∈ rsPendingDeletion p' -> u ∈ rsPendingDeletion p1 /\ (u = uid -> has_pod w u)) ->
    (forall u r, c_contents (rsIndexer p') !! u = Some r ->
       c_contents (rsIndexer p) !! u = Some r /\ (u ∈ rsPendingDeletion p1 -> u ∈ rsPendingDeletion p')) ->
    (forall u r, c_contents (rsIndexer p) !! u = Some r ->
       c_contents (rsIndexer p') !! u = Some r \/ u = uid /\ ~ has_pod w u) ->
    inv (world_step w (RSGone uid false)) p') as Hstep.
  { intros p' Ep Hpe Hso Hco. split; cbn; rewrite ?Ep; try done.
    - intros u [Hu| ->%elem_of_singleton]%elem_of_union; eauto.
    - intros u Hu Hnb. by apply (note_bereft_has_pod (mkWorld (w_pods w) (w_queue w) (w_last w) (w_deleted w ∪ {[uid]}) (w_bereft w) (w_missed w))).
    - intros u [Hu Hh]%Hpe. unfold p1 in Hu. cbn in Hu. destruct (decide (u = uid)) as [->|Hneu].
      + split; [set_solver|]. left. by apply Hh.
      + destruct (Hpend u ltac:(set_solver)) as [Hdu Hw]. split; [set_solver|done].
    - intros u r [Hru Hpu]%Hso. destruct (Hs u r Hru) as [Hlast Hdel]. split; [done|].
      intros Hdu. apply Hpu. unfold p1. cbn. set_solver.
    - intros u r Hru Hnb. apply not_elem_of_union in Hnb as [Hnb Hnd'].
      destruct (Hco u r (Hc u r Hru Hnb)) as [?|[-> Hno]]; [done|]. exfalso. apply Hno.
      apply elem_controllers. apply dec_stable. intros Hn. apply Hnd'. set_solver. }
  destruct (clear_cases w p1 uid Hp) as [[-> Hh]|(Hin & Hno & Ep & Epend & Ers)].
  { intros r Hru. destruct (Hs uid r Hru) as [Hlast _]. by apply (Hl uid r). }
  - apply Hstep; auto. intros v Hv. split; [done|]. intros ->. apply Hh. unfold p1. cbn. set_solver.
  - apply Hstep; try done.
    + intros v. rewrite Epend, elem_of_difference, elem_of_singleton. naive_solver.
    + intros v r. rewrite Ers, lookup_delete_Some, Epend, elem_of_difference, elem_of_singleton. naive_solver.
    + intros v r Hrv. rewrite Ers. destruct (decide (v = uid)) as [->|Hnev]; [by right|].
      left. by rewrite lookup_delete_ne.
Qed.

Lemma reachable_inv w p : reachable w p -> inv w p.
Proof.
  induction 1 as [|w p [x|key missed| |r|uid missed] _ IH Hok]; [apply inv_init|by apply inv_PodSet|by apply inv_PodGone|
    by apply inv_PodNotified|by apply inv_RSSet|by apply inv_RSGone].
Qed.

Lemma elem_fold_append p owners res x :
  x ∈ fold_left (appendPodsControlledBy p) owners res <->
  x ∈ res \/ exists u k, u ∈ owners /\ c_contents (podsIndexer p) !! k = Some x /\ ip_controller x = Some u.
Proof.
  revert res. induction owners as [|u owners IH]; intros res; cbn.
  - split; [by left|]. intros [?|(u & k & Hu & _)]; [done|]. by apply not_elem_of_nil in Hu.
  - rewrite IH, elem_appendPods. setoid_rewrite elem_of_cons. naive_solver.
Qed.

(** Which pods a deployment's answer consists of. *)
Lemma elem_deployment_pods p uid x :
  x ∈ PodsControlledBy p "Deployment" uid <->
  exists k u rs ku, c_contents (podsIndexer p) !! k = Some x /\ ip_controller x = Some u /\
    rs_uid rs = u /\ c_contents (rsIndexer p) !! ku = Some rs /\ rs_controller rs = Some uid.
Proof.
  assert (forall rs, uid ∈ rs_index rs <-> rs_controller rs = Some uid) as Hidx.
  { intros rs. unfold rs_index. destruct (rs_controller rs); cbn; [rewrite list_elem_of_singleton|rewrite elem_of_nil]; naive_solver. }
  unfold PodsControlledBy. change (String.eqb "Deployment" "Deployment") with true. cbn [orb].
  rewrite elem_fold_append, elem_of_nil. setoid_rewrite list_elem_of_fmap.
  setoid_rewrite c_ByIndex_spec. setoid_rewrite Hidx. naive_solver.
Qed.


(** A deletion the informer missed arrives as a tombstone, which the handlers
    take for an object without UID: the replica set is kept forever. *)
Lemma tombstone_leaks w p key :
  reachable w p ->
  c_contents (rsIndexer (rs_DeleteFunc p (DeletedFinalStateUnknown key))) = c_contents (rsIndexer p).
Proof. intros Hi%reachable_inv. by destruct (tombstone_ignored w p key Hi) as (_ & _ & ?). Qed.
End Indexer.

(** ** Witness: a deployment whose old replica set is deleted before its pod *)

#[local, refine] Instance map_indexer : CacheIndexer := {|
  cstore := gmap string;
  c_contents A s := s;
  c_new A := ∅;
  c_Add A key s a := <[key a := a]> s;
  c_Delete A key s a := delete (key a) s;
  c_GetByKey A s k := s !! k;
  c_ByIndex A idx s v := filter (fun a => v ∈ idx a) (map_to_list s).*2;
  c_new_spec := _; c_Add_spec := _; c_Delete_spec := _; c_GetByKey_spec := _; c_ByIndex_spec := _;
|}.
Proof.
  - done.
  - done.
  - done.
  - done.
  - intros A idx s v a. rewrite list_elem_of_filter, list_elem_of_fmap. split.
    + intros (Hv & [k x] & -> & Hin%elem_of_map_to_list). eauto.
    + intros (k & Hk & Hv). split; [done|]. exists (k, a). split; [done|]. by apply elem_of_map_to_list.
Defined.

(** The replica set "rs1" is deleted before its pod; "late" is a pod of it that
    is seen only after the replica set was forgotten. *)
Definition ex_rs_events : list event :=
  [RSSet (mkRSet "rs1" (Some "dep")); PodSet (mkIPod "ns/a" (ready_pod "a") (Some "rs1"));
   RSSet (mkRSet "rs2" (Some "dep")); RSGone "rs1" false; PodSet (mkIPod "ns/b" (ready_pod "b") (Some "rs2"))].

Definition ex_late_events : list event :=
  ex_rs_events ++ [PodGone "ns/a" false; PodNotified; PodSet (mkIPod "ns/late" (ready_pod "late") (Some "rs1"))].

Definition ex_step (wp : world * ControlledPodsIndexer) (e : event) : world * ControlledPodsIndexer :=
  (world_step wp.1 e, indexer_step wp.1 wp.2 e).

Definition ex_run (events : list event) : world * ControlledPodsIndexer :=
  fold_left ex_step events (world0, NewControlledPodsIndexer).

Definition ex_indexer : world * ControlledPodsIndexer := ex_run ex_rs_events.

Lemma ex_reachable : reachable ex_indexer.1 ex_indexer.2.
Proof.
  unfold ex_indexer, ex_run, ex_rs_events, ex_step. cbn [fold_left fst snd].
  repeat (apply reach_step); [apply reach_init|..].
  - split; [by apply not_elem_of_empty|done].
  - done.
  - split; [by apply not_elem_of_empty|done].
  - split; [by eexists|by apply not_elem_of_empty].
  - done.
Defined.


Example ex_indexer_pods :
  length (PodsControlledBy ex_indexer.2 "Deployment" "dep") = 2%nat /\
  PodsControlledBy (ex_run (ex_rs_events ++ [PodGone "ns/a" false; PodNotified])).2 "Deployment" "dep" =
    [mkIPod "ns/b" (ready_pod "b") (Some "rs2")].
Proof. by vm_compute. Qed.

(** A pod that arrives after its replica set was forgotten is stored, and not
    found as a pod of the deployment. *)
Example late_pod_not_found :
  is_Some (w_pods (ex_run ex_late_events).1 !! "ns/late") /\
  PodsControlledBy (ex_run ex_late_events).2 "Deployment" "dep" = [mkIPod "ns/b" (ready_pod "b") (Some "rs2")].
Proof. split; [by eexists; vm_compute|by vm_compute]. Qed.
