(* ===== verification/ControlledPods.v ===== *)
(** * Waiting for controlled pods
      (pkg/measurement/common/wait_for_controlled_pods.go,
      pkg/measurement/util/checker/checker_map.go)

    The measurement follows the controller objects of a kind: for every change
    of an object's spec the old checker of the object is stopped and a new one
    started, a goroutine that waits for the object's pods; [gather] waits
    until the handler has seen what a listing shows and then counts the
    verdicts of the checkers.

    Checkers are shared between the checker map and their goroutines, so they
    live in a heap. A goroutine's result arrives as a step of its own, at any
    time. [None] is a panic. *)

From S2P Require Import Prelude GoErrors GoRuntime Params Measurement Pods RuntimeObjects.

(** [cache.DeletionHandlingMetaNamespaceKeyFunc], [schema.ParseGroupVersion],
    [meta.UnsafeGuessKindToResource], the printing of objects and the [Spec]
    field of a pod, which the pods of [Pods] leave out. *)
Class ObjectLib `{K8sLib} := {
  MetaNamespaceKey : runtimeObject -> result string;
  ObjString : runtimeObject -> string;
  ParseGroupVersion : string -> result string;
  UnsafeGuessKindToResource : string -> string -> string;
  PodSpecOf : Pod -> PodSpecBody;
}.

(** ** Checkers *)

Inductive objectStatus := unknown | running | deleted | failed | timeout | deleteTimeout.

#[export] Instance objectStatus_eq_dec : EqDecision objectStatus.
Proof. solve_decision. Defined.

Section ControlledPods.
Context {KL : K8sLib} {OL : ObjectLib} {GL : GoLib} {MR : MapRange}.

(** The object checker, with the arguments its goroutine closes over
    ([oc_obj], [oc_isDeleted], [oc_replicas]) and whether the goroutine is
    done. *)
Record objectChecker := mkChecker {
  oc_status : objectStatus;
  oc_err : option error;
  oc_key : string;
  oc_cancelled : bool;
  oc_duration : Z;
  oc_failedPods : option (list PodInfo);
  oc_obj : runtimeObject;
  oc_isDeleted : bool;
  oc_replicas : ReplicasWatcher;
  oc_finished : bool;
}.

Definition newObjectChecker (key : string) (obj : runtimeObject) (isDeleted : bool) (replicas : ReplicasWatcher)
  : objectChecker := mkChecker unknown None key false 0 None obj isDeleted replicas false.

(** [Stop] calls the cancel function. *)
Definition Stop (o : objectChecker) : objectChecker :=
  mkChecker (oc_status o) (oc_err o) (oc_key o) true (oc_duration o) (oc_failedPods o) (oc_obj o)
    (oc_isDeleted o) (oc_replicas o) (oc_finished o).

Definition getStatus (o : objectChecker) : objectStatus * option error := (oc_status o, oc_err o).

(** How the goroutine ends: the replicas watcher did not start, or
    [WaitForPods] returned. *)
Inductive outcome :=
| StartFailed (err : error)
| Waited (r : wait_result) (deadlineExceeded : bool) (duration : Z).

Definition finish_checker (o : objectChecker) (out : outcome) : objectChecker :=
  let done status err duration pods :=
    mkChecker status err (oc_key o) (oc_cancelled o) duration pods (oc_obj o) (oc_isDeleted o) (oc_replicas o) true in
  match out with
  | StartFailed err =>
      done (oc_status o) (Some (Errorf "failed to start runtimeObjectReplicas: %v" [AErr err]))
        (oc_duration o) (oc_failedPods o)
  | Waited (WaitErr failedPods err) hasTimedOut duration =>
      let status := if hasTimedOut then (if oc_isDeleted o then deleteTimeout else timeout) else failed in
      done status (Some (Errorf "%s: %v" [AStr (oc_key o); AErr err])) duration failedPods
  | Waited WaitOk _ duration =>
      done (if oc_isDeleted o then deleted else running) (oc_err o) duration (oc_failedPods o)
  end.

Definition loc := positive.

(** ** The measurement *)

Record waitForControlledPodsRunningMeasurement := mkWCP {
  apiVersion : string;
  kind : string;
  selector : ObjectSelector;
  operationTimeout : Z;
  countErrorMargin : Z;
  stopCh : chan_state;
  isRunning : bool;
  objectKeys : gset string;
  opResourceVersion : Z;
  gvr : string;
  checkerMap : gmap string loc;
  checkIfPodsAreUpdated : bool;
  heap : gmap loc objectChecker;
}.

Abbreviation measurement_state := waitForControlledPodsRunningMeasurement.

Definition createWaitForControlledPodsRunningMeasurement : measurement_state :=
  mkWCP "" "" NewObjectSelector 0 0 ChanNil false ∅ 0 "" ∅ false ∅.

Definition with_checkers (w : measurement_state) (cm : gmap string loc) (h : gmap loc objectChecker) : measurement_state :=
  mkWCP (apiVersion w) (kind w) (selector w) (operationTimeout w) (countErrorMargin w) (stopCh w) (isRunning w)
    (objectKeys w) (opResourceVersion w) (gvr w) cm (checkIfPodsAreUpdated w) h.

Definition with_cache (w : measurement_state) (keys : gset string) (version : Z) : measurement_state :=
  mkWCP (apiVersion w) (kind w) (selector w) (operationTimeout w) (countErrorMargin w) (stopCh w) (isRunning w)
    keys version (gvr w) (checkerMap w) (checkIfPodsAreUpdated w) (heap w).

(** ** checker_map.go *)

Definition stop_at (h : gmap loc objectChecker) (l : loc) : gmap loc objectChecker := alter Stop l h.

Definition Map_Add (w : measurement_state) (key : string) (c : loc) : measurement_state :=
  let h := match checkerMap w !! key with Some old => stop_at (heap w) old | None => heap w end in
  with_checkers w (<[key := c]> (checkerMap w)) h.

Definition Map_DeleteAndStop (w : measurement_state) (key : string) : measurement_state * bool :=
  match checkerMap w !! key with
  | Some old => (with_checkers w (delete key (checkerMap w)) (stop_at (heap w) old), true)
  | None => (w, false)
  end.

(** [cm = make(...)] assigns the receiver, a local variable: the map keeps
    its entries. *)
Definition Map_Dispose (w : measurement_state) : measurement_state :=
  with_checkers w (checkerMap w) (fold_left (fun h kl => stop_at h kl.2) (range "Dispose" (checkerMap w)) (heap w)).

(** ** Handling objects *)

(** [waitForRuntimeObject] up to the start of the goroutine: the new checker.
    [None]: the panic of [GetReplicasFromRuntimeObject]. *)
Definition waitForRuntimeObject (w : measurement_state) (obj : option runtimeObject) (isDeleted : bool)
  : option (result objectChecker) :=
  match GetReplicasFromRuntimeObject ObjString obj with
  | None => None
  | Some (Err err) => Some (Err err)
  | Some (Ok replicas) =>
      match obj with
      | None => Some (Err (External "object has no meta: object does not implement the Object interfaces"))
      | Some obj =>
          match (if checkIfPodsAreUpdated w then GetIsPodUpdatedPredicateFromRuntimeObject ObjString obj
                 else Ok (fun _ => None)) with
          | Err err => Some (Err err)
          | Ok _ =>
              let replicas := if isDeleted then ConstReplicas 0 else replicas in
              match MetaNamespaceKey obj with
              | Err err => Some (Err (Errorf "meta key creation error: %v" [AErr err]))
              | Ok key => Some (Ok (newObjectChecker key obj isDeleted replicas))
              end
          end
      end
  end.

(** [Some (w, err)]; a nil object has no key. *)
Definition handleObjectLocked (w : measurement_state) (oldObj newObj : option runtimeObject)
  : option (measurement_state * option error) :=
  let isObjDeleted := match newObj with None => true | Some _ => false end in
  let handledObj := if isObjDeleted then oldObj else newObj in
  match handledObj with
  | None => Some (w, Some (Errorf "meta key creation error: %v" [AErr (External "object has no meta")]))
  | Some obj =>
      match MetaNamespaceKey obj with
      | Err err => Some (w, Some (Errorf "meta key creation error: %v" [AErr err]))
      | Ok key =>
          match waitForRuntimeObject w handledObj isObjDeleted with
          | None => None
          | Some (Err err) => Some (w, Some (Errorf "waiting for %v error: %v" [AStr key; AErr err]))
          | Some (Ok checker) =>
              let l := fresh (dom (heap w)) in
              Some (Map_Add (with_checkers w (checkerMap w) (<[l := checker]> (heap w))) key l, None)
          end
      end
  end.

Definition deleteObjectLocked (w : measurement_state) (obj : option runtimeObject) : measurement_state * option error :=
  match obj with
  | None => (w, None)
  | Some obj =>
      match MetaNamespaceKey obj with
      | Err err => (w, Some (Errorf "meta key creation error: %v" [AErr err]))
      | Ok key => ((Map_DeleteAndStop w key).1, None)
      end
  end.

Definition updateOpResourceVersionLocked (w : measurement_state) (runtimeObj : runtimeObject)
  : measurement_state * option error :=
  match GetResourceVersionFromRuntimeObject runtimeObj with
  | Err err => (w, Some (Errorf "retrieving resource version error: %v" [AErr err]))
  | Ok version =>
      (with_cache w (objectKeys w) (if opResourceVersion w <? version then version else opResourceVersion w), None)
  end.

(** One half of [updateCacheLocked]: [change] deletes or inserts the key. *)
Definition update_cache_one (change : gset string -> string -> gset string) (w : measurement_state)
    (obj : option runtimeObject) (errs : list error) : measurement_state * list error :=
  match obj with
  | None => (w, errs)
  | Some obj =>
      let '(w, errs) :=
        match MetaNamespaceKey obj with
        | Err err => (w, errs ++ [Errorf "%s: retrieving key error: %v" [AStr "WaitForControlledPodsRunning"; AErr err]])
        | Ok key => (with_cache w (change (objectKeys w) key) (opResourceVersion w), errs)
        end in
      match updateOpResourceVersionLocked w obj with
      | (w, None) => (w, errs)
      | (w, Some err) => (w, errs ++ [err])
      end
  end.

Definition updateCacheLocked (w : measurement_state) (oldObj newObj : option runtimeObject)
  : measurement_state * option error :=
  let '(w, errs) := update_cache_one (fun keys key => keys ∖ {[key]}) w oldObj [] in
  let '(w, errs) := update_cache_one (fun keys key => keys ∪ {[key]}) w newObj errs in
  (w, match errs with [] => None | _ => Some (ListError errs) end).

(** What the informer passes: nil, a runtime object, or something else. *)
Inductive informerObj := INil | IObj (o : runtimeObject) | IOther.

Definition cast (o : informerObj) : option (option runtimeObject) :=
  match o with INil => Some None | IObj o => Some (Some o) | IOther => None end.

(** Errors are only logged; the deferred cache update always runs. *)
Definition handleObject (w : measurement_state) (oldObj newObj : informerObj) : option measurement_state :=
  match cast oldObj, cast newObj with
  | Some oldRuntimeObj, Some newRuntimeObj =>
      let finish w := (updateCacheLocked w oldRuntimeObj newRuntimeObj).1 in
      match IsEqualRuntimeObjectsSpec ObjString oldRuntimeObj newRuntimeObj with
      | Err _ => Some (finish w)
      | Ok true => Some (finish w)
      | Ok false =>
          if negb (isRunning w) then Some (finish w)
          else
            let '(w, _) := deleteObjectLocked w oldRuntimeObj in
            match handleObjectLocked w oldRuntimeObj newRuntimeObj with
            | None => None
            | Some (w, _) => Some (finish w)
            end
      end
  | _, _ => Some w
  end.

(** What happens to the goroutine of a checker: whether the replicas watcher
    starts, what the pod store lists first and in every round, and whether the
    deadline had passed when the wait returned. *)
Record life := mkLife {
  lf_start : option error;
  lf_name : string;
  lf_first : result (list Pod);
  lf_rounds : list round;
  lf_deadline : bool;
  lf_duration : Z;
}.

Definition checker_options (w : measurement_state) (obj : runtimeObject) : WaitForPodOptions :=
  mkWaitOptions (countErrorMargin w)
    (if checkIfPodsAreUpdated w then
       match GetIsPodUpdatedPredicateFromRuntimeObject ObjString obj with
       | Ok f => Some (fun pod => f (PodSpecOf pod))
       | Err _ => None
       end
     else None).

(** The goroutine of [waitForRuntimeObject]; [None]: it is still waiting. *)
Definition goroutine (w : measurement_state) (o : objectChecker) (lf : life) : option outcome :=
  match lf_start lf with
  | Some err => Some (StartFailed err)
  | None =>
      match WaitForPods (lf_name lf) (checker_options w (oc_obj o)) (lf_first lf) (lf_rounds lf) with
      | None => None
      | Some r => Some (Waited r (lf_deadline lf) (lf_duration lf))
      end
  end.

(** A goroutine finishes. *)
Definition finish (w : measurement_state) (l : loc) (out : outcome) : measurement_state :=
  with_checkers w (checkerMap w) (alter (fun o => finish_checker o out) l (heap w)).

(** ** start, stop *)

(** [indexer]: the result of the shared pods indexer; [synced]: of the informer. *)
Definition start (w : measurement_state) (indexer synced : option error) : measurement_state * option error :=
  if isRunning w then (w, None)
  else
    match ParseGroupVersion (apiVersion w) with
    | Err err => (w, Some err)
    | Ok gv =>
        let w := mkWCP (apiVersion w) (kind w) (selector w) (operationTimeout w) (countErrorMargin w) ChanOpen true
          (objectKeys w) (opResourceVersion w) (UnsafeGuessKindToResource gv (kind w)) (checkerMap w)
          (checkIfPodsAreUpdated w) (heap w) in
        match indexer with
        | Some err => (w, Some err)
        | None => (w, synced)
        end
    end.

(** [queued]: the handler calls still in the worker queue, which [queue.Stop]
    runs to the end. *)
Definition Dispose (w : measurement_state) (queued : list (informerObj * informerObj)) : option measurement_state :=
  if negb (isRunning w) then Some w
  else
    match stopCh w with
    | ChanOpen =>
        let w := mkWCP (apiVersion w) (kind w) (selector w) (operationTimeout w) (countErrorMargin w) ChanClosed false
          (objectKeys w) (opResourceVersion w) (gvr w) (checkerMap w) (checkIfPodsAreUpdated w) (heap w) in
        w ← fold_left (fun ow ev => w ← ow; handleObject w ev.1 ev.2) queued (Some w);
        Some (Map_Dispose w)
    | _ => None
    end.

(** ** gather *)

Record failedPod := mkFailedPod {
  fp_Namespace : string; fp_ControlledBy : string; fp_Name : string; fp_Host : string; fp_Status : string;
}.

(** A nil [PodsStatus] is dereferenced. *)
Definition toFailedPods (ps : option (list PodInfo)) (controlledBy : string) : option (list failedPod) :=
  match ps with
  | None => None
  | Some info =>
      Some (map (fun pod => mkFailedPod (info_Namespace pod) controlledBy (info_Name pod) (info_Hostname pod)
                              (Status_String (info_Status pod))) info)
  end.

(** [ListRuntimeObjectsForKind] lists the kind in all namespaces. *)
Definition getObjectKeysAndMaxVersion (listed : result (list runtimeObject)) : result (gset string * Z) :=
  match listed with
  | Err err => Err (Errorf "listing objects error: %v" [AErr err])
  | Ok objects =>
      Ok (fold_left (fun '(keys, maxv) obj =>
            match GetResourceVersionFromRuntimeObject obj with
            | Err _ => (keys, maxv)
            | Ok version =>
                match MetaNamespaceKey obj with
                | Err _ => (keys, maxv)
                | Ok key => (keys ∪ {[key]}, if maxv <? version then version else maxv)
                end
            end) objects (∅, 0))
  end.

Record tally := mkTally {
  numberRunning : Z;
  numberDeleted : Z;
  numberTimeout : Z;
  numberFailed : Z;
  failedErrs : list error;
  timedOutObjects : list string;
  maxDuration : Z;
  failedPods : list failedPod;
  forceDeleted : Z;   (* DeleteCollection calls *)
}.

Definition emptyTally : tally := mkTally 0 0 0 0 [] [] 0 [] 0.

(** One checker of the loop: a panic, an unknown status, or the new tally. *)
Definition count_checker (t : tally) (o : objectChecker) : option (result tally) :=
  let '(status, err) := getStatus o in
  let maxDuration := if maxDuration t <? oc_duration o then oc_duration o else maxDuration t in
  match status with
  | running => Some (Ok (mkTally (numberRunning t + 1) (numberDeleted t) (numberTimeout t) (numberFailed t)
                           (failedErrs t) (timedOutObjects t) maxDuration (failedPods t) (forceDeleted t)))
  | deleted => Some (Ok (mkTally (numberRunning t) (numberDeleted t + 1) (numberTimeout t) (numberFailed t)
                           (failedErrs t) (timedOutObjects t) maxDuration (failedPods t) (forceDeleted t)))
  | timeout =>
      fps ← toFailedPods (oc_failedPods o) (oc_key o);
      Some (Ok (mkTally (numberRunning t) (numberDeleted t) (numberTimeout t + 1) (numberFailed t)
                  (failedErrs t) (timedOutObjects t ++ [oc_key o]) maxDuration (failedPods t ++ fps) (forceDeleted t)))
  | deleteTimeout =>
      fps ← toFailedPods (oc_failedPods o) (oc_key o);
      Some (Ok (mkTally (numberRunning t) (numberDeleted t) (numberTimeout t + 1) (numberFailed t)
                  (failedErrs t) (timedOutObjects t ++ [oc_key o]) maxDuration (failedPods t ++ fps)
                  (forceDeleted t + 1)))
  | failed =>
      fps ← toFailedPods (oc_failedPods o) (oc_key o);
      Some (Ok (mkTally (numberRunning t) (numberDeleted t) (numberTimeout t) (numberFailed t + 1)
                  (failedErrs t ++ match err with Some e => [e] | None => [] end) (timedOutObjects t) maxDuration
                  (failedPods t ++ fps) (forceDeleted t)))
  | unknown => Some (Err (Errorf "got unknown status for %v: status=%v, err=%v"
                 [AStr (oc_key o); AInt 0; match err with Some e => AErr e | None => AStr "<nil>" end]))
  end.

Fixpoint count_loop (t : tally) (os : list objectChecker) : option (result tally) :=
  match os with
  | [] => Some (Ok t)
  | o :: os' =>
      match count_checker t o with
      | None => None
      | Some (Err err) => Some (Err err)
      | Some (Ok t') => count_loop t' os'
      end
  end.

(** The checkers in the order the map is ranged over. *)
Definition checkers (w : measurement_state) : list objectChecker :=
  omap (fun kl => heap w !! kl.2) (range "gather" (checkerMap w)).

Definition gather_report (w : measurement_state) (keys : gset string) : option (list failedPod * option error) :=
  match count_loop emptyTally (checkers w) with
  | None => None
  | Some (Err err) => Some ([], Some err)
  | Some (Ok t) =>
      let expected := Z.of_nat (size keys) in
      if 0 <? numberTimeout t then
        Some (failedPods t, Some (Errorf "%d objects timed out: %ss: %s"
          [AInt (numberTimeout t); AStr (kind w); AStr (join ", " (timedOutObjects t))]))
      else if negb (expected =? numberRunning t) then
        Some (failedPods t, Some (Errorf "incorrect objects number: %d/%d %ss are running with all pods"
          [AInt (numberRunning t); AInt expected; AStr (kind w)]))
      else if 0 <? numberFailed t then
        Some (failedPods t, Some (Errorf "failed objects statuses: %v"
          [AStr (ErrorList_String (NewErrorList (failedErrs t)))]))
      else Some ([], None)
  end.

(** The condition polled: everything the listing shows has been handled. *)
Definition synced_with (w : measurement_state) (keys : gset string) (maxResourceVersion : Z) : bool :=
  (maxResourceVersion <=? opResourceVersion w) && bool_decide (keys = objectKeys w).

(** [ticks]: the states of the measurement at the polls before [syncTimeout];
    [settle]: the wait for the handling group, which lets every goroutine
    finish. *)
Definition gather (w : measurement_state) (listed : result (list runtimeObject))
    (ticks : list measurement_state) (settle : measurement_state -> measurement_state)
  : option (list failedPod * option error) :=
  if negb (isRunning w) then
    Some ([], Some (Errorf "metric %s has not been started" [AStr "WaitForControlledPodsRunning"]))
  else
    match getObjectKeysAndMaxVersion listed with
    | Err err => Some ([], Some err)
    | Ok (keys, maxResourceVersion) =>
        match find (fun w => synced_with w keys maxResourceVersion) ticks with
        | None => Some ([], Some (Errorf "timed out while waiting for controlled pods: %v"
                           [AErr (External "timed out waiting for the condition")]))
        | Some w => gather_report (settle w) keys
        end
    end.

(** [None] content: marshalling failed and nothing is reported. *)
Definition createSummary (PrettyPrintJSON : list failedPod -> result string) (now : Z) (fp : list failedPod) : list Summary :=
  match fp with
  | [] => []
  | _ =>
      let name := Sprintf "%s_%d_failedpods" [FStr "WaitForControlledPodsRunning"; FInt now] in
      match PrettyPrintJSON fp with
      | Err _ => []
      | Ok content => [CreateSummary now name "json" content]
      end
  end.

(** ** Execute *)

Definition with_params (w : measurement_state) (av k : string) (sel : ObjectSelector) (t : Z) (upd : bool) (margin : Z) :=
  mkWCP av k sel t margin (stopCh w) (isRunning w) (objectKeys w) (opResourceVersion w) (gvr w) (checkerMap w) upd (heap w).

Definition read_params (w : measurement_state) (dict : params) : measurement_state * option error :=
  let '(av, err) := getString dict "apiVersion" in
  let w := with_params w av (kind w) (selector w) (operationTimeout w) (checkIfPodsAreUpdated w) (countErrorMargin w) in
  if err is Some _ then (w, err) else
  let '(k, err) := getString dict "kind" in
  let w := with_params w av k (selector w) (operationTimeout w) (checkIfPodsAreUpdated w) (countErrorMargin w) in
  if err is Some _ then (w, err) else
  let '(sel, err) := Parse (selector w) dict in
  let w := with_params w av k sel (operationTimeout w) (checkIfPodsAreUpdated w) (countErrorMargin w) in
  if err is Some _ then (w, err) else
  let '(t, err) := GetDurationOrDefault dict "operationTimeout" (600 * 10 ^ 9) in
  let w := with_params w av k sel t (checkIfPodsAreUpdated w) (countErrorMargin w) in
  if err is Some _ then (w, err) else
  let '(upd, err) := GetBoolOrDefault dict "checkIfPodsAreUpdated" true in
  let w := with_params w av k sel t upd (countErrorMargin w) in
  if err is Some _ then (w, err) else
  let '(margin, err) := GetIntOrDefault dict "countErrorMargin" 0 in
  (with_params w av k sel t upd margin, err).

(** The environment of one call: the indexer, the informer, the listing, the
    polls for a given sync timeout, the goroutines and the worker queue. *)
Record call_env := mkCallEnv {
  ce_indexer : option error;
  ce_synced : option error;
  ce_listed : measurement_state -> result (list runtimeObject);
  ce_ticks : Z -> list measurement_state;
  ce_settle : measurement_state -> measurement_state;
  ce_queued : list (informerObj * informerObj);
  ce_json : list failedPod -> result string;
  ce_now : Z;
}.

(** For [gather] the state after the call is that of the last poll, settled. *)
Definition Execute (env : call_env) (w : measurement_state) (dict : params)
  : option (measurement_state * list Summary * option error) :=
  match getString dict "action" with
  | (_, Some err) => Some (w, [], Some err)
  | (action, None) =>
      if String.eqb action "start" then
        match read_params w dict with
        | (w, Some err) => Some (w, [], Some err)
        | (w, None) => let '(w, err) := start w (ce_indexer env) (ce_synced env) in Some (w, [], err)
        end
      else if String.eqb action "gather" then
        match GetDurationOrDefault dict "syncTimeout" (60 * 10 ^ 9) with
        | (_, Some err) => Some (w, [], Some err)
        | (syncTimeout, None) =>
            match gather w (ce_listed env w) (ce_ticks env syncTimeout) (ce_settle env) with
            | None => None
            | Some (ps, err) => Some (w, createSummary (ce_json env) (ce_now env) ps, err)
            end
        end
      else if String.eqb action "stop" then
        match Dispose w (ce_queued env) with
        | None => None
        | Some w => Some (w, [], None)
        end
      else Some (w, [], Some (Errorf "unknown action %v" [AStr action]))
  end.

(** ** Counting *)

Definition has_status (st : objectStatus) (o : objectChecker) : bool := bool_decide (oc_status o = st).

Definition count_status_of (st : objectStatus) (os : list objectChecker) : Z :=
  Z.of_nat (length (filter (fun o => oc_status o = st) os)).

Lemma count_status_of_cons st o os :
  count_status_of st (o :: os) = (if bool_decide (oc_status o = st) then 1 else 0) + count_status_of st os.
Proof. unfold count_status_of. rewrite filter_cons. case_decide; case_bool_decide; try done; cbn [length]; lia. Qed.

(** A checker whose goroutine is done has a verdict, and a failing verdict
    names its pods: what the loop needs not to stop early. *)
Definition countable (o : objectChecker) : Prop :=
  oc_status o <> unknown /\
  (oc_status o ∈ [timeout; deleteTimeout; failed] -> is_Some (oc_failedPods o)).

Lemma count_loop_spec t os :
  Forall countable os ->
  exists t', count_loop t os = Some (Ok t') /\
    numberRunning t' = numberRunning t + count_status_of running os /\
    numberDeleted t' = numberDeleted t + count_status_of deleted os /\
    numberTimeout t' = numberTimeout t + count_status_of timeout os + count_status_of deleteTimeout os /\
    numberFailed t' = numberFailed t + count_status_of failed os.
Proof.
  revert t. induction os as [|o os IH]; intros t Hc.
  { exists t. split; [done|]. unfold count_status_of. cbn. lia. }
  apply Forall_cons in Hc as [[Hu Hf] Hc].
  assert (exists t1, count_checker t o = Some (Ok t1) /\
    numberRunning t1 = numberRunning t + (if bool_decide (oc_status o = running) then 1 else 0) /\
    numberDeleted t1 = numberDeleted t + (if bool_decide (oc_status o = deleted) then 1 else 0) /\
    numberTimeout t1 = numberTimeout t + (if bool_decide (oc_status o = timeout) then 1 else 0)
                       + (if bool_decide (oc_status o = deleteTimeout) then 1 else 0) /\
    numberFailed t1 = numberFailed t + (if bool_decide (oc_status o = failed) then 1 else 0))
    as (t1 & H1 & R1 & D1 & T1 & F1).
  { unfold count_checker, getStatus. destruct (oc_status o) eqn:Hst; try done.
    - eexists. split; [reflexivity|]. cbn; repeat case_bool_decide; try done; lia.
    - eexists. split; [reflexivity|]. cbn; repeat case_bool_decide; try done; lia.
    - destruct Hf as [fps ->]; [by do 2 right; left|]. cbn. eexists. split; [reflexivity|]. cbn; repeat case_bool_decide; try done; lia.
    - destruct Hf as [fps ->]; [by left|]. cbn. eexists. split; [reflexivity|]. cbn; repeat case_bool_decide; try done; lia.
    - destruct Hf as [fps ->]; [by right; left|]. cbn. eexists. split; [reflexivity|]. cbn; repeat case_bool_decide; try done; lia. }
  cbn [count_loop]. rewrite H1. destruct (IH t1 Hc) as (t' & -> & R & D & T & F).
  exists t'. split; [done|]. rewrite !count_status_of_cons. lia.
Qed.

(** The loop gets to the end only over such checkers. *)
Lemma count_loop_countable t os t' : count_loop t os = Some (Ok t') -> Forall countable os.
Proof.
  revert t. induction os as [|o os IH]; intros t; cbn [count_loop]; [constructor|].
  destruct (count_checker t o) as [[t1|]|] eqn:Hc; [|done..]. intros Hl. constructor; [|by eapply IH].
  unfold count_checker, getStatus in Hc. unfold countable.
  destruct (oc_status o); try done; (split; [done|]); intros Hin;
    try (exfalso; repeat (apply elem_of_cons in Hin as [?|Hin]; [done|]); by apply elem_of_nil in Hin);
    destruct (oc_failedPods o); [done|discriminate Hc|done|discriminate Hc|done|discriminate Hc].
Qed.

Lemma count_status_zero st os : count_status_of st os <= 0 <-> Forall (fun o => oc_status o <> st) os.
Proof.
  induction os as [|o os IH]; [cbn; split; [constructor|done]|].
  rewrite count_status_of_cons, Forall_cons, <- IH.
  assert (0 <= count_status_of st os) by (unfold count_status_of; lia).
  case_bool_decide; split; try lia; naive_solver lia.
Qed.

(** The report is a success exactly when every checker is running or deleted
    and as many are running as objects are expected. *)
Lemma gather_report_countable w keys :
  Forall countable (checkers w) ->
  exists r, gather_report w keys = Some r /\
    (r.2 = None <-> Forall (fun o => oc_status o = running \/ oc_status o = deleted) (checkers w) /\
                    count_status_of running (checkers w) = Z.of_nat (size keys)).
Proof.
  intros Hc. unfold gather_report.
  destruct (count_loop_spec emptyTally (checkers w) Hc) as (t & -> & R & D & T & F). cbn in R, D, T, F.
  set (os := checkers w) in *.
  assert (forall st, 0 <= count_status_of st os) as Hpos by (intros; unfold count_status_of; lia).
  pose proof (Hpos timeout). pose proof (Hpos deleteTimeout). pose proof (Hpos failed).
  assert (Forall (fun o => oc_status o = running \/ oc_status o = deleted) os <->
          numberTimeout t <= 0 /\ numberFailed t <= 0) as Hall.
  { assert (numberTimeout t <= 0 /\ numberFailed t <= 0 <->
      count_status_of timeout os <= 0 /\ count_status_of deleteTimeout os <= 0 /\ count_status_of failed os <= 0) as -> by lia.
    rewrite !count_status_zero. clear -Hc. rewrite !Forall_forall in *. split.
    - intros Hst. split; [|split]; intros x Hx He; destruct (Hst x Hx); congruence.
    - intros (H1 & H2 & H3) x Hx. specialize (H1 x Hx). specialize (H2 x Hx). specialize (H3 x Hx).
      destruct (Hc x Hx) as [Hu _]. destruct (oc_status x); auto; done. }
  destruct (Z.ltb_spec 0 (numberTimeout t)).
  { eexists. split; [reflexivity|]. cbn [snd]. split; [done|]. rewrite Hall. lia. }
  destruct (Z.eqb_spec (Z.of_nat (size keys)) (numberRunning t)) as [He|He]; cbn [negb]; last first.
  { eexists. split; [reflexivity|]. cbn [snd]. split; [done|]. lia. }
  destruct (Z.ltb_spec 0 (numberFailed t)).
  { eexists. split; [reflexivity|]. cbn [snd]. split; [done|]. rewrite Hall. lia. }
  eexists. split; [reflexivity|]. cbn [snd]. rewrite Hall. split; [intros _; lia|done].
Qed.

Lemma gather_report_ok w keys :
  (exists fps, gather_report w keys = Some (fps, None)) <->
  Forall (fun o => oc_status o = running \/ oc_status o = deleted) (checkers w) /\
  count_status_of running (checkers w) = Z.of_nat (size keys).
Proof.
  split.
  - intros [fps Hr]. assert (Forall countable (checkers w)) as Hc.
    { unfold gather_report in Hr. destruct (count_loop emptyTally (checkers w)) as [[t|]|] eqn:Hl; [|done..].
      by eapply count_loop_countable. }
    destruct (gather_report_countable w keys Hc) as (r & Hr' & Hiff).
    rewrite Hr in Hr'. injection Hr' as <-. by apply Hiff.
  - intros Hok. assert (Forall countable (checkers w)) as Hc.
    { eapply Forall_impl; [exact (proj1 Hok)|]. intros o Ho. split; [by destruct Ho as [->| ->]|].
      intros Hin. exfalso. destruct Ho as [Ho|Ho]; rewrite Ho in Hin;
        repeat (apply elem_of_cons in Hin as [?|Hin]; [done|]); by apply elem_of_nil in Hin. }
    destruct (gather_report_countable w keys Hc) as ([fps e] & -> & Hiff).
    exists fps. cbn in Hiff. by rewrite (proj2 Hiff Hok).
Qed.

(** ** What the handler maintains *)

(** [equality.Semantic.DeepEqual] is an equivalence and tells nil from an
    object's spec. *)
Hypothesis DeepEqual_refl : forall a, specs_DeepEqual a a = true.
Hypothesis DeepEqual_sym : forall a b, specs_DeepEqual a b = true -> specs_DeepEqual b a = true.
Hypothesis DeepEqual_trans : forall a b c, specs_DeepEqual a b = true -> specs_DeepEqual b c = true -> specs_DeepEqual a c = true.
Hypothesis DeepEqual_nil : forall v, specs_DeepEqual None (Some v) = false.

(** An object the handler can work with: it has a key, a well-formed version,
    a spec, a replica count and, if pods are checked, a pod template. *)
Record ok_obj (upd : bool) (key : string) (o : runtimeObject) : Prop := {
  ok_key : MetaNamespaceKey o = Ok key;
  ok_version : exists v, GetResourceVersionFromRuntimeObject o = Ok v;
  ok_spec : exists s, GetSpecFromRuntimeObject ObjString (Some o) = Ok (Some s);
  ok_replicas : exists r, GetReplicasFromRuntimeObject ObjString (Some o) = Some (Ok r);
  ok_updated : upd = true -> exists f, GetIsPodUpdatedPredicateFromRuntimeObject ObjString o = Ok f;
}.

Definition same_spec (o o' : runtimeObject) : Prop :=
  IsEqualRuntimeObjectsSpec ObjString (Some o) (Some o') = Ok true.

(** The objects that exist, and the keys of those deleted since the start. *)
Record objects := mkObjects { existing : gmap string runtimeObject; gone : gset string }.

Definition objects_step (os : objects) (key : string) (new : option runtimeObject) : objects :=
  mkObjects (partial_alter (fun _ => new) key (existing os))
    (match new with Some _ => gone os ∖ {[key]} | None => gone os ∪ {[key]} end).

Definition of_obj (o : option runtimeObject) : informerObj := match o with Some o => IObj o | None => INil end.

(** A round asks the replicas watcher how many pods are desired: a constant, or
    what the node counter has counted by then. *)
Definition asks (replicas : ReplicasWatcher) (desired : Z) : Prop :=
  match replicas with
  | ConstReplicas n => desired = n
  | NodeCounterWatcher _ => True
  end.

Definition round_asks (replicas : ReplicasWatcher) (r : round) : Prop :=
  match r with CtxDone _ desired => asks replicas desired | Interval desired _ => asks replicas desired end.

(** The goroutine ended because a round listed the pods it was waiting for. *)
Definition pods_arrived (w0 : measurement_state) (obj : runtimeObject) (replicas : ReplicasWatcher) (lf : life) : Prop :=
  lf_start lf = None /\
  exists first pre desired pods post,
    lf_first lf = Ok first /\ lf_rounds lf = pre ++ Interval desired (Ok pods) :: post /\
    Forall (keeps_waiting (checker_options w0 obj)) pre /\
    wait_condition (checker_options w0 obj) pods desired = true /\ asks replicas desired.

(** Runs of a started measurement: informer events in order, and goroutines
    that finish at any time, at most once each. [ends] collects what happened
    to the goroutines that are done. *)
Inductive runs (w0 : measurement_state) : objects -> measurement_state -> gmap loc life -> Prop :=
| runs_start : runs w0 (mkObjects ∅ ∅) w0 ∅
| runs_event os w ends key new w' :
    runs w0 os w ends ->
    (forall o, new = Some o -> ok_obj (checkIfPodsAreUpdated w0) key o) ->
    (new = None -> is_Some (existing os !! key)) ->
    handleObject w (of_obj (existing os !! key)) (of_obj new) = Some w' ->
    runs w0 (objects_step os key new) w' ends
| runs_finish os w ends l o lf out :
    runs w0 os w ends -> heap w !! l = Some o -> ends !! l = None ->
    Forall (round_asks (oc_replicas o)) (lf_rounds lf) -> goroutine w0 o lf = Some out ->
    runs w0 os (finish w l out) (<[l := lf]> ends).

(** What the checker says of its goroutine: nothing before it is done; then
    "running" or "deleted" exactly when the pods arrived. *)
Definition checker_wf (w0 : measurement_state) (o : objectChecker) (e : option life) : Prop :=
  match e with
  | None => oc_status o = unknown
  | Some lf =>
      (pods_arrived w0 (oc_obj o) (oc_replicas o) lf <->
         oc_status o = if oc_isDeleted o then deleted else running) /\
      (oc_status o = running -> oc_isDeleted o = false) /\
      (oc_status o = deleted -> oc_isDeleted o = true)
  end.

(** The checker of [key] in the map: not cancelled, for an object with the
    current spec, or for the deletion. *)
Definition tracks (w : measurement_state) (key : string) (isDel : bool)
    (P : runtimeObject -> ReplicasWatcher -> Prop) : Prop :=
  exists l o, checkerMap w !! key = Some l /\ heap w !! l = Some o /\ oc_key o = key /\
    oc_cancelled o = false /\ oc_isDeleted o = isDel /\ P (oc_obj o) (oc_replicas o).

(** The checker of an existing object [o] waits for as many pods as an object
    of that spec asks for; the checker of a deleted one waits until it has none. *)
Definition wants_pods (o : runtimeObject) (obj : runtimeObject) (replicas : ReplicasWatcher) : Prop :=
  same_spec obj o /\ GetReplicasFromRuntimeObject ObjString (Some obj) = Some (Ok replicas).
Definition wants_none (key : string) (obj : runtimeObject) (replicas : ReplicasWatcher) : Prop :=
  MetaNamespaceKey obj = Ok key /\ replicas = ConstReplicas 0.

Record winv (w0 : measurement_state) (os : objects) (w : measurement_state) (ends : gmap loc life) : Prop := {
  wi_running : isRunning w = true;
  wi_updated : checkIfPodsAreUpdated w = checkIfPodsAreUpdated w0;
  wi_ok : map_Forall (ok_obj (checkIfPodsAreUpdated w0)) (existing os);
  wi_keys : objectKeys w = dom (existing os);
  wi_gone : gone os ## dom (existing os);
  wi_tracks : forall key o, existing os !! key = Some o -> tracks w key false (wants_pods o);
  wi_tracks_gone : forall key, key ∈ gone os -> tracks w key true (wants_none key);
  wi_map : forall key, is_Some (checkerMap w !! key) -> key ∈ dom (existing os) \/ key ∈ gone os;
  wi_wf : map_Forall (fun l o => checker_wf w0 o (ends !! l)) (heap w);
  wi_ends : dom ends ⊆ dom (heap w);
}.

(** The verdict of a goroutine. *)
Lemma goroutine_verdict w0 o lf out :
  oc_status o = unknown -> Forall (round_asks (oc_replicas o)) (lf_rounds lf) -> goroutine w0 o lf = Some out ->
  checker_wf w0 (finish_checker o out) (Some lf).
Proof.
  intros Hu Hasks. unfold goroutine, checker_wf, pods_arrived.
  destruct (lf_start lf) as [err|].
  { intros [= <-]. cbn. rewrite Hu. split; [|done]. split; [by intros [? _]|by destruct (oc_isDeleted o)]. }
  destruct (WaitForPods _ _ _ _) as [r|] eqn:Hw; [|done]. intros [= <-].
  assert ((exists first pre desired pods post, lf_first lf = Ok first /\
      lf_rounds lf = pre ++ Interval desired (Ok pods) :: post /\
      Forall (keeps_waiting (checker_options w0 (oc_obj o))) pre /\
      wait_condition (checker_options w0 (oc_obj o)) pods desired = true /\ asks (oc_replicas o) desired) <->
    r = WaitOk) as Hiff.
  { unfold WaitForPods in Hw. destruct (lf_first lf) as [first|e]; last first.
    { injection Hw as <-. split; [by intros (? & ? & ? & ? & ? & ? & _)|done]. }
    split.
    - intros (f & pre & d & pods & post & _ & Hrs & Hpre & Hc & _).
      assert (Some r = Some WaitOk) as [= ->]; [|done].
      rewrite <- Hw. apply wait_loop_ok. by exists pre, d, pods, post.
    - intros ->. apply wait_loop_ok in Hw as (pre & d & pods & post & Hrs & Hpre & Hc).
      exists first, pre, d, pods, post. split_and!; try done.
      rewrite Hrs in Hasks. apply Forall_app in Hasks as [_ Hasks]. by apply Forall_cons in Hasks as [? _]. }
  destruct r as [|ps err]; cbn.
  - split_and!; [|by destruct (oc_isDeleted o)..]. split; [done|]. intros _. split; [done|]. by apply Hiff.
  - destruct (lf_deadline lf), (oc_isDeleted o); cbn; (split_and!; [|done..]);
      (split; [|done]); intros [_ Hp]; by apply Hiff in Hp.
Qed.

Lemma winv_finish w0 os w ends l o lf out :
  winv w0 os w ends -> heap w !! l = Some o -> ends !! l = None ->
  Forall (round_asks (oc_replicas o)) (lf_rounds lf) -> goroutine w0 o lf = Some out ->
  winv w0 os (finish w l out) (<[l := lf]> ends).
Proof.
  intros [Hrun Hupd Hok Hkeys Hg Ht Htg Hm Hwf Hends] Hl He Hasks Hgo.
  assert (forall key isDel P, tracks w key isDel P -> tracks (finish w l out) key isDel P) as Hkeep.
  { intros key isDel P (l' & o' & Hcm & Hh & Hk & Hc & Hd & HP). unfold tracks. cbn.
    exists l'. destruct (decide (l = l')) as [<-|Hne].
    - exists (finish_checker o' out). rewrite lookup_alter_eq, Hh. split; [done|]. split; [done|].
      by destruct out as [|[] ? ?].
    - exists o'. by rewrite lookup_alter_ne. }
  split; cbn; auto.
  - intros l' o'. destruct (decide (l = l')) as [<-|Hne].
    + rewrite lookup_alter_eq, Hl, lookup_insert_eq. intros [= <-]. apply goroutine_verdict; [|done..].
      pose proof (Hwf _ _ Hl) as H1. cbn beta in H1. by rewrite He in H1.
    + rewrite lookup_alter_ne, lookup_insert_ne by done. apply Hwf.
  - rewrite dom_insert_L, dom_alter_L. apply union_subseteq. split; [|done].
    intros ? ->%elem_of_singleton. by apply elem_of_dom.
Qed.

(** [w1] is [w] with the checker of [key] stopped and replaced by [c] at [l]. *)
Record replaced (w w1 : measurement_state) (key : string) (l : loc) (c : objectChecker) : Prop := {
  rp_map : checkerMap w1 = <[key := l]> (checkerMap w);
  rp_fresh : heap w !! l = None;
  rp_new : heap w1 !! l = Some c;
  rp_other : forall l', l' <> l -> heap w1 !! l' =
    (if bool_decide (checkerMap w !! key = Some l') then Stop <$> heap w !! l' else heap w !! l');
  rp_running : isRunning w1 = isRunning w;
  rp_upd : checkIfPodsAreUpdated w1 = checkIfPodsAreUpdated w;
  rp_keys : objectKeys w1 = objectKeys w;
  rp_version : opResourceVersion w1 = opResourceVersion w;
}.

Lemma stop_at_lookup h l l' : stop_at h l !! l' = (if bool_decide (l = l') then Stop <$> h !! l' else h !! l').
Proof.
  unfold stop_at. case_bool_decide as He; [subst; apply lookup_alter_eq|by apply lookup_alter_ne].
Qed.

(** The checker started for a changed or a deleted object. *)
Definition is_new_checker (key : string) (new : option runtimeObject) (handled : runtimeObject)
    (c : objectChecker) : Prop :=
  c = newObjectChecker key handled (match new with Some _ => false | None => true end) (oc_replicas c) /\
  match new with
  | Some _ => GetReplicasFromRuntimeObject ObjString (Some handled) = Some (Ok (oc_replicas c))
  | None => oc_replicas c = ConstReplicas 0
  end.

Lemma handleObjectLocked_replaces w key old new handled :
  (match new with Some _ => new | None => old end) = Some handled ->
  ok_obj (checkIfPodsAreUpdated w) key handled ->
  (forall l, checkerMap w !! key = Some l -> is_Some (heap w !! l)) ->
  exists w1 l c, handleObjectLocked w old new = Some (w1, None) /\ replaced w w1 key l c /\
    is_new_checker key new handled c.
Proof.
  intros Hh [Hkey _ _ [r Hr] Hu] Hdom. unfold handleObjectLocked.
  set (r' := match new with Some _ => r | None => ConstReplicas 0 end).
  assert (waitForRuntimeObject w (Some handled) (match new with Some _ => false | None => true end) =
            Some (Ok (newObjectChecker key handled (match new with Some _ => false | None => true end) r')))
    as Hw.
  { unfold waitForRuntimeObject, r'. rewrite Hr, Hkey.
    destruct (checkIfPodsAreUpdated w); [destruct Hu as [f ->]; [done|]|]; by destruct new. }
  assert ((if match new with Some _ => false | None => true end then old else new) = Some handled) as ->
    by (by destruct new).
  rewrite Hkey, Hw.
  eexists _, (fresh (dom (heap w))),
    (newObjectChecker key handled (match new with Some _ => false | None => true end) r').
  split; [reflexivity|]. split; [|by split; [|unfold r'; destruct new]].
  assert (heap w !! fresh (dom (heap w)) = None) as Hfr by (apply not_elem_of_dom, is_fresh).
  set (l := fresh (dom (heap w))) in *.
  split; try done; cbn.
  - destruct (checkerMap w !! key) as [l0|] eqn:Hl0; [|by rewrite lookup_insert_eq].
    rewrite stop_at_lookup, bool_decide_false, lookup_insert_eq; [done|].
    intros ->. destruct (Hdom l eq_refl) as [? ?]. congruence.
  - intros l' Hne. destruct (checkerMap w !! key) as [l0|] eqn:Hl0.
    + rewrite stop_at_lookup, lookup_insert_ne by done.
      by destruct (decide (l0 = l')) as [->|]; [rewrite !bool_decide_true|rewrite !bool_decide_false by naive_solver].
    + by rewrite lookup_insert_ne.
Qed.

(** Stopping and removing first, as for a changed or deleted object, has the
    same effect. *)
Lemma delete_then_replaced w w' key o :
  MetaNamespaceKey o = Ok key -> (forall l, checkerMap w !! key = Some l -> is_Some (heap w !! l)) ->
  w' = (deleteObjectLocked w (Some o)).1 ->
  (forall l, checkerMap w' !! key = Some l -> is_Some (heap w' !! l)) /\
  checkIfPodsAreUpdated w' = checkIfPodsAreUpdated w /\
  (forall w1 l c, replaced w' w1 key l c -> replaced w w1 key l c).
Proof.
  intros Hk Hdom ->. unfold deleteObjectLocked. rewrite Hk. unfold Map_DeleteAndStop.
  destruct (checkerMap w !! key) as [l0|] eqn:Hl0; cbn [fst]; [|split; [intros l Hl; congruence|by split]].
  split; [intros l; cbn; by rewrite lookup_delete_eq|]. split; [done|].
  intros w1 l c [H1 H2 H3 H4 H5 H6 H7 H8]. cbn in *.
  rewrite stop_at_lookup in H2. split; try done.
  - by rewrite H1, insert_delete_eq.
  - case_bool_decide; [|done]. by destruct (heap w !! l).
  - intros l' Hne. rewrite (H4 l' Hne), lookup_delete_eq, bool_decide_false by done.
    rewrite stop_at_lookup, Hl0.
    by destruct (decide (l0 = l')) as [->|]; [rewrite !bool_decide_true|rewrite !bool_decide_false by naive_solver].
Qed.

(** The checker in the map under a key is in the heap and knows its key. *)
Lemma winv_checker w0 os w ends key l :
  winv w0 os w ends -> checkerMap w !! key = Some l -> exists o, heap w !! l = Some o /\ oc_key o = key.
Proof.
  intros Hi Hl. destruct (wi_map _ _ _ _ Hi key ltac:(eauto)) as [[o Ho]%elem_of_dom|Hg].
  - destruct (wi_tracks _ _ _ _ Hi _ _ Ho) as (l' & c & ? & ? & ? & _). simplify_eq. eauto.
  - destruct (wi_tracks_gone _ _ _ _ Hi _ Hg) as (l' & c & ? & ? & ? & _). simplify_eq. eauto.
Qed.

Lemma replaced_tracks_other w0 os w ends w1 key l c key' isDel P :
  winv w0 os w ends -> replaced w w1 key l c -> key' <> key -> tracks w key' isDel P -> tracks w1 key' isDel P.
Proof.
  intros Hi [H1 H2 H3 H4 _ _ _ _] Hne (l' & o & Hcm & Hh & Hk & Hrest).
  exists l', o. rewrite H1, lookup_insert_ne by done. split; [done|].
  rewrite H4 by congruence. rewrite bool_decide_false; [done|].
  intros Hcl. destruct (winv_checker _ _ _ _ _ _ Hi Hcl) as (o' & ? & ?). by simplify_eq.
Qed.

Lemma replaced_wf w0 (ends : gmap loc life) w w1 key l c :
  map_Forall (fun l o => checker_wf w0 o (ends !! l)) (heap w) -> dom ends ⊆ dom (heap w) ->
  replaced w w1 key l c -> oc_status c = unknown ->
  map_Forall (fun l o => checker_wf w0 o (ends !! l)) (heap w1) /\ dom ends ⊆ dom (heap w1).
Proof.
  intros Hwf Hends [H1 H2 H3 H4 _ _ _ _] Hc. split.
  - intros l' o. destruct (decide (l' = l)) as [->|Hne].
    + rewrite H3. intros [= <-]. assert (ends !! l = None) as ->; [|done].
      apply not_elem_of_dom. intros Hin%Hends. apply elem_of_dom in Hin as [? ?]. congruence.
    + rewrite H4 by done. destruct (heap w !! l') as [o'|] eqn:Ho; [|by case_bool_decide].
      pose proof (Hwf _ _ Ho) as Hw. case_bool_decide; cbn; intros [= <-]; done.
  - intros l' Hin%Hends. apply elem_of_dom in Hin as [o Ho]. apply elem_of_dom.
    assert (l' <> l) as Hne by congruence. rewrite H4, Ho by done. case_bool_decide; by eexists.
Qed.

(** ** The cache *)

Lemma update_cache_one_ok upd change w key o errs :
  ok_obj upd key o ->
  exists v, update_cache_one change w (Some o) errs = (with_cache w (change (objectKeys w) key) v, errs).
Proof.
  intros [Hk [v Hv] _ _ _]. unfold update_cache_one. rewrite Hk.
  unfold updateOpResourceVersionLocked. rewrite Hv. cbn. by eexists.
Qed.

Lemma updateCacheLocked_ok upd w key old new :
  (forall o, old = Some o -> ok_obj upd key o) -> (forall o, new = Some o -> ok_obj upd key o) ->
  exists v, (updateCacheLocked w old new).1 = with_cache w
    (let ks := match old with Some _ => objectKeys w ∖ {[key]} | None => objectKeys w end in
     match new with Some _ => ks ∪ {[key]} | None => ks end) v.
Proof.
  intros Ho Hn. unfold updateCacheLocked.
  destruct old as [o|].
  - destruct (update_cache_one_ok upd (fun keys key => keys ∖ {[key]}) w key o []) as [v ->]; [auto|].
    destruct new as [n|]; [|by exists v].
    destruct (update_cache_one_ok upd (fun keys key => keys ∪ {[key]}) (with_cache w (objectKeys w ∖ {[key]}) v) key n [])
      as [v' ->]; [auto|]. by exists v'.
  - cbn [update_cache_one]. destruct new as [n|]; [|by exists (opResourceVersion w); destruct w].
    destruct (update_cache_one_ok upd (fun keys key => keys ∪ {[key]}) w key n []) as [v' ->]; [auto|]. by exists v'.
Qed.

Lemma existing_dom os key new :
  dom (existing (objects_step os key new)) =
  match new with Some _ => dom (existing os) ∪ {[key]} | None => dom (existing os) ∖ {[key]} end.
Proof.
  apply set_eq. intros k. cbn. rewrite elem_of_dom.
  destruct (decide (k = key)) as [->|Hne].
  - rewrite lookup_partial_alter_eq. destruct new; rewrite ?elem_of_union, ?elem_of_difference, elem_of_singleton; [naive_solver|].
    split; [by intros [? ?]|naive_solver].
  - rewrite lookup_partial_alter_ne by done.
    destruct new; rewrite ?elem_of_union, ?elem_of_difference, elem_of_singleton, elem_of_dom; naive_solver.
Qed.

Lemma existing_keys os key new :
  (new = None -> is_Some (existing os !! key)) ->
  (let ks := match existing os !! key with Some _ => dom (existing os) ∖ {[key]} | None => dom (existing os) end in
   match new with Some _ => ks ∪ {[key]} | None => ks end) = dom (existing (objects_step os key new)).
Proof.
  intros Hnew. rewrite existing_dom. destruct new as [n|].
  - destruct (existing os !! key); [|done]. apply set_eq. intros k.
    rewrite !elem_of_union, elem_of_difference, elem_of_singleton.
    destruct (decide (k = key)); naive_solver.
  - destruct (Hnew eq_refl) as [o ->]. done.
Qed.

(** ** Events *)

Lemma same_spec_refl upd key o : ok_obj upd key o -> same_spec o o.
Proof.
  intros [_ _ [sp Hs] _ _]. unfold same_spec, IsEqualRuntimeObjectsSpec. rewrite Hs. cbn. by rewrite DeepEqual_refl.
Qed.

Lemma same_spec_trans upd key o1 o2 o3 : ok_obj upd key o2 -> same_spec o1 o2 -> same_spec o2 o3 -> same_spec o1 o3.
Proof.
  intros [_ _ [s2 H2] _ _]. unfold same_spec, IsEqualRuntimeObjectsSpec. rewrite H2.
  cbn [mbind result_bind].
  destruct (GetSpecFromRuntimeObject ObjString (Some o1)) as [s1|]; [|done].
  destruct (GetSpecFromRuntimeObject ObjString (Some o3)) as [s3|]; [|done].
  cbn [mbind result_bind].
  intros [= H12] [= H23]. by rewrite (DeepEqual_trans s1 (Some s2) s3).
Qed.

Lemma IsEqual_ok upd key old new :
  (forall o, old = Some o -> ok_obj upd key o) -> (forall o, new = Some o -> ok_obj upd key o) ->
  exists b, IsEqualRuntimeObjectsSpec ObjString old new = Ok b /\ (b = true -> is_Some old <-> is_Some new).
Proof.
  intros Ho Hn. unfold IsEqualRuntimeObjectsSpec.
  assert (forall o : option runtimeObject, (forall x, o = Some x -> ok_obj upd key x) ->
    exists s, GetSpecFromRuntimeObject ObjString o = Ok s /\ (is_Some s <-> is_Some o)) as Hs.
  { intros [x|] Hx; [|by exists None]. destruct (Hx x eq_refl) as [_ _ [sp ->] _ _]. by exists (Some sp). }
  destruct (Hs old Ho) as (s1 & -> & H1), (Hs new Hn) as (s2 & -> & H2).
  cbn [mbind result_bind]. eexists. split; [reflexivity|]. intros Hb. rewrite <- H1, <- H2.
  destruct s1 as [v1|], s2 as [v2|]; try done.
  - apply DeepEqual_sym in Hb. by rewrite DeepEqual_nil in Hb.
  - by rewrite DeepEqual_nil in Hb.
Qed.

Lemma objects_gone os key new : gone os ## dom (existing os) ->
  gone (objects_step os key new) ## dom (existing (objects_step os key new)).
Proof.
  intros Hg. rewrite existing_dom. apply elem_of_disjoint. intros k. rewrite elem_of_disjoint in Hg. cbn.
  destruct new; rewrite ?elem_of_union, ?elem_of_difference, ?elem_of_singleton; naive_solver.
Qed.

Lemma objects_ok upd os key new :
  map_Forall (ok_obj upd) (existing os) -> (forall o, new = Some o -> ok_obj upd key o) ->
  map_Forall (ok_obj upd) (existing (objects_step os key new)).
Proof.
  intros Hok Hn k o. cbn. destruct (decide (k = key)) as [->|Hne].
  - rewrite lookup_partial_alter_eq. auto.
  - rewrite lookup_partial_alter_ne by done. apply Hok.
Qed.

(** An update that leaves the spec alone keeps the checkers. *)
Lemma winv_same w0 os w ends key o n v :
  winv w0 os w ends -> existing os !! key = Some o -> ok_obj (checkIfPodsAreUpdated w0) key n -> same_spec o n ->
  winv w0 (objects_step os key (Some n)) (with_cache w (dom (existing (objects_step os key (Some n)))) v) ends.
Proof.
  intros Hi Ho Hn Hsame. pose proof Hi as [Hrun Hupd Hok Hkeys Hg Ht Htg Hm Hwf Hends].
  split; try done.
  - apply objects_ok; naive_solver.
  - by apply objects_gone.
  - intros k x. cbn. destruct (decide (k = key)) as [->|Hne].
    + rewrite lookup_partial_alter_eq. intros [= <-].
      destruct (Ht _ _ Ho) as (l & c & ? & ? & ? & ? & ? & Hs & Hr). exists l, c. split_and!; try done.
      split; [|done]. eapply same_spec_trans; [|done|done]. by apply (Hok key).
    + rewrite lookup_partial_alter_ne by done. apply Ht.
  - intros k. cbn. rewrite elem_of_difference. intros [? _]. by apply Htg.
  - intros k Hk. rewrite existing_dom. cbn. rewrite elem_of_union, elem_of_difference, elem_of_singleton.
    destruct (Hm k Hk); [naive_solver|]. destruct (decide (k = key)); naive_solver.
Qed.

Lemma winv_replaced w0 os w ends w1 key new l c v handled :
  winv w0 os w ends -> (forall o, new = Some o -> ok_obj (checkIfPodsAreUpdated w0) key o) ->
  (match new with Some _ => new | None => existing os !! key end) = Some handled ->
  replaced w w1 key l c -> is_new_checker key new handled c ->
  winv w0 (objects_step os key new) (with_cache w1 (dom (existing (objects_step os key new))) v) ends.
Proof.
  intros Hi Hn Hh Hr [Hc Hrep]. pose proof Hi as [Hrun Hupd Hok Hkeys Hg Ht Htg Hm Hwf Hends].
  assert (tracks w1 key (match new with Some _ => false | None => true end)
            (fun x r => x = handled /\ r = oc_replicas c)) as Hnew.
  { exists l, c. destruct Hr as [H1 H2 H3 _ _ _ _ _]. rewrite H1, lookup_insert_eq. rewrite Hc. split_and!; try done.
    by rewrite <- Hc. }
  destruct (replaced_wf w0 ends w w1 key l c Hwf Hends Hr) as [Hwf1 Hends1]; [by rewrite Hc|].
  split; cbn [with_cache isRunning checkIfPodsAreUpdated objectKeys heap]; try done.
  - by rewrite (rp_running _ _ _ _ _ Hr).
  - by rewrite (rp_upd _ _ _ _ _ Hr).
  - by apply objects_ok.
  - by apply objects_gone.
  - intros k x. cbn. destruct (decide (k = key)) as [->|Hne].
    + rewrite lookup_partial_alter_eq. intros ->. simplify_eq.
      destruct Hnew as (l' & c' & ? & ? & ? & ? & ? & Hobj & Hre). exists l', c'. split_and!; try done.
      rewrite Hobj, Hre. split; [|done]. eapply same_spec_refl. by apply Hn.
    + rewrite lookup_partial_alter_ne by done. intros Hx.
      apply (replaced_tracks_other w0 os w ends w1 key l c); [done..|by apply Ht].
  - intros k. cbn. destruct (decide (k = key)) as [->|Hne].
    + destruct new as [n|]; [rewrite elem_of_difference, elem_of_singleton; naive_solver|]. intros _.
      destruct Hnew as (l' & c' & ? & ? & ? & ? & ? & Hobj & Hre). exists l', c'. split_and!; try done.
      rewrite Hobj, Hre. split; [|done]. by apply (ok_key _ _ _ (Hok _ _ Hh)).
    + intros Hk. apply (replaced_tracks_other w0 os w ends w1 key l c); [done..|]. apply Htg.
      destruct new; rewrite ?elem_of_union, ?elem_of_difference, elem_of_singleton in Hk; naive_solver.
  - intros k. rewrite existing_dom. cbn. rewrite (rp_map _ _ _ _ _ Hr).
    destruct (decide (k = key)) as [->|Hne].
    + intros _. destruct new; rewrite !elem_of_union, !elem_of_singleton; auto.
    + rewrite lookup_insert_ne by done. intros Hk. destruct (Hm k Hk);
        destruct new; rewrite ?elem_of_union, ?elem_of_difference, ?elem_of_singleton; naive_solver.
Qed.

Lemma winv_event w0 os w ends key new w' :
  winv w0 os w ends -> (forall o, new = Some o -> ok_obj (checkIfPodsAreUpdated w0) key o) ->
  (new = None -> is_Some (existing os !! key)) ->
  handleObject w (of_obj (existing os !! key)) (of_obj new) = Some w' -> winv w0 (objects_step os key new) w' ends.
Proof.
  intros Hi Hn Hnone Hstep. pose proof Hi as [Hrun Hupd Hok Hkeys Hg Ht Htg Hm Hwf Hends].
  assert (forall o, existing os !! key = Some o -> ok_obj (checkIfPodsAreUpdated w0) key o) as Ho by (intros; by apply Hok).
  assert (forall o, cast (of_obj o) = Some o) as Hcast by (by intros [?|]).
  unfold handleObject in Hstep. rewrite !Hcast in Hstep.
  assert (forall l, checkerMap w !! key = Some l -> is_Some (heap w !! l)) as Hdom.
  { intros l Hl. destruct (winv_checker _ _ _ _ _ _ Hi Hl) as (o & ? & _). eauto. }
  destruct (IsEqual_ok _ key (existing os !! key) new Ho Hn) as (b & Heq & Hb). rewrite Heq in Hstep.
  destruct b.
  - injection Hstep as <-.
    destruct (updateCacheLocked_ok _ w key (existing os !! key) new Ho Hn) as [v ->].
    rewrite Hkeys, existing_keys by done.
    destruct (Hb eq_refl) as [H1 H2]. destruct (existing os !! key) as [o|] eqn:Hold.
    + destruct (H1 ltac:(eauto)) as [n ->]. apply (winv_same w0 os w ends key o n v); [done|done|by apply Hn|exact Heq].
    + destruct new as [n|]; [by destruct (H2 ltac:(eauto))|]. by destruct (Hnone eq_refl).
  - rewrite Hrun in Hstep. cbn [negb] in Hstep.
    assert (exists handled, (match new with Some _ => new | None => existing os !! key end) = Some handled /\
              ok_obj (checkIfPodsAreUpdated w0) key handled) as (handled & Hhd & Hokh).
    { destruct new as [n|]; [exists n; auto|]. destruct (Hnone eq_refl) as [o Ho']. exists o. auto. }
    destruct (deleteObjectLocked w (existing os !! key)) as [wd e] eqn:Hd.
    assert ((forall l, checkerMap wd !! key = Some l -> is_Some (heap wd !! l)) /\
      checkIfPodsAreUpdated wd = checkIfPodsAreUpdated w /\
      (forall w1 l c, replaced wd w1 key l c -> replaced w w1 key l c)) as (Hd1 & Hd2 & Hd3).
    { destruct (existing os !! key) as [o|] eqn:Hold.
      - eapply delete_then_replaced; [apply (ok_key _ _ _ (Ho o eq_refl))|done|by rewrite Hd].
      - cbn in Hd. injection Hd as <- <-. done. }
    destruct (handleObjectLocked_replaces wd key (existing os !! key) new handled Hhd) as (w1 & l & c & Hw1 & Hr & Hc).
    { rewrite Hd2, Hupd. done. }
    { done. }
    rewrite Hw1 in Hstep. injection Hstep as <-. apply Hd3 in Hr.
    destruct (updateCacheLocked_ok _ w1 key (existing os !! key) new Ho Hn) as [v ->].
    rewrite (rp_keys _ _ _ _ _ Hr), Hkeys, existing_keys by done.
    eapply winv_replaced; eauto.
Qed.

(** ** Theorems *)

(** A measurement that was just started. *)
Definition just_started (w : measurement_state) : Prop :=
  isRunning w = true /\ objectKeys w = ∅ /\ checkerMap w = ∅ /\ heap w = ∅.

Lemma runs_winv w0 os w ends : just_started w0 -> runs w0 os w ends -> winv w0 os w ends.
Proof.
  intros (Hr & Hk & Hc & Hh). induction 1 as [|os w ends key new w' _ IH Hn Hnone Hs|os w ends l o lf out _ IH Hl He Ha Hgo].
  - split; cbn [existing gone]; rewrite ?Hk, ?Hc, ?Hh, ?dom_empty_L.
    + done.
    + done.
    + apply map_Forall_empty.
    + done.
    + done.
    + intros k o. by rewrite lookup_empty.
    + intros k Hke. by apply elem_of_empty in Hke.
    + intros k. rewrite lookup_empty. by intros [].
    + apply map_Forall_empty.
    + done.
  - by eapply winv_event.
  - by eapply winv_finish.
Qed.

(** Which checkers the report visits. *)
Lemma elem_checkers w o :
  o ∈ checkers w <-> exists key l, checkerMap w !! key = Some l /\ heap w !! l = Some o.
Proof.
  unfold checkers. rewrite list_elem_of_omap. split.
  - intros ([key l] & Hin & Ho). rewrite range_perm, elem_of_map_to_list in Hin. eauto.
  - intros (key & l & Hc & Ho). exists (key, l). by rewrite range_perm, elem_of_map_to_list.
Qed.

Lemma count_checkers (f : string -> Prop) `{!forall k, Decision (f k)} (h : gmap loc objectChecker) (L : list (string * loc)) :
  (forall k l, (k, l) ∈ L -> exists o, h !! l = Some o /\ (oc_status o = running <-> f k)) ->
  length (filter (fun o => oc_status o = running) (omap (fun kl => h !! kl.2) L)) =
  length (filter (fun kl : string * loc => f kl.1) L).
Proof.
  induction L as [|[k l] L IH]; intros HL; [done|]. cbn [omap list_omap snd].
  destruct (HL k l) as (o & Ho & Hf); [left|]. cbn. rewrite Ho. rewrite !filter_cons. cbn.
  assert (forall k l, (k, l) ∈ L -> exists o, h !! l = Some o /\ (oc_status o = running <-> f k)) as H'
    by (intros; apply HL; by right).
  destruct (decide (oc_status o = running)), (decide (f k)); try naive_solver; cbn; by rewrite IH.
Qed.

Lemma running_count w (keys : gset string) :
  (forall k l, checkerMap w !! k = Some l -> exists o, heap w !! l = Some o /\ (oc_status o = running <-> k ∈ keys)) ->
  (forall k, k ∈ keys -> is_Some (checkerMap w !! k)) ->
  count_status_of running (checkers w) = Z.of_nat (size keys).
Proof.
  intros H Hk. unfold count_status_of, checkers. f_equal.
  rewrite (count_checkers (fun k => k ∈ keys) (heap w)); last first.
  { intros k l Hin. rewrite range_perm, elem_of_map_to_list in Hin. auto. }
  rewrite range_perm. change (size keys) with (length (elements keys)).
  rewrite <- (length_fmap fst (filter _ _)). apply Permutation_length, NoDup_Permutation.
  - apply (sublist_NoDup _ (map_to_list (checkerMap w)).*1); [apply NoDup_fst_map_to_list|].
    apply fmap_sublist, sublist_filter.
  - apply NoDup_elements.
  - intros k. rewrite list_elem_of_fmap, elem_of_elements. split.
    + intros ([k' l] & -> & [Hin _]%list_elem_of_filter). done.
    + intros Hin. destruct (Hk k Hin) as [l Hl]. exists (k, l). split; [done|].
      apply list_elem_of_filter. split; [done|]. by apply elem_of_map_to_list.
Qed.

(** C14: the measurement follows the controllers: for any sequence of informer
    events, with goroutines finishing at any time, the known keys are those of
    the existing objects; each existing object has one checker in the map,
    not cancelled, that waits for the pods an object of its current spec asks
    for; each object deleted meanwhile has one that waits for zero pods; and
    there are no others. *)
Theorem controllers_are_tracked w0 os w ends :
  just_started w0 -> runs w0 os w ends ->
  objectKeys w = dom (existing os) /\
  (forall key o, existing os !! key = Some o ->
     tracks w key false (fun obj replicas => same_spec obj o /\
       GetReplicasFromRuntimeObject ObjString (Some obj) = Some (Ok replicas))) /\
  (forall key, key ∈ gone os ->
     tracks w key true (fun obj replicas => MetaNamespaceKey obj = Ok key /\ replicas = ConstReplicas 0)) /\
  dom (checkerMap w) = dom (existing os) ∪ gone os.
Proof.
  intros H0 [Hrun Hupd Hok Hkeys Hg Ht Htg Hm Hwf Hends]%runs_winv; [|done].
  split; [done|]. split; [done|]. split; [done|].
  apply set_eq. intros key. rewrite elem_of_union, elem_of_dom. split; [apply Hm|].
  intros [[o Ho]%elem_of_dom|Hk].
  - destruct (Ht _ _ Ho) as (l & c & Hl & _). eauto.
  - destruct (Htg _ Hk) as (l & c & Hl & _). eauto.
Qed.

(** The checker of [key] and what happened to its goroutine. *)
Definition ended (w : measurement_state) (ends : gmap loc life) (key : string) (c : objectChecker) (lf : life) : Prop :=
  exists l, checkerMap w !! key = Some l /\ heap w !! l = Some c /\ ends !! l = Some lf.

(** A checker that tracks its object has the status of success exactly when its
    goroutine ended with the pods it wanted. *)
Lemma tracks_success w0 os w ends key isDel P :
  winv w0 os w ends -> tracks w key isDel P ->
  exists l c, checkerMap w !! key = Some l /\ heap w !! l = Some c /\
    (oc_status c = running -> isDel = false) /\ (oc_status c = deleted -> isDel = true) /\
    (oc_status c = (if isDel then deleted else running) <->
       exists c lf, ended w ends key c lf /\ P (oc_obj c) (oc_replicas c) /\
         pods_arrived w0 (oc_obj c) (oc_replicas c) lf).
Proof.
  intros Hi (l & c & Hl & Hh & _ & _ & Hd & HP). exists l, c.
  pose proof (wi_wf _ _ _ _ Hi l c Hh) as Hwf. cbn beta in Hwf. unfold ended.
  destruct (ends !! l) as [lf|] eqn:He; cbn in Hwf.
  - rewrite Hd in Hwf. destruct Hwf as (Hiff & Hr & Hdl). split_and!; try done. rewrite <- Hiff. split.
    + intros Hp. exists c, lf. eauto 10.
    + intros (c' & lf' & (l' & ? & ? & ?) & _ & Hp). by simplify_eq.
  - rewrite Hwf. split_and!; try done. split; [by destruct isDel|].
    intros (c' & lf' & (l' & ? & ? & ?) & _). by simplify_eq.
Qed.

(** Every existing object's checker ended with its pods, every deleted one's
    without any. *)
Definition all_arrived (w0 : measurement_state) (os : objects) (w : measurement_state) (ends : gmap loc life) : Prop :=
  (forall key o, existing os !! key = Some o ->
     exists c lf, ended w ends key c lf /\ same_spec (oc_obj c) o /\
       exists replicas, GetReplicasFromRuntimeObject ObjString (Some (oc_obj c)) = Some (Ok replicas) /\
         pods_arrived w0 (oc_obj c) replicas lf) /\
  (forall key, key ∈ gone os ->
     exists c lf, ended w ends key c lf /\ MetaNamespaceKey (oc_obj c) = Ok key /\
       pods_arrived w0 (oc_obj c) (ConstReplicas 0) lf).

Lemma success_statuses w0 os w ends k l :
  winv w0 os w ends -> all_arrived w0 os w ends -> checkerMap w !! k = Some l ->
  exists o, heap w !! l = Some o /\ (oc_status o = running \/ oc_status o = deleted) /\
    (oc_status o = running <-> k ∈ dom (existing os)).
Proof.
  intros Hi [He Hgo] Hl. destruct (wi_map _ _ _ _ Hi k) as [Hk|Hk]; [eauto|..].
  - pose proof Hk as [o Ho]%elem_of_dom. pose proof (wi_tracks _ _ _ _ Hi _ _ Ho) as Htr.
    destruct (tracks_success _ _ _ _ _ _ _ Hi Htr) as (l' & c & Hl' & Hh & _ & _ & Hs).
    destruct (He _ _ Ho) as (c' & lf & Hend & Hsp & r & Hr & Hp).
    assert (oc_status c = running) as Hst; [|simplify_eq; exists c; rewrite Hst; naive_solver].
    apply Hs. exists c', lf. destruct Hend as (l2 & ? & ? & ?). destruct Htr as (l3 & c3 & ? & ? & _ & _ & _ & _ & Hr3).
    simplify_eq. split; [by exists l|]. split; [by split|]. congruence.
  - pose proof (wi_tracks_gone _ _ _ _ Hi _ Hk) as Htr.
    destruct (tracks_success _ _ _ _ _ _ _ Hi Htr) as (l' & c & Hl' & Hh & _ & _ & Hs).
    destruct (Hgo _ Hk) as (c' & lf & Hend & Hkey & Hp).
    assert (oc_status c = deleted) as Hst.
    { apply Hs. exists c', lf. destruct Hend as (l2 & ? & ? & ?). destruct Htr as (l3 & c3 & ? & ? & _ & _ & _ & _ & Hr3).
      simplify_eq. split; [by exists l|]. split; [by split|]. by rewrite Hr3. }
    simplify_eq. exists c. split; [done|]. split; [by right|]. rewrite Hst. split; [done|].
    intros Hd. exfalso. by apply (wi_gone _ _ _ _ Hi k).
Qed.


(** a failed pod listing crashes the report: [WaitForPods] then returns no
    pods, and [gather] dereferences them. *)
Theorem failed_listing_panics w keys o err :
  Forall (fun c => oc_status c <> unknown) (checkers w) ->
  finish_checker o (Waited (WaitErr None err) false 0) ∈ checkers w ->
  gather_report w keys = None.
Proof.
  intros Hu Hin. unfold gather_report.
  assert (forall t, count_loop t (checkers w) = None) as Hn; [|by rewrite Hn].
  induction Hu as [|c os Hc _ IH]; [by apply not_elem_of_nil in Hin|].
  intros t. cbn [count_loop]. apply elem_of_cons in Hin as [<-|Hin]; [done|].
  destruct (count_checker t c) as [[t'|e]|] eqn:Hcc; [by apply IH| |done].
  unfold count_checker, getStatus in Hcc.
  destruct (oc_status c); try done; destruct (toFailedPods (oc_failedPods c) (oc_key c)); done.
Qed.

Lemma listed_keys objs o key :
  o ∈ objs -> MetaNamespaceKey o = Ok key -> (exists v, GetResourceVersionFromRuntimeObject o = Ok v) ->
  exists keys v, getObjectKeysAndMaxVersion (Ok objs) = Ok (keys, v) /\ key ∈ keys.
Proof.
  intros Hin Hk [vo Hv]. cbn [getObjectKeysAndMaxVersion].
  match goal with |- context [fold_left ?f objs ?a] => set (step := f); generalize a end.
  assert (forall objs a, a.1 ⊆ (fold_left step objs a).1) as Hmono.
  { clear. induction objs as [|x objs IH]; intros [ks v]; [done|]. cbn [fold_left]. etrans; [|apply IH].
    cbn. destruct (GetResourceVersionFromRuntimeObject x); [|done].
    destruct (MetaNamespaceKey x); [|done]. cbn. apply union_subseteq_l. }
  induction objs as [|x objs IH]; intros [ks v]; [by apply not_elem_of_nil in Hin|].
  cbn [fold_left]. apply elem_of_cons in Hin as [->|Hin]; [|by apply IH].
  exists (fold_left step objs (step (ks, v) x)).1, (fold_left step objs (step (ks, v) x)).2.
  split; [by destruct (fold_left step objs (step (ks, v) x))|].
  apply Hmono. cbn. rewrite Hv, Hk. cbn. apply elem_of_union_r, elem_of_singleton. done.
Qed.

(** the selector's namespace is ignored by the listing: the informer only
    delivers objects of the namespace, so if the kind has a matching object
    anywhere else, gather waits for a key its handler never sees and always
    ends in the sync timeout. *)
Theorem foreign_object_times_out w0 w listed o key ticks settle :
  just_started w0 -> isRunning w = true ->
  o ∈ listed -> MetaNamespaceKey o = Ok key -> (exists v, GetResourceVersionFromRuntimeObject o = Ok v) ->
  Forall (fun w' => exists os ends, runs w0 os w' ends /\ existing os !! key = None) ticks ->
  gather w (Ok listed) ticks settle =
    Some ([], Some (Errorf "timed out while waiting for controlled pods: %v"
                      [AErr (External "timed out waiting for the condition")])).
Proof.
  intros H0 Hr Hin Hk Hv Hticks. unfold gather. rewrite Hr. cbn [negb].
  destruct (listed_keys listed o key Hin Hk Hv) as (keys & v & -> & Hkey).
  assert (find (fun w' => synced_with w' keys v) ticks = None) as ->; [|done].
  induction Hticks as [|w' ticks (os & ends & Hruns & Hno) _ IH]; [done|]. cbn.
  unfold synced_with at 1. rewrite bool_decide_false, andb_false_r; [done|].
  intros ->. rewrite (wi_keys _ _ _ _ (runs_winv _ _ _ _ H0 Hruns)) in Hkey.
  apply elem_of_dom in Hkey as [? ?]. congruence.
Qed.

(** A start that fails for want of the pods indexer leaves the measurement
    marked as running, and the next start succeeds without doing anything. *)
Lemma failed_start_sticks w gv err :
  isRunning w = false -> ParseGroupVersion (apiVersion w) = Ok gv ->
  exists w', start w (Some err) None = (w', Some err) /\ start w' None None = (w', None).
Proof. intros Hr Hg. unfold start. rewrite Hr, Hg. eexists. by split. Qed.

(** A replicas watcher that does not start leaves no verdict: the report
    calls the status unknown. *)
Lemma start_failure_is_unknown o err :
  oc_status o = unknown -> oc_status (finish_checker o (StartFailed err)) = unknown.
Proof. done. Qed.
End ControlledPods.

(** ** Witnesses: a deployment that is created, scaled and another that is deleted *)

#[local] Existing Instances small_k8s list_range.

#[local] Instance small_objects : ObjectLib := {|
  MetaNamespaceKey o := Ok (om_Namespace (obj_meta o) +:+ "/" +:+ om_Name (obj_meta o));
  ObjString o := om_Name (obj_meta o);
  ParseGroupVersion s := Ok s;
  UnsafeGuessKindToResource gv kind := gv +:+ "/" +:+ kind;
  PodSpecOf _ := "";
|}.

#[local] Instance small_golib : GoLib := {|
  ParseFloat s := (f64_of_Z 0, None);
  Sprint v := "";
|}.

Lemma small_refl a : specs_DeepEqual a a = true.
Proof. by apply bool_decide_true. Qed.
Lemma small_sym a b : specs_DeepEqual a b = true -> specs_DeepEqual b a = true.
Proof. cbn. rewrite !bool_decide_eq_true. done. Qed.
Lemma small_trans a b c : specs_DeepEqual a b = true -> specs_DeepEqual b c = true -> specs_DeepEqual a c = true.
Proof. cbn. rewrite !bool_decide_eq_true. congruence. Qed.
Lemma small_nil v : specs_DeepEqual None (Some v) = false.
Proof. by apply bool_decide_false. Qed.

Definition ex_dep (name version : string) (replicas : Z) : runtimeObject :=
  Unstructured (mkObjectMeta "ns" name name version) "Deployment"
    {[ "spec" := VMap {[ "replicas" := VInt64 replicas; "template" := VMap ∅ ]} ]}.

Lemma ex_dep_ok name version replicas v :
  GetResourceVersionFromRuntimeObject (ex_dep name version replicas) = Ok v ->
  ok_obj true ("ns/" +:+ name) (ex_dep name version replicas).
Proof. intros Hv. split; [done|by exists v|by eexists..]. Qed.

Definition ex_w0 : waitForControlledPodsRunningMeasurement :=
  (start (with_params createWaitForControlledPodsRunningMeasurement "apps/v1" "Deployment" NewObjectSelector 0 true 0)
     None None).1.

Definition ex_handle (w : waitForControlledPodsRunningMeasurement) (old new : option runtimeObject) :=
  default w (handleObject w (of_obj old) (of_obj new)).

Definition ex_os0 : objects := mkObjects ∅ ∅.
Definition ex_os1 := objects_step ex_os0 "ns/a" (Some (ex_dep "a" "1" 2)).
Definition ex_os2 := objects_step ex_os1 "ns/b" (Some (ex_dep "b" "2" 1)).
Definition ex_os3 := objects_step ex_os2 "ns/a" (Some (ex_dep "a" "3" 3)).
Definition ex_os := objects_step ex_os3 "ns/b" None.

Definition ex_w1 := ex_handle ex_w0 (existing ex_os0 !! "ns/a") (Some (ex_dep "a" "1" 2)).
Definition ex_w2 := ex_handle ex_w1 (existing ex_os1 !! "ns/b") (Some (ex_dep "b" "2" 1)).
Definition ex_w3 := ex_handle ex_w2 (existing ex_os2 !! "ns/a") (Some (ex_dep "a" "3" 3)).
Definition ex_w4 := ex_handle ex_w3 (existing ex_os3 !! "ns/b") None.
Definition ex_loc (w : waitForControlledPodsRunningMeasurement) (key : string) : loc :=
  default 1%positive (checkerMap w !! key).
(** Three ready pods for the one, none left of the other. *)
Definition ex_life_a : life :=
  mkLife None "a" (Ok []) [Interval 3 (Ok [ready_pod "p"]); Interval 3 (Ok [ready_pod "p"; ready_pod "q"; ready_pod "r"])] false 7.
Definition ex_life_b : life := mkLife None "b" (Ok [ready_pod "s"]) [Interval 0 (Ok [])] false 8.

(** The step in which the goroutine of [key] ends. *)
Definition ex_end (w : waitForControlledPodsRunningMeasurement) (key : string) (lf : life) :=
  default w (o ← heap w !! ex_loc w key; out ← goroutine ex_w0 o lf; Some (finish w (ex_loc w key) out)).
Definition ex_w5 := ex_end ex_w4 "ns/a" ex_life_a.
Definition ex_w6 := ex_end ex_w5 "ns/b" ex_life_b.
Definition ex_ends : gmap loc life :=
  <[ex_loc ex_w5 "ns/b" := ex_life_b]> (<[ex_loc ex_w4 "ns/a" := ex_life_a]> ∅).

Lemma ex_dep_ok' name version replicas v o :
  GetResourceVersionFromRuntimeObject (ex_dep name version replicas) = Ok v ->
  Some (ex_dep name version replicas) = Some o -> ok_obj (checkIfPodsAreUpdated ex_w0) ("ns/" +:+ name) o.
Proof. intros Hv [= <-]. by eapply ex_dep_ok. Qed.

Definition is_some {A} (o : option A) : bool := match o with Some _ => true | None => false end.

(** Steps of a run whose side conditions compute. *)
Lemma ex_event w0 os w ends key new :
  runs w0 os w ends -> (forall o, new = Some o -> ok_obj (checkIfPodsAreUpdated w0) key o) ->
  (is_some new || is_some (existing os !! key)) = true ->
  is_some (handleObject w (of_obj (existing os !! key)) (of_obj new)) = true ->
  runs w0 (objects_step os key new) (ex_handle w (existing os !! key) new) ends.
Proof.
  intros Hr Hok Hn Hs. apply (runs_event _ _ w); [done|done| |].
  - intros ->. cbn in Hn. by destruct (existing os !! key).
  - unfold ex_handle. by destruct (handleObject w _ _).
Qed.

Definition oc_replicas_const (o : objectChecker) : option Z :=
  match oc_replicas o with ConstReplicas n => Some n | NodeCounterWatcher _ => None end.
Definition round_desired (r : round) : Z := match r with CtxDone _ d => d | Interval d _ => d end.

Lemma ex_finish os w ends key lf n :
  runs ex_w0 os w ends ->
  match heap w !! ex_loc w key with
  | Some o => bool_decide (oc_replicas_const o = Some n) && is_some (goroutine ex_w0 o lf)
  | None => false
  end = true ->
  bool_decide (ends !! ex_loc w key = None) = true ->
  forallb (fun r => round_desired r =? n) (lf_rounds lf) = true ->
  runs ex_w0 os (ex_end w key lf) (<[ex_loc w key := lf]> ends).
Proof.
  intros Hr Ho He%bool_decide_eq_true Hd. unfold ex_end.
  destruct (heap w !! ex_loc w key) as [o|] eqn:Hl; [|done]. cbn [mbind option_bind].
  apply andb_true_iff in Ho as [Hc%bool_decide_eq_true Hg].
  destruct (goroutine ex_w0 o lf) as [out|] eqn:Hgo; [|done]. cbn [mbind option_bind default].
  eapply runs_finish; [done|done|exact He| |exact Hgo].
  apply Forall_forall. intros r Hin. rewrite forallb_forall in Hd.
  specialize (Hd r (proj1 (list_elem_of_In _ _) Hin)). apply Z.eqb_eq in Hd.
  unfold oc_replicas_const in Hc. destruct (oc_replicas o); [|done]. simplify_eq. by destruct r.
Qed.

Lemma ex_runs3 : runs ex_w0 ex_os3 ex_w3 ∅.
Proof.
  apply (ex_event ex_w0 ex_os2 ex_w2 ∅ "ns/a" (Some (ex_dep "a" "3" 3))).
  - apply (ex_event ex_w0 ex_os1 ex_w1 ∅ "ns/b" (Some (ex_dep "b" "2" 1))).
    + apply (ex_event ex_w0 ex_os0 ex_w0 ∅ "ns/a" (Some (ex_dep "a" "1" 2)));
        [apply runs_start|intros o; by apply (ex_dep_ok' "a" "1" 2 1)|reflexivity|vm_compute; reflexivity].
    + intros o. by apply (ex_dep_ok' "b" "2" 1 2).
    + reflexivity.
    + vm_compute. reflexivity.
  - intros o. by apply (ex_dep_ok' "a" "3" 3 3).
  - reflexivity.
  - vm_compute. reflexivity.
Qed.

Lemma ex_runs : runs ex_w0 ex_os ex_w6 ex_ends.
Proof.
  apply (ex_finish ex_os ex_w5 _ "ns/b" ex_life_b 0); [|vm_compute; reflexivity..].
  apply (ex_finish ex_os ex_w4 _ "ns/a" ex_life_a 3); [|vm_compute; reflexivity..].
  apply (ex_event ex_w0 ex_os3 ex_w3 ∅ "ns/b" None);
    [apply ex_runs3|discriminate|vm_compute; reflexivity|vm_compute; reflexivity].
Qed.

Lemma controllers_are_tracked_witness :
  objectKeys ex_w6 = dom (existing ex_os) /\
  tracks ex_w6 "ns/b" true (fun obj replicas => MetaNamespaceKey obj = Ok "ns/b" /\ replicas = ConstReplicas 0).
Proof.
  destruct (controllers_are_tracked small_refl small_sym small_trans small_nil ex_w0 ex_os ex_w6 ex_ends)
    as (H1 & _ & H3 & _); [done|apply ex_runs|]. split; [exact H1|]. apply H3.
  change (gone ex_os) with (gone ex_os3 ∪ {["ns/b"]}). apply elem_of_union_r, elem_of_singleton. reflexivity.
Defined.

Lemma ex_started : just_started ex_w0.
Proof. done. Qed.

Lemma ex_gone : "ns/b" ∈ gone ex_os.
Proof. change (gone ex_os) with (gone ex_os3 ∪ {["ns/b"]}). by apply elem_of_union_r, elem_of_singleton. Qed.

Definition is_success (r : option (list failedPod * option error)) : bool :=
  match r with Some (_, None) => true | _ => false end.

Lemma is_success_ok r : is_success r = true -> exists fps, r = Some (fps, None).
Proof. destruct r as [[fps [e|]]|]; [done| |done]. by exists fps. Qed.

Lemma ex_success : is_success (gather_report ex_w6 (dom (existing ex_os))) = true.
Proof. vm_compute. reflexivity. Qed.


Definition ex_failed := finish ex_w1 (ex_loc ex_w1 "ns/a") (Waited (WaitErr None (External "no index")) false 0).

Lemma ex_failed_in : exists o, finish_checker o (Waited (WaitErr None (External "no index")) false 0) ∈ checkers ex_failed.
Proof.
  assert (is_some (heap ex_w1 !! ex_loc ex_w1 "ns/a") = true) as H1 by (vm_compute; reflexivity).
  assert (is_some (checkerMap ex_w1 !! "ns/a") = true) as H2 by (vm_compute; reflexivity).
  destruct (heap ex_w1 !! ex_loc ex_w1 "ns/a") as [o|] eqn:Ho; [|discriminate].
  exists o. apply elem_checkers. exists "ns/a", (ex_loc ex_w1 "ns/a"). split.
  - change (checkerMap ex_failed) with (checkerMap ex_w1). unfold ex_loc.
    by destruct (checkerMap ex_w1 !! "ns/a").
  - unfold ex_failed, finish. cbn [heap with_checkers]. by rewrite lookup_alter_eq, Ho.
Qed.

Lemma failed_listing_panics_witness : gather_report ex_failed (dom (existing ex_os)) = None.
Proof.
  destruct ex_failed_in as [o Ho]. apply (failed_listing_panics ex_failed _ o (External "no index")); [|exact Ho].
  assert (forallb (fun c => negb (bool_decide (oc_status c = unknown))) (checkers ex_failed) = true) as Hf
    by (vm_compute; reflexivity).
  apply Forall_forall. intros c Hc. rewrite forallb_forall in Hf.
  specialize (Hf c (proj1 (list_elem_of_In _ _) Hc)). by destruct (oc_status c).
Defined.

(** Another namespace has a deployment too. *)
Definition ex_foreign : runtimeObject :=
  Unstructured (mkObjectMeta "other" "c" "c" "4") "Deployment" ∅.

Lemma foreign_object_times_out_witness :
  exists e, gather ex_w3 (Ok [ex_dep "a" "3" 3; ex_dep "b" "2" 1; ex_foreign]) [ex_w3] (fun w => w) = Some ([], Some e).
Proof.
  eexists. eapply (foreign_object_times_out small_refl small_sym small_trans small_nil ex_w0 ex_w3 _ ex_foreign "other/c").
  - done.
  - done.
  - by right; right; left.
  - done.
  - by eexists.
  - constructor; [|constructor]. exists ex_os3, ∅. split; [apply ex_runs3|done].
Defined.
