(* ===== verification/Cluster.v ===== *)
(** * Cluster utilities (pkg/util/cluster.go) and the listing calls of the client

    Which nodes count as usable, which belong to the control plane and where
    they can be reached; [ListNodes] and [ListPodsWithOptions] of
    pkg/framework/client/objects.go, which retry like every other call. *)

From S2P Require Import Prelude GoErrors Params Client Pods RuntimeObjects.

Record NodeCondition := mkNodeCondition { nc_Type : string; nc_Status : string }.
Record NodeAddress := mkNodeAddress { addr_Type : string; addr_Address : string }.

(** What the code reads of a [corev1.Node]. *)
Record node := mkNode {
  node_Name : string;
  node_Labels : gmap string string;
  Unschedulable : bool;
  node_Taints : list Taint;
  node_Conditions : list NodeCondition;
  Addresses : list NodeAddress;
}.

(** ** Classification *)

Definition keyControlPlaneNodeLabelTaint : string := "node-role.kubernetes.io/control-plane".

Definition builtInTaintsKeys : list string :=
  ["node.kubernetes.io/not-ready";
   "node.kubernetes.io/unreachable";
   "node.kubernetes.io/unschedulable";
   "node.kubernetes.io/memory-pressure";
   "node.kubernetes.io/disk-pressure";
   "node.kubernetes.io/network-unavailable";
   "node.kubernetes.io/pid-pressure";
   "node.kubernetes.io/out-of-service";
   "node.cloudprovider.kubernetes.io/uninitialized";
   "node.cloudprovider.kubernetes.io/shutdown"].

(** The first condition of the type decides. *)
Fixpoint condition_loop (cs : list NodeCondition) (conditionType : string) (wantTrue : bool) : bool :=
  match cs with
  | [] => false
  | cond :: cs' =>
      if String.eqb (nc_Type cond) conditionType then Bool.eqb wantTrue (String.eqb (nc_Status cond) "True")
      else condition_loop cs' conditionType wantTrue
  end.

Definition isNodeConditionSetAsExpected (n : node) (conditionType : string) (wantTrue : bool) : bool :=
  condition_loop (node_Conditions n) conditionType wantTrue.

Fixpoint unset_loop (cs : list NodeCondition) (conditionType : string) : bool :=
  match cs with
  | [] => true
  | cond :: cs' => if String.eqb (nc_Type cond) conditionType then false else unset_loop cs' conditionType
  end.

Definition isNodeConditionUnset (n : node) (conditionType : string) : bool :=
  unset_loop (node_Conditions n) conditionType.

Definition isNodeSchedulable (n : node) : bool :=
  let nodeReady := isNodeConditionSetAsExpected n "Ready" true in
  let networkReady := isNodeConditionUnset n "NetworkUnavailable"
    || isNodeConditionSetAsExpected n "NetworkUnavailable" false in
  negb (Unschedulable n) && nodeReady && networkReady.

(** The inner loop over the built-in keys, and the outer one over the taints. *)
Fixpoint has_key (keys : list string) (key : string) : bool :=
  match keys with
  | [] => false
  | k :: keys' => if String.eqb key k then true else has_key keys' key
  end.

Fixpoint untainted_loop (ts : list Taint) : bool :=
  match ts with
  | [] => true
  | t :: ts' =>
      if negb (String.eqb (taint_Effect t) "NoSchedule") && negb (String.eqb (taint_Effect t) "NoExecute")
      then untainted_loop ts'
      else if has_key builtInTaintsKeys (taint_Key t) then false
      else untainted_loop ts'
  end.

Definition isNodeUntainted (n : node) : bool := untainted_loop (node_Taints n).

Definition IsNodeSchedulableAndUntainted (n : node) : bool := isNodeSchedulable n && isNodeUntainted n.

Fixpoint control_plane_taint (ts : list Taint) : bool :=
  match ts with
  | [] => false
  | t :: ts' => if String.eqb (taint_Key t) keyControlPlaneNodeLabelTaint then true else control_plane_taint ts'
  end.

Definition IsControlPlaneNode (n : node) : bool :=
  if bool_decide (is_Some (node_Labels n !! keyControlPlaneNodeLabelTaint)) then true
  else control_plane_taint (node_Taints n).

(** ** Listing *)

(** One attempt of the API calls behind the listings. *)
Class ClusterServer (C : Type) := {
  nodes_List : C -> C * result (list node);
  pods_List : C -> string -> string -> C * result (list Pod);   (* namespace, label selector *)
}.

Section Listing.
Context {C : Type} `{ApiErrors} `{Backoff} `{ClusterServer C}.

(** [listFunc] assigns the captured variable when its attempt succeeds; the
    caller gets that variable, next to an error too. *)
Definition client_list {A} (attempt : C -> C * result (list A)) (c : C) : C * (list A * option error) :=
  let '(cl, err) :=
    ExponentialBackoff retryBackoffSteps
      (RetryFunction (fun cl : C * list A =>
         match attempt cl.1 with
         | (c', Err e) => ((c', cl.2), Some e)
         | (c', Ok l) => ((c', l), None)
         end) []) (c, []) in
  (cl.1, (cl.2, err)).

Definition client_ListNodes (c : C) : C * (list node * option error) := client_list nodes_List c.

Definition client_ListPodsWithOptions (c : C) (namespace labelSelector : string)
  : C * (list Pod * option error) :=
  client_list (fun c => pods_List c namespace labelSelector) c.

Definition GetSchedulableUntainedNodes (c : C) : C * (list node * option error) :=
  match client_ListNodes c with
  | (c', (_, Some err)) => (c', ([], Some err))
  | (c', (nodeList, None)) =>
      (c', (fold_left (fun filtered n => if IsNodeSchedulableAndUntainted n then filtered ++ [n] else filtered)
              nodeList [], None))
  end.

Definition GetSchedulableUntainedNodesNumber (c : C) : C * (Z * option error) :=
  let '(c', (nodes, err)) := GetSchedulableUntainedNodes c in (c', (Z.of_nat (length nodes), err)).

(** The lines [LogClusterNodes] logs. *)
Definition node_line (n : node) : string :=
  let last t := fold_left (fun ip a => if String.eqb (addr_Type a) t then addr_Address a else ip) (Addresses n) "" in
  Sprintf "Name: %v, internalIP: %v, externalIP: %v, isSchedulable: %v"
    [FStr (node_Name n); FStr (last "InternalIP"); FStr (last "ExternalIP");
     FStr (if IsNodeSchedulableAndUntainted n then "true" else "false")].

Definition LogClusterNodes (c : C) : C * (list string * option error) :=
  match client_ListNodes c with
  | (c', (_, Some err)) => (c', ([], Some err))
  | (c', (nodeList, None)) => (c', ("Listing cluster nodes:" :: map node_line nodeList, None))
  end.

Fixpoint master_loop (nodes : list node) : string * option error :=
  match nodes with
  | [] => ("", Some (Errorf "master node not found" []))
  | n :: nodes' => if IsControlPlaneNode n then (node_Name n, None) else master_loop nodes'
  end.

Definition GetMasterName (c : C) : C * (string * option error) :=
  match client_ListNodes c with
  | (c', (_, Some err)) => (c', ("", Some err))
  | (c', (nodeList, None)) => (c', master_loop nodeList)
  end.

(** The first non-empty address of the type. *)
Fixpoint address_loop (addressType : string) (l : list NodeAddress) : list string :=
  match l with
  | [] => []
  | a :: l' =>
      if String.eqb (addr_Type a) addressType && negb (String.eqb (addr_Address a) "") then [addr_Address a]
      else address_loop addressType l'
  end.

Definition GetMasterIPs (c : C) (addressType : string) : C * (list string * option error) :=
  match client_ListNodes c with
  | (c', (_, Some err)) => (c', ([], Some err))
  | (c', (nodeList, None)) =>
      let ips := fold_left (fun ips n =>
        if IsControlPlaneNode n then ips ++ address_loop addressType (Addresses n) else ips) nodeList [] in
      match ips with
      | [] => (c', ([], Some (Errorf "didn't find any %s master IPs" [AStr addressType])))
      | _ => (c', (ips, None))
      end
  end.

(** ** Properties *)

(** A listing that succeeds is the listing of its last attempt; a listing that
    fails returns nothing. *)
Lemma client_list_spec {A} (attempt : C -> C * result (list A)) c c' l err :
  client_list attempt c = (c', (l, err)) ->
  match err with
  | None => exists c0, attempt c0 = (c', Ok l)
  | Some _ => l = []
  end.
Proof.
  unfold client_list.
  set (f := RetryFunction _ _). intros Heq.
  assert (forall n cl cl' e, ExponentialBackoff n f cl = (cl', e) -> cl.2 = [] ->
    match e with None => exists c0, attempt c0 = (cl'.1, Ok cl'.2) | Some _ => cl'.2 = [] end) as Hn.
  { induction n as [|n IH]; intros cl cl' e He Hcl.
    { rewrite backoff_none in He. by simplify_eq. }
    rewrite backoff_step in He. unfold f at 1, RetryFunction in He.
    destruct (attempt cl.1) as [c1 [l1|e1]] eqn:Ha; cbn in He.
    - simplify_eq. cbn. by exists cl.1.
    - destruct (IsRetryableAPIError e1 || IsRetryableNetError e1); cbn in He.
      + by apply IH in He.
      + by simplify_eq. }
  destruct (ExponentialBackoff _ _ _) as [cl' e] eqn:He. simplify_eq. by apply Hn in He.
Qed.

Lemma fold_filter {A} (f : A -> bool) (l acc : list A) :
  fold_left (fun acc x => if f x then acc ++ [x] else acc) l acc = acc ++ filter (fun x => f x = true) l.
Proof.
  revert acc. induction l as [|x l IH]; intros acc; cbn [fold_left]; [by rewrite app_nil_r|].
  rewrite IH, filter_cons. destruct (f x); case_decide; try done. by rewrite <- app_assoc.
Qed.

Lemma GetSchedulableUntainedNodes_spec c c' nodes :
  GetSchedulableUntainedNodes c = (c', (nodes, None)) ->
  exists c0 all, nodes_List c0 = (c', Ok all) /\
    nodes = filter (fun n => IsNodeSchedulableAndUntainted n = true) all.
Proof.
  unfold GetSchedulableUntainedNodes. destruct (client_ListNodes c) as [c1 [l [e|]]] eqn:Hl; [done|].
  apply client_list_spec in Hl as [c0 Hc0]. intros [= <- <-]. exists c0, l. split; [done|].
  by rewrite fold_filter.
Qed.

End Listing.

(** ** What a usable node is *)

Lemma condition_loop_spec cs t want :
  condition_loop cs t want = true <->
  exists pre c post, cs = pre ++ c :: post /\ Forall (fun c => nc_Type c <> t) pre /\ nc_Type c = t /\
    (nc_Status c = "True" <-> want = true).
Proof.
  induction cs as [|c cs IH]; cbn.
  { split; [done|]. by intros ([] & ? & ? & ? & _). }
  destruct (String.eqb_spec (nc_Type c) t) as [Ht|Ht].
  - rewrite Bool.eqb_true_iff. split.
    + intros Hw. exists [], c, cs. split_and!; [done|constructor|done|].
      subst want. by rewrite String.eqb_eq.
    + intros ([|x pre] & c' & post & Hcs & Hpre & Hc' & Hw); simplify_eq/=.
      * destruct (String.eqb_spec (nc_Status c') "True"), want; naive_solver.
      * by apply Forall_cons in Hpre as [? _].
  - rewrite IH. split; intros (pre & c' & post & Hcs & Hpre & Hc' & Hw).
    + exists (c :: pre), c', post. subst cs. split_and!; try done. by constructor.
    + destruct pre as [|x pre]; simplify_eq/=. apply Forall_cons in Hpre as [_ Hpre].
      exists pre, c', post. done.
Qed.

Lemma unset_loop_spec cs t : unset_loop cs t = true <-> Forall (fun c => nc_Type c <> t) cs.
Proof.
  induction cs as [|c cs IH]; cbn; [by split|]. rewrite Forall_cons.
  destruct (String.eqb_spec (nc_Type c) t); [naive_solver|]. rewrite IH. naive_solver.
Qed.

Lemma has_key_spec keys key : has_key keys key = true <-> key ∈ keys.
Proof.
  induction keys as [|k keys IH]; cbn; [set_solver|].
  destruct (String.eqb_spec key k); [set_solver|]. rewrite IH. set_solver.
Qed.

Lemma untainted_loop_spec ts :
  untainted_loop ts = true <->
  Forall (fun t => taint_Effect t ∈ ["NoSchedule"; "NoExecute"] -> taint_Key t ∉ builtInTaintsKeys) ts.
Proof.
  induction ts as [|t ts IH]; [by split|]. rewrite Forall_cons, <- IH. cbn [untainted_loop].
  pose proof (has_key_spec builtInTaintsKeys (taint_Key t)) as Hk. rewrite !elem_of_cons, elem_of_nil.
  destruct (String.eqb_spec (taint_Effect t) "NoSchedule"), (String.eqb_spec (taint_Effect t) "NoExecute");
    cbn [negb andb]; destruct (has_key builtInTaintsKeys (taint_Key t)); naive_solver.
Qed.
