(* ===== verification/Chaos.v ===== *)
(** * The chaos monkey (pkg/chaos/{monkey,nodes}.go and the ChaosMonkey measurement)

    The node killer picks usable nodes, stops their services over SSH and
    reboots them; the set of killed nodes is one map shared by the node
    killer and the measurement that starts it. *)

From S2P Require Import Prelude GoErrors GoRuntime Params Api Float64 Client Pods RuntimeObjects Cluster.
From Stdlib Require Import SpecFloat.

Inductive nodeAction := stopServices | rebootNode.

#[export] Instance nodeAction_eq_dec : EqDecision nodeAction.
Proof. solve_decision. Defined.

Definition nodeAction_String (a : nodeAction) : string :=
  match a with stopServices => "stopService" | rebootNode => "rebootNode" end.

Record event := mkEvent { ev_time : Z; ev_action : nodeAction; ev_nodeName : string }.

(** The recorder is only changed under its mutex. *)
Definition newEventRecorder : list event := [].
Definition record (events : list event) (now : Z) (a : nodeAction) (nodeName : string) : list event :=
  events ++ [mkEvent now a nodeName].

(** [killedNodes] is the caller's map: [None] is the nil map, which can be
    read but not inserted into. *)
Record NodeKiller := mkNodeKiller {
  nk_config : NodeFailureConfig;
  killedNodes : option (gset string);
  recorder : list event;
}.

Record Monkey := mkMonkey { nodeKiller : option NodeKiller }.

Definition NewMonkey : Monkey := mkMonkey None.

(** ** Picking nodes *)

(** [rand.Shuffle]: Fisher and Yates from the last element down; [draw i] is
    the random number below [i + 1]. *)
Definition swap {A} (l : list A) (i j : nat) : list A :=
  match l !! i, l !! j with
  | Some x, Some y => <[j := x]> (<[i := y]> l)
  | _, _ => l
  end.

Fixpoint shuffle_loop {A} (draw : nat -> nat) (i : nat) (l : list A) : list A :=
  match i with
  | O => l
  | S i' => shuffle_loop draw i' (swap l i (draw i mod (S i))%nat)
  end.

Definition Shuffle {A} (draw : nat -> nat) (l : list A) : list A := shuffle_loop draw (pred (length l)) l.

(** [nodes[:n]] when it is shorter; a negative bound panics. *)
Definition take_nodes (nodes : list node) (numNodes : Z) : outcome (list node) :=
  if numNodes <? Z.of_nat (length nodes) then
    if numNodes <? 0 then Panics else Returns (take (Z.to_nat numNodes) nodes)
  else Returns nodes.

Section Killer.
Context {C : Type} `{ApiErrors} `{Backoff} `{ClusterServer C}.

Definition monitoringNamespace : string := "monitoring".
Definition prometheusLabel : string := "prometheus=k8s".

Definition prometheus_nodes (pods : list Pod) : gset string :=
  fold_left (fun s p => if String.eqb (NodeName p) "" then s else {[NodeName p]} ∪ s) pods ∅.

Definition candidates (k : NodeKiller) (prometheus : gset string) (allNodes : list node) : list node :=
  fold_left (fun nodes n =>
    if negb (bool_decide (node_Name n ∈ prometheus)) && negb (bool_decide (node_Name n ∈ default ∅ (killedNodes k)))
    then nodes ++ [n] else nodes) allNodes [].

Definition pickNodes (k : NodeKiller) (draw : nat -> nat) (c : C) : C * outcome (list node) :=
  match GetSchedulableUntainedNodes c with
  | (c1, (_, Some err)) => (c1, Fails err)
  | (c1, (allNodes, None)) =>
      match client_ListPodsWithOptions c1 monitoringNamespace prometheusLabel with
      | (c2, (_, Some err)) => (c2, Fails err)
      | (c2, (prometheusPods, None)) =>
          let nodes := Shuffle draw (candidates k (prometheus_nodes prometheusPods) allNodes) in
          let numNodes := f64_to_int (f64_ceil (f64_mul (FailureRate (nk_config k))
                            (f64_of_Z (Z.of_nat (length nodes))))) in
          (c2, take_nodes nodes numNodes)
      end
  end.

(** ** Killing them *)

(** The goroutine of one node, as the events it records: it ends early when
    [ssh] cannot stop the services. *)
Definition kill_thread (ssh : string -> string -> option error) (n : node) : string * list nodeAction :=
  (node_Name n,
   stopServices :: match ssh "sudo systemctl stop docker kubelet" (node_Name n) with
                   | Some _ => []
                   | None => [rebootNode]
                   end).

(** The goroutines interleaved: the schedule says which one records next, and
    when. *)
Definition thread_step (te : list (string * list nodeAction) * list event) (s : nat * Z)
  : list (string * list nodeAction) * list event :=
  match te.1 !! s.1 with
  | Some (name, a :: rest) => (<[s.1 := (name, rest)]> te.1, record te.2 s.2 a name)
  | _ => te
  end.

Definition run_threads (sched : list (nat * Z)) (threads : list (string * list nodeAction)) (events : list event)
  : list (string * list nodeAction) * list event :=
  fold_left thread_step sched (threads, events).

Definition threads_done (threads : list (string * list nodeAction)) : bool :=
  forallb (fun t => match t.2 with [] => true | _ => false end) threads.

(** [None]: [wg.Wait] has not returned yet. [Panics]: inserting into a nil map. *)
Definition kill (k : NodeKiller) (ssh : string -> string -> option error) (sched : list (nat * Z))
  (nodes : list node) : option (outcome NodeKiller) :=
  match nodes, killedNodes k with
  | [], _ => Some (Returns k)
  | _, None => Some Panics
  | _, Some killed =>
      let killed := fold_left (fun s n => {[node_Name n]} ∪ s) nodes killed in
      let '(threads, events) := run_threads sched (map (kill_thread ssh) nodes) (recorder k) in
      if threads_done threads then Some (Returns (mkNodeKiller (nk_config k) (Some killed) events))
      else None
  end.

(** ** Run *)

(** One execution of the function given to [wait.JitterUntil]. *)
Record killer_round := mkRound {
  kr_cluster : C;
  kr_draw : nat -> nat;
  kr_ssh : string -> string -> option error;
  kr_sched : list (nat * Z);
}.

Definition run_round (k : NodeKiller) (r : killer_round) : option (outcome NodeKiller) :=
  match pickNodes k (kr_draw r) (kr_cluster r) with
  | (_, Panics) => Some Panics
  | (_, Fails _) => Some (Returns k)     (* logged *)
  | (_, Returns nodes) => kill k (kr_ssh r) (kr_sched r) nodes
  end.

(** The rounds until [stopCh] is closed, after the first sleep. *)
Fixpoint Run (k : NodeKiller) (rounds : list killer_round) : option (outcome NodeKiller) :=
  match rounds with
  | [] => Some (Returns k)
  | r :: rounds' =>
      match run_round k r with
      | Some (Returns k') => Run k' rounds'
      | o => o
      end
  end.

(** [format]: [Time.Format(time.UnixDate)]. *)
Definition NodeKiller_Summary (format : Z -> string) (k : NodeKiller) : string :=
  fold_left (fun sb e => sb +:+
    Sprintf "%s: At %v %v happened for node %s" [FStr "NodeKiller"; FStr (format (ev_time e));
      FStr (nodeAction_String (ev_action e)); FStr (ev_nodeName e)] +:+ newline)
    (recorder k) (Sprintf "%s: Recorded following events" [FStr "NodeKiller"] +:+ newline).

Definition NewNodeKiller (supported : bool) (provider : string) (config : NodeFailureConfig)
  (killed : option (gset string)) : result NodeKiller :=
  if negb supported then Err (Errorf "provider %q is not supported by NodeKiller" [AStr provider])
  else Ok (mkNodeKiller config killed newEventRecorder).

(** ** Monkey *)

(** [Some true]: a wait group, the killer runs. *)
Definition Init (supported : bool) (provider : string) (m : Monkey) (config : ChaosMonkeyConfig)
  : Monkey * result bool :=
  match NodeFailure config with
  | None => (m, Ok false)
  | Some nf =>
      match NewNodeKiller supported provider nf (ExcludedNodes config) with
      | Err err => (m, Err err)
      | Ok k => (mkMonkey (Some k), Ok true)
      end
  end.

Definition Monkey_Summary (format : Z -> string) (m : Monkey) : string :=
  match nodeKiller m with
  | Some k => "Summary of Chaos Monkey execution" +:+ newline +:+ NodeKiller_Summary format k
  | None => ""
  end.

Definition KilledNodes (m : Monkey) : option (gset string) :=
  match nodeKiller m with
  | Some k => killedNodes k
  | None => Some ∅
  end.

(** ** The measurement *)

Record chaosMonkeyMeasurement := mkChaosMeasurement {
  cm_config : NodeFailureConfig;
  cm_stopChannel : chan_state;
  cm_monkey : option Monkey;
  cm_waits : bool;
  cm_killed : option (gset string);
}.

Definition createChaosMonkeyMeasurement (zero : NodeFailureConfig) : chaosMonkeyMeasurement :=
  mkChaosMeasurement zero ChanNil None false (Some ∅).

(** The killer at work between start and stop. Its set of killed nodes is the
    measurement's. *)
Definition killer_works (c : chaosMonkeyMeasurement) (r : killer_round) : option (outcome chaosMonkeyMeasurement) :=
  match cm_monkey c with
  | Some (mkMonkey (Some k)) =>
      match run_round k r with
      | None => None
      | Some Panics => Some Panics
      | Some (Fails err) => Some (Fails err)
      | Some (Returns k') =>
          Some (Returns (mkChaosMeasurement (cm_config c) (cm_stopChannel c) (Some (mkMonkey (Some k')))
            (cm_waits c) (killedNodes k')))
      end
  | _ => Some (Returns c)
  end.

(** [decode]: [util.ToStruct]. [None]: a run-time panic. [stop] waits until the
    killer has ended; a start without a stop abandons the killer that runs. *)
Definition chaos_Execute `{GoLib} (supported : bool) (provider : string)
  (decode : params -> NodeFailureConfig -> result NodeFailureConfig)
  (c : chaosMonkeyMeasurement) (p : params) : option (chaosMonkeyMeasurement * option error) :=
  match getString p "action" with
  | (_, Some err) => Some (c, Some err)
  | (action, None) =>
      if String.eqb action "start" then
        match decode p (cm_config c) with
        | Err err => Some (c, Some err)
        | Ok nf =>
            match Init supported provider NewMonkey (mkChaosMonkeyConfig (Some nf) (cm_killed c)) with
            | (m, Err err) =>
                Some (mkChaosMeasurement nf ChanClosed (Some m) false (cm_killed c),
                  Some (Errorf "error while creating chaos monkey: %v" [AErr err]))
            | (m, Ok wg) => Some (mkChaosMeasurement nf ChanOpen (Some m) wg (cm_killed c), None)
            end
        end
      else if String.eqb action "stop" then
        match cm_stopChannel c, cm_monkey c with
        | ChanOpen, Some m =>
            Some (mkChaosMeasurement (cm_config c) ChanClosed (Some m) (cm_waits c) (KilledNodes m), None)
        | _, _ => None       (* close of a nil or closed channel *)
        end
      else Some (c, Some (Errorf "unknown action: %v" [AStr action]))
  end.

(** ** Shuffling and picking *)

Lemma swap_perm {A} (l : list A) i j : swap l i j ≡ₚ l.
Proof.
  unfold swap. destruct (l !! i) as [x|] eqn:Hi; [|done]. destruct (l !! j) as [y|] eqn:Hj; [|done].
  by apply Permutation_insert_swap.
Qed.

Lemma Shuffle_perm {A} draw (l : list A) : Shuffle draw l ≡ₚ l.
Proof.
  unfold Shuffle. generalize (pred (length l)) as i. intros i. revert l.
  induction i as [|i IH]; intros l; cbn; [done|]. by rewrite IH, swap_perm.
Qed.

Lemma elem_prometheus pods name :
  name ∈ prometheus_nodes pods <-> exists p, p ∈ pods /\ NodeName p = name /\ name <> "".
Proof.
  unfold prometheus_nodes.
  assert (forall s : gset string, (name ∈ fold_left (fun s p => if String.eqb (NodeName p) "" then s else {[NodeName p]} ∪ s) pods s) <->
    name ∈ s \/ exists p, p ∈ pods /\ NodeName p = name /\ name <> "") as Hs.
  { induction pods as [|p pods IH]; intros s; cbn [fold_left]; [set_solver|].
    rewrite IH. destruct (String.eqb_spec (NodeName p) ""); set_solver. }
  rewrite Hs. set_solver.
Qed.

(** A node that may be killed. *)
Definition eligible (k : NodeKiller) (prometheusPods : list Pod) (n : node) : Prop :=
  IsNodeSchedulableAndUntainted n = true /\ (node_Name n ∉ default ∅ (killedNodes k)) /\
  (node_Name n = "" \/ Forall (fun p => NodeName p <> node_Name n) prometheusPods).

#[local] Instance eligible_dec k pods n : Decision (eligible k pods n).
Proof. unfold eligible. apply _. Defined.

Lemma candidates_eligible k pods all :
  candidates k (prometheus_nodes pods) (filter (fun n => IsNodeSchedulableAndUntainted n = true) all) =
  filter (eligible k pods) all.
Proof.
  unfold candidates. rewrite fold_filter, app_nil_l, list_filter_filter. apply list_filter_iff. intros n.
  rewrite andb_true_iff, !negb_true_iff, !bool_decide_eq_false, elem_prometheus. unfold eligible. rewrite Forall_forall.
  split.
  - intros [[Hp Hk] Hs]. split_and!; try done.
    destruct (decide (node_Name n = "")); [by left|right]. intros p Hin Heq. apply Hp. eauto.
  - intros (Hs & Hk & Hp). split_and!; try done.
    intros (p & Hin & Heq & Hne). destruct Hp as [|Hp]; [done|]. by apply (Hp p).
Qed.

Lemma take_nodes_spec nodes num l :
  take_nodes nodes num = Returns l ->
  l `prefix_of` nodes /\ Z.of_nat (length l) = Z.min (Z.of_nat (length nodes)) num.
Proof.
  unfold take_nodes. destruct (Z.ltb_spec num (Z.of_nat (length nodes))) as [Hl|Hl].
  - destruct (Z.ltb_spec num 0); [done|]. intros [= <-]. split.
    + exists (drop (Z.to_nat num) nodes). by rewrite take_drop.
    + rewrite length_take. lia.
  - intros [= <-]. split; [done|lia].
Qed.

(** Node names are unique in the cluster. *)
Definition distinct_nodes : Prop := forall c c' l, nodes_List c = (c', Ok l) -> NoDup (node_Name <$> l).

Lemma pickNodes_spec k draw c c' nodes :
  distinct_nodes -> pickNodes k draw c = (c', Returns nodes) ->
  exists c1 c2 c3 all pods,
    nodes_List c1 = (c2, Ok all) /\ pods_List c3 monitoringNamespace prometheusLabel = (c', Ok pods) /\
    NoDup (node_Name <$> nodes) /\ Forall (fun n => n ∈ all /\ eligible k pods n) nodes /\
    let available := Z.of_nat (length (filter (eligible k pods) all)) in
    Z.of_nat (length nodes) =
      Z.min available (f64_to_int (f64_ceil (f64_mul (FailureRate (nk_config k)) (f64_of_Z available)))).
Proof.
  intros Hd. unfold pickNodes.
  destruct (GetSchedulableUntainedNodes c) as [c2 [l [e|]]] eqn:Hl; [done|].
  apply GetSchedulableUntainedNodes_spec in Hl as (c1 & all & Hall & ->).
  destruct (client_ListPodsWithOptions c2 monitoringNamespace prometheusLabel) as [c4 [pods [e|]]] eqn:Hp; [done|].
  apply client_list_spec in Hp as [c3 Hp]. intros [= <- Ht].
  exists c1, c2, c3, all, pods. split; [done|]. split; [done|].
  rewrite candidates_eligible in Ht. apply take_nodes_spec in Ht as [[rest Hpre] Hlen].
  rewrite (Permutation_length (Shuffle_perm draw _)) in Hlen.
  assert (filter (eligible k pods) all ≡ₚ nodes ++ rest) as Hsub by (by rewrite <- Hpre, Shuffle_perm).
  split_and!.
  - specialize (Hd _ _ _ Hall). eapply sublist_NoDup in Hd; [|apply fmap_sublist, (sublist_filter (eligible k pods))].
    rewrite Hsub, fmap_app in Hd. by apply NoDup_app in Hd as [? _].
  - apply Forall_forall. intros n Hn. apply and_comm, (list_elem_of_filter (eligible k pods)). rewrite Hsub. apply elem_of_app. by left.
  - done.
Qed.

(** ** The goroutines of a kill *)

Definition actions_of (name : string) (events : list event) : list nodeAction :=
  ev_action <$> filter (fun e => ev_nodeName e = name) events.

Definition remaining (name : string) (threads : list (string * list nodeAction)) : list nodeAction :=
  concat ((filter (fun t => t.1 = name) threads).*2).

Lemma remaining_cons name t threads :
  remaining name (t :: threads) = (if bool_decide (t.1 = name) then t.2 else []) ++ remaining name threads.
Proof. unfold remaining. rewrite filter_cons. case_decide; case_bool_decide; done. Qed.

Lemma remaining_absent name threads : name ∉ threads.*1 -> remaining name threads = [].
Proof.
  intros Hn. unfold remaining. rewrite filter_none; [done|]. apply Forall_forall. intros t Ht Heq.
  apply Hn. subst name. by apply list_elem_of_fmap_2.
Qed.

Lemma remaining_insert threads i name l l' name' :
  NoDup threads.*1 -> threads !! i = Some (name, l) ->
  remaining name' (<[i := (name, l')]> threads) = if bool_decide (name = name') then l' else remaining name' threads.
Proof.
  revert i. induction threads as [|t threads IH]; intros [|i] Hnd Hi; [done|done|..];
    cbn [lookup list_lookup fmap list_fmap insert list_insert] in *; simplify_eq.
  - apply NoDup_cons in Hnd as [Hni _]. cbn in Hni. rewrite !remaining_cons. cbn.
    case_bool_decide; [|done]. subst. by rewrite remaining_absent, app_nil_r.
  - apply NoDup_cons in Hnd as [Hni Hnd]. rewrite !remaining_cons, IH by done.
    destruct (bool_decide_reflect (t.1 = name')) as [Ht|Ht]; [|by case_bool_decide].
    rewrite (bool_decide_eq_false_2 (name = name')); [done|].
    intros Heq. apply Hni. rewrite Ht, <- Heq. apply (list_elem_of_fmap_2 fst _ _ (list_elem_of_lookup_2 _ _ _ Hi)).
Qed.

Lemma remaining_lookup threads i name l :
  NoDup threads.*1 -> threads !! i = Some (name, l) -> remaining name threads = l.
Proof.
  intros Hnd Hi. rewrite <- (list_insert_id threads i (name, l)) by done.
  rewrite (remaining_insert threads i name l) by done. by rewrite bool_decide_eq_true_2.
Qed.

Lemma actions_of_app name e1 e2 : actions_of name (e1 ++ e2) = actions_of name e1 ++ actions_of name e2.
Proof. unfold actions_of. by rewrite filter_app, fmap_app. Qed.

(** What a goroutine has recorded and what it still will do never changes. *)
Lemma thread_step_spec threads events s threads' events' :
  NoDup threads.*1 -> thread_step (threads, events) s = (threads', events') ->
  threads'.*1 = threads.*1 /\ events `prefix_of` events' /\
  forall name, actions_of name events' ++ remaining name threads' = actions_of name events ++ remaining name threads.
Proof.
  intros Hnd. unfold thread_step. cbn [fst snd].
  destruct (threads !! s.1) as [[n [|a rest]]|] eqn:Ht; intros [= <- <-]; [done| |done].
  split_and!.
  - rewrite list_fmap_insert. cbn. apply list_insert_id. by rewrite list_lookup_fmap, Ht.
  - by eexists.
  - intros name. rewrite (remaining_insert _ _ _ _ _ _ Hnd Ht). unfold record. rewrite actions_of_app, <- app_assoc.
    f_equal. unfold actions_of at 1. rewrite filter_cons. cbn [ev_nodeName].
    case_decide as Hn; case_bool_decide; try done. subst name. cbn.
    by rewrite (remaining_lookup _ _ _ _ Hnd Ht).
Qed.

Lemma run_threads_spec sched threads events threads' events' :
  NoDup threads.*1 -> run_threads sched threads events = (threads', events') ->
  events `prefix_of` events' /\
  forall name, actions_of name events' ++ remaining name threads' = actions_of name events ++ remaining name threads.
Proof.
  unfold run_threads. revert threads events. induction sched as [|s sched IH]; intros threads events Hnd; cbn [fold_left].
  { by intros [= <- <-]. }
  destruct (thread_step (threads, events) s) as [t1 e1] eqn:Hs. intros Hr.
  apply thread_step_spec in Hs as (Hf & Hp & Hn); [|done].
  apply IH in Hr as [Hp' Hn']; [|by rewrite Hf]. split; [by etrans|].
  intros name. by rewrite Hn'.
Qed.

Lemma threads_done_remaining threads name : threads_done threads = true -> remaining name threads = [].
Proof.
  induction threads as [|[n l] threads IH]; [done|]. cbn [threads_done forallb]. rewrite andb_true_iff.
  intros [Hl Ht]. rewrite remaining_cons, IH by done. destruct l; [|done]. by case_bool_decide.
Qed.

Lemma fold_insert_names nodes (killed : gset string) :
  fold_left (fun s n => {[node_Name n]} ∪ s) nodes killed = list_to_set (node_Name <$> nodes) ∪ killed.
Proof.
  revert killed. induction nodes as [|n nodes IH]; intros killed; cbn [fold_left fmap list_fmap list_to_set]; [set_solver|].
  rewrite IH. set_solver.
Qed.

(** The record of a killed node: stopped once, and rebooted once afterwards
    unless stopping it failed. *)
Definition killed_record (ssh : string -> string -> option error) (name : string) : list nodeAction :=
  match ssh "sudo systemctl stop docker kubelet" name with
  | Some _ => [stopServices]
  | None => [stopServices; rebootNode]
  end.

Lemma kill_spec k ssh sched nodes k' :
  NoDup (node_Name <$> nodes) -> kill k ssh sched nodes = Some (Returns k') ->
  nk_config k' = nk_config k /\ recorder k `prefix_of` recorder k' /\
  default ∅ (killedNodes k') = list_to_set (node_Name <$> nodes) ∪ default ∅ (killedNodes k) /\
  forall name, actions_of name (recorder k') = actions_of name (recorder k) ++
    (if bool_decide (name ∈ node_Name <$> nodes) then killed_record ssh name else []).
Proof.
  intros Hnd. unfold kill. destruct nodes as [|n0 nodes']; [|destruct (killedNodes k) as [killed|] eqn:Hk; [|done]].
  { intros [= <-]. split_and!; [done|done|set_solver|]. intros name. by rewrite app_nil_r. }
  set (nodes := n0 :: nodes') in *. clearbody nodes. clear n0 nodes'.
  destruct (run_threads _ _ _) as [threads events] eqn:Hr.
  destruct (threads_done threads) eqn:Hdone; [|done]. intros [= <-].
  cbn [nk_config recorder killedNodes default from_option id].
  assert ((map (kill_thread ssh) nodes).*1 = node_Name <$> nodes) as Hfst.
  { clear. induction nodes as [|n nodes IH]; cbn; [done|]. by rewrite IH. }
  apply run_threads_spec in Hr as [Hp Hn]; [|by rewrite Hfst].
  split_and!; [done|done|apply fold_insert_names|].
  intros name. specialize (Hn name). rewrite (threads_done_remaining _ _ Hdone), app_nil_r in Hn. rewrite Hn. f_equal.
  case_bool_decide as Hin.
  - apply list_elem_of_fmap in Hin as (n & -> & Hin). apply list_elem_of_lookup in Hin as [i Hi].
    apply (remaining_lookup _ i); [by rewrite Hfst|].
    change (map (kill_thread ssh) nodes) with (kill_thread ssh <$> nodes). rewrite list_lookup_fmap, Hi. cbn.
    unfold kill_thread, killed_record. by destruct (ssh _ (node_Name n)).
  - apply remaining_absent. by rewrite Hfst.
Qed.

(** ** What a round of the killer does *)

(** The round could not list the nodes or the pods. *)
Definition listing_failed (r : killer_round) : Prop :=
  match GetSchedulableUntainedNodes (kr_cluster r) with
  | (_, (_, Some _)) => True
  | (c1, (_, None)) => is_Some (client_ListPodsWithOptions c1 monitoringNamespace prometheusLabel).2.2
  end.

(** One round kills only nodes it may kill, and as many as configured. The
    victims come from one listing of the nodes and are usable, not killed or
    excluded before, and run no Prometheus pod of one listing of the pods; their
    number is the failure rate of the nodes available, rounded up, or all of
    these if they are fewer. A round that cannot list them kills nothing. Every
    victim joins the set of killed nodes, is stopped exactly once and, unless
    stopping it failed, rebooted exactly once after that; no other node is
    touched. *)
Definition round_effect (k : NodeKiller) (r : killer_round) (k' : NodeKiller) : Prop :=
  exists victims,
    nk_config k' = nk_config k /\ recorder k `prefix_of` recorder k' /\
    default ∅ (killedNodes k') = list_to_set (node_Name <$> victims) ∪ default ∅ (killedNodes k) /\
    (forall name, actions_of name (recorder k') = actions_of name (recorder k) ++
       (if bool_decide (name ∈ node_Name <$> victims) then killed_record (kr_ssh r) name else [])) /\
    ((listing_failed r /\ victims = []) \/ exists c1 c2 c3 c4 all pods,
       nodes_List c1 = (c2, Ok all) /\ pods_List c3 monitoringNamespace prometheusLabel = (c4, Ok pods) /\
       NoDup (node_Name <$> victims) /\ Forall (fun n => n ∈ all /\ eligible k pods n) victims /\
       let available := Z.of_nat (length (filter (eligible k pods) all)) in
       Z.of_nat (length victims) =
         Z.min available (f64_to_int (f64_ceil (f64_mul (FailureRate (nk_config k)) (f64_of_Z available))))).

Lemma pickNodes_fails k r c' err :
  pickNodes k (kr_draw r) (kr_cluster r) = (c', Fails err) -> listing_failed r.
Proof.
  unfold pickNodes, listing_failed.
  destruct (GetSchedulableUntainedNodes (kr_cluster r)) as [c1 [l [e|]]]; [done|].
  destruct (client_ListPodsWithOptions c1 monitoringNamespace prometheusLabel) as [c2 [pods [e|]]]; [by eexists|].
  intros [= _ Ht]. unfold take_nodes in Ht. by repeat case_match.
Qed.

Lemma run_round_effect k r k' : distinct_nodes -> run_round k r = Some (Returns k') -> round_effect k r k'.
Proof.
  intros Hd. unfold run_round. destruct (pickNodes k (kr_draw r) (kr_cluster r)) as [c4 [victims|e|]] eqn:Hp; [| |done].
  - apply pickNodes_spec in Hp as (c1 & c2 & c3 & all & pods & Ha & Hb & Hnd & Hf & Hl); [|done].
    intros Hk. apply kill_spec in Hk as (Hc & Hr & Hs & Hn); [|done]. exists victims.
    split_and!; try done. right. exists c1, c2, c3, c4, all, pods. done.
  - apply pickNodes_fails in Hp. intros [= <-]. exists [].
    split_and!; [done|done|set_solver| |by left]. intros name. cbn. by rewrite app_nil_r.
Qed.

(** ** The life of the measurement *)

Definition log_of (c : chaosMonkeyMeasurement) : list event :=
  match cm_monkey c with Some (mkMonkey (Some k)) => recorder k | _ => [] end.

(** The states of the measurement with everything all its killers did so far:
    it is called (not started twice without a stop in between), and its killer
    works while the stop channel is open. *)
Inductive chaos_run `{GoLib} supported provider decode zero : chaosMonkeyMeasurement -> list event -> Prop :=
| chaos_created : chaos_run supported provider decode zero (createChaosMonkeyMeasurement zero) []
| chaos_called c h p c' err :
    chaos_run supported provider decode zero c h ->
    (cm_stopChannel c = ChanOpen -> (getString p "action").1 <> "start") ->
    chaos_Execute supported provider decode c p = Some (c', err) ->
    chaos_run supported provider decode zero c' h
| chaos_works c h r c' :
    chaos_run supported provider decode zero c h -> cm_stopChannel c = ChanOpen ->
    killer_works c r = Some (Returns c') ->
    chaos_run supported provider decode zero c' (h ++ drop (length (log_of c)) (log_of c')).

(** Stopped at most once, and rebooted at most once, after that. *)
Definition once (l : list nodeAction) : Prop := l `prefix_of` [stopServices; rebootNode].

Record chaos_inv (c : chaosMonkeyMeasurement) (h : list event) : Prop := {
  ci_once : forall name, once (actions_of name h);
  ci_killed : forall name, actions_of name h <> [] -> name ∈ default ∅ (cm_killed c);
  ci_shared : cm_stopChannel c = ChanOpen ->
    exists k, cm_monkey c = Some (mkMonkey (Some k)) /\ killedNodes k = cm_killed c;
}.

Lemma killed_record_once ssh name : once (killed_record ssh name).
Proof. unfold killed_record, kill_thread, once. cbn. destruct (ssh _ name); [by exists [rebootNode]|by exists []]. Qed.

Lemma chaos_inv_call `{GoLib} supported provider decode c h p c' err :
  chaos_inv c h -> (cm_stopChannel c = ChanOpen -> (getString p "action").1 <> "start") ->
  chaos_Execute supported provider decode c p = Some (c', err) -> chaos_inv c' h.
Proof.
  intros [Ho Hk Hs] Hns. unfold chaos_Execute.
  destruct (getString p "action") as [action [e|]]; [by intros [= <- <-]|]. cbn in Hns.
  destruct (String.eqb_spec action "start") as [->|_].
  { destruct (decode p (cm_config c)) as [nf|e]; [|by intros [= <- <-]].
    unfold Init. cbn. unfold NewNodeKiller. destruct supported; cbn; intros [= <- <-]; constructor; cbn; try done. eauto. }
  destruct (String.eqb_spec action "stop") as [->|_]; [|by intros [= <- <-]].
  destruct (cm_stopChannel c); [done| |done].
  destruct Hs as (k & Hm & Hk'); [done|]. rewrite Hm. intros [= <- <-].
  constructor; cbn [cm_killed cm_stopChannel KilledNodes nodeKiller]; [done| |done]. by rewrite Hk'.
Qed.

Lemma chaos_inv_work c h r c' :
  distinct_nodes -> chaos_inv c h -> cm_stopChannel c = ChanOpen -> killer_works c r = Some (Returns c') ->
  chaos_inv c' (h ++ drop (length (log_of c)) (log_of c')).
Proof.
  intros Hd [Ho Hk Hs] Hopen. destruct (Hs Hopen) as (k & Hm & Hsh).
  unfold killer_works, log_of. rewrite Hm.
  destruct (run_round k r) as [[k'|e|]|] eqn:Hr; try done. intros [= <-]. cbn [cm_monkey].
  apply run_round_effect in Hr as (victims & _ & [new Hnew] & Hset & Hact & Hvic); [|done].
  rewrite Hnew, drop_app_length. rewrite Hsh in Hset.
  assert (forall name, actions_of name new =
    if bool_decide (name ∈ node_Name <$> victims) then killed_record (kr_ssh r) name else []) as Hnew'.
  { intros name. specialize (Hact name). rewrite Hnew, actions_of_app in Hact. by apply app_inv_head in Hact. }
  assert (forall name, name ∈ node_Name <$> victims -> name ∉ default ∅ (cm_killed c)) as Hfresh.
  { intros name (n & -> & Hn)%list_elem_of_fmap. destruct Hvic as [[_ ->]|(? & ? & ? & ? & all & pods & _ & _ & _ & Hf & _)].
    - by apply not_elem_of_nil in Hn.
    - rewrite Forall_forall in Hf. destruct (Hf n Hn) as [_ (_ & Hnk & _)]. by rewrite Hsh in Hnk. }
  constructor; cbn [cm_killed cm_stopChannel cm_monkey].
  - intros name. rewrite actions_of_app, Hnew'. case_bool_decide as Hin; [|by rewrite app_nil_r].
    destruct (actions_of name h) eqn:Hah; [apply killed_record_once|].
    exfalso. apply (Hfresh name Hin), Hk. by rewrite Hah.
  - intros name. rewrite actions_of_app, Hnew', Hset. case_bool_decide as Hin.
    + intros _. apply elem_of_union_l, elem_of_list_to_set, Hin.
    + rewrite app_nil_r. intros Hne. by apply elem_of_union_r, Hk.
  - eauto.
Qed.

Lemma chaos_run_inv `{GoLib} supported provider decode zero c h :
  distinct_nodes -> chaos_run supported provider decode zero c h -> chaos_inv c h.
Proof.
  intros Hd Hrun. induction Hrun as [|c h p c' err Hrun IH Hns Hex|c h r c' Hrun IH Hopen Hw].
  - by constructor; intros; [exists [stopServices; rebootNode]|..].
  - by eapply chaos_inv_call.
  - by eapply chaos_inv_work.
Qed.

(** C19: however often the ChaosMonkey measurement is started and stopped again
    (a start while its killer still runs is excluded: the second killer would
    share the set of killed nodes with the first, unprotected), and however the
    goroutines of the killer interleave, no node is ever killed twice: over its
    whole life every node is stopped at most once and rebooted at most once,
    after it was stopped, and whatever was touched is in the set of killed nodes
    that the next start excludes. Every round of the running killer has the
    effect [round_effect] and the measurement sees the killed nodes at once, the
    set being shared. *)
Theorem nodes_killed_once `{GoLib} supported provider decode zero c h :
  distinct_nodes -> chaos_run supported provider decode zero c h ->
  (forall name, once (actions_of name h) /\ (actions_of name h <> [] -> name ∈ default ∅ (cm_killed c))) /\
  (forall r c', cm_stopChannel c = ChanOpen -> killer_works c r = Some (Returns c') ->
     exists k k', cm_monkey c = Some (mkMonkey (Some k)) /\ cm_monkey c' = Some (mkMonkey (Some k')) /\
       round_effect k r k' /\ cm_killed c = killedNodes k /\ cm_killed c' = killedNodes k').
Proof.
  intros Hd [Ho Hk Hs]%chaos_run_inv; [|done]. split; [by split; [apply Ho|apply Hk]|].
  intros r c' Hopen. destruct (Hs Hopen) as (k & Hm & Hsh). unfold killer_works. rewrite Hm.
  destruct (run_round k r) as [[k'|e|]|] eqn:Hr; try done. intros [= <-]. exists k, k'. split_and!; try done.
  by apply run_round_effect.
Qed.

(** Stopping a monkey that does not run, for instance because its start
    failed, closes a nil or closed channel: a run-time panic. *)
Lemma stop_without_start_panics `{GoLib} supported provider decode c :
  cm_stopChannel c <> ChanOpen ->
  chaos_Execute supported provider decode c {["action" := VString "stop"]} = None.
Proof. intros Hc. unfold chaos_Execute. cbn. by destruct (cm_stopChannel c). Qed.

Lemma failed_start_closes `{GoLib} provider decode c p nf :
  getString p "action" = ("start", None) -> decode p (cm_config c) = Ok nf ->
  exists c' err, chaos_Execute false provider decode c p = Some (c', Some err) /\ cm_stopChannel c' = ChanClosed.
Proof. intros Ha Hd. unfold chaos_Execute. rewrite Ha, Hd. cbn. eauto. Qed.

(** A negative failure rate, which nothing rejects, panics. *)
Lemma negative_rate_panics nodes : take_nodes nodes (-1) = Panics.
Proof. unfold take_nodes. by rewrite (proj2 (Z.ltb_lt (-1) (Z.of_nat (length nodes)))) by lia. Qed.

End Killer.

(** ** An example: three nodes, one of them with Prometheus on it *)

#[local] Existing Instances flaky_errors simple_backoff sample_golib.

Definition ex_node (name : string) : node := mkNode name ∅ false [] [mkNodeCondition "Ready" "True"] [].

#[local] Instance ex_cluster : ClusterServer (list node) := {|
  nodes_List := fun c => (c, if decide (NoDup (node_Name <$> c)) then Ok c else Err (External "corrupt"));
  pods_List := fun c _ _ => (c, Ok [mkPod "prometheus-k8s-0" "monitoring" None PodRunning [] "n2"]);
|}.

Lemma ex_distinct : distinct_nodes (C := list node).
Proof. intros c c' l. cbn. case_decide; [|done]. by intros [= <- <-]. Qed.

Definition ex_rate : NodeFailureConfig :=
  mkNodeFailureConfig (f64_div (f64_of_Z 1) (f64_of_Z 2)) 0 (f64_of_Z 0) 0.
Definition ex_decode (_ : params) (_ : NodeFailureConfig) : result NodeFailureConfig := Ok ex_rate.

Definition ex_call (c : chaosMonkeyMeasurement) (action : string) : chaosMonkeyMeasurement :=
  (default (c, None) (chaos_Execute true "gce" ex_decode c {["action" := VString action]})).1.

Definition ex_round : killer_round :=
  mkRound (C := list node) [ex_node "n1"; ex_node "n2"; ex_node "n3"] (fun _ => 1%nat) (fun _ _ => None)
    [(0%nat, 10); (0%nat, 20); (1%nat, 30); (1%nat, 40)].

Definition ex_works (c : chaosMonkeyMeasurement) : chaosMonkeyMeasurement :=
  match killer_works c ex_round with Some (Returns c') => c' | _ => c end.

Definition ex_started := ex_call (createChaosMonkeyMeasurement ex_rate) "start".
Definition ex_worked := ex_works ex_started.
Definition ex_again := ex_works (ex_call (ex_call ex_worked "stop") "start").

(** The first run kills n1, the second n3; n2 runs Prometheus. *)
Example ex_events : (ev_nodeName <$> log_of ex_worked) = ["n1"; "n1"] /\ (ev_nodeName <$> log_of ex_again) = ["n3"; "n3"].
Proof. vm_compute. done. Qed.

Lemma ex_chaos_run : chaos_run true "gce" ex_decode ex_rate ex_worked (drop 0 (log_of ex_worked)).
Proof.
  apply (chaos_works true "gce" ex_decode ex_rate ex_started [] ex_round ex_worked); [|by vm_compute..].
  apply (chaos_called true "gce" ex_decode ex_rate (createChaosMonkeyMeasurement ex_rate) []
    {["action" := VString "start"]} ex_started None); [constructor|done|by vm_compute].
Qed.

Lemma nodes_killed_once_witness :
  once (actions_of "n1" (log_of ex_worked)) /\ actions_of "n1" (log_of ex_worked) = [stopServices; rebootNode].
Proof.
  split; [|by vm_compute].
  apply (nodes_killed_once (C := list node) true "gce" ex_decode ex_rate ex_worked (drop 0 (log_of ex_worked))
    ex_distinct ex_chaos_run).
Defined.
