(* ===== verification/Waiting.v ===== *)
(** * Waiting for nodes, volumes, conditions (pkg/measurement/util/wait_for_*.go)

    The wait loops beside the one for pods, the counting they decide by
    (pvcs.go, pvs.go, wait_for_conditions.go, object_store_dynamic.go), and
    the measurements of pkg/measurement/common that call them. All of them
    poll a listing until it satisfies a condition or the time is up. *)

From S2P Require Import Prelude GoErrors GoRuntime Params Measurement Client Pods RuntimeObjects Cluster.

(** ** Polling

    What one [select] of a wait loop receives: the stop channel (or the end of
    the context), or the tick with the listing taken then. *)
Inductive poll (A : Type) := Stopped | Tick (a : A).
Arguments Stopped {_}.
Arguments Tick {_} _.

Section Polling.
Context {A S : Type}.
(** The error reported when stopped in a state, the verdict on a listing
    ([None]: go on) and the state it leaves. *)
Context (on_stop : S -> error) (verdict : A -> option (option error)) (next : A -> S).

(** [None]: still waiting after these rounds. *)
Fixpoint poll_loop (rounds : list (poll A)) (s : S) : option (option error) :=
  match rounds with
  | [] => None
  | Stopped :: _ => Some (Some (on_stop s))
  | Tick a :: rounds' =>
      match verdict a with
      | Some r => Some r
      | None => poll_loop rounds' (next a)
      end
  end.

Definition undecided (r : poll A) : Prop := match r with Stopped => False | Tick a => verdict a = None end.

(** The last state before a stop. *)
Definition last_state (pre : list (poll A)) (s : S) : S :=
  fold_left (fun s r => match r with Stopped => s | Tick a => next a end) pre s.

(** The loop ends with the verdict on the first listing that has one, or with
    the error of a stop before that. *)
Lemma poll_loop_spec rounds s r :
  poll_loop rounds s = Some r <->
  exists pre x post, rounds = pre ++ x :: post /\ Forall undecided pre /\
    match x with Stopped => r = Some (on_stop (last_state pre s)) | Tick a => verdict a = Some r end.
Proof.
  revert s. induction rounds as [|x rounds IH]; intros s; cbn [poll_loop].
  { split; [done|]. by intros ([] & ? & ? & ? & _). }
  destruct x as [|a]; [|destruct (verdict a) as [r'|] eqn:Hv].
  - split; [intros [= <-]; by exists [], Stopped, rounds|].
    intros ([|y pre] & z & post & Heq & Hpre & Hz); simplify_eq/=; [done|].
    apply Forall_cons in Hpre as [[] _].
  - split; [intros [= <-]; by exists [], (Tick a), rounds|].
    intros ([|y pre] & z & post & Heq & Hpre & Hz); simplify_eq/=; [done|].
    apply Forall_cons in Hpre as [Hy _]. cbn in Hy. congruence.
  - rewrite IH. split.
    + intros (pre & z & post & -> & Hpre & Hz). exists (Tick a :: pre), z, post. split_and!; [done|by constructor|].
      by destruct z.
    + intros ([|y pre] & z & post & Heq & Hpre & Hz); simplify_eq/=.
      apply Forall_cons in Hpre as [_ Hpre]. exists pre, z, post. by destruct z.
Qed.

(** Success, when the verdict is "good or go on". *)
Lemma poll_loop_success rounds s :
  poll_loop rounds s = Some None <->
  exists pre a post, rounds = pre ++ Tick a :: post /\ Forall undecided pre /\ verdict a = Some None.
Proof.
  rewrite poll_loop_spec. split.
  - intros (pre & [|a] & post & -> & Hpre & Hx); [done|]. by exists pre, a, post.
  - intros (pre & a & post & -> & Hpre & Hx). by exists pre, (Tick a), post.
Qed.
End Polling.

(** [len(filter)] as an [int]. *)
Definition count {A} (f : A -> bool) (l : list A) : Z := Z.of_nat (length (filter (fun x => f x = true) l)).

Lemma count_cons {A} (f : A -> bool) x l : count f (x :: l) = (if f x then 1 else 0) + count f l.
Proof. unfold count. rewrite filter_cons. destruct (f x) eqn:Hf; case_decide; try done; cbn [length]; lia. Qed.

Lemma count_nil {A} (f : A -> bool) : count f [] = 0.
Proof. done. Qed.

(** ** Nodes (wait_for_nodes.go) *)

Record WaitForNodeOptions := mkWaitForNodeOptions {
  wn_Selector : ObjectSelector;
  MinDesiredNodeCount : Z;
  MaxDesiredNodeCount : Z;
  wn_Interval : Z;
}.

Definition getNumReadyNodes (nodes : list node) : Z :=
  fold_left (fun nReady n => if IsNodeSchedulableAndUntainted n then nReady + 1 else nReady) nodes 0.

Definition nodes_verdict (options : WaitForNodeOptions) (nodes : list node) : option (option error) :=
  let nodeCount := getNumReadyNodes nodes in
  if (MinDesiredNodeCount options <=? nodeCount) && (nodeCount <=? MaxDesiredNodeCount options)
  then Some None else None.

(** [store]: the error of creating the store; [first]: the listing before the
    loop; [rounds]: what the loop sees at the interval. *)
Definition WaitForNodes (store : option error) (first : list node) (rounds : list (poll (list node)))
  (options : WaitForNodeOptions) : option (option error) :=
  match store with
  | Some err => Some (Some (Errorf "node store creation error: %v" [AErr err]))
  | None =>
      poll_loop
        (fun nodeCount =>
           Errorf "timeout while waiting for [%d-%d] Nodes with selector '%v' to be ready - currently there is %d Nodes"
             [AInt (MinDesiredNodeCount options); AInt (MaxDesiredNodeCount options);
              AStr (ObjectSelector_String (wn_Selector options)); AInt nodeCount])
        (nodes_verdict options) getNumReadyNodes rounds (getNumReadyNodes first)
  end.

(** ** Persistent volume claims (pvcs.go, wait_for_pvcs.go) *)

(** A claim or a volume: its name, phase and provisioner annotation. *)
Record volume := mkVolume { vol_Name : string; vol_Phase : string; vol_ProvisionedBy : string }.

Record PVCsStartupStatus := mkPVCs {
  pvc_Pending : Z; pvc_Bound : Z; pvc_Lost : Z; pvc_Expected : Z; pvc_Created : Z;
}.

Definition PVCsStartupStatus_String (s : PVCsStartupStatus) : string :=
  Sprintf "PVCs: %d out of %d created, %d bound, %d pending, %d lost"
    [FInt (pvc_Created s); FInt (pvc_Expected s); FInt (pvc_Bound s); FInt (pvc_Pending s); FInt (pvc_Lost s)].

Definition count_pvc (s : PVCsStartupStatus) (p : volume) : PVCsStartupStatus :=
  let add pend bound lost :=
    mkPVCs (pvc_Pending s + pend) (pvc_Bound s + bound) (pvc_Lost s + lost) (pvc_Expected s) (pvc_Created s + 1) in
  if String.eqb (vol_Phase p) "Pending" then add 1 0 0
  else if String.eqb (vol_Phase p) "Bound" then add 0 1 0
  else if String.eqb (vol_Phase p) "Lost" then add 0 0 1
  else add 0 0 0.

Definition ComputePVCsStartupStatus (pvcs : list volume) (expected : Z) : PVCsStartupStatus :=
  fold_left count_pvc pvcs (mkPVCs 0 0 0 expected 0).

Definition pvcs_verdict (desired : Z) (pvcs : list volume) : option (option error) :=
  let s := ComputePVCsStartupStatus pvcs desired in
  if (Z.of_nat (length pvcs) =? pvc_Bound s + pvc_Pending s) && (pvc_Bound s =? desired) then Some None else None.

Record WaitForPVCOptions := mkWaitForPVCOptions {
  wpvc_Selector : ObjectSelector;
  DesiredPVCCount : Z;
}.

Definition WaitForPVCs (store : option error) (rounds : list (poll (list volume))) (options : WaitForPVCOptions)
  : option (option error) :=
  match store with
  | Some err => Some (Some (Errorf "PVC store creation error: %v" [AErr err]))
  | None =>
      poll_loop
        (fun pvcsStatus =>
           Errorf "timeout while waiting for %d PVCs to be running in namespace '%v' with labels '%v' and fields '%v' - only %d found bound"
             [AInt (DesiredPVCCount options); AStr (sel_Namespace (wpvc_Selector options));
              AStr (sel_LabelSelector (wpvc_Selector options)); AStr (sel_FieldSelector (wpvc_Selector options));
              AInt (pvc_Bound pvcsStatus)])
        (pvcs_verdict (DesiredPVCCount options))
        (fun pvcs => ComputePVCsStartupStatus pvcs (DesiredPVCCount options))
        rounds (mkPVCs 0 0 0 0 0)
  end.

(** ** Differences between listings, of claims and of volumes alike *)

Record volumeInfo := mkVolumeInfo { vi_oldPhase : string; vi_phase : string }.

Definition DiffVolumes (old cur : list volume) : gmap string volumeInfo :=
  let m := fold_left (fun m v => <[vol_Name v := mkVolumeInfo nonExist (vol_Phase v)]> m) cur ∅ in
  fold_left (fun m v =>
    match m !! vol_Name v with
    | Some info => <[vol_Name v := mkVolumeInfo (vol_Phase v) (vi_phase info)]> m
    | None => <[vol_Name v := mkVolumeInfo (vol_Phase v) nonExist]> m
    end) old m.

(** The maps are ranged over in some order. *)
Definition DeletedVolumes (d : gmap string volumeInfo) : list string :=
  omap (fun kv => if String.eqb (vi_phase kv.2) nonExist then Some kv.1 else None) (map_to_list d).
Definition AddedVolumes (d : gmap string volumeInfo) : list string :=
  omap (fun kv => if String.eqb (vi_oldPhase kv.2) nonExist then Some kv.1 else None) (map_to_list d).

(** The line printed for one entry; [what] is "PVC" or "PV". *)
Definition diff_line (what : string) (ignorePhases : gset string) (kv : string * volumeInfo) : string :=
  let '(name, info) := kv in
  if bool_decide (vi_phase info ∈ ignorePhases) then ""
  else if String.eqb (vi_phase info) nonExist then
    Sprintf (what +:+ " %v was deleted, had phase %v") [FStr name; FStr (vi_oldPhase info)] +:+ newline
  else if String.eqb (vi_oldPhase info) (vi_phase info) then ""
  else
    Sprintf (what +:+ " %v ") [FStr name] +:+
    (if String.eqb (vi_oldPhase info) nonExist then Sprintf "in phase %v " [FStr (vi_phase info)]
     else Sprintf "went from phase: %v -> %v " [FStr (vi_oldPhase info); FStr (vi_phase info)]) +:+ newline.

Definition VolumeDiff_String `{MapRange} (what : string) (d : gmap string volumeInfo) (ignorePhases : gset string) : string :=
  fold_left (fun ret kv => ret +:+ diff_line what ignorePhases kv) (range "diff" d) "".

(** pvcs.go and pvs.go have a copy each. *)
Definition DiffPVCs := DiffVolumes.
Definition DeletedPVCs := DeletedVolumes.
Definition AddedPVCs := AddedVolumes.
Definition PVCDiff_String `{MapRange} := VolumeDiff_String "PVC".
Definition DiffPVs := DiffVolumes.
Definition DeletedPVs := DeletedVolumes.
Definition AddedPVs := AddedVolumes.
Definition PVDiff_String `{MapRange} := VolumeDiff_String "PV".

(** ** Persistent volumes (pvs.go, wait_for_pvs.go, PVStore) *)

Record PVsStartupStatus := mkPVs {
  pv_Pending : Z; pv_Available : Z; pv_Bound : Z; pv_Released : Z; pv_Failed : Z; pv_Expected : Z; pv_Created : Z;
}.

Definition PVsStartupStatus_String (s : PVsStartupStatus) : string :=
  Sprintf "PVs: %d out of %d created, %d bound, %d pending, %d available, %d failed"
    [FInt (pv_Created s); FInt (pv_Expected s); FInt (pv_Bound s); FInt (pv_Pending s); FInt (pv_Available s);
     FInt (pv_Failed s)].

Definition count_pv (s : PVsStartupStatus) (p : volume) : PVsStartupStatus :=
  let add pend avail bound rel fail :=
    mkPVs (pv_Pending s + pend) (pv_Available s + avail) (pv_Bound s + bound) (pv_Released s + rel)
      (pv_Failed s + fail) (pv_Expected s) (pv_Created s + 1) in
  if String.eqb (vol_Phase p) "Pending" then add 1 0 0 0 0
  else if String.eqb (vol_Phase p) "Available" then add 0 1 0 0 0
  else if String.eqb (vol_Phase p) "Bound" then add 0 0 1 0 0
  else if String.eqb (vol_Phase p) "Released" then add 0 0 0 1 0
  else if String.eqb (vol_Phase p) "Failed" then add 0 0 0 0 1
  else add 0 0 0 0 0.

Definition ComputePVsStartupStatus (pvs : list volume) (expected : Z) : PVsStartupStatus :=
  fold_left count_pv pvs (mkPVs 0 0 0 0 0 expected 0).

(** [PVStore.List]: only the volumes of the provisioner, when one is given. *)
Definition PVStore_List (provisioner : string) (objects : list volume) : list volume :=
  fold_left (fun pvs pv =>
    if String.eqb provisioner "" || String.eqb (vol_ProvisionedBy pv) provisioner then pvs ++ [pv] else pvs) objects [].

Record WaitForPVOptions := mkWaitForPVOptions {
  wpv_Selector : ObjectSelector;
  DesiredPVCount : Z;
  Provisioner : string;
}.

Definition WaitForPVOptions_filter (options : WaitForPVOptions) : string :=
  ObjectSelector_String (wpv_Selector options) +:+
  (if String.eqb (Provisioner options) "" then "" else " && provisioner=" +:+ Provisioner options).

Definition pvs_verdict (desired : Z) (pvs : list volume) : option (option error) :=
  let s := ComputePVsStartupStatus pvs desired in
  if (Z.of_nat (length pvs) =? pv_Bound s + pv_Available s + pv_Pending s) && (pv_Bound s + pv_Available s =? desired)
  then Some None else None.

(** [Sprint]: the [%+v] of a volume. The rounds see the store, which the
    provisioner filter is applied to. *)
Definition WaitForPVs (Sprint : volume -> string) (store : option error) (first : list volume)
  (rounds : list (poll (list volume))) (options : WaitForPVOptions) : option (option error) :=
  match store with
  | Some err => Some (Some (Errorf "PV store creation error: %v" [AErr err]))
  | None =>
      let listed := PVStore_List (Provisioner options) in
      poll_loop
        (fun s : list volume * PVsStartupStatus =>
           let example := match s.1 with [] => "" | pv :: _ => Sprintf ", first one is %+v" [FStr (Sprint pv)] end in
           Errorf "timeout while waiting for %d PVs with selector '%s' - only %d found provisioned%s"
             [AInt (DesiredPVCount options); AStr (WaitForPVOptions_filter options);
              AInt (pv_Bound s.2 + pv_Available s.2); AStr example])
        (fun pvs => pvs_verdict (DesiredPVCount options) (listed pvs))
        (fun pvs => (listed pvs, ComputePVsStartupStatus (listed pvs) (DesiredPVCount options)))
        rounds (listed first, mkPVs 0 0 0 0 0 0 0)
  end.

(** ** Objects with conditions (wait_for_conditions.go, object_store_dynamic.go) *)

Record Condition := mkCond { c_Type : string; c_Status : string }.

Record ObjectSimplification := mkSimplification {
  os_Namespace : string;
  os_Name : string;
  os_Conditions : list Condition;
}.

Definition ObjectSimplification_String (o : ObjectSimplification) : string :=
  Sprintf "%s/%s" [FStr (os_Namespace o); FStr (os_Name o)].

Definition conditionToKey (c : Condition) : string := Sprintf "%s=%s" [FStr (c_Type c); FStr (c_Status c)].

Record NamespacesRange := mkNamespacesRange { nr_Prefix : string; nr_Min : Z; nr_Max : Z }.

Definition NamespacesRange_String (nr : NamespacesRange) : string :=
  if String.eqb (nr_Prefix nr) "" then ""
  else Sprintf "%s-(%d-%d)" [FStr (nr_Prefix nr); FInt (nr_Min nr); FInt (nr_Max nr)].

(** The loop [for i := Min; i <= Max; i++] over 64 bit integers, for a maximum
    below the largest of them. *)
Definition getMap (nr : NamespacesRange) : gset string :=
  if String.eqb (nr_Prefix nr) "" then {[""]}
  else list_to_set ((fun i => indexed_name (nr_Prefix nr) i) <$> seqZ (nr_Min nr) (nr_Max nr - nr_Min nr + 1)).

(** [getObjectSimplification] goes through JSON and is given as a function. *)
Fixpoint simplify_loop {O} (getObjectSimplification : O -> result ObjectSimplification) (namespaces : gset string)
  (objects : list O) (res : list ObjectSimplification) : result (list ObjectSimplification) :=
  match objects with
  | [] => Ok res
  | o :: objects' =>
      match getObjectSimplification o with
      | Err err => Err err
      | Ok os =>
          if negb (bool_decide (os_Namespace os ∈ namespaces))
          then simplify_loop getObjectSimplification namespaces objects' res
          else simplify_loop getObjectSimplification namespaces objects' (res ++ [os])
      end
  end.

Definition ListObjectSimplifications {O} (getObjectSimplification : O -> result ObjectSimplification)
  (namespaces : gset string) (listed : result (list O)) : result (list ObjectSimplification) :=
  match listed with
  | Err err => Err err
  | Ok objects => simplify_loop getObjectSimplification namespaces objects []
  end.

(** The first condition found in one of the two maps decides; [Some true] is
    successful. *)
Fixpoint classify_loop (successful failed : gset string) (cs : list Condition) : option bool :=
  match cs with
  | [] => None
  | c :: cs' =>
      if bool_decide (conditionToKey c ∈ successful) then Some true
      else if bool_decide (conditionToKey c ∈ failed) then Some false
      else classify_loop successful failed cs'
  end.

Definition countObjectsMatchingConditions (objects : list ObjectSimplification)
  (successfulConditions failedConditions : list string) : list string * list string * Z :=
  let successfulMap : gset string := list_to_set successfulConditions in
  let failedMap : gset string := list_to_set failedConditions in
  let '(successful, failed) := fold_left (fun sf object =>
    match classify_loop successfulMap failedMap (os_Conditions object) with
    | Some true => (sf.1 ++ [ObjectSimplification_String object], sf.2)
    | Some false => (sf.1, sf.2 ++ [ObjectSimplification_String object])
    | None => sf
    end) objects ([], []) in
  (successful, failed, Z.of_nat (length objects)).

Record WaitForGenericK8sObjectsOptions := mkGenericOptions {
  go_GroupVersionResource : GroupVersionResource;
  go_Namespaces : NamespacesRange;
  SuccessfulConditions : list string;
  FailedConditions : list string;
  MinDesiredObjectCount : Z;
  MaxFailedObjectCount : Z;
  go_CallerName : string;
}.

(** [GroupVersionResource.String]. *)
Definition gvr_String (g : GroupVersionResource) : string :=
  Sprintf "%s/%s, Resource=%s" [FStr (gvr_Group g); FStr (gvr_Version g); FStr (Resource g)].

Definition options_Summary (o : WaitForGenericK8sObjectsOptions) : string :=
  Sprintf "%s: objects: %q, namespaces: %q"
    [FStr (go_CallerName o); FStr (gvr_String (go_GroupVersionResource o)); FStr (NamespacesRange_String (go_Namespaces o))].

Definition objects_verdict (options : WaitForGenericK8sObjectsOptions) (listed : result (list ObjectSimplification))
  : option (option error) :=
  match listed with
  | Err err => Some (Some err)
  | Ok objects =>
      let '(successful, failed, count) :=
        countObjectsMatchingConditions objects (SuccessfulConditions options) (FailedConditions options) in
      let ns := Z.of_nat (length successful) in
      let nf := Z.of_nat (length failed) in
      if MinDesiredObjectCount options <=? ns + nf then
        if MaxFailedObjectCount options <? nf then
          Some (Some (Errorf "%s: too many failed objects, expected at most %d - currently there are: successful=%d failed=%d count=%d failed-objects=[%s]"
            [AStr (options_Summary options); AInt (MaxFailedObjectCount options); AInt ns; AInt nf; AInt count;
             AStr (join "," failed)]))
        else Some None
      else None
  end.

Definition count_listed (options : WaitForGenericK8sObjectsOptions) (listed : result (list ObjectSimplification))
  : list string * list string * Z :=
  match listed with
  | Err _ => ([], [], 0)
  | Ok objects => countObjectsMatchingConditions objects (SuccessfulConditions options) (FailedConditions options)
  end.

(** [store]: the error of creating the store; the listings are those of the
    informer's lister. *)
Definition WaitForGenericK8sObjects {O} (getObjectSimplification : O -> result ObjectSimplification)
  (store : option error) (first : result (list O)) (rounds : list (poll (result (list O))))
  (options : WaitForGenericK8sObjectsOptions) : option (option error) :=
  let list_ := ListObjectSimplifications getObjectSimplification (getMap (go_Namespaces options)) in
  match store with
  | Some err => Some (Some err)
  | None =>
      match list_ first with
      | Err err => Some (Some err)
      | Ok _ =>
          poll_loop
            (fun s : list string * list string * Z =>
               Errorf "%s: timeout while waiting for %d objects to be successful or failed - currently there are: successful=%d failed=%d count=%d"
                 [AStr (options_Summary options); AInt (MinDesiredObjectCount options);
                  AInt (Z.of_nat (length s.1.1)); AInt (Z.of_nat (length s.1.2)); AInt s.2])
            (fun listed => objects_verdict options (list_ listed))
            (fun listed => count_listed options (list_ listed))
            rounds (count_listed options (list_ first))
      end
  end.

(** ** The measurements (pkg/measurement/common) *)

Section Measurements.
Context `{GoLib}.

Definition getMinMaxDesiredNodeCount (p : params) : Z * Z * option error :=
  match getInt p "minDesiredNodeCount" with
  | (mn, Some err) => (mn, 0, Some err)
  | (mn, None) => let '(mx, err) := getInt p "maxDesiredNodeCount" in (mn, mx, err)
  end.

(** What the cluster shows a wait with these settings: the error of the store,
    the first listing and the rounds for a timeout and an interval. *)
Record wait_env (A : Type) := mkWaitEnv {
  we_store : ObjectSelector -> option error;
  we_first : ObjectSelector -> A;
  we_rounds : ObjectSelector -> Z -> Z -> list (poll A);
}.
Arguments we_store {_} _ _.
Arguments we_first {_} _ _.
Arguments we_rounds {_} _ _ _ _.

Definition waitForNodes_Execute (env : wait_env (list node)) (p : params) : option (option error) :=
  let '(minNodeCount, maxNodeCount, err) := getMinMaxDesiredNodeCount p in
  if err is Some _ then Some err else
  let '(selector, err) := Parse NewObjectSelector p in
  if err is Some _ then Some err else
  let '(timeout, err) := GetDurationOrDefault p "timeout" (30 * Duration.Minute) in
  if err is Some _ then Some err else
  let '(refreshInterval, err) := GetDurationOrDefault p "refreshInterval" (30 * Duration.Second) in
  if err is Some _ then Some err else
  WaitForNodes (we_store env selector) (we_first env selector) (we_rounds env selector timeout refreshInterval)
    (mkWaitForNodeOptions selector minNodeCount maxNodeCount refreshInterval).

Definition waitForBoundPVCs_Execute (env : wait_env (list volume)) (p : params) : option (option error) :=
  let '(desiredPVCCount, err) := getInt p "desiredPVCCount" in
  if err is Some _ then Some err else
  let '(selector, err) := Parse NewObjectSelector p in
  if err is Some _ then Some err else
  let '(timeout, err) := GetDurationOrDefault p "timeout" (60 * Duration.Second) in
  if err is Some _ then Some err else
  WaitForPVCs (we_store env selector) (we_rounds env selector timeout (5 * Duration.Second))
    (mkWaitForPVCOptions selector desiredPVCCount).

Definition waitForAvailablePVs_Execute (Sprint : volume -> string) (env : wait_env (list volume)) (p : params)
  : option (option error) :=
  let '(desiredPVCount, err) := getInt p "desiredPVCount" in
  if err is Some _ then Some err else
  let '(provisioner, err) := getString p "provisioner" in
  if err is Some _ then Some err else
  let '(selector, err) := Parse NewObjectSelector p in
  if err is Some _ then Some err else
  let '(timeout, err) := GetDurationOrDefault p "timeout" (60 * Duration.Second) in
  if err is Some _ then Some err else
  WaitForPVs Sprint (we_store env selector) (we_first env selector) (we_rounds env selector timeout (5 * Duration.Second))
    (mkWaitForPVOptions selector desiredPVCount provisioner).

(** WaitForRunningPods: the pod store, its first listing and the rounds, which
    see the fixed desired count. *)
Record pods_env := mkPodsEnv {
  pe_store : ObjectSelector -> option error;
  pe_first : ObjectSelector -> result (list Pod);
  pe_rounds : ObjectSelector -> Z -> Z -> Z -> list round;
}.

Definition waitForRunningPods_Execute (env : pods_env) (p : params) : option (option error) :=
  let '(desiredPodCount, err) := getInt p "desiredPodCount" in
  if err is Some _ then Some err else
  let '(selector, err) := Parse NewObjectSelector p in
  if err is Some _ then Some err else
  let '(timeout, err) := GetDurationOrDefault p "timeout" (60 * Duration.Second) in
  if err is Some _ then Some err else
  let '(refreshInterval, err) := GetDurationOrDefault p "refreshInterval" (5 * Duration.Second) in
  if err is Some _ then Some err else
  let '(isFatal, err) := GetBoolOrDefault p "isFatal" false in
  if err is Some _ then Some err else
  match pe_store env selector with
  | Some err => Some (Some err)
  | None =>
      match WaitForPods (ObjectSelector_String selector) (mkWaitOptions 0 None) (pe_first env selector)
              (pe_rounds env selector desiredPodCount timeout refreshInterval) with
      | None => None
      | Some WaitOk => Some None
      | Some (WaitErr _ err) => Some (Some (if isFatal then NewErrCritical err else err))
      end
  end.

Definition getGroupVersionResource (p : params) : GroupVersionResource * option error :=
  let zero := mkGVR "" "" "" in
  match getString p "objectGroup" with
  | (_, Some err) => (zero, Some err)
  | (group, None) =>
      match getString p "objectVersion" with
      | (_, Some err) => (zero, Some err)
      | (version, None) =>
          match getString p "objectResource" with
          | (_, Some err) => (zero, Some err)
          | (resource, None) => (mkGVR group version resource, None)
          end
      end
  end.

Definition getNamespaces (namespacesPrefix : string) (p : params) : NamespacesRange * option error :=
  let zero := mkNamespacesRange "" 0 0 in
  match Params.getMap p "namespaceRange" with
  | (_, Some err) => if IsErrKeyNotFound (Some err) then (zero, None) else (zero, Some err)
  | (namespaceRange, None) =>
      let namespaceRange := default ∅ namespaceRange in
      match getInt namespaceRange "min" with
      | (_, Some err) => (zero, Some err)
      | (minParam, None) =>
          match getInt namespaceRange "max" with
          | (_, Some err) => (zero, Some err)
          | (maxParam, None) => (mkNamespacesRange namespacesPrefix minParam maxParam, None)
          end
      end
  end.

(** The listing and rounds of the resource. *)
Record objects_env (O : Type) := mkObjectsEnv {
  oe_prefix : string;      (* GetAutomanagedNamespacePrefix *)
  oe_simplify : O -> result ObjectSimplification;
  oe_store : GroupVersionResource -> option error;
  oe_first : GroupVersionResource -> result (list O);
  oe_rounds : GroupVersionResource -> Z -> Z -> list (poll (result (list O)));
}.
Arguments oe_prefix {_} _.
Arguments oe_simplify {_} _ _.
Arguments oe_store {_} _ _.
Arguments oe_first {_} _ _.
Arguments oe_rounds {_} _ _ _ _.

Definition waitForGenericK8sObjects_Execute {O} (env : objects_env O) (p : params) : option (option error) :=
  let '(gvr, err) := getGroupVersionResource p in
  if err is Some _ then Some err else
  let '(namespaces, err) := getNamespaces (oe_prefix env) p in
  if err is Some _ then Some err else
  let '(timeout, err) := GetDurationOrDefault p "timeout" (30 * Duration.Minute) in
  if err is Some _ then Some err else
  let '(refreshInterval, err) := GetDurationOrDefault p "refreshInterval" (30 * Duration.Second) in
  if err is Some _ then Some err else
  let '(successfulConditions, err) := getStringArray p "successfulConditions" in
  if err is Some _ then Some err else
  let '(failedConditions, err) := getStringArray p "failedConditions" in
  if err is Some _ then Some err else
  let '(minDesiredObjectCount, err) := getInt p "minDesiredObjectCount" in
  if err is Some _ then Some err else
  let '(maxFailedObjectCount, err) := getInt p "maxFailedObjectCount" in
  if err is Some _ then Some err else
  WaitForGenericK8sObjects (oe_simplify env) (oe_store env gvr) (oe_first env gvr)
    (oe_rounds env gvr timeout refreshInterval)
    (mkGenericOptions gvr namespaces successfulConditions failedConditions minDesiredObjectCount
       maxFailedObjectCount "WaitForGenericK8sObjects").

(** [Sleep]: how long the call sleeps; a negative duration returns at once. *)
Definition sleep_Execute (p : params) : result Z :=
  match getString p "duration" with
  | (_, Some err) => Err err
  | (durationStr, None) =>
      match Duration.ParseDuration durationStr with
      | Err err => Err err
      | Ok duration => Ok (Z.max 0 duration)
      end
  end.

End Measurements.

(** ** What the waits wait for *)

(** The first listing that is ready, all before it were not, and no stop. *)
Definition first_ready {A} (ready : A -> Prop) (rounds : list (poll A)) : Prop :=
  exists pre a post, rounds = pre ++ Tick a :: post /\
    Forall (fun r => exists l, r = Tick l /\ ~ ready l) pre /\ ready a.

Lemma poll_loop_ready {A S} (on_stop : S -> error) verdict (next : A -> S) (ready : A -> Prop) rounds s :
  (forall a, verdict a = Some None <-> ready a) -> (forall a, verdict a = None <-> ~ ready a) ->
  poll_loop on_stop verdict next rounds s = Some None <-> first_ready ready rounds.
Proof.
  intros Hy Hn. rewrite poll_loop_success. unfold first_ready.
  assert (forall pre, Forall (undecided verdict) pre <-> Forall (fun r => exists l, r = Tick l /\ ~ ready l) pre) as Hpre.
  { intros pre. apply Forall_iff. intros [|a]; cbn; [by split; [|intros (? & ? & _)]|].
    rewrite Hn. split; [eauto|]. intros (l & [= <-] & ?). done. }
  setoid_rewrite Hpre. setoid_rewrite Hy. done.
Qed.

(** A condition that says "good, or go on". *)
Lemma verdict_ready {A} (f : A -> bool) (ready : A -> Prop) (a : A) :
  (f a = true <-> ready a) ->
  ((if f a then Some (@None error) else None) = Some None <-> ready a) /\
  ((if f a then Some (@None error) else None) = None <-> ~ ready a).
Proof. destruct (f a); naive_solver. Qed.

Definition has_phase (phase : string) (v : volume) : bool := String.eqb (vol_Phase v) phase.

Lemma getNumReadyNodes_count nodes : getNumReadyNodes nodes = count IsNodeSchedulableAndUntainted nodes.
Proof.
  unfold getNumReadyNodes.
  assert (forall acc, fold_left (fun nReady n => if IsNodeSchedulableAndUntainted n then nReady + 1 else nReady) nodes acc
    = acc + count IsNodeSchedulableAndUntainted nodes) as ->; [|lia].
  induction nodes as [|n nodes IH]; intros acc; cbn [fold_left]; [rewrite count_nil; lia|].
  rewrite IH, count_cons. destruct (IsNodeSchedulableAndUntainted n); lia.
Qed.

Ltac phases p :=
  unfold has_phase; repeat case_match; repeat match goal with
  | Hq : String.eqb (vol_Phase p) _ = true |- _ => apply String.eqb_eq in Hq
  end; cbn in *; try congruence; try lia.

Lemma ComputePVCs_count pvcs expected :
  let s := ComputePVCsStartupStatus pvcs expected in
  pvc_Bound s = count (has_phase "Bound") pvcs /\ pvc_Pending s = count (has_phase "Pending") pvcs /\
  pvc_Lost s = count (has_phase "Lost") pvcs /\ pvc_Created s = Z.of_nat (length pvcs).
Proof.
  cbn zeta. unfold ComputePVCsStartupStatus.
  assert (forall s0, let s := fold_left count_pvc pvcs s0 in
    pvc_Bound s = pvc_Bound s0 + count (has_phase "Bound") pvcs /\
    pvc_Pending s = pvc_Pending s0 + count (has_phase "Pending") pvcs /\
    pvc_Lost s = pvc_Lost s0 + count (has_phase "Lost") pvcs /\
    pvc_Created s = pvc_Created s0 + Z.of_nat (length pvcs)) as Hs.
  { induction pvcs as [|p pvcs IH]; intros s0; cbn [fold_left length]; [rewrite !count_nil; cbn; lia|].
    destruct (IH (count_pvc s0 p)) as (-> & -> & -> & ->). rewrite !count_cons. unfold count_pvc.
    split_and!; phases p. }
  destruct (Hs (mkPVCs 0 0 0 expected 0)) as (-> & -> & -> & ->). cbn. lia.
Qed.

Lemma ComputePVs_count pvs expected :
  let s := ComputePVsStartupStatus pvs expected in
  pv_Bound s = count (has_phase "Bound") pvs /\ pv_Pending s = count (has_phase "Pending") pvs /\
  pv_Available s = count (has_phase "Available") pvs /\ pv_Created s = Z.of_nat (length pvs).
Proof.
  cbn zeta. unfold ComputePVsStartupStatus.
  assert (forall s0, let s := fold_left count_pv pvs s0 in
    pv_Bound s = pv_Bound s0 + count (has_phase "Bound") pvs /\
    pv_Pending s = pv_Pending s0 + count (has_phase "Pending") pvs /\
    pv_Available s = pv_Available s0 + count (has_phase "Available") pvs /\
    pv_Created s = pv_Created s0 + Z.of_nat (length pvs)) as Hs.
  { induction pvs as [|p pvs IH]; intros s0; cbn [fold_left length]; [rewrite !count_nil; cbn; lia|].
    destruct (IH (count_pv s0 p)) as (-> & -> & -> & ->). rewrite !count_cons. unfold count_pv.
    split_and!; phases p. }
  destruct (Hs (mkPVs 0 0 0 0 0 expected 0)) as (-> & -> & -> & ->). cbn. lia.
Qed.

(** Disjoint classes that add up to the whole list cover it. *)
Lemma count_cover {A} (fs : list (A -> bool)) (l : list A) :
  (forall x, (length (filter (fun f : A -> bool => f x = true) fs) <= 1)%nat) ->
  Z.of_nat (length l) = foldr (fun f n => count f l + n) 0 fs <->
  Forall (fun x => Exists (fun f => f x = true) fs) l.
Proof.
  intros Hone.
  assert (forall x l, foldr (fun f n => count f (x :: l) + n) 0 fs =
    Z.of_nat (length (filter (fun f : A -> bool => f x = true) fs)) + foldr (fun f n => count f l + n) 0 fs) as Hstep.
  { intros x l'. clear Hone. induction fs as [|f fs IH]; [done|]. cbn [foldr]. rewrite IH, count_cons, filter_cons.
    destruct (f x) eqn:Hf; case_decide; try done; cbn [length]; lia. }
  assert (forall l, foldr (fun f n => count f l + n) 0 fs <= Z.of_nat (length l)) as Hle.
  { induction l0 as [|x l0 IH]; [clear; induction fs as [|f fs IH]; [done|cbn [foldr]; rewrite count_nil; lia]|].
    rewrite Hstep. specialize (Hone x). cbn [length]. lia. }
  assert (forall x, Exists (fun f : A -> bool => f x = true) fs <->
    (0 < length (filter (fun f : A -> bool => f x = true) fs))%nat) as Hex.
  { intros x. clear. induction fs as [|f fs IH]; [by split; [intros []%Exists_nil|cbn; lia]|].
    rewrite Exists_cons, IH, filter_cons. case_decide; cbn [length]; naive_solver lia. }
  induction l as [|x l IH].
  { split; [constructor|]. intros _. clear. induction fs as [|f fs IH]; [done|]. cbn [foldr]. rewrite count_nil. lia. }
  rewrite Forall_cons, <- IH, Hstep, Hex. specialize (Hone x). specialize (Hle l). cbn [length].
  destruct (filter _ fs) as [|? [|? ?]] eqn:Hf; cbn [length] in *; split; lia.
Qed.

(** The desired number of claims is bound and all the others are pending. *)
Definition pvcs_ready (desired : Z) (pvcs : list volume) : Prop :=
  count (has_phase "Bound") pvcs = desired /\
  Forall (fun v => Exists (fun f => f v = true) [has_phase "Bound"; has_phase "Pending"]) pvcs.

(** The desired number of volumes is bound or available and all the others are
    pending. *)
Definition pvs_ready (desired : Z) (pvs : list volume) : Prop :=
  count (has_phase "Bound") pvs + count (has_phase "Available") pvs = desired /\
  Forall (fun v => Exists (fun f => f v = true) [has_phase "Bound"; has_phase "Available"; has_phase "Pending"]) pvs.

Lemma pvcs_verdict_ready desired pvcs :
  (pvcs_verdict desired pvcs = Some None <-> pvcs_ready desired pvcs) /\
  (pvcs_verdict desired pvcs = None <-> ~ pvcs_ready desired pvcs).
Proof.
  unfold pvcs_verdict. destruct (ComputePVCs_count pvcs desired) as (-> & -> & _ & _).
  apply (verdict_ready (fun pvcs => _) (pvcs_ready desired)). unfold pvcs_ready.
  rewrite andb_true_iff, !Z.eqb_eq, <- count_cover.
  - cbn [foldr]. split; intros [? ?]; split; lia.
  - intros v. rewrite !filter_cons. unfold has_phase.
    destruct (String.eqb_spec (vol_Phase v) "Bound") as [->|]; repeat case_decide; cbn; try lia; done.
Qed.

Lemma pvs_verdict_ready desired pvs :
  (pvs_verdict desired pvs = Some None <-> pvs_ready desired pvs) /\
  (pvs_verdict desired pvs = None <-> ~ pvs_ready desired pvs).
Proof.
  unfold pvs_verdict. destruct (ComputePVs_count pvs desired) as (-> & -> & -> & _).
  apply (verdict_ready (fun pvs => _) (pvs_ready desired)). unfold pvs_ready.
  rewrite andb_true_iff, !Z.eqb_eq, <- count_cover.
  - cbn [foldr]. split; intros [? ?]; split; lia.
  - intros v. rewrite !filter_cons. unfold has_phase.
    destruct (String.eqb_spec (vol_Phase v) "Bound") as [->|]; [|destruct (String.eqb_spec (vol_Phase v) "Available") as [->|]];
      repeat case_decide; cbn; try lia; done.
Qed.

Lemma PVStore_List_filter provisioner objects :
  PVStore_List provisioner objects =
  filter (fun v => provisioner = "" \/ vol_ProvisionedBy v = provisioner) objects.
Proof.
  unfold PVStore_List. rewrite fold_filter, app_nil_l. apply list_filter_iff. intros v.
  by rewrite orb_true_iff, !String.eqb_eq.
Qed.

(** the waits for nodes and volumes succeed exactly at the first listing
    that is as desired, provided they are not stopped before it: a number of
    usable nodes within the bounds; the desired number of claims bound and all
    others pending; the desired number of the provisioner's volumes bound or
    available and all its others pending. *)
Theorem waits_correct :
  (forall first rounds options, WaitForNodes None first rounds options = Some None <->
     first_ready (fun nodes => MinDesiredNodeCount options <= count IsNodeSchedulableAndUntainted nodes
                               <= MaxDesiredNodeCount options) rounds) /\
  (forall rounds options, WaitForPVCs None rounds options = Some None <->
     first_ready (pvcs_ready (DesiredPVCCount options)) rounds) /\
  (forall Sprint first rounds options, WaitForPVs Sprint None first rounds options = Some None <->
     first_ready (fun pvs => pvs_ready (DesiredPVCount options)
       (filter (fun v => Provisioner options = "" \/ vol_ProvisionedBy v = Provisioner options) pvs)) rounds).
Proof.
  split_and!.
  - intros first rounds options. unfold WaitForNodes. apply poll_loop_ready; intros nodes; unfold nodes_verdict;
      rewrite getNumReadyNodes_count;
      apply (verdict_ready (fun nodes => _) (fun nodes => _ <= count IsNodeSchedulableAndUntainted nodes <= _));
      by rewrite andb_true_iff, !Z.leb_le.
  - intros rounds options. unfold WaitForPVCs. apply poll_loop_ready; intros pvcs; apply pvcs_verdict_ready.
  - intros Sprint first rounds options. unfold WaitForPVs.
    apply poll_loop_ready; intros pvs; rewrite PVStore_List_filter; apply pvs_verdict_ready.
Qed.

(** ** Objects with conditions *)

(** The namespaces looked at. *)
Definition watched (nr : NamespacesRange) (ns : string) : Prop :=
  if decide (nr_Prefix nr = "") then ns = ""
  else exists i, nr_Min nr <= i <= nr_Max nr /\ ns = indexed_name (nr_Prefix nr) i.

Lemma elem_getMap nr ns : ns ∈ getMap nr <-> watched nr ns.
Proof.
  unfold getMap, watched. destruct (String.eqb_spec (nr_Prefix nr) ""); case_decide; try done; [set_solver|].
  rewrite elem_of_list_to_set, list_elem_of_fmap. setoid_rewrite elem_of_seqZ.
  split; intros (i & Hi); exists i; [split; [lia|tauto]|split; [tauto|lia]].
Qed.

Lemma simplify_loop_spec {O} (f : O -> result ObjectSimplification) ns objects res os :
  simplify_loop f ns objects res = Ok os <->
  exists all, Forall2 (fun o s => f o = Ok s) objects all /\ os = res ++ filter (fun s => os_Namespace s ∈ ns) all.
Proof.
  revert res. induction objects as [|o objects IH]; intros res; cbn [simplify_loop].
  { split; [intros [= <-]; exists []; by rewrite app_nil_r|]. intros (all & Hall & ->). inversion Hall; subst.
    cbn. by rewrite app_nil_r. }
  destruct (f o) as [s|e] eqn:Hf.
  - assert (forall r, (exists all, Forall2 (fun o s => f o = Ok s) (o :: objects) all /\
        os = r ++ filter (fun s => os_Namespace s ∈ ns) all) <->
      exists all, Forall2 (fun o s => f o = Ok s) objects all /\
        os = r ++ filter (fun s => os_Namespace s ∈ ns) (s :: all)) as Hcons.
    { intros r. split; intros (all & Hall & ->).
      - inversion Hall as [|? s' ? all' Hs Hall']; subst. rewrite Hf in Hs. injection Hs as <-. by exists all'.
      - exists (s :: all). split; [by constructor|done]. }
    rewrite Hcons. case_bool_decide as Hns; cbn [negb]; rewrite IH; apply exist_proper; intros all;
      rewrite filter_cons; case_decide; try done. by rewrite <- app_assoc.
  - split; [done|]. intros (all & Hall & _). inversion Hall; congruence.
Qed.

Section Generic.
Context (options : WaitForGenericK8sObjectsOptions).

(** The first condition of an object that is one of the named ones. *)
Definition class_of (o : ObjectSimplification) : option bool :=
  classify_loop (list_to_set (SuccessfulConditions options)) (list_to_set (FailedConditions options)) (os_Conditions o).

Definition classified (b : bool) (os : list ObjectSimplification) : list ObjectSimplification :=
  filter (fun o => class_of o = Some b) os.

Lemma countObjects_spec os :
  countObjectsMatchingConditions os (SuccessfulConditions options) (FailedConditions options) =
  (ObjectSimplification_String <$> classified true os, ObjectSimplification_String <$> classified false os,
   Z.of_nat (length os)).
Proof.
  unfold countObjectsMatchingConditions.
  assert (forall s f, fold_left (fun sf object =>
    match classify_loop (list_to_set (SuccessfulConditions options)) (list_to_set (FailedConditions options))
            (os_Conditions object) with
    | Some true => (sf.1 ++ [ObjectSimplification_String object], sf.2)
    | Some false => (sf.1, sf.2 ++ [ObjectSimplification_String object])
    | None => sf
    end) os (s, f) =
    (s ++ (ObjectSimplification_String <$> classified true os), f ++ (ObjectSimplification_String <$> classified false os)))
    as Hf; [|by rewrite Hf].
  unfold classified. induction os as [|o os IH]; intros s f; [by rewrite !app_nil_r|]. cbn [fold_left].
  rewrite !filter_cons. fold (class_of o). destruct (class_of o) as [[]|]; rewrite IH;
    repeat case_decide; try done; rewrite ?fmap_cons, <- ?app_assoc; done.
Qed.

Definition num (b : bool) (os : list ObjectSimplification) : Z := Z.of_nat (length (classified b os)).

Lemma objects_verdict_spec listed :
  objects_verdict options listed =
  match listed with
  | Err err => Some (Some err)
  | Ok os =>
      if bool_decide (MinDesiredObjectCount options <= num true os + num false os) then
        if bool_decide (num false os <= MaxFailedObjectCount options) then Some None
        else Some (Some (Errorf "%s: too many failed objects, expected at most %d - currently there are: successful=%d failed=%d count=%d failed-objects=[%s]"
            [AStr (options_Summary options); AInt (MaxFailedObjectCount options); AInt (num true os); AInt (num false os);
             AInt (Z.of_nat (length os)); AStr (join "," (ObjectSimplification_String <$> classified false os))]))
      else None
  end.
Proof.
  unfold objects_verdict. destruct listed as [os|err]; [|done]. rewrite countObjects_spec, !length_fmap.
  change (Z.of_nat (length (classified true os))) with (num true os).
  change (Z.of_nat (length (classified false os))) with (num false os).
  destruct (Z.leb_spec (MinDesiredObjectCount options) (num true os + num false os)); case_bool_decide; try lia; [|done].
  destruct (Z.ltb_spec (MaxFailedObjectCount options) (num false os)); case_bool_decide; try lia; done.
Qed.
End Generic.

(** [WaitForGenericK8sObjects] looks at the objects of the watched
    namespaces only; each counts as successful or failed by the first of its
    conditions that is named as such. It succeeds exactly at the first listing
    with enough decided objects, when at most the tolerated number of them
    failed; with more failures, or a listing that fails before, it reports an
    error at that point, and otherwise when the time is up. *)
Theorem WaitForGenericK8sObjects_correct {O} (simplify : O -> result ObjectSimplification) first first_os rounds options :
  let listing := ListObjectSimplifications simplify (getMap (go_Namespaces options)) in
  let decided os := num options true os + num options false os in
  let waiting (r : poll (result (list O))) := exists l os,
    r = Tick l /\ listing l = Ok os /\ decided os < MinDesiredObjectCount options in
  listing first = Ok first_os ->
  (WaitForGenericK8sObjects simplify None first rounds options = Some None <->
     exists pre l os post, rounds = pre ++ Tick l :: post /\ Forall waiting pre /\ listing l = Ok os /\
       MinDesiredObjectCount options <= decided os /\ num options false os <= MaxFailedObjectCount options) /\
  ((exists err, WaitForGenericK8sObjects simplify None first rounds options = Some (Some err)) <->
     exists pre x post, rounds = pre ++ x :: post /\ Forall waiting pre /\
       match x with
       | Stopped => True
       | Tick l => match listing l with
                   | Err _ => True
                   | Ok os => MinDesiredObjectCount options <= decided os /\ MaxFailedObjectCount options < num options false os
                   end
       end) /\
  (forall objects os, listing (Ok objects) = Ok os <->
     exists all, Forall2 (fun o s => simplify o = Ok s) objects all /\
       os = filter (fun s => os_Namespace s ∈ getMap (go_Namespaces options)) all) /\
  (forall ns, ns ∈ getMap (go_Namespaces options) <-> watched (go_Namespaces options) ns).
Proof.
  cbn zeta. intros Hfirst. unfold WaitForGenericK8sObjects. rewrite Hfirst.
  set (listing := ListObjectSimplifications simplify (getMap (go_Namespaces options))) in *.
  set (verdict := fun listed => objects_verdict options (listing listed)).
  assert (forall pre, Forall (undecided verdict) pre <-> Forall (fun r : poll (result (list O)) => exists l os,
    r = Tick l /\ listing l = Ok os /\ num options true os + num options false os < MinDesiredObjectCount options) pre) as Hpre.
  { intros pre. apply Forall_iff. intros [|l]; cbn; [by split; [|intros (? & ? & ? & _)]|]. subst verdict. cbn.
    rewrite objects_verdict_spec. split.
    - intros Hv. destruct (listing l) as [os|] eqn:Hl; [|done]. exists l, os. split_and!; try done.
      repeat case_bool_decide; try done. lia.
    - intros (l' & os & [= <-] & Hl & Hlt). rewrite Hl. by rewrite bool_decide_eq_false_2 by lia. }
  split_and!.
  - rewrite poll_loop_success. setoid_rewrite Hpre. split.
    + intros (pre & l & post & -> & Hw & Hv). subst verdict. cbn in Hv. rewrite objects_verdict_spec in Hv.
      destruct (listing l) as [os|] eqn:Hl; [|done]. exists pre, l, os, post. split_and!; try done;
        repeat case_bool_decide; done.
    + intros (pre & l & os & post & -> & Hw & Hl & Hmin & Hmax). exists pre, l, post. split_and!; try done.
      subst verdict. cbn. by rewrite objects_verdict_spec, Hl, !bool_decide_eq_true_2.
  - setoid_rewrite poll_loop_spec. setoid_rewrite Hpre. split.
    + intros (err & pre & x & post & -> & Hw & Hx). exists pre, x, post. split_and!; try done.
      destruct x as [|l]; [done|]. subst verdict. cbn in Hx. rewrite objects_verdict_spec in Hx.
      destruct (listing l) as [os|]; [|done]. repeat case_bool_decide; try done. lia.
    + intros (pre & [|l] & post & -> & Hw & Hx); [eexists; exists pre, Stopped, post; done|].
      assert (exists err, verdict l = Some (Some err)) as [err Herr]; [|by exists err, pre, (Tick l), post].
      subst verdict. cbn. rewrite objects_verdict_spec. destruct (listing l) as [os|]; [|by eexists].
      rewrite bool_decide_eq_true_2, bool_decide_eq_false_2 by lia. by eexists.
  - intros objects os. apply (simplify_loop_spec simplify _ objects [] os).
  - apply elem_getMap.
Qed.

Definition ex_options : WaitForGenericK8sObjectsOptions :=
  mkGenericOptions (mkGVR "batch" "v1" "jobs") (mkNamespacesRange "test" 1 2) ["Complete=True"] ["Failed=True"] 2 1 "W".

Definition ex_obj (ns name condition : string) : ObjectSimplification := mkSimplification ns name [mkCond condition "True"].

Lemma WaitForGenericK8sObjects_correct_witness :
  WaitForGenericK8sObjects Ok None (Ok []) [Tick (Ok [ex_obj "test-1" "a" "Complete"; ex_obj "other-1" "x" "Failed"]);
    Tick (Ok [ex_obj "test-1" "a" "Complete"; ex_obj "test-2" "b" "Failed"])] ex_options = Some None.
Proof.
  apply (WaitForGenericK8sObjects_correct Ok (Ok []) [] _ ex_options eq_refl).
  exists [Tick (Ok [ex_obj "test-1" "a" "Complete"; ex_obj "other-1" "x" "Failed"])],
    (Ok [ex_obj "test-1" "a" "Complete"; ex_obj "test-2" "b" "Failed"]),
    [ex_obj "test-1" "a" "Complete"; ex_obj "test-2" "b" "Failed"], [].
  split_and!; [done| |by vm_compute|by vm_compute|by vm_compute].
  constructor; [|constructor]. eexists _, [ex_obj "test-1" "a" "Complete"]. split_and!; [done|by vm_compute|by vm_compute].
Defined.
