(* ===== verification/Jobs.v ===== *)
(** * Measurements of jobs (pkg/measurement/common/{job_lifecycle_latency,wait_for_jobs}.go)

    JobLifecycleLatency records when jobs were created, started and completed
    and reports the latencies; WaitForFinishedJobs follows which jobs have
    finished and waits until all of them have. Both get informer events
    through a queue. *)

From S2P Require Import Prelude GoErrors GoRuntime Params Measurement Float64 Latency.

Record JobCondition := mkJobCondition { jc_Type : string; jc_Status : string }.

Record Job := mkJob {
  job_Namespace : string;
  job_Name : string;
  job_CreationTimestamp : Z;
  job_StartTime : option Z;
  job_CompletionTime : option Z;
  job_Conditions : list JobCondition;
}.

Definition createMetaNamespaceKey (namespace name : string) : string := namespace +:+ "/" +:+ name.
Definition job_key (j : Job) : string := createMetaNamespaceKey (job_Namespace j) (job_Name j).

(** ** JobLifecycleLatency *)

Module JobLifecycle.

(** The object of an informer event. *)
Inductive eventObj := ObjNil | ObjJob (job : Job) | ObjOther.
Record eventData := mkEventData { ed_obj : eventObj; ed_recvTime : Z }.

Definition jobLifecycleLatencyMeasurementName : string := "JobLifecycleLatency".
Definition jobCreated : string := "JobCreated".
Definition jobStarted : string := "JobStarted".
Definition jobCompleted : string := "JobCompleted".
Definition defaultWaitForFinishedJobsTimeout : Z := 10 * Duration.Minute.

Section Measurement.
Context {GL : GoLib} {MR : MapRange} {WQ : WorkQueue eventData}.
Context (PrettyPrintJSON : PerfData -> result string).

Record jobLifecycleLatencyMeasurement := mkJobLifecycle {
  selector : ObjectSelector;
  isRunning : bool;
  stopCh : chan_state;
  eventQueue : queue;
  jobStateEntries : ObjectTransitionTimes;
}.

Definition createJobLifecycleLatencyMeasurement : jobLifecycleLatencyMeasurement :=
  mkJobLifecycle NewObjectSelector false ChanNil NewTyped (NewObjectTransitionTimes jobLifecycleLatencyMeasurementName).

Definition with_queue (p : jobLifecycleLatencyMeasurement) (q : queue) (e : ObjectTransitionTimes) :=
  mkJobLifecycle (selector p) (isRunning p) (stopCh p) q e.

Definition addEvent (p : jobLifecycleLatencyMeasurement) (obj : eventObj) (now : Z) : jobLifecycleLatencyMeasurement :=
  with_queue p (queue_Add (eventQueue p) (mkEventData obj now)) (jobStateEntries p).

(** [if _, found := Get(key, phase); !found { Set(key, phase, t) }] *)
Definition set_once (o : ObjectTransitionTimes) (key phase : string) (t : Z) : ObjectTransitionTimes :=
  if (OTT_Get o key phase).2 then o else OTT_Set o key phase t.

Definition processEvent (o : ObjectTransitionTimes) (event : eventData) : ObjectTransitionTimes :=
  match ed_obj event with
  | ObjNil | ObjOther => o
  | ObjJob job =>
      let key := job_key job in
      let o := set_once o key jobCreated (job_CreationTimestamp job) in
      let o := match job_StartTime job with Some t => set_once o key jobStarted t | None => o end in
      match job_CompletionTime job with Some t => set_once o key jobCompleted t | None => o end
  end.

Definition processNextWorkItem (p : jobLifecycleLatencyMeasurement) : option (bool * jobLifecycleLatencyMeasurement) :=
  match queue_Get (eventQueue p) with
  | Blocks => None
  | Quit => Some (false, p)
  | Item item q => Some (true, with_queue p q (processEvent (jobStateEntries p) item))
  end.

(** [synced]: the result of [StartAndSync]. *)
Definition start (p : jobLifecycleLatencyMeasurement) (synced : option error)
  : jobLifecycleLatencyMeasurement * option error :=
  if isRunning p then (p, None)
  else (mkJobLifecycle (selector p) true ChanOpen (eventQueue p) (jobStateEntries p), synced).

Definition stop (p : jobLifecycleLatencyMeasurement) : option jobLifecycleLatencyMeasurement :=
  if isRunning p then
    match stopCh p with
    | ChanOpen =>
        Some (mkJobLifecycle (selector p) false ChanClosed (queue_ShutDown (eventQueue p)) (jobStateEntries p))
    | ChanNil | ChanClosed => None      (* close panics *)
    end
  else Some p.

Definition Dispose (p : jobLifecycleLatencyMeasurement) : option jobLifecycleLatencyMeasurement := stop p.

Definition jobLifecycleTransitions : gmap string Transition :=
  {[ "create_to_start" := mkTransition jobCreated jobStarted 0;
     "start_to_complete" := mkTransition jobStarted jobCompleted 0 ]}.

(** The condition [gather] polls. *)
Definition all_completed (p : jobLifecycleLatencyMeasurement) : bool :=
  OTT_Count (jobStateEntries p) jobCreated =? OTT_Count (jobStateEntries p) jobCompleted.

(** [ticks]: the states of the measurement at the polls; [timed_out]: the one
    when the polling ended without success. [None] is a panic. *)
Definition gather (p : jobLifecycleLatencyMeasurement) (identifier : string) (now : Z)
    (ticks : list jobLifecycleLatencyMeasurement) (timed_out : jobLifecycleLatencyMeasurement)
  : option (jobLifecycleLatencyMeasurement * (list Summary * option error)) :=
  if negb (isRunning p) then
    Some (p, ([], Some (Errorf "metric %s has not been started" [AStr jobLifecycleLatencyMeasurementName])))
  else
    let p := default timed_out (find all_completed ticks) in
    p ← stop p;
    jobLifecycleLatency ←
      CalculateTransitionsLatency (fun name => range name (ott_times (jobStateEntries p))) jobLifecycleTransitions MatchAll;
    match PrettyPrintJSON (LatencyMapToPerfData (range "summary" jobLifecycleLatency)) with
    | Err jsonErr => Some (p, ([], Some jsonErr))
    | Ok content =>
        let summaryName := Sprintf "%s_%s" [FStr jobLifecycleLatencyMeasurementName; FStr identifier] in
        Some (p, ([CreateSummary now summaryName "json" content], None))
    end.

(** [ticks] may depend on the timeout. *)
Definition Execute (p : jobLifecycleLatencyMeasurement) (dict : params) (identifier : string) (now : Z)
    (synced : option error) (ticks : Z -> list jobLifecycleLatencyMeasurement)
    (timed_out : jobLifecycleLatencyMeasurement)
  : option (jobLifecycleLatencyMeasurement * (list Summary * option error)) :=
  match getString dict "action" with
  | (_, Some err) => Some (p, ([], Some err))
  | (action, None) =>
      if String.eqb action "start" then
        let '(sel, err) := Parse (selector p) dict in
        let p := mkJobLifecycle sel (isRunning p) (stopCh p) (eventQueue p) (jobStateEntries p) in
        match err with
        | Some _ => Some (p, ([], err))
        | None => let '(p, err) := start p synced in Some (p, ([], err))
        end
      else if String.eqb action "gather" then
        match GetDurationOrDefault dict "timeout" defaultWaitForFinishedJobsTimeout with
        | (_, Some err) => Some (p, ([], Some err))
        | (timeout, None) => gather p identifier now (ticks timeout) timed_out
        end
      else Some (p, ([], Some (Errorf "unknown action %v" [AStr action])))
  end.

(** ** What is recorded *)

Lemma set_once_get o key phase t key' phase' :
  OTT_Get (set_once o key phase t) key' phase' =
    if (OTT_Get o key' phase').2 then OTT_Get o key' phase'
    else if bool_decide (key = key' /\ phase = phase') then (t, true) else OTT_Get o key' phase'.
Proof.
  unfold set_once. destruct (OTT_Get o key phase) as [t0 found] eqn:Hg. cbn [snd].
  destruct found.
  - destruct (OTT_Get o key' phase') as [t1 []] eqn:Hg'; cbn [snd]; [done|].
    case_bool_decide as Hk; [|done]. destruct Hk as [-> ->]. congruence.
  - rewrite OTT_Get_Set. case_bool_decide as Hk; [|by destruct (OTT_Get o key' phase') as [? []]].
    destruct Hk as [-> ->]. by rewrite Hg.
Qed.

(** What one event says about a phase of a job. *)
Definition phase_time (phase : string) (job : Job) : option Z :=
  if bool_decide (phase = jobCreated) then Some (job_CreationTimestamp job)
  else if bool_decide (phase = jobStarted) then job_StartTime job
  else if bool_decide (phase = jobCompleted) then job_CompletionTime job
  else None.

Definition event_phase (key phase : string) (e : eventData) : option Z :=
  match ed_obj e with
  | ObjJob job => if bool_decide (job_key job = key) then phase_time phase job else None
  | _ => None
  end.

(** The first time any event gave for the phase of the job. *)
Definition first_time (key phase : string) (events : list eventData) : option Z :=
  head (omap (event_phase key phase) events).

Definition get_opt (o : ObjectTransitionTimes) (key phase : string) : option Z :=
  if (OTT_Get o key phase).2 then Some (OTT_Get o key phase).1 else None.

Lemma set_once_opt o key phase t key' phase' :
  get_opt (set_once o key phase t) key' phase' =
    match get_opt o key' phase' with
    | Some t0 => Some t0
    | None => if bool_decide (key = key' /\ phase = phase') then Some t else None
    end.
Proof.
  unfold get_opt. rewrite set_once_get. destruct (OTT_Get o key' phase') as [t0 []]; cbn; [done|].
  by case_bool_decide.
Qed.

Lemma processEvent_opt o e key phase :
  get_opt (processEvent o e) key phase =
    match get_opt o key phase with Some t => Some t | None => event_phase key phase e end.
Proof.
  unfold processEvent, event_phase. destruct (ed_obj e) as [|job|]; [by destruct (get_opt o key phase)| |by destruct (get_opt o key phase)].
  assert (forall o' t0, get_opt o' key phase = Some t0 -> forall ph t, get_opt (set_once o' (job_key job) ph t) key phase = Some t0) as Hkeep.
  { intros o' t0 Ho ph t. by rewrite set_once_opt, Ho. }
  destruct (job_StartTime job) as [ts|] eqn:Hs, (job_CompletionTime job) as [tc|] eqn:Hc;
    rewrite ?set_once_opt; destruct (get_opt o key phase); try done;
    unfold phase_time; repeat case_bool_decide; naive_solver.
Qed.

Lemma processed_opt o events key phase :
  get_opt (fold_left processEvent events o) key phase =
    match get_opt o key phase with Some t => Some t | None => first_time key phase events end.
Proof.
  revert o. induction events as [|e events IH]; intros o; cbn [fold_left]; [by destruct (get_opt o key phase)|].
  rewrite IH, processEvent_opt. unfold first_time. cbn [omap list_omap].
  destruct (get_opt o key phase); [done|]. by destruct (event_phase key phase e).
Qed.

(** what the job latency measurement observes: for any interleaving of the
    informer's deliveries with the worker, once the queue is drained the
    creation, start and completion of every job are the times the first event
    that gave them gave (later events change none), and a phase no event gave
    a time for is not recorded. *)
Theorem job_transitions_recorded p synced added q o key phase :
  p = (start createJobLifecycleLatencyMeasurement synced).1 ->
  qsteps processEvent (eventQueue p, jobStateEntries p) added (q, o) -> pending q = [] ->
  get_opt o key phase = first_time key phase added.
Proof.
  intros -> Hs He. destruct NewTyped_spec as [Hp Hd].
  destruct (qsteps_live processEvent _ _ _ Hs Hd) as (pr & Hpr & Ho & _). cbn in Hpr, Ho.
  rewrite He, app_nil_r, Hp in Hpr. cbn in Hpr. subst pr o. by rewrite processed_opt.
Qed.

(** The queue of a stopped measurement stays shut down: nothing added after a
    restart is processed. *)
Lemma restarted_is_deaf p p1 p2 synced added qo :
  stop p = Some p1 -> isRunning p = true -> pending (eventQueue p1) = [] ->
  start p1 synced = (p2, synced) ->
  qsteps processEvent (eventQueue p2, jobStateEntries p2) added qo -> qo.2 = jobStateEntries p1.
Proof.
  unfold stop. intros Hs Hr. rewrite Hr in Hs. destruct (stopCh p); [done| |done]. injection Hs as <-.
  cbn. intros Hp. unfold start. cbn. intros [= <-] Hq.
  apply (qsteps_dead processEvent) in Hq as (pr & Hpr & ->); [|apply ShutDown_spec]. cbn in *.
  rewrite Hp in Hpr. by destruct pr.
Qed.
End Measurement.

#[local] Existing Instances list_queue.

Definition ex_job (start finish : option Z) : Job := mkJob "ns" "j" 5 start finish [].
Definition ex_events : list eventData :=
  [mkEventData (ObjJob (ex_job None None)) 6; mkEventData (ObjJob (ex_job (Some 8) None)) 9;
   mkEventData (ObjJob (ex_job (Some 8) (Some 20))) 21].

Lemma job_transitions_recorded_witness :
  get_opt (fold_left processEvent ex_events (NewObjectTransitionTimes jobLifecycleLatencyMeasurementName)) "ns/j" jobCompleted
    = Some 20.
Proof.
  apply (job_transitions_recorded (start createJobLifecycleLatencyMeasurement None).1 None ex_events
    ((@nil eventData, false) : @queue _ (list_queue eventData))); [done| |done].
  do 3 apply qsteps_add. do 3 (eapply qsteps_work; [reflexivity|]). apply qsteps_refl.
Defined.
End JobLifecycle.

(** ** WaitForFinishedJobs *)

Module FinishedJobs.

(** An informer's object; a tombstone carries the last known state. *)
Inductive informerObj := INil | IJob (job : Job) | ITombstone (obj : option Job) | IOther.

Definition waitForFinishedJobsName : string := "WaitForFinishedJobs".
Definition JobComplete : string := "Complete".
Definition JobFailed : string := "Failed".

Section Measurement.
Context {GL : GoLib} {MR : MapRange} {WQ : WorkQueue (informerObj * informerObj)}.

(** [cancel] is the cancel function of the informer's context; the state that
    the handler changes under the lock is [finishedJobs]. *)
Record waitForFinishedJobsMeasurement := mkFinishedJobs {
  selector : ObjectSelector;
  queue_ : WorkerQueue;
  isRunning : bool;
  cancelled : bool;
  finishedJobs : gmap string string;
}.

Definition createWaitForFinishedJobsMeasurement : waitForFinishedJobsMeasurement :=
  mkFinishedJobs NewObjectSelector (NewWorkerQueue 1) false false ∅.

Definition with_finished (w : waitForFinishedJobsMeasurement) (m : gmap string string) :=
  mkFinishedJobs (selector w) (queue_ w) (isRunning w) (cancelled w) m.

(** The first true condition among Complete and Failed. *)
Fixpoint condition_loop (cs : list JobCondition) : bool * string :=
  match cs with
  | [] => (false, "")
  | cond :: cs' =>
      if negb (String.eqb (jc_Status cond) "True") then condition_loop cs'
      else if String.eqb (jc_Type cond) JobComplete || String.eqb (jc_Type cond) JobFailed then (true, jc_Type cond)
      else condition_loop cs'
  end.

Definition finishedJobCondition (j : option Job) : bool * string :=
  match j with
  | None => (false, "")
  | Some j => condition_loop (job_Conditions j)
  end.

(** [None]: the key of a nil job, a run-time panic. *)
Definition handleObject (m : gmap string string) (objs : informerObj * informerObj) : option (gmap string string) :=
  let oldJob := match objs.1 with IJob j => Some j | ITombstone o => o | INil | IOther => None end in
  match (match objs.2 with IJob j => Some (Some j) | INil => Some None | _ => None end) with
  | None => Some m      (* uncastable new object *)
  | Some newJob =>
      match (match newJob with Some j => Some j | None => oldJob end) with
      | None => None
      | Some handleJob =>
          let key := job_key handleJob in
          match finishedJobCondition newJob with
          | (true, condition) => Some (<[key := condition]> m)
          | (false, _) => Some (delete key m)
          end
      end
  end.

(** The function queued for an event, run by the worker. *)
Definition run_queued (objs : informerObj * informerObj) (m : option (gmap string string)) : option (gmap string string) :=
  m ← m; handleObject m objs.

Definition add_event (w : waitForFinishedJobsMeasurement) (old new : informerObj) : waitForFinishedJobsMeasurement :=
  mkFinishedJobs (selector w) (WorkerQueue_Add (queue_ w) (old, new)) (isRunning w) (cancelled w) (finishedJobs w).

Definition start (w : waitForFinishedJobsMeasurement) (synced : option error)
  : waitForFinishedJobsMeasurement * option error :=
  if isRunning w then (w, None)
  else (mkFinishedJobs (selector w) (queue_ w) true false (finishedJobs w), synced).

(** [queue.Stop] runs what is queued. *)
Definition Dispose (w : waitForFinishedJobsMeasurement) : option waitForFinishedJobsMeasurement :=
  if negb (isRunning w) then Some w
  else
    let '(q, m) := WorkerQueue_Stop run_queued (queue_ w) (Some (finishedJobs w)) in
    m ← m; Some (mkFinishedJobs (selector w) q false true m).

Definition jobKeys (listed : result (list Job)) : result (gset string) :=
  match listed with
  | Err err => Err (Errorf "listing jobs: %w" [AWrap err])
  | Ok items => Ok (fold_left (fun keys j => {[job_key j]} ∪ keys) items ∅)
  end.

(** [sets.String.List] sorts. *)
Definition sorted_keys (s : gset string) : list string := merge_sort string_le (elements s).

Definition all_finished (keys : gset string) (w : waitForFinishedJobsMeasurement) : bool :=
  bool_decide (keys = dom (finishedJobs w)).

(** The final count over the listed keys: completed, failed, timed out. *)
Definition count_key (m : gmap string string) (c : Z * Z * gset string) (key : string) : Z * Z * gset string :=
  let '(completed, failed, timedOut) := c in
  match m !! key with
  | None => (completed, failed, {[key]} ∪ timedOut)
  | Some cond =>
      if String.eqb cond JobComplete then (completed + 1, failed, timedOut)
      else if String.eqb cond JobFailed then (completed, failed + 1, timedOut)
      else (completed, failed, timedOut)
  end.

Definition final_count (keys : gset string) (m : gmap string string) : Z * Z * gset string :=
  fold_left (count_key m) (elements keys) (0, 0, ∅).

(** [ticks]: the states at the polls; [timed_out]: the state when the polling
    ended without success. *)
Definition gather (w : waitForFinishedJobsMeasurement) (listed : result (list Job))
    (ticks : list waitForFinishedJobsMeasurement) (timed_out : waitForFinishedJobsMeasurement) : option error :=
  if negb (isRunning w) then Some (Errorf "%v: wait for finished jobs was not started" [AStr waitForFinishedJobsName])
  else
    match jobKeys listed with
    | Err err => Some err
    | Ok keys =>
        let w := default timed_out (find (all_finished keys) ticks) in
        let '(_, _, timedOut) := final_count keys (finishedJobs w) in
        if negb (bool_decide (size timedOut = 0%nat)) then
          Some (Errorf "%d Jobs timed out: %s" [AInt (Z.of_nat (size timedOut)); AStr (join ", " (sorted_keys timedOut))])
        else None
    end.

Definition Execute (w : waitForFinishedJobsMeasurement) (dict : params) (synced : option error)
    (listed : ObjectSelector -> result (list Job)) (ticks : Z -> list waitForFinishedJobsMeasurement)
    (timed_out : waitForFinishedJobsMeasurement) : waitForFinishedJobsMeasurement * option error :=
  match getString dict "action" with
  | (_, Some err) => (w, Some err)
  | (action, None) =>
      if String.eqb action "start" then
        let '(sel, err) := Parse (selector w) dict in
        let w := mkFinishedJobs sel (queue_ w) (isRunning w) (cancelled w) (finishedJobs w) in
        match err with Some _ => (w, err) | None => start w synced end
      else if String.eqb action "gather" then
        match GetDurationOrDefault dict "timeout" (10 * Duration.Minute) with
        | (_, Some err) => (w, Some err)
        | (timeout, None) => (w, gather w (listed (selector w)) (ticks timeout) timed_out)
        end
      else (w, Some (Errorf "unknown action %v" [AStr action]))
  end.

(** ** Following the jobs *)

(** A change of the cluster, as the informer reports it: a job added or
    updated, or deleted, possibly seen only as a tombstone with an old state
    of it. *)
Inductive change :=
| JobSet (j : Job)
| JobGone (key : string) (stale : option Job).

Definition objs_of (jobs : gmap string Job) (c : change) : informerObj * informerObj :=
  match c with
  | JobSet j => (match jobs !! job_key j with Some old => IJob old | None => INil end, IJob j)
  | JobGone key None => (match jobs !! key with Some old => IJob old | None => INil end, INil)
  | JobGone key (Some stale) => (ITombstone (Some stale), INil)
  end.

Definition jobs_after (jobs : gmap string Job) (c : change) : gmap string Job :=
  match c with JobSet j => <[job_key j := j]> jobs | JobGone key _ => delete key jobs end.

(** Only existing jobs are deleted, and a tombstone has the key of its job. *)
Definition change_ok (jobs : gmap string Job) (c : change) : Prop :=
  match c with
  | JobSet _ => True
  | JobGone key stale => is_Some (jobs !! key) /\ forall j, stale = Some j -> job_key j = key
  end.

Inductive follows : gmap string Job -> gmap string string -> Prop :=
| follows_start : follows ∅ ∅
| follows_change jobs m c m' :
    follows jobs m -> change_ok jobs c -> handleObject m (objs_of jobs c) = Some m' ->
    follows (jobs_after jobs c) m'.

Definition job_finished (j : Job) : option string :=
  match condition_loop (job_Conditions j) with (true, cond) => Some cond | (false, _) => None end.

Lemma handle_delete m (objs : informerObj * informerObj) j :
  objs.2 = INil -> (objs.1 = IJob j \/ objs.1 = ITombstone (Some j)) ->
  handleObject m objs = Some (delete (job_key j) m).
Proof. unfold handleObject. intros ->. by intros [-> | ->]. Qed.

Lemma follows_spec jobs m :
  follows jobs m -> map_Forall (fun k j => job_key j = k) jobs /\ m = omap job_finished jobs.
Proof.
  induction 1 as [|jobs m c m' _ [IHk IH] Hok Hh]; [done|]. destruct c as [j|key stale]; cbn [jobs_after].
  - split; [by apply map_Forall_insert_2|]. unfold handleObject in Hh. cbn in Hh.
    rewrite omap_insert. unfold job_finished at 1. destruct (condition_loop (job_Conditions j)) as [[] cond];
      injection Hh as <-; by rewrite IH.
  - destruct Hok as [[old Hold] Hst]. split; [by apply map_Forall_delete|].
    assert (handleObject m (objs_of jobs (JobGone key stale)) = Some (delete key m)) as Hd.
    { destruct stale as [j|]; cbn [objs_of].
      - rewrite (handle_delete m _ j); [by rewrite (Hst j)|done|by right].
      - rewrite Hold. rewrite (handle_delete m _ old); [by rewrite (IHk key old Hold)|done|by left]. }
    rewrite Hd in Hh. injection Hh as <-. rewrite IH. symmetry. apply omap_delete.
Qed.

(** The keys not among the finished ones are reported as timed out. *)
Lemma final_count_timedOut keys m : (final_count keys m).2 = keys ∖ dom m.
Proof.
  unfold final_count.
  assert (forall l c, (fold_left (count_key m) l c).2 = (list_to_set l ∖ dom m) ∪ c.2) as Hl.
  { induction l as [|k l IH]; intros c; cbn [fold_left list_to_set]; [set_solver|]. rewrite IH.
    destruct c as [[cm f] t]. unfold count_key. destruct (m !! k) as [cond|] eqn:Hk.
    - apply elem_of_dom_2 in Hk. destruct (String.eqb cond JobComplete), (String.eqb cond JobFailed); cbn; set_solver.
    - apply not_elem_of_dom in Hk. cbn. set_solver. }
  rewrite Hl, list_to_set_elements_L. set_solver.
Qed.

Lemma jobKeys_spec items : jobKeys (Ok items) = Ok (list_to_set (job_key <$> items)).
Proof.
  cbn. f_equal. assert (forall s : gset string,
    fold_left (fun keys j => {[job_key j]} ∪ keys) items s = list_to_set (job_key <$> items) ∪ s) as ->.
  { induction items as [|j items IH]; intros s; cbn; [set_solver|]. rewrite IH. set_solver. }
  set_solver.
Qed.

(** the measurement knows exactly the existing jobs that have finished,
    each with the condition it finished with, after any sequence of additions,
    updates and deletions of jobs, tombstones included; [gather] ends with no
    error exactly when every listed job had finished at the poll that ended the
    waiting (or at the timeout), and otherwise names exactly the others. *)
Theorem finished_jobs_correct jobs m w w0 ticks timed_out :
  follows jobs m -> isRunning w0 = true ->
  default timed_out (find (all_finished (dom jobs)) ticks) = w -> finishedJobs w = m ->
  (forall key cond, m !! key = Some cond <-> exists j, jobs !! key = Some j /\ job_finished j = Some cond) /\
  forall items, list_to_set (job_key <$> items) = dom jobs ->
    (gather w0 (Ok items) ticks timed_out = None <-> map_Forall (fun _ j => is_Some (job_finished j)) jobs) /\
    (forall err, gather w0 (Ok items) ticks timed_out = Some err ->
       let unfinished := filter (fun kj => job_finished kj.2 = None) jobs in
       err = Errorf "%d Jobs timed out: %s"
               [AInt (Z.of_nat (size unfinished)); AStr (join ", " (sorted_keys (dom unfinished)))]).
Proof.
  intros Hf Hr Hend Hw. apply follows_spec in Hf as [_ Hm]. split.
  { intros key cond. rewrite Hm, lookup_omap. destruct (jobs !! key) as [j|]; cbn; naive_solver. }
  intros items Hitems. unfold gather. rewrite Hr, jobKeys_spec, Hitems. cbn [negb]. rewrite Hend.
  destruct (final_count (dom jobs) (finishedJobs w)) as [[cm fl] t] eqn:Hc.
  assert (t = dom (filter (fun kj => job_finished kj.2 = None) jobs)) as Ht.
  { pose proof (final_count_timedOut (dom jobs) (finishedJobs w)) as Ht. rewrite Hc in Ht. cbn in Ht.
    rewrite Ht, Hw, Hm. apply set_eq. intros k. rewrite elem_of_difference, !elem_of_dom, lookup_omap.
    unfold is_Some. setoid_rewrite map_lookup_filter_Some. cbn.
    destruct (jobs !! k) as [j|]; cbn; [|naive_solver]. destruct (job_finished j) eqn:Hj; naive_solver. }
  split.
  - destruct (decide (size t = 0%nat)) as [Hs|Hs].
    + rewrite bool_decide_eq_true_2 by done. cbn. split; [|done]. intros _ k j Hj.
      apply size_empty_inv, leibniz_equiv in Hs. rewrite Hs in Ht. symmetry in Ht. apply dom_empty_iff_L in Ht.
      destruct (job_finished j) eqn:Hjf; [done|].
      assert (filter (fun kj => job_finished kj.2 = None) jobs !! k = Some j) as Hk by (by apply map_lookup_filter_Some).
      rewrite Ht in Hk. done.
    + rewrite bool_decide_eq_false_2 by done. cbn. split; [done|]. intros Hall. exfalso. apply Hs.
      rewrite Ht, size_dom. apply map_size_empty_iff, map_eq. intros k. rewrite lookup_empty, map_lookup_filter.
      destruct (jobs !! k) as [j|] eqn:Hj; [|done]. cbn. destruct (Hall k j Hj) as [cond Hcond]. by rewrite option_guard_False by (cbn; congruence).
  - intros err. destruct (negb _); [|done]. intros [= <-]. cbn. rewrite Ht, size_dom. done.
Qed.
End Measurement.

#[local] Existing Instances list_queue.

Definition ex_job (name status : string) : Job := mkJob "ns" name 0 None None [mkJobCondition "Complete" status].
Definition ex_jobs : gmap string Job := jobs_after (jobs_after ∅ (JobSet (ex_job "a" "True"))) (JobSet (ex_job "b" "False")).

Lemma ex_follows : follows ex_jobs {["ns/a" := "Complete"]}.
Proof.
  eapply (follows_change _ {["ns/a" := "Complete"]}); [|done|by vm_compute].
  eapply (follows_change _ ∅); [apply follows_start|done|by vm_compute].
Qed.

Definition ex_w : waitForFinishedJobsMeasurement :=
  mkFinishedJobs NewObjectSelector (NewWorkerQueue 1) true false {["ns/a" := "Complete"]}.

Lemma finished_jobs_correct_witness :
  gather ex_w (Ok [ex_job "a" "True"; ex_job "b" "False"]) [ex_w; ex_w] ex_w = None <->
  map_Forall (fun _ j => is_Some (job_finished j)) ex_jobs.
Proof.
  apply (finished_jobs_correct ex_jobs {["ns/a" := "Complete"]} ex_w ex_w [ex_w; ex_w] ex_w ex_follows);
    [reflexivity|vm_compute; reflexivity|reflexivity|vm_compute; reflexivity].
Defined.
End FinishedJobs.
