(* ===== verification/Prometheus.v ===== *)
(** * Prometheus queries and the measurements based on them
      (pkg/measurement/util/{prometheus,histogram}.go,
      pkg/measurement/common/prometheus_measurement.go,
      pkg/measurement/common/slos/slo_measurement.go)

    The query executor with its retries, histograms collected from samples,
    the measurement every Prometheus gatherer is wrapped in, and the SLO
    measurement that runs others with overridden parameters. The Prometheus
    client, the JSON decoder and the quantile of a histogram (component-base)
    are parameters. *)

From S2P Require Import Prelude GoErrors GoRuntime Params Measurement Float64 Latency.
From Stdlib Require Import SpecFloat.

(** ** util/prometheus.go *)

(** A value of a response; [PNil]: the data field was missing. *)
Inductive promValue := PVector (samples : list Sample) | PScalar | PMatrix | PNil.

Record promQueryResponse := mkPromResponse { pqr_Status : string; pqr_Data : promValue }.

(** [promResponseData.UnmarshalJSON]: the three decoders are JSON's. *)
Definition UnmarshalJSON (resultType : string) (scalar matrix : option error) (vector : result (list Sample))
  : promValue * option error :=
  if String.eqb resultType "scalar" then (PScalar, scalar)
  else if String.eqb resultType "vector" then
    match vector with Ok v => (PVector v, None) | Err err => (PVector [], Some err) end
  else if String.eqb resultType "matrix" then (PMatrix, matrix)
  else (PNil, Some (Errorf "unexpected value type %q" [AStr resultType])).

Definition value_Type (v : promValue) : option string :=
  match v with PVector _ => Some "vector" | PScalar => Some "scalar" | PMatrix => Some "matrix" | PNil => None end.

(** [None]: the type of a nil value, a panic. *)
Definition ExtractMetricSamples2 (decoded : result promQueryResponse) : option (result (list Sample)) :=
  match decoded with
  | Err err => Some (Err err)
  | Ok pqr =>
      if negb (String.eqb (pqr_Status pqr) "success") then
        Some (Err (Errorf "non-success response status: %v" [AStr (pqr_Status pqr)]))
      else
        match pqr_Data pqr with
        | PVector vector => Some (Ok vector)
        | v => t ← value_Type v; Some (Err (Errorf "incorrect response type: %v" [AStr t]))
        end
  end.

(** The loop of [ExtractMetricSamples]: the decoder's answers up to the end of
    the file. *)
Inductive decoded := Decoded (v : list Sample) | DecodeEOF | DecodeError (err : error).

Fixpoint ExtractMetricSamples (answers : list decoded) (samples : list Sample) : result (list Sample) :=
  match answers with
  | [] | DecodeEOF :: _ => Ok samples
  | DecodeError err :: _ => Err err
  | Decoded v :: answers' => ExtractMetricSamples answers' (samples ++ v)
  end.

(** One answer of the Prometheus client: the body and the error. *)
Definition answer : Type := option string * option error.

(** [wait.PollImmediate] over the answers until the timeout: whether one was
    good, and the last body and error. *)
Fixpoint query_loop (answers : list answer) (last : answer) : bool * answer :=
  match answers with
  | [] => (false, last)
  | (body, Some err) :: answers' => query_loop answers' (body, Some err)
  | (body, None) :: _ => (true, (body, None))
  end.

Definition is_NaN (f : float64) : bool := match f with S754_nan => true | _ => false end.

Definition drop_NaN (samples : list Sample) : list Sample :=
  fold_left (fun res s => if is_NaN (s_Value s) then res else res ++ [s]) samples [].

(** [client]: the answers to this query at this time; the poll makes at least
    one attempt. *)
Definition Query (decode : option string -> result promQueryResponse) (client : string -> Z -> list answer)
  (query : string) (queryTime : Z) : option (result (list Sample)) :=
  if queryTime =? zeroTime then Some (Err (Errorf "query time can't be zero" []))
  else
    match query_loop (client query queryTime) (None, None) with
    | (false, (body, Some queryErr)) =>
        Some (Err (Errorf "query error: %v [body: %s]" [AErr queryErr; AStr (default "(empty)" body)]))
    | (false, (_, None)) =>
        Some (Err (Errorf "error: %v" [AErr (External "timed out waiting for the condition")]))
    | (true, (body, _)) =>
        match ExtractMetricSamples2 (decode body) with
        | None => None
        | Some (Err err) => Some (Err (Errorf "extracting error: %v" [AErr err]))
        | Some (Ok samples) => Some (Ok (drop_NaN samples))
        end
    end.

(** [int64(t)/int64(time.Second)] truncates toward zero. *)
Definition ToPrometheusTime (t : Z) : string := Sprintf "%ds" [FInt (Z.quot t Second)].

(** ** util/histogram.go *)

Record Histogram := mkHistogram { h_Labels : gmap string string; h_Buckets : gmap string Z }.

Definition NewHistogram (labels : gmap string string) : Histogram := mkHistogram labels ∅.

Definition BucketLabel : string := "le".

Definition sample_labels (sample : Sample) : gmap string string := delete BucketLabel (s_Metric sample).

(** [hist.Buckets[le] += int(sample.Value)]; a missing label is the empty
    string. *)
Definition add_to_bucket (h : Histogram) (sample : Sample) : Histogram :=
  let le := default "" (s_Metric sample !! BucketLabel) in
  mkHistogram (h_Labels h)
    (<[le := wrap64 (default 0 (h_Buckets h !! le) + f64_to_int (s_Value sample))]> (h_Buckets h)).

(** The first histogram with the labels gets the sample, or a new one at the
    end. The map of buckets is shared with the copy that was appended. *)
Fixpoint ConvertSampleToBucket (sample : Sample) (h : list Histogram) : list Histogram :=
  match h with
  | [] => [add_to_bucket (NewHistogram (sample_labels sample)) sample]
  | hist :: h' =>
      if bool_decide (sample_labels sample = h_Labels hist) then add_to_bucket hist sample :: h'
      else hist :: ConvertSampleToBucket sample h'
  end.

Definition ConvertSampleToHistogram (sample : Sample) (h : Histogram) : Histogram :=
  add_to_bucket (mkHistogram (sample_labels sample) (h_Buckets h)) sample.

(** A bucket as component-base wants it. *)
Record bucket := mkBucket { UpperBound : float64; CumulativeCount : Z }.

Fixpoint parse_buckets `{GoLib} (l : list (string * Z)) (acc : list bucket) : result (list bucket) :=
  match l with
  | [] => Ok acc
  | (k, v) :: l' =>
      match ParseFloat k with
      | (_, Some err) => Err err
      | (upper, None) => parse_buckets l' (acc ++ [mkBucket upper (v mod 2 ^ 64)])
      end
  end.

Definition bucket_le (a b : bucket) : Prop := f64_ltb (UpperBound b) (UpperBound a) = false.
#[export] Instance bucket_le_dec a b : Decision (bucket_le a b).
Proof. unfold bucket_le. apply _. Defined.

Definition MaxFloat64 : float64 := S754_finite false (2 ^ 53 - 1) 971.

(** [hist_Quantile]: the quantile of sorted buckets with a sample count
    ([None]: nil). *)
Definition Quantile `{GoLib} `{MapRange} (hist_Quantile : list bucket -> option Z -> float64 -> float64)
  (h : Histogram) (q : float64) : float64 * option error :=
  match parse_buckets (range "buckets" (h_Buckets h)) [] with
  | Err err => (MaxFloat64, Some err)
  | Ok bs =>
      let bs := merge_sort bucket_le bs in
      (hist_Quantile bs (CumulativeCount <$> last bs) q, None)
  end.

(** ** prometheus_measurement.go *)

(** The interface [Gatherer] over an executor. *)
Class Gatherer (G : Type) := {
  g_Configure : G -> MeasurementConfig -> G * option error;
  g_Gather : G -> (string -> Z -> option (result (list Sample))) -> Z -> Z -> MeasurementConfig ->
    option (list Summary * option error);
  g_IsEnabled : G -> MeasurementConfig -> bool;
}.

Record prometheusMeasurement (G : Type) := mkPrometheusMeasurement { pm_gatherer : G; pm_startTime : Z }.
Arguments mkPrometheusMeasurement {_} _ _.
Arguments pm_gatherer {_} _.
Arguments pm_startTime {_} _.

Definition CreatePrometheusMeasurement {G} (gatherer : G) : prometheusMeasurement G :=
  mkPrometheusMeasurement gatherer zeroTime.

Section PrometheusMeasurement.
Context {G : Type} `{Gatherer G} `{GoLib}.

(** [inCluster]: whether there is a Prometheus framework, with its executor;
    [managed]: the provider's client. [None] is a panic. *)
Definition prometheus_Execute (inCluster : option (string -> Z -> option (result (list Sample))))
  (managed : result (string -> Z -> option (result (list Sample)))) (now : Z)
  (m : prometheusMeasurement G) (config : MeasurementConfig)
  : option (prometheusMeasurement G * (list Summary * option error)) :=
  match GetStringOrDefault (cfg_Params config) "prometheusClient" "inCluster" with
  | (_, Some err) => Some (m, ([], Some err))
  | (prometheusClient, None) =>
      if negb (String.eqb prometheusClient "inCluster") && negb (String.eqb prometheusClient "managed") then
        Some (m, ([], Some (Errorf "unknown Prometheus client" [])))
      else if String.eqb prometheusClient "inCluster" && negb (bool_decide (is_Some inCluster)) then Some (m, ([], None))
      else if negb (g_IsEnabled (pm_gatherer m) config) then Some (m, ([], None))
      else
        match getString (cfg_Params config) "action" with
        | (_, Some err) => Some (m, ([], Some err))
        | (action, None) =>
            if String.eqb action "start" then
              match g_Configure (pm_gatherer m) config with
              | (g, Some err) => Some (mkPrometheusMeasurement g (pm_startTime m), ([], Some err))
              | (g, None) => Some (mkPrometheusMeasurement g now, ([], None))
              end
            else if String.eqb action "gather" then
              match GetBoolOrDefault (cfg_Params config) "enableViolations" false with
              | (_, Some err) => Some (m, ([], Some err))
              | (enableViolations, None) =>
                  match (if String.eqb prometheusClient "inCluster"
                         then (match inCluster with Some ex => Ok ex | None => Err (External "nil framework") end)
                         else managed) with
                  | Err err => Some (m, ([], Some (Errorf "error while creating managed Prometheus client: %w" [AWrap err])))
                  | Ok executor =>
                      match g_Gather (pm_gatherer m) executor (pm_startTime m) now config with
                      | None => None
                      | Some (summary, None) => Some (m, (summary, None))
                      | Some (summary, Some err) =>
                          if negb (IsMetricViolationError err) then Some (m, ([], Some err))
                          else Some (m, (summary, if enableViolations then Some err else None))
                      end
                  end
              end
            else Some (m, ([], Some (Errorf "unknown action: %v" [AStr action])))
        end
  end.

(** A violation is reported only when asked for, and its summaries are kept
    either way; other errors lose them. *)
Lemma prometheus_violations inCluster now m config executor summary err :
  inCluster = Some executor -> g_IsEnabled (pm_gatherer m) config = true ->
  cfg_Params config !! "prometheusClient" = None -> getString (cfg_Params config) "action" = ("gather", None) ->
  cfg_Params config !! "enableViolations" = None ->
  g_Gather (pm_gatherer m) executor (pm_startTime m) now config = Some (summary, Some err) ->
  prometheus_Execute inCluster (Err (External "")) now m config =
    Some (m, if IsMetricViolationError err then (summary, None) else ([], Some err)).
Proof.
  intros -> He Hc Ha Hv Hg. unfold prometheus_Execute, GetStringOrDefault, GetBoolOrDefault.
  unfold getString at 1. rewrite Hc. cbn. rewrite He, Ha. cbn. unfold getBool. rewrite Hv. cbn. rewrite Hg.
  by destruct (IsMetricViolationError err).
Qed.
End PrometheusMeasurement.

(** ** slos/slo_measurement.go *)

Section SLO.
Context `{GoLib}.

(** The measurements by name, with a world they change. *)
Context {W : Type} (execute : string -> MeasurementConfig -> W -> W * (list Summary * option error)).

Definition sloMeasurementsNames : list string := ["DnsLookupLatency"; "SchedulingThroughputPrometheus"].

Definition with_Params (config : MeasurementConfig) (p : params) : MeasurementConfig :=
  mkMeasurementConfig p (cfg_Identifier config) (cfg_ClusterVersion config).

Definition getMeasurementConfig (config : MeasurementConfig) (measurementName : string) : result MeasurementConfig :=
  let measurementConfig := with_Params config (CloneMap (cfg_Params config)) in
  match getMap (cfg_Params config) "overrides" with
  | (overrides, err) =>
      if IsErrKeyNotFound err then Ok measurementConfig
      else
        match err with
        | Some err => Err err
        | None =>
            match getMap (default ∅ overrides) measurementName with
            | (measurementOverrides, err) =>
                if IsErrKeyNotFound err then Ok measurementConfig
                else
                  match err with
                  | Some err => Err err
                  | None =>
                      Ok (with_Params config (CopyMap (default ∅ measurementOverrides) (cfg_Params measurementConfig)))
                  end
            end
        end
  end.

(** The receiver is a copy: the summaries of earlier calls are not kept. *)
Fixpoint slo_loop (names : list string) (config : MeasurementConfig) (w : W) (summaries : list Summary)
  (errList : ErrorList) : W * (list Summary * ErrorList) :=
  match names with
  | [] => (w, (summaries, errList))
  | name :: names' =>
      match getMeasurementConfig config name with
      | Err err => slo_loop names' config w summaries (Append errList [err])
      | Ok measurementConfig =>
          match execute name measurementConfig w with
          | (w', (_, Some err)) => slo_loop names' config w' summaries (Append errList [err])
          | (w', (ss, None)) => slo_loop names' config w' (summaries ++ ss) errList
          end
      end
  end.

Definition slo_Execute (measurements : list string) (config : MeasurementConfig) (w : W)
  : W * (list Summary * option error) :=
  let '(w', (summaries, errList)) := slo_loop measurements config w [] (NewErrorList []) in
  if negb (IsEmpty errList) then (w', ([], Some (ListError (errors errList)))) else (w', (summaries, None)).

(** A measurement runs with the common parameters overridden by its own. *)
Lemma getMeasurementConfig_overrides config name overrides own :
  cfg_Params config !! "overrides" = Some (VMap overrides) -> overrides !! name = Some (VMap own) ->
  getMeasurementConfig config name = Ok (with_Params config (own ∪ cfg_Params config)).
Proof.
  intros Ho Hn. unfold getMeasurementConfig, getMap. rewrite Ho. cbn. rewrite Hn. cbn.
  by rewrite CloneMap_id, CopyMap_union.
Qed.
End SLO.

(** ** Histograms hold the sums of their samples *)

Lemma wrap64_add_l a b : wrap64 (wrap64 a + b) = wrap64 (a + b).
Proof.
  unfold wrap64. f_equal.
  replace ((a + 2 ^ 63) mod 2 ^ 64 - 2 ^ 63 + b + 2 ^ 63) with ((a + 2 ^ 63) mod 2 ^ 64 + b) by lia.
  rewrite Zplus_mod_idemp_l. f_equal. lia.
Qed.

Lemma wrap64_0_add z : wrap64 (0 + z) = wrap64 z.
Proof. done. Qed.

Definition sample_le (s : Sample) : string := default "" (s_Metric s !! BucketLabel).

(** The samples that belong to a bucket of a histogram. *)
Definition in_bucket (labels : gmap string string) (le : string) (s : Sample) : Prop :=
  sample_labels s = labels /\ sample_le s = le.
#[export] Instance in_bucket_dec labels le s : Decision (in_bucket labels le s).
Proof. unfold in_bucket. apply _. Defined.

Definition total (samples : list Sample) : Z := foldr (fun s n => f64_to_int (s_Value s) + n) 0 samples.

Definition bucket_value (samples : list Sample) (labels : gmap string string) (le : string) : option Z :=
  match filter (in_bucket labels le) samples with
  | [] => None
  | l => Some (wrap64 (total l))
  end.

Lemma total_app l1 l2 : total (l1 ++ l2) = total l1 + total l2.
Proof. induction l1 as [|s l1 IH]; [done|]. cbn. fold (total (l1 ++ l2)) (total l1). lia. Qed.

Lemma bucket_value_snoc samples s labels le :
  bucket_value (samples ++ [s]) labels le =
    if bool_decide (in_bucket labels le s)
    then Some (wrap64 (default 0 (bucket_value samples labels le) + f64_to_int (s_Value s)))
    else bucket_value samples labels le.
Proof.
  unfold bucket_value. rewrite filter_app, filter_cons, filter_nil.
  case_decide; case_bool_decide; try done; [|by rewrite app_nil_r].
  destruct (filter (in_bucket labels le) samples) as [|a l]; cbn [app default from_option id].
  - cbn. f_equal. f_equal. lia.
  - change (a :: l ++ [s]) with ((a :: l) ++ [s]). rewrite total_app, wrap64_add_l. cbn. f_equal. f_equal. lia.
Qed.

(** What a vector of histograms built from samples is. *)
Record is_histogram (samples : list Sample) (h : list Histogram) : Prop := {
  ih_distinct : NoDup (h_Labels <$> h);
  ih_labels : forall labels, labels ∈ h_Labels <$> h <-> labels ∈ sample_labels <$> samples;
  ih_buckets : forall hist le, hist ∈ h -> h_Buckets hist !! le = bucket_value samples (h_Labels hist) le;
}.

Lemma add_to_bucket_lookup h s le :
  h_Buckets (add_to_bucket h s) !! le =
    if bool_decide (sample_le s = le) then Some (wrap64 (default 0 (h_Buckets h !! le) + f64_to_int (s_Value s)))
    else h_Buckets h !! le.
Proof.
  unfold add_to_bucket. cbn. fold (sample_le s). rewrite lookup_insert. case_decide; case_bool_decide; subst; done.
Qed.

(** Either one histogram has the labels and changes, or a new one is added. *)
Lemma ConvertSampleToBucket_spec s h :
  NoDup (h_Labels <$> h) ->
  (exists pre hist post, h = pre ++ hist :: post /\ h_Labels hist = sample_labels s /\
     ConvertSampleToBucket s h = pre ++ add_to_bucket hist s :: post) \/
  (sample_labels s ∉ h_Labels <$> h /\
     ConvertSampleToBucket s h = h ++ [add_to_bucket (NewHistogram (sample_labels s)) s]).
Proof.
  induction h as [|hist h IH]; intros Hnd; cbn [ConvertSampleToBucket].
  { right. split; [set_solver|done]. }
  apply NoDup_cons in Hnd as [Hni Hnd]. case_bool_decide as Heq.
  - left. by exists [], hist, h.
  - destruct (IH Hnd) as [(pre & h1 & post & -> & Hl & ->)|[Hn ->]].
    + left. by exists (hist :: pre), h1, post.
    + right. split; [|done]. cbn. by apply not_elem_of_cons.
Qed.

Lemma bucket_value_absent samples labels le :
  labels ∉ sample_labels <$> samples -> bucket_value samples labels le = None.
Proof.
  intros Hn. unfold bucket_value. rewrite filter_none; [done|]. apply Forall_forall. intros s Hs [Hl _].
  apply Hn. subst labels. by apply list_elem_of_fmap_2.
Qed.

Lemma is_histogram_snoc samples h s :
  is_histogram samples h -> is_histogram (samples ++ [s]) (ConvertSampleToBucket s h).
Proof.
  intros [Hd Hl Hb].
  assert (forall hist le, h_Labels hist <> sample_labels s -> hist ∈ h ->
    h_Buckets hist !! le = bucket_value (samples ++ [s]) (h_Labels hist) le) as Hother.
  { intros hist le Hne Hin. rewrite bucket_value_snoc, bool_decide_eq_false_2; [by apply Hb|]. intros [Hx _]. done. }
  destruct (ConvertSampleToBucket_spec s h Hd) as [(pre & hist & post & -> & Hhl & ->)|[Hn ->]].
  - rewrite fmap_app in Hd. cbn in Hd. apply NoDup_app in Hd as (Hpre & Hdis & Hpost).
    assert (h_Labels <$> (pre ++ add_to_bucket hist s :: post) = h_Labels <$> (pre ++ hist :: post)) as Hsame
      by (by rewrite !fmap_app).
    constructor.
    + rewrite Hsame, fmap_app. cbn. by apply NoDup_app.
    + intros labels. rewrite Hsame, Hl, fmap_app, elem_of_app. cbn. split; [by left|].
      intros [?|Hx%list_elem_of_singleton]; [done|]. apply Hl. subst labels.
      apply list_elem_of_fmap. exists hist. split; [by rewrite Hhl|set_solver].
    + intros h1 le. rewrite elem_of_app, elem_of_cons. intros Hin.
      apply NoDup_cons in Hpost as [Hni _].
      destruct Hin as [Hin|[->|Hin]].
      * apply Hother; [|set_solver]. intros Heq. rewrite <- Hhl in Heq.
        apply (Hdis (h_Labels h1)); [by apply list_elem_of_fmap_2|]. rewrite Heq. by left.
      * rewrite add_to_bucket_lookup, bucket_value_snoc, (Hb hist) by set_solver.
        unfold in_bucket. cbn [h_Labels add_to_bucket]. rewrite Hhl. repeat case_bool_decide; naive_solver.
      * apply Hother; [|set_solver]. intros Heq. rewrite <- Hhl in Heq.
        apply Hni. rewrite <- Heq. by apply list_elem_of_fmap_2.
  - constructor.
    + rewrite fmap_app. cbn. apply NoDup_app. split_and!; [done|set_solver|apply NoDup_singleton].
    + intros labels. rewrite !fmap_app, !elem_of_app, Hl. cbn. done.
    + intros h1 le. rewrite elem_of_app, list_elem_of_singleton. intros [Hin| ->].
      * apply Hother; [|done]. intros Heq. apply Hn. rewrite <- Heq. by apply list_elem_of_fmap_2.
      * rewrite add_to_bucket_lookup, bucket_value_snoc. rewrite Hl in Hn.
        unfold in_bucket. cbn [h_Labels add_to_bucket NewHistogram h_Buckets]. rewrite bucket_value_absent, lookup_empty by done.
        repeat case_bool_decide; naive_solver.
Qed.

(** C13: collecting samples into histograms keeps one histogram per set of
    labels (the bucket label apart), for exactly the labels that occur, and in
    every bucket the sum of the samples of that bucket, and no other bucket,
    whatever the order of the samples. *)
Theorem histograms_hold_sums samples :
  is_histogram samples (fold_left (fun h s => ConvertSampleToBucket s h) samples []).
Proof.
  induction samples as [|s samples IH] using rev_ind.
  - constructor; [constructor|set_solver|]. intros hist le Hin%not_elem_of_nil. done.
  - rewrite fold_left_app. cbn. by apply is_histogram_snoc.
Qed.

(** ** Queries *)

Lemma query_loop_spec answers last ok body err :
  query_loop answers last = (ok, (body, err)) ->
  if ok then err = None /\ exists pre post, answers = pre ++ (body, None) :: post /\ Forall (fun a => is_Some a.2) pre
  else Forall (fun a => is_Some a.2) answers.
Proof.
  revert last. induction answers as [|[b [e|]] answers IH]; intros last; cbn.
  - by intros [= <- ->].
  - intros Hq. apply IH in Hq. destruct ok; [|by constructor].
    destruct Hq as (He & pre & post & -> & Hpre). split; [done|]. exists ((b, Some e) :: pre), post. split; [done|].
    by constructor.
  - intros [= <- <- <-]. split; [done|]. by exists [], answers.
Qed.

(** A query that succeeds returns the numbers of the first good response. *)
Lemma Query_correct decode client query queryTime samples :
  Query decode client query queryTime = Some (Ok samples) ->
  queryTime <> zeroTime /\ exists pre body post vector,
    client query queryTime = pre ++ (body, None) :: post /\ Forall (fun a => is_Some a.2) pre /\
    decode body = Ok (mkPromResponse "success" (PVector vector)) /\
    samples = filter (fun s => is_NaN (s_Value s) = false) vector.
Proof.
  unfold Query. destruct (Z.eqb_spec queryTime zeroTime) as [|Hz]; [done|].
  destruct (query_loop (client query queryTime) (None, None)) as [[] [body err]] eqn:Hq; [|by destruct err].
  apply query_loop_spec in Hq as (-> & pre & post & Hc & Hpre). intros Hr. split; [done|].
  exists pre, body, post. unfold ExtractMetricSamples2 in Hr.
  destruct (decode body) as [[st data]|e] eqn:Hd; [|done]. cbn in Hr.
  destruct (String.eqb_spec st "success") as [->|]; [|done]. cbn in Hr.
  destruct data as [vector| | |]; try done. injection Hr as <-. exists vector. split_and!; try done.
  unfold drop_NaN. assert (forall acc, fold_left (fun res s => if is_NaN (s_Value s) then res else res ++ [s]) vector acc
    = acc ++ filter (fun s => is_NaN (s_Value s) = false) vector) as ->; [|done].
  clear. induction vector as [|s v IH]; intros acc; cbn [fold_left]; [by rewrite app_nil_r|].
  rewrite IH, filter_cons. destruct (is_NaN (s_Value s)); case_decide; try done. by rewrite <- app_assoc.
Qed.

(** A "success" response without data panics. *)
Lemma response_without_data_panics : ExtractMetricSamples2 (Ok (mkPromResponse "success" PNil)) = None.
Proof. done. Qed.
