(* ===== verification/ApiResponsiveness.v ===== *)
(** * API call latency (pkg/measurement/common/slos/api_responsiveness_prometheus.go)

    The latencies and counts of API calls queried from Prometheus, collected
    per call, and compared with the thresholds of the SLO or with custom ones.
    YAML, JSON and the printing of structs are parameters. *)

From S2P Require Import Prelude GoErrors GoRuntime Params Measurement Float64 Latency Prometheus.
From Stdlib Require Import SpecFloat.

(** ** Data *)

Record apiCallMetric := mkApiCall {
  ac_Resource : string;
  ac_Subresource : string;
  ac_Verb : string;
  ac_Scope : string;
  ac_Latency : LatencyMetric;
  ac_Count : Z;
  ac_SlowCount : Z;
}.

(** The map holds pointers that are only reached through it. *)
Abbreviation apiCallMetrics := (gmap string apiCallMetric).

Record customThresholdEntry := mkThreshold {
  te_Resource : string; te_Subresource : string; te_Verb : string; te_Scope : string; te_Threshold : Z;
}.

Definition buildKey (resource subresource verb scope : string) : string :=
  Sprintf "%s|%s|%s|%s" [FStr resource; FStr subresource; FStr verb; FStr scope].

Definition getKey (ap : apiCallMetric) : string :=
  buildKey (ac_Resource ap) (ac_Subresource ap) (ac_Verb ap) (ac_Scope ap).

Definition threshold_getKey (cte : customThresholdEntry) : string :=
  buildKey (te_Resource cte) (te_Subresource cte) (te_Verb cte) (te_Scope cte).

Definition singleResourceThreshold : Z := 1 * Second.
Definition multipleResourcesThreshold : Z := 30 * Second.

Definition getSLOThreshold (ap : apiCallMetric) : Z :=
  if String.eqb (ac_Scope ap) "resource" then singleResourceThreshold else multipleResourcesThreshold.

(** ** Collecting the samples *)

Definition newCall (resource subresource verb scope : string) : apiCallMetric :=
  mkApiCall resource subresource verb scope (mkLatencyMetric 0 0 0) 0 0.

(** The call, which is inserted when it is missing. *)
Definition getAPICall (m : apiCallMetrics) (resource subresource verb scope : string) : apiCallMetrics * apiCallMetric :=
  let key := buildKey resource subresource verb scope in
  match m !! key with
  | Some call => (m, call)
  | None => let call := newCall resource subresource verb scope in (<[key := call]> m, call)
  end.

(** Change the call in place. *)
Definition update_call (m : apiCallMetrics) (resource subresource verb scope : string)
  (f : apiCallMetric -> apiCallMetric) : apiCallMetrics :=
  let '(m, call) := getAPICall m resource subresource verb scope in
  <[buildKey resource subresource verb scope := f call]> m.

Definition SetLatency (m : apiCallMetrics) (resource subresource verb scope : string) (quantile : float64) (latency : Z)
  : apiCallMetrics :=
  update_call m resource subresource verb scope (fun call =>
    mkApiCall (ac_Resource call) (ac_Subresource call) (ac_Verb call) (ac_Scope call)
      (SetQuantile (ac_Latency call) quantile latency) (ac_Count call) (ac_SlowCount call)).

Definition GetCount (m : apiCallMetrics) (resource subresource verb scope : string) : apiCallMetrics * Z :=
  let '(m, call) := getAPICall m resource subresource verb scope in (m, ac_Count call).

Definition SetCount (m : apiCallMetrics) (resource subresource verb scope : string) (count : Z) : apiCallMetrics :=
  if count =? 0 then m
  else update_call m resource subresource verb scope (fun call =>
    mkApiCall (ac_Resource call) (ac_Subresource call) (ac_Verb call) (ac_Scope call) (ac_Latency call) count (ac_SlowCount call)).

Definition SetSlowCount (m : apiCallMetrics) (resource subresource verb scope : string) (count : Z) : apiCallMetrics :=
  if count =? 0 then m
  else update_call m resource subresource verb scope (fun call =>
    mkApiCall (ac_Resource call) (ac_Subresource call) (ac_Verb call) (ac_Scope call) (ac_Latency call) (ac_Count call) count).

(** [int(math.Round(x))]: half away from zero. *)
Definition f64_round_int (x : float64) : Z :=
  match x with
  | S754_finite s m e =>
      if 0 <=? e then f64_to_int x
      else
        let d := 2 ^ (- e) in
        let a := (2 * Z.pos m + d) / (2 * d) in
        if s then - a else a
  | _ => f64_to_int x
  end.

Definition label (s : Sample) (name : string) : string := default "" (s_Metric s !! name).

Definition sample_duration (s : Sample) : Z := f64_to_int (f64_mul (s_Value s) (f64_of_Z Second)).

Section Gather.
Context {GL : GoLib} {MR : MapRange}.

Fixpoint latency_loop (m : apiCallMetrics) (samples : list Sample) : result apiCallMetrics :=
  match samples with
  | [] => Ok m
  | s :: samples' =>
      match ParseFloat (label s "quantile") with
      | (_, Some err) => Err err
      | (quantile, None) =>
          latency_loop (SetLatency m (label s "resource") (label s "subresource") (label s "verb") (label s "scope")
            quantile (sample_duration s)) samples'
      end
  end.

Definition count_sample (m : apiCallMetrics) (s : Sample) : apiCallMetrics :=
  SetCount m (label s "resource") (label s "subresource") (label s "verb") (label s "scope") (f64_round_int (s_Value s)).

Definition fast_sample (m : apiCallMetrics) (s : Sample) : apiCallMetrics :=
  let fastCount := f64_round_int (s_Value s) in
  let '(m, count) := GetCount m (label s "resource") (label s "subresource") (label s "verb") (label s "scope") in
  SetSlowCount m (label s "resource") (label s "subresource") (label s "verb") (label s "scope") (wrap64 (count - fastCount)).

Definition newFromSamples (latencySamples countSamples countFastSamples : list Sample) : result apiCallMetrics :=
  match latency_loop ∅ latencySamples with
  | Err err => Err err
  | Ok m => Ok (fold_left fast_sample countFastSamples (fold_left count_sample countSamples m))
  end.

(** ** The queries *)

Definition filters : string := "verb!=" +:+ fmt_quote (FStr "WATCH") +:+ ", subresource!~" +:+ fmt_quote (FStr "log|exec|portforward|attach|proxy").
Definition latencyQuery : string := "quantile_over_time(0.99, %v{%v}[%v])".
Definition simpleLatencyQuery : string :=
  "histogram_quantile(%.2f, sum(rate(%v_bucket{%v}[%v])) by (resource,  subresource, verb, scope, le))".
Definition countQuery : string := "sum(increase(%v_count{%v}[%v])) by (resource, subresource, scope, verb)".
Definition countFastQuery : string := "sum(increase(%v_bucket{%v}[%v])) by (resource, subresource, scope, verb)".
Definition watchListLatencyMetricName : string := "apiserver_watch_list_duration_seconds".
Definition watchListLatencyQuery : string :=
  "histogram_quantile(%.2f, sum(rate(%v_bucket{}[%v])) by (group, version, resource, scope, le))".
Definition filterGetAndMutating : string :=
  "verb!~" +:+ fmt_quote (FStr "WATCH|LIST") +:+ ", subresource!=" +:+ fmt_quote (FStr "proxy") +:+ ", le=" +:+ fmt_quote (FStr "1").
Definition filterNamespaceList : string :=
  "scope!=" +:+ fmt_quote (FStr "cluster") +:+ ", verb=" +:+ fmt_quote (FStr "LIST") +:+ ", le=" +:+ fmt_quote (FStr "5").
Definition filterClusterList : string :=
  "scope=" +:+ fmt_quote (FStr "cluster") +:+ ", verb=" +:+ fmt_quote (FStr "LIST") +:+ ", le=" +:+ fmt_quote (FStr "30").
Definition latencyWindowSize : Z := 5 * Duration.Minute.

(** [sample.Metric[name] = value] *)
Definition set_label (name value : string) (s : Sample) : Sample := mkSample (<[name := value]> (s_Metric s)) (s_Value s).

(** A query, [None] being a panic of the executor. *)
Definition executor_t : Type := string -> Z -> option (result (list Sample)).

(** [samples, err := executor.Query(...); if err != nil { return nil, err }] *)
Definition bind_query {A} (r : option (result (list Sample))) (k : list Sample -> option (result A)) : option (result A) :=
  match r with
  | None => None
  | Some (Err err) => Some (Err err)
  | Some (Ok samples) => k samples
  end.

(** The loop over the quantiles, already printed with two digits. *)
Fixpoint simple_loop (executor : executor_t) (apiserverSLI promDuration : string) (endTime : Z) (quantiles : list string)
  (latencySamples : list Sample) : option (result (list Sample)) :=
  match quantiles with
  | [] => Some (Ok latencySamples)
  | q :: quantiles' =>
      bind_query (executor (Sprintf simpleLatencyQuery [FStr q; FStr apiserverSLI; FStr filters; FStr promDuration]) endTime)
        (fun samples =>
      let latencySamples := latencySamples ++ map (set_label "quantile" q) samples in
      bind_query (executor (Sprintf watchListLatencyQuery [FStr q; FStr watchListLatencyMetricName; FStr promDuration]) endTime)
        (fun samples =>
      simple_loop executor apiserverSLI promDuration endTime quantiles'
        (latencySamples ++ map (fun s => set_label "verb" "WATCHLIST" (set_label "quantile" q s)) samples)))
  end.

Fixpoint fast_loop (executor : executor_t) (apiserverSLI promDuration : string) (endTime : Z) (fs : list string)
  (acc : list Sample) : option (result (list Sample)) :=
  match fs with
  | [] => Some (Ok acc)
  | filter :: fs' =>
      bind_query (executor (Sprintf countFastQuery [FStr apiserverSLI; FStr filter; FStr promDuration]) endTime)
        (fun samples => fast_loop executor apiserverSLI promDuration endTime fs' (acc ++ samples))
  end.

Definition gatherAPICalls (executor : executor_t) (startTime endTime : Z) (config : MeasurementConfig) (version : Version)
  : option (result apiCallMetrics) :=
  let measurementDuration := Time_Sub endTime startTime in
  let promDuration := ToPrometheusTime measurementDuration in
  let apiserverSLI := GetApiserverSLI version in
  let apiserverLatency := GetApiserverLatency version in
  match GetBoolOrDefault (cfg_Params config) "useSimpleLatencyQuery" false with
  | (_, Some err) => Some (Err err)
  | (useSimple, None) =>
      bind_query
        (if useSimple then simple_loop executor apiserverSLI promDuration endTime ["0.50"; "0.90"; "0.99"] []
         else
           let d := wrap64 (measurementDuration - latencyWindowSize) in
           let d := if d <? Duration.Minute then Duration.Minute else d in
           executor (Sprintf latencyQuery [FStr apiserverLatency; FStr filters; FStr (ToPrometheusTime d)]) endTime)
        (fun latencySamples =>
      bind_query (executor (Sprintf countQuery [FStr apiserverSLI; FStr filters; FStr promDuration]) endTime)
        (fun countSamples =>
      bind_query (executor (Sprintf countQuery [FStr watchListLatencyMetricName; FStr ""; FStr promDuration]) endTime)
        (fun watchListCountSamples =>
      bind_query
        (fast_loop executor apiserverSLI promDuration endTime [filterGetAndMutating; filterNamespaceList; filterClusterList] [])
        (fun countFastSamples =>
      Some (newFromSamples latencySamples (countSamples ++ map (set_label "verb" "WATCHLIST") watchListCountSamples)
              countFastSamples)))))
  end.

(** ** The verdict *)

Definition perc99_ge (a b : apiCallMetric) : Prop := Perc99 (ac_Latency b) <= Perc99 (ac_Latency a).
#[export] Instance perc99_ge_dec a b : Decision (perc99_ge a b).
Proof. unfold perc99_ge. apply _. Defined.
#[export] Instance perc99_ge_total : Total perc99_ge.
Proof. intros a b. unfold perc99_ge. lia. Qed.
#[export] Instance perc99_ge_trans : Transitive perc99_ge.
Proof. intros a b c. unfold perc99_ge. lia. Qed.

(** The order of calls with equal latency is open. *)
Definition sorted (loop : string) (m : apiCallMetrics) : list apiCallMetric :=
  merge_sort perc99_ge ((range loop m).*2).

(** [SprintCall]: [%+v] of a call. *)
Context (SprintCall : apiCallMetric -> string).

Definition Validate (ap : apiCallMetric) (allowedSlowCalls threshold : Z) : option error :=
  if (0 <? allowedSlowCalls) && (ac_SlowCount ap <=? allowedSlowCalls) then None
  else
    match VerifyThreshold (ac_Latency ap) threshold with
    | Some _ => Some (Errorf "got: %+v; expected perc99 <= %v" [AStr (SprintCall ap); AStr (Duration_String threshold)])
    | None => None
    end.

Definition call_threshold (customThresholds : gmap string Z) (apiCall : apiCallMetric) : Z :=
  match customThresholds !! getKey apiCall with
  | Some customThreshold => customThreshold
  | None => getSLOThreshold apiCall
  end.

(** The errors; what is logged for the top calls is left out. *)
Definition validateAPICalls (allowedSlowCalls : Z) (metrics : apiCallMetrics) (customThresholds : gmap string Z) : list error :=
  fold_left (fun badMetrics apiCall =>
    match Validate apiCall allowedSlowCalls (call_threshold customThresholds apiCall) with
    | Some err => badMetrics ++ [err]
    | None => badMetrics
    end) (sorted "validate" metrics) [].

Fixpoint thresholds_loop (metrics : apiCallMetrics) (entries : list customThresholdEntry) (acc : gmap string Z)
  : result (gmap string Z) :=
  match entries with
  | [] => Ok acc
  | entry :: entries' =>
      if te_Threshold entry =? 0 then Err (Errorf "custom threshold must be set to a positive time duration" [])
      else
        let key := threshold_getKey entry in
        match metrics !! key with
        | None => thresholds_loop metrics entries' acc
        | Some _ => thresholds_loop metrics entries' (<[key := te_Threshold entry]> acc)
        end
  end.

(** [Unmarshal]: the YAML decoder. *)
Definition getCustomThresholds (Unmarshal : string -> result (list customThresholdEntry)) (config : MeasurementConfig)
  (metrics : apiCallMetrics) : result (gmap string Z) :=
  match GetStringOrDefault (cfg_Params config) "customThresholds" "" with
  | (_, Some err) => Err err
  | (thresholdsString, None) =>
      match Unmarshal thresholdsString with
      | Err err => Err err
      | Ok thresholds => thresholds_loop metrics thresholds ∅
      end
  end.

Definition call_item (apicall : apiCallMetric) : DataItem :=
  mkDataItem
    {[ "Perc50" := in_ms (Perc50 (ac_Latency apicall)); "Perc90" := in_ms (Perc90 (ac_Latency apicall));
       "Perc99" := in_ms (Perc99 (ac_Latency apicall)) ]}
    "ms"
    {[ "Verb" := ac_Verb apicall; "Resource" := ac_Resource apicall; "Subresource" := ac_Subresource apicall;
       "Scope" := ac_Scope apicall; "Count" := pretty (ac_Count apicall); "SlowCount" := pretty (ac_SlowCount apicall) ]}.

Definition apiCalls_ToPerfData (m : apiCallMetrics) : PerfData :=
  mkPerfData "v1" (map call_item (sorted "perfdata" m)) ∅.

Definition Gather (PrettyPrintJSON : PerfData -> result string) (Unmarshal : string -> result (list customThresholdEntry))
  (now : Z) (version : Version) (executor : executor_t) (startTime endTime : Z) (config : MeasurementConfig)
  : option (list Summary * option error) :=
  match gatherAPICalls executor startTime endTime config version with
  | None => None
  | Some (Err err) => Some ([], Some err)
  | Some (Ok apiCalls) =>
      match PrettyPrintJSON (apiCalls_ToPerfData apiCalls) with
      | Err err => Some ([], Some err)
      | Ok content =>
          match GetStringOrDefault (cfg_Params config) "summaryName" "APIResponsivenessPrometheus" with
          | (_, Some err) => Some ([], Some err)
          | (summaryName, None) =>
              match GetIntOrDefault (cfg_Params config) "allowedSlowCalls" 0 with
              | (_, Some err) => Some ([], Some err)
              | (allowedSlowCalls, None) =>
                  match getCustomThresholds Unmarshal config apiCalls with
                  | Err err => Some ([], Some err)
                  | Ok customThresholds =>
                      let badMetrics := validateAPICalls allowedSlowCalls apiCalls customThresholds in
                      Some ([CreateSummary now summaryName "json" content],
                        match badMetrics with
                        | [] => None
                        | _ => Some (NewMetricViolationError "top latency metric"
                                 ("there should be no high-latency requests, but: [" +:+ join " " (map Error badMetrics) +:+ "]"))
                        end)
                  end
              end
          end
      end
  end.
End Gather.

(** ** What the collected metrics are *)

Lemma SFeqb_finite x s m e : SFeqb x (S754_finite s m e) = true -> x = S754_finite s m e.
Proof.
  unfold SFeqb. destruct x as [b|b| |s' m' e']; cbn; [by destruct s|by destruct b| done|].
  destruct s', s; try done; destruct (e' ?= e) eqn:He; try done; apply Z.compare_eq in He as ->;
    destruct (Pos.compare_cont Eq m' m) eqn:Hm; try done; apply Pos.compare_eq in Hm as ->; done.
Qed.

Lemma SetQuantile_perc m q l :
  Perc50 (SetQuantile m q l) = (if SFeqb q f64_half then l else Perc50 m) /\
  Perc90 (SetQuantile m q l) = (if SFeqb q f64_0_9 then l else Perc90 m) /\
  Perc99 (SetQuantile m q l) = (if SFeqb q f64_0_99 then l else Perc99 m).
Proof.
  unfold SetQuantile. destruct (SFeqb q f64_half) eqn:H5.
  { apply SFeqb_finite in H5 as ->. done. }
  destruct (SFeqb q f64_0_9) eqn:H9; [apply SFeqb_finite in H9 as ->; done|].
  by destruct (SFeqb q f64_0_99).
Qed.

Definition sample_key (s : Sample) : string :=
  buildKey (label s "resource") (label s "subresource") (label s "verb") (label s "scope").

(** A number of a call, zero for a call that is not there. *)
Definition field (f : apiCallMetric -> Z) (m : apiCallMetrics) (key : string) : Z :=
  match m !! key with Some c => f c | None => 0 end.

Lemma update_call_lookup m r sr v sc f key :
  update_call m r sr v sc f !! key =
    if bool_decide (buildKey r sr v sc = key) then Some (f (default (newCall r sr v sc) (m !! key))) else m !! key.
Proof.
  unfold update_call, getAPICall. destruct (m !! buildKey r sr v sc) as [c|] eqn:Hm; cbv beta iota zeta;
    rewrite lookup_insert; case_decide; case_bool_decide; subst; try done; [by rewrite Hm|by rewrite Hm|].
  by rewrite lookup_insert_ne.
Qed.

Lemma getAPICall_lookup m r sr v sc key :
  (getAPICall m r sr v sc).1 !! key =
    if bool_decide (buildKey r sr v sc = key) then Some (default (newCall r sr v sc) (m !! key)) else m !! key.
Proof.
  unfold getAPICall. destruct (m !! buildKey r sr v sc) as [c|] eqn:Hm; cbn [fst].
  - case_bool_decide; [subst|done]. by rewrite Hm.
  - rewrite lookup_insert. case_decide; case_bool_decide; try done. subst. by rewrite Hm.
Qed.

(** A step that may set a number of the call of its sample, and nothing else. *)
Definition sets {S} (step : apiCallMetrics -> S -> apiCallMetrics) (f : apiCallMetric -> Z) (g : string -> S -> option Z) : Prop :=
  forall m s key, field f (step m s) key = default (field f m key) (g key s).

Lemma fold_sets {S} step f (g : string -> S -> option Z) l m key :
  sets step f g -> field f (fold_left step l m) key = default (field f m key) (last (omap (g key) l)).
Proof.
  intros Hs. induction l as [|s l IH] using rev_ind; [done|].
  rewrite fold_left_app. cbn [fold_left]. rewrite Hs, omap_app. cbn. destruct (g key s); cbn.
  - by rewrite last_snoc.
  - by rewrite app_nil_r.
Qed.

(** A step that may add the call of its sample. *)
Lemma fold_adds {S} (step : apiCallMetrics -> S -> apiCallMetrics) (P : string -> S -> Prop) l m key :
  (forall m s, is_Some (step m s !! key) <-> is_Some (m !! key) \/ P key s) ->
  is_Some (fold_left step l m !! key) <-> is_Some (m !! key) \/ Exists (P key) l.
Proof.
  intros Hs. induction l as [|s l IH] using rev_ind; [rewrite Exists_nil; tauto|].
  rewrite fold_left_app. cbn [fold_left]. rewrite Hs, IH, Exists_app, Exists_cons, Exists_nil. tauto.
Qed.

Definition keys_ok (m : apiCallMetrics) : Prop := map_Forall (fun key c => getKey c = key) m.

Lemma keys_ok_update m r sr v sc f :
  (forall c, getKey (f c) = getKey c) -> keys_ok m -> keys_ok (update_call m r sr v sc f).
Proof.
  intros Hf Hm key c. rewrite update_call_lookup. case_bool_decide as Hk; [|apply Hm].
  intros [= <-]. rewrite Hf. destruct (m !! key) eqn:Hl; [by apply Hm|done].
Qed.

Lemma keys_ok_fold {S} (step : apiCallMetrics -> S -> apiCallMetrics) l m :
  (forall m s, keys_ok m -> keys_ok (step m s)) -> keys_ok m -> keys_ok (fold_left step l m).
Proof. intros Hs. revert m. induction l as [|s l IH]; [done|]. intros m Hm. cbn. apply IH, Hs, Hm. Qed.

Section Collected.
Context {GL : GoLib}.

Definition quantile_of (s : Sample) : float64 := (ParseFloat (label s "quantile")).1.

Definition latency_step (m : apiCallMetrics) (s : Sample) : apiCallMetrics :=
  SetLatency m (label s "resource") (label s "subresource") (label s "verb") (label s "scope") (quantile_of s) (sample_duration s).

Lemma latency_loop_fold m samples m' : latency_loop m samples = Ok m' -> m' = fold_left latency_step samples m.
Proof.
  revert m. induction samples as [|s samples IH]; intros m; cbn [latency_loop fold_left]; [by intros [= ->]|].
  unfold latency_step at 2, quantile_of. destruct (ParseFloat (label s "quantile")) as [q [e|]]; [done|]. apply IH.
Qed.

(** What one sample says about a call. *)
Definition latency_of (p : float64) (key : string) (s : Sample) : option Z :=
  if bool_decide (sample_key s = key) && SFeqb (quantile_of s) p then Some (sample_duration s) else None.
Definition count_of (key : string) (s : Sample) : option Z :=
  if bool_decide (sample_key s = key) && negb (f64_round_int (s_Value s) =? 0) then Some (f64_round_int (s_Value s)) else None.
Definition slow_of (count : Z) (key : string) (s : Sample) : option Z :=
  let slow := wrap64 (count - f64_round_int (s_Value s)) in
  if bool_decide (sample_key s = key) && negb (slow =? 0) then Some slow else None.

Ltac field_cases :=
  intros; unfold field, sample_key; rewrite update_call_lookup;
  case_bool_decide; cbn [andb default from_option id]; [|done];
  match goal with |- context [?m !! ?k] => destruct (m !! k) end; cbn.

Lemma latency_sets :
  sets latency_step (fun c => Perc50 (ac_Latency c)) (latency_of f64_half) /\
  sets latency_step (fun c => Perc90 (ac_Latency c)) (latency_of f64_0_9) /\
  sets latency_step (fun c => Perc99 (ac_Latency c)) (latency_of f64_0_99).
Proof.
  unfold sets, latency_step, SetLatency, latency_of. split_and!; field_cases;
    match goal with |- context [SetQuantile ?m ?q ?l] => destruct (SetQuantile_perc m q l) as (H5 & H9 & H99) end;
    rewrite ?H5, ?H9, ?H99; repeat case_match; try done.
Qed.

Definition perc50 (c : apiCallMetric) : Z := Perc50 (ac_Latency c).
Definition perc90 (c : apiCallMetric) : Z := Perc90 (ac_Latency c).
Definition perc99 (c : apiCallMetric) : Z := Perc99 (ac_Latency c).

Definition keeps (step : apiCallMetrics -> Sample -> apiCallMetrics) (f : apiCallMetric -> Z) : Prop :=
  forall m s key, field f (step m s) key = field f m key.

Lemma fold_keeps step f l m key : keeps step f -> field f (fold_left step l m) key = field f m key.
Proof. intros Hs. induction l as [|s l IH] using rev_ind; [done|]. rewrite fold_left_app. cbn. by rewrite Hs. Qed.

Lemma latency_keeps : keeps latency_step ac_Count /\ keeps latency_step ac_SlowCount.
Proof. unfold keeps, latency_step, SetLatency. split; field_cases; done. Qed.

Lemma count_sets : sets count_sample ac_Count count_of.
Proof.
  unfold sets, count_sample, SetCount, count_of. intros m s key.
  destruct (Z.eqb_spec (f64_round_int (s_Value s)) 0) as [Hz|Hz]; cbn [negb]; [by rewrite andb_false_r|].
  rewrite andb_true_r. field_cases; done.
Qed.

Lemma count_keeps :
  keeps count_sample perc50 /\ keeps count_sample perc90 /\ keeps count_sample perc99 /\ keeps count_sample ac_SlowCount.
Proof.
  unfold keeps, count_sample, SetCount, perc50, perc90, perc99.
  split_and!; intros m s key; destruct (f64_round_int (s_Value s) =? 0); try done; field_cases; done.
Qed.

Lemma fast_sample_lookup m s key :
  fast_sample m s !! key =
    if bool_decide (sample_key s = key) then
      let c := default (newCall (label s "resource") (label s "subresource") (label s "verb") (label s "scope")) (m !! key) in
      let slow := wrap64 (field ac_Count m key - f64_round_int (s_Value s)) in
      Some (if slow =? 0 then c
            else mkApiCall (ac_Resource c) (ac_Subresource c) (ac_Verb c) (ac_Scope c) (ac_Latency c) (ac_Count c) slow)
    else m !! key.
Proof.
  unfold fast_sample, GetCount, SetSlowCount.
  destruct (getAPICall m _ _ _ _) as [m' c] eqn:Hg.
  assert (m' = (getAPICall m (label s "resource") (label s "subresource") (label s "verb") (label s "scope")).1) as Hm'
    by (by rewrite Hg).
  assert (ac_Count c = field ac_Count m (sample_key s)) as Hc.
  { unfold getAPICall in Hg. fold (sample_key s) in Hg. unfold field.
    destruct (m !! sample_key s); by injection Hg as <- <-. }
  rewrite Hc. case_bool_decide as Hk; [rewrite Hk|]; cbv zeta.
  - destruct (wrap64 _ =? 0) eqn:Hs; rewrite ?update_call_lookup, Hm', getAPICall_lookup; fold (sample_key s);
      rewrite !bool_decide_eq_true_2 by done; done.
  - destruct (wrap64 _ =? 0); rewrite ?update_call_lookup, Hm', getAPICall_lookup; fold (sample_key s);
      by rewrite !bool_decide_eq_false_2 by done.
Qed.

Lemma fast_fields m s key :
  field ac_SlowCount (fast_sample m s) key = default (field ac_SlowCount m key) (slow_of (field ac_Count m key) key s) /\
  field ac_Count (fast_sample m s) key = field ac_Count m key.
Proof.
  unfold slow_of. split; unfold field at 1; rewrite fast_sample_lookup; case_bool_decide; cbn [andb]; try done;
    cbv zeta; destruct (wrap64 (field ac_Count m key - _) =? 0); cbn; unfold field; by destruct (m !! key).
Qed.

Lemma fast_keeps : keeps fast_sample perc50 /\ keeps fast_sample perc90 /\ keeps fast_sample perc99.
Proof.
  unfold keeps, perc50, perc90, perc99. split_and!; intros m s key; unfold field at 1; rewrite fast_sample_lookup;
    case_bool_decide; try done; cbv zeta; unfold field; destruct (m !! key); cbn; by destruct (wrap64 _ =? 0).
Qed.

Lemma fold_fast l m key :
  field ac_Count (fold_left fast_sample l m) key = field ac_Count m key /\
  field ac_SlowCount (fold_left fast_sample l m) key =
    default (field ac_SlowCount m key) (last (omap (slow_of (field ac_Count m key) key) l)).
Proof.
  induction l as [|s l [IHc IHs]] using rev_ind; [done|]. rewrite fold_left_app. cbn [fold_left].
  destruct (fast_fields (fold_left fast_sample l m) s key) as [-> ->]. split; [done|].
  rewrite IHc, IHs, omap_app. cbn. destruct (slow_of _ key s); cbn; [by rewrite last_snoc|by rewrite app_nil_r].
Qed.

(** The calls that are there. *)
Definition has_count (key : string) (s : Sample) : Prop := sample_key s = key /\ f64_round_int (s_Value s) <> 0.

Lemma adds_latency m s key : is_Some (latency_step m s !! key) <-> is_Some (m !! key) \/ sample_key s = key.
Proof. unfold latency_step, SetLatency. rewrite update_call_lookup. fold (sample_key s). case_bool_decide; naive_solver. Qed.

Lemma adds_count m s key : is_Some (count_sample m s !! key) <-> is_Some (m !! key) \/ has_count key s.
Proof.
  unfold count_sample, SetCount, has_count. destruct (Z.eqb_spec (f64_round_int (s_Value s)) 0); [naive_solver|].
  rewrite update_call_lookup. fold (sample_key s). case_bool_decide; naive_solver.
Qed.

Lemma adds_fast m s key : is_Some (fast_sample m s !! key) <-> is_Some (m !! key) \/ sample_key s = key.
Proof. rewrite fast_sample_lookup. case_bool_decide; naive_solver. Qed.

Lemma keys_ok_new ls cs fs : keys_ok (fold_left fast_sample fs (fold_left count_sample cs (fold_left latency_step ls ∅))).
Proof.
  apply keys_ok_fold; [|apply keys_ok_fold; [|apply keys_ok_fold; [|done]]].
  - intros m s Hm key c. rewrite fast_sample_lookup. case_bool_decide as Hk; [|apply Hm]. cbv zeta. intros [= <-].
    assert (getKey (default (newCall (label s "resource") (label s "subresource") (label s "verb") (label s "scope")) (m !! key)) = key) as Hd.
    { destruct (m !! key) eqn:Hl; [by apply Hm|done]. }
    by destruct (wrap64 _ =? 0).
  - intros m s Hm. unfold count_sample, SetCount. case_match; [done|]. by apply keys_ok_update.
  - intros m s Hm. by apply keys_ok_update.
Qed.

(** The metrics hold what the samples say: there is a call for exactly the
    combinations of resource, subresource, verb and scope some sample is about
    (a count of zero does not make one); its percentiles are those of the last
    sample for each quantile, its count the last count that is not zero, and its
    slow count the calls of the last fast-count sample that were not fast,
    numbers without a sample being zero. *)
Definition holds_samples (ls cs fs : list Sample) (m : apiCallMetrics) : Prop :=
  (forall key, is_Some (m !! key) <->
     Exists (fun s => sample_key s = key) ls \/ Exists (has_count key) cs \/ Exists (fun s => sample_key s = key) fs) /\
  (forall key c, m !! key = Some c ->
     getKey c = key /\
     Perc50 (ac_Latency c) = default 0 (last (omap (latency_of f64_half key) ls)) /\
     Perc90 (ac_Latency c) = default 0 (last (omap (latency_of f64_0_9 key) ls)) /\
     Perc99 (ac_Latency c) = default 0 (last (omap (latency_of f64_0_99 key) ls)) /\
     ac_Count c = default 0 (last (omap (count_of key) cs)) /\
     ac_SlowCount c = default 0 (last (omap (slow_of (ac_Count c) key) fs))).

Lemma newFromSamples_correct ls cs fs m : newFromSamples ls cs fs = Ok m -> holds_samples ls cs fs m.
Proof.
  unfold newFromSamples. destruct (latency_loop ∅ ls) as [m0|] eqn:Hl; [|done].
  apply latency_loop_fold in Hl as ->. intros [= <-]. split.
  { intros key. rewrite (fold_adds fast_sample (fun key s => sample_key s = key)) by (intros; apply adds_fast).
    rewrite (fold_adds count_sample has_count) by (intros; apply adds_count).
    rewrite (fold_adds latency_step (fun key s => sample_key s = key)) by (intros; apply adds_latency).
    rewrite lookup_empty. unfold is_Some. naive_solver. }
  intros key c Hc. split; [by apply (keys_ok_new ls cs fs key c)|].
  set (m0 := fold_left latency_step ls ∅) in *.
  assert (forall f, field f (fold_left fast_sample fs (fold_left count_sample cs m0)) key = f c) as Hf
    by (intros f; unfold field; by rewrite Hc).
  destruct (fold_fast fs (fold_left count_sample cs m0) key) as [Hcnt Hslow].
  destruct latency_sets as (L5 & L9 & L99). destruct latency_keeps as [Kc Ks].
  destruct count_keeps as (C5 & C9 & C99 & Cs). destruct fast_keeps as (F5 & F9 & F99).
  rewrite (fold_sets _ _ _ _ _ _ count_sets) in Hcnt. rewrite (fold_keeps _ _ _ _ _ Cs) in Hslow.
  unfold m0 in Hcnt, Hslow. rewrite (fold_keeps _ _ _ _ _ Kc) in Hcnt. rewrite (fold_keeps _ _ _ _ _ Ks) in Hslow.
  rewrite Hf in Hcnt, Hslow.
  assert (forall (f : apiCallMetric -> Z) g, sets latency_step f g -> keeps count_sample f -> keeps fast_sample f ->
    f c = default 0 (last (omap (g key) ls))) as Hp.
  { intros f g Hs Hk1 Hk2. rewrite <- Hf, (fold_keeps _ _ _ _ _ Hk2), (fold_keeps _ _ _ _ _ Hk1).
    unfold m0. by rewrite (fold_sets _ _ _ _ _ _ Hs). }
  split_and!; [by apply (Hp perc50)|by apply (Hp perc90)|by apply (Hp perc99)|done|].
  rewrite Hslow. unfold field at 1. rewrite lookup_empty. do 3 f_equal. rewrite (fold_sets _ _ _ _ _ _ count_sets).
  rewrite Hcnt. f_equal. by rewrite (fold_keeps _ _ _ _ _ Kc).
Qed.
End Collected.

(** ** The answers of Prometheus *)

Section Answers.
Context {GL : GoLib} {MR : MapRange} (executor : executor_t) (startTime endTime : Z) (version : Version).

Definition answers (query : string) (samples : list Sample) : Prop := executor query endTime = Some (Ok samples).

Definition prom_duration : string := ToPrometheusTime (Time_Sub endTime startTime).

(** The latencies: the 99th percentiles over the time, less a window of five
    minutes but at least one minute; or, where the simple query is asked for,
    each of the three percentiles of the requests and of the watch lists. *)
Definition latency_answers (useSimple : bool) (ls : list Sample) : Prop :=
  if useSimple then
    exists per_quantile, ls = concat per_quantile /\
      Forall2 (fun q part => exists requests lists,
        answers (Sprintf simpleLatencyQuery [FStr q; FStr (GetApiserverSLI version); FStr filters; FStr prom_duration]) requests /\
        answers (Sprintf watchListLatencyQuery [FStr q; FStr watchListLatencyMetricName; FStr prom_duration]) lists /\
        part = map (set_label "quantile" q) requests ++
               map (fun s => set_label "verb" "WATCHLIST" (set_label "quantile" q s)) lists)
      ["0.50"; "0.90"; "0.99"] per_quantile
  else
    answers (Sprintf latencyQuery [FStr (GetApiserverLatency version); FStr filters;
      FStr (ToPrometheusTime (Z.max (60 * 10 ^ 9) (wrap64 (Time_Sub endTime startTime - 300 * 10 ^ 9))))]) ls.

(** The counts of requests, and those of watch lists under their own verb. *)
Definition count_answers (cs : list Sample) : Prop :=
  exists requests lists,
    answers (Sprintf countQuery [FStr (GetApiserverSLI version); FStr filters; FStr prom_duration]) requests /\
    answers (Sprintf countQuery [FStr watchListLatencyMetricName; FStr ""; FStr prom_duration]) lists /\
    cs = requests ++ map (set_label "verb" "WATCHLIST") lists.

(** The counts of fast calls: within 1s, for lists within 5s and for lists of the
    whole cluster within 30s. *)
Definition fast_answers (fs : list Sample) : Prop :=
  exists parts, fs = concat parts /\
    Forall2 (fun filter part =>
      answers (Sprintf countFastQuery [FStr (GetApiserverSLI version); FStr filter; FStr prom_duration]) part)
      [filterGetAndMutating; filterNamespaceList; filterClusterList] parts.

Lemma bind_query_ok {A} r (k : list Sample -> option (result A)) a :
  bind_query r k = Some (Ok a) -> exists samples, r = Some (Ok samples) /\ k samples = Some (Ok a).
Proof. destruct r as [[samples|]|]; cbn; [eauto|done|done]. Qed.

Lemma fast_loop_ok sli dur fs acc r :
  fast_loop executor sli dur endTime fs acc = Some (Ok r) ->
  exists parts, r = acc ++ concat parts /\
    Forall2 (fun filter part => answers (Sprintf countFastQuery [FStr sli; FStr filter; FStr dur]) part) fs parts.
Proof.
  revert acc. induction fs as [|f fs IH]; intros acc; cbn [fast_loop].
  { intros [= <-]. exists []. by rewrite app_nil_r. }
  intros (part & Hp & (parts & -> & Hps)%IH)%bind_query_ok. exists (part :: parts).
  cbn [concat]. rewrite app_assoc. split; [done|]. by constructor.
Qed.

Lemma simple_loop_ok sli dur qs acc r :
  simple_loop executor sli dur endTime qs acc = Some (Ok r) ->
  exists parts, r = acc ++ concat parts /\
    Forall2 (fun q part => exists requests lists,
      answers (Sprintf simpleLatencyQuery [FStr q; FStr sli; FStr filters; FStr dur]) requests /\
      answers (Sprintf watchListLatencyQuery [FStr q; FStr watchListLatencyMetricName; FStr dur]) lists /\
      part = map (set_label "quantile" q) requests ++
             map (fun s => set_label "verb" "WATCHLIST" (set_label "quantile" q s)) lists) qs parts.
Proof.
  revert acc. induction qs as [|q qs IH]; intros acc; cbn [simple_loop].
  { intros [= <-]. exists []. by rewrite app_nil_r. }
  intros (requests & Hr & (lists & Hl & (parts & -> & Hps)%IH)%bind_query_ok)%bind_query_ok.
  exists ((map (set_label "quantile" q) requests ++
             map (fun s => set_label "verb" "WATCHLIST" (set_label "quantile" q s)) lists) :: parts).
  cbn [concat]. split; [by rewrite <- !app_assoc|]. constructor; [|exact Hps].
  exists requests, lists. done.
Qed.

Lemma latency_time d :
  (if wrap64 (d - latencyWindowSize) <? Duration.Minute then Duration.Minute else wrap64 (d - latencyWindowSize)) =
  Z.max (60 * 10 ^ 9) (wrap64 (d - 300 * 10 ^ 9)).
Proof.
  change latencyWindowSize with (300 * 10 ^ 9). change Duration.Minute with (60 * 10 ^ 9).
  generalize (wrap64 (d - 300 * 10 ^ 9)). intros w. destruct (Z.ltb_spec w (60 * 10 ^ 9)); lia.
Qed.

Lemma gatherAPICalls_ok config m :
  gatherAPICalls executor startTime endTime config version = Some (Ok m) ->
  exists useSimple ls cs fs,
    GetBoolOrDefault (cfg_Params config) "useSimpleLatencyQuery" false = (useSimple, None) /\
    latency_answers useSimple ls /\ count_answers cs /\ fast_answers fs /\ newFromSamples ls cs fs = Ok m.
Proof.
  unfold gatherAPICalls. destruct (GetBoolOrDefault _ _ _) as [useSimple [e|]]; [done|].
  intros (ls & Hls & (reqs & Hreqs & (lists & Hlists & (fs & Hfs & [= Hm])%bind_query_ok)%bind_query_ok)%bind_query_ok)%bind_query_ok.
  exists useSimple, ls, (reqs ++ map (set_label "verb" "WATCHLIST") lists), fs. split_and!; [done| | | |done].
  - unfold latency_answers. destruct useSimple; [by apply simple_loop_ok in Hls|].
    by rewrite <- latency_time.
  - by exists reqs, lists.
  - by apply fast_loop_ok in Hfs.
Qed.
End Answers.

(** ** The verdict *)

Section Verdict.
Context {GL : GoLib} {MR : MapRange} (SprintCall : apiCallMetric -> string).

(** A call is fast enough: few enough of its calls were slow, where that is
    tolerated, or all its percentiles are within the threshold. *)
Definition call_ok (allowedSlowCalls threshold : Z) (c : apiCallMetric) : Prop :=
  (0 < allowedSlowCalls /\ ac_SlowCount c <= allowedSlowCalls) \/
  (Perc50 (ac_Latency c) <= threshold /\ Perc90 (ac_Latency c) <= threshold /\ Perc99 (ac_Latency c) <= threshold).

Lemma Validate_ok ap allowed threshold : Validate SprintCall ap allowed threshold = None <-> call_ok allowed threshold ap.
Proof.
  unfold Validate, call_ok, VerifyThreshold.
  destruct (Z.ltb_spec 0 allowed), (Z.leb_spec (ac_SlowCount ap) allowed); cbn [andb];
    repeat match goal with |- context [?a <? ?b] => destruct (Z.ltb_spec a b) end; split; try done; intros; try lia; naive_solver lia.
Qed.

Lemma sorted_elem loop m c : c ∈ sorted loop m <-> exists key, m !! key = Some c.
Proof.
  unfold sorted. rewrite merge_sort_Permutation, (range_perm _ loop m), list_elem_of_fmap. split.
  - intros ([k c'] & -> & Hin). apply elem_of_map_to_list in Hin. eauto.
  - intros [key Hk]. exists (key, c). split; [done|]. by apply elem_of_map_to_list.
Qed.

Lemma validateAPICalls_nil allowed m custom :
  validateAPICalls SprintCall allowed m custom = [] <->
  map_Forall (fun _ c => call_ok allowed (call_threshold custom c) c) m.
Proof.
  unfold validateAPICalls.
  assert (forall l acc, fold_left (fun badMetrics apiCall =>
    match Validate SprintCall apiCall allowed (call_threshold custom apiCall) with
    | Some err => badMetrics ++ [err] | None => badMetrics end) l acc = [] <->
    acc = [] /\ Forall (fun c => call_ok allowed (call_threshold custom c) c) l) as Hl.
  { induction l as [|c l IH]; intros acc; cbn [fold_left]; [rewrite Forall_nil; tauto|].
    rewrite IH, Forall_cons, <- Validate_ok. destruct (Validate _ _ _ _); [|tauto].
    split; [intros [Hx _]; by destruct acc|]. by intros (_ & ? & _). }
  rewrite Hl, Forall_forall. setoid_rewrite sorted_elem. unfold map_Forall. split.
  - intros [_ Hall] key c Hc. eauto.
  - intros Hall. split; [done|]. intros c [key Hc]. eauto.
Qed.

(** The SLO: one second for calls of a single resource, thirty otherwise, or
    the threshold given for the call. *)
Lemma call_threshold_cases custom c :
  call_threshold custom c = match custom !! getKey c with
                            | Some t => t
                            | None => if decide (ac_Scope c = "resource") then 10 ^ 9 else 30 * 10 ^ 9
                            end.
Proof.
  unfold call_threshold, getSLOThreshold. destruct (custom !! getKey c); [done|].
  destruct (String.eqb_spec (ac_Scope c) "resource"); case_decide; try done.
Qed.

Lemma thresholds_loop_spec m entries acc custom :
  thresholds_loop m entries acc = Ok custom ->
  Forall (fun e => te_Threshold e <> 0) entries /\
  forall key, custom !! key =
    match last (filter (fun e => threshold_getKey e = key) entries) with
    | Some e => if decide (is_Some (m !! key)) then Some (te_Threshold e) else acc !! key
    | None => acc !! key
    end.
Proof.
  revert acc. induction entries as [|e entries IH]; intros acc; cbn [thresholds_loop]; [by intros [= ->]|].
  destruct (Z.eqb_spec (te_Threshold e) 0) as [|Hz]; [done|].
  assert (forall key, last (filter (fun e => threshold_getKey e = key) (e :: entries)) =
    match last (filter (fun e => threshold_getKey e = key) entries) with
    | Some e' => Some e' | None => if decide (threshold_getKey e = key) then Some e else None end) as Hlast.
  { intros key. rewrite filter_cons. case_decide; [|by destruct (last _)]. rewrite last_cons. by destruct (last _). }
  destruct (m !! threshold_getKey e) as [c|] eqn:Hm; intros Hr; apply IH in Hr as [Hall Hr];
    (split; [by constructor|]); intros key; rewrite Hr, Hlast; clear Hlast Hr;
    destruct (decide (threshold_getKey e = key)) as [Hk|Hne]; rewrite ?lookup_insert_ne by done; destruct (last _); try done;
    subst key; rewrite ?lookup_insert_eq.
  - rewrite !decide_True by (by rewrite Hm). done.
  - rewrite decide_True by (by rewrite Hm). done.
  - rewrite Hm. rewrite decide_False; [done|]. by intros [].
Qed.

(** The threshold of a call: the last one given for it, or the SLO of one
    second for a single resource and thirty seconds otherwise. *)
Definition threshold_for (entries : list customThresholdEntry) (c : apiCallMetric) : Z :=
  match last (filter (fun e => threshold_getKey e = getKey c) entries) with
  | Some e => te_Threshold e
  | None => if decide (ac_Scope c = "resource") then 10 ^ 9 else 30 * 10 ^ 9
  end.

Lemma getCustomThresholds_ok Unmarshal config m custom :
  keys_ok m -> getCustomThresholds Unmarshal config m = Ok custom ->
  exists text entries,
    GetStringOrDefault (cfg_Params config) "customThresholds" "" = (text, None) /\ Unmarshal text = Ok entries /\
    Forall (fun e => te_Threshold e <> 0) entries /\
    map_Forall (fun _ c => call_threshold custom c = threshold_for entries c) m.
Proof.
  intros Hk. unfold getCustomThresholds. destruct (GetStringOrDefault _ _ _) as [text [e|]]; [done|].
  destruct (Unmarshal text) as [entries|] eqn:Hu; [|done]. intros [Hall Hl]%thresholds_loop_spec.
  exists text, entries. split_and!; [done..|]. intros key c Hc. rewrite call_threshold_cases, Hl. unfold threshold_for.
  rewrite (Hk _ _ Hc). destruct (last _); [|by rewrite lookup_empty]. by rewrite decide_True by (by rewrite Hc).
Qed.

(** C12: the API responsiveness measurement, when it gets as far as a summary,
    judges exactly the calls Prometheus answered about: there are answers [ls],
    [cs], [fs] to its queries for latencies, counts and fast calls, and the
    metrics [m] hold what these samples say, one entry per call. The summary
    has the entries of all calls of [m], each once, slowest first. A metric
    violation is reported exactly when some call has neither few enough slow
    instances, where that is tolerated, nor all its percentiles within its
    threshold: the last custom threshold given for the call, or else 1s for a
    single resource and 30s otherwise. *)
Theorem api_responsiveness_verdict PrettyPrintJSON Unmarshal now version executor startTime endTime config ss err :
  Gather SprintCall PrettyPrintJSON Unmarshal now version executor startTime endTime config = Some (ss, err) -> ss <> [] ->
  exists useSimple ls cs fs m allowed text entries name calls content,
    GetBoolOrDefault (cfg_Params config) "useSimpleLatencyQuery" false = (useSimple, None) /\
    latency_answers executor startTime endTime version useSimple ls /\
    count_answers executor startTime endTime version cs /\
    fast_answers executor startTime endTime version fs /\
    holds_samples ls cs fs m /\
    GetIntOrDefault (cfg_Params config) "allowedSlowCalls" 0 = (allowed, None) /\
    GetStringOrDefault (cfg_Params config) "customThresholds" "" = (text, None) /\ Unmarshal text = Ok entries /\
    GetStringOrDefault (cfg_Params config) "summaryName" "APIResponsivenessPrometheus" = (name, None) /\
    ss = [CreateSummary now name "json" content] /\
    PrettyPrintJSON (mkPerfData "v1" (map call_item calls) ∅) = Ok content /\
    calls ≡ₚ (map_to_list m).*2 /\ StronglySorted perc99_ge calls /\
    (err = None <-> map_Forall (fun _ c => call_ok allowed (threshold_for entries c) c) m) /\
    (forall e, err = Some e -> IsMetricViolationError e = true).
Proof.
  unfold Gather. destruct (gatherAPICalls _ _ _ _ _) as [[m|e]|] eqn:Hg; [|by intros [= <- <-]|done].
  destruct (PrettyPrintJSON _) as [content|e] eqn:Hj; [|by intros [= <- <-]].
  destruct (GetStringOrDefault _ "summaryName" _) as [name [e|]]; [by intros [= <- <-]|].
  destruct (GetIntOrDefault _ _ _) as [allowed [e|]]; [by intros [= <- <-]|].
  destruct (getCustomThresholds _ _ _) as [custom|e] eqn:Hc; [|by intros [= <- <-]].
  intros [= <- <-] _.
  apply gatherAPICalls_ok in Hg as (useSimple & ls & cs & fs & Hu & Hls & Hcs & Hfs & Hm%newFromSamples_correct).
  apply getCustomThresholds_ok in Hc as (text & entries & Ht & He & _ & Hth); [|intros key c Hkc; by apply (proj2 Hm)].
  exists useSimple, ls, cs, fs, m, allowed, text, entries, name, (sorted "perfdata" m), content.
  split_and!; try done.
  - unfold sorted. rewrite merge_sort_Permutation. by rewrite (range_perm _ "perfdata" m).
  - apply (StronglySorted_merge_sort perc99_ge).
  - assert (map_Forall (fun _ c => call_ok allowed (threshold_for entries c) c) m <->
            map_Forall (fun _ c => call_ok allowed (call_threshold custom c) c) m) as ->.
    { split; intros Hall key c Hkc; pose proof (Hall _ _ Hkc) as Hok; pose proof (Hth _ _ Hkc) as Heq; cbn in *; congruence. }
    rewrite <- validateAPICalls_nil. by destruct (validateAPICalls _ _ _ _).
  - destruct (validateAPICalls _ _ _ _); [done|]. by intros ? [= <-].
Qed.
End Verdict.

(** ** An example *)

#[local] Existing Instances list_range.

#[local] Instance ex_golib : GoLib := {|
  ParseFloat := fun s => if String.eqb s "0.99" then (f64_0_99, None)
                         else if String.eqb s "0.9" then (f64_0_9, None) else (S754_zero false, Some (External "syntax"));
  Sprint := fun _ => "";
|}.

Definition ex_sample (verb quantile : string) (v : Z) : Sample :=
  mkSample {["resource" := "pods"; "verb" := verb; "scope" := "resource"; "quantile" := quantile]} (f64_of_Z v).

Definition ex_ls : list Sample := [ex_sample "GET" "0.9" 1; ex_sample "GET" "0.99" 3; ex_sample "PUT" "0.99" 1].
Definition ex_cs : list Sample := [ex_sample "GET" "" 10; ex_sample "PUT" "" 4].
Definition ex_fs : list Sample := [ex_sample "GET" "" 8].

Definition ex_metrics : gmap string apiCallMetric :=
  match newFromSamples ex_ls ex_cs ex_fs with Ok m => m | Err _ => ∅ end.

Lemma newFromSamples_correct_witness :
  exists c, ex_metrics !! "pods||GET|resource" = Some c /\ Perc99 (ac_Latency c) = 3 * 10 ^ 9.
Proof.
  assert (exists c, ex_metrics !! "pods||GET|resource" = Some c) as [c Hc] by (eexists; vm_compute; reflexivity).
  exists c. split; [exact Hc|].
  assert (newFromSamples ex_ls ex_cs ex_fs = Ok ex_metrics) as Hm by (vm_compute; reflexivity).
  destruct (newFromSamples_correct ex_ls ex_cs ex_fs ex_metrics Hm) as [_ Hall].
  destruct (Hall _ _ Hc) as (_ & _ & _ & Hp & _). rewrite Hp. vm_compute. reflexivity.
Defined.

Definition ex_executor : executor_t := fun q _ =>
  Some (Ok (if String.prefix "quantile_over_time" q then ex_ls
            else if String.prefix "sum(increase(apiserver_request_sli_duration_seconds_count" q then ex_cs else [])).

Definition ex_gather : option (list Summary * option error) :=
  Gather (fun _ => "") (fun _ => Ok "{}") (fun _ => Ok []) 7 (mkVersion "1" "30") ex_executor 0 (10 ^ 12)
    (mkMeasurementConfig ∅ "id" "").

Definition ex_violation : option error := match ex_gather with Some (_, e) => e | None => None end.

Lemma api_responsiveness_verdict_witness :
  exists e, ex_violation = Some e /\ IsMetricViolationError e = true.
Proof.
  assert (exists e, ex_violation = Some e) as [e He] by (eexists; vm_compute; reflexivity).
  exists e. split; [exact He|].
  assert (exists ss, ex_gather = Some (ss, ex_violation) /\ ss <> []) as (ss & Hg & Hss)
    by (eexists; split; [vm_compute; reflexivity|done]).
  destruct (api_responsiveness_verdict (fun _ => "") (fun _ => Ok "{}") (fun _ => Ok []) 7 (mkVersion "1" "30")
    ex_executor 0 (10 ^ 12) (mkMeasurementConfig ∅ "id" "") ss ex_violation Hg Hss)
    as (? & ? & ? & ? & ? & ? & ? & ? & ? & ? & ? & _ & _ & _ & _ & _ & _ & _ & _ & _ & _ & _ & _ & _ & _ & Hv). exact (Hv e He).
Defined.

Example ex_violates : match ex_violation with Some (MetricViolation m _) => m | _ => "" end = "top latency metric".
Proof. vm_compute. reflexivity. Qed.
