(* ===== verification/TemplateFunctions.v ===== *)
(** * Functions of the test templates (pkg/config/template_functions.go)

    Every function a test or manifest template can call. Their arguments are
    [interface{}] values; numbers of any kind are converted to [float64] first,
    also by the integer functions. A panic inside a function is turned into an
    error by the template engine.

    What belongs to others is an argument: [yaml.Marshal], the random source,
    SHA-256 and the file system. *)

From S2P Require Import Prelude GoErrors Params Modifier Float64 FloatInt.
From Stdlib Require Import SpecFloat.

(** ** Numbers *)
Section Numbers.
Context `{GoLib}.

Definition toFloat64 (val : value) : outcome float64 :=
  match val with
  | VFloat64 i | VFloat32 i => Returns i
  | VInt64 i | VInt32 i | VInt i | VUint64 i | VUint32 i | VUint i => Returns (f64_of_Z i)
  | VString i =>
      match ParseFloat i with
      | (f, None) => Returns f
      | (_, Some _) => Panics
      end
  | _ => Panics
  end.

Definition toInt (val : value) : outcome Z :=
  i ← toFloat64 val; Returns (f64_to_int i).

Fixpoint accumulate (op : float64 -> float64 -> float64) (acc : float64) (numbers : list value) : outcome float64 :=
  match numbers with
  | [] => Returns acc
  | number :: numbers' => n ← toFloat64 number; accumulate op (op acc n) numbers'
  end.

Definition addFloat (numbers : list value) : outcome float64 := accumulate f64_add (S754_zero false) numbers.

Definition subtractFloat (i j : value) : outcome float64 :=
  typedI ← toFloat64 i; typedJ ← toFloat64 j; Returns (f64_sub typedI typedJ).

Definition multiplyFloat (numbers : list value) : outcome float64 := accumulate f64_mul (f64_of_Z 1) numbers.

Definition divideFloat (i j : value) : outcome float64 :=
  typedI ← toFloat64 i; typedJ ← toFloat64 j;
  if f64_eqb typedJ (S754_zero false) then Panics else Returns (f64_div typedI typedJ).

(** The loop starts again at the first element. *)
Definition maxFloat (numbers : list value) : outcome float64 :=
  match numbers with
  | [] => Panics
  | first :: _ => result ← toFloat64 first; accumulate math_Max result numbers
  end.

Definition minFloat (numbers : list value) : outcome float64 :=
  match numbers with
  | [] => Panics
  | first :: _ => result ← toFloat64 first; accumulate math_Min result numbers
  end.

Definition to_int (f : outcome float64) : outcome Z := x ← f; Returns (f64_to_int x).

Definition addInt (numbers : list value) : outcome Z := to_int (addFloat numbers).
Definition subtractInt (i j : value) : outcome Z := to_int (subtractFloat i j).
Definition multiplyInt (numbers : list value) : outcome Z := to_int (multiplyFloat numbers).
Definition divideInt (i j : value) : outcome Z := to_int (divideFloat i j).
Definition maxInt (numbers : list value) : outcome Z := to_int (maxFloat numbers).
Definition minInt (numbers : list value) : outcome Z := to_int (minFloat numbers).

(** Go's [%] truncates toward zero and panics on a zero divisor. *)
Definition mod_ (a b : value) : outcome Z :=
  x ← toInt a; y ← toInt b;
  if y =? 0 then Panics else Returns (Z.rem x y).

Definition ceil (i : value) : outcome float64 := x ← toFloat64 i; Returns (f64_ceil x).

(** ** Slices *)

(** [make] panics on a negative length and past the address space. *)
Definition maxAlloc : Z := 2 ^ 48.

Definition make {A} (size : Z) (zero : A) (length : Z) : outcome (list A) :=
  if (length <? 0) || (maxAlloc <? length * size) then Panics
  else Returns (replicate (Z.to_nat length) zero).

Definition sliceOfZeros (size : value) : outcome (list Z) := n ← toInt size; make 8 0 n.

Definition seq (size : value) : outcome (list Z) := sliceOfZeros size.

Definition loop (size : value) : outcome (list Z) :=
  sizeInt ← toInt size; slice ← make 8 0 sizeInt; Returns (imap (fun i _ => Z.of_nat i) slice).

(** ** Randomness *)

(** [math/rand.Rand]: [Intn(n)] draws from [0, n) and panics when [n <= 0]. *)
Class Rand (R : Type) := {
  Intn : R -> Z -> Z * R;
  NewSource : Z -> R;
  Intn_range : forall r n, 0 < n -> 0 <= (Intn r n).1 < n;
}.

Context {R : Type} `{Rand R}.

Definition rand_Intn (rand : R) (n : Z) : outcome (Z * R) :=
  if n <=? 0 then Panics else Returns (Intn rand n).

Definition alphabet : list ascii :=
  String.list_ascii_of_string "0123456789abcdefghijklmnopqrstuvwxyzABCDEFGHIJKLMNOPQRSTUVWXYZ".

Fixpoint draw_chars (rand : R) (length : nat) : string * R :=
  match length with
  | O => ("", rand)
  | S length' =>
      let '(i, rand) := Intn rand (Z.of_nat (List.length alphabet)) in
      let '(s, rand) := draw_chars rand length' in
      (String (default zero (alphabet !! Z.to_nat i)) s, rand)
  end.

Definition randString (rand : R) (length : Z) : outcome (string * R) :=
  b ← make 1 zero length; Returns (draw_chars rand (List.length b)).

Definition randData (globalRand : R) (i : value) : outcome (string * R) :=
  typedI ← toInt i; randString globalRand typedI.

(** The first eight bytes of the hash, most significant first. *)
Definition BigEndian_Uint64 (bytes : list Z) : Z := fold_left (fun acc b => acc * 256 + b) (take 8 bytes) 0.

Definition randDataWithSeed (sha256 : string -> list Z) (i j : value) : outcome string :=
  typedI ← toInt i;
  if typedI =? 0 then Returns ""
  else match j with
       | VString typedJ =>
           let seed := wrap64 (BigEndian_Uint64 (sha256 typedJ)) in
           r ← randString (NewSource seed) typedI; Returns r.1
       | _ => Panics
       end.

Definition randInt (globalRand : R) (i : value) : outcome (Z * R) :=
  typedI ← toInt i; rand_Intn globalRand (wrap64 (typedI + 1)).

Definition randIntRange (globalRand : R) (i j : value) : outcome (Z * R) :=
  typedI ← toInt i; typedJ ← toInt j;
  if typedJ <=? typedI then Returns (typedI, globalRand)
  else
    r ← rand_Intn globalRand (wrap64 (typedJ - typedI + 1));
    Returns (wrap64 (typedI + r.1), r.2).

(** ** Strings, files and choice *)

Definition type_name (v : value) : string :=
  match v with
  | VNil => "<nil>"
  | VInt _ => "int" | VInt64 _ => "int64" | VInt32 _ => "int32"
  | VUint _ => "uint" | VUint64 _ => "uint64" | VUint32 _ => "uint32"
  | VFloat64 _ => "float64" | VFloat32 _ => "float32"
  | VBool _ => "bool" | VString _ => "string"
  | VMap _ => "map[string]interface {}" | VSlice _ => "[]interface {}"
  end.

Definition type_error (v : value) (want : string) : error :=
  Errorf ("incorrect argument type: got: %T want: " +:+ want) [AStr (type_name v)].

Definition defaultParam (param defaultValue : value) : value :=
  match param with VNil => defaultValue | _ => param end.

Definition ifThenElse (conditionVal thenVal elseVal : value) : result value :=
  match conditionVal with
  | VBool condition => Ok (if condition then thenVal else elseVal)
  | _ => Err (type_error conditionVal "bool")
  end.

Definition stringSplit (s : string) : list string := Split "," s.

Definition concat (items : list string) : string := fold_left (fun ret item => ret +:+ item) items "".

(** [strings.Repeat] panics on a negative count. *)
Definition Repeat (s : string) (count : Z) : outcome string :=
  if count <? 0 then Panics else Returns (String.concat "" (replicate (Z.to_nat count) s)).

(** [strings.Replace(s, "\n", "\n" + tabs, -1)]. *)
Fixpoint indent_lines (tabs s : string) : string :=
  match s with
  | EmptyString => ""
  | String a s' =>
      if Ascii.eqb a (ascii_of_nat 10) then String a (tabs +:+ indent_lines tabs s')
      else String a (indent_lines tabs s')
  end.

(** The text is returned next to the error of [yaml.Marshal]. *)
Definition yamlQuote (yaml_Marshal : string -> string * option error) (strInt tabsInt : value)
  : outcome (string * option error) :=
  match strInt with
  | VString str =>
      match tabsInt with
      | VInt tabs =>
          tabsStr ← Repeat "  " tabs;
          let '(b, err) := yaml_Marshal str in
          Returns (indent_lines tabsStr b, err)
      | _ => Returns ("", Some (type_error tabsInt "int"))
      end
  | _ => Returns ("", Some (type_error strInt "string"))
  end.

Definition IsAbs (path : string) : bool := String.prefix "/" path.

Definition read_or_fail (ReadFile : string -> result string) (path : string) : result string :=
  match ReadFile path with
  | Err err => Err (Errorf "unable to read file: %v" [AErr err])
  | Ok data => Ok data
  end.

(** [exeDir] is [filepath.Abs(filepath.Dir(os.Args[0]))]. *)
Definition includeFile (exeDir : result string) (Join : string -> string -> string)
  (ExpandEnv : string -> string) (ReadFile : string -> result string) (file : value) : result string :=
  match file with
  | VString fileStr =>
      let fileStr := if IsAbs fileStr then fileStr
                     else match exeDir with Ok dir => Join dir fileStr | Err _ => fileStr end in
      read_or_fail ReadFile (ExpandEnv fileStr)
  | _ => Err (type_error file "string")
  end.

Definition includeEmbedFile (fsys : string -> result string) (file : value) : result string :=
  match file with
  | VString fileStr => read_or_fail fsys fileStr
  | _ => Err (type_error file "string")
  end.

End Numbers.

(** ** Integer arithmetic in [float64] *)

(** The values of Go's integer types. *)
Definition int_of (v : value) : option Z :=
  match v with
  | VInt x | VInt64 x | VInt32 x | VUint x | VUint64 x | VUint32 x => Some x
  | _ => None
  end.

(** Every partial result of folding [op] over [xs] is small. *)
Fixpoint partials_small (op : Z -> Z -> Z) (a : Z) (xs : list Z) : Prop :=
  match xs with
  | [] => small a
  | x :: xs' => small a /\ partials_small op (op a x) xs'
  end.

Section Exact.
Context `{GoLib}.

Lemma partials_small_head op a xs : partials_small op a xs -> small a.
Proof. destruct xs; [done|by intros [? _]]. Qed.

Lemma toFloat64_int v x : int_of v = Some x -> toFloat64 v = Returns (f64_of_Z x).
Proof. by destruct v; intros [= <-]. Qed.

Lemma toInt_int v x : int_of v = Some x -> small x -> toInt v = Returns x.
Proof.
  intros Hv Hx. unfold toInt. rewrite (toFloat64_int v x Hv). cbn. f_equal. eauto with golist.
Qed.

Lemma accumulate_int op zop vs xs acc a :
  (forall f g x y, is_int f x -> is_int g y -> small x -> small y -> small (zop x y) ->
     is_int (op f g) (zop x y)) ->
  Forall2 (fun v x => int_of v = Some x /\ small x) vs xs -> is_int acc a -> partials_small zop a xs ->
  exists f, accumulate op acc vs = Returns f /\ is_int f (fold_left zop xs a) /\ small (fold_left zop xs a).
Proof.
  intros Hop Hvs. revert acc a. induction Hvs as [|v x vs xs [Hv Hx] Hvs IH]; intros acc a Ha Hp; [by eauto|].
  destruct Hp as [Has Hp]. cbn [accumulate fold_left]. rewrite (toFloat64_int v x Hv). cbn [mbind outcome_bind].
  apply IH; [|done]. apply Hop; auto with golist. by apply partials_small_head in Hp.
Qed.

Lemma to_int_exact f x : is_int f x -> small x -> to_int (Returns f) = Returns x.
Proof. intros ??. cbn. f_equal. eauto with golist. Qed.

Lemma fold_max_small xs a : small a -> Forall small xs -> partials_small Z.max a xs.
Proof.
  intros Ha Hxs. revert a Ha. induction Hxs as [|x xs Hx Hxs IH]; intros a Ha; [done|]. split; [done|].
  apply IH. unfold small in *. lia.
Qed.

Lemma fold_min_small xs a : small a -> Forall small xs -> partials_small Z.min a xs.
Proof.
  intros Ha Hxs. revert a Ha. induction Hxs as [|x xs Hx Hxs IH]; intros a Ha; [done|]. split; [done|].
  apply IH. unfold small in *. lia.
Qed.

Lemma imap_index_seqZ n : 0 <= n -> imap (fun i _ => Z.of_nat i) (replicate (Z.to_nat n) 0) = seqZ 0 n.
Proof.
  intros Hn. apply list_eq. intros i. rewrite list_lookup_imap.
  destruct (decide (i < Z.to_nat n)%nat) as [Hi|Hi].
  - rewrite lookup_replicate_2 by done. symmetry. apply lookup_seqZ. lia.
  - rewrite !lookup_ge_None_2; [done| |]; rewrite ?length_seqZ, ?length_replicate; lia.
Qed.

(** C22: The integer template functions work in float64, and are exact within
    its 53 bits. For arguments of any of Go's integer types below 2^53 in
    magnitude: AddInt and MultiplyInt return the exact sum and product as long
    as every partial result is below 2^53 too, SubtractInt the difference,
    MaxInt and MinInt the greatest and least of a non-empty list, Mod the
    remainder (a panic for a zero divisor), Loop the list 0 .. n-1 and
    SliceOfZeros n zeros, and a panic for a negative n. *)
Theorem int_functions_exact vs xs v w x y :
  Forall2 (fun v x => int_of v = Some x /\ small x) vs xs ->
  int_of v = Some x -> int_of w = Some y -> small x -> small y ->
  (partials_small Z.add 0 xs -> addInt vs = Returns (fold_left Z.add xs 0)) /\
  (partials_small Z.mul 1 xs -> multiplyInt vs = Returns (fold_left Z.mul xs 1)) /\
  (small (x - y) -> subtractInt v w = Returns (x - y)) /\
  maxInt (v :: vs) = Returns (fold_left Z.max xs x) /\
  minInt (v :: vs) = Returns (fold_left Z.min xs x) /\
  mod_ v w = (if decide (y = 0) then Panics else Returns (Z.rem x y)) /\
  (8 * x <= maxAlloc ->
     loop v = (if decide (x < 0) then Panics else Returns (seqZ 0 x)) /\
     sliceOfZeros v = (if decide (x < 0) then Panics else Returns (replicate (Z.to_nat x) 0))).
Proof.
  intros Hvs Hv Hw Hx Hy.
  assert (Forall small xs) as Hxs.
  { clear -Hvs. induction Hvs as [|??? ? [??]]; constructor; auto. }
  split_and!.
  - intros Hp. destruct (accumulate_int f64_add Z.add vs xs (S754_zero false) 0) as (f & Hf & Hi & Hs);
      auto using f64_add_int with golist. unfold addInt, addFloat. rewrite Hf. by apply to_int_exact.
  - intros Hp. destruct (accumulate_int f64_mul Z.mul vs xs (f64_of_Z 1) 1) as (f & Hf & Hi & Hs);
      auto using f64_mul_int with golist. unfold multiplyInt, multiplyFloat. rewrite Hf. by apply to_int_exact.
  - intros Hs. unfold subtractInt, subtractFloat.
    rewrite (toFloat64_int v x Hv), (toFloat64_int w y Hw). cbn [mbind outcome_bind].
    apply to_int_exact; auto with golist.
  - destruct (accumulate_int math_Max Z.max (v :: vs) (x :: xs) (f64_of_Z x) x) as (f & Hf & Hi & Hs);
      auto using math_Max_int with golist.
    { by apply fold_max_small; [|constructor]. }
    unfold maxInt, maxFloat. rewrite (toFloat64_int v x Hv). cbn [mbind outcome_bind]. rewrite Hf.
    cbn [fold_left] in Hi, Hs. rewrite Z.max_id in Hi, Hs. by apply to_int_exact.
  - destruct (accumulate_int math_Min Z.min (v :: vs) (x :: xs) (f64_of_Z x) x) as (f & Hf & Hi & Hs);
      auto using math_Min_int with golist.
    { by apply fold_min_small; [|constructor]. }
    unfold minInt, minFloat. rewrite (toFloat64_int v x Hv). cbn [mbind outcome_bind]. rewrite Hf.
    cbn [fold_left] in Hi, Hs. rewrite Z.min_id in Hi, Hs. by apply to_int_exact.
  - unfold mod_. rewrite (toInt_int v x Hv Hx), (toInt_int w y Hw Hy). cbn [mbind outcome_bind].
    destruct (Z.eqb_spec y 0); case_decide; (done || lia).
  - intros Hmax. unfold loop, sliceOfZeros. rewrite (toInt_int v x Hv Hx). cbn [mbind outcome_bind]. unfold make.
    case_decide.
    { by rewrite (proj2 (Z.ltb_lt _ _)) by done. }
    rewrite (proj2 (Z.ltb_ge x 0)), (proj2 (Z.ltb_ge _ _)) by lia. split; [|done]. cbn.
    f_equal. apply imap_index_seqZ. lia.
Qed.

End Exact.

(** Past 2^53 the conversion loses the low bits, also when nothing is added. *)
Lemma addInt_loses_low_bits : @addInt sample_golib [VInt (2 ^ 53 + 1)] = Returns (2 ^ 53).
Proof. by vm_compute. Qed.

Lemma int_functions_exact_witness :
  @addInt sample_golib [VInt 2; VInt64 40] = Returns 42 /\ @multiplyInt sample_golib [VInt 2; VInt64 40] = Returns 80 /\
  @maxInt sample_golib [VInt 3; VInt 2; VInt64 40] = Returns 40 /\ @loop sample_golib (VInt 3) = Returns (seqZ 0 3).
Proof.
  assert (Forall2 (fun v x => int_of v = Some x /\ small x) [VInt 2; VInt64 40] [2; 40]) as Hvs.
  { repeat constructor; unfold small; lia. }
  destruct (@int_functions_exact sample_golib _ _ (VInt 3) (VInt (-2)) 3 (-2) Hvs eq_refl eq_refl)
    as (Ha & Hm & _ & Hx & _ & _ & Hl); [unfold small; lia..|].
  split; [|split; [|split]].
  - apply Ha. cbn. unfold small. lia.
  - apply Hm. cbn. unfold small. lia.
  - apply Hx.
  - apply Hl. unfold maxAlloc. lia.
Defined.

(** ** Random numbers *)

Section Random.
Context `{GoLib} {R : Type} `{Rand R}.

(** RandInt and RandIntRange stay within the documented closed intervals; an
    interval that does not fit in an [int] panics. *)
Lemma rand_in_interval (r : R) v w x y :
  int_of v = Some x -> int_of w = Some y -> small x -> small y ->
  (0 <= x -> exists n r', randInt r v = Returns (n, r') /\ 0 <= n <= x) /\
  (x < 0 -> randInt r v = Panics) /\
  (exists n r', randIntRange r v w = Returns (n, r') /\ x <= n <= Z.max x y).
Proof.
  intros Hv Hw Hx Hy. unfold randInt, randIntRange. rewrite (toInt_int v x Hv Hx), (toInt_int w y Hw Hy).
  cbn [mbind outcome_bind]. unfold rand_Intn, small in *. rewrite wrap64_id by lia. split_and!.
  - intros Hpos. rewrite (proj2 (Z.leb_gt _ _)) by lia. destruct (Intn r (x + 1)) as [n r'] eqn:Hn.
    pose proof (Intn_range r (x + 1) ltac:(lia)) as Hr. rewrite Hn in Hr. cbn in Hr. exists n, r'. split; [done|lia].
  - intros Hpos. by rewrite (proj2 (Z.leb_le _ _)) by lia.
  - destruct (Z.leb_spec y x); [exists x, r; split; [done|lia]|].
    rewrite wrap64_id by lia. rewrite (proj2 (Z.leb_gt _ _)) by lia. cbn [mbind outcome_bind].
    destruct (Intn r (y - x + 1)) as [n r'] eqn:Hn.
    pose proof (Intn_range r (y - x + 1) ltac:(lia)) as Hr. rewrite Hn in Hr. cbn in Hr.
    exists (x + n), r'. cbn. rewrite wrap64_id by lia. split; [done|lia].
Qed.

(** A random string has the length asked for and only letters and digits. *)
Lemma draw_chars_spec (r : R) n :
  String.length (draw_chars r n).1 = n /\
  Forall (fun a => a ∈ alphabet) (String.list_ascii_of_string (draw_chars r n).1).
Proof.
  revert r. induction n as [|n IH]; intros r; [by split|]. cbn [draw_chars].
  pose proof (Intn_range r (Z.of_nat (length alphabet)) ltac:(done)) as Hr.
  destruct (Intn r (Z.of_nat (length alphabet))) as [i r']. cbn [fst] in Hr. specialize (IH r').
  destruct (draw_chars r' n) as [s r'']. destruct IH as [IHl IHc]. split; [cbn in *; by rewrite IHl|].
  constructor; [|done].
  destruct (lookup_lt_is_Some_2 alphabet (Z.to_nat i)) as [a Ha]; [lia|].
  rewrite Ha. by apply list_elem_of_lookup_2 in Ha.
Qed.

End Random.
