(* ===== verification/Templates.v ===== *)
(** * Template provider and overrides (pkg/config/{template_provider,codec}.go)

    Reading manifests and test configs through two caches, rendering them with
    a mapping, and building that mapping from override files, the cluster size
    and the environment.

    The file system, the template engine and the YAML decoder are arguments;
    the random source a template may draw from is an argument of rendering. *)

From S2P Require Import Prelude GoErrors GoRuntime Params Api Executor Modifier FloatInt TemplateFunctions Compile.
From Stdlib Require Import SpecFloat.

(** ** codec.go *)

Definition ascii_space (a : ascii) : bool :=
  let n := nat_of_ascii a in ((9 <=? n) && (n <=? 13) || (n =? 32))%nat.

(** The two and three byte encodings of Unicode's other white space. *)
Definition space2 (a b : ascii) : bool :=
  let '(x, y) := (nat_of_ascii a, nat_of_ascii b) in ((x =? 194) && ((y =? 133) || (y =? 160)))%nat.

Definition space3 (a b c : ascii) : bool :=
  let '(x, y, z) := (nat_of_ascii a, nat_of_ascii b, nat_of_ascii c) in
  (((x =? 225) && (y =? 154) && (z =? 128))
   || ((x =? 226) && (y =? 128) && ((128 <=? z) && (z <=? 138) || (z =? 168) || (z =? 169) || (z =? 175)))
   || ((x =? 226) && (y =? 129) && (z =? 159))
   || ((x =? 227) && (y =? 128) && (z =? 128)))%nat.

(** [strings.TrimSpace(raw) == ""]: only white space. *)
Fixpoint isEmpty (raw : string) : bool :=
  match raw with
  | EmptyString => true
  | String a s1 =>
      if ascii_space a then isEmpty s1
      else match s1 with
           | String b s2 =>
               if space2 a b then isEmpty s2
               else match s2 with
                    | String c s3 => if space3 a b c then isEmpty s3 else false
                    | EmptyString => false
                    end
           | EmptyString => false
           end
  end.

Definition convertToObject (Decode : string -> result Unstructured) (raw : string) : result Unstructured :=
  if isEmpty raw then Err ErrorEmptyFile
  else match Decode raw with
       | Err err => Err (Errorf "unmarshaling error: %v" [AErr err])
       | Ok obj => Ok obj
       end.

Definition decodeInto {A} (Decode : string -> result A) (raw : string) : result A :=
  match Decode raw with
  | Err err => Err (Errorf "decoding failed: %v" [AErr err])
  | Ok v => Ok v
  end.

(** ** Removing placeholders

    [ReplaceAll] of the regular expression "{{.*}}": the dot does not match a
    line break and the match is greedy, so of every line the text from the
    first "{{" to the last "}}" after it is removed. *)

Fixpoint split_open (s : string) : option (string * string) :=
  match s with
  | String a t =>
      match (if Ascii.eqb a "{" then match t with String b u => if Ascii.eqb b "{" then Some u else None | _ => None end
             else None) with
      | Some u => Some ("", u)
      | None => '(p, r) ← split_open t; Some (String a p, r)
      end
  | EmptyString => None
  end.

Fixpoint after_last_close (s : string) : option string :=
  match s with
  | String a t =>
      match after_last_close t with
      | Some r => Some r
      | None => if Ascii.eqb a "}" then match t with String b u => if Ascii.eqb b "}" then Some u else None | _ => None end
                else None
      end
  | EmptyString => None
  end.

Definition strip_line (line : string) : string :=
  match split_open line with
  | Some (pre, t) => match after_last_close t with Some post => pre +:+ post | None => line end
  | None => line
  end.

Definition strip_placeholders (bin : string) : string :=
  join newline (strip_line <$> Split (ascii_of_nat 10) bin).

(** ** Template provider *)

(** What it uses of the template engine: [Parse], with the functions of
    [GetFuncs], and [Execute], which may draw from the random source. *)
Class TemplateEngine (T Rnd : Type) := {
  engine_Parse : string -> result T;
  engine_Execute : T -> params -> Rnd -> result string;
}.

Section Provider.
Context {T Rnd : Type} `{TemplateEngine T Rnd}.

Record Provider := mkProvider {
  binCache : gmap string string;
  templateCache : gmap string T;
}.

Definition NewTemplateProvider : Provider := mkProvider ∅ ∅.

(** [fsys] is the file system when the file is read. *)
Abbreviation FS := (string -> result string).

(** The critical section under the write lock, with its second look. *)
Definition getRaw_locked (fsys : FS) (tp : Provider) (path : string) : Provider * result string :=
  match binCache tp !! path with
  | Some bin => (tp, Ok bin)
  | None =>
      match fsys path with
      | Err err => (tp, Err (Errorf "reading error: %v" [AErr err]))
      | Ok bin => (mkProvider (<[path := bin]> (binCache tp)) (templateCache tp), Ok bin)
      end
  end.

Definition getRaw (fsys : FS) (tp : Provider) (path : string) : Provider * result string :=
  match binCache tp !! path with
  | Some bin => (tp, Ok bin)
  | None => getRaw_locked fsys tp path
  end.

Definition tp_RawToObject (Decode : string -> result Unstructured) (fsys : FS) (tp : Provider) (path : string)
  : Provider * result Unstructured :=
  let '(tp, bin) := getRaw fsys tp path in
  (tp, bin ← bin; convertToObject Decode (strip_placeholders bin)).

Definition getRawTemplate_locked (fsys : FS) (tp : Provider) (path : string) : Provider * result T :=
  match templateCache tp !! path with
  | Some raw => (tp, Ok raw)
  | None =>
      match getRaw fsys tp path with
      | (tp, Err err) => (tp, Err err)
      | (tp, Ok bin) =>
          match engine_Parse bin with
          | Err err => (tp, Err (Errorf "parsing error: %v" [AErr err]))
          | Ok raw => (mkProvider (binCache tp) (<[path := raw]> (templateCache tp)), Ok raw)
          end
      end
  end.

Definition getRawTemplate (fsys : FS) (tp : Provider) (path : string) : Provider * result T :=
  match templateCache tp !! path with
  | Some raw => (tp, Ok raw)
  | None => getRawTemplate_locked fsys tp path
  end.

(** Flushing into a buffer in memory does not fail. *)
Definition getMappedTemplate (fsys : FS) (rnd : Rnd) (tp : Provider) (path : string) (mapping : params)
  : Provider * result string :=
  match getRawTemplate fsys tp path with
  | (tp, Err err) => (tp, Err err)
  | (tp, Ok raw) =>
      (tp, match engine_Execute raw mapping rnd with
           | Err err => Err (Errorf "replacing placeholders error: %v" [AErr err])
           | Ok b => Ok b
           end)
  end.

Definition tp_TemplateToObject (Decode : string -> result Unstructured) (fsys : FS) (rnd : Rnd) (tp : Provider)
  (path : string) (mapping : params) : Provider * result Unstructured :=
  let '(tp, b) := getMappedTemplate fsys rnd tp path mapping in
  (tp, b ← b; convertToObject Decode b).

(** [obj] is a fresh value of the type the decoder fills. *)
Definition tp_TemplateInto {A} (Decode : string -> result A) (fsys : FS) (rnd : Rnd) (tp : Provider)
  (path : string) (mapping : params) : Provider * result A :=
  let '(tp, b) := getMappedTemplate fsys rnd tp path mapping in
  (tp, b ← b; decodeInto Decode b).

Definition tp_TemplateToConfig (Decode : string -> result Config) (fsys : FS) (rnd : Rnd) (tp : Provider)
  (path : string) (mapping : params) : Provider * result Config :=
  tp_TemplateInto Decode fsys rnd tp path mapping.

End Provider.
Arguments Provider : clear implicits.

(** ** Test suites *)

Fixpoint validateTestSuite (suite : list TestScenario) : option error :=
  match suite with
  | [] => None
  | scenario :: suite' =>
      if str_has "_" (ts_Identifier scenario) then
        Some (Errorf "scenario identifiers cannot contain underscores: %q" [AStr (ts_Identifier scenario)])
      else validateTestSuite suite'
  end.

Definition LoadTestSuite (ReadFile : string -> result string) (Decode : string -> result (list TestScenario))
  (path : string) : result (list TestScenario) :=
  match ReadFile path with
  | Err err => Err (Errorf "test suite reading error: %v" [AErr err])
  | Ok bin =>
      testSuite ← decodeInto Decode bin;
      match validateTestSuite testSuite with
      | Some err => Err err
      | None => Ok testSuite
      end
  end.

(** ** Overrides *)

Definition updateMappingFromFile (ReadFile : string -> result string) (Decode : string -> result params)
  (mapping : params) (path : string) : result params :=
  match ReadFile path with
  | Err err => Err (Errorf "test overrides reading error: %v" [AErr err])
  | Ok bin =>
      match decodeInto Decode bin with
      | Err err => Err (Errorf "test overrides unmarshalling error: %v" [AErr err])
      | Ok tmpMapping => Ok (CopyMap tmpMapping mapping)
      end
  end.

Fixpoint update_loop (ReadFile : string -> result string) (Decode : string -> result params)
  (paths : list string) (mapping : params) : result params :=
  match paths with
  | [] => Ok mapping
  | path :: paths' =>
      mapping ← updateMappingFromFile ReadFile Decode mapping path;
      update_loop ReadFile Decode paths' mapping
  end.

Definition LoadTestOverrides (ReadFile : string -> result string) (Decode : string -> result params)
  (paths testOverridePaths : list string) : result params :=
  mapping ← update_loop ReadFile Decode paths ∅;
  update_loop ReadFile Decode testOverridePaths mapping.

(** ** The environment *)

Definition unpackStringValue `{GoLib} (str : string) : value :=
  match ParseInt 64 str with
  | inl v => VInt64 v
  | inr _ =>
      match ParseFloat str with
      | (v, None) => VFloat64 v
      | (_, Some _) =>
          match ParseBool str with
          | Some v => VBool v
          | None => VString str
          end
      end
  end.

(** [strings.SplitN(s, "=", 2)]. *)
Fixpoint cut (s : string) : option (string * string) :=
  match s with
  | EmptyString => None
  | String a t =>
      if Ascii.eqb a "=" then Some ("", t)
      else '(k, v) ← cut t; Some (String a k, v)
  end.

Fixpoint envs_loop `{GoLib} (environ : list string) (mapping : params) : result params :=
  match environ with
  | [] => Ok mapping
  | keyValue :: environ' =>
      if String.prefix "CL2_" keyValue then
        match cut keyValue with
        | None => Err (Errorf "unparsable string in os.Eviron(): %v" [AStr keyValue])
        | Some (key, value) => envs_loop environ' (<[key := unpackStringValue value]> mapping)
        end
      else envs_loop environ' mapping
  end.

Definition LoadCL2Envs `{GoLib} (environ : list string) : result params := envs_loop environ ∅.

(** [reflect.DeepEqual]: equal types and equal contents; floats by [==]. *)
Fixpoint DeepEqual (a b : value) : bool :=
  match a, b with
  | VNil, VNil => true
  | VInt x, VInt y | VInt64 x, VInt64 y | VInt32 x, VInt32 y
  | VUint x, VUint y | VUint64 x, VUint64 y | VUint32 x, VUint32 y => x =? y
  | VFloat64 x, VFloat64 y | VFloat32 x, VFloat32 y => f64_eqb x y
  | VBool x, VBool y => Bool.eqb x y
  | VString x, VString y => String.eqb x y
  | VMap m, VMap n =>
      (size m =? size n)%nat &&
      map_fold (fun k x acc => acc && match n !! k with Some y => DeepEqual x y | None => false end) true m
  | VSlice l, VSlice l' =>
      (fix go (l l' : list value) : bool :=
         match l, l' with
         | [], [] => true
         | x :: l, y :: l' => DeepEqual x y && go l l'
         | _, _ => false
         end) l l'
  | _, _ => false
  end.

Section Mapping.
Context `{GoLib} `{MapRange}.

(** [a] is the caller's map: on a conflict it keeps what was merged before. *)
Fixpoint merge_loop (entries : list (string * value)) (a : params) : params * option error :=
  match entries with
  | [] => (a, None)
  | (k, bv) :: entries' =>
      match a !! k with
      | None => merge_loop entries' (<[k := bv]> a)
      | Some av =>
          if DeepEqual av bv then merge_loop entries' a
          else (a, Some (Errorf "merge conflict for key '%v': old value=%v (%T), new value=%v (%T)"
                           [AStr k; AStr (Sprint av); AStr (type_name av); AStr (Sprint bv); AStr (type_name bv)]))
      end
  end.

Definition MergeMappings (a b : params) : params * option error := merge_loop (range "MergeMappings" b) a.

(** The error list of a success is nil. *)
Definition GetMapping (ReadFile : string -> result string) (Decode : string -> result params)
  (environ : list string) (OverridePaths : list string) (Nodes : Z) (testOverridePaths : list string)
  : option params * option ErrorList :=
  match LoadTestOverrides ReadFile Decode OverridePaths testOverridePaths with
  | Err err => (None, Some (NewErrorList [Errorf "mapping creation error: %v" [AErr err]]))
  | Ok mapping =>
      let mapping := <["Nodes" := VInt Nodes]> mapping in
      match LoadCL2Envs environ with
      | Err err => (None, Some (NewErrorList [Errorf "mapping creation error: %v" [AErr err]]))
      | Ok envMapping =>
          match MergeMappings mapping envMapping with
          | (_, Some err) => (None, Some (NewErrorList [Errorf "mapping merging error: %v" [AErr err]]))
          | (mapping, None) => (Some mapping, None)
          end
      end
  end.

End Mapping.

(** ** Concurrent readers of a file

    [getRaw] looks at the cache under the read lock, and under the write lock
    looks again before it reads the file: two atomic actions per reader, with
    any others in between. The file may change between two reads. *)

Section Readers.
Context {T : Type}.

Inductive reader :=
| RStart (path : string)
| RMissed (path : string)
| RDone (path : string) (r : result string).

(** [seen fsys]: [fsys] is the file system at some time. *)
Inductive read_step (seen : (string -> result string) -> Prop) : Provider T * list reader -> Provider T * list reader -> Prop :=
| read_hit tp rs i path bin :
    rs !! i = Some (RStart path) -> binCache tp !! path = Some bin ->
    read_step seen (tp, rs) (tp, <[i := RDone path (Ok bin)]> rs)
| read_miss tp rs i path :
    rs !! i = Some (RStart path) -> binCache tp !! path = None ->
    read_step seen (tp, rs) (tp, <[i := RMissed path]> rs)
| read_lock tp rs i path fsys tp' r :
    rs !! i = Some (RMissed path) -> seen fsys -> getRaw_locked fsys tp path = (tp', r) ->
    read_step seen (tp, rs) (tp', <[i := RDone path r]> rs).

Definition readers_ok (seen : (string -> result string) -> Prop) (s : Provider T * list reader) : Prop :=
  (forall path bin, binCache s.1 !! path = Some bin -> exists fsys, seen fsys /\ fsys path = Ok bin) /\
  (forall i path bin, s.2 !! i = Some (RDone path (Ok bin)) -> binCache s.1 !! path = Some bin).

Lemma getRaw_locked_spec fsys (tp : Provider T) path tp' r :
  getRaw_locked fsys tp path = (tp', r) ->
  templateCache tp' = templateCache tp /\
  (forall p b, binCache tp !! p = Some b -> binCache tp' !! p = Some b) /\
  (forall p b, binCache tp' !! p = Some b -> binCache tp !! p = Some b \/ p = path /\ fsys p = Ok b) /\
  (forall b, r = Ok b -> binCache tp' !! path = Some b).
Proof.
  unfold getRaw_locked. intros Hg. destruct (binCache tp !! path) as [bin|] eqn:Hc; simplify_eq.
  { split_and!; [done|done|by auto|by intros ? [= <-]]. }
  destruct (fsys path) as [bin|err] eqn:Hf; simplify_eq; cbn; [|by split_and!; auto].
  split_and!; [done| | |by intros ? [= <-]; rewrite lookup_insert_eq].
  - intros p b Hp. rewrite lookup_insert_ne; [done|]. by intros ->; rewrite Hc in Hp.
  - intros p b. rewrite lookup_insert_Some. intros [[<- <-]|[_ ?]]; auto.
Qed.

Lemma read_step_ok seen s s' : read_step seen s s' -> readers_ok seen s -> readers_ok seen s'.
Proof.
  intros Hs [Hc Hr]. destruct Hs as [tp rs i path bin Hi Hb|tp rs i path Hi Hb|tp rs i path fsys tp' r Hi Hseen Hg].
  - split; [done|]. cbn in *. intros j p b. rewrite list_lookup_insert_Some. intros [(-> & [= <- <-] & _)|[_ Hj]]; eauto.
  - split; [done|]. cbn in *. intros j p b. rewrite list_lookup_insert_Some. intros [(-> & [=] & _)|[_ Hj]]; eauto.
  - destruct (getRaw_locked_spec _ _ _ _ _ Hg) as (_ & Hkeep & Hnew & Hres). cbn in *. split; cbn.
    + intros p b Hp. destruct (Hnew p b Hp) as [Hold|[-> Hf]]; eauto.
    + intros j p b. rewrite list_lookup_insert_Some. intros [(-> & [= <- ->] & _)|[_ Hj]]; eauto.
Qed.

(** Readers of the provider's file cache agree, whatever their
    interleaving and even if files change under them: starting from an empty
    cache, all readers of a path that got its content got the same bytes, the
    ones cached, and these were the file's content at some time during the
    run. *)
Theorem concurrent_readers_agree seen paths tp rs :
  rtc (read_step seen) (NewTemplateProvider, RStart <$> paths) (tp, rs) ->
  forall i j path b1 b2,
    rs !! i = Some (RDone path (Ok b1)) -> rs !! j = Some (RDone path (Ok b2)) ->
    b1 = b2 /\ binCache tp !! path = Some b1 /\ exists fsys, seen fsys /\ fsys path = Ok b1.
Proof.
  intros Hsteps. assert (readers_ok seen (tp, rs)) as [Hc Hr].
  { assert (readers_ok seen (NewTemplateProvider (T := T), RStart <$> paths)) as Hinit.
    { split; cbn; [by intros ??|]. intros i path bin. rewrite list_lookup_fmap. by destruct (paths !! i). }
    clear -Hsteps Hinit. induction Hsteps; eauto using read_step_ok. }
  cbn in *. intros i j path b1 b2 H1 H2. pose proof (Hr _ _ _ H1) as Hb1. pose proof (Hr _ _ _ H2) as Hb2.
  split; [congruence|]. eauto.
Qed.

End Readers.

(** ** The caches are transparent

    As long as no file changes, every request is answered as by a provider
    that has cached nothing yet. *)

Section Transparent.
Context {T Rnd : Type} `{TemplateEngine T Rnd}.
Context (decodeObject : string -> result Unstructured) (decodeConfig : string -> result Config)
  (decodeModule : string -> result Module_) (fsys : string -> result string).

Inductive request :=
| QRaw (path : string)
| QObject (path : string) (mapping : params) (rnd : Rnd)
| QConfig (path : string) (mapping : params) (rnd : Rnd)
| QModule (path : string) (mapping : params) (rnd : Rnd).

Inductive response :=
| AObject (r : result Unstructured)
| AConfig (r : result Config)
| AModule (r : result Module_).

Definition answer_request (tp : Provider T) (q : request) : Provider T * response :=
  match q with
  | QRaw path => let '(tp, r) := tp_RawToObject decodeObject fsys tp path in (tp, AObject r)
  | QObject path mapping rnd =>
      let '(tp, r) := tp_TemplateToObject decodeObject fsys rnd tp path mapping in (tp, AObject r)
  | QConfig path mapping rnd =>
      let '(tp, r) := tp_TemplateToConfig decodeConfig fsys rnd tp path mapping in (tp, AConfig r)
  | QModule path mapping rnd =>
      let '(tp, r) := tp_TemplateInto decodeModule fsys rnd tp path mapping in (tp, AModule r)
  end.

Fixpoint answer_all (tp : Provider T) (qs : list request) : list response :=
  match qs with
  | [] => []
  | q :: qs' => let '(tp', r) := answer_request tp q in r :: answer_all tp' qs'
  end.

(** A provider that has cached nothing. *)
Abbreviation empty_provider := (NewTemplateProvider (T := T)).

(** What the caches hold comes from the files. *)
Definition caches_ok (tp : Provider T) : Prop :=
  (forall path bin, binCache tp !! path = Some bin -> fsys path = Ok bin) /\
  (forall path raw, templateCache tp !! path = Some raw ->
     exists bin, fsys path = Ok bin /\ engine_Parse bin = Ok raw).

Lemma caches_ok_new : caches_ok NewTemplateProvider.
Proof. by split; intros ??. Qed.

Lemma getRaw_transparent tp path :
  caches_ok tp -> caches_ok (getRaw fsys tp path).1 /\
  (getRaw fsys tp path).2 = (getRaw fsys empty_provider path).2.
Proof.
  intros [Hb Ht]. unfold getRaw. cbn [binCache NewTemplateProvider]. rewrite lookup_empty.
  unfold getRaw_locked at 3. cbn [binCache NewTemplateProvider]. rewrite lookup_empty.
  destruct (binCache tp !! path) as [bin|] eqn:Hc.
  { split; [done|]. by rewrite (Hb _ _ Hc). }
  unfold getRaw_locked. rewrite Hc. destruct (fsys path) as [bin|err] eqn:Hf; [|done].
  split; [|done]. split; [|done]. cbn. intros p b. rewrite lookup_insert_Some. intros [[<- <-]|[_ ?]]; auto.
Qed.

Lemma getRaw_new path : exists tp, getRaw fsys empty_provider path =
  (tp, match fsys path with Ok bin => Ok bin | Err err => Err (Errorf "reading error: %v" [AErr err]) end).
Proof. unfold getRaw, getRaw_locked. cbn. destruct (fsys path); eauto. Qed.

Lemma getRawTemplate_transparent tp path :
  caches_ok tp -> caches_ok (getRawTemplate fsys tp path).1 /\
  (getRawTemplate fsys tp path).2 = (getRawTemplate fsys empty_provider path).2.
Proof.
  intros Hok. pose proof Hok as [Hb Ht]. destruct (getRaw_transparent tp path Hok) as [Hok' Hraw].
  destruct (getRaw_new path) as [tp0 Hnew]. unfold getRawTemplate. cbn [templateCache NewTemplateProvider].
  rewrite lookup_empty. unfold getRawTemplate_locked at 3. cbn [templateCache NewTemplateProvider].
  rewrite lookup_empty, Hnew. destruct (templateCache tp !! path) as [raw|] eqn:Hc.
  { split; [done|]. destruct (Ht _ _ Hc) as (bin & -> & ->). done. }
  unfold getRawTemplate_locked. rewrite Hc. rewrite Hnew in Hraw.
  destruct (getRaw fsys tp path) as [tp' r]. cbn in Hraw, Hok'. subst r.
  destruct (fsys path) as [bin|err] eqn:Hf; [|done].
  destruct (engine_Parse bin) as [raw|err] eqn:Hp; [|done]. split; [|done]. destruct Hok' as [Hb' Ht'].
  split; [done|]. cbn. intros p x. rewrite lookup_insert_Some. intros [[<- <-]|[_ ?]]; eauto.
Qed.

Lemma getMappedTemplate_transparent tp path mapping rnd :
  caches_ok tp -> caches_ok (getMappedTemplate fsys rnd tp path mapping).1 /\
  (getMappedTemplate fsys rnd tp path mapping).2 = (getMappedTemplate fsys rnd empty_provider path mapping).2.
Proof.
  intros Hok. destruct (getRawTemplate_transparent tp path Hok) as [Hok' Hr]. unfold getMappedTemplate.
  destruct (getRawTemplate fsys tp path) as [tp' r], (getRawTemplate fsys empty_provider path) as [tp0 r0].
  cbn in *. subst r0. by destruct r.
Qed.

Lemma answer_request_transparent tp q :
  caches_ok tp -> caches_ok (answer_request tp q).1 /\
  (answer_request tp q).2 = (answer_request empty_provider q).2.
Proof.
  intros Hok. destruct q as [path|path mapping rnd|path mapping rnd|path mapping rnd]; cbn [answer_request];
    unfold tp_RawToObject, tp_TemplateToObject, tp_TemplateToConfig, tp_TemplateInto.
  { destruct (getRaw_transparent tp path Hok) as [Hok' Hr].
    destruct (getRaw fsys tp path) as [tp' r], (getRaw fsys empty_provider path) as [tp0 r0].
    cbn in *. by subst. }
  all: destruct (getMappedTemplate_transparent tp path mapping rnd Hok) as [Hok' Hr];
    destruct (getMappedTemplate fsys rnd tp path mapping) as [tp' r],
      (getMappedTemplate fsys rnd empty_provider path mapping) as [tp0 r0]; cbn in *; by subst.
Qed.

(** C21: The template provider's caches are invisible: while no file changes,
    any sequence of RawToObject, TemplateToObject, TemplateToConfig and
    TemplateInto requests is answered, errors included, exactly as if every
    request were the first one of a new provider. This is what the executor
    and the module loader assume of the provider they are given. *)
Theorem provider_caches_transparent qs :
  answer_all empty_provider qs = (fun q => (answer_request empty_provider q).2) <$> qs.
Proof.
  assert (forall tp, caches_ok tp -> answer_all tp qs = (fun q => (answer_request empty_provider q).2) <$> qs)
    as Hall; [|by apply Hall, caches_ok_new].
  induction qs as [|q qs IH]; intros tp Hok; [done|]. cbn [answer_all fmap list_fmap].
  destruct (answer_request_transparent tp q Hok) as [Hok' Hr]. destruct (answer_request tp q) as [tp' r].
  cbn [fst snd] in *. rewrite Hr. f_equal. by apply IH.
Qed.

(** The provider as the executor and the compiler see it. *)
Definition cached_provider (rnd : Rnd) (mapping : params) : Executor.TemplateProvider :=
  {| RawToObject := fun path => (tp_RawToObject decodeObject fsys empty_provider path).2;
     TemplateToObject := fun path m => (tp_TemplateToObject decodeObject fsys rnd empty_provider path m).2;
     templateMapping := mapping |}.

Definition cached_loader (rnd : Rnd) : TemplateLoader :=
  {| TemplateInto := fun path m => (tp_TemplateInto decodeModule fsys rnd empty_provider path m).2;
     TemplateToConfig := fun path m => (tp_TemplateToConfig decodeConfig fsys rnd empty_provider path m).2 |}.

End Transparent.

(** ** The template mapping *)

Section MappingSpec.
Context `{GoLib} `{MapRange}.
Context (ReadFile : string -> result string) (Decode : string -> result params).

(** The override file at [path] holds the map [m]. *)
Definition holds (path : string) (m : params) : Prop :=
  exists bin, ReadFile path = Ok bin /\ Decode bin = Ok m.

(** The value the last map defining [k] gives it. *)
Definition last_value {A} (k : string) (maps : list (gmap string A)) : option A :=
  last (omap (fun m => m !! k) maps).

(** The value of the variable [k], when it starts with the prefix, in one
    entry of the environment. *)
Definition env_value (k entry : string) : option string :=
  if String.prefix "CL2_" entry then
    '(k', v) ← cut entry; if String.eqb k' k then Some v else None
  else None.

Lemma updateMappingFromFile_iff mapping path r :
  updateMappingFromFile ReadFile Decode mapping path = Ok r <-> exists m, holds path m /\ r = m ∪ mapping.
Proof.
  unfold updateMappingFromFile, decodeInto, holds.
  destruct (ReadFile path) as [bin|err]; [|by split; [done|intros (? & (? & [=] & ?) & ?)]].
  destruct (Decode bin) as [m|err] eqn:Hd.
  - rewrite CopyMap_union. split; [intros [= <-]; eauto|].
    intros (m' & (bin' & [= <-] & Hm) & ->). rewrite Hd in Hm. by injection Hm as ->.
  - split; [done|]. intros (m' & (bin' & [= <-] & Hm) & ?). congruence.
Qed.

Lemma update_loop_iff paths mapping r :
  update_loop ReadFile Decode paths mapping = Ok r <->
  exists maps, Forall2 holds paths maps /\ r = fold_left (fun acc m => m ∪ acc) maps mapping.
Proof.
  revert mapping. induction paths as [|path paths IH]; intros mapping; cbn [update_loop].
  { split; [intros [= <-]; by exists []|]. intros (maps & Hm & ->). by inversion Hm. }
  destruct (updateMappingFromFile ReadFile Decode mapping path) as [m1|err] eqn:Hu; cbn [mbind result_bind].
  - apply updateMappingFromFile_iff in Hu as (m & Hm & ->). rewrite IH. split.
    + intros (maps & Hf & ->). exists (m :: maps). split; [by constructor|done].
    + intros (maps & Hf & ->). inversion Hf as [|? m' ? maps' Hh Hf']; subst. exists maps'. split; [done|].
      assert (m' = m) as ->; [|done]. destruct Hm as (b & Hb & Hd), Hh as (b' & Hb' & Hd'). congruence.
  - split; [done|]. intros (maps & Hf & _). inversion Hf as [|? m' ? maps' Hh Hf']; subst.
    exfalso. assert (updateMappingFromFile ReadFile Decode mapping path = Ok (m' ∪ mapping)); [|congruence].
    apply updateMappingFromFile_iff. eauto.
Qed.

Lemma LoadTestOverrides_iff paths tests r :
  LoadTestOverrides ReadFile Decode paths tests = Ok r <->
  exists maps, Forall2 holds (paths ++ tests) maps /\ r = fold_left (fun acc m => m ∪ acc) maps ∅.
Proof.
  assert (LoadTestOverrides ReadFile Decode paths tests = update_loop ReadFile Decode (paths ++ tests) ∅) as ->;
    [|apply update_loop_iff].
  unfold LoadTestOverrides. generalize (∅ : params) as mapping. induction paths as [|path paths IH]; intros mapping; [done|].
  cbn. destruct (updateMappingFromFile ReadFile Decode mapping path); [apply IH|done].
Qed.

(** The last success of [f] along a list. *)
Lemma last_omap_cons {A B} (f : A -> option B) x l :
  last (omap f (x :: l)) = match last (omap f l) with Some v => Some v | None => f x end.
Proof.
  change (omap f (x :: l)) with (match f x with Some y => y :: omap f l | None => omap f l end).
  destruct (f x); [rewrite last_cons|]; by destruct (last (omap f l)).
Qed.

Lemma fold_union_lookup (maps : list params) mapping k :
  fold_left (fun acc m => m ∪ acc) maps mapping !! k =
  match last_value k maps with Some v => Some v | None => mapping !! k end.
Proof.
  unfold last_value. revert mapping. induction maps as [|m maps IH]; intros mapping; [done|].
  rewrite last_omap_cons. cbn [fold_left]. rewrite IH, lookup_union.
  destruct (last (omap _ maps)); [done|]. by destruct (m !! k), (mapping !! k).
Qed.

(** An entry of the environment that the loop can use. *)
Definition env_parsable (entry : string) : Prop := String.prefix "CL2_" entry = true -> is_Some (cut entry).

Lemma envs_loop_iff environ mapping env :
  envs_loop environ mapping = Ok env <->
  Forall env_parsable environ /\
  forall k, env !! k = match last (omap (env_value k) environ) with
                       | Some v => Some (unpackStringValue v) | None => mapping !! k end.
Proof.
  revert mapping. induction environ as [|e environ IH]; intros mapping; cbn [envs_loop].
  { cbn. split; [intros [= <-]; by split|]. intros [_ He]. f_equal. apply map_eq. intros k. by rewrite He. }
  rewrite Forall_cons. setoid_rewrite last_omap_cons. unfold env_parsable at 1.
  destruct (String.prefix "CL2_" e) eqn:Hp; last first.
  { rewrite IH. assert (forall k, env_value k e = None) as Hn by (intros k; unfold env_value; by rewrite Hp).
    split; [intros [Hpars He]|intros [[_ Hpars] He]]; (split; [done|]); intros k; rewrite He, Hn; by destruct (last (omap (env_value k) environ)). }
  destruct (cut e) as [[key v]|] eqn:Hcut; last first.
  { split; [done|]. intros [[He _] _]. by destruct (He eq_refl). }
  assert (forall k, match env_value k e with
                    | Some v0 => Some (unpackStringValue v0) | None => mapping !! k end =
                    <[key:=unpackStringValue v]> mapping !! k) as Heq.
  { intros k. unfold env_value. rewrite Hp, Hcut. cbn. destruct (String.eqb_spec key k) as [->|Hne].
    - by rewrite lookup_insert_eq.
    - by rewrite lookup_insert_ne. }
  rewrite IH. split; [intros [Hpars He]|intros [[_ Hpars] He]].
  - split; [split; [eauto|done]|]. intros k. rewrite He, <- Heq. by destruct (last (omap (env_value k) environ)).
  - split; [done|]. intros k. rewrite He, <- Heq. by destruct (last (omap (env_value k) environ)).
Qed.

Lemma merge_loop_iff entries a r :
  NoDup entries.*1 ->
  merge_loop entries a = (r, None) <->
  (forall k v w, a !! k = Some v -> (k, w) ∈ entries -> DeepEqual v w = true) /\
  r = a ∪ list_to_map entries.
Proof.
  revert a. induction entries as [|[k bv] entries IH]; intros a Hnd.
  { cbn. rewrite map_union_empty. split; [intros [= <-]; split; [|done]; intros ????; set_solver|by intros [_ ->]]. }
  cbn in Hnd. apply NoDup_cons in Hnd as [Hk Hnd]. cbn [merge_loop list_to_map foldr].
  assert (forall w, (k, w) ∉ entries) as Hk'.
  { intros w Hw. apply Hk. apply list_elem_of_fmap. by exists (k, w). }
  destruct (a !! k) as [av|] eqn:Ha.
  - destruct (DeepEqual av bv) eqn:Hd; last first.
    { split; [done|]. intros [He _]. specialize (He k av bv Ha ltac:(by left)). congruence. }
    rewrite IH by done.
    replace (a ∪ <[k:=bv]> (list_to_map entries)) with (a ∪ list_to_map entries : params); last first.
    { apply map_eq. intros j. rewrite !lookup_union. destruct (decide (j = k)) as [->|].
      - rewrite lookup_insert_eq, Ha. by destruct (list_to_map entries !! k).
      - by rewrite lookup_insert_ne. }
    split; intros [He ->]; (split; [|done]); intros j v w Hj.
    + rewrite elem_of_cons. intros [[= -> ->]|Hw]; [congruence|eauto].
    + intros Hw. apply (He j v w Hj). by right.
  - rewrite IH by done.
    replace (<[k:=bv]> a ∪ list_to_map entries) with (a ∪ <[k:=bv]> (list_to_map entries) : params); last first.
    { rewrite <- insert_union_l. symmetry. by apply insert_union_r. }
    split; intros [He ->]; (split; [|done]); intros j v w Hj.
    + rewrite elem_of_cons. intros [[= -> ->]|Hw]; [congruence|].
      apply (He j v w); [|done]. rewrite lookup_insert_ne; [done|]. intros <-. congruence.
    + intros Hw. apply lookup_insert_Some in Hj as [[<- <-]|[_ Hj]]; [by apply Hk' in Hw|].
      apply (He j v w Hj). by right.
Qed.

Lemma MergeMappings_iff a b r :
  MergeMappings a b = (r, None) <->
  (forall k v w, a !! k = Some v -> b !! k = Some w -> DeepEqual v w = true) /\ r = a ∪ b.
Proof.
  unfold MergeMappings. pose proof (range_perm _ "MergeMappings" b) as Hp. rewrite merge_loop_iff.
  - assert (list_to_map (range "MergeMappings" b) = b) as ->.
    { rewrite (list_to_map_proper (range "MergeMappings" b) (map_to_list b)); [apply list_to_map_to_list| |done].
      rewrite Hp. apply NoDup_fst_map_to_list. }
    setoid_rewrite Hp. by setoid_rewrite elem_of_map_to_list.
  - rewrite Hp. apply NoDup_fst_map_to_list.
Qed.

(** What the files and the cluster say of [k], before the environment. *)
Definition configured (maps : list params) (nodes : Z) (k : string) : option value :=
  if decide (k = "Nodes") then Some (VInt nodes) else last_value k maps.

(** C20: The mapping every template of a test is rendered with. GetMapping
    succeeds exactly when every override file can be read and decoded, every
    CL2_ entry of the environment has a value, and no variable has a CL2_
    entry that differs from its configured value (in type or in content). Then
    "Nodes" is the size of the cluster; any other key has the value of the
    last file that defines it, test specific files coming after global ones;
    and a key no file defines has the value of its last CL2_ entry, converted
    to an integer, a float or a boolean when it reads as one. *)
Theorem mapping_precedence environ paths nodes tests m errs :
  GetMapping ReadFile Decode environ paths nodes tests = (Some m, errs) <->
  errs = None /\
  exists (maps : list params) (env : params),
    Forall2 holds (paths ++ tests) maps /\
    Forall env_parsable environ /\
    (forall k, env !! k = unpackStringValue <$> last (omap (env_value k) environ)) /\
    (forall k v w, configured maps nodes k = Some v -> env !! k = Some w -> DeepEqual v w = true) /\
    (forall k, m !! k = match configured maps nodes k with Some v => Some v | None => env !! k end).
Proof.
  assert (forall maps k, (<["Nodes" := VInt nodes]> (fold_left (fun acc m => m ∪ acc) maps ∅) : params) !! k =
            configured maps nodes k) as Hbase.
  { intros maps k. unfold configured. case_decide as Hk; [subst; by rewrite lookup_insert_eq|].
    rewrite lookup_insert_ne by done. rewrite fold_union_lookup, lookup_empty. by destruct (last_value k maps). }
  assert (forall env : params, LoadCL2Envs environ = Ok env <-> Forall env_parsable environ /\
            forall k, env !! k = unpackStringValue <$> last (omap (env_value k) environ)) as Henv.
  { intros env. unfold LoadCL2Envs. rewrite envs_loop_iff.
    apply and_iff_compat_l. split; intros He k; rewrite He; by destruct (last (omap (env_value k) environ)). }
  unfold GetMapping. split.
  - destruct (LoadTestOverrides _ _ _ _) as [base|err] eqn:Hl; [|done].
    destruct (LoadCL2Envs environ) as [env|err]; [|done]. pose proof (proj1 (Henv env) eq_refl) as [Hp He].
    destruct (MergeMappings _ env) as [r [err|]] eqn:Hm; intros [= <- <-]. split; [done|].
    apply LoadTestOverrides_iff in Hl as (maps & Hf & ->).
    apply MergeMappings_iff in Hm as [Hd ->]. exists maps, env. split_and!; [done|done|done| |].
    + intros k v w. rewrite <- Hbase. apply Hd.
    + intros k. rewrite lookup_union, Hbase. by destruct (configured maps nodes k), (env !! k).
  - intros (-> & maps & env & Hf & Hp & He & Hd & Hm).
    rewrite (proj2 (LoadTestOverrides_iff paths tests _) (ex_intro _ maps (conj Hf eq_refl))).
    rewrite (proj2 (Henv env) (conj Hp He)).
    rewrite (proj2 (MergeMappings_iff _ env m)); [done|]. split.
    + intros k v w. rewrite Hbase. apply Hd.
    + apply map_eq. intros k. rewrite lookup_union, Hbase, Hm. by destruct (configured maps nodes k), (env !! k).
Qed.

End MappingSpec.

(** ** Examples *)

(** Placeholders are removed per line, from the first opening to the last
    closing braces. *)
Lemma strip_placeholders_example :
  strip_placeholders ("name: {{.Name}}-{{.I}}x" +:+ newline +:+ "a: {{b" +:+ newline +:+ "}}") =
  "name: x" +:+ newline +:+ "a: {{b" +:+ newline +:+ "}}".
Proof. by vm_compute. Qed.

(** A number in the environment is an [int64] and conflicts with the same
    number decoded as a [float64], as YAML numbers are. *)
Lemma env_number_conflicts : DeepEqual (VFloat64 (f64_of_Z 5)) (VInt64 5) = false.
Proof. done. Qed.

Lemma concurrent_readers_agree_witness :
  exists tp rs, rtc (read_step (T := unit) (fun fsys => fsys "f" = Ok "x"))
    (NewTemplateProvider, RStart <$> ["f"; "f"]) (tp, rs) /\ binCache tp !! "f" = Some "x".
Proof.
  set (fsys := fun path : string => Ok "x" : result string).
  eexists _, [RDone "f" (Ok "x"); RDone "f" (Ok "x")].
  match goal with |- ?A /\ _ => assert A as Hrun end.
  { eapply rtc_l; [by eapply (read_miss _ _ _ 0%nat)|]. cbn.
    eapply rtc_l; [by eapply (read_miss _ _ _ 1%nat)|]. cbn.
    eapply rtc_l; [by eapply (read_lock _ _ _ 0%nat "f" fsys)|]. cbn.
    eapply rtc_l; [by eapply (read_lock _ _ _ 1%nat "f" fsys)|]. apply rtc_refl. }
  split; [exact Hrun|].
  apply (concurrent_readers_agree _ _ _ _ Hrun 0%nat 1%nat "f" "x" "x" eq_refl eq_refl).
Defined.
