(* ===== verification/Flags.v ===== *)
(** * Command line flags (pkg/flags/{flags,types}.go)

    A flag whose value may come from its default, an environment variable or
    the command line. The variables the flags point to are a store keyed by
    flag name. Splitting the command line into settings of flags is pflag's:
    [Parse] gets the settings in their order. *)

From S2P Require Import Prelude GoErrors Params Modifier.

(** The five kinds of environment-backed flags with their default. *)
Inductive flagKind :=
| stringFlag (defaultValue : string)
| stringSliceFlag (defaultValue : list string)
| intFlag (defaultValue : Z)
| boolFlag (defaultValue : bool)
| durationFlag (defaultValue : Z).

Record flag := mkFlag { flag_name : string; flag_env : string; flag_kind : flagKind }.

Inductive flagValue :=
| SString (s : string)
| SSlice (l : list string)
| SInt (z : Z)
| SBool (b : bool)
| SDuration (d : Z).

Abbreviation store := (gmap string flagValue).

(** ** types.go: setting a flag *)

Definition stringFlag_Set (val : string) : result flagValue := Ok (SString val).

Definition stringSliceFlag_Set (val : string) : result flagValue :=
  if String.eqb val "" then Ok (SSlice []) else Ok (SSlice (Split "," val)).

Definition intFlag_Set (val : string) : result flagValue :=
  match Atoi val with
  | inl iVal => Ok (SInt iVal)
  | inr _ => Err (Errorf "strconv.Atoi: parsing %q" [AStr val])
  end.

Definition boolFlag_Set (val : string) : result flagValue :=
  match ParseBool val with
  | Some bVal => Ok (SBool bVal)
  | None => Err (Errorf "strconv.ParseBool: parsing %q" [AStr val])
  end.

Definition durationFlag_Set (val : string) : result flagValue :=
  match Duration.ParseDuration val with
  | Ok dVal => Ok (SDuration dVal)
  | Err err => Err err
  end.

Definition flag_Set (k : flagKind) : string -> result flagValue :=
  match k with
  | stringFlag _ => stringFlag_Set
  | stringSliceFlag _ => stringSliceFlag_Set
  | intFlag _ => intFlag_Set
  | boolFlag _ => boolFlag_Set
  | durationFlag _ => durationFlag_Set
  end.

(** ** flags.go: registration *)

(** [pflag.Var] panics for a name that is taken. *)
Definition register_flag (f : flag) (flags : list flag) : option (list flag) :=
  if decide (flag_name f ∈ flag_name <$> flags) then None else Some (flags ++ [f]).

Definition StringEnvVar (flagName envVariable defaultValue : string) : list flag -> option (list flag) :=
  register_flag (mkFlag flagName envVariable (stringFlag defaultValue)).
Definition StringSliceEnvVar (flagName envVariable : string) (defaultValue : list string) : list flag -> option (list flag) :=
  register_flag (mkFlag flagName envVariable (stringSliceFlag defaultValue)).
Definition IntEnvVar (flagName envVariable : string) (defaultValue : Z) : list flag -> option (list flag) :=
  register_flag (mkFlag flagName envVariable (intFlag defaultValue)).
Definition BoolEnvVar (flagName envVariable : string) (defaultValue : bool) : list flag -> option (list flag) :=
  register_flag (mkFlag flagName envVariable (boolFlag defaultValue)).
Definition DurationEnvVar (flagName envVariable : string) (defaultValue : Z) : list flag -> option (list flag) :=
  register_flag (mkFlag flagName envVariable (durationFlag defaultValue)).

(** The flags of a program that got past its registrations have different
    names. *)
Lemma register_flag_NoDup f flags flags' :
  NoDup (flag_name <$> flags) -> register_flag f flags = Some flags' -> NoDup (flag_name <$> flags') /\ f ∈ flags'.
Proof.
  intros Hd. unfold register_flag. case_decide as Hf; [done|]. intros [= <-]. split.
  - rewrite fmap_app. apply NoDup_app. split_and!; [done| |apply NoDup_singleton].
    intros x Hx Hin. apply list_elem_of_singleton in Hin as ->. done.
  - apply elem_of_app. right. apply list_elem_of_here.
Qed.

(** ** flags.go: the initial value *)
Section Flags.
Context (LookupEnv : string -> option string).

Definition lookup_env (envVariable : string) : option string :=
  if String.eqb envVariable "" then None else LookupEnv envVariable.

Definition parseEnvString (envVariable defaultValue : string) : result flagValue :=
  match lookup_env envVariable with
  | Some val => Ok (SString val)
  | None => Ok (SString defaultValue)
  end.

Definition parseEnvStringSlice (envVariable : string) (defaultValue : list string) : result flagValue :=
  match lookup_env envVariable with
  | Some val => if String.eqb val "" then Ok (SSlice defaultValue) else Ok (SSlice (Split "," val))
  | None => Ok (SSlice defaultValue)
  end.

Definition parsing_failed (envVariable : string) : error :=
  Errorf "parsing env variable %s failed" [AStr envVariable].

Definition parseEnvInt (envVariable : string) (defaultValue : Z) : result flagValue :=
  match lookup_env envVariable with
  | Some val =>
      match Atoi val with
      | inl iVal => Ok (SInt iVal)
      | inr _ => Err (parsing_failed envVariable)
      end
  | None => Ok (SInt defaultValue)
  end.

Definition parseEnvBool (envVariable : string) (defaultValue : bool) : result flagValue :=
  match lookup_env envVariable with
  | Some val =>
      match ParseBool val with
      | Some bVal => Ok (SBool bVal)
      | None => Err (parsing_failed envVariable)
      end
  | None => Ok (SBool defaultValue)
  end.

Definition parseEnvDuration (envVariable : string) (defaultValue : Z) : result flagValue :=
  match lookup_env envVariable with
  | Some val =>
      match Duration.ParseDuration val with
      | Ok dVal => Ok (SDuration dVal)
      | Err _ => Err (parsing_failed envVariable)
      end
  | None => Ok (SDuration defaultValue)
  end.

Definition initialize (f : flag) : result flagValue :=
  match flag_kind f with
  | stringFlag d => parseEnvString (flag_env f) d
  | stringSliceFlag d => parseEnvStringSlice (flag_env f) d
  | intFlag d => parseEnvInt (flag_env f) d
  | boolFlag d => parseEnvBool (flag_env f) d
  | durationFlag d => parseEnvDuration (flag_env f) d
  end.

Fixpoint initialize_all (flags : list flag) (s : store) : result store :=
  match flags with
  | [] => Ok s
  | f :: flags' => v ← initialize f; initialize_all flags' (<[flag_name f := v]> s)
  end.

Definition find_flag (flags : list flag) (name : string) : option flag :=
  find (fun f => String.eqb (flag_name f) name) flags.

(** pflag applies the settings of the command line one after the other. *)
Fixpoint apply_settings (flags : list flag) (settings : list (string * string)) (s : store) : result store :=
  match settings with
  | [] => Ok s
  | (name, val) :: settings' =>
      match find_flag flags name with
      | None => Err (Errorf "unknown flag: --%s" [AStr name])
      | Some f => v ← flag_Set (flag_kind f) val; apply_settings flags settings' (<[name := v]> s)
      end
  end.

Definition Parse (flags : list flag) (settings : list (string * string)) (s : store) : result store :=
  s ← initialize_all flags s; apply_settings flags settings s.

(** ** Precedence *)

(** The command line's last setting of a flag. *)
Definition last_setting (name : string) (settings : list (string * string)) : option string :=
  last (omap (fun nv => if String.eqb nv.1 name then Some nv.2 else None) settings).

Lemma initialize_all_Ok flags s s' :
  NoDup (flag_name <$> flags) -> initialize_all flags s = Ok s' ->
  forall name, match find_flag flags name with
               | Some f => exists v, initialize f = Ok v /\ s' !! name = Some v
               | None => s' !! name = s !! name
               end.
Proof.
  revert s. induction flags as [|f flags IH]; intros s Hnd Hi name; [by injection Hi as <-|].
  cbn in Hnd. apply NoDup_cons in Hnd as [Hf Hnd]. cbn [initialize_all] in Hi.
  destruct (initialize f) as [v|err] eqn:Hv; [|done]. cbn [mbind result_bind] in Hi.
  specialize (IH _ Hnd Hi name). cbn [find_flag find]. unfold find_flag in *.
  destruct (String.eqb_spec (flag_name f) name) as [<-|Hne].
  - exists v. split; [done|]. destruct (find _ flags) as [g|] eqn:Hg.
    + apply find_some in Hg as [Hin Heq]. apply String.eqb_eq in Heq. destruct Hf.
      apply list_elem_of_fmap. exists g. split; [done|]. by apply list_elem_of_In.
    + by rewrite IH, lookup_insert_eq.
  - destruct (find _ flags); [done|]. by rewrite IH, lookup_insert_ne.
Qed.

Lemma last_setting_cons n v name settings :
  last_setting name ((n, v) :: settings) =
  match last_setting name settings with
  | Some w => Some w
  | None => if String.eqb n name then Some v else None
  end.
Proof.
  unfold last_setting. set (g := fun nv : string * string => if String.eqb nv.1 name then Some nv.2 else None).
  change (omap g ((n, v) :: settings)) with
    (match g (n, v) with Some y => y :: omap g settings | None => omap g settings end).
  unfold g at 1. cbn [fst snd]. destruct (String.eqb n name); [rewrite last_cons|]; by destruct (last (omap g settings)).
Qed.

Lemma apply_settings_Ok flags settings s s' :
  apply_settings flags settings s = Ok s' ->
  (forall nv, nv ∈ settings -> exists f v, find_flag flags nv.1 = Some f /\ flag_Set (flag_kind f) nv.2 = Ok v) /\
  forall name, match last_setting name settings with
               | Some val => exists f v, find_flag flags name = Some f /\ flag_Set (flag_kind f) val = Ok v /\ s' !! name = Some v
               | None => s' !! name = s !! name
               end.
Proof.
  revert s. induction settings as [|[n val] settings IH]; intros s Ha.
  { injection Ha as <-. split; [intros nv Hnv; by apply not_elem_of_nil in Hnv|done]. }
  cbn [apply_settings] in Ha. destruct (find_flag flags n) as [f|] eqn:Hf; [|done].
  destruct (flag_Set (flag_kind f) val) as [v|err] eqn:Hv; [|done]. cbn [mbind result_bind] in Ha.
  destruct (IH _ Ha) as [Hall Hlast]. split.
  - intros nv. rewrite elem_of_cons. intros [->|Hnv]; [|by auto]. exists f, v. done.
  - intros name. specialize (Hlast name). rewrite last_setting_cons.
    destruct (last_setting name settings) as [w|]; [done|].
    destruct (String.eqb_spec n name) as [->|Hne].
    + exists f, v. by rewrite Hlast, lookup_insert_eq.
    + by rewrite Hlast, lookup_insert_ne.
Qed.

(** Where the value of an option comes from. When flags.Parse succeeds,
    every environment-backed flag has the value of its last setting on the
    command line if there is one, else the value of its environment variable
    if that is set (for a list, set and not empty), else its default; and no
    setting or variable was malformed. A malformed environment variable makes
    Parse fail even when the command line sets the flag. *)
Theorem flag_precedence flags settings s s' f :
  NoDup (flag_name <$> flags) -> f ∈ flags ->
  (Parse flags settings s = Ok s' ->
   exists v0, initialize f = Ok v0 /\
     match last_setting (flag_name f) settings with
     | Some val => exists v, flag_Set (flag_kind f) val = Ok v /\ s' !! flag_name f = Some v
     | None => s' !! flag_name f = Some v0
     end) /\
  (forall err, initialize f = Err err -> exists err', Parse flags settings s = Err err').
Proof.
  intros Hnd Hin.
  assert (find_flag flags (flag_name f) = Some f) as Hfind.
  { clear -Hnd Hin. unfold find_flag. induction flags as [|g flags IH]; [by apply not_elem_of_nil in Hin|].
    cbn in Hnd. apply NoDup_cons in Hnd as [Hg Hnd]. apply elem_of_cons in Hin as [->|Hin]; cbn.
    - by rewrite String.eqb_refl.
    - destruct (String.eqb_spec (flag_name g) (flag_name f)) as [Heq|]; [|by apply IH].
      destruct Hg. rewrite Heq. by apply list_elem_of_fmap_2. }
  unfold Parse. destruct (initialize_all flags s) as [s0|e0] eqn:Hi; cbn [mbind result_bind].
  - pose proof (initialize_all_Ok flags s s0 Hnd Hi (flag_name f)) as H0. rewrite Hfind in H0.
    destruct H0 as (v0 & Hv0 & Hs0). split; [|by intros err; rewrite Hv0].
    intros Ha. exists v0. split; [done|].
    destruct (apply_settings_Ok flags settings s0 s' Ha) as [_ Hlast]. specialize (Hlast (flag_name f)).
    destruct (last_setting (flag_name f) settings) as [val|].
    + destruct Hlast as (f' & v & Hf' & Hv & Hs'). rewrite Hfind in Hf'. injection Hf' as <-. eauto.
    + by rewrite Hlast.
  - split; [done|]. eauto.
Qed.

End Flags.

(** *** A flag set by its environment variable, and overruled. *)
Lemma flag_precedence_witness :
  exists v, initialize (fun e => if String.eqb e "NUM_NODES" then Some "5" else None)
              (mkFlag "nodes" "NUM_NODES" (intFlag 0)) = Ok v /\
    v = SInt 5 /\
    Parse (fun e => if String.eqb e "NUM_NODES" then Some "5" else None)
      [mkFlag "nodes" "NUM_NODES" (intFlag 0)] [("nodes", "7")] ∅ = Ok {[ "nodes" := SInt 7 ]}.
Proof.
  destruct (proj1 (flag_precedence (fun e => if String.eqb e "NUM_NODES" then Some "5" else None)
    [mkFlag "nodes" "NUM_NODES" (intFlag 0)] [("nodes", "7")] ∅ {[ "nodes" := SInt 7 ]}
    (mkFlag "nodes" "NUM_NODES" (intFlag 0)) ltac:(cbn; apply NoDup_singleton) ltac:(by left)) eq_refl)
    as (v & Hv & _).
  exists v. split; [exact Hv|]. split; [|reflexivity]. vm_compute in Hv. by injection Hv as <-.
Defined.
