(* ===== verification/Provider.v ===== *)
(** * Providers (the files of pkg/provider)

    The table of cluster providers: what each one supports, which settings it
    keeps, whose SSH key it uses and where its managed Prometheus is. Running
    commands (SSH, gcloud) is an argument. *)

From S2P Require Import Prelude GoErrors Params Client Modifier RuntimeObjects Cluster.

(** The fields of the [Features] struct. *)
Inductive feature :=
| IsKubemarkProvider
| SupportWindowsNodeScraping
| SupportProbe
| SupportImagePreload
| SupportEnablePrometheusServer
| SupportSSHToMaster
| SupportAccessAPIServerPprofEndpoint
| SupportSnapshotPrometheusDisk
| SupportNodeKiller
| SupportGrabMetricsFromKubelets
| SupportKubeStateMetrics
| SupportMetricsServerMetrics
| SupportResourceUsageMetering
| ShouldPrometheusScrapeApiserverOnly
| SchedulerInsecurePortDisabled
| ShouldScrapeKubeProxy.

#[export] Instance feature_eq_dec : EqDecision feature.
Proof. solve_decision. Defined.

(** The struct: a boolean per field. *)
Definition Features : Type := feature -> bool.
Definition enable (l : list feature) : Features := fun f => bool_decide (f ∈ l).

Definition AKSName : string := "aks".
Definition AWSName : string := "aws".
Definition AutopilotName : string := "autopilot".
Definition EKSName : string := "eks".
Definition GCEName : string := "gce".
Definition GKEName : string := "gke".
Definition GKEKubemarkName : string := "gkekubemark".
Definition KCPName : string := "kcp".
Definition KindName : string := "kind".
Definition KubemarkName : string := "kubemark".
Definition LocalName : string := "local".
Definition SkeletonName : string := "skeleton".
Definition VsphereName : string := "vsphere".
Definition KubestellarName : string := "ks".
Definition RootKubeConfigKey : string := "ROOT_KUBECONFIG".

(** The bodies of [RunSSHCommand] and of [GetManagedPrometheusClient]. *)
Inductive SSHMethod := SSHWithKeyOf (provider : string) | SSHNotImplemented | SSHNothing.
Inductive ManagedPrometheus := GCPManaged | AKSManaged | NoManaged.

(** A provider is what its methods return. [prov_describesMasters]: its
    [Metadata] lists the instances of the control plane. *)
Record Provider := mkProvider {
  prov_Name : string;
  prov_Features : Features;
  prov_Config : gmap string string;
  prov_RunSSHCommand : SSHMethod;
  prov_ManagedPrometheus : ManagedPrometheus;
  prov_describesMasters : bool;
}.

(** The shared [runSSHCommand] of util.go. *)
Definition runSSHCommand : SSHMethod := SSHWithKeyOf "skeleton".

Definition RunSSHCommand (SSH : string -> string -> string -> string * string * Z * option error)
  (p : Provider) (cmd host : string) : string * string * Z * option error :=
  match prov_RunSSHCommand p with
  | SSHWithKeyOf k => SSH cmd host k
  | SSHNotImplemented => ("", "", 0, Some (Errorf "kind: ssh not yet implemented" []))
  | SSHNothing => ("", "", 0, None)
  end.

Definition ErrNoManagedPrometheus : error :=
  External "no managed Prometheus service for this cloud provider".

Definition GetManagedPrometheusClient {A} (gcp aks : result A) (p : Provider) : result A :=
  match prov_ManagedPrometheus p with
  | GCPManaged => gcp
  | AKSManaged => aks
  | NoManaged => Err ErrNoManagedPrometheus
  end.

(** The same for every provider. *)
Definition GetComponentProtocolAndPort (componentName : string) : string * Z * option error :=
  if String.eqb componentName "etcd" then ("https://", 2379, None)
  else if String.eqb componentName "kube-apiserver" then ("https://", 443, None)
  else if String.eqb componentName "kube-controller-manager" then ("https://", 10257, None)
  else if String.eqb componentName "kube-scheduler" then ("https://", 10259, None)
  else ("", -1, Some (Errorf "port for component %v unknown" [AStr componentName])).

Definition RootFrameworkKubeConfigOverride (c : gmap string string) : string := default "" (c !! RootKubeConfigKey).

(** ** The providers *)

Definition NewAKSProvider (_config : gmap string string) : Provider :=
  mkProvider AKSName
    (enable [SupportProbe; SupportImagePreload; SupportGrabMetricsFromKubelets;
      SupportSnapshotPrometheusDisk; SupportEnablePrometheusServer; SupportResourceUsageMetering;
      ShouldPrometheusScrapeApiserverOnly; ShouldScrapeKubeProxy])
    ∅ runSSHCommand AKSManaged false.

Definition NewAWSProvider (_config : gmap string string) : Provider :=
  mkProvider AWSName
    (enable [ShouldPrometheusScrapeApiserverOnly; ShouldScrapeKubeProxy; SupportAccessAPIServerPprofEndpoint;
      SupportEnablePrometheusServer; SupportGrabMetricsFromKubelets; SupportImagePreload;
      SupportProbe; SupportResourceUsageMetering; SupportSSHToMaster;
      SupportKubeStateMetrics])
    ∅ (SSHWithKeyOf "aws") NoManaged false.

Definition NewAutopilotProvider (_config : gmap string string) : Provider :=
  mkProvider AutopilotName
    (enable [SupportSnapshotPrometheusDisk; SupportEnablePrometheusServer; SupportGrabMetricsFromKubelets;
      SupportAccessAPIServerPprofEndpoint; ShouldPrometheusScrapeApiserverOnly])
    ∅ (SSHWithKeyOf "gce") GCPManaged false.

Definition NewEKSProvider (_config : gmap string string) : Provider :=
  mkProvider EKSName
    (enable [ShouldPrometheusScrapeApiserverOnly; SupportProbe; SupportImagePreload;
      SupportEnablePrometheusServer; SupportGrabMetricsFromKubelets; SupportAccessAPIServerPprofEndpoint;
      SupportResourceUsageMetering; ShouldScrapeKubeProxy; SupportKubeStateMetrics])
    ∅ (SSHWithKeyOf "eks") NoManaged false.

Definition NewGCEProvider (_config : gmap string string) : Provider :=
  mkProvider GCEName
    (enable [SupportWindowsNodeScraping; SupportProbe; SupportSSHToMaster;
      SupportImagePreload; SupportSnapshotPrometheusDisk; SupportNodeKiller;
      SupportEnablePrometheusServer; SupportGrabMetricsFromKubelets; SupportAccessAPIServerPprofEndpoint;
      SupportKubeStateMetrics; SupportMetricsServerMetrics; SupportResourceUsageMetering;
      ShouldScrapeKubeProxy])
    ∅ (SSHWithKeyOf "gce") GCPManaged true.

Definition NewGKEProvider (_config : gmap string string) : Provider :=
  mkProvider GKEName
    (enable [SupportProbe; SupportImagePreload; SupportSnapshotPrometheusDisk;
      SupportEnablePrometheusServer; SupportGrabMetricsFromKubelets; SupportAccessAPIServerPprofEndpoint;
      SupportNodeKiller; SupportResourceUsageMetering; ShouldPrometheusScrapeApiserverOnly;
      SupportKubeStateMetrics])
    ∅ (SSHWithKeyOf "gke") GCPManaged false.

Definition NewGKEKubemarkProvider (config : gmap string string) : Provider :=
  mkProvider GKEKubemarkName
    (enable ((if String.eqb (default "" (config !! RootKubeConfigKey)) "" then [] else [SupportEnablePrometheusServer]) ++
      [IsKubemarkProvider; SupportAccessAPIServerPprofEndpoint; SupportSnapshotPrometheusDisk;
      SupportResourceUsageMetering; ShouldPrometheusScrapeApiserverOnly]))
    config (SSHWithKeyOf "gke") GCPManaged false.

Definition NewKCPProvider (_config : gmap string string) : Provider :=
  mkProvider KCPName
    (enable [SupportResourceUsageMetering])
    ∅ SSHNothing NoManaged false.

Definition NewKindProvider (_config : gmap string string) : Provider :=
  mkProvider KindName
    (enable [SupportProbe; SupportImagePreload; SupportEnablePrometheusServer;
      SupportGrabMetricsFromKubelets; SupportAccessAPIServerPprofEndpoint; SupportMetricsServerMetrics;
      SupportResourceUsageMetering; ShouldScrapeKubeProxy])
    ∅ SSHNotImplemented NoManaged false.

Definition NewKubemarkProvider (config : gmap string string) : Provider :=
  mkProvider KubemarkName
    (enable ((if String.eqb (default "" (config !! RootKubeConfigKey)) "" then [] else [SupportEnablePrometheusServer]) ++
      [IsKubemarkProvider; SupportSSHToMaster; SupportAccessAPIServerPprofEndpoint;
      SupportSnapshotPrometheusDisk; SupportResourceUsageMetering; ShouldScrapeKubeProxy]))
    config (SSHWithKeyOf "kubemark") NoManaged false.

Definition NewLocalProvider (_config : gmap string string) : Provider :=
  mkProvider LocalName
    (enable [SupportProbe; SupportSSHToMaster; SupportImagePreload;
      SupportEnablePrometheusServer; SupportGrabMetricsFromKubelets; SupportAccessAPIServerPprofEndpoint;
      SupportMetricsServerMetrics; SupportResourceUsageMetering; ShouldScrapeKubeProxy])
    ∅ (SSHWithKeyOf "local") NoManaged false.

Definition NewSkeletonProvider (_config : gmap string string) : Provider :=
  mkProvider SkeletonName
    (enable [SupportProbe; SupportSSHToMaster; SupportImagePreload;
      SupportEnablePrometheusServer; SupportGrabMetricsFromKubelets; SupportAccessAPIServerPprofEndpoint;
      SupportResourceUsageMetering; ShouldScrapeKubeProxy])
    ∅ (SSHWithKeyOf "skeleton") NoManaged false.

Definition NewVsphereProvider (_config : gmap string string) : Provider :=
  mkProvider VsphereName
    (enable [SupportProbe; SupportSSHToMaster; SupportImagePreload;
      SupportEnablePrometheusServer; SupportGrabMetricsFromKubelets; SupportAccessAPIServerPprofEndpoint;
      SupportResourceUsageMetering; ShouldScrapeKubeProxy])
    ∅ (SSHWithKeyOf "skeleton") NoManaged false.

Definition NewKubestellarProvider (_config : gmap string string) : Provider :=
  mkProvider KubestellarName
    (enable [])
    ∅ SSHNothing NoManaged false.

(** ** Creating a provider *)

Record InitOptions := mkInitOptions {
  KubemarkRootKubeConfigPath : string;
  ProviderName : string;
  ProviderConfigs : list string;
}.

(** An entry of other than two parts is reported and then used all the same;
    an entry without "=" has no second part. *)
Fixpoint parseConfigs_loop (configs : list string) (cfgMap : gmap string string) : outcome (gmap string string) :=
  match configs with
  | [] => Returns cfgMap
  | c :: configs' =>
      match Split "=" c with
      | k :: v :: _ => parseConfigs_loop configs' (<[k := v]> cfgMap)
      | _ => Panics
      end
  end.

Definition parseConfigs (configs : list string) : outcome (gmap string string) := parseConfigs_loop configs ∅.

Definition NewProvider (initOptions : InitOptions) : outcome Provider :=
  configs ← parseConfigs (ProviderConfigs initOptions);
  let configs := if String.eqb (KubemarkRootKubeConfigPath initOptions) "" then configs
                 else <[RootKubeConfigKey := KubemarkRootKubeConfigPath initOptions]> configs in
  let name := ProviderName initOptions in
  if String.eqb name AKSName then Returns (NewAKSProvider configs)
  else if String.eqb name AWSName then Returns (NewAWSProvider configs)
  else if String.eqb name AutopilotName then Returns (NewAutopilotProvider configs)
  else if String.eqb name EKSName then Returns (NewEKSProvider configs)
  else if String.eqb name GCEName then Returns (NewGCEProvider configs)
  else if String.eqb name GKEName then Returns (NewGKEProvider configs)
  else if String.eqb name GKEKubemarkName then Returns (NewGKEKubemarkProvider configs)
  else if String.eqb name KCPName then Returns (NewKCPProvider configs)
  else if String.eqb name KindName then Returns (NewKindProvider configs)
  else if String.eqb name KubemarkName then Returns (NewKubemarkProvider configs)
  else if String.eqb name LocalName then Returns (NewLocalProvider configs)
  else if String.eqb name SkeletonName then Returns (NewSkeletonProvider configs)
  else if String.eqb name VsphereName then Returns (NewVsphereProvider configs)
  else if String.eqb name KubestellarName then Returns (NewKubestellarProvider configs)
  else Fails (Errorf "unsupported provider name: %s" [AStr name]).

(** ** Metadata of the gce provider *)

(** The text up to the next slash. *)
Fixpoint span_slash (s : string) : string * string :=
  match s with
  | EmptyString => ("", "")
  | String a t => if Ascii.eqb a "/" then ("", s) else let '(u, r) := span_slash t in (String a u, r)
  end.

Definition segment (s : string) : option (string * string) :=
  match span_slash s with ("", _) => None | sr => Some sr end.

Definition slash (s : string) : option string :=
  match s with String a t => if Ascii.eqb a "/" then Some t else None | EmptyString => None end.

(** A match of "gce://project/zone/name" at the start. *)
Definition providerID_here (s : string) : option (string * string) :=
  if String.prefix "gce://" s then
    '(project, r) ← segment (String.substring 6 (String.length s - 6) s);
    r ← slash r;
    '(zone, r) ← segment r;
    r ← slash r;
    _ ← segment r;
    Some (project, zone)
  else None.

Fixpoint parse_providerID (s : string) : option (string * string) :=
  match providerID_here s with
  | Some m => Some m
  | None => match s with String _ t => parse_providerID t | EmptyString => None end
  end.

Section Metadata.
Context {C : Type} `{ApiErrors} `{Backoff} `{ClusterServer C}.

(** [gcloud zone name project]: the trimmed output of the describe command, or
    its error and what it wrote to stderr. *)
Fixpoint describe_masters (gcloud : string -> string -> string -> string + error * string) (providerID : node -> string)
  (nodes : list node) (ids : list string) : result (list string) :=
  match nodes with
  | [] => Ok ids
  | n :: nodes' =>
      if IsControlPlaneNode n then
        let '(project, zone) := default ("", "") (parse_providerID (providerID n)) in
        match gcloud zone (node_Name n) project with
        | inr (err, stderr) =>
            Err (Errorf "fetching instanceID for %q failed with: %v (stderr: %q)"
                   [AStr (node_Name n); AErr err; AStr stderr])
        | inl instanceID => describe_masters gcloud providerID nodes' (ids ++ [instanceID])
        end
      else describe_masters gcloud providerID nodes' ids
  end.

Definition GCE_Metadata (gcloud : string -> string -> string -> string + error * string) (providerID : node -> string) (c : C)
  : C * result (gmap string string) :=
  match client_ListNodes c with
  | (c', (_, Some err)) => (c', Err err)
  | (c', (nodes, None)) =>
      (c', ids ← describe_masters gcloud providerID nodes []; Ok {[ "masterInstanceIDs" := join "," ids ]})
  end.

Definition Metadata (gcloud : string -> string -> string -> string + error * string) (providerID : node -> string) (p : Provider) (c : C)
  : C * result (gmap string string) :=
  if prov_describesMasters p then GCE_Metadata gcloud providerID c else (c, Ok ∅).

End Metadata.

(** ** Facts *)

Definition supported : list string :=
  [AKSName; AWSName; AutopilotName; EKSName; GCEName; GKEName; GKEKubemarkName; KCPName; KindName; KubemarkName;
   LocalName; SkeletonName; VsphereName; KubestellarName].

Lemma split_go_two sep acc s :
  (exists k v l, split_go sep acc s = k :: v :: l) <-> str_has sep s = true.
Proof.
  revert acc. induction s as [|a s IH]; intros acc; cbn [split_go str_has].
  { split; [by intros (k & v & l & [=])|done]. }
  destruct (Ascii.eqb_spec a sep) as [->|Hne].
  - split; [done|]. intros _. destruct s as [|b s]; cbn; [by eexists _, _, _|].
    destruct (Ascii.eqb b sep); [by eexists _, _, _|]. destruct (split_go sep _ s) as [|x l] eqn:Hs; [|by eexists _, _, _].
    exfalso. clear -Hs. revert Hs. generalize (EmptyString +:+ String b EmptyString). induction s as [|c s IH]; intros u; [done|]. cbn.
    destruct (Ascii.eqb c sep); [done|]. apply IH.
  - by rewrite IH.
Qed.

Lemma parseConfigs_loop_ok configs m :
  match parseConfigs_loop configs m with
  | Returns _ => Forall (fun c => str_has "=" c = true) configs
  | Panics => ~ Forall (fun c => str_has "=" c = true) configs
  | Fails _ => False
  end.
Proof.
  revert m. induction configs as [|c configs IH]; intros m; [by constructor|]. cbn [parseConfigs_loop].
  pose proof (split_go_two "=" "" c) as Hs. fold (Split "=" c) in Hs.
  destruct (Split "=" c) as [|k [|v l]].
  1,2: rewrite Forall_cons; intros [Hc _]; apply Hs in Hc as (? & ? & ? & [=]).
  assert (str_has "=" c = true) as Hc by (apply Hs; by eexists _, _, _).
  specialize (IH (<[k:=v]> m)). destruct (parseConfigs_loop configs (<[k:=v]> m)); [by constructor|done|].
  rewrite Forall_cons. by intros [_ ?].
Qed.

(** NewProvider panics exactly when an entry of --provider-configs has no
    "="; otherwise it returns a provider of the requested name for each of the
    14 supported names and an error for any other. A kubemark provider
    supports the Prometheus server exactly when a root kubeconfig was given. *)
Theorem provider_creation opts :
  match NewProvider opts with
  | Panics => ~ Forall (fun c => str_has "=" c = true) (ProviderConfigs opts)
  | Fails _ => Forall (fun c => str_has "=" c = true) (ProviderConfigs opts) /\ ProviderName opts ∉ supported
  | Returns p =>
      Forall (fun c => str_has "=" c = true) (ProviderConfigs opts) /\ ProviderName opts ∈ supported /\
      prov_Name p = ProviderName opts /\
      (prov_Features p IsKubemarkProvider = true ->
         prov_Features p SupportEnablePrometheusServer =
           negb (String.eqb (RootFrameworkKubeConfigOverride (prov_Config p)) ""))
  end.
Proof.
  unfold NewProvider, parseConfigs. pose proof (parseConfigs_loop_ok (ProviderConfigs opts) ∅) as Hc.
  destruct (parseConfigs_loop (ProviderConfigs opts) ∅) as [configs|err|]; [|done|done]. cbn [mbind outcome_bind].
  generalize (if String.eqb (KubemarkRootKubeConfigPath opts) "" then configs
              else <[RootKubeConfigKey := KubemarkRootKubeConfigPath opts]> configs) as cfg. intros cfg.
  generalize (ProviderName opts) as name. intros name.
  repeat (match goal with
  | |- context [String.eqb name ?n] => destruct (String.eqb_spec name n) as [->|?]
  end; [split_and!; [done|unfold supported; set_solver|done|try done]|]).
  1,2: intros _; cbn; unfold RootFrameworkKubeConfigOverride;
       by destruct (String.eqb (default "" (cfg !! RootKubeConfigKey)) "").
  split; [done|]. unfold supported. rewrite !not_elem_of_cons. split_and!; try done. apply not_elem_of_nil.
Qed.
