(* ===== verification/PromStack.v ===== *)
(** * The Prometheus stack (pkg/prometheus/{prometheus,experimental,util,gce_windows_util}.go)

    The controller that deploys the Prometheus stack before the tests: the
    mapping its manifests are rendered with, the sequence of set-up steps, the
    readiness check, the snapshots of its disk and the tear down.

    The Kubernetes API calls it makes itself, gcloud, SSH to the masters and
    the manifests of [ApplyTemplatedManifests] are operations of an interface. *)

From S2P Require Import Prelude GoErrors GoRuntime Params Api Executor Client Namespaces Modifier RuntimeObjects Pods Cluster Provider Waiting.

(** [config.PrometheusConfig]. *)
Record PrometheusConfig := mkPrometheusConfig {
  TearDownServer : bool;
  EnableServer : bool;
  EnablePushgateway : bool;
  ScrapeEtcd : bool;
  ScrapeNodeExporter : bool;
  ScrapeWindowsNodeExporter : bool;
  ScrapeKubelets : bool;
  ScrapeMasterKubelets : bool;
  ScrapeKubeProxy : bool;
  KubeProxySelectorKey : string;
  ScrapeKubeStateMetrics : bool;
  ScrapeMetricsServerMetrics : bool;
  ScrapeNodeLocalDNS : bool;
  ScrapeAnet : bool;
  ScrapeNetworkPolicies : bool;
  ScrapeMastersWithPublicIPs : bool;
  APIServerScrapePort : Z;
  SnapshotProject : string;
  AdditionalMonitorsPath : string;
  StorageClassProvisioner : string;
  StorageClassVolumeType : string;
  PVCStorageClass : string;
  ReadyTimeout : Z;
  PrometheusMemoryRequest : string;
}.

(** The experimental flags. *)
Record SnapshotFlags := mkSnapshotFlags {
  shouldSnapshotPrometheusDisk : bool;
  shouldSnapshotPrometheusToReportDir : bool;
  prometheusDiskSnapshotName : string;
}.

Definition ValidatePrometheusFlags (fl : SnapshotFlags) (p : PrometheusConfig) : ErrorList :=
  if shouldSnapshotPrometheusDisk fl && String.eqb (SnapshotProject p) "" then
    NewErrorList [Errorf "requesting snapshot, but snapshot project not configured. Use --experimental-snapshot-project flag" []]
  else NewErrorList [].

Record Controller := mkController {
  pc_config : PrometheusConfig;
  pc_provider : Provider;
  pc_templateMapping : params;
  diskMetadata : string * string;     (* name, zone *)
  snapshotted : bool;
  snapshotError : option error;
}.

(** ** Readiness of the scrape targets (util.go) *)

Record Target := mkTarget { t_Labels : gmap string string; t_Health : string }.

Definition allTargets : Z := -1.

(** [answer]: the raw response of the targets endpoint, or its error;
    [Unmarshal]: the JSON decoder. *)
Definition CheckTargetsReady (Unmarshal : string -> result (list Target)) (answer : result string)
  (selector : Target -> bool) (minActiveTargets minReadyTargets : Z) : bool * option error :=
  match answer with
  | Err _ => (false, None)
  | Ok raw =>
      match Unmarshal raw with
      | Err err => (false, Some err)
      | Ok targets =>
          let '(nReady, nTotal) :=
            fold_left (fun '(nReady, nTotal) t =>
              if negb (selector t) then (nReady, nTotal)
              else if String.eqb (t_Health t) "up" then (nReady + 1, nTotal + 1)
              else (nReady, nTotal + 1)) targets (0, 0) in
          if nTotal <? minActiveTargets then (false, None)
          else
            let minReadyTargets := if minReadyTargets =? allTargets then nTotal else minReadyTargets in
            if nReady <? minReadyTargets then (false, None) else (true, None)
      end
  end.

Definition CheckAllTargetsReady Unmarshal answer selector (minActiveTargets : Z) : bool * option error :=
  CheckTargetsReady Unmarshal answer selector minActiveTargets allTargets.

Definition isEtcdEndpoint (endpoint : string) : bool :=
  String.eqb endpoint "etcd-2379" || String.eqb endpoint "etcd-2382".

Definition etcd_target (t : Target) : bool := isEtcdEndpoint (default "" (t_Labels t !! "endpoint")).

(** Every check asks the server again: [answer1] and [answer2]. *)
Definition isPrometheusReady (Unmarshal : string -> result (list Target)) (scrapeEtcd : bool)
  (answer1 answer2 : result string) : bool * option error :=
  let expectedTargets := 4 in
  if scrapeEtcd then
    match CheckAllTargetsReady Unmarshal answer1 (fun t => negb (etcd_target t)) expectedTargets with
    | (true, None) => CheckTargetsReady Unmarshal answer2 etcd_target 2 1
    | r => r
    end
  else CheckAllTargetsReady Unmarshal answer1 (fun _ => true) expectedTargets.

(** ** Snapshot names *)

Definition is_lower (a : ascii) : bool :=
  let n := nat_of_ascii a in ((97 <=? n) && (n <=? 122))%nat.
Definition is_alnum (a : ascii) : bool := is_lower a || is_digit a.

(** The text after the first letter: up to 61 characters and a final one that
    is no dash. *)
Fixpoint snapshot_tail (fuel : nat) (s : list ascii) : bool :=
  match s with
  | [] => false
  | [a] => is_alnum a
  | a :: s' =>
      match fuel with
      | O => false
      | S fuel' => (is_alnum a || Ascii.eqb a "-") && snapshot_tail fuel' s'
      end
  end.

Definition snapshotNamePattern : string := "^(?:[a-z](?:[-a-z0-9]{0,61}[a-z0-9])?)$".

Definition VerifySnapshotName (name : string) : option error :=
  let ok := match String.list_ascii_of_string name with
            | [] => false
            | a :: [] => is_lower a
            | a :: s => is_lower a && snapshot_tail 61 s
            end in
  if ok then None else Some (Errorf "disk name doesn't match %v" [AStr snapshotNamePattern]).

(** ** Master addresses *)

Definition getMasterIps (publicIPs internalIPs : list string) (usePublicIPs : bool)
  (fromService : result (list string)) : result (list string) :=
  if usePublicIPs then
    match publicIPs with
    | [] => Err (Errorf "requested to use public IPs, however no publics IPs are provided" [])
    | _ => Ok publicIPs
    end
  else
    match internalIPs with
    | [] =>
        match fromService with
        | Err err => Err (Errorf "no ips are set, fallback to default/kubernetes service failed due to: %v" [AErr err])
        | Ok ips => Ok ips
        end
    | _ => Ok internalIPs
    end.

(** [endpoints]: the addresses of the subsets of default/kubernetes. *)
Definition getMasterIpsFromKubernetesService (newClient : option error) (endpoints : result (list (list string)))
  : result (list string) :=
  match newClient with
  | Some err => Err err
  | None =>
      subsets ← endpoints;
      match concat subsets with
      | [] => Err (External "no master ips available in default/kubernetes service")
      | ips => Ok ips
      end
  end.

(** ** The controller's mapping *)

Definition isEnabled (fl : SnapshotFlags) (p : Provider) : bool * option error :=
  if negb (shouldSnapshotPrometheusDisk fl) then (false, None)
  else if negb (prov_Features p SupportSnapshotPrometheusDisk) then
    (false, Some (Errorf "snapshotting Prometheus' disk only available for GCP providers (gce, gke, kubemark), provider is: %s"
                    [AStr (prov_Name p)]))
  else (true, None).

(** A setting that may also come from an override file: the file wins, and has
    to hold a boolean ([.(bool)] panics otherwise). *)
Definition legacy_flag (key : string) (flag : bool) (mapping : params) : outcome (params * bool) :=
  match mapping !! key with
  | None => Returns (<[key := VBool flag]> mapping, flag)
  | Some (VBool b) => Returns (mapping, b)
  | Some _ => Panics
  end.

(** The assignments after the overridable settings. *)
Definition fixed_settings (p : PrometheusConfig) (retainPD : bool) (mapping : params) : params :=
  <["RetainPD" := VBool retainPD]>
  (<["PROMETHEUS_MEMORY_REQUEST" := VString (PrometheusMemoryRequest p)]>
  (<["PROMETHEUS_PVC_STORAGE_CLASS" := VString (PVCStorageClass p)]>
  (<["PROMETHEUS_KUBE_PROXY_SELECTOR_KEY" := VString (KubeProxySelectorKey p)]>
  (<["PROMETHEUS_STORAGE_CLASS_VOLUME_TYPE" := VString (StorageClassVolumeType p)]>
  (<["PROMETHEUS_STORAGE_CLASS_PROVISIONER" := VString (StorageClassProvisioner p)]>
  (<["PROMETHEUS_APISERVER_SCRAPE_PORT" := VInt (APIServerScrapePort p)]>
  (<["PROMETHEUS_SCRAPE_MASTER_KUBELETS" := VBool (ScrapeKubelets p || ScrapeMasterKubelets p)]>
  (<["PROMETHEUS_SCRAPE_KUBELETS" := VBool (ScrapeKubelets p)]>
  (<["PROMETHEUS_SCRAPE_METRICS_SERVER_METRICS" := VBool (ScrapeMetricsServerMetrics p)]>
  (<["PROMETHEUS_SCRAPE_KUBE_STATE_METRICS" := VBool (ScrapeKubeStateMetrics p)]>
  (<["PROMETHEUS_SCRAPE_NODE_LOCAL_DNS" := VBool (ScrapeNodeLocalDNS p)]> mapping))))))))))).

(** [newFramework]: the error of [NewRootFramework]; [getMapping]: the result of
    [config.GetMapping]; [masterIps]: the result of [getMasterIps]. *)
Definition NewController (fl : SnapshotFlags) (p : PrometheusConfig) (prov : Provider) (newFramework : option error)
  (getMapping : option params * option ErrorList) (masterIps : result (list string)) : outcome Controller :=
  match newFramework with
  | Some err => Fails err
  | None =>
      match getMapping with
      | (_, Some errList) => Fails (ListError (errors errList))
      | (None, None) => Panics
      | (Some mapping, None) =>
          let mapping := match masterIps with
                         | Ok ips => <["MasterIps" := VSlice (VString <$> ips)]> mapping
                         | Err _ => delete "MasterIps" mapping
                         end in
          let mapping := match mapping !! "PROMETHEUS_SCRAPE_APISERVER_ONLY" with
                         | Some _ => mapping
                         | None => <["PROMETHEUS_SCRAPE_APISERVER_ONLY" :=
                                     VBool (prov_Features prov ShouldPrometheusScrapeApiserverOnly)]> mapping
                         end in
          '(mapping, etcd) ← legacy_flag "PROMETHEUS_SCRAPE_ETCD" (ScrapeEtcd p) mapping;
          '(mapping, node) ← legacy_flag "PROMETHEUS_SCRAPE_NODE_EXPORTER" (ScrapeNodeExporter p) mapping;
          '(mapping, win) ← legacy_flag "PROMETHEUS_SCRAPE_WINDOWS_NODE_EXPORTER" (ScrapeWindowsNodeExporter p) mapping;
          '(mapping, proxy) ← legacy_flag "PROMETHEUS_SCRAPE_KUBE_PROXY" (prov_Features prov ShouldScrapeKubeProxy) mapping;
          '(mapping, anet) ← legacy_flag "PROMETHEUS_SCRAPE_ANET" (ScrapeAnet p) mapping;
          '(mapping, pol) ← legacy_flag "PROMETHEUS_SCRAPE_KUBE_NETWORK_POLICIES" (ScrapeNetworkPolicies p) mapping;
          let p' := mkPrometheusConfig (TearDownServer p) (EnableServer p) (EnablePushgateway p) etcd node win
            (ScrapeKubelets p) (ScrapeMasterKubelets p) proxy (KubeProxySelectorKey p) (ScrapeKubeStateMetrics p)
            (ScrapeMetricsServerMetrics p) (ScrapeNodeLocalDNS p) anet pol (ScrapeMastersWithPublicIPs p)
            (APIServerScrapePort p) (SnapshotProject p) (AdditionalMonitorsPath p) (StorageClassProvisioner p)
            (StorageClassVolumeType p) (PVCStorageClass p) (ReadyTimeout p) (PrometheusMemoryRequest p) in
          let snapshotEnabled := (isEnabled fl prov).1 in
          Returns (mkController p' prov (fixed_settings p' snapshotEnabled mapping) ("", "") false None)
      end
  end.

(** ** Set-up *)

(** Where manifests come from. *)
Inductive manifests := Embedded | Directory (path : string).

(** What [nameAndZone] and its caller read of a persistent volume. *)
Record promPV := mkPromPV {
  pv_ClaimName : string;
  pv_Bound : bool;
  pv_GCE : option string;                (* GCEPersistentDisk.PDName *)
  pv_CSI : option string;                (* CSI.VolumeHandle *)
  pv_Labels : gmap string string;
}.

(** One attempt of every call; [ApplyTemplatedManifests] and
    [client.DeleteStorageClass] are whole calls. *)
Class PromServer (C : Type) := {
  prom_TestClient : C -> C * option error;
  prom_NewFramework : C -> C * option error;
  DeleteStorageClass : string -> C -> C * option error;
  ApplyTemplatedManifests : manifests -> string -> params -> C -> C * option error;
  sa_Get : C -> C * option error;
  sa_Create : C -> C * option error;
  sa_CreateToken : C -> C * result string;
  secret_Get : C -> C * option error;
  secret_Create : string -> C -> C * option error;
  secret_Update : string -> C -> C * option error;
  clusterRole_Create : C -> C * option error;
  clusterRoleBinding_Create : C -> C * option error;
  node_exporter_SSH : node -> C -> C * option error;
  windows_List : C -> C * result (list string);          (* provider ids *)
  gcloud_SSH : string -> string -> string -> string -> C -> C * option error;
  targets_Get : C -> C * result string;
  targets_Unmarshal : string -> result (list Target);
  promPVs_List : C -> C * result (list promPV);
  gcloud_Snapshot : string -> string -> string -> string -> C -> C * option (error * string);  (* error, output *)
  gcloud_Delete : string -> string -> string -> C -> C * option (error * string);
}.

Section Stack.
Context {C : Type} `{GoLib} `{ApiErrors} `{Backoff} `{NamespaceServer C} `{ClusterServer C} `{PromServer C}.
Context (fl : SnapshotFlags).

Definition namespace : string := "monitoring".

(** An operation on the controller and the cluster. *)
Definition action : Type := Controller * C -> (Controller * C) * outcome unit.

Definition on_cluster (f : C -> C * option error) : action := fun '(pc, c) =>
  let '(c', err) := f c in
  ((pc, c'), match err with None => Returns tt | Some e => Fails e end).

(** One after the other, up to the first failure. *)
Fixpoint in_order (l : list action) : action := fun s =>
  match l with
  | [] => (s, Returns tt)
  | a :: l' => match a s with
               | (s', Returns _) => in_order l' s'
               | r => r
               end
  end.

Definition when (b : bool) (a : action) : action := if b then a else fun s => (s, Returns tt).

Definition retryCreateFunction (f : C -> C * option error) (c : C) : C * option error :=
  RetryWithExponentialBackOff (RetryFunction f [Allow IsAlreadyExists]) c.

Definition retryCreateFunctionWithResponse (f : C -> C * result string) (c : C) : C * result string :=
  let '(cr, err) :=
    ExponentialBackoff retryBackoffSteps
      (RetryFunction (fun cr : C * string =>
         match f cr.1 with
         | (c', Err e) => ((c', ""), Some e)
         | (c', Ok r) => ((c', r), None)
         end) [Allow IsAlreadyExists]) (c, "") in
  (cr.1, match err with Some e => Err e | None => Ok cr.2 end).

(** The closure [token]. *)
Definition new_token (c : C) : C * result string :=
  match sa_CreateToken c with
  | (c', Err err) => (c', Err (Errorf "failed to create token: %v" [AErr err]))
  | (c', Ok t) => if String.eqb t "" then (c', Err (Errorf "failed to create token: no token in server response" []))
                  else (c', Ok t)
  end.

Definition createPrometheusSecretForExistingServiceAccount (token : string) (c : C) : C * option error :=
  match secret_Get c with
  | (c1, None) =>
      match secret_Update token c1 with
      | (c2, Some e) => (c2, Some (Errorf "failed to update secret %s in namespace %s: %w"
                                     [AStr "prometheus-token"; AStr namespace; AWrap e]))
      | (c2, None) => (c2, None)
      end
  | (c1, Some inErr) =>
      if IsNotFound inErr then
        match secret_Create token c1 with
        | (c2, Some e) => (c2, Some (Errorf "failed to create secret %s in namespace %s: %w"
                                       [AStr "prometheus-token"; AStr namespace; AWrap e]))
        | (c2, None) => (c2, None)
        end
      else (c1, Some inErr)
  end.

Definition createToken (c : C) : C * option error :=
  match sa_Get c with
  | (c1, None) =>
      match retryCreateFunctionWithResponse new_token c1 with
      | (c2, Err err) => (c2, Some err)
      | (c2, Ok token) => createPrometheusSecretForExistingServiceAccount token c2
      end
  | (c1, Some err) =>
      if negb (IsNotFound err) then (c1, Some err)
      else match retryCreateFunction sa_Create c1 with
           | (c2, Some err) => (c2, Some err)
           | (c2, None) =>
               match retryCreateFunctionWithResponse new_token c2 with
               | (c3, Err err) => (c3, Some err)
               | (c3, Ok token) => secret_Create token c3
               end
           end
  end.

Definition configureRBACForMetrics (c : C) : C * option error :=
  match retryCreateFunction clusterRole_Create c with
  | (c1, Some err) => (c1, Some err)
  | (c1, None) => retryCreateFunction clusterRoleBinding_Create c1
  end.

(** [errgroup]: every function runs, the first error to arrive is returned. *)
Fixpoint run_group (fs : list (C -> C * option error)) (first : option error) (c : C) : C * option error :=
  match fs with
  | [] => (c, first)
  | f :: fs' =>
      let '(c', err) := f c in
      run_group fs' (match first with Some _ => first | None => err end) c'
  end.

(** [order]: the order the goroutines are run in. *)
Definition runNodeExporter (order : list node -> list node) (c : C) : C * option error :=
  match prom_NewFramework c with
  | (c1, Some err) => (c1, Some err)
  | (c1, None) =>
      match client_ListNodes c1 with
      | (c2, (_, Some err)) => (c2, Some err)
      | (c2, (nodes, None)) =>
          let masters := filter (fun n => IsControlPlaneNode n = true) nodes in
          match run_group (node_exporter_SSH <$> order masters) None c2 with
          | (c3, err) =>
              match masters with
              | [] => (c3, Some (Errorf "node-exporter requires master to be registered nodes" []))
              | _ => (c3, err)
              end
          end
      end
  end.

(** *** Windows nodes (gce_windows_util.go) *)

Record gceNode := mkGceNode { projectID : string; gce_zone : string; nodeName : string }.

Definition isWindowsNodeScrapingEnabled (mapping : params) (p : Provider) : outcome bool :=
  match mapping !! "WINDOWS_NODE_TEST" with
  | None => Returns false
  | Some (VBool b) => Returns (b && prov_Features p SupportWindowsNodeScraping)
  | Some _ => Panics
  end.

Definition getGceWindowsNodeFromKubernetesService (c : C) : C * result gceNode :=
  match client_list windows_List c with
  | (c', (_, Some err)) => (c', Err err)
  | (c', ([], None)) => (c', Err (Errorf "no windows nodes available in kubernetes service" []))
  | (c', (providerID :: _, None)) =>
      match Split "/" providerID with
      | _ :: _ :: p :: z :: n :: _ => (c', Ok (mkGceNode p z n))
      | _ => (c', Err (Errorf "no valid gce provider ID available" []))
      end
  end.

Definition installWmiExporterRetryTimes : nat := 6.

Fixpoint install_loop (times : nat) (f : C -> C * option error) (err : option error) (c : C) : C * option error :=
  match times with
  | O => (c, err)
  | S times' => match f c with
                | (c', None) => (c', None)
                | (c', Some e) => install_loop times' f (Some e) c'
                end
  end.

(** [cmd url collectors]: the PowerShell command. *)
Definition installWmiExporter (cmd : string -> string -> string) (windowsNode : gceNode) (mapping : params) (c : C)
  : C * option error :=
  match mapping !! "CL2_WMI_EXPORTER_URL" with
  | None => (c, Some (Errorf "missing setting up wmi exporter download url" []))
  | Some url =>
      match mapping !! "CL2_WMI_EXPORTER_ENABLED_COLLECTORS" with
      | None => (c, Some (Errorf "missing setting up wmi exporter enabled collectors" []))
      | Some collectors =>
          install_loop installWmiExporterRetryTimes
            (gcloud_SSH (projectID windowsNode) (gce_zone windowsNode) (nodeName windowsNode)
               (cmd (Sprint url) (Sprint collectors))) None c
      end
  end.

Definition set_mapping (pc : Controller) (m : params) : Controller :=
  mkController (pc_config pc) (pc_provider pc) m (diskMetadata pc) (snapshotted pc) (snapshotError pc).

Definition setUpWindowsNodeAndTemplate (cmd : string -> string -> string) : action := fun '(pc, c) =>
  match getGceWindowsNodeFromKubernetesService c with
  | (c1, Err err) => ((pc, c1), Fails err)
  | (c1, Ok windowsNode) =>
      match installWmiExporter cmd windowsNode (pc_templateMapping pc) c1 with
      | (c2, Some err) => ((pc, c2), Fails err)
      | (c2, None) =>
          ((set_mapping pc (<["PROMETHEUS_SCRAPE_WINDOWS_NODES" := VBool true]>
              (<["WINDOWS_NODE_NAME" := VString (nodeName windowsNode)]> (pc_templateMapping pc))), c2), Returns tt)
      end
  end.

Definition windows_backward_compatible (cmd : string -> string -> string) : action := fun s =>
  match isWindowsNodeScrapingEnabled (pc_templateMapping s.1) (pc_provider s.1) with
  | Returns true => setUpWindowsNodeAndTemplate cmd s
  | Returns false => (s, Returns tt)
  | Fails e => (s, Fails e)
  | Panics => (s, Panics)
  end.

(** *** The disk of Prometheus (experimental.go) *)

(** A match of projects/P/zones/Z/disks/N in a volume handle, by the segments
    between slashes. *)
Definition ends_in (suffix s : string) : bool := HasSuffix s suffix && (String.length suffix <=? String.length s)%nat.

Fixpoint csi_match (segments : list string) : option (string * string) :=
  match segments with
  | a :: (p :: zs :: z :: ds :: n :: _) as rest =>
      if ends_in "projects" a && negb (String.eqb p "") && String.eqb zs "zones" && negb (String.eqb z "")
         && String.eqb ds "disks" && negb (String.eqb n "")
      then Some (n, z)
      else csi_match rest
  | _ => None
  end.

Definition nameAndZone (pv : promPV) : result (string * string) :=
  match pv_GCE pv with
  | Some name =>
      let zone := default "" (pv_Labels pv !! "topology.kubernetes.io/zone") in
      let zone := if String.eqb zone "" then default "" (pv_Labels pv !! "failure-domain.beta.kubernetes.io/zone") else zone in
      Ok (name, zone)
  | None =>
      match pv_CSI pv with
      | Some handle =>
          match csi_match (Split "/" handle) with
          | Some nz => Ok nz
          | None => Err (Errorf "unexpected format of volumeHandle: %q" [AStr handle])
          end
      | None => Err (Errorf "unknown pv type: %+v" [AStr (pv_ClaimName pv)])
      end
  end.

(** The last bound volume of Prometheus' claim counts. *)
Fixpoint find_disk (pvs : list promPV) (found : string * string) : result (string * string) :=
  match pvs with
  | [] => Ok found
  | pv :: pvs' =>
      if negb (String.eqb (pv_ClaimName pv) "prometheus-k8s-db-prometheus-k8s-0") then find_disk pvs' found
      else if negb (pv_Bound pv) then find_disk pvs' found
      else match nameAndZone pv with
           | Err err => Err (Errorf "failed to extract name and value from pv: %w" [AWrap err])
           | Ok nz => find_disk pvs' nz
           end
  end.

Definition set_disk (pc : Controller) (d : string * string) : Controller :=
  mkController (pc_config pc) (pc_provider pc) (pc_templateMapping pc) d (snapshotted pc) (snapshotError pc).

Definition no_disk (d : string * string) : bool := String.eqb d.1 "" || String.eqb d.2 "".

(** One round of the poll: done, or the error that stops it. *)
Definition tryRetrievePrometheusDiskMetadata (s : Controller * C) : (Controller * C) * (bool * option error) :=
  match promPVs_List s.2 with
  | (c', Err _) => ((s.1, c'), (false, None))
  | (c', Ok pvs) =>
      match find_disk pvs ("", "") with
      | Err err => ((s.1, c'), (false, Some err))
      | Ok d => if no_disk d then ((s.1, c'), (true, None)) else ((set_disk s.1 d, c'), (true, None))
      end
  end.

(** [wait.Poll] on the controller's state: at most [rounds] tries. *)
Fixpoint poll_try {S} (rounds : nat) (f : S -> S * (bool * option error)) (s : S) : S * option error :=
  match rounds with
  | O => (s, Some ErrWaitTimeout)
  | Datatypes.S rounds' =>
      match f s with
      | (s', (_, Some err)) => (s', Some err)
      | (s', (true, None)) => (s', None)
      | (s', (false, None)) => poll_try rounds' f s'
      end
  end.

(** The numbers of tries that fit into the timeouts. *)
Definition metadata_rounds : nat := 12.    (* 2 minutes, every 10 seconds *)
Definition snapshot_rounds : nat := 15.    (* 5 minutes, every 20 seconds *)
Definition delete_rounds : nat := 6.       (* 2 minutes, every 20 seconds *)

Definition cachePrometheusDiskMetadataIfEnabled (s : Controller * C) : (Controller * C) * option error :=
  match isEnabled fl (pc_provider s.1) with
  | (false, err) => (s, err)
  | (true, _) => poll_try metadata_rounds tryRetrievePrometheusDiskMetadata s
  end.

Definition unknown_project : error := Errorf "unknown project - please set --experimental-snapshot-project flag" [].

Definition trySnapshotPrometheusDisk (pc : Controller) (pdName snapshotName zone : string) (c : C) : C * option error :=
  let project := SnapshotProject (pc_config pc) in
  if String.eqb project "" then (c, Some unknown_project)
  else match gcloud_Snapshot pdName project zone snapshotName c with
       | (c', Some (err, output)) =>
           (c', Some (Errorf ("creating disk snapshot failed: %v" +:+ newline +:+ "Command output: %q")
                        [AErr err; AStr output]))
       | (c', None) => (c', None)
       end.

Definition tryDeletePrometheusDisk (pc : Controller) (pdName zone : string) (c : C) : C * option error :=
  let project := SnapshotProject (pc_config pc) in
  if String.eqb project "" then (c, Some unknown_project)
  else match gcloud_Delete pdName project zone c with
       | (c', Some (err, output)) =>
           (c', Some (Errorf ("deleting disk failed: %v" +:+ newline +:+ "Command output: %q")
                        [AErr err; AStr output]))
       | (c', None) => (c', None)
       end.

(** Errors are logged and the poll goes on. *)
Definition retried (f : C -> C * option error) (c : C) : C * (bool * option error) :=
  let '(c', err) := f c in (c', (match err with None => true | Some _ => false end, None)).

Definition snapshotPrometheusDiskIfEnabled (s : Controller * C) : C * option error :=
  let '(pc, c) := s in
  match isEnabled fl (pc_provider pc) with
  | (false, err) => (c, err)
  | (true, _) =>
      if no_disk (diskMetadata pc) then (c, Some (Errorf "missing zone or PD name, aborting snapshot" []))
      else
        let snapshotName :=
          if String.eqb (prometheusDiskSnapshotName fl) "" then (diskMetadata pc).1
          else match VerifySnapshotName (prometheusDiskSnapshotName fl) with
               | None => prometheusDiskSnapshotName fl
               | Some _ => (diskMetadata pc).1
               end in
        poll_try snapshot_rounds
          (retried (trySnapshotPrometheusDisk pc (diskMetadata pc).1 snapshotName (diskMetadata pc).2)) c
  end.

(** Under [snapshotLock]. *)
Definition snapshotPrometheusDiskIfEnabledSynchronized (s : Controller * C) : (Controller * C) * option error :=
  let '(pc, c) := s in
  if snapshotted pc then (s, snapshotError pc)
  else
    let '(c', err) := snapshotPrometheusDiskIfEnabled (pc, c) in
    ((mkController (pc_config pc) (pc_provider pc) (pc_templateMapping pc) (diskMetadata pc) true err, c'), err).

Definition deletePrometheusDiskIfEnabled (s : Controller * C) : C * option error :=
  let '(pc, c) := s in
  match isEnabled fl (pc_provider pc) with
  | (false, err) => (c, err)
  | (true, _) =>
      if no_disk (diskMetadata pc) then (c, Some (Errorf "missing zone or PD name, aborting deletion" []))
      else poll_try delete_rounds (retried (tryDeletePrometheusDisk pc (diskMetadata pc).1 (diskMetadata pc).2)) c
  end.

(** *** Set-up and tear down *)

Definition isPrometheusReady_now (pc : Controller) (c : C) : C * (bool * option error) :=
  let '(c1, answer1) := targets_Get c in
  if ScrapeEtcd (pc_config pc) then
    match CheckAllTargetsReady targets_Unmarshal answer1 (fun t => negb (etcd_target t)) 4 with
    | (true, None) =>
        let '(c2, answer2) := targets_Get c1 in
        (c2, isPrometheusReady targets_Unmarshal true answer1 answer2)
    | r => (c1, r)
    end
  else (c1, isPrometheusReady targets_Unmarshal false answer1 answer1).

Definition waitForPrometheusToBeHealthy (pc : Controller) (c : C) : C * option error :=
  PollImmediate (30 * Duration.Second) (ReadyTimeout (pc_config pc)) (isPrometheusReady_now pc) c.

Definition applyDefaultManifests (manifestGlob : string) : action := fun '(pc, c) =>
  on_cluster (ApplyTemplatedManifests Embedded manifestGlob (pc_templateMapping pc)) (pc, c).

Definition applyManifests (path manifestGlob : string) : action := fun '(pc, c) =>
  on_cluster (ApplyTemplatedManifests (Directory path) manifestGlob (pc_templateMapping pc)) (pc, c).

Definition SetUpPrometheusStack (cmd : string -> string -> string) (order : list node -> list node) : action :=
  fun s =>
  let cfg := pc_config s.1 in
  let features := prov_Features (pc_provider s.1) in
  in_order
    [ on_cluster prom_TestClient;
      on_cluster (fun c => client_CreateNamespace c namespace);
      on_cluster createToken;
      on_cluster (DeleteStorageClass "ssd");
      applyDefaultManifests "*.yaml";
      when (ScrapeNodeExporter cfg) (on_cluster (runNodeExporter order));
      (if ScrapeWindowsNodeExporter cfg then applyDefaultManifests "exporters/windows_node_exporter/*.yaml"
       else windows_backward_compatible cmd);
      when (negb (features IsKubemarkProvider)) (applyDefaultManifests "default/*.yaml");
      when (ScrapeKubeStateMetrics cfg && features SupportKubeStateMetrics)
        (applyDefaultManifests "exporters/kube-state-metrics/*.yaml");
      when (ScrapeMetricsServerMetrics cfg && features SupportMetricsServerMetrics)
        (applyDefaultManifests "exporters/metrics-server/*.yaml");
      when (bool_decide (is_Some (pc_templateMapping s.1 !! "MasterIps")))
        (in_order [on_cluster configureRBACForMetrics; applyDefaultManifests "master-ip/*.yaml"]);
      when (EnablePushgateway cfg) (applyDefaultManifests "pushgateway/*.yaml");
      when (negb (String.eqb (AdditionalMonitorsPath cfg) ""))
        (applyManifests (AdditionalMonitorsPath cfg) "*.yaml");
      (fun '(pc, c) => on_cluster (waitForPrometheusToBeHealthy pc) (pc, c));
      (fun s => ((cachePrometheusDiskMetadataIfEnabled s).1, Returns tt)) ] s.

Definition DefaultNamespaceDeletionTimeout : Z := 10 * Duration.Minute.

(** The deferred function runs whatever happens to the namespace. *)
Definition TearDownPrometheusStack (s : Controller * C) : (Controller * C) * option error :=
  let '(pc, c) := (cachePrometheusDiskMetadataIfEnabled s).1 in
  let '(c, err) :=
    match client_DeleteNamespace c namespace with
    | (c, Some err) => (c, Some err)
    | (c, None) => WaitForDeleteNamespace c namespace DefaultNamespaceDeletionTimeout
    end in
  let '((pc, c), _) := snapshotPrometheusDiskIfEnabledSynchronized (pc, c) in
  let '(c, _) := deletePrometheusDiskIfEnabled (pc, c) in
  ((pc, c), err).

(** *** One snapshot *)

(** The callers of the synchronized snapshot (tear down and the interrupt
    handler) in the order they get the lock. *)
Fixpoint snapshot_calls (n : nat) (s : Controller * C) : (Controller * C) * list (option error) :=
  match n with
  | O => (s, [])
  | S n' =>
      let '(s1, r) := snapshotPrometheusDiskIfEnabledSynchronized s in
      let '(s2, rs) := snapshot_calls n' s1 in (s2, r :: rs)
  end.

Lemma snapshot_calls_done n pc c :
  snapshotted pc = true -> snapshot_calls n (pc, c) = ((pc, c), replicate n (snapshotError pc)).
Proof. intros Hd. induction n as [|n IH]; [done|]. cbn. rewrite Hd. by rewrite IH. Qed.

(** However many goroutines ask for it, the disk of Prometheus is
    snapshotted at most once: the first caller makes the attempt, the cluster
    is as that single attempt left it, and every caller gets its result. *)
Theorem snapshot_made_once n pc c c' err :
  snapshotted pc = false -> snapshotPrometheusDiskIfEnabled (pc, c) = (c', err) ->
  exists pc', snapshot_calls (S n) (pc, c) = ((pc', c'), replicate (S n) err) /\
    snapshotted pc' = true /\ diskMetadata pc' = diskMetadata pc.
Proof.
  intros Hn Hs. cbn [snapshot_calls]. unfold snapshotPrometheusDiskIfEnabledSynchronized. rewrite Hn, Hs.
  rewrite snapshot_calls_done by done. by eexists.
Qed.

End Stack.

(** ** Readiness *)

Definition selected (selector : Target -> bool) (targets : list Target) : Z := count selector targets.
Definition up (selector : Target -> bool) (targets : list Target) : Z :=
  count (fun t => selector t && String.eqb (t_Health t) "up") targets.

Lemma count_targets selector targets r t :
  fold_left (fun '(nReady, nTotal) t =>
    if negb (selector t) then (nReady, nTotal)
    else if String.eqb (t_Health t) "up" then (nReady + 1, nTotal + 1)
    else (nReady, nTotal + 1)) targets (r, t) = (r + up selector targets, t + selected selector targets).
Proof.
  unfold up, selected. revert r t. induction targets as [|x l IH]; intros r t; [unfold count; cbn; f_equal; lia|].
  rewrite !count_cons. cbn [fold_left]. destruct (selector x); cbn [negb andb].
  - destruct (String.eqb (t_Health x) "up"); rewrite IH; f_equal; lia.
  - rewrite IH. f_equal; lia.
Qed.

Lemma up_le_selected selector targets : up selector targets <= selected selector targets.
Proof.
  unfold up, selected. induction targets as [|x l IH]; [done|]. rewrite !count_cons.
  destruct (selector x), (String.eqb (t_Health x) "up"); cbn [andb]; lia.
Qed.

Lemma CheckTargetsReady_iff Unmarshal answer selector minActive minReady :
  CheckTargetsReady Unmarshal answer selector minActive minReady = (true, None) <->
  exists raw targets, answer = Ok raw /\ Unmarshal raw = Ok targets /\
    minActive <= selected selector targets /\
    (if decide (minReady = allTargets) then up selector targets = selected selector targets
     else minReady <= up selector targets).
Proof.
  unfold CheckTargetsReady. destruct answer as [raw|err]; [|split; [done|by intros (? & ? & [=] & _)]].
  destruct (Unmarshal raw) as [targets|err] eqn:Hu.
  2:{ split; [done|]. intros (raw' & ts & [= <-] & Hts & _). congruence. }
  rewrite count_targets, !Z.add_0_l.
  pose proof (up_le_selected selector targets) as Hle.
  destruct (Z.ltb_spec (selected selector targets) minActive) as [Hlt|Hge].
  { split; [done|]. intros (raw' & ts & [= <-] & Hts & Hm & _). assert (ts = targets) as -> by congruence. lia. }
  destruct (Z.eqb_spec minReady allTargets) as [->|Hne]; case_match eqn:Hr;
    [apply Z.ltb_lt in Hr|apply Z.ltb_ge in Hr|apply Z.ltb_lt in Hr|apply Z.ltb_ge in Hr].
  1,3: split; [done|]; intros (raw' & ts & [= <-] & Hts & _ & Hup);
    assert (ts = targets) as -> by congruence; case_decide; lia.
  all: split; [intros _|done]; exists raw, targets; split_and!; [done|done|done|]; case_decide; lia.
Qed.

(** When the Prometheus stack counts as healthy. Without etcd scraping:
    the server lists at least four targets and every one is up. With it: at
    least four targets other than etcd's, all of them up, and in the second
    answer at least two etcd targets (one per port etcd may use) of which at
    least one is up. *)
Theorem prometheus_ready_iff Unmarshal scrapeEtcd answer1 answer2 :
  isPrometheusReady Unmarshal scrapeEtcd answer1 answer2 = (true, None) <->
  let other t := if scrapeEtcd then negb (etcd_target t) else true in
  (exists raw targets, answer1 = Ok raw /\ Unmarshal raw = Ok targets /\
     4 <= selected other targets /\ up other targets = selected other targets) /\
  (scrapeEtcd = true ->
   exists raw targets, answer2 = Ok raw /\ Unmarshal raw = Ok targets /\
     2 <= selected etcd_target targets /\ 1 <= up etcd_target targets).
Proof.
  cbn zeta. unfold isPrometheusReady, CheckAllTargetsReady. destruct scrapeEtcd.
  - destruct (CheckTargetsReady Unmarshal answer1 (fun t => negb (etcd_target t)) 4 allTargets) as [b e] eqn:H1.
    assert ((b = true /\ e = None) <-> exists raw targets, answer1 = Ok raw /\ Unmarshal raw = Ok targets /\
      4 <= selected (fun t => negb (etcd_target t)) targets /\
      up (fun t => negb (etcd_target t)) targets = selected (fun t => negb (etcd_target t)) targets) as Hbe.
    { rewrite <- (CheckTargetsReady_iff Unmarshal answer1 (fun t => negb (etcd_target t)) 4 allTargets), H1.
      split; [by intros [-> ->]|by intros [= -> ->]]. }
    rewrite <- Hbe. destruct b, e as [err|]; try (split; [by intros [=]|by intros [[[=] [=]] _]]).
    rewrite CheckTargetsReady_iff. split.
    + intros (raw & ts & Ha & Hu & Hs & Hr). split; [done|]. intros _. by exists raw, ts.
    + intros [_ Hx]. destruct (Hx eq_refl) as (raw & ts & Ha & Hu & Hs & Hr). by exists raw, ts.
  - rewrite CheckTargetsReady_iff. split.
    + intros (raw & ts & Ha & Hu & Hs & Hr). split; [|done]. by exists raw, ts.
    + intros [(raw & ts & Ha & Hu & Hs & Hr) _]. by exists raw, ts.
Qed.

(** ** The manifests and the configuration agree *)

Definition overridable (v : option value) : bool :=
  match v with None | Some (VBool _) => true | Some _ => false end.

Definition overridden (v : option value) (flag : bool) : bool :=
  match v with Some (VBool b) => b | _ => flag end.

Lemma legacy_flag_eq key flag m :
  legacy_flag key flag m =
  if overridable (m !! key) then
    Returns (<[key := VBool (overridden (m !! key) flag)]> m, overridden (m !! key) flag)
  else Panics.
Proof.
  unfold legacy_flag. destruct (m !! key) as [[]|] eqn:Hk; try done. cbn. by rewrite insert_id.
Qed.

(** The overridable settings: key of the mapping, value before, value after. *)
Definition legacy_settings (prov : Provider) (p p' : PrometheusConfig) : list (string * bool * bool) :=
  [("PROMETHEUS_SCRAPE_ETCD", ScrapeEtcd p, ScrapeEtcd p');
   ("PROMETHEUS_SCRAPE_NODE_EXPORTER", ScrapeNodeExporter p, ScrapeNodeExporter p');
   ("PROMETHEUS_SCRAPE_WINDOWS_NODE_EXPORTER", ScrapeWindowsNodeExporter p, ScrapeWindowsNodeExporter p');
   ("PROMETHEUS_SCRAPE_KUBE_PROXY", prov_Features prov ShouldScrapeKubeProxy, ScrapeKubeProxy p');
   ("PROMETHEUS_SCRAPE_ANET", ScrapeAnet p, ScrapeAnet p');
   ("PROMETHEUS_SCRAPE_KUBE_NETWORK_POLICIES", ScrapeNetworkPolicies p, ScrapeNetworkPolicies p')].

(** C23: The controller's manifests and its own decisions use the same
    settings. For each of the six overridable settings, whether it comes from
    the command line (for kube-proxy: from the provider, the flag is ignored)
    or from an override file, the value in the template mapping is the value
    of the configuration afterwards; a value from a file wins, and NewController
    panics if it is not a boolean. *)
Theorem controller_settings_agree fl p prov mapping ips :
  let r := NewController fl p prov None (Some mapping, None) ips in
  (forall pc, r = Returns pc ->
     Forall (fun '(key, before, after) =>
       pc_templateMapping pc !! key = Some (VBool after) /\
       after = overridden (mapping !! key) before)
     (legacy_settings prov p (pc_config pc))) /\
  (r = Panics <-> Exists (fun '(key, _, _) => overridable (mapping !! key) = false) (legacy_settings prov p p)) /\
  (forall err, r <> Fails err).
Proof.
  cbn zeta. unfold NewController.
  set (m0 := match _ !! "PROMETHEUS_SCRAPE_APISERVER_ONLY" with Some _ => _ | None => _ end).
  assert (forall k, k <> "MasterIps" -> k <> "PROMETHEUS_SCRAPE_APISERVER_ONLY" -> m0 !! k = mapping !! k) as Hm0.
  { intros k H1 H2. unfold m0. destruct ips as [ips|err]; case_match;
      repeat first [rewrite lookup_insert_ne by done|rewrite lookup_delete_ne by done]; done. }
  unfold legacy_settings. rewrite !Exists_cons, Exists_nil. clearbody m0.
  rewrite (legacy_flag_eq "PROMETHEUS_SCRAPE_ETCD"), Hm0 by done.
  destruct (overridable (mapping !! "PROMETHEUS_SCRAPE_ETCD")) eqn:O1; cbn [mbind outcome_bind]; [|split_and!; [done|split; [tauto|done]|done]].
  rewrite (legacy_flag_eq "PROMETHEUS_SCRAPE_NODE_EXPORTER"), lookup_insert_ne, Hm0 by done.
  destruct (overridable (mapping !! "PROMETHEUS_SCRAPE_NODE_EXPORTER")) eqn:O2; cbn [mbind outcome_bind]; [|split_and!; [done|split; [tauto|done]|done]].
  rewrite (legacy_flag_eq "PROMETHEUS_SCRAPE_WINDOWS_NODE_EXPORTER"), !lookup_insert_ne, Hm0 by done.
  destruct (overridable (mapping !! "PROMETHEUS_SCRAPE_WINDOWS_NODE_EXPORTER")) eqn:O3; cbn [mbind outcome_bind]; [|split_and!; [done|split; [tauto|done]|done]].
  rewrite (legacy_flag_eq "PROMETHEUS_SCRAPE_KUBE_PROXY"), !lookup_insert_ne, Hm0 by done.
  destruct (overridable (mapping !! "PROMETHEUS_SCRAPE_KUBE_PROXY")) eqn:O4; cbn [mbind outcome_bind]; [|split_and!; [done|split; [tauto|done]|done]].
  rewrite (legacy_flag_eq "PROMETHEUS_SCRAPE_ANET"), !lookup_insert_ne, Hm0 by done.
  destruct (overridable (mapping !! "PROMETHEUS_SCRAPE_ANET")) eqn:O5; cbn [mbind outcome_bind]; [|split_and!; [done|split; [tauto|done]|done]].
  rewrite (legacy_flag_eq "PROMETHEUS_SCRAPE_KUBE_NETWORK_POLICIES"), !lookup_insert_ne, Hm0 by done.
  destruct (overridable (mapping !! "PROMETHEUS_SCRAPE_KUBE_NETWORK_POLICIES")) eqn:O6; cbn [mbind outcome_bind]; [|split_and!; [done|split; [tauto|done]|done]].
  split; [|split; [split; [done|]|done]]; last first.
  { intros Hx. repeat destruct Hx as [Hx|Hx]; done. }
  intros pc [= <-]. unfold fixed_settings. cbn [pc_templateMapping pc_config ScrapeEtcd ScrapeNodeExporter
    ScrapeWindowsNodeExporter ScrapeKubeProxy ScrapeAnet ScrapeNetworkPolicies].
  repeat constructor; repeat first [rewrite lookup_insert_eq|rewrite lookup_insert_ne by done]; done.
Qed.

(** ** An example: a server that counts the snapshots *)

Definition counting_server : PromServer nat := {|
  prom_TestClient := fun c => (c, None);
  prom_NewFramework := fun c => (c, None);
  DeleteStorageClass := fun _ c => (c, None);
  ApplyTemplatedManifests := fun _ _ _ c => (c, None);
  sa_Get := fun c => (c, None);
  sa_Create := fun c => (c, None);
  sa_CreateToken := fun c => (c, Ok "token");
  secret_Get := fun c => (c, None);
  secret_Create := fun _ c => (c, None);
  secret_Update := fun _ c => (c, None);
  clusterRole_Create := fun c => (c, None);
  clusterRoleBinding_Create := fun c => (c, None);
  node_exporter_SSH := fun _ c => (c, None);
  windows_List := fun c => (c, Ok []);
  gcloud_SSH := fun _ _ _ _ c => (c, None);
  targets_Get := fun c => (c, Ok "");
  targets_Unmarshal := fun _ => Ok [];
  promPVs_List := fun c => (c, Ok []);
  gcloud_Snapshot := fun _ _ _ _ c => (S c, None);
  gcloud_Delete := fun _ _ _ c => (c, None);
|}.

Definition ex_controller : Controller :=
  mkController
    (mkPrometheusConfig true true false false false false false false true "component" false false false false false
       false 443 "project" "" "" "" "ssd" 0 "10Gi")
    (NewGCEProvider ∅) ∅ ("disk", "zone") false None.

Lemma snapshot_made_once_witness :
  exists pc', @snapshot_calls nat simple_backoff counting_server (mkSnapshotFlags true false "") 3 (ex_controller, 0%nat)
    = ((pc', 1%nat), [None; None; None]).
Proof.
  destruct (@snapshot_made_once nat simple_backoff counting_server (mkSnapshotFlags true false "") 2
              ex_controller 0%nat 1%nat None eq_refl eq_refl) as (pc' & Hc & _).
  exists pc'. exact Hc.
Defined.
