(* ===== verification/Measurements.v ===== *)
(** * Measurements on timers and Prometheus queries
      (pkg/measurement/common/{timer,generic_query_measurement,container_restarts}.go)

    The phase timer, the generic Prometheus query with its thresholds, and the
    container restart counts. The last two are gatherers, run by the Prometheus
    measurement (Prometheus). YAML and JSON decoding and the regular
    expressions are parameters; [None] is a panic. *)

From S2P Require Import Prelude GoErrors GoRuntime Params Measurement Float64 FloatInt Latency Prometheus ApiResponsiveness.
From Stdlib Require Import SpecFloat.

(** [strings.ReplaceAll] of one character, and of a pattern of two. *)
Fixpoint replace_char (old : ascii) (new s : string) : string :=
  match s with
  | EmptyString => ""
  | String a t => if Ascii.eqb a old then new +:+ replace_char old new t else String a (replace_char old new t)
  end.

Fixpoint replace_pair (a b : ascii) (new s : string) : string :=
  match s with
  | String x ((String y t) as u) =>
      if Ascii.eqb x a && Ascii.eqb y b then new +:+ replace_pair a b new t else String x (replace_pair a b new u)
  | _ => s
  end.

(** [Duration.Seconds]. *)
Definition Seconds (d : Z) : float64 :=
  f64_add (f64_of_Z (Z.quot d Latency.Second)) (f64_div (f64_of_Z (Z.rem d Latency.Second)) (f64_of_Z (10 ^ 9))).

(** [math.Round]: half away from zero. *)
Definition f64_round (x : float64) : float64 :=
  match x with
  | S754_finite s m e =>
      if 0 <=? e then x
      else
        let d := 2 ^ (- e) in
        let a := (2 * Z.pos m + d) / (2 * d) in
        binary_normalize 53 1024 (if s then - a else a) 0 s
  | _ => x
  end.

(** ** The timer *)
Module Timer.
Section Timer.
Context `{GoLib} `{MapRange} (PrettyPrintJSON : PerfData -> result string).

Definition timerMeasurementName : string := "Timer".

Record timer := mkTimer { startTimes : gmap string Z; durations : gmap string Z }.

Definition createTimerMeasurment : timer := mkTimer ∅ ∅.

Fixpoint fill_data (l : list (string * Z)) (data : gmap string float64) : gmap string float64 :=
  match l with
  | [] => data
  | (label, duration) :: l' => fill_data l' (<[label := Seconds duration]> data)
  end.

(** [now]: the clock; under the lock of the timer. *)
Definition Execute (config : MeasurementConfig) (now : Z) (t : timer) : timer * (list Summary * option error) :=
  match getString (cfg_Params config) "action" with
  | (_, Some err) => (t, ([], Some err))
  | (action, None) =>
      if String.eqb action "start" then
        match getString (cfg_Params config) "label" with
        | (_, Some err) => (t, ([], Some err))
        | (label, None) => (mkTimer (<[label := now]> (startTimes t)) (durations t), ([], None))
        end
      else if String.eqb action "stop" then
        match getString (cfg_Params config) "label" with
        | (_, Some err) => (t, ([], Some err))
        | (label, None) =>
            match startTimes t !! label with
            | None => (t, ([], Some (Errorf "uninitialized timer %s" [AStr label])))
            | Some startTime =>
                let duration := Time_Sub now startTime in
                (mkTimer (delete label (startTimes t)) (<[label := duration]> (durations t)), ([], None))
            end
        end
      else if String.eqb action "gather" then
        let result := mkPerfData "v1"
          [mkDataItem (fill_data (range "timer" (durations t)) ∅) "s" {[ "test" := "phases" ]}] ∅ in
        match PrettyPrintJSON result with
        | Err err => (t, ([], Some err))
        | Ok content => (t, ([CreateSummary now timerMeasurementName "json" content], None))
        end
      else (t, ([], Some (Errorf "unknown action %s" [AStr action])))
  end.

(** *** What a timer measures *)

Fixpoint run (calls : list (MeasurementConfig * Z)) (t : timer) : timer :=
  match calls with
  | [] => t
  | (config, now) :: calls' => run calls' (Execute config now t).1
  end.

(** A call as seen by one label: it starts the label, stops it, or is not
    about it. *)
Inductive label_event := Started (now : Z) | Stopped (now : Z).

Definition event_of (label : string) (call : MeasurementConfig * Z) : option label_event :=
  match getString (cfg_Params call.1) "action", getString (cfg_Params call.1) "label" with
  | (action, None), (l, None) =>
      if String.eqb l label then
        if String.eqb action "start" then Some (Started call.2)
        else if String.eqb action "stop" then Some (Stopped call.2)
        else None
      else None
  | _, _ => None
  end.

(** The label's own history: its pending start and its last duration. *)
Definition label_step (s : option Z * option Z) (e : label_event) : option Z * option Z :=
  match e, s with
  | Started now, (_, d) => (Some now, d)
  | Stopped now, (Some start, _) => (None, Some (Time_Sub now start))
  | Stopped _, (None, d) => (None, d)
  end.

Lemma Execute_label config now t label :
  let t' := (Execute config now t).1 in
  (startTimes t' !! label, durations t' !! label) =
  match event_of label (config, now) with
  | Some e => label_step (startTimes t !! label, durations t !! label) e
  | None => (startTimes t !! label, durations t !! label)
  end.
Proof.
  cbn zeta. unfold Execute, event_of. cbn [fst snd].
  destruct (getString (cfg_Params config) "action") as [action [e|]]; [done|].
  destruct (String.eqb_spec action "start") as [->|Hs].
  { destruct (getString (cfg_Params config) "label") as [l [e|]]; [done|].
    destruct (String.eqb_spec l label) as [->|Hl]; cbn; [by rewrite lookup_insert_eq|by rewrite lookup_insert_ne]. }
  destruct (String.eqb_spec action "stop") as [->|Hst].
  { destruct (getString (cfg_Params config) "label") as [l [e|]]; [done|].
    destruct (String.eqb_spec l label) as [->|Hl].
    - destruct (startTimes t !! label) eqn:Hst; cbn; [by rewrite lookup_delete_eq, lookup_insert_eq|by rewrite Hst].
    - destruct (startTimes t !! l); cbn; [by rewrite lookup_delete_ne, lookup_insert_ne|done]. }
  destruct (String.eqb action "gather"); [destruct (PrettyPrintJSON _)|];
    cbn; destruct (getString (cfg_Params config) "label") as [l [?|]]; try done; by destruct (String.eqb l label).
Qed.

Lemma fill_data_lookup l data label :
  NoDup l.*1 ->
  fill_data l data !! label = match (list_to_map l : gmap string Z) !! label with
                              | Some d => Some (Seconds d) | None => data !! label end.
Proof.
  revert data. induction l as [|[k d] l IH]; intros data Hnd; [done|]. cbn in Hnd |- *.
  apply NoDup_cons in Hnd as [Hk Hnd]. rewrite IH by done. rewrite lookup_insert. case_decide as Hd.
  - subst k. rewrite lookup_insert_eq. destruct (list_to_map l !! label) as [d'|] eqn:Hl; [|done].
    apply elem_of_list_to_map_2 in Hl. destruct Hk. apply list_elem_of_fmap. by exists (label, d').
  - by rewrite lookup_insert_ne.
Qed.

(** The labels of a timer are independent, and each is measured from its latest
    start to the first stop after it: after any sequence of calls (failing ones
    included), whether a label is running and its last duration depend on that
    label's own starts and stops only, and "gather" reports exactly the labels
    that were stopped at least once, with the last duration of each in seconds. *)
Theorem timer_measures_labels calls label :
  let t := run calls createTimerMeasurment in
  (startTimes t !! label, durations t !! label) =
    fold_left label_step (omap (event_of label) calls) (None, None) /\
  fill_data (range "timer" (durations t)) ∅ !! label =
    Seconds <$> (fold_left label_step (omap (event_of label) calls) (None, None)).2.
Proof.
  cbn zeta.
  assert (forall t, (startTimes (run calls t) !! label, durations (run calls t) !! label) =
    fold_left label_step (omap (event_of label) calls) (startTimes t !! label, durations t !! label)) as Hrun.
  { induction calls as [|[config now] calls IH]; intros t; [done|]. cbn [run]. rewrite IH.
    rewrite (Execute_label config now t label). change (omap (event_of label) ((config, now) :: calls)) with
      (match event_of label (config, now) with Some y => y :: omap (event_of label) calls | None => omap (event_of label) calls end).
    by destruct (event_of label (config, now)). }
  specialize (Hrun createTimerMeasurment). cbn [createTimerMeasurment startTimes durations] in Hrun.
  rewrite !lookup_empty in Hrun. split; [done|]. rewrite <- Hrun. cbn [snd].
  rewrite fill_data_lookup by (rewrite range_perm; apply NoDup_fst_map_to_list).
  assert ((list_to_map (range "timer" (durations (run calls createTimerMeasurment))) : gmap string Z) =
    durations (run calls createTimerMeasurment)) as ->.
  { rewrite (list_to_map_proper _ (map_to_list (durations (run calls createTimerMeasurment)))).
    - apply list_to_map_to_list.
    - rewrite range_perm. apply NoDup_fst_map_to_list.
    - apply range_perm. }
  by destruct (durations _ !! label).
Qed.
End Timer.
End Timer.

(** ** Generic Prometheus queries *)
Module GenericQuery.

Record GenericQuery := mkGenericQuery {
  q_Name : string;
  q_Query : string;
  q_Threshold : option float64;
  q_LowerBound : bool;
  q_RequireSamples : bool;
}.

Record StartParams := mkStartParams {
  MetricName : string;
  MetricVersion : string;
  Queries : list GenericQuery;
  Unit : string;
  Dimensions : list string;
}.

Definition genericPrometheusQueryMeasurementName : string := "GenericPrometheusQuery".

Definition query_Validate (q : GenericQuery) : option error :=
  if String.eqb (q_Name q) "" then Some (Errorf "name is required" [])
  else if String.eqb (q_Query q) "" then Some (Errorf "query is required" [])
  else None.

Fixpoint validate_queries (idx : Z) (queries : list GenericQuery) : option error :=
  match queries with
  | [] => None
  | query :: queries' =>
      match query_Validate query with
      | Some err => Some (Errorf "params.queries[%d] validation failed: %v" [AInt idx; AErr err])
      | None => validate_queries (idx + 1) queries'
      end
  end.

Definition params_Validate (p : StartParams) : option error :=
  if String.eqb (MetricName p) "" then Some (Errorf "metricName is required" [])
  else if String.eqb (MetricVersion p) "" then Some (Errorf "metricVersion is required" [])
  else if String.eqb (Unit p) "" then Some (Errorf "unit is required" [])
  else validate_queries 0 (Queries p).

Section Generic.
Context `{GoLib} `{MapRange} (ToStruct : params -> StartParams -> StartParams * option error)
  (PrettyPrintJSON : PerfData -> result string).

(** What was decoded stays, also when it is refused. *)
Definition Configure (g : StartParams) (config : MeasurementConfig) : StartParams * option error :=
  match ToStruct (cfg_Params config) g with
  | (g, Some err) => (g, Some err)
  | (g, None) => (g, params_Validate g)
  end.

(** The printed list of the values, and the labels. *)
Fixpoint key_loop (metric : gmap string string) (dimensions : list string) (s : list string) (m : gmap string string)
  : list string * gmap string string :=
  match dimensions with
  | [] => (s, m)
  | dimension :: dimensions' =>
      let val := default "" (metric !! dimension) in
      key_loop metric dimensions' (s ++ [val]) (<[dimension := val]> m)
  end.

Definition key (metric : gmap string string) (dimensions : list string) : string * gmap string string :=
  let '(s, m) := key_loop metric dimensions [] ∅ in ("[" +:+ join " " s +:+ "]", m).

Definition getOrCreate (dataItems : gmap string DataItem) (key unit : string) (labels : gmap string string)
  : gmap string DataItem * DataItem :=
  match dataItems !! key with
  | Some dataItem => (dataItems, dataItem)
  | None => let dataItem := mkDataItem ∅ unit labels in (<[key := dataItem]> dataItems, dataItem)
  end.

Definition show (x : float64) : string := Sprint (VFloat64 x).

Definition validateSample (q : GenericQuery) (val : float64) : option error :=
  match q_Threshold q with
  | None => None
  | Some threshold =>
      if q_LowerBound q && f64_ltb val threshold then
        Some (NewMetricViolationError (q_Name q)
          (Sprintf "sample below threshold: want: greater or equal than %v, got: %v" [FStr (show threshold); FStr (show val)]))
      else if negb (q_LowerBound q) && f64_ltb threshold val then
        Some (NewMetricViolationError (q_Name q)
          (Sprintf "sample above threshold: want: less or equal than %v, got: %v" [FStr (show threshold); FStr (show val)]))
      else None
  end.

(** The body of the inner loop. *)
Definition add_sample (g : StartParams) (q : GenericQuery) (acc : gmap string DataItem * list error) (sample : Sample)
  : gmap string DataItem * list error :=
  let '(dataItems, errs) := acc in
  let '(k, labels) := key (s_Metric sample) (Dimensions g) in
  let '(dataItems, dataItem) := getOrCreate dataItems k (Unit g) labels in
  let val := s_Value sample in
  let '(dataItems, errs) :=
    match di_Data dataItem !! q_Name q with
    | Some prevVal =>
        (dataItems, errs ++ [NewMetricViolationError (q_Name q)
           (Sprintf "too many samples for %s: query returned %v and %v, expected single value."
              [FStr k; FStr (show val); FStr (show prevVal)])])
    | None =>
        (<[k := mkDataItem (<[q_Name q := val]> (di_Data dataItem)) (di_Unit dataItem) (di_Labels dataItem)]> dataItems, errs)
    end in
  match validateSample q val with
  | Some err => (dataItems, errs ++ [err])
  | None => (dataItems, errs)
  end.

(** Every "%v" of the query is the duration of the test. *)
Definition query (q : GenericQuery) (executor : executor_t) (startTime endTime : Z) : option (result (list Sample)) :=
  let duration := Time_Sub endTime startTime in
  executor (replace_pair "%" "v" (ToPrometheusTime duration) (q_Query q)) endTime.

(** The body of the outer loop, with the samples. *)
Definition add_answer (g : StartParams) (q : GenericQuery) (samples : list Sample) (acc : gmap string DataItem * list error)
  : gmap string DataItem * list error :=
  match samples with
  | [] => (acc.1, if q_RequireSamples q
                  then acc.2 ++ [NewMetricViolationError (q_Name q)
                         (Sprintf "query returned no samples for %v" [FStr (MetricName g)])]
                  else acc.2)
  | _ => fold_left (add_sample g q) samples acc
  end.

Fixpoint gather_loop (g : StartParams) (executor : executor_t) (startTime endTime : Z) (queries : list GenericQuery)
  (acc : gmap string DataItem * list error) : option (result (gmap string DataItem * list error)) :=
  match queries with
  | [] => Some (Ok acc)
  | q :: queries' =>
      match query q executor startTime endTime with
      | None => None
      | Some (Err err) => Some (Err err)
      | Some (Ok samples) => gather_loop g executor startTime endTime queries' (add_answer g q samples acc)
      end
  end.

Definition createSummary (g : StartParams) (now : Z) (dataItems : gmap string DataItem) : result Summary :=
  let perfData := mkPerfData (MetricVersion g) (map snd (range "createSummary" dataItems)) ∅ in
  match PrettyPrintJSON perfData with
  | Err err => Err err
  | Ok content => Ok (CreateSummary now (genericPrometheusQueryMeasurementName +:+ " " +:+ MetricName g) "json" content)
  end.

Definition Gather (g : StartParams) (now : Z) (executor : executor_t) (startTime endTime : Z)
  : option (list Summary * option error) :=
  match gather_loop g executor startTime endTime (Queries g) (∅, []) with
  | None => None
  | Some (Err err) => Some ([], Some err)
  | Some (Ok (dataItems, errs)) =>
      match createSummary g now dataItems with
      | Err err => Some ([], Some err)
      | Ok summary =>
          Some ([summary],
            match errs with
            | [] => None
            | _ => Some (NewMetricViolationError (MetricName g) ("[" +:+ join " " (Error <$> errs) +:+ "]"))
            end)
      end
  end.

(** *** The verdict *)

(** What the samples of a query have to be. *)
Definition sample_fits (q : GenericQuery) (x : float64) : Prop :=
  match q_Threshold q with
  | None => True
  | Some t => if q_LowerBound q then f64_ltb x t = false else f64_ltb t x = false
  end.

Definition sample_key (g : StartParams) (s : Sample) : string := (key (s_Metric s) (Dimensions g)).1.

Definition answer_fits (g : StartParams) (q : GenericQuery) (samples : list Sample) : Prop :=
  (samples = [] -> q_RequireSamples q = false) /\
  NoDup (sample_key g <$> samples) /\ Forall (fun s => sample_fits q (s_Value s)) samples.

Lemma validateSample_fits q x : validateSample q x = None <-> sample_fits q x.
Proof.
  unfold validateSample, sample_fits. destruct (q_Threshold q) as [t|]; [|done].
  destruct (q_LowerBound q); cbn; destruct (f64_ltb _ _); done.
Qed.

(** The value recorded for a query under a key. *)
Definition recorded (items : gmap string DataItem) (k name : string) : option float64 :=
  item ← items !! k; di_Data item !! name.

Lemma add_sample_spec g q items errs s :
  exists errs', add_sample g q (items, errs) s = ((add_sample g q (items, errs) s).1, errs ++ errs') /\
    (errs' = [] <-> recorded items (sample_key g s) (q_Name q) = None /\ sample_fits q (s_Value s)) /\
    forall k name, recorded (add_sample g q (items, errs) s).1 k name =
      if decide (k = sample_key g s /\ name = q_Name q) then Some (default (s_Value s) (recorded items k name))
      else recorded items k name.
Proof.
  unfold add_sample, sample_key, recorded. destruct (key (s_Metric s) (Dimensions g)) as [k labels]. cbn [fst].
  pose proof (validateSample_fits q (s_Value s)) as Hv. unfold getOrCreate.
  set (vs := validateSample q (s_Value s)) in *.
  destruct (items !! k) as [item|] eqn:Hk; cbn [mbind option_bind].
  - destruct (di_Data item !! q_Name q) as [prev|] eqn:Hp.
    + destruct vs as [e|]; cbn [fst snd]; rewrite <- ?app_assoc; eexists; (split; [done|]); (split; [split; [by intros|by intros []]|]).
      all: intros k' name; case_decide as Hd; [destruct Hd as [-> ->]; by rewrite Hk; cbn; rewrite Hp|done].
    + assert (forall k' name, (item0 ← <[k:=mkDataItem (<[q_Name q:=s_Value s]> (di_Data item)) (di_Unit item) (di_Labels item)]> items !! k';
         di_Data item0 !! name) = if decide (k' = k /\ name = q_Name q)
         then Some (default (s_Value s) (item0 ← items !! k'; di_Data item0 !! name)) else (item0 ← items !! k'; di_Data item0 !! name)) as Hrec.
      { intros k' name. rewrite lookup_insert. case_decide as Hk'; [subst k'|].
        - cbn. rewrite Hk. cbn. rewrite lookup_insert. repeat case_decide; try naive_solver.
          destruct_and?; subst. by rewrite Hp.
        - case_decide; [naive_solver|done]. }
      destruct vs as [e|]; cbn [fst snd]; [exists [e]|exists []; rewrite app_nil_r]; (split; [done|]); (split; [|exact Hrec]); rewrite <- Hv; naive_solver.
  - cbn [fst snd]. change (di_Data (mkDataItem ∅ (Unit g) labels) !! q_Name q) with ((∅ : gmap string float64) !! q_Name q).
    rewrite lookup_empty. cbn [di_Data di_Unit di_Labels].
    assert (forall k' name, (item0 ← <[k:=mkDataItem (<[q_Name q:=s_Value s]> ∅) (Unit g) labels]> (<[k:=mkDataItem ∅ (Unit g) labels]> items) !! k';
       di_Data item0 !! name) = if decide (k' = k /\ name = q_Name q)
       then Some (default (s_Value s) (item0 ← items !! k'; di_Data item0 !! name)) else (item0 ← items !! k'; di_Data item0 !! name)) as Hrec.
    { intros k' name. rewrite lookup_insert. case_decide as Hk'; [subst k'|].
      - cbn. rewrite Hk. cbn. rewrite lookup_insert. repeat case_decide; naive_solver.
      - rewrite lookup_insert_ne by done. case_decide; [naive_solver|done]. }
    destruct vs as [e|]; cbn [fst snd]; [exists [e]|exists []; rewrite app_nil_r]; (split; [done|]); (split; [|exact Hrec]); rewrite <- Hv; naive_solver.
Qed.

(** The first sample of an answer with the key. *)
Definition first_with (g : StartParams) (k : string) (samples : list Sample) : option float64 :=
  s_Value <$> List.find (fun s => String.eqb (sample_key g s) k) samples.

Lemma add_samples_spec g q samples items errs :
  exists items' errs', fold_left (add_sample g q) samples (items, errs) = (items', errs ++ errs') /\
    (errs' = [] <-> NoDup (sample_key g <$> samples) /\
       Forall (fun s => recorded items (sample_key g s) (q_Name q) = None /\ sample_fits q (s_Value s)) samples) /\
    forall k name, recorded items' k name =
      match recorded items k name with
      | Some x => Some x
      | None => if decide (name = q_Name q) then first_with g k samples else None
      end.
Proof.
  revert items errs. induction samples as [|s samples IH]; intros items errs; cbn [fold_left].
  { exists items, []. rewrite app_nil_r. split; [done|]. split; [split; [intros _; split; constructor|done]|].
    intros k name. destruct (recorded items k name); [done|]. by case_decide. }
  destruct (add_sample_spec g q items errs s) as (e1 & Ha & He1 & Hr1).
  destruct (add_sample g q (items, errs) s) as [items1 errs1]. cbn [fst] in *. injection Ha as ->.
  destruct (IH items1 (errs ++ e1)) as (items' & e2 & Hf & He2 & Hr2). exists items', (e1 ++ e2).
  rewrite app_assoc. split; [done|]. split.
  - rewrite fmap_cons, NoDup_cons, Forall_cons. rewrite app_nil, He1, He2. split.
    + intros [[Hn Hfit] [Hnd Hall]]. rewrite Forall_forall in Hall. split; [split; [|done]|split; [done|]].
      * intros (s' & Heq & Hin)%list_elem_of_fmap. destruct (Hall s' Hin) as [Hx _].
        rewrite Hr1 in Hx. rewrite decide_True in Hx by (split; [congruence|done]). done.
      * apply Forall_forall. intros s' Hin. destruct (Hall s' Hin) as [Hx Hy]. split; [|done].
        rewrite Hr1 in Hx. case_decide; [done|exact Hx].
    + intros [[Hni Hnd] [[Hn Hfit] Hall]]. split; [done|]. split; [done|]. rewrite Forall_forall in Hall |- *.
      intros s' Hin. destruct (Hall s' Hin) as [Hx Hy]. split; [|done]. rewrite Hr1, decide_False; [done|].
      intros [Heq _]. apply Hni, list_elem_of_fmap. by exists s'.
  - intros k name. rewrite Hr2, Hr1. unfold first_with. cbn [List.find].
    destruct (String.eqb_spec (sample_key g s) k) as [<-|Hne].
    + destruct (decide (sample_key g s = sample_key g s /\ name = q_Name q)) as [[_ ->]|Hd].
      * destruct (recorded items (sample_key g s) (q_Name q)); cbn; [done|]. by rewrite decide_True.
      * destruct (recorded items (sample_key g s) name); [done|]. rewrite !decide_False by naive_solver. done.
    + rewrite decide_False by naive_solver. done.
Qed.

Lemma add_answer_spec g q samples items errs :
  (forall k, recorded items k (q_Name q) = None) ->
  exists items' errs', add_answer g q samples (items, errs) = (items', errs ++ errs') /\
    (errs' = [] <-> answer_fits g q samples) /\
    forall k name, recorded items' k name =
      match recorded items k name with
      | Some x => Some x
      | None => if decide (name = q_Name q) then first_with g k samples else None
      end.
Proof.
  intros Hfresh. unfold add_answer, answer_fits. destruct samples as [|s samples].
  - cbn [fst snd]. exists items.
    assert (forall k name, recorded items k name =
      match recorded items k name with
      | Some x => Some x
      | None => if decide (name = q_Name q) then first_with g k [] else None
      end) as Hrec by (intros k name; destruct (recorded items k name); [done|by case_decide]).
    destruct (q_RequireSamples q); [eexists|exists []; rewrite app_nil_r]; (split; [done|]); (split; [|exact Hrec]).
    + split; [done|]. intros [Hx _]. by specialize (Hx eq_refl).
    + split; [|done]. intros _. split_and!; [done|constructor|constructor].
  - destruct (add_samples_spec g q (s :: samples) items errs) as (items1 & e1 & -> & He & Hr).
    exists items1, e1. split; [done|]. split; [|done]. rewrite He, !Forall_forall. split.
    + intros [Hnd' Hall]. split_and!; [done|done|]. intros x Hx. by apply Hall.
    + intros (_ & Hnd' & Hall). split; [done|]. intros x Hx. split; [apply Hfresh|by apply Hall].
Qed.

(** The queries of a run, all of them answered. *)
Definition answers (executor : executor_t) (startTime endTime : Z) (q : GenericQuery) (samples : list Sample) : Prop :=
  query q executor startTime endTime = Some (Ok samples).

Lemma gather_loop_spec g executor startTime endTime queries items errs r :
  NoDup (q_Name <$> queries) ->
  (forall q k, q ∈ queries -> recorded items k (q_Name q) = None) ->
  gather_loop g executor startTime endTime queries (items, errs) = Some (Ok r) ->
  exists errs', r.2 = errs ++ errs' /\
    (errs' = [] <-> Forall (fun q => exists samples, answers executor startTime endTime q samples /\ answer_fits g q samples) queries) /\
    (forall q k, q ∈ queries -> exists samples, answers executor startTime endTime q samples /\
      recorded r.1 k (q_Name q) = first_with g k samples) /\
    (forall name k, name ∉ (q_Name <$> queries) -> recorded r.1 k name = recorded items k name).
Proof.
  intros Hnd. revert items errs. induction queries as [|q queries IH]; intros items errs Hfresh; cbn [gather_loop].
  { intros [= <-]. exists []. rewrite app_nil_r. split_and!; [done|by split|intros ?? []%not_elem_of_nil|done]. }
  cbn in Hnd. apply NoDup_cons in Hnd as [Hq Hnd].
  destruct (query q executor startTime endTime) as [[samples|e]|] eqn:Hans; [|done..].
  destruct (add_answer_spec g q samples items errs) as (items1 & e1 & -> & He1 & Hr1); [intros k; apply Hfresh; set_solver|].
  intros Hl. apply IH in Hl as (e2 & Hr2 & He2 & Hrec & Hkeep); [|done|].
  2: { intros q' k Hin. rewrite Hr1, Hfresh by set_solver. rewrite decide_False; [done|].
       intros Heq. apply Hq, list_elem_of_fmap. by exists q'. }
  exists (e1 ++ e2). rewrite Hr2, app_assoc. split; [done|]. split_and!.
  - rewrite app_nil, Forall_cons, He1, He2. unfold answers. split.
    + intros [Ha Hb]. split; [by exists samples|done].
    + intros [(samples' & Heq & Ha) Hb]. rewrite Hans in Heq. injection Heq as ->. done.
  - intros q' k [->|Hin]%elem_of_cons.
    + exists samples. split; [done|]. rewrite Hkeep by done. rewrite Hr1, Hfresh by set_solver. by rewrite decide_True.
    + by apply Hrec.
  - intros name k Hn. cbn in Hn. apply not_elem_of_cons in Hn as [Hn1 Hn2]. rewrite Hkeep by done. rewrite Hr1.
    destruct (recorded items k name); [done|]. by rewrite decide_False.
Qed.

(** A generic query passes exactly when every query that requires samples has
    some, no two samples of one query fall under the same key, and every sample
    is on the right side of its query's threshold; the summary is kept either
    way, and holds under each key and query name the first sample of that
    query with that key. (For query names used once.) *)
Theorem generic_query_verdict g now executor startTime endTime summary err :
  NoDup (q_Name <$> Queries g) ->
  Gather g now executor startTime endTime = Some ([summary], err) ->
  (err = None <-> Forall (fun q => exists samples, answers executor startTime endTime q samples /\ answer_fits g q samples) (Queries g)) /\
  (forall e, err = Some e -> IsMetricViolationError e = true) /\
  exists items, createSummary g now items = Ok summary /\
    forall q k, q ∈ Queries g -> exists samples, answers executor startTime endTime q samples /\
      recorded items k (q_Name q) = first_with g k samples.
Proof.
  intros Hnd. unfold Gather. destruct (gather_loop _ _ _ _ _ _) as [[[items errs]|e]|] eqn:Hl; [|done..].
  destruct (createSummary g now items) as [sm|e] eqn:Hs; [|done]. intros [= <- <-].
  apply gather_loop_spec in Hl as (errs' & Herr & Hiff & Hrec & _); [|done|].
  2: { intros q k _. unfold recorded. by rewrite lookup_empty. }
  cbn in Herr. subst errs'. split_and!.
  - rewrite <- Hiff. by destruct errs.
  - destruct errs; [done|]. by intros ? [= <-].
  - by exists items.
Qed.
End Generic.
End GenericQuery.

(** ** Container restarts *)
Module ContainerRestarts.

Record ContainerInfo := mkContainerInfo { ci_Container : string; ci_Pod : string; ci_Namespace : string }.
Record ContainerRestartsInfo := mkRestartsInfo { cri_info : ContainerInfo; RestartCount : Z }.

(** [%+v]. *)
Definition info_String (c : ContainerInfo) : string :=
  Sprintf "{Container:%s Pod:%s Namespace:%s}" [FStr (ci_Container c); FStr (ci_Pod c); FStr (ci_Namespace c)].

(** An override as decoded from YAML, then with its compiled pod pattern. *)
Record override := mkOverride { o_Pod : string; o_AllowedRestarts : Z }.

(** The regular expressions of the standard library: [regexp.Compile], whose
    error makes [MustCompile] panic, and [MatchString]. *)
Class Regexp := {
  regexp : Type;
  Compile : string -> option regexp;
  Regexp_MatchString : regexp -> string -> bool;
}.

Section Restarts.
Context `{GoLib} `{Regexp} (Unmarshal : string -> result (list override))
  (PrettyPrintJSON : list ContainerRestartsInfo -> result string).

Definition containerRestartsMeasurementName : string := "ContainerRestarts".

Definition podNamePattern (pod : string) : string :=
  "^" +:+ replace_char "*" ".*" (replace_char "." "\." pod) +:+ "$".

(** [None]: a pattern that is no regular expression. *)
Fixpoint compile_overrides (l : list override) : option (list (regexp * Z)) :=
  match l with
  | [] => Some []
  | car :: l' =>
      re ← Compile (podNamePattern (o_Pod car));
      rest ← compile_overrides l';
      Some ((re, o_AllowedRestarts car) :: rest)
  end.

Definition getOverrides (config : MeasurementConfig) : option (result (list (regexp * Z))) :=
  match GetStringOrDefault (cfg_Params config) "customAllowedRestarts" "" with
  | (_, Some err) => Some (Err err)
  | (s, None) =>
      match Unmarshal s with
      | Err err => Some (Err err)
      | Ok overrides => l ← compile_overrides overrides; Some (Ok l)
      end
  end.

Definition restarts_info (sample : Sample) : ContainerRestartsInfo :=
  let get k := default "" (s_Metric sample !! k) in
  mkRestartsInfo (mkContainerInfo (get "container") (get "pod") (get "namespace"))
    (f64_to_int (f64_round (s_Value sample))).

Definition gatherContainerRestarts (executor : executor_t) (startTime endTime : Z)
  : option (result (list ContainerRestartsInfo)) :=
  let promDuration := ToPrometheusTime (Time_Sub endTime startTime) in
  match executor (Sprintf "changes(container_start_time_seconds[%v])" [FStr promDuration]) endTime with
  | None => None
  | Some (Err err) => Some (Err err)
  | Some (Ok samples) => Some (Ok (map restarts_info samples))
  end.

Fixpoint allowed_loop (overrides : list (regexp * Z)) (pod : string) (allowedRestarts : Z) : Z :=
  match overrides with
  | [] => allowedRestarts
  | (re, allowed) :: overrides' =>
      allowed_loop overrides' pod
        (if Regexp_MatchString re pod && (allowedRestarts <? allowed) then allowed else allowedRestarts)
  end.

Definition validateRestarts (infos : list ContainerRestartsInfo) (defaultAllowedRestarts : Z) (overrides : list (regexp * Z))
  : list error :=
  fold_left (fun badContainers ri =>
    let allowedRestarts := allowed_loop overrides (ci_Pod (cri_info ri)) defaultAllowedRestarts in
    if allowedRestarts <? RestartCount ri
    then badContainers ++ [Errorf "restartCount(%+v) = %v, expected <= %v"
           [AStr (info_String (cri_info ri)); AInt (RestartCount ri); AInt allowedRestarts]]
    else badContainers) infos [].

Definition Gather (now : Z) (executor : executor_t) (startTime endTime : Z) (config : MeasurementConfig)
  : option (list Summary * option error) :=
  match getOverrides config with
  | None => None
  | Some (Err err) => Some ([], Some err)
  | Some (Ok overrides) =>
      match GetIntOrDefault (cfg_Params config) "defaultAllowedRestarts" 0 with
      | (_, Some err) => Some ([], Some err)
      | (defaultAllowedRestarts, None) =>
          match gatherContainerRestarts executor startTime endTime with
          | None => None
          | Some (Err err) => Some ([], Some err)
          | Some (Ok containerRestarts) =>
              match PrettyPrintJSON containerRestarts with
              | Err err => Some ([], Some err)
              | Ok content =>
                  let summaries := [CreateSummary now containerRestartsMeasurementName "json" content] in
                  match validateRestarts containerRestarts defaultAllowedRestarts overrides with
                  | [] => Some (summaries, None)
                  | badContainers =>
                      Some (summaries, Some (NewMetricViolationError "container restarts"
                        ("container restart count validation: [" +:+ join " " (Error <$> badContainers) +:+ "]")))
                  end
              end
          end
      end
  end.

(** *** The verdict *)

(** Within the default or some override for the pod. *)
Definition restarts_ok (d : Z) (overrides : list (regexp * Z)) (ri : ContainerRestartsInfo) : Prop :=
  RestartCount ri <= d \/
  Exists (fun o => Regexp_MatchString o.1 (ci_Pod (cri_info ri)) = true /\ RestartCount ri <= o.2) overrides.

Lemma allowed_loop_ge overrides pod d n :
  n <= allowed_loop overrides pod d <->
  n <= d \/ Exists (fun o => Regexp_MatchString o.1 pod = true /\ n <= o.2) overrides.
Proof.
  revert d. induction overrides as [|[re a] overrides IH]; intros d; cbn.
  { rewrite Exists_nil. tauto. }
  rewrite IH, Exists_cons. cbn. destruct (Regexp_MatchString re pod); cbn; [|naive_solver].
  destruct (Z.ltb_spec d a); naive_solver lia.
Qed.

Lemma validateRestarts_nil infos d overrides :
  validateRestarts infos d overrides = [] <-> Forall (restarts_ok d overrides) infos.
Proof.
  unfold validateRestarts.
  assert (forall acc, fold_left (fun badContainers ri =>
    let allowedRestarts := allowed_loop overrides (ci_Pod (cri_info ri)) d in
    if allowedRestarts <? RestartCount ri
    then badContainers ++ [Errorf "restartCount(%+v) = %v, expected <= %v"
           [AStr (info_String (cri_info ri)); AInt (RestartCount ri); AInt allowedRestarts]]
    else badContainers) infos acc = [] <-> acc = [] /\ Forall (restarts_ok d overrides) infos) as Hgen.
  { induction infos as [|ri infos IH]; intros acc; cbn [fold_left]; [by split; [split; [|constructor]|intros []]|].
    rewrite Forall_cons, IH. unfold restarts_ok at 2. rewrite <- allowed_loop_ge. cbn zeta.
    destruct (Z.ltb_spec (allowed_loop overrides (ci_Pod (cri_info ri)) d) (RestartCount ri)) as [Hlt|Hge].
    - rewrite app_nil. split; [by intros [[_ ?] _]|]. intros (_ & Hle & _). lia.
    - naive_solver. }
  rewrite Hgen. naive_solver.
Qed.

(** The restart counts pass exactly when every reported container stayed
    within the default or within an override whose pattern matches its pod
    (the most generous one counts, whatever the order); the summary is kept
    either way. *)
Theorem container_restarts_verdict now executor startTime endTime config summary err :
  Gather now executor startTime endTime config = Some ([summary], err) ->
  exists infos d overrides,
    gatherContainerRestarts executor startTime endTime = Some (Ok infos) /\
    getOverrides config = Some (Ok overrides) /\
    GetIntOrDefault (cfg_Params config) "defaultAllowedRestarts" 0 = (d, None) /\
    (err = None <-> Forall (restarts_ok d overrides) infos) /\
    (forall e, err = Some e -> IsMetricViolationError e = true).
Proof.
  unfold Gather. destruct (getOverrides config) as [[overrides|e]|]; [|done..].
  destruct (GetIntOrDefault _ _ _) as [d [e|]]; [done|].
  destruct (gatherContainerRestarts _ _ _) as [[infos|e]|]; [|done..].
  destruct (PrettyPrintJSON infos) as [content|e]; [|done]. intros Hg.
  exists infos, d, overrides. split_and!; [done..| |].
  - rewrite <- validateRestarts_nil. by destruct (validateRestarts _ _ _); simplify_eq.
  - destruct (validateRestarts _ _ _); simplify_eq; [done|]. by intros ? [= <-].
Qed.
End Restarts.
End ContainerRestarts.
