(* ===== verification/Gatherers.v ===== *)
(** * More Prometheus gatherers and the scheduling throughput
      (pkg/measurement/common/{scheduling_throughput,scheduling_throughput_prometheus,
      nodelocaldns_latency_prometheus,metrics_server_prometheus,
      cilium_endpoint_propagation_delay}.go,
      pkg/measurement/common/slos/{network_programming,windows_node_resource_usage}.go)

    Each gatherer turns the answers to its queries into a summary and a
    verdict. [None] is a panic. *)

From stdpp Require Import sorting.
From S2P Require Import Prelude GoErrors GoRuntime Params Measurement Float64 FloatInt Latency Pods Provider PromStack Prometheus ApiResponsiveness Measurements.
From Stdlib Require Import SpecFloat.

(** The double quote of the query texts. *)
Definition dq : string := String (Ascii.ascii_of_nat 34) "".

Definition f64_mul (x y : float64) : float64 := SFmul 53 1024 x y.

(** [%f]. *)
Class FloatFormat := { Format_f : float64 -> string; FormatFloat_g : float64 -> string }.

(** ** Scheduling throughput, from Prometheus *)
Module ThroughputPrometheus.
Section Gatherer.
Context `{GoLib} `{FloatFormat} (PrettyPrintJSON : float64 -> result string).

Definition maxSchedulingThroughputQuery : string :=
  "max_over_time(sum(irate(apiserver_request_total{verb=" +:+ dq +:+ "POST" +:+ dq +:+ ", resource=" +:+ dq +:+ "pods" +:+ dq
  +:+ ", subresource=" +:+ dq +:+ "binding" +:+ dq +:+ ",code=" +:+ dq +:+ "201" +:+ dq +:+ "}[1m]))[%v:5s])".

(** The only field of the summary, [Max]. *)
Definition getThroughputSummary (executor : executor_t) (startTime endTime : Z) : option (result float64) :=
  let promDuration := ToPrometheusTime (Time_Sub endTime startTime) in
  match executor (Sprintf maxSchedulingThroughputQuery [FStr promDuration]) endTime with
  | None => None
  | Some (Err err) => Some (Err err)
  | Some (Ok [sample]) => Some (Ok (s_Value sample))
  | Some (Ok samples) => Some (Err (Errorf "got unexpected number of samples: %d" [AInt (Z.of_nat (length samples))]))
  end.

Definition low_throughput (metric : string) (max threshold : float64) : error :=
  NewMetricViolationError metric
    (Sprintf "actual throughput %f lower than threshold %f" [FStr (Format_f max); FStr (Format_f threshold)]).

Definition f64_0 : float64 := f64_of_Z 0.

(** An unreadable threshold is an error, but its zero value disables the check. *)
Definition Gather (now : Z) (executor : executor_t) (startTime endTime : Z) (config : MeasurementConfig)
  : option (list Summary * option error) :=
  match getThroughputSummary executor startTime endTime with
  | None => None
  | Some (Err err) => Some ([], Some err)
  | Some (Ok max) =>
      match PrettyPrintJSON max with
      | Err err => Some ([], Some err)
      | Ok content =>
          let '(threshold, err) := GetFloat64OrDefault (cfg_Params config) "threshold" f64_0 in
          let err := if f64_ltb f64_0 threshold && f64_ltb max threshold
                     then Some (low_throughput "scheduler throughput_prometheus" max threshold) else err in
          Some ([CreateSummary now "SchedulingThroughputPrometheus" "json" content], err)
      end
  end.
End Gatherer.
End ThroughputPrometheus.

(** ** Scheduling throughput, from the pods *)
Module SchedulingThroughput.
Import ThroughputPrometheus.

Record schedulingThroughput := mkThroughput { tp_Perc50 : float64; tp_Perc90 : float64; tp_Perc99 : float64; tp_Max : float64 }.

(** [stopCh] is closed by [stop]; the goroutine of the last start is the
    running one. *)
Record measurement := mkMeasurement_ {
  schedulingThroughputs : list float64;
  isRunning : bool;
}.

Definition createSchedulingThroughputMeasurement : measurement := mkMeasurement_ [] false.

(** The goroutine's variable. *)
Record observer := mkObserver { lastScheduledCount : Z; interval : Z }.

(** One tick: [float64(interval/time.Second)] drops the fraction of a second. *)
Definition tick (pods : list Pod) (s : measurement) (o : observer) : measurement * observer :=
  let scheduled := st_Scheduled (ComputePodsStartupStatus pods 0 None) in
  let throughput := f64_div (f64_of_Z (scheduled - lastScheduledCount o))
                      (f64_of_Z (Z.quot (interval o) Latency.Second)) in
  (mkMeasurement_ (schedulingThroughputs s ++ [throughput]) (isRunning s), mkObserver scheduled (interval o)).

Section Measurement.
Context `{GoLib} `{FloatFormat} (PrettyPrintJSON : schedulingThroughput -> result string).

(** [store]: the error of [NewPodStore]. The observer is the goroutine started. *)
Definition start (store : option error) (measurmentInterval : Z) (s : measurement)
  : measurement * option observer * option error :=
  match store with
  | Some err => (s, None, Some (Errorf "pod store creation error: %v" [AErr err]))
  | None => (mkMeasurement_ (schedulingThroughputs s) true, Some (mkObserver 0 measurmentInterval), None)
  end.

Definition stop (s : measurement) : measurement := mkMeasurement_ (schedulingThroughputs s) false.

(** [sort.Float64s]: NaNs first. *)
Definition f64_less (a b : float64) : bool := f64_ltb a b || (is_NaN a && negb (is_NaN b)).
Definition f64_le (a b : float64) : Prop := f64_less b a = false.
#[export] Instance f64_le_dec : RelDecision f64_le.
Proof. intros a b. unfold f64_le. apply _. Defined.

Definition sort_Float64s (l : list float64) : list float64 := merge_sort f64_le l.

(** An index outside of the slice panics. *)
Definition summarize (throughputs : list float64) : option schedulingThroughput :=
  match throughputs with
  | [] => Some (mkThroughput f64_0 f64_0 f64_0 f64_0)
  | _ =>
      let sorted := sort_Float64s throughputs in
      let length := Z.of_nat (length throughputs) in
      let at_ (i : Z) := if i <? 0 then None else sorted !! Z.to_nat i in
      p50 ← at_ (percentile_index length 50);
      p90 ← at_ (percentile_index length 90);
      p99 ← at_ (percentile_index length 99);
      max ← at_ (length - 1);
      Some (mkThroughput p50 p90 p99 max)
  end.

Definition gather (now : Z) (threshold : float64) (s : measurement) : option (measurement * (list Summary * option error)) :=
  if negb (isRunning s) then Some (s, ([], Some (Errorf "measurement is not running" [])))
  else
    let s := stop s in
    throughputSummary ← summarize (schedulingThroughputs s);
    let s := match schedulingThroughputs s with
             | [] => s | l => mkMeasurement_ (sort_Float64s l) (isRunning s) end in
    match PrettyPrintJSON throughputSummary with
    | Err err => Some (s, ([], Some err))
    | Ok content =>
        Some (s, ([CreateSummary now "SchedulingThroughput" "json" content],
          if f64_ltb f64_0 threshold && f64_ltb (tp_Max throughputSummary) threshold
          then Some (low_throughput "scheduler throughput" (tp_Max throughputSummary) threshold) else None))
    end.

(** Errors of the parameters of "gather" are logged; the value used then is
    the one the getter returned with its error. *)
Definition Execute (store : option error) (now : Z) (config : MeasurementConfig) (s : measurement)
  : option (measurement * option observer * (list Summary * option error)) :=
  match getString (cfg_Params config) "action" with
  | (_, Some err) => Some (s, None, ([], Some err))
  | (action, None) =>
      if String.eqb action "start" then
        if isRunning s then Some (s, None, ([], None))
        else
          match Params.Parse NewObjectSelector (cfg_Params config) with
          | (_, Some err) => Some (s, None, ([], Some err))
          | (_, None) =>
              match GetDurationOrDefault (cfg_Params config) "measurmentInterval" (5 * Latency.Second) with
              | (_, Some err) => Some (s, None, ([], Some err))
              | (measurmentInterval, None) =>
                  let '(s, o, err) := start store measurmentInterval s in Some (s, o, ([], err))
              end
          end
      else if String.eqb action "gather" then
        let threshold := (GetFloat64OrDefault (cfg_Params config) "threshold" f64_0).1 in
        let enableViolations := (GetBoolOrDefault (cfg_Params config) "enableViolations" true).1 in
        '(s, (summary, err)) ← gather now threshold s;
        match err with
        | None => Some (s, None, (summary, None))
        | Some err =>
            if negb (IsMetricViolationError err) then Some (s, None, ([], Some err))
            else if negb enableViolations then Some (s, None, (summary, None))
            else Some (s, None, (summary, Some err))
        end
      else Some (s, None, ([], Some (Errorf "unknown action %v" [AStr action])))
  end.

Definition Dispose (s : measurement) : measurement := if isRunning s then stop s else s.

(** An interval below one second is divided away: the throughput of a tick
    that sees a newly scheduled pod is infinite. *)
Lemma subsecond_interval_infinite pods s o :
  0 < interval o < Latency.Second -> st_Scheduled (ComputePodsStartupStatus pods 0 None) = lastScheduledCount o + 1 ->
  last (schedulingThroughputs (tick pods s o).1) = Some (S754_infinity false).
Proof.
  intros Hi Hs. unfold tick. cbn [fst schedulingThroughputs]. rewrite last_snoc, Hs.
  rewrite Z.quot_small by lia. replace (lastScheduledCount o + 1 - lastScheduledCount o) with 1 by lia. done.
Qed.
End Measurement.
End SchedulingThroughput.

(** ** Percentiles queried one by one *)
Module Quantiles.
Section Loop.

(** The pairs of a percentile and its [%v] rendering. *)
Definition desiredPercentiles : list (float64 * string) := [(f64_half, "0.5"); (f64_0_9, "0.9"); (f64_0_99, "0.99")].

(** One round of the loop: the metric and the error list after it. *)
Definition quantile_step (executor : executor_t) (endTime : Z) (mk_query : string -> string)
    (p : float64 * string) (st : LatencyMetric * ErrorList) : option (LatencyMetric * ErrorList) :=
  let '(result, errList) := st in
  let query := mk_query p.2 in
  match executor query endTime with
  | None => None
  | Some (Err err) =>
      Some (result, Append errList [Errorf "failed to execute query %q, err - %v" [AStr query; AErr err]])
  | Some (Ok [sample]) => Some (SetQuantile result p.1 (sample_duration sample), errList)
  | Some (Ok samples) =>
      Some (result, Append errList [Errorf "got unexpected number of samples: %d for query %q"
                                      [AInt (Z.of_nat (length samples)); AStr query]])
  end.

Fixpoint quantile_loop (executor : executor_t) (endTime : Z) (mk_query : string -> string)
    (ps : list (float64 * string)) (st : LatencyMetric * ErrorList) : option (LatencyMetric * ErrorList) :=
  match ps with
  | [] => Some st
  | p :: ps' => st ← quantile_step executor endTime mk_query p st; quantile_loop executor endTime mk_query ps' st
  end.

Definition percentiles (executor : executor_t) (endTime : Z) (mk_query : string -> string) : option (result LatencyMetric) :=
  '(result, errList) ← quantile_loop executor endTime mk_query desiredPercentiles (mkLatencyMetric 0 0 0, NewErrorList []);
  Some (if IsEmpty errList then Ok result
        else Err (Errorf "failed to compute latencies, errors - %s" [AErr (ListError (errors errList))])).

(** *** What the loop computes *)

(** The one sample that answers the query of a percentile. *)
Definition answered (executor : executor_t) (endTime : Z) (mk_query : string -> string) (q : string) (s : Sample) : Prop :=
  executor (mk_query q) endTime = Some (Ok [s]).

Lemma quantile_loop_errors executor endTime mk_query ps r errs r' errs' :
  quantile_loop executor endTime mk_query ps (r, errs) = Some (r', errs') ->
  exists l, errors errs' = errors errs ++ l /\
    (l = [] -> Forall (fun p => exists s, answered executor endTime mk_query p.2 s) ps).
Proof.
  unfold answered. revert r errs. induction ps as [|p ps IH]; intros r errs; cbn [quantile_loop].
  { intros [= -> ->]. exists []. by rewrite app_nil_r. }
  unfold quantile_step.
  destruct (executor (mk_query p.2) endTime) as [[[|s [|s2 l]]|err]|] eqn:He; cbn; [..|done];
    intros (l' & Hl & Hall)%IH; cbn in *.
  2: { exists l'. split; [done|]. intros ->. constructor; eauto. }
  all: rewrite <- app_assoc in Hl; eexists; split; [exact Hl|]; intros [=].
Qed.

Lemma percentiles_answered executor endTime mk_query s50 s90 s99 :
  answered executor endTime mk_query "0.5" s50 -> answered executor endTime mk_query "0.9" s90 ->
  answered executor endTime mk_query "0.99" s99 ->
  percentiles executor endTime mk_query =
    Some (Ok (mkLatencyMetric (sample_duration s50) (sample_duration s90) (sample_duration s99))).
Proof.
  unfold answered. intros H5 H9 H99.
  unfold percentiles, desiredPercentiles, quantile_loop, quantile_step. cbn [snd fst].
  by rewrite H5, H9, H99.
Qed.

(** The metric is computed exactly when every percentile has one sample, and
    then each field holds the sample of its own percentile. *)
Lemma percentiles_spec executor endTime mk_query m :
  percentiles executor endTime mk_query = Some (Ok m) <->
  exists s50 s90 s99,
    answered executor endTime mk_query "0.5" s50 /\ answered executor endTime mk_query "0.9" s90 /\
    answered executor endTime mk_query "0.99" s99 /\
    m = mkLatencyMetric (sample_duration s50) (sample_duration s90) (sample_duration s99).
Proof.
  split.
  - unfold percentiles.
    destruct (quantile_loop executor endTime mk_query desiredPercentiles (mkLatencyMetric 0 0 0, NewErrorList []))
      as [[r errs]|] eqn:Hl; cbn; [|done].
    destruct (IsEmpty errs) eqn:He; [|done]. intros [= ->].
    pose proof (quantile_loop_errors _ _ _ _ _ _ _ _ Hl) as (l & Hle & Hall).
    assert (l = []) as -> by (revert He Hle; unfold IsEmpty; destruct (errors errs); cbn; [by intros _ <-|done]).
    specialize (Hall eq_refl). unfold desiredPercentiles in Hall. rewrite !Forall_cons in Hall. destruct Hall as ([s50 H5] & [s90 H9] & [s99 H99] & _).
    exists s50, s90, s99. split_and!; [done..|]. unfold answered in *. cbn [snd] in *.
    revert Hl. unfold desiredPercentiles, quantile_loop, quantile_step. cbn [snd fst].
    rewrite H5, H9, H99. by intros [= <- _].
  - intros (s50 & s90 & s99 & H5 & H9 & H99 & ->). by apply percentiles_answered.
Qed.
End Loop.
End Quantiles.

(** ** NodeLocal DNS latency *)
Module NodeLocalDNS.
Import Quantiles.
Section Gatherer.
Context `{GoLib} (PrettyPrintJSON : DataItem -> result string).

Definition nodelocaldnsLatencyPrometheusMeasurementName : string := "NodeLocalDNSLatencyPrometheus".
Definition defaultThreshold : Z := 5 * Latency.Second.

Definition percLatencyQuery (promDuration percVal : string) : string :=
  Sprintf "histogram_quantile(%v, sum(rate(coredns_dns_request_duration_seconds_bucket[%v])) by (le))"
    [FStr percVal; FStr promDuration].

Definition getPercentileLatencies (executor : executor_t) (startTime endTime : Z) : option (result LatencyMetric) :=
  percentiles executor endTime (percLatencyQuery (ToPrometheusTime (Time_Sub endTime startTime))).

Definition validateResult (config : MeasurementConfig) (result : LatencyMetric) : option error :=
  match GetDurationOrDefault (cfg_Params config) "threshold" defaultThreshold with
  | (_, Some err) => Some err
  | (latencyUpperBound, None) =>
      if latencyUpperBound <? Perc99 result
      then Some (NewMetricViolationError "NodelocalDNS dns_request_duration_seconds"
             (Sprintf "99th Percentile Latency %v is higher than the upper bound of %s"
                [FStr (Duration_String (Perc99 result)); FStr (Duration_String latencyUpperBound)]))
      else None
  end.

Definition Gather (now : Z) (executor : executor_t) (startTime endTime : Z) (config : MeasurementConfig)
  : option (list Summary * option error) :=
  match getPercentileLatencies executor startTime endTime with
  | None => None
  | Some (Err err) => Some ([], Some err)
  | Some (Ok result) =>
      match PrettyPrintJSON (ToPerfData result nodelocaldnsLatencyPrometheusMeasurementName) with
      | Err err => Some ([], Some err)
      | Ok content =>
          Some ([CreateSummary now nodelocaldnsLatencyPrometheusMeasurementName "json" content], validateResult config result)
      end
  end.

(** The gatherer passes exactly when every percentile was measured, the
    threshold can be read and the 99th percentile is within it. *)
Theorem nodelocaldns_verdict now executor startTime endTime config :
  (forall d, exists c, PrettyPrintJSON d = Ok c) ->
  (exists summaries, Gather now executor startTime endTime config = Some (summaries, None)) <->
  exists s50 s90 s99 bound,
    let q := percLatencyQuery (ToPrometheusTime (Time_Sub endTime startTime)) in
    answered executor endTime q "0.5" s50 /\ answered executor endTime q "0.9" s90 /\ answered executor endTime q "0.99" s99 /\
    GetDurationOrDefault (cfg_Params config) "threshold" defaultThreshold = (bound, None) /\
    sample_duration s99 <= bound.
Proof.
  intros HJ. unfold Gather, getPercentileLatencies.
  set (q := percLatencyQuery _).
  destruct (percentiles executor endTime q) as [[m|err]|] eqn:Hp.
  - apply percentiles_spec in Hp as (s50 & s90 & s99 & H5 & H9 & H99 & ->).
    destruct (HJ (ToPerfData (mkLatencyMetric (sample_duration s50) (sample_duration s90) (sample_duration s99))
      nodelocaldnsLatencyPrometheusMeasurementName)) as [c ->].
    unfold validateResult. cbn [Perc99].
    destruct (GetDurationOrDefault (cfg_Params config) "threshold" defaultThreshold) as [b [e|]].
    { split; [by intros [? [=]]|]. by intros (? & ? & ? & ? & ? & ? & ? & [=] & ?). }
    destruct (Z.ltb_spec b (sample_duration s99)); split.
    + by intros [? [=]].
    + intros (t50 & t90 & t99 & b' & ? & ? & Ht & [= <-] & Hle). unfold answered in *.
      rewrite H99 in Ht. injection Ht as <-. lia.
    + intros _. by exists s50, s90, s99, b.
    + eauto.
  - split; [by intros [? [=]]|]. intros (s50 & s90 & s99 & b & H5 & H9 & H99 & _).
    rewrite (percentiles_answered _ _ _ _ _ _ H5 H9 H99) in Hp. discriminate.
  - split; [by intros [? [=]]|]. intros (s50 & s90 & s99 & b & H5 & H9 & H99 & _).
    rewrite (percentiles_answered _ _ _ _ _ _ H5 H9 H99) in Hp. discriminate.
Qed.
End Gatherer.
End NodeLocalDNS.

(** ** Latency of the metrics server *)
Module MetricsServer.
Import Quantiles.
Section Gatherer.
Context (PrettyPrintJSON : LatencyMetric -> result string).

Definition metricsServerPrometheusMeasurementName : string := "MetricsServerPrometheus".

Definition metricsServerLatencyQuery (apiserverSLI promDuration percentile : string) : string :=
  Sprintf ("histogram_quantile(%v, sum(rate(%v_bucket{group=" +:+ dq +:+ "metrics.k8s.io" +:+ dq +:+ ",resource=" +:+ dq +:+ "pods"
    +:+ dq +:+ ",scope=" +:+ dq +:+ "cluster" +:+ dq +:+ "}[%v])) by (le))")
    [FStr percentile; FStr apiserverSLI; FStr promDuration].

Definition gatherLatencyMetrics (executor : executor_t) (startTime endTime : Z) (version : Version) : option (result LatencyMetric) :=
  percentiles executor endTime
    (metricsServerLatencyQuery (GetApiserverSLI version) (ToPrometheusTime (Time_Sub endTime startTime))).

Definition Gather (now : Z) (executor : executor_t) (startTime endTime : Z) (version : Version)
  : option (list Summary * option error) :=
  match gatherLatencyMetrics executor startTime endTime version with
  | None => None
  | Some (Err err) => Some ([], Some err)
  | Some (Ok latencyMetrics) =>
      match PrettyPrintJSON latencyMetrics with
      | Err err => Some ([], Some err)
      | Ok content => Some ([CreateSummary now metricsServerPrometheusMeasurementName "json" content], None)
      end
  end.

Definition IsEnabled (p : Provider) : bool := prov_Features p SupportMetricsServerMetrics.
End Gatherer.
End MetricsServer.

(** ** Network programming latency *)
Module NetworkProgramming.
Section Gatherer.
Context `{GoLib} (SampleString : Sample -> string) (PrettyPrintJSON : PerfData -> result string).

Definition netProg : string := "NetworkProgrammingLatency".

Record netProgGatherer := mkNetProg { enableViolations : bool; threshold : Z }.

(** What was configured before an error stays configured. *)
Definition Configure (config : MeasurementConfig) (n : netProgGatherer) : netProgGatherer * option error :=
  match GetBoolOrDefault (cfg_Params config) "enableViolations" false with
  | (_, Some err) => (n, Some err)
  | (e, None) =>
      let n := mkNetProg e (threshold n) in
      match getDuration (cfg_Params config) "threshold" with
      | (_, Some err) => (n, Some err)
      | (t, None) => (mkNetProg e t, None)
      end
  end.

Definition IsEnabled (pc : PrometheusConfig) (p : Provider) : bool :=
  if negb (ScrapeKubeProxy pc) then false else negb (String.eqb (prov_Name p) "kubemark").

Definition query (executor : executor_t) (startTime endTime : Z) : option (result LatencyMetric) :=
  let boundedQuery :=
    Sprintf "quantile_over_time(0.99, kubeproxy:kubeproxy_network_programming_duration:histogram_quantile{}[%v])"
      [FStr (ToPrometheusTime (Time_Sub endTime startTime))] in
  bind_query (executor boundedQuery endTime) (fun samples =>
    if negb (Z.of_nat (length samples) =? 3)
    then Some (Err (Errorf "got unexpected number of samples: %d" [AInt (Z.of_nat (length samples))]))
    else Some (NewLatencyMetricPrometheus SampleString samples)).

(** The summary is nil when the content cannot be rendered. *)
Definition createSummary (now : Z) (n : netProgGatherer) (latency : LatencyMetric) : option Summary * option error :=
  match PrettyPrintJSON (mkPerfData "v1" [ToPerfData latency netProg] ∅) with
  | Err err => (None, Some err)
  | Ok content =>
      let err :=
        if enableViolations n then
          match VerifyThreshold latency (threshold n) with
          | Some slosErr => Some (NewMetricViolationError "Network Programming Latency" (Error slosErr))
          | None => None
          end
        else None in
      (Some (CreateSummary now netProg "json" content), err)
  end.

Definition Gather (now : Z) (executor : executor_t) (startTime endTime : Z) (n : netProgGatherer)
  : option (list (option Summary) * option error) :=
  match query executor startTime endTime with
  | None => None
  | Some (Err err) => Some ([], Some err)
  | Some (Ok latency) => let '(summary, err) := createSummary now n latency in Some ([summary], err)
  end.

(** A configured gatherer fails with a violation only when violations are
    enabled and some percentile of the metric is above the threshold. *)
Lemma netprog_violation now executor startTime endTime n summaries err latency :
  query executor startTime endTime = Some (Ok latency) ->
  Gather now executor startTime endTime n = Some (summaries, Some err) ->
  (exists e d, PrettyPrintJSON d = Err e /\ err = e /\ summaries = [None]) \/
  (enableViolations n = true /\
   (threshold n < Perc50 latency \/ threshold n < Perc90 latency \/ threshold n < Perc99 latency)).
Proof.
  unfold Gather. intros ->. unfold createSummary.
  destruct (PrettyPrintJSON _) as [c|e] eqn:HJ;
    [|intros [= <- <-]; left; exists e; eexists; split; [exact HJ|done]].
  destruct (enableViolations n); [|done]. unfold VerifyThreshold. intros Hv. right. split; [done|]. revert Hv.
  destruct (Z.ltb_spec (threshold n) (Perc50 latency)); [auto|].
  destruct (Z.ltb_spec (threshold n) (Perc90 latency)); [auto|].
  destruct (Z.ltb_spec (threshold n) (Perc99 latency)); [auto|done].
Qed.
End Gatherer.
End NetworkProgramming.

(** [math.Floor]. *)
Definition f64_floor (x : float64) : float64 := SFopp (f64_ceil (SFopp x)).

(** ** Queries over consecutive windows *)
Module Windows.
Definition queryInterval : Z := 10 * Duration.Minute.

Section Loop.
(** The answer to the query of the window from [prev] to [curr]; [None] is a
    panic. *)
Context {S : Type} (query : Z -> Z -> option (result (list S))).

(** The [for] loop, from the head with [currQueryTime] not yet capped; the
    samples of a failed query are skipped. Out of fuel is [None]; a panic of
    the executor is [Some None]. *)
Fixpoint loop (fuel : nat) (endTime prev curr : Z) (samples : list S) : option (option (list S)) :=
  match fuel with
  | O => None
  | Datatypes.S fuel =>
      let curr := if endTime <? curr then endTime else curr in
      match query prev curr with
      | None => Some None
      | Some r =>
          let samples := match r with Ok new => samples ++ new | Err _ => samples end in
          if curr =? endTime then Some (Some samples)
          else loop fuel endTime curr (curr + queryInterval) samples
      end
  end.

Definition loop_fuel (startTime endTime : Z) : nat := Datatypes.S (Z.to_nat ((endTime - startTime) / queryInterval)).

(** The windows queried: consecutive, of at most ten minutes, ending at [endTime]. *)
Inductive tiles (endTime : Z) : Z -> list (Z * Z) -> Prop :=
| tiles_last prev : endTime <= prev + queryInterval -> tiles endTime prev [(prev, endTime)]
| tiles_next prev l : prev + queryInterval < endTime -> tiles endTime (prev + queryInterval) l ->
    tiles endTime prev ((prev, prev + queryInterval) :: l).

Lemma tiles_exist endTime n prev :
  endTime - prev <= (Z.of_nat n + 1) * queryInterval -> exists l, tiles endTime prev l.
Proof using.
  revert prev. induction n as [|n IH]; intros prev Hn.
  { exists [(prev, endTime)]. constructor. lia. }
  destruct (decide (prev + queryInterval < endTime)) as [Hlt|Hge].
  - destruct (IH (prev + queryInterval)) as [l Hl]; [lia|]. eexists. by apply tiles_next.
  - exists [(prev, endTime)]. constructor. lia.
Qed.

Lemma tiles_length endTime prev l : tiles endTime prev l -> (length l <= loop_fuel prev endTime)%nat.
Proof using.
  unfold loop_fuel. induction 1 as [prev Hp|prev l Hp Hl IH]; cbn; [lia|].
  replace (endTime - prev) with (endTime - (prev + queryInterval) + 1 * queryInterval) by lia.
  rewrite Z.div_add by done.
  assert (0 <= (endTime - (prev + queryInterval)) / queryInterval) by (apply Z.div_pos; [lia|done]). lia.
Qed.

(** The samples of the windows whose query succeeds. *)
Definition window_samples (w : Z * Z) : list S := match query w.1 w.2 with Some (Ok new) => new | _ => [] end.

Lemma loop_tiles endTime prev l :
  (forall p c, exists r, query p c = Some r) -> tiles endTime prev l ->
  forall fuel samples, (length l <= fuel)%nat ->
  loop fuel endTime prev (prev + queryInterval) samples = Some (Some (samples ++ flat_map window_samples l)).
Proof using.
  intros Hex. induction 1 as [prev Hp|prev l' Hp Hl IH]; intros [|fuel] samples Hf; try (cbn in Hf; lia); cbn [loop].
  - assert ((if endTime <? prev + queryInterval then endTime else prev + queryInterval) = endTime) as ->
      by (destruct (Z.ltb_spec endTime (prev + queryInterval)); lia).
    cbn [flat_map]. unfold window_samples. cbn [fst snd]. destruct (Hex prev endTime) as [r ->].
    rewrite Z.eqb_refl, app_nil_r. destruct r; [done|]. by rewrite app_nil_r.
  - destruct (Z.ltb_spec endTime (prev + queryInterval)); [lia|].
    cbn [flat_map]. unfold window_samples at 1. cbn [fst snd].
    destruct (Hex prev (prev + queryInterval)) as [r ->].
    destruct (Z.eqb_spec (prev + queryInterval) endTime); [lia|].
    cbn in Hf. rewrite IH by lia. destruct r; [by rewrite <- app_assoc|done].
Qed.

(** The loop ends, with the samples of windows that tile the interval. *)
Lemma loop_correct startTime endTime :
  (forall p c, exists r, query p c = Some r) ->
  exists windows, tiles endTime startTime windows /\
    loop (loop_fuel startTime endTime) endTime startTime (startTime + queryInterval) [] =
      Some (Some (flat_map window_samples windows)).
Proof using.
  intros Hex.
  assert (Hn : endTime - startTime <= (Z.of_nat (Z.to_nat ((endTime - startTime) / queryInterval)) + 1) * queryInterval).
  { pose proof (Z.div_mod (endTime - startTime) queryInterval ltac:(done)).
    pose proof (Z.mod_pos_bound (endTime - startTime) queryInterval ltac:(done)).
    assert (0 < queryInterval) by done. nia. }
  destruct (tiles_exist _ _ _ Hn) as [l Hl]. exists l. split; [done|].
  by rewrite (loop_tiles _ _ l) by (done || by apply tiles_length).
Qed.

Lemma tiles_fun endTime prev l l' : tiles endTime prev l -> tiles endTime prev l' -> l = l'.
Proof using.
  intros Hl. revert l'. induction Hl as [prev Hp|prev l Hp Hl IH]; inversion 1; subst; try lia; [done|]. f_equal. auto.
Qed.
End Loop.
End Windows.

(** ** Propagation delay of Cilium endpoints *)
Module Cilium.
Import Windows.
Section Gatherer.
Context `{GoLib} `{MapRange} `{FloatFormat}.

(** Timestamp -> bucket -> size. *)
Definition cepPropagationDelayMetricMap : Type := gmap string (gmap string Z).

Context (PrettyPrintJSON : cepPropagationDelayMetricMap -> result string) (SprintBuckets : gmap string Z -> string).

(** A sample with the rendering of its timestamp. *)
Definition executor_ts : Type := string -> Z -> option (result (list (string * Sample))).

Definition window_query (prev curr : Z) : string :=
  Sprintf "sum(sum_over_time(cilium_endpoint_propagation_delay_seconds_bucket[%v])) by (le)"
    [FStr (ToPrometheusTime (Time_Sub curr prev))].

(** The [for] loop over the windows. *)
Definition window_loop (fuel : nat) (executor : executor_ts) : Z -> Z -> Z -> list (string * Sample) -> option (option (list (string * Sample))) :=
  loop (fun prev curr => executor (window_query prev curr) curr) fuel.

Fixpoint fill_buckets (samples : list (string * Sample)) (result : cepPropagationDelayMetricMap) : cepPropagationDelayMetricMap :=
  match samples with
  | [] => result
  | (timestamp, s) :: samples' =>
      fill_buckets samples'
        (<[timestamp := <[label s "le" := f64_round_int (s_Value s)]> (default ∅ (result !! timestamp))]> result)
  end.

(** It has no error to return. *)
Definition gatherCepPropagationDelay (executor : executor_ts) (startTime endTime : Z)
  : option (option cepPropagationDelayMetricMap) :=
  match window_loop (loop_fuel startTime endTime) executor endTime startTime (startTime + queryInterval) [] with
  | None => None
  | Some None => Some None
  | Some (Some samples) => Some (Some (fill_buckets samples ∅))
  end.

(** A parameter that is invalid or zero is replaced by its default. *)
Definition slo_param (config : MeasurementConfig) (name : string) (d : Z) : float64 :=
  match GetFloat64OrDefault (cfg_Params config) name (f64_of_Z d) with
  | (_, Some _) => f64_of_Z d
  | (v, None) => if SFeqb v (f64_of_Z 0) then f64_of_Z d else v
  end.

Definition bucket_perc (accepted total : Z) : float64 :=
  f64_mul (f64_div (f64_of_Z accepted) (f64_of_Z total)) (f64_of_Z 100).

Fixpoint validate_loop (l : list (string * gmap string Z)) (bucketSLO : string) (percentileSLO : float64) : option error :=
  match l with
  | [] => None
  | (timestamp, buckets) :: l' =>
      let totalEvents := default 0 (buckets !! "+Inf") in
      if totalEvents =? 0 then validate_loop l' bucketSLO percentileSLO
      else
        let acceptedDelayEvents := default 0 (buckets !! bucketSLO) in
        let perc := bucket_perc acceptedDelayEvents totalEvents in
        if f64_ltb perc percentileSLO
        then Some (NewMetricViolationError "Cilium endpoint propagation delay"
               (Sprintf ("%s: updates for %ss delay is within %d%%, expected %d%%, buckets:" +:+ newline +:+ "%v")
                  [FStr timestamp; FStr bucketSLO; FInt (f64_to_int (f64_floor perc));
                   FInt (f64_to_int (f64_floor percentileSLO)); FStr (SprintBuckets buckets)]))
        else validate_loop l' bucketSLO percentileSLO
  end.

Definition validateCEPPropagationDelay (result : cepPropagationDelayMetricMap) (config : MeasurementConfig) : option error :=
  validate_loop (range "cep" result) (FormatFloat_g (slo_param config "bucketSLO" 600)) (slo_param config "percentileSLO" 95).

Definition Gather (now : Z) (executor : executor_ts) (startTime endTime : Z) (config : MeasurementConfig)
  : option (option (list Summary * option error)) :=
  match gatherCepPropagationDelay executor startTime endTime with
  | None => None
  | Some None => Some None
  | Some (Some cepPropagationDelay) =>
      match PrettyPrintJSON cepPropagationDelay with
      | Err err => Some (Some ([], Some err))
      | Ok content =>
          Some (Some ([CreateSummary now "CiliumEndpointPropagationDelay" "json" content],
                      validateCEPPropagationDelay cepPropagationDelay config))
      end
  end.

(** *** The windows tile the measured interval *)

(** The loop ends, and its result holds the samples of windows that tile the
    interval from [startTime] to [endTime]. *)
Theorem cilium_windows_tile executor startTime endTime :
  (forall q t, exists r, executor q t = Some r) ->
  exists windows, tiles endTime startTime windows /\
    gatherCepPropagationDelay executor startTime endTime =
      Some (Some (fill_buckets (flat_map (window_samples (fun prev curr => executor (window_query prev curr) curr)) windows) ∅)).
Proof.
  intros Hex. destruct (loop_correct (fun prev curr => executor (window_query prev curr) curr) startTime endTime) as (l & Hl & Heq); [done|].
  exists l. split; [done|]. unfold gatherCepPropagationDelay, window_loop. by rewrite Heq.
Qed.

(** The delays are accepted exactly when every snapshot with events has the
    required share of them within the bucket. *)
Definition snapshot_ok (bucketSLO : string) (percentileSLO : float64) (buckets : gmap string Z) : Prop :=
  default 0 (buckets !! "+Inf") = 0 \/
  f64_ltb (bucket_perc (default 0 (buckets !! bucketSLO)) (default 0 (buckets !! "+Inf"))) percentileSLO = false.

Lemma validate_loop_ok l bucketSLO percentileSLO :
  validate_loop l bucketSLO percentileSLO = None <-> Forall (fun p => snapshot_ok bucketSLO percentileSLO p.2) l.
Proof.
  unfold snapshot_ok. induction l as [|[t b] l IH]; cbn [validate_loop]; [by split|].
  rewrite Forall_cons, <- IH. cbn [snd]. clear IH.
  destruct (Z.eqb_spec (default 0 (b !! "+Inf")) 0) as [?|?]; [by split; [auto|intros [_ ?]]|].
  destruct (f64_ltb (bucket_perc _ _) percentileSLO); split; [done|..]; intros ?; naive_solver.
Qed.

Lemma cilium_verdict result config :
  validateCEPPropagationDelay result config = None <->
  map_Forall (fun _ b => snapshot_ok (FormatFloat_g (slo_param config "bucketSLO" 600)) (slo_param config "percentileSLO" 95) b) result.
Proof.
  unfold validateCEPPropagationDelay. rewrite validate_loop_ok, range_perm. 
  etrans; [|symmetry; apply (map_Forall_to_list (M:=gmap string))]. apply Forall_iff. by intros [].
Qed.
End Gatherer.
End Cilium.

(** ** Resource usage of Windows nodes *)
Module WindowsUsage.
Section Gatherer.
Context `{GoLib} (PrettyPrintJSON : PerfData -> result string).

Definition item (data : string) (value : float64) (unit key lbl : string) (sample : Sample) : DataItem :=
  mkDataItem {[ data := value ]} unit {[ key := label sample lbl ]}.

Definition perf_data (f : Sample -> DataItem) (samples : list Sample) : PerfData := mkPerfData "v1" (map f samples) ∅.

(** [math.Round(v*100)/100] and [math.Round(v*100/unit)/100]. *)
Definition cents (v : float64) : float64 := f64_div (f64_round (f64_mul v (f64_of_Z 100))) (f64_of_Z 100).
Definition cents_of (unit : Z) (v : float64) : float64 :=
  f64_div (f64_round (f64_div (f64_mul v (f64_of_Z 100)) (f64_of_Z unit))) (f64_of_Z 100).

Definition convertToCPUPerfData : list Sample -> PerfData :=
  perf_data (fun s => item "CPU_Usage" (cents (s_Value s)) "%" "Process" "process" s).
Definition convertToMemoryPerfData : list Sample -> PerfData :=
  perf_data (fun s => item "Memory_Usage" (cents_of (1024 * 1024) (s_Value s)) "MB" "Process" "process" s).
Definition convertToStoragePerfData : list Sample -> PerfData :=
  perf_data (fun s => item "Storage_Used" (cents_of (1024 * 1024 * 1024) (s_Value s)) "GB" "Volume" "volume" s).
Definition convertToOpenFilesPerfData : list Sample -> PerfData :=
  perf_data (fun s => item "Open File Handles" (f64_round (s_Value s)) "Handles" "Job" "job" s).
Definition convertToProcessPerfData : list Sample -> PerfData :=
  perf_data (fun s => item "Process Handles" (cents (s_Value s)) "Handles" "Process" "process" s).
Definition convertToNetworkPerfData : list Sample -> PerfData :=
  perf_data (fun s => item "Network_Bytes_Total" (cents_of (1024 * 1024) (s_Value s)) "MB" "NIC" "nic" s).
Definition convertToContainerPerfData : list Sample -> PerfData :=
  perf_data (fun s => item "Windows Container Count" (cents_of (1024 * 1024) (s_Value s)) "Containers" "Instance" "instance" s).

Definition getSummary (now : Z) (query : string) (converter : list Sample -> PerfData) (metricsName : string)
    (measurementTime : Z) (executor : executor_t) (config : MeasurementConfig) : option (result Summary) :=
  bind_query (executor query measurementTime) (fun samples =>
    match PrettyPrintJSON (converter samples) with
    | Err err => Some (Err err)
    | Ok content =>
        match GetStringOrDefault (cfg_Params config) "summaryName" metricsName with
        | (_, Some err) => Some (Err err)
        | (summaryName, None) => Some (Ok (CreateSummary now summaryName "json" content))
        end
    end).

Definition not_system : string := "{process!~" +:+ dq +:+ "Idle|Total|System" +:+ dq +:+ "}".

(** The queries, with the converter and the name of the summary of each. *)
Definition sources : list (string * (list Sample -> PerfData) * string) :=
  [("topk(10, sum by (process) (irate(windows_process_cpu_time_total" +:+ not_system
      +:+ "[5m]) / on(job) group_left windows_cs_logical_processors) * 100)", convertToCPUPerfData, "WindowsCPUUsagePrometheus");
   ("topk(10, sum(windows_process_working_set_bytes" +:+ not_system +:+ ") by (process))", convertToMemoryPerfData,
      "WindowsMemoryUsagePrometheus");
   ("sum(windows_logical_disk_size_bytes) by (volume)", convertToStoragePerfData, "WindowsNodeStorage");
   ("sum(process_open_fds{service=" +:+ dq +:+ "windows-exporter" +:+ dq +:+ "})", convertToOpenFilesPerfData, "WindowsOpenFiles");
   ("topk(10, sum by (process) (windows_process_io_bytes_total" +:+ not_system +:+ "))", convertToProcessPerfData, "WindowsProcesses");
   ("topk(10, sum by (nic) (windows_net_bytes_total))", convertToNetworkPerfData, "WindowsNetwork");
   ("topk(10, sum by (instance) (windows_container_count))", convertToContainerPerfData, "WindowsContainers")].

(** The calls of [getSummary], one after the other. *)
Fixpoint gather_sources (now endTime : Z) (executor : executor_t) (config : MeasurementConfig)
    (l : list (string * (list Sample -> PerfData) * string)) (acc : list Summary) : option (list Summary * option error) :=
  match l with
  | [] => Some (acc, None)
  | (query, converter, name) :: l' =>
      match getSummary now query converter name endTime executor config with
      | None => None
      | Some (Err err) => Some ([], Some err)
      | Some (Ok summary) => gather_sources now endTime executor config l' (acc ++ [summary])
      end
  end.

Definition Gather (now : Z) (executor : executor_t) (endTime : Z) (config : MeasurementConfig)
  : option (list Summary * option error) := gather_sources now endTime executor config sources [].
End Gatherer.

(** A container count up to 5000 is reported as zero: it is scaled like bytes. *)
Lemma container_count_lost n : 0 <= n <= 5000 -> cents_of (1024 * 1024) (f64_of_Z n) = S754_zero false.
Proof.
  intros Hn.
  assert (forallb (fun k => match cents_of (1024 * 1024) (f64_of_Z k) with S754_zero false => true | _ => false end)
            (seqZ 0 5001) = true) as Hall by (vm_compute; reflexivity).
  rewrite forallb_forall in Hall.
  assert (n ∈ seqZ 0 5001) as Hin%list_elem_of_In by (apply elem_of_seqZ; lia). specialize (Hall n Hin).
  destruct (cents_of _ _) as [[]| | |]; done.
Qed.
End WindowsUsage.
