(* ===== verification/ResourceUsage.v ===== *)
(** * Resource usage of containers
      (pkg/measurement/util/resource.go, pkg/measurement/util/kubelet/kubelet.go,
      pkg/measurement/util/gatherers/{container_resource_gatherer,resource_gather_worker}.go,
      pkg/measurement/common/resource_usage.go)

    Workers probe the nodes, their series are reduced to percentiles and merged
    into a summary, which the measurement compares with constraints. The answers
    of the kubelets and of the master's process table are arguments; [None] is a
    panic. *)

From S2P Require Import Prelude GoErrors GoRuntime Params Measurement Float64 FloatInt Latency Modifier Client Cluster Pods Jobs Provider Gatherers.
From Stdlib Require Import SpecFloat.
Import SchedulingThroughput (sort_Float64s).

(** ** resource.go *)

(** The zero time is [None]; the memory sizes are unsigned. *)
Record ContainerResourceUsage := mkUsage {
  cu_Name : string;
  cu_Timestamp : option Z;
  CPUUsageInCores : float64;
  MemoryUsageInBytes : Z;
  MemoryWorkingSetInBytes : Z;
  MemoryRSSInBytes : Z;
  CPUInterval : Z;
}.

Abbreviation ResourceUsagePerContainer := (gmap string ContainerResourceUsage).

Record UsageDataPerContainer := mkUsageData { CPUData : list float64; MemUseData : list Z; MemWorkSetData : list Z }.

Record ResourceConstraint := mkConstraint { CPUConstraint : float64; MemoryConstraint : Z }.

Record SingleContainerSummary := mkContainerSummary { scs_Name : string; scs_CPU : float64; scs_Mem : Z }.

Section Percentiles.
Context `{MapRange}.

Definition add_usage (dataMap : gmap string UsageDataPerContainer) (p : string * ContainerResourceUsage)
  : gmap string UsageDataPerContainer :=
  let '(name, data) := p in
  let d := default (mkUsageData [] [] []) (dataMap !! name) in
  <[name := mkUsageData (CPUData d ++ [CPUUsageInCores data]) (MemUseData d ++ [MemoryUsageInBytes data])
              (MemWorkSetData d ++ [MemoryWorkingSetInBytes data])]> dataMap.

Definition collect_series (timeSeries : list ResourceUsagePerContainer) : gmap string UsageDataPerContainer :=
  fold_left (fun dataMap ts => fold_left add_usage (range "timeSeries" ts) dataMap) timeSeries ∅.

Definition sort_uint64 (l : list Z) : list Z := merge_sort Z.le l.

Definition sort_data (v : UsageDataPerContainer) : UsageDataPerContainer :=
  mkUsageData (sort_Float64s (CPUData v)) (sort_uint64 (MemUseData v)) (sort_uint64 (MemWorkSetData v)).

(** An index outside of a slice panics. *)
Definition percentile_usage (perc : Z) (k : string) (v : UsageDataPerContainer) : option ContainerResourceUsage :=
  let percentileIndex := percentile_index (Z.of_nat (length (CPUData v))) perc in
  if percentileIndex <? 0 then None
  else
    cpu ← CPUData v !! Z.to_nat percentileIndex;
    mem ← MemUseData v !! Z.to_nat percentileIndex;
    ws ← MemWorkSetData v !! Z.to_nat percentileIndex;
    Some (mkUsage k None cpu mem ws 0 0).

Fixpoint percentile_data (perc : Z) (l : list (string * UsageDataPerContainer)) (data : ResourceUsagePerContainer)
  : option ResourceUsagePerContainer :=
  match l with
  | [] => Some data
  | (k, v) :: l' => u ← percentile_usage perc k v; percentile_data perc l' (<[k := u]> data)
  end.

Fixpoint percentiles_loop (percentilesToCompute : list Z) (dataMap : gmap string UsageDataPerContainer)
    (result : gmap Z ResourceUsagePerContainer) : option (gmap Z ResourceUsagePerContainer) :=
  match percentilesToCompute with
  | [] => Some result
  | perc :: percs =>
      data ← percentile_data perc (range "dataMap" dataMap) ∅;
      percentiles_loop percs dataMap (<[perc := data]> result)
  end.

Definition ComputePercentiles (timeSeries : list ResourceUsagePerContainer) (percentilesToCompute : list Z)
  : option (gmap Z ResourceUsagePerContainer) :=
  match timeSeries with
  | [] => Some ∅
  | _ => percentiles_loop percentilesToCompute (sort_data <$> collect_series timeSeries) ∅
  end.

(** Each round of the outer loop writes its own entry only; the inner maps of
    [left] are updated in place, and [left] is not used afterwards. *)
Definition LeftMergeData (left right : gmap Z ResourceUsagePerContainer) : gmap Z ResourceUsagePerContainer :=
  map_imap (fun percentile data =>
    Some (match right !! percentile with
          | None => data
          | Some r => fold_left (fun m '(k, v) => <[k := v]> m) (range "right" r) data
          end)) left.
End Percentiles.

(** ** kubelet.go *)

(** What is read of the kubelet's statistics; [None] for a nil pointer. *)
Record MemoryStats := mkMemoryStats { UsageBytes : option Z; WorkingSetBytes : option Z; RSSBytes : option Z }.
Record ContainerStats := mkContainerStats {
  cs_Name : string;
  cs_StartTime : option Z;
  cs_CPU : option (option Z);
  cs_Memory : option MemoryStats;
}.
Record PodStats := mkPodStats { ps_Name : string; ps_Containers : list ContainerStats }.
Record StatsSummary := mkStatsSummary { SystemContainers : list ContainerStats; ps_Pods : list PodStats }.

Definition removeUint64Ptr (ptr : option Z) : Z := default 0 ptr.

Definition container_usage (name : string) (newStats : ContainerStats) : option ContainerResourceUsage :=
  match cs_CPU newStats, cs_Memory newStats with
  | Some cpu, Some mem =>
      Some (mkUsage name (cs_StartTime newStats) (f64_div (f64_of_Z (removeUint64Ptr cpu)) (f64_of_Z 1000000000))
              (removeUint64Ptr (UsageBytes mem)) (removeUint64Ptr (WorkingSetBytes mem)) (removeUint64Ptr (RSSBytes mem)) 0)
  | _, _ => None
  end.

Fixpoint is_interesting (name : string) (containers : list string) : bool :=
  match containers with
  | [] => false
  | c :: containers' => if String.eqb name c then true else is_interesting name containers'
  end.

Definition set_usage (name : string) (c : ContainerStats) (usageMap : ResourceUsagePerContainer) : ResourceUsagePerContainer :=
  match container_usage name c with Some usage => <[name := usage]> usageMap | None => usageMap end.

Definition pod_usage (containers : list string) (usageMap : ResourceUsagePerContainer) (pod : PodStats) : ResourceUsagePerContainer :=
  fold_left (fun m c => if is_interesting (cs_Name c) containers then set_usage (ps_Name pod +:+ "/" +:+ cs_Name c) c m else m)
    (ps_Containers pod) usageMap.

(** [summary]: the answer of [getStatsSummary]. *)
Definition GetOneTimeResourceUsageOnNode (summary : result StatsSummary) (nodeName : string) (containers : list string)
  : result ResourceUsagePerContainer :=
  match summary with
  | Err err => Err err
  | Ok summary =>
      let usageMap := fold_left (pod_usage containers) (ps_Pods summary) ∅ in
      Ok (fold_left (fun m c => set_usage (nodeName +:+ "/" +:+ cs_Name c) c m) (SystemContainers summary) usageMap)
  end.

(** ** resource_gather_worker.go *)

Record resourceGatherWorker := mkWorker {
  w_nodeName : string;
  w_containerIDs : list string;
  dataSeries : list ResourceUsagePerContainer;
  finished : bool;
  inKubemark : bool;
  resourceDataGatheringPeriod : Z;
  w_host : string;
  w_port : Z;
}.

Definition add_probe (w : resourceGatherWorker) (data : ResourceUsagePerContainer) : resourceGatherWorker :=
  mkWorker (w_nodeName w) (w_containerIDs w) (dataSeries w ++ [data]) (finished w) (inKubemark w)
    (resourceDataGatheringPeriod w) (w_host w) (w_port w).

Definition finish (w : resourceGatherWorker) : resourceGatherWorker :=
  mkWorker (w_nodeName w) (w_containerIDs w) (dataSeries w) true (inKubemark w)
    (resourceDataGatheringPeriod w) (w_host w) (w_port w).

(** kubemark's [ResourceUsage]. *)
Record MasterUsage := mkMasterUsage { mu_Name : string; mu_Mem : Z; mu_CPU : float64 }.

(** What a probe sees: the process table of the kubemark master ([None] is the
    nil map of a failed SSH), and the kubelet's summary of the node. *)
Record probe := mkProbe { pr_master : option (gmap string MasterUsage); pr_summary : result StatsSummary }.

(** The test for nil is about the map just made, so that a failed probe of the
    kubemark master is recorded as an empty one. *)
Definition singleProbe (p : probe) (w : resourceGatherWorker) : resourceGatherWorker :=
  if inKubemark w then
    add_probe w ((fun v => mkUsage (mu_Name v) None (mu_CPU v) 0 (mu_Mem v) 0 0) <$> default ∅ (pr_master p))
  else
    match GetOneTimeResourceUsageOnNode (pr_summary p) (w_nodeName w) (w_containerIDs w) with
    | Err _ => w
    | Ok nodeUsage => add_probe w nodeUsage
    end.

(** What the worker's [select] receives: the timer, or the closed channel. *)
Inductive worker_event := Elapsed (p : probe) | StopClosed.

Fixpoint gather (events : list worker_event) (w : resourceGatherWorker) : resourceGatherWorker :=
  match events with
  | [] => w
  | Elapsed p :: events' => gather events' (singleProbe p w)
  | StopClosed :: _ => finish w
  end.

(** ** container_resource_gatherer.go *)

Inductive NodesSet := AllNodes | MasterAndNonDaemons.
#[export] Instance NodesSet_eq_dec : EqDecision NodesSet.
Proof. solve_decision. Defined.

Record ResourceGathererOptions := mkGathererOptions {
  InKubemark : bool;
  ro_Nodes : NodesSet;
  ResourceDataGatheringPeriod : Z;
  MasterResourceDataGatheringPeriod : Z;
}.

(** A listed pod: its node, the kind of its controller ([GetControllerOf]) and
    the names of its container statuses. *)
Record gatherer_pod := mkGathererPod {
  gp_NodeName : string;
  gp_controller : option string;
  gp_InitContainers : list string;
  gp_Containers : list string;
}.

Record ContainerResourceGatherer := mkGatherer {
  g_isRunning : bool;
  g_workers : list resourceGatherWorker;
  g_containerIDs : list string;
  g_options : ResourceGathererOptions;
}.

Definition isDaemonPod (pod : gatherer_pod) : bool :=
  match gp_controller pod with
  | None => false
  | Some kind => String.eqb kind "DaemonSet" || String.eqb kind "Node"
  end.

Definition masters (nodes : list node) : gset string :=
  fold_left (fun s n => if IsControlPlaneNode n then {[ node_Name n ]} ∪ s else s) nodes ∅.

(** The container names and the nodes to consider. *)
Fixpoint pods_loop (options : ResourceGathererOptions) (masterNodes : gset string) (pods : list gatherer_pod)
    (containerIDs : list string) (nodesToConsider : gset string) : list string * gset string :=
  match pods with
  | [] => (containerIDs, nodesToConsider)
  | pod :: pods' =>
      if bool_decide (ro_Nodes options = MasterAndNonDaemons) && negb (bool_decide (gp_NodeName pod ∈ masterNodes)) && isDaemonPod pod
      then pods_loop options masterNodes pods' containerIDs nodesToConsider
      else
        pods_loop options masterNodes pods' (containerIDs ++ gp_InitContainers pod ++ gp_Containers pod)
          (if bool_decide (ro_Nodes options = MasterAndNonDaemons) then {[ gp_NodeName pod ]} ∪ nodesToConsider else nodesToConsider)
  end.

Fixpoint nodes_loop (options : ResourceGathererOptions) (masterNodes nodesToConsider : gset string) (containerIDs : list string)
    (port : Z) (nodes : list node) (workers : list resourceGatherWorker) : list resourceGatherWorker :=
  match nodes with
  | [] => workers
  | n :: nodes' =>
      nodes_loop options masterNodes nodesToConsider containerIDs port nodes'
        (if bool_decide (ro_Nodes options = AllNodes) || bool_decide (node_Name n ∈ masterNodes) || bool_decide (node_Name n ∈ nodesToConsider)
         then workers ++ [mkWorker (node_Name n) containerIDs [] false false
                            (if bool_decide (node_Name n ∈ masterNodes) then MasterResourceDataGatheringPeriod options
                             else ResourceDataGatheringPeriod options) "" port]
         else workers)
  end.

(** [pods] and [nodes]: the answers to the two listings. *)
Definition NewResourceUsageGatherer (pods : result (list gatherer_pod)) (nodes : result (list node)) (host : string) (port : Z)
    (options : ResourceGathererOptions) : result ContainerResourceGatherer :=
  if InKubemark options then
    Ok (mkGatherer true [mkWorker "" [] [] false true (ResourceDataGatheringPeriod options) host port] [] options)
  else
    match pods with
    | Err err => Err (Errorf "listing pods error: %v" [AErr err])
    | Ok pods =>
        match nodes with
        | Err err => Err (Errorf "listing nodes error: %v" [AErr err])
        | Ok nodes =>
            let masterNodes := masters nodes in
            let '(containerIDs, nodesToConsider) := pods_loop options masterNodes pods [] ∅ in
            Ok (mkGatherer true (nodes_loop options masterNodes nodesToConsider containerIDs port nodes []) containerIDs options)
        end
    end.

(** The initial sleeps of the workers. *)
Fixpoint delays (n : nat) (delay delayPeriod : Z) : list Z :=
  match n with
  | O => []
  | S n => delay :: delays n (delay + delayPeriod) delayPeriod
  end.

Definition StartGatheringData (g : ContainerResourceGatherer) : list Z :=
  match g_workers g with
  | [] => []
  | ws => delays (length ws) 0 (Z.quot (ResourceDataGatheringPeriod (g_options g)) (Z.of_nat (length ws)))
  end.

Definition stop (g : ContainerResourceGatherer) : ContainerResourceGatherer :=
  mkGatherer false (g_workers g) (g_containerIDs g) (g_options g).

Abbreviation ResourceUsageSummary := (gmap string (list SingleContainerSummary)).
Definition summary_Get (r : ResourceUsageSummary) (perc : string) : list SingleContainerSummary := default [] (r !! perc).

Section Summary.
Context `{MapRange}.

Fixpoint merge_workers (percentiles : list Z) (workers : list resourceGatherWorker) (data : gmap Z ResourceUsagePerContainer)
  : option (gmap Z ResourceUsagePerContainer) :=
  match workers with
  | [] => Some data
  | w :: workers' =>
      if finished w then
        stats ← ComputePercentiles (dataSeries w) percentiles;
        merge_workers percentiles workers' (LeftMergeData stats data)
      else merge_workers percentiles workers' data
  end.

(** The inner loop; a missing entry is a nil pointer. *)
Fixpoint names_loop (perc : Z) (names : list string) (data : gmap Z ResourceUsagePerContainer) (summary : ResourceUsageSummary)
  : option ResourceUsageSummary :=
  match names with
  | [] => Some summary
  | name :: names' =>
      m ← data !! perc;
      usage ← m !! name;
      names_loop perc names' data
        (<[pretty perc := summary_Get summary (pretty perc) ++
             [mkContainerSummary name (CPUUsageInCores usage) (MemoryWorkingSetInBytes usage)]]> summary)
  end.

Fixpoint summary_loop (percentiles : list Z) (names : list string) (data : gmap Z ResourceUsagePerContainer)
    (summary : ResourceUsageSummary) : option ResourceUsageSummary :=
  match percentiles with
  | [] => Some summary
  | perc :: percs => s ← names_loop perc names data summary; summary_loop percs names data s
  end.

(** [workers]: the workers as they are when the wait for them is over, after
    they have finished or two minutes. *)
Definition StopAndSummarize (workers : list resourceGatherWorker) (percentiles : list Z)
  : option (ResourceUsageSummary * option error) :=
  match percentiles with
  | [] => Some (∅, Some (Errorf "failed to get any resource usage data" []))
  | p0 :: _ =>
      data ← merge_workers percentiles workers ∅;
      let sortedKeys := merge_sort string_le ((range "data" (default ∅ (data !! p0))).*1) in
      summary ← summary_loop percentiles sortedKeys data ∅;
      Some (summary, None)
  end.
End Summary.

(** ** What is summarized *)
Section Theory.
Context `{MapRange}.

(** The usages of a container, in the order of the probes that saw it. *)
Definition series_of (name : string) (ts : list ResourceUsagePerContainer) : list ContainerResourceUsage :=
  omap (fun m : ResourceUsagePerContainer => m !! name) ts.

Definition usage_data (s : list ContainerResourceUsage) : UsageDataPerContainer :=
  mkUsageData (CPUUsageInCores <$> s) (MemoryUsageInBytes <$> s) (MemoryWorkingSetInBytes <$> s).

Definition data_of_series (s : list ContainerResourceUsage) : option UsageDataPerContainer :=
  match s with [] => None | _ => Some (usage_data s) end.

Lemma data_of_snoc s u : data_of_series (s ++ [u]) = Some (usage_data (s ++ [u])).
Proof. by destruct s. Qed.

Lemma add_usage_lookup dm name u k s :
  dm !! k = data_of_series s ->
  add_usage dm (name, u) !! k = if decide (k = name) then data_of_series (s ++ [u]) else data_of_series s.
Proof.
  intros Hk. unfold add_usage. destruct (decide (k = name)) as [<-|Hne].
  - rewrite lookup_insert_eq, Hk, data_of_snoc. unfold usage_data. rewrite !fmap_app. by destruct s.
  - by rewrite lookup_insert_ne.
Qed.

Lemma fold_add_usage l dm k s :
  NoDup l.*1 -> dm !! k = data_of_series s ->
  fold_left add_usage l dm !! k =
    data_of_series (s ++ match (list_to_map l : gmap string ContainerResourceUsage) !! k with Some u => [u] | None => [] end).
Proof.
  revert dm s. induction l as [|[name u] l IH]; intros dm s; cbn [fold_left fmap list_fmap].
  { intros _ ->. cbn. by rewrite lookup_empty, app_nil_r. }
  intros [Hn Hd]%NoDup_cons Hk. apply (add_usage_lookup _ name u) in Hk. rewrite list_to_map_cons.
  destruct (decide (k = name)) as [<-|Hne].
  - rewrite (IH _ _ Hd Hk), lookup_insert_eq, (not_elem_of_list_to_map_1 l k Hn). by rewrite app_nil_r.
  - rewrite (IH _ _ Hd Hk), lookup_insert_ne by done. done.
Qed.

Lemma collect_series_lookup ts k : collect_series ts !! k = data_of_series (series_of k ts).
Proof.
  induction ts as [|m ts IH] using rev_ind; [done|].
  unfold collect_series, series_of in *. rewrite fold_left_app, omap_app. cbn.
  rewrite (fold_add_usage _ _ k _ (range_NoDup_fst _ _) IH), range_to_map. done.
Qed.

(** The percentile of the usages of a container: the memory sizes by nearest
    rank, the CPU usage at the same place of its sorted values. *)
Definition is_percentile (p : Z) (s : list ContainerResourceUsage) (cpu : float64) (mem ws : Z) : Prop :=
  sort_Float64s (CPUUsageInCores <$> s) !! Z.to_nat (cdiv (Z.of_nat (length s) * p) 100 - 1) = Some cpu /\
  nearest_rank p mem (MemoryUsageInBytes <$> s) /\ nearest_rank p ws (MemoryWorkingSetInBytes <$> s).

Lemma sort_uint64_rank p l :
  0 < Z.of_nat (length l) < 2 ^ 32 -> 0 < p <= 100 ->
  exists v, sort_uint64 l !! Z.to_nat (cdiv (Z.of_nat (length l) * p) 100 - 1) = Some v /\ nearest_rank p v l.
Proof.
  intros Hn Hp. unfold sort_uint64. pose proof (merge_sort_Permutation Z.le l) as Hperm.
  pose proof (Permutation_length Hperm) as Hlen.
  destruct (cdiv_100_bounds (Z.of_nat (length l)) p) as (Hc & Hlo & Hhi); [lia|done|].
  destruct (lookup_lt_is_Some_2 (merge_sort Z.le l) (Z.to_nat (cdiv (Z.of_nat (length l) * p) 100 - 1))) as [v Hv]; [lia|].
  exists v. split; [done|]. apply (nearest_rank_perm _ _ _ _ Hperm).
  eapply sorted_nearest_rank; [|exact Hv|rewrite Hlen; lia..]. apply (StronglySorted_merge_sort Z.le).
Qed.

Lemma percentile_usage_ok p k s :
  0 < Z.of_nat (length s) < 2 ^ 32 -> 0 < p <= 100 ->
  exists cpu mem ws, percentile_usage p k (sort_data (usage_data s)) = Some (mkUsage k None cpu mem ws 0 0) /\
    is_percentile p s cpu mem ws.
Proof.
  intros Hn Hp. unfold percentile_usage, sort_data, usage_data. cbn [CPUData MemUseData MemWorkSetData].
  assert (length (sort_Float64s (CPUUsageInCores <$> s)) = length s) as Hlen.
  { unfold sort_Float64s. by rewrite (Permutation_length (merge_sort_Permutation _ _)), length_fmap. }
  rewrite Hlen, percentile_index_exact by done.
  destruct (cdiv_100_bounds (Z.of_nat (length s)) p) as (Hc & _ & _); [lia|done|].
  rewrite (proj2 (Z.ltb_ge _ _)) by lia. unfold is_percentile.
  destruct (lookup_lt_is_Some_2 (sort_Float64s (CPUUsageInCores <$> s)) (Z.to_nat (cdiv (Z.of_nat (length s) * p) 100 - 1)))
    as [cpu Hcpu]; [lia|].
  destruct (sort_uint64_rank p (MemoryUsageInBytes <$> s)) as (mem & Hm & Hmr); [by rewrite length_fmap|done|].
  destruct (sort_uint64_rank p (MemoryWorkingSetInBytes <$> s)) as (ws & Hw & Hwr); [by rewrite length_fmap|done|].
  rewrite length_fmap in Hm, Hw. exists cpu, mem, ws.
  rewrite Hcpu. cbn [mbind option_bind]. rewrite Hm. cbn [mbind option_bind]. by rewrite Hw.
Qed.

(** The percentile of one container in a series of probes. *)
Definition usage_at (ts : list ResourceUsagePerContainer) (p : Z) (k : string) : option ContainerResourceUsage :=
  match series_of k ts with
  | [] => None
  | s => percentile_usage p k (sort_data (usage_data s))
  end.

Lemma series_of_length k ts : (length (series_of k ts) <= length ts)%nat.
Proof. unfold series_of. induction ts as [|m ts IH]; cbn; [lia|]. destruct (m !! k); cbn; lia. Qed.

Lemma usage_at_some ts p k :
  Z.of_nat (length ts) < 2 ^ 32 -> 0 < p <= 100 -> series_of k ts <> [] ->
  exists cpu mem ws, usage_at ts p k = Some (mkUsage k None cpu mem ws 0 0) /\ is_percentile p (series_of k ts) cpu mem ws.
Proof.
  intros Hn Hp Hs. pose proof (series_of_length k ts) as Hle. unfold usage_at.
  destruct (series_of k ts) as [|u s] eqn:Hser; [done|]. apply percentile_usage_ok; [cbn in *; lia|done].
Qed.

Lemma percentile_data_lookup perc l data :
  NoDup l.*1 -> (forall k v, (k, v) ∈ l -> is_Some (percentile_usage perc k v)) ->
  exists d, percentile_data perc l data = Some d /\
    forall k, d !! k = match (list_to_map l : gmap string UsageDataPerContainer) !! k with
                       | Some v => percentile_usage perc k v | None => data !! k end.
Proof.
  revert data. induction l as [|[n v] l IH]; intros data; cbn [percentile_data fmap list_fmap].
  { intros _ _. exists data. split; [done|]. intros k. cbn. by rewrite lookup_empty. }
  intros [Hn Hd]%NoDup_cons Hok. destruct (Hok n v) as [u Hu]; [left|]. rewrite Hu. cbn.
  destruct (IH (<[n := u]> data)) as (d & -> & Hlk); [done|intros k w Hin; apply Hok; by right|].
  exists d. split; [done|]. intros k. rewrite Hlk. destruct (decide (k = n)) as [->|Hne].
  - rewrite (not_elem_of_list_to_map_1 l n Hn), !lookup_insert_eq. done.
  - by rewrite !lookup_insert_ne by done.
Qed.

(** [stats] holds the percentiles of a series. *)
Definition stats_of (percs : list Z) (ts : list ResourceUsagePerContainer) (stats : gmap Z ResourceUsagePerContainer) : Prop :=
  forall p, p ∈ percs -> exists m, stats !! p = Some m /\ forall k, m !! k = usage_at ts p k.

Lemma percentiles_loop_ok ts percs result :
  Z.of_nat (length ts) < 2 ^ 32 -> Forall (fun p => 0 < p <= 100) percs ->
  exists stats, percentiles_loop percs (sort_data <$> collect_series ts) result = Some stats /\ stats_of percs ts stats /\
    forall p, p ∉ percs -> stats !! p = result !! p.
Proof.
  intros Hn. revert result. induction percs as [|p percs IH]; intros result; cbn [percentiles_loop].
  { intros _. exists result. split_and!; [done|by intros p ?%elem_of_nil|done]. }
  intros [Hp Hps]%Forall_cons.
  assert (forall k, (sort_data <$> collect_series ts) !! k = sort_data <$> data_of_series (series_of k ts)) as Hdm.
  { intros k. by rewrite lookup_fmap, collect_series_lookup. }
  destruct (percentile_data_lookup p (range "dataMap" (sort_data <$> collect_series ts)) ∅) as (d & -> & Hd).
  - apply range_NoDup_fst.
  - intros k v Hin%elem_of_range. rewrite Hdm in Hin.
    destruct (usage_at_some ts p k Hn Hp) as (? & ? & ? & Hu & _); [by intros Hs; rewrite Hs in Hin|].
    unfold usage_at in Hu. destruct (series_of k ts); [done|]. cbn in Hin. injection Hin as <-. by rewrite Hu.
  - rewrite range_to_map in Hd.
    assert (forall k, d !! k = usage_at ts p k) as Hdk.
    { intros k. rewrite Hd, Hdm. unfold usage_at. by destruct (series_of k ts). }
    cbn. destruct (IH (<[p := d]> result) Hps) as (stats & -> & Hst & Hout). exists stats. split_and!; [done|..].
    + intros q Hq. destruct (decide (q ∈ percs)) as [Hin|Hnin]; [by apply Hst|].
      apply elem_of_cons in Hq as [->|?]; [|done]. exists d. by rewrite Hout, lookup_insert_eq.
    + intros q [? ?]%not_elem_of_cons. rewrite Hout by done. by rewrite lookup_insert_ne.
Qed.

Lemma ComputePercentiles_ok ts percs :
  ts <> [] -> Z.of_nat (length ts) < 2 ^ 32 -> Forall (fun p => 0 < p <= 100) percs ->
  exists stats, ComputePercentiles ts percs = Some stats /\ stats_of percs ts stats.
Proof.
  intros Hne Hn Hps. destruct (percentiles_loop_ok ts percs ∅ Hn Hps) as (stats & Heq & Hst & _).
  exists stats. split; [|done]. by destruct ts.
Qed.

Lemma insert_all_lookup l (m : ResourceUsagePerContainer) k :
  NoDup l.*1 -> fold_left (fun (m : ResourceUsagePerContainer) '(k, v) => <[k := v]> m) l m !! k =
    match (list_to_map l : ResourceUsagePerContainer) !! k with Some v => Some v | None => m !! k end.
Proof.
  revert m. induction l as [|[n v] l IH]; intros m; cbn [fold_left fmap list_fmap]; [cbn; by rewrite lookup_empty|].
  intros [Hn Hd]%NoDup_cons. rewrite IH by done. rewrite list_to_map_cons. destruct (decide (k = n)) as [->|Hne].
  - rewrite lookup_insert_eq, (not_elem_of_list_to_map_1 l n Hn). by rewrite lookup_insert_eq.
  - by rewrite !lookup_insert_ne by done.
Qed.

(** The entries of [right] win; the percentiles are those of [left]. *)
Lemma LeftMergeData_lookup left right p :
  LeftMergeData left right !! p =
    match left !! p with
    | None => None
    | Some d => Some (match right !! p with None => d | Some r => r ∪ d end)
    end.
Proof.
  unfold LeftMergeData. rewrite map_lookup_imap. destruct (left !! p) as [d|]; [|done]. cbn. f_equal.
  destruct (right !! p) as [r|]; [|done]. apply map_eq. intros k.
  rewrite insert_all_lookup by apply range_NoDup_fst. rewrite range_to_map, lookup_union.
  destruct (r !! k), (d !! k); done.
Qed.

(** *** Merging the workers *)

(** The workers whose data reach the summary: the finished ones, after the
    last finished one without any probe, whose empty statistics discard what
    was merged before. *)
Fixpoint live (workers acc : list resourceGatherWorker) : list resourceGatherWorker :=
  match workers with
  | [] => acc
  | w :: workers' =>
      if finished w then live workers' (match dataSeries w with [] => [] | _ => acc ++ [w] end)
      else live workers' acc
  end.

(** The statistics of the first worker that saw the container. *)
Definition first_usage (workers : list resourceGatherWorker) (p : Z) (k : string) : option ContainerResourceUsage :=
  head (omap (fun w => usage_at (dataSeries w) p k) workers).

Definition merged (percs : list Z) (workers : list resourceGatherWorker) (data : gmap Z ResourceUsagePerContainer) : Prop :=
  match workers with
  | [] => data = ∅
  | _ => forall p, p ∈ percs -> exists m, data !! p = Some m /\ forall k, m !! k = first_usage workers p k
  end.

Lemma first_usage_snoc acc w p k :
  first_usage (acc ++ [w]) p k = match first_usage acc p k with Some u => Some u | None => usage_at (dataSeries w) p k end.
Proof.
  unfold first_usage. rewrite omap_app. cbn. destruct (omap _ acc); cbn; [|done]. by destruct (usage_at (dataSeries w) p k).
Qed.

Lemma LeftMergeData_empty right : LeftMergeData ∅ right = ∅.
Proof. apply map_eq. intros p. by rewrite LeftMergeData_lookup, !lookup_empty. Qed.

Lemma merge_step percs acc data w stats :
  merged percs acc data -> stats_of percs (dataSeries w) stats -> merged percs (acc ++ [w]) (LeftMergeData stats data).
Proof.
  intros Hm Hst.
  assert (forall p, p ∈ percs -> exists m, LeftMergeData stats data !! p = Some m /\
            forall k, m !! k = first_usage (acc ++ [w]) p k) as Hall.
  { intros p Hp. rewrite LeftMergeData_lookup. destruct (Hst p Hp) as (m & -> & Hmk). eexists. split; [done|]. intros k.
    rewrite first_usage_snoc. destruct acc as [|a acc].
    - cbn in Hm. rewrite Hm, lookup_empty. apply Hmk.
    - destruct (Hm p Hp) as (m0 & -> & Hm0). rewrite lookup_union, <- Hm0, Hmk.
      destruct (m0 !! k), (usage_at (dataSeries w) p k); done. }
  unfold merged. destruct (acc ++ [w]) eqn:Hacc; [by destruct acc|]. exact Hall.
Qed.

Lemma merge_workers_ok percs ws acc data :
  Forall (fun p => 0 < p <= 100) percs -> Forall (fun w => Z.of_nat (length (dataSeries w)) < 2 ^ 32) ws ->
  merged percs acc data ->
  exists data', merge_workers percs ws data = Some data' /\ merged percs (live ws acc) data'.
Proof.
  intros Hps. revert acc data. induction ws as [|w ws IH]; intros acc data Hws Hm; cbn [merge_workers live]; [eauto|].
  apply Forall_cons in Hws as [Hw Hws]. destruct (finished w); [|by apply IH].
  destruct (dataSeries w) as [|d ds] eqn:Hd.
  { cbn. rewrite LeftMergeData_empty. by apply IH. }
  rewrite <- Hd in *. destruct (ComputePercentiles_ok (dataSeries w) percs) as (stats & -> & Hst); [by rewrite Hd|done..|].
  cbn. apply IH; [done|]. by apply merge_step.
Qed.

(** A finished worker without probes, last in the list, leaves nothing. *)
Lemma live_discarded ws w acc : finished w = true -> dataSeries w = [] -> live (ws ++ [w]) acc = [].
Proof.
  intros Hf Hd. revert acc. induction ws as [|v ws IH]; intros acc; cbn [live app]; [by rewrite Hf, Hd|].
  by destruct (finished v).
Qed.

(** *** The summary *)

Definition entry (name : string) (u : ContainerResourceUsage) : SingleContainerSummary :=
  mkContainerSummary name (CPUUsageInCores u) (MemoryWorkingSetInBytes u).
Definition entries (m : ResourceUsagePerContainer) (names : list string) : list SingleContainerSummary :=
  omap (fun n => entry n <$> m !! n) names.

Lemma names_loop_ok p names data m s :
  data !! p = Some m -> Forall (fun n => is_Some (m !! n)) names ->
  exists s', names_loop p names data s = Some s' /\
    summary_Get s' (pretty p) = summary_Get s (pretty p) ++ entries m names /\
    forall q, q <> pretty p -> summary_Get s' q = summary_Get s q.
Proof.
  intros Hm. revert s. induction names as [|n names IH]; intros s; cbn [names_loop].
  { intros _. exists s. by rewrite app_nil_r. }
  intros [[u Hu] Hns]%Forall_cons. rewrite Hm. cbn [mbind option_bind]. rewrite Hu. cbn [mbind option_bind].
  edestruct IH as (s' & -> & Hp & Hq); [exact Hns|]. exists s'. split; [done|]. split.
  - rewrite Hp. unfold entries. cbn. rewrite Hu. cbn. unfold summary_Get. rewrite lookup_insert_eq. cbn. by rewrite <- app_assoc.
  - intros q Hne. rewrite Hq by done. unfold summary_Get. by rewrite lookup_insert_ne.
Qed.

Lemma summary_loop_ok percs names data s :
  NoDup percs -> (forall p, p ∈ percs -> exists m, data !! p = Some m /\ Forall (fun n => is_Some (m !! n)) names) ->
  exists s', summary_loop percs names data s = Some s' /\
    (forall p m, p ∈ percs -> data !! p = Some m -> summary_Get s' (pretty p) = summary_Get s (pretty p) ++ entries m names) /\
    (forall q, q ∉ pretty <$> percs -> summary_Get s' q = summary_Get s q).
Proof.
  revert s. induction percs as [|p percs IH]; intros s; cbn [summary_loop].
  { intros _ _. exists s. split_and!; [done|by intros ? ? ?%elem_of_nil|done]. }
  intros [Hnin Hnd]%NoDup_cons Hdata. destruct (Hdata p) as (m & Hm & Hns); [left|].
  destruct (names_loop_ok p names data m s Hm Hns) as (s1 & -> & Hs1 & Hs1o). cbn.
  destruct (IH s1 Hnd) as (s' & -> & Hin & Hout); [intros q Hq; apply Hdata; by right|].
  assert (pretty p ∉ pretty <$> percs) as Hpn by (intros (? & ->%(inj pretty) & ?)%list_elem_of_fmap; done).
  exists s'. split_and!; [done|..].
  - intros q m' Hq Hm'. apply elem_of_cons in Hq as [->|Hq].
    + assert (m' = m) as -> by congruence. by rewrite Hout.
    + rewrite (Hin q m' Hq Hm'). f_equal. apply Hs1o. intros ->%(inj pretty). done.
  - intros q Hq. apply not_elem_of_cons in Hq as [??]. rewrite Hout by done. by apply Hs1o.
Qed.

Lemma first_usage_split ws p k u :
  first_usage ws p k = Some u ->
  exists pre w post, ws = pre ++ w :: post /\ Forall (fun w => usage_at (dataSeries w) p k = None) pre /\
    usage_at (dataSeries w) p k = Some u.
Proof.
  unfold first_usage. induction ws as [|w ws IH]; cbn; [done|].
  destruct (usage_at (dataSeries w) p k) as [v|] eqn:Hv.
  - cbn. intros [= ->]. exists [], w, ws. by split_and!.
  - intros (pre & w' & post & -> & Hpre & Hw')%IH. exists (w :: pre), w', post. split_and!; [done|by constructor|done].
Qed.

Lemma usage_at_none ts p k :
  Z.of_nat (length ts) < 2 ^ 32 -> 0 < p <= 100 -> usage_at ts p k = None <-> series_of k ts = [].
Proof.
  intros Hn Hp. split; [|unfold usage_at; by intros ->]. intros Hu. destruct (decide (series_of k ts = [])) as [|Hne]; [done|].
  destruct (usage_at_some ts p k Hn Hp Hne) as (? & ? & ? & Hs & _). congruence.
Qed.

Lemma first_usage_seen ws p k :
  Forall (fun w => Z.of_nat (length (dataSeries w)) < 2 ^ 32) ws -> 0 < p <= 100 ->
  is_Some (first_usage ws p k) <-> exists w, w ∈ ws /\ series_of k (dataSeries w) <> [].
Proof.
  intros Hws Hp. unfold first_usage. induction Hws as [|w ws Hw Hws IH]; cbn.
  { split; [by intros []|]. by intros (? & ?%elem_of_nil & _). }
  destruct (usage_at (dataSeries w) p k) as [u|] eqn:Hu.
  - split; [intros _|done]. exists w. split; [left|]. intros Hn.
    apply (usage_at_none _ p k Hw Hp) in Hn. congruence.
  - cbn. rewrite IH. apply (usage_at_none _ p k Hw Hp) in Hu. split.
    + intros (v & Hv & Hs). exists v. split; [by right|done].
    + intros (v & [->|Hv]%elem_of_cons & Hs); [done|]. eauto.
Qed.

Lemma live_subset ws acc w : w ∈ live ws acc -> w ∈ acc \/ w ∈ ws.
Proof.
  revert acc. induction ws as [|v ws IH]; intros acc; cbn [live]; [auto|].
  destruct (finished v); [|intros []%IH; [auto|right; by right]].
  intros [Hin|Hin]%IH; [|right; by right]. destruct (dataSeries v); [by apply elem_of_nil in Hin|].
  apply elem_of_app in Hin as [?|?%list_elem_of_singleton]; [auto|subst; right; left].
Qed.

Lemma entries_names m names : Forall (fun n => is_Some (m !! n)) names -> scs_Name <$> entries m names = names.
Proof. unfold entries. induction 1 as [|n names [u Hu] _ IH]; [done|]. cbn. rewrite Hu. cbn. by rewrite IH. Qed.

Lemma elem_of_entries m names e : e ∈ entries m names <-> exists n u, n ∈ names /\ m !! n = Some u /\ e = entry n u.
Proof.
  unfold entries. rewrite list_elem_of_omap. split.
  - intros (n & Hn & (u & Hu & ->)%fmap_Some). eauto.
  - intros (n & u & Hn & Hu & ->). exists n. split; [done|]. cbn. by rewrite Hu.
Qed.

Lemma summary_loop_no_names percs data s : summary_loop percs [] data s = Some s.
Proof. induction percs; [done|]. done. Qed.

Definition keys_of (m : ResourceUsagePerContainer) : list string := merge_sort string_le (range "data" m).*1.

Lemma keys_of_spec m : NoDup (keys_of m) /\ StronglySorted string_le (keys_of m) /\ forall k, k ∈ keys_of m <-> is_Some (m !! k).
Proof.
  unfold keys_of. split_and!.
  - rewrite merge_sort_Permutation. apply range_NoDup_fst.
  - apply (StronglySorted_merge_sort string_le).
  - intros k. rewrite merge_sort_Permutation, list_elem_of_fmap. split.
    + intros ([n u] & -> & Hin%elem_of_range). eauto.
    + intros [u Hu]. exists (k, u). split; [done|]. by apply elem_of_range.
Qed.

(** What the entries of one percentile promise about the live workers. *)
Definition entries_correct (workers : list resourceGatherWorker) (p : Z) (l : list SingleContainerSummary) : Prop :=
  StronglySorted string_le (scs_Name <$> l) /\ NoDup (scs_Name <$> l) /\
  (forall name, name ∈ scs_Name <$> l <-> exists w, w ∈ workers /\ series_of name (dataSeries w) <> []) /\
  (forall e, e ∈ l -> exists pre w post mem, workers = pre ++ w :: post /\
     Forall (fun v => series_of (scs_Name e) (dataSeries v) = []) pre /\
     is_percentile p (series_of (scs_Name e) (dataSeries w)) (scs_CPU e) mem (scs_Mem e)).

Lemma entry_is_percentile ws p k u :
  Forall (fun w => Z.of_nat (length (dataSeries w)) < 2 ^ 32) ws -> 0 < p <= 100 ->
  first_usage ws p k = Some u ->
  exists pre w post mem, ws = pre ++ w :: post /\ Forall (fun v => series_of k (dataSeries v) = []) pre /\
    is_percentile p (series_of k (dataSeries w)) (CPUUsageInCores u) mem (MemoryWorkingSetInBytes u).
Proof.
  intros Hws Hp (pre & w & post & -> & Hpre & Hw)%first_usage_split.
  apply Forall_app in Hws as [Hlp [Hlw _]%Forall_cons].
  destruct (usage_at_some (dataSeries w) p k Hlw Hp) as (cpu & mem & wset & Hu & Hperc).
  { intros Hs. apply (usage_at_none _ p k Hlw Hp) in Hs. congruence. }
  exists pre, w, post, mem. split; [done|]. split.
  - rewrite Forall_forall in Hpre, Hlp |- *. intros v Hv.
    apply (usage_at_none _ p k (Hlp v Hv) Hp), Hpre, Hv.
  - rewrite Hu in Hw. by injection Hw as <-.
Qed.

Lemma entries_correct_of ws p m names :
  Forall (fun w => Z.of_nat (length (dataSeries w)) < 2 ^ 32) ws -> 0 < p <= 100 ->
  (forall k, m !! k = first_usage ws p k) ->
  NoDup names -> StronglySorted string_le names -> (forall k, k ∈ names <-> is_Some (m !! k)) ->
  entries_correct ws p (entries m names).
Proof.
  intros Hws Hp Hm Hnd Hsort Hk.
  assert (scs_Name <$> entries m names = names) as Hnames.
  { apply entries_names. apply Forall_forall. intros k. by rewrite Hk. }
  unfold entries_correct. rewrite Hnames. split_and!; [done..| |].
  - intros k. rewrite Hk, Hm. by apply first_usage_seen.
  - intros e (n & u & _ & Hu & ->)%elem_of_entries. cbn [scs_Name scs_CPU scs_Mem entry].
    rewrite Hm in Hu. by apply entry_is_percentile.
Qed.

Lemma keys_of_empty : keys_of ∅ = [].
Proof.
  destruct (keys_of_spec ∅) as (_ & _ & Hk). destruct (keys_of ∅) as [|k ks]; [done|].
  exfalso. destruct (proj1 (Hk k) ltac:(left)) as [? ?]. by rewrite lookup_empty in *.
Qed.

(** Without live workers the summary is empty, and no error is reported. *)
Lemma nothing_live ws percs :
  percs <> [] -> Forall (fun p => 0 < p <= 100) percs ->
  Forall (fun w => Z.of_nat (length (dataSeries w)) < 2 ^ 32) ws ->
  live ws [] = [] -> StopAndSummarize ws percs = Some (∅, None).
Proof.
  intros Hne Hps Hws Hl. destruct (merge_workers_ok percs ws [] ∅ Hps Hws eq_refl) as (data & Hdata & Hm).
  rewrite Hl in Hm. cbn in Hm. subst data. unfold StopAndSummarize. destruct percs as [|p0 percs]; [done|].
  rewrite Hdata. cbn [mbind option_bind]. rewrite lookup_empty. cbn [default from_option id].
  fold (keys_of ∅). by rewrite keys_of_empty, summary_loop_no_names.
Qed.

(** One finished worker that never probed, such as the worker of a node whose
    kubelet does not answer, empties the summary when it is the last one. *)
Lemma unprobed_worker_discards ws w percs :
  percs <> [] -> Forall (fun p => 0 < p <= 100) percs ->
  Forall (fun w => Z.of_nat (length (dataSeries w)) < 2 ^ 32) ws ->
  finished w = true -> dataSeries w = [] ->
  StopAndSummarize (ws ++ [w]) percs = Some (∅, None).
Proof.
  intros Hne Hps Hws Hf Hd. apply nothing_live; [done..| |by apply live_discarded].
  apply Forall_app. split; [done|]. constructor; [by rewrite Hd|done].
Qed.

(** C28: the resource summary never fails on percentiles from 1 to 100. For
    each of them it lists, sorted and once each, exactly the containers the
    live workers saw, with the percentiles of the first live worker that saw
    the container. *)
Theorem resource_summary_correct ws percs :
  percs <> [] -> NoDup percs -> Forall (fun p => 0 < p <= 100) percs ->
  Forall (fun w => Z.of_nat (length (dataSeries w)) < 2 ^ 32) ws ->
  exists summary, StopAndSummarize ws percs = Some (summary, None) /\
    forall p, p ∈ percs -> entries_correct (live ws []) p (summary_Get summary (pretty p)).
Proof.
  intros Hne Hnd Hps Hws. destruct percs as [|p0 percs']; [done|]. clear Hne.
  remember (p0 :: percs') as percs eqn:Hpercs. assert (p0 ∈ percs) as Hp0 by (subst; left).
  assert (Forall (fun w => Z.of_nat (length (dataSeries w)) < 2 ^ 32) (live ws [])) as Hlive.
  { rewrite Forall_forall in Hws |- *. intros w [?%elem_of_nil|?]%live_subset; [done|by apply Hws]. }
  destruct (live ws []) as [|w0 lws] eqn:Hl.
  - exists ∅. split; [apply nothing_live; [by subst|done..]|]. intros p _. unfold summary_Get. rewrite lookup_empty. cbn.
    split_and!; [constructor|constructor| |by intros ? ?%elem_of_nil].
    intros name. split; [by intros ?%elem_of_nil|]. by intros (? & ?%elem_of_nil & _).
  - destruct (merge_workers_ok percs ws [] ∅ Hps Hws eq_refl) as (data & Hdata & Hm). rewrite Hl in Hm.
    unfold StopAndSummarize. rewrite Hpercs. rewrite <- Hpercs. rewrite Hdata. cbn [mbind option_bind].
    fold (keys_of (default ∅ (data !! p0))).
    destruct (Hm p0 Hp0) as (m0 & Hm0 & Hmk0). rewrite Hm0. cbn [default from_option id].
    destruct (keys_of_spec m0) as (Hknd & Hks & Hkk).
    assert (forall p, p ∈ percs -> exists m, data !! p = Some m /\ (forall k, m !! k = first_usage (w0 :: lws) p k) /\
      forall k, k ∈ keys_of m0 <-> is_Some (m !! k)) as Hall.
    { intros p Hp. destruct (Hm p Hp) as (m & Hmp & Hmk). exists m. split_and!; [done..|]. intros k.
      rewrite Forall_forall in Hps. by rewrite Hkk, Hmk0, Hmk, !first_usage_seen by auto. }
    destruct (summary_loop_ok percs (keys_of m0) data ∅ Hnd) as (summary & -> & Hin & _).
    { intros p Hp. destruct (Hall p Hp) as (m & Hmp & _ & Hk). exists m. split; [done|]. apply Forall_forall. intros k. by rewrite Hk. }
    cbn. exists summary. split; [done|]. intros p Hp. destruct (Hall p Hp) as (m & Hmp & Hmk & Hk).
    rewrite (Hin p m Hp Hmp). unfold summary_Get at 1. rewrite lookup_empty. cbn [default from_option id app].
    apply entries_correct_of; [done|by rewrite Forall_forall in Hps; apply Hps|done..].
Qed.
End Theory.

(** ** resource_usage.go *)
Section Measurement.
Context `{GoLib} `{MapRange} (PrettyPrintJSON : ResourceUsageSummary -> result string).

Definition resourceUsageMetricName : string := "ResourceUsageSummary".

(** The constraints are pointers. *)
Record resourceUsageMetricMeasurement := mkResourceUsage {
  gatherer : option ContainerResourceGatherer;
  resourceConstraints : gmap string (option ResourceConstraint);
}.

Definition createResourceUsageMetricMeasurement : resourceUsageMetricMeasurement := mkResourceUsage None ∅.

Definition MaxFloat64 : float64 := S754_finite false (2 ^ 53 - 1)%positive 971.

Definition default_constraint (c : ResourceConstraint) : ResourceConstraint :=
  mkConstraint (if SFeqb (CPUConstraint c) (f64_of_Z 0) then MaxFloat64 else CPUConstraint c)
    (if MemoryConstraint c =? 0 then MaxUint64 else MemoryConstraint c).

(** A nil constraint panics. *)
Definition default_constraints (m : gmap string (option ResourceConstraint)) : option (gmap string (option ResourceConstraint)) :=
  if bool_decide (map_Forall (fun _ c => is_Some c) m) then Some (fmap (fun c : option ResourceConstraint => default_constraint <$> c) m) else None.

(** [strings.Split(name, "/")[1]]. *)
Definition container_name (name : string) : option string := Split "/" name !! 1%nat.

Definition mb (x : Z) : float64 := f64_div (f64_of_Z x) (f64_of_Z (1024 * 1024)).

Definition container_violations (s : SingleContainerSummary) (c : ResourceConstraint) : list string :=
  (if f64_ltb (CPUConstraint c) (scs_CPU s)
   then [Sprintf "container %v is using %v/%v CPU"
           [FStr (scs_Name s); FStr (Sprint (VFloat64 (scs_CPU s))); FStr (Sprint (VFloat64 (CPUConstraint c)))]]
   else []) ++
  (if MemoryConstraint c <? scs_Mem s
   then [Sprintf "container %v is using %v/%v MB of memory"
           [FStr (scs_Name s); FStr (Sprint (VFloat64 (mb (scs_Mem s)))); FStr (Sprint (VFloat64 (mb (MemoryConstraint c))))]]
   else []).

Fixpoint violations_loop (constraints : gmap string (option ResourceConstraint)) (l : list SingleContainerSummary)
    (violatedConstraints : list string) : option (list string) :=
  match l with
  | [] => Some violatedConstraints
  | s :: l' =>
      containerName ← container_name (scs_Name s);
      match constraints !! containerName with
      | None => violations_loop constraints l' violatedConstraints
      | Some None => None
      | Some (Some c) => violations_loop constraints l' (violatedConstraints ++ container_violations s c)
      end
  end.

Definition verifySummary (e : resourceUsageMetricMeasurement) (summary : ResourceUsageSummary) : option (option error) :=
  violatedConstraints ← violations_loop (resourceConstraints e) (summary_Get summary "99") [];
  Some (match violatedConstraints with
        | [] => None
        | l => Some (NewMetricViolationError "resource constraints"
                 (Sprintf "%d constraints violated: %v" [FInt (Z.of_nat (length l)); FStr ("[" +:+ join " " l +:+ "]")]))
        end).

(** What the measurement sees of the cluster config, the template provider, the
    API server and its workers at the time of the call. *)
Record resource_env := mkResourceEnv {
  re_provider : Provider;
  re_masterIP : string;
  re_Nodes : Z;
  re_KubeletPort : Z;
  re_TemplateInto : string -> Z -> gmap string (option ResourceConstraint) -> gmap string (option ResourceConstraint) * option error;
  re_pods : string -> result (list gatherer_pod);
  re_nodes : result (list node);
  re_workers : list resourceGatherWorker;
}.

Definition maxNodeCountForAllNodes : Z := 1000.

(** The constraints read when a path is given: an error of the template leaves
    what was decoded, without defaults. *)
Definition read_constraints (env : resource_env) (constraintsPath : string) (e : resourceUsageMetricMeasurement)
  : option (resourceUsageMetricMeasurement * option error) :=
  if String.eqb constraintsPath "" then Some (e, None)
  else
    match re_TemplateInto env constraintsPath (re_Nodes env) (resourceConstraints e) with
    | (m, Some err) => Some (mkResourceUsage (gatherer e) m, Some (Errorf "resource constraints reading error: %v" [AErr err]))
    | (m, None) => m ← default_constraints m; Some (mkResourceUsage (gatherer e) m, None)
    end.

Definition gatherer_options (env : resource_env) : ResourceGathererOptions :=
  mkGathererOptions (prov_Features (re_provider env) IsKubemarkProvider)
    (if maxNodeCountForAllNodes <? re_Nodes env then MasterAndNonDaemons else AllNodes) (60 * Latency.Second) (10 * Latency.Second).

(** A failed creation stores a nil gatherer. *)
Definition start_gathering (env : resource_env) (config : MeasurementConfig) (e : resourceUsageMetricMeasurement)
  : option (resourceUsageMetricMeasurement * (list Summary * option error)) :=
  match GetStringOrDefault (cfg_Params config) "host" (re_masterIP env) with
  | (_, Some err) => Some (e, ([], Some err))
  | (host, None) =>
      match GetStringOrDefault (cfg_Params config) "namespace" "kube-system" with
      | (_, Some err) => Some (e, ([], Some err))
      | (namespace, None) =>
          match GetStringOrDefault (cfg_Params config) "resourceConstraints" "" with
          | (_, Some err) => Some (e, ([], Some err))
          | (constraintsPath, None) =>
              '(e, err) ← read_constraints env constraintsPath e;
              match err with
              | Some err => Some (e, ([], Some err))
              | None =>
                  match NewResourceUsageGatherer (re_pods env namespace) (re_nodes env) host (re_KubeletPort env) (gatherer_options env) with
                  | Err err => Some (mkResourceUsage None (resourceConstraints e), ([], Some err))
                  | Ok g => Some (mkResourceUsage (Some g) (resourceConstraints e), ([], None))
                  end
              end
          end
      end
  end.

(** The workers of [re_workers] are those of the gatherer, as they are after
    the wait. *)
Definition gather_usage (env : resource_env) (now : Z) (g : ContainerResourceGatherer) (e : resourceUsageMetricMeasurement)
  : option (resourceUsageMetricMeasurement * (list Summary * option error)) :=
  let e := mkResourceUsage (Some (stop g)) (resourceConstraints e) in
  '(summary, err) ← StopAndSummarize (re_workers env) [50; 90; 99; 100];
  match err with
  | Some err => Some (e, ([], Some err))
  | None =>
      match PrettyPrintJSON summary with
      | Err err => Some (e, ([], Some err))
      | Ok content =>
          verdict ← verifySummary e summary;
          Some (e, ([CreateSummary now resourceUsageMetricName "json" content], verdict))
      end
  end.

Definition Execute (env : resource_env) (now : Z) (config : MeasurementConfig) (e : resourceUsageMetricMeasurement)
  : option (resourceUsageMetricMeasurement * (list Summary * option error)) :=
  if negb (prov_Features (re_provider env) SupportResourceUsageMetering) then Some (e, ([], None))
  else
    match getString (cfg_Params config) "action" with
    | (_, Some err) => Some (e, ([], Some err))
    | (action, None) =>
        if String.eqb action "start" then start_gathering env config e
        else if String.eqb action "gather" then
          match gatherer e with
          | None => Some (e, ([], None))
          | Some g => gather_usage env now g e
          end
        else Some (e, ([], Some (Errorf "unknown action %v" [AStr action])))
    end.

Definition Dispose (e : resourceUsageMetricMeasurement) : resourceUsageMetricMeasurement :=
  mkResourceUsage (stop <$> gatherer e) (resourceConstraints e).

(** *** The verdict *)

(** The container, under the constraint of its name, is within it. *)
Definition within (constraints : gmap string (option ResourceConstraint)) (s : SingleContainerSummary) : Prop :=
  forall name c, container_name (scs_Name s) = Some name -> constraints !! name = Some (Some c) ->
    f64_ltb (CPUConstraint c) (scs_CPU s) = false /\ scs_Mem s <= MemoryConstraint c.

Lemma container_violations_nil s c :
  container_violations s c = [] <-> f64_ltb (CPUConstraint c) (scs_CPU s) = false /\ scs_Mem s <= MemoryConstraint c.
Proof.
  unfold container_violations. destruct (f64_ltb _ _), (Z.ltb_spec (MemoryConstraint c) (scs_Mem s)); cbn; split;
    try done; try (intros []; (done || lia)).
Qed.

Lemma violations_loop_verdict constraints l acc :
  Forall (fun s => is_Some (container_name (scs_Name s))) l -> map_Forall (fun _ c => is_Some c) constraints ->
  exists r, violations_loop constraints l acc = Some r /\ (r = [] <-> acc = [] /\ Forall (within constraints) l).
Proof.
  intros Hl Hc. revert acc. induction Hl as [|s l [n Hn] Hl IH]; intros acc; cbn [violations_loop].
  { exists acc. split; [done|]. split; [by split|by intros []]. }
  rewrite Hn. cbn [mbind option_bind].
  destruct (constraints !! n) as [[c|]|] eqn:Hcn.
  - destruct (IH (acc ++ container_violations s c)) as (r & -> & Hr). exists r. split; [done|].
    rewrite Hr, Forall_cons, app_nil, container_violations_nil. unfold within at 2. rewrite Hn.
    split; [intros [[? ?] ?]; split_and!; [done| |done]; by intros ? ? [= <-] ?; simplify_eq|].
    intros (? & Hw & ?). split_and!; [done|eapply Hw; eauto..|done].
  - destruct (Hc n None Hcn) as [? [=]].
  - destruct (IH acc) as (r & -> & Hr). exists r. split; [done|]. rewrite Hr, Forall_cons.
    split; [intros [? ?]; split_and!; [done| |done]; intros ? ? ?; congruence|]. by intros (? & _ & ?).
Qed.

(** The measurement reports a violation exactly when the 99th percentile of
    some constrained container is above its constraint. *)
Lemma verifySummary_verdict e summary :
  Forall (fun s => is_Some (container_name (scs_Name s))) (summary_Get summary "99") ->
  map_Forall (fun _ c => is_Some c) (resourceConstraints e) ->
  exists verdict, verifySummary e summary = Some verdict /\
    (verdict = None <-> Forall (within (resourceConstraints e)) (summary_Get summary "99")).
Proof.
  intros Hn Hc. unfold verifySummary.
  destruct (violations_loop_verdict (resourceConstraints e) (summary_Get summary "99") [] Hn Hc) as (r & -> & Hr).
  cbn [mbind option_bind]. eexists. split; [done|].
  destruct r as [|v r].
  - destruct (proj1 Hr eq_refl) as [_ ?]. by split.
  - split; [done|]. intros Hw. assert (v :: r = []) by (apply Hr; by split). done.
Qed.
End Measurement.

(** ** A concrete run *)
#[local] Existing Instance list_range.

Definition ex_usage (name : string) (ws : Z) : ContainerResourceUsage := mkUsage name None (f64_of_Z 1) ws ws 0 0.
Definition ex_worker (series : list ResourceUsagePerContainer) : resourceGatherWorker := mkWorker "n" [] series true false 60 "" 10250.
Definition ex_workers : list resourceGatherWorker :=
  [ex_worker [{[ "etcd/etcd" := ex_usage "etcd/etcd" 30 ]}; {[ "etcd/etcd" := ex_usage "etcd/etcd" 10 ]}];
   ex_worker [{[ "dns/dns" := ex_usage "dns/dns" 7 ]}]].

Example ex_summary :
  (fun r => match r with Some (s, None) => Some (map scs_Mem (summary_Get s "50"), map scs_Mem (summary_Get s "99")) | _ => None end)
    (StopAndSummarize ex_workers [50; 99]) = Some ([7; 10], [7; 30]).
Proof. vm_compute. reflexivity. Qed.

Lemma resource_summary_correct_witness :
  exists summary, StopAndSummarize ex_workers [50; 90; 99; 100] = Some (summary, None) /\
    forall p, p ∈ [50; 90; 99; 100] -> entries_correct (live ex_workers []) p (summary_Get summary (pretty p)).
Proof.
  apply resource_summary_correct; [done|by apply (bool_decide_unpack _)| |];
    repeat (constructor; [cbn; lia|]); constructor.
Defined.
