(* ===== verification/Services.v ===== *)
(** * What is deployed before the tests run

      pkg/framework/framework.go    [ApplyTemplatedManifests]
      pkg/execservice               the pods commands are executed in
      pkg/imagepreload              pulling images on every node
      pkg/metadata                  the metadata file

    Rendering a manifest is the template provider's (Templates); informers,
    pod stores, [kubectl] and the file system are operations of interfaces. *)

From S2P Require Import Prelude GoErrors GoRuntime Params Api State RuntimeObjects Executor Client Namespaces Pods Cluster Provider Templates.

(** Operations that may fail, one after the other up to the first error. *)
Fixpoint run_steps {W} (l : list (W -> W * option error)) (w : W) : W * option error :=
  match l with
  | [] => (w, None)
  | f :: l' => match f w with
               | (w', None) => run_steps l' w'
               | r => r
               end
  end.

(** The error of an operation, wrapped. *)
Definition wrapped {W} (wrap : error -> error) (f : W -> W * option error) (w : W) : W * option error :=
  let '(w', err) := f w in (w', wrap <$> err).

(** ** Manifests *)

(** apimachinery's accessors of an unstructured object. *)
Class UnstructuredLib := {
  IsList : Unstructured -> bool;
  ToList : Unstructured -> result (list Unstructured);
  GetNamespace : Unstructured -> string;
  GetName : Unstructured -> string;
}.

Section Manifests.
Context {C : Type} `{ApiErrors} `{Backoff} `{ApiServer C} `{UnstructuredLib}.
Context (Glob : string -> result (list string)) (Render : string -> params -> result Unstructured).
Context (options : list APICallOptions).

(** The objects of one manifest; [None] for a manifest without content. *)
Definition manifest_objects (manifest : string) (templateMapping : params) : result (option (list Unstructured)) :=
  match Render manifest templateMapping with
  | Err (Sentinel SEmptyFile) => Ok None
  | Err err => Err (Errorf "TemplateToObject error: %+v" [AErr err])
  | Ok obj =>
      if IsList obj then
        match ToList obj with
        | Err err => Err err
        | Ok items => Ok (Some items)
        end
      else Ok (Some [obj])
  end.

Definition create_item (manifest : string) (item : Unstructured) (c : C) : C * option error :=
  wrapped (fun err => Errorf "error while applying (%s): %v" [AStr manifest; AErr err])
    (fun c => client_CreateObject options c (GetNamespace item) (GetName item) item) c.

Fixpoint apply_manifests (manifests : list string) (templateMapping : params) (c : C) : C * option error :=
  match manifests with
  | [] => (c, None)
  | manifest :: manifests' =>
      match manifest_objects manifest templateMapping with
      | Err err => (c, Some err)
      | Ok None => apply_manifests manifests' templateMapping c
      | Ok (Some objList) =>
          match run_steps (map (create_item manifest) objList) c with
          | (c', Some err) => (c', Some err)
          | (c', None) => apply_manifests manifests' templateMapping c'
          end
      end
  end.

Definition ApplyTemplatedManifests (manifestGlob : string) (templateMapping : params) (c : C) : C * option error :=
  match Glob manifestGlob with
  | Err err => (c, Some err)
  | Ok manifests => apply_manifests manifests templateMapping c
  end.

(** *** What applying manifests does *)

Definition item_key (item : Unstructured) : key := obj_key (GetNamespace item) (GetName item) (u_gvk item).

(** The keys of the objects in manifests that render. *)
Definition manifest_keys (manifests : list string) (templateMapping : params) : gset key :=
  list_to_set (concat (map (fun m => match manifest_objects m templateMapping with
                                     | Ok (Some items) => map item_key items
                                     | _ => []
                                     end) manifests)).

Context `{AL : !ApiLaws (C := C)} (Hoptions : omap shouldAllowError options = []).

(** Between the cluster before and the cluster with all the objects. *)
Definition between (c c' : C) (keys : gset key) : Prop :=
  api_objs c ⊆ api_objs c' /\ api_objs c' ⊆ keys ∪ api_objs c.

Lemma between_refl c keys : between c c keys.
Proof. unfold between. set_solver. Qed.

Lemma between_l c c' keys keys' : between c c' keys -> between c c' (keys ∪ keys').
Proof. unfold between. generalize (api_objs c), (api_objs c'). set_solver. Qed.

Lemma between_trans c1 c2 c3 keys keys' :
  between c1 c2 keys -> between c2 c3 keys' -> between c1 c3 (keys ∪ keys').
Proof. unfold between. generalize (api_objs c1), (api_objs c2), (api_objs c3). set_solver. Qed.

Lemma create_item_effect manifest item c c' err :
  create_item manifest item c = (c', err) ->
  between c c' {[item_key item]} /\ (err = None -> api_objs c' = {[item_key item]} ∪ api_objs c).
Proof.
  unfold create_item, wrapped, between, item_key.
  destruct (client_CreateObject _ _ _ _ _) as [c1 r] eqn:Hc. intros [= -> <-].
  apply (client_CreateObject_options options) in Hc as [Hb Hn]; [|done]. split.
  - destruct Hb as [-> | ->]; set_solver.
  - destruct r; [done|]. auto.
Qed.

Lemma create_items_effect manifest items c c' err :
  run_steps (map (create_item manifest) items) c = (c', err) ->
  between c c' (list_to_set (map item_key items)) /\
  (err = None -> api_objs c' = list_to_set (map item_key items) ∪ api_objs c).
Proof.
  revert c. induction items as [|item items IH]; intros c; cbn [map run_steps list_to_set].
  { intros [= <- <-]. split; [apply between_refl|]. intros _. by rewrite (left_id_L ∅ (∪)). }
  destruct (create_item manifest item c) as [c1 [e|]] eqn:Hi; apply create_item_effect in Hi as [Hb Hn].
  - intros [= <- <-]. split; [by apply between_l|done].
  - intros [Hc Hr]%IH. split; [by eapply between_trans|]. intros He.
    rewrite (Hr He), (Hn eq_refl). rewrite !(assoc_L (∪)). f_equal. apply (comm_L (∪)).
Qed.

Lemma apply_manifests_effect manifests mapping c c' err :
  apply_manifests manifests mapping c = (c', err) ->
  between c c' (manifest_keys manifests mapping) /\
  (err = None -> api_objs c' = manifest_keys manifests mapping ∪ api_objs c /\
     Forall (fun m => is_ok (manifest_objects m mapping) = true) manifests).
Proof.
  unfold manifest_keys. revert c. induction manifests as [|m manifests IH]; intros c; cbn [apply_manifests map concat].
  { intros [= <- <-]. split; [apply between_refl|]. intros _. split; [|constructor]. cbn [list_to_set]. by rewrite (left_id_L ∅ (∪)). }
  destruct (manifest_objects m mapping) as [[items|]|e] eqn:Hm.
  - rewrite list_to_set_app_L.
    destruct (run_steps _ c) as [c1 [e|]] eqn:Hr; apply create_items_effect in Hr as [Hb Hn].
    + intros [= <- <-]. split; [by apply between_l|done].
    + intros [Hc Ha]%IH. split; [by eapply between_trans|]. intros He.
      destruct (Ha He) as [-> Hf]. rewrite (Hn eq_refl). split; [|by constructor; [rewrite Hm|]].
      rewrite !(assoc_L (∪)). f_equal. apply (comm_L (∪)).
  - cbn [app]. intros [Hb Ha]%IH. split; [done|]. intros He. destruct (Ha He) as [Hk Hf]. split; [done|].
    constructor; [by rewrite Hm|done].
  - intros [= <- <-]. split; [apply between_refl|done].
Qed.

(** C16: Applying manifests is all or a part of them, never anything else: whatever
    happens the cluster loses no object and gains none that is not in the
    matching manifests; without an error every matching manifest was rendered
    (or is empty) and all their objects exist. Applying them again changes
    nothing. *)
Theorem manifests_applied glob mapping c c' err :
  ApplyTemplatedManifests glob mapping c = (c', err) ->
  (forall manifests, Glob glob = Ok manifests ->
     between c c' (manifest_keys manifests mapping) /\
     (err = None ->
        api_objs c' = manifest_keys manifests mapping ∪ api_objs c /\
        Forall (fun m => is_ok (manifest_objects m mapping) = true) manifests /\
        forall c'' err', ApplyTemplatedManifests glob mapping c' = (c'', err') -> api_objs c'' = api_objs c')) /\
  (forall e, Glob glob = Err e -> c' = c /\ err = Some e).
Proof.
  unfold ApplyTemplatedManifests. destruct (Glob glob) as [ms|e]; [|by intros [= <- <-]; split; [done|intros ? [= <-]]].
  intros Ha. split; [|done]. intros manifests [= <-].
  apply apply_manifests_effect in Ha as [Hb Hn]. split; [done|]. intros He. destruct (Hn He) as [Hk Hf].
  split_and!; [done..|]. intros c'' err' [[Hge Hle] _]%apply_manifests_effect.
  apply leibniz_equiv, (anti_symm (⊆)); [|done]. etrans; [exact Hle|]. rewrite Hk. by rewrite (assoc_L (∪)), (idemp_L (∪)).
Qed.
End Manifests.

(** Two manifests, one of them a list of two objects and one empty, on a server
    that loses the first answers. *)
Definition ex_manifest_lib : UnstructuredLib :=
  {| IsList := fun u => String.eqb (Kind (u_gvk u)) "List";
     ToList := fun _ => Ok [mkUnstructured (mkGVK "" "v1" "Service") ∅; mkUnstructured (mkGVK "apps" "v1" "Deployment") ∅];
     GetNamespace := fun _ => "ns";
     GetName := fun _ => "exporter" |}.

Definition ex_render (path : string) (_ : params) : result Unstructured :=
  if String.eqb path "empty.yaml" then Err ErrorEmptyFile
  else Ok (mkUnstructured (mkGVK "" "v1" "List") ∅).

Definition ex_apply : flaky -> flaky * option error :=
  @ApplyTemplatedManifests flaky flaky_errors simple_backoff flaky_server ex_manifest_lib
    (fun _ => Ok ["empty.yaml"; "list.yaml"]) ex_render [Retry (@IsNotFound flaky_errors)] "*.yaml" ∅.

Lemma manifests_applied_witness :
  exists c', ex_apply (∅, 3%nat) = (c', None) /\ size c'.1 = 2%nat.
Proof.
  destruct (ex_apply (∅, 3%nat)) as [c' err] eqn:Hc.
  assert (err = None) as -> by (apply (f_equal snd) in Hc; vm_compute in Hc; done).
  exists c'. split; [done|].
  destruct (@manifests_applied flaky flaky_errors simple_backoff flaky_server ex_manifest_lib
    (fun _ => Ok ["empty.yaml"; "list.yaml"]) ex_render [Retry (@IsNotFound flaky_errors)] flaky_laws eq_refl
    "*.yaml" ∅ (∅, 3%nat) c' None Hc) as [Ha _].
  destruct (Ha _ eq_refl) as [_ Hall]. destruct (Hall eq_refl) as [Hk _].
  change (api_objs c') with c'.1 in Hk. rewrite Hk. vm_compute. reflexivity.
Defined.

(** ** Informers *)

(** What client-go's informer delivers; a missed deletion comes as a tombstone. *)
Inductive informer_event (A : Type) :=
| AddFunc (obj : A)
| UpdateFunc (oldObj newObj : A)
| DeleteFunc (obj : A)
| DeleteFuncTombstone (obj : A).
Arguments AddFunc {_} _.
Arguments UpdateFunc {_} _ _.
Arguments DeleteFunc {_} _.
Arguments DeleteFuncTombstone {_} _.

(** What the handler gets: the old object, the new object. *)
Definition addEventHandler {A} (e : informer_event A) : option A * option A :=
  match e with
  | AddFunc obj => (None, Some obj)
  | UpdateFunc oldObj newObj => (Some oldObj, Some newObj)
  | DeleteFunc obj | DeleteFuncTombstone obj => (Some obj, None)
  end.

(** [synced]: the answer of [cache.WaitForCacheSync]. *)
Definition StartAndSync (synced : bool) : option error :=
  if negb synced then Some (Errorf "timed out waiting for caches to sync" []) else None.

(** ** The exec service *)
Module ExecService.

Definition execDeploymentNamespace : string := "cluster-loader".
Definition execDeploymentName : string := "exec-pod".
Definition execPodReplicas : Z := 3.
Definition deploymentYaml : string := "manifest/exec_deployment.yaml".

(** Pod stores, and the run of one [WaitForPods] on them: the first listing
    and the rounds. *)
Class PodStores (C PS : Type) := {
  NewPodStore : C -> C * result PS;
  ps_Stop : PS -> C -> C;
  ps_List : PS -> C -> result (list Pod);
  ps_String : PS -> string;
  ps_rounds : PS -> C -> C * list round;
}.

Section Exec.
Context {C PS : Type} `{GoLib} `{ApiErrors} `{Backoff} `{NamespaceServer C} `{PodStores C PS}.
Context (Apply : string -> params -> C -> C * option error).

(** The package's state: [podStore], nil when the service is not running. *)
Abbreviation exec_state := (option PS * C)%type.

(** Waiting that never ends is [None]: the context's deadline makes the last
    round of a wait a [CtxDone]. *)
Definition SetUpExecService (environ : list string) (imageRegistry : string) (s : exec_state)
  : option (exec_state * option error) :=
  let '(podStore, c) := s in
  match LoadCL2Envs environ with
  | Err err => Some (s, Some (Errorf "mapping creation error: %v" [AErr err]))
  | Ok mapping =>
      let mapping := <["ImageRegistry" := VString imageRegistry]>
        (<["Replicas" := VInt execPodReplicas]>
          (<["Namespace" := VString execDeploymentNamespace]>
            (<["Name" := VString execDeploymentName]> mapping))) in
      match client_CreateNamespace c execDeploymentNamespace with
      | (c, Some err) =>
          Some ((podStore, c), Some (Errorf "namespace %s creation error: %v" [AStr execDeploymentNamespace; AErr err]))
      | (c, None) =>
          match Apply deploymentYaml mapping c with
          | (c, Some err) =>
              Some ((podStore, c), Some (Errorf "pod %s creation error: %v" [AStr execDeploymentName; AErr err]))
          | (c, None) =>
              match NewPodStore c with
              | (c, Err err) => Some ((None, c), Some (Errorf "pod store creation error: %v" [AErr err]))
              | (c, Ok store) =>
                  let '(c', rounds) := ps_rounds store c in
                  match WaitForPods (ps_String store) (mkWaitOptions 0 None) (ps_List store c) rounds with
                  | None => None
                  | Some (WaitErr _ err) => Some ((Some store, c'), Some err)
                  | Some WaitOk => Some ((Some store, c'), None)
                  end
              end
          end
      end
  end.

Definition DefaultNamespaceDeletionTimeout : Z := 10 * Duration.Minute.

Definition TearDownExecService (s : exec_state) : exec_state * option error :=
  let '(podStore, c) := s in
  let c := match podStore with Some store => ps_Stop store c | None => c end in
  match client_DeleteNamespace c execDeploymentNamespace with
  | (c, Some err) =>
      ((None, c), Some (Errorf "deleting %s namespace error: %v" [AStr execDeploymentNamespace; AErr err]))
  | (c, None) =>
      let '(c, err) := WaitForDeleteNamespace c execDeploymentNamespace DefaultNamespaceDeletionTimeout in
      ((None, c), err)
  end.

(** [Intn]: the pseudo-random choice of an index. *)
Definition GetPod (Intn : nat -> nat) (s : exec_state) : outcome Pod :=
  match s.1 with
  | None => Fails (Errorf "exec service not started" [])
  | Some store =>
      match ps_List store s.2 with
      | Err err => Fails (Errorf "pod listing failed: %w" [AWrap err])
      | Ok [] => Fails (Errorf "no exec pods found" [])
      | Ok pods => match pods !! Intn (length pods) with
                   | Some pod => Returns pod
                   | None => Panics
                   end
      end
  end.

(** [exec.CommandContext]: the command line, and what a run of it writes to
    stdout and stderr and ends with. *)
Definition RunCommand (run : list string -> string * string * option error) (pod : Pod) (cmd : string)
  : string * option error :=
  let '(stdout, stderr, err) :=
    run ["kubectl"; "exec"; Sprintf "--namespace=%v" [FStr (pod_Namespace pod)]; pod_Name pod;
         "--"; "/bin/sh"; "-x"; "-c"; cmd] in
  match err with
  | Some err => (stderr, Some err)
  | None => (stdout, None)
  end.

(** *** The service between set-up and tear down *)

(** The rounds of this wait ask for three pods. *)
Definition asks_for_replicas (r : round) : Prop :=
  match r with Interval desired _ | CtxDone _ desired => desired = execPodReplicas end.

Lemma GetPod_elem Intn s pod : GetPod Intn s = Returns pod ->
  exists store pods, s.1 = Some store /\ ps_List store s.2 = Ok pods /\ pod ∈ pods.
Proof.
  unfold GetPod. destruct s.1 as [store|]; [|done]. destruct (ps_List store s.2) as [pods|] eqn:Hl; [|done].
  intros Hg. exists store, pods. split_and!; [done..|].
  destruct pods as [|p ps]; [done|]. destruct ((p :: ps) !! _) as [q|] eqn:Hq; [|done].
  injection Hg as <-. by eapply list_elem_of_lookup_2.
Qed.

(** A service that was set up without error has a pod store on which a listing
    showed exactly the three replicas running and ready; commands get one of
    the pods listed at that time, whatever the random choice; a panic is
    impossible for a choice within bounds. Before set-up and after every tear
    down, failed ones included, no pod is handed out. *)
Theorem exec_service_lifecycle environ registry s s' Intn :
  (forall n, (0 < n)%nat -> (Intn n < n)%nat) ->
  (forall store c, Forall asks_for_replicas (ps_rounds store c).2) ->
  (SetUpExecService environ registry s = Some (s', None) ->
     exists store c pods, s'.1 = Some store /\ Interval execPodReplicas (Ok pods) ∈ (ps_rounds store c).2 /\
       count_status RunningAndReady pods = execPodReplicas) /\
  GetPod Intn s' <> Panics /\
  (forall pod, GetPod Intn s' = Returns pod ->
     exists store pods, s'.1 = Some store /\ ps_List store s'.2 = Ok pods /\ pod ∈ pods) /\
  GetPod Intn (TearDownExecService s).1 = Fails (Errorf "exec service not started" []).
Proof.
  intros HI Hr. split_and!.
  - unfold SetUpExecService. destruct s as [podStore c].
    destruct (LoadCL2Envs environ); [|done].
    destruct (client_CreateNamespace _ _) as [c1 [e|]]; [done|].
    destruct (Apply _ _ _) as [c2 [e|]]; [done|]. destruct (NewPodStore c2) as [c3 [store|e]]; [|done].
    destruct (ps_rounds store c3) as [c4 rounds] eqn:Hrs.
    destruct (WaitForPods _ _ _ _) as [[|ps e]|] eqn:Hw; [|done..]. intros [= <-].
    destruct (ps_List store c3) as [first|e]; [|done]. cbn [WaitForPods] in Hw.
    apply wait_loop_ok in Hw as (pre & desired & pods & post & -> & _ & Hc).
    specialize (Hr store c3). rewrite Hrs in Hr. cbn in Hr. apply Forall_app in Hr as [_ [Hd _]%Forall_cons].
    cbn in Hd. subst desired. exists store, c3, pods. split; [done|]. rewrite Hrs. split; [set_solver|].
    by apply (wait_condition_exact (mkWaitOptions 0 None)).
  - unfold GetPod. destruct s'.1 as [store|]; [|done]. destruct (ps_List _ _) as [[|p ps]|]; [done| |done].
    destruct (lookup_lt_is_Some_2 (p :: ps) (Intn (length (p :: ps)))) as [q ->]; [apply HI; cbn; lia|done].
  - apply GetPod_elem.
  - unfold TearDownExecService. destruct s as [podStore c]. cbn zeta.
    destruct (client_DeleteNamespace _ _) as [c1 [e|]]; [done|].
    by destruct (WaitForDeleteNamespace _ _ _).
Qed.
End Exec.
End ExecService.

(** ** Preloading images *)
Module ImagePreload.

(** What is read of a node: its name, and the names of each of its images. *)
Record imageNode := mkImageNode { in_Name : string; in_Images : list (list string) }.

Definition namespace : string := "preload".
Definition manifest : string := "manifests/daemonset.yaml".

(** The inner loop, with its break. *)
Fixpoint found_loop (nodeImages : list string) (img : string) : bool :=
  match nodeImages with
  | [] => false
  | nodeImg :: nodeImages' => if String.prefix img nodeImg then true else found_loop nodeImages' img
  end.

Fixpoint images_loop (images nodeImages : list string) : bool :=
  match images with
  | [] => true
  | img :: images' => if negb (found_loop nodeImages img) then false else images_loop images' nodeImages
  end.

Definition hasPreloadedImages (images : list string) (node : imageNode) : bool :=
  images_loop images (concat (in_Images node)).

Definition markDone (set : gset string) (node : string) (done : bool) : gset string :=
  if done then {[node]} ∪ set else set ∖ {[node]}.

Definition countDone (set : gset string) : Z := Z.of_nat (size set).

Definition checkNode (images : list string) (set : gset string) (objs : option imageNode * option imageNode) : gset string :=
  match objs with
  | (_, Some node) => markDone set (in_Name node) (hasPreloadedImages images node)
  | (Some node, None) => markDone set (in_Name node) false
  | (None, None) => set
  end.

(** The run of one [wait.Poll]: before every round the informer has handled
    some events, and the daemon set has some size. *)
Fixpoint poll_done (images : list string) (rounds : list (list (informer_event imageNode) * Z)) (set : gset string)
  : gset string * bool :=
  match rounds with
  | [] => (set, false)
  | (events, clusterSize) :: rounds' =>
      let set := fold_left (fun set e => checkNode images set (addEventHandler e)) events set in
      if countDone set =? clusterSize then (set, true) else poll_done images rounds' set
  end.

Class PreloadEnv (C : Type) := {
  nodeInformer_synced : C -> C * bool;
  daemonset_Get : C -> C * option error;
  size_new : C -> C * option error;      (* GetReplicasFromRuntimeObject *)
  size_Start : C -> C * option error;
}.

Section Preload.
Context {C : Type} `{ApiErrors} `{Backoff} `{NamespaceServer C} `{PreloadEnv C}.
Context (Apply : string -> params -> C -> C * option error).

Definition PreloadImages (images : list string) (prov : Provider.Provider) (templateMapping : params)
  (rounds : list (list (informer_event imageNode) * Z)) (c : C) : C * option error :=
  if (length images =? 0)%nat then (c, None)
  else if negb (prov_Features prov SupportImagePreload) then (c, None)
  else
    let templateMapping := <["Images" := VSlice (VString <$> images)]> templateMapping in
    run_steps
      [ (fun c => let '(c, synced) := nodeInformer_synced c in (c, StartAndSync synced));
        (fun c => client_CreateNamespace c namespace);
        Apply manifest templateMapping;
        daemonset_Get; size_new; size_Start;
        (fun c => (c, if (poll_done images rounds ∅).2 then None else Some ErrWaitTimeout));
        (fun c => client_DeleteNamespace c namespace);
        (fun c => WaitForDeleteNamespace c namespace ExecService.DefaultNamespaceDeletionTimeout) ] c.

(** [mapping]: the result of [config.GetMapping]. *)
Definition Setup (images : list string) (prov : Provider.Provider) (mapping : option params * option ErrorList)
  (rounds : list (list (informer_event imageNode) * Z)) (c : C) : C * option error :=
  match mapping with
  | (_, Some errList) => (c, Some (ListError (errors errList)))
  | (m, None) => PreloadImages images prov (default ∅ m) rounds c
  end.
End Preload.

(** *** The set of done nodes follows the nodes *)

(** The nodes of the cluster, by name. *)
Abbreviation nodes := (gmap string imageNode).

Definition nodes_step (m : nodes) (e : informer_event imageNode) : nodes :=
  match addEventHandler e with
  | (_, Some node) => <[in_Name node := node]> m
  | (Some node, None) => delete (in_Name node) m
  | (None, None) => m
  end.

Definition preloaded (images : list string) (m : nodes) : gset string :=
  dom (filter (fun kv : string * imageNode => hasPreloadedImages images kv.2 = true) m).

Lemma checkNode_step images m e :
  checkNode images (preloaded images m) (addEventHandler e) = preloaded images (nodes_step m e).
Proof.
  unfold checkNode, nodes_step, preloaded, markDone.
  destruct (addEventHandler e) as [[old|] [new|]]; [| | |done].
  2: by rewrite map_filter_delete, dom_delete_L.
  all: destruct (hasPreloadedImages images new) eqn:Hp.
  1, 3: by rewrite map_filter_insert_True, dom_insert_L.
  all: rewrite map_filter_insert_False by (cbn; congruence); by rewrite map_filter_delete, dom_delete_L.
Qed.

Lemma checkNode_events images events m :
  fold_left (fun set e => checkNode images set (addEventHandler e)) events (preloaded images m) =
  preloaded images (fold_left nodes_step events m).
Proof. revert m. induction events as [|e events IH]; intros m; [done|]. cbn. by rewrite checkNode_step, IH. Qed.

Lemma poll_done_preloaded images rounds m :
  (poll_done images rounds (preloaded images m)).2 = true <->
  exists pre events size post, rounds = pre ++ (events, size) :: post /\
    Z.of_nat (base.size (preloaded images (fold_left nodes_step (concat (map fst pre) ++ events) m))) = size.
Proof.
  revert m. induction rounds as [|[events sz] rounds IH]; intros m; cbn [poll_done].
  { split; [done|]. intros (pre & ? & ? & ? & Heq & _). by destruct pre. }
  rewrite checkNode_events. unfold countDone. destruct (Z.eqb_spec (Z.of_nat (size (preloaded images (fold_left nodes_step events m)))) sz) as [Heq|Hne].
  - split; [|done]. intros _. by exists [], events, sz, rounds.
  - rewrite IH. split.
    + intros (pre & ev & sz' & post & -> & Hs). exists ((events, sz) :: pre), ev, sz', post. split; [done|].
      cbn. by rewrite <- app_assoc, fold_left_app.
    + intros (pre & ev & sz' & post & Heq & Hs). destruct pre as [|[ev0 s0] pre]; cbn in Heq; [by simplify_eq|]. injection Heq as <- <- ->.
      exists pre, ev, sz', post. split; [done|]. cbn in Hs. by rewrite <- app_assoc, fold_left_app in Hs.
Qed.

Lemma images_loop_spec images nodeImages :
  images_loop images nodeImages = true <->
  Forall (fun img => Exists (fun nodeImg => String.prefix img nodeImg = true) nodeImages) images.
Proof.
  induction images as [|img images IH]; [by split; [constructor|]|]. cbn. rewrite Forall_cons, <- IH.
  assert (found_loop nodeImages img = true <-> Exists (fun nodeImg => String.prefix img nodeImg = true) nodeImages) as <-.
  { clear. induction nodeImages as [|n l IH]; cbn; [by split; [|intros ?%Exists_nil]|].
    rewrite Exists_cons, <- IH. destruct (String.prefix img n); naive_solver. }
  destruct (found_loop nodeImages img); naive_solver.
Qed.

(** Waiting for the images ends with success exactly at a round at which as
    many nodes as the daemon set covers have all the images, each of them as a
    prefix of a name the node reports: the informer's handler, called for
    additions, updates and deletions, keeps the set of such nodes exact. *)
Theorem preload_wait_correct images rounds :
  (poll_done images rounds ∅).2 = true <->
  exists pre events size post, rounds = pre ++ (events, size) :: post /\
    Z.of_nat (base.size (filter (fun kv : string * imageNode =>
        Forall (fun img => Exists (fun n => String.prefix img n = true) (concat (in_Images kv.2))) images)
      (fold_left nodes_step (concat (map fst pre) ++ events) ∅))) = size.
Proof.
  change (∅ : gset string) with (preloaded images ∅) at 1. rewrite poll_done_preloaded.
  unfold preloaded. setoid_rewrite size_dom.
  assert (forall m : nodes, filter (fun kv : string * imageNode => hasPreloadedImages images kv.2 = true) m =
    filter (fun kv : string * imageNode =>
      Forall (fun img => Exists (fun n => String.prefix img n = true) (concat (in_Images kv.2))) images) m) as Hf.
  { intros m. apply map_filter_ext. intros k x _. apply images_loop_spec. }
  setoid_rewrite Hf. done.
Qed.
End ImagePreload.

(** ** The metadata file *)
Section Metadata.
Context {C : Type} `{ApiErrors} `{Backoff} `{ClusterServer C} `{MapRange}.

Fixpoint copy_entries (l : list (string * string)) (output : gmap string string) : gmap string string :=
  match l with
  | [] => output
  | (k, v) :: l' => copy_entries l' (<[k := v]> output)
  end.

Definition metadata_Dump (gcloud : string -> string -> string -> string + error * string) (providerID : node -> string)
  (Marshal : gmap string string -> result string) (WriteFile : string -> string -> C -> C * option error)
  (p : Provider.Provider) (outputFile : string) (c : C) : C * option error :=
  match Metadata gcloud providerID p c with
  | (c, Err err) => (c, Some err)
  | (c, Ok providerMetadata) =>
      match Marshal (copy_entries (range "metadata" providerMetadata) ∅) with
      | Err err => (c, Some err)
      | Ok out => WriteFile outputFile out c
      end
  end.
End Metadata.
