(* ===== verification/SystemMetrics.v ===== *)
(** * Restarts and out-of-memory kills
      (pkg/measurement/common/{system_pod_metrics,ooms_tracker}.go)

    Two measurements over a window: the restarts of system containers since the
    start, against thresholds, and the OOM events reported by the nodes. *)

From S2P Require Import Prelude GoErrors GoRuntime Params Measurement Latency Modifier Prometheus Services.

(** ** Restart counts of system pods *)
Module SystemPods.

Record containerMetrics := mkContainerMetrics { cm_Name : string; RestartCount : Z; LastRestartReason : string }.
Record podMetrics := mkPodMetrics { pm_Name : string; Containers : list containerMetrics }.
Definition systemPodsMetrics : Type := list podMetrics.

(** A listed pod: its name, and of its container statuses the name, the restart
    count and the rendering of the last termination, if any. *)
Record container_status := mkContainerStatus { st_Name : string; st_RestartCount : Z; st_Terminated : option string }.
Record system_pod := mkSystemPod { sp_Name : string; sp_Statuses : list container_status }.

Definition extractMetrics (lst : list system_pod) : systemPodsMetrics :=
  map (fun pod => mkPodMetrics (sp_Name pod)
         (map (fun c => mkContainerMetrics (st_Name c) (st_RestartCount c) (default "" (st_Terminated c))) (sp_Statuses pod))) lst.

Definition getPodMetrics (listed : result (list system_pod)) : result systemPodsMetrics :=
  match listed with Err err => Err err | Ok lst => Ok (extractMetrics lst) end.

(** podName -> containerName -> restartCount *)
Definition initRestarts (initMetrics : systemPodsMetrics) : gmap string (gmap string Z) :=
  fold_left (fun m initPod =>
    <[pm_Name initPod := fold_left (fun cs c => <[cm_Name c := RestartCount c]> cs) (Containers initPod) ∅]> m) initMetrics ∅.

Definition subtractInitialRestartCounts (metrics initMetrics : systemPodsMetrics) : systemPodsMetrics :=
  let initRestarts := initRestarts initMetrics in
  map (fun pod => mkPodMetrics (pm_Name pod)
    (map (fun c =>
       match initRestarts !! pm_Name pod with
       | None => c
       | Some initPod =>
           match initPod !! cm_Name c with
           | None => c
           | Some initRestartCount => mkContainerMetrics (cm_Name c) (wrap32 (RestartCount c - initRestartCount)) (LastRestartReason c)
           end
       end) (Containers pod))) metrics.

Definition getMaxAllowedRestarts (containerName : string) (thresholdOverrides : gmap string Z) : Z :=
  match thresholdOverrides !! containerName with
  | Some override => override
  | None => match thresholdOverrides !! "default" with Some override => override | None => 0 end
  end.

(** The violations; the threshold is converted to 32 bits for the comparison. *)
Definition violations (metrics : systemPodsMetrics) (overrides : gmap string Z) : list string :=
  flat_map (fun p => flat_map (fun c =>
    let maxAllowedRestarts := getMaxAllowedRestarts (cm_Name c) overrides in
    if wrap32 maxAllowedRestarts <? RestartCount c
    then [Sprintf "RestartCount(%v, %v)=%v, want <= %v"
            [FStr (pm_Name p); FStr (cm_Name c); FInt (RestartCount c); FInt maxAllowedRestarts]]
    else []) (Containers p)) metrics.

Section Measurement.
Context `{GoLib} (PrettyPrintJSON : systemPodsMetrics -> result string) (yaml_Unmarshal : string -> result (gmap string Z)).

Definition validateRestartCounts (metrics : systemPodsMetrics) (config : MeasurementConfig) (overrides : gmap string Z) : option error :=
  match GetBoolOrDefault (cfg_Params config) "enableRestartCountCheck" false with
  | (_, Some err) => Some err
  | (enabled, None) =>
      if negb enabled then None
      else
        match violations metrics overrides with
        | [] => None
        | vs => Some (Errorf "restart counts violation: %v" [AStr (join "; " vs)])
        end
  end.

(** A parameter of another type counts as no overrides. *)
Definition getThresholdOverrides (config : MeasurementConfig) : result (gmap string Z) :=
  match GetStringOrDefault (cfg_Params config) "restartCountThresholdOverrides" "" with
  | (_, Some _) => Ok ∅
  | (serialized, None) => yaml_Unmarshal serialized
  end.

Definition buildSummary (now : Z) (metrics : systemPodsMetrics) : result (list Summary) :=
  match PrettyPrintJSON metrics with
  | Err err => Err err
  | Ok content => Ok [CreateSummary now "SystemPodMetrics" "json" content]
  end.

(** The state is the snapshot of the start. *)
Definition Execute (now : Z) (listed : result (list system_pod)) (config : MeasurementConfig) (initSnapshot : option systemPodsMetrics)
  : option systemPodsMetrics * (list Summary * option error) :=
  match GetBoolOrDefault (cfg_Params config) "systemPodMetricsEnabled" false with
  | (_, Some err) => (initSnapshot, ([], Some err))
  | (false, None) => (initSnapshot, ([], None))
  | (true, None) =>
      match getPodMetrics listed with
      | Err err => (initSnapshot, ([], Some err))
      | Ok metrics =>
          match getString (cfg_Params config) "action" with
          | (_, Some err) => (initSnapshot, ([], Some err))
          | (action, None) =>
              match getThresholdOverrides config with
              | Err err => (initSnapshot, ([], Some err))
              | Ok overrides =>
                  if String.eqb action "start" then (Some metrics, ([], None))
                  else if String.eqb action "gather" then
                    match initSnapshot with
                    | None => (initSnapshot, ([], Some (Errorf "start needs to be executed before gather" [])))
                    | Some init =>
                        let metrics := subtractInitialRestartCounts metrics init in
                        match buildSummary now metrics with
                        | Err err => (initSnapshot, ([], Some err))
                        | Ok summary => (initSnapshot, (summary, validateRestartCounts metrics config overrides))
                        end
                    end
                  else (initSnapshot, ([], Some (Errorf "unknown action %v" [AStr action])))
              end
          end
      end
  end.
End Measurement.

(** *** Restarts since the start *)

(** The restart count of a container in a listing. *)
Definition restarts_in (pods : list system_pod) (pod container : string) (n : Z) : Prop :=
  exists p c, p ∈ pods /\ c ∈ sp_Statuses p /\ sp_Name p = pod /\ st_Name c = container /\ st_RestartCount c = n.

(** Names as the API server has them: unique pods, unique containers, counts
    that are not negative. *)
Definition well_listed (pods : list system_pod) : Prop :=
  NoDup (sp_Name <$> pods) /\
  Forall (fun p => NoDup (st_Name <$> sp_Statuses p) /\ Forall (fun c => 0 <= st_RestartCount c <= MaxInt32) (sp_Statuses p)) pods.

Lemma fold_insert_lookup {A V} (key : A -> string) (val : A -> V) (l : list A) (m : gmap string V) k v :
  NoDup (key <$> l) ->
  fold_left (fun m a => <[key a := val a]> m) l m !! k = Some v <->
  (exists a, a ∈ l /\ key a = k /\ val a = v) \/ (k ∉ (key <$> l) /\ m !! k = Some v).
Proof.
  revert m. induction l as [|a l IH]; intros m; cbn [fold_left fmap list_fmap].
  { intros _. split; [right; split; [apply not_elem_of_nil|done]|]. by intros [(? & ?%elem_of_nil & _)|[_ ?]]. }
  intros [Hn Hd]%NoDup_cons. rewrite IH by done. setoid_rewrite elem_of_cons. split.
  - intros [(b & Hb & Hk & Hv)|[Hnin Hlk]]; [left; eauto|].
    destruct (decide (key a = k)) as [Hk|Hk].
    + left. exists a. rewrite Hk, lookup_insert_eq in Hlk. injection Hlk as ->. auto.
    + rewrite lookup_insert_ne in Hlk by done. right. split; [|done]. intros [->|?]; done.
  - intros [(b & [->|Hb] & Hk & Hv)|[Hnin Hlk]].
    + right. rewrite <- Hk. split; [done|]. rewrite lookup_insert_eq. by f_equal.
    + left. eauto.
    + right. split; [tauto|]. rewrite lookup_insert_ne; [done|]. intros Hak. apply Hnin. by left.
Qed.

Lemma initRestarts_lookup init pod container n :
  well_listed init ->
  (exists m, initRestarts (extractMetrics init) !! pod = Some m /\ m !! container = Some n) <-> restarts_in init pod container n.
Proof.
  intros [Hnd Hin]. unfold initRestarts, extractMetrics.
  assert (pm_Name <$> map (fun pod => mkPodMetrics (sp_Name pod)
         (map (fun c => mkContainerMetrics (st_Name c) (st_RestartCount c) (default "" (st_Terminated c))) (sp_Statuses pod))) init
      = sp_Name <$> init) as Hnames by (clear; induction init; cbn; congruence).
  setoid_rewrite (fold_insert_lookup pm_Name); [|by rewrite Hnames]. unfold restarts_in. split.
  - intros (m & [(q & (p & -> & Hp)%list_elem_of_fmap & Hk & Hm)|[_ Hm]] & Hc); [|by rewrite lookup_empty in Hm].
    cbn in Hk, Hm. subst m. rewrite Forall_forall in Hin. destruct (Hin p Hp) as [Hcn _].
    apply (fold_insert_lookup cm_Name) in Hc.
    2: { rewrite <- list_fmap_compose. exact Hcn. }
    destruct Hc as [(c & (d & -> & Hd)%list_elem_of_fmap & Hc1 & Hc2)|[_ Hc]]; [|by rewrite lookup_empty in Hc].
    exists p, d. by split_and!.
  - intros (p & c & Hp & Hc & Hpn & Hcn & Hn).
    eexists. split.
    + left. eexists. split; [apply list_elem_of_fmap; by exists p|]. cbn. split; [done|reflexivity].
    + apply (fold_insert_lookup cm_Name).
      { rewrite <- list_fmap_compose. rewrite Forall_forall in Hin. by destruct (Hin p Hp). }
      left. eexists. split; [apply list_elem_of_fmap; by exists c|]. cbn. done.
Qed.

(** The restarts of a container between two listings. *)
Definition restarts_since (init now : list system_pod) (pod container : string) (d : Z) : Prop :=
  exists n, restarts_in now pod container n /\
    ((exists n0, restarts_in init pod container n0 /\ d = n - n0) \/
     ((forall n0, ~ restarts_in init pod container n0) /\ d = n)).

Lemma wrap32_small z : - 2 ^ 31 <= z <= MaxInt32 -> wrap32 z = z.
Proof. unfold wrap32, MaxInt32. intros Hz. rewrite Z.mod_small; lia. Qed.

Lemma restarts_in_range pods pod container n : well_listed pods -> restarts_in pods pod container n -> 0 <= n <= MaxInt32.
Proof.
  intros [_ Hw] (p & c & Hp & Hc & _ & _ & <-). rewrite Forall_forall in Hw. destruct (Hw p Hp) as [_ Hr].
  rewrite Forall_forall in Hr. by apply Hr.
Qed.

(** The counts of the summary are the restarts since the start. *)
Lemma subtract_counts init now pod container d :
  well_listed init -> well_listed now ->
  (exists p c, p ∈ subtractInitialRestartCounts (extractMetrics now) (extractMetrics init) /\ c ∈ Containers p /\
     pm_Name p = pod /\ cm_Name c = container /\ RestartCount c = d) <->
  restarts_since init now pod container d.
Proof.
  intros Hwi Hwn. unfold subtractInitialRestartCounts, restarts_since. split.
  - intros (p & c & (q & -> & (sp & -> & Hsp)%list_elem_of_fmap)%list_elem_of_fmap & Hc & <- & <- & <-).
    cbn [pm_Name Containers] in *. apply list_elem_of_fmap in Hc as (x & -> & (st & -> & Hst)%list_elem_of_fmap). cbn [cm_Name].
    assert (restarts_in now (sp_Name sp) (st_Name st) (st_RestartCount st)) as Hnow by (exists sp, st; by split_and!).
    exists (st_RestartCount st).
    destruct (initRestarts (extractMetrics init) !! sp_Name sp) as [m|] eqn:Hm; cbn [cm_Name].
    + destruct (m !! st_Name st) as [n0|] eqn:Hn0; cbn [cm_Name RestartCount].
      * assert (restarts_in init (sp_Name sp) (st_Name st) n0) as H0 by (apply initRestarts_lookup; eauto).
        split; [done|]. left. exists n0. split; [done|].
        apply wrap32_small. pose proof (restarts_in_range _ _ _ _ Hwi H0). pose proof (restarts_in_range _ _ _ _ Hwn Hnow).
        unfold MaxInt32 in *. lia.
      * split; [done|]. right. split; [|done]. intros n0 (m' & Hm' & Hn')%initRestarts_lookup; [congruence|done].
    + split; [done|]. right. split; [|done]. intros n0 (m' & Hm' & Hn')%initRestarts_lookup; [congruence|done].
  - intros (n & (sp & st & Hsp & Hst & <- & <- & <-) & Hd).
    eexists _, _. split; [apply list_elem_of_fmap; eexists; split; [reflexivity|]; apply list_elem_of_fmap; by exists sp|].
    cbn [pm_Name Containers]. split; [apply list_elem_of_fmap; eexists; split; [reflexivity|]; apply list_elem_of_fmap; by exists st|].
    cbn [cm_Name RestartCount].
    assert (restarts_in now (sp_Name sp) (st_Name st) (st_RestartCount st)) as Hnow by (exists sp, st; by split_and!).
    destruct (initRestarts (extractMetrics init) !! sp_Name sp) as [m|] eqn:Hm; cbn [cm_Name RestartCount].
    + destruct (m !! st_Name st) as [n0|] eqn:Hn0; cbn [cm_Name RestartCount]; (split; [done|]); (split; [done|]).
      * assert (restarts_in init (sp_Name sp) (st_Name st) n0) as H0 by (apply initRestarts_lookup; eauto).
        destruct Hd as [(n1 & (m1 & Hm1 & Hn1)%initRestarts_lookup & ->)|[Hno _]]; [|done|by destruct (Hno n0)].
        assert (n1 = n0) as -> by congruence. apply wrap32_small.
        pose proof (restarts_in_range _ _ _ _ Hwi H0). pose proof (restarts_in_range _ _ _ _ Hwn Hnow). unfold MaxInt32 in *. lia.
      * destruct Hd as [(n1 & (m1 & Hm1 & Hn1)%initRestarts_lookup & ->)|[_ ->]]; [congruence|done|done].
    + split; [done|]. split; [done|].
      destruct Hd as [(n1 & (m1 & Hm1 & Hn1)%initRestarts_lookup & ->)|[_ ->]]; [congruence|done|done].
Qed.

(** With thresholds of 32 bits, the check passes exactly when no container was
    restarted more often since the start than its threshold allows. *)
Theorem restart_verdict init now overrides :
  well_listed init -> well_listed now -> map_Forall (fun _ t => - 2 ^ 31 <= t <= MaxInt32) overrides ->
  violations (subtractInitialRestartCounts (extractMetrics now) (extractMetrics init)) overrides = [] <->
  forall pod container d, restarts_since init now pod container d -> d <= getMaxAllowedRestarts container overrides.
Proof.
  intros Hwi Hwn Ho.
  assert (forall c, wrap32 (getMaxAllowedRestarts c overrides) = getMaxAllowedRestarts c overrides) as Hmax.
  { intros c. apply wrap32_small. unfold getMaxAllowedRestarts.
    destruct (overrides !! c) as [t|] eqn:Hc; [by apply (Ho c)|].
    destruct (overrides !! "default") as [t|] eqn:Hd; [by apply (Ho "default")|]. done. }
  set (ms := subtractInitialRestartCounts _ _). unfold violations. split.
  - intros Hnil pod container d Hd. apply subtract_counts in Hd as (p & c & Hp & Hc & <- & <- & <-); [|done..].
    destruct (Z.le_gt_cases (RestartCount c) (getMaxAllowedRestarts (cm_Name c) overrides)) as [|Hgt]; [done|]. exfalso.
    eapply (not_elem_of_nil (A := string)). rewrite <- Hnil. apply list_elem_of_In, in_flat_map. exists p.
    split; [by apply list_elem_of_In|]. apply in_flat_map. exists c. split; [by apply list_elem_of_In|].
    cbn zeta. rewrite Hmax, (proj2 (Z.ltb_lt _ _)) by lia. left. reflexivity.
  - intros Hall. destruct (flat_map _ ms) as [|v vs] eqn:Hv; [done|]. exfalso.
    assert (v ∈ v :: vs) as Hin by left. rewrite <- Hv in Hin. apply list_elem_of_In, in_flat_map in Hin as (p & Hp & Hin).
    apply in_flat_map in Hin as (c & Hc & Hin). apply list_elem_of_In in Hp, Hc. cbn zeta in Hin. rewrite Hmax in Hin.
    assert (RestartCount c <= getMaxAllowedRestarts (cm_Name c) overrides) as Hle.
    { apply (Hall (pm_Name p)). apply subtract_counts; [done..|]. exists p, c. by split_and!. }
    rewrite (proj2 (Z.ltb_ge _ _)) in Hin by lia. done.
Qed.
End SystemPods.

(** ** Out-of-memory kills *)
Module Ooms.

(** *** The pattern of the message
    [Killed process (\d+) \((.+)\) total-vm:(\d+kB), anon-rss:\d+kB, file-rss:\d+kB.*],
    leftmost, its repetitions greedy with backtracking. *)

Fixpoint strip (lit s : string) : option string :=
  match lit, s with
  | EmptyString, _ => Some s
  | String a lit', String b s' => if Ascii.eqb a b then strip lit' s' else None
  | _, _ => None
  end.

(** One or more characters, then [k] on what was taken and the rest: the
    longest match first. *)
Fixpoint plus {A} (p : ascii -> bool) (s taken : string) (k : string -> string -> option A) : option A :=
  match s with
  | EmptyString => None
  | String a s' =>
      if p a then
        let taken := taken +:+ String a "" in
        match plus p s' taken k with Some r => Some r | None => k taken s' end
      else None
  end.

Definition not_newline (a : ascii) : bool := negb (Ascii.eqb a (ascii_of_nat 10)).

(** The three groups, at the beginning of the string. *)
Definition match_here (s : string) : option (string * string * string) :=
  s ← strip "Killed process " s;
  plus is_digit s "" (fun pid s =>
  s ← strip " (" s;
  plus not_newline s "" (fun process s =>
  s ← strip ") total-vm:" s;
  plus is_digit s "" (fun vm s =>
  s ← strip "kB, anon-rss:" s;
  plus is_digit s "" (fun _ s =>
  s ← strip "kB, file-rss:" s;
  plus is_digit s "" (fun _ s =>
  _ ← strip "kB" s; Some (pid, process, vm +:+ "kB")))))).

Fixpoint FindStringSubmatch (s : string) : option (string * string * string) :=
  match match_here s with
  | Some r => Some r
  | None => match s with EmptyString => None | String _ s' => FindStringSubmatch s' end
  end.

Example match_message :
  FindStringSubmatch "Memory cgroup out of memory: Killed process 42 (kube) (x) total-vm:7kB, anon-rss:1kB, file-rss:2kB, shmem-rss:0kB"
  = Some ("42", "kube) (x", "7kB").
Proof. reflexivity. Qed.

(** *** The tracker *)

Record oomEvent := mkOom { oom_Node : string; oom_Process : string; oom_Memory : string; oom_PID : string; oom_Time : Z }.

(** What is read of an event. *)
Record Event := mkEvent {
  ev_Reason : string;
  ev_ResourceVersion : string;
  ev_Object : string;
  ev_EventTime : Z;
  ev_FirstTimestamp : Z;
  ev_Message : string;
}.

Record tracker := mkTracker {
  isRunning : bool;
  startTime : Z;
  processIgnored : gset string;
  resourceVersionRecorded : gset string;
  ooms : list oomEvent;
}.

Definition createClusterOOMsTrackerMeasurement : tracker := mkTracker false zeroTime ∅ ∅ [].

Definition oom_of (event : Event) : oomEvent :=
  let time := if negb (ev_EventTime event =? zeroTime) then ev_EventTime event else ev_FirstTimestamp event in
  match FindStringSubmatch (ev_Message event) with
  | Some (pid, process, memory) => mkOom (ev_Object event) process memory pid time
  | None => mkOom (ev_Object event) "" "" "" time
  end.

(** [None] for an object that is not an event. *)
Definition handleOOMEvent (obj : option Event) (m : tracker) : tracker :=
  match obj with
  | None => m
  | Some event =>
      if negb (String.eqb (ev_Reason event) "OOMKilling") then m
      else if bool_decide (ev_ResourceVersion event ∈ resourceVersionRecorded m) then m
      else mkTracker (isRunning m) (startTime m) (processIgnored m) ({[ ev_ResourceVersion event ]} ∪ resourceVersionRecorded m)
             (ooms m ++ [oom_of event])
  end.

Section Measurement.
Context `{GoLib} (PrettyPrintJSON : gmap string (list oomEvent) -> result string) (SprintOoms : list oomEvent -> string).

(** The fields before the parameter are set even when it cannot be read. *)
Definition initFields (config : MeasurementConfig) (now : Z) (m : tracker) : tracker * option error :=
  match GetStringOrDefault (cfg_Params config) "clusterOOMsIgnoredProcesses" "" with
  | (_, Some err) => (mkTracker true now (processIgnored m) ∅ (ooms m), Some err)
  | (ignoredProcessesString, None) =>
      (mkTracker true now (if String.eqb ignoredProcessesString "" then ∅ else list_to_set (Split "," ignoredProcessesString)) ∅ (ooms m),
       None)
  end.

(** [prior]: the events the pager visited and its error. *)
Definition handlePriorOOMs (prior : list Event * option error) (m : tracker) : tracker * option error :=
  (fold_left (fun m e => handleOOMEvent (Some e) m) prior.1 m, prior.2).

(** The handlers of the informer. *)
Definition informer_handler (e : informer_event (option Event)) (m : tracker) : tracker :=
  match e with
  | AddFunc obj | UpdateFunc _ obj => handleOOMEvent obj m
  | DeleteFunc _ | DeleteFuncTombstone _ => m
  end.

(** [synced]: whether the informer synced in time; [prior]: the events the
    pager visited and its error. *)
Definition start (config : MeasurementConfig) (now : Z) (synced : bool) (prior : list Event * option error) (m : tracker)
  : tracker * option error :=
  if isRunning m then (m, None)
  else
    match initFields config now m with
    | (m, Some err) => (m, Some (Errorf "problem with OOMs tracking measurement fields initialization: %w" [AWrap err]))
    | (m, None) =>
        match StartAndSync synced with
        | Some err => (m, Some (Errorf "problem with OOM events informer starting: %w" [AWrap err]))
        | None =>
            match handlePriorOOMs prior m with
            | (m, Some err) => (m, Some (Errorf "problem with handling prior OOMs: %w" [AWrap err]))
            | (m, None) => (m, None)
            end
        end
    end.

Definition stop (m : tracker) : tracker :=
  mkTracker false (startTime m) (processIgnored m) (resourceVersionRecorded m) (ooms m).

Definition add_oom (key : string) (oom : oomEvent) (d : gmap string (list oomEvent)) : gmap string (list oomEvent) :=
  <[key := default [] (d !! key) ++ [oom]]> d.

Definition classify_oom (m : tracker) (d : gmap string (list oomEvent)) (oom : oomEvent) : gmap string (list oomEvent) :=
  if oom_Time oom <? startTime m then add_oom "past" oom d
  else if bool_decide (oom_Process oom ∈ processIgnored m) then add_oom "ignored" oom d
  else add_oom "failures" oom d.

Definition oomData (m : tracker) : gmap string (list oomEvent) :=
  fold_left (classify_oom m) (ooms m) {[ "failures" := []; "past" := []; "ignored" := [] ]}.

Definition gather (now : Z) (m : tracker) : tracker * (list Summary * option error) :=
  if negb (isRunning m) then (m, ([], Some (Errorf "measurement %s has not been started" [AStr "ClusterOOMsTracker"])))
  else
    let m := stop m in
    match PrettyPrintJSON (oomData m) with
    | Err err => (m, ([], Some (Errorf "OOMs PrettyPrintJSON problem: %w" [AWrap err])))
    | Ok content =>
        (m, ([CreateSummary now "ClusterOOMsTracker" "json" content],
             match default [] (oomData m !! "failures") with
             | [] => None
             | l => Some (Errorf "OOMs recorded: %+v" [AStr (SprintOoms l)])
             end))
    end.

Definition Execute (config : MeasurementConfig) (now : Z) (synced : bool) (prior : list Event * option error) (m : tracker)
  : tracker * (list Summary * option error) :=
  match GetBoolOrDefault (cfg_Params config) "clusterOOMsTrackerEnabled" false with
  | (_, Some err) => (m, ([], Some (Errorf "problem with getting %s param: %w" [AStr "clusterOOMsTrackerEnabled"; AWrap err])))
  | (false, None) => (m, ([], None))
  | (true, None) =>
      match getString (cfg_Params config) "action" with
      | (_, Some err) => (m, ([], Some (Errorf "problem with getting %s param: %w" [AStr "action"; AWrap err])))
      | (action, None) =>
          if String.eqb action "start" then
            match start config now synced prior m with
            | (m, Some err) => (m, ([], Some (Errorf "starting cluster OOMs measurement problem: %w" [AWrap err])))
            | (m, None) => (m, ([], None))
            end
          else if String.eqb action "gather" then gather now m
          else (m, ([], Some (Errorf "unknown action %v" [AStr action])))
      end
  end.

Definition Dispose (m : tracker) : tracker := if isRunning m then stop m else m.

(** *** The verdict *)

Definition handle_all (objs : list (option Event)) (m : tracker) : tracker := fold_left (fun m o => handleOOMEvent o m) objs m.

(** An event that fails the test. *)
Definition failing (m : tracker) (e : Event) : Prop :=
  ev_Reason e = "OOMKilling" /\ startTime m <= oom_Time (oom_of e) /\ oom_Process (oom_of e) ∉ processIgnored m.

Definition failure (m : tracker) (o : oomEvent) : Prop := startTime m <= oom_Time o /\ oom_Process o ∉ processIgnored m.

Lemma oomData_failures m :
  default [] (oomData m !! "failures") = [] <-> Forall (fun o => ~ failure m o) (ooms m).
Proof.
  unfold oomData.
  assert (forall l d, default [] (fold_left (classify_oom m) l d !! "failures") = [] <->
            default [] (d !! "failures") = [] /\ Forall (fun o => ~ failure m o) l) as Hg.
  { induction l as [|o l IH]; intros d; cbn [fold_left]; [split; [by split|by intros []]|].
    rewrite IH, Forall_cons. unfold classify_oom, add_oom, failure.
    destruct (Z.ltb_spec (oom_Time o) (startTime m)).
    { rewrite lookup_insert_ne by done. split; [intros [? ?]; split_and!; [done|lia|done]|tauto]. }
    case_bool_decide.
    { rewrite lookup_insert_ne by done. split; [intros [? ?]; split_and!; [done|tauto|done]|tauto]. }
    rewrite lookup_insert_eq. cbn. split; [intros [[_ [=]]%app_nil _]|]. intros (_ & Hn & _). destruct Hn. split; [lia|done]. }
  rewrite Hg. split; [by intros []|]. by split.
Qed.

(** The constants of a run and the recorded versions, as events arrive. *)
Lemma handle_all_facts objs m :
  isRunning (handle_all objs m) = isRunning m /\ startTime (handle_all objs m) = startTime m /\
  processIgnored (handle_all objs m) = processIgnored m.
Proof.
  unfold handle_all. revert m. induction objs as [|[e|] objs IH]; intros m; cbn [fold_left handleOOMEvent]; [done|..|apply IH].
  destruct (negb (String.eqb (ev_Reason e) "OOMKilling")); [apply IH|]. case_bool_decide; [apply IH|].
  set (m' := mkTracker _ _ _ _ _). destruct (IH m') as (-> & -> & ->). done.
Qed.

(** Every OOM event is recorded once per version: a version seen before stands
    for the same event. *)
Lemma handle_all_ooms seen m objs :
  (forall e e', Some e ∈ (seen ++ objs) -> Some e' ∈ (seen ++ objs) -> ev_ResourceVersion e = ev_ResourceVersion e' -> e = e') ->
  (forall o, o ∈ ooms m <-> exists e, Some e ∈ seen /\ ev_Reason e = "OOMKilling" /\ o = oom_of e) ->
  (forall v, v ∈ resourceVersionRecorded m <-> exists e, Some e ∈ seen /\ ev_Reason e = "OOMKilling" /\ ev_ResourceVersion e = v) ->
  forall o, o ∈ ooms (handle_all objs m) <-> exists e, Some e ∈ (seen ++ objs) /\ ev_Reason e = "OOMKilling" /\ o = oom_of e.
Proof.
  unfold handle_all. revert seen m. induction objs as [|obj objs IH]; intros seen m Heq Ho Hv; cbn [fold_left].
  { by rewrite app_nil_r. }
  replace (seen ++ obj :: objs) with ((seen ++ [obj]) ++ objs) in * by (by rewrite <- app_assoc).
  apply IH; [done|..]; clear IH; destruct obj as [e|]; cbn [handleOOMEvent].
  1,3: destruct (String.eqb_spec (ev_Reason e) "OOMKilling") as [Hr|Hr]; cbn [negb]; [case_bool_decide as Hrec|].
  all: intros ?; cbn [ooms resourceVersionRecorded]; rewrite ?elem_of_app, ?elem_of_union, ?elem_of_singleton, ?Ho, ?Hv;
    setoid_rewrite elem_of_app; setoid_rewrite list_elem_of_singleton.
  - split; [naive_solver|]. intros (e' & [He'|[= ->]] & ? & ?); [eauto|]. apply Hv in Hrec as (e1 & He1 & ? & Hrv).
    assert (e1 = e) as -> by (apply Heq; [set_solver|set_solver|done]). eauto.
  - naive_solver.
  - naive_solver.
  - split; [naive_solver|]. intros (e' & [He'|[= ->]] & ? & ?); [eauto|]. apply Hv in Hrec as (e1 & He1 & ? & Hrv). subst. eauto.
  - naive_solver.
  - naive_solver.
  - naive_solver.
  - naive_solver.
Qed.

(** A start that failed counts as running: the next one reports success without
    an informer. *)
Lemma failed_oom_start_sticks config now synced prior m err m' :
  start config now synced prior m = (m', Some err) ->
  forall config' now' synced' prior', start config' now' synced' prior' m' = (m', None).
Proof.
  intros Hs. assert (isRunning m' = true) as Hr; [|intros; unfold start; by rewrite Hr].
  revert Hs. unfold start. destruct (isRunning m); [done|].
  assert (forall m1 e, initFields config now m = (m1, e) -> isRunning m1 = true) as Hi.
  { unfold initFields. intros m1 e. destruct (GetStringOrDefault _ _ _) as [? []]; by intros [= <- _]. }
  destruct (initFields config now m) as [m1 [e|]] eqn:Hm1; [intros [= <- _]; by eapply Hi|].
  destruct (StartAndSync synced); [intros [= <- _]; by eapply Hi|].
  assert (forall l m2, isRunning (fold_left (fun m e => handleOOMEvent (Some e) m) l m2) = isRunning m2) as Hf.
  { clear. induction l as [|e l IH]; intros m2; cbn [fold_left]; [done|]. rewrite IH.
    exact (proj1 (handle_all_facts [Some e] m2)). }
  unfold handlePriorOOMs. destruct prior.2; intros [= <-]; rewrite Hf; by eapply Hi.
Qed.

(** After a start of a fresh tracker, whatever events it is shown and however
    often, gathering fails exactly when one of them is an OOM since the start
    of a process that is not ignored. *)
Theorem ooms_verdict config now prior objs m :
  (forall d, exists c, PrettyPrintJSON d = Ok c) ->
  start config now true (prior, None) createClusterOOMsTrackerMeasurement = (m, None) ->
  (forall e e', Some e ∈ ((Some <$> prior) ++ objs) -> Some e' ∈ ((Some <$> prior) ++ objs) ->
     ev_ResourceVersion e = ev_ResourceVersion e' -> e = e') ->
  (gather now (handle_all objs m)).2.2 = None <->
  forall e, Some e ∈ ((Some <$> prior) ++ objs) -> ~ failing m e.
Proof.
  intros HJ. unfold start. cbn [isRunning createClusterOOMsTrackerMeasurement].
  destruct (initFields config now createClusterOOMsTrackerMeasurement) as [m0 [err|]] eqn:Hi; [done|].
  change (StartAndSync true) with (@None error). cbn [fst snd]. intros Hm Heq. apply (f_equal fst) in Hm. cbn [fst] in Hm. subst m.
  assert (ooms m0 = [] /\ resourceVersionRecorded m0 = ∅ /\ isRunning m0 = true) as (Ho0 & Hv0 & Hr0).
  { revert Hi. unfold initFields. destruct (GetStringOrDefault _ _ _) as [? []]; [done|]. by intros [= <-]. }
  unfold handlePriorOOMs. cbn [fst snd]. assert (fold_left (fun m e => handleOOMEvent (Some e) m) prior m0 = handle_all (Some <$> prior) m0) as ->.
  { unfold handle_all. clear. revert m0. induction prior; intros; cbn; [done|]. apply IHprior. }
  assert (handle_all objs (handle_all (Some <$> prior) m0) = handle_all ((Some <$> prior) ++ objs) m0) as ->
    by (unfold handle_all; by rewrite fold_left_app).
  set (all := (Some <$> prior) ++ objs) in *.
  destruct (handle_all_facts all m0) as (Hrun & Hst & Hig). destruct (handle_all_facts (Some <$> prior) m0) as (_ & Hst' & Hig').
  unfold gather. rewrite Hrun, Hr0. cbn [negb]. destruct (HJ (oomData (stop (handle_all all m0)))) as [c ->]. cbn [snd].
  assert (match default [] (oomData (stop (handle_all all m0)) !! "failures") with
          | [] => None | l => Some (Errorf "OOMs recorded: %+v" [AStr (SprintOoms l)]) end = None <->
          default [] (oomData (stop (handle_all all m0)) !! "failures") = []) as -> by (by destruct (default _ _)).
  rewrite oomData_failures, Forall_forall. cbn [stop ooms]. unfold failure, failing. cbn [stop startTime processIgnored].
  rewrite Hst, Hig, Hst', Hig'.
  assert (forall o, o ∈ ooms (handle_all all m0) <-> exists e, Some e ∈ all /\ ev_Reason e = "OOMKilling" /\ o = oom_of e) as Ho.
  { apply (handle_all_ooms [] m0 all); [done|rewrite Ho0|rewrite Hv0]; clear; set_solver. }
  setoid_rewrite Ho. clear. naive_solver.
Qed.
End Measurement.
End Ooms.
