(* ===== verification/SchedulerMetrics.v ===== *)
(** * Scheduler and etcd metrics
      (pkg/measurement/common/{scheduler_latency,prometheus_scheduler_latency,etcd_metrics}.go)

    Histograms scraped from the components (or queried from Prometheus), the
    difference of two scrapes, and quantiles of it. The scrapes, SSH and the
    quantile of component-base are arguments; [None] is a panic. *)

From S2P Require Import Prelude GoErrors GoRuntime Params Measurement Float64 FloatInt Latency Client Cluster Provider Prometheus ApiResponsiveness.
From Stdlib Require Import SpecFloat.

Definition MetricNameLabel : string := "__name__".
Definition metric_name (s : Sample) : string := label s MetricNameLabel.

(** [strings.ToUpper] of ASCII. *)
Fixpoint to_upper (s : string) : string :=
  match s with
  | EmptyString => EmptyString
  | String a s' =>
      let n := nat_of_ascii a in
      String (if ((97 <=? n) && (n <=? 122))%nat then ascii_of_nat (n - 32) else a) (to_upper s')
  end.

(** ** Scheduler latency *)
Module SchedulerLatency.

Definition schedulerLatencyMetricName : string := "SchedulingMetrics".
Definition e2eSchedulingDurationMetricName : string := "scheduler_pod_scheduling_sli_duration_seconds_bucket".
Definition schedulingAlgorithmDurationMetricName : string := "scheduler_scheduling_algorithm_duration_seconds_bucket".
Definition frameworkExtensionPointDurationMetricName : string := "scheduler_framework_extension_point_duration_seconds_bucket".
Definition preemptionEvaluationMetricName : string := "scheduler_scheduling_algorithm_preemption_evaluation_seconds_bucket".

Definition extentionsPoints : list string :=
  ["PreFilter"; "Filter"; "PostFilter"; "PreScore"; "Score"; "PreBind"; "Bind"; "PostBind"; "Reserve"; "Unreserve"; "Permit"].

(** The histograms are pointers; nil ones are those of a measurement that was
    never started. *)
Record schedulerLatencyMetrics := mkSchedulerMetrics {
  e2eSchedulingDurationHist : option Histogram;
  schedulingAlgorithmDurationHist : option Histogram;
  preemptionEvaluationHist : option Histogram;
  frameworkExtensionPointDurationHist : gmap string Histogram;
}.

Definition createSchedulerLatencyMeasurement : schedulerLatencyMetrics := mkSchedulerMetrics None None None ∅.

(** Every bucket of [finalHist], in place. *)
Definition HistogramSub (finalHist initialHist : Histogram) : Histogram :=
  mkHistogram (h_Labels finalHist)
    (map_imap (fun k v => Some (wrap64 (v - default 0 (h_Buckets initialHist !! k)))) (h_Buckets finalHist)).

(** A nil [finalHist] panics. *)
Definition sub_hist (final initial : option Histogram) : option (option Histogram) :=
  match initial with
  | None => Some final
  | Some i => match final with Some f => Some (Some (HistogramSub f i)) | None => None end
  end.

Fixpoint sub_points (eps : list string) (sub m : gmap string Histogram) : option (gmap string Histogram) :=
  match eps with
  | [] => Some m
  | ep :: eps' =>
      match sub !! ep with
      | None => sub_points eps' sub m
      | Some i => f ← m !! ep; sub_points eps' sub (<[ep := HistogramSub f i]> m)
      end
  end.

Definition subtract (m sub : schedulerLatencyMetrics) : option schedulerLatencyMetrics :=
  p ← sub_hist (preemptionEvaluationHist m) (preemptionEvaluationHist sub);
  a ← sub_hist (schedulingAlgorithmDurationHist m) (schedulingAlgorithmDurationHist sub);
  e ← sub_hist (e2eSchedulingDurationHist m) (e2eSchedulingDurationHist sub);
  f ← sub_points extentionsPoints (frameworkExtensionPointDurationHist sub) (frameworkExtensionPointDurationHist m);
  Some (mkSchedulerMetrics e a p f).

Record schedulingMetrics := mkSchedulingMetrics {
  FrameworkExtensionPointDuration : gmap string LatencyMetric;
  PreemptionEvaluationLatency : LatencyMetric;
  E2eSchedulingLatency : LatencyMetric;
  SchedulingLatency : LatencyMetric;
}.

Section Quantiles.
Context `{GoLib} `{MapRange} (hist_Quantile : list bucket -> option Z -> float64 -> float64).

Fixpoint quantiles_loop (qs : list float64) (metric : LatencyMetric) (hist : Histogram) : LatencyMetric * option error :=
  match qs with
  | [] => (metric, None)
  | quantile :: qs' =>
      match Quantile hist_Quantile hist quantile with
      | (_, Some err) => (metric, Some err)
      | (histQuantile, None) =>
          quantiles_loop qs'
            (if negb (is_NaN histQuantile)
             then SetQuantile metric quantile (f64_to_int (f64_mul histQuantile (f64_of_Z Second))) else metric) hist
      end
  end.

Definition SetQuantileFromHistogram (metric : LatencyMetric) (hist : Histogram) : LatencyMetric * option error :=
  quantiles_loop [f64_half; f64_0_9; f64_0_99] metric hist.

Definition zero_metric : LatencyMetric := mkLatencyMetric 0 0 0.

(** The latency of a histogram, with the error; a nil histogram panics. *)
Definition latency_of (hist : option Histogram) : option (result LatencyMetric) :=
  h ← hist;
  Some (match SetQuantileFromHistogram zero_metric h with (m, None) => Ok m | (_, Some err) => Err err end).

Fixpoint points_loop (eps : list string) (hists : gmap string Histogram) (acc : gmap string LatencyMetric)
  : option (result (gmap string LatencyMetric)) :=
  match eps with
  | [] => Some (Ok acc)
  | ep :: eps' =>
      r ← latency_of (hists !! ep);
      match r with
      | Err err => Some (Err err)
      | Ok m => points_loop eps' hists (<[ep := m]> acc)
      end
  end.

(** The partial result next to an error is not used. *)
Definition setQuantiles (metrics : schedulerLatencyMetrics) : option (result schedulingMetrics) :=
  e ← latency_of (e2eSchedulingDurationHist metrics);
  match e with
  | Err err => Some (Err err)
  | Ok e2e =>
      a ← latency_of (schedulingAlgorithmDurationHist metrics);
      match a with
      | Err err => Some (Err err)
      | Ok alg =>
          f ← points_loop extentionsPoints (frameworkExtensionPointDurationHist metrics)
                (list_to_map (map (fun ep => (ep, zero_metric)) extentionsPoints));
          match f with
          | Err err => Some (Err err)
          | Ok points =>
              p ← latency_of (preemptionEvaluationHist metrics);
              match p with
              | Err err => Some (Err err)
              | Ok pre => Some (Ok (mkSchedulingMetrics points pre e2e alg))
              end
          end
      end
  end.
End Quantiles.

(** *** The scrape *)

Definition empty_metrics : schedulerLatencyMetrics :=
  mkSchedulerMetrics (Some (NewHistogram ∅)) (Some (NewHistogram ∅)) (Some (NewHistogram ∅))
    (list_to_map (map (fun ep => (ep, NewHistogram ∅)) extentionsPoints)).

(** The [switch] on the name of the sample. *)
Definition add_sample (m : schedulerLatencyMetrics) (sample : Sample) : schedulerLatencyMetrics :=
  let name := metric_name sample in
  if String.eqb name e2eSchedulingDurationMetricName then
    mkSchedulerMetrics (ConvertSampleToHistogram sample <$> e2eSchedulingDurationHist m) (schedulingAlgorithmDurationHist m)
      (preemptionEvaluationHist m) (frameworkExtensionPointDurationHist m)
  else if String.eqb name schedulingAlgorithmDurationMetricName then
    mkSchedulerMetrics (e2eSchedulingDurationHist m) (ConvertSampleToHistogram sample <$> schedulingAlgorithmDurationHist m)
      (preemptionEvaluationHist m) (frameworkExtensionPointDurationHist m)
  else if String.eqb name frameworkExtensionPointDurationMetricName then
    mkSchedulerMetrics (e2eSchedulingDurationHist m) (schedulingAlgorithmDurationHist m) (preemptionEvaluationHist m)
      (alter (ConvertSampleToHistogram sample) (label sample "extension_point") (frameworkExtensionPointDurationHist m))
  else if String.eqb name preemptionEvaluationMetricName then
    mkSchedulerMetrics (e2eSchedulingDurationHist m) (schedulingAlgorithmDurationHist m)
      (ConvertSampleToHistogram sample <$> preemptionEvaluationHist m) (frameworkExtensionPointDurationHist m)
  else m.

(** [scraped]: the samples of the response, or the error of the request or of
    the decoder. The metrics are returned next to an error as well. *)
Definition getSchedulingMetrics (scraped : result (list Sample)) : schedulerLatencyMetrics * option error :=
  match scraped with
  | Err err => (empty_metrics, Some err)
  | Ok samples => (fold_left add_sample samples empty_metrics, None)
  end.

(** What [SSH] returns. *)
Record ssh_result := mkSshResult { ssh_Stdout : string; ssh_Code : Z; ssh_err : option error }.

(** The answer of the scheduler, by the proxy of the API server ([rest], by the
    verb and the name of the pod) when a master is registered, and by a command
    through SSH otherwise. *)
Definition sendRequestToScheduler (op : string) (masterName host : string) (masterRegistered : bool)
    (rest : string -> string -> result string) (ssh : string -> string -> ssh_result) : result string :=
  let opUpper := to_upper op in
  if negb (String.eqb opUpper "GET") && negb (String.eqb opUpper "DELETE") then Err (Errorf "unknown REST request" [])
  else if masterRegistered then rest opUpper (Sprintf "https:kube-scheduler-%v:%v" [FStr masterName; FInt 10259])
  else
    let sshResult := ssh ("curl -X " +:+ opUpper +:+ " -k https://localhost:10259/metrics") (host +:+ ":22") in
    match ssh_err sshResult with
    | Some err => Err (Errorf "unexpected error (code: %d) in ssh connection to master: %#v" [AInt (ssh_Code sshResult); AErr err])
    | None =>
        if negb (ssh_Code sshResult =? 0)
        then Err (Errorf "unexpected error (code: %d) in ssh connection to master: %#v" [AInt (ssh_Code sshResult); AStr "<nil>"])
        else Ok (ssh_Stdout sshResult)
    end.

Section Measurement.
Context `{GoLib} `{MapRange} (hist_Quantile : list bucket -> option Z -> float64 -> float64)
  (ExtractMetricSamples : string -> result (list Sample)) (PrettyPrintJSON : schedulingMetrics -> result string).

Definition scrape (masterName host : string) (masterRegistered : bool) (rest : string -> string -> result string)
    (ssh : string -> string -> ssh_result) : result (list Sample) :=
  match sendRequestToScheduler "GET" masterName host masterRegistered rest ssh with
  | Err err => Err err
  | Ok data => ExtractMetricSamples data
  end.

(** The state is [initialLatency], which a failed start replaces too. *)
Definition getSchedulingInitialLatency (scraped : result (list Sample)) : schedulerLatencyMetrics * option error :=
  getSchedulingMetrics scraped.

Definition getSchedulingLatency (now : Z) (scraped : result (list Sample)) (initialLatency : schedulerLatencyMetrics)
  : option (list Summary * option error) :=
  match getSchedulingMetrics scraped with
  | (_, Some err) => Some ([], Some err)
  | (schedulerMetrics, None) =>
      m ← subtract schedulerMetrics initialLatency;
      r ← setQuantiles hist_Quantile m;
      Some (match r with
            | Err err => ([], Some err)
            | Ok result =>
                match PrettyPrintJSON result with
                | Err err => ([], Some err)
                | Ok content => ([CreateSummary now schedulerLatencyMetricName "json" content], None)
                end
            end)
  end.

(** [master]: the IP and the name of the master in the cluster config. *)
Definition Execute (provider : Provider) (nodes : result (list node)) (master : string * string)
    (rest : string -> string -> result string) (ssh : string -> string -> ssh_result) (now : Z) (config : MeasurementConfig) (initialLatency : schedulerLatencyMetrics)
  : option (schedulerLatencyMetrics * (list Summary * option error)) :=
  match nodes with
  | Err err => Some (initialLatency, ([], Some err))
  | Ok nodes =>
      let masterRegistered := existsb IsControlPlaneNode nodes in
      if prov_Features provider SchedulerInsecurePortDisabled || (negb (prov_Features provider SupportSSHToMaster) && negb masterRegistered)
      then Some (initialLatency, ([], None))
      else
        match getString (cfg_Params config) "action" with
        | (_, Some err) => Some (initialLatency, ([], Some err))
        | (action, None) =>
            match GetStringOrDefault (cfg_Params config) "masterIP" master.1 with
            | (_, Some err) => Some (initialLatency, ([], Some err))
            | (masterIP, None) =>
                match GetStringOrDefault (cfg_Params config) "masterName" master.2 with
                | (_, Some err) => Some (initialLatency, ([], Some err))
                | (masterName, None) =>
                    let scraped := scrape masterName masterIP masterRegistered rest ssh in
                    if String.eqb action "reset" || String.eqb action "start" then
                      let '(m, err) := getSchedulingInitialLatency scraped in Some (m, ([], err))
                    else if String.eqb action "gather" then
                      r ← getSchedulingLatency now scraped initialLatency; Some (initialLatency, r)
                    else Some (initialLatency, ([], Some (Errorf "unknown action %v" [AStr action])))
                end
            end
        end
  end.
End Measurement.

(** *** What is measured between start and gather *)

Definition is_metric (name : string) (s : Sample) : Prop := metric_name s = name.
Definition is_point (ep : string) (s : Sample) : Prop :=
  metric_name s = frameworkExtensionPointDurationMetricName /\ label s "extension_point" = ep.
#[export] Instance is_metric_dec name s : Decision (is_metric name s).
Proof. unfold is_metric. apply _. Defined.
#[export] Instance is_point_dec ep s : Decision (is_point ep s).
Proof. unfold is_point. apply _. Defined.

Section Collects.
Context (P : Sample -> Prop) `{!forall s, Decision (P s)}.

(** The samples of a histogram that belong to a bucket. *)
Definition bucket_samples (samples : list Sample) (le : string) : list Sample := filter (fun s => P s /\ sample_le s = le) samples.

Definition sum_of (l : list Sample) : option Z := match l with [] => None | _ => Some (wrap64 (total l)) end.

Definition collects (samples : list Sample) (h : Histogram) : Prop :=
  forall le, h_Buckets h !! le = sum_of (bucket_samples samples le).

Lemma sum_of_snoc l s : sum_of (l ++ [s]) = Some (wrap64 (default 0 (sum_of l) + f64_to_int (s_Value s))).
Proof.
  destruct l as [|a l]; [cbn; f_equal; f_equal; lia|]. unfold sum_of. cbn [app].
  change (a :: l ++ [s]) with ((a :: l) ++ [s]). rewrite total_app. cbn [default from_option id]. rewrite wrap64_add_l.
  cbn. f_equal. f_equal. lia.
Qed.

Lemma collects_in samples h s : P s -> collects samples h -> collects (samples ++ [s]) (ConvertSampleToHistogram s h).
Proof.
  intros Hs Hc le. unfold ConvertSampleToHistogram. rewrite add_to_bucket_lookup. cbn [h_Buckets].
  unfold bucket_samples. rewrite filter_app, filter_cons, filter_nil. fold (bucket_samples samples le). rewrite Hc.
  case_bool_decide; case_decide; try tauto; [by rewrite sum_of_snoc|by rewrite app_nil_r].
Qed.

Lemma collects_out samples h s : ~ P s -> collects samples h -> collects (samples ++ [s]) h.
Proof.
  intros Hs Hc le. unfold bucket_samples. rewrite filter_app, filter_cons, filter_nil, decide_False by tauto.
  rewrite app_nil_r. apply Hc.
Qed.

Lemma collects_empty : collects [] (NewHistogram ∅).
Proof. intros le. apply lookup_empty. Qed.

(** The increase of the buckets from one scrape to the next. *)
Definition increases (before after : list Sample) (h : Histogram) : Prop :=
  forall le, h_Buckets h !! le =
    match bucket_samples after le with
    | [] => None
    | l => Some (wrap64 (total l - total (bucket_samples before le)))
    end.

Lemma wrap64_sub a b : wrap64 (wrap64 a - wrap64 b) = wrap64 (a - b).
Proof.
  unfold wrap64. f_equal.
  replace ((a + 2 ^ 63) mod 2 ^ 64 - 2 ^ 63 - ((b + 2 ^ 63) mod 2 ^ 64 - 2 ^ 63) + 2 ^ 63)
    with ((a + 2 ^ 63) mod 2 ^ 64 - (b + 2 ^ 63) mod 2 ^ 64 + 2 ^ 63) by lia.
  rewrite <- Zplus_mod_idemp_l, <- Zminus_mod, Zplus_mod_idemp_l. f_equal. lia.
Qed.

Lemma HistogramSub_increases before after hb ha :
  collects before hb -> collects after ha -> increases before after (HistogramSub ha hb).
Proof.
  intros Hb Ha le. unfold HistogramSub. cbn [h_Buckets]. rewrite map_lookup_imap, Ha, Hb. unfold sum_of.
  destruct (bucket_samples after le) as [|a l]; [done|]. cbn [mbind option_bind].
  destruct (bucket_samples before le) as [|b l']; cbn [default from_option id].
  - change 0 with (wrap64 0) at 1. rewrite wrap64_sub. done.
  - by rewrite wrap64_sub.
Qed.
End Collects.

(** The four kinds of histograms of a scrape. *)
Record scraped_metrics (samples : list Sample) (m : schedulerLatencyMetrics) : Prop := {
  sm_e2e : exists h, e2eSchedulingDurationHist m = Some h /\ collects (is_metric e2eSchedulingDurationMetricName) samples h;
  sm_alg : exists h, schedulingAlgorithmDurationHist m = Some h /\ collects (is_metric schedulingAlgorithmDurationMetricName) samples h;
  sm_pre : exists h, preemptionEvaluationHist m = Some h /\ collects (is_metric preemptionEvaluationMetricName) samples h;
  sm_points : forall ep, ep ∈ extentionsPoints ->
    exists h, frameworkExtensionPointDurationHist m !! ep = Some h /\ collects (is_point ep) samples h;
}.

Lemma keep_hist P `{!forall s, Decision (P s)} samples s (o : option Histogram) :
  ~ P s -> (exists h, o = Some h /\ collects P samples h) -> exists h, o = Some h /\ collects P (samples ++ [s]) h.
Proof. intros Hn (h & -> & Hc). exists h. split; [done|]. by apply collects_out. Qed.

Lemma add_hist P `{!forall s, Decision (P s)} samples s (o : option Histogram) :
  P s -> (exists h, o = Some h /\ collects P samples h) ->
  exists h, (ConvertSampleToHistogram s <$> o) = Some h /\ collects P (samples ++ [s]) h.
Proof. intros Hp (h & -> & Hc). eexists. split; [reflexivity|]. by apply collects_in. Qed.

Lemma scraped_snoc samples m s : scraped_metrics samples m -> scraped_metrics (samples ++ [s]) (add_sample m s).
Proof.
  intros [He Ha Hp Hf]. unfold add_sample.
  assert (forall ep, metric_name s <> frameworkExtensionPointDurationMetricName -> ep ∈ extentionsPoints ->
    exists h, frameworkExtensionPointDurationHist m !! ep = Some h /\ collects (is_point ep) (samples ++ [s]) h) as Hkeep.
  { intros ep Hne Hep. apply keep_hist; [intros [? _]; done|auto]. }
  destruct (String.eqb_spec (metric_name s) e2eSchedulingDurationMetricName) as [Hn|Hn1];
    [|destruct (String.eqb_spec (metric_name s) schedulingAlgorithmDurationMetricName) as [Hn|Hn2];
      [|destruct (String.eqb_spec (metric_name s) frameworkExtensionPointDurationMetricName) as [Hn|Hn3];
        [|destruct (String.eqb_spec (metric_name s) preemptionEvaluationMetricName) as [Hn|Hn4]]]].
  all: constructor; cbn [e2eSchedulingDurationHist schedulingAlgorithmDurationHist preemptionEvaluationHist frameworkExtensionPointDurationHist].
  all: try (apply add_hist; [exact Hn|assumption]).
  all: try (apply keep_hist; [unfold is_metric; congruence|assumption]).
  all: try (intros ep Hep; apply Hkeep; [congruence|done]).
  all: try (apply keep_hist; [unfold is_metric; rewrite Hn; discriminate|assumption]).
  all: try (intros ep Hep; apply Hkeep; [rewrite Hn; discriminate|done]).
  intros ep Hep. destruct (decide (label s "extension_point" = ep)) as [<-|Hne].
  - rewrite lookup_alter_eq. apply add_hist; [by split|auto].
  - rewrite lookup_alter_ne by done. apply keep_hist; [by intros [_ ?]|auto].
Qed.

Lemma scraped_empty : scraped_metrics [] empty_metrics.
Proof.
  constructor; cbn [empty_metrics e2eSchedulingDurationHist schedulingAlgorithmDurationHist preemptionEvaluationHist
    frameworkExtensionPointDurationHist]; try (eexists; split; [reflexivity|apply collects_empty]).
  intros ep Hep. exists (NewHistogram ∅). split; [|apply collects_empty].
  apply elem_of_list_to_map; [|apply list_elem_of_fmap; by exists ep].
  rewrite <- list_fmap_compose. by apply (bool_decide_unpack _).
Qed.

Lemma getSchedulingMetrics_scraped samples :
  exists m, getSchedulingMetrics (Ok samples) = (m, None) /\ scraped_metrics samples m.
Proof.
  eexists. split; [reflexivity|]. induction samples as [|s samples IH] using rev_ind; [apply scraped_empty|].
  rewrite fold_left_app. by apply scraped_snoc.
Qed.

Lemma sub_points_lookup eps sub m :
  NoDup eps -> (forall ep, ep ∈ eps -> is_Some (m !! ep)) ->
  exists m', sub_points eps sub m = Some m' /\
    (forall ep f, ep ∈ eps -> m !! ep = Some f ->
       m' !! ep = Some (match sub !! ep with Some i => HistogramSub f i | None => f end)) /\
    (forall ep, ep ∉ eps -> m' !! ep = m !! ep).
Proof.
  revert m. induction eps as [|ep eps IH]; intros m; cbn [sub_points].
  { intros _ _. exists m. split_and!; [done|by intros ? ? ?%elem_of_nil|done]. }
  intros [Hn Hd]%NoDup_cons Hm. destruct (Hm ep) as [f Hf]; [left|].
  destruct (sub !! ep) as [i|] eqn:Hi.
  - rewrite Hf. cbn [mbind option_bind].
    destruct (IH (<[ep := HistogramSub f i]> m) Hd) as (m' & -> & Hin & Hout).
    { intros e He. destruct (decide (e = ep)) as [->|?]; [by rewrite lookup_insert_eq|]. rewrite lookup_insert_ne by done. apply Hm. by right. }
    exists m'. split_and!; [done|..].
    + intros e g [->|He]%elem_of_cons Hg.
      * rewrite Hout, lookup_insert_eq, Hi by done. congruence.
      * apply Hin; [done|]. rewrite lookup_insert_ne; [done|]. intros ->. done.
    + intros e [? ?]%not_elem_of_cons. rewrite Hout by done. by rewrite lookup_insert_ne.
  - destruct (IH m Hd) as (m' & -> & Hin & Hout); [intros e He; apply Hm; by right|]. exists m'. split_and!; [done|..].
    + intros e g [->|He]%elem_of_cons Hg; [by rewrite Hout, Hi|by apply Hin].
    + intros e [? ?]%not_elem_of_cons. by apply Hout.
Qed.

(** The difference of two scrapes never panics and holds, in every bucket of
    every histogram, the increase between them. *)
Theorem scheduler_metrics_increase before after m0 m1 :
  getSchedulingMetrics (Ok before) = (m0, None) -> getSchedulingMetrics (Ok after) = (m1, None) ->
  exists e a p m, subtract m1 m0 = Some (mkSchedulerMetrics (Some e) (Some a) (Some p) m) /\
    increases (is_metric e2eSchedulingDurationMetricName) before after e /\
    increases (is_metric schedulingAlgorithmDurationMetricName) before after a /\
    increases (is_metric preemptionEvaluationMetricName) before after p /\
    forall ep, ep ∈ extentionsPoints -> exists h, m !! ep = Some h /\ increases (is_point ep) before after h.
Proof.
  destruct (getSchedulingMetrics_scraped before) as (b & -> & Hb).
  destruct (getSchedulingMetrics_scraped after) as (c & -> & Hc). intros [= <-] [= <-].
  destruct Hb as [(e0 & He0 & Hce0) (a0 & Ha0 & Hca0) (p0 & Hp0 & Hcp0) Hf0].
  destruct Hc as [(e1 & He1 & Hce1) (a1 & Ha1 & Hca1) (p1 & Hp1 & Hcp1) Hf1].
  unfold subtract. rewrite He0, Ha0, Hp0, He1, Ha1, Hp1. cbn [sub_hist mbind option_bind].
  destruct (sub_points_lookup extentionsPoints (frameworkExtensionPointDurationHist b) (frameworkExtensionPointDurationHist c))
    as (m & -> & Hin & _).
  { by apply (bool_decide_unpack _). }
  { intros ep Hep. destruct (Hf1 ep Hep) as (h & -> & _). eauto. }
  cbn [mbind option_bind]. eexists _, _, _, _. split; [reflexivity|].
  split_and!; try by apply HistogramSub_increases.
  intros ep Hep. destruct (Hf0 ep Hep) as (h0 & Hh0 & Hc0). destruct (Hf1 ep Hep) as (h1 & Hh1 & Hc1).
  exists (HistogramSub h1 h0). split; [by rewrite (Hin ep h1 Hep Hh1), Hh0|]. by apply HistogramSub_increases.
Qed.
End SchedulerLatency.

(** ** Scheduler latency from Prometheus *)
Module PrometheusSchedulerLatency.
Import SchedulerLatency.
Section Gatherer.
Context `{GoLib} `{MapRange} (hist_Quantile : list bucket -> option Z -> float64 -> float64)
  (PrettyPrintJSON : schedulingMetrics -> result string) (SprintErrors : list error -> string).

Definition prometheusSchedulingMetricsMeasurementName : string := "PrometheusSchedulingMetrics".

Definition histogram_query (metric labelFilter promWindow : string) : string :=
  if negb (String.eqb labelFilter "")
  then Sprintf "sum(increase(%s{%s}[%s])) by (le)" [FStr metric; FStr labelFilter; FStr promWindow]
  else Sprintf "sum(increase(%s[%s])) by (le)" [FStr metric; FStr promWindow].

Definition queryHistogram (executor : executor_t) (endTime : Z) (promWindow metric labelFilter : string) : option (result Histogram) :=
  let query := histogram_query metric labelFilter promWindow in
  match executor query endTime with
  | None => None
  | Some (Err err) => Some (Err (Errorf "failed to execute query %q: %w" [AStr query; AWrap err]))
  | Some (Ok samples) => Some (Ok (fold_left (fun h s => ConvertSampleToHistogram s h) samples (NewHistogram ∅)))
  end.

(** A histogram of the metrics, and the errors so far. *)
Definition query_into (executor : executor_t) (endTime : Z) (promWindow metric : string)
    (set : schedulerLatencyMetrics -> Histogram -> schedulerLatencyMetrics) (st : schedulerLatencyMetrics * list error)
  : option (schedulerLatencyMetrics * list error) :=
  r ← queryHistogram executor endTime promWindow metric "";
  Some (match r with Err err => (st.1, st.2 ++ [err]) | Ok h => (set st.1 h, st.2) end).

Fixpoint query_points (executor : executor_t) (endTime : Z) (promWindow : string) (eps : list string)
    (st : schedulerLatencyMetrics * list error) : option (schedulerLatencyMetrics * list error) :=
  match eps with
  | [] => Some st
  | ep :: eps' =>
      let labelSel := "extension_point=" +:+ String (ascii_of_nat 34) (ep +:+ String (ascii_of_nat 34) "") in
      r ← queryHistogram executor endTime promWindow frameworkExtensionPointDurationMetricName labelSel;
      query_points executor endTime promWindow eps'
        (match r with
         | Err err => (st.1, st.2 ++ [err])
         | Ok h => (mkSchedulerMetrics (e2eSchedulingDurationHist st.1) (schedulingAlgorithmDurationHist st.1) (preemptionEvaluationHist st.1)
                      (<[ep := h]> (frameworkExtensionPointDurationHist st.1)), st.2)
         end)
  end.

Definition Gather (now : Z) (executor : executor_t) (startTime endTime : Z) (config : MeasurementConfig)
  : option (list Summary * option error) :=
  let promWindow := ToPrometheusTime (Time_Sub endTime startTime) in
  st ← query_into executor endTime promWindow e2eSchedulingDurationMetricName
         (fun m h => mkSchedulerMetrics (Some h) (schedulingAlgorithmDurationHist m) (preemptionEvaluationHist m)
                       (frameworkExtensionPointDurationHist m)) (empty_metrics, []);
  st ← query_into executor endTime promWindow schedulingAlgorithmDurationMetricName
         (fun m h => mkSchedulerMetrics (e2eSchedulingDurationHist m) (Some h) (preemptionEvaluationHist m)
                       (frameworkExtensionPointDurationHist m)) st;
  st ← query_into executor endTime promWindow preemptionEvaluationMetricName
         (fun m h => mkSchedulerMetrics (e2eSchedulingDurationHist m) (schedulingAlgorithmDurationHist m) (Some h)
                       (frameworkExtensionPointDurationHist m)) st;
  '(metrics, errList) ← query_points executor endTime promWindow extentionsPoints st;
  match errList with
  | _ :: _ => Some ([], Some (Errorf "prometheus scheduler latency gathering errors: %v" [AStr (SprintErrors errList)]))
  | [] =>
      r ← setQuantiles hist_Quantile metrics;
      Some (match r with
            | Err err => ([], Some (Errorf "failed to compute quantiles: %w" [AWrap err]))
            | Ok result =>
                match PrettyPrintJSON result with
                | Err err => ([], Some err)
                | Ok content =>
                    ([CreateSummary now (cfg_Identifier config +:+ "_" +:+ prometheusSchedulingMetricsMeasurementName) "json" content], None)
                end
            end)
  end.
End Gatherer.
End PrometheusSchedulerLatency.

(** ** Etcd metrics *)
Module EtcdMetrics.
Import SchedulerLatency (ssh_result, ssh_Stdout, ssh_Code, ssh_err).

Record etcdMetrics := mkEtcdMetrics {
  BackendCommitDuration : list Histogram;
  SnapshotSaveTotalDuration : list Histogram;
  PeerRoundTripTime : list Histogram;
  WalFsyncDuration : list Histogram;
  MaxDatabaseSize : float64;
}.

Definition newEtcdMetrics : etcdMetrics := mkEtcdMetrics [] [] [] [] (f64_of_Z 0).

(** [stopCh_closed]: the channel is made once, with the measurement;
    [collectors]: the hosts of the goroutines that still run. *)
Record measurement := mkEtcd { isRunning : bool; stopCh_closed : bool; collectors : list string; metrics : etcdMetrics }.

Definition createEtcdMetricsMeasurement : measurement := mkEtcd false false [] newEtcdMetrics.

(** Closing a closed channel panics; the wait ends when every goroutine has
    seen it closed. *)
Definition Dispose (e : measurement) : option measurement :=
  if isRunning e then if stopCh_closed e then None else Some (mkEtcd false true [] (metrics e)) else Some e.

(** The goroutine of a host returns at once when the channel is closed. *)
Definition startCollecting (host : string) (e : measurement) : measurement :=
  mkEtcd true (stopCh_closed e) (if stopCh_closed e then [] else collectors e ++ [host]) (metrics e).

Section Collect.
Context (ExtractMetricSamples : string -> result (list Sample)) (ssh : string -> string -> ssh_result)
  (Getenv : string -> string) (SprintResult : ssh_result -> string).

Definition sshEtcdMetrics (cmd host : string) : result (list Sample) :=
  let sshResult := ssh cmd (host +:+ ":22") in
  match ssh_err sshResult with
  | Some err => Err (Errorf "unexpected error (code: %d) in ssh connection to master: %#v" [AInt (ssh_Code sshResult); AErr err])
  | None =>
      if negb (ssh_Code sshResult =? 0)
      then Err (Errorf "failed running command: %s on the host: %s, result: %+v" [AStr cmd; AStr host; AStr (SprintResult sshResult)])
      else ExtractMetricSamples (ssh_Stdout sshResult)
  end.

(** The command of the fallback to the default port. *)
Definition fallback_cmd : string :=
  let etcdCert := Getenv "ETCD_CERTIFICATE" in
  let etcdKey := Getenv "ETCD_KEY" in
  let etcdHost := if String.eqb (Getenv "ETCD_HOST") "" then "localhost" else Getenv "ETCD_HOST" in
  if String.eqb etcdCert "" || String.eqb etcdKey ""
  then Sprintf "curl http://%s:2379/metrics" [FStr etcdHost]
  else Sprintf "curl -k --cert %s --key %s https://%s:2379/metrics" [FStr etcdCert; FStr etcdKey; FStr etcdHost].

Definition getEtcdMetrics (host : string) (port : Z) : result (list Sample) :=
  match sshEtcdMetrics (Sprintf "curl http://localhost:%d/metrics" [FInt port]) host with
  | Ok samples => Ok samples
  | Err _ => sshEtcdMetrics fallback_cmd host
  end.

Fixpoint size_loop (samples : list Sample) : result float64 :=
  match samples with
  | [] => Err (Errorf "couldn't find etcd database size metric" [])
  | sample :: samples' =>
      if String.eqb (metric_name sample) "etcd_debugging_mvcc_db_total_size_in_bytes"
         || String.eqb (metric_name sample) "etcd_mvcc_db_total_size_in_bytes"
      then Ok (s_Value sample) else size_loop samples'
  end.

Definition getEtcdDatabaseSize (host : string) (port : Z) : result float64 :=
  match getEtcdMetrics host port with Err err => Err err | Ok samples => size_loop samples end.

(** One tick of a collector, under the lock; errors are logged. *)
Definition collectEtcdDatabaseSize (host : string) (port : Z) (e : measurement) : measurement :=
  match getEtcdDatabaseSize host port with
  | Err _ => e
  | Ok dbSize =>
      let m := metrics e in
      mkEtcd (isRunning e) (stopCh_closed e) (collectors e)
        (mkEtcdMetrics (BackendCommitDuration m) (SnapshotSaveTotalDuration m) (PeerRoundTripTime m) (WalFsyncDuration m)
           (math_Max (MaxDatabaseSize m) dbSize))
  end.

Definition collectEtcdMetrics (m : etcdMetrics) (sample : Sample) : etcdMetrics :=
  let name := metric_name sample in
  if String.eqb name "etcd_disk_backend_commit_duration_seconds_bucket" then
    mkEtcdMetrics (ConvertSampleToBucket sample (BackendCommitDuration m)) (SnapshotSaveTotalDuration m) (PeerRoundTripTime m)
      (WalFsyncDuration m) (MaxDatabaseSize m)
  else if String.eqb name "etcd_debugging_snap_save_total_duration_seconds_bucket" then
    mkEtcdMetrics (BackendCommitDuration m) (ConvertSampleToBucket sample (SnapshotSaveTotalDuration m)) (PeerRoundTripTime m)
      (WalFsyncDuration m) (MaxDatabaseSize m)
  else if String.eqb name "etcd_disk_wal_fsync_duration_seconds_bucket" then
    mkEtcdMetrics (BackendCommitDuration m) (SnapshotSaveTotalDuration m) (PeerRoundTripTime m)
      (ConvertSampleToBucket sample (WalFsyncDuration m)) (MaxDatabaseSize m)
  else if String.eqb name "etcd_network_peer_round_trip_time_seconds_bucket" then
    mkEtcdMetrics (BackendCommitDuration m) (SnapshotSaveTotalDuration m) (ConvertSampleToBucket sample (PeerRoundTripTime m))
      (WalFsyncDuration m) (MaxDatabaseSize m)
  else m.

(** The deferred [Dispose] runs on both paths. *)
Definition stopAndSummarize (host : string) (port : Z) (e : measurement) : option (measurement * option error) :=
  let '(e, err) :=
    match getEtcdMetrics host port with
    | Err err => (e, Some err)
    | Ok samples => (mkEtcd (isRunning e) (stopCh_closed e) (collectors e) (fold_left collectEtcdMetrics samples (metrics e)), None)
    end in
  e ← Dispose e; Some (e, err).

Fixpoint stop_loop (hosts : list string) (port : Z) (e : measurement) : option (measurement * option error) :=
  match hosts with
  | [] => Some (e, None)
  | h :: hosts' =>
      '(e, err) ← stopAndSummarize h port e;
      match err with Some err => Some (e, Some err) | None => stop_loop hosts' port e end
  end.

Context `{GoLib} (PrettyPrintJSON : etcdMetrics -> result string).

Definition Execute (provider : Provider) (hosts : list string) (etcdInsecurePort now : Z) (config : MeasurementConfig) (e : measurement)
  : option (measurement * (list Summary * option error)) :=
  if negb (prov_Features provider SupportSSHToMaster) then Some (e, ([], None))
  else
    match getString (cfg_Params config) "action" with
    | (_, Some err) => Some (e, ([], Some err))
    | (action, None) =>
        if Z.of_nat (length hosts) <? 1 then Some (e, ([], None))
        else if String.eqb action "start" then
          match GetDurationOrDefault (cfg_Params config) "waitTime" Duration.Minute with
          | (_, Some err) => Some (e, ([], Some err))
          | (waitTime, None) => Some (fold_left (fun e h => startCollecting h e) hosts e, ([], None))
          end
        else if String.eqb action "gather" then
          '(e, err) ← stop_loop hosts etcdInsecurePort e;
          match err with
          | Some err => Some (e, ([], Some err))
          | None =>
              match PrettyPrintJSON (metrics e) with
              | Err err => Some (e, ([], Some err))
              | Ok content => Some (e, ([CreateSummary now "EtcdMetrics" "json" content], None))
              end
          end
        else Some (e, ([], Some (Errorf "unknown action %v" [AStr action])))
    end.

(** *** The life of the measurement *)

(** The channel is closed only by a measurement that was running. *)
Definition fresh (e : measurement) : Prop := stopCh_closed e = false.

Lemma startCollecting_hosts hosts e :
  fresh e -> hosts <> [] ->
  fold_left (fun e h => startCollecting h e) hosts e = mkEtcd true false (collectors e ++ hosts) (metrics e).
Proof.
  unfold fresh. revert e. induction hosts as [|h hosts IH]; intros e Hf Hne; [done|]. cbn [fold_left].
  destruct hosts as [|h' hosts].
  - cbn. unfold startCollecting. by rewrite Hf.
  - rewrite IH; [|by unfold startCollecting|done]. unfold startCollecting. rewrite Hf. cbn. by rewrite <- app_assoc.
Qed.

(** The first gather after a start ends all collectors and keeps the samples of
    all hosts that answered before a failure. *)
Lemma stop_loop_ok hosts port e :
  isRunning e = false \/ fresh e ->
  exists e' err, stop_loop hosts port e = Some (e', err) /\
    (hosts <> [] -> isRunning e' = false) /\
    (isRunning e = false \/ hosts <> [] -> isRunning e' = false).
Proof.
  unfold fresh. revert e. induction hosts as [|h hosts IH]; intros e Hf; cbn [stop_loop].
  { exists e, None. split_and!; [done|done|tauto]. }
  unfold stopAndSummarize.
  set (r := match getEtcdMetrics h port with Err _ => _ | Ok _ => _ end).
  assert (isRunning r.1 = isRunning e /\ stopCh_closed r.1 = stopCh_closed e) as [Hr1 Hr2] by (unfold r; by destruct (getEtcdMetrics h port)).
  destruct r as [e1 err1]. cbn [fst snd] in *. unfold Dispose. rewrite Hr1, Hr2.
  destruct (isRunning e) eqn:Hrun.
  - destruct Hf as [?|Hf]; [done|]. rewrite Hf. cbn [mbind option_bind]. destruct err1 as [err|].
    + eexists _, _. split; [reflexivity|]. by split.
    + destruct (IH (mkEtcd false true [] (metrics e1))) as (e' & err' & -> & H1 & H2); [by left|].
      exists e', err'. split; [done|]. split; intros; apply H2; by left.
  - cbn [mbind option_bind]. destruct err1 as [err|].
    + eexists _, _. split; [reflexivity|]. split; intros; congruence.
    + destruct (IH e1) as (e' & err' & -> & H1 & H2); [left; congruence|]. exists e', err'. split; [done|].
      split; intros; apply H2; left; congruence.
Qed.

(** A measurement that is started again after it was gathered panics at its
    second gather: the channel is already closed. *)
Lemma second_round_panics hosts port e h :
  isRunning e = false -> stopCh_closed e = true ->
  stop_loop (h :: hosts) port (fold_left (fun e h => startCollecting h e) (h :: hosts) e) = None.
Proof.
  intros _ Hc.
  assert (forall l e, stopCh_closed e = true -> l <> [] ->
    isRunning (fold_left (fun e h => startCollecting h e) l e) = true /\ stopCh_closed (fold_left (fun e h => startCollecting h e) l e) = true) as Hg.
  { induction l as [|x l IH]; intros e0 H0 Hne; [done|]. cbn [fold_left]. destruct l as [|y l]; [by split|]. by apply IH. }
  destruct (Hg (h :: hosts) e Hc) as [Hr Hcl]; [done|]. cbn [stop_loop]. unfold stopAndSummarize, Dispose.
  destruct (getEtcdMetrics h port); cbn [isRunning stopCh_closed]; by rewrite Hr, Hcl.
Qed.
End Collect.
End EtcdMetrics.
