(* ===== verification/Availability.v ===== *)
(** * API availability
      (pkg/measurement/common/{api_availability_measurement,api_availability_metrics}.go)

    A goroutine probes the API server (and its hosts) until it is stopped, and
    can be paused. The calls of the measurement hold its lock; [pause] and
    [unpause] send on an unbuffered channel, so that calls and goroutine are
    steps of one transition system. *)

From S2P Require Import Prelude GoErrors GoRuntime Params Measurement Float64 FloatInt Latency Measurements.
From Stdlib Require Import SpecFloat.

(** ** api_availability_metrics.go *)

Record apiAvailabilityMetrics := mkAvailability {
  numSuccesses : Z;
  numFailures : Z;
  maxConsecutiveFailedProbes : Z;
  consecutiveFailedProbes : Z;
}.

Definition no_metrics : apiAvailabilityMetrics := mkAvailability 0 0 0 0.

Definition update (a : apiAvailabilityMetrics) (availability : bool) : apiAvailabilityMetrics :=
  if availability then mkAvailability (numSuccesses a + 1) (numFailures a) (maxConsecutiveFailedProbes a) 0
  else
    let c := consecutiveFailedProbes a + 1 in
    mkAvailability (numSuccesses a) (numFailures a + 1)
      (if maxConsecutiveFailedProbes a <? c then c else maxConsecutiveFailedProbes a) c.

Record apiAvailabilitySummary := mkAvailabilitySummary {
  as_IP : string;
  AvailabilityPercentage : float64;
  LongestUnavailablePeriod : string;
}.

Record apiAvailabilityOutput := mkOutput {
  ClusterSummary : apiAvailabilitySummary;
  HostSummaries : list apiAvailabilitySummary;
}.

Definition buildSummary (a : apiAvailabilityMetrics) (pollFrequency : Z) (hostIP : string) : apiAvailabilitySummary :=
  let availabilityPercentage :=
    if (0 <? numSuccesses a) || (0 <? numFailures a)
    then f64_mul (f64_div (f64_of_Z (numSuccesses a)) (f64_of_Z (numSuccesses a + numFailures a))) (f64_of_Z 100)
    else f64_of_Z 100 in
  mkAvailabilitySummary hostIP availabilityPercentage (Duration_String (wrap64 (maxConsecutiveFailedProbes a * pollFrequency))).

(** A host without metrics is a nil pointer. *)
Fixpoint createHostSummary (metrics : gmap string apiAvailabilityMetrics) (hostIPs : list string) (pollFrequency : Z)
  : option (list apiAvailabilitySummary) :=
  match hostIPs with
  | [] => Some []
  | ip :: ips =>
      m ← metrics !! ip;
      l ← createHostSummary metrics ips pollFrequency;
      Some (buildSummary m pollFrequency ip :: l)
  end.

Definition createClusterSummary (metrics : option apiAvailabilityMetrics) (pollFrequency : Z) : option apiAvailabilitySummary :=
  m ← metrics; Some (buildSummary m pollFrequency "").

(** ** api_availability_measurement.go *)

Record apiAvailabilityMeasurement := mkAvailabilityMeasurement {
  isRunning : bool;
  isPaused : bool;
  pollFrequency : Z;
  hostIPs : list string;
  summaries : list Summary;
  clusterLevelMetrics : option apiAvailabilityMetrics;
  threshold : float64;
  useHostPublicIPs : bool;
  useHostInternalIPs : bool;
  hostLevelMetrics : gmap string apiAvailabilityMetrics;
  hostPollTimeoutSeconds : Z;
  hostPollExecTimeoutSeconds : Z;
}.

Definition createAPIAvailabilityMeasurement : apiAvailabilityMeasurement :=
  mkAvailabilityMeasurement false false 0 [] [] None (f64_of_Z 0) false false ∅ 0 0.

(** A round of probes: the answer of the cluster, and those of the hosts. *)
Abbreviation probes := (bool * list (string * bool))%type.

Section Fields.
Context `{GoLib}.

(** What is read of the configuration of the cluster and of the program. *)
Record cluster_env := mkClusterEnv { ce_execService : bool; ce_internalIPs : list string; ce_publicIPs : list string }.

Definition set_running (a : apiAvailabilityMeasurement) : apiAvailabilityMeasurement :=
  mkAvailabilityMeasurement true (isPaused a) (pollFrequency a) (hostIPs a) (summaries a) (clusterLevelMetrics a) (threshold a)
    (useHostPublicIPs a) (useHostInternalIPs a) (hostLevelMetrics a) (hostPollTimeoutSeconds a) (hostPollExecTimeoutSeconds a).
Definition set_frequency (d : Z) (a : apiAvailabilityMeasurement) : apiAvailabilityMeasurement :=
  mkAvailabilityMeasurement (isRunning a) (isPaused a) d (hostIPs a) (summaries a) (clusterLevelMetrics a) (threshold a)
    (useHostPublicIPs a) (useHostInternalIPs a) (hostLevelMetrics a) (hostPollTimeoutSeconds a) (hostPollExecTimeoutSeconds a).
Definition set_threshold (t : float64) (a : apiAvailabilityMeasurement) : apiAvailabilityMeasurement :=
  mkAvailabilityMeasurement (isRunning a) (isPaused a) (pollFrequency a) (hostIPs a) (summaries a) (Some no_metrics) t
    (useHostPublicIPs a) (useHostInternalIPs a) (hostLevelMetrics a) (hostPollTimeoutSeconds a) (hostPollExecTimeoutSeconds a).
Definition set_use (internal public : bool) (a : apiAvailabilityMeasurement) : apiAvailabilityMeasurement :=
  mkAvailabilityMeasurement (isRunning a) (isPaused a) (pollFrequency a) (hostIPs a) (summaries a) (clusterLevelMetrics a) (threshold a)
    public internal (hostLevelMetrics a) (hostPollTimeoutSeconds a) (hostPollExecTimeoutSeconds a).
Definition set_hosts (ips : list string) (m : gmap string apiAvailabilityMetrics) (a : apiAvailabilityMeasurement)
  : apiAvailabilityMeasurement :=
  mkAvailabilityMeasurement (isRunning a) (isPaused a) (pollFrequency a) ips (summaries a) (clusterLevelMetrics a) (threshold a)
    (useHostPublicIPs a) (useHostInternalIPs a) m (hostPollTimeoutSeconds a) (hostPollExecTimeoutSeconds a).
Definition set_timeouts (poll exec : Z) (a : apiAvailabilityMeasurement) : apiAvailabilityMeasurement :=
  mkAvailabilityMeasurement (isRunning a) (isPaused a) (pollFrequency a) (hostIPs a) (summaries a) (clusterLevelMetrics a) (threshold a)
    (useHostPublicIPs a) (useHostInternalIPs a) (hostLevelMetrics a) poll exec.

Definition hosts_metrics (ips : list string) : gmap string apiAvailabilityMetrics :=
  fold_left (fun m ip => <[ip := no_metrics]> m) ips ∅.

(** The public addresses are added to those the measurement already has. *)
Definition addHostIPs (env : cluster_env) (config : MeasurementConfig) (a : apiAvailabilityMeasurement)
  : apiAvailabilityMeasurement * option error :=
  if negb (ce_execService env)
  then (a, Some (Errorf "%s: exec service is not enabled, cannot measure availability through host IPs" [AStr "APIAvailability"]))
  else if useHostInternalIPs a && bool_decide (ce_internalIPs env = [])
  then (a, Some (Errorf "%s: host internal IP(s) are not provided, cannot measure availability through internal IPs" [AStr "APIAvailability"]))
  else
    let a := if useHostInternalIPs a then set_hosts (ce_internalIPs env) (hostLevelMetrics a) a else a in
    if useHostPublicIPs a && bool_decide (ce_publicIPs env = [])
    then (a, Some (Errorf "%s: host public IP(s) are not provided, cannot measure availability through public IPs" [AStr "APIAvailability"]))
    else
      let ips := if useHostPublicIPs a then hostIPs a ++ ce_publicIPs env else hostIPs a in
      let a := set_hosts ips (hosts_metrics ips) a in
      match GetIntOrDefault (cfg_Params config) "hostPollTimeoutSeconds" 5 with
      | (_, Some err) => (a, Some err)
      | (poll, None) =>
          let a := set_timeouts poll (hostPollExecTimeoutSeconds a) a in
          match GetIntOrDefault (cfg_Params config) "hostPollExecTimeoutSeconds" 10 with
          | (_, Some err) => (a, Some err)
          | (exec, None) => (set_timeouts poll exec a, None)
          end
      end.

(** The boolean parameters are assigned together with their error. *)
Definition initFields (env : cluster_env) (config : MeasurementConfig) (a : apiAvailabilityMeasurement)
  : apiAvailabilityMeasurement * option error :=
  let a := set_running a in
  match getDuration (cfg_Params config) "pollFrequency" with
  | (_, Some err) => (a, Some err)
  | (frequency, None) =>
      let a := set_frequency frequency a in
      match GetFloat64OrDefault (cfg_Params config) "threshold" (f64_of_Z 0) with
      | (_, Some err) => (a, Some err)
      | (threshold, None) =>
          let a := set_threshold threshold a in
          let '(internal, err) := GetBoolOrDefault (cfg_Params config) "useHostInternalIPs"
                                    (ce_execService env && negb (bool_decide (ce_internalIPs env = []))) in
          let a := set_use internal (useHostPublicIPs a) a in
          match err with
          | Some err => (a, Some err)
          | None =>
              let '(public, err) := GetBoolOrDefault (cfg_Params config) "useHostPublicIPs" false in
              let a := set_use internal public a in
              match err with
              | Some err => (a, Some err)
              | None => if internal || public then addHostIPs env config a else (a, None)
              end
          end
      end
  end.

Definition hostLevelAvailabilityEnabled (a : apiAvailabilityMeasurement) : bool := negb (bool_decide (hostLevelMetrics a = ∅)).

(** [pod]: the answer of the exec service's [GetPod]; [RunCommand]: the output
    of a command in it, with its error. *)
Definition pollHost (pod : result string) (RunCommand : string -> string -> string * option error)
    (a : apiAvailabilityMeasurement) (hostIP : string) : string * option error :=
  match pod with
  | Err err => ("", Some (Errorf "problem with GetPod(): %w" [AWrap err]))
  | Ok pod =>
      let q := String (ascii_of_nat 34) "" in
      let cmd := "curl --connect-timeout " +:+ pretty (hostPollTimeoutSeconds a) +:+ " -s -k -w " +:+ q +:+ "%{http_code}" +:+ q
                 +:+ " -o /dev/null https://" +:+ hostIP +:+ ":443/readyz" in
      match RunCommand pod cmd with
      | (output, Some err) => ("", Some (Errorf "problem with RunCommand(): output=%q, err=%w" [AStr output; AWrap err]))
      | (output, None) => (output, None)
      end
  end.

(** What a host and the cluster answer, as availability. *)
Definition host_available (polled : string * option error) : bool := String.eqb polled.1 (pretty 200).
Definition cluster_available (status : Z) : bool := status =? 200.

(** ** The goroutine and the calls *)

(** Where the goroutine is: at the head of its loop, in one of its two
    [select]s, having received a (un)pause but not yet written [isPaused], or
    gone. *)
Inductive phase := NoGoroutine | LoopHead | PausedSelect | MainSelect | GotPause | GotUnpause.

(** What the holder of the lock is blocked on. *)
Inductive call := SendPause | SendUnpause | WaitGoroutine.

Record state := mkState { st : apiAvailabilityMeasurement; ph : phase; stopped : bool; caller : option call }.

Definition set_paused (b : bool) (a : apiAvailabilityMeasurement) : apiAvailabilityMeasurement :=
  mkAvailabilityMeasurement (isRunning a) b (pollFrequency a) (hostIPs a) (summaries a) (clusterLevelMetrics a) (threshold a)
    (useHostPublicIPs a) (useHostInternalIPs a) (hostLevelMetrics a) (hostPollTimeoutSeconds a) (hostPollExecTimeoutSeconds a).

Definition updateClusterAvailabilityMetrics (cluster : bool) (a : apiAvailabilityMeasurement) : apiAvailabilityMeasurement :=
  mkAvailabilityMeasurement (isRunning a) (isPaused a) (pollFrequency a) (hostIPs a) (summaries a)
    ((fun m => update m cluster) <$> clusterLevelMetrics a) (threshold a) (useHostPublicIPs a) (useHostInternalIPs a)
    (hostLevelMetrics a) (hostPollTimeoutSeconds a) (hostPollExecTimeoutSeconds a).

(** The updates of the hosts' goroutines, each under the lock, in the order in
    which they end. *)
Definition updateHostAvailabilityMetrics (hosts : list (string * bool)) (a : apiAvailabilityMeasurement) : apiAvailabilityMeasurement :=
  set_hosts (hostIPs a) (fold_left (fun m '(ip, b) => alter (fun x => update x b) ip m) hosts (hostLevelMetrics a)) a.

(** One round of probes: the answer of the cluster, and those of the hosts. *)
Definition probe_round (cluster : bool) (hosts : list (string * bool)) (a : apiAvailabilityMeasurement) : apiAvailabilityMeasurement :=
  let a := updateClusterAvailabilityMetrics cluster a in
  if hostLevelAvailabilityEnabled a then updateHostAvailabilityMetrics hosts a else a.

(** The guards of the calls: what they go on to block on, if anything. *)
Definition pause (a : apiAvailabilityMeasurement) : option call :=
  if negb (isRunning a) then None else if isPaused a then None else Some SendPause.
Definition unpause (a : apiAvailabilityMeasurement) : option call :=
  if negb (isRunning a) then None else if negb (isPaused a) then None else Some SendUnpause.

(** The label of a step is the round of probes it makes, if any. *)
Inductive step : state -> option probes -> state -> Prop :=
| step_head a b c : step (mkState a LoopHead b c) None (mkState a (if isPaused a then PausedSelect else MainSelect) b c)
| step_got_pause a b c : step (mkState a GotPause b c) None (mkState (set_paused true a) LoopHead b c)
| step_got_unpause a b c : step (mkState a GotUnpause b c) None (mkState (set_paused false a) MainSelect b c)
| step_probe a b c cluster hosts : hosts.*1 ≡ₚ hostIPs a ->
    step (mkState a MainSelect b c) (Some (cluster, hosts)) (mkState (probe_round cluster hosts a) LoopHead b c)
| step_stop_main a c : step (mkState a MainSelect true c) None (mkState a NoGoroutine true c)
| step_stop_paused a c : step (mkState a PausedSelect true c) None (mkState a NoGoroutine true c)
| step_pause a p b c : pause a = Some c -> step (mkState a p b None) None (mkState a p b (Some c))
| step_unpause a p b c : unpause a = Some c -> step (mkState a p b None) None (mkState a p b (Some c))
| step_recv_pause a b : step (mkState a MainSelect b (Some SendPause)) None (mkState a GotPause b None)
| step_recv_unpause a b : step (mkState a PausedSelect b (Some SendUnpause)) None (mkState a GotUnpause b None)
| step_gather a p : isRunning a = true -> step (mkState a p false None) None (mkState a p true (Some WaitGoroutine)).

(** A run, with the rounds of probes it made. *)
Inductive run (s0 : state) : list probes -> state -> Prop :=
| run_nil : run s0 [] s0
| run_snoc l s o s' : run s0 l s -> step s o s' -> run s0 (l ++ match o with Some r => [r] | None => [] end) s'.

(** [start] of a measurement that is not running. *)
Definition start (env : cluster_env) (config : MeasurementConfig) (a : apiAvailabilityMeasurement)
  : option state * option error :=
  if isRunning a then (None, None)
  else
    match initFields env config a with
    | (a, Some err) => (Some (mkState a NoGoroutine false None), Some err)
    | (a, None) => (Some (mkState a LoopHead false None), None)
    end.

Context (PrettyPrintJSON : apiAvailabilityOutput -> result string) (Format_2f : float64 -> string).

(** What [gather] does once the goroutine is gone; [None] is a panic. *)
Definition gather (now : Z) (a : apiAvailabilityMeasurement) : option (apiAvailabilityMeasurement * (list Summary * option error)) :=
  let a := mkAvailabilityMeasurement false (isPaused a) (pollFrequency a) (hostIPs a) (summaries a) (clusterLevelMetrics a) (threshold a)
    (useHostPublicIPs a) (useHostInternalIPs a) (hostLevelMetrics a) (hostPollTimeoutSeconds a) (hostPollExecTimeoutSeconds a) in
  cluster ← createClusterSummary (clusterLevelMetrics a) (pollFrequency a);
  hosts ← (if hostLevelAvailabilityEnabled a then createHostSummary (hostLevelMetrics a) (hostIPs a) (pollFrequency a) else Some []);
  match PrettyPrintJSON (mkOutput cluster hosts) with
  | Err err => Some (a, ([], Some err))
  | Ok content =>
      let l := summaries a ++ [CreateSummary now "APIAvailability" "json" content] in
      let a := mkAvailabilityMeasurement false (isPaused a) (pollFrequency a) (hostIPs a) l (clusterLevelMetrics a) (threshold a)
        (useHostPublicIPs a) (useHostInternalIPs a) (hostLevelMetrics a) (hostPollTimeoutSeconds a) (hostPollExecTimeoutSeconds a) in
      let sli := AvailabilityPercentage cluster in
      Some (a, (l,
        if f64_ltb sli (threshold a)
        then Some (NewMetricViolationError "API availability"
               (Sprintf "SLO not fulfilled (expected >= %.2f, got: %.2f)" [FStr (Format_2f (threshold a)); FStr (Format_2f sli)]))
        else None))
  end.
End Fields.

(** ** What is counted *)

Definition count (b : bool) (l : list bool) : Z := Z.of_nat (length (filter (fun x => x = b) l)).

(** [n] is the length of the longest series of failures. *)
Definition outage (l : list bool) (n : nat) : Prop := exists pre post, l = pre ++ replicate n false ++ post.
Definition longest_outage (l : list bool) (n : nat) : Prop := outage l n /\ forall m, outage l m -> (m <= n)%nat.

(** The series at the end. *)
Definition ends_with (l : list bool) (c : nat) : Prop :=
  exists pre, l = pre ++ replicate c false /\ forall pre', pre <> pre' ++ [false].

Lemma replicate_snoc_false n : replicate (S n) false = replicate n false ++ [false].
Proof. by rewrite replicate_S_end. Qed.

Lemma ends_with_bound l c pre m : ends_with l c -> l = pre ++ replicate m false -> (m <= c)%nat.
Proof.
  intros (p & -> & Hp). revert m pre. induction c as [|c IH]; intros m pre Heq.
  - rewrite app_nil_r in Heq. destruct m as [|m]; [lia|]. exfalso. apply (Hp (pre ++ replicate m false)).
    by rewrite Heq, replicate_snoc_false, app_assoc.
  - destruct m as [|m]; [lia|]. rewrite !replicate_snoc_false, !app_assoc in Heq.
    apply app_inj_tail in Heq as [Heq _]. apply IH in Heq. lia.
Qed.

Lemma outage_snoc l b n :
  outage (l ++ [b]) n -> outage l n \/ exists pre, l ++ [b] = pre ++ replicate n false.
Proof.
  intros (pre & post & Heq). destruct post as [|x post _] using rev_ind; [right; exists pre; by rewrite app_nil_r in Heq|].
  left. rewrite !app_assoc in Heq. apply app_inj_tail in Heq as [Heq _]. exists pre, post. by rewrite app_assoc.
Qed.

Lemma outage_weaken l b n : outage l n -> outage (l ++ [b]) n.
Proof. intros (pre & post & ->). exists pre, (post ++ [b]). by rewrite <- !app_assoc. Qed.

(** The metrics after a series of answers. *)
Record counted (l : list bool) (m : apiAvailabilityMetrics) : Prop := {
  c_successes : numSuccesses m = count true l;
  c_failures : numFailures m = count false l;
  c_consecutive : exists c, consecutiveFailedProbes m = Z.of_nat c /\ ends_with l c;
  c_longest : exists n, maxConsecutiveFailedProbes m = Z.of_nat n /\ longest_outage l n;
}.

Lemma count_snoc b l x : count b (l ++ [x]) = count b l + (if Bool.eqb x b then 1 else 0).
Proof.
  unfold count. rewrite filter_app, length_app, filter_cons, filter_nil. case_decide as Hx.
  - subst x. rewrite eqb_reflx. cbn [length]. lia.
  - apply eqb_false_iff in Hx. rewrite Hx. cbn [length]. lia.
Qed.

Lemma counted_nil : counted [] no_metrics.
Proof.
  constructor; [done|done|exists 0%nat; split; [done|]|exists 0%nat; split; [done|]].
  - exists []. split; [done|]. by intros [].
  - split; [by exists [], []|]. intros m (pre & post & Heq). symmetry in Heq.
    apply app_nil in Heq as [_ Heq]. apply app_nil in Heq as [Heq _]. apply (f_equal length) in Heq. rewrite length_replicate in Heq. cbn in Heq. lia.
Qed.

Lemma counted_snoc l m b : counted l m -> counted (l ++ [b]) (update m b).
Proof.
  intros [Hs Hf (c & Hc & Hend) (n & Hn & Hout & Hmax)]. unfold update. destruct b.
  - constructor; cbn; rewrite ?count_snoc; cbn; [lia|lia|exists 0%nat; split; [done|]|exists n; split; [done|]].
    + exists (l ++ [true]). split; [by rewrite app_nil_r|]. intros pre' Heq. by apply app_inj_tail in Heq as [_ ?].
    + split; [by apply outage_weaken|]. intros k [Hk|[pre Hk]]%outage_snoc; [auto|].
      destruct k as [|k]; [lia|]. rewrite replicate_snoc_false, app_assoc in Hk. by apply app_inj_tail in Hk as [_ ?].
  - assert (ends_with (l ++ [false]) (S c)) as Hend'.
    { destruct Hend as (p & -> & Hp). exists p. split; [|done]. by rewrite replicate_snoc_false, app_assoc. }
    constructor; cbn; rewrite ?count_snoc; cbn; [lia|lia|exists (S c); split; [lia|done]|].
    exists (Nat.max n (S c)). split; [destruct (Z.ltb_spec (maxConsecutiveFailedProbes m) (consecutiveFailedProbes m + 1)); lia|].
    split.
    + destruct (Nat.max_spec n (S c)) as [[_ ->]|[_ ->]]; [|by apply outage_weaken].
      destruct Hend' as (p & Heq & _). exists p, []. by rewrite app_nil_r.
    + intros k [Hk|[pre Hk]]%outage_snoc; [specialize (Hmax k Hk); lia|]. pose proof (ends_with_bound _ _ _ _ Hend' Hk). lia.
Qed.

Lemma counted_all l : counted l (fold_left update l no_metrics).
Proof.
  induction l as [|b l IH] using rev_ind; [apply counted_nil|]. rewrite fold_left_app. by apply counted_snoc.
Qed.

(** ** Runs of the measurement *)
Section Runs.
Context `{GoLib}.

Definition answers_of (ip : string) (hosts : list (string * bool)) : list bool := (filter (fun p => p.1 = ip) hosts).*2.
Definition host_answers (ip : string) (rs : list probes) : list bool := flat_map (fun r => answers_of ip r.2) rs.

Lemma host_round_lookup hosts (m : gmap string apiAvailabilityMetrics) ip :
  fold_left (fun m '(ip, b) => alter (fun x => update x b) ip m) hosts m !! ip =
    (fold_left update (answers_of ip hosts)) <$> m !! ip.
Proof.
  revert m. induction hosts as [|[k b] hosts IH]; intros m; cbn [fold_left]; [by destruct (m !! ip)|].
  rewrite IH. unfold answers_of. rewrite filter_cons. cbn [fst]. case_decide as Hk.
  - subst k. rewrite lookup_alter_eq. by destruct (m !! ip).
  - by rewrite lookup_alter_ne.
Qed.

Lemma probe_round_hosts cluster hosts a ip :
  hostLevelMetrics (probe_round cluster hosts a) !! ip = (fold_left update (answers_of ip hosts)) <$> hostLevelMetrics a !! ip.
Proof.
  unfold probe_round. destruct (hostLevelAvailabilityEnabled (updateClusterAvailabilityMetrics cluster a)) eqn:He; [apply host_round_lookup|].
  unfold hostLevelAvailabilityEnabled, updateClusterAvailabilityMetrics in He. cbn [hostLevelMetrics] in *.
  case_bool_decide as Hm; [|done]. change (hostLevelMetrics (updateClusterAvailabilityMetrics cluster a)) with (hostLevelMetrics a). rewrite Hm. by rewrite lookup_empty.
Qed.

Lemma probe_round_cluster cluster hosts a :
  clusterLevelMetrics (probe_round cluster hosts a) = (fun m => update m cluster) <$> clusterLevelMetrics a /\
  hostIPs (probe_round cluster hosts a) = hostIPs a.
Proof. unfold probe_round. by destruct (hostLevelAvailabilityEnabled _). Qed.

(** What a run changes of the metrics. *)
Lemma run_metrics s0 rs s :
  run s0 rs s ->
  clusterLevelMetrics (st s) = (fold_left update rs.*1) <$> clusterLevelMetrics (st s0) /\
  hostIPs (st s) = hostIPs (st s0) /\
  forall ip, hostLevelMetrics (st s) !! ip = (fold_left update (host_answers ip rs)) <$> hostLevelMetrics (st s0) !! ip.
Proof.
  induction 1 as [|rs s o s' _ (Hc & Hi & Hh) Hs].
  { split_and!; [by destruct (clusterLevelMetrics (st s0))|done|]. intros ip. by destruct (hostLevelMetrics (st s0) !! ip). }
  destruct Hs; cbn [st] in *; rewrite ?app_nil_r; try (split_and!; done).
  destruct (probe_round_cluster cluster hosts a) as [Hcl Hip]. split_and!; [|by rewrite Hip|].
  - rewrite fmap_app, Hcl. cbn [fmap list_fmap fst]. rewrite Hc. destruct (clusterLevelMetrics (st s0)); [|done].
    cbn. by rewrite fold_left_app.
  - intros ip. rewrite probe_round_hosts, Hh. unfold host_answers. rewrite flat_map_app. cbn [flat_map snd]. rewrite app_nil_r.
    destruct (hostLevelMetrics (st s0) !! ip); [|done]. cbn. by rewrite fold_left_app.
Qed.

Lemma hosts_metrics_lookup ips ip :
  hosts_metrics ips !! ip = if decide (ip ∈ ips) then Some no_metrics else None.
Proof.
  unfold hosts_metrics. induction ips as [|x ips IH] using rev_ind; [cbn [fold_left]; rewrite decide_False by apply not_elem_of_nil; apply lookup_empty|].
  rewrite fold_left_app. cbn [fold_left]. destruct (decide (x = ip)) as [->|Hne].
  - rewrite lookup_insert_eq, decide_True; [done|]. apply elem_of_app. right. by apply list_elem_of_singleton.
  - rewrite lookup_insert_ne, IH by done. apply decide_ext. rewrite elem_of_app, list_elem_of_singleton. naive_solver.
Qed.

Lemma addHostIPs_metrics env config a a' :
  addHostIPs env config a = (a', None) ->
  clusterLevelMetrics a' = clusterLevelMetrics a /\ hostLevelMetrics a' = hosts_metrics (hostIPs a').
Proof.
  unfold addHostIPs. destruct (ce_execService env); [|done]. cbn [negb].
  destruct (useHostInternalIPs a && _); [done|].
  set (a1 := if useHostInternalIPs a then _ else a).
  assert (clusterLevelMetrics a1 = clusterLevelMetrics a) as Hc by (unfold a1; by destruct (useHostInternalIPs a)).
  clearbody a1. destruct (useHostPublicIPs a1 && _); [done|].
  set (ips := if useHostPublicIPs a1 then _ else _). cbn zeta.
  destruct (GetIntOrDefault (cfg_Params config) "hostPollTimeoutSeconds" 5) as [poll []]; [done|].
  destruct (GetIntOrDefault (cfg_Params config) "hostPollExecTimeoutSeconds" 10) as [exec []]; [done|].
  intros [= <-]. by split.
Qed.

(** A fresh measurement starts with empty metrics for the cluster and for every
    host it has. *)
Lemma initFields_fresh env config a' :
  initFields env config createAPIAvailabilityMeasurement = (a', None) ->
  clusterLevelMetrics a' = Some no_metrics /\ hostLevelMetrics a' = hosts_metrics (hostIPs a').
Proof.
  unfold initFields.
  destruct (getDuration (cfg_Params config) "pollFrequency") as [f []]; [done|].
  destruct (GetFloat64OrDefault (cfg_Params config) "threshold" (f64_of_Z 0)) as [t []]; [done|].
  destruct (GetBoolOrDefault (cfg_Params config) "useHostInternalIPs" _) as [i []]; [done|].
  destruct (GetBoolOrDefault (cfg_Params config) "useHostPublicIPs" false) as [p []]; [done|].
  destruct (i || p); [|by intros [= <-]]. intros Ha. apply addHostIPs_metrics in Ha as [-> ->]. done.
Qed.

(** The settings come from the parameters and do not change. *)
Lemma initFields_settings env config a' :
  initFields env config createAPIAvailabilityMeasurement = (a', None) ->
  getDuration (cfg_Params config) "pollFrequency" = (pollFrequency a', None) /\
  GetFloat64OrDefault (cfg_Params config) "threshold" (f64_of_Z 0) = (threshold a', None).
Proof.
  assert (forall a0 a' e, addHostIPs env config a0 = (a', e) ->
    pollFrequency a' = pollFrequency a0 /\ threshold a' = threshold a0) as Hadd.
  { intros a0 a1 e. unfold addHostIPs. destruct (ce_execService env); [|by intros [= <-]]. cbn [negb].
    destruct (useHostInternalIPs a0 && _); [by intros [= <-]|].
    destruct (useHostInternalIPs a0); cbn [set_hosts useHostPublicIPs hostIPs];
      destruct (useHostPublicIPs a0 && _); try (by intros [= <-]);
      destruct (GetIntOrDefault _ "hostPollTimeoutSeconds" 5) as [? []]; try (by intros [= <-]);
      destruct (GetIntOrDefault _ "hostPollExecTimeoutSeconds" 10) as [? []]; by intros [= <-]. }
  unfold initFields.
  destruct (getDuration (cfg_Params config) "pollFrequency") as [f []]; [done|].
  destruct (GetFloat64OrDefault (cfg_Params config) "threshold" (f64_of_Z 0)) as [t []]; [done|].
  destruct (GetBoolOrDefault (cfg_Params config) "useHostInternalIPs" _) as [i []]; [done|].
  destruct (GetBoolOrDefault (cfg_Params config) "useHostPublicIPs" false) as [p []]; [done|].
  destruct (i || p); [|by intros [= <-]]. intros [-> ->]%Hadd. done.
Qed.

Lemma run_settings s0 rs s :
  run s0 rs s -> pollFrequency (st s) = pollFrequency (st s0) /\ threshold (st s) = threshold (st s0).
Proof.
  induction 1 as [|rs s o s' _ [Hf Ht] Hs]; [done|]. destruct Hs; cbn [st] in *; try done.
  unfold probe_round. by destruct (hostLevelAvailabilityEnabled _).
Qed.

(** The percentage of good answers, 100 if there are none at all. *)
Definition share (l : list bool) : float64 :=
  match l with
  | [] => f64_of_Z 100
  | _ => f64_mul (f64_div (f64_of_Z (count true l)) (f64_of_Z (Z.of_nat (length l)))) (f64_of_Z 100)
  end.

Lemma count_length l : count true l + count false l = Z.of_nat (length l).
Proof.
  induction l as [|b l IH] using rev_ind; [done|]. rewrite !count_snoc, length_app. destruct b; cbn [Bool.eqb length]; lia.
Qed.

(** The summary reports the answers [l] of [ip]: the share of good ones, and the
    longest series of bad ones as a time. *)
Definition summarises (ip : string) (frequency : Z) (l : list bool) (s : apiAvailabilitySummary) : Prop :=
  as_IP s = ip /\ AvailabilityPercentage s = share l /\
  exists n, longest_outage l n /\ LongestUnavailablePeriod s = Duration_String (wrap64 (Z.of_nat n * frequency)).

Lemma buildSummary_summarises l m frequency ip :
  counted l m -> summarises ip frequency l (buildSummary m frequency ip).
Proof.
  intros [Hs Hf _ (n & Hn & Hout)]. unfold summarises, buildSummary. cbn [as_IP AvailabilityPercentage LongestUnavailablePeriod].
  split; [done|]. split; [|exists n; by rewrite Hn].
  rewrite Hs, Hf, count_length. pose proof (count_length l) as Hl. unfold share.
  assert (0 <= count true l /\ 0 <= count false l) as [H1 H2] by (unfold count; lia).
  destruct l as [|b l]; [done|]. cbn [length] in Hl.
  assert ((0 <? count true (b :: l)) || (0 <? count false (b :: l)) = true) as ->; [|done].
  apply orb_true_iff. rewrite !Z.ltb_lt. lia.
Qed.

Lemma createHostSummary_summarises metrics ips frequency (answers : string -> list bool) :
  (forall ip, ip ∈ ips -> exists m, metrics !! ip = Some m /\ counted (answers ip) m) ->
  exists hs, createHostSummary metrics ips frequency = Some hs /\
    Forall2 (fun ip h => summarises ip frequency (answers ip) h) ips hs.
Proof.
  induction ips as [|ip ips IH]; intros Hm; cbn [createHostSummary]; [by exists []|].
  destruct (Hm ip) as (m & -> & Hc); [left|]. cbn [mbind option_bind].
  destruct IH as (hs & -> & Hhs); [intros k Hk; apply Hm; by right|]. eexists. split; [reflexivity|].
  constructor; [by apply buildSummary_summarises|done].
Qed.

(** C30: for every run of a started measurement, with its pauses and every
    interleaving of the goroutine with the calls, the metrics count exactly the
    good and bad answers of the cluster and of each host; gathering does not
    panic (the JSON encoding is assumed to succeed) and reports, for the cluster
    and for each host, the percentage of good answers among all answers and the
    longest series of bad ones; it reports a violation exactly when the
    cluster's percentage, in the program's binary64 arithmetic, is below the
    configured threshold. *)
Theorem availability_correct PrettyPrintJSON Format_2f env config s0 rs s now :
  (forall o, exists c, PrettyPrintJSON o = Ok c) ->
  start env config createAPIAvailabilityMeasurement = (Some s0, None) -> run s0 rs s ->
  exists m frequency limit a' cluster hosts content err,
    clusterLevelMetrics (st s) = Some m /\ counted rs.*1 m /\
    (forall ip, ip ∈ hostIPs (st s) -> exists mh, hostLevelMetrics (st s) !! ip = Some mh /\ counted (host_answers ip rs) mh) /\
    getDuration (cfg_Params config) "pollFrequency" = (frequency, None) /\
    GetFloat64OrDefault (cfg_Params config) "threshold" (f64_of_Z 0) = (limit, None) /\
    gather PrettyPrintJSON Format_2f now (st s) =
      Some (a', (summaries (st s) ++ [CreateSummary now "APIAvailability" "json" content], err)) /\
    PrettyPrintJSON (mkOutput cluster hosts) = Ok content /\
    summarises "" frequency rs.*1 cluster /\
    Forall2 (fun ip h => summarises ip frequency (host_answers ip rs) h) (hostIPs (st s)) hosts /\
    (err <> None <-> f64_ltb (share rs.*1) limit = true).
Proof.
  intros HJ. unfold start. cbn [isRunning createAPIAvailabilityMeasurement].
  destruct (initFields env config createAPIAvailabilityMeasurement) as [a [|]] eqn:Hi; [done|].
  intros [= <-] Hrun. pose proof (initFields_settings _ _ _ Hi) as [Hfr Hth].
  pose proof (run_settings _ _ _ Hrun) as [Efr Eth]. cbn [st] in Efr, Eth.
  apply initFields_fresh in Hi as [Hc0 Hh0].
  apply run_metrics in Hrun as (Hc & Hips & Hh). cbn [st] in *. rewrite Hc0 in Hc. cbn in Hc.
  assert (forall ip, ip ∈ hostIPs (st s) ->
    exists mh, hostLevelMetrics (st s) !! ip = Some mh /\ counted (host_answers ip rs) mh) as Hhosts.
  { intros ip Hip. rewrite Hh, Hh0, hosts_metrics_lookup, decide_True by (by rewrite <- Hips). eexists. split; [reflexivity|]. apply counted_all. }
  pose proof (buildSummary_summarises _ _ (pollFrequency (st s)) "" (counted_all rs.*1)) as Hcl.
  destruct (createHostSummary_summarises (hostLevelMetrics (st s)) (hostIPs (st s)) (pollFrequency (st s))
    (fun ip => host_answers ip rs) Hhosts) as (hl & Hhl & Hsum).
  unfold gather. cbn [clusterLevelMetrics pollFrequency hostLevelMetrics hostIPs summaries threshold].
  rewrite Hc. cbn [createClusterSummary mbind option_bind]. rewrite Hhl.
  set (en := hostLevelAvailabilityEnabled _).
  assert (exists hs, (if en then Some hl else Some []) = Some hs /\
    Forall2 (fun ip h => summarises ip (pollFrequency (st s)) (host_answers ip rs) h) (hostIPs (st s)) hs) as (hs & -> & Hhs).
  { unfold en, hostLevelAvailabilityEnabled. cbn [hostLevelMetrics]. case_bool_decide as He; [|by exists hl].
    exists []. split; [done|]. destruct (hostIPs (st s)) as [|ip ips]; [constructor|].
    destruct (Hhosts ip) as (mh & Hmh & _); [left|]. rewrite He in Hmh. by rewrite lookup_empty in Hmh. }
  cbn [mbind option_bind].
  destruct (HJ (mkOutput (buildSummary (fold_left update rs.*1 no_metrics) (pollFrequency (st s)) "") hs)) as [c Hcj].
  rewrite Hcj. rewrite Efr in *. eexists _, (pollFrequency a), (threshold a), _, _, hs, c, _.
  split_and!; [reflexivity|apply counted_all|done|done|done|reflexivity|exact Hcj|done|done|].
  cbn [threshold]. rewrite Eth, (proj1 (proj2 Hcl)). destruct (f64_ltb _ _); split; done.
Qed.

(** *** What the lock and the channels allow *)

(** A pause that arrives before the goroutine has noted the one before never
    returns: it holds the lock, so that nothing can unpause or stop the
    goroutine. *)
Lemma double_pause_deadlocks a :
  isRunning a = true -> isPaused a = false ->
  exists s, run (mkState a LoopHead false None) [] s /\ caller s = Some SendPause /\ forall o s', ~ step s o s'.
Proof.
  intros Hr Hp. exists (mkState (set_paused true a) PausedSelect false (Some SendPause)). split; [|split; [done|]].
  - eapply (run_snoc _ [] _ None); [|apply (step_head (set_paused true a))].
    eapply (run_snoc _ [] _ None); [|apply step_got_pause].
    eapply (run_snoc _ [] _ None); [|apply step_pause; unfold pause; cbn [isRunning isPaused set_paused]; by rewrite Hr, Hp].
    eapply (run_snoc _ [] _ None); [|apply step_recv_pause].
    eapply (run_snoc _ [] _ None); [|apply step_pause; unfold pause; cbn [isRunning isPaused set_paused]; by rewrite Hr, Hp].
    eapply (run_snoc _ [] _ None); [apply run_nil|]. pose proof (step_head a false None) as Hs. by rewrite Hp in Hs.
  - intros o s' Hs. inversion Hs.
Qed.

(** A measurement gathered while it is paused stays paused when it is started
    again. *)
Lemma restart_stays_paused env config a s :
  isRunning a = false -> isPaused a = true -> start env config a = (Some s, None) ->
  ph s = LoopHead /\ isPaused (st s) = true.
Proof.
  intros Hr Hp. unfold start. rewrite Hr.
  assert (forall a0 a' e, addHostIPs env config a0 = (a', e) -> isPaused a' = isPaused a0) as Hadd.
  { clear. intros a0 a' e. unfold addHostIPs. destruct (ce_execService env); [|by intros [= <-]]. cbn [negb].
    destruct (useHostInternalIPs a0 && _); [by intros [= <-]|].
    set (a1 := if useHostInternalIPs a0 then _ else a0).
    assert (isPaused a1 = isPaused a0) as <- by (unfold a1; by destruct (useHostInternalIPs a0)). clearbody a1.
    destruct (useHostPublicIPs a1 && _); [by intros [= <-]|].
    destruct (GetIntOrDefault _ "hostPollTimeoutSeconds" 5) as [? []]; [by intros [= <-]|].
    destruct (GetIntOrDefault _ "hostPollExecTimeoutSeconds" 10) as [? []]; by intros [= <-]. }
  destruct (initFields env config a) as [a' [|]] eqn:Hi; [done|]. intros [= <-]. split; [done|]. cbn [st]. revert Hi. unfold initFields.
  destruct (getDuration _ _) as [? []]; [done|]. destruct (GetFloat64OrDefault _ _ _) as [? []]; [done|].
  destruct (GetBoolOrDefault _ _ _) as [i []]; [done|]. destruct (GetBoolOrDefault _ _ false) as [p []]; [done|].
  destruct (i || p); [|intros [= <-]; exact Hp]. intros Ha. apply Hadd in Ha. by rewrite Ha.
Qed.

(** A start without a poll frequency fails, and a gather after it panics on the
    missing metrics. *)
Lemma failed_start_gather_panics PrettyPrintJSON Format_2f env config s err now :
  start env config createAPIAvailabilityMeasurement = (Some s, Some err) ->
  cfg_Params config !! "pollFrequency" = None ->
  isRunning (st s) = true /\ gather PrettyPrintJSON Format_2f now (st s) = None.
Proof.
  unfold start. cbn [isRunning createAPIAvailabilityMeasurement]. unfold initFields. intros Hs Hn. revert Hs.
  unfold getDuration, getString. rewrite Hn. cbn. by intros [= <- _].
Qed.
End Runs.

(** ** A concrete run *)
#[local] Existing Instance sample_golib.

Definition ex_config : MeasurementConfig := mkMeasurementConfig {[ "pollFrequency" := VString "1s" ]} "" "".
Definition ex_env : cluster_env := mkClusterEnv true ["10.0.0.2"] [].
Definition ex_start : apiAvailabilityMeasurement := (initFields ex_env ex_config createAPIAvailabilityMeasurement).1.

Lemma availability_correct_witness :
  exists m frequency limit a' cluster hosts content err,
    clusterLevelMetrics (probe_round true [("10.0.0.2", false)] ex_start) = Some m /\ counted [true] m /\
    (forall ip, ip ∈ hostIPs (probe_round true [("10.0.0.2", false)] ex_start) ->
       exists mh, hostLevelMetrics (probe_round true [("10.0.0.2", false)] ex_start) !! ip = Some mh /\
         counted (host_answers ip [(true, [("10.0.0.2", false)])]) mh) /\
    getDuration (cfg_Params ex_config) "pollFrequency" = (frequency, None) /\
    GetFloat64OrDefault (cfg_Params ex_config) "threshold" (f64_of_Z 0) = (limit, None) /\
    gather (fun _ => Ok "") (fun _ => "") 0 (probe_round true [("10.0.0.2", false)] ex_start) =
      Some (a', (summaries (probe_round true [("10.0.0.2", false)] ex_start) ++
                   [CreateSummary 0 "APIAvailability" "json" content], err)) /\
    (Ok "" : result string) = Ok content /\
    summarises "" frequency [true] cluster /\
    Forall2 (fun ip h => summarises ip frequency (host_answers ip [(true, [("10.0.0.2", false)])]) h)
      (hostIPs (probe_round true [("10.0.0.2", false)] ex_start)) hosts /\
    (err <> None <-> f64_ltb (share [true]) limit = true).
Proof.
  apply (availability_correct (fun _ => Ok "") (fun _ => "") ex_env ex_config (mkState ex_start LoopHead false None)
    [(true, [("10.0.0.2", false)])] (mkState (probe_round true [("10.0.0.2", false)] ex_start) LoopHead false None) 0).
  - intros o. by exists "".
  - vm_compute. reflexivity.
  - eapply (run_snoc _ [] _ (Some (true, [("10.0.0.2", false)]))).
    + eapply (run_snoc _ [] _ None); [apply run_nil|]. exact (step_head ex_start false None).
    + apply (step_probe ex_start false None true [("10.0.0.2", false)]). vm_compute. constructor. constructor.
Defined.
