(* ===== verification/ServiceLatency.v ===== *)
(** * Service creation latency (pkg/measurement/common/service_creation_latency.go)

    The workers of a queue handle the events of services and ingresses, record
    the times of their phases, and ping what has an address until three pings
    in a row succeed. A ping runs in its worker, so that handling an event and
    the end of its ping are two steps; and since ten workers run, one may be
    overtaken by others between looking whether a phase is recorded and
    recording it, which is a step of its own. [None] is a panic. *)

From S2P Require Import Prelude GoErrors GoRuntime Params Measurement Latency Services.

(** ** The objects *)

(** What is read of a service; [svc_rest] stands for the rest of its spec and
    status, which only the comparison looks at. *)
Record Service := mkService {
  svc_Key : string;
  svc_Type : string;
  svc_Creation : Z;
  svc_Deletion : option Z;
  svc_ClusterIPs : list string;
  svc_Ports : list (Z * Z);        (* port, node port *)
  svc_Ingress : list string;
  svc_rest : string;
}.

Record Ingress := mkIngress {
  ing_Key : string;
  ing_Creation : Z;
  ing_Deletion : option Z;
  ing_Ingress : list string;
  ing_rest : string;
}.

#[export] Instance Service_eq_dec : EqDecision Service.
Proof. solve_decision. Defined.
#[export] Instance Ingress_eq_dec : EqDecision Ingress.
Proof. solve_decision. Defined.

(** An argument of a handler: nil, of another type, or an object. *)
Inductive arg (A : Type) := ANil | AOther | AObj (a : A).
Arguments ANil {_}.
Arguments AOther {_}.
Arguments AObj {_} _.

Definition service_equal (a b : Service) : bool :=
  bool_decide ((svc_Type a, svc_ClusterIPs a, svc_Ports a, svc_Ingress a, svc_rest a) =
               (svc_Type b, svc_ClusterIPs b, svc_Ports b, svc_Ingress b, svc_rest b)).
Definition ingress_equal (a b : Ingress) : bool := bool_decide ((ing_Ingress a, ing_rest a) = (ing_Ingress b, ing_rest b)).

Definition ClusterIP : string := "ClusterIP".
Definition NodePort : string := "NodePort".
Definition LoadBalancer : string := "LoadBalancer".
Definition ingressType : string := "ingress".
Definition service_types : list string := [ClusterIP; NodePort; LoadBalancer; ingressType].

Definition creatingPhase : string := "creating".
Definition ipAssigningPhase : string := "ipAssigning".
Definition reachabilityPhase : string := "reachability".
Definition deletingPhase : string := "deleting".
Definition deletedPhase : string := "deleted".

Definition phaseName (phase serviceType : string) : string := Sprintf "%s_%s" [FStr phase; FStr serviceType].

(** ** Pings *)

(** [net.JoinHostPort]. *)
Definition JoinHostPort (host port : string) : string :=
  if str_has ":" host || str_has "%" host then "[" +:+ host +:+ "]:" +:+ port else host +:+ ":" +:+ port.

Fixpoint join_ports (ips : list string) (ports : list (Z * Z)) : option (list string) :=
  match ips with
  | [] => Some []
  | ip :: ips' =>
      p ← head ports;
      l ← join_ports ips' ports;
      Some (JoinHostPort ip (pretty p.1) :: l)
  end.

(** [hostIP]: of the pod the ping runs in. *)
Definition collectAddresses (target : Service + Ingress) (hostIP : string) : option (list string) :=
  match target with
  | inr ingress => Some (ing_Ingress ingress)
  | inl svc =>
      if String.eqb (svc_Type svc) ClusterIP then join_ports (svc_ClusterIPs svc) (svc_Ports svc)
      else if String.eqb (svc_Type svc) NodePort then p ← head (svc_Ports svc); Some [JoinHostPort hostIP (pretty p.2)]
      else if String.eqb (svc_Type svc) LoadBalancer then join_ports (svc_Ingress svc) (svc_Ports svc)
      else Some []
  end.

(** One round of the loop: no pod, or the pod's host and the outcome of a
    command in it. *)
Inductive ping_round := NoPod | InPod (hostIP : string) (curl : string -> bool).

Fixpoint all_reached (curl : string -> bool) (addresses : list string) : bool :=
  match addresses with
  | [] => true
  | a :: l => if curl ("curl " +:+ a) then all_reached curl l else false
  end.

Definition round_ok (target : Service + Ingress) (r : ping_round) : option bool :=
  match r with
  | NoPod => Some false
  | InPod hostIP curl => addresses ← collectAddresses target hostIP; Some (all_reached curl addresses)
  end.

Definition pingChecks : nat := 3.

(** The loop of [run] over the outcomes of its rounds: the number of rounds
    until it records the target as reachable, if it does. *)
Fixpoint ping_loop (oks : list bool) (success n : nat) : option nat :=
  match oks with
  | [] => None
  | ok :: oks' =>
      if ok then if Nat.eqb (S success) pingChecks then Some (S n) else ping_loop oks' (S success) (S n)
      else ping_loop oks' 0 (S n)
  end.

(** ** The measurement *)

(** What is pinged, and what it is recorded under. *)
Definition target : Type := (Service + Ingress)%type.
Definition t_key (t : target) : string := match t with inl svc => svc_Key svc | inr i => ing_Key i end.
Definition t_type (t : target) : string := match t with inl svc => svc_Type svc | inr _ => ingressType end.
Definition t_creation (t : target) : Z := match t with inl svc => svc_Creation svc | inr i => ing_Creation i end.

(** [pinging]: the pings that run in workers; [pingCheckers]: the map, which a
    checker enters when its ping has ended. *)
Record measurement := mkMeasurement_ {
  isRunning : bool;
  waitTimeout : Z;
  checkIngress : bool;
  creationTimes : ObjectTransitionTimes;
  pinging : list target;
  pingCheckers : gset string;
}.

Definition createServiceCreationLatencyMeasurement : measurement :=
  mkMeasurement_ false 0 false (NewObjectTransitionTimes "ServiceCreationLatency") [] ∅.

Definition with_times (s : measurement) (times : ObjectTransitionTimes) (pinging : list target) (pingCheckers : gset string)
  : measurement := mkMeasurement_ (isRunning s) (waitTimeout s) (checkIngress s) times pinging pingCheckers.

Definition set_time (key phase : string) (t : Z) (s : measurement) : measurement :=
  with_times s (OTT_Set (creationTimes s) key phase t) (pinging s) (pingCheckers s).

Definition set_time_once (key phase : string) (t : Z) (s : measurement) : measurement :=
  if (OTT_Get (creationTimes s) key phase).2 then s else set_time key phase t s.

(** [pc.run()] begins. *)
Definition begin_ping (t : target) (s : measurement) : measurement :=
  with_times s (creationTimes s) (pinging s ++ [t]) (pingCheckers s).

Fixpoint remove_one (x : target) (l : list target) : list target :=
  match l with
  | [] => []
  | y :: l' => if decide (x = y) then l' else y :: remove_one x l'
  end.

(** [pc.run()] has succeeded, and the checker is added to the map. *)
Definition end_ping (t : target) (now : Z) (s : measurement) : measurement :=
  let s := set_time (t_key t) (phaseName reachabilityPhase (t_type t)) now s in
  with_times s (creationTimes s) (remove_one t (pinging s)) ({[ t_key t ]} ∪ pingCheckers s).

Definition record_deletion (key svcType : string) (deletion : option Z) (now : Z) (s : measurement) : measurement :=
  match deletion with
  | None => s
  | Some t =>
      let s := set_time key (phaseName deletedPhase svcType) now (set_time key (phaseName deletingPhase svcType) t s) in
      with_times s (creationTimes s) (pinging s) (pingCheckers s ∖ {[ key ]})
  end.

Definition deleteObject (svc : Service) (now : Z) (s : measurement) : measurement :=
  record_deletion (svc_Key svc) (svc_Type svc) (svc_Deletion svc) now s.
Definition deleteIngressObject (ingress : Ingress) (now : Z) (s : measurement) : measurement :=
  record_deletion (ing_Key ingress) ingressType (ing_Deletion ingress) now s.

Definition updateObject (svc : Service) (now : Z) (s : measurement) : measurement :=
  let T := svc_Type svc in
  if negb (String.eqb T ClusterIP) && negb (String.eqb T NodePort) && negb (String.eqb T LoadBalancer) then s
  else
    let key := svc_Key svc in
    let s := set_time_once key (phaseName creatingPhase T) (svc_Creation svc) s in
    if String.eqb T LoadBalancer && bool_decide (svc_Ingress svc = []) then s
    else if String.eqb T LoadBalancer then
      if (OTT_Get (creationTimes s) key (phaseName ipAssigningPhase T)).2 then s
      else begin_ping (inl svc) (set_time key (phaseName ipAssigningPhase T) now s)
    else begin_ping (inl svc) s.

Definition updateIngressObject (ingress : Ingress) (now : Z) (s : measurement) : measurement :=
  let key := ing_Key ingress in
  let s := set_time_once key (phaseName creatingPhase ingressType) (ing_Creation ingress) s in
  if bool_decide (ing_Ingress ingress = []) then s
  else if (OTT_Get (creationTimes s) key (phaseName ipAssigningPhase ingressType)).2 then s
  else begin_ping (inr ingress) (set_time key (phaseName ipAssigningPhase ingressType) now s).

(** The informer never delivers two nils. *)
Definition handleObject (oldObj newObj : arg Service) (now : Z) (s : measurement) : option measurement :=
  match oldObj, newObj with
  | AOther, _ | _, AOther => Some s
  | AObj old, AObj new =>
      if service_equal old new then Some s else if negb (isRunning s) then Some s else Some (updateObject new now s)
  | ANil, AObj new => if negb (isRunning s) then Some s else Some (updateObject new now s)
  | AObj old, ANil => if negb (isRunning s) then Some s else Some (deleteObject old now s)
  | ANil, ANil => if negb (isRunning s) then Some s else None
  end.

(** The test of the new object looks at the converted value, which is nil when
    the conversion fails: a new object of another type is not refused. *)
Definition handleIngressObject (oldObj newObj : arg Ingress) (now : Z) (s : measurement) : option measurement :=
  match oldObj, newObj with
  | AOther, _ => Some s
  | AObj old, AObj new =>
      if ingress_equal old new then Some s else if negb (isRunning s) then Some s else Some (updateIngressObject new now s)
  | ANil, AObj new => if negb (isRunning s) then Some s else Some (updateIngressObject new now s)
  | AObj old, ANil => if negb (isRunning s) then Some s else Some (deleteIngressObject old now s)
  | ANil, ANil | _, AOther => if negb (isRunning s) then Some s else None
  end.

(** ** Waiting and gathering *)

(** One round of the polls. *)
Definition counts_agree (phase : string) (s : measurement) (svcType : string) : bool :=
  OTT_Count (creationTimes s) (phaseName creatingPhase svcType) =? OTT_Count (creationTimes s) (phaseName phase svcType).

Definition waitForReady_round (s : measurement) : bool := forallb (counts_agree reachabilityPhase s) service_types.
Definition waitForDeletion_round (s : measurement) : bool := forallb (counts_agree deletedPhase s) service_types.

Definition transition (from to svcType : string) : Transition := mkTransition (phaseName from svcType) (phaseName to svcType) 0.

Definition serviceCreationTransitions : gmap string Transition :=
  {[ "create_to_available_clusterip" := transition creatingPhase reachabilityPhase ClusterIP;
     "create_to_available_nodeport" := transition creatingPhase reachabilityPhase NodePort;
     "create_to_assigned_loadbalancer" := transition creatingPhase ipAssigningPhase LoadBalancer;
     "assigned_to_available_loadbalancer" := transition ipAssigningPhase reachabilityPhase LoadBalancer;
     "create_to_available_loadbalancer" := transition creatingPhase reachabilityPhase LoadBalancer;
     "delete_loadbalancer" := transition deletingPhase deletedPhase LoadBalancer;
     "create_to_assigned_ingress" := transition creatingPhase ipAssigningPhase ingressType;
     "assigned_to_available_ingress" := transition ipAssigningPhase reachabilityPhase ingressType;
     "create_to_available_ingress" := transition creatingPhase reachabilityPhase ingressType;
     "delete_ingress" := transition deletingPhase deletedPhase ingressType ]}.

(** Both informers start with the measurement already marked as running. *)
Definition start (svcSynced ingressSynced : bool) (s : measurement) : measurement * option error :=
  if isRunning s then (s, None)
  else
    let s := mkMeasurement_ true (waitTimeout s) (checkIngress s) (creationTimes s) (pinging s) (pingCheckers s) in
    match StartAndSync svcSynced with
    | Some err => (s, Some err)
    | None => if checkIngress s then (s, StartAndSync ingressSynced) else (s, None)
    end.

(** [queue.Stop] waits for the workers, and so for the pings that run in them:
    [None] while there are any. *)
Definition Dispose (s : measurement) : option measurement :=
  match pinging s with
  | [] => Some (mkMeasurement_ false (waitTimeout s) (checkIngress s) (creationTimes s) [] (pingCheckers s))
  | _ => None
  end.

Section Gather.
Context `{GoLib} `{MapRange} (PrettyPrintJSON : PerfData -> result string) (String_ : string).

Definition gather (identifier : string) (now : Z) (s : measurement) : option (list Summary * option error) :=
  if negb (isRunning s) then Some ([], Some (Errorf "metric %s has not been started" [AStr String_]))
  else
    latency ← CalculateTransitionsLatency (fun name => range name (ott_times (creationTimes s))) serviceCreationTransitions MatchAll;
    match PrettyPrintJSON (LatencyMapToPerfData (range "perf" latency)) with
    | Err err => Some ([], Some err)
    | Ok content =>
        Some ([CreateSummary now (Sprintf "%s_%s" [FStr "ServiceCreationLatency"; FStr identifier]) "json" content], None)
    end.
End Gather.

(** [wait.Poll] over the state seen at each round until the timeout. *)
Fixpoint poll (round : measurement -> bool) (rounds : list measurement) : option error :=
  match rounds with
  | [] => Some (External "timed out waiting for the condition")
  | s :: rounds' => if round s then None else poll round rounds'
  end.
Definition waitForReady : list measurement -> option error := poll waitForReady_round.
Definition waitForDeletion : list measurement -> option error := poll waitForDeletion_round.

Section Execute.
Context `{GoLib} `{MapRange} (PrettyPrintJSON : PerfData -> result string) (String_ : string).

(** [rounds]: what the polls see. *)
Definition Execute (execService svcSynced ingressSynced : bool) (rounds : list measurement) (config : MeasurementConfig) (now : Z)
    (s : measurement) : option (measurement * (list Summary * option error)) :=
  match getString (cfg_Params config) "action" with
  | (_, Some err) => Some (s, ([], Some err))
  | (action, None) =>
      if negb execService then Some (s, ([], Some (Errorf "enable-exec-service flag not enabled" [])))
      else if String.eqb action "start" then
        match Params.Parse NewObjectSelector (cfg_Params config) with
        | (_, Some err) => Some (s, ([], Some err))
        | (_, None) =>
            let '(waitTimeout, err) := GetDurationOrDefault (cfg_Params config) "waitTimeout" (10 * Duration.Minute) in
            let s := mkMeasurement_ (isRunning s) waitTimeout (checkIngress s) (creationTimes s) (pinging s) (pingCheckers s) in
            match err with
            | Some err => Some (s, ([], Some err))
            | None =>
                let '(checkIngress, err) := GetBoolOrDefault (cfg_Params config) "checkIngress" false in
                let s := mkMeasurement_ (isRunning s) waitTimeout checkIngress (creationTimes s) (pinging s) (pingCheckers s) in
                match err with
                | Some err => Some (s, ([], Some err))
                | None => let '(s, err) := start svcSynced ingressSynced s in Some (s, ([], err))
                end
            end
        end
      else if String.eqb action "waitForReady" then Some (s, ([], waitForReady rounds))
      else if String.eqb action "waitForDeletion" then Some (s, ([], waitForDeletion rounds))
      else if String.eqb action "gather" then r ← gather PrettyPrintJSON String_ (cfg_Identifier config) now s; Some (s, r)
      else Some (s, ([], Some (Errorf "unknown action %v" [AStr action])))
  end.
End Execute.

(** ** Pings: three in a row *)

(** The rounds up to the [n]-th end with three good ones, and no shorter prefix
    does. *)
Definition three_good (oks : list bool) (n : nat) : Prop := exists pre, take n oks = pre ++ [true; true; true].

(** [l]: the rounds so far, of which the last [k] were good and the one before
    was not. *)
Definition good_tail (l : list bool) (k : nat) : Prop := exists pre, l = pre ++ replicate k true /\ forall pre', pre <> pre' ++ [true].

Lemma good_tail_three l k : (k < 3)%nat -> good_tail l k -> ~ exists pre, l = pre ++ [true; true; true].
Proof.
  intros Hk (p & -> & Hp) [q Hq].
  destruct k as [|[|[|k]]]; [| | |lia]; cbn in Hq; rewrite ?app_nil_r in Hq.
  - apply (Hp (q ++ [true; true])). by rewrite Hq, <- app_assoc.
  - change [true; true; true] with ([true; true] ++ [true]) in Hq. rewrite app_assoc in Hq. apply app_inj_tail in Hq as [Hq _].
    apply (Hp (q ++ [true])). by rewrite Hq, <- app_assoc.
  - change [true; true; true] with ([true] ++ [true; true]) in Hq. rewrite app_assoc in Hq. apply app_inv_tail in Hq.
    by apply (Hp q).
Qed.

Lemma ping_loop_spec oks l k :
  (k < 3)%nat -> good_tail l k -> (forall m, (m <= length l)%nat -> ~ three_good l m) ->
  match ping_loop oks k (length l) with
  | Some n => three_good (l ++ oks) n /\ forall m, (m < n)%nat -> ~ three_good (l ++ oks) m
  | None => forall m, ~ three_good (l ++ oks) m
  end.
Proof.
  revert l k. induction oks as [|ok oks IH]; intros l k Hk Ht Hno; cbn [ping_loop].
  { rewrite app_nil_r. intros m. destruct (le_lt_dec m (length l)); [by apply Hno|].
    unfold three_good. rewrite take_ge by lia. rewrite <- (take_ge l (length l)) by lia. by apply Hno. }
  replace (l ++ ok :: oks) with ((l ++ [ok]) ++ oks) by (by rewrite <- app_assoc).
  assert (forall m, (m <= length l)%nat -> ~ three_good (l ++ [ok]) m) as Hno'.
  { intros m Hm. unfold three_good. rewrite take_app_le by done. by apply Hno. }
  assert (S (length l) = length (l ++ [ok])) as Hlen by (rewrite length_app; cbn; lia).
  destruct ok.
  - assert (good_tail (l ++ [true]) (S k)) as Ht'.
    { destruct Ht as (p & -> & Hp). exists p. split; [|done]. by rewrite replicate_S_end, app_assoc. }
    destruct (Nat.eqb_spec (S k) pingChecks) as [Hk3|Hk3].
    + unfold pingChecks in Hk3. assert (k = 2%nat) as -> by lia. split.
      * unfold three_good. rewrite Hlen, take_app_length. destruct Ht' as (p & -> & _). by exists p.
      * intros m Hm. unfold three_good. rewrite take_app_le by lia. apply Hno'. lia.
    + rewrite Hlen. unfold pingChecks in Hk3. apply IH; [lia|done|]. intros m Hm.
      destruct (decide (m <= length l)%nat); [by apply Hno'|]. unfold three_good. rewrite take_ge by lia. apply (good_tail_three _ (S k)); [lia|done].
  - rewrite Hlen. apply IH; [lia| |].
    + exists (l ++ [false]). split; [by rewrite app_nil_r|]. intros q Hq. by apply app_inj_tail in Hq as [_ ?].
    + intros m Hm. destruct (decide (m <= length l)%nat); [by apply Hno'|]. unfold three_good. rewrite take_ge by lia.
      intros [q Hq]. change [true; true; true] with ([true; true] ++ [true]) in Hq. rewrite app_assoc in Hq.
      by apply app_inj_tail in Hq as [_ ?].
Qed.

(** A target becomes reachable exactly at the first round that ends three good
    ones in a row. *)
Lemma ping_loop_correct oks :
  match ping_loop oks 0 0 with
  | Some n => three_good oks n /\ forall m, (m < n)%nat -> ~ three_good oks m
  | None => forall m, ~ three_good oks m
  end.
Proof.
  apply (ping_loop_spec oks [] 0); [lia| |].
  - exists []. split; [done|]. by intros [].
  - intros m _ [pre Hp]. rewrite take_nil in Hp. by destruct pre.
Qed.

(** ** The recorded phases *)

Definition recorded (s : measurement) (key phase : string) : Prop := (OTT_Get (creationTimes s) key phase).2 = true.
#[export] Instance recorded_dec s key phase : Decision (recorded s key phase).
Proof. unfold recorded. apply _. Defined.

Inductive event :=
| ServiceEvent (oldObj newObj : arg Service) (now : Z)
| IngressEvent (oldObj newObj : arg Ingress) (now : Z)
| WorkerLate (t : target) (now : Z)
| PingEnded (t : target) (rounds : list ping_round) (now : Z).

(** The loop of [run] ended after exactly these rounds, with these outcomes. *)
Definition ping_ended (t : target) (rounds : list ping_round) (oks : list bool) : Prop :=
  mapM (round_ok t) rounds = Some oks /\ ping_loop oks 0 0 = Some (length oks).

(** A worker that is late does what it had decided to do before others went on:
    it records the creation, or, when that is recorded, the assignment of an
    address (or none, for a service that is not a load balancer), and pings. A
    ping ends when its loop has recorded the target, after the rounds it took. *)
Inductive step : measurement -> event -> measurement -> Prop :=
| step_service s old new now s' : handleObject old new now s = Some s' -> step s (ServiceEvent old new now) s'
| step_ingress s old new now s' : handleIngressObject old new now s = Some s' -> step s (IngressEvent old new now) s'
| step_late_creation s t now :
    step s (WorkerLate t now) (set_time (t_key t) (phaseName creatingPhase (t_type t)) (t_creation t) s)
| step_late_address s t now :
    (OTT_Get (creationTimes s) (t_key t) (phaseName creatingPhase (t_type t))).2 = true ->
    step s (WorkerLate t now) (begin_ping t (set_time (t_key t) (phaseName ipAssigningPhase (t_type t)) now s))
| step_late_ping s t now :
    (OTT_Get (creationTimes s) (t_key t) (phaseName creatingPhase (t_type t))).2 = true ->
    step s (WorkerLate t now) (begin_ping t s)
| step_ping s t rounds oks now :
    t ∈ pinging s -> ping_ended t rounds oks -> step s (PingEnded t rounds now) (end_ping t now s).

(** The states of a run, with the events that lead there, the last one first. *)
Inductive reachable (s0 : measurement) : list event -> measurement -> Prop :=
| reach_start : reachable s0 [] s0
| reach_step s evs e s' : reachable s0 evs s -> step s e s' -> reachable s0 (e :: evs) s'.

Lemma recorded_set key phase t s key' phase' :
  recorded (set_time key phase t s) key' phase' <-> (key = key' /\ phase = phase') \/ recorded s key' phase'.
Proof.
  unfold recorded, set_time. cbn [creationTimes with_times]. rewrite OTT_Get_Set. case_bool_decide; cbn; naive_solver.
Qed.

Lemma recorded_set_once key phase t s key' phase' :
  recorded (set_time_once key phase t s) key' phase' <-> (key = key' /\ phase = phase') \/ recorded s key' phase'.
Proof.
  unfold set_time_once. destruct ((OTT_Get (creationTimes s) key phase).2) eqn:He; [|apply recorded_set].
  split; [auto|]. intros [[<- <-]|?]; done.
Qed.

Lemma pinging_set_once key phase t s : pinging (set_time_once key phase t s) = pinging s.
Proof. unfold set_time_once. by destruct ((OTT_Get (creationTimes s) key phase).2). Qed.

Lemma remove_one_subset x y l : y ∈ remove_one x l -> y ∈ l.
Proof. induction l as [|z l IH]; cbn; [done|]. case_decide; [by right|]. intros [->|?]%elem_of_cons; [left|right; auto]. Qed.

(** Whatever is reachable, or being pinged, was recorded as created. *)
Definition tracked (s : measurement) : Prop :=
  forall key T, recorded s key (phaseName reachabilityPhase T) \/ (exists t, t ∈ pinging s /\ t_key t = key /\ t_type t = T) ->
    recorded s key (phaseName creatingPhase T).

Lemma tracked_set key phase t s :
  (forall T, phase <> phaseName reachabilityPhase T) -> tracked s -> tracked (set_time key phase t s).
Proof.
  intros Hp Ht k T [[[_ Heq]|Hr]%recorded_set|Hin]; [by apply Hp in Heq|..]; apply recorded_set; right; apply Ht; auto.
Qed.

Lemma tracked_set_once key phase t s :
  (forall T, phase <> phaseName reachabilityPhase T) -> tracked s -> tracked (set_time_once key phase t s).
Proof. intros Hp Ht. unfold set_time_once. destruct (_.2); [done|]. by apply tracked_set. Qed.

Lemma tracked_begin t s :
  recorded s (t_key t) (phaseName creatingPhase (t_type t)) -> tracked s -> tracked (begin_ping t s).
Proof.
  intros Hc Ht k U [Hr|(t' & Hin & <- & <-)]; [apply Ht; by left|]. cbn [pinging begin_ping with_times] in Hin.
  apply elem_of_app in Hin as [Hin| ->%list_elem_of_singleton]; [|exact Hc]. apply Ht. right. eauto.
Qed.

Lemma tracked_end t now s : t ∈ pinging s -> tracked s -> tracked (end_ping t now s).
Proof.
  intros Hin Ht k U H. unfold end_ping in *. cbn zeta in *.
  change (recorded (set_time (t_key t) (phaseName reachabilityPhase (t_type t)) now s) k (phaseName creatingPhase U)).
  apply recorded_set. right. destruct H as [H|H].
  - change (recorded (set_time (t_key t) (phaseName reachabilityPhase (t_type t)) now s) k (phaseName reachabilityPhase U)) in H.
    apply recorded_set in H as [[<- Heq]|Hr]; [|apply Ht; by left].
    cbn in Heq. injection Heq as Heq. rewrite !string_app_nil_r in Heq. subst U. apply Ht. right. eauto.
  - destruct H as (t' & H & ? & ?). cbn [pinging with_times] in H. apply remove_one_subset in H. apply Ht. right. eauto.
Qed.

Lemma tracked_deletion key T d now s : tracked s -> tracked (record_deletion key T d now s).
Proof.
  intros Ht. unfold record_deletion. destruct d as [t|]; [|done].
  change (tracked (set_time key (phaseName deletedPhase T) now (set_time key (phaseName deletingPhase T) t s))).
  apply tracked_set; [by intros U [=]|]. apply tracked_set; [by intros U [=]|]. exact Ht.
Qed.

Lemma tracked_update svc now s : tracked s -> tracked (updateObject svc now s).
Proof.
  intros Ht. unfold updateObject. destruct (_ && _ && _); [done|].
  set (s1 := set_time_once _ _ _ s).
  assert (tracked s1) as H1 by (apply tracked_set_once; [by intros U [=]|done]).
  assert (recorded s1 (svc_Key svc) (phaseName creatingPhase (svc_Type svc))) as Hc by (apply recorded_set_once; by left).
  destruct (_ && bool_decide _); [done|]. destruct (String.eqb (svc_Type svc) LoadBalancer); [|by apply (tracked_begin (inl svc))].
  destruct (_.2); [done|]. apply (tracked_begin (inl svc)); [apply recorded_set; by right|]. apply tracked_set; [by intros U [=]|done].
Qed.

Lemma tracked_update_ingress i now s : tracked s -> tracked (updateIngressObject i now s).
Proof.
  intros Ht. unfold updateIngressObject. set (s1 := set_time_once _ _ _ s).
  assert (tracked s1) as H1 by (apply tracked_set_once; [by intros U [=]|done]).
  assert (recorded s1 (ing_Key i) (phaseName creatingPhase ingressType)) as Hc by (apply recorded_set_once; by left).
  destruct (bool_decide _); [done|]. destruct (_.2); [done|].
  apply (tracked_begin (inr i)); [apply recorded_set; by right|]. apply tracked_set; [by intros U [=]|done].
Qed.

Lemma tracked_step s e s' : step s e s' -> tracked s -> tracked s'.
Proof.
  intros [? old new ? ? Hh|? old new ? ? Hh|? t ?|? t ? Hc|? t ? Hc|? t rounds oks ? Hin _] Ht;
    [| |apply tracked_set; [by intros U [=]|done]| |by apply tracked_begin|by apply tracked_end].
  - revert Hh. unfold handleObject, deleteObject. destruct old as [| |o], new as [| |n]; try (by intros [= <-]).
    all: repeat case_match; intros [= <-]; auto using tracked_update, tracked_deletion.
  - revert Hh. unfold handleIngressObject, deleteIngressObject. destruct old as [| |o], new as [| |n]; try (by intros [= <-]).
    all: repeat case_match; intros [= <-]; auto using tracked_update_ingress, tracked_deletion.
  - apply tracked_begin; [apply recorded_set; by right|]. apply tracked_set; [by intros U [=]|done].
Qed.

Lemma counts_agree_iff s phase T :
  (forall key, recorded s key (phaseName phase T) -> recorded s key (phaseName creatingPhase T)) ->
  counts_agree phase s T = true <->
  forall key, recorded s key (phaseName creatingPhase T) -> recorded s key (phaseName phase T).
Proof.
  intros Hsub. unfold counts_agree. rewrite Z.eqb_eq, !OTT_Count_dom. unfold recorded in *. setoid_rewrite <- elem_of_phase_dom.
  setoid_rewrite <- elem_of_phase_dom in Hsub. split.
  - intros Heq key. assert (phase_dom (creationTimes s) (phaseName phase T) = phase_dom (creationTimes s) (phaseName creatingPhase T)) as ->; [|done].
    apply set_subseteq_size_eq; [exact Hsub|lia].
  - intros Hall. f_equal. f_equal. apply set_eq. intros key. split; [apply Hall|apply Hsub].
Qed.

(** Reachability is recorded by ended pings only. *)
Definition ping_of (key T : string) (e : event) : Prop :=
  exists t rounds oks now, e = PingEnded t rounds now /\ t_key t = key /\ t_type t = T /\ ping_ended t rounds oks.
Definition pinged (evs : list event) (key T : string) : Prop := Exists (ping_of key T) evs.

Definition same_reach (s s' : measurement) : Prop :=
  forall key T, recorded s' key (phaseName reachabilityPhase T) <-> recorded s key (phaseName reachabilityPhase T).

Lemma same_reach_set key phase t s : (forall T, phase <> phaseName reachabilityPhase T) -> same_reach s (set_time key phase t s).
Proof. intros Hp k T. rewrite recorded_set. split; [intros [[_ Heq]|H]; [by apply Hp in Heq|done]|by right]. Qed.

Lemma same_reach_set_once key phase t s : (forall T, phase <> phaseName reachabilityPhase T) -> same_reach s (set_time_once key phase t s).
Proof. intros Hp. unfold set_time_once. destruct (_.2); [by intros ? ?|by apply same_reach_set]. Qed.

#[local] Instance same_reach_trans : Transitive same_reach.
Proof. intros x y z Hxy Hyz key T. by rewrite (Hyz key T). Qed.

Lemma same_reach_deletion key T d now s : same_reach s (record_deletion key T d now s).
Proof.
  unfold record_deletion. destruct d as [t|]; [|by intros ? ?].
  transitivity (set_time key (phaseName deletingPhase T) t s); [apply same_reach_set; by intros U [=]|].
  exact (same_reach_set key (phaseName deletedPhase T) now _ ltac:(by intros U [=])).
Qed.

Lemma same_reach_update svc now s : same_reach s (updateObject svc now s).
Proof.
  unfold updateObject. destruct (_ && _ && _); [by intros ? ?|].
  set (s1 := set_time_once _ _ _ s).
  assert (same_reach s s1) as H1 by (apply same_reach_set_once; by intros U [=]).
  destruct (_ && bool_decide _); [done|]. destruct (String.eqb (svc_Type svc) LoadBalancer); [|exact H1].
  destruct (_.2); [done|]. transitivity s1; [done|].
  exact (same_reach_set (svc_Key svc) (phaseName ipAssigningPhase (svc_Type svc)) now _ ltac:(by intros U [=])).
Qed.

Lemma same_reach_update_ingress i now s : same_reach s (updateIngressObject i now s).
Proof.
  unfold updateIngressObject. set (s1 := set_time_once _ _ _ s).
  assert (same_reach s s1) as H1 by (apply same_reach_set_once; by intros U [=]).
  destruct (bool_decide _); [done|]. destruct (_.2); [done|]. transitivity s1; [done|].
  exact (same_reach_set (ing_Key i) (phaseName ipAssigningPhase ingressType) now _ ltac:(by intros U [=])).
Qed.

Lemma step_reach s e s' key T :
  step s e s' ->
  recorded s' key (phaseName reachabilityPhase T) <->
  ping_of key T e \/ recorded s key (phaseName reachabilityPhase T).
Proof.
  assert (forall s e s', (forall t r n, e <> PingEnded t r n) -> same_reach s s' ->
    recorded s' key (phaseName reachabilityPhase T) <->
    ping_of key T e \/ recorded s key (phaseName reachabilityPhase T)) as Hsame.
  { intros s1 e0 s0 Hne Hs. rewrite (Hs key T). split; [by right|].
    intros [(t & r & o & n & He & _)|?]; [by apply Hne in He|done]. }
  intros [? old new ? ? Hh|? old new ? ? Hh|s0 t ?|s0 t n Hc|s0 t ? Hc|s0 t rounds oks n Hin Hl].
  - apply Hsame; [done|]. revert Hh. unfold handleObject, deleteObject. destruct old as [| |o], new as [| |w]; try (by intros [= <-]).
    all: repeat case_match; intros [= <-]; first [by intros ? ?|apply same_reach_update|apply same_reach_deletion].
  - apply Hsame; [done|]. revert Hh. unfold handleIngressObject, deleteIngressObject. destruct old as [| |o], new as [| |w]; try (by intros [= <-]).
    all: repeat case_match; intros [= <-]; first [by intros ? ?|apply same_reach_update_ingress|apply same_reach_deletion].
  - apply Hsame; [done|]. apply same_reach_set. by intros U [=].
  - apply Hsame; [done|].
    exact (same_reach_set (t_key t) (phaseName ipAssigningPhase (t_type t)) n _ ltac:(by intros U [=])).
  - apply Hsame; [done|]. by intros ? ?.
  - change (recorded (set_time (t_key t) (phaseName reachabilityPhase (t_type t)) n s0) key (phaseName reachabilityPhase T) <->
      ping_of key T (PingEnded t rounds n) \/ recorded s0 key (phaseName reachabilityPhase T)).
    rewrite recorded_set. split; (intros [H|H]; [left|by right]).
    + destruct H as [Hk Heq]. cbn in Heq. injection Heq as Heq. rewrite !string_app_nil_r in Heq. by exists t, rounds, oks, n.
    + destruct H as (t' & r & o & n' & [= -> -> ->] & <- & <- & _). done.
Qed.

Lemma reachable_invariant s0 evs s :
  tracked s0 -> (forall key T, ~ recorded s0 key (phaseName reachabilityPhase T)) -> reachable s0 evs s ->
  tracked s /\ forall key T, recorded s key (phaseName reachabilityPhase T) <-> pinged evs key T.
Proof.
  intros Ht H0. induction 1 as [|s evs e s' _ [IHt IH] Hs].
  - split; [done|]. intros key T. split; [by intros ?%H0|]. by intros ?%Exists_nil.
  - split; [by apply (tracked_step _ _ _ Hs)|]. intros key T. unfold pinged. by rewrite (step_reach _ _ _ key T Hs), Exists_cons, IH.
Qed.

(** The measurement as [Execute] configures it before [start]. *)
Definition configured (waitTimeout : Z) (checkIngress : bool) : measurement :=
  let s := createServiceCreationLatencyMeasurement in
  mkMeasurement_ (isRunning s) waitTimeout checkIngress (creationTimes s) (pinging s) (pingCheckers s).

Lemma start_fresh svcSynced ingressSynced waitTimeout checkIngress m err :
  start svcSynced ingressSynced (configured waitTimeout checkIngress) = (m, err) ->
  tracked m /\ forall key T, ~ recorded m key (phaseName reachabilityPhase T).
Proof.
  unfold start. destruct svcSynced, ingressSynced, checkIngress; cbn; intros [= <- <-]; (split; [intros key T [H|H]; [discriminate H|by destruct H as (? & ?%elem_of_nil & _)]|discriminate]).
Qed.

(** A ping that ended: its last three rounds were good, and at no earlier round
    were there three good ones in a row. *)
Lemma ping_ended_three t rounds oks :
  ping_ended t rounds oks ->
  (exists pre, oks = pre ++ [true; true; true]) /\
  forall m, (m < length oks)%nat -> ~ exists pre, take m oks = pre ++ [true; true; true].
Proof.
  intros [_ Hl]. pose proof (ping_loop_correct oks) as Hc. rewrite Hl in Hc. destruct Hc as [Hg Hno].
  split; [|exact Hno]. unfold three_good in Hg. by rewrite firstn_all in Hg.
Qed.

Lemma ping_ended_of t rounds oks :
  mapM (round_ok t) rounds = Some oks -> (exists pre, oks = pre ++ [true; true; true]) ->
  (forall m, (m < length oks)%nat -> ~ exists pre, take m oks = pre ++ [true; true; true]) -> ping_ended t rounds oks.
Proof.
  intros Hm H3 Hno. split; [done|]. pose proof (ping_loop_correct oks) as Hc.
  assert (three_good oks (length oks)) as Hl by (unfold three_good; by rewrite firstn_all).
  destruct (ping_loop oks 0 0) as [n|]; [|by apply Hc in Hl]. destruct Hc as [Hn Hmin]. f_equal.
  assert (~ (length oks < n)%nat) as H1 by (intros Hlt; by apply (Hmin _ Hlt)).
  assert (~ (n < length oks)%nat) as H2 by (intros Hlt; by apply (Hno _ Hlt)). lia.
Qed.

(** C36: after any sequence of service and ingress events, steps of workers that
    are late and ended pings since the start, the wait for readiness is over
    exactly when every service and ingress of the four kinds recorded as created
    has had a ping that ended: in each of its last three rounds every address of
    the object was reached from a pod, and at no round before had three in a row
    been good, a bad round starting the count again. *)
Theorem ready_iff_all_reachable svcSynced ingressSynced waitTimeout checkIngress s0 err evs s :
  start svcSynced ingressSynced (configured waitTimeout checkIngress) = (s0, err) -> reachable s0 evs s ->
  waitForReady_round s = true <->
  forall T key, T ∈ service_types -> recorded s key (phaseName creatingPhase T) ->
    exists t rounds oks now, PingEnded t rounds now ∈ evs /\ t_key t = key /\ t_type t = T /\
      mapM (round_ok t) rounds = Some oks /\ (exists pre, oks = pre ++ [true; true; true]) /\
      forall m, (m < length oks)%nat -> ~ exists pre, take m oks = pre ++ [true; true; true].
Proof.
  intros [H0 H0']%start_fresh Hr. destruct (reachable_invariant _ _ _ H0 H0' Hr) as [Ht Hp].
  assert (forall key T, pinged evs key T <-> exists t rounds oks now,
    PingEnded t rounds now ∈ evs /\ t_key t = key /\ t_type t = T /\
    mapM (round_ok t) rounds = Some oks /\ (exists pre, oks = pre ++ [true; true; true]) /\
    forall m, (m < length oks)%nat -> ~ exists pre, take m oks = pre ++ [true; true; true]) as Hpe.
  { intros key T. unfold pinged. rewrite Exists_exists. split.
    - intros (e & Hin & t & rounds & oks & now & -> & Hk & HT & Hend).
      destruct (ping_ended_three _ _ _ Hend). destruct Hend as [Hm _]. by exists t, rounds, oks, now.
    - intros (t & rounds & oks & now & Hin & Hk & HT & Hm & H3 & Hno). exists (PingEnded t rounds now). split; [done|].
      exists t, rounds, oks, now. split_and!; try done. by apply ping_ended_of. }
  unfold waitForReady_round. rewrite forallb_forall. split.
  - intros Hall T key HT Hc. apply Hpe, Hp. revert Hc. apply counts_agree_iff; [intros k Hk; apply Ht; by left|]. by apply Hall, list_elem_of_In.
  - intros Hall T HT%list_elem_of_In. apply counts_agree_iff; [intros k Hk; apply Ht; by left|]. intros k Hc. apply Hp, Hpe. by apply Hall.
Qed.

(** A service deleted without a deletion timestamp, as those without finalizers
    are, keeps the wait for deletion from ending. *)
Lemma deletion_without_timestamp svc now s :
  svc_Deletion svc = None -> deleteObject svc now s = s.
Proof. unfold deleteObject, record_deletion. by intros ->. Qed.

(** A checker that still pings is not in the map: the deletion of its service
    does not stop it, and disposing waits for it. *)
Lemma deletion_keeps_pinging svc now s :
  pinging (deleteObject svc now s) = pinging s /\ (pinging s <> [] -> Dispose (deleteObject svc now s) = None).
Proof.
  unfold deleteObject, record_deletion. destruct (svc_Deletion svc); (split; [done|]); unfold Dispose; cbn [pinging with_times set_time];
    by destruct (pinging s).
Qed.

(** *** A concrete run *)
Definition ex_service : Service := mkService "default/web" ClusterIP 10 None ["10.0.0.7"] [(80, 0)] [] "".
Definition ex_started : measurement := (start true true (configured 600 true)).1.
Definition ex_pinged : measurement := end_ping (inl ex_service) 20 (updateObject ex_service 12 ex_started).

(** The second of five rounds finds no pod. *)
Definition ex_rounds : list ping_round :=
  let ok := InPod "10.1.0.1" (fun _ => true) in [ok; NoPod; ok; ok; ok].

Lemma ready_iff_all_reachable_witness :
  waitForReady_round ex_pinged = true <->
  forall T key, T ∈ service_types -> recorded ex_pinged key (phaseName creatingPhase T) ->
    exists t rounds oks now,
      PingEnded t rounds now ∈ [PingEnded (inl ex_service) ex_rounds 20; ServiceEvent ANil (AObj ex_service) 12] /\
      t_key t = key /\ t_type t = T /\
      mapM (round_ok t) rounds = Some oks /\ (exists pre, oks = pre ++ [true; true; true]) /\
      forall m, (m < length oks)%nat -> ~ exists pre, take m oks = pre ++ [true; true; true].
Proof.
  apply (ready_iff_all_reachable true true 600 true ex_started None); [reflexivity|].
  eapply reach_step; [eapply reach_step; [apply reach_start|]|].
  - apply (step_service ex_started ANil (AObj ex_service) 12). reflexivity.
  - apply (step_ping _ _ _ [true; false; true; true; true]); [left|by split].
Defined.
