(* ===== verification/PodCommand.v ===== *)
(** * Periodic commands in pods (pkg/measurement/common/pod_command.go)

    A worker runs all configured commands in some ready pods at every tick: a
    goroutine per pod, and in it a goroutine per command. What the goroutines
    do under the lock of the statistics, and their sends, are the steps of a
    transition system. *)

From S2P Require Import Prelude GoErrors GoRuntime Params Measurement Latency Pods Services.

Definition podPeriodicCommandMeasurementName : string := "PodPeriodicCommand".

(** ** Parameters *)

Record commandParams := mkCommandParams {
  cmd_Name : string;
  cmd_Command : list string;
  cmd_Timeout : Z;
}.

Record commandMeasurementParams := mkCommandMeasurementParams {
  LabelSelector : string;        (* as a string *)
  Interval : Z;
  Container : string;
  Limit : Z;
  FailOnCommandError : bool;
  FailOnExecError : bool;
  FailOnTimeout : bool;
  Commands : list commandParams;
}.

Definition returned {A} (r : A * option error) : result A :=
  match r with (a, None) => Ok a | (_, Some err) => Err err end.

Section Params.
Context `{GoLib} (labels_Parse : string -> result string).

Fixpoint command_loop (commandMaps : list params) : result (list commandParams) :=
  match commandMaps with
  | [] => Ok []
  | m :: maps =>
      name ← returned (getString m "name");
      command ← returned (getStringArray m "command");
      timeout ← returned (getDuration m "timeout");
      l ← command_loop maps;
      Ok (mkCommandParams name command timeout :: l)
  end.

Definition newPodPeriodCommandMeasurementParams (dict : params) : result commandMeasurementParams :=
  selector ← returned (getLabelSelector labels_Parse dict "labelSelector");
  interval ← returned (getDuration dict "interval");
  container ← returned (getString dict "container");
  limit ← returned (getInt dict "limit");
  failOnCommandError ← returned (getBool dict "failOnCommandError");
  failOnExecError ← returned (getBool dict "failOnExecError");
  failOnTimeout ← returned (getBool dict "failOnTimeout");
  commandMaps ← returned (getMapArray dict "commands");
  commands ← command_loop commandMaps;
  Ok (mkCommandMeasurementParams (default "" selector) interval container limit
        failOnCommandError failOnExecError failOnTimeout commands).
End Params.

(** ** Results and statistics *)

Record runCommandResult := mkRunCommandResult {
  stdout : string;
  stderr : string;
  ExitCode : Z;
  r_Name : string;
  r_Command : list string;
  r_Timeout : string;
  HitTimeout : bool;
  StartTime : Z;
  EndTime : Z;
  ExecError : string;
}.

Record runAllCommandsResult := mkRunAllCommandsResult {
  ra_Pod : string;
  ra_Namespace : string;
  ra_Container : string;
  ra_Commands : list runCommandResult;
}.

Record stats := mkStats {
  Execs : Z;
  ExecErrors : Z;
  Timeouts : Z;
  NonZeroRCs : Z;
  Measurements : Z;
  Ticks : Z;
  TicksNoPods : Z;
}.

Definition no_stats : stats := mkStats 0 0 0 0 0 0 0.
Definition inc_Execs (s : stats) : stats :=
  mkStats (Execs s + 1) (ExecErrors s) (Timeouts s) (NonZeroRCs s) (Measurements s) (Ticks s) (TicksNoPods s).
Definition inc_ExecErrors (s : stats) : stats :=
  mkStats (Execs s) (ExecErrors s + 1) (Timeouts s) (NonZeroRCs s) (Measurements s) (Ticks s) (TicksNoPods s).
Definition inc_Timeouts (s : stats) : stats :=
  mkStats (Execs s) (ExecErrors s) (Timeouts s + 1) (NonZeroRCs s) (Measurements s) (Ticks s) (TicksNoPods s).
Definition inc_NonZeroRCs (s : stats) : stats :=
  mkStats (Execs s) (ExecErrors s) (Timeouts s) (NonZeroRCs s + 1) (Measurements s) (Ticks s) (TicksNoPods s).
Definition inc_Ticks (s : stats) : stats :=
  mkStats (Execs s) (ExecErrors s) (Timeouts s) (NonZeroRCs s) (Measurements s) (Ticks s + 1) (TicksNoPods s).
Definition inc_TicksNoPods (s : stats) : stats :=
  mkStats (Execs s) (ExecErrors s) (Timeouts s) (NonZeroRCs s) (Measurements s) (Ticks s) (TicksNoPods s + 1).
Definition set_Measurements (n : Z) (s : stats) : stats :=
  mkStats (Execs s) (ExecErrors s) (Timeouts s) (NonZeroRCs s) n (Ticks s) (TicksNoPods s).

(** ** The pods of a tick *)

(** A pod with the names of its containers. *)
Record podC := mkPodC { pc_pod : Pod; pc_Containers : list string }.

Definition isApplicablePod (container : string) (p : podC) : bool :=
  if negb (String.eqb (pod_Phase (pc_pod p)) PodRunning) then false
  else if negb (existsb (String.eqb container) (pc_Containers p)) then false
  else existsb (fun c => String.eqb (cond_Type c) "Ready" && String.eqb (cond_Status c) "True") (Conditions (pc_pod p)).

(** [podList]: what the store lists, in the random order of its map. *)
Fixpoint max_n_loop (container : string) (n : Z) (podList pods : list podC) : list podC :=
  match podList with
  | [] => pods
  | p :: l =>
      if negb (isApplicablePod container p) then max_n_loop container n l pods
      else
        let pods := pods ++ [p] in
        if n <=? Z.of_nat (length pods) then pods else max_n_loop container n l pods
  end.

Definition getMaxNPods (container : string) (n : Z) (podList : list podC) : list podC := max_n_loop container n podList [].

(** ** A command *)

(** What [executor.Stream] returns. *)
Inductive stream_error := CodeExitError (code : Z) | StreamError (err : error).

(** How the execution of a command ends: no executor could be made, the stream
    returned before the timeout, or the timeout came first; with the output
    read at that time. *)
Inductive exec_outcome :=
| NoExecutor (err : error)
| Streamed (err : option stream_error) (out err_out : string) (startTime endTime : Z)
| TimedOut (out err_out : string) (startTime endTime : Z).

(** [runCommandInPod] after its increment of [Execs]. *)
Definition command_ends (c : commandParams) (o : exec_outcome) (s : stats) : stats * runCommandResult :=
  let result out err_out code hit t0 t1 exec_err :=
    mkRunCommandResult out err_out code (cmd_Name c) (cmd_Command c) (Duration_String (cmd_Timeout c)) hit t0 t1 exec_err in
  match o with
  | NoExecutor err => (s, result "" "" 0 false 0 0 (Error err))
  | Streamed None out err_out t0 t1 => (s, result out err_out 0 false t0 t1 "")
  | Streamed (Some (CodeExitError code)) out err_out t0 t1 => (inc_NonZeroRCs s, result out err_out code false t0 t1 "")
  | Streamed (Some (StreamError err)) _ _ t0 t1 => (s, result "" "" 0 false t0 t1 (Error err))
  | TimedOut out err_out t0 t1 => (inc_Timeouts s, result out err_out 0 true t0 t1 "")
  end.

(** The rest of the goroutine of the command in [runAllCommandsInPod]. *)
Definition command_reported (r : runCommandResult) (s : stats) : stats :=
  if String.eqb (ExecError r) "" then s else inc_ExecErrors s.

(** ** The worker *)

(** Where the goroutine of a command is; it is gone after its send. *)
Inductive command_state := CNew (c : commandParams) | CRunning (c : commandParams) | CEnded (r : runCommandResult).

(** A pod's goroutine: its commands, and the channel of their results. *)
Record pod_run := mkPodRun { pr_pod : podC; pr_commands : list command_state; pr_ch : list runCommandResult }.

Definition pod_run_new (p : commandMeasurementParams) (pod : podC) : pod_run := mkPodRun pod (map CNew (Commands p)) [].

(** What [runAllCommandsInPod] returns when all commands are done. *)
Definition pod_run_result (container : string) (r : pod_run) : runAllCommandsResult :=
  mkRunAllCommandsResult (pod_Name (pc_pod (pr_pod r))) (pod_Namespace (pc_pod (pr_pod r))) container (pr_ch r).

(** [FirstTick]: before the initial tick; [Selecting]: in the [select];
    [Ticking]: waiting for the pods' goroutines, with [resultsChan]; [Exited]:
    [doneCh] is closed; [Crashed]: [time.NewTicker] panicked, which ends the
    program. *)
Inductive worker :=
| FirstTick | Selecting | Ticking (runs : list pod_run) (resultsChan : list runAllCommandsResult) | Exited | Crashed.

Record measurement := mkMeasurement_ {
  m_params : option commandMeasurementParams;
  isRunning : bool;
  skipGather : bool;
  stopped : bool;                     (* stopCh is closed *)
  commandWorker : option worker;      (* None: not started *)
  results : list runAllCommandsResult;
  m_stats : option stats;
}.

Definition createPodPeriodicCommandMeasurement : measurement := mkMeasurement_ None false false false None [] None.

(** [synced]: the answer of [StartAndSync]. *)
Definition start (params : commandMeasurementParams) (synced : option error) (m : measurement) : measurement * option error :=
  if isRunning m then (m, Some (Errorf "%s: measurement already running" [AStr podPeriodicCommandMeasurementName]))
  else
    let m' := mkMeasurement_ (Some params) true false false None [] (Some no_stats) in
    match synced with
    | Some err => (m', Some err)
    | None => (mkMeasurement_ (Some params) true false false (Some FirstTick) [] (Some no_stats), None)
    end.

(** [doTick] up to its wait, on what the store lists. *)
Definition tick_begins (p : commandMeasurementParams) (podList : list podC) (s : stats) : worker * stats :=
  let s := inc_Ticks s in
  match getMaxNPods (Container p) (Limit p) podList with
  | [] => (Selecting, inc_TicksNoPods s)
  | targetPods => (Ticking (map (pod_run_new p) targetPods) [], s)
  end.

(** The worker and its goroutines, over worker, results and statistics. *)
Record wstate := mkW { w_worker : worker; w_results : list runAllCommandsResult; w_stats : stats }.

Section Worker.
Context (p : commandMeasurementParams) (podLists : list podC -> Prop).

(** The executor returns [CodeExitError] for an exit status other than 0. *)
Definition documented (o : exec_outcome) : Prop :=
  match o with Streamed (Some (CodeExitError code)) _ _ _ _ => code <> 0 | _ => True end.

(** The step of one command. *)
Inductive command_step : command_state -> stats -> option command_state -> option runCommandResult -> stats -> Prop :=
| command_start c s : command_step (CNew c) s (Some (CRunning c)) None (inc_Execs s)
| command_end c s o : documented o -> command_step (CRunning c) s (Some (CEnded (command_ends c o s).2)) None (command_ends c o s).1
| command_send r s : command_step (CEnded r) s None (Some r) (command_reported r s).

Inductive wstep (stop : bool) : wstate -> wstate -> Prop :=
| w_ticker rs s : Interval p <= 0 -> wstep stop (mkW FirstTick rs s) (mkW Crashed rs s)
| w_first podList rs s : 0 < Interval p -> podLists podList ->
    wstep stop (mkW FirstTick rs s) (mkW (tick_begins p podList s).1 rs (tick_begins p podList s).2)
| w_tick podList rs s : podLists podList ->
    wstep stop (mkW Selecting rs s) (mkW (tick_begins p podList s).1 rs (tick_begins p podList s).2)
| w_command before pod cs1 c cs2 ch after rch rs s c' sent s' :
    command_step c s c' sent s' ->
    wstep stop (mkW (Ticking (before ++ mkPodRun pod (cs1 ++ c :: cs2) ch :: after) rch) rs s)
      (mkW (Ticking (before ++ mkPodRun pod (cs1 ++ option_list c' ++ cs2) (ch ++ option_list sent) :: after) rch) rs s')
| w_pod before pod ch after rch rs s :
    wstep stop (mkW (Ticking (before ++ mkPodRun pod [] ch :: after) rch) rs s)
      (mkW (Ticking (before ++ after) (rch ++ [pod_run_result (Container p) (mkPodRun pod [] ch)])) rs s)
| w_done rch rs s : wstep stop (mkW (Ticking [] rch) rs s) (mkW Selecting (rs ++ rch) s)
| w_exit rs s : stop = true -> wstep stop (mkW Selecting rs s) (mkW Exited rs s).
End Worker.

(** ** Gathering *)

(** [stop] up to its wait for [doneCh], and whether it still waits. *)
Definition stop (m : measurement) : measurement :=
  if isRunning m then mkMeasurement_ (m_params m) false (skipGather m) true (commandWorker m) (results m) (m_stats m) else m.

Definition stop_waits (m : measurement) : bool :=
  isRunning m && negb (match commandWorker m with Some Exited => true | _ => false end).

Section Gather.
Context (results_JSON : list runAllCommandsResult -> result string) (stats_JSON : stats -> result string)
  (Format_RFC3339 : Z -> string).

Definition getSummaryName (r : runAllCommandsResult) (c : runCommandResult) (suffix : string) : string :=
  join "-" [podPeriodicCommandMeasurementName; Format_RFC3339 (StartTime c); ra_Namespace r; ra_Pod r; r_Name c; suffix].

Definition output_summaries (now : Z) (r : runAllCommandsResult) (c : runCommandResult) : list Summary :=
  (if String.eqb (stdout c) "" then [] else [CreateSummary now (getSummaryName r c "stdout") "txt" (stdout c)])
  ++ (if String.eqb (stderr c) "" then [] else [CreateSummary now (getSummaryName r c "stderr") "txt" (stderr c)]).

(** What is wrong with a command, as far as the parameters say so. *)
Definition command_error (p : commandMeasurementParams) (r : runAllCommandsResult) (c : runCommandResult) : option error :=
  if FailOnCommandError p && negb (ExitCode c =? 0)
  then Some (Errorf "unexpected non-zero RC while executing command %s in pod %s/%s: got RC %d"
         [AStr (r_Name c); AStr (ra_Namespace r); AStr (ra_Pod r); AInt (ExitCode c)])
  else if FailOnExecError p && negb (String.eqb (ExecError c) "")
  then Some (Errorf "unexpected error while executing command %s in pod %s/%s: %s"
         [AStr (r_Name c); AStr (ra_Namespace r); AStr (ra_Pod r); AStr (ExecError c)])
  else if FailOnTimeout p && HitTimeout c
  then Some (Errorf "hit timeout of %s while executing command %s in pod %s/%s"
         [AStr (r_Timeout c); AStr (r_Name c); AStr (ra_Namespace r); AStr (ra_Pod r)])
  else None.

Fixpoint commands_loop (p : commandMeasurementParams) (now : Z) (r : runAllCommandsResult) (cs : list runCommandResult)
    (acc : list Summary * option error) : list Summary * option error :=
  match cs with
  | [] => acc
  | c :: cs' =>
      commands_loop p now r cs'
        (acc.1 ++ output_summaries now r c, match acc.2 with Some err => Some err | None => command_error p r c end)
  end.

(** [p.params] is read for commands only; [None] is a panic. *)
Fixpoint results_loop (params : option commandMeasurementParams) (now : Z) (rs : list runAllCommandsResult)
    (acc : list Summary * option error) : option (list Summary * option error) :=
  match rs with
  | [] => Some acc
  | r :: rs' =>
      acc ← match ra_Commands r, params with
            | [], _ => Some acc
            | cs, Some p => Some (commands_loop p now r cs acc)
            | _, None => None
            end;
      results_loop params now rs' acc
  end.

(** [gather] once [stop] has returned. *)
Definition gather (now : Z) (m : measurement) : option (measurement * (list Summary * option error)) :=
  match results_JSON (results m) with
  | Err err => Some (m, ([], Some (Errorf "unable to convert results to JSON: %w" [AWrap err])))
  | Ok content =>
      '(measurements, resultErr) ← results_loop (m_params m) now (results m)
                                     ([CreateSummary now podPeriodicCommandMeasurementName "json" content], None);
      s ← m_stats m;
      let s := set_Measurements (Z.of_nat (length measurements) + 1) s in
      let m := mkMeasurement_ (m_params m) (isRunning m) (skipGather m) (stopped m) (commandWorker m) (results m) (Some s) in
      match stats_JSON s with
      | Err err => Some (m, ([], Some (Errorf "unable to convert stats to JSON: %w" [AWrap err])))
      | Ok content =>
          Some (m, (measurements ++ [CreateSummary now (join "-" [podPeriodicCommandMeasurementName; "stats"]) "json" content],
                    resultErr))
      end
  end.

(** What a call of [Execute] does: it returns, or it stops the worker and
    gathers when the wait is over. *)
Inductive execution :=
| Returns (m : measurement) (r : list Summary * option error)
| Gathers (m : measurement).

Definition Execute `{GoLib} (labels_Parse : string -> result string) (synced : option error) (config : MeasurementConfig)
    (m : measurement) : execution :=
  match getString (cfg_Params config) "action" with
  | (_, Some err) => Returns m ([], Some err)
  | (action, None) =>
      if String.eqb action "start" then
        match newPodPeriodCommandMeasurementParams labels_Parse (cfg_Params config) with
        | Err err =>
            Returns (mkMeasurement_ (m_params m) (isRunning m) true (stopped m) (commandWorker m) (results m) (m_stats m)) ([], Some err)
        | Ok params => let '(m, err) := start params synced m in Returns m ([], err)
        end
      else if String.eqb action "gather" then
        if skipGather m then Returns m ([], None) else Gathers (stop m)
      else Returns m ([], Some (Errorf "unknown action %s" [AStr action]))
  end.
End Gather.

(** ** The measurement with its worker *)

(** [stop] is what [gather] and [Dispose] begin with. *)
Inductive mstep (podLists : list podC -> Prop) : measurement -> measurement -> Prop :=
| m_worker p ir sk st w rs s w' rs' s' :
    wstep p podLists st (mkW w rs s) (mkW w' rs' s') ->
    mstep podLists (mkMeasurement_ (Some p) ir sk st (Some w) rs (Some s)) (mkMeasurement_ (Some p) ir sk st (Some w') rs' (Some s'))
| m_stop m : mstep podLists m (stop m).

(** ** Counting *)

Definition cnt {A} (f : A -> bool) (l : list A) : Z := Z.of_nat (length (List.filter f l)).

Lemma cnt_nil {A} (f : A -> bool) : cnt f [] = 0.
Proof. done. Qed.
Lemma cnt_cons {A} (f : A -> bool) x l : cnt f (x :: l) = (if f x then 1 else 0) + cnt f l.
Proof. unfold cnt. cbn. destruct (f x); cbn [length]; lia. Qed.
Lemma cnt_app {A} (f : A -> bool) l l' : cnt f (l ++ l') = cnt f l + cnt f l'.
Proof. induction l as [|x l IH]; [done|]. cbn [app]. rewrite !cnt_cons, IH. lia. Qed.
#[local] Hint Rewrite @cnt_nil @cnt_cons @cnt_app : cnt.

Definition failed (c : runCommandResult) : bool := negb (ExitCode c =? 0).
Definition errored (c : runCommandResult) : bool := negb (String.eqb (ExecError c) "").
Definition anything {A} (_ : A) : bool := true.

(** The commands under way, and those that have sent their result. *)
Definition pending (w : worker) : list command_state :=
  match w with Ticking runs _ => concat (map pr_commands runs) | _ => [] end.
Definition sent (w : wstate) : list runCommandResult :=
  concat (map ra_Commands (w_results w)) ++
  match w_worker w with Ticking runs rch => concat (map ra_Commands rch) ++ concat (map pr_ch runs) | _ => [] end.

Definition begun (c : command_state) : bool := match c with CNew _ => false | _ => true end.
Definition ended (f : runCommandResult -> bool) (c : command_state) : bool := match c with CEnded r => f r | _ => false end.

(** The statistics are exact at every moment. *)
Record exact (w : wstate) : Prop := {
  ex_Execs : Execs (w_stats w) = cnt anything (sent w) + cnt begun (pending (w_worker w));
  ex_NonZero : NonZeroRCs (w_stats w) = cnt failed (sent w) + cnt (ended failed) (pending (w_worker w));
  ex_Timeouts : Timeouts (w_stats w) = cnt HitTimeout (sent w) + cnt (ended HitTimeout) (pending (w_worker w));
  ex_Errors : ExecErrors (w_stats w) = cnt errored (sent w);
}.

Lemma command_step_exact c s c' r s' :
  command_step c s c' r s' ->
  Execs s' + cnt begun [c] = Execs s + cnt begun (option_list c') + cnt anything (option_list r) /\
  NonZeroRCs s' + cnt (ended failed) [c] = NonZeroRCs s + cnt (ended failed) (option_list c') + cnt failed (option_list r) /\
  Timeouts s' + cnt (ended HitTimeout) [c] = Timeouts s + cnt (ended HitTimeout) (option_list c') + cnt HitTimeout (option_list r) /\
  ExecErrors s' = ExecErrors s + cnt errored (option_list r).
Proof.
  intros [c0 s0|c0 s0 o Ho|r0 s0].
  - cbn [option_list option_rect]. rewrite ?cnt_cons, ?cnt_nil. cbn. lia.
  - destruct o as [err|[[code|err]|] out eout t0 t1|out eout t0 t1]; cbn [command_ends fst snd option_list option_rect]; rewrite ?cnt_cons, ?cnt_nil;
      cbn; try lia.
    cbn in Ho. unfold failed. cbn. destruct (Z.eqb_spec code 0); cbn; lia.
  - cbn [option_list option_rect]. rewrite !cnt_cons, !cnt_nil. cbn [begun ended anything]. unfold command_reported, errored.
    destruct (String.eqb (ExecError r0) ""); cbn [negb]; cbn; lia.
Qed.

Lemma tick_begins_stats p podList s :
  Execs (tick_begins p podList s).2 = Execs s /\ NonZeroRCs (tick_begins p podList s).2 = NonZeroRCs s /\
  Timeouts (tick_begins p podList s).2 = Timeouts s /\ ExecErrors (tick_begins p podList s).2 = ExecErrors s.
Proof. unfold tick_begins. by destruct (getMaxNPods _ _ _). Qed.

Lemma cnt_new f cs : (forall c, f (CNew c) = false) -> cnt f (map CNew cs) = 0.
Proof. intros Hf. induction cs as [|c cs IH]; [done|]. cbn [map]. rewrite cnt_cons, Hf, IH. done. Qed.

Lemma tick_begins_pending p podList s rs f :
  (forall c, f (CNew c) = false) ->
  cnt f (pending (tick_begins p podList s).1) = 0 /\ sent (mkW (tick_begins p podList s).1 rs (tick_begins p podList s).2) = concat (map ra_Commands rs).
Proof.
  intros Hf. unfold tick_begins. destruct (getMaxNPods _ _ _) as [|q l]; [split; [done|apply app_nil_r]|].
  unfold sent. cbn [fst w_worker w_results pending]. generalize (q :: l) as pods. clear q l. intros pods. induction pods as [|q pods [IH1 IH2]].
  - split; [done|apply app_nil_r].
  - cbn. rewrite cnt_app, cnt_new by done. cbn in *. split; [lia|exact IH2].
Qed.

Lemma exact_tick p podList rs s w :
  pending w = [] -> sent (mkW w rs s) = concat (map ra_Commands rs) -> exact (mkW w rs s) ->
  exact (mkW (tick_begins p podList s).1 rs (tick_begins p podList s).2).
Proof.
  intros Hp Hs [H1 H2 H3 H4]. rewrite Hs in H1, H2, H3, H4. cbn [w_worker w_stats] in *. rewrite Hp, cnt_nil in *.
  destruct (tick_begins_stats p podList s) as (E1 & E2 & E3 & E4).
  constructor; cbn [w_worker w_stats].
  - destruct (tick_begins_pending p podList s rs begun) as [-> ->]; [done|]. lia.
  - destruct (tick_begins_pending p podList s rs (ended failed)) as [-> ->]; [done|]. lia.
  - destruct (tick_begins_pending p podList s rs (ended HitTimeout)) as [-> ->]; [done|]. lia.
  - destruct (tick_begins_pending p podList s rs begun) as [_ ->]; [done|]. lia.
Qed.

Lemma concat_map_split {A B} (f : A -> list B) l x l' : concat (map f (l ++ x :: l')) = concat (map f l) ++ f x ++ concat (map f l').
Proof. by rewrite map_app, concat_app. Qed.

Lemma exact_step p podLists st w w' : wstep p podLists st w w' -> exact w -> exact w'.
Proof.
  intros [rs s Hi|podList rs s Hi Hp|podList rs s Hp|before pod cs1 c cs2 ch after rch rs s c' r s' Hc|before pod ch after rch rs s|rch rs s|rs s _] [H1 H2 H3 H4].
  - by constructor.
  - apply (exact_tick _ _ _ _ FirstTick); [done|apply app_nil_r|by constructor].
  - apply (exact_tick _ _ _ _ Selecting); [done|apply app_nil_r|by constructor].
  - destruct (command_step_exact _ _ _ _ _ Hc) as (E1 & E2 & E3 & E4). clear Hc.
    unfold sent in *. cbn [w_worker w_stats w_results pending] in *. rewrite !concat_map_split in *. cbn [pr_commands pr_ch] in *.
    rewrite !cnt_app, ?cnt_cons, ?cnt_nil in *.
    constructor; unfold sent; cbn [w_worker w_stats w_results pending]; rewrite !concat_map_split; cbn [pr_commands pr_ch]; rewrite !cnt_app; lia.
  - unfold sent in *. cbn [w_worker w_stats w_results pending] in *. rewrite !concat_map_split in *. cbn [pr_commands pr_ch] in *.
    rewrite !cnt_app in *. constructor; unfold sent; cbn [w_worker w_stats w_results pending]; rewrite !map_app, !concat_app; cbn [map concat pod_run_result ra_Commands pr_ch];
      rewrite !app_nil_r, !cnt_app; rewrite ?cnt_nil in *; lia.
  - unfold sent in *. cbn [w_worker w_stats w_results pending map concat] in *. rewrite app_nil_r in *. rewrite !cnt_app in *.
    constructor; unfold sent; cbn [w_worker w_stats w_results pending]; rewrite map_app, concat_app, app_nil_r, !cnt_app; lia.
  - by constructor.
Qed.

(** ** Which pods and commands *)

Lemma max_n_loop_spec c n l pods :
  Z.of_nat (length pods) < Z.max 1 n ->
  max_n_loop c n l pods = pods ++ take (Z.to_nat (Z.max 1 n) - length pods) (List.filter (isApplicablePod c) l).
Proof.
  revert pods. induction l as [|q l IH]; intros pods Hp; cbn [max_n_loop List.filter]; [by rewrite take_nil, app_nil_r|].
  destruct (isApplicablePod c q); cbn [negb]; [|by apply IH].
  replace (Z.to_nat (Z.max 1 n) - length pods)%nat with (S (Z.to_nat (Z.max 1 n) - length (pods ++ [q]))) by (rewrite length_app; cbn; lia).
  cbn [take]. replace (pods ++ q :: take _ _) with ((pods ++ [q]) ++ take (Z.to_nat (Z.max 1 n) - length (pods ++ [q])) (List.filter (isApplicablePod c) l))
    by (by rewrite <- app_assoc).
  destruct (Z.leb_spec n (Z.of_nat (length (pods ++ [q])))) as [Hn|Hn].
  - rewrite length_app in *. cbn [length] in *. replace (Z.to_nat (Z.max 1 n) - _)%nat with 0%nat by lia. cbn [take]. by rewrite app_nil_r.
  - apply IH. lia.
Qed.

(** The first applicable pods of the list, up to the limit; a limit below 1 acts
    as 1. *)
Lemma getMaxNPods_spec c n l :
  getMaxNPods c n l = take (Z.to_nat (Z.max 1 n)) (List.filter (isApplicablePod c) l).
Proof. unfold getMaxNPods. rewrite max_n_loop_spec by (cbn; lia). cbn [app length]. by rewrite Nat.sub_0_r. Qed.

Definition asked (c : commandParams) : string * list string * string := (cmd_Name c, cmd_Command c, Duration_String (cmd_Timeout c)).
Definition ran (r : runCommandResult) : string * list string * string := (r_Name r, r_Command r, r_Timeout r).
Definition state_asked (c : command_state) : string * list string * string :=
  match c with CNew c | CRunning c => asked c | CEnded r => ran r end.

Section Shape.
Context (p : commandMeasurementParams) (podLists : list podC -> Prop).

(** An applicable pod of a listing. *)
Definition picked (q : podC) : Prop := exists l, podLists l /\ q ∈ l /\ isApplicablePod (Container p) q = true.

(** A result of every command, in a picked pod. *)
Definition complete (r : runAllCommandsResult) : Prop :=
  map ran (ra_Commands r) ≡ₚ map asked (Commands p) /\ ra_Container r = Container p /\
  exists q, picked q /\ ra_Pod r = pod_Name (pc_pod q) /\ ra_Namespace r = pod_Namespace (pc_pod q).

Definition on_course (r : pod_run) : Prop :=
  map ran (pr_ch r) ++ map state_asked (pr_commands r) ≡ₚ map asked (Commands p) /\ picked (pr_pod r).

Definition pods_of (w : worker) : Z :=
  match w with Ticking runs rch => Z.of_nat (length rch) + Z.of_nat (length runs) | _ => 0 end.

Record shape (w : wstate) : Prop := {
  sh_results : Forall complete (w_results w);
  sh_ticking : match w_worker w with Ticking runs rch => Forall complete rch /\ Forall on_course runs | _ => True end;
  sh_least : Ticks (w_stats w) - TicksNoPods (w_stats w) <= Z.of_nat (length (w_results w)) + pods_of (w_worker w);
  sh_most : Z.of_nat (length (w_results w)) + pods_of (w_worker w) <= (Ticks (w_stats w) - TicksNoPods (w_stats w)) * Z.max 1 (Limit p);
}.

Lemma command_step_asked c s c' r s' :
  command_step c s c' r s' ->
  map ran (option_list r) ++ map state_asked (option_list c') = [state_asked c] /\ Ticks s' = Ticks s /\ TicksNoPods s' = TicksNoPods s.
Proof.
  intros [c0 s0|c0 s0 o Ho|r0 s0]; [done| |].
  - by destruct o as [err|[[code|err]|] out eout t0 t1|out eout t0 t1].
  - cbn. unfold command_reported. by destruct (String.eqb _ _).
Qed.

Lemma on_course_new l q : podLists l -> q ∈ List.filter (isApplicablePod (Container p)) l -> on_course (pod_run_new p q).
Proof.
  intros Hl Hq. apply list_elem_of_In, filter_In in Hq as [Hq Ha]. split.
  - cbn. by rewrite map_map.
  - exists l. rewrite list_elem_of_In. done.
Qed.

Lemma shape_tick podList rs s w :
  podLists podList -> pods_of w = 0 -> shape (mkW w rs s) ->
  shape (mkW (tick_begins p podList s).1 rs (tick_begins p podList s).2).
Proof.
  intros Hl Hw [H1 _ H3 H4]. cbn [w_worker w_results w_stats] in *. rewrite Hw in *.
  pose proof (getMaxNPods_spec (Container p) (Limit p) podList) as Hspec. unfold tick_begins.
  destruct (getMaxNPods _ _ _) as [|q l].
  - constructor; cbn [w_worker w_results w_stats fst snd pods_of]; [done|done|..]; cbn; lia.
  - assert (length (q :: l) <= Z.to_nat (Z.max 1 (Limit p)))%nat as Hlen by (rewrite Hspec, length_take; lia).
    cbn [length] in Hlen. constructor; cbn [w_worker w_results w_stats fst snd pods_of].
    + done.
    + split; [constructor|]. apply Forall_map, Forall_forall. intros x Hx. rewrite Hspec in Hx. apply (on_course_new podList); [done|].
      by apply subseteq_take in Hx.
    + rewrite length_map. cbn [length]. cbn. lia.
    + rewrite length_map. cbn [length]. cbn. lia.
Qed.

Lemma Forall_split {A} (P : A -> Prop) l x l' : Forall P (l ++ x :: l') <-> P x /\ Forall P (l ++ l').
Proof. rewrite !Forall_app, Forall_cons. tauto. Qed.

Lemma shape_step st w w' : wstep p podLists st w w' -> shape w -> shape w'.
Proof.
  intros [rs s Hi|podList rs s Hi Hp|podList rs s Hp|before pod cs1 c cs2 ch after rch rs s c' r s' Hc|before pod ch after rch rs s|rch rs s|rs s _] Hw.
  - destruct Hw as [? _ ? ?]. by constructor.
  - by apply (shape_tick _ _ _ FirstTick).
  - by apply (shape_tick _ _ _ Selecting).
  - destruct (command_step_asked _ _ _ _ _ Hc) as (Ha & Ht & Hn). destruct Hw as [H1 [H2 H2'] H3 H4].
    cbn [w_worker w_results w_stats pods_of] in *. rewrite length_app in *. cbn [length] in *.
    constructor; cbn [w_worker w_results w_stats pods_of]; rewrite ?length_app, ?Ht, ?Hn; cbn [length]; try done.
    split; [done|]. apply Forall_split in H2' as [[Hon Hpod] Hrest]. apply Forall_split. split; [|done]. split; [|done].
    cbn [pr_ch pr_commands] in *. rewrite <- Hon, !map_app. cbn [map].
    replace (state_asked c :: map state_asked cs2) with ([state_asked c] ++ map state_asked cs2) by done. rewrite <- Ha. solve_Permutation.
  - destruct Hw as [H1 [H2 H2'] H3 H4]. cbn [w_worker w_results w_stats pods_of] in *. apply Forall_split in H2' as [[Hon Hpod] Hrest].
    rewrite length_app in *. cbn [length] in *.
    constructor; cbn [w_worker w_results w_stats pods_of]; rewrite ?length_app; cbn [length]; [done| |lia..].
    split; [|done]. apply Forall_app. split; [done|]. apply Forall_singleton. cbn [pr_ch pr_commands map] in Hon. rewrite app_nil_r in Hon.
    split; [exact Hon|]. split; [done|]. by exists pod.
  - destruct Hw as [H1 [H2 _] H3 H4]. cbn [w_worker w_results w_stats pods_of length] in *.
    constructor; cbn [w_worker w_results w_stats pods_of]; rewrite ?length_app; [by apply Forall_app|done|lia..].
  - destruct Hw as [? _ ? ?]. by constructor.
Qed.
End Shape.

(** ** A tick ends *)

Definition command_work (c : command_state) : nat := match c with CNew _ => 3 | CRunning _ => 2 | CEnded _ => 1 end.
Definition pod_work (r : pod_run) : nat := S (sum_list_with command_work (pr_commands r)).
Definition work_left (w : worker) : nat := match w with Ticking runs _ => S (sum_list_with pod_work runs) | _ => 0 end.

(** Whatever the order of its goroutines, a tick is never stuck and every step
    brings its end closer. *)
Lemma tick_ends p podLists st runs rch rs s :
  (exists w', wstep p podLists st (mkW (Ticking runs rch) rs s) w') /\
  forall w', wstep p podLists st (mkW (Ticking runs rch) rs s) w' -> (work_left (w_worker w') < work_left (Ticking runs rch))%nat.
Proof.
  split.
  - destruct runs as [|[pod [|c cs] ch] runs].
    + eexists. apply w_done.
    + eexists. apply (w_pod _ _ _ []).
    + destruct c as [c|c|r]; (eexists; apply (w_command _ _ _ [] pod [] _ cs ch runs)).
      * apply command_start.
      * by apply (command_end _ _ (NoExecutor ErrCritical)).
      * apply command_send.
  - intros w' Hs. inversion Hs as [| | |before pod cs1 c cs2 ch after rch' rs' s0 c' r s' Hc|before pod ch after rch' rs' s0|rch' rs' s0|]; subst; cbn [w_worker work_left].
    + rewrite !sum_list_with_app. cbn [sum_list_with]. unfold pod_work. cbn [pr_commands]. rewrite !sum_list_with_app.
      cbn [sum_list_with]. destruct Hc; cbn; lia.
    + rewrite !sum_list_with_app. cbn. lia.
    + lia.
Qed.

(** ** What is gathered *)

Section GatherSpec.
Context (results_JSON : list runAllCommandsResult -> result string) (stats_JSON : stats -> result string)
  (Format_RFC3339 : Z -> string).

(** The commands with the result they belong to. *)
Definition all_commands (rs : list runAllCommandsResult) : list (runAllCommandsResult * runCommandResult) :=
  concat (map (fun r => map (pair r) (ra_Commands r)) rs).

Definition outputs (now : Z) (l : list (runAllCommandsResult * runCommandResult)) : list Summary :=
  concat (map (fun '(r, c) => output_summaries Format_RFC3339 now r c) l).

Definition first_error (p : commandMeasurementParams) (l : list (runAllCommandsResult * runCommandResult)) : option error :=
  head (omap (fun '(r, c) => command_error p r c) l).

Lemma first_error_cons p r c l :
  first_error p ((r, c) :: l) = match command_error p r c with Some err => Some err | None => first_error p l end.
Proof using. unfold first_error. cbn. by destruct (command_error p r c). Qed.

Definition or_else (e e' : option error) : option error := match e with Some err => Some err | None => e' end.

Lemma or_else_assoc e1 e2 e3 : or_else (or_else e1 e2) e3 = or_else e1 (or_else e2 e3).
Proof. by destruct e1. Qed.

Lemma first_error_app p l l' : first_error p (l ++ l') = or_else (first_error p l) (first_error p l').
Proof using. induction l as [|[r c] l IH]; [done|]. cbn [app]. rewrite !first_error_cons, IH. by destruct (command_error p r c). Qed.

Lemma commands_loop_spec p now r cs acc :
  commands_loop Format_RFC3339 p now r cs acc =
  (acc.1 ++ outputs now (map (pair r) cs), or_else acc.2 (first_error p (map (pair r) cs))).
Proof.
  revert acc. induction cs as [|c cs IH]; intros [l e]; cbn [commands_loop map].
  - cbn. rewrite app_nil_r. by destruct e.
  - rewrite IH. cbn [fst snd]. rewrite first_error_cons. unfold outputs. cbn [map concat]. rewrite <- app_assoc. by destruct e.
Qed.

Lemma results_loop_spec p now rs acc :
  results_loop Format_RFC3339 (Some p) now rs acc =
  Some (acc.1 ++ outputs now (all_commands rs), or_else acc.2 (first_error p (all_commands rs))).
Proof.
  revert acc. induction rs as [|r rs IH]; intros [l e]; cbn [results_loop].
  - cbn. rewrite app_nil_r. by destruct e.
  - assert (match ra_Commands r with [] => Some (l, e) | cs => Some (commands_loop Format_RFC3339 p now r cs (l, e)) end
            = Some (commands_loop Format_RFC3339 p now r (ra_Commands r) (l, e))) as Hcs by (by destruct (ra_Commands r)).
    destruct (ra_Commands r) eqn:Hr.
    + cbn [mbind option_bind]. rewrite IH. unfold all_commands. cbn [map concat]. by rewrite Hr.
    + rewrite <- Hr in *. cbn [mbind option_bind]. rewrite IH, commands_loop_spec. cbn [fst snd]. unfold all_commands. cbn [map concat].
      unfold outputs. rewrite map_app, concat_app, first_error_app, app_assoc. by rewrite or_else_assoc.
Qed.

(** What the parameters tolerate. *)
Definition acceptable (p : commandMeasurementParams) (c : runCommandResult) : Prop :=
  (FailOnCommandError p = true -> ExitCode c = 0) /\ (FailOnExecError p = true -> ExecError c = "") /\
  (FailOnTimeout p = true -> HitTimeout c = false).

Lemma command_error_None p r c : command_error p r c = None <-> acceptable p c.
Proof using.
  clear results_JSON stats_JSON Format_RFC3339.
  unfold command_error, acceptable.
  destruct (Z.eqb_spec (ExitCode c) 0), (String.eqb_spec (ExecError c) ""), (FailOnCommandError p), (FailOnExecError p), (FailOnTimeout p), (HitTimeout c);
    cbn; split; intros; try done; naive_solver.
Qed.

Lemma first_error_None p rs : first_error p (all_commands rs) = None <-> Forall (acceptable p) (concat (map ra_Commands rs)).
Proof using.
  clear results_JSON stats_JSON Format_RFC3339.
  assert (forall r cs, first_error p (map (pair r) cs) = None <-> Forall (acceptable p) cs) as Hone.
  { intros r cs. induction cs as [|c cs IH]; [done|]. cbn [map]. rewrite first_error_cons, Forall_cons, <- IH, <- (command_error_None p r).
    destruct (command_error p r c); [|tauto]. split; [done|by intros []]. }
  induction rs as [|r rs IH]; [done|]. unfold all_commands. cbn [map concat]. rewrite first_error_app, Forall_app, <- IH, <- (Hone r).
  unfold all_commands. destruct (first_error p (map (pair r) (ra_Commands r))); [|tauto]. split; [done|by intros []].
Qed.

Lemma gather_spec p now m s :
  m_params m = Some p -> m_stats m = Some s ->
  exists m' ss err, gather results_JSON stats_JSON Format_RFC3339 now m = Some (m', (ss, err)) /\
    forall c1 c2 s', results_JSON (results m) = Ok c1 ->
      s' = set_Measurements (Z.of_nat (length (outputs now (all_commands (results m)))) + 2) s ->
      stats_JSON s' = Ok c2 ->
      ss = CreateSummary now podPeriodicCommandMeasurementName "json" c1 :: outputs now (all_commands (results m)) ++
           [CreateSummary now "PodPeriodicCommand-stats" "json" c2] /\
      err = first_error p (all_commands (results m)).
Proof.
  intros Hp Hs. unfold gather. destruct (results_JSON (results m)) as [content|e]; [|do 3 eexists; split; [done|]; discriminate].
  rewrite Hp, results_loop_spec, Hs. cbn [fst snd mbind option_bind or_else app length].
  destruct (stats_JSON _) as [content2|e2] eqn:Hj.
  - do 3 eexists. split; [done|]. intros c1 c2 s' [= <-] -> Hj'.
    replace (Z.of_nat (S (length (outputs now (all_commands (results m))))) + 1) with (Z.of_nat (length (outputs now (all_commands (results m)))) + 2) in Hj by lia.
    rewrite Hj' in Hj. injection Hj as <-. done.
  - do 3 eexists. split; [done|]. intros c1 c2 s' [= <-] -> Hj'.
    replace (Z.of_nat (S (length (outputs now (all_commands (results m))))) + 1) with (Z.of_nat (length (outputs now (all_commands (results m)))) + 2) in Hj by lia.
    by rewrite Hj' in Hj.
Qed.
End GatherSpec.

(** ** The measurement *)

Record consistent (p : commandMeasurementParams) (podLists : list podC -> Prop) (m : measurement) : Prop := {
  co_params : m_params m = Some p;
  co_worker : exists w s, commandWorker m = Some w /\ m_stats m = Some s /\
    exact (mkW w (results m) s) /\ shape p podLists (mkW w (results m) s);
}.

Lemma consistent_start p podLists m m0 : start p None m = (m0, None) -> consistent p podLists m0.
Proof.
  unfold start. destruct (isRunning m); [done|]. intros [= <-]. constructor; [done|]. exists FirstTick, no_stats.
  split; [done|]. split; [done|]. split; constructor; cbn; try done; lia.
Qed.

Lemma consistent_step p podLists m m' : mstep podLists m m' -> consistent p podLists m -> consistent p podLists m'.
Proof.
  intros [q ir sk st w rs s w' rs' s' Hs|m0] [Hp (w0 & s0 & Hw & Hst & He & Hsh)].
  - cbn in Hp, Hw, Hst, He, Hsh. injection Hp as ->. injection Hw as <-. injection Hst as <-. constructor; [done|].
    exists w', s'. split; [done|]. split; [done|]. split; [by eapply exact_step|by eapply shape_step].
  - unfold stop. destruct (isRunning m0); (constructor; [done|]); by exists w0, s0.
Qed.


(** A start whose informer does not sync leaves a running measurement without a
    worker: stopping it waits for ever. *)
Lemma failed_sync_blocks p err m m0 podLists m1 :
  isRunning m = false -> start p (Some err) m = (m0, Some err) -> rtc (mstep podLists) m0 m1 ->
  stop_waits m0 = true /\ commandWorker m1 = None.
Proof.
  unfold start. intros -> [= <-] Hr. split; [done|].
  cut (forall a b, rtc (mstep podLists) a b -> commandWorker a = None -> commandWorker b = None); [intros Hcut; by eapply Hcut|].
  clear. induction 1 as [|a b c Hs _ IH]; [done|]. intros Ha. apply IH. destruct Hs as [|a]; [done|]. unfold stop. by destruct (isRunning a).
Qed.

(** Gathering a measurement that was never started dereferences its nil
    statistics. *)
Lemma gather_unstarted_panics results_JSON stats_JSON Format_RFC3339 now c :
  results_JSON [] = Ok c -> gather results_JSON stats_JSON Format_RFC3339 now createPodPeriodicCommandMeasurement = None.
Proof. intros Hj. unfold gather. change (results createPodPeriodicCommandMeasurement) with (@nil runAllCommandsResult). by rewrite Hj. Qed.

(** A limit of 0 still runs the commands in a pod. *)
Lemma limit_zero_runs c q l : isApplicablePod c q = true -> getMaxNPods c 0 (q :: l) = [q].
Proof. intros Hq. rewrite getMaxNPods_spec. cbn [List.filter]. rewrite Hq. done. Qed.

(** *** A concrete run *)
Definition ex_params : commandMeasurementParams :=
  mkCommandMeasurementParams "app = web" 1000 "main" 1 true false true [mkCommandParams "date" ["date"] Second].
Definition ex_pod : podC := mkPodC (mkPod "web-1" "ns" None "Running" [mkCondition "Ready" "True"] "node") ["main"].
Definition ex_outcome : exec_outcome := Streamed (Some (CodeExitError 2)) "" "no" 5 6.
Definition ex_result : runAllCommandsResult :=
  mkRunAllCommandsResult "web-1" "ns" "main" [mkRunCommandResult "" "no" 2 "date" ["date"] "1s" false 5 6 ""].
Definition ex_started : measurement := (start ex_params None createPodPeriodicCommandMeasurement).1.
Definition ex_exited : measurement :=
  mkMeasurement_ (Some ex_params) false false true (Some Exited) [ex_result] (Some (mkStats 1 0 0 1 0 1 0)).

Lemma ex_command_run : rtc (mstep (eq [ex_pod])) ex_started ex_exited.
Proof.
  eapply rtc_l. { apply m_worker. by apply w_first with (podList := [ex_pod]). }
  eapply rtc_l. { apply m_worker. apply (w_command _ _ _ [] ex_pod [] _ [] [] []). apply command_start. }
  eapply rtc_l. { apply m_worker. apply (w_command _ _ _ [] ex_pod [] _ [] [] []). by apply (command_end _ _ ex_outcome). }
  eapply rtc_l. { apply m_worker. apply (w_command _ _ _ [] ex_pod [] _ [] [] []). apply command_send. }
  eapply rtc_l. { apply m_worker. apply (w_pod _ _ _ []). }
  eapply rtc_l. { apply m_worker. apply w_done. }
  eapply rtc_l. { apply m_stop. }
  eapply rtc_l. { apply m_worker. by apply w_exit. }
  apply rtc_refl.
Qed.

