(* ===== verification/NetworkPolicy.v ===== *)
(** * Network policy enforcement latency
      (pkg/measurement/common/network-policy/network-policy-enforcement-latency.go)

    The measurement deploys one test client per target namespace and, for the
    policy creation test, a policy each client waits for while further policies
    load the cluster. Applying a manifest (framework.go, see Services), the
    API calls and the rate limiter are operations of an interface. *)

From S2P Require Import Prelude GoErrors GoRuntime Params Measurement Pods Services.

Definition networkPolicyEnforcementName : string := "NetworkPolicyEnforcement".
Definition netPolicyTestNamespace : string := "net-policy-test".
Definition netPolicyTestClientName : string := "np-test-client".
Definition policyCreationTest : string := "policy-creation".
Definition podCreationTest : string := "pod-creation".
Definition denyLabelValue : string := "deny-traffic".
Definition allowPolicyName : string := "allow-egress-to-target".
Definition denyPolicyName : string := "deny-egress-to-target".
Definition serviceAccountFilePath : string := "manifests/serviceaccount.yaml".
Definition clusterRoleFilePath : string := "manifests/clusterrole.yaml".
Definition clusterRoleBindingFilePath : string := "manifests/clusterrolebinding.yaml".
Definition depTestClientPolicyCreationFilePath : string := "manifests/dep-test-client-policy-creation.yaml".
Definition depTestClientPodCreationFilePath : string := "manifests/dep-test-client-pod-creation.yaml".
Definition policyEgressApiserverFilePath : string := "manifests/policy-egress-allow-apiserver.yaml".
Definition policyEgressTargetPodsFilePath : string := "manifests/policy-egress-allow-target-pods.yaml".
Definition policyLoadFilePath : string := "manifests/policy-load.yaml".
Definition defaultPolicyTargetLoadBaseName : string := "small-deployment".
Definition defaultPolicyLoadCount : Z := 1000.
Definition defaultPolicyLoadQPS : Z := 10.

(** [configured]: the framework is set; [connected]: the client is. *)
Record measurement := mkMeasurement_ {
  configured : bool;
  connected : bool;
  testClientNamespace : string;
  targetLabelValue : string;
  targetNamespaces : list string;
  baseline : bool;
  testClientNodeSelectorValue : string;
}.

Definition createNetworkPolicyEnforcementMeasurement : measurement := mkMeasurement_ false false "" "" [] false "".

(** The calls made to the framework and to the API server. *)
Class PolicyServer (W : Type) := {
  apply_manifests : string -> params -> W -> W * option error;
  create_namespace : string -> W -> W * option error;
  delete_namespace : string -> W -> W * option error;
  list_namespaces : W -> result (list string);
  policy_exists : string -> string -> W -> bool;                 (* namespace, name *)
  apiserver_addresses : W -> result (list (list string));        (* of each subset of the endpoints *)
  client_pod_store : string -> string -> W -> option error;      (* namespace, label selector *)
  wait_for_client_pods : Z -> W -> W;                            (* whatever comes of it *)
  delete_deployments : string -> string -> W -> W * option error;
  delete_cluster_role : string -> W -> W * option error;
  delete_cluster_role_binding : string -> W -> W * option error;
}.

Section NetworkPolicy.
Context {W : Type} `{PolicyServer W} `{GoLib}.

(** A manifest with its mapping. *)
Abbreviation call := (string * params)%type.
Definition do_call (c : call) (w : W) : W * option error := apply_manifests c.1 c.2 w.

(** ** Set-up *)

Definition createPermissionResources (nps : measurement) (w : W) : W * option error :=
  let templateMap := {[ "Name" := VString netPolicyTestClientName; "Namespace" := VString (testClientNamespace nps) ]} : params in
  run_steps [
    wrapped (fun err => Errorf "error while creating serviceaccount: %v" [AErr err]) (apply_manifests serviceAccountFilePath templateMap);
    wrapped (fun err => Errorf "error while creating clusterrole: %v" [AErr err]) (apply_manifests clusterRoleFilePath templateMap);
    wrapped (fun err => Errorf "error while creating clusterrolebinding: %v" [AErr err]) (apply_manifests clusterRoleBindingFilePath templateMap)
  ] w.

Definition createPolicyAllowAPIServer (nps : measurement) (w : W) : W * option error :=
  let policyName := "allow-egress-apiserver" in
  if policy_exists (testClientNamespace nps) policyName w then (w, None)
  else
    match apiserver_addresses w with
    | Err err => (w, Some (Errorf "failed to get kube-apiserver Endpoints object: %v" [AErr err]))
    | Ok ((kubeAPIServerIP :: _) :: _) =>
        let templateMap := {[ "Name" := VString policyName; "Namespace" := VString (testClientNamespace nps);
                              "TestClientLabel" := VString netPolicyTestClientName; "kubeAPIServerIP" := VString kubeAPIServerIP ]} : params in
        wrapped (fun err => Errorf "error while creating allow egress to apiserver network policy: %v" [AErr err])
          (apply_manifests policyEgressApiserverFilePath templateMap) w
    | Ok _ => (w, Some (Errorf "kube-apiserver Endpoints object does not have an IP address" []))
    end.

Definition target_policy (nps : measurement) (policyName targetNamespace testType : string) (allowForTargetPods : bool) : call :=
  let templateMap := {[ "Name" := VString policyName; "Namespace" := VString (testClientNamespace nps);
                        "TypeLabelValue" := VString testType ]} : params in
  let templateMap := <["TargetLabelValue" := VString (if allowForTargetPods then targetLabelValue nps else denyLabelValue)]> templateMap in
  let templateMap :=
    if String.eqb targetNamespace "" then <["OnlyTargetNamespace" := VBool false]> templateMap
    else <["TargetNamespace" := VString targetNamespace]> (<["OnlyTargetNamespace" := VBool true]> templateMap) in
  (policyEgressTargetPodsFilePath, templateMap).

Definition createPolicyToTargetPods (nps : measurement) (policyName targetNamespace testType : string) (allowForTargetPods : bool)
  : W -> W * option error :=
  wrapped (fun err => Errorf "error while creating allow egress to pods network policy: %v" [AErr err])
    (do_call (target_policy nps policyName targetNamespace testType allowForTargetPods)).

(** The fields are assigned one by one, the framework before the namespaces are
    looked at. *)
Definition initializeMeasurement (prefix : string) (config : MeasurementConfig) (nps : measurement) (w : W) : measurement * option error :=
  if configured nps
  then (nps, Some (Errorf "the %q is already started. Cannot start again" [AStr networkPolicyEnforcementName]))
  else
    let '(label, err) := getString (cfg_Params config) "targetLabelValue" in
    let nps := mkMeasurement_ false (connected nps) (testClientNamespace nps) label (targetNamespaces nps) (baseline nps) (testClientNodeSelectorValue nps) in
    if err is Some _ then (nps, err) else
    let '(ns, err) := GetStringOrDefault (cfg_Params config) "testClientNamespace" netPolicyTestNamespace in
    let nps := mkMeasurement_ false (connected nps) ns label (targetNamespaces nps) (baseline nps) (testClientNodeSelectorValue nps) in
    if err is Some _ then (nps, err) else
    let '(base, err) := GetBoolOrDefault (cfg_Params config) "baseline" false in
    let nps := mkMeasurement_ false (connected nps) ns label (targetNamespaces nps) base (testClientNodeSelectorValue nps) in
    if err is Some _ then (nps, err) else
    let '(sel, err) := getString (cfg_Params config) "testClientNodeSelectorValue" in
    let nps := mkMeasurement_ false (connected nps) ns label (targetNamespaces nps) base sel in
    if err is Some _ then (nps, err) else
    let nps := mkMeasurement_ true true ns label (targetNamespaces nps) base sel in
    match list_namespaces w with
    | Err err => (nps, Some err)
    | Ok namespaces =>
        let targets := targetNamespaces nps ++ List.filter (String.prefix prefix) namespaces in
        let nps := mkMeasurement_ true true ns label targets base sel in
        match targets with
        | [] => (nps, Some (Errorf "cannot initialize the %q, no namespaces with prefix %q exist" [AStr networkPolicyEnforcementName; AStr prefix]))
        | _ => (nps, None)
        end
    end.

Definition setup (prefix : string) (config : MeasurementConfig) (nps : measurement) (w : W) : (measurement * W) * option error :=
  match initializeMeasurement prefix config nps w with
  | (nps, Some err) => ((nps, w), Some (Errorf "failed to initialize the measurement: %v" [AErr err]))
  | (nps, None) =>
      let '(w, err) := run_steps (
        [wrapped (fun err => Errorf "error while creating namespace: %v" [AErr err]) (create_namespace (testClientNamespace nps))] ++
        (if baseline nps then [] else
           [createPolicyAllowAPIServer nps;
            createPolicyToTargetPods nps (Sprintf "%s-pod-creation" [FStr allowPolicyName]) "" podCreationTest true;
            createPolicyToTargetPods nps (Sprintf "%s-policy-creation" [FStr denyPolicyName]) "" policyCreationTest false]) ++
        [createPermissionResources nps]) w in
      ((nps, w), err)
  end.

(** ** The tests *)

Definition client_name (testType : string) (i : nat) : string := Sprintf "%s-%s-%d" [FStr testType; FStr netPolicyTestClientName; FInt (Z.of_nat i)].
Definition allow_policy (i : nat) : string := Sprintf "%s-%d" [FStr allowPolicyName; FInt (Z.of_nat i)].

(** The loop over the target namespaces; the map is shared by the calls. *)
Fixpoint deployments_loop (testType path : string) (namespaces : list string) (i : nat) (templateMap : params) (w : W) : W * option error :=
  match namespaces with
  | [] => (w, None)
  | ns :: rest =>
      let templateMap := <["AllowPolicyName" := VString (allow_policy i)]>
                           (<["TargetNamespace" := VString ns]> (<["Name" := VString (client_name testType i)]> templateMap)) in
      match apply_manifests path templateMap w with
      | (w, Some err) => (w, Some (Errorf "error while creating test client deployment: %v" [AErr err]))
      | (w, None) => deployments_loop testType path rest (S i) templateMap w
      end
  end.

Definition createTestClientDeployments (nps : measurement) (templateMap : params) (testType path : string) (w : W) : W * option error :=
  deployments_loop testType path (targetNamespaces nps) 0 (<["TypeLabelValue" := VString testType]> templateMap) w.

Definition runPodCreationTest (nps : measurement) (templateMap : params) (w : W) : W * option error :=
  createTestClientDeployments nps templateMap podCreationTest depTestClientPodCreationFilePath w.

Definition load_policy (baseName ns : string) (nsIdx depIdx : nat) : call :=
  let podSelectorLabelValue := Sprintf "policy-load-%s-%d" [FStr baseName; FInt (Z.of_nat depIdx)] in
  (policyLoadFilePath,
   {[ "Name" := VString (Sprintf "%s-%d" [FStr podSelectorLabelValue; FInt (Z.of_nat nsIdx)]);
      "Namespace" := VString ns;
      "PodSelectorLabelValue" := VString podSelectorLabelValue;
      "CIDR" := VString (Sprintf "10.0.%d.0/24" [FInt (Z.of_nat nsIdx mod 256)]) ]} : params).

(** The two loops of [createLoadPolicies]. *)
Fixpoint load_loop (baseName : string) (policiesPerNs : nat) (namespaces : list string) (nsIdx : nat) : list call :=
  match namespaces with
  | [] => []
  | ns :: rest => map (load_policy baseName ns nsIdx) (seq 0 policiesPerNs) ++ load_loop baseName policiesPerNs rest (S nsIdx)
  end.

(** Up to the first wait that fails; [limiter_Wait qps i]: the [i]-th wait. *)
Fixpoint until_wait_fails (wait : nat -> option error) (i : nat) (calls : list call) : list call :=
  match calls with
  | [] => []
  | c :: calls' => match wait i with Some _ => [] | None => c :: until_wait_fails wait (S i) calls' end
  end.

Context (limiter_Wait : Z -> nat -> option error).

(** The policies [createLoadPolicies] applies; dividing by no namespaces
    panics. *)
Definition createLoadPolicies (nps : measurement) (config : MeasurementConfig) : option (list call) :=
  match GetStringOrDefault (cfg_Params config) "policyLoadTargetBaseName" defaultPolicyTargetLoadBaseName with
  | (_, Some _) => Some []
  | (baseName, None) =>
      match GetIntOrDefault (cfg_Params config) "policyLoadCount" defaultPolicyLoadCount with
      | (_, Some _) => Some []
      | (count, None) =>
          match GetIntOrDefault (cfg_Params config) "policyLoadQPS" defaultPolicyLoadQPS with
          | (_, Some _) => Some []
          | (qps, None) =>
              match targetNamespaces nps with
              | [] => None
              | namespaces =>
                  let policiesPerNs := Z.quot count (Z.of_nat (length namespaces)) in
                  Some (until_wait_fails (limiter_Wait qps) 0 (load_loop baseName (Z.to_nat policiesPerNs) namespaces 0))
              end
          end
      end
  end.

Fixpoint allow_loop (nps : measurement) (namespaces : list string) (i : nat) : list call :=
  match namespaces with
  | [] => []
  | ns :: rest => target_policy nps (allow_policy i) ns policyCreationTest true :: allow_loop nps rest (S i)
  end.

Definition createAllowPoliciesForPolicyCreationLatency (nps : measurement) : list call := allow_loop nps (targetNamespaces nps) 0.

(** Calls whose errors are only logged. *)
Definition apply_all (calls : list call) (w : W) : W := fold_left (fun w c => (do_call c w).1) calls w.

(** Two goroutines: [merge] is the order of their calls. [None]: the program
    panics. *)
Definition runPolicyCreationTest (merge : list call -> list call -> list call) (nps : measurement) (templateMap : params)
    (config : MeasurementConfig) (w : W) : option (W * option error) :=
  if baseline nps then Some (w, None)
  else
    match createTestClientDeployments nps templateMap policyCreationTest depTestClientPolicyCreationFilePath w with
    | (w, Some err) => Some (w, Some err)
    | (w, None) =>
        match client_pod_store (testClientNamespace nps) (Sprintf "type = %s" [FStr policyCreationTest]) w with
        | Some err => Some (w, Some err)
        | None =>
            let w := wait_for_client_pods (Z.of_nat (length (targetNamespaces nps))) w in
            load ← createLoadPolicies nps config;
            Some (apply_all (merge (createAllowPoliciesForPolicyCreationLatency nps) load) w, None)
        end
    end.

Definition run_template (nps : measurement) (targetPort maxTargets metricsPort : Z) : params :=
  {[ "Namespace" := VString (testClientNamespace nps);
     "TestClientLabel" := VString netPolicyTestClientName;
     "TargetLabelSelector" := VString (Sprintf "net-pol-test = %s" [FStr (targetLabelValue nps)]);
     "TargetPort" := VInt targetPort;
     "MetricsPort" := VInt metricsPort;
     "ServiceAccountName" := VString netPolicyTestClientName;
     "MaxTargets" := VInt maxTargets;
     "TestClientNodeSelectorValue" := VString (testClientNodeSelectorValue nps) ]}.

Definition run (merge : list call -> list call -> list call) (config : MeasurementConfig) (nps : measurement) (w : W)
  : option (W * option error) :=
  if negb (configured nps)
  then Some (w, Some (Errorf "the %q is not set up. Execute with the `setup` action before with the `run` action" [AStr networkPolicyEnforcementName]))
  else
    match GetIntOrDefault (cfg_Params config) "targetPort" 80 with
    | (_, Some err) => Some (w, Some err)
    | (targetPort, None) =>
        match GetIntOrDefault (cfg_Params config) "maxTargets" 1000 with
        | (_, Some err) => Some (w, Some err)
        | (maxTargets, None) =>
            match GetIntOrDefault (cfg_Params config) "metricsPort" 9160 with
            | (_, Some err) => Some (w, Some err)
            | (metricsPort, None) =>
                match getString (cfg_Params config) "testType" with
                | (_, Some err) => Some (w, Some err)
                | (testType, None) =>
                    let templateMap := run_template nps targetPort maxTargets metricsPort in
                    if String.eqb testType policyCreationTest then runPolicyCreationTest merge nps templateMap config w
                    else if String.eqb testType podCreationTest then Some (runPodCreationTest nps templateMap w)
                    else Some (w, Some (Errorf "unknown testType is specified: %q" [AStr testType]))
                end
            end
        end
    end.

(** ** Completion and clean-up *)

(** Without a client the call dereferences nil. *)
Definition complete (config : MeasurementConfig) (nps : measurement) (w : W) : option (W * option error) :=
  match getString (cfg_Params config) "testType" with
  | (_, Some err) => Some (w, Some err)
  | (testType, None) =>
      if String.eqb testType policyCreationTest || String.eqb testType podCreationTest then
        if connected nps
        then Some (wrapped (fun err => Errorf "failed to complete %q test, error: %v" [AStr testType; AErr err])
                     (delete_deployments (testClientNamespace nps) (Sprintf "type=%s" [FStr testType])) w)
        else None
      else Some (w, Some (Errorf "unknown testType is specified: %q" [AStr testType]))
  end.

Definition deleteClusterRoleAndBinding (w : W) : W * option error :=
  run_steps [delete_cluster_role netPolicyTestClientName; delete_cluster_role_binding netPolicyTestClientName] w.

Definition cleanUp (nps : measurement) (w : W) : W * option error :=
  if negb (connected nps) then (w, Some (Errorf "cleanup skipped - the measurement is not running" []))
  else run_steps [deleteClusterRoleAndBinding; delete_namespace (testClientNamespace nps)] w.

Definition Dispose (nps : measurement) (w : W) : W := (cleanUp nps w).1.

Definition Execute (prefix : string) (merge : list call -> list call -> list call) (config : MeasurementConfig) (nps : measurement) (w : W)
  : option ((measurement * W) * option error) :=
  match getString (cfg_Params config) "action" with
  | (_, Some err) => Some ((nps, w), Some err)
  | (action, None) =>
      if String.eqb action "setup" then Some (setup prefix config nps w)
      else if String.eqb action "run" then '(w, err) ← run merge config nps w; Some ((nps, w), err)
      else if String.eqb action "complete" then '(w, err) ← complete config nps w; Some ((nps, w), err)
      else Some ((nps, w), Some (Errorf "unknown action %v" [AStr action]))
  end.
End NetworkPolicy.

(** ** Names *)

Lemma load_name baseName dep ns :
  Sprintf "%s-%d" [FStr (Sprintf "policy-load-%s-%d" [FStr baseName; FInt dep]); FInt ns] =
  indexed_name (indexed_name ("policy-load-" +:+ baseName) dep) ns.
Proof. rewrite !indexed_name_eq. cbn. by rewrite !string_app_nil_r. Qed.

Lemma allow_policy_inj i j : allow_policy i = allow_policy j -> i = j.
Proof.
  unfold allow_policy. change (Sprintf "%s-%d" [FStr allowPolicyName; FInt (Z.of_nat i)]) with (indexed_name allowPolicyName (Z.of_nat i)).
  change (Sprintf "%s-%d" [FStr allowPolicyName; FInt (Z.of_nat j)]) with (indexed_name allowPolicyName (Z.of_nat j)).
  intros Heq%indexed_name_inj. lia.
Qed.

(** ** The calls of the policy creation test *)

Section Correct.
Context {W : Type} `{PolicyServer W} `{GoLib} (limiter_Wait : Z -> nat -> option error).

(** The deployments of the test clients, in order. *)
Fixpoint client_calls (testType path : string) (namespaces : list string) (i : nat) (templateMap : params) : list (string * params) :=
  match namespaces with
  | [] => []
  | ns :: rest =>
      let templateMap := <["AllowPolicyName" := VString (allow_policy i)]>
                           (<["TargetNamespace" := VString ns]> (<["Name" := VString (client_name testType i)]> templateMap)) in
      (path, templateMap) :: client_calls testType path rest (S i) templateMap
  end.

Lemma deployments_loop_calls testType path namespaces i m (w w' : W) :
  deployments_loop testType path namespaces i m w = (w', None) ->
  run_steps (map do_call (client_calls testType path namespaces i m)) w = (w', None).
Proof using.
  revert i m w. induction namespaces as [|ns rest IH]; intros i m w; cbn [deployments_loop client_calls map run_steps]; [done|].
  unfold do_call at 1. cbn [fst snd]. destruct (apply_manifests path _ w) as [w1 [err|]]; [done|]. apply IH.
Qed.

(** What a client is told: its namespace, the policy it waits for, and the
    fields all clients share. *)
Lemma client_calls_lookup testType path namespaces i m k ns :
  namespaces !! k = Some ns ->
  exists m', client_calls testType path namespaces i m !! k = Some (path, m') /\
    m' !! "TargetNamespace" = Some (VString ns) /\ m' !! "AllowPolicyName" = Some (VString (allow_policy (i + k))) /\
    m' !! "Name" = Some (VString (client_name testType (i + k))) /\
    forall f, f ∉ ["AllowPolicyName"; "TargetNamespace"; "Name"] -> m' !! f = m !! f.
Proof using.
  revert i m k. induction namespaces as [|n rest IH]; intros i m [|k] Hk; try done.
  - injection Hk as ->. eexists. split; [done|]. rewrite Nat.add_0_r. cbn -[allow_policy client_name].
    split; [by rewrite lookup_insert_ne, lookup_insert_eq by done|]. split; [by rewrite lookup_insert_eq|].
    split; [by rewrite !lookup_insert_ne, lookup_insert_eq by done|].
    intros f Hf. rewrite !not_elem_of_cons in Hf. destruct Hf as (? & ? & ? & _). by rewrite !lookup_insert_ne by congruence.
  - cbn [client_calls lookup list_lookup]. destruct (IH (S i) (<["AllowPolicyName" := VString (allow_policy i)]>
      (<["TargetNamespace" := VString n]> (<["Name" := VString (client_name testType i)]> m))) k Hk) as (m' & H1 & H2 & H3 & H4 & H5).
    exists m'. replace (i + S k)%nat with (S i + k)%nat by lia. split; [exact H1|]. split; [done|]. split; [done|]. split; [done|].
    intros f Hf. rewrite (H5 f Hf). rewrite !not_elem_of_cons in Hf. destruct Hf as (? & ? & ? & _). by rewrite !lookup_insert_ne by congruence.
Qed.

Lemma client_calls_length testType path namespaces i m :
  length (client_calls testType path namespaces i m) = length namespaces.
Proof using. revert i m. induction namespaces as [|ns rest IH]; intros i m; cbn; [done|]. by rewrite IH. Qed.

Lemma allow_loop_lookup nps namespaces i k ns :
  namespaces !! k = Some ns -> allow_loop nps namespaces i !! k = Some (target_policy nps (allow_policy (i + k)) ns policyCreationTest true).
Proof using.
  revert i k. induction namespaces as [|n rest IH]; intros i [|k] Hk; try done.
  - injection Hk as ->. by rewrite Nat.add_0_r.
  - transitivity (allow_loop nps rest (S i) !! k); [done|]. rewrite (IH (S i) k Hk). by replace (S i + k)%nat with (i + S k)%nat by lia.
Qed.

(** *** The load *)

Definition name_of (c : string * params) : value := default VNil (c.2 !! "Name").

Lemma load_policy_name baseName ns nsIdx depIdx :
  name_of (load_policy baseName ns nsIdx depIdx) =
  VString (indexed_name (indexed_name ("policy-load-" +:+ baseName) (Z.of_nat depIdx)) (Z.of_nat nsIdx)).
Proof using.
  unfold name_of, load_policy. cbn [snd]. rewrite lookup_insert_eq. cbn [default]. by rewrite load_name.
Qed.

Lemma elem_of_load_loop baseName n namespaces i c :
  c ∈ load_loop baseName n namespaces i ->
  exists k ns d, namespaces !! k = Some ns /\ (d < n)%nat /\ c = load_policy baseName ns (i + k) d.
Proof using.
  revert i. induction namespaces as [|ns rest IH]; intros i; cbn [load_loop]; [by intros ?%elem_of_nil|].
  intros [Hc|Hc]%elem_of_app.
  - apply list_elem_of_In, in_map_iff in Hc as (d & <- & Hd%in_seq). exists 0%nat, ns, d. rewrite Nat.add_0_r. split; [done|]. split; [lia|done].
  - destruct (IH (S i) Hc) as (k & ns' & d & Hk & Hd & ->). exists (S k), ns', d. split; [done|]. split; [done|]. f_equal. lia.
Qed.

Lemma load_loop_names baseName n namespaces i : NoDup (map name_of (load_loop baseName n namespaces i)).
Proof using.
  revert i. induction namespaces as [|ns rest IH]; intros i; cbn [load_loop]; [constructor|].
  rewrite map_app, map_map. apply NoDup_app. split; [|split; [|apply IH]].
  - apply (NoDup_fmap_2_strong _ (seq 0 n)); [|apply NoDup_ListNoDup, seq_NoDup]. intros d d' _ _. rewrite !load_policy_name.
    intros [= Heq]. apply indexed_name_inj2 in Heq as [Heq%indexed_name_inj _]; lia.
  - intros x Hx Hx'. apply list_elem_of_In in Hx, Hx'. apply in_map_iff in Hx as (d & <- & _). apply in_map_iff in Hx' as (c & Heq & Hc).
    apply list_elem_of_In, elem_of_load_loop in Hc as (k & ns' & d' & _ & _ & ->). rewrite !load_policy_name in Heq.
    injection Heq as Heq. apply indexed_name_inj2 in Heq as [_ Heq]; lia.
Qed.

Lemma length_load_loop baseName n namespaces i : length (load_loop baseName n namespaces i) = (n * length namespaces)%nat.
Proof using.
  revert i. induction namespaces as [|ns rest IH]; intros i; cbn [load_loop]; [cbn; lia|].
  rewrite length_app, length_map, length_seq, IH. cbn. lia.
Qed.

Lemma until_wait_fails_all wait i calls : (forall k, wait k = None) -> until_wait_fails wait i calls = calls.
Proof using. intros Hw. revert i. induction calls as [|c calls IH]; intros i; cbn; [done|]. by rewrite Hw, IH. Qed.

Lemma until_wait_fails_prefix wait i calls : until_wait_fails wait i calls `prefix_of` calls.
Proof using.
  revert i. induction calls as [|c calls IH]; intros i; cbn; [done|].
  destruct (wait i); [apply prefix_nil|]. by apply prefix_cons.
Qed.

(** A policy a client waits for matches the client. *)
Definition serves (client policy : string * params) : Prop :=
  policy.1 = policyEgressTargetPodsFilePath /\
  policy.2 !! "Name" = client.2 !! "AllowPolicyName" /\ policy.2 !! "TargetNamespace" = client.2 !! "TargetNamespace" /\
  policy.2 !! "Namespace" = client.2 !! "Namespace" /\ policy.2 !! "TypeLabelValue" = client.2 !! "TypeLabelValue" /\
  exists label, policy.2 !! "TargetLabelValue" = Some (VString label) /\
    client.2 !! "TargetLabelSelector" = Some (VString ("net-pol-test = " +:+ label)).

Lemma target_policy_serves nps k ns a b c path m :
  ns <> "" ->
  m !! "TargetNamespace" = Some (VString ns) -> m !! "AllowPolicyName" = Some (VString (allow_policy k)) ->
  (forall f, f ∉ ["AllowPolicyName"; "TargetNamespace"; "Name"] ->
     m !! f = (<["TypeLabelValue" := VString policyCreationTest]> (run_template nps a b c)) !! f) ->
  serves (path, m) (target_policy nps (allow_policy k) ns policyCreationTest true).
Proof using.
  intros Hns H1 H2 H3. unfold serves, target_policy. cbn [fst snd]. apply String.eqb_neq in Hns. rewrite Hns.
  split; [done|]. rewrite H1, H2.
  rewrite (H3 "Namespace"), (H3 "TypeLabelValue"), (H3 "TargetLabelSelector") by (rewrite !not_elem_of_cons; split_and!; done || apply not_elem_of_nil).
  unfold run_template. split; [done|]. split; [done|]. split; [done|]. split; [done|].
  exists (targetLabelValue nps). split; [done|]. cbn. by rewrite string_app_nil_r.
Qed.

(** *** The run *)

(** What [createLoadPolicies] applies: the load policies, or those before the
    first wait that failed. *)
Lemma load_calls nps config load :
  createLoadPolicies limiter_Wait nps config = Some load ->
  NoDup (map name_of load) /\
  (forall c, c ∈ load -> exists base dep ns i, targetNamespaces nps !! i = Some ns /\ c = load_policy base ns i dep) /\
  forall base count qps,
    GetStringOrDefault (cfg_Params config) "policyLoadTargetBaseName" defaultPolicyTargetLoadBaseName = (base, None) ->
    GetIntOrDefault (cfg_Params config) "policyLoadCount" defaultPolicyLoadCount = (count, None) ->
    GetIntOrDefault (cfg_Params config) "policyLoadQPS" defaultPolicyLoadQPS = (qps, None) ->
    let all := Z.max 0 (Z.quot count (Z.of_nat (length (targetNamespaces nps)))) * Z.of_nat (length (targetNamespaces nps)) in
    Z.of_nat (length load) <= all /\ ((forall k, limiter_Wait qps k = None) -> Z.of_nat (length load) = all).
Proof using.
  unfold createLoadPolicies.
  destruct (GetStringOrDefault _ _ _) as [base [e|]]; [intros [= <-]; split; [constructor|split; [by intros c ?%elem_of_nil|discriminate]]|].
  destruct (GetIntOrDefault _ _ defaultPolicyLoadCount) as [count [e|]]; [intros [= <-]; split; [constructor|split; [by intros c ?%elem_of_nil|discriminate]]|].
  destruct (GetIntOrDefault _ _ defaultPolicyLoadQPS) as [qps [e|]]; [intros [= <-]; split; [constructor|split; [by intros c ?%elem_of_nil|discriminate]]|].
  destruct (targetNamespaces nps) as [|n0 rest]; [done|]. intros Hload. apply (inj Some) in Hload. subst load.
  set (calls := load_loop base _ (n0 :: rest) 0).
  pose proof (until_wait_fails_prefix (limiter_Wait qps) 0 calls) as Hpre.
  split; [|split].
  - eapply sublist_NoDup; [apply (load_loop_names base (Z.to_nat (count ÷ Z.of_nat (length (n0 :: rest)))) (n0 :: rest) 0)|].
    apply (fmap_sublist name_of). revert Hpre. fold calls. generalize (until_wait_fails (limiter_Wait qps) 0 calls). generalize calls.
    intros l1 l2 [k ->]. by apply sublist_inserts_r.
  - intros c Hc. assert (c ∈ calls) as Hin by (eapply elem_of_prefix; eauto).
    apply elem_of_load_loop in Hin as (k & ns & d & Hk & _ & ->). exists base, d, ns, k. by rewrite Nat.add_0_l.
  - intros b' c' q' [= <-] [= <-] [= <-]. cbn zeta.
    assert (Z.of_nat (length calls) = Z.max 0 (count ÷ Z.of_nat (length (n0 :: rest))) * Z.of_nat (length (n0 :: rest))) as <-
      by (unfold calls; rewrite length_load_loop; lia).
    split; [apply prefix_length in Hpre; lia|]. intros Hw. by rewrite until_wait_fails_all.
Qed.

Lemma allow_loop_names nps namespaces i : NoDup (map name_of (allow_loop nps namespaces i)).
Proof using.
  assert (forall namespaces i c, c ∈ allow_loop nps namespaces i -> exists k, (i <= k)%nat /\ name_of c = VString (allow_policy k)) as Hin.
  { clear. induction namespaces as [|ns rest IH]; intros i c; cbn [allow_loop]; [by intros ?%elem_of_nil|].
    intros [->|Hc]%elem_of_cons; [exists i; split; [lia|]|destruct (IH (S i) c Hc) as (k & Hk & Heq); exists k; split; [lia|done]].
    unfold name_of, target_policy. cbn [snd]. by destruct (String.eqb ns ""). }
  revert i. induction namespaces as [|ns rest IH]; intros i; cbn [allow_loop map]; [constructor|]. constructor; [|apply IH].
  intros Hx%list_elem_of_In. apply in_map_iff in Hx as (c & Heq & Hc%list_elem_of_In). destruct (Hin _ _ _ Hc) as (k & Hk & Hn).
  rewrite Hn in Heq. unfold name_of, target_policy in Heq. cbn [snd] in Heq.
  assert (VString (allow_policy k) = VString (allow_policy i)) as Hv by (rewrite Heq; by destruct (String.eqb ns "")).
  assert (allow_policy k = allow_policy i) as Hp%allow_policy_inj; [|lia].
  generalize dependent (allow_policy k). generalize (allow_policy i). by intros a b _ _ [= ->].
Qed.

Lemma elem_of_allow_loop_name nps namespaces i c :
  c ∈ allow_loop nps namespaces i -> exists k, name_of c = VString (allow_policy k).
Proof using.
  revert i. induction namespaces as [|ns rest IH]; intros i; cbn [allow_loop]; [by intros ?%elem_of_nil|].
  intros [->|Hc]%elem_of_cons; [|eauto]. exists i. unfold name_of, target_policy. cbn [snd]. by destruct (String.eqb ns "").
Qed.

Lemma run_policy_creation merge config nps (w w' : W) :
  getString (cfg_Params config) "testType" = (policyCreationTest, None) -> baseline nps = false ->
  run limiter_Wait merge config nps w = Some (w', None) ->
  exists a b c w1 load,
    run_steps (map do_call (client_calls policyCreationTest depTestClientPolicyCreationFilePath (targetNamespaces nps) 0
      (<["TypeLabelValue" := VString policyCreationTest]> (run_template nps a b c)))) w = (w1, None) /\
    createLoadPolicies limiter_Wait nps config = Some load /\
    w' = apply_all (merge (createAllowPoliciesForPolicyCreationLatency nps) load)
           (wait_for_client_pods (Z.of_nat (length (targetNamespaces nps))) w1).
Proof using.
  intros Ht Hb. unfold run. destruct (configured nps); [|discriminate]. cbn [negb].
  destruct (GetIntOrDefault _ "targetPort" 80) as [a [e|]]; [discriminate|].
  destruct (GetIntOrDefault _ "maxTargets" 1000) as [b [e|]]; [discriminate|].
  destruct (GetIntOrDefault _ "metricsPort" 9160) as [c [e|]]; [discriminate|].
  rewrite Ht. change (String.eqb policyCreationTest policyCreationTest) with true. cbv iota.
  unfold runPolicyCreationTest. rewrite Hb.
  destruct (createTestClientDeployments _ _ _ _ _) as [w1 [e|]] eqn:Hd; [discriminate|].
  destruct (client_pod_store _ _ _); [discriminate|].
  destruct (createLoadPolicies limiter_Wait nps config) as [load|] eqn:Hl; [|discriminate]. cbn [mbind option_bind].
  intros [= <-]. exists a, b, c, w1, load. split; [|done]. by apply deployments_loop_calls.
Qed.

Lemma run_baseline merge config nps (w w' : W) :
  getString (cfg_Params config) "testType" = (policyCreationTest, None) -> baseline nps = true ->
  run limiter_Wait merge config nps w = Some (w', None) -> w' = w.
Proof using.
  intros Ht Hb. unfold run. destruct (configured nps); [|discriminate]. cbn [negb].
  destruct (GetIntOrDefault _ "targetPort" 80) as [a [e|]]; [discriminate|].
  destruct (GetIntOrDefault _ "maxTargets" 1000) as [b [e|]]; [discriminate|].
  destruct (GetIntOrDefault _ "metricsPort" 9160) as [c [e|]]; [discriminate|].
  rewrite Ht. change (String.eqb policyCreationTest policyCreationTest) with true. cbv iota.
  unfold runPolicyCreationTest. rewrite Hb. by intros [= <-].
Qed.


(** A set-up that finds no namespaces fails, but leaves the measurement
    configured: the next run of the policy creation test divides by zero. *)
Lemma failed_setup_configures prefix config (w : W) :
  cfg_Params config = {[ "targetLabelValue" := VString "enforcement"; "testClientNodeSelectorValue" := VString "default-pool" ]} ->
  list_namespaces w = Ok [] ->
  exists nps err, setup prefix config createNetworkPolicyEnforcementMeasurement w = ((nps, w), Some err) /\
    configured nps = true /\ baseline nps = false /\ targetNamespaces nps = [].
Proof using.
  intros Hp Hl. unfold setup, initializeMeasurement. rewrite Hp, Hl. do 2 eexists. split; [reflexivity|]. done.
Qed.

Lemma no_namespaces_panics merge config nps (w : W) :
  cfg_Params config = {[ "testType" := VString policyCreationTest ]} ->
  configured nps = true -> baseline nps = false -> targetNamespaces nps = [] ->
  client_pod_store (testClientNamespace nps) (Sprintf "type = %s" [FStr policyCreationTest]) w = None ->
  run limiter_Wait merge config nps w = None.
Proof using.
  intros Hp Hc Hb Ht Hs. unfold run. rewrite Hc, Hp. cbn [negb].
  change (getString {[ "testType" := VString policyCreationTest ]} "testType") with (policyCreationTest, @None error).
  change (String.eqb policyCreationTest policyCreationTest) with true.
  unfold GetIntOrDefault, orDefault, getInt. cbn -[policyCreationTest runPolicyCreationTest].
  unfold runPolicyCreationTest, createTestClientDeployments, createLoadPolicies. rewrite Hb, Ht, Hp. cbn [deployments_loop]. by rewrite Hs.
Qed.

(** A clean-up whose cluster role is missing, as after a set-up that failed
    before it was created, does not delete the namespace. *)
Lemma missing_role_leaks_namespace nps (w w1 : W) err :
  connected nps = true -> delete_cluster_role netPolicyTestClientName w = (w1, Some err) -> cleanUp nps w = (w1, Some err).
Proof using. intros Hc Hd. unfold cleanUp. rewrite Hc. cbn. unfold deleteClusterRoleAndBinding. cbn. by rewrite Hd. Qed.
End Correct.

(** ** A concrete run *)
Definition ex_lib : GoLib := {| ParseFloat := fun _ => (f64_of_Z 0, None); Sprint := fun _ => "" |}.

(** A cluster that records what is applied. *)
#[local] Instance ex_server : PolicyServer (list (string * params)) := {|
  apply_manifests := fun path m w => (w ++ [(path, m)], None);
  create_namespace := fun _ w => (w, None);
  delete_namespace := fun _ w => (w, None);
  list_namespaces := fun _ => Ok ["kube-system"; "test-1"; "test-2"];
  policy_exists := fun _ _ _ => false;
  apiserver_addresses := fun _ => Ok [["10.0.0.1"]];
  client_pod_store := fun _ _ _ => None;
  wait_for_client_pods := fun _ w => w;
  delete_deployments := fun _ _ w => (w, None);
  delete_cluster_role := fun _ w => (w, None);
  delete_cluster_role_binding := fun _ w => (w, None);
|}.

Definition ex_setup : (measurement * list (string * params)) * option error :=
  @setup _ ex_server ex_lib "test-"
    (mkMeasurementConfig {[ "targetLabelValue" := VString "enforcement"; "testClientNodeSelectorValue" := VString "default-pool" ]} "id" "")
    createNetworkPolicyEnforcementMeasurement [].

Example ex_setup_succeeds : ex_setup.2 = None /\ targetNamespaces ex_setup.1.1 = ["test-1"; "test-2"] /\ length ex_setup.1.2 = 6%nat.
Proof. split; [reflexivity|]. split; reflexivity. Qed.

Definition ex_config : MeasurementConfig :=
  mkMeasurementConfig {[ "testType" := VString policyCreationTest; "policyLoadCount" := VInt 5 ]} "id" "".
Definition ex_after : list (string * params) :=
  match @run _ ex_server ex_lib (fun _ _ => None) (fun l l' => l' ++ l) ex_config ex_setup.1.1 ex_setup.1.2 with Some (w, _) => w | None => [] end.

