(* ===== verification/ClaimLatency.v ===== *)
(** * Latencies observed through informers

      pkg/measurement/common/slos/resourceclaim_allocation_latency.go   [ResourceClaims]
      pkg/measurement/common/loadbalancer_nodesync_latency.go           [NodeSync]

    Informers, the work queue and the API server are the environment: events
    and answers arrive in any order. *)

From S2P Require Import Prelude GoErrors GoRuntime Params Measurement Latency Cluster.

(** The recorded time of a phase, if any. *)
Definition seen (o : ObjectTransitionTimes) (key phase : string) : option Z :=
  let '(t, found) := OTT_Get o key phase in if found then Some t else None.

Lemma seen_found o key phase : (OTT_Get o key phase).2 = bool_decide (is_Some (seen o key phase)).
Proof. unfold seen. destruct (OTT_Get o key phase) as [t []]; [done|]. symmetry. apply bool_decide_eq_false_2. by intros [? ?]. Qed.

Lemma seen_Set o key phase t key' phase' :
  seen (OTT_Set o key phase t) key' phase' = if bool_decide (key = key' /\ phase = phase') then Some t else seen o key' phase'.
Proof. unfold seen. rewrite OTT_Get_Set. by case_bool_decide. Qed.

(** A time is recorded once. *)
Definition set_once (key phase : string) (t : Z) (o : ObjectTransitionTimes) : ObjectTransitionTimes :=
  if (OTT_Get o key phase).2 then o else OTT_Set o key phase t.

Lemma seen_set_once o key phase t key' phase' :
  seen (set_once key phase t o) key' phase' =
  if bool_decide (key = key' /\ phase = phase') then Some (default t (seen o key' phase')) else seen o key' phase'.
Proof.
  unfold set_once. rewrite seen_found. case_bool_decide as Hs.
  - case_bool_decide as He; [|done]. destruct He as [-> ->]. by destruct Hs as [x ->].
  - rewrite seen_Set. case_bool_decide as He; [|done]. destruct He as [-> ->]. destruct (seen o key' phase'); [|done].
    exfalso. apply Hs. by eexists.
Qed.

(** The part of a list from its first element with the property on. *)
Fixpoint from_first {A} (f : A -> bool) (l : list A) : list A :=
  match l with
  | [] => []
  | x :: l' => if f x then l else from_first f l'
  end.

Lemma find_snoc {A} (f : A -> bool) l x :
  List.find f (l ++ [x]) = match List.find f l with Some y => Some y | None => if f x then Some x else None end.
Proof. induction l as [|y l IH]; [done|]. cbn. by destruct (f y). Qed.

Lemma from_first_snoc {A} (f : A -> bool) l x :
  from_first f (l ++ [x]) = match List.find f l with Some _ => from_first f l ++ [x] | None => if f x then [x] else [] end.
Proof. induction l as [|y l IH]; [done|]. cbn. by destruct (f y). Qed.

Module ResourceClaims.

Definition resourceClaimAllocationLatencyMeasurementName : string := "ResourceClaimAllocationLatency".
Definition defaultClaimAllocationLatencyThreshold : Z := 5 * Duration.Minute.
Definition createPhase : string := "create".
Definition allocatePhase : string := "allocate".
Definition podCreatePhase : string := "pod_create".

(** What is read of a claim: [cl_Allocation]: it is not nil; the numbers of
    reservations and devices; kind and name of its owners. *)
Record ResourceClaim := mkResourceClaim {
  cl_Namespace : string;
  cl_Name : string;
  cl_CreationTimestamp : Z;
  cl_Allocation : bool;
  cl_ReservedFor : Z;
  cl_Devices : Z;
  cl_OwnerReferences : list (string * string);
}.

(** A pod with the names of the templates of its claims. *)
Record ClaimPod := mkClaimPod {
  cp_Namespace : string;
  cp_Name : string;
  cp_CreationTimestamp : Z;
  cp_ResourceClaims : list (option string);
}.

Inductive event_obj := NilObject | OtherObject | ClaimObject (c : ResourceClaim).
Record claimEventData := mkClaimEventData { obj : event_obj; recvTime : Z }.

Record measurement := mkMeasurement_ {
  selector : ObjectSelector;
  isRunning : bool;
  queue : list claimEventData;
  queue_down : bool;                  (* shut down *)
  entries : ObjectTransitionTimes;
  threshold : Z;
  perc50Threshold : Z;
  perc90Threshold : Z;
  perc99Threshold : Z;
  podCreationTimes : gmap string Z;
  podGetCalls : Z;
}.

Definition createResourceClaimAllocationLatencyMeasurement : measurement :=
  mkMeasurement_ NewObjectSelector false [] false (NewObjectTransitionTimes resourceClaimAllocationLatencyMeasurementName) 0 0 0 0 ∅ 0.

Definition with_queue (m : measurement) (q : list claimEventData) : measurement :=
  mkMeasurement_ (selector m) (isRunning m) q (queue_down m) (entries m) (threshold m)
    (perc50Threshold m) (perc90Threshold m) (perc99Threshold m) (podCreationTimes m) (podGetCalls m).
Definition with_entries (m : measurement) (e : ObjectTransitionTimes) : measurement :=
  mkMeasurement_ (selector m) (isRunning m) (queue m) (queue_down m) e (threshold m)
    (perc50Threshold m) (perc90Threshold m) (perc99Threshold m) (podCreationTimes m) (podGetCalls m).
Definition with_pods (m : measurement) (p : gmap string Z) (n : Z) : measurement :=
  mkMeasurement_ (selector m) (isRunning m) (queue m) (queue_down m) (entries m) (threshold m)
    (perc50Threshold m) (perc90Threshold m) (perc99Threshold m) p n.
Definition with_settings (m : measurement) (sel : ObjectSelector) (t t50 t90 t99 : Z) : measurement :=
  mkMeasurement_ sel (isRunning m) (queue m) (queue_down m) (entries m) t t50 t90 t99 (podCreationTimes m) (podGetCalls m).

Definition key_of (namespace name : string) : string := Sprintf "%s/%s" [FStr namespace; FStr name].

Definition isAllocated (claim : ResourceClaim) : bool :=
  cl_Allocation claim || (0 <? cl_ReservedFor claim) || (0 <? cl_Devices claim).

Fixpoint template_loop (l : list (option string)) : bool :=
  match l with
  | [] => false
  | rc :: l' => match rc with
                | Some name => if negb (String.eqb name "") then true else template_loop l'
                | None => template_loop l'
                end
  end.
Definition usesResourceClaimTemplate (p : ClaimPod) : bool := template_loop (cp_ResourceClaims p).

(** ** Events *)

(** The queue drops what is added after its shutdown. *)
Definition addEvent (o : event_obj) (now : Z) (m : measurement) : measurement :=
  if queue_down m then m else with_queue m (queue m ++ [mkClaimEventData o now]).

Definition addPodEvent (pod : option ClaimPod) (m : measurement) : measurement :=
  match pod with
  | None => m
  | Some pod =>
      if negb (usesResourceClaimTemplate pod) then m
      else
        let key := key_of (cp_Namespace pod) (cp_Name pod) in
        match podCreationTimes m !! key with
        | Some _ => m
        | None => with_pods m (<[key := cp_CreationTimestamp pod]> (podCreationTimes m)) (podGetCalls m)
        end
  end.

(** The first owner that is a pod with a name decides. *)
Fixpoint pod_owner (owners : list (string * string)) : option string :=
  match owners with
  | [] => None
  | (kind, name) :: l => if String.eqb kind "Pod" && negb (String.eqb name "") then Some name else pod_owner l
  end.

Definition getCachedPodCreateTime (m : measurement) (cl : ResourceClaim) : option Z :=
  name ← pod_owner (cl_OwnerReferences cl); podCreationTimes m !! key_of (cl_Namespace cl) name.

(** [get]: the API server's answer, the pod's namespace, name and creation. *)
Definition fetchPodCreateTime (get : string -> string -> result (string * string * Z)) (m : measurement) (cl : ResourceClaim)
  : measurement * option Z :=
  match pod_owner (cl_OwnerReferences cl) with
  | None => (m, None)
  | Some name =>
      let m := with_pods m (podCreationTimes m) (podGetCalls m + 1) in
      match get (cl_Namespace cl) name with
      | Err _ => (m, None)
      | Ok (ns, nm, ts) => (with_pods m (<[key_of ns nm := ts]> (podCreationTimes m)) (podGetCalls m), Some ts)
      end
  end.

Definition record_pod (get : string -> string -> result (string * string * Z)) (key : string) (claim : ResourceClaim) (m : measurement)
  : measurement :=
  if (OTT_Get (entries m) key podCreatePhase).2 then m
  else
    match getCachedPodCreateTime m claim with
    | Some ts => with_entries m (OTT_Set (entries m) key podCreatePhase ts)
    | None =>
        match fetchPodCreateTime get m claim with
        | (m, Some ts) => with_entries m (OTT_Set (entries m) key podCreatePhase ts)
        | (m, None) => m
        end
    end.

Definition processEvent (get : string -> string -> result (string * string * Z)) (ev : claimEventData) (m : measurement) : measurement :=
  match obj ev with
  | NilObject | OtherObject => m
  | ClaimObject claim =>
      let key := key_of (cl_Namespace claim) (cl_Name claim) in
      let allocated := isAllocated claim in
      if allocated && negb (OTT_Get (entries m) key createPhase).2 then m
      else
        let e := set_once key createPhase (cl_CreationTimestamp claim) (entries m) in
        let e := if allocated then set_once key allocatePhase (recvTime ev) e else e in
        record_pod get key claim (with_entries m e)
  end.

(** [processNextWorkItem]: [None] while the queue is empty. *)
Definition processNextWorkItem (get : string -> string -> result (string * string * Z)) (m : measurement) : option measurement :=
  match queue m with
  | [] => None
  | item :: q => Some (processEvent get item (with_queue m q))
  end.

(** ** Actions *)

(** [claimsSynced], [podsSynced]: the answers of [StartAndSync]. *)
Definition start (claimsSynced podsSynced : option error) (m : measurement) : measurement * option error :=
  if isRunning m then (m, None)
  else
    let m := mkMeasurement_ (selector m) true (queue m) (queue_down m) (entries m) (threshold m)
               (perc50Threshold m) (perc90Threshold m) (perc99Threshold m) (podCreationTimes m) (podGetCalls m) in
    match claimsSynced with
    | Some err => (m, Some err)
    | None => (m, podsSynced)
    end.

Definition stop (m : measurement) : measurement :=
  if isRunning m then
    mkMeasurement_ (selector m) false (queue m) true (entries m) (threshold m)
      (perc50Threshold m) (perc90Threshold m) (perc99Threshold m) (podCreationTimes m) (podGetCalls m)
  else m.

Definition transitionsWithThreshold (th : Z) : gmap string Transition :=
  {[ "claim_allocation" := mkTransition createPhase allocatePhase th;
     "pod_create_to_claim_create" := mkTransition podCreatePhase createPhase th ]}.

Section Gather.
Context `{GoLib} `{MapRange} (PrettyPrintJSON : PerfData -> result string).

Definition calls_item (n : Z) : DataItem :=
  mkDataItem {[ "Count" := f64_of_Z n ]} "count" {[ "Metric" := "PodGetCalls" ]}.

(** [None] is a panic. *)
Definition gather (identifier : string) (now : Z) (m : measurement) : option (measurement * (list Summary * option error)) :=
  if negb (isRunning m)
  then Some (m, ([], Some (Errorf "measurement %s has not been started" [AStr resourceClaimAllocationLatencyMeasurementName])))
  else
    let m := stop m in
    latencies ← CalculateTransitionsLatency (fun name => range name (ott_times (entries m))) (transitionsWithThreshold (threshold m)) MatchAll;
    metric ← latencies !! "claim_allocation";
    let err := match VerifyThresholdByPercentile metric (perc50Threshold m) (perc90Threshold m) (perc99Threshold m) with
               | Some slosErr => Some (NewMetricViolationError "claim allocation" (Error slosErr))
               | None => None
               end in
    let perf := LatencyMapToPerfData (range "perf" latencies) in
    let perf := mkPerfData (pd_Version perf) (pd_DataItems perf ++ [calls_item (podGetCalls m)]) (pd_Labels perf) in
    match PrettyPrintJSON perf with
    | Err jsonErr => Some (m, ([], Some jsonErr))
    | Ok content =>
        let summaryName := Sprintf "%s_%s" [FStr resourceClaimAllocationLatencyMeasurementName; FStr identifier] in
        Some (m, ([CreateSummary now summaryName "json" content], err))
    end.

(** Every field is assigned before its error is looked at. *)
Definition Execute (claimsSynced podsSynced : option error) (config : MeasurementConfig) (now : Z) (m : measurement)
  : option (measurement * (list Summary * option error)) :=
  match getString (cfg_Params config) "action" with
  | (_, Some err) => Some (m, ([], Some err))
  | (action, None) =>
      if String.eqb action "start" then
        let dict := cfg_Params config in
        let '(sel, err) := Parse (selector m) dict in
        let m := with_settings m sel (threshold m) (perc50Threshold m) (perc90Threshold m) (perc99Threshold m) in
        if err is Some _ then Some (m, ([], err)) else
        let '(t, err) := GetDurationOrDefault dict "threshold" defaultClaimAllocationLatencyThreshold in
        let m := with_settings m sel t (perc50Threshold m) (perc90Threshold m) (perc99Threshold m) in
        if err is Some _ then Some (m, ([], err)) else
        let '(t50, err) := GetDurationOrDefault dict "perc50Threshold" t in
        let m := with_settings m sel t t50 (perc90Threshold m) (perc99Threshold m) in
        if err is Some _ then Some (m, ([], err)) else
        let '(t90, err) := GetDurationOrDefault dict "perc90Threshold" t in
        let m := with_settings m sel t t50 t90 (perc99Threshold m) in
        if err is Some _ then Some (m, ([], err)) else
        let '(t99, err) := GetDurationOrDefault dict "perc99Threshold" t in
        let m := with_settings m sel t t50 t90 t99 in
        if err is Some _ then Some (m, ([], err)) else
        let '(m, err) := start claimsSynced podsSynced m in Some (m, ([], err))
      else if String.eqb action "gather" then gather (cfg_Identifier config) now m
      else Some (m, ([], Some (Errorf "unknown action %q" [AStr action])))
  end.
End Gather.

(** ** What is recorded *)

(** An event that shows the claim [key], not yet allocated or allocated. *)
Definition shows (allocated : bool) (key : string) (ev : claimEventData) : bool :=
  match obj ev with
  | ClaimObject c => String.eqb (key_of (cl_Namespace c) (cl_Name c)) key && Bool.eqb (isAllocated c) allocated
  | _ => false
  end.
Definition creation (ev : claimEventData) : Z := match obj ev with ClaimObject c => cl_CreationTimestamp c | _ => 0 end.

(** A claim is created when it is first seen without allocation, and allocated
    when it is then first seen with one; an allocated claim that was never seen
    without is ignored. *)
Definition created_at (key : string) (evs : list claimEventData) : option Z := creation <$> List.find (shows false key) evs.
Definition allocated_at (key : string) (evs : list claimEventData) : option Z :=
  recvTime <$> List.find (shows true key) (from_first (shows false key) evs).

Lemma record_pod_seen get key claim m key' phase :
  phase <> podCreatePhase -> seen (entries (record_pod get key claim m)) key' phase = seen (entries m) key' phase.
Proof.
  intros Hp. unfold record_pod. destruct (_.2); [done|]. destruct (getCachedPodCreateTime m claim) as [ts|].
  - cbn [entries with_entries]. rewrite seen_Set. by rewrite bool_decide_false by (intros [_ ?]; congruence).
  - unfold fetchPodCreateTime. destruct (pod_owner _); [|done]. destruct (get _ _) as [[[ns nm] ts]|]; [|done].
    cbn [entries with_entries with_pods]. rewrite seen_Set. by rewrite bool_decide_false by (intros [_ ?]; congruence).
Qed.

(** What an event does to the two phases of a claim. *)
Lemma processEvent_seen get ev m key :
  let c := seen (entries m) key createPhase in
  let a := seen (entries m) key allocatePhase in
  seen (entries (processEvent get ev m)) key createPhase =
    match c with Some t => Some t | None => if shows false key ev then Some (creation ev) else None end /\
  seen (entries (processEvent get ev m)) key allocatePhase =
    match a with Some t => Some t | None => if bool_decide (is_Some c) && shows true key ev then Some (recvTime ev) else None end.
Proof.
  cbn zeta. unfold processEvent, shows, creation. destruct (obj ev) as [| |claim]; [by rewrite ?andb_false_r; repeat case_match| by rewrite ?andb_false_r; repeat case_match|].
  set (k := key_of _ _). destruct (isAllocated claim); cbn [andb Bool.eqb].
  - rewrite seen_found. case_bool_decide as Hc; cbn [negb].
    + rewrite !record_pod_seen by done. cbn [entries with_entries]. rewrite !seen_set_once.
      destruct (String.eqb_spec k key) as [->|Hk]; cbn [andb].
      * destruct Hc as [t Ht]. rewrite Ht. rewrite (bool_decide_false (key = key /\ allocatePhase = createPhase)) by (by intros [_ ?]).
        rewrite !bool_decide_true by done. rewrite bool_decide_false by (by intros [_ ?]). rewrite bool_decide_true by by eexists.
        cbn. split; [done|]. by destruct (seen (entries m) key allocatePhase).
      * rewrite !bool_decide_false by (by intros [? _]). rewrite andb_false_r. split; by case_match.
    + destruct (String.eqb_spec k key) as [->|Hk]; cbn [andb]; rewrite ?andb_false_r.
      * split; [by case_match|]. rewrite bool_decide_false by done. by case_match.
      * split; by case_match.
  - rewrite !record_pod_seen by done. cbn [entries with_entries]. rewrite !seen_set_once, andb_true_r, andb_false_r.
    rewrite (bool_decide_false (k = key /\ createPhase = allocatePhase)) by (by intros [_ ?]). rewrite andb_false_r. split; [|by case_match].
    destruct (String.eqb_spec k key) as [->|Hk].
    + rewrite bool_decide_true by done. by destruct (seen (entries m) key createPhase).
    + rewrite bool_decide_false by (by intros [? _]). by case_match.
Qed.

(** The entries after the events [evs] have been processed. *)
Definition tracks (o : ObjectTransitionTimes) (evs : list claimEventData) : Prop :=
  forall key, seen o key createPhase = created_at key evs /\ seen o key allocatePhase = allocated_at key evs.

Lemma tracks_snoc get m evs ev : tracks (entries m) evs -> tracks (entries (processEvent get ev m)) (evs ++ [ev]).
Proof.
  intros Ht key. destruct (Ht key) as [Hc Ha]. destruct (processEvent_seen get ev m key) as [-> ->]. rewrite Hc, Ha.
  unfold created_at, allocated_at. rewrite find_snoc, from_first_snoc. destruct (List.find (shows false key) evs) as [e|] eqn:Hf; cbn [fmap option_fmap option_map].
  - rewrite find_snoc. split; [done|]. rewrite bool_decide_true by by eexists.
    destruct (List.find (shows true key) _); [done|]. by destruct (shows true key ev).
  - split; [by destruct (shows false key ev)|].
    assert (from_first (shows false key) evs = []) as Hff.
    { clear -Hf. induction evs as [|y l IH]; [done|]. cbn in *. destruct (shows false key y); [done|]. by apply IH. }
    rewrite Hff. cbn.
    destruct (shows false key ev) eqn:Hs; [|done]. cbn. replace (shows true key ev) with false; [done|].
    unfold shows in *. destruct (obj ev) as [| |c]; try done. destruct (String.eqb _ _); [|done]. by destruct (isAllocated c).
Qed.

(** Informers and worker, with the claim events added so far and the one the
    worker has taken off the queue and is processing: further events may come in
    between its two steps. *)
Inductive msteps (m0 : measurement) : list claimEventData -> option claimEventData -> measurement -> Prop :=
| msteps_start : msteps m0 [] None m0
| msteps_add evs cur m o now : msteps m0 evs cur m -> queue_down m = false -> msteps m0 (evs ++ [mkClaimEventData o now]) cur (addEvent o now m)
| msteps_pod evs cur m pod : msteps m0 evs cur m -> msteps m0 evs cur (addPodEvent pod m)
| msteps_take evs m item q : msteps m0 evs None m -> queue m = item :: q -> msteps m0 evs (Some item) (with_queue m q)
| msteps_process evs item m get : msteps m0 evs (Some item) m -> msteps m0 evs None (processEvent get item m).

(** An iteration of the worker that nothing interrupts. *)
Lemma msteps_work m0 evs m get m' : msteps m0 evs None m -> processNextWorkItem get m = Some m' -> msteps m0 evs None m'.
Proof.
  unfold processNextWorkItem. intros Hm. destruct (queue m) as [|item q] eqn:Hq; [done|]. intros [= <-].
  apply msteps_process. by apply msteps_take.
Qed.

Lemma addPodEvent_frame pod m : entries (addPodEvent pod m) = entries m /\ queue (addPodEvent pod m) = queue m.
Proof. unfold addPodEvent. destruct pod as [pod|]; [|done]. destruct (negb _); [done|]. by destruct (podCreationTimes m !! _). Qed.

Lemma record_pod_queue get key claim m : queue (record_pod get key claim m) = queue m.
Proof.
  unfold record_pod. destruct (_.2); [done|]. destruct (getCachedPodCreateTime m claim); [done|].
  unfold fetchPodCreateTime. destruct (pod_owner _); [|done]. by destruct (get _ _) as [[[ns nm] ts]|].
Qed.

Lemma processEvent_queue get ev m : queue (processEvent get ev m) = queue m.
Proof.
  unfold processEvent. destruct (obj ev) as [| |c]; [done..|]. destruct (isAllocated c && _); [done|]. by rewrite record_pod_queue.
Qed.

(** The processed, the taken and the queued events are the added ones, in order. *)
Lemma msteps_tracks m0 evs cur m :
  tracks (entries m0) [] -> queue m0 = [] -> msteps m0 evs cur m ->
  exists done, evs = done ++ option_list cur ++ queue m /\ tracks (entries m) done.
Proof.
  intros H0 Hq. induction 1 as [|evs cur m o now _ (d & -> & Ht) Hd|evs cur m pod _ (d & -> & Ht)|evs m item q _ (d & -> & Ht) Hm|evs item m get _ (d & -> & Ht)].
  - exists []. by rewrite Hq.
  - exists d. unfold addEvent. rewrite Hd. cbn. by rewrite <- !app_assoc.
  - exists d. destruct (addPodEvent_frame pod m) as [-> ->]. done.
  - exists d. by rewrite Hm.
  - exists (d ++ [item]). rewrite processEvent_queue. split; [by rewrite <- app_assoc|by apply tracks_snoc].
Qed.

Section Verdict.
Context `{GoLib} `{MapRange} (PrettyPrintJSON : PerfData -> result string).

End Verdict.

(** A restarted measurement drops every event: its queue was shut down. *)
Lemma restart_drops_events m o now synced podsSynced :
  isRunning m = true -> addEvent o now (start synced podsSynced (stop m)).1 = (start synced podsSynced (stop m)).1.
Proof. intros Hr. unfold stop. rewrite Hr. unfold start. cbn [isRunning]. by destruct synced. Qed.

(** *** A concrete run *)
Definition ex_claim (allocated : bool) : ResourceClaim := mkResourceClaim "ns" "gpu" 10 allocated 0 0 [("Pod", "web")].
Definition ex_started : measurement :=
  (start None None (with_settings createResourceClaimAllocationLatencyMeasurement NewObjectSelector 50 50 50 50)).1.
Definition ex_get (ns name : string) : result (string * string * Z) := Ok (ns, name, 4).
Definition ex_events : list claimEventData := [mkClaimEventData (ClaimObject (ex_claim false)) 12; mkClaimEventData (ClaimObject (ex_claim true)) 70].
Definition ex_final : measurement :=
  fold_left (fun m ev => processEvent ex_get ev m) ex_events ex_started.

Lemma ex_claim_run : msteps ex_started ex_events None ex_final.
Proof.
  apply (msteps_work _ ex_events (with_queue (processEvent ex_get (mkClaimEventData (ClaimObject (ex_claim false)) 12) ex_started)
    [mkClaimEventData (ClaimObject (ex_claim true)) 70]) ex_get); [|reflexivity].
  eapply (msteps_work _ ex_events (with_queue ex_started ex_events) ex_get); [|reflexivity].
  apply (msteps_add _ [mkClaimEventData (ClaimObject (ex_claim false)) 12] None (with_queue ex_started [mkClaimEventData (ClaimObject (ex_claim false)) 12])); [|reflexivity].
  apply (msteps_add _ [] None ex_started); [|reflexivity]. apply msteps_start.
Qed.


End ResourceClaims.

Module NodeSync.

Definition loadBalancerNodeSyncLatencyName : string := "LoadBalancerNodeSyncLatency".
Definition defaultNodeSyncLatencyTimeout : Z := 30 * Duration.Minute.
Definition excludeFromLoadBalancersLabel : string := "node.kubernetes.io/exclude-from-external-load-balancers".
Definition nodeSyncEventReason : string := "UpdatedLoadBalancer".
Definition phaseNodeSyncStart : string := "nodesync_triggered".
Definition phaseNodeSyncComplete : string := "nodesync_complete".

Definition nodeSyncTransition : gmap string Transition :=
  {[ "nodesync_start_to_complete" := mkTransition phaseNodeSyncStart phaseNodeSyncComplete 0 ]}.

Record service := mkService { svc_Namespace : string; svc_Name : string; svc_Type : string }.
Record Event := mkEvent { ev_Reason : string; ev_Namespace : string; ev_Name : string; ev_CreationTimestamp : Z }.

Record measurement := mkMeasurement_ {
  selector : ObjectSelector;
  waitTimeout : Z;
  svcNodeSyncLatencyTracker : ObjectTransitionTimes;
  excludedNodeName : string;
  lbSvcMap : gmap string service;
}.

Definition createLoadBalancerNodeSyncMeasurement : measurement :=
  mkMeasurement_ NewObjectSelector 0 (NewObjectTransitionTimes loadBalancerNodeSyncLatencyName) "" ∅.

Definition with_tracker (s : measurement) (t : ObjectTransitionTimes) : measurement :=
  mkMeasurement_ (selector s) (waitTimeout s) t (excludedNodeName s) (lbSvcMap s).

Definition keyFunc (namespace name : string) : string := Sprintf "%s/%s" [FStr namespace; FStr name].

(** A node without labels has a nil map. *)
Definition isCandidateNode (n : node) : bool :=
  if bool_decide (is_Some (node_Labels n !! excludeFromLoadBalancersLabel)) then false
  else if bool_decide (node_Conditions n = []) then false
  else forallb (fun c => negb (String.eqb (nc_Type c) "Ready" && negb (String.eqb (nc_Status c) "True"))) (node_Conditions n).

Definition processEvent (event : Event) (s : measurement) : measurement :=
  if negb (String.eqb (ev_Reason event) nodeSyncEventReason) then s
  else
    let key := keyFunc (ev_Namespace event) (ev_Name event) in
    match lbSvcMap s !! key with
    | Some _ => with_tracker s (set_once key phaseNodeSyncComplete (ev_CreationTimestamp event) (svcNodeSyncLatencyTracker s))
    | None => s
    end.
Definition processEvents (evs : list Event) (s : measurement) : measurement := fold_left (fun s e => processEvent e s) evs s.

(** Patches are made by apimachinery. *)
Class NodeApi (C Patch : Type) := {
  services_List : ObjectSelector -> C -> result (list service);
  nodes_List_ : C -> result (list node);
  node_Get : string -> C -> result node;
  node_Patch : string -> Patch -> C -> C * option error;
  Marshal : node -> result string;
  CreateTwoWayMergePatch : string -> string -> result Patch;
}.

Section Measure.
Context {C Patch : Type} `{NodeApi C Patch}.

Definition preparePatchBytes (oldObj newObj : node) : result Patch :=
  match Marshal oldObj with
  | Err err => Err (Errorf "failed to marshal old object: %v" [AErr err])
  | Ok oldBytes =>
      match Marshal newObj with
      | Err err => Err (Errorf "failed to marshal new object: %v" [AErr err])
      | Ok newBytes =>
          match CreateTwoWayMergePatch oldBytes newBytes with
          | Err err => Err (Errorf "failed to create patch: %v" [AErr err])
          | Ok patch => Ok patch
          end
      end
  end.

Definition with_labels (n : node) (l : gmap string string) : node :=
  mkNode (node_Name n) l (Unschedulable n) (node_Taints n) (node_Conditions n) (Addresses n).

(** [None]: the assignment to a nil map panics. *)
Definition labelNodeForLBs (exclude : bool) (s : measurement) (c : C) : option (C * option error) :=
  match node_Get (excludedNodeName s) c with
  | Err err => Some (c, Some err)
  | Ok n =>
      newNode ← (if exclude then
                   if bool_decide (node_Labels n = ∅) then None
                   else Some (with_labels n (<[excludeFromLoadBalancersLabel := "true"]> (node_Labels n)))
                 else Some (with_labels n (delete excludeFromLoadBalancersLabel (node_Labels n))));
      match preparePatchBytes n newNode with
      | Err err => Some (c, Some err)
      | Ok patchBytes => Some (node_Patch (excludedNodeName s) patchBytes c)
      end
  end.

Definition lb_services (svcs : list service) : gmap string service :=
  fold_left (fun m svc => if String.eqb (svc_Type svc) "LoadBalancer"
                          then <[keyFunc (svc_Namespace svc) (svc_Name svc) := svc]> m else m) svcs ∅.

(** [rounds]: the events that arrive before each poll. *)
Fixpoint poll (totalLbSvc : Z) (rounds : list (list Event)) (s : measurement) : measurement * option error :=
  match rounds with
  | [] => (s, Some (External "timed out waiting for the condition"))
  | evs :: rounds' =>
      let s := processEvents evs s in
      if OTT_Count (svcNodeSyncLatencyTracker s) phaseNodeSyncComplete =? totalLbSvc then (s, None)
      else poll totalLbSvc rounds' s
  end.

(** All keys start now. *)
Definition set_starts (now : Z) (s : measurement) : measurement :=
  with_tracker s (fold_left (fun t key => OTT_Set t key phaseNodeSyncStart now) (map_to_list (lbSvcMap s)).*1 (svcNodeSyncLatencyTracker s)).

(** [early]: the events that arrive before the label is set. The deferred call
    removes the label; its error is only logged. *)
Definition measureNodeSyncLatency (early : list Event) (now : Z) (rounds : list (list Event)) (s : measurement) (c : C)
  : option ((measurement * C) * option error) :=
  match services_List (selector s) c with
  | Err err => Some ((s, c), Some err)
  | Ok svcs =>
      let lbs := lb_services svcs in
      let s := mkMeasurement_ (selector s) (waitTimeout s) (svcNodeSyncLatencyTracker s) (excludedNodeName s) lbs in
      let totalLbSvc := Z.of_nat (size lbs) in
      let s := processEvents early s in
      match nodes_List_ c with
      | Err err => Some ((s, c), Some err)
      | Ok nodes =>
          let name := match List.find isCandidateNode nodes with Some n => node_Name n | None => excludedNodeName s end in
          let s := mkMeasurement_ (selector s) (waitTimeout s) (svcNodeSyncLatencyTracker s) name (lbSvcMap s) in
          if String.eqb name "" then
            Some ((s, c), Some (Errorf "failed to find a node candidate to trigger nodesync from node list: %v" [AStr "nodes"]))
          else
            '(c, err) ← labelNodeForLBs true s c;
            let '(s, err) := match err with Some err => (s, Some err) | None => poll totalLbSvc rounds (set_starts now s) end in
            '(c, _) ← labelNodeForLBs false s c;
            Some ((s, c), err)
      end
  end.
End Measure.

Section Execute.
Context {C Patch : Type} `{NodeApi C Patch} `{GoLib} `{MapRange} (PrettyPrintJSON : PerfData -> result string).

Definition gather (identifier : string) (now : Z) (s : measurement) : option (list Summary * option error) :=
  nodeSyncLatency ← CalculateTransitionsLatency (fun name => range name (ott_times (svcNodeSyncLatencyTracker s))) nodeSyncTransition MatchAll;
  match PrettyPrintJSON (LatencyMapToPerfData (range "perf" nodeSyncLatency)) with
  | Err err => Some ([], Some err)
  | Ok content =>
      Some ([CreateSummary now (Sprintf "%s_%s" [FStr loadBalancerNodeSyncLatencyName; FStr identifier]) "json" content], None)
  end.

Definition Execute (early : list Event) (now : Z) (rounds : list (list Event)) (config : MeasurementConfig) (s : measurement) (c : C)
  : option ((measurement * C) * (list Summary * option error)) :=
  match getString (cfg_Params config) "action" with
  | (_, Some err) => Some ((s, c), ([], Some err))
  | (action, None) =>
      if String.eqb action "measure" then
        let '(sel, err) := Parse (selector s) (cfg_Params config) in
        let s := mkMeasurement_ sel (waitTimeout s) (svcNodeSyncLatencyTracker s) (excludedNodeName s) (lbSvcMap s) in
        if err is Some _ then Some ((s, c), ([], err)) else
        let '(t, err) := GetDurationOrDefault (cfg_Params config) "waitTimeout" defaultNodeSyncLatencyTimeout in
        let s := mkMeasurement_ sel t (svcNodeSyncLatencyTracker s) (excludedNodeName s) (lbSvcMap s) in
        if err is Some _ then Some ((s, c), ([], err)) else
        '(sc, err) ← measureNodeSyncLatency early now rounds s c; Some (sc, ([], err))
      else if String.eqb action "gather" then
        '(c, err) ← labelNodeForLBs false s c;
        match err with
        | Some err => Some ((s, c), ([], Some err))
        | None => r ← gather (cfg_Identifier config) now s; Some ((s, c), r)
        end
      else Some ((s, c), ([], Some (Errorf "unknown action %v" [AStr action])))
  end.
End Execute.

(** ** When the wait ends *)

(** An event of the service [key] that reports its update. *)
Definition syncs (key : string) (e : Event) : bool :=
  String.eqb (ev_Reason e) nodeSyncEventReason && String.eqb (keyFunc (ev_Namespace e) (ev_Name e)) key.

Lemma sync_event_seen e s key :
  lbSvcMap (processEvent e s) = lbSvcMap s /\
  (forall phase, phase <> phaseNodeSyncComplete -> seen (svcNodeSyncLatencyTracker (processEvent e s)) key phase = seen (svcNodeSyncLatencyTracker s) key phase) /\
  seen (svcNodeSyncLatencyTracker (processEvent e s)) key phaseNodeSyncComplete =
    match seen (svcNodeSyncLatencyTracker s) key phaseNodeSyncComplete with
    | Some t => Some t
    | None => if syncs key e && bool_decide (is_Some (lbSvcMap s !! key)) then Some (ev_CreationTimestamp e) else None
    end.
Proof.
  unfold processEvent, syncs. destruct (String.eqb (ev_Reason e) nodeSyncEventReason); cbn [negb andb]; [|split; [done|split; [done|by case_match]]].
  set (k := keyFunc _ _). destruct (lbSvcMap s !! k) as [svc|] eqn:Hk.
  - split; [done|]. cbn [svcNodeSyncLatencyTracker with_tracker]. split.
    + intros phase Hp. rewrite seen_set_once. by rewrite bool_decide_false by (intros [_ ?]; congruence).
    + rewrite seen_set_once. destruct (String.eqb_spec k key) as [<-|Hne]; cbn [andb].
      * rewrite bool_decide_true by done. rewrite bool_decide_true by (by eexists). by destruct (seen _ k phaseNodeSyncComplete).
      * rewrite bool_decide_false by (by intros [? _]). by case_match.
  - split; [done|]. split; [done|]. destruct (String.eqb_spec k key) as [<-|Hne]; cbn [andb]; [|by case_match].
    rewrite bool_decide_false by (rewrite Hk; by intros [? ?]). by case_match.
Qed.

(** The first event of each service is recorded. *)
Lemma sync_events_seen evs s key :
  lbSvcMap (processEvents evs s) = lbSvcMap s /\
  (forall phase, phase <> phaseNodeSyncComplete -> seen (svcNodeSyncLatencyTracker (processEvents evs s)) key phase = seen (svcNodeSyncLatencyTracker s) key phase) /\
  seen (svcNodeSyncLatencyTracker (processEvents evs s)) key phaseNodeSyncComplete =
    match seen (svcNodeSyncLatencyTracker s) key phaseNodeSyncComplete with
    | Some t => Some t
    | None => if bool_decide (is_Some (lbSvcMap s !! key)) then ev_CreationTimestamp <$> List.find (syncs key) evs else None
    end.
Proof.
  revert s. induction evs as [|e evs IH]; intros s; cbn [processEvents fold_left].
  { split; [done|]. split; [done|]. cbn. repeat case_match; done. }
  destruct (sync_event_seen e s key) as (E1 & E2 & E3). destruct (IH (processEvent e s)) as (I1 & I2 & I3).
  unfold processEvents in *. rewrite I1, I3, E3, E1. split; [done|]. split.
  { intros phase Hp. rewrite I2 by done. auto. }
  cbn [List.find]. destruct (seen (svcNodeSyncLatencyTracker s) key _); [done|].
  destruct (bool_decide _); rewrite ?andb_true_r, ?andb_false_r; [|done]. by destruct (syncs key e).
Qed.

(** Every service of the map has an event. *)
Definition all_synced (s : measurement) (evs : list Event) : Prop :=
  forall key, is_Some (lbSvcMap s !! key) -> exists e, e ∈ evs /\ syncs key e = true.

(** The tracker holds the completions of [evs]. *)
Definition up_to (s : measurement) (evs : list Event) : Prop :=
  forall key, seen (svcNodeSyncLatencyTracker s) key phaseNodeSyncComplete =
    if bool_decide (is_Some (lbSvcMap s !! key)) then ev_CreationTimestamp <$> List.find (syncs key) evs else None.

Lemma find_app {A} (f : A -> bool) l l' : List.find f (l ++ l') = match List.find f l with Some x => Some x | None => List.find f l' end.
Proof. induction l as [|x l IH]; [done|]. cbn. by destruct (f x). Qed.

Lemma up_to_events s evs evs' : up_to s evs -> up_to (processEvents evs' s) (evs ++ evs').
Proof.
  intros Hu key. destruct (sync_events_seen evs' s key) as (-> & _ & ->). rewrite (Hu key), find_app.
  case_bool_decide; [|done]. by destruct (List.find (syncs key) evs).
Qed.

Lemma count_all s evs : up_to s evs ->
  OTT_Count (svcNodeSyncLatencyTracker s) phaseNodeSyncComplete =? Z.of_nat (size (lbSvcMap s)) = true <-> all_synced s evs.
Proof.
  intros Hu. rewrite Z.eqb_eq, OTT_Count_dom, <- (size_dom (D := gset string)).
  assert (forall key, key ∈ phase_dom (svcNodeSyncLatencyTracker s) phaseNodeSyncComplete <->
    is_Some (lbSvcMap s !! key) /\ exists e, e ∈ evs /\ syncs key e = true) as Hdom.
  { intros key. rewrite elem_of_phase_dom, seen_found, bool_decide_eq_true, (Hu key). case_bool_decide as Hl; [|split; [by intros [? ?]|by intros [? _]]].
    destruct (List.find (syncs key) evs) as [e|] eqn:Hf; cbn.
    - apply find_some in Hf as [Hin He]. split; [|by eexists]. intros _. split; [done|]. exists e. by rewrite list_elem_of_In.
    - split; [by intros [? ?]|]. intros [_ (e & Hin & He)]. apply list_elem_of_In in Hin. pose proof (find_none _ _ Hf _ Hin). congruence. }
  split.
  - intros Heq key Hk. assert (phase_dom (svcNodeSyncLatencyTracker s) phaseNodeSyncComplete = dom (lbSvcMap s)) as Hd.
    { apply set_subseteq_size_eq; [|lia]. intros k Hk'%Hdom. apply elem_of_dom. tauto. }
    assert (key ∈ phase_dom (svcNodeSyncLatencyTracker s) phaseNodeSyncComplete) as Hin by (rewrite Hd; by apply elem_of_dom). apply Hdom in Hin. tauto.
  - intros Hall. do 2 f_equal. apply set_eq. intros key. rewrite Hdom, elem_of_dom. split; [tauto|]. intros Hk. auto.
Qed.

(** The poll ends at the first round by which every service has an event. *)
Lemma poll_spec rounds s evs s' err :
  up_to s evs -> poll (Z.of_nat (size (lbSvcMap s))) rounds s = (s', err) ->
  match err with
  | None => exists k, (k < length rounds)%nat /\ all_synced s (evs ++ concat (take (S k) rounds)) /\
      (forall j, (j < k)%nat -> ~ all_synced s (evs ++ concat (take (S j) rounds))) /\
      lbSvcMap s' = lbSvcMap s /\ up_to s' (evs ++ concat (take (S k) rounds))
  | Some _ => forall j, (j < length rounds)%nat -> ~ all_synced s (evs ++ concat (take (S j) rounds))
  end.
Proof.
  revert s evs. induction rounds as [|r rounds IH]; intros s evs Hu; cbn [poll].
  { intros [= <- <-] j Hj. cbn in Hj. lia. }
  set (s1 := processEvents r s). assert (up_to s1 (evs ++ r)) as Hu1 by (by apply up_to_events).
  assert (lbSvcMap s1 = lbSvcMap s) as Hm by (apply (sync_events_seen r s "")).
  assert (forall l, all_synced s1 l <-> all_synced s l) as Hall by (intros l; unfold all_synced; by rewrite Hm).
  pose proof (count_all s1 (evs ++ r) Hu1) as Hc. rewrite Hm in Hc. destruct (_ =? _).
  - intros [= <- <-]. exists 0%nat. cbn [take concat length]. rewrite app_nil_r. split; [lia|]. split; [by apply Hall, Hc|].
    split; [lia|]. done.
  - rewrite <- Hm. intros Hp. specialize (IH s1 (evs ++ r) Hu1 Hp).
    assert (~ all_synced s (evs ++ concat (take 1 (r :: rounds)))) as H0.
    { cbn [take concat]. rewrite app_nil_r. intros Ha. apply Hall, Hc in Ha. done. }
    destruct err as [e|].
    + intros [|j] Hj; [exact H0|]. cbn [length] in Hj. cbn [take concat]. rewrite app_assoc. intros Ha. apply (IH j); [lia|]. by apply Hall.
    + destruct IH as (k & Hk & Ha & Hno & Hm' & Hu'). exists (S k). cbn [length]. split; [lia|]. cbn [take concat] in *. rewrite app_assoc.
      split; [by apply Hall|]. split; [|split; [by rewrite Hm', Hm|done]].
      intros [|j] Hj; [exact H0|]. cbn [take concat]. rewrite app_assoc. intros Hx. apply (Hno j); [lia|]. by apply Hall.
Qed.

Lemma set_starts_seen now s key phase :
  seen (svcNodeSyncLatencyTracker (set_starts now s)) key phase =
  if bool_decide (phase = phaseNodeSyncStart /\ is_Some (lbSvcMap s !! key)) then Some now else seen (svcNodeSyncLatencyTracker s) key phase.
Proof.
  assert (forall l t, seen (fold_left (fun t key => OTT_Set t key phaseNodeSyncStart now) l t) key phase =
    if bool_decide (phase = phaseNodeSyncStart /\ key ∈ l) then Some now else seen t key phase) as Hf.
  { induction l as [|k l IH]; intros t; cbn [fold_left].
    - by rewrite bool_decide_false by (intros [_ ?%elem_of_nil]; done).
    - rewrite IH, seen_Set. repeat case_bool_decide; try done; rewrite elem_of_cons in *; naive_solver. }
  unfold set_starts. cbn [svcNodeSyncLatencyTracker with_tracker]. rewrite Hf.
  assert (key ∈ (map_to_list (lbSvcMap s)).*1 <-> is_Some (lbSvcMap s !! key)) as Hin.
  { rewrite list_elem_of_fmap. split.
    - intros ([k v] & -> & Hkv%elem_of_map_to_list). by eexists.
    - intros [v Hv]. exists (key, v). by rewrite elem_of_map_to_list. }
  repeat case_bool_decide; try done; rewrite Hin in *; tauto.
Qed.

(** A measurement that has completed nothing yet. *)
Definition fresh (s : measurement) : Prop := forall key, seen (svcNodeSyncLatencyTracker s) key phaseNodeSyncComplete = None.

(** A measurement that succeeds has waited for the first round by which every
    load balancer service had an event, and recorded for each of them the start
    and the time of its first event. *)
Theorem node_sync_correct `{NodeApi C Patch} early now rounds s (c : C) s' c' :
  fresh s -> measureNodeSyncLatency early now rounds s c = Some ((s', c'), None) ->
  exists svcs k, services_List (selector s) c = Ok svcs /\ lbSvcMap s' = lb_services svcs /\ (k < length rounds)%nat /\
    all_synced s' (early ++ concat (take (S k) rounds)) /\
    (forall j, (j < k)%nat -> ~ all_synced s' (early ++ concat (take (S j) rounds))) /\
    forall key, is_Some (lbSvcMap s' !! key) ->
      seen (svcNodeSyncLatencyTracker s') key phaseNodeSyncComplete =
        ev_CreationTimestamp <$> List.find (syncs key) (early ++ concat (take (S k) rounds)).
Proof.
  intros Hf. unfold measureNodeSyncLatency. destruct (services_List _ c) as [svcs|]; [|discriminate].
  set (s0 := mkMeasurement_ _ _ _ _ (lb_services svcs)).
  assert (up_to s0 []) as Hu0 by (intros key; cbn; rewrite (Hf key); by case_bool_decide).
  destruct (nodes_List_ c) as [nodes|]; [|discriminate].
  set (name := match List.find isCandidateNode nodes with Some n => _ | None => _ end).
  set (s1 := mkMeasurement_ _ _ _ name _). destruct (String.eqb name ""); [discriminate|].
  assert (lbSvcMap s1 = lb_services svcs) as Hm1 by (apply (sync_events_seen early s0 "")).
  assert (up_to s1 early) as Hu1 by (exact (up_to_events s0 [] early Hu0)).
  destruct (labelNodeForLBs true s1 c) as [[c1 [e|]]|]; cbn [mbind option_bind]; [|  |discriminate].
  { destruct (labelNodeForLBs false _ _) as [[c2 e2]|]; discriminate. }
  destruct (poll _ rounds (set_starts now s1)) as [s2 [e|]] eqn:Hp; (destruct (labelNodeForLBs false _ _) as [[c2 e2]|]; [|discriminate]); [discriminate|].
  cbn [mbind option_bind]. intros [= <- <-].
  assert (up_to (set_starts now s1) early) as Hu2.
  { intros key. rewrite set_starts_seen. rewrite bool_decide_false by (by intros [? _]). exact (Hu1 key). }
  rewrite <- Hm1 in Hp. change (lbSvcMap s1) with (lbSvcMap (set_starts now s1)) in Hp.
  destruct (poll_spec _ _ _ _ _ Hu2 Hp) as (k & Hk & Ha & Hno & Hm & Hu).
  assert (forall l, all_synced s2 l <-> all_synced (set_starts now s1) l) as Hall by (intros l; unfold all_synced; by rewrite Hm).
  exists svcs, k. split; [done|]. split; [by rewrite Hm|]. split; [done|]. split; [by apply Hall|].
  split; [intros j Hj Hx; apply (Hno j Hj); by apply Hall|].
  intros key Hkey. rewrite (Hu key). by rewrite bool_decide_true.
Qed.

(** A second measurement of the same services ends at its first round without
    any event: the completions of the first one are still recorded. *)
Lemma second_measure_immediate s evs rounds :
  up_to s evs -> all_synced s evs -> poll (Z.of_nat (size (lbSvcMap s))) ([] :: rounds) s = (s, None).
Proof.
  intros Hu Ha. cbn [poll]. change (processEvents [] s) with s. apply (count_all s evs Hu) in Ha. by rewrite Ha.
Qed.

(** Excluding a node without labels assigns to a nil map. *)
Lemma unlabelled_node_panics `{NodeApi C Patch} s (c : C) n :
  node_Get (excludedNodeName s) c = Ok n -> node_Labels n = ∅ -> labelNodeForLBs true s c = None.
Proof. intros Hg Hl. unfold labelNodeForLBs. rewrite Hg. by rewrite bool_decide_true. Qed.
End NodeSync.
