(* ===== verification/NetworkPerf.v ===== *)
(** * Network performance (pkg/measurement/common/network)

    The measurement deploys worker pods, pairs them across nodes, asks each
    pair for a test with a custom resource and summarises what the workers
    report. [container/heap], the cluster and the informer are interfaces. *)

From S2P Require Import Prelude GoErrors GoRuntime Params Measurement Float64 FloatInt Latency Services Gatherers PodStartup.
From Stdlib Require Import SpecFloat.

Definition networkPerformanceMetricsName : string := "NetworkPerformanceMetrics".
Definition netperfNamespace : string := "netperf".
Definition initialDelayForTestExecution : Z := 15 * Duration.Second.
Definition protocolTCP : string := "TCP".
Definition protocolUDP : string := "UDP".
Definition protocolHTTP : string := "HTTP".
Definition tcpBandwidth : nat := 1.
Definition udpJitter : nat := 2.
Definition udpLostPacketsPercentage : nat := 5.
Definition udpLatencyAverage : nat := 6.
Definition udpPacketPerSecond : nat := 10.
Definition httpResponseTime : nat := 4.
Definition oneToOne : string := "1:1".
Definition manyToOne : string := "N:1".
Definition manyToMany : string := "N:M".
Definition invalid : string := "invalid".

Definition metricUnitMap : gmap string string :=
  {[ "Throughput" := "kbytes/sec"; "Latency" := "ms"; "Jitter" := "ms"; "Lost_Packets" := "percentage";
     "Packet_Per_Second" := "pps"; "Response_Time" := "seconds" ]}.

(** ** Pairs of workers (worker_pod_info.go) *)

Record workerNodeInfo := mkWorkerNodeInfo { nodeName : string; numberOfPods : nat }.

(** [nodeHeap.Less]: the node with more pods comes first. *)
Definition nodeHeap_Less (x y : workerNodeInfo) : bool := (numberOfPods y <? numberOfPods x)%nat.

(** What [container/heap] documents for a heap ordered by [nodeHeap.Less]: it
    keeps the elements, and [Pop] takes one that no other is less than; the
    choice among equals is left to it. *)
Class NodeHeap := {
  is_heap : list workerNodeInfo -> Prop;
  heap_Init : list workerNodeInfo -> list workerNodeInfo;
  heap_Push : workerNodeInfo -> list workerNodeInfo -> list workerNodeInfo;
  heap_Pop : list workerNodeInfo -> option (workerNodeInfo * list workerNodeInfo);
  heap_Init_law l : is_heap (heap_Init l) /\ heap_Init l ≡ₚ l;
  heap_Push_law x l : is_heap l -> is_heap (heap_Push x l) /\ heap_Push x l ≡ₚ x :: l;
  heap_Pop_law l : is_heap l -> l <> [] ->
    exists x l', heap_Pop l = Some (x, l') /\ is_heap l' /\ l ≡ₚ x :: l' /\
      forall y, y ∈ l -> nodeHeap_Less y x = false;
}.

Lemma nodeHeap_Less_false x y : nodeHeap_Less y x = false <-> (numberOfPods y <= numberOfPods x)%nat.
Proof. unfold nodeHeap_Less. by rewrite Nat.ltb_ge. Qed.

Record workerPodData := mkWorkerPodData { podName : string; workerNode : string; podIP : string }.
#[export] Instance workerPodData_eq_dec : EqDecision workerPodData.
Proof. solve_decision. Defined.

Abbreviation podMap := (gmap string (list workerPodData)).

(** The last pod of the list. *)
Definition podList_Pop (l : list workerPodData) : result (workerPodData * list workerPodData) :=
  match last l with
  | None => Err (Errorf "empty pod list" [])
  | Some lastElement => Ok (lastElement, removelast l)
  end.

Definition pop (nodeName : string) (wp : podMap) : podMap * result workerPodData :=
  match wp !! nodeName with
  | None => (wp, Err (Errorf "worker node %s is removed" [AStr nodeName]))
  | Some l =>
      match podList_Pop l with
      | Err err => (delete nodeName wp, Err err)
      | Ok (pod, l') => (<[nodeName := l']> wp, Ok pod)
      end
  end.

Record podPair := mkPodPair {
  index : nat;
  sourcePodName : string;
  sourcePodIP : string;
  destinationPodName : string;
  destinationPodIP : string;
}.

Definition newPodPair (index : nat) (sourcePod destinationPod : workerPodData) : podPair :=
  mkPodPair index (podName sourcePod) (podIP sourcePod) (podName destinationPod) (podIP destinationPod).

Section Pairs.
Context `{NodeHeap} `{MapRange}.

Definition push_rest (node : workerNodeInfo) (nh : list workerNodeInfo) : list workerNodeInfo :=
  if (1 <? numberOfPods node)%nat then heap_Push (mkWorkerNodeInfo (nodeName node) (numberOfPods node - 1)) nh else nh.

(** The loop; [None]: out of fuel. *)
Fixpoint pair_loop (fuel : nat) (i : nat) (nh : list workerNodeInfo) (wp : podMap) (podPairList : list podPair)
  : option (podMap * list podPair) :=
  if (length nh <=? 1)%nat then Some (wp, podPairList)
  else
    match fuel with
    | O => None
    | S fuel =>
        '(firstNode, nh) ← heap_Pop nh;
        '(secondNode, nh) ← heap_Pop nh;
        let nh := push_rest secondNode (push_rest firstNode nh) in
        let '(wp, sourcePod) := pop (nodeName firstNode) wp in
        let '(wp, destinationPod) := pop (nodeName secondNode) wp in
        let podPairList :=
          match sourcePod, destinationPod with
          | Ok s, Ok d => podPairList ++ [newPodPair i s d]
          | _, _ => podPairList
          end in
        pair_loop fuel (S i) nh wp podPairList
    end.

Definition node_infos (wp : podMap) : list workerNodeInfo :=
  map (fun '(key, value) => mkWorkerNodeInfo key (length value)) (range "formUniquePodPair" wp).

Definition total (nh : list workerNodeInfo) : nat := sum_list_with numberOfPods nh.

(** Every iteration takes two pods, so that their number is enough fuel. *)
Definition formUniquePodPair (wp : podMap) : option (podMap * list podPair) :=
  let nh := node_infos wp in pair_loop (total nh) 0 (heap_Init nh) wp [].
End Pairs.

(** ** The workers (storeWorkerPods of network_performance_measurement.go) *)

Definition addPodWorker (data : workerPodData) (wp : podMap) : podMap :=
  let wp := match wp !! workerNode data with Some _ => wp | None => <[workerNode data := []]> wp end in
  <[workerNode data := default [] (wp !! workerNode data) ++ [data]]> wp.

(** Pods without an address are skipped. *)
Fixpoint store_loop (pods : list workerPodData) (wp : podMap) : podMap :=
  match pods with
  | [] => wp
  | pod :: pods' => store_loop pods' (if String.eqb (podIP pod) "" then wp else addPodWorker pod wp)
  end.

(** ** The measurement (network_performance_measurement.go and
    performance-measurement-helper.go) *)

Record metricPercentiles := mkMetricPercentiles { percentile05 : float64; percentile50 : float64; percentile95 : float64 }.

Definition f64_0 : float64 := f64_of_Z 0.

(** An index outside of the slice panics. *)
Definition getPercentile (values : list float64) : option metricPercentiles :=
  match values with
  | [] => Some (mkMetricPercentiles f64_0 f64_0 f64_0)
  | _ =>
      let sorted := SchedulingThroughput.sort_Float64s values in
      let at_ (q : Z) := let i := percentile_index (Z.of_nat (length values)) q in if i <? 0 then None else sorted !! Z.to_nat i in
      p05 ← at_ 5; p50 ← at_ 50; p95 ← at_ 95;
      Some (mkMetricPercentiles p05 p50 p95)
  end.

Record metricResponse := mkMetricResponse { Metrics : list float64; Error_ : string; WorkerDelay : float64 }.

(** [started]: the framework is set. *)
Record measurement := mkMeasurement_ {
  started : bool;
  numberOfServers : Z;
  numberOfClients : Z;
  podRatioType : string;
  testDuration : Z;
  protocol : string;
  workerPodMap : podMap;
  metricVal : list (list float64);
  stopCh : chan_state;
  startTimeStampForTestExecution : Z;
}.

Definition createNetworkPerformanceMeasurement : measurement := mkMeasurement_ false 0 0 "" 0 "" ∅ [] ChanNil 0.

Definition with_params (npm : measurement) (servers clients : Z) (ratio : string) (duration : Z) (protocol : string) : measurement :=
  mkMeasurement_ (started npm) servers clients ratio duration protocol (workerPodMap npm) (metricVal npm) (stopCh npm) (startTimeStampForTestExecution npm).

Definition getPodRatioType (npm : measurement) : string :=
  if (numberOfClients npm =? numberOfServers npm) && (numberOfClients npm =? 1) then oneToOne
  else if (numberOfServers npm <? numberOfClients npm) && (numberOfServers npm =? 1) then manyToOne
  else if numberOfClients npm =? numberOfServers npm then manyToMany
  else invalid.

Section Validate.
Context `{GoLib}.

Definition validatePodConfiguration (config : MeasurementConfig) (npm : measurement) : measurement * option error :=
  let '(clients, err) := getInt (cfg_Params config) "numberOfClients" in
  let npm := with_params npm (numberOfServers npm) clients (podRatioType npm) (testDuration npm) (protocol npm) in
  if err is Some _ then (npm, err) else
  let '(servers, err) := getInt (cfg_Params config) "numberOfServers" in
  let npm := with_params npm servers clients (podRatioType npm) (testDuration npm) (protocol npm) in
  if err is Some _ then (npm, err) else
  if (clients <=? 0) || (servers <=? 0) then (npm, Some (Errorf "invalid number of client or server pods" []))
  else (npm, None).

Definition validate (config : MeasurementConfig) (npm : measurement) : measurement * option error :=
  let '(d, err) := getDuration (cfg_Params config) "duration" in
  let npm := with_params npm (numberOfServers npm) (numberOfClients npm) (podRatioType npm) d (protocol npm) in
  if err is Some _ then (npm, err) else
  let '(p, err) := getString (cfg_Params config) "protocol" in
  let npm := with_params npm (numberOfServers npm) (numberOfClients npm) (podRatioType npm) d p in
  if err is Some _ then (npm, err) else
  if negb (String.eqb p protocolTCP) && negb (String.eqb p protocolUDP) && negb (String.eqb p protocolHTTP)
  then (npm, Some (Errorf "invalid protocol , supported ones are TCP,UDP,HTTP" []))
  else
    match validatePodConfiguration config npm with
    | (npm, Some err) => (npm, Some err)
    | (npm, None) => (with_params npm (numberOfServers npm) (numberOfClients npm) (getPodRatioType npm) d p, None)
    end.
End Validate.

(** The cluster, as the measurement uses it. *)
Class NetperfServer (W : Type) := {
  np_CreateNamespace : string -> W -> W * option error;
  np_Apply : string -> params -> W -> W * option error;
  np_DeleteObject : string -> string -> W -> W * option error;        (* kind, name *)
  np_DeleteNamespace : string -> W -> W * option error;
  np_WaitForDeleteNamespace : string -> W -> W * option error;
  np_ListPods : string -> W -> result (list workerPodData);
  np_WaitForPods : string -> Z -> W -> W * option error;              (* with the pod store *)
  np_informer : W -> option error;
}.

(** [time.Duration.Seconds]. *)
Definition Seconds (d : Z) : float64 :=
  f64_add (f64_of_Z (Z.quot d Duration.Second)) (f64_div (f64_of_Z (Z.rem d Duration.Second)) (f64_of_Z (10 ^ 9))).

Definition populateTemplate (npm : measurement) (podPair : podPair) (index : nat) : params :=
  {[ "index" := VInt (Z.of_nat index);
     "clientPodName" := VString (sourcePodName podPair);
     "serverPodName" := VString (destinationPodName podPair);
     "clientPodIP" := VString (sourcePodIP podPair);
     "serverPodIP" := VString (destinationPodIP podPair);
     "protocol" := VString (protocol npm);
     "duration" := VFloat64 (Seconds (testDuration npm));
     "clientStartTimestamp" := VInt (startTimeStampForTestExecution npm);
     "numberOfClients" := VInt 1 ]}.

Section Start.
Context {W : Type} `{NetperfServer W} `{NodeHeap} `{MapRange} `{GoLib}.

Definition initialize (npm : measurement) : measurement :=
  mkMeasurement_ true (numberOfServers npm) (numberOfClients npm) (podRatioType npm) (testDuration npm) (protocol npm)
    ∅ (metricVal npm) (stopCh npm) (startTimeStampForTestExecution npm).

Definition prepareCluster (w : W) : W * option error :=
  run_steps [
    wrapped (fun err => Errorf "error while creating namespace: %v" [AErr err]) (np_CreateNamespace netperfNamespace);
    wrapped (fun err => Errorf "error while creating clusterRoleBinding: %v" [AErr err]) (np_Apply "manifests/roleBinding.yaml" ∅);
    wrapped (fun err => Errorf "error while creating CRD: %v" [AErr err]) (np_Apply "manifests/*CustomResourceDefinition.yaml" ∅)
  ] w.

Definition createAndWaitForWorkerPods (npm : measurement) (w : W) : W * option error :=
  let n := wrap64 (numberOfClients npm + numberOfServers npm) in
  run_steps [
    wrapped (fun err => Errorf "failed to create worked pods: %v " [AErr err]) (np_Apply "manifests/*deployment.yaml" {[ "Replicas" := VInt n ]});
    np_WaitForPods netperfNamespace n
  ] w.

Definition storeWorkerPods (npm : measurement) (w : W) : measurement * option error :=
  match np_ListPods netperfNamespace w with
  | Err err => (npm, Some err)
  | Ok pods =>
      (mkMeasurement_ (started npm) (numberOfServers npm) (numberOfClients npm) (podRatioType npm) (testDuration npm) (protocol npm)
         (store_loop pods (workerPodMap npm)) (metricVal npm) (stopCh npm) (startTimeStampForTestExecution npm), None)
  end.

Definition initializeInformer (npm : measurement) (w : W) : measurement * option error :=
  match np_informer w with
  | Some err => (npm, Some (Errorf "error adding event handler: %v" [AErr err]))
  | None =>
      (mkMeasurement_ (started npm) (numberOfServers npm) (numberOfClients npm) (podRatioType npm) (testDuration npm) (protocol npm)
         (workerPodMap npm) (metricVal npm) ChanOpen (startTimeStampForTestExecution npm), None)
  end.

(** The errors of the requests are logged. *)
Fixpoint request_loop (npm : measurement) (pairs : list podPair) (pairIndex : nat) (w : W) : W :=
  match pairs with
  | [] => w
  | p :: pairs' =>
      request_loop npm pairs' (S pairIndex) (np_Apply "manifests/networktestrequests.yaml" (populateTemplate npm p pairIndex) w).1
  end.

Definition createCustomResourcePerUniquePodPair (now : Z) (pairs : list podPair) (npm : measurement) (w : W) : measurement * W :=
  let npm := mkMeasurement_ (started npm) (numberOfServers npm) (numberOfClients npm) (podRatioType npm) (testDuration npm) (protocol npm)
               (workerPodMap npm) (metricVal npm) (stopCh npm) ((now + initialDelayForTestExecution) / Duration.Second) in
  (npm, request_loop npm pairs 0 w).

(** [None]: the loop of pairs would not end. *)
Definition execNToMTest (now : Z) (npm : measurement) (w : W) : option (measurement * W) :=
  '(wp, pairs) ← formUniquePodPair (workerPodMap npm);
  let npm := mkMeasurement_ (started npm) (numberOfServers npm) (numberOfClients npm) (podRatioType npm) (testDuration npm) (protocol npm)
               wp (metricVal npm) (stopCh npm) (startTimeStampForTestExecution npm) in
  Some (createCustomResourcePerUniquePodPair now pairs npm w).

Definition start (now : Z) (npm : measurement) (w : W) : option ((measurement * W) * option error) :=
  let npm := initialize npm in
  match prepareCluster w with
  | (w, Some err) => Some ((npm, w), Some err)
  | (w, None) =>
      match createAndWaitForWorkerPods npm w with
      | (w, Some err) => Some ((npm, w), Some err)
      | (w, None) =>
          match storeWorkerPods npm w with
          | (npm, Some err) => Some ((npm, w), Some err)
          | (npm, None) =>
              match initializeInformer npm w with
              | (npm, Some err) => Some ((npm, w), Some err)
              | (npm, None) =>
                  if String.eqb (podRatioType npm) oneToOne || String.eqb (podRatioType npm) manyToMany
                  then '(npm, w) ← execNToMTest now npm w; Some ((npm, w), None)
                  else Some ((npm, w), Some (Errorf "invalid Pod Ratio: %v" [AStr (podRatioType npm)]))
              end
          end
      end
  end.

(** Every step is tried; errors are logged. *)
Definition cleanupCluster (npm : measurement) (w : W) : W :=
  if negb (started npm) then w
  else
    let w := (np_DeleteObject "CustomResourceDefinition" "networktestrequests.clusterloader.io" w).1 in
    let w := (np_DeleteObject "ClusterRoleBinding" "networktestrequests-rbac" w).1 in
    let w := (np_DeleteNamespace netperfNamespace w).1 in
    (np_WaitForDeleteNamespace netperfNamespace w).1.

Definition Dispose (npm : measurement) (w : W) : W := cleanupCluster npm w.
End Start.

(** ** Responses *)

(** An update as the informer delivers it: not a runtime object, not
    convertible, without a status, or with one, decoded or not. *)
Inductive update_obj :=
| NotRuntimeObject | Unconvertible | NoStatus | Status_ (decoded : result metricResponse).

(** A status that cannot be decoded leaves the zero response. *)
Definition handleUpdateNetworkTestEvents (newObj : update_obj) (npm : measurement) : measurement :=
  match newObj with
  | Status_ decoded =>
      let metrics := match decoded with Ok r => Metrics r | Err _ => [] end in
      mkMeasurement_ (started npm) (numberOfServers npm) (numberOfClients npm) (podRatioType npm) (testDuration npm) (protocol npm)
        (workerPodMap npm) (metricVal npm ++ [metrics]) (stopCh npm) (startTimeStampForTestExecution npm)
  | _ => npm
  end.

Definition checkResponseReceivedFromPods (npm : measurement) : bool := Z.of_nat (length (metricVal npm)) =? numberOfClients npm.

(** The updates that arrive before each poll. *)
Fixpoint waitForMetricsFromPods (rounds : list (list update_obj)) (npm : measurement) : measurement :=
  match rounds with
  | [] => npm
  | us :: rounds' =>
      let npm := fold_left (fun npm u => handleUpdateNetworkTestEvents u npm) us npm in
      if checkResponseReceivedFromPods npm then npm else waitForMetricsFromPods rounds' npm
  end.

(** [time.Duration(math.Max(10, float64(npm.numberOfClients)*0.1)) * time.Second]. *)
Definition waitTimeout (npm : measurement) : Z :=
  let tenth := f64_mul (f64_of_Z (numberOfClients npm)) (f64_div (f64_of_Z 1) (f64_of_Z 10)) in
  let bufferTime := f64_to_int (if f64_ltb (f64_of_Z 10) tenth then tenth else f64_of_Z 10) * Duration.Second in
  wrap64 (initialDelayForTestExecution + testDuration npm + bufferTime).

(** ** The summary *)

(** The value of a metric; [None]: a response without it panics. *)
Definition metric_at (metricIndex : nat) (response : list float64) : option float64 := response !! metricIndex.

Fixpoint last_value (metricIndex : nat) (responses : list (list float64)) (data : gmap string float64) : option (gmap string float64) :=
  match responses with
  | [] => Some data
  | [] :: rs => last_value metricIndex rs (<["Value" := f64_0]> data)
  | r :: rs => v ← metric_at metricIndex r; last_value metricIndex rs (<["Value" := v]> data)
  end.

Fixpoint aggregate (metricIndex : nat) (responses : list (list float64)) (acc : list float64) : option (list float64) :=
  match responses with
  | [] => Some acc
  | [] :: rs => aggregate metricIndex rs acc
  | r :: rs =>
      v ← metric_at metricIndex r;
      aggregate metricIndex rs (acc ++ [if (metricIndex =? udpLatencyAverage)%nat && f64_ltb v f64_0 then f64_0 else v])
  end.

Definition calculateMetricDataValue (npm : measurement) (metricIndex : nat) (data : gmap string float64) : option (gmap string float64) :=
  if String.eqb (podRatioType npm) oneToOne then last_value metricIndex (metricVal npm) data
  else if String.eqb (podRatioType npm) manyToMany then
    values ← aggregate metricIndex (metricVal npm) [];
    p ← getPercentile values;
    Some (<["Perc95" := percentile95 p]> (<["Perc50" := percentile50 p]> (<["Perc05" := percentile05 p]> data)))
  else Some data.

Definition getMetricData (npm : measurement) (metricIndex : nat) (metricName : string) (items : list DataItem) : option (list DataItem) :=
  data ← calculateMetricDataValue npm metricIndex ∅;
  Some (items ++ [mkDataItem data (default "" (metricUnitMap !! metricName)) {[ "Metric" := metricName ]}]).

Record testResultSummary := mkTestResultSummary { podRatio : string; sum_protocol : string; sum_service : string; sum_DataItems : list DataItem }.

Fixpoint metrics_loop (npm : measurement) (metrics : list (nat * string)) (items : list DataItem) : option (list DataItem) :=
  match metrics with
  | [] => Some items
  | (i, name) :: l => items ← getMetricData npm i name items; metrics_loop npm l items
  end.

Definition createResultSummary (npm : measurement) : option testResultSummary :=
  let tcp := [(tcpBandwidth, "Throughput")] in
  let udp := [(udpPacketPerSecond, "Packet_Per_Second"); (udpJitter, "Jitter"); (udpLatencyAverage, "Latency"); (udpLostPacketsPercentage, "Lost_Packets")] in
  let http := [(httpResponseTime, "Response_Time")] in
  let '(proto, metrics) :=
    if String.eqb (protocol npm) protocolTCP then (protocolTCP, tcp)
    else if String.eqb (protocol npm) protocolUDP then (protocolUDP, udp)
    else if String.eqb (protocol npm) protocolHTTP then (protocolHTTP, http) else ("", []) in
  items ← metrics_loop npm metrics [];
  Some (mkTestResultSummary (podRatioType npm) proto "P2P" items).

Section Gather.
Context {W : Type} `{NetperfServer W} (PrettyPrintJSON : PerfData -> result string).

(** Closing a nil or closed channel panics. *)
Definition gather (rounds : list (list update_obj)) (now : Z) (npm : measurement) (w : W) : option ((measurement * W) * Summary) :=
  let npm := waitForMetricsFromPods rounds npm in
  match stopCh npm with
  | ChanOpen =>
      let npm := mkMeasurement_ (started npm) (numberOfServers npm) (numberOfClients npm) (podRatioType npm) (testDuration npm) (protocol npm)
                   (workerPodMap npm) (metricVal npm) ChanClosed (startTimeStampForTestExecution npm) in
      let w := cleanupCluster npm w in
      r ← createResultSummary npm;
      let content := match PrettyPrintJSON (mkPerfData "v1" (sum_DataItems r) ∅) with Ok content => content | Err _ => "" end in
      let summaryName := networkPerformanceMetricsName +:+ "_" +:+ podRatio r +:+ "_" +:+ sum_protocol r +:+ "_" +:+ sum_service r in
      Some ((npm, w), CreateSummary now summaryName "json" content)
  | _ => None
  end.

Definition Execute `{NodeHeap} `{MapRange} `{GoLib} (rounds : list (list update_obj)) (now : Z) (config : MeasurementConfig) (npm : measurement) (w : W)
  : option ((measurement * W) * (list Summary * option error)) :=
  match getString (cfg_Params config) "action" with
  | (_, Some err) => Some ((npm, w), ([], Some err))
  | (action, None) =>
      if String.eqb action "start" then
        match validate config npm with
        | (npm, Some err) => Some ((npm, w), ([], Some err))
        | (npm, None) => '(nw, err) ← start now npm w; Some (nw, ([], err))
        end
      else if String.eqb action "gather" then '(nw, summary) ← gather rounds now npm w; Some (nw, ([summary], None))
      else Some ((npm, w), ([], Some (Errorf "unknown action: %v" [AStr action])))
  end.
End Gather.

(** *** Waiting for the responses *)

Lemma handle_grows u npm :
  (length (metricVal npm) <= length (metricVal (handleUpdateNetworkTestEvents u npm)))%nat /\
  numberOfClients (handleUpdateNetworkTestEvents u npm) = numberOfClients npm.
Proof. destruct u; (split; [|done]); cbn [handleUpdateNetworkTestEvents metricVal]; rewrite ?length_app; lia. Qed.

Lemma handle_all_grows us npm :
  (length (metricVal npm) <= length (metricVal (fold_left (fun npm u => handleUpdateNetworkTestEvents u npm) us npm)))%nat /\
  numberOfClients (fold_left (fun npm u => handleUpdateNetworkTestEvents u npm) us npm) = numberOfClients npm.
Proof.
  revert npm. induction us as [|u us IH]; intros npm; cbn [fold_left]; [done|].
  destruct (handle_grows u npm) as [H1 H2], (IH (handleUpdateNetworkTestEvents u npm)) as [H3 H4]. split; [lia|congruence].
Qed.

(** Once there are more responses than clients, as after a second status update
    of a request or a second start, no round satisfies the wait: it lasts until
    its timeout. *)
Lemma extra_response_blocks_wait rounds npm :
  numberOfClients npm < Z.of_nat (length (metricVal npm)) ->
  checkResponseReceivedFromPods (waitForMetricsFromPods rounds npm) = false.
Proof.
  revert npm. induction rounds as [|us rounds IH]; intros npm Hn; cbn [waitForMetricsFromPods].
  - unfold checkResponseReceivedFromPods. apply Z.eqb_neq. lia.
  - destruct (handle_all_grows us npm) as [H1 H2]. set (npm1 := fold_left _ us npm) in *.
    destruct (checkResponseReceivedFromPods npm1) eqn:Hc.
    + unfold checkResponseReceivedFromPods in Hc. apply Z.eqb_eq in Hc. lia.
    + apply IH. lia.
Qed.

(** Starting again keeps the responses of the first start. *)
Lemma initialize_keeps_responses npm : metricVal (initialize npm) = metricVal npm.
Proof. done. Qed.

(** Several clients of one server pass the validation, are deployed, and are
    then refused. *)
Lemma many_to_one_refused npm :
  numberOfServers npm = 1 -> 1 < numberOfClients npm ->
  getPodRatioType npm = manyToOne /\ String.eqb manyToOne oneToOne || String.eqb manyToOne manyToMany = false.
Proof.
  intros Hs Hc. split; [|done]. unfold getPodRatioType. rewrite Hs.
  destruct (Z.eqb_spec (numberOfClients npm) 1); [lia|]. cbn [andb].
  destruct (Z.ltb_spec 1 (numberOfClients npm)); [done|lia].
Qed.

(** Gathering what was not started closes a nil channel. *)
Lemma netperf_unstarted_panics `{NetperfServer W} PrettyPrintJSON rounds now npm (w : W) :
  stopCh (waitForMetricsFromPods rounds npm) = ChanNil -> gather PrettyPrintJSON rounds now npm w = None.
Proof. intros Hs. unfold gather. by rewrite Hs. Qed.

(** *** What the pairs are *)

(** The pairs, with the workers they are made of. *)
Definition pairs_of (used : list (workerPodData * workerPodData)) : list podPair :=
  imap (fun i '(s, d) => newPodPair i s d) used.

Definition both (used : list (workerPodData * workerPodData)) : list workerPodData := concat (map (fun '(s, d) => [s; d]) used).

(** Pairs of workers on different nodes, no worker twice. *)
Definition pairing (pods : list workerPodData) (used : list (workerPodData * workerPodData)) : Prop :=
  (exists rest, both used ++ rest ≡ₚ pods) /\ Forall (fun '(s, d) => workerNode s <> workerNode d) used.

Definition on_node (n : string) (pods : list workerPodData) : nat := length (filter (fun p => workerNode p = n) pods).

Lemma length_both used : length (both used) = (2 * length used)%nat.
Proof. unfold both. induction used as [|[s d] used IH]; [done|]. cbn. rewrite IH. lia. Qed.

(** No pairing is larger than half of the workers, nor than the workers outside
    of a node. *)
Lemma pairing_bound pods used n :
  pairing pods used -> (2 * length used <= length pods)%nat /\ (length used + on_node n pods <= length pods)%nat.
Proof.
  intros [[rest Hr] Hf]. split; [rewrite <- Hr, length_app, length_both; lia|].
  assert (length used + on_node n (both used) <= length (both used))%nat as Hb.
  { clear Hr. unfold on_node, both. induction Hf as [|[s d] used Hne _ IH]; [done|]. cbn [map concat]. cbn [app].
    rewrite !filter_cons. cbn [length]. repeat case_decide; cbn [length]; try lia. congruence. }
  unfold on_node in *. rewrite <- Hr, filter_app, !length_app. pose proof (length_filter (fun p => workerNode p = n) rest). lia.
Qed.

(** The largest number of workers on a node. *)
Definition biggest (nh : list workerNodeInfo) : nat := max_list_with numberOfPods nh.

Lemma total_perm nh nh' : nh ≡ₚ nh' -> total nh = total nh'.
Proof. unfold total. induction 1; cbn; lia. Qed.

Lemma biggest_perm nh nh' : nh ≡ₚ nh' -> biggest nh = biggest nh'.
Proof. unfold biggest. induction 1; cbn; lia. Qed.

Lemma biggest_le nh k : (forall y, y ∈ nh -> (numberOfPods y <= k)%nat) -> (biggest nh <= k)%nat.
Proof. unfold biggest. induction nh as [|x nh IH]; cbn; [lia|]. intros Hy. specialize (Hy x ltac:(left)) as Hx. specialize (IH ltac:(intros y Hin; apply Hy; by right)). lia. Qed.

Lemma biggest_ge nh y : y ∈ nh -> (numberOfPods y <= biggest nh)%nat.
Proof. unfold biggest. induction nh as [|x nh IH]; [by intros ?%elem_of_nil|]. intros [->|Hin]%elem_of_cons; cbn; [lia|]. specialize (IH Hin). lia. Qed.

Lemma biggest_total nh : (biggest nh <= total nh)%nat.
Proof. unfold biggest, total. induction nh; cbn; lia. Qed.

(** What the greedy loop still finds: half of the workers, or all those outside
    of the largest node. *)
Definition best (nh : list workerNodeInfo) : nat := Nat.min (total nh / 2) (total nh - biggest nh).

(** The list after a pair was taken from the nodes [a] and [b]. *)
Definition rest_of (x : workerNodeInfo) : list workerNodeInfo :=
  if (1 <? numberOfPods x)%nat then [mkWorkerNodeInfo (nodeName x) (numberOfPods x - 1)] else [].

Lemma total_rest x : (0 < numberOfPods x)%nat -> (total (rest_of x) = numberOfPods x - 1)%nat /\ (biggest (rest_of x) = numberOfPods x - 1)%nat.
Proof. unfold rest_of. destruct (Nat.ltb_spec 1 (numberOfPods x)); cbn; lia. Qed.

Lemma best_step a b nh :
  (0 < numberOfPods b)%nat -> (numberOfPods b <= numberOfPods a)%nat -> (forall y, y ∈ nh -> (numberOfPods y <= numberOfPods b)%nat) ->
  best (a :: b :: nh) = S (best (rest_of a ++ rest_of b ++ nh)) /\ (total (rest_of a ++ rest_of b ++ nh) + 2 = total (a :: b :: nh))%nat.
Proof.
  intros Hb Hab Hnh. destruct (total_rest a) as [Ta Ba]; [lia|]. destruct (total_rest b Hb) as [Tb Bb].
  assert (forall l l', total (l ++ l') = total l + total l')%nat as Ht by (intros; apply sum_list_with_app).
  assert (forall l l', biggest (l ++ l') = Nat.max (biggest l) (biggest l')) as Hm by (intros l l'; unfold biggest; induction l; cbn; lia).
  pose proof (biggest_le nh _ Hnh) as Hc. pose proof (biggest_total nh) as Hct.
  unfold best. rewrite !Ht, !Hm, Ta, Tb, Ba, Bb. unfold total at 1 2 5 6, biggest at 1. cbn [sum_list_with max_list_with].
  change (sum_list_with numberOfPods nh) with (total nh). change (max_list_with numberOfPods nh) with (biggest nh).
  split; [|lia].
  set (T := total nh) in *. set (M := biggest nh) in *. set (x := numberOfPods a) in *. set (y := numberOfPods b) in *.
  replace (x - 1 + (y - 1 + T))%nat with (x + (y + T) - 2)%nat by lia.
  pose proof (Nat.div_mod (x + (y + T)) 2 ltac:(lia)). pose proof (Nat.mod_upper_bound (x + (y + T)) 2 ltac:(lia)).
  pose proof (Nat.div_mod (x + (y + T) - 2) 2 ltac:(lia)). pose proof (Nat.mod_upper_bound (x + (y + T) - 2) 2 ltac:(lia)). lia.
Qed.

Definition remaining (wp : podMap) : list workerPodData := concat (map_to_list wp).*2.

Lemma workers_split (wp : podMap) n l : wp !! n = Some l -> remaining wp ≡ₚ l ++ remaining (delete n wp).
Proof. intros Hl. unfold remaining. rewrite <- (map_to_list_delete _ _ _ Hl). done. Qed.

Lemma workers_insert (wp : podMap) n l : remaining (<[n := l]> wp) ≡ₚ l ++ remaining (delete n wp).
Proof. rewrite (workers_split _ n l) by (by rewrite lookup_insert_eq). by rewrite delete_insert_eq. Qed.

(** Taking a worker from a node that has one. *)
Lemma pop_some (wp : podMap) n l :
  wp !! n = Some l -> l <> [] ->
  exists l' x, l = l' ++ [x] /\ pop n wp = (<[n := l']> wp, Ok x) /\ remaining wp ≡ₚ x :: remaining (<[n := l']> wp).
Proof.
  intros Hl Hne. destruct (exists_last Hne) as (l' & x & ->). exists l', x. split; [done|]. split.
  - unfold pop, podList_Pop. rewrite Hl, last_snoc. by rewrite removelast_last.
  - rewrite (workers_split _ _ _ Hl), workers_insert. solve_Permutation.
Qed.

Record pair_inv (pods : list workerPodData) (nh : list workerNodeInfo) (wp : podMap) (used : list (workerPodData * workerPodData)) : Prop := {
  pi_names : NoDup (map nodeName nh);
  pi_counts : forall x, x ∈ nh -> (0 < numberOfPods x)%nat /\ exists l, wp !! nodeName x = Some l /\ length l = numberOfPods x;
  pi_nodes : forall n l p, wp !! n = Some l -> p ∈ l -> workerNode p = n;
  pi_pods : both used ++ remaining wp ≡ₚ pods;
  pi_apart : Forall (fun '(s, d) => workerNode s <> workerNode d) used;
}.

Lemma pair_inv_perm pods nh nh' wp used : nh ≡ₚ nh' -> pair_inv pods nh wp used -> pair_inv pods nh' wp used.
Proof.
  intros Hp [H1 H2 H3 H4 H5]. constructor; try done.
  - by rewrite <- Hp.
  - intros x Hx. apply H2. by rewrite Hp.
Qed.

Lemma both_snoc used s d : both (used ++ [(s, d)]) = both used ++ [s; d].
Proof. unfold both. by rewrite map_app, concat_app. Qed.

Lemma elem_of_rest_of x y : y ∈ rest_of x -> nodeName y = nodeName x /\ (numberOfPods y = numberOfPods x - 1)%nat /\ (0 < numberOfPods y)%nat.
Proof.
  unfold rest_of. destruct (Nat.ltb_spec 1 (numberOfPods x)); [|by intros ?%elem_of_nil].
  intros ->%list_elem_of_singleton. split; [done|]. cbn. lia.
Qed.

Lemma pair_inv_step pods a b nh wp used :
  pair_inv pods (a :: b :: nh) wp used ->
  exists wp1 wp2 s d, pop (nodeName a) wp = (wp1, Ok s) /\ pop (nodeName b) wp1 = (wp2, Ok d) /\
    pair_inv pods (rest_of a ++ rest_of b ++ nh) wp2 (used ++ [(s, d)]).
Proof.
  intros [H1 H2 H3 H4 H5]. cbn [map] in H1. apply NoDup_cons in H1 as [Ha [Hb Hn]%NoDup_cons].
  rewrite not_elem_of_cons in Ha. destruct Ha as [Hab Ha].
  destruct (H2 a ltac:(left)) as (Pa & la & La & Na). destruct (H2 b ltac:(right; left)) as (Pb & lb & Lb & Nb).
  destruct (pop_some wp (nodeName a) la La) as (la' & s & -> & Es & Rs); [intros ->; cbn in Na; lia|].
  set (wp1 := <[nodeName a := la']> wp) in *.
  assert (wp1 !! nodeName b = Some lb) as Lb1 by (unfold wp1; by rewrite lookup_insert_ne).
  destruct (pop_some wp1 (nodeName b) lb Lb1) as (lb' & d & -> & Ed & Rd); [intros ->; cbn in Nb; lia|].
  set (wp2 := <[nodeName b := lb']> wp1) in *. exists wp1, wp2, s, d. split; [done|]. split; [done|].
  rewrite length_app in Na, Nb. cbn [length] in Na, Nb.
  constructor.
  - rewrite !map_app. assert (forall x, x ∈ [a; b] -> forall l, NoDup (map nodeName l) -> nodeName x ∉ map nodeName l -> NoDup (map nodeName (rest_of x ++ l))) as Hr.
    { intros x _ l Hl Hx. unfold rest_of. destruct (1 <? _)%nat; [|done]. cbn. by constructor. }
    rewrite <- map_app, <- (map_app _ (rest_of a)). apply Hr; [left| |].
    + apply Hr; [right; left|done|done].
    + rewrite map_app, not_elem_of_app. split; [|done]. intros Hx%list_elem_of_In. apply in_map_iff in Hx as (y & Hy & Hin%list_elem_of_In).
      apply elem_of_rest_of in Hin as (Hin & _). congruence.
  - intros x [Hx|[Hx|Hx]%elem_of_app]%elem_of_app.
    + apply elem_of_rest_of in Hx as (En & Ek & Hk). split; [done|]. exists la'. rewrite En. unfold wp2, wp1.
      rewrite lookup_insert_ne by done. rewrite lookup_insert_eq. split; [done|lia].
    + apply elem_of_rest_of in Hx as (En & Ek & Hk). split; [done|]. exists lb'. rewrite En. unfold wp2. rewrite lookup_insert_eq. split; [done|lia].
    + destruct (H2 x ltac:(by do 2 right)) as (Px & lx & Lx & Nx). split; [done|]. exists lx. split; [|done].
      assert (nodeName x ∈ map nodeName nh) as Hin by (apply list_elem_of_In, in_map, list_elem_of_In; done).
      unfold wp2, wp1. rewrite !lookup_insert_ne; [done| |]; intros Heq; rewrite Heq in *; done.
  - intros n l p Hl Hp. unfold wp2 in Hl. destruct (decide (nodeName b = n)) as [<-|Hnb].
    + rewrite lookup_insert_eq in Hl. injection Hl as <-. apply (H3 _ _ p Lb). apply elem_of_app. by left.
    + rewrite lookup_insert_ne in Hl by done. unfold wp1 in Hl. destruct (decide (nodeName a = n)) as [<-|Hna].
      * rewrite lookup_insert_eq in Hl. injection Hl as <-. apply (H3 _ _ p La). apply elem_of_app. by left.
      * rewrite lookup_insert_ne in Hl by done. by apply (H3 _ _ p Hl).
  - rewrite both_snoc, <- H4, Rs, Rd. solve_Permutation.
  - apply Forall_app. split; [done|]. apply Forall_singleton.
    rewrite (H3 _ _ s La) by (apply elem_of_app; right; left). rewrite (H3 _ _ d Lb) by (apply elem_of_app; right; left). done.
Qed.

Section PairsCorrect.
Context `{NodeHeap} `{MapRange}.

Lemma push_rest_perm x l : is_heap l -> is_heap (push_rest x l) /\ push_rest x l ≡ₚ rest_of x ++ l.
Proof using. intros Hl. unfold push_rest, rest_of. destruct (1 <? _)%nat; [|done]. apply heap_Push_law, Hl. Qed.

Lemma pairs_of_snoc used s d : pairs_of (used ++ [(s, d)]) = pairs_of used ++ [newPodPair (length used) s d].
Proof using. unfold pairs_of. rewrite imap_app. cbn. by rewrite Nat.add_0_r. Qed.

(** The loop ends, without an error of [pop], with the largest pairing. *)
Lemma pair_loop_correct fuel pods nh wp used :
  is_heap nh -> pair_inv pods nh wp used -> (total nh <= fuel)%nat ->
  exists wp' used', pair_loop fuel (length used) nh wp (pairs_of used) = Some (wp', pairs_of used') /\
    pairing pods used' /\ (length used' = length used + best nh)%nat.
Proof using.
  revert nh wp used. induction fuel as [|fuel IH]; intros nh wp used Hh Hi Hf; unfold pair_loop; fold (pair_loop (H := H)).
  all: destruct (Nat.leb_spec (length nh) 1) as [Hlen|Hlen].
  1,3: (exists wp, used; split; [done|]; split; [split; [exists (remaining wp); apply Hi|apply Hi]|];
        destruct nh as [|x [|y nh]]; cbn in Hlen; [unfold best; cbn; lia| |lia];
        unfold best, total, biggest; cbn; lia).
  - exfalso. destruct nh as [|x [|y nh]]; cbn in Hlen; [lia..|]. destruct Hi as [_ Hc _ _ _]. destruct (Hc x ltac:(left)) as [Hx _].
    unfold total in Hf. cbn in Hf. lia.
  - destruct (heap_Pop_law nh Hh) as (a & nh1 & Ea & Ha & Pa & Ma); [by intros ->; cbn in Hlen; lia|].
    assert (length nh = S (length nh1)) as Hl1 by (by rewrite Pa).
    destruct (heap_Pop_law nh1 Ha) as (b & nh2 & Eb & Hb & Pb & Mb); [by intros ->; cbn in Hl1; lia|].
    rewrite Ea. cbn [mbind option_bind]. rewrite Eb. cbn [mbind option_bind].
    assert (nh ≡ₚ a :: b :: nh2) as Pn by (by rewrite Pa, Pb).
    apply (pair_inv_perm _ _ _ _ _ Pn) in Hi as Hi2.
    destruct (pair_inv_step _ _ _ _ _ _ Hi2) as (wp1 & wp2 & s & d & -> & Es & Hi3). rewrite Es.
    destruct (push_rest_perm a nh2 Hb) as [Hh1 P1]. destruct (push_rest_perm b _ Hh1) as [Hh2 P2].
    assert (push_rest b (push_rest a nh2) ≡ₚ rest_of a ++ rest_of b ++ nh2) as P3 by (rewrite P2, P1; solve_Permutation).
    destruct (best_step a b nh2) as [Hbest Htot].
    + apply (pi_counts _ _ _ _ Hi2). right. left.
    + apply nodeHeap_Less_false, Ma. rewrite Pn. right. left.
    + intros y Hy. apply nodeHeap_Less_false, Mb. rewrite Pb. by right.
    + destruct (IH (push_rest b (push_rest a nh2)) wp2 (used ++ [(s, d)])) as (wp' & used' & Hloop & Hp & Hlen').
      * done.
      * apply (pair_inv_perm _ (rest_of a ++ rest_of b ++ nh2)); [by symmetry|done].
      * rewrite (total_perm _ _ P3). rewrite (total_perm _ _ Pn) in Hf. lia.
      * exists wp', used'. rewrite pairs_of_snoc, length_app in Hloop. cbn [length] in Hloop. rewrite Nat.add_1_r in Hloop.
        split; [exact Hloop|]. split; [done|]. rewrite Hlen', length_app. cbn [length]. unfold best in *.
        rewrite (total_perm _ _ P3), (biggest_perm _ _ P3). rewrite (total_perm _ _ Pn), (biggest_perm _ _ Pn). lia.
Qed.
End PairsCorrect.

(** *** The largest pairing *)

Definition addressed (pods : list workerPodData) : list workerPodData := List.filter (fun p => negb (String.eqb (podIP p) "")) pods.

Lemma addPodWorker_lookup d (wp : podMap) n :
  addPodWorker d wp !! n = if decide (workerNode d = n) then Some (default [] (wp !! n) ++ [d]) else wp !! n.
Proof.
  unfold addPodWorker. case_decide as Hn.
  - subst n. rewrite lookup_insert_eq. destruct (wp !! workerNode d) eqn:Hd; [by rewrite Hd|]. by rewrite lookup_insert_eq.
  - rewrite lookup_insert_ne by done. destruct (wp !! workerNode d); [done|]. by rewrite lookup_insert_ne.
Qed.

Lemma addPodWorker_remaining d (wp : podMap) : remaining (addPodWorker d wp) ≡ₚ d :: remaining wp.
Proof.
  unfold addPodWorker. rewrite workers_insert. destruct (wp !! workerNode d) as [l|] eqn:Hd.
  - rewrite Hd, (workers_split _ _ _ Hd). cbn [default]. solve_Permutation.
  - rewrite lookup_insert_eq, delete_insert_eq, delete_id by done. done.
Qed.

(** A node is in the map with its workers, of which it has at least one. *)
Definition by_node (wp : podMap) : Prop := forall n l, wp !! n = Some l -> l <> [] /\ Forall (fun p => workerNode p = n) l.

Lemma store_loop_spec pods (wp : podMap) :
  by_node wp -> by_node (store_loop pods wp) /\ remaining (store_loop pods wp) ≡ₚ addressed pods ++ remaining wp.
Proof.
  revert wp. induction pods as [|p pods IH]; intros wp Hwp; cbn [store_loop]; [done|].
  unfold addressed. cbn [List.filter]. destruct (String.eqb (podIP p) ""); cbn [negb]; [by apply IH|].
  destruct (IH (addPodWorker p wp)) as [Hb Hr].
  - intros n l. rewrite addPodWorker_lookup. case_decide as Hn; [|apply Hwp]. intros [= <-]. split; [by destruct (default [] (wp !! n))|].
    apply Forall_app. split; [|by apply Forall_singleton]. destruct (wp !! n) eqn:Hl; [|constructor]. by apply (Hwp _ _ Hl).
  - split; [done|]. rewrite Hr, addPodWorker_remaining. cbn. unfold addressed. solve_Permutation.
Qed.

Lemma on_node_app n l l' : (on_node n (l ++ l') = on_node n l + on_node n l')%nat.
Proof. unfold on_node. by rewrite filter_app, length_app. Qed.

Lemma on_node_all n l : Forall (fun p => workerNode p = n) l -> on_node n l = length l.
Proof. intros Hl. unfold on_node. by rewrite filter_all. Qed.

Lemma on_node_none n l : Forall (fun p => workerNode p <> n) l -> on_node n l = 0%nat.
Proof. intros Hl. unfold on_node. by rewrite filter_none. Qed.

Lemma on_node_perm n l l' : l ≡ₚ l' -> on_node n l = on_node n l'.
Proof. unfold on_node. by intros ->. Qed.

Lemma on_node_absent (wp : podMap) n : by_node wp -> wp !! n = None -> on_node n (remaining wp) = 0%nat.
Proof.
  intros Hwp Hn. apply on_node_none, Forall_forall. intros p Hp Heq. unfold remaining in Hp.
  apply list_elem_of_concat in Hp as (l' & Hin & Hp). apply list_elem_of_fmap in Hin as ([m l''] & -> & Hm%elem_of_map_to_list).
  destruct (Hwp _ _ Hm) as [_ Hf]. rewrite Forall_forall in Hf. cbn in Hp. apply Hf in Hp. congruence.
Qed.

Lemma by_node_delete n (wp : podMap) : by_node wp -> by_node (delete n wp).
Proof. intros Hwp m l [_ Hm]%lookup_delete_Some. by apply Hwp. Qed.

Lemma on_node_remaining (wp : podMap) n l : by_node wp -> wp !! n = Some l -> on_node n (remaining wp) = length l.
Proof.
  intros Hwp Hl. rewrite (on_node_perm _ _ _ (workers_split _ _ _ Hl)), on_node_app.
  rewrite on_node_all by (by apply (Hwp _ _ Hl)). rewrite on_node_absent; [lia|by apply by_node_delete|apply lookup_delete_eq].
Qed.

Section Optimal.
Context `{NodeHeap} `{MapRange}.

Lemma node_infos_total (wp : podMap) : total (node_infos wp) = length (remaining wp).
Proof using.
  unfold node_infos, remaining. rewrite <- (range_perm _ "formUniquePodPair" wp). induction (range _ wp) as [|[n l] r IH]; [done|].
  cbn in *. unfold total in *. cbn. by rewrite IH, length_app.
Qed.

Lemma elem_of_node_infos (wp : podMap) x :
  x ∈ node_infos wp -> exists l, wp !! nodeName x = Some l /\ length l = numberOfPods x.
Proof using.
  unfold node_infos. intros Hx%list_elem_of_In. apply in_map_iff in Hx as ([n l] & <- & Hin%list_elem_of_In). apply elem_of_range in Hin. by exists l.
Qed.

Lemma node_infos_inv (wp : podMap) : by_node wp -> pair_inv (remaining wp) (node_infos wp) wp [].
Proof using.
  intros Hwp. constructor.
  - unfold node_infos. rewrite map_map. erewrite (map_ext _ fst); [apply range_NoDup_fst|]. by intros [n l].
  - intros x Hx. destruct (elem_of_node_infos _ _ Hx) as (l & Hl & Hn). split; [|by exists l].
    destruct (Hwp _ _ Hl) as [Hne _]. destruct l; [done|]. cbn in Hn. lia.
  - intros n l p Hl Hp. destruct (Hwp _ _ Hl) as [_ Hf]. rewrite Forall_forall in Hf. auto.
  - done.
  - constructor.
Qed.

(** The busiest node has as many workers as its entry says. *)
Lemma biggest_attained (wp : podMap) :
  by_node wp -> node_infos wp <> [] -> exists n, on_node n (remaining wp) = biggest (node_infos wp).
Proof using.
  intros Hwp Hne. assert (exists x, x ∈ node_infos wp /\ numberOfPods x = biggest (node_infos wp)) as (x & Hx & Heq).
  { clear -Hne. unfold biggest. induction (node_infos wp) as [|x nh IH]; [done|]. destruct nh as [|y nh].
    - exists x. split; [left|]. cbn. lia.
    - destruct IH as (z & Hz & Hm); [done|]. cbn [max_list_with] in *. destruct (Nat.max_dec (numberOfPods x) (max_list_with numberOfPods (y :: nh))) as [E|E];
        cbn [max_list_with] in E; rewrite E.
      + exists x. split; [left|done].
      + exists z. split; [by right|done]. }
  destruct (elem_of_node_infos _ _ Hx) as (l & Hl & Hn). exists (nodeName x). rewrite (on_node_remaining _ _ _ Hwp Hl). lia.
Qed.

(** C32: whatever heap and map order Go uses, pairing the stored workers ends, and
    the pairs are pairs of workers with an address on different nodes, numbered
    from 0, no worker twice; and there is no larger set of such pairs. *)
Theorem pod_pairs_optimal (listed : list workerPodData) :
  exists wp used, formUniquePodPair (store_loop listed ∅) = Some (wp, pairs_of used) /\
    pairing (addressed listed) used /\
    forall other, pairing (addressed listed) other -> (length other <= length used)%nat.
Proof using.
  destruct (store_loop_spec listed ∅) as [Hb Hr]; [by intros n l ?%lookup_empty_Some|].
  unfold remaining in Hr at 2. rewrite map_to_list_empty in Hr. cbn in Hr. rewrite app_nil_r in Hr.
  set (wp := store_loop listed ∅) in *. unfold formUniquePodPair.
  destruct (heap_Init_law (node_infos wp)) as [Hh Hp].
  destruct (pair_loop_correct (total (node_infos wp)) (remaining wp) (heap_Init (node_infos wp)) wp []) as (wp' & used & Hloop & Hpair & Hlen).
  - done.
  - apply (pair_inv_perm _ (node_infos wp)); [by symmetry|]. by apply node_infos_inv.
  - by rewrite (total_perm _ _ Hp).
  - exists wp', used. split; [exact Hloop|]. assert (forall u, pairing (remaining wp) u <-> pairing (addressed listed) u) as Hiff.
    { intros u. unfold pairing. by setoid_rewrite Hr. }
    split; [by apply Hiff|]. intros other Ho. apply Hiff in Ho. cbn [length] in Hlen. unfold best in Hlen.
    rewrite (total_perm _ _ Hp), (biggest_perm _ _ Hp), node_infos_total in Hlen.
    destruct (pairing_bound _ _ "" Ho) as [H2 _].
    destruct (decide (node_infos wp = [])) as [He|Hne].
    + assert (length (remaining wp) = 0%nat) as Hz by (by rewrite <- node_infos_total, He). lia.
    + destruct (biggest_attained wp Hb Hne) as (n & Hn). destruct (pairing_bound _ _ n Ho) as [_ Hout]. rewrite Hn in Hout.
      pose proof (Nat.div_le_lower_bound (length (remaining wp)) 2 (length other)). lia.
Qed.
End Optimal.

(** *** A heap: the sorted list *)
Definition more_pods (x y : workerNodeInfo) : Prop := (numberOfPods y <= numberOfPods x)%nat.
#[local] Instance more_pods_dec : RelDecision more_pods.
Proof. intros x y. unfold more_pods. apply _. Defined.
#[local] Instance more_pods_total : Total more_pods.
Proof. intros x y. unfold more_pods. lia. Qed.
#[local] Instance more_pods_trans : Transitive more_pods.
Proof. intros x y z. unfold more_pods. lia. Qed.

#[local] Program Instance sorted_heap : NodeHeap := {|
  is_heap := StronglySorted more_pods;
  heap_Init := merge_sort more_pods;
  heap_Push x l := merge_sort more_pods (x :: l);
  heap_Pop l := match l with [] => None | x :: l' => Some (x, l') end;
|}.
Next Obligation. intros l. split; [apply (StronglySorted_merge_sort more_pods)|apply merge_sort_Permutation]. Qed.
Next Obligation. intros x l _. split; [apply (StronglySorted_merge_sort more_pods)|apply merge_sort_Permutation]. Qed.
Next Obligation.
  intros [|x l] Hs Hne; [done|]. apply StronglySorted_inv in Hs as [Hs Hx]. exists x, l. split; [done|]. split; [done|]. split; [done|].
  intros y [->|Hy]%elem_of_cons; apply nodeHeap_Less_false; [lia|]. rewrite Forall_forall in Hx. by apply Hx.
Qed.

Definition ex_workers : list workerPodData :=
  [mkWorkerPodData "a1" "a" "10.0.0.1"; mkWorkerPodData "a2" "a" "10.0.0.2"; mkWorkerPodData "a3" "a" "";
   mkWorkerPodData "b1" "b" "10.0.0.4"; mkWorkerPodData "c1" "c" "10.0.0.5"].

Lemma pod_pairs_optimal_witness :
  exists wp used, formUniquePodPair (H := sorted_heap) (H0 := list_range) (store_loop ex_workers ∅) = Some (wp, pairs_of used) /\
    pairing (addressed ex_workers) used /\ forall other, pairing (addressed ex_workers) other -> (length other <= length used)%nat.
Proof. exact (pod_pairs_optimal (H := sorted_heap) (H0 := list_range) ex_workers). Defined.
