(* ===== verification/Probes.v ===== *)
(** * Probes (pkg/measurement/common/probes)

    The four probers share one measurement: it deploys the objects of its
    manifests into the namespace of the probes, waits until Prometheus scrapes
    all of them, and evaluates a query over the time since then. The namespace
    calls (Namespaces), the manifests (Services) and the readiness of the
    targets (PromStack) are the modelled ones. *)

From S2P Require Import Prelude GoErrors GoRuntime Params Executor Measurement Float64 Latency Client Namespaces Prometheus ApiResponsiveness Provider PromStack Gatherers Services.
Import SchedulingThroughput (sort_Float64s).

Definition probesNamespace : string := "probes".
Definition manifestsPathPrefix : string := "manifests/".
Definition checkProbesReadyInterval : Z := 15 * Duration.Second.
Definition defaultCheckProbesReadyTimeout : Z := 15 * Duration.Minute.
Definition defaultPingSleepDuration : Z := Duration.Second.

Record proberConfig := mkProberConfig {
  Name : string;
  MetricVersion : string;
  Query : string;
  Manifests : string;
  ProbeLabelValues : list string;
  ProberType : string;
}.

Definition networkLatencyConfig : proberConfig :=
  mkProberConfig "InClusterNetworkLatency" "v1"
    "quantile_over_time(0.99, probes:in_cluster_network_latency:histogram_quantile[%v])"
    "*.yaml" ["ping-client"; "ping-server"] "latency".

Definition dnsLookupConfig : proberConfig :=
  mkProberConfig "DnsLookupLatency" "v1"
    "quantile_over_time(0.99, probes:dns_lookup_latency:histogram_quantile[%v])"
    "dnsLookup/*yaml" ["dns"] "latency".

Definition metricsServerLatencyConfig : proberConfig :=
  mkProberConfig "InClusterAPIServerRequestLatency" "v1"
    "quantile_over_time(0.99, probes:in_cluster_apiserver_request_latency:histogram_quantile[%v])"
    "metricsServer/*.yaml" ["metrics-server-prober"] "latency".

Definition dnsPropagationConfig : proberConfig :=
  mkProberConfig "DnsPropagation" "v1" "probes_dns_propagation_seconds"
    "dnsPropagation/*.yaml" ["dns-propagation-prober"] "propagation".

(** The probers registered by [init]. *)
Definition probers : list proberConfig :=
  [networkLatencyConfig; dnsLookupConfig; metricsServerLatencyConfig; dnsPropagationConfig].

(** [framework]: whether it is set. *)
Record probesMeasurement := mkProbes {
  config : proberConfig;
  framework : bool;
  replicasPerProbe : Z;
  templateMapping : params;
  startTime : Z;
}.

Definition createProber (config : proberConfig) : probesMeasurement := mkProbes config false 0 ∅ zeroTime.

Definition set_startTime (t : Z) (p : probesMeasurement) : probesMeasurement :=
  mkProbes (config p) (framework p) (replicasPerProbe p) (templateMapping p) t.

(** ** Queries *)

(** [strings.Contains]. *)
Definition Contains (s substr : string) : bool := match String.index 0 substr s with Some _ => true | None => false end.

Definition prepareQuery (queryTemplate : string) (startTime endTime : Z) : string :=
  let measurementDuration := Time_Sub endTime startTime in
  if negb (Contains queryTemplate "%v") then queryTemplate
  else Sprintf queryTemplate [FStr (ToPrometheusTime measurementDuration)].

(** ** propagation_metric.go *)
Section Propagation.
Context `{GoLib} (Percentile : list float64 -> Z -> result float64).

Definition in_seconds (x : float64) : Z := f64_to_int (f64_mul x (f64_of_Z Duration.Second)).

Definition NewPropagationMetricPrometheus (samples : list Sample) : result LatencyMetric :=
  let values := sort_Float64s (map s_Value samples) in
  p50 ← Percentile values 50;
  p90 ← Percentile values 90;
  p99 ← Percentile values 99;
  let latencyMetric := SetQuantile (mkLatencyMetric 0 0 0) f64_half (in_seconds p50) in
  let latencyMetric := SetQuantile latencyMetric f64_0_9 (in_seconds p90) in
  Ok (SetQuantile latencyMetric f64_0_99 (in_seconds p99)).

Definition InitializeTemplateMappingForDNSPropagationProbe (namespacePrefix : string) (config : MeasurementConfig) : result params :=
  let get {A} (r : A * option error) : result A := match r with (a, None) => Ok a | (_, Some err) => Err err end in
  let dict := cfg_Params config in
  service ← get (GetStringOrDefault dict "DNSPropagationProbeService" "");
  statefulSet ← get (GetStringOrDefault dict "DNSPropagationProbeStatefulSet" "");
  podCount ← get (GetIntOrDefault dict "DNSPropagationProbePodCount" 0);
  sampleCount ← get (GetIntOrDefault dict "DNSPropagationProbeSampleCount" 10);
  namespaceIndex ← get (GetIntOrDefault dict "DNSPropagationProbeNamespaceIndex" 1);
  cpu ← get (GetStringOrDefault dict "DNSPropagationProbeCpu" "100m");
  memory ← get (GetStringOrDefault dict "DNSPropagationProbeMemory" "100Mi");
  Ok {[ "DNSPropagationProbeNamespace" := VString (Sprintf "%s-%d" [FStr namespacePrefix; FInt namespaceIndex]);
        "DNSPropagationProbeService" := VString service;
        "DNSPropagationProbeStatefulSet" := VString statefulSet;
        "DNSPropagationProbePodCount" := VInt podCount;
        "DNSPropagationProbeSampleCount" := VInt sampleCount;
        "DNSPropagationProbeCpu" := VString cpu;
        "DNSPropagationProbeMemory" := VString memory ]}.
End Propagation.

(** ** The measurement *)
Section Probes.
Context {C : Type} `{ApiErrors} `{Backoff} `{NamespaceServer C} `{ApiServer C} `{UnstructuredLib} `{GoLib}.
Context (Glob : string -> result (list string)) (Render : string -> params -> result Unstructured).
Context (Unmarshal : string -> result (list Target)) (targets : C -> C * result string).
Context (SampleString : Sample -> string) (Percentile : list float64 -> Z -> result float64).
Context (PrettyPrintJSON : PerfData -> result string).

(** How often [wait.Poll] tries, for an interval and a timeout. *)
Context (tries : Z -> Z -> nat).

(** A duration in the mapping is rendered by its String method. A
    pingSleepDuration that cannot be read is the default. *)
Definition initialize (namespacePrefix : string) (cfg : MeasurementConfig) (p : probesMeasurement)
  : probesMeasurement * option error :=
  match getInt (cfg_Params cfg) "replicasPerProbe" with
  | (_, Some err) => (p, Some err)
  | (replicas, None) =>
      let pingSleepDuration :=
        match getDuration (cfg_Params cfg) "pingSleepDuration" with
        | (_, Some _) => defaultPingSleepDuration
        | (d, None) => d
        end in
      let mapping := {[ "Replicas" := VInt replicas;
                        "PingSleepDuration" := VString (Duration_String pingSleepDuration) ]} : params in
      let p := mkProbes (config p) true replicas mapping (startTime p) in
      if String.eqb (Name (config p)) "DnsPropagation" then
        match InitializeTemplateMappingForDNSPropagationProbe namespacePrefix cfg with
        | Err err => (p, Some err)
        | Ok dnsPropagationTemplateMapping =>
            (mkProbes (config p) true replicas (dnsPropagationTemplateMapping ∪ mapping) (startTime p), None)
        end
      else (p, None)
  end.

Definition createProbesObjects (p : probesMeasurement) : C -> C * option error :=
  ApplyTemplatedManifests Glob Render [] (manifestsPathPrefix +:+ Manifests (config p)) (templateMapping p).

Fixpoint probe_target (values : list string) (t : Target) : bool :=
  match values with
  | [] => false
  | value :: values' =>
      if String.eqb (default "" (t_Labels t !! "job")) value && String.eqb (default "" (t_Labels t !! "namespace")) probesNamespace
      then true
      else probe_target values' t
  end.

Definition checkProbesReady (p : probesMeasurement) (c : C) : C * (bool * option error) :=
  let selector := probe_target (ProbeLabelValues (config p)) in
  let expectedTargets := wrap64 (replicasPerProbe p * Z.of_nat (length (ProbeLabelValues (config p)))) in
  let '(c, answer) := targets c in
  (c, CheckAllTargetsReady Unmarshal answer selector expectedTargets).

Definition waitForProbesReady (cfg : MeasurementConfig) (p : probesMeasurement) (c : C) : C * option error :=
  match GetDurationOrDefault (cfg_Params cfg) "checkProbesReadyTimeout" defaultCheckProbesReadyTimeout with
  | (_, Some err) => (c, Some err)
  | (checkProbesReadyTimeout, None) =>
      poll_try (tries checkProbesReadyInterval checkProbesReadyTimeout) (checkProbesReady p) c
  end.

(** [now]: the time at which the probes are found ready. *)
Definition start (now : Z) (namespacePrefix : string) (cfg : MeasurementConfig) (p : probesMeasurement) (c : C)
  : (probesMeasurement * C) * option error :=
  if negb (startTime p =? zeroTime)
  then ((p, c), Some (Errorf "measurement %s cannot be started twice" [AStr (Name (config p))]))
  else
    match initialize namespacePrefix cfg p with
    | (p, Some err) => ((p, c), Some err)
    | (p, None) =>
        match client_CreateNamespace c probesNamespace with
        | (c, Some err) => ((p, c), Some err)
        | (c, None) =>
            match createProbesObjects p c with
            | (c, Some err) => ((p, c), Some err)
            | (c, None) =>
                match waitForProbesReady cfg p c with
                | (c, Some err) => ((p, c), Some err)
                | (c, None) => ((set_startTime now p, c), None)
                end
            end
        end
    end.

Definition createSummary (now : Z) (latency : LatencyMetric) (p : probesMeasurement) : result Summary :=
  content ← PrettyPrintJSON (mkPerfData (MetricVersion (config p)) [ToPerfData latency (Name (config p))] ∅);
  Ok (CreateSummary now (Name (config p)) "json" content).

Definition latency_of (p : probesMeasurement) (samples : list Sample) : result LatencyMetric :=
  if String.eqb (ProberType (config p)) "propagation" then NewPropagationMetricPrometheus Percentile samples
  else NewLatencyMetricPrometheus SampleString samples.

Definition violation (p : probesMeasurement) (threshold : Z) (latency : LatencyMetric) : option error :=
  if 0 <? threshold then
    match VerifyThreshold latency threshold with
    | Some err => Some (NewMetricViolationError (Name (config p)) (Error err))
    | None => None
    end
  else None.

(** [measurementEnd] and [now]: the time of the query and of the summary. The
    outer option is a panic of the query. *)
Definition gather (executor : executor_t) (measurementEnd now : Z) (dict : params) (p : probesMeasurement)
  : option (option Summary * option error) :=
  if startTime p =? zeroTime
  then Some (None, Some (Errorf "measurement %s has not been started" [AStr (Name (config p))]))
  else
    match GetDurationOrDefault dict "threshold" 0 with
    | (_, Some err) => Some (None, Some err)
    | (threshold, None) =>
        let query := prepareQuery (Query (config p)) (startTime p) measurementEnd in
        match executor query measurementEnd with
        | None => None
        | Some (Err err) => Some (None, Some err)
        | Some (Ok samples) =>
            match latency_of p samples with
            | Err err => Some (None, Some err)
            | Ok latency =>
                match createSummary now latency p with
                | Err err => Some (None, Some err)
                | Ok summary => Some (Some summary, violation p threshold latency)
                end
            end
        end
    end.

(** [provider] and [prometheusFramework] of the configuration; whether the
    latter is set. *)
Definition Execute (provider : Provider) (prometheusFramework : bool) (executor : executor_t) (measurementEnd now : Z)
  (namespacePrefix : string) (cfg : MeasurementConfig) (p : probesMeasurement) (c : C)
  : option ((probesMeasurement * C) * list (option Summary) * option error) :=
  if negb (prov_Features provider SupportProbe) then Some ((p, c), [], None)
  else if negb prometheusFramework then Some ((p, c), [], None)
  else
    match getString (cfg_Params cfg) "action" with
    | (_, Some err) => Some ((p, c), [], Some err)
    | (action, None) =>
        if String.eqb action "start" then
          let '(s, err) := start now namespacePrefix cfg p c in Some (s, [], err)
        else if String.eqb action "gather" then
          match gather executor measurementEnd now (cfg_Params cfg) p with
          | None => None
          | Some (summary, err) =>
              match err with
              | Some e => if negb (IsMetricViolationError e) then Some ((p, c), [], err) else Some ((p, c), [summary], err)
              | None => Some ((p, c), [summary], None)
              end
          end
        else Some ((p, c), [], Some (Errorf "unknown action %v" [AStr action]))
    end.

Definition Dispose (p : probesMeasurement) (c : C) : C :=
  if negb (framework p) then c
  else
    let '(c, _) := client_DeleteNamespace c probesNamespace in
    let '(c, _) := WaitForDeleteNamespace c probesNamespace DefaultNamespaceDeletionTimeout in
    c.

(** ** What a prober reports *)

Lemma poll_try_true {S} n (f : S -> S * (bool * option error)) s s' :
  poll_try n f s = (s', None) -> exists s0, f s0 = (s', (true, None)).
Proof using.
  revert s. induction n as [|n IH]; intros s; cbn [poll_try]; [done|].
  destruct (f s) as [s1 [[] [e|]]] eqn:Hf; [done|intros [= <-]; eauto|done|apply IH].
Qed.

(** The server has listed at least the expected number of targets of this
    prober, and all of them were up. *)
Definition found_ready (p : probesMeasurement) : Prop :=
  exists c0 c1 raw ts, targets c0 = (c1, Ok raw) /\ Unmarshal raw = Ok ts /\
    wrap64 (replicasPerProbe p * Z.of_nat (length (ProbeLabelValues (config p)))) <=
      selected (probe_target (ProbeLabelValues (config p))) ts /\
    up (probe_target (ProbeLabelValues (config p))) ts = selected (probe_target (ProbeLabelValues (config p))) ts.

Lemma waitForProbesReady_found cfg p c c' : waitForProbesReady cfg p c = (c', None) -> found_ready p.
Proof using.
  unfold waitForProbesReady. destruct (GetDurationOrDefault _ _ _) as [t [e|]]; [done|].
  intros [c0 Hc]%poll_try_true. unfold checkProbesReady in Hc.
  destruct (targets c0) as [c1 answer] eqn:Ht. injection Hc as <- Hc.
  apply CheckTargetsReady_iff in Hc as (raw & ts & -> & Hu & Hle & Hup).
  exists c0, c1, raw, ts. by rewrite decide_True in Hup.
Qed.

Lemma initialize_keeps prefix cfg p p' err :
  initialize prefix cfg p = (p', err) -> config p' = config p /\ startTime p' = startTime p.
Proof using.
  unfold initialize. destruct (getInt _ _) as [r [e|]]; [by intros [= <- <-]|].
  destruct (String.eqb _ _); [|by intros [= <- <-]].
  destruct (InitializeTemplateMappingForDNSPropagationProbe _ _); by intros [= <- <-].
Qed.

(** Only a start that ends well sets the start time, with the probes found
    ready; a started prober is not changed any more. *)
Lemma start_effect now prefix cfg p c p' c' err :
  start now prefix cfg p c = ((p', c'), err) ->
  config p' = config p /\
  (startTime p <> zeroTime -> p' = p /\ c' = c /\ is_Some err) /\
  (startTime p = zeroTime ->
     match err with None => startTime p' = now /\ found_ready p' | Some _ => startTime p' = zeroTime end).
Proof using.
  unfold start. destruct (Z.eqb_spec (startTime p) zeroTime) as [Hz|Hz]; cbn [negb].
  2:{ intros [= <- <- <-]. split_and!; [done|eauto|by intros ?]. }
  destruct (initialize prefix cfg p) as [p1 e1] eqn:Hi. apply initialize_keeps in Hi as [Hc Hs]. rewrite Hz in Hs.
  destruct e1 as [e|]; [intros [= <- <- <-]; by split_and!|].
  destruct (client_CreateNamespace c probesNamespace) as [c1 [e|]]; [intros [= <- <- <-]; by split_and!|].
  destruct (createProbesObjects p1 c1) as [c2 [e|]]; [intros [= <- <- <-]; by split_and!|].
  destruct (waitForProbesReady cfg p1 c2) as [c3 [e|]] eqn:Hw; [intros [= <- <- <-]; by split_and!|].
  intros [= <- <- <-]. split_and!; [done|done|]. intros _. split; [done|].
  apply waitForProbesReady_found in Hw. exact Hw.
Qed.

Lemma Execute_effect provider prom executor e now prefix cfg p c p' c' summaries err :
  Execute provider prom executor e now prefix cfg p c = Some ((p', c'), summaries, err) ->
  (p' = p /\ c' = c) \/ exists err', start now prefix cfg p c = ((p', c'), err').
Proof using.
  unfold Execute. destruct (prov_Features provider SupportProbe); cbn [negb]; [|intros [= <- <- _ _]; by left].
  destruct prom; cbn [negb]; [|intros [= <- <- _ _]; by left].
  destruct (getString _ _) as [action [x|]]; [intros [= <- <- _ _]; by left|].
  destruct (String.eqb action "start").
  - destruct (start now prefix cfg p c) as [[p1 c1] err1]. intros [= <- <- <- <-]. right. eauto.
  - destruct (String.eqb action "gather"); [|intros [= <- <- _ _]; by left].
    destruct (gather _ _ _ _ _) as [[sm [x|]]|]; [|intros [= <- <- _ _]; by left|done].
    destruct (negb _); intros [= <- <- _ _]; by left.
Qed.

(** The states of a prober: any actions, at any time, others changing the
    cluster in between. *)
Inductive reached (q : proberConfig) : probesMeasurement -> C -> Prop :=
| reached_created c : reached q (createProber q) c
| reached_executed provider prom executor e now prefix cfg p c p' c' summaries err :
    reached q p c -> Execute provider prom executor e now prefix cfg p c = Some ((p', c'), summaries, err) ->
    reached q p' c'
| reached_other p c c' : reached q p c -> reached q p c'.

Lemma reached_ready q p c : reached q p c -> config p = q /\ (startTime p <> zeroTime -> found_ready p).
Proof using.
  induction 1 as [c|provider prom executor e now prefix cfg p c p' c' sm err Hr [Hq Hi] He|p c c' Hr IH]; [done| |done].
  apply Execute_effect in He as [[-> _]|[err' (Hc & Hn & Hz)%start_effect]]; [done|].
  split; [congruence|]. intros Hs. destruct (decide (startTime p = zeroTime)) as [Hp|Hp].
  - specialize (Hz Hp). destruct err'; [done|]. apply Hz.
  - destruct (Hn Hp) as (-> & _ & _). auto.
Qed.

Lemma violation_spec p threshold m :
  match violation p threshold m with
  | None => 0 < threshold -> Perc50 m <= threshold /\ Perc90 m <= threshold /\ Perc99 m <= threshold
  | Some err => IsMetricViolationError err = true /\ 0 < threshold /\
                (threshold < Perc50 m \/ threshold < Perc90 m \/ threshold < Perc99 m)
  end.
Proof using.
  unfold violation, VerifyThreshold. destruct (Z.ltb_spec 0 threshold); [|lia].
  destruct (Z.ltb_spec threshold (Perc50 m)), (Z.ltb_spec threshold (Perc90 m)), (Z.ltb_spec threshold (Perc99 m));
    cbn; try done; try lia; split_and!; (done || lia || tauto).
Qed.

(** The query was answered with samples that make this metric. *)
Definition measured (executor : executor_t) (e : Z) (p : probesMeasurement) (m : LatencyMetric) : Prop :=
  exists samples, executor (prepareQuery (Query (config p)) (startTime p) e) e = Some (Ok samples) /\
    latency_of p samples = Ok m.

Lemma measured_fun executor e p m m' : measured executor e p m -> measured executor e p m' -> m = m'.
Proof using. intros (l & Hq & Hl) (l' & Hq' & Hl'). rewrite Hq in Hq'. injection Hq' as <-. congruence. Qed.

(** A gathering fails without a summary, or has one with its verdict. *)
Lemma gather_cases executor e now dict p threshold sm err :
  GetDurationOrDefault dict "threshold" 0 = (threshold, None) ->
  gather executor e now dict p = Some (sm, err) ->
  (sm = None /\ is_Some err /\ (startTime p <> zeroTime -> forall m sm', measured executor e p m -> createSummary now m p <> Ok sm')) \/
  (startTime p <> zeroTime /\ exists m sm', measured executor e p m /\ createSummary now m p = Ok sm' /\
     sm = Some sm' /\ err = violation p threshold m).
Proof using.
  intros Ht. unfold gather. rewrite Ht.
  destruct (Z.eqb_spec (startTime p) zeroTime) as [Hz|Hz]; [intros [= <- <-]; left; split_and!; eauto; by intros ?|].
  destruct (executor _ e) as [[samples|x]|] eqn:He; [| |done].
  2: { intros [= <- <-]. left. split_and!; eauto. intros _ m sm' (l & Hl & _). congruence. }
  destruct (latency_of p samples) as [m|x] eqn:Hl.
  2: { intros [= <- <-]. left. split_and!; eauto. intros _ m sm' (l & Hl' & Hm). congruence. }
  assert (measured executor e p m) as Hm by (exists samples; done).
  destruct (createSummary now m p) as [sm'|x] eqn:Hs; intros [= <- <-].
  - right. split; [done|]. by exists m, sm'.
  - left. split_and!; eauto. intros _ m' sm' Hm'. rewrite (measured_fun _ _ _ _ _ Hm' Hm). congruence.
Qed.

(** C39: Whatever actions a prober has gone through: a gathering reports no error
    exactly when the prober was started, which means Prometheus has listed all
    its expected targets and each was up, the query over the time since then
    was answered with a metric that can be printed, and no percentile is above
    a positive threshold; one above it is reported as a violation next to the
    summary. Gathering changes neither the prober nor the cluster. *)
Theorem probe_verdict_correct q p c provider executor e now prefix cfg threshold s summaries err :
  reached q p c -> prov_Features provider SupportProbe = true ->
  getString (cfg_Params cfg) "action" = ("gather", None) ->
  GetDurationOrDefault (cfg_Params cfg) "threshold" 0 = (threshold, None) ->
  Execute provider true executor e now prefix cfg p c = Some (s, summaries, err) ->
  s = (p, c) /\
  (startTime p <> zeroTime -> config p = q /\ found_ready p) /\
  (err = None <-> startTime p <> zeroTime /\ exists m sm, measured executor e p m /\
     createSummary now m p = Ok sm /\ summaries = [Some sm] /\
     (0 < threshold -> Perc50 m <= threshold /\ Perc90 m <= threshold /\ Perc99 m <= threshold)) /\
  ((exists sm, Some sm ∈ summaries) <-> startTime p <> zeroTime /\ exists m sm, measured executor e p m /\
     createSummary now m p = Ok sm /\ summaries = [Some sm] /\ err = violation p threshold m).
Proof.
  intros Hr Hf Ha Ht. apply reached_ready in Hr as [Hq Hready]. unfold Execute. rewrite Hf, Ha.
  cbn [negb String.eqb Ascii.eqb Bool.eqb].
  destruct (gather executor e now (cfg_Params cfg) p) as [[sm x]|] eqn:Hg; [|done].
  destruct (gather_cases _ _ _ _ _ _ _ _ Ht Hg) as [(-> & Hx & Hno)|(Hz & m & sm' & Hm & Hs & -> & ->)].
  - destruct x as [x|]; [|by destruct Hx]. intros Hres.
    assert (s = (p, c) /\ err = Some x /\ (summaries = [] \/ summaries = [None])) as (-> & -> & Hsm)
      by (destruct (negb _); injection Hres as <- <- <-; auto).
    split_and!; [done|auto|..]; (split; [|intros (Hz & m & sm' & Hm & Hs & _); by destruct (Hno Hz m sm' Hm)]); [done|].
    intros [sm' Hin]. destruct Hsm as [-> | ->]; [by apply elem_of_nil in Hin|by apply list_elem_of_singleton in Hin].
  - pose proof (violation_spec p threshold m) as Hv. intros Hres.
    assert (s = (p, c) /\ err = violation p threshold m /\ summaries = [Some sm']) as (-> & -> & ->)
      by (destruct (violation p threshold m) as [v|]; [destruct Hv as [Hv _]; rewrite Hv in Hres|]; cbn in Hres; by injection Hres as <- <- <-).
    split_and!; [done|auto|..]; (split; [|]).
    + intros Hn. rewrite Hn in Hv. split; [done|]. by exists m, sm'.
    + intros (_ & m2 & sm2 & Hm2 & _ & _ & Hle). rewrite (measured_fun _ _ _ _ _ Hm2 Hm) in Hle.
      destruct (violation p threshold m); [|done]. destruct Hv as (_ & Hpos & Hgt). specialize (Hle Hpos). lia.
    + intros _. split; [done|]. by exists m, sm'.
    + intros _. exists sm'. by apply list_elem_of_singleton.
Qed.
End Probes.

(** ** An example: one prober on a server that lists one target and answers
    the query with three quantiles *)
Section Example.
#[local] Existing Instance flaky_errors.
#[local] Existing Instance simple_backoff.

#[local] Instance ex_probe_namespaces : NamespaceServer flaky :=
  {| ns_List := fun c => (c, Ok []); ns_Create := fun c _ => (c, None); ns_Delete := fun c _ => (c, None);
     ns_Get := fun c _ => (c, Some (External "missing"));
     PollImmediate := fun _ _ f c => let '(c', (_, e)) := f c in (c', e);
     MatchString := fun _ _ => Ok false |}.
#[local] Existing Instance flaky_server.
#[local] Existing Instance ex_manifest_lib.
#[local] Instance ex_probe_lib : GoLib :=
  {| ParseFloat := fun s => (if String.eqb s "0.5" then f64_half else if String.eqb s "0.9" then f64_0_9 else f64_0_99, None);
     Sprint := fun _ => "" |}.

Definition ex_target : Target := mkTarget {[ "job" := "dns"; "namespace" := "probes" ]} "up".
Definition ex_executor : executor_t := fun _ _ =>
  Some (Ok [mkSample {[ "quantile" := "0.5" ]} (f64_of_Z 1); mkSample {[ "quantile" := "0.9" ]} (f64_of_Z 2);
            mkSample {[ "quantile" := "0.99" ]} (f64_of_Z 3)]).
Definition ex_cfg (action : string) : MeasurementConfig :=
  mkMeasurementConfig {[ "action" := VString action; "replicasPerProbe" := VInt 1; "threshold" := VString "2s" ]} "" "".

Definition ex_Execute := Execute (C := flaky) (fun _ => Ok ["empty.yaml"]) ex_render (fun _ => Ok [ex_target])
  (fun c => (c, Ok "")) (fun _ => "") (fun _ _ => Ok f64_half) (fun _ => Ok "{}") (fun _ _ => 3%nat).

Definition ex_provider : Provider := NewGCEProvider ∅.

(** The prober after a start at time 5. *)
Definition ex_started : probesMeasurement :=
  match ex_Execute ex_provider true ex_executor 0 5 "test" (ex_cfg "start") (createProber dnsLookupConfig) (∅, 0%nat) with
  | Some ((p, _), _, _) => p
  | None => createProber dnsLookupConfig
  end.

Lemma probe_verdict_correct_witness : exists m sm,
  ex_Execute ex_provider true ex_executor 9 10 "test" (ex_cfg "gather") ex_started (∅, 0%nat) =
    Some ((ex_started, (∅, 0%nat)), [Some sm],
      Some (MetricViolation "DnsLookupLatency" "too high latency 99th percentile: got 3s expected: 2s")) /\
  measured (fun _ => "") (fun _ _ => Ok f64_half) ex_executor 9 ex_started m.
Proof.
  assert (reached (C := flaky) (fun _ => Ok ["empty.yaml"]) ex_render (fun _ => Ok [ex_target])
    (fun c => (c, Ok "")) (fun _ => "") (fun _ _ => Ok f64_half) (fun _ => Ok "{}") (fun _ _ => 3%nat)
    dnsLookupConfig ex_started (∅, 0%nat)) as Hr.
  { eapply (reached_executed _ _ _ _ _ _ _ _ _ ex_provider true ex_executor 0 5 "test" (ex_cfg "start") _ _ _ _ [] None);
      [apply reached_created with (c := (∅, 0%nat))|vm_compute; reflexivity]. }
  assert (match ex_Execute ex_provider true ex_executor 9 10 "test" (ex_cfg "gather") ex_started (∅, 0%nat) with
          | Some (_, [Some _], Some v) =>
              v = MetricViolation "DnsLookupLatency" "too high latency 99th percentile: got 3s expected: 2s"
          | _ => False
          end) as Hv by (vm_compute; reflexivity).
  destruct (ex_Execute ex_provider true ex_executor 9 10 "test" (ex_cfg "gather") ex_started (∅, 0%nat))
    as [[[s [|[x|] [|]]] [err|]]|] eqn:He; try contradiction. subst err.
  destruct (probe_verdict_correct _ _ _ _ _ _ _ _ _ _ _ ex_provider ex_executor 9 10 "test" (ex_cfg "gather")
    (2 * Duration.Second) s [Some x] (Some _) Hr eq_refl eq_refl ltac:(vm_compute; reflexivity) He) as (-> & _ & _ & [Hs _]).
  destruct Hs as (_ & m & sm & Hm & _ & [= ->] & _); [eexists; apply list_elem_of_here|].
  exists m, sm. split; [reflexivity|exact Hm].
Defined.
End Example.
