(* ===== verification/MetricsGrabber.v ===== *)
(** * Metrics of the components (pkg/measurement/common/metrics, metrics_for_e2e.go)

    The grabber fetches the metrics of the control plane and of the kubelets
    through the API server's proxies and parses them. The proxied requests and
    the parser (component-base) are parameters. *)

From S2P Require Import Prelude GoErrors GoRuntime Params Measurement Float64 Latency Provider Client.

Definition kubeSchedulerPort : Z := 10259.
Definition kubeControllerManagerPort : Z := 10257.

(** [testutil.Metrics]: the samples of every metric. The types of the five
    components are this one. *)
Abbreviation Metrics := (gmap string (list Sample)).

(** The Go value [nil] of a map is [None]. *)
Record Collection := mkCollection {
  APIServerMetrics : option Metrics;
  ControllerManagerMetrics : option Metrics;
  KubeletMetrics : option (gmap string Metrics);
  SchedulerMetrics : option Metrics;
  ClusterAutoscalerMetrics : option Metrics;
}.

(** The two clients of a grabber; the second may be nil. *)
Inductive client := Client | ExternalClient.

Record Grabber := mkGrabber {
  externalClient : bool;                 (* is not nil *)
  grabFromAPIServer : bool;
  grabFromControllerManager : bool;
  grabFromKubelets : bool;
  grabFromScheduler : bool;
  grabFromClusterAutoscaler : bool;
  masterName : string;
  registeredMaster : bool;
}.

(** ** Strings *)

(** [s[:n]] is [String.substring 0 n s]. *)
Definition deprecatedMightBeMasterNode (nodeName : string) : bool :=
  if HasSuffix nodeName "master" then true
  else if (10 <=? String.length nodeName)%nat
       then HasSuffix (String.substring 0 (String.length nodeName - 3) nodeName) "master-"
       else false.

(** A node: its name and the port of its kubelet. *)
Record nodeInfo := mkNodeInfo { n_Name : string; n_KubeletPort : Z }.

(** The loop that looks for the master. *)
Fixpoint find_master (nodes : list nodeInfo) : bool * string :=
  match nodes with
  | [] => (false, "")
  | n :: nodes' => if deprecatedMightBeMasterNode (n_Name n) then (true, n_Name n) else find_master nodes'
  end.

Definition NewMetricsGrabber (nodeList : result (list nodeInfo)) (ec : bool)
  (kubelets scheduler controllers apiServer clusterAutoscaler : bool) : result Grabber :=
  match nodeList with
  | Err err => Err err
  | Ok nodes =>
      let '(registered, name) := find_master nodes in
      let '(scheduler, controllers, clusterAutoscaler) :=
        if negb registered then (false, false, ec) else (scheduler, controllers, clusterAutoscaler) in
      Ok (mkGrabber ec apiServer controllers kubelets scheduler clusterAutoscaler name registered)
  end.

Definition HasRegisteredMaster (g : Grabber) : bool := registeredMaster g.

(** ** Fetching *)
Section Grab.
Context `{GoLib} (ParseMetrics : string -> result Metrics).
(** The answer to [GET /metrics] of the API server, to a proxied request to a
    pod (client, namespace, name) and to one to a node: [None] when two minutes
    have passed first. *)
Context (apiserver_metrics : result string) (pod_proxy : client -> string -> string -> result string)
  (node_proxy : string -> option (result string)).
(** The [%v] rendering of a list of nodes. *)
Context (NodesString : list nodeInfo -> string).

Definition getMetricsFromPod (c : client) (podName namespace : string) (port : Z) (enableHTTPS : bool) : result string :=
  let name := if enableHTTPS then Sprintf "https:%s:%d" [FStr podName; FInt port]
              else Sprintf "%s:%d" [FStr podName; FInt port] in
  pod_proxy c namespace name.

Definition getMetricsFromNode (nodeName : string) (kubeletPort : Z) : result string :=
  match node_proxy (Sprintf "%v:%v" [FStr nodeName; FInt kubeletPort]) with
  | None => Err (Errorf "timed out when waiting for proxy to gather metrics from %v" [AStr nodeName])
  | Some answer => answer
  end.

Definition grabFromKubeletInternal (nodeName : string) (kubeletPort : Z) : result Metrics :=
  if (kubeletPort <=? 0) || (65535 <? kubeletPort)
  then Err (Errorf "invalid Kubelet port %v. Skipping Kubelet's metrics gathering" [AInt kubeletPort])
  else output ← getMetricsFromNode nodeName kubeletPort; ParseMetrics output.

(** [nodes]: the nodes of this name. *)
Definition GrabFromKubelet (nodes : result (list nodeInfo)) (nodeName : string) : result Metrics :=
  match nodes with
  | Err err => Err err
  | Ok [n] => grabFromKubeletInternal nodeName (n_KubeletPort n)
  | Ok items => Err (Errorf "error listing nodes with name %v, got %v" [AStr nodeName; AStr (NodesString items)])
  end.

Definition GrabFromScheduler (g : Grabber) : result Metrics :=
  if negb (registeredMaster g)
  then Err (Errorf "master's Kubelet is not registered. Skipping Scheduler's metrics gathering" [])
  else
    output ← getMetricsFromPod Client (Sprintf "%v-%v" [FStr "kube-scheduler"; FStr (masterName g)]) "kube-system" kubeSchedulerPort true;
    ParseMetrics output.

Definition GrabFromClusterAutoscaler (g : Grabber) : result Metrics :=
  if negb (registeredMaster g) && negb (externalClient g)
  then Err (Errorf "master's Kubelet is not registered. Skipping ClusterAutoscaler's metrics gathering" [])
  else
    let '(c, namespace) := if externalClient g then (ExternalClient, "kubemark") else (Client, "kube-system") in
    output ← getMetricsFromPod c "cluster-autoscaler" namespace 8085 false;
    ParseMetrics output.

Definition GrabFromControllerManager (g : Grabber) : result Metrics :=
  if negb (registeredMaster g)
  then Err (Errorf "master's Kubelet is not registered. Skipping ControllerManager's metrics gathering" [])
  else
    output ← getMetricsFromPod Client (Sprintf "%v-%v" [FStr "kube-controller-manager"; FStr (masterName g)]) "kube-system"
               kubeControllerManagerPort true;
    ParseMetrics output.

(** A failed request is no error, and gives empty metrics. *)
Definition GrabFromAPIServer : result Metrics :=
  match apiserver_metrics with
  | Err _ => Ok ∅
  | Ok output => ParseMetrics output
  end.

(** One of the first four blocks of [Grab]: the field and the errors. *)
Definition grab_one (enabled : bool) (r : result Metrics) (errs : list error) : option Metrics * list error :=
  if enabled then match r with Err err => (None, errs ++ [err]) | Ok metrics => (Some metrics, errs) end
  else (None, errs).

(** The loop over the nodes: the metrics of a failed node are empty. *)
Fixpoint kubelets_loop (nodes : list nodeInfo) (acc : gmap string Metrics) (errs : list error)
  : gmap string Metrics * list error :=
  match nodes with
  | [] => (acc, errs)
  | n :: nodes' =>
      match grabFromKubeletInternal (n_Name n) (n_KubeletPort n) with
      | Err err => kubelets_loop nodes' (<[n_Name n := ∅]> acc) (errs ++ [err])
      | Ok metrics => kubelets_loop nodes' (<[n_Name n := metrics]> acc) errs
      end
  end.

(** [nodes]: the listing of this call. *)
Definition Grab (nodes : result (list nodeInfo)) (g : Grabber) : Collection * option error :=
  let errs := [] in
  let '(api, errs) := grab_one (grabFromAPIServer g) GrabFromAPIServer errs in
  let '(scheduler, errs) := grab_one (grabFromScheduler g) (GrabFromScheduler g) errs in
  let '(manager, errs) := grab_one (grabFromControllerManager g) (GrabFromControllerManager g) errs in
  let '(autoscaler, errs) := grab_one (grabFromClusterAutoscaler g) (GrabFromClusterAutoscaler g) errs in
  let '(kubelets, errs) :=
    if grabFromKubelets g then
      match nodes with
      | Err err => (Some ∅, errs ++ [err])
      | Ok items => let '(m, errs) := kubelets_loop items ∅ errs in (Some m, errs)
      end
    else (None, errs) in
  (mkCollection api manager kubelets scheduler autoscaler,
   if (0 <? length errs)%nat then Some (Errorf "errors while grabbing metrics: %v" [AErr (ListError errs)]) else None).
End Grab.

(** ** The kubelet's latencies (kubelet_metrics.go) *)

Record KubeletLatencyMetric := mkKubeletLatencyMetric {
  Operation : string;
  Method : string;
  Quantile : float64;
  Latency : Z;
}.

(** The order of [sort.Sort]: [a] may precede [b] unless [Less b a]. *)
Definition Less (a b : KubeletLatencyMetric) : bool := Latency b <? Latency a.
Definition klm_le (a b : KubeletLatencyMetric) : Prop := Less b a = false.
#[export] Instance klm_le_dec : RelDecision klm_le.
Proof. intros a b. unfold klm_le. apply _. Defined.

Section Kubelet.
Context `{GoLib} `{MapRange} (ParseMetrics : string -> result Metrics) (node_proxy : string -> option (result string))
  (NodesString : list nodeInfo -> string) (http_Get : string -> result string).

Definition GrabKubeletMetricsWithoutProxy (nodeName path : string) : result Metrics :=
  body ← http_Get (Sprintf "http://%s%s" [FStr nodeName; FStr path]); ParseMetrics body.

(** [c]: the client, if any, by its listings: of all nodes, and of those of
    the name. *)
Definition getKubeletMetricsFromNode (c : option (result (list nodeInfo) * (string -> result (list nodeInfo)))) (nodeName : string)
  : result Metrics :=
  match c with
  | None => GrabKubeletMetricsWithoutProxy nodeName "/metrics"
  | Some (all_nodes, nodes_named) =>
      match NewMetricsGrabber all_nodes false true false false false false with
      | Err err => Err err
      | Ok _ => GrabFromKubelet ParseMetrics node_proxy NodesString (nodes_named nodeName) nodeName
      end
  end.

Definition kubelet_prefix : string := "kubelet_".

(** [strings.TrimPrefix] of a string with the prefix. *)
Definition trim (prefix s : string) : string :=
  String.substring (String.length prefix) (String.length s - String.length prefix) s.

Fixpoint trim_loop (ms : list (string * list Sample)) (kubeletMetrics : Metrics) : Metrics :=
  match ms with
  | [] => kubeletMetrics
  | (name, samples) :: ms' =>
      if negb (String.prefix kubelet_prefix name) then trim_loop ms' kubeletMetrics
      else trim_loop ms' (<[trim kubelet_prefix name := samples]> kubeletMetrics)
  end.

Definition GetKubeletMetrics c (nodeName : string) : result Metrics :=
  ms ← getKubeletMetricsFromNode c nodeName;
  Ok (trim_loop (range "kubeletMetrics" ms) ∅).

(** What one sample contributes: nothing when its quantile does not parse. *)
Definition latency_metric (name : string) (sample : Sample) : list KubeletLatencyMetric :=
  let operation := default "" (s_Metric sample !! "operation_type") in
  let quantile := match s_Metric sample !! "quantile" with
                  | None => Some (f64_of_Z 0)
                  | Some val => match ParseFloat val with (_, Some _) => None | (q, None) => Some q end
                  end in
  match quantile with
  | None => []
  | Some q => [mkKubeletLatencyMetric operation name q (wrap64 (f64_to_int (s_Value sample) * Duration.Microsecond))]
  end.

Fixpoint latency_loop (ms : list (string * list Sample)) (filterMetricNames : gset string) : list KubeletLatencyMetric :=
  match ms with
  | [] => []
  | (name, samples) :: ms' =>
      if negb (bool_decide (name ∈ filterMetricNames)) then latency_loop ms' filterMetricNames
      else concat (map (latency_metric name) samples) ++ latency_loop ms' filterMetricNames
  end.

Definition GetKubeletLatencyMetrics (ms : Metrics) (filterMetricNames : gset string) : list KubeletLatencyMetric :=
  latency_loop (range "latencyMetrics" ms) filterMetricNames.

Definition latencyMetricNames : gset string :=
  {[ "pod_worker_duration_seconds"; "pod_worker_start_duration_seconds"; "pod_start_duration_seconds";
     "cgroup_manager_duration_seconds"; "pleg_relist_duration_seconds" ]}.

Definition GetDefaultKubeletLatencyMetrics (ms : Metrics) : list KubeletLatencyMetric :=
  GetKubeletLatencyMetrics ms latencyMetricNames.

(** The loop over the sorted metrics. *)
Fixpoint bad_metrics (threshold : Z) (l : list KubeletLatencyMetric) : list KubeletLatencyMetric :=
  match l with
  | [] => []
  | m :: l' => if threshold <? Latency m then m :: bad_metrics threshold l' else bad_metrics threshold l'
  end.

(** The order of equal latencies, which [sort.Sort] leaves open, is that of
    [merge_sort]. *)
Definition HighLatencyKubeletOperations c (threshold : Z) (nodeName : string) : result (list KubeletLatencyMetric) :=
  ms ← GetKubeletMetrics c nodeName;
  Ok (bad_metrics threshold (merge_sort klm_le (GetDefaultKubeletLatencyMetrics ms))).
End Kubelet.

(** ** The MetricsForE2E measurement (metrics_for_e2e.go) *)

Definition metricsForE2EName : string := "MetricsForE2E".

Definition interestingKubeletMetricsLabels : list string := [
  "kubelet_container_manager_latency_microseconds";
  "kubelet_docker_errors";
  "kubelet_docker_operations_latency_microseconds";
  "kubelet_generate_pod_status_latency_microseconds";
  "kubelet_pod_start_latency_microseconds";
  "kubelet_pod_worker_latency_microseconds";
  "kubelet_pod_worker_start_latency_microseconds";
  "kubelet_sync_pods_latency_microseconds" ].

(** The entries copied for one kubelet; a missing metric is a nil slice. *)
Definition interesting_metrics (grabbed : Metrics) : Metrics :=
  fold_left (fun acc metric => <[metric := default [] (grabbed !! metric)]> acc) interestingKubeletMetricsLabels ∅.

Definition filterMetrics (m : Collection) : Collection :=
  mkCollection (APIServerMetrics m) (ControllerManagerMetrics m)
    (Some (interesting_metrics <$> default ∅ (KubeletMetrics m)))
    (SchedulerMetrics m) (ClusterAutoscalerMetrics m).

(** [nodes1] and [nodes2]: the listings at the creation of the grabber and at
    the grabbing. *)
Definition Execute `{GoLib} ParseMetrics apiserver_metrics pod_proxy node_proxy
  (PrettyPrintJSON : Collection -> result string) (now : Z) (provider : Provider) (nodes1 nodes2 : result (list nodeInfo))
  (config : MeasurementConfig) : list Summary * option error :=
  match GetBoolOrDefault (cfg_Params config) "gatherKubeletsMetrics" false with
  | (_, Some err) => ([], Some err)
  | (grabMetricsFromKubelets, None) =>
      let grabMetricsFromKubelets := grabMetricsFromKubelets && prov_Features provider SupportGrabMetricsFromKubelets in
      match NewMetricsGrabber nodes1 false grabMetricsFromKubelets true true true false with
      | Err err => ([], Some (Errorf "failed to create MetricsGrabber: %v" [AErr err]))
      | Ok grabber =>
          let '(received, err) := Grab ParseMetrics apiserver_metrics pod_proxy node_proxy nodes2 grabber in
          match PrettyPrintJSON (filterMetrics received) with
          | Err jsonErr => ([], Some jsonErr)
          | Ok content => ([CreateSummary now metricsForE2EName "json" content], err)
          end
      end
  end.

(** ** Names of masters *)

Lemma substring_all n s : (String.length s <= n)%nat -> String.substring 0 n s = s.
Proof. revert n. induction s as [|a s IH]; intros [|n] Hn; cbn in *; [done|done|lia|]. rewrite IH by lia. done. Qed.

Lemma substring_app_r t u : String.substring (String.length t) (String.length u) (t +:+ u) = u.
Proof. induction t as [|a t IH]; [by apply substring_all|exact IH]. Qed.

Lemma substring_app_l t u : String.substring 0 (String.length t) (t +:+ u) = t.
Proof. induction t as [|a t IH]; [by destruct u|]. rewrite string_app_cons. cbn. by rewrite IH. Qed.

Lemma substring_split n s :
  (n <= String.length s)%nat -> s = String.substring 0 n s +:+ String.substring n (String.length s - n) s.
Proof.
  revert n. induction s as [|a s IH]; intros [|n] Hn; cbn in *; [done|lia| |].
  - f_equal. by rewrite substring_all.
  - rewrite string_app_cons. f_equal. apply IH. lia.
Qed.

Lemma length_app_string t u : String.length (t +:+ u) = (String.length t + String.length u)%nat.
Proof. induction t as [|a t IH]; [done|]. rewrite string_app_cons. cbn. by rewrite IH. Qed.

Lemma string_app_assoc s t u : (s +:+ t) +:+ u = s +:+ t +:+ u.
Proof. induction s as [|a s IH]; [done|]. by rewrite !string_app_cons, IH. Qed.

Lemma length_substring n s : (n <= String.length s)%nat -> String.length (String.substring 0 n s) = n.
Proof. revert n. induction s as [|a s IH]; intros [|n] Hn; cbn in *; [done|lia|done|]. by rewrite IH by lia. Qed.

Lemma HasSuffix_iff s suffix : HasSuffix s suffix = true <-> exists t, s = t +:+ suffix.
Proof.
  unfold HasSuffix. rewrite String.eqb_eq. split.
  - intros Hs. destruct (Nat.le_gt_cases (String.length suffix) (String.length s)) as [Hle|Hgt].
    + exists (String.substring 0 (String.length s - String.length suffix) s).
      rewrite (substring_split (String.length s - String.length suffix) s) at 1 by lia.
      f_equal. rewrite <- Hs at 3. f_equal. lia.
    + exists "". replace (String.length s - String.length suffix)%nat with 0%nat in Hs by lia.
      rewrite substring_all in Hs by lia. done.
  - intros [t ->]. rewrite length_app_string, Nat.add_sub. apply substring_app_r.
Qed.

Lemma length_three s : String.length s = 3%nat <-> exists a b c, s = String a (String b (String c "")).
Proof. split; [|by intros (a & b & c & ->)]. destruct s as [|a [|b [|c []]]]; try done. eauto. Qed.

(** A node may be a master exactly when its name matches [master(-...)?$]: it
    ends in "master", or in "master-" and three more characters. *)
Theorem might_be_master_iff nodeName :
  deprecatedMightBeMasterNode nodeName = true <->
  exists t, nodeName = t +:+ "master" \/ exists a b c, nodeName = t +:+ "master-" +:+ String a (String b (String c "")).
Proof.
  unfold deprecatedMightBeMasterNode. destruct (HasSuffix nodeName "master") eqn:Hm.
  { apply HasSuffix_iff in Hm as [t ->]. split; [eauto|done]. }
  assert (~ exists t, nodeName = t +:+ "master") as Hno by (rewrite <- HasSuffix_iff, Hm; done).
  destruct (Nat.leb_spec 10 (String.length nodeName)) as [Hlen|Hlen].
  - rewrite HasSuffix_iff. split.
    + intros [t Ht]. exists t. right.
      rewrite (substring_split (String.length nodeName - 3) nodeName), Ht by lia.
      assert (String.length (String.substring (String.length nodeName - 3) (String.length nodeName - (String.length nodeName - 3)) nodeName) = 3%nat) as Hl.
      { pose proof (f_equal String.length (substring_split (String.length nodeName - 3) nodeName ltac:(lia))) as Hl.
        rewrite length_app_string in Hl.
        assert (String.length (String.substring 0 (String.length nodeName - 3) nodeName) = (String.length nodeName - 3)%nat) as H0.
        { apply length_substring. lia. }
        lia. }
      apply length_three in Hl as (a & b & c & ->). exists a, b, c. by rewrite string_app_assoc.
    + intros [t [-> | (a & b & c & ->)]]; [by destruct Hno; exists t|]. exists t.
      rewrite <- string_app_assoc, (length_app_string (t +:+ _)). cbn [String.length]. rewrite Nat.add_sub. apply substring_app_l.
  - split; [done|]. intros [t [-> | (a & b & c & ->)]]; [by destruct Hno; exists t|].
    rewrite !length_app_string in Hlen. cbn in Hlen. lia.
Qed.

(** ** What is grabbed *)
Section GrabSpec.
Context `{GoLib} (ParseMetrics : string -> result Metrics).
Context (apiserver_metrics : result string) (pod_proxy : client -> string -> string -> result string)
  (node_proxy : string -> option (result string)).

#[local] Abbreviation Grab := (Grab ParseMetrics apiserver_metrics pod_proxy node_proxy).
#[local] Abbreviation kubelet := (grabFromKubeletInternal ParseMetrics node_proxy).

(** The metrics of an enabled component, if they could be had. *)
Definition grabbed (enabled : bool) (r : result Metrics) : option Metrics :=
  if enabled then match r with Ok m => Some m | Err _ => None end else None.
Definition fine (enabled : bool) (r : result Metrics) : Prop := enabled = true -> is_ok r = true.

Lemma grab_one_spec enabled r errs :
  (grab_one enabled r errs).1 = grabbed enabled r /\
  exists l, (grab_one enabled r errs).2 = errs ++ l /\ (l = [] <-> fine enabled r).
Proof using.
  unfold grab_one, grabbed, fine. destruct enabled; [destruct r|]; split; try done.
  - exists []. by rewrite app_nil_r.
  - eexists; split; [done|]. split; [done|]. intros Hf. by specialize (Hf eq_refl).
  - exists []. by rewrite app_nil_r.
Qed.

Lemma grab_one_eq enabled r errs o es :
  grab_one enabled r errs = (o, es) -> o = grabbed enabled r /\ exists l, es = errs ++ l /\ (l = [] <-> fine enabled r).
Proof using. intros Hg. pose proof (grab_one_spec enabled r errs) as Hs. by rewrite Hg in Hs. Qed.

(** The node's metrics, empty after a failure. *)
Definition kubelet_metrics (n : nodeInfo) : Metrics :=
  match kubelet (n_Name n) (n_KubeletPort n) with Ok m => m | Err _ => ∅ end.

Lemma kubelets_loop_spec nodes acc errs m errs' :
  kubelets_loop ParseMetrics node_proxy nodes acc errs = (m, errs') ->
  (NoDup (map n_Name nodes) -> (forall n, n ∈ nodes -> m !! n_Name n = Some (kubelet_metrics n)) /\
     forall k, k ∉ map n_Name nodes -> m !! k = acc !! k) /\
  exists l, errs' = errs ++ l /\ (l = [] <-> Forall (fun n => is_ok (kubelet (n_Name n) (n_KubeletPort n)) = true) nodes).
Proof using.
  revert acc errs. induction nodes as [|n nodes IH]; intros acc errs; cbn [kubelets_loop map].
  { intros [= <- <-]. split; [split; [by intros ? ?%elem_of_nil|done]|]. exists []. rewrite app_nil_r. split; [done|]. by split. }
  intros Hl.
  assert (exists errs1, kubelets_loop ParseMetrics node_proxy nodes (<[n_Name n := kubelet_metrics n]> acc) errs1 = (m, errs') /\
    exists l, errs1 = errs ++ l /\ (l = [] <-> is_ok (kubelet (n_Name n) (n_KubeletPort n)) = true)) as (errs1 & [Hm Hes]%IH & l & -> & Hl1).
  { unfold kubelet_metrics. destruct (kubelet (n_Name n) (n_KubeletPort n)) as [x|x]; eexists; (split; [exact Hl|]).
    - exists []. by rewrite app_nil_r.
    - by exists [x]. }
  split.
  - intros [Hn Hd]%NoDup_cons. destruct (Hm Hd) as [Hin Hout]. split.
    + intros n' [->|Hn']%elem_of_cons; [|auto]. rewrite Hout by done. apply lookup_insert_eq.
    + intros k [Hk1 Hk2]%not_elem_of_cons. rewrite Hout by done. by rewrite lookup_insert_ne.
  - destruct Hes as (l' & -> & Hl'). exists (l ++ l'). rewrite <- app_assoc. split; [done|].
    rewrite Forall_cons, <- Hl1, <- Hl'. split; [by intros []%app_eq_nil|]. by intros [-> ->].
Qed.

(** Grabbing reports no error exactly when every enabled component could be
    read, where an API server that does not answer passes; every field holds
    what was read of its own component, and a node that failed has an entry
    without metrics. *)
Lemma Grab_spec nodes g coll err :
  Grab nodes g = (coll, err) ->
  (err = None <->
     fine (grabFromAPIServer g) (GrabFromAPIServer ParseMetrics apiserver_metrics) /\
     fine (grabFromScheduler g) (GrabFromScheduler ParseMetrics pod_proxy g) /\
     fine (grabFromControllerManager g) (GrabFromControllerManager ParseMetrics pod_proxy g) /\
     fine (grabFromClusterAutoscaler g) (GrabFromClusterAutoscaler ParseMetrics pod_proxy g) /\
     (grabFromKubelets g = true -> exists items, nodes = Ok items /\
        Forall (fun n => is_ok (kubelet (n_Name n) (n_KubeletPort n)) = true) items)) /\
  APIServerMetrics coll = grabbed (grabFromAPIServer g) (GrabFromAPIServer ParseMetrics apiserver_metrics) /\
  SchedulerMetrics coll = grabbed (grabFromScheduler g) (GrabFromScheduler ParseMetrics pod_proxy g) /\
  ControllerManagerMetrics coll = grabbed (grabFromControllerManager g) (GrabFromControllerManager ParseMetrics pod_proxy g) /\
  ClusterAutoscalerMetrics coll = grabbed (grabFromClusterAutoscaler g) (GrabFromClusterAutoscaler ParseMetrics pod_proxy g) /\
  (grabFromKubelets g = true -> forall items, nodes = Ok items -> NoDup (map n_Name items) ->
     forall n, n ∈ items -> (KubeletMetrics coll ≫= (.!! n_Name n)) = Some (kubelet_metrics n)).
Proof using.
  unfold MetricsGrabber.Grab.
  destruct (grab_one (grabFromAPIServer g) _ _) as [api e1] eqn:H1.
  destruct (grab_one (grabFromScheduler g) _ e1) as [sched e2] eqn:H2.
  destruct (grab_one (grabFromControllerManager g) _ e2) as [man e3] eqn:H3.
  destruct (grab_one (grabFromClusterAutoscaler g) _ e3) as [auto e4] eqn:H4.
  apply grab_one_eq in H1 as (-> & l1 & -> & F1), H2 as (-> & l2 & -> & F2), H3 as (-> & l3 & -> & F3), H4 as (-> & l4 & -> & F4).
  rewrite <- F1, <- F2, <- F3, <- F4.
  set (ks := if grabFromKubelets g then _ else _).
  assert (exists l5, ks.2 = ((([] ++ l1) ++ l2) ++ l3) ++ l4 ++ l5 /\
    (l5 = [] <-> (grabFromKubelets g = true -> exists items, nodes = Ok items /\
       Forall (fun n => is_ok (kubelet (n_Name n) (n_KubeletPort n)) = true) items)) /\
    (grabFromKubelets g = true -> forall items, nodes = Ok items -> NoDup (map n_Name items) ->
     forall n, n ∈ items -> (ks.1 ≫= (.!! n_Name n)) = Some (kubelet_metrics n))) as (l5 & He & <- & Hk).
  { subst ks. destruct (grabFromKubelets g); [|exists []; rewrite app_nil_r; by split_and!].
    destruct nodes as [items|x].
    - destruct (kubelets_loop _ _ items ∅ _) as [m es] eqn:Hl. apply kubelets_loop_spec in Hl as [Hm (l & -> & Hl)].
      exists l. rewrite <- !app_assoc. split_and!; [done| |].
      + rewrite Hl. split; [eauto|]. intros Hx. by destruct (Hx eq_refl) as (? & [= <-] & ?).
      + intros _ ? [= <-] Hd n Hn. cbn. by apply Hm.
    - exists [x]. rewrite <- !app_assoc. split_and!; [done| |done].
      split; [done|]. intros Hx. by destruct (Hx eq_refl) as (? & ? & _). }
  destruct ks as [kubelets errs]. cbn [fst snd] in *. subst errs. intros [= <- <-]. cbn.
  split_and!; [|done..|exact Hk].
  destruct (((((l1 ++ l2) ++ l3) ++ l4 ++ l5))) eqn:Hall; cbn.
  - split; [intros _|done]. apply app_eq_nil in Hall as [Hall [-> ->]%app_eq_nil].
    apply app_eq_nil in Hall as [[-> ->]%app_eq_nil ->]. by split_and!.
  - split; [done|]. intros (-> & -> & -> & -> & ->). done.
Qed.

Lemma find_master_spec nodes b name :
  find_master nodes = (b, name) ->
  (b = true -> exists n, n ∈ nodes /\ n_Name n = name /\ deprecatedMightBeMasterNode name = true) /\
  (b = false -> Forall (fun n => deprecatedMightBeMasterNode (n_Name n) = false) nodes).
Proof using.
  induction nodes as [|n nodes IH]; cbn [find_master]; [by intros [= <- <-]|].
  destruct (deprecatedMightBeMasterNode (n_Name n)) eqn:Hn.
  - intros [= <- <-]. split; [|done]. intros _. exists n. split_and!; [apply list_elem_of_here|done..].
  - intros [Ht Hf]%IH. split; [|by constructor; [|apply Hf]].
    intros Hb. destruct (Ht Hb) as (n' & Hin & ? & ?). exists n'. split_and!; [by apply list_elem_of_further|done..].
Qed.

(** The metrics behind a proxied request could be read. *)
Definition readable (answer : result string) : Prop := exists out, answer = Ok out /\ is_ok (ParseMetrics out) = true.

Lemma is_ok_bind {A B} (r : result A) (f : A -> result B) :
  is_ok (r ≫= f) = true <-> exists a, r = Ok a /\ is_ok (f a) = true.
Proof using. destruct r as [a|e]; cbn; [|split; [done|by intros (? & [=] & _)]]. split; [eauto|by intros (? & [= <-] & ?)]. Qed.

(** The measurement delivers its summary whenever the grabber exists and the
    metrics can be printed, and reports no error exactly when in addition: the
    API server's metrics parse if there are any; those of the scheduler and of
    the controller manager of the registered master, if one of the listed nodes
    is one, can be read; and, when asked for and supported, the nodes are
    listed and each has a valid port and readable metrics. *)
Theorem e2e_metrics_complete (PrettyPrintJSON : Collection -> result string) now provider nodes1 nodes2 config kubelets :
  GetBoolOrDefault (cfg_Params config) "gatherKubeletsMetrics" false = (kubelets, None) ->
  (forall coll, is_ok (PrettyPrintJSON coll) = true) ->
  forall summaries err,
  Execute ParseMetrics apiserver_metrics pod_proxy node_proxy PrettyPrintJSON now provider nodes1 nodes2 config = (summaries, err) ->
  (length summaries = 1%nat <-> is_ok nodes1 = true) /\
  (err = None <-> exists nodes, nodes1 = Ok nodes /\
     (forall out, apiserver_metrics = Ok out -> is_ok (ParseMetrics out) = true) /\
     (forall master, find_master nodes = (true, master) ->
        readable (pod_proxy Client "kube-system" (Sprintf "https:%s:%d" [FStr (Sprintf "%v-%v" [FStr "kube-scheduler"; FStr master]); FInt 10259])) /\
        readable (pod_proxy Client "kube-system" (Sprintf "https:%s:%d" [FStr (Sprintf "%v-%v" [FStr "kube-controller-manager"; FStr master]); FInt 10257]))) /\
     (kubelets && prov_Features provider SupportGrabMetricsFromKubelets = true -> exists items, nodes2 = Ok items /\
        Forall (fun n => 0 < n_KubeletPort n <= 65535 /\ exists answer,
          node_proxy (Sprintf "%v:%v" [FStr (n_Name n); FInt (n_KubeletPort n)]) = Some answer /\ readable answer) items)).
Proof.
  intros Hk HJ summaries err. unfold Execute. rewrite Hk. unfold NewMetricsGrabber.
  destruct nodes1 as [nodes|x].
  2:{ intros [= <- <-]. split; [done|]. split; [done|]. by intros (? & [=] & _). }
  destruct (find_master nodes) as [b master] eqn:Hm.
  set (g := if negb b then _ else _).
  assert (g = (b, b, false && b)) as -> by (subst g; by destruct b). cbn [andb].
  set (g := mkGrabber _ _ _ _ _ _ _ _).
  destruct (Grab nodes2 g) as [coll e] eqn:Hg. apply Grab_spec in Hg as [He _].
  pose proof (HJ (filterMetrics coll)) as Hp. destruct (PrettyPrintJSON _) as [content|]; [|done].
  intros [= <- <-]. split; [done|]. rewrite He. subst g. clear He Hp. unfold fine. cbn [grabFromAPIServer grabFromScheduler
    grabFromControllerManager grabFromClusterAutoscaler grabFromKubelets].
  assert (forall (n : nodeInfo), is_ok (kubelet (n_Name n) (n_KubeletPort n)) = true <->
    0 < n_KubeletPort n <= 65535 /\ exists answer,
      node_proxy (Sprintf "%v:%v" [FStr (n_Name n); FInt (n_KubeletPort n)]) = Some answer /\ readable answer) as Hn.
  { intros n. unfold grabFromKubeletInternal, getMetricsFromNode, readable. clear. destruct n as [name port]. cbn [n_Name n_KubeletPort].
    destruct (Z.leb_spec port 0), (Z.ltb_spec 65535 port); cbn [orb]; [split; [done|lia]..|].
    rewrite is_ok_bind. destruct (node_proxy _) as [answer|].
    - split; [intros (out & -> & ?); split; [lia|]; eauto|]. intros (_ & ? & [= <-] & out & -> & ?). eauto.
    - split; [by intros (? & [=] & _)|]. by intros (_ & ? & [=] & _). }
  setoid_rewrite Hn. clear Hn.
  assert ((true = true -> is_ok (GrabFromAPIServer ParseMetrics apiserver_metrics) = true) <->
    (forall out, apiserver_metrics = Ok out -> is_ok (ParseMetrics out) = true)) as ->.
  { unfold GrabFromAPIServer. destruct apiserver_metrics as [out|]; [|done].
    split; [intros Ho ? [= <-]; by apply Ho|intros Ho _; by apply Ho]. }
  unfold GrabFromScheduler, GrabFromControllerManager, getMetricsFromPod, kubeSchedulerPort, kubeControllerManagerPort, readable.
  cbn [registeredMaster masterName]. destruct b; cbn [negb]; rewrite ?is_ok_bind.
  - split.
    + intros (Ha & Hs & Hc & _ & Hks). exists nodes. split_and!; [done|done| |done]. rewrite Hm. intros ? [= <-]. auto.
    + intros (? & [= <-] & Ha & Hs & Hks). destruct (Hs master Hm) as [Hs1 Hs2]. split_and!; done.
  - split.
    + intros (Ha & _ & _ & _ & Hks). exists nodes. split_and!; [done|done| |done]. rewrite Hm. by intros ? [=].
    + intros (? & [= <-] & Ha & _ & Hks). by split_and!.
Qed.
End GrabSpec.

(** ** The kubelet's latencies *)
Section LatencySpec.
Context `{GoLib} `{MapRange}.

Lemma prefix_iff p s : String.prefix p s = true <-> exists t, s = p +:+ t.
Proof using.
  revert s. induction p as [|a p IH]; intros s; [destruct s; split; eauto|].
  destruct s as [|b s]; cbn; [split; [done|by intros [t [=]]]|].
  destruct (ascii_dec a b) as [->|Hn].
  - rewrite IH. split; intros [t Ht]; exists t; [by rewrite string_app_cons, Ht|by injection Ht].
  - split; [done|]. intros [t [=]]. congruence.
Qed.

Lemma trim_app p t : trim p (p +:+ t) = t.
Proof using. unfold trim. rewrite length_app_string, Nat.add_sub_swap, Nat.sub_diag, Nat.add_0_l by done. apply substring_app_r. Qed.

Lemma trim_loop_lookup ms acc k :
  NoDup ms.*1 ->
  trim_loop ms acc !! k = match (list_to_map ms : Metrics) !! (kubelet_prefix +:+ k) with Some v => Some v | None => acc !! k end.
Proof using.
  revert acc. induction ms as [|[name v] ms IH]; intros acc; cbn [trim_loop list_to_map foldr fmap list_fmap fst]; [done|].
  intros [Hn Hd]%NoDup_cons. destruct (String.prefix kubelet_prefix name) eqn:Hp; cbn [negb].
  - apply prefix_iff in Hp as [t ->]. rewrite trim_app, IH by done.
    destruct (decide (t = k)) as [->|Hne].
    + rewrite not_elem_of_list_to_map_1 by done. cbn. by rewrite !lookup_insert_eq.
    + cbn. rewrite !lookup_insert_ne; [done| |done]. intros Heq%string_app_inj_l. done.
  - rewrite IH by done. cbn. rewrite lookup_insert_ne; [done|]. intros ->.
    assert (String.prefix kubelet_prefix (kubelet_prefix +:+ k) = true) as Ht by (apply prefix_iff; eauto). congruence.
Qed.

Lemma bad_metrics_filter threshold l : bad_metrics threshold l = filter (fun m => threshold < Latency m) l.
Proof using.
  induction l as [|m l IH]; [done|]. cbn [bad_metrics]. rewrite filter_cons, IH.
  destruct (Z.ltb_spec threshold (Latency m)); [rewrite decide_True by done|rewrite decide_False by lia]; done.
Qed.

Lemma Sorted_bad_metrics threshold l :
  StronglySorted klm_le l -> StronglySorted klm_le (bad_metrics threshold l).
Proof using.
  induction 1 as [|m l Hs IH Hf]; cbn [bad_metrics]; [constructor|]. destruct (threshold <? Latency m); [|done].
  constructor; [done|]. rewrite bad_metrics_filter, !Forall_forall in *. intros x [_ Hx]%list_elem_of_filter. auto.
Qed.

(** The operations reported of a node are, in order of falling latency, the
    samples above the threshold of the five default metrics, looked up under
    their names with the kubelet's prefix. *)
Theorem high_latency_operations ParseMetrics node_proxy NodesString http_Get c threshold nodeName ms :
  getKubeletMetricsFromNode ParseMetrics node_proxy NodesString http_Get c nodeName = Ok ms ->
  exists bad kms,
    HighLatencyKubeletOperations ParseMetrics node_proxy NodesString http_Get c threshold nodeName = Ok bad /\
    (forall name, kms !! name = ms !! (kubelet_prefix +:+ name)) /\
    StronglySorted klm_le bad /\
    bad ≡ₚ filter (fun m => threshold < Latency m) (GetDefaultKubeletLatencyMetrics kms).
Proof.
  intros Hms. unfold HighLatencyKubeletOperations, GetKubeletMetrics. rewrite Hms. cbn.
  eexists _, (trim_loop (range "kubeletMetrics" ms) ∅). split; [reflexivity|]. split_and!.
  - intros name. rewrite trim_loop_lookup by apply range_NoDup_fst. rewrite range_to_map. rewrite lookup_empty. by destruct (ms !! _).
  - apply Sorted_bad_metrics, Sorted_StronglySorted.
    + intros a b d. unfold klm_le, Less. rewrite !Z.ltb_ge. lia.
    + apply Sorted_merge_sort. intros a b. unfold klm_le, Less. rewrite !Z.ltb_ge. lia.
  - rewrite bad_metrics_filter. by rewrite merge_sort_Permutation.
Qed.

(** The default metrics count seconds, and the value is taken for a number of
    microseconds. *)
Lemma seconds_as_microseconds name n :
  0 <= n < 2 ^ 53 ->
  latency_metric name (mkSample ∅ (f64_of_Z n)) = [mkKubeletLatencyMetric "" name (f64_of_Z 0) (n * Duration.Microsecond)].
Proof using.
  intros Hn. unfold latency_metric. cbn [s_Metric s_Value]. rewrite !lookup_empty. cbn [default].
  rewrite f64_to_int_of_Z by done. rewrite wrap64_id; [done|]. unfold Duration.Microsecond, Duration.Nanosecond. lia.
Qed.
End LatencySpec.
