(* ===== verification/Dra.v ===== *)
(** * The DRA test driver (pkg/dependency/dra/dra.go)

    A dependency of the tests (Dependency): its set-up creates a namespace,
    applies the driver's manifests and waits until the daemon set is ready and
    the resource slices are published; its teardown deletes the namespace. *)

From S2P Require Import Prelude GoErrors GoRuntime Params Api Executor Client Namespaces Dependency Waiting Services.

Definition draDependencyName : string := "DRATestDriver".
Definition draNamespace : string := "dra-example-driver".
Definition draManifests : string := "dra-example-driver".
Definition defaultWorkerNodeCount : string := "100".
Definition draDaemonsetName : string := "dra-example-driver-kubeletplugin".
Definition checkDRAReadyInterval : Z := 30 * Duration.Second.
Definition defaultDRATimeout : Z := 10 * Duration.Minute.

(** ** Parameters *)
Section Config.
Context `{GoLib}.

Definition getWorkerCount (config : DependencyConfig) : value :=
  match dcfg_Params config !! "WorkerNodeCount" with
  | None => VString defaultWorkerNodeCount
  | Some workerCount => workerCount
  end.

(** A type assertion to string. *)
Definition as_string (v : value) : option string := match v with VString s => Some s | _ => None end.

Definition getNamespace (config : DependencyConfig) : result string :=
  let namespace := default (VString draNamespace) (dcfg_Params config !! "Namespace") in
  match as_string namespace with
  | None => Err (Errorf "namespace parameter is not a string: %v" [AStr (Sprint namespace)])
  | Some s => Ok s
  end.

Definition getManifests (config : DependencyConfig) : result string :=
  let manifests := default (VString draManifests) (dcfg_Params config !! "Manifests") in
  match as_string manifests with
  | None => Err (Errorf "manifests parameter is not a string: %v" [AStr (Sprint manifests)])
  | Some s => Ok ("manifests/" +:+ s +:+ "/*.yaml")
  end.

Definition getDaemonset (config : DependencyConfig) : result string :=
  let daemonsetName := default (VString draDaemonsetName) (dcfg_Params config !! "DaemonsetName") in
  match as_string daemonsetName with
  | None => Err (Errorf "DaemonsetName parameter is not a string: %v" [AStr (Sprint daemonsetName)])
  | Some s => Ok s
  end.

Definition template_mapping (config : DependencyConfig) (namespace : string) : params :=
  let mapping := {[ "Namespace" := VString namespace; "WorkerNodeCount" := getWorkerCount config ]} : params in
  match dcfg_Params config !! "ExtendedResourceName" with
  | Some extendedResourceName => <["ExtendedResourceName" := extendedResourceName]> mapping
  | None => mapping
  end.
End Config.

(** The reads of the readiness checks: the ready and the desired number of a
    daemon set's pods, the pods of a namespace (name and phase), and the number
    of resource slices. *)
Class DraServer (C : Type) := {
  daemonset_Get : string -> string -> C -> C * result (Z * Z);
  dra_pods_List : string -> C -> C * result (list (string * string));
  slices_List : C -> C * result nat;
}.

Section Dra.
Context {C : Type} `{ApiErrors} `{Backoff} `{NS : NamespaceServer C} `{ApiServer C} `{UnstructuredLib} `{GoLib} `{DraServer C}.
Context (Glob : string -> result (list string)) (Render : string -> params -> result Unstructured).

(** ** Readiness *)

Definition isDRADriverReady (daemonsetName namespace : string) (c : C) : C * (bool * option error) :=
  match daemonset_Get namespace daemonsetName c with
  | (c, Err err) => (c, (false, Some (Errorf "failed to get %s: %v" [AStr daemonsetName; AErr err])))
  | (c, Ok (numberReady, desired)) => (c, (numberReady =? desired, None))
  end.

Definition plugin_pod (namePrefix : string) (pod : string * string) : bool :=
  String.prefix namePrefix pod.1 && String.eqb pod.2 "Running".

Definition getDriverPluginPods (namespace namePrefix : string) (c : C) : C * result Z :=
  match dra_pods_List namespace c with
  | (c, Err err) => (c, Err (Errorf "failed to list pods in namespace %s: %w" [AStr namespace; AWrap err]))
  | (c, Ok pods) =>
      (c, Ok (fold_left (fun runningPods (pod : string * string) =>
         if negb (String.prefix namePrefix pod.1) then runningPods
         else if String.eqb pod.2 "Running" then runningPods + 1 else runningPods) pods 0))
  end.

Definition isResourceSlicesPublished (namespace : string) (c : C) : C * (bool * option error) :=
  match getDriverPluginPods namespace draDaemonsetName c with
  | (c, Err err) => (c, (false, Some (Errorf "failed to list driverPluginPods: %v" [AErr err])))
  | (c, Ok workerCount) =>
      match slices_List c with
      | (c, Err err) => (c, (false, Some (Errorf "failed to list resourceslices: %v" [AErr err])))
      | (c, Ok items) => if negb (Z.of_nat items =? workerCount) then (c, (false, None)) else (c, (true, None))
      end
  end.

Definition waitForDRADriverToBeHealthy (timeout : Z) (daemonsetName namespace : string) (c : C) : C * option error :=
  run_steps [PollImmediate checkDRAReadyInterval timeout (isDRADriverReady daemonsetName namespace);
             PollImmediate checkDRAReadyInterval timeout (isResourceSlicesPublished namespace)] c.

(** ** Set-up and teardown *)

Definition Setup (config : DependencyConfig) (c : C) : C * option error :=
  match getNamespace config with
  | Err err => (c, Some err)
  | Ok namespace =>
      match client_CreateNamespace c namespace with
      | (c, Some err) => (c, Some (Errorf "namespace %s creation error: %v" [AStr namespace; AErr err]))
      | (c, None) =>
          match getManifests config with
          | Err err => (c, Some err)
          | Ok manifests =>
              match getDaemonset config with
              | Err err => (c, Some err)
              | Ok daemonsetName =>
                  match ApplyTemplatedManifests Glob Render [Retry IsRetryableAPIError] manifests (template_mapping config namespace) c with
                  | (c, Some err) => (c, Some (Errorf "applying DRA manifests error: %v" [AErr err]))
                  | (c, None) =>
                      match GetDurationOrDefault (dcfg_Params config) "timeout" defaultDRATimeout with
                      | (_, Some err) => (c, Some err)
                      | (timeout, None) => waitForDRADriverToBeHealthy timeout daemonsetName namespace c
                      end
                  end
              end
          end
      end
  end.

Definition Teardown (config : DependencyConfig) (c : C) : C * option error :=
  match getNamespace config with
  | Err err => (c, Some err)
  | Ok namespace =>
      match client_DeleteNamespace c namespace with
      | (c, Some err) => (c, Some (Errorf "deleting %s namespace error: %v" [AStr namespace; AErr err]))
      | (c, None) => WaitForDeleteNamespace c namespace DefaultNamespaceDeletionTimeout
      end
  end.

(** ** What they guarantee *)
Context `{NL : !NamespaceLaws}.

Lemma run_steps_two {W} (f g : W -> W * option error) w w' :
  run_steps [f; g] w = (w', None) -> exists w1, f w = (w1, None) /\ g w1 = (w', None).
Proof using.
  cbn [run_steps]. destruct (f w) as [w1 [e|]]; [done|]. destruct (g w1) as [w2 [e|]] eqn:Hg; [done|].
  intros [= <-]. by exists w1.
Qed.

Lemma poll_true interval timeout (f : ConditionFunc C) c c' :
  PollImmediate interval timeout f c = (c', None) -> exists x, f x = (c', (true, None)).
Proof using NL.
  intros Hp. eapply (poll_law (fun _ => True)) in Hp as [_ Hp]; [|done..]. destruct (Hp eq_refl) as (x & _ & Hx). eauto.
Qed.

Lemma getDriverPluginPods_spec namespace prefix c c' n :
  getDriverPluginPods namespace prefix c = (c', Ok n) ->
  exists pods, dra_pods_List namespace c = (c', Ok pods) /\ n = count (plugin_pod prefix) pods.
Proof using.
  unfold getDriverPluginPods. destruct (dra_pods_List namespace c) as [c1 [pods|e]]; [|done].
  intros [= <- <-]. exists pods. split; [done|].
  assert (forall acc, fold_left (fun runningPods (pod : string * string) =>
         if negb (String.prefix prefix pod.1) then runningPods
         else if String.eqb pod.2 "Running" then runningPods + 1 else runningPods) pods acc = acc + count (plugin_pod prefix) pods) as Hf.
  { induction pods as [|[name phase] pods IH]; intros acc; [unfold count; cbn; lia|]. cbn [fold_left]. rewrite IH, count_cons.
    unfold plugin_pod at 2. cbn [fst snd]. destruct (String.prefix prefix name), (String.eqb phase "Running"); cbn; lia. }
  by rewrite Hf, Z.add_0_l.
Qed.

(** A set-up without an error has created the namespace and applied the
    manifests to it; then the daemon set was seen with as many ready pods as
    desired; and then the running pods of the plugin, by their names, were
    counted and the resource slices listed were as many. A teardown without an
    error leaves no such namespace. *)
Theorem dra_lifecycle config c c' :
  (Setup config c = (c', None) ->
     exists namespace manifests daemonset c1 c2 x y n c3 c4 pods,
       getNamespace config = Ok namespace /\ getManifests config = Ok manifests /\ getDaemonset config = Ok daemonset /\
       client_CreateNamespace c namespace = (c1, None) /\ namespace ∈ nss c1 /\
       ApplyTemplatedManifests Glob Render [Retry IsRetryableAPIError] manifests (template_mapping config namespace) c1 = (c2, None) /\
       daemonset_Get namespace daemonset x = (y, Ok (n, n)) /\
       dra_pods_List namespace c3 = (c4, Ok pods) /\
       slices_List c4 = (c', Ok (Z.to_nat (count (plugin_pod draDaemonsetName) pods)))) /\
  (Teardown config c = (c', None) -> exists namespace, getNamespace config = Ok namespace /\ namespace ∉ nss c').
Proof.
  split.
  - unfold Setup. destruct (getNamespace config) as [namespace|] eqn:Hns; [|done].
    destruct (client_CreateNamespace c namespace) as [c1 [e|]] eqn:Hc; [done|].
    destruct (getManifests config) as [manifests|]; [|done]. destruct (getDaemonset config) as [daemonset|]; [|done].
    destruct (ApplyTemplatedManifests _ _ _ _ _ c1) as [c2 [e|]] eqn:Ha; [done|].
    destruct (GetDurationOrDefault _ _ _) as [timeout [e|]]; [done|].
    intros (y & [x Hx]%poll_true & [z Hz]%poll_true)%run_steps_two.
    unfold isDRADriverReady in Hx. destruct (daemonset_Get namespace daemonset x) as [y' [[n d]|e]] eqn:Hd; [|done].
    injection Hx as -> ->%Z.eqb_eq.
    unfold isResourceSlicesPublished in Hz.
    destruct (getDriverPluginPods namespace draDaemonsetName z) as [c4 [w|e]] eqn:Hw; [|done].
    apply getDriverPluginPods_spec in Hw as (pods & Hp & ->).
    destruct (slices_List c4) as [c5 [items|e]] eqn:Hs; [|done].
    destruct (Z.eqb_spec (Z.of_nat items) (count (plugin_pod draDaemonsetName) pods)) as [Hi|]; [|done]. injection Hz as <-.
    exists namespace, manifests, daemonset, c1, c2, x, y, d, z, c4, pods.
    apply client_CreateNamespace_spec in Hc as Hc'. rewrite <- Hi, Nat2Z.id. split_and!; try done. by apply Hc'.
  - unfold Teardown. destruct (getNamespace config) as [namespace|] eqn:Hns; [|done].
    destruct (client_DeleteNamespace c namespace) as [c1 [e|]]; [done|].
    intros Hw%WaitForDeleteNamespace_spec. exists namespace. split; [done|]. by apply Hw.
Qed.

(** The pods counted are those of the constant's name, whatever the parameter
    DaemonsetName: when no running pod has it, any resource slice makes the
    wait go on. *)
Lemma custom_daemonset_not_counted namespace c c1 c2 pods n :
  dra_pods_List namespace c = (c1, Ok pods) -> slices_List c1 = (c2, Ok (S n)) ->
  Forall (fun pod => String.prefix draDaemonsetName pod.1 = false) pods ->
  isResourceSlicesPublished namespace c = (c2, (false, None)).
Proof using.
  intros Hp Hs Hf. unfold isResourceSlicesPublished.
  destruct (getDriverPluginPods namespace draDaemonsetName c) as [c1' [w|e]] eqn:Hw.
  - apply getDriverPluginPods_spec in Hw as (pods' & Hp' & ->). rewrite Hp in Hp'. injection Hp' as <- <-. rewrite Hs.
    assert (count (plugin_pod draDaemonsetName) pods = 0) as ->; [|by destruct (Z.eqb_spec (Z.of_nat (S n)) 0); [lia|]].
    clear -Hf. induction Hf as [|pod pods Hn _ IH]; [done|]. rewrite count_cons, IH. unfold plugin_pod. by rewrite Hn.
  - unfold getDriverPluginPods in Hw. by rewrite Hp in Hw.
Qed.
End Dra.
