(* ===== verification/Profile.v ===== *)
(** * Profiles of the control plane (pkg/measurement/common/profile.go)

    A goroutine fetches the profiles of a component from every master every five
    minutes until the measurement is stopped. Running a command over SSH and
    the requests to the API server are parameters. *)

From S2P Require Import Prelude GoErrors GoRuntime Params Measurement Client Provider Services.

Definition cpuProfileName : string := "CPUProfile".
Definition memoryProfileName : string := "MemoryProfile".
Definition blockProfileName : string := "BlockProfile".

(** The fields of [clusterConfig] in use. *)
Record clusterInfo := mkClusterInfo {
  ci_Provider : Provider;
  ci_MasterIPs : list string;
  ci_APIServerPprofByClientEnabled : bool;
  ci_EtcdCertificatePath : string;
  ci_EtcdKeyPath : string;
}.

Record profileConfig := mkProfileConfig {
  componentName : string;
  provider : option Provider;
  hosts : list string;
  kind : string;
}.

Record profileMeasurement := mkProfile {
  name : string;
  config : profileConfig;
  summaries : list Summary;
  isRunning : bool;
  stopCh : chan_state;
}.

Definition createProfileMeasurementFactory (name kind : string) : profileMeasurement :=
  mkProfile name (mkProfileConfig "" None [] kind) [] false ChanNil.

(** The measurements registered by [init]. *)
Definition profiles : list profileMeasurement :=
  [createProfileMeasurementFactory cpuProfileName "profile";
   createProfileMeasurementFactory memoryProfileName "heap";
   createProfileMeasurementFactory blockProfileName "block"].

Definition set_config (cfg : profileConfig) (p : profileMeasurement) : profileMeasurement :=
  mkProfile (name p) cfg (summaries p) (isRunning p) (stopCh p).

(** The component's name is assigned before its error is looked at. *)
Definition populateProfileConfig `{GoLib} (cluster : clusterInfo) (dict : params) (p : profileMeasurement)
  : profileMeasurement * option error :=
  let '(component, err) := getString dict "componentName" in
  let cfg := config p in
  match err with
  | Some err => (set_config (mkProfileConfig component (provider cfg) (hosts cfg) (kind cfg)) p, Some err)
  | None => (set_config (mkProfileConfig component (Some (ci_Provider cluster)) (ci_MasterIPs cluster) (kind cfg)) p, None)
  end.

Definition shouldExposeAPIServerDebugEndpoint (p : profileMeasurement) : bool :=
  String.eqb (componentName (config p)) "kube-apiserver".

(** ** Gathering one profile of every master *)

Definition getProfileCommand (cluster : clusterInfo) (p : profileMeasurement) : result string :=
  match GetComponentProtocolAndPort (componentName (config p)) with
  | (_, Some err) => Err (Errorf "get profile command failed finding component protocol/port: %v" [AErr err])
  | (profileProtocol, profilePort, None) =>
      Ok (if String.eqb (componentName (config p)) "etcd" then
            Sprintf "curl -s -k --cert %s --key %s %slocalhost:%v/debug/pprof/%s"
              [FStr (ci_EtcdCertificatePath cluster); FStr (ci_EtcdKeyPath cluster); FStr profileProtocol; FInt profilePort;
               FStr (kind (config p))]
          else
            Sprintf "curl -s -k %slocalhost:%v/debug/pprof/%s" [FStr profileProtocol; FInt profilePort; FStr (kind (config p))])
  end.

(** measurement/util/ssh.go. *)
Record SSHResult := mkSSHResult { User : string; Host : string; Cmd : string; Stdout : string; Stderr : string; Code : Z }.

Section Gather.
(** [provider.RunSSHCommand]: stdout, stderr, the exit code and the error; the
    answer of the API server to a path; the time at which a host's summary is
    made. *)
Context (RunSSHCommand : option Provider -> string -> string -> string * string * Z * option error)
  (DoRaw : string -> result string) (clock : string -> Z).

Definition SSH (cmd host : string) (provider : option Provider) : SSHResult * option error :=
  let '(stdout, stderr, code, err) := RunSSHCommand provider cmd host in
  (mkSSHResult "" host cmd stdout stderr code, err).

Definition profilePrefix (p : profileMeasurement) (host : string) : string :=
  Sprintf "%s_%s_%s" [FStr host; FStr (componentName (config p)); FStr (name p)].

(** The loop over the hosts; the nil slice is []. *)
Fixpoint hosts_loop (getCommand : string) (SSHToMasterSupported : bool) (p : profileMeasurement) (l : list string) (acc : list Summary)
  : result (list Summary) :=
  match l with
  | [] => Ok acc
  | host :: l' =>
      if negb SSHToMasterSupported then
        if String.eqb (componentName (config p)) "kube-apiserver" then
          match DoRaw ("/debug/pprof/" +:+ kind (config p)) with
          | Err err => Err err
          | Ok body => Ok (acc ++ [CreateSummary (clock host) (profilePrefix p host) "pprof" body])
          end
        else Ok []
      else
        match SSH getCommand (host +:+ ":22") (provider (config p)) with
        | (_, Some err) => Err (Errorf "failed to execute curl command on master node %s through SSH: %v" [AStr host; AErr err])
        | (sshResult, None) =>
            hosts_loop getCommand SSHToMasterSupported p l'
              (acc ++ [CreateSummary (clock host) (profilePrefix p host) "pprof" (Stdout sshResult)])
        end
  end.

Definition gatherProfile (cluster : clusterInfo) (SSHToMasterSupported : bool) (p : profileMeasurement) : result (list Summary) :=
  match getProfileCommand cluster p with
  | Err err => Err (Errorf "profile gathering failed during retrieving profile command: %v" [AErr err])
  | Ok getCommand => hosts_loop getCommand SSHToMasterSupported p (hosts (config p)) []
  end.
End Gather.

(** ** The debug endpoint *)
Class RbacServer (C : Type) := {
  create_clusterrole : string -> C -> C * option error;
  create_clusterrolebinding : string -> C -> C * option error;
}.

Section Expose.
Context {C : Type} `{ApiErrors} `{Backoff} `{RbacServer C} `{GoLib}.

Definition retryCreateFunction (f : C -> C * option error) : C -> C * option error :=
  RetryWithExponentialBackOff (RetryFunction f [Allow IsAlreadyExists]).

Definition exposeAPIServerDebugEndpoint : C -> C * option error :=
  run_steps [retryCreateFunction (create_clusterrole "apiserver-debug-viewer");
             retryCreateFunction (create_clusterrolebinding "anonymous:apiserver-debug-viewer")].

(** ** The measurement *)

(** [true]: the goroutine is started. *)
Definition start (cluster : clusterInfo) (dict : params) (p : profileMeasurement) (c : C)
  : (profileMeasurement * C) * bool * option error :=
  match populateProfileConfig cluster dict p with
  | (p, Some err) => ((p, c), false, Some err)
  | (p, None) =>
      if (length (hosts (config p)) <? 1)%nat then ((p, c), false, None)
      else
        let '(c, _) := if shouldExposeAPIServerDebugEndpoint p then exposeAPIServerDebugEndpoint c else (c, None) in
        ((mkProfile (name p) (config p) [] true ChanOpen, c), true, None)
  end.

(** One round of the goroutine with what [gatherProfile] returned. *)
Definition tick (r : result (list Summary)) (p : profileMeasurement) : profileMeasurement :=
  match r with
  | Err _ => p
  | Ok l => mkProfile (name p) (config p) (summaries p ++ l) (isRunning p) (stopCh p)
  end.

(** [last]: the round under way when the channel is closed, or chosen once
    more against it; [wg.Wait] waits for it. Closing a closed channel panics. *)
Definition stop (last : option (result (list Summary))) (p : profileMeasurement) : option profileMeasurement :=
  if negb (isRunning p) then Some p
  else
    match stopCh p with
    | ChanOpen =>
        let p := match last with Some r => tick r p | None => p end in
        Some (mkProfile (name p) (config p) (summaries p) (isRunning p) ChanClosed)
    | ChanNil | ChanClosed => None
    end.

(** [None]: a panic. *)
Definition Execute (cluster : clusterInfo) (last : option (result (list Summary))) (dict : params) (p : profileMeasurement) (c : C)
  : option ((profileMeasurement * C) * list Summary * option error) :=
  let SSHToMasterSupported := prov_Features (ci_Provider cluster) SupportSSHToMaster in
  let APIServerPprofEnabled := ci_APIServerPprofByClientEnabled cluster in
  if negb SSHToMasterSupported && APIServerPprofEnabled then Some ((p, c), [], None)
  else
    match getString dict "action" with
    | (_, Some err) => Some ((p, c), [], Some err)
    | (action, None) =>
        if String.eqb action "start" then
          if isRunning p then Some ((p, c), [], None)
          else let '(s, _, err) := start cluster dict p c in Some (s, [], err)
        else if String.eqb action "gather" then
          p ← stop last p;
          Some ((p, c), summaries p, None)
        else Some ((p, c), [], Some (Errorf "unknown action %v" [AStr action]))
    end.

(** ** What is collected *)

Definition contributes (r : result (list Summary)) : list Summary := match r with Ok l => l | Err _ => [] end.

Lemma ticks_summaries rounds (p : profileMeasurement) :
  fold_left (fun (p : profileMeasurement) r => tick r p) rounds p =
  mkProfile (name p) (config p) (summaries p ++ concat (map contributes rounds)) (isRunning p) (stopCh p).
Proof using.
  revert p. induction rounds as [|[l|e] rounds IH]; intros [n cfg sm run ch]; cbn; [by rewrite app_nil_r| |]; rewrite IH; cbn; [|done].
  by rewrite app_assoc.
Qed.

Lemma start_running cluster dict p c p1 c1 err :
  start cluster dict p c = ((p1, c1), true, err) ->
  err = None /\ summaries p1 = [] /\ isRunning p1 = true /\ stopCh p1 = ChanOpen /\
  hosts (config p1) = ci_MasterIPs cluster /\ ci_MasterIPs cluster <> [].
Proof using.
  unfold start, populateProfileConfig. destruct (getString _ _) as [comp [e|]]; [done|].
  cbn [config set_config hosts name]. destruct (Nat.ltb_spec (length (ci_MasterIPs cluster)) 1) as [|Hl]; [done|].
  destruct (shouldExposeAPIServerDebugEndpoint _); [destruct (exposeAPIServerDebugEndpoint c) as [c2 ?]|]; intros [= <- <- <-]; split_and!; try done; intros Heq; rewrite Heq in Hl; cbn in Hl; lia.
Qed.

(** After a start that launches the goroutine: whatever rounds it makes, a
    gathering returns the profiles of all the rounds that succeeded since, the
    last one under way included, in their order. From then on a start does
    nothing and another gathering closes the closed channel. *)
Theorem profiles_collected cluster dict p c p1 c1 err rounds last dict' c2 :
  negb (prov_Features (ci_Provider cluster) SupportSSHToMaster) && ci_APIServerPprofByClientEnabled cluster = false ->
  start cluster dict p c = ((p1, c1), true, err) ->
  getString dict' "action" = ("gather", None) ->
  exists p2,
    Execute cluster last dict' (fold_left (fun (p : profileMeasurement) r => tick r p) rounds p1) c2 =
      Some ((p2, c2), concat (map contributes (rounds ++ option_list last)), None) /\
    (forall last' c3, Execute cluster last' dict' p2 c3 = None) /\
    (forall last' dict'' c3, getString dict'' "action" = ("start", None) ->
       Execute cluster last' dict'' p2 c3 = Some ((p2, c3), [], None)).
Proof.
  intros Hguard (-> & Hs & Hr & Hch & _)%start_running Ha.
  unfold Execute, stop. rewrite Hguard, Ha, ticks_summaries, Hs, Hr, Hch. cbn [negb isRunning stopCh String.eqb Ascii.eqb Bool.eqb].
  eexists. split; [|split].
  - cbn [mbind option_bind summaries]. do 3 f_equal. rewrite map_app, concat_app.
    destruct last as [[l|e]|]; cbn; rewrite ?app_nil_r; done.
  - intros last' c3. by destruct last as [[]|].
  - intros last' dict'' c3 ->. by destruct last as [[]|].
Qed.

(** Without SSH to the masters, clusters whose API server lets a client fetch
    the profiles are skipped, whatever the action. *)
Lemma client_pprof_skipped cluster last dict p c :
  prov_Features (ci_Provider cluster) SupportSSHToMaster = false -> ci_APIServerPprofByClientEnabled cluster = true ->
  Execute cluster last dict p c = Some ((p, c), [], None).
Proof using. intros Hssh Hpprof. unfold Execute. by rewrite Hssh, Hpprof. Qed.
End Expose.

(** A round over SSH succeeds exactly when the component is known and the
    command ran on every host; it has one summary per host, in their order, with
    what the command printed there. *)
Theorem ssh_profiles RunSSHCommand DoRaw clock cluster p l :
  gatherProfile RunSSHCommand DoRaw clock cluster true p = Ok l <->
  exists cmd, getProfileCommand cluster p = Ok cmd /\
    Forall2 (fun host s => exists stderr code out,
      RunSSHCommand (provider (config p)) cmd (host +:+ ":22") = (out, stderr, code, None) /\
      s = CreateSummary (clock host) (profilePrefix p host) "pprof" out) (hosts (config p)) l.
Proof.
  unfold gatherProfile. destruct (getProfileCommand cluster p) as [cmd|e]; [|split; [done|by intros (? & [=] & _)]].
  trans (exists m, Forall2 (fun host s => exists stderr code out,
      RunSSHCommand (provider (config p)) cmd (host +:+ ":22") = (out, stderr, code, None) /\
      s = CreateSummary (clock host) (profilePrefix p host) "pprof" out) (hosts (config p)) m /\ l = [] ++ m).
  2:{ split; [intros (m & Hm & ->)|intros (? & [= <-] & Hm)]; eauto. }
  generalize ([] : list Summary) as acc. induction (hosts (config p)) as [|host hs IH]; intros acc; cbn [hosts_loop].
  - split; [intros [= <-]; exists []; by rewrite app_nil_r|]. intros (m & ->%Forall2_nil_inv_l & ->). by rewrite app_nil_r.
  - cbn [negb]. unfold SSH. destruct (RunSSHCommand _ cmd (host +:+ ":22")) as [[[out stderr] code] [e|]] eqn:Hssh.
    + split; [done|]. by intros (m & (s & m' & (? & ? & ? & Heq & _) & _)%Forall2_cons_inv_l & _); rewrite Hssh in Heq.
    + cbn [Stdout]. rewrite IH. split.
      * intros (m & Hm & ->). eexists (_ :: m). rewrite <- app_assoc. split; [|done]. constructor; [|done]. by exists stderr, code, out.
      * intros (m & (s & m' & (? & ? & ? & Heq & ->) & Hm & ->)%Forall2_cons_inv_l & ->).
        rewrite Hssh in Heq. injection Heq as <- _ _. exists m'. by rewrite <- app_assoc.
Qed.
