(* ===== verification/Kubemark.v ===== *)
(** * The usage of the kubemark master (pkg/measurement/util/kubemark/kubemark.go)

    The process table of the master, fetched over SSH, is parsed line by line.
    [fmt.Sscanf] is a parameter: the values it has stored and its error. *)

From S2P Require Import Prelude GoErrors Params Float64 Provider ResourceUsage Profile.

(** [bufio.ScanLines]: the lines without their ends; no empty last line. *)
Fixpoint scan_lines (s : string) : list string :=
  match s with
  | EmptyString => []
  | String a s' =>
      if Ascii.eqb a (ascii_of_nat 10) then "" :: scan_lines s'
      else match scan_lines s' with
           | [] => [String a ""]
           | l :: ls => String a l :: ls
           end
  end.

(** One trailing carriage return is dropped from a line. *)
Fixpoint drop_cr (l : string) : string :=
  match l with
  | EmptyString => EmptyString
  | String a EmptyString => if Ascii.eqb a (ascii_of_nat 13) then "" else l
  | String a l' => String a (drop_cr l')
  end.

Definition scanned (s : string) : list string := map drop_cr (scan_lines s).

Section Kubemark.
(** [strings.TrimSpace]; what [Sscanf] stores for the three formats, zero
    values where it stops, and its error. *)
Context (TrimSpace : string -> string)
  (Sscanf_kube : string -> float64 * Z * string * option error)
  (Sscanf_etcd : string -> float64 * Z * option error)
  (Sscanf_dir : string -> string * option error).

Section Fetch.
Context (RunSSHCommand : option Provider -> string -> string -> string * string * Z * option error).

Definition getMasterUsageByPrefix (host : string) (provider : option Provider) (prefix : string) : result string :=
  match SSH RunSSHCommand ("ps ax -o %cpu,rss,command | tail -n +2 | grep " +:+ prefix +:+ " | sed 's/\s+/ /g'") (host +:+ ":22") provider with
  | (_, Some err) => Err err
  | (sshResult, None) => Ok (Stdout sshResult)
  end.

Definition usage_of (fullName : string) (mem : Z) (cpu : float64) : MasterUsage :=
  mkMasterUsage fullName ((mem * 1024) mod 2 ^ 64) (f64_div cpu (f64_of_Z 100)).

(** A line of the first table; the error of [Sscanf] is only logged. *)
Definition kube_line (result : gmap string MasterUsage) (line : string) : gmap string MasterUsage :=
  let '(cpu, mem, name, _) := Sscanf_kube (TrimSpace line) in
  if negb (String.eqb name "") then
    let fullName := name +:+ "/" +:+ name in <[fullName := usage_of fullName mem cpu]> result
  else result.

(** A line of the second one. *)
Definition etcd_line (result : gmap string MasterUsage) (line : string) : gmap string MasterUsage :=
  let '(cpu, mem, _) := Sscanf_etcd (TrimSpace line) in
  match String.index 0 "--data-dir" line with
  | None => result
  | Some dataDirStart =>
      let '(etcdKind, _) := Sscanf_dir (String.substring dataDirStart (String.length line - dataDirStart) line) in
      if negb (String.eqb etcdKind "") then
        let fullName := "etcd/" +:+ etcdKind in <[fullName := usage_of fullName mem cpu]> result
      else result
  end.

(** [None]: the nil map. *)
Definition GetKubemarkMasterComponentsResourceUsage (host : string) (provider : option Provider) : option (gmap string MasterUsage) :=
  match getMasterUsageByPrefix host provider "kube" with
  | Err _ => None
  | Ok sshResult =>
      let result := fold_left kube_line (scanned sshResult) ∅ in
      match getMasterUsageByPrefix host provider "bin/etcd" with
      | Err _ => None
      | Ok sshResult => Some (fold_left etcd_line (scanned sshResult) result)
      end
  end.
End Fetch.

(** ** What is recorded *)

(** The last line of the table that names a component. *)
Definition kube_usage (name : string) (line : string) : option MasterUsage :=
  let '(cpu, mem, n, _) := Sscanf_kube (TrimSpace line) in
  if decide (n = name) then Some (usage_of (name +:+ "/" +:+ name) mem cpu) else None.

Lemma kube_lines_lookup lines name :
  name <> "" -> (forall line cpu mem n err, Sscanf_kube line = (cpu, mem, n, err) -> n +:+ "/" +:+ n = name +:+ "/" +:+ name -> n = name) ->
  fold_left kube_line lines ∅ !! (name +:+ "/" +:+ name) = last (omap (kube_usage name) lines).
Proof using.
  intros Hne Hinj. induction lines as [|line lines IH] using rev_ind; [apply lookup_empty|].
  rewrite fold_left_app, omap_app. cbn [fold_left omap list_omap]. unfold kube_line at 1, kube_usage at 2.
  destruct (Sscanf_kube (TrimSpace line)) as [[[cpu mem] n] err] eqn:Hs.
  destruct (decide (n = name)) as [->|Hn].
  - destruct (String.eqb_spec name ""); [done|]. cbn [negb]. by rewrite lookup_insert_eq, last_snoc.
  - rewrite app_nil_r. destruct (String.eqb_spec n ""); cbn [negb]; [done|].
    rewrite lookup_insert_ne; [done|]. intros Heq. apply Hn. by eapply Hinj.
Qed.

(** An etcd process whose numbers do not parse is recorded all the same, with
    what [Sscanf] had stored before it stopped. *)
Lemma etcd_usage_despite_error result line cpu mem err start kind err' :
  Sscanf_etcd (TrimSpace line) = (cpu, mem, Some err) -> String.index 0 "--data-dir" line = Some start ->
  Sscanf_dir (String.substring start (String.length line - start) line) = (kind, err') -> kind <> "" ->
  etcd_line result line !! ("etcd/" +:+ kind) = Some (usage_of ("etcd/" +:+ kind) mem cpu).
Proof using.
  intros He Hi Hd Hk. unfold etcd_line. rewrite He, Hi, Hd. destruct (String.eqb_spec kind ""); [done|]. apply lookup_insert_eq.
Qed.
End Kubemark.

(** Scanning the lines of a text gives them back, whatever ends they have. *)
Fixpoint no_newline (s : string) : bool :=
  match s with EmptyString => true | String a s' => negb (Ascii.eqb a (ascii_of_nat 10)) && no_newline s' end.

Fixpoint unlines (l : list string) : string :=
  match l with [] => "" | x :: l' => x +:+ String (ascii_of_nat 10) (unlines l') end.

Lemma scan_lines_line x s : no_newline x = true -> scan_lines (x +:+ String (ascii_of_nat 10) s) = x :: scan_lines s.
Proof.
  induction x as [|a x IH]; [done|]. cbn [no_newline]. intros [Ha Hx]%andb_true_iff. apply negb_true_iff in Ha.
  rewrite string_app_cons. cbn [scan_lines]. by rewrite Ha, IH.
Qed.

Theorem scan_unlines l : Forall (fun x => no_newline x = true) l -> scan_lines (unlines l) = l.
Proof.
  induction 1 as [|x l Hx Hl IH]; [done|]. cbn [unlines]. by rewrite scan_lines_line, IH.
Qed.
