(* ===== verification/Bundle.v ===== *)
(** * The bundle of test metrics (pkg/measurement/common/bundle/test_metrics.go)

    One measurement that creates eighteen others and forwards its actions to
    them, each with its own parameters. The measurements are instances of the
    interface of Measurement. *)

From S2P Require Import Prelude GoErrors GoRuntime Params Measurement.

Definition testMetricsMeasurementName : string := "TestMetrics".

(** A measurement that could not be created is nil. *)
Record testMetrics (M : Type) := mkTestMetrics {
  t_etcdMetrics : option M;
  t_schedulingMetrics : option M;
  t_metricsForE2E : option M;
  t_resourceUsageSummary : option M;
  t_etcdCPUProfile : option M;
  t_etcdMemoryProfile : option M;
  t_etcdBlockProfile : option M;
  t_apiserverCPUProfile : option M;
  t_apiserverMemoryProfile : option M;
  t_apiserverBlockProfile : option M;
  t_schedulerCPUProfile : option M;
  t_schedulerMemoryProfile : option M;
  t_schedulerBlockProfile : option M;
  t_controllerManagerCPUProfile : option M;
  t_controllerManagerMemoryProfile : option M;
  t_controllerManagerBlockProfile : option M;
  t_systemPodMetrics : option M;
  t_clusterOOMsTracker : option M;
}.
Arguments mkTestMetrics {_}.
Arguments t_etcdMetrics {_} _.
Arguments t_schedulingMetrics {_} _.
Arguments t_metricsForE2E {_} _.
Arguments t_resourceUsageSummary {_} _.
Arguments t_etcdCPUProfile {_} _.
Arguments t_etcdMemoryProfile {_} _.
Arguments t_etcdBlockProfile {_} _.
Arguments t_apiserverCPUProfile {_} _.
Arguments t_apiserverMemoryProfile {_} _.
Arguments t_apiserverBlockProfile {_} _.
Arguments t_schedulerCPUProfile {_} _.
Arguments t_schedulerMemoryProfile {_} _.
Arguments t_schedulerBlockProfile {_} _.
Arguments t_controllerManagerCPUProfile {_} _.
Arguments t_controllerManagerMemoryProfile {_} _.
Arguments t_controllerManagerBlockProfile {_} _.
Arguments t_systemPodMetrics {_} _.
Arguments t_clusterOOMsTracker {_} _.

Section Bundle.
Context {W M F : Type} `{MeasurementLib W M F} `{GoLib} (String_ : M -> string).

(** ** Creation *)

(** The method of each field, in the order of their creation. *)
Definition methods : list string :=
  ["EtcdMetrics"; "SchedulingMetrics"; "MetricsForE2E"; "ResourceUsageSummary"; "CPUProfile";
   "MemoryProfile"; "BlockProfile"; "CPUProfile"; "MemoryProfile"; "BlockProfile";
   "CPUProfile"; "MemoryProfile"; "BlockProfile"; "CPUProfile"; "MemoryProfile";
   "BlockProfile"; "SystemPodMetrics"; "ClusterOOMsTracker"].

Definition create_one (mc : measurementFactory F) (method : string) (w : W) : W * option M :=
  match createMeasurement mc method w with
  | (w, Err _) => (w, None)
  | (w, Ok m) => (w, Some m)
  end.

Definition createTestMetricsMeasurement (mc : measurementFactory F) (w : W) : W * testMetrics M :=
  let '(w, etcdMetrics) := create_one mc "EtcdMetrics" w in
  let '(w, schedulingMetrics) := create_one mc "SchedulingMetrics" w in
  let '(w, metricsForE2E) := create_one mc "MetricsForE2E" w in
  let '(w, resourceUsageSummary) := create_one mc "ResourceUsageSummary" w in
  let '(w, etcdCPUProfile) := create_one mc "CPUProfile" w in
  let '(w, etcdMemoryProfile) := create_one mc "MemoryProfile" w in
  let '(w, etcdBlockProfile) := create_one mc "BlockProfile" w in
  let '(w, apiserverCPUProfile) := create_one mc "CPUProfile" w in
  let '(w, apiserverMemoryProfile) := create_one mc "MemoryProfile" w in
  let '(w, apiserverBlockProfile) := create_one mc "BlockProfile" w in
  let '(w, schedulerCPUProfile) := create_one mc "CPUProfile" w in
  let '(w, schedulerMemoryProfile) := create_one mc "MemoryProfile" w in
  let '(w, schedulerBlockProfile) := create_one mc "BlockProfile" w in
  let '(w, controllerManagerCPUProfile) := create_one mc "CPUProfile" w in
  let '(w, controllerManagerMemoryProfile) := create_one mc "MemoryProfile" w in
  let '(w, controllerManagerBlockProfile) := create_one mc "BlockProfile" w in
  let '(w, systemPodMetrics) := create_one mc "SystemPodMetrics" w in
  let '(w, clusterOOMsTracker) := create_one mc "ClusterOOMsTracker" w in
  (w, mkTestMetrics etcdMetrics schedulingMetrics metricsForE2E resourceUsageSummary etcdCPUProfile etcdMemoryProfile etcdBlockProfile apiserverCPUProfile apiserverMemoryProfile
        apiserverBlockProfile schedulerCPUProfile schedulerMemoryProfile schedulerBlockProfile controllerManagerCPUProfile controllerManagerMemoryProfile controllerManagerBlockProfile systemPodMetrics clusterOOMsTracker).

(** ** Execution *)

(** The copy has neither the identifier nor the version of the cluster. *)
Definition createConfig (config : MeasurementConfig) (overrides : params) : MeasurementConfig :=
  mkMeasurementConfig (overrides ∪ cfg_Params config) "" "".

Definition action_config (config : MeasurementConfig) (action : string) : MeasurementConfig :=
  createConfig config {[ "action" := VString action ]}.
Definition component_config (config : MeasurementConfig) (action component : string) : MeasurementConfig :=
  createConfig config {[ "action" := VString action; "componentName" := VString component ]}.

Definition execute (m : option M) (config : MeasurementConfig) (w : W) : W * list Summary * option error :=
  match m with
  | None => (w, [], Some (Errorf "uninitialized metric" []))
  | Some m => instance_Execute m config w
  end.

Definition executeError (measurement action : string) (err : option error) : option error :=
  match err with
  | Some err => Some (Errorf "action %s failed for %s measurement: %v" [AStr action; AStr measurement; AErr err])
  | None => None
  end.

Definition appendResults (summaries : list Summary) (errList : ErrorList) (summaryResults : list Summary) (errResult : option error)
  : list Summary * ErrorList :=
  (summaries ++ summaryResults, match errResult with Some err => Append errList [err] | None => errList end).

(** The measurements a start and a gathering reach, with their configs. *)
Definition start_calls (t : testMetrics M) (config : MeasurementConfig) : list (option M * MeasurementConfig) :=
  [(t_etcdMetrics t, action_config config "start");
   (t_schedulingMetrics t, action_config config "reset");
   (t_resourceUsageSummary t, action_config config "start");
   (t_etcdCPUProfile t, component_config config "start" "etcd");
   (t_etcdMemoryProfile t, component_config config "start" "etcd");
   (t_etcdBlockProfile t, component_config config "start" "etcd");
   (t_apiserverCPUProfile t, component_config config "start" "kube-apiserver");
   (t_apiserverMemoryProfile t, component_config config "start" "kube-apiserver");
   (t_apiserverBlockProfile t, component_config config "start" "kube-apiserver");
   (t_schedulerCPUProfile t, component_config config "start" "kube-scheduler");
   (t_schedulerMemoryProfile t, component_config config "start" "kube-scheduler");
   (t_schedulerBlockProfile t, component_config config "start" "kube-scheduler");
   (t_controllerManagerCPUProfile t, component_config config "start" "kube-controller-manager");
   (t_controllerManagerMemoryProfile t, component_config config "start" "kube-controller-manager");
   (t_controllerManagerBlockProfile t, component_config config "start" "kube-controller-manager");
   (t_systemPodMetrics t, config);
   (t_clusterOOMsTracker t, config)].

Definition gather_calls (t : testMetrics M) (config : MeasurementConfig) : list (option M * MeasurementConfig) :=
  [(t_etcdMetrics t, action_config config "gather");
   (t_schedulingMetrics t, action_config config "gather");
   (t_metricsForE2E t, config);
   (t_resourceUsageSummary t, action_config config "gather");
   (t_etcdCPUProfile t, component_config config "gather" "etcd");
   (t_etcdMemoryProfile t, component_config config "gather" "etcd");
   (t_etcdBlockProfile t, component_config config "gather" "etcd");
   (t_apiserverCPUProfile t, component_config config "gather" "kube-apiserver");
   (t_apiserverMemoryProfile t, component_config config "gather" "kube-apiserver");
   (t_apiserverBlockProfile t, component_config config "gather" "kube-apiserver");
   (t_schedulerCPUProfile t, component_config config "gather" "kube-scheduler");
   (t_schedulerMemoryProfile t, component_config config "gather" "kube-scheduler");
   (t_schedulerBlockProfile t, component_config config "gather" "kube-scheduler");
   (t_controllerManagerCPUProfile t, component_config config "gather" "kube-controller-manager");
   (t_controllerManagerMemoryProfile t, component_config config "gather" "kube-controller-manager");
   (t_controllerManagerBlockProfile t, component_config config "gather" "kube-controller-manager");
   (t_systemPodMetrics t, config);
   (t_clusterOOMsTracker t, config)].

(** One pair of lines of [Execute]; [None]: [String] of a nil interface. *)
Definition forward (action : string) (call : option M * MeasurementConfig) (s : W * (list Summary * ErrorList))
  : option (W * (list Summary * ErrorList)) :=
  let '(w, (summaries, errList)) := s in
  let '(w, summary, err) := execute call.1 call.2 w in
  m ← call.1;
  Some (w, appendResults summaries errList summary (executeError (String_ m) action err)).

Fixpoint forward_all (action : string) (calls : list (option M * MeasurementConfig)) (s : W * (list Summary * ErrorList))
  : option (W * (list Summary * ErrorList)) :=
  match calls with
  | [] => Some s
  | call :: calls' => s ← forward action call s; forward_all action calls' s
  end.

(** [None]: a panic. *)
Definition Execute (t : testMetrics M) (config : MeasurementConfig) (w : W) : option (W * list Summary * option error) :=
  match getString (cfg_Params config) "action" with
  | (_, Some err) => Some (w, [], Some err)
  | (action, None) =>
      if String.eqb action "start" || String.eqb action "gather" then
        '(w, (summaries, errList)) ← forward_all action
           (if String.eqb action "start" then start_calls t config else gather_calls t config) (w, ([], NewErrorList []));
        Some (w, summaries, if negb (IsEmpty errList) then Some (ListError (errors errList)) else None)
      else Some (w, [], Some (Errorf "unknown action %v" [AStr action]))
  end.

(** The measurements disposed of, in order. *)
Definition disposed (t : testMetrics M) : list (option M) :=
  [t_etcdMetrics t; t_schedulingMetrics t; t_metricsForE2E t; t_resourceUsageSummary t;
   t_etcdCPUProfile t; t_etcdMemoryProfile t; t_etcdBlockProfile t; t_apiserverCPUProfile t;
   t_apiserverMemoryProfile t; t_apiserverBlockProfile t; t_schedulerCPUProfile t; t_schedulerMemoryProfile t;
   t_schedulerBlockProfile t; t_controllerManagerCPUProfile t; t_controllerManagerMemoryProfile t; t_controllerManagerBlockProfile t].

Definition Dispose (t : testMetrics M) (w : W) : option W :=
  fold_left (fun w m => w ← w; m ← m; Some (instance_Dispose m w)) (disposed t) (Some w).

(** ** What an action does *)

(** All fields, in the order of the struct. *)
Definition fields (t : testMetrics M) : list (option M) :=
  disposed t ++ [t_systemPodMetrics t; t_clusterOOMsTracker t].

(** The measurements executed one after the other: what each returned. *)
Fixpoint run_all (calls : list (M * MeasurementConfig)) (w : W) : W * list (M * (list Summary * option error)) :=
  match calls with
  | [] => (w, [])
  | (m, config) :: calls' =>
      let '(w, summary, err) := instance_Execute m config w in
      let '(w, l) := run_all calls' w in
      (w, (m, (summary, err)) :: l)
  end.

(** The errors of a run, in order. *)
Definition run_errors (action : string) (l : list (M * (list Summary * option error))) : list error :=
  omap (fun r => executeError (String_ r.1) action r.2.2) l.

Lemma forward_all_run action calls w summaries errList :
  forward_all action (map (fun c : M * MeasurementConfig => (Some c.1, c.2)) calls) (w, (summaries, errList)) =
  let '(w', l) := run_all calls w in
  Some (w', (summaries ++ concat (map (fun r : M * (list Summary * option error) => r.2.1) l),
             Append errList (run_errors action l))).
Proof using.
  revert w summaries errList. induction calls as [|[m config] calls IH]; intros w summaries [errs]; cbn [map forward_all run_all fst snd].
  { unfold Append. cbn. by rewrite !app_nil_r. }
  unfold forward. cbn [execute fst snd]. destruct (instance_Execute m config w) as [[w1 sm] err]. cbn [mbind option_bind].
  unfold appendResults. rewrite IH. destruct (run_all calls w1) as [w2 l]. cbn [map concat fst snd].
  rewrite app_assoc. unfold run_errors. cbn [omap list_omap fst snd]. destruct (executeError (String_ m) action err); [|done].
  unfold Append. cbn [errors]. by rewrite <- !app_assoc.
Qed.

Lemma forward_all_nil action calls s : (exists config, (None, config) ∈ calls) -> forward_all action calls s = None.
Proof using.
  intros [config Hin]. revert s. induction calls as [|[m cfg] calls IH]; intros [w [sm errs]]; [by apply elem_of_nil in Hin|].
  cbn [forward_all]. unfold forward. destruct (execute _ _ w) as [[w1 sm1] err]. cbn [fst].
  destruct m as [m|]; [|done]. cbn [mbind option_bind]. apply IH. by apply elem_of_cons in Hin as [[=]|].
Qed.

(** What a call keeps of the bundle's parameters. *)
Lemma createConfig_params config overrides k :
  cfg_Params (createConfig config overrides) !! k = match overrides !! k with Some v => Some v | None => cfg_Params config !! k end.
Proof using. cbn. rewrite lookup_union. destruct (overrides !! k), (cfg_Params config !! k); done. Qed.

Definition same_params (config config' : MeasurementConfig) : Prop :=
  forall k, k <> "action" -> k <> "componentName" -> cfg_Params config' !! k = cfg_Params config !! k.

Lemma action_config_same config action : same_params config (action_config config action).
Proof using. intros k Ha _. unfold action_config. by rewrite createConfig_params, lookup_singleton_ne. Qed.

Lemma component_config_same config action c : same_params config (component_config config action c).
Proof using. intros k Ha Hc. unfold component_config. by rewrite createConfig_params, lookup_insert_ne, lookup_singleton_ne. Qed.

Lemma calls_params t config :
  Forall (fun c => same_params config c.2) (start_calls t config) /\ Forall (fun c => same_params config c.2) (gather_calls t config).
Proof using.
  pose proof (action_config_same config) as Ha. pose proof (component_config_same config) as Hc.
  assert (same_params config config) as Hs by (intros k _ _; done).
  unfold start_calls, gather_calls. generalize dependent (action_config config). intros a Ha.
  generalize dependent (component_config config). intros b Hb.
  split; repeat (apply Forall_cons; split; [cbn [snd]; auto|]); apply Forall_nil_2.
Qed.

Lemma all_some (l : list (option M)) : Forall is_Some l -> exists l', l = Some <$> l'.
Proof using.
  induction 1 as [|o l [m ->] _ [l' ->]]; [by exists []|]. by exists (m :: l').
Qed.

(** The calls of an action, when every measurement was created. *)
Definition calls_of (t : testMetrics M) (config : MeasurementConfig) (action : string) : list (option M * MeasurementConfig) :=
  if String.eqb action "start" then start_calls t config else gather_calls t config.

Lemma calls_some (calls : list (option M * MeasurementConfig)) :
  Forall is_Some calls.*1 -> exists calls', calls = map (fun c : M * MeasurementConfig => (Some c.1, c.2)) calls'.
Proof using.
  induction calls as [|[o config] calls IH]; cbn; [by exists []|]. intros [[m ->] [calls' ->]%IH]%Forall_cons.
  by exists ((m, config) :: calls').
Qed.

Lemma run_errors_nil action l : run_errors action l = [] <-> Forall (fun r : M * (list Summary * option error) => r.2.2 = None) l.
Proof using.
  unfold run_errors. induction l as [|[m [sm err]] l IH]; cbn; [split; [constructor|done]|]. rewrite Forall_cons, <- IH. cbn [snd].
  destruct err; cbn; [split; [done|by intros [? _]]|]. split; [done|by intros [_ ?]].
Qed.

(** An action of the bundle, when all eighteen measurements exist, executes
    each measurement it concerns exactly once, one after the other and whatever
    the earlier ones returned; each gets the bundle's parameters, but for the
    action and the component. The summaries are those of all of them in this
    order, and an error is reported exactly when one of them failed. *)
Theorem bundle_forwards t config action w :
  Forall is_Some (fields t) -> getString (cfg_Params config) "action" = (action, None) ->
  (action = "start" \/ action = "gather") ->
  exists calls, calls_of t config action = map (fun c : M * MeasurementConfig => (Some c.1, c.2)) calls /\
    Forall (fun c => same_params config c.2) calls /\
    let '(w', l) := run_all calls w in
    map fst l = map fst calls /\
    Execute t config w = Some (w', concat (map (fun r : M * (list Summary * option error) => r.2.1) l),
      if decide (Forall (fun r : M * (list Summary * option error) => r.2.2 = None) l) then None
      else Some (ListError (run_errors action l))).
Proof.
  intros Hall Ha Hact.
  assert (Forall is_Some (calls_of t config action).*1) as (calls & Hc)%calls_some.
  { unfold fields, disposed in Hall. cbn [app] in Hall. rewrite !Forall_cons in Hall. decompose_Forall_hyps.
    unfold calls_of. destruct (String.eqb action "start"); cbn [start_calls gather_calls fmap list_fmap fst];
      repeat (apply Forall_cons; split; [tauto|]); apply Forall_nil_2. }
  exists calls. split; [done|]. split.
  { destruct (calls_params t config) as [Hs Hg]. assert (Forall (fun c => same_params config c.2) (calls_of t config action)) as Hp
      by (unfold calls_of; by destruct (String.eqb action "start")).
    rewrite Hc, Forall_map in Hp. exact Hp. }
  assert (map fst (run_all calls w).2 = map fst calls) as Hfst.
  { clear. revert w. induction calls as [|[m cfg] calls IH]; intros w; [done|]. cbn.
    destruct (instance_Execute m cfg w) as [[w1 sm] err]. specialize (IH w1). destruct (run_all calls w1) as [w2 l]. cbn in *. by rewrite IH. }
  pose proof (forward_all_run action calls w [] (NewErrorList [])) as Hf. rewrite <- Hc in Hf.
  destruct (run_all calls w) as [w' l]. split; [done|]. unfold Execute. rewrite Ha.
  assert (String.eqb action "start" || String.eqb action "gather" = true) as -> by (destruct Hact as [-> | ->]; done).
  unfold calls_of in Hf. rewrite Hf. cbn [mbind option_bind app]. do 2 f_equal.
  unfold IsEmpty, Append. cbn [errors NewErrorList app]. pose proof (run_errors_nil action l) as Hn.
  case_decide as Hd; destruct (run_errors action l); try done; [by apply Hn in Hd|by destruct Hd; apply Hn].
Qed.

(** One that could not be created ends every action in a panic. *)
Theorem bundle_nil_panics t config action w :
  t_etcdMetrics t = None \/ t_clusterOOMsTracker t = None -> getString (cfg_Params config) "action" = (action, None) ->
  (action = "start" \/ action = "gather") -> Execute t config w = None.
Proof.
  intros Hn Ha Hact. unfold Execute. rewrite Ha.
  destruct Hact as [-> | ->]; cbn [String.eqb Ascii.eqb Bool.eqb orb]; (rewrite forward_all_nil; [done|]);
    destruct Hn as [Hn|Hn]; eexists; unfold start_calls, gather_calls; rewrite Hn, !elem_of_cons; tauto.
Qed.
End Bundle.
