(* ===== verification/AddonMeasurements.v ===== *)
(** * Measurements of add-ons and commands
      (pkg/measurement/common/{exec,kube_state_metrics_measurement,neg_latency_measurement}.go
       and dns/dns_performance-k8s-hostnames.go)

    The requests to the cluster, the commands and the waiting are operations on
    a world. *)

From S2P Require Import Prelude GoErrors GoRuntime Params Measurement Float64 Latency Provider Prometheus ApiResponsiveness Gatherers Services SchedulerMetrics.
From Stdlib Require Import SpecFloat.

(** ** A command of the host (exec.go) *)
Module Exec.
Section Exec.
(** [run_command]: one attempt with its timeout; [Sleep]: the wait after a
    failed one; [ExpandEnv] of os. *)
Context {W : Type} `{GoLib} (ExpandEnv : string -> string)
  (run_command : Z -> list string -> W -> W * option error) (Sleep : Z -> W -> W) (SprintStrings : list string -> string).

Definition execName : string := "Exec".
Definition defaultTimeout : Z := Duration.Hour.
Definition defaultBackoffDelay : Z := Duration.Second.

(** The loop, [n] attempts before its end. *)
Fixpoint attempts (n : nat) (timeout backoffDelay : Z) (command : list string) (lastErr : option error) (w : W)
  : W * (bool * option error) :=
  match n with
  | O => (w, (false, lastErr))
  | S n =>
      match run_command timeout command w with
      | (w, None) => (w, (true, None))
      | (w, Some err) => attempts n timeout backoffDelay command (Some err) (Sleep backoffDelay w)
      end
  end.

Definition Execute (config : MeasurementConfig) (w : W) : W * option error :=
  match GetDurationOrDefault (cfg_Params config) "timeout" defaultTimeout with
  | (_, Some err) => (w, Some err)
  | (timeout, None) =>
      match getStringArray (cfg_Params config) "command" with
      | (_, Some err) => (w, Some (Errorf "error parsing command: %v" [AErr err]))
      | ([], None) => (w, Some (Errorf "command is a required argument. Got empty slice instead" []))
      | (command, None) =>
          let '(retries, err) := GetIntOrDefault (cfg_Params config) "retries" 1 in
          if (match err with Some _ => true | None => false end) || (retries <? 1)
          then (w, Some (Errorf "error getting retries, retries: %v, err: %v"
                           [AInt retries; match err with Some e => AErr e | None => AStr "<nil>" end]))
          else
            match GetDurationOrDefault (cfg_Params config) "backoffDelay" defaultBackoffDelay with
            | (_, Some err) => (w, Some err)
            | (backoffDelay, None) =>
                let command := map ExpandEnv command in
                match attempts (Z.to_nat retries) timeout backoffDelay command None w with
                | (w, (true, _)) => (w, None)
                | (w, (false, lastErr)) =>
                    (w, Some (Errorf "command %v failed: %v"
                       [AStr (SprintStrings command); match lastErr with Some e => AErr e | None => AStr "<nil>" end]))
                end
            end
      end
  end.

(** The state after [k] failed attempts, each followed by the wait. *)
Fixpoint failed_attempts (k : nat) (timeout backoffDelay : Z) (command : list string) (w w' : W) : Prop :=
  match k with
  | O => w' = w
  | S k => exists w1 err, run_command timeout command w = (w1, Some err) /\
             failed_attempts k timeout backoffDelay command (Sleep backoffDelay w1) w'
  end.

Lemma attempts_spec n timeout backoffDelay command lastErr w w' ok err :
  attempts n timeout backoffDelay command lastErr w = (w', (ok, err)) ->
  if ok then exists k w1, (k < n)%nat /\ failed_attempts k timeout backoffDelay command w w1 /\
               run_command timeout command w1 = (w', None)
  else failed_attempts n timeout backoffDelay command w w'.
Proof using.
  revert lastErr w. induction n as [|n IH]; intros lastErr w; cbn [attempts]; [by intros [= <- <- <-]|].
  destruct (run_command timeout command w) as [w1 [e|]] eqn:Hr.
  - intros Ha%IH. destruct ok.
    + destruct Ha as (k & w2 & Hk & Hf & Hs). exists (S k), w2. split; [lia|]. split; [|done]. cbn. eauto.
    + cbn. eauto.
  - intros [= <- <- <-]. exists 0%nat, w. split; [lia|]. by split.
Qed.

(** The command, with the environment's variables in place, is run until it
    succeeds: success means that one of at most [retries] attempts did, all
    before it having failed and been waited for; an error after the checks means
    that exactly [retries] attempts failed. *)
Theorem exec_retries config w w' err timeout command retries backoffDelay :
  GetDurationOrDefault (cfg_Params config) "timeout" defaultTimeout = (timeout, None) ->
  getStringArray (cfg_Params config) "command" = (command, None) -> command <> [] ->
  GetIntOrDefault (cfg_Params config) "retries" 1 = (retries, None) -> 1 <= retries ->
  GetDurationOrDefault (cfg_Params config) "backoffDelay" defaultBackoffDelay = (backoffDelay, None) ->
  Execute config w = (w', err) ->
  match err with
  | None => exists k w1, Z.of_nat k < retries /\ failed_attempts k timeout backoffDelay (map ExpandEnv command) w w1 /\
              run_command timeout (map ExpandEnv command) w1 = (w', None)
  | Some _ => failed_attempts (Z.to_nat retries) timeout backoffDelay (map ExpandEnv command) w w'
  end.
Proof.
  intros Ht Hc Hne Hr Hpos Hb. unfold Execute. rewrite Ht, Hc. destruct command as [|x command]; [done|].
  rewrite Hr. cbn [orb]. destruct (Z.ltb_spec retries 1); [lia|]. rewrite Hb.
  destruct (attempts _ _ _ _ _ _) as [w1 [ok e]] eqn:Ha. apply attempts_spec in Ha. destruct ok.
  - intros [= <- <-]. destruct Ha as (k & w2 & Hk & Hf & Hs). exists k, w2. split; [lia|]. by split.
  - by intros [= <- <-].
Qed.
End Exec.
End Exec.

(** ** Latency of kube-state-metrics *)
Module KubeStateMetrics.
Import SchedulerLatency.

Definition ksmLatencyName : string := "KubeStateMetricsLatency".
Definition ksmRequestDurationMetricName : string := "http_request_duration_seconds_bucket".
Definition probeIntervalDefault : Z := 30 * Duration.Second.
Definition ksmNamespace : string := "kube-state-metrics-perf-test".
Definition ksmServiceName : string := "kube-state-metrics".
Definition ksmSelfPort : Z := 8081.
Definition ksmMetricsPort : Z := 8080.

(** [cancelled]: the state of the context. *)
Record ksmLatencyMeasurement := mkKsm {
  cancelled : bool;
  isRunning : bool;
  namespace : string;
  serviceName : string;
  metricsPort : Z;
  selfPort : Z;
  initialLatency : option Histogram;
}.

Definition CreateKSMLatencyMeasurement : ksmLatencyMeasurement :=
  mkKsm false false ksmNamespace ksmServiceName ksmMetricsPort ksmSelfPort None.

Section Measurement.
(** [service_proxy]: the proxied request (namespace, name) within two minutes;
    with a cancelled context it fails. [decode]: the text decoder. *)
Context {W : Type} `{GoLib} `{MapRange} (hist_Quantile : list bucket -> option Z -> float64 -> float64)
  (service_proxy : string -> string -> W -> W * result string) (decode : string -> list decoded)
  (PrettyPrintJSON : LatencyMetric -> result string).

Definition getMetricsFromService (m : ksmLatencyMeasurement) (port : Z) (w : W) : W * result string :=
  if cancelled m then (w, Err (External "context canceled"))
  else service_proxy (namespace m) (Sprintf "%v:%v" [FStr (serviceName m); FInt port]) w.

Definition add_ksm_sample (ksmHist : Histogram) (sample : Sample) : Histogram :=
  if String.eqb (metric_name sample) ksmRequestDurationMetricName then ConvertSampleToHistogram sample ksmHist else ksmHist.

Definition retrieveKSMLatencyMetrics (m : ksmLatencyMeasurement) (w : W) : W * (Histogram * option error) :=
  let ksmHist := NewHistogram ∅ in
  match getMetricsFromService m (selfPort m) w with
  | (w, Err err) => (w, (ksmHist, Some err))
  | (w, Ok output) =>
      match ExtractMetricSamples (decode output) [] with
      | Err err => (w, (ksmHist, Some err))
      | Ok samples => (w, (fold_left add_ksm_sample samples ksmHist, None))
      end
  end.

(** A round of the goroutine; what it gets is only logged. *)
Definition query_round (m : ksmLatencyMeasurement) (w : W) : W := (getMetricsFromService m (metricsPort m) w).1.

Definition cancel (m : ksmLatencyMeasurement) : ksmLatencyMeasurement :=
  mkKsm true (isRunning m) (namespace m) (serviceName m) (metricsPort m) (selfPort m) (initialLatency m).

Definition stop (m : ksmLatencyMeasurement) : ksmLatencyMeasurement * option error :=
  if negb (isRunning m) then (m, Some (Errorf "%s: measurement was not running" [AStr ksmLatencyName]))
  else (cancel m, None).

(** [None]: subtracting a nil histogram, which a running measurement never has. *)
Definition createKSMLatencySummary (now : Z) (m : ksmLatencyMeasurement) (w : W)
  : option (ksmLatencyMeasurement * W * list Summary * option error) :=
  match retrieveKSMLatencyMetrics m w with
  | (w, (_, Some err)) => Some (m, w, [], Some err)
  | (w, (latestLatency, None)) =>
      match stop m with
      | (m, Some err) => Some (m, w, [], Some err)
      | (m, None) =>
          initial ← initialLatency m;
          let finalLatency := HistogramSub latestLatency initial in
          Some (match SetQuantileFromHistogram hist_Quantile zero_metric finalLatency with
                | (_, Some err) => (m, w, [], Some err)
                | (result, None) =>
                    match PrettyPrintJSON result with
                    | Err err => (m, w, [], Some err)
                    | Ok content => (m, w, [CreateSummary now ksmLatencyName "json" content], None)
                    end
                end)
      end
  end.

Definition startQuerying (m : ksmLatencyMeasurement) : ksmLatencyMeasurement :=
  mkKsm (cancelled m) true (namespace m) (serviceName m) (metricsPort m) (selfPort m) (initialLatency m).

Definition Execute (provider : Provider) (now : Z) (config : MeasurementConfig) (m : ksmLatencyMeasurement) (w : W)
  : option (ksmLatencyMeasurement * W * list Summary * option error) :=
  if negb (prov_Features provider SupportKubeStateMetrics) then Some (m, w, [], None)
  else
    match getString (cfg_Params config) "action" with
    | (_, Some err) => Some (m, w, [], Some err)
    | (action, None) =>
        if String.eqb action "start" then
          if isRunning m then Some (m, w, [], None)
          else
            let m := startQuerying m in
            let '(w, (hist, err)) := retrieveKSMLatencyMetrics m w in
            Some (mkKsm (cancelled m) (isRunning m) (namespace m) (serviceName m) (metricsPort m) (selfPort m) (Some hist), w, [], err)
        else if String.eqb action "gather" then
          '(m, w, summaries, err) ← createKSMLatencySummary now m w;
          Some (cancel m, w, summaries, err)
        else Some (m, w, [], Some (Errorf "unknown action %v" [AStr action]))
    end.

Definition Dispose (m : ksmLatencyMeasurement) : ksmLatencyMeasurement := (stop m).1.

(** *** What is measured *)

(** A scrape of the add-on's own metrics. *)
Definition scraped (w : W) (samples : list Sample) (w' : W) : Prop :=
  exists output, service_proxy ksmNamespace "kube-state-metrics:8081" w = (w', Ok output) /\
    ExtractMetricSamples (decode output) [] = Ok samples.

Lemma add_ksm_samples_collect samples pre h :
  collects (is_metric ksmRequestDurationMetricName) pre h ->
  collects (is_metric ksmRequestDurationMetricName) (pre ++ samples) (fold_left add_ksm_sample samples h).
Proof using.
  revert pre h. induction samples as [|s samples IH]; intros pre h Hc; cbn [fold_left]; [by rewrite app_nil_r|].
  change (s :: samples) with ([s] ++ samples). rewrite app_assoc. apply IH. unfold add_ksm_sample.
  destruct (String.eqb_spec (metric_name s) ksmRequestDurationMetricName); [by apply collects_in|by apply collects_out].
Qed.

Definition fresh_fields (m : ksmLatencyMeasurement) : Prop :=
  cancelled m = false /\ namespace m = ksmNamespace /\ serviceName m = ksmServiceName /\ selfPort m = ksmSelfPort.

Lemma retrieve_ok m w w' h :
  fresh_fields m -> retrieveKSMLatencyMetrics m w = (w', (h, None)) ->
  exists samples, scraped w samples w' /\ collects (is_metric ksmRequestDurationMetricName) samples h.
Proof using.
  intros (Hc & Hn & Hs & Hp). unfold retrieveKSMLatencyMetrics, getMetricsFromService. rewrite Hc, Hn, Hs, Hp.
  change (Sprintf "%v:%v" [FStr ksmServiceName; FInt ksmSelfPort]) with "kube-state-metrics:8081".
  destruct (service_proxy _ _ w) as [w1 [output|e]] eqn:Hx; [|done].
  destruct (ExtractMetricSamples (decode output) []) as [samples|e] eqn:He; [|done].
  intros [= <- <-]. exists samples. split; [by exists output|].
  change samples with ([] ++ samples) at 1. apply add_ksm_samples_collect, collects_empty.
Qed.

(** From a start to the first gathering, both without an error: the summary
    shows the quantiles of a histogram whose buckets are the increases of the
    request durations from the scrape of the start to that of the gathering.
    After that the context is cancelled: every further gathering fails, and a
    start does nothing. *)
Theorem ksm_latency_correct provider now0 now config0 config w0 m1 w1 s1 w2 m2 w3 summaries :
  prov_Features provider SupportKubeStateMetrics = true ->
  getString (cfg_Params config0) "action" = ("start", None) -> getString (cfg_Params config) "action" = ("gather", None) ->
  Execute provider now0 config0 CreateKSMLatencyMeasurement w0 = Some (m1, w1, s1, None) ->
  Execute provider now config m1 w2 = Some (m2, w3, summaries, None) ->
  (exists before after h metric content,
     scraped w0 before w1 /\ scraped w2 after w3 /\
     increases (is_metric ksmRequestDurationMetricName) before after h /\
     SetQuantileFromHistogram hist_Quantile zero_metric h = (metric, None) /\ PrettyPrintJSON metric = Ok content /\
     summaries = [CreateSummary now ksmLatencyName "json" content]) /\
  (forall now' w, exists err, Execute provider now' config m2 w = Some (m2, w, [], Some err)) /\
  (forall now' w, Execute provider now' config0 m2 w = Some (m2, w, [], None)).
Proof.
  intros Hf Hs Hg. unfold Execute at 1 2. rewrite Hf, Hs, Hg. cbn [negb String.eqb Ascii.eqb Bool.eqb isRunning CreateKSMLatencyMeasurement].
  destruct (retrieveKSMLatencyMetrics (startQuerying CreateKSMLatencyMeasurement) w0) as [w1' [h0 e0]] eqn:Hr0.
  intros [= <- -> _ ->]. apply retrieve_ok in Hr0 as (before & Hb & Hcb); [|by repeat split].
  set (m1 := mkKsm _ _ _ _ _ _ _). unfold createKSMLatencySummary.
  destruct (retrieveKSMLatencyMetrics m1 w2) as [w3' [h1 [e1|]]] eqn:Hr1; [by intros [=]|].
  apply retrieve_ok in Hr1 as (after & Ha & Hca); [|by repeat split].
  cbn [stop m1 isRunning negb cancel initialLatency mbind option_bind].
  destruct (SetQuantileFromHistogram hist_Quantile zero_metric (HistogramSub h1 h0)) as [metric [e|]] eqn:Hq; [by intros [=]|].
  destruct (PrettyPrintJSON metric) as [content|e] eqn:Hj; [|by intros [=]].
  intros [= <- <- <-]. split; [|split].
  - exists before, after, (HistogramSub h1 h0), metric, content. split_and!; try done. by apply HistogramSub_increases.
  - intros now' w. unfold Execute. rewrite Hf, Hg. cbn. eauto.
  - intros now' w. unfold Execute. by rewrite Hf, Hs.
Qed.
End Measurement.
End KubeStateMetrics.

(** ** Latency of network endpoint groups *)
Module Neg.
(** Metric -> bucket -> size. *)
Abbreviation negLatencyMetricMap := (gmap string (gmap string Z)).

Section Gatherer.
Context `{GoLib} `{FloatFormat}.

Definition negLatencyMeasurementName : string := "NegLatency".
Definition quote : string := String (ascii_of_nat 34) "".
Definition negInitLatencyQuery (promDuration : string) : string :=
  Sprintf "sum(sum_over_time(neg_controller_neg_initialization_duration_seconds_bucket[%v])) by (le)" [FStr promDuration].
Definition negOpLatencyQuery (key promDuration : string) : string :=
  Sprintf ("sum(sum_over_time(neg_controller_neg_operation_duration_seconds_bucket{operation=" +:+ quote +:+ "%v" +:+ quote
    +:+ "}[%v])) by (le)") [FStr key; FStr promDuration].
Definition negInitializationMetricName : string := "neg_initialization".
Definition negAttachOpMetricName : string := "neg_attach_endpoint".
Definition negDetachOpMetricName : string := "neg_detach_endpoint".
Definition negInfBucketSLO : string := "+Inf".
Definition negQueryInterval : Z := 10 * Duration.Minute.

Context (PrettyPrintJSON : negLatencyMetricMap -> result string) (SprintBuckets : gmap string Z -> string).

(** The query of a window. The windows after the first are of the other
    measurement's [queryInterval], that is of the same length. *)
Definition window (executor : executor_t) (mk_query : string -> string) (prev curr : Z) : option (result (list Sample)) :=
  executor (mk_query (ToPrometheusTime (Time_Sub curr prev))) curr.

Definition fill_buckets (metricName : string) (samples : list Sample) (result : negLatencyMetricMap) : negLatencyMetricMap :=
  fold_left (fun (result : negLatencyMetricMap) s =>
    <[metricName := <[label s "le" := f64_round_int (s_Value s)]> (default ∅ (result !! metricName))]> result) samples result.

Definition gatherAndProcessSamples (executor : executor_t) (startTime endTime : Z) (metricName : string) (mk_query : string -> string)
  (result : negLatencyMetricMap) : option (option negLatencyMetricMap) :=
  match Windows.loop (window executor mk_query) (Windows.loop_fuel startTime endTime) endTime startTime (startTime + negQueryInterval) [] with
  | None => None
  | Some None => Some None
  | Some (Some samples) => Some (Some (fill_buckets metricName samples result))
  end.

(** The three metrics, one after the other; a panic of the executor ends it. *)
Definition gatherMetrics (executor : executor_t) (startTime endTime : Z) : option (option negLatencyMetricMap) :=
  match gatherAndProcessSamples executor startTime endTime negInitializationMetricName negInitLatencyQuery ∅ with
  | Some (Some result) =>
      match gatherAndProcessSamples executor startTime endTime negAttachOpMetricName (negOpLatencyQuery "Attach") result with
      | Some (Some result) =>
          gatherAndProcessSamples executor startTime endTime negDetachOpMetricName (negOpLatencyQuery "Detach") result
      | r => r
      end
  | r => r
  end.

Definition validateNegSLO (result : negLatencyMetricMap) (metricName bucketName percentileName : string)
  (defaultBucketSLO defaultPercentileSLO : Z) (config : MeasurementConfig) : option error :=
  let bucketSLO := FormatFloat_g (Cilium.slo_param config bucketName defaultBucketSLO) in
  let percentileSLO := Cilium.slo_param config percentileName defaultPercentileSLO in
  match result !! metricName with
  | None => None
  | Some buckets =>
      let totalEvents := default 0 (buckets !! negInfBucketSLO) in
      if negb (totalEvents =? 0) then
        let acceptedEvents := default 0 (buckets !! bucketSLO) in
        let perc := Cilium.bucket_perc acceptedEvents totalEvents in
        if f64_ltb perc percentileSLO
        then Some (NewMetricViolationError metricName
               (Sprintf ("Updates for %ss latency is within %d%%, expected %d%%, buckets:" +:+ newline +:+ "%v")
                  [FStr bucketSLO; FInt (f64_to_int (f64_floor perc)); FInt (f64_to_int (f64_floor percentileSLO));
                   FStr (SprintBuckets buckets)]))
        else None
      else None
  end.

Definition validateNegSLOs (result : negLatencyMetricMap) (config : MeasurementConfig) : option error :=
  match validateNegSLO result negInitializationMetricName "negInitBucketSLO" "negInitPercentileSLO" 16 95 config with
  | Some err => Some err
  | None =>
      match validateNegSLO result negAttachOpMetricName "negAttachBucketSLO" "negAttachPercentileSLO" 64 95 config with
      | Some err => Some err
      | None =>
          match validateNegSLO result negDetachOpMetricName "negDetachBucketSLO" "negDetachPercentileSLO" 32 95 config with
          | Some err => Some err
          | None => None
          end
      end
  end.

Definition Gather (now : Z) (executor : executor_t) (startTime endTime : Z) (config : MeasurementConfig)
  : option (option (list Summary * option error)) :=
  match gatherMetrics executor startTime endTime with
  | None => None
  | Some None => Some None
  | Some (Some negMetrics) =>
      match PrettyPrintJSON negMetrics with
      | Err err => Some (Some ([], Some err))
      | Ok content => Some (Some ([CreateSummary now negLatencyMeasurementName "json" content], validateNegSLOs negMetrics config))
      end
  end.

(** *** What is gathered *)

(** The value of a bucket in the last sample that has it. *)
Definition last_value (le : string) (samples : list Sample) : option Z :=
  f64_round_int ∘ s_Value <$> last (filter (fun s => label s "le" = le) samples).

Lemma fill_buckets_lookup name samples result :
  (forall name', name' <> name -> fill_buckets name samples result !! name' = result !! name') /\
  (forall le, fill_buckets name samples result !! name ≫= (.!! le) =
     match last_value le samples with Some v => Some v | None => result !! name ≫= (.!! le) end).
Proof using.
  unfold fill_buckets, last_value. revert result. induction samples as [|s samples IH] using rev_ind; intros result; [done|].
  rewrite fold_left_app. cbn [fold_left]. destruct (IH result) as [Hne Heq]. split.
  - intros name' Hn. rewrite lookup_insert_ne by done. auto.
  - intros le. rewrite lookup_insert_eq. cbn [mbind option_bind]. rewrite filter_app, filter_cons, filter_nil.
    destruct (decide (label s "le" = le)) as [<-|Hle].
    + rewrite lookup_insert_eq, last_snoc. done.
    + rewrite lookup_insert_ne, app_nil_r, <- Heq by done. by destruct (fold_left _ samples result !! name).
Qed.

(** The metrics with their queries. *)
Definition metrics : list (string * (string -> string)) :=
  [(negInitializationMetricName, negInitLatencyQuery); (negAttachOpMetricName, negOpLatencyQuery "Attach");
   (negDetachOpMetricName, negOpLatencyQuery "Detach")].

Definition metric_samples (executor : executor_t) (mk_query : string -> string) (windows : list (Z * Z)) : list Sample :=
  flat_map (Windows.window_samples (window executor mk_query)) windows.

(** The gathering ends; with windows that tile the measured time, a bucket of
    each metric holds the value of the last sample of it in any window: what the
    earlier windows counted is overwritten. *)
Theorem neg_last_window executor startTime endTime :
  (forall q t, exists r, executor q t = Some r) ->
  exists windows result, Windows.tiles endTime startTime windows /\ gatherMetrics executor startTime endTime = Some (Some result) /\
    forall name mk_query, (name, mk_query) ∈ metrics -> forall le,
      result !! name ≫= (.!! le) = last_value le (metric_samples executor mk_query windows).
Proof.
  intros Hex.
  assert (forall mk_query, forall p c, exists r, window executor mk_query p c = Some r) as Hw by (intros; apply Hex).
  destruct (Windows.loop_correct (window executor negInitLatencyQuery) startTime endTime) as (windows & Ht & _); [done|].
  assert (forall name mk_query result, gatherAndProcessSamples executor startTime endTime name mk_query result =
    Some (Some (fill_buckets name (metric_samples executor mk_query windows) result))) as Hg.
  { intros name mk_query result. unfold gatherAndProcessSamples. change negQueryInterval with Windows.queryInterval.
    destruct (Windows.loop_correct (window executor mk_query) startTime endTime) as (l & Hl & ->); [done|].
    by rewrite (Windows.tiles_fun _ _ _ _ Hl Ht). }
  exists windows. eexists. split; [done|]. split; [unfold gatherMetrics; by rewrite !Hg|].
  intros name mk_query Hin le. unfold metrics in Hin. rewrite !elem_of_cons, elem_of_nil in Hin.
  destruct Hin as [[= -> ->]|[[= -> ->]|[[= -> ->]|[]]]].
  - rewrite 2!(proj1 (fill_buckets_lookup _ _ _)) by done. rewrite (proj2 (fill_buckets_lookup _ _ _)). by destruct (last_value _ _).
  - rewrite (proj1 (fill_buckets_lookup _ _ _)) by done. rewrite (proj2 (fill_buckets_lookup _ _ _)).
    destruct (last_value _ _); [done|]. by rewrite (proj1 (fill_buckets_lookup _ _ _)).
  - rewrite (proj2 (fill_buckets_lookup _ _ _)). destruct (last_value _ _); [done|]. by rewrite !(proj1 (fill_buckets_lookup _ _ _)).
Qed.

(** A metric is within its objective: nothing was counted, or the share of
    the bucket is reached. *)
Definition slo_met (result : negLatencyMetricMap) (config : MeasurementConfig) (name bucketName percentileName : string) (b p : Z) : Prop :=
  forall buckets, result !! name = Some buckets ->
    Cilium.snapshot_ok (FormatFloat_g (Cilium.slo_param config bucketName b)) (Cilium.slo_param config percentileName p) buckets.

Lemma validateNegSLO_ok result name bucketName percentileName b p config :
  validateNegSLO result name bucketName percentileName b p config = None <-> slo_met result config name bucketName percentileName b p.
Proof using.
  unfold validateNegSLO, slo_met, Cilium.snapshot_ok, negInfBucketSLO. destruct (result !! name) as [buckets|].
  2:{ split; [by intros _ ? [=]|done]. }
  destruct (Z.eqb_spec (default 0 (buckets !! "+Inf")) 0) as [Hz|Hz]; cbn [negb].
  { split; [intros _ ? [= <-]; by left|done]. }
  destruct (f64_ltb _ _) eqn:Hl.
  - split; [done|]. intros Hs. destruct (Hs _ eq_refl); [done|congruence].
  - split; [intros _ ? [= <-]; by right|done].
Qed.

Lemma neg_verdict result config :
  validateNegSLOs result config = None <->
  slo_met result config negInitializationMetricName "negInitBucketSLO" "negInitPercentileSLO" 16 95 /\
  slo_met result config negAttachOpMetricName "negAttachBucketSLO" "negAttachPercentileSLO" 64 95 /\
  slo_met result config negDetachOpMetricName "negDetachBucketSLO" "negDetachPercentileSLO" 32 95.
Proof using.
  rewrite <- !validateNegSLO_ok. unfold validateNegSLOs.
  destruct (validateNegSLO result negInitializationMetricName _ _ _ _ config), (validateNegSLO result negAttachOpMetricName _ _ _ _ config),
    (validateNegSLO result negDetachOpMetricName _ _ _ _ config); split; (done || (intros _; by split_and!) || by intros (? & ? & ?)).
Qed.
End Gatherer.
End Neg.

(** ** DNS queries for the cluster's hostnames *)
Module DnsHostnames.

Definition dnsPerfK8sHostnamesMeasureName : string := "DNSPerformanceK8sHostnames".
Definition dnsPerfTestNamespace : string := "dns-perf-test".
Definition dnsPerfTestPermissionsName : string := "dns-test-client".
Definition serviceAccountFilePath : string := "manifests/serviceaccount.yaml".
Definition clusterRoleFilePath : string := "manifests/clusterrole.yaml".
Definition clusterRoleBindingFilePath : string := "manifests/clusterrolebinding.yaml".
Definition clientDeploymentFilePath : string := "manifests/dns-client.yaml".

(** [framework]: the framework and the client are set. *)
Record dnsPerfK8sHostnamesMeasurement := mkDns {
  framework : bool;
  testClientNamespace : string;
  podReplicas : Z;
  qpsPerClient : Z;
  testDurationMinutes : Z;
}.

Definition createDNSPerfK8sHostnamesMeasurement : dnsPerfK8sHostnamesMeasurement := mkDns false "" 0 0 0.

(** The calls of the framework (with its retries) and the plain ones of the
    client. *)
Class DnsServer (W : Type) := {
  dns_apply : string -> params -> W -> W * option error;
  dns_CreateNamespace : string -> W -> W * option error;
  dns_Sleep : Z -> W -> W;
  delete_serviceaccount : string -> string -> W -> W * option error;
  delete_role : string -> W -> W * option error;
  delete_rolebinding : string -> W -> W * option error;
  delete_ns : string -> W -> W * option error;
}.

Section Measurement.
Context {W : Type} `{GoLib} `{DnsServer W}.

(** The fields are assigned one after the other, each before its error is
    looked at. *)
Definition initializeMeasurement (config : MeasurementConfig) (m : dnsPerfK8sHostnamesMeasurement)
  : dnsPerfK8sHostnamesMeasurement * option error :=
  let '(ns, err) := GetStringOrDefault (cfg_Params config) "testNamespace" dnsPerfTestNamespace in
  let m := mkDns (framework m) ns (podReplicas m) (qpsPerClient m) (testDurationMinutes m) in
  if err is Some _ then (m, err) else
  let '(replicas, err) := GetIntOrDefault (cfg_Params config) "podReplicas" 10 in
  let m := mkDns (framework m) ns replicas (qpsPerClient m) (testDurationMinutes m) in
  if err is Some _ then (m, err) else
  let '(qps, err) := GetIntOrDefault (cfg_Params config) "qpsPerClient" 10 in
  let m := mkDns (framework m) ns replicas qps (testDurationMinutes m) in
  if err is Some _ then (m, err) else
  let '(duration, err) := GetIntOrDefault (cfg_Params config) "testDurationMinutes" 10 in
  let m := mkDns (framework m) ns replicas qps duration in
  if err is Some _ then (m, err) else
  (mkDns true ns replicas qps duration, None).

Definition createDNSClientPermissions (m : dnsPerfK8sHostnamesMeasurement) : W -> W * option error :=
  let templateMap := {[ "Name" := VString dnsPerfTestPermissionsName; "Namespace" := VString (testClientNamespace m) ]} : params in
  run_steps [
    wrapped (fun err => Errorf "error while creating serviceaccount: %v" [AErr err]) (dns_apply serviceAccountFilePath templateMap);
    wrapped (fun err => Errorf "error while creating clusterrole: %v" [AErr err]) (dns_apply clusterRoleFilePath templateMap);
    wrapped (fun err => Errorf "error while creating clusterrolebinding: %v" [AErr err]) (dns_apply clusterRoleBindingFilePath templateMap)].

Definition createDNSClientDeployment (m : dnsPerfK8sHostnamesMeasurement) : W -> W * option error :=
  let templateMap := {[ "Namespace" := VString (testClientNamespace m); "PodReplicas" := VInt (podReplicas m);
                        "QPSPerClient" := VInt (qpsPerClient m); "ServiceAccountName" := VString dnsPerfTestPermissionsName ]} : params in
  dns_apply clientDeploymentFilePath templateMap.

Definition deleteDNSClientPermissions (m : dnsPerfK8sHostnamesMeasurement) : W -> W * option error :=
  run_steps [delete_serviceaccount (testClientNamespace m) dnsPerfTestPermissionsName;
             delete_role dnsPerfTestPermissionsName;
             delete_rolebinding dnsPerfTestPermissionsName].

Definition cleanUp (m : dnsPerfK8sHostnamesMeasurement) (w : W) : W * option error :=
  if negb (framework m) then (w, None)
  else run_steps [deleteDNSClientPermissions m; delete_ns (testClientNamespace m)] w.

Definition Execute (config : MeasurementConfig) (m : dnsPerfK8sHostnamesMeasurement) (w : W)
  : dnsPerfK8sHostnamesMeasurement * W * option error :=
  match initializeMeasurement config m with
  | (m, Some err) => (m, w, Some (Errorf "failed to initialize the measurement: %v" [AErr err]))
  | (m, None) =>
      let '(w, err) := run_steps [
        wrapped (fun err => Errorf "error while creating namespace: %v" [AErr err]) (dns_CreateNamespace (testClientNamespace m));
        wrapped (fun err => Errorf "failed to create dns client permission resources: %v" [AErr err]) (createDNSClientPermissions m);
        wrapped (fun err => Errorf "failed to create DNS client deployment: %v" [AErr err]) (createDNSClientDeployment m);
        (fun w => (dns_Sleep (wrap64 (testDurationMinutes m * Duration.Minute)) w, None));
        cleanUp m] w in
      (m, w, err)
  end.

Definition Dispose (m : dnsPerfK8sHostnamesMeasurement) (w : W) : W := (cleanUp m w).1.

(** *** The clean-up *)

(** When a deletion fails, as when the object was never created, the ones after
    it are not tried: without the service account the roles and the namespace
    stay. *)
Lemma cleanup_stops m w w' err :
  framework m = true -> delete_serviceaccount (testClientNamespace m) dnsPerfTestPermissionsName w = (w', Some err) ->
  cleanUp m w = (w', Some err) /\ Dispose m w = w'.
Proof using.
  intros Hf Hd. assert (cleanUp m w = (w', Some err)) as Hc by (unfold cleanUp, deleteDNSClientPermissions; rewrite Hf; cbn; by rewrite Hd).
  split; [done|]. unfold Dispose. by rewrite Hc.
Qed.
End Measurement.

(** A world that records the objects that exist and how long was waited. *)
Record dns_world := mkDnsWorld { dw_objects : gset string; dw_waited : Z }.

Definition dw_add (x : string) (w : dns_world) : dns_world * option error :=
  (mkDnsWorld ({[x]} ∪ dw_objects w) (dw_waited w), None).
Definition dw_delete (x : string) (w : dns_world) : dns_world * option error :=
  if decide (x ∈ dw_objects w) then (mkDnsWorld (dw_objects w ∖ {[x]}) (dw_waited w), None)
  else (w, Some (External "not found")).

(** [broken]: manifests whose application fails. *)
Definition dns_model (broken : gset string) : DnsServer dns_world :=
  {| dns_apply := fun path _ w => if decide (path ∈ broken) then (w, Some (External "forbidden")) else dw_add path w;
     dns_CreateNamespace := dw_add;
     dns_Sleep := fun d w => mkDnsWorld (dw_objects w) (dw_waited w + d);
     delete_serviceaccount := fun _ _ => dw_delete serviceAccountFilePath;
     delete_role := fun _ => dw_delete clusterRoleFilePath;
     delete_rolebinding := fun _ => dw_delete clusterRoleBindingFilePath;
     delete_ns := fun ns w => let '(w, err) := dw_delete ns w in
       (mkDnsWorld (dw_objects w ∖ {[clientDeploymentFilePath]}) (dw_waited w), err) |}.

#[local] Instance dns_lib : GoLib := {| ParseFloat := fun _ => (f64_of_Z 0, None); Sprint := fun _ => "" |}.

(** A run on a cluster that accepts everything waits as long as asked and leaves
    nothing behind; one whose service account is rejected leaves the namespace,
    also after its disposal. *)
Example dns_run_clean :
  (Execute (W := dns_world) (H0 := dns_model ∅) (mkMeasurementConfig {[ "testDurationMinutes" := VInt 3 ]} "" "")
     createDNSPerfK8sHostnamesMeasurement (mkDnsWorld ∅ 0)).1.2 = mkDnsWorld ∅ (3 * Duration.Minute).
Proof. vm_compute. reflexivity. Qed.

Example dns_run_leaks :
  let '(m, w, _) := Execute (W := dns_world) (H0 := dns_model {[serviceAccountFilePath]}) (mkMeasurementConfig ∅ "" "")
     createDNSPerfK8sHostnamesMeasurement (mkDnsWorld ∅ 0) in
  dw_objects (Dispose (H0 := dns_model {[serviceAccountFilePath]}) m w) = {[dnsPerfTestNamespace]}.
Proof. vm_compute. reflexivity. Qed.
End DnsHostnames.
