(* ===== verification/ObjectStores.v ===== *)
(** * Object stores (pkg/measurement/util/object_store.go)

    Each store wraps a cache that client-go's reflector keeps up to date from
    the list and the watch of one resource, restricted by a selector. The
    reflector and the API server's watch are an interface with their documented
    behaviour; the requests the stores make of them, their start and stop, and
    what they list are the code's. *)

From S2P Require Import Prelude GoErrors GoRuntime Params Waiting.

(** ** Requests *)

Inductive resource := Pods | PersistentVolumeClaims | PersistentVolumes | Nodes.

(** The arguments of the client's [List] and [Watch]: the namespace, for
    resources that have one, and the selectors of the options. *)
Record request := mkRequest {
  rq_resource : resource;
  rq_namespace : option string;
  rq_LabelSelector : string;
  rq_FieldSelector : string;
}.

(** [ListFunc] and [WatchFunc] of the four constructors. *)
Definition pods_lw (selector : ObjectSelector) : request :=
  mkRequest Pods (Some (sel_Namespace selector)) (sel_LabelSelector selector) (sel_FieldSelector selector).
Definition pvcs_lw (selector : ObjectSelector) : request :=
  mkRequest PersistentVolumeClaims (Some (sel_Namespace selector)) (sel_LabelSelector selector) (sel_FieldSelector selector).
Definition pvs_lw (selector : ObjectSelector) : request :=
  mkRequest PersistentVolumes None (sel_LabelSelector selector) (sel_FieldSelector selector).
Definition nodes_lw (selector : ObjectSelector) : request :=
  mkRequest Nodes None (sel_LabelSelector selector) (sel_FieldSelector selector).

(** ** Stores *)

(** The cache by the objects' keys, the request of the reflector, and the
    channel that stops it. *)
Record ObjectStore (O : Type) := mkObjectStore {
  Store : gmap string O;
  os_lw : request;
  stopCh : chan_state;
}.
Arguments mkObjectStore {_} _ _ _.
Arguments Store {_} _.
Arguments os_lw {_} _.
Arguments stopCh {_} _.

(** What the reflector hands to the cache. *)
Inductive reflector_event (O : Type) :=
| Replaced (items : gmap string O)
| Stored (key : string) (obj : O)
| Removed (key : string).
Arguments Replaced {_} _.
Arguments Stored {_} _ _.
Arguments Removed {_} _.

Definition store_event {O} (s : gmap string O) (e : reflector_event O) : gmap string O :=
  match e with
  | Replaced items => items
  | Stored key obj => <[key := obj]> s
  | Removed key => delete key s
  end.

Section Stores.
Context {O : Type} (typeName : string).

(** The polls of [LastSyncResourceVersion] until the timeout. *)
Fixpoint synced (versions : list string) : bool :=
  match versions with
  | [] => false
  | v :: versions' => if negb (String.length v =? 0)%nat then true else synced versions'
  end.

(** [events]: what the reflector has delivered by the end of the wait. *)
Definition newObjectStore (lw : request) (selector : ObjectSelector) (versions : list string) (events : list (reflector_event O))
  : result (ObjectStore O) :=
  let name := Sprintf "%sStore: %s" [FStr typeName; FStr (ObjectSelector_String selector)] in
  if synced versions then Ok (mkObjectStore (fold_left store_event events ∅) lw ChanOpen)
  else Err (Errorf "couldn't initialize %s: %v" [AStr name; AErr (External "timed out waiting for the condition")]).

(** The running reflector; a stopped one delivers nothing. *)
Definition deliver (s : ObjectStore O) (e : reflector_event O) : ObjectStore O :=
  match stopCh s with
  | ChanOpen => mkObjectStore (store_event (Store s) e) (os_lw s) (stopCh s)
  | _ => s
  end.

(** Closing a closed channel panics. *)
Definition Stop (s : ObjectStore O) : option (ObjectStore O) :=
  match stopCh s with
  | ChanOpen => Some (mkObjectStore (Store s) (os_lw s) ChanClosed)
  | ChanNil | ChanClosed => None
  end.

Context `{MapRange}.

(** [Store.List], the objects of the cache in some order; the type assertions
    of the [List] methods hold of a cache of one resource. *)
Definition store_List (s : ObjectStore O) : list O := (range "store" (Store s)).*2.
End Stores.

Section Constructors.
Context {Pod PVC Node : Type} `{MapRange}.

(** A pod store and the rendering of its selector. *)
Record PodStore := mkPodStore { ps_ObjectStore : ObjectStore Pod; ps_selector : ObjectSelector }.

Definition NewPodStore (selector : ObjectSelector) versions events : result PodStore :=
  objectStore ← newObjectStore "*v1.Pod" (pods_lw selector) selector versions events;
  Ok (mkPodStore objectStore selector).

Definition PodStore_List (s : PodStore) : list Pod * option error :=
  (fold_left (fun pods o => pods ++ [o]) (store_List (ps_ObjectStore s)) [], None).

Definition PodStore_String (s : PodStore) : string := ObjectSelector_String (ps_selector s).

Definition NewPVCStore (selector : ObjectSelector) versions events : result (ObjectStore PVC) :=
  newObjectStore "*v1.PersistentVolumeClaim" (pvcs_lw selector) selector versions events.

Definition PVCStore_List (s : ObjectStore PVC) : list PVC := fold_left (fun pvcs o => pvcs ++ [o]) (store_List s) [].

Record PVStore := mkPVStore { pvs_ObjectStore : ObjectStore volume; provisioner : string }.

Definition NewPVStore (selector : ObjectSelector) (provisioner : string) versions events : result PVStore :=
  objectStore ← newObjectStore "*v1.PersistentVolume" (pvs_lw selector) selector versions events;
  Ok (mkPVStore objectStore provisioner).

(** The filter of [PVStore.List] is in Waiting. *)
Definition PVStore_listing (s : PVStore) : list volume := PVStore_List (provisioner s) (store_List (pvs_ObjectStore s)).

Definition NewNodeStore (selector : ObjectSelector) versions events : result (ObjectStore Node) :=
  newObjectStore "*v1.Node" (nodes_lw selector) selector versions events.

Definition NodeStore_List (s : ObjectStore Node) : list Node := fold_left (fun nodes o => nodes ++ [o]) (store_List s) [].
End Constructors.

(** ** A store mirrors the selected part of the cluster *)

(** The documented behaviour of list and watch: which objects a request
    selects; the list has these; and when an object changes, the watch delivers
    its new state if that is selected, its removal if only the old one was, and
    nothing if neither is. *)
Class WatchServer (O : Type) := {
  selects : request -> string -> O -> bool;
  list_items : request -> gmap string O -> gmap string O;
  watch : request -> string -> option O -> option O -> option (reflector_event O);
  list_items_law : forall rq objects, list_items rq objects = filter (fun kv => selects rq kv.1 kv.2 = true) objects;
  watch_law : forall rq key old new,
    watch rq key old new =
      let selected o := match o with Some x => selects rq key x | None => false end in
      if selected new then Stored key <$> new
      else if selected old then Some (Removed key) else None;
}.

Section Mirror.
Context {O : Type} `{WatchServer O}.

(** Changes of the cluster: an object's new state, or none. *)
Definition change (objects : gmap string O) (c : string * option O) : gmap string O :=
  match c.2 with Some obj => <[c.1 := obj]> objects | None => delete c.1 objects end.

(** What the watch delivers over a sequence of changes. *)
Fixpoint watched (rq : request) (objects : gmap string O) (changes : list (string * option O)) : list (reflector_event O) :=
  match changes with
  | [] => []
  | c :: changes' => option_list (watch rq c.1 (objects !! c.1) c.2) ++ watched rq (change objects c) changes'
  end.

Lemma watch_step rq objects c :
  fold_left store_event (option_list (watch rq c.1 (objects !! c.1) c.2)) (list_items rq objects) = list_items rq (change objects c).
Proof using.
  destruct c as [key new]. cbn [fst snd]. rewrite watch_law, !list_items_law. unfold change. cbn [fst snd].
  destruct new as [obj|].
  - destruct (selects rq key obj) eqn:Hn; cbn [fmap option_fmap option_map option_list fold_left store_event].
    + by rewrite map_filter_insert_True.
    + rewrite map_filter_insert_False by (cbn; congruence).
      destruct (objects !! key) as [old|] eqn:Ho; [destruct (selects rq key old) eqn:Hs|]; cbn.
      * by rewrite map_filter_delete.
      * rewrite map_filter_delete, delete_id; [done|]. apply map_lookup_filter_None. right. intros x Hx. cbn. congruence.
      * by rewrite delete_id.
  - destruct (objects !! key) as [old|] eqn:Ho; [destruct (selects rq key old) eqn:Hs|]; cbn.
    + by rewrite map_filter_delete.
    + rewrite map_filter_delete, delete_id; [done|]. apply map_lookup_filter_None. right. intros x Hx. cbn. congruence.
    + by rewrite delete_id.
Qed.

Lemma watched_mirror rq objects changes :
  fold_left store_event (watched rq objects changes) (list_items rq objects) = list_items rq (fold_left change changes objects).
Proof using.
  revert objects. induction changes as [|c changes IH]; intros objects; [done|].
  cbn [watched fold_left]. by rewrite fold_left_app, watch_step, IH.
Qed.

(** A store is created exactly when its reflector has listed once within the
    timeout, and then, whatever happened since that listing, it lists every
    object of its resource that its selector selects, once, and no other; after
    it was stopped it does not change any more, and stopping it again panics. *)
Theorem store_mirrors_selection `{MapRange} typeName rq selector versions objects changes :
  (is_ok (newObjectStore typeName rq selector versions (Replaced (list_items rq objects) :: watched rq objects changes)) = true <->
     exists v, v ∈ versions /\ v <> "") /\
  forall s, newObjectStore typeName rq selector versions (Replaced (list_items rq objects) :: watched rq objects changes) = Ok s ->
    os_lw s = rq /\
    store_List s ≡ₚ (map_to_list (filter (fun kv => selects rq kv.1 kv.2 = true) (fold_left change changes objects))).*2 /\
    exists s', Stop s = Some s' /\ Stop s' = None /\ forall events, store_List (fold_left deliver events s') = store_List s.
Proof.
  split.
  - unfold newObjectStore. transitivity (synced versions = true); [destruct (synced versions); [by split|split; done]|].
    induction versions as [|v versions IH]; cbn [synced].
    + split; [done|]. by intros (v & ?%elem_of_nil & _).
    + destruct v as [|a v]; cbn.
      * rewrite IH. split; intros (v & Hin & Hv); exists v; (split; [|done]); [by apply elem_of_cons; right|].
        by apply elem_of_cons in Hin as [->|].
      * split; [intros _|done]. exists (String a v). split; [apply list_elem_of_here|done].
  - unfold newObjectStore. intros s. destruct (synced versions); [|done]. intros [= <-]. split; [done|].
    cbn [fold_left store_event]. rewrite watched_mirror, list_items_law. split.
    + unfold store_List. cbn [Store]. by rewrite range_perm.
    + eexists. split; [done|]. split; [done|]. intros events. unfold store_List. f_equal. f_equal.
      induction events as [|e events IH]; [done|]. cbn [fold_left]. exact IH.
Qed.
End Mirror.

(** ** An example: a server that selects by label *)
#[local] Existing Instance list_range.

#[local] Instance ex_watch : WatchServer string.
Proof.
  refine {| selects := fun rq _ obj => String.eqb obj (rq_LabelSelector rq);
            list_items := fun rq objects => filter (fun kv => String.eqb kv.2 (rq_LabelSelector rq) = true) objects;
            watch := fun rq key old new =>
              let selected o := match o with Some x => String.eqb x (rq_LabelSelector rq) | None => false end in
              if selected new then Stored key <$> new else if selected old then Some (Removed key) else None |};
    reflexivity.
Defined.

(** One of two selected pods loses its label. *)
Lemma store_mirrors_selection_witness :
  exists s, newObjectStore "*v1.Pod" (mkRequest Pods None "app" "") (mkObjectSelector "" "app" "") [""; "7"]
      (Replaced (list_items (mkRequest Pods None "app" "") {["a" := "app"; "b" := "app"]}) ::
       watched (mkRequest Pods None "app" "") {["a" := "app"; "b" := "app"]} [("a", Some "other"); ("c", Some "app")]) = Ok s /\
    store_List s ≡ₚ ["app"; "app"] /\ (forall o, o ∈ store_List s -> o = "app").
Proof.
  eexists. split; [reflexivity|].
  destruct (store_mirrors_selection "*v1.Pod" (mkRequest Pods None "app" "") (mkObjectSelector "" "app" "") [""; "7"]
    {["a" := "app"; "b" := "app"]} [("a", Some "other"); ("c", Some "app")]) as [_ Hs].
  destruct (Hs _ eq_refl) as (_ & Hl & _).
  match type of Hl with _ ≡ₚ ?l => assert (l ≡ₚ ["app"; "app"]) as He by (vm_compute; reflexivity) end.
  split; [by etransitivity|]. intros o Ho. rewrite Hl, He in Ho. set_solver.
Defined.
