(* ===== verification/Listing.v ===== *)
(** * Retried reads, shared indexers and replica watchers
      (pkg/framework/client/objects.go, pkg/measurement/util/runtimeobjects,
       pkg/measurement/common/wait_for_controlled_pods.go)

    The reads of the API server go through the retries of Client; a read keeps
    the value its last attempt has stored. *)

From S2P Require Import Prelude GoErrors GoRuntime Params Executor Client RuntimeObjects Pods Services.

(** ** Reads *)

(** One attempt of each read: the nodes under a label selector, the events of a
    namespace under a field selector, an object, the objects of a resource (all
    namespaces, or one) under selectors. *)
Class ReadServer (C Node Event Obj : Type) := {
  nodes_List : string -> C -> C * result (list Node);
  events_List : string -> string -> C -> C * result Event;
  object_Get : GroupVersionResource -> string -> string -> C -> C * result Obj;
  resource_List : GroupVersionResource -> option string -> string -> string -> C -> C * result (list Obj);
  storageclass_Delete : string -> C -> C * option error;
  GuessKindToResource : GroupVersionKind -> GroupVersionResource;
}.

Section Reads.
Context {C Node Event Obj : Type} `{ApiErrors} `{Backoff} `{ReadServer C Node Event Obj}.

(** The closure handed to [RetryFunction]: a good answer is stored in the
    variable it closes over. *)
Definition read_attempt {A} (call : C -> C * result A) (s : C * option A) : (C * option A) * option error :=
  match call s.1 with
  | (c, Ok a) => ((c, Some a), None)
  | (c, Err err) => ((c, s.2), Some err)
  end.

Definition retried_read {A} (call : C -> C * result A) (options : list APICallOptions) (c : C) : C * option A * option error :=
  let '(s, err) := ExponentialBackoff retryBackoffSteps (RetryFunction (read_attempt call) options) (c, None) in
  (s.1, s.2, err).

(** The slice read so far is returned next to an error. *)
Definition ListNodesWithOptions (labelSelector : string) (c : C) : C * (list Node * option error) :=
  let '(c, nodes, err) := retried_read (nodes_List labelSelector) [] c in (c, (default [] nodes, err)).

(** The nil pointer is [None]. *)
Definition ListEvents (namespace name : string) (options : list APICallOptions) (c : C) : C * (option Event * option error) :=
  match retried_read (events_List namespace ("involvedObject.name=" +:+ name)) options c with
  | (c, _, Some err) => (c, (None, Some err))
  | (c, obj, None) => (c, (obj, None))
  end.

Definition DeleteStorageClass (name : string) (c : C) : C * option error :=
  RetryWithExponentialBackOff (RetryFunction (storageclass_Delete name) [Allow IsNotFound]) c.

Definition client_GetObject (gvk : GroupVersionKind) (namespace name : string) (options : list APICallOptions) (c : C)
  : C * (option Obj * option error) :=
  match retried_read (object_Get (GuessKindToResource gvk) namespace name) options c with
  | (c, _, Some err) => (c, (None, Some err))
  | (c, obj, None) => (c, (obj, None))
  end.

Definition ListRuntimeObjectsForKind (gvr : GroupVersionResource) (labelSelector fieldSelector : string) (c : C)
  : C * (list Obj * option error) :=
  match retried_read (resource_List gvr None labelSelector fieldSelector) [] c with
  | (c, _, Some err) => (c, ([], Some err))
  | (c, l, None) => (c, (default [] l, None))
  end.

Definition GetNumObjectsMatchingSelector (namespace : string) (gvr : GroupVersionResource) (labelSelector : string) (c : C)
  : C * (Z * option error) :=
  let '(c, l, err) := retried_read (resource_List gvr (Some namespace) labelSelector "") [] c in
  (c, (Z.of_nat (length (default [] l)), err)).

(** *** What a retried read returns *)

(** An error after which the read is tried again. *)
Definition retryable (options : list APICallOptions) (err : error) : Prop := retry_verdict options (Some err) = (false, None).

(** [n] attempts that fail that way, from one state to another. *)
Fixpoint failing {A} (call : C -> C * result A) (options : list APICallOptions) (n : nat) (c c' : C) : Prop :=
  match n with
  | O => c' = c
  | S n => exists c1 err, call c = (c1, Err err) /\ retryable options err /\ failing call options n c1 c'
  end.

(** How the attempts of a read can end: with the first good answer, with an
    error that is tolerated, with one that is not and not worth a retry, or after
    the last attempt. *)
Inductive read_outcome {A} (call : C -> C * result A) (options : list APICallOptions) (c c' : C) : option A -> option error -> Prop :=
| read_ok n c1 a : (n < retryBackoffSteps)%nat -> failing call options n c c1 -> call c1 = (c', Ok a) ->
    read_outcome call options c c' (Some a) None
| read_tolerated n c1 err : (n < retryBackoffSteps)%nat -> failing call options n c c1 -> call c1 = (c', Err err) ->
    any_pred (omap shouldAllowError options) err = true -> read_outcome call options c c' None None
| read_failed n c1 err : (n < retryBackoffSteps)%nat -> failing call options n c c1 -> call c1 = (c', Err err) ->
    retry_verdict options (Some err) = (false, Some err) -> read_outcome call options c c' None (Some err)
| read_exhausted : failing call options retryBackoffSteps c c' -> read_outcome call options c c' None (Some ErrWaitTimeout).

Lemma listing_verdict_cases options err :
  (any_pred (omap shouldAllowError options) err = true /\ retry_verdict options (Some err) = (true, None)) \/
  retryable options err \/ retry_verdict options (Some err) = (false, Some err).
Proof using.
  unfold retryable, retry_verdict. destruct (any_pred (omap shouldAllowError options) err); [by left|].
  destruct (any_pred (omap shouldRetryError options) err); [by right; left|].
  destruct (_ || _); [by right; left|by right; right].
Qed.

Lemma failing_snoc {A} (call : C -> C * result A) options n c c1 c2 err :
  failing call options n c c1 -> call c1 = (c2, Err err) -> retryable options err -> failing call options (S n) c c2.
Proof using.
  revert c. induction n as [|n IH]; intros c; cbn [failing].
  - intros -> Hc Hr. by exists c2, err.
  - intros (x & e & Hx & He & Hf) Hc Hr. exists x, e. split_and!; [done|done|]. by apply IH.
Qed.

Lemma backoff_read {A} (call : C -> C * result A) options m n c0 c c' a err :
  (m + n = retryBackoffSteps)%nat -> failing call options n c0 c ->
  ExponentialBackoff m (RetryFunction (read_attempt call) options) (c, None) = ((c', a), err) ->
  read_outcome call options c0 c' a err.
Proof using.
  revert n c. induction m as [|m IH]; intros n c Hmn Hf.
  - rewrite backoff_none. intros [= <- <- <-]. apply read_exhausted. by replace retryBackoffSteps with n.
  - rewrite backoff_step. unfold RetryFunction at 1, read_attempt at 1. cbn [fst snd].
    destruct (call c) as [c1 [x|e]] eqn:Hc.
    + cbn [retry_verdict]. intros [= <- <- <-]. eapply read_ok; [|done|done]. lia.
    + destruct (listing_verdict_cases options e) as [[Ha Hv]|[Hv|Hv]].
      * rewrite Hv. intros [= <- <- <-]. eapply read_tolerated; [|done..]. lia.
      * pose proof Hv as Hr. unfold retryable in Hv. rewrite Hv. apply (IH (S n)); [lia|]. by eapply failing_snoc.
      * rewrite Hv. intros [= <- <- <-]. eapply (read_failed _ _ _ _ n); [lia|done..].
Qed.

(** Every read answers as one of at most six attempts did: the first that
    succeeds, all before it having failed with errors worth a retry; an error
    otherwise, without a value. *)
Theorem retried_read_correct {A} (call : C -> C * result A) options c c' a err :
  retried_read call options c = (c', a, err) -> read_outcome call options c c' a err.
Proof.
  unfold retried_read. destruct (ExponentialBackoff _ _ _) as [[c1 a1] e1] eqn:Hb. intros [= <- <- <-].
  by eapply (backoff_read _ _ _ 0) in Hb.
Qed.
End Reads.

(** ** The shared pods indexer *)
Section SharedIndexer.
Context {C I : Type} (NewControlledPodsIndexer : C -> C * result I) (WaitForCacheSync : I -> C -> C * bool).

Record sharedPodIndexerFactory := mkFactory { f_podsIndexer : option I; f_err : option error; f_once : bool }.

Definition podIndexerFactory : sharedPodIndexerFactory := mkFactory None None false.

Definition factory_start (c : C) : C * result I :=
  match NewControlledPodsIndexer c with
  | (c, Err err) => (c, Err (Errorf "failed to initialize controlledPodsIndexer: %w" [AWrap err]))
  | (c, Ok podsIndexer) =>
      let '(c, ok) := WaitForCacheSync podsIndexer c in
      if negb ok then (c, Err (Errorf "failed to sync informers" [])) else (c, Ok podsIndexer)
  end.

(** [once.Do]. *)
Definition PodsIndexer (s : sharedPodIndexerFactory) (c : C) : sharedPodIndexerFactory * C * (option I * option error) :=
  if f_once s then (s, c, (f_podsIndexer s, f_err s))
  else
    let '(c, r) := factory_start c in
    let s := match r with Ok i => mkFactory (Some i) None true | Err err => mkFactory None (Some err) true end in
    (s, c, (f_podsIndexer s, f_err s)).

(** The answers to a sequence of calls, the cluster changing in between. *)
Fixpoint indexer_calls (worlds : list C) (s : sharedPodIndexerFactory) : list (option I * option error) :=
  match worlds with
  | [] => []
  | c :: worlds' => let '(s, _, r) := PodsIndexer s c in r :: indexer_calls worlds' s
  end.

(** The indexer is started by the first call only, and every call gets the
    same indexer, or the same error for good. *)
Theorem indexer_shared c worlds :
  exists r, indexer_calls (c :: worlds) podIndexerFactory = replicate (S (length worlds)) r /\
    (forall i, (factory_start c).2 = Ok i -> r = (Some i, None)) /\ (forall err, (factory_start c).2 = Err err -> r = (None, Some err)).
Proof using.
  assert (forall s ws, f_once s = true -> indexer_calls ws s = replicate (length ws) (f_podsIndexer s, f_err s)) as Hd.
  { intros s ws Hs. induction ws as [|w ws IH]; [done|]. cbn [indexer_calls]. unfold PodsIndexer at 1. rewrite Hs. cbn. by rewrite IH. }
  cbn [indexer_calls]. unfold PodsIndexer at 1. cbn [f_once podIndexerFactory].
  destruct (factory_start c) as [c1 [i|err]]; cbn [snd]; eexists; (split; [by rewrite Hd by done|]); split; intros ? [= <-]; done.
Qed.
End SharedIndexer.

(** ** Replica watchers *)
Section Watchers.
Context {KL : K8sLib}.

(** [Start] of a node counter: the informer lists the nodes under the selector
    and hands each to the handler before it counts as synced; [events] are
    further changes delivered by then. *)
Definition NodeCounter_Start (nodes : list (string * Node)) (events : list (string * option Node)) (synced : bool) (n : NodeCounter)
  : NodeCounter * option error :=
  ((fold_left node_step (map (fun kv => (kv.1, Some kv.2)) nodes ++ events) (n, ∅)).1, StartAndSync synced).

Definition watcher_Start (nodes : list (string * Node)) (events : list (string * option Node)) (synced : bool) (rw : ReplicasWatcher)
  : ReplicasWatcher * option error :=
  match rw with
  | ConstReplicas n => (ConstReplicas n, None)
  | NodeCounterWatcher n => let '(n, err) := NodeCounter_Start nodes events synced n in (NodeCounterWatcher n, err)
  end.

Definition GetReplicasOnce (nodes : list (string * Node)) (events : list (string * option Node)) (synced : bool) (rw : ReplicasWatcher)
  : Z * option error :=
  match watcher_Start nodes events synced rw with
  | (_, Some err) => (0, Some err)
  | (rw, None) => (Replicas rw, None)
  end.
End Watchers.

(** ** What changed between two listings of pods (pods.go) *)

(** The line printed for one pod. *)
Definition pod_diff_line (ignorePhases : gset string) (kv : string * podDiffInfo) : string :=
  let '(name, info) := kv in
  if bool_decide (phase info ∈ ignorePhases) then ""
  else if String.eqb (phase info) nonExist then
    Sprintf "Pod %v was deleted, had phase %v and host %v" [FStr name; FStr (oldPhase info); FStr (oldHostname info)] +:+ newline
  else
    let phaseChange := negb (String.eqb (oldPhase info) (phase info)) in
    let hostChange := negb (String.eqb (oldHostname info) (hostname info)) in
    let msg := Sprintf "Pod %v " [FStr name]
      +:+ (if phaseChange then
             if String.eqb (oldPhase info) nonExist then Sprintf "in phase %v " [FStr (phase info)]
             else Sprintf "went from phase: %v -> %v " [FStr (oldPhase info); FStr (phase info)]
           else "")
      +:+ (if hostChange then
             if String.eqb (oldHostname info) nonExist || String.eqb (oldHostname info) "" then Sprintf "assigned host %v " [FStr (hostname info)]
             else Sprintf "went from host: %v -> %v " [FStr (oldHostname info); FStr (hostname info)]
           else "") in
    if phaseChange || hostChange then msg +:+ newline else "".

Definition PodDiff_String `{MapRange} (d : gmap string podDiffInfo) (ignorePhases : gset string) : string :=
  fold_left (fun ret kv => ret +:+ pod_diff_line ignorePhases kv) (range "pod diff" d) "".

(** Two listings without a change between them print nothing. *)
Lemma pod_diff_unchanged `{MapRange} (d : gmap string podDiffInfo) :
  map_Forall (fun _ info => phase info <> nonExist /\ oldPhase info = phase info /\ oldHostname info = hostname info) d ->
  PodDiff_String d ∅ = "".
Proof.
  intros Hd. unfold PodDiff_String.
  assert (Forall (fun kv => pod_diff_line ∅ kv = "") (range "pod diff" d)) as Hf.
  { apply Forall_forall. intros [k info] Hin%elem_of_range. destruct (Hd k info Hin) as (Hp & Ho & Hh).
    unfold pod_diff_line. rewrite bool_decide_eq_false_2 by set_solver. destruct (String.eqb_spec (phase info) nonExist); [done|].
    by rewrite Ho, Hh, !String.eqb_refl. }
  assert (forall acc, fold_left (fun ret kv => ret +:+ pod_diff_line ∅ kv) (range "pod diff" d) acc = acc) as Hall; [|apply Hall].
  induction Hf as [|kv l Hkv _ IH]; intros acc; [done|]. cbn [fold_left]. by rewrite Hkv, string_app_nil_r.
Qed.
