(* ===== verification/Ssh.v ===== *)
(** * Commands over SSH (pkg/util/ssh_core.go, pkg/util/ssh.go)

    Which key and address are used, how often a connection is tried, directly
    or through a bastion, and what of the command's end is an error. Key files,
    connections and sessions are the operations of an interface; the environment
    is a map. The polls of [wait.PollUntilContextTimeout] are the rounds that fit
    before the deadline. *)

From S2P Require Import Prelude GoErrors Params Cluster ServiceLatency Provider.

Definition SSHPort : string := "22".
Definition sshBastionEnvKey : string := "KUBE_SSH_BASTION".

Definition environ : Type := gmap string string.
Definition Getenv (env : environ) (key : string) : string := default "" (env !! key).

(** ** [filepath.Join] on Unix *)

(** The components of a path, split at its slashes. *)
Fixpoint split_path (s : string) : list string :=
  match s with
  | "" => [""]
  | String a s' =>
      if Ascii.eqb a "/" then "" :: split_path s'
      else match split_path s' with
           | w :: ws => String a w :: ws
           | [] => [String a ""]
           end
  end.

(** The components that remain, the last one first. *)
Fixpoint clean_loop (rooted : bool) (l stack : list string) : list string :=
  match l with
  | [] => stack
  | w :: l' =>
      clean_loop rooted l'
        (if String.eqb w "" || String.eqb w "." then stack
         else if String.eqb w ".." then
           match stack with
           | top :: rest => if String.eqb top ".." then w :: stack else rest
           | [] => if rooted then [] else [w]
           end
         else w :: stack)
  end.

Definition IsAbs (path : string) : bool := match path with String a _ => Ascii.eqb a "/" | "" => false end.

Definition Clean (path : string) : string :=
  let rooted := IsAbs path in
  match rev (clean_loop rooted (split_path path) []) with
  | [] => if rooted then "/" else "."
  | l => (if rooted then "/" else "") +:+ join "/" l
  end.

Fixpoint Join (elem : list string) : string :=
  match elem with
  | [] => ""
  | e :: elem' => if String.eqb e "" then Join elem' else Clean (join "/" (e :: elem'))
  end.

(** ** Connections *)

(** The error of [session.Run]: the command ended with a status, or the session
    did not get that far. *)
Inductive run_error := ExitError (ExitStatus : Z) (err : error) | OtherError (err : error).

(** The i-th [Dial] for a command, the number of polls before the deadline, the
    forwarded connection of a bastion, and a session's run of a command. The
    connect timeout of the client config is its first argument. *)
Class Transport := {
  Signer : Type;
  SSHClient : Type;
  Session : Type;
  ReadFile : string -> result string;
  ParsePrivateKey : string -> result Signer;
  Dial : option Z -> string -> Signer -> string -> nat -> result SSHClient;
  polls : nat;
  deadline_exceeded : error;
  forward : SSHClient -> string -> result SSHClient;
  NewClientConn : SSHClient -> string -> result SSHClient;
  NewSession : SSHClient -> result Session;
  session_Run : Session -> string -> string * string * option run_error;
  DialTimeout : string -> option error;
}.

(** [wait.PollUntilContextTimeout] without an immediate first round. *)
Fixpoint Poll {A} (timeout : error) (condition : nat -> result (option A)) (i n : nat) : result A :=
  match n with
  | O => Err timeout
  | S n' =>
      match condition i with
      | Err err => Err err
      | Ok (Some a) => Ok a
      | Ok None => Poll timeout condition (S i) n'
      end
  end.

Section Ssh.
Context `{Transport} (env : environ).

Definition makePrivateKeySignerFromFile (key : string) : result Signer :=
  match ReadFile key with
  | Err err => Err (Errorf "error reading SSH key %s: %w" [AStr key; AWrap err])
  | Ok buffer =>
      match ParsePrivateKey buffer with
      | Err err => Err (Errorf "error parsing SSH key: %w" [AWrap err])
      | Ok signer => Ok signer
      end
  end.

(** The first of the variables that is set, or the default. *)
Fixpoint first_env (keys : list string) (def : string) : string :=
  match keys with
  | [] => def
  | k :: keys' => let keyfile := Getenv env k in if String.eqb keyfile "" then first_env keys' def else keyfile
  end.

Definition provider_keyfile (provider : string) : option string :=
  if bool_decide (provider ∈ ["gce"; "gke"; "kubemark"])
  then Some (first_env ["GCE_SSH_KEY"; "GCE_SSH_PRIVATE_KEY_FILE"] "google_compute_engine")
  else if bool_decide (provider ∈ ["aws"; "eks"]) then Some (first_env ["AWS_SSH_KEY"] "kube_aws_rsa")
  else if bool_decide (provider ∈ ["local"; "vsphere"]) then Some (first_env ["LOCAL_SSH_KEY"] "id_rsa")
  else if String.eqb provider "skeleton" then Some (first_env ["KUBE_SSH_KEY"] "id_rsa")
  else if String.eqb provider "azure" then Some (first_env ["AZURE_SSH_KEY"] "id_rsa")
  else None.

Definition GetSigner (provider : string) : result Signer :=
  let path := Getenv env "KUBE_SSH_KEY_PATH" in
  if negb (String.eqb path "") then makePrivateKeySignerFromFile path
  else
    match provider_keyfile provider with
    | None => Err (Errorf "GetSigner(...) not implemented for %s" [AStr provider])
    | Some keyfile =>
        makePrivateKeySignerFromFile
          (if IsAbs keyfile then keyfile else Join [Join [Getenv env "HOME"; ".ssh"]; keyfile])
    end.

(** The part both ways of running a command share: a status other than zero is
    an answer, status zero keeps the error. *)
Definition run_command (session : Session) (cmd user host : string) : string * string * Z * option error :=
  match session_Run session cmd with
  | (bout, berr, None) => (bout, berr, 0, None)
  | (bout, berr, Some (ExitError code err)) => (bout, berr, code, if negb (code =? 0) then None else Some err)
  | (bout, berr, Some (OtherError err)) =>
      (bout, berr, 0, Some (Errorf "failed running `%s` on %s@%s: %w" [AStr cmd; AStr user; AStr host; AWrap err]))
  end.

Definition runSSHCommand (cmd user host : string) (signer : Signer) : string * string * Z * option error :=
  let user := if String.eqb user "" then Getenv env "USER" else user in
  let dial := Dial None user signer host in
  match
    match dial 0%nat with
    | Ok client => Ok client
    | Err _ => Poll deadline_exceeded (fun i => match dial i with Err _ => Ok None | Ok client => Ok (Some client) end) 1 polls
    end
  with
  | Err err => ("", "", 0, Some (Errorf "error getting SSH client to %s@%s: %w" [AStr user; AStr host; AWrap err]))
  | Ok client =>
      match NewSession client with
      | Err err => ("", "", 0, Some (Errorf "error creating session to %s@%s: %w" [AStr user; AStr host; AWrap err]))
      | Ok session => run_command session cmd user host
      end
  end.

Definition bastion_timeout : Z := 150 * Duration.Second.

Definition runSSHCommandViaBastion (cmd user bastion host : string) (signer : Signer) : string * string * Z * option error :=
  let dial := Dial (Some bastion_timeout) user signer bastion in
  match
    match dial 0%nat with
    | Ok client => Ok client
    | Err _ => Poll deadline_exceeded (fun i => match dial i with Err err => Err err | Ok client => Ok (Some client) end) 1 polls
    end
  with
  | Err err => ("", "", 0, Some (Errorf "error getting SSH client to %s@%s: %w" [AStr user; AStr bastion; AWrap err]))
  | Ok bastionClient =>
      match forward bastionClient host with
      | Err err => ("", "", 0, Some (Errorf "error dialing %s from bastion: %w" [AStr host; AWrap err]))
      | Ok conn =>
          match NewClientConn conn host with
          | Err err => ("", "", 0, Some (Errorf "error creating forwarding connection %s from bastion: %w" [AStr host; AWrap err]))
          | Ok client =>
              match NewSession client with
              | Err err =>
                  ("", "", 0, Some (Errorf "error creating session to %s@%s from bastion: %w" [AStr user; AStr host; AWrap err]))
              | Ok session => run_command session cmd user host
              end
          end
      end
  end.

Record Result := mkResult { User : string; Host : string; Cmd : string; Stdout : string; Stderr : string; Code : Z }.

Definition SSH (cmd host provider : string) : Result * option error :=
  match GetSigner provider with
  | Err err => (mkResult "" host cmd "" "" 0, Some (Errorf "error getting signer for provider %s: %w" [AStr provider; AWrap err]))
  | Ok signer =>
      let user := first_env ["KUBE_SSH_USER"] (Getenv env "USER") in
      let bastion := Getenv env sshBastionEnvKey in
      let '(stdout, stderr, code, err) :=
        if negb (String.eqb bastion "") then runSSHCommandViaBastion cmd user bastion host signer
        else runSSHCommand cmd user host signer in
      (mkResult user host cmd stdout stderr code, err)
  end.

(** The lines written to the log. *)
Definition LogResult (result : Result) : list string :=
  let remote := Sprintf "%s@%s" [FStr (User result); FStr (Host result)] in
  [Sprintf "ssh %s: command:   %s" [FStr remote; FStr (Cmd result)];
   Sprintf "ssh %s: stdout:    %q" [FStr remote; FStr (Stdout result)];
   Sprintf "ssh %s: stderr:    %q" [FStr remote; FStr (Stderr result)];
   Sprintf "ssh %s: exit code: %d" [FStr remote; FInt (Code result)]].

(** ** The hosts *)

Definition NodeExternalIP : string := "ExternalIP".
Definition NodeInternalIP : string := "InternalIP".

(** The first non-empty address of the type, [""] for none. *)
Fixpoint ssh_host (addrType : string) (l : list NodeAddress) : string :=
  match l with
  | [] => ""
  | a :: l' =>
      if String.eqb (addr_Type a) addrType && negb (String.eqb (addr_Address a) "") then JoinHostPort (addr_Address a) SSHPort
      else ssh_host addrType l'
  end.

Definition IssueSSHCommandWithResult (cmd provider : string) (n : node) : result Result :=
  let host := ssh_host NodeExternalIP (Addresses n) in
  let host := if String.eqb host "" then ssh_host NodeInternalIP (Addresses n) else host in
  if String.eqb host "" then Err (Errorf "couldn't find any IP address for node %s" [AStr (node_Name n)])
  else
    let '(result, err) := SSH cmd host provider in
    match err with
    | None =>
        if negb (Code result =? 0) then
          Err (Errorf "failed running %q: <nil> (exit code %d, stderr %v)" [AStr cmd; AInt (Code result); AStr (Stderr result)])
        else Ok result
    | Some err =>
        Err (Errorf "failed running %q: %v (exit code %d, stderr %v)" [AStr cmd; AErr err; AInt (Code result); AStr (Stderr result)])
    end.

Definition IssueSSHCommand (cmd provider : string) (n : node) : option error :=
  match IssueSSHCommandWithResult cmd provider n with Err err => Some err | Ok _ => None end.

Fixpoint nodeAddresses (nodelist : list node) (addrType : string) : list string :=
  match nodelist with
  | [] => []
  | n :: nodelist' => address_loop addrType (Addresses n) ++ nodeAddresses nodelist' addrType
  end.

Definition canConnect (host : string) : bool :=
  match env !! sshBastionEnvKey with
  | Some _ => true
  | None => match DialTimeout (JoinHostPort host SSHPort) with Some _ => false | None => true end
  end.

(** The answer of the API server to the listing of the nodes with
    [spec.unschedulable=false], per round: a poll whose condition returns its
    error is over. *)
Definition waitListSchedulableNodes (List : nat -> result (list node)) (n : nat) : list node * option error :=
  match Poll deadline_exceeded (fun i => match List i with Err err => Err err | Ok nodes => Ok (Some nodes) end) 0 (S n) with
  | Ok nodes => (nodes, None)
  | Err err => ([], Some err)
  end.

(** A failed gomega expectation panics. *)
Definition waitListSchedulableNodesOrDie (List : nat -> result (list node)) (n : nat) : option (list node) :=
  match waitListSchedulableNodes List n with
  | (_, Some _) => None
  | (nodes, None) => Some nodes
  end.

(** The goroutines append under a lock in the order [done]; of the nodes in the
    message the names are kept. *)
Definition NodeSSHHosts (List : nat -> result (list node)) (n : nat) (done : list string -> list string)
  : option (list string * option error) :=
  nodelist ← waitListSchedulableNodesOrDie List n;
  let hosts := nodeAddresses nodelist NodeExternalIP in
  let hosts := if (length hosts <? length nodelist)%nat then nodeAddresses nodelist NodeInternalIP else hosts in
  if negb (length hosts =? length nodelist)%nat then
    Some (hosts, Some (Errorf "only found %d IPs on nodes, but found %d nodes. Nodelist: %v"
                         [AInt (Z.of_nat (length hosts)); AInt (Z.of_nat (length nodelist)); AStr (join " " (node_Name <$> nodelist))]))
  else Some (omap (fun host => if canConnect host then Some (JoinHostPort host SSHPort) else None) (done hosts), None).

(** [GCloudSSHExecutor.Exec]; the external program is an argument. *)
Definition GCloud_Exec (gcloud : list string -> option error) (command : string) (n : node) : option error :=
  let run zone := gcloud ["compute"; "ssh"; "--zone"; zone; "--command"; command; node_Name n] in
  match node_Labels n !! "topology.kubernetes.io/zone" with
  | Some zone => run zone
  | None =>
      match node_Labels n !! "failure-domain.beta.kubernetes.io/zone" with
      | Some zone => run zone
      | None => Some (Errorf "unknown zone for %q node: no topology-related labels" [AStr (node_Name n)])
      end
  end.

(** ** What a successful call means *)

(** A client is the answer of the first attempt that succeeds, of at most
    [limit] attempts after the first. *)
Definition reached {A} (dial : nat -> result A) (limit : nat) (client : A) : Prop :=
  exists i, (i <= limit)%nat /\ dial i = Ok client /\ forall j, (j < i)%nat -> is_ok (dial j) = false.

Lemma poll_direct {A} (dial : nat -> result A) timeout i n client :
  Poll timeout (fun i => match dial i with Err _ => Ok None | Ok c => Ok (Some c) end) i n = Ok client <->
  exists k, (k < n)%nat /\ dial (i + k)%nat = Ok client /\ forall j, (j < k)%nat -> is_ok (dial (i + j)%nat) = false.
Proof using.
  revert i. induction n as [|n IH]; intros i; cbn [Poll]; [split; [done|intros (k & ? & _); lia]|].
  destruct (dial i) as [c|e] eqn:Hd; [split|rewrite IH; split].
  - intros [= ->]. exists 0%nat. rewrite Nat.add_0_r. split_and!; [lia|done|lia].
  - intros ([|k] & Hk & Hc & Hj); [rewrite Nat.add_0_r in Hc; congruence|].
    specialize (Hj 0%nat ltac:(lia)). rewrite Nat.add_0_r, Hd in Hj. done.
  - intros (k & Hk & Hc & Hj). exists (S k). rewrite Nat.add_succ_r. split_and!; [lia|done|].
    intros [|j] ?; [by rewrite Nat.add_0_r, Hd|rewrite Nat.add_succ_r; apply Hj; lia].
  - intros ([|k] & Hk & Hc & Hj); [rewrite Nat.add_0_r in Hc; congruence|].
    exists k. rewrite Nat.add_succ_r in Hc. split_and!; [lia|done|].
    intros j ?. specialize (Hj (S j) ltac:(lia)). by rewrite Nat.add_succ_r in Hj.
Qed.

Lemma dial_direct {A} (dial : nat -> result A) timeout n client :
  match dial 0%nat with
  | Ok c => Ok c
  | Err _ => Poll timeout (fun i => match dial i with Err _ => Ok None | Ok c => Ok (Some c) end) 1 n
  end = Ok client <-> reached dial n client.
Proof using.
  unfold reached. destruct (dial 0%nat) as [c|e] eqn:Hd; [split|rewrite poll_direct; split].
  - intros [= ->]. exists 0%nat. split_and!; [lia|done|lia].
  - intros ([|i] & Hi & Hc & Hj); [congruence|]. specialize (Hj 0%nat ltac:(lia)). by rewrite Hd in Hj.
  - intros (k & Hk & Hc & Hj). exists (S k). split_and!; [lia|done|]. intros [|j] ?; [by rewrite Hd|apply Hj; lia].
  - intros ([|i] & Hi & Hc & Hj); [congruence|]. exists i. split_and!; [lia|done|]. intros j ?. apply (Hj (S j)). lia.
Qed.

(** The condition for the bastion returns the error of the attempt, which ends
    the poll: there is one more attempt, not one per interval. *)
Lemma dial_bastion {A} (dial : nat -> result A) timeout n client :
  match dial 0%nat with
  | Ok c => Ok c
  | Err _ => Poll timeout (fun i => match dial i with Err err => Err err | Ok c => Ok (Some c) end) 1 n
  end = Ok client <-> reached dial (n `min` 1) client.
Proof using.
  rewrite <- (dial_direct _ timeout). destruct (dial 0%nat) as [c|e]; [done|].
  destruct n as [|n]; [done|]. replace (S n `min` 1)%nat with 1%nat by lia. cbn [Poll]. by destruct (dial 1%nat).
Qed.

Definition ssh_user : string := first_env ["KUBE_SSH_USER"] (Getenv env "USER").

(** A session on a host, directly or through the bastion of the environment. *)
Inductive opened (signer : Signer) (host : string) : Session -> Prop :=
| opened_directly client session :
    Getenv env sshBastionEnvKey = "" -> reached (Dial None ssh_user signer host) polls client ->
    NewSession client = Ok session -> opened signer host session
| opened_via_bastion bastion conn client session :
    Getenv env sshBastionEnvKey <> "" ->
    reached (Dial (Some bastion_timeout) ssh_user signer (Getenv env sshBastionEnvKey)) (polls `min` 1) bastion ->
    forward bastion host = Ok conn -> NewClientConn conn host = Ok client ->
    NewSession client = Ok session -> opened signer host session.

(** The command ended: with status zero, or with the other one reported. *)
Definition ended (session : Session) (cmd out stderr : string) (code : Z) : Prop :=
  session_Run session cmd = (out, stderr, None) /\ code = 0 \/
  exists err, session_Run session cmd = (out, stderr, Some (ExitError code err)) /\ code <> 0.

Lemma run_command_ok session cmd user host out stderr code :
  run_command session cmd user host = (out, stderr, code, None) <-> ended session cmd out stderr code.
Proof using.
  unfold run_command, ended. destruct (session_Run session cmd) as [[o e] [[st x|x]|]]; cbn.
  - destruct (Z.eqb_spec st 0) as [->|Hst]; cbn; split.
    + done.
    + intros [[? _]|(y & [= -> -> <- <-] & ?)]; done.
    + intros [= -> -> ->]. right. by exists x.
    + intros [[? _]|(y & [= -> -> -> ->] & ?)]; done.
  - split; [done|]. by intros [[? _]|(y & ? & _)].
  - split; [intros [= -> -> <-]; by left|]. intros [[[= -> ->] ->]|(y & ? & _)]; done.
Qed.

Lemma inner_user : (if String.eqb ssh_user "" then Getenv env "USER" else ssh_user) = ssh_user.
Proof using.
  unfold ssh_user. cbn. destruct (String.eqb (Getenv env "KUBE_SSH_USER") "") eqn:Hk.
  - by destruct (String.eqb (Getenv env "USER") "").
  - by rewrite Hk.
Qed.

Lemma runSSHCommand_ok cmd host signer out stderr code :
  Getenv env sshBastionEnvKey = "" ->
  runSSHCommand cmd ssh_user host signer = (out, stderr, code, None) <->
  exists session, opened signer host session /\ ended session cmd out stderr code.
Proof using.
  intros Hb. unfold runSSHCommand. rewrite inner_user. split.
  - case_match eqn:Hd; [|done]. apply dial_direct in Hd. destruct (NewSession _) as [session|] eqn:Hs; [|done].
    rewrite run_command_ok. intros ?. exists session. split; [by eapply opened_directly|done].
  - intros (session & [client session' _ Hr Hs|] & He); [|done]. apply (dial_direct _ deadline_exceeded) in Hr.
    rewrite Hr, Hs. by apply run_command_ok.
Qed.

Lemma runSSHCommandViaBastion_ok cmd host signer out stderr code :
  Getenv env sshBastionEnvKey <> "" ->
  runSSHCommandViaBastion cmd ssh_user (Getenv env sshBastionEnvKey) host signer = (out, stderr, code, None) <->
  exists session, opened signer host session /\ ended session cmd out stderr code.
Proof using.
  intros Hb. unfold runSSHCommandViaBastion. split.
  - case_match eqn:Hd; [|done]. apply dial_bastion in Hd.
    destruct (forward _ _) as [conn|] eqn:Hf; [|done]. destruct (NewClientConn _ _) as [client|] eqn:Hc; [|done].
    destruct (NewSession _) as [session|] eqn:Hs; [|done].
    rewrite run_command_ok. intros ?. exists session. split; [by eapply opened_via_bastion|done].
  - intros (session & [|bastion conn client session' _ Hr Hf Hc Hs] & He); [done|].
    apply (dial_bastion _ deadline_exceeded) in Hr. rewrite Hr, Hf, Hc, Hs. by apply run_command_ok.
Qed.

(** SSH returns no error exactly when there is a signer, one of the attempts
    opened a session and the command ended on the host; the result then holds
    its output and status. *)
Lemma SSH_ok cmd host provider r :
  SSH cmd host provider = (r, None) <->
  exists signer session, GetSigner provider = Ok signer /\ opened signer host session /\
    ended session cmd (Stdout r) (Stderr r) (Code r) /\ User r = ssh_user /\ Host r = host /\ Cmd r = cmd.
Proof using.
  unfold SSH. destruct (GetSigner provider) as [signer|e]; [|split; [done|by intros (? & ? & ? & _)]].
  fold ssh_user.
  assert (forall out stderr code,
    (if negb (String.eqb (Getenv env sshBastionEnvKey) "") then runSSHCommandViaBastion cmd ssh_user (Getenv env sshBastionEnvKey) host signer
     else runSSHCommand cmd ssh_user host signer) = (out, stderr, code, None) <->
    exists session, opened signer host session /\ ended session cmd out stderr code) as Hrun.
  { intros out stderr code. destruct (String.eqb_spec (Getenv env sshBastionEnvKey) "") as [Hb|Hb]; cbn [negb];
      [by apply runSSHCommand_ok|by apply runSSHCommandViaBastion_ok]. }
  destruct (if negb _ then _ else _) as [[[out stderr] code] err]. destruct r as [u h c' o se co]. cbn. split.
  - intros [= <- <- <- <- <- <- ->]. destruct (proj1 (Hrun _ _ _) eq_refl) as (session & ? & ?). by exists signer, session.
  - intros (s & session & [= <-] & Ho & He & -> & -> & ->). specialize (proj2 (Hrun _ _ _) (ex_intro _ session (conj Ho He))).
    by intros [= <- <- <- <-].
Qed.

(** ** The node's address *)

Definition addresses_of (addrType : string) (n : node) : list string :=
  addr_Address <$> filter (fun a => addr_Type a = addrType /\ addr_Address a <> "") (Addresses n).

(** The first external address, or else the first internal one. *)
Definition preferred_address (n : node) : option string :=
  head (addresses_of NodeExternalIP n ++ addresses_of NodeInternalIP n).

Lemma address_loop_head addrType l :
  address_loop addrType l = option_list (head (addr_Address <$> filter (fun a => addr_Type a = addrType /\ addr_Address a <> "") l)).
Proof using.
  induction l as [|a l IH]; [done|]. cbn [address_loop]. rewrite filter_cons.
  destruct (String.eqb_spec (addr_Type a) addrType), (String.eqb_spec (addr_Address a) ""); cbn [andb negb]; case_decide; naive_solver.
Qed.

Lemma ssh_host_head addrType l :
  ssh_host addrType l =
  default "" ((fun a => JoinHostPort a SSHPort) <$> head (addr_Address <$> filter (fun a => addr_Type a = addrType /\ addr_Address a <> "") l)).
Proof using.
  induction l as [|a l IH]; [done|]. cbn [ssh_host]. rewrite filter_cons.
  destruct (String.eqb_spec (addr_Type a) addrType), (String.eqb_spec (addr_Address a) ""); cbn [andb negb]; case_decide; naive_solver.
Qed.

Lemma JoinHostPort_nonempty host : String.eqb (JoinHostPort host SSHPort) "" = false.
Proof using. unfold JoinHostPort. destruct (_ || _); [done|]. by destruct host. Qed.

Lemma issue_host n :
  (if String.eqb (ssh_host NodeExternalIP (Addresses n)) "" then ssh_host NodeInternalIP (Addresses n)
   else ssh_host NodeExternalIP (Addresses n)) = default "" ((fun a => JoinHostPort a SSHPort) <$> preferred_address n).
Proof using.
  rewrite !ssh_host_head. unfold preferred_address, addresses_of. destruct (filter _ (Addresses n)) as [|a l]; [done|].
  cbn. by rewrite JoinHostPort_nonempty.
Qed.

(** A command on a node succeeds exactly when the node has an address, a
    session to port 22 of the preferred one could be opened in one of the
    attempts with the signer of the provider, and the command ended with status
    zero; the result then holds what the command wrote. *)
Theorem issue_succeeds_iff cmd provider n r :
  IssueSSHCommandWithResult cmd provider n = Ok r <->
  exists a signer session, preferred_address n = Some a /\ GetSigner provider = Ok signer /\
    opened signer (JoinHostPort a SSHPort) session /\ session_Run session cmd = (Stdout r, Stderr r, None) /\
    r = mkResult ssh_user (JoinHostPort a SSHPort) cmd (Stdout r) (Stderr r) 0.
Proof using.
  unfold IssueSSHCommandWithResult. rewrite issue_host. destruct (preferred_address n) as [a|]; cbn;
    [|split; [done|by intros (? & ? & ? & ? & _)]].
  rewrite JoinHostPort_nonempty. destruct (SSH cmd (JoinHostPort a SSHPort) provider) as [r' err] eqn:Hs.
  split.
  - destruct err as [e|]; [done|]. destruct (Z.eqb_spec (Code r') 0) as [Hc|]; [|done]. intros [= ->].
    apply SSH_ok in Hs as (signer & session & Hg & Ho & [[He _]|(x & _ & ?)] & Hu & Hh & Hcmd); [|done].
    exists a, signer, session. split_and!; [done..|]. destruct r; cbn in *; congruence.
  - intros (a' & signer & session & [= <-] & Hg & Ho & He & Hr).
    assert (SSH cmd (JoinHostPort a SSHPort) provider = (r, None)) as Hs'.
    { apply SSH_ok. exists signer, session. rewrite Hr. cbn. split_and!; [done..| |done|done|done]. by left. }
    rewrite Hs in Hs'. injection Hs' as -> ->. by rewrite Hr.
Qed.

(** ** Hosts for SSH *)

Lemma nodeAddresses_spec nodelist addrType :
  nodeAddresses nodelist addrType = omap (fun n => head (addresses_of addrType n)) nodelist.
Proof using.
  induction nodelist as [|n l IH]; [done|]. cbn [nodeAddresses omap list_omap]. rewrite IH, address_loop_head.
  fold (addresses_of addrType n). by destruct (head (addresses_of addrType n)).
Qed.

Definition all_have (addrType : string) (nodelist : list node) : Prop :=
  Forall (fun n => addresses_of addrType n <> []) nodelist.

Lemma length_all_have nodelist addrType :
  (length (nodeAddresses nodelist addrType) <= length nodelist)%nat /\
  (length (nodeAddresses nodelist addrType) = length nodelist <-> all_have addrType nodelist).
Proof using.
  rewrite nodeAddresses_spec. unfold all_have. induction nodelist as [|n l [IH1 IH2]]; [by split; [|split; intros; [constructor|]]|].
  cbn [omap list_omap length]. destruct (addresses_of addrType n) as [|a w] eqn:Ha; cbn [head length].
  - split; [lia|]. split; [lia|]. intros Hf. inversion Hf; congruence.
  - split; [lia|]. rewrite Forall_cons. rewrite <- IH2. split; [intros; split; [congruence|lia]|lia].
Qed.

(** With an answer to its one listing of the nodes, NodeSSHHosts fails exactly
    when neither all nodes have an external nor all have an internal address;
    otherwise it returns, in some order, port 22 of the first external (or, if a
    node has none, internal) address of every node that accepts a connection.
    Without an answer it panics: the listing is not repeated. *)
Theorem ssh_hosts_correct List n done :
  (forall l, done l ≡ₚ l) ->
  (NodeSSHHosts List n done = None <-> is_ok (List 0%nat) = false) /\
  forall nodelist, List 0%nat = Ok nodelist ->
  exists hosts err, NodeSSHHosts List n done = Some (hosts, err) /\
    (err = None <-> all_have NodeExternalIP nodelist \/ all_have NodeInternalIP nodelist) /\
    (err = None ->
       exists addrType, all_have addrType nodelist /\ addrType ∈ [NodeExternalIP; NodeInternalIP] /\
         (all_have NodeExternalIP nodelist -> addrType = NodeExternalIP) /\
         hosts ≡ₚ ((fun a => JoinHostPort a SSHPort) <$>
                   filter (fun a => canConnect a = true) (omap (fun n => head (addresses_of addrType n)) nodelist))).
Proof using.
  intros Hdone. unfold NodeSSHHosts, waitListSchedulableNodesOrDie, waitListSchedulableNodes. cbn [Poll].
  destruct (List 0%nat) as [nodelist|e]; cbn [mbind option_bind is_ok]; [|by split].
  destruct (length_all_have nodelist NodeExternalIP) as [Hle1 Heq1], (length_all_have nodelist NodeInternalIP) as [Hle2 Heq2].
  assert (forall l : list string, omap (fun host => if canConnect host then Some (JoinHostPort host SSHPort) else None) l =
    (fun a => JoinHostPort a SSHPort) <$> filter (fun a => canConnect a = true) l) as Homap.
  { induction l as [|x l IH]; [reflexivity|]. cbn [omap list_omap]. rewrite filter_cons, IH. destruct (canConnect x); case_decide; done. }
  split; [split; [|discriminate]; by destruct (negb _)|]. intros l [= <-].
  destruct (Nat.ltb_spec (length (nodeAddresses nodelist NodeExternalIP)) (length nodelist)) as [Hlt|Hge].
  - destruct (Nat.eqb_spec (length (nodeAddresses nodelist NodeInternalIP)) (length nodelist)) as [Heq|Hne]; cbn [negb];
      eexists _, _; (split; [reflexivity|]).
    + split; [split; [intros _; right; by apply Heq2|reflexivity]|]. intros _. exists NodeInternalIP. split_and!.
      * by apply Heq2.
      * set_solver.
      * intros Ha%Heq1. lia.
      * by rewrite Homap, <- nodeAddresses_spec, Hdone.
    + split; [split; [discriminate|]; intros [Ha%Heq1|Ha%Heq2]; lia|discriminate].
  - destruct (Nat.eqb_spec (length (nodeAddresses nodelist NodeExternalIP)) (length nodelist)) as [Heq|Hne]; cbn [negb]; [|lia].
    eexists _, _. split; [reflexivity|].
    split; [split; [intros _; left; by apply Heq1|reflexivity]|]. intros _. exists NodeExternalIP. split_and!.
    + by apply Heq1.
    + set_solver.
    + reflexivity.
    + by rewrite Homap, <- nodeAddresses_spec, Hdone.
Qed.

(** ** Commands of a provider *)

(** [sshutil.SSH] as the providers call it. *)
Definition provider_SSH (cmd host key : string) : string * string * Z * option error :=
  let '(r, err) := SSH cmd host key in (Stdout r, Stderr r, Code r, err).

Lemma ssh_key_of opts p :
  NewProvider opts = Returns p -> prov_Features p SupportSSHToMaster = true ->
  exists key, prov_RunSSHCommand p = SSHWithKeyOf key /\ is_Some (provider_keyfile key).
Proof using.
  unfold NewProvider. destruct (parseConfigs _) as [cfg| |]; [|done..]. cbn [mbind outcome_bind].
  generalize (if String.eqb (KubemarkRootKubeConfigPath opts) "" then cfg
              else <[RootKubeConfigKey := KubemarkRootKubeConfigPath opts]> cfg). intros configs.
  repeat (destruct (String.eqb (ProviderName opts) _); [intros [= <-] Hf; first [done|eexists; split; [reflexivity|eexists; reflexivity]]|]).
  done.
Qed.

(** C40: On a provider that says it supports SSH to the masters, a command
    returns no error exactly when a signer could be made from the provider's
    key, a session to the host could be opened (directly at one of the dials
    before the deadline, or at one of the first two to the bastion of the
    environment and from there), and the command ended there, whatever its
    status; output and status are then the command's. *)
Theorem provider_command_correct opts p cmd host out stderr code :
  NewProvider opts = Returns p -> prov_Features p SupportSSHToMaster = true ->
  exists key, prov_RunSSHCommand p = SSHWithKeyOf key /\ is_Some (provider_keyfile key) /\
    (RunSSHCommand provider_SSH p cmd host = (out, stderr, code, None) <->
       exists signer session, GetSigner key = Ok signer /\ opened signer host session /\ ended session cmd out stderr code).
Proof using.
  intros Hp Hf. destruct (ssh_key_of _ _ Hp Hf) as (key & Hkey & Hfile). exists key. split; [done|]. split; [done|].
  unfold RunSSHCommand, provider_SSH. rewrite Hkey. destruct (SSH cmd host key) as [r err] eqn:Hs. split.
  - intros [= <- <- <- ->]. apply SSH_ok in Hs as (signer & session & ? & ? & ? & _). by exists signer, session.
  - intros (signer & session & Hg & Ho & He).
    assert (SSH cmd host key = (mkResult ssh_user host cmd out stderr code, None)) as Hs'.
    { apply SSH_ok. by exists signer, session. }
    rewrite Hs in Hs'. by injection Hs' as -> ->.
Qed.
End Ssh.

(** ** Examples *)

Example clean_examples :
  map Clean [""; "/"; "a//b/./c"; "a/../../b"; "/../a"; "a/b/.."; "./"] = ["."; "/"; "a/b/c"; "../b"; "/a"; "a"; "."].
Proof. reflexivity. Qed.

(** The second attempt reaches the host; its command exits with status 3. *)
#[local] Instance ex_transport : Transport := {|
  Signer := string; SSHClient := string; Session := string;
  ReadFile := Ok; ParsePrivateKey := Ok;
  Dial := fun _ user key host i => if (i <? 2)%nat then Err (External "refused") else Ok (user +:+ "/" +:+ key +:+ "/" +:+ host);
  polls := 3; deadline_exceeded := External "context deadline exceeded";
  forward := fun c host => Ok (c +:+ ">" +:+ host); NewClientConn := fun c _ => Ok c; NewSession := Ok;
  session_Run := fun s cmd => if String.eqb cmd "true" then (s, "", None) else (s, "", Some (ExitError 3 (External "exited")));
  DialTimeout := fun _ => None |}.

Definition ex_node : node := mkNode "n" ∅ false [] [] [mkNodeAddress "InternalIP" "10.0.0.1"].
Definition ex_env : environ := {["USER" := "me"; "HOME" := "/root/../home"]}.
Definition ex_bastion : environ := <[sshBastionEnvKey := "b"]> ex_env.

Example direct_retries :
  IssueSSHCommandWithResult ex_env "true" "gce" ex_node =
  Ok (mkResult "me" "10.0.0.1:22" "true" "me//home/.ssh/google_compute_engine/10.0.0.1:22" "" 0).
Proof. vm_compute. reflexivity. Qed.

Example status_is_failure :
  (SSH ex_env "false" "h" "aws").2 = None /\ is_ok (IssueSSHCommandWithResult ex_env "false" "aws" ex_node) = false.
Proof. vm_compute. by split. Qed.

(** The same host behind a bastion that comes up as late is given up. *)
Example bastion_gives_up : (SSH ex_env "true" "h" "aws").2 = None /\ (SSH ex_bastion "true" "h" "aws").2 <> None.
Proof. vm_compute. by split. Qed.

Lemma provider_command_correct_witness :
  exists p, NewProvider (mkInitOptions "" "gce" []) = Returns p /\ prov_Features p SupportSSHToMaster = true /\
    exists signer session, GetSigner ex_env "gce" = Ok signer /\ opened ex_env signer "h:22" session /\
      ended session "false" "me//home/.ssh/google_compute_engine/h:22" "" 3.
Proof.
  eexists. split; [reflexivity|]. split; [reflexivity|].
  destruct (provider_command_correct ex_env (mkInitOptions "" "gce" []) _ "false" "h:22"
    "me//home/.ssh/google_compute_engine/h:22" "" 3 eq_refl eq_refl) as (key & Hk & _ & [Hrun _]).
  injection Hk as <-. apply Hrun. vm_compute. reflexivity.
Defined.
