(* ===== verification/PromClients.v ===== *)
(** * Clients of Prometheus and of the API server

    The clients that send a query to Prometheus (pkg/prometheus/clients), the
    snapshot of its database (makeSnapshot in pkg/prometheus/util.go and
    snapshotPrometheusIfEnabled), and the rest config every client is built from
    (pkg/framework/config/client_config.go). The HTTP transport, credentials and
    the API server are operations of interfaces. *)

From S2P Require Import Prelude GoErrors Params.

(** ** Query strings: [url.Values.Encode] *)

Definition hex_upper (n : N) : Ascii.ascii := Ascii.ascii_of_N (if (n <? 10)%N then 48 + n else 55 + n)%N.

(** Letters, digits and [-_.~] stand for themselves in a query component. *)
Definition unreserved (a : Ascii.ascii) : bool :=
  let n := Ascii.N_of_ascii a in
  ((48 <=? n)%N && (n <=? 57)%N) || ((65 <=? n)%N && (n <=? 90)%N) || ((97 <=? n)%N && (n <=? 122)%N)
  || Ascii.eqb a "-" || Ascii.eqb a "_" || Ascii.eqb a "." || Ascii.eqb a "~".

Fixpoint QueryEscape (s : string) : string :=
  match s with
  | "" => ""
  | String a s' =>
      if Ascii.eqb a " " then String "+" (QueryEscape s')
      else if unreserved a then String a (QueryEscape s')
      else let n := Ascii.N_of_ascii a in
        String "%" (String (hex_upper (n / 16)) (String (hex_upper (n mod 16)) (QueryEscape s')))
  end.

(** The pairs are in the order of their keys. *)
Definition Encode (values : list (string * string)) : string :=
  join "&" ((fun kv => QueryEscape kv.1 +:+ "=" +:+ QueryEscape kv.2) <$> values).

(** What a server reads back ([url.QueryUnescape]). *)
Definition unhex (a : Ascii.ascii) : option N :=
  let n := Ascii.N_of_ascii a in
  if (48 <=? n)%N && (n <=? 57)%N then Some (n - 48)%N
  else if (65 <=? n)%N && (n <=? 70)%N then Some (n - 55)%N
  else if (97 <=? n)%N && (n <=? 102)%N then Some (n - 87)%N
  else None.

Fixpoint QueryUnescape (s : string) : option string :=
  match s with
  | "" => Some ""
  | String "+" s' => String " " <$> QueryUnescape s'
  | String "%" (String h (String l s')) =>
      h ← unhex h; l ← unhex l; String (Ascii.ascii_of_N (16 * h + l)) <$> QueryUnescape s'
  | String "%" _ => None
  | String a s' => String a <$> QueryUnescape s'
  end.

(** ** The clients *)

Record response := mkResponse { StatusCode : Z; ReadAll : string * option error }.

(** Requests by their URL and headers; [NewRequest] rejects a URL that does not
    parse; tokens and default clients come from the cloud libraries. *)
Class Http := {
  NewRequest : string -> option error;
  http_Do : string -> list (string * string) -> result response;
  GetToken : string -> result string;
  DefaultClient : string -> option error;
  NewDefaultAzureCredential : option error;
  ProxyGet : list (string * string) -> result string;
  Format_RFC3339 : Z -> string;
}.

Record aksManagedPrometheusClient := mkAks { aks_uri : string; aks_headers : list (string * string) }.
Record gcpManagedPrometheusClient := mkGcp { gcp_uri : string }.

Section Clients.
Context `{Http}.

(** The parameters of a query; their keys are in order. *)
Definition query_params (query : string) (queryTime : Z) : list (string * string) :=
  [("query", query); ("time", Format_RFC3339 queryTime)].

Definition bad_status (code : Z) : error := Errorf "response failed with status code %d" [AInt code].

Definition inCluster_Query (query : string) (queryTime : Z) : string * option error :=
  match ProxyGet (query_params query queryTime) with Ok b => (b, None) | Err err => ("", Some err) end.

(** The endpoint has no query string of its own, which would be kept. *)
Definition aks_Query (mpc : aksManagedPrometheusClient) (query : string) (queryTime : Z) : string * option error :=
  match NewRequest (aks_uri mpc) with
  | Some err => ("", Some err)
  | None =>
      match http_Do (aks_uri mpc +:+ "?" +:+ Encode (query_params query queryTime)) (aks_headers mpc) with
      | Err err => ("", Some err)
      | Ok resp =>
          match ReadAll resp with
          | (_, Some err) => ("", Some err)
          | (respBody, None) =>
              if 299 <? StatusCode resp then (respBody, Some (bad_status (StatusCode resp))) else (respBody, None)
          end
      end
  end.

Definition gcp_Query (mpc : gcpManagedPrometheusClient) (query : string) (queryTime : Z) : string * option error :=
  match http_Do (gcp_uri mpc +:+ "?" +:+ Encode (query_params query queryTime)) [] with
  | Err err => ("", Some err)
  | Ok res =>
      let '(resBody, err) := ReadAll res in
      if 299 <? StatusCode res then (resBody, Some (bad_status (StatusCode res)))
      else match err with Some err => ("", Some err) | None => (resBody, None) end
  end.

Definition tokenRequestContext : string := "https://prometheus.monitor.azure.com/.default".

Definition getPromQLToken : result string := GetToken tokenRequestContext.

Definition NewAKSManagedPrometheusClient (Getenv : string -> string) : result aksManagedPrometheusClient :=
  let endpoint := Getenv "AZURE_QUERY_ENDPOINT" in
  if String.eqb endpoint "" then Err (Errorf "environment variable AZURE_QUERY_ENDPOINT is not set" [])
  else
    match NewDefaultAzureCredential with
    | Some err => Err err
    | None =>
        match getPromQLToken with
        | Err err => Err err
        | Ok promQLToken =>
            Ok (mkAks (Sprintf "%s/api/v1/query" [FStr endpoint]) [("Authorization", "Bearer " +:+ promQLToken)])
        end
    end.

Definition NewGCPManagedPrometheusClient (Getenv : string -> string) : result gcpManagedPrometheusClient :=
  match DefaultClient "https://www.googleapis.com/auth/monitoring.read" with
  | Some err => Err err
  | None =>
      Ok (mkGcp (Sprintf "https://monitoring.googleapis.com/v1/projects/%s/location/global/prometheus/api/v1/query"
                   [FStr (Getenv "PROJECT")]))
  end.
End Clients.

(** ** Theorems on queries *)

Lemma unescape_byte :
  forall a rest, QueryUnescape (QueryEscape (String a rest)) = String a <$> QueryUnescape (QueryEscape rest).
Proof.
  intros a rest. cbn [QueryEscape]. generalize (QueryEscape rest). intros s.
  destruct a as [[] [] [] [] [] [] [] []]; reflexivity.
Qed.

(** Escaping loses nothing. *)
Lemma escape_roundtrip s : QueryUnescape (QueryEscape s) = Some s.
Proof. induction s as [|a s IH]; [done|]. by rewrite unescape_byte, IH. Qed.

Fixpoint split_at (c : Ascii.ascii) (s : string) : list string :=
  match s with
  | "" => [""]
  | String a s' =>
      if Ascii.eqb a c then "" :: split_at c s'
      else match split_at c s' with w :: ws => String a w :: ws | [] => [String a ""] end
  end.

(** How the server reads a query string ([url.ParseQuery]). *)
Definition ParseQuery (s : string) : option (list (string * string)) :=
  mapM (fun kv => match split_at "=" kv with
                  | [k; v] => k ← QueryUnescape k; v ← QueryUnescape v; Some (k, v)
                  | _ => None
                  end) (split_at "&" s).

Lemma split_at_sep c w s : str_has c w = false -> split_at c (w +:+ String c s) = w :: split_at c s.
Proof.
  induction w as [|a w IH]; intros Hw.
  - change (split_at c (String c s) = "" :: split_at c s). cbn [split_at]. by rewrite Ascii.eqb_refl.
  - cbn [str_has] in Hw. apply orb_false_iff in Hw as [Ha Hw].
    change (split_at c (String a (w +:+ String c s)) = String a w :: split_at c s). cbn [split_at]. by rewrite Ha, IH.
Qed.

Lemma split_at_none c w : str_has c w = false -> split_at c w = [w].
Proof.
  induction w as [|a w IH]; [done|]. cbn [str_has split_at]. intros [Ha Hw]%orb_false_iff. by rewrite Ha, IH.
Qed.

Lemma escape_clean c s : c = "&"%char \/ c = "="%char -> str_has c (QueryEscape s) = false.
Proof.
  intros Hc. induction s as [|a s IH]; [done|]. cbn [QueryEscape].
  generalize dependent (QueryEscape s). intros t IH.
  destruct Hc as [-> | ->], a as [[] [] [] [] [] [] [] []]; cbn; exact IH.
Qed.

Lemma pair_clean kv : str_has "&" (QueryEscape kv.1 +:+ "=" +:+ QueryEscape kv.2) = false.
Proof. rewrite !str_has_app, !escape_clean by auto. done. Qed.

Lemma pair_read kv :
  match split_at "=" (QueryEscape kv.1 +:+ "=" +:+ QueryEscape kv.2) with
  | [k; v] => k ← QueryUnescape k; v ← QueryUnescape v; Some (k, v)
  | _ => None
  end = Some kv.
Proof.
  change ("=" +:+ QueryEscape kv.2) with (String "=" (QueryEscape kv.2)).
  rewrite split_at_sep, split_at_none by (apply escape_clean; auto). rewrite !escape_roundtrip. by destruct kv.
Qed.

Section Queries.
Context `{Http}.

Lemma query_received query queryTime : ParseQuery (Encode (query_params query queryTime)) = Some (query_params query queryTime).
Proof.
  unfold ParseQuery, Encode, query_params.
  set (kv := ("query", query)). set (kv' := ("time", Format_RFC3339 queryTime)). cbn [fmap list_fmap join fold_left].
  change ("&" +:+ ?t) with (String "&" t). rewrite split_at_sep, split_at_none by apply pair_clean.
  cbn [mapM]. by rewrite !pair_read.
Qed.

(** A response that counts: a status below 300 and the whole body. *)
Definition answered (url : string) (headers : list (string * string)) (body : string) : Prop :=
  exists resp, http_Do url headers = Ok resp /\ StatusCode resp <= 299 /\ ReadAll resp = (body, None).

Lemma aks_ok mpc query queryTime body :
  aks_Query mpc query queryTime = (body, None) <->
  NewRequest (aks_uri mpc) = None /\
  answered (aks_uri mpc +:+ "?" +:+ Encode (query_params query queryTime)) (aks_headers mpc) body.
Proof.
  unfold aks_Query, answered. destruct (NewRequest _); [split; [done|by intros [? _]]|].
  destruct (http_Do _ _) as [[code [b [e|]]]|e]; cbn.
  - split; [done|]. by intros (_ & resp & [= <-] & _ & [=]).
  - destruct (Z.ltb_spec 299 code); (split; [|intros (_ & resp & [= <-] & Hc & [= ->]); cbn in Hc; try lia; done]); [done|].
    intros [= ->]. split; [done|]. by eexists.
  - split; [done|]. by intros (_ & resp & ? & _).
Qed.

Lemma gcp_ok mpc query queryTime body :
  gcp_Query mpc query queryTime = (body, None) <-> answered (gcp_uri mpc +:+ "?" +:+ Encode (query_params query queryTime)) [] body.
Proof.
  unfold gcp_Query, answered. destruct (http_Do _ _) as [[code [b e]]|e]; cbn; [|split; [done|by intros (resp & ? & _)]].
  destruct (Z.ltb_spec 299 code), e as [e|]; split;
    try done; try (intros (resp & [= <-] & Hc & Hr); cbn in Hc, Hr; try lia; congruence).
  intros [= ->]. by eexists.
Qed.

Lemma aks_url endpoint params :
  endpoint +:+ "/api/v1/query?" +:+ params = Sprintf "%s/api/v1/query" [FStr endpoint] +:+ "?" +:+ params.
Proof.
  change (Sprintf "%s/api/v1/query" [FStr endpoint]) with (endpoint +:+ "/api/v1/query").
  induction endpoint as [|a endpoint IH]; [done|].
  change (String a (endpoint +:+ "/api/v1/query?" +:+ params) = String a ((endpoint +:+ "/api/v1/query") +:+ "?" +:+ params)).
  by rewrite IH.
Qed.

(** A query to a managed Prometheus returns no error exactly when a request
    whose parameters the server reads as the query and its time was answered
    with a status below 300 and a complete body, which is what it returns; the
    Azure client authorizes itself with its token. *)
Theorem managed_queries_correct Getenv query queryTime body aks gcp :
  NewAKSManagedPrometheusClient Getenv = Ok aks -> NewGCPManagedPrometheusClient Getenv = Ok gcp ->
  exists params token,
    ParseQuery params = Some [("query", query); ("time", Format_RFC3339 queryTime)] /\ getPromQLToken = Ok token /\
    (aks_Query aks query queryTime = (body, None) <->
       NewRequest (aks_uri aks) = None /\
       answered (Getenv "AZURE_QUERY_ENDPOINT" +:+ "/api/v1/query?" +:+ params) [("Authorization", "Bearer " +:+ token)] body) /\
    (gcp_Query gcp query queryTime = (body, None) <-> answered (gcp_uri gcp +:+ "?" +:+ params) [] body).
Proof.
  unfold NewAKSManagedPrometheusClient, NewGCPManagedPrometheusClient.
  destruct (String.eqb _ ""); [done|]. destruct NewDefaultAzureCredential; [done|].
  destruct getPromQLToken as [token|]; [|done]. intros [= <-]. destruct (DefaultClient _); [done|]. intros [= <-].
  exists (Encode (query_params query queryTime)), token. split; [apply query_received|]. split; [done|].
  split.
  - rewrite aks_ok. cbn [aks_uri aks_headers].
    by replace (Sprintf "%s/api/v1/query" [FStr (Getenv "AZURE_QUERY_ENDPOINT")] +:+ "?" +:+ Encode (query_params query queryTime))
      with (Getenv "AZURE_QUERY_ENDPOINT" +:+ "/api/v1/query?" +:+ Encode (query_params query queryTime)) by apply aks_url.
  - apply gcp_ok.
Qed.
End Queries.

(** ** The snapshot of the database *)

(** The admin endpoint, the JSON of its answer, the service and the pods of the
    monitoring namespace; creating the file and streaming into it. *)
Class SnapshotServer (C : Type) := {
  snapshot_Post : C -> C * result string;
  snapshot_name : string -> result string;
  service_Get : string -> C -> C * result (gmap string string);
  pods_List : gmap string string -> C -> C * result (list string);
  os_Create : string -> C -> C * option error;
  NewSPDYExecutor : string -> list string -> C -> C * option error;
  Stream : string -> list string -> string -> C -> C * option error;
}.

Section Snapshot.
Context {C : Type} `{SnapshotServer C}.

(** The archive is written by the command's output in the pod. *)
Definition copyFromPod (srcPath destPath podName : string) (c : C) : C * option error :=
  let cmdArr := ["tar"; "cfz"; "-"; srcPath] in
  match os_Create destPath c with
  | (c, Some err) => (c, Some err)
  | (c, None) =>
      match NewSPDYExecutor podName cmdArr c with
      | (c, Some err) => (c, Some err)
      | (c, None) => Stream podName cmdArr destPath c
      end
  end.

(** The errors of the second and third call are not looked at; with an error a
    call returns an empty object. *)
Definition makeSnapshot (filePath : string) (c : C) : C * option error :=
  match snapshot_Post c with
  | (c, Err err) => (c, Some err)
  | (c, Ok raw) =>
      match snapshot_name raw with
      | Err err => (c, Some err)
      | Ok name =>
          let '(c, svc) := service_Get "prometheus-k8s" c in
          let '(c, pods) := pods_List (match svc with Ok selector => selector | Err _ => ∅ end) c in
          match pods with
          | Ok [pod] => copyFromPod ("/prometheus/snapshots/" +:+ name) filePath pod c
          | _ => (c, Some (Errorf "unexpected number of pods in prometheus service: %d"
                             [AInt (match pods with Ok l => Z.of_nat (length l) | Err _ => 0 end)]))
          end
      end
  end.

Definition snapshotPrometheusIfEnabled (enabled : bool) (Join : string -> string -> string) (ReportDir : string) (c : C)
  : C * option error :=
  if negb enabled then (c, None) else makeSnapshot (Join ReportDir "prometheus_snapshot.tar.gz") c.

(** A snapshot that is reported as made is the archive of the new snapshot,
    streamed from the only pod the selector selects: the service's, or the
    selector of everything when the service could not be read. *)
Theorem snapshot_source filePath c c' :
  makeSnapshot filePath c = (c', None) ->
  exists c1 raw name c2 svc c3 pod c4 c5,
    snapshot_Post c = (c1, Ok raw) /\ snapshot_name raw = Ok name /\ service_Get "prometheus-k8s" c1 = (c2, svc) /\
    pods_List (match svc with Ok selector => selector | Err _ => ∅ end) c2 = (c3, Ok [pod]) /\
    os_Create filePath c3 = (c4, None) /\
    NewSPDYExecutor pod ["tar"; "cfz"; "-"; "/prometheus/snapshots/" +:+ name] c4 = (c5, None) /\
    Stream pod ["tar"; "cfz"; "-"; "/prometheus/snapshots/" +:+ name] filePath c5 = (c', None).
Proof.
  unfold makeSnapshot, copyFromPod. destruct (snapshot_Post c) as [c1 [raw|]]; [|done].
  destruct (snapshot_name raw) as [name|] eqn:Hn; [|done]. destruct (service_Get _ c1) as [c2 svc] eqn:Hs.
  destruct (pods_List _ c2) as [c3 [[|pod [|]]|]] eqn:Hp; try done.
  destruct (os_Create filePath c3) as [c4 [|]] eqn:Ho; [done|]. destruct (NewSPDYExecutor pod _ c4) as [c5 [|]] eqn:He; [done|].
  intros Hst. by exists c1, raw, name, c2, svc, c3, pod, c4, c5.
Qed.
End Snapshot.

(** ** The rest config *)

Record restConfig {T W D P : Type} := mkRestConfig {
  ContentType : string;
  QPS : Z;
  Burst : Z;
  rc_Transport : option T;
  rc_WrapTransport : option W;
  rc_Dial : option D;
  TLSClientConfig : option P;
  AuthProvider : option P;
  ExecProvider : option P;
}.
Arguments restConfig : clear implicits.

(** The transport a config describes, as client-go builds it: the wrapper that
    adds the credentials, the dialer, and the transport with the TLS config. *)
Class RestLibrary (T W D P : Type) := {
  KubeConfig : Type;
  LoadFromFile : string -> result KubeConfig;
  ClientConfig : KubeConfig -> result (restConfig T W D P);
  InClusterConfig : result (restConfig T W D P);
  transport_config : restConfig T W D P -> result (option W * option D);
  TLSConfigFor : restConfig T W D P -> result T;
}.

Section RestConfig.
Context {T W D P : Type} `{RestLibrary T W D P}.

Definition restclientConfig (path : string) : result KubeConfig :=
  match LoadFromFile path with
  | Err err => Err (Errorf "error loading kubeconfig: %v" [AErr err])
  | Ok c => Ok c
  end.

Definition loadConfig (path : string) : result (restConfig T W D P) :=
  match restclientConfig path with
  | Err err => Err err
  | Ok c => ClientConfig c
  end.

Definition initializeWithDefaults (config : restConfig T W D P) : restConfig T W D P :=
  mkRestConfig T W D P "application/vnd.kubernetes.protobuf" 100 200 (rc_Transport config) (rc_WrapTransport config) (rc_Dial config)
    (TLSClientConfig config) (AuthProvider config) (ExecProvider config).

Definition GetConfig (path : string) : result (restConfig T W D P) :=
  match (if negb (String.eqb path "") then loadConfig path else InClusterConfig) with
  | Err err => Err err
  | Ok config => Ok (initializeWithDefaults config)
  end.

(** The credentials move into the transport, which has no limit on the number of
    connections; the config may not name both. *)
Definition transportHack (config : restConfig T W D P) : result (restConfig T W D P) :=
  match transport_config config with
  | Err err => Err err
  | Ok (wrap, dial) =>
      match TLSConfigFor config with
      | Err err => Err err
      | Ok transport =>
          Ok (mkRestConfig T W D P (ContentType config) (QPS config) (Burst config) (Some transport) wrap
                (match dial with Some d => Some d | None => rc_Dial config end) None None None)
      end
  end.

Definition PrepareConfig (path : string) : result (restConfig T W D P) :=
  match GetConfig path with
  | Err err => Err err
  | Ok config =>
      match transportHack config with
      | Err err => Err (Errorf "config initialization error: %v" [AErr err])
      | Ok config => Ok config
      end
  end.

(** A prepared config comes from the file, or from the cluster without one, has
    the program's limits, and names its credentials once: in the transport that
    was built from the config with them, not beside it. *)
Theorem prepared_config path config :
  PrepareConfig path = Ok config ->
  exists loaded,
    (if String.eqb path "" then InClusterConfig else loadConfig path) = Ok loaded /\
    QPS config = 100 /\ Burst config = 200 /\ ContentType config = "application/vnd.kubernetes.protobuf" /\
    (exists t dial, rc_Transport config = Some t /\ TLSConfigFor (initializeWithDefaults loaded) = Ok t /\
       transport_config (initializeWithDefaults loaded) = Ok (rc_WrapTransport config, dial)) /\
    TLSClientConfig config = None /\ AuthProvider config = None /\ ExecProvider config = None.
Proof.
  unfold PrepareConfig, GetConfig, transportHack. rewrite (if_negb).
  destruct (if String.eqb path "" then _ else _) as [loaded|]; [|done].
  destruct (transport_config _) as [[wrap dial]|] eqn:Ht; [|done]. destruct (TLSConfigFor _) as [t|] eqn:Htls; [|done].
  intros [= <-]. exists loaded. split_and!; try done. exists t, dial. by split_and!.
Qed.
End RestConfig.
