(* ===== verification/Main.v ===== *)
(** * The program (cmd/clusterloader.go)

    From the command line to the exit status: flags, provider, validation of
    the options, completion of the config from the cluster, the set-up of
    Prometheus, the exec service and the images, compiling every test scenario,
    running the tests one after the other and the verdict.

    The program is a state monad over its global variables and the world, in
    which a run ends early with [klog.Exitf] or a panic. [None]: it hangs. *)

From S2P Require Import Prelude GoErrors GoRuntime Params Api Validation State TuningSet RuntimeObjects Executor Client Namespaces Modifier Measurement Reporter Dependency Compile TestRun Pods Cluster Waiting TemplateFunctions Templates Flags Provider PromStack Services.

(** ** The configuration (pkg/config/cluster.go) *)

Record ClusterConfig_ := mkClusterConfig_ {
  KubeConfigPath : string;
  RunFromCluster : bool;
  Nodes : Z;
  cc_Provider : Provider.Provider;
  EtcdCertificatePath : string;
  EtcdKeyPath : string;
  EtcdInsecurePort : Z;
  MasterIPs : list string;
  MasterInternalIPs : list string;
  MasterName : string;
  cc_deprecated : Compile.ClusterConfig;     (* DeleteStaleNamespaces, DeleteAutomanagedNamespaces *)
  APIServerPprofByClientEnabled : bool;
  KubeletPort : Z;
  K8SClientsNumber : Z;
  SkipClusterVerification : bool;
}.

Record ClusterLoaderConfig := mkClusterLoaderConfig {
  cl_ClusterConfig : ClusterConfig_;
  cl_ReportDir : string;
  ExecService_Enable : bool;
  ExecService_ImageRegistry : string;
  cl_ModifierConfig : simpleModifier;
  cl_PrometheusConfig : PrometheusConfig;
  OverridePaths : list string;
}.

Definition GetMasterIP (c : ClusterConfig_) : string :=
  match MasterIPs c with ip :: _ => ip | [] => "" end.
Definition GetMasterInternalIP (c : ClusterConfig_) : string :=
  match MasterInternalIPs c with ip :: _ => ip | [] => "" end.

(** ** Flags *)

(** A flag without environment variable. *)
Definition no_env : string := "".

Definition initClusterFlags : list flag :=
  [ mkFlag "kubeconfig" "KUBECONFIG" (stringFlag "");
    mkFlag "run-from-cluster" "RUN_FROM_CLUSTER" (boolFlag false);
    mkFlag "nodes" "NUM_NODES" (intFlag 0);
    mkFlag "kubelet-port" "KUBELET_PORT" (intFlag 10250);
    mkFlag "k8s-clients-number" "K8S_CLIENTS_NUMBER" (intFlag 0);
    mkFlag "etcd-certificate" "ETCD_CERTIFICATE" (stringFlag "/etc/srv/kubernetes/pki/etcd-apiserver-server.crt");
    mkFlag "etcd-key" "ETCD_KEY" (stringFlag "/etc/srv/kubernetes/pki/etcd-apiserver-server.key");
    mkFlag "etcd-insecure-port" "ETCD_INSECURE_PORT" (intFlag 2382);
    mkFlag "delete-stale-namespaces" "DELETE_STALE_NAMESPACES" (boolFlag false);
    mkFlag "delete-automanaged-namespaces" "DELETE_AUTOMANAGED_NAMESPACES" (boolFlag true);
    mkFlag "mastername" "MASTER_NAME" (stringFlag "");
    mkFlag "masterip" "MASTER_IP" (stringSliceFlag []);
    mkFlag "master-internal-ip" "MASTER_INTERNAL_IP" (stringSliceFlag []);
    mkFlag "apiserver-pprof-by-client-enabled" "APISERVER_PPROF_BY_CLIENT_ENABLED" (boolFlag true);
    mkFlag "skip-cluster-verification" no_env (boolFlag false);
    mkFlag "provider" "PROVIDER" (stringFlag "");
    mkFlag "provider-configs" "PROVIDER_CONFIGS" (stringSliceFlag []);
    mkFlag "kubemark-root-kubeconfig" "KUBEMARK_ROOT_KUBECONFIG" (stringFlag "") ].

(** [flags.MarkDeprecated]: the flag has to exist. *)
Definition deprecated_flags : list string := ["delete-stale-namespaces"; "delete-automanaged-namespaces"].

Definition execservice_InitFlags : list flag :=
  [ mkFlag "enable-exec-service" "ENABLE_EXEC_SERVICE" (boolFlag true);
    mkFlag "registry-k8s-repo" no_env (stringFlag "registry.k8s.io") ].

Definition imagepreload_InitFlags : list flag :=
  [ mkFlag "node-preload-images" "NODE_PRELOAD_IMAGES" (stringSliceFlag []);
    mkFlag "node-preload-images-timeout" "NODE_PRELOAD_IMAGES_TIMEOUT" (durationFlag (15 * Duration.Minute)) ].

Definition prometheus_InitFlags : list flag :=
  [ mkFlag "enable-prometheus-server" "ENABLE_PROMETHEUS_SERVER" (boolFlag false);
    mkFlag "tear-down-prometheus-server" "TEAR_DOWN_PROMETHEUS_SERVER" (boolFlag true);
    mkFlag "enable-pushgateway" "PROMETHEUS_ENABLE_PUSHGATEWAY" (boolFlag false);
    mkFlag "prometheus-scrape-etcd" "PROMETHEUS_SCRAPE_ETCD" (boolFlag false);
    mkFlag "prometheus-scrape-node-exporter" "PROMETHEUS_SCRAPE_NODE_EXPORTER" (boolFlag false);
    mkFlag "prometheus-scrape-windows-node-exporter" "PROMETHEUS_SCRAPE_WINDOWS_NODE_EXPORTER" (boolFlag false);
    mkFlag "prometheus-scrape-kubelets" "PROMETHEUS_SCRAPE_KUBELETS" (boolFlag false);
    mkFlag "prometheus-scrape-master-kubelets" "PROMETHEUS_SCRAPE_MASTER_KUBELETS" (boolFlag false);
    mkFlag "prometheus-scrape-kube-proxy" "PROMETHEUS_SCRAPE_KUBE_PROXY" (boolFlag true);
    mkFlag "prometheus-kube-proxy-selector-key" "PROMETHEUS_KUBE_PROXY_SELECTOR_KEY" (stringFlag "component");
    mkFlag "prometheus-scrape-kube-state-metrics" "PROMETHEUS_SCRAPE_KUBE_STATE_METRICS" (boolFlag false);
    mkFlag "prometheus-scrape-metrics-server" "PROMETHEUS_SCRAPE_METRICS_SERVER_METRICS" (boolFlag false);
    mkFlag "prometheus-scrape-node-local-dns" "PROMETHEUS_SCRAPE_NODE_LOCAL_DNS" (boolFlag false);
    mkFlag "prometheus-scrape-anet" "PROMETHEUS_SCRAPE_ANET" (boolFlag false);
    mkFlag "prometheus-scrape-kube-network-policies" "PROMETHEUS_SCRAPE_KUBE_NETWORK_POLICIES" (boolFlag false);
    mkFlag "prometheus-scrape-masters-with-public-ips" "PROMETHEUS_SCRAPE_MASTERS_WITH_PUBLIC_IPS" (boolFlag false);
    mkFlag "prometheus-apiserver-scrape-port" "PROMETHEUS_APISERVER_SCRAPE_PORT" (intFlag 443);
    mkFlag "experimental-snapshot-project" "PROJECT" (stringFlag "");
    mkFlag "prometheus-additional-monitors-path" "PROMETHEUS_ADDITIONAL_MONITORS_PATH" (stringFlag "");
    mkFlag "prometheus-storage-class-provisioner" "PROMETHEUS_STORAGE_CLASS_PROVISIONER" (stringFlag "kubernetes.io/gce-pd");
    mkFlag "prometheus-storage-class-volume-type" "PROMETHEUS_STORAGE_CLASS_VOLUME_TYPE" (stringFlag "pd-ssd");
    mkFlag "prometheus-pvc-storage-class" "PROMETHEUS_PVC_STORAGE_CLASS" (stringFlag "ssd");
    mkFlag "prometheus-ready-timeout" "PROMETHEUS_READY_TIMEOUT" (durationFlag (15 * Duration.Minute));
    mkFlag "prometheus-memory-request" "PROMETHEUS_MEMORY_REQUEST" (stringFlag "10Gi") ].

Definition InitExperimentalFlags : list flag :=
  [ mkFlag "experimental-gcp-snapshot-prometheus-disk" no_env (boolFlag false);
    mkFlag "experimental-prometheus-snapshot-to-report-dir" no_env (boolFlag false);
    mkFlag "experimental-prometheus-disk-snapshot-name" no_env (stringFlag "") ].

Definition initFlags : list flag :=
  [ mkFlag "report-dir" no_env (stringFlag "");
    mkFlag "testsuite" no_env (stringFlag "");
    mkFlag "port" no_env (intFlag 8000);
    mkFlag "dry-run" no_env (boolFlag false) ]
  ++ initClusterFlags ++ execservice_InitFlags ++ imagepreload_InitFlags ++ prometheus_InitFlags ++ InitExperimentalFlags.

(** The flags of [StringArrayVar]: pflag's own, every setting adds a value. *)
Definition array_flags : list string := ["testconfig"; "testoverrides"; "overwrite-test-config"; "skip-steps"].

Definition array_values (settings : list (string * string)) (name : string) : list string :=
  omap (fun nv => if String.eqb nv.1 name then Some nv.2 else None) settings.

Definition is_array (nv : string * string) : bool := existsb (String.eqb nv.1) array_flags.

Definition env_settings (settings : list (string * string)) : list (string * string) :=
  List.filter (fun nv => negb (is_array nv)) settings.

(** The variables the flags point to. *)
Definition get_string (s : store) (name : string) : string := match s !! name with Some (SString v) => v | _ => "" end.
Definition get_slice (s : store) (name : string) : list string := match s !! name with Some (SSlice v) => v | _ => [] end.
Definition get_int (s : store) (name : string) : Z := match s !! name with Some (SInt v) => v | _ => 0 end.
Definition get_bool (s : store) (name : string) : bool := match s !! name with Some (SBool v) => v | _ => false end.
Definition get_duration (s : store) (name : string) : Z := match s !! name with Some (SDuration v) => v | _ => 0 end.

Definition read_prometheus (s : store) : PrometheusConfig :=
  mkPrometheusConfig (get_bool s "tear-down-prometheus-server") (get_bool s "enable-prometheus-server")
    (get_bool s "enable-pushgateway") (get_bool s "prometheus-scrape-etcd") (get_bool s "prometheus-scrape-node-exporter")
    (get_bool s "prometheus-scrape-windows-node-exporter") (get_bool s "prometheus-scrape-kubelets")
    (get_bool s "prometheus-scrape-master-kubelets") (get_bool s "prometheus-scrape-kube-proxy")
    (get_string s "prometheus-kube-proxy-selector-key") (get_bool s "prometheus-scrape-kube-state-metrics")
    (get_bool s "prometheus-scrape-metrics-server") (get_bool s "prometheus-scrape-node-local-dns")
    (get_bool s "prometheus-scrape-anet") (get_bool s "prometheus-scrape-kube-network-policies")
    (get_bool s "prometheus-scrape-masters-with-public-ips") (get_int s "prometheus-apiserver-scrape-port")
    (get_string s "experimental-snapshot-project") (get_string s "prometheus-additional-monitors-path")
    (get_string s "prometheus-storage-class-provisioner") (get_string s "prometheus-storage-class-volume-type")
    (get_string s "prometheus-pvc-storage-class") (get_duration s "prometheus-ready-timeout")
    (get_string s "prometheus-memory-request").

Definition read_snapshot (s : store) : SnapshotFlags :=
  mkSnapshotFlags (get_bool s "experimental-gcp-snapshot-prometheus-disk")
    (get_bool s "experimental-prometheus-snapshot-to-report-dir") (get_string s "experimental-prometheus-disk-snapshot-name").

(** [clusterLoaderConfig], the provider being set later. *)
Definition read_config (s : store) (settings : list (string * string)) (prov : Provider.Provider) : ClusterLoaderConfig :=
  mkClusterLoaderConfig
    (mkClusterConfig_ (get_string s "kubeconfig") (get_bool s "run-from-cluster") (get_int s "nodes") prov
       (get_string s "etcd-certificate") (get_string s "etcd-key") (get_int s "etcd-insecure-port")
       (get_slice s "masterip") (get_slice s "master-internal-ip") (get_string s "mastername")
       (mkClusterConfig (get_bool s "delete-stale-namespaces") (get_bool s "delete-automanaged-namespaces"))
       (get_bool s "apiserver-pprof-by-client-enabled") (get_int s "kubelet-port") (get_int s "k8s-clients-number")
       (get_bool s "skip-cluster-verification"))
    (get_string s "report-dir") (get_bool s "enable-exec-service") (get_string s "registry-k8s-repo")
    (mkModifier (array_values settings "overwrite-test-config") (array_values settings "skip-steps"))
    (read_prometheus s) (array_values settings "testoverrides").

Definition read_provider_options (s : store) : InitOptions :=
  mkInitOptions (get_string s "kubemark-root-kubeconfig") (get_string s "provider") (get_slice s "provider-configs").

(** pflag panics when a flag is defined twice, and deprecating an unknown flag
    is fatal: neither happens. *)
Lemma initFlags_defined_once :
  NoDup ((flag_name <$> initFlags) ++ array_flags) /\
  Forall (fun name => is_Some (find_flag initFlags name)) deprecated_flags.
Proof. split; [apply (bool_decide_unpack _); vm_compute; exact I|repeat constructor; vm_compute; eauto]. Qed.

(** ** Validation *)

Definition validateClusterFlags (conf : ClusterLoaderConfig) : ErrorList :=
  let cc := cl_ClusterConfig conf in
  let errList := NewErrorList [] in
  let errList :=
    if RunFromCluster cc then
      if negb (String.eqb (KubeConfigPath cc) "")
      then Append errList [Errorf "unexpected kubeconfig path specified %q when --run-from-cluster is set" [AStr (KubeConfigPath cc)]]
      else errList
    else
      if String.eqb (KubeConfigPath cc) ""
      then Append errList [Errorf "no kubeconfig path specified when --run-from-cluster is unset" []]
      else errList in
  if EnableServer (cl_PrometheusConfig conf) then
    if negb (prov_Features (cc_Provider cc) SupportEnablePrometheusServer)
    then Append errList [Errorf "cannot enable prometheus server for provider %s" [AStr (prov_Name (cc_Provider cc))]]
    else errList
  else errList.

Definition validateFlags (fl : SnapshotFlags) (testConfigPaths : list string) (testSuiteConfigPath : string)
  (conf : ClusterLoaderConfig) : ErrorList :=
  let errList := NewErrorList [] in
  let noConfigs := (length testConfigPaths =? 0)%nat in
  let noSuite := String.eqb testSuiteConfigPath "" in
  let errList := if noConfigs && noSuite
                 then Append errList [Errorf "no test config path or test suite path specified" []] else errList in
  let errList := if negb noConfigs && negb noSuite
                 then Append errList [Errorf "test config path and test suite path cannot be provided at the same time" []]
                 else errList in
  let errList := Concat errList (Some (validateClusterFlags conf)) in
  Concat errList (Some (ValidatePrometheusFlags fl (cl_PrometheusConfig conf))).

Lemma validateFlags_decides fl paths suite conf :
  IsEmpty (validateFlags fl paths suite conf) = true <->
  (paths = [] <-> suite <> "") /\
  (RunFromCluster (cl_ClusterConfig conf) = true <-> KubeConfigPath (cl_ClusterConfig conf) = "") /\
  (EnableServer (cl_PrometheusConfig conf) = true ->
     prov_Features (cc_Provider (cl_ClusterConfig conf)) SupportEnablePrometheusServer = true) /\
  (shouldSnapshotPrometheusDisk fl = true -> SnapshotProject (cl_PrometheusConfig conf) <> "").
Proof.
  rewrite IsEmpty_true_iff. unfold validateFlags, validateClusterFlags, ValidatePrometheusFlags.
  destruct paths as [|p paths], (String.eqb_spec suite ""), (RunFromCluster _), (String.eqb_spec (KubeConfigPath (cl_ClusterConfig conf)) ""),
    (EnableServer _), (prov_Features _ _), (shouldSnapshotPrometheusDisk fl), (String.eqb_spec (SnapshotProject (cl_PrometheusConfig conf)) "");
    cbn; split; try discriminate; intuition congruence.
Qed.

(** ** Completing the config *)

Definition special_provider (cc : ClusterConfig_) : bool :=
  String.eqb (prov_Name (cc_Provider cc)) KCPName || String.eqb (prov_Name (cc_Provider cc)) KubestellarName.

Definition nodesPerClients : Z := 100.

(** [/] on int. *)
Definition getClientsNumber (cc : ClusterConfig_) (nodesNumber : Z) : Z :=
  if special_provider cc then 1
  else wrap64 (wrap64 (nodesNumber + nodesPerClients - 1) ÷ nodesPerClients).

Definition set_nodes (cc : ClusterConfig_) (n : Z) : ClusterConfig_ :=
  mkClusterConfig_ (KubeConfigPath cc) (RunFromCluster cc) n (cc_Provider cc) (EtcdCertificatePath cc) (EtcdKeyPath cc)
    (EtcdInsecurePort cc) (MasterIPs cc) (MasterInternalIPs cc) (MasterName cc) (cc_deprecated cc)
    (APIServerPprofByClientEnabled cc) (KubeletPort cc) (K8SClientsNumber cc) (SkipClusterVerification cc).
Definition set_masters (cc : ClusterConfig_) (name : string) (ips internal : list string) : ClusterConfig_ :=
  mkClusterConfig_ (KubeConfigPath cc) (RunFromCluster cc) (Nodes cc) (cc_Provider cc) (EtcdCertificatePath cc) (EtcdKeyPath cc)
    (EtcdInsecurePort cc) ips internal name (cc_deprecated cc)
    (APIServerPprofByClientEnabled cc) (KubeletPort cc) (K8SClientsNumber cc) (SkipClusterVerification cc).
Definition set_clients (cc : ClusterConfig_) (pprof : bool) (n : Z) : ClusterConfig_ :=
  mkClusterConfig_ (KubeConfigPath cc) (RunFromCluster cc) (Nodes cc) (cc_Provider cc) (EtcdCertificatePath cc) (EtcdKeyPath cc)
    (EtcdInsecurePort cc) (MasterIPs cc) (MasterInternalIPs cc) (MasterName cc) (cc_deprecated cc)
    pprof (KubeletPort cc) n (SkipClusterVerification cc).

Section Complete.
Context {W : Type} `{ApiErrors} `{Backoff} `{ClusterServer W}.

Definition complete_nodes (cc : ClusterConfig_) (w : W) : W * result ClusterConfig_ :=
  if Nodes cc =? 0 then
    match GetSchedulableUntainedNodesNumber w with
    | (w, (_, Some err)) =>
        (w, Err (if String.eqb (prov_Name (cc_Provider cc)) KCPName
                 then Errorf "getting number of nodes error: %v, please create nodes.core CRD" [AErr err]
                 else Errorf "getting number of nodes error: %v" [AErr err]))
    | (w, (nodes, None)) => (w, Ok (set_nodes cc nodes))
    end
  else (w, Ok cc).

(** An error is logged and the option stays empty. *)
Definition complete_name (cc : ClusterConfig_) (w : W) : W * string :=
  if String.eqb (MasterName cc) "" then
    match GetMasterName w with
    | (w, (name, None)) => (w, name)
    | (w, (_, Some _)) => (w, MasterName cc)
    end
  else (w, MasterName cc).

Definition complete_ips (current : list string) (addressType : string) (w : W) : W * list string :=
  if (length current =? 0)%nat then
    match GetMasterIPs w addressType with
    | (w, (ips, None)) => (w, ips)
    | (w, (_, Some _)) => (w, current)
    end
  else (w, current).

Definition completeConfig (cc : ClusterConfig_) (w : W) : W * result ClusterConfig_ :=
  match complete_nodes cc w with
  | (w, Err err) => (w, Err err)
  | (w, Ok cc) =>
      let '(w, name) := complete_name cc w in
      let '(w, ips) := complete_ips (MasterIPs cc) "ExternalIP" w in
      let '(w, internal) := complete_ips (MasterInternalIPs cc) "InternalIP" w in
      let cc := set_masters cc name ips internal in
      let pprof := prov_Features (cc_Provider cc) SupportAccessAPIServerPprofEndpoint && APIServerPprofByClientEnabled cc in
      let clients := if K8SClientsNumber cc =? 0 then getClientsNumber cc (Nodes cc) else K8SClientsNumber cc in
      (w, Ok (set_clients cc pprof clients))
  end.

Definition verifyCluster (cc : ClusterConfig_) (w : W) : W * option error :=
  if special_provider cc then (w, None)
  else match GetSchedulableUntainedNodesNumber w with
       | (w, (_, Some err)) => (w, Some err)
       | (w, (numSchedulableNodes, None)) =>
           (w, if numSchedulableNodes =? 0 then Some (Errorf "no schedulable nodes in the cluster" []) else None)
       end.

(** The number of clients: enough for a hundred nodes each and no more. *)
Lemma getClientsNumber_bounds cc n :
  0 <= n < 2 ^ 62 -> special_provider cc = false ->
  let k := getClientsNumber cc n in
  nodesPerClients * (k - 1) < n <= nodesPerClients * k /\ (k = 0 <-> n = 0).
Proof.
  intros Hn Hs. cbn zeta. unfold getClientsNumber, nodesPerClients. rewrite Hs.
  rewrite (wrap64_id (n + 100 - 1)) by (change (2 ^ 62) with 4611686018427387904 in Hn; lia).
  rewrite Z.quot_div_nonneg by lia.
  pose proof (Z.div_mod (n + 100 - 1) 100 ltac:(lia)) as Hd.
  pose proof (Z.mod_pos_bound (n + 100 - 1) 100 ltac:(lia)) as Hm.
  rewrite wrap64_id by (change (2 ^ 62) with 4611686018427387904 in Hn; lia). lia.
Qed.
End Complete.

(** ** What a test adds to the reporter's count *)
Section Counting.
Context {W M F D DF : Type} `{TP : Executor.TemplateProvider} `{FW : Framework W} `{ML : MeasurementLib W M F}
  `{DL : DependencyLib W D DF} `{TE : TestEnv W} (env : run_env (W := W) (F := F) (DF := DF)).

Definition failures (ctx : Context_ (W := W) (M := M) (D := D)) : Z := NumberOfFailedSpecs (ctx_reporter ctx).

(** The count never falls, and stays when no errors are returned. *)
Definition counted (n n' : Z) (errs : ErrorList) : Prop := n <= n' /\ (IsEmpty errs = true -> n' = n).

Lemma getAllResults_clean st now :
  IsEmpty (GetAllErrors st) = true -> failed_results (getAllResults st now).2 = [].
Proof.
  intros He. apply length_zero_iff_nil. apply IsEmpty_true_iff in He.
  rewrite getAllErrors_errors in He. apply app_eq_nil in He as [H1 H2].
  unfold getAllResults. cbn [snd]. destruct (sr_results st) as [|r rs] eqn:Hr.
  - change (sort_results []) with (@nil substepResult). cbn [map app]. rewrite failed_results_cons. cbn [sub_err].
    pose proof (getAllErrors_errors st) as Hg. rewrite Hr, H1 in Hg. cbn in Hg. unfold GetAllErrors in Hg.
    unfold IsEmpty. by rewrite Hg.
  - cbn [app]. rewrite (failed_results_rename (fun r => sr_name st +:+ " " +:+ sub_name r)).
    rewrite (failed_results_perm _ _ (sort_results_perm _)). by apply concat_errors_nil in H2 as ->.
Qed.

Lemma ExecuteStep_counted ctx step name ctx' errs :
  ExecuteStep env ctx step name = Some (ctx', errs) -> counted (failures ctx) (failures ctx') errs.
Proof.
  unfold ExecuteStep, counted, failures. destruct (run_substeps env ctx _) as [[ctx1 es]|] eqn:Hr; [|done].
  cbn [mbind option_bind]. intros [= <- <-]. apply run_substeps_events in Hr as [_ Hrep].
  cbn [ctx_reporter set_reporter]. unfold ReportTestStep.
  destruct (report_fold (getAllResults (record_events (NewStepResult (Now (ctx_world ctx)) name) es)
    (Now (ctx_world ctx1))).2 (ctx_reporter ctx1)) as (-> & _). rewrite Hrep. split; [lia|].
  intros He. rewrite (getAllResults_clean _ _ He). cbn. lia.
Qed.

Lemma steps_loop_counted ctx i steps errs0 ctx' errs :
  steps_loop env ctx i steps errs0 = Some (ctx', errs) ->
  counted (failures ctx) (failures ctx') errs.
Proof.
  intros Hl. assert (failures ctx <= failures ctx' /\
    exists more, errors errs = errors errs0 ++ more /\ (more = [] -> failures ctx' = failures ctx)) as (Hle & more & Hm & Hn).
  { revert ctx i errs0 Hl. induction steps as [|step steps IH]; intros ctx i errs0; cbn [steps_loop].
    { intros [= <- <-]. split; [done|]. exists []. by rewrite app_nil_r. }
    destruct (ExecuteStep env ctx step (step_name i step)) as [[ctx1 e]|] eqn:He; [|done]. cbn [mbind option_bind].
    apply ExecuteStep_counted in He as [Hge Heq]. destruct (IsEmpty e) eqn:Hem; cbn [negb].
    - intros (Hle & more & Hm & Hn)%IH. rewrite Heq in * by done. eauto.
    - destruct (isErrsCritical e).
      + intros [= <- <-]. split; [done|]. exists (errors e). split; [done|].
        intros Hx%IsEmpty_true_iff. congruence.
      + intros (Hle & more & Hm & Hn)%IH. split; [lia|]. exists (errors e ++ more). cbn in Hm.
        rewrite app_assoc. split; [done|]. intros [Hx%IsEmpty_true_iff _]%app_nil. congruence. }
  split; [done|]. intros Hem%IsEmpty_true_iff. apply Hn. rewrite Hem in Hm. by apply symmetry, app_nil in Hm as [_ ->].
Qed.

Lemma write_summaries_errors confName identifier ss w errs :
  exists more, errors (write_summaries confName identifier ss w errs).2 = errors errs ++ more.
Proof.
  revert w errs. induction ss as [|s ss IH]; intros w errs; cbn; [exists []; by rewrite app_nil_r|].
  destruct (String.eqb ReportDir ""); [apply IH|].
  destruct (WriteFile _ _ w) as [w' [e|]]; [|apply IH].
  destruct (IH w' (Append errs [Errorf "writing to file %v error: %v"
    [AStr (summary_path ReportDir (confName +:+ (if negb (String.eqb identifier "") then "_" +:+ identifier else "")) s); AErr e]]))
    as [more ->]. cbn [Append errors]. rewrite <- app_assoc. eauto.
Qed.

Lemma cleanup_reporter ctx conf : ctx_reporter (cleanup env ctx conf).1 = ctx_reporter ctx.
Proof. unfold cleanup. repeat case_match; try done. Qed.

Lemma test_body_counted ctx identifier conf ctx' errs :
  test_body env ctx identifier conf = Some (ctx', Returns errs) -> counted (failures ctx) (failures ctx') errs.
Proof.
  unfold test_body, counted. cbn zeta.
  destruct (Monkey_Init _ _) as [w1 [wg|e]]; [|by intros [= <- <-]].
  destruct (prepareTestNamespaces conf w1) as [w2 [[e|]|e|]]; [by intros [= <- <-]| |done..].
  destruct (match Dependencies conf with [] => _ | _ => _ end) as [[dm w3] serrs].
  destruct (negb (IsEmpty serrs)); [by intros [= <- <-]|].
  match goal with |- context [ExecuteTestSteps env ?c _] => destruct (ExecuteTestSteps env c (Steps conf)) as [[ctx1 e]|] eqn:Hs end; [|done].
  cbn [mbind option_bind]. unfold ExecuteTestSteps in Hs. apply steps_loop_counted in Hs as [Hle Hn].
  destruct (write_summaries _ _ _ _ e) as [w errs1] eqn:Hw. intros [= <- <-].
  destruct (write_summaries_errors (conf_Name conf) identifier (GetSummaries (ctx_manager ctx1))
    (if wg then chaos_Wait (close_stopCh (ctx_world ctx1)) else close_stopCh (ctx_world ctx1)) e) as [more Hm].
  rewrite Hw in Hm. cbn in Hm. unfold failures in *. cbn in *. split; [done|].
  intros Hx%IsEmpty_true_iff. apply Hn, IsEmpty_true_iff. rewrite Hx in Hm. by apply symmetry, app_nil in Hm as [-> _].
Qed.

Lemma RunTest_counted ctx m identifier conf ctx' errs :
  RunTest env ctx m identifier conf = Some (ctx', Returns errs) -> counted (failures ctx) (failures ctx') errs.
Proof.
  unfold RunTest. destruct (ChangeTest m conf) as [conf'|e|]; [|by intros [= <- <-]|done]. unfold ExecuteTest.
  match goal with |- context [test_body env ?c _ _] => destruct (test_body env c identifier conf') as [[ctx1 r]|] eqn:Hb end; [|done].
  cbn [mbind option_bind]. pose proof (cleanup_reporter ctx1 conf') as Hc.
  destruct (cleanup env ctx1 conf') as [ctx2 [u|e|]]; [|done..]. intros [= <- ->].
  apply test_body_counted in Hb. unfold failures in *. cbn in Hc. by rewrite Hc.
Qed.
End Counting.

(** ** The program as a state monad *)

(** How a run ends before the last line of [main]: [klog.Exitf] (status 1) or a
    run-time panic (status 2). *)
Inductive ending :=
| Exitf (format : string) (arg : errarg)
| Crash.

(** What [main] needs beside the components: the file system, the clients, the
    templates of a directory, and the choices of the environment. *)
Class MainEnv (W A : Type) := {
  LookupEnv : string -> option string;
  environ : list string;
  newClient : string -> nat -> result A;          (* PrepareConfig and NewForConfig *)
  newDynamicClient : string -> nat -> result A;
  frconfig_GetConfig : string -> option error;
  NewDiscoveryClient : string -> option error;
  Stat : string -> W -> option error;
  os_IsNotExist : error -> bool;
  MkdirAll : string -> W -> W * option error;
  path_Join : string -> string -> string;
  filepath_Base : string -> string;
  filepath_Dir : string -> string;
  ReadFile : W -> string -> result string;
  main_WriteFile : string -> string -> W -> W * option error;
  decodeOverrides : string -> result params;
  decodeSuite : string -> result (list TestScenario);
  yaml_Marshal : Config -> result string;
  json_Marshal : gmap string string -> result string;
  dir_templates : string -> params -> Executor.TemplateProvider;
  dir_loader : string -> TemplateLoader;
  kubernetes_service : W -> option error * result (list (list string));
  gcloud_describe : string -> string -> string -> string + error * string;
  node_ProviderID : node -> string;
  wmi_command : string -> string -> string;
  exporter_order : list node -> list node;
  makeSnapshot : string -> W -> W * option error;
  handle_interrupts : W -> W;
  exec_Apply : string -> params -> W -> W * option error;
  preload_Apply : string -> params -> W -> W * option error;
  preload_rounds : list (list (informer_event ImagePreload.imageNode) * Z);
  compile_fuel : nat;
  random_prefix : nat -> nat;
  file_IsNotExist : string -> bool;
  cwd : string;
  IsDNS1123Subdomain : string -> list string;
}.

Section Main.
Context {W A PS M F D DF : Type}.
Context `{GL : GoLib} `{MR : MapRange} `{AE : ApiErrors} `{BO : Backoff} `{CS : ClusterServer W}
  `{NS : NamespaceServer W} `{PM : PromServer W} `{ST : !ExecService.PodStores W PS} `{PE : !ImagePreload.PreloadEnv W}
  `{ME : MainEnv W A} `{FW : Framework W} `{ML : MeasurementLib W M F} `{DL : DependencyLib W D DF}.

(** The report directory is part of what the tests see. *)
Context (test_env : string -> TestEnv W) (run : run_env (W := W) (F := F) (DF := DF))
  (fl : SnapshotFlags) (images : list string).

(** The variables of [main]. *)
Record main_state := mkMain {
  ms_config : ClusterLoaderConfig;
  ms_clients : MultiClientSet (A := A);      (* those of the framework [f] *)
  ms_controller : option Controller;
  ms_reporter : simpleReporter;
  ms_podStore : option PS;
  ms_world : W;
}.

Definition set_config (s : main_state) (c : ClusterLoaderConfig) : main_state :=
  mkMain c (ms_clients s) (ms_controller s) (ms_reporter s) (ms_podStore s) (ms_world s).
Definition set_framework (s : main_state) (m : MultiClientSet (A := A)) : main_state :=
  mkMain (ms_config s) m (ms_controller s) (ms_reporter s) (ms_podStore s) (ms_world s).
Definition set_controller (s : main_state) (pc : option Controller) : main_state :=
  mkMain (ms_config s) (ms_clients s) pc (ms_reporter s) (ms_podStore s) (ms_world s).
Definition ms_set_reporter (s : main_state) (r : simpleReporter) : main_state :=
  mkMain (ms_config s) (ms_clients s) (ms_controller s) r (ms_podStore s) (ms_world s).
Definition set_podStore (s : main_state) (p : option PS) : main_state :=
  mkMain (ms_config s) (ms_clients s) (ms_controller s) (ms_reporter s) p (ms_world s).
Definition ms_set_world (s : main_state) (w : W) : main_state :=
  mkMain (ms_config s) (ms_clients s) (ms_controller s) (ms_reporter s) (ms_podStore s) w.

Definition prog (X : Type) : Type := main_state -> option (main_state * (X + ending)).

#[local] Instance prog_ret : MRet prog := fun X x s => Some (s, inl x).
#[local] Instance prog_bind : MBind prog := fun X Y f p s =>
  match p s with
  | None => None
  | Some (s', inl x) => f x s'
  | Some (s', inr e) => Some (s', inr e)
  end.

Definition get : prog main_state := fun s => Some (s, inl s).
Definition modify (f : main_state -> main_state) : prog unit := fun s => Some (f s, inl tt).
Definition with_state {X} (f : main_state -> option (main_state * (X + ending))) : prog X := f.
Definition stop {X} (e : ending) : prog X := fun s => Some (s, inr e).

(** An operation on the world whose error ends the program, or is logged. *)
Definition on_world {X} (f : W -> W * X) : prog X := fun s =>
  let '(w, x) := f (ms_world s) in Some (ms_set_world s w, inl x).
Definition or_exit (format : string) (err : option error) : prog unit :=
  match err with Some e => stop (Exitf format (AErr e)) | None => mret tt end.
Definition or_exit_list (format : string) (errList : ErrorList) : prog unit :=
  if IsEmpty errList then mret tt else stop (Exitf format (AStr (ErrorList_String errList))).
Definition or_crash {X} (format : string) (o : outcome X) : prog X :=
  match o with
  | Returns x => mret x
  | Fails e => stop (Exitf format (AErr e))
  | Panics => stop Crash
  end.

(** *** Set-up *)

Definition createReportDir (dir : string) (w : W) : W * option error :=
  if String.eqb dir "" then (w, None)
  else match Stat dir w with
       | None => (w, None)
       | Some err =>
           if negb (os_IsNotExist err) then (w, Some err)
           else match MkdirAll dir w with
                | (w, Some err) => (w, Some (Errorf "report directory creation error: %v" [AErr err]))
                | (w, None) => (w, None)
                end
       end.

(** [newFramework]: both sets of clients; the dynamic ones are of use to the
    tests only. *)
Definition newFramework (kubeConfigPath : string) (clientsNumber : Z) : outcome (MultiClientSet (A := A)) :=
  let wrap {X} (format : string) (o : outcome X) : outcome X :=
    match o with Fails e => Fails (Errorf format [AErr e]) | r => r end in
  clientSets ← wrap "multi client set creation error: %v" (NewMultiClientSet (newClient kubeConfigPath) clientsNumber);
  _ ← wrap "multi dynamic client creation error: %v" (NewMultiClientSet (newDynamicClient kubeConfigPath) clientsNumber);
  match frconfig_GetConfig kubeConfigPath with
  | Some err => Fails (Errorf "rest client creation error: %v" [AErr err])
  | None =>
      match NewDiscoveryClient kubeConfigPath with
      | Some err => Fails (Errorf "discovery client creation error: %v" [AErr err])
      | None => Returns clientSets
      end
  end.

Definition NewRootFramework_path (cc : ClusterConfig_) : string :=
  let override := RootFrameworkKubeConfigOverride (prov_Config (cc_Provider cc)) in
  if negb (String.eqb override "") then override else KubeConfigPath cc.

(** [f.GetClientSets().GetClient()]. *)
Definition get_client : prog unit := fun s =>
  match GetClient (ms_clients s) with
  | Returns (m, _) => Some (set_framework s m, inl tt)
  | _ => Some (s, inr Crash)
  end.

Definition mapping_of (conf : ClusterLoaderConfig) (w : W) (testOverrides : list string)
  : option params * option ErrorList :=
  GetMapping (ReadFile w) decodeOverrides environ (OverridePaths conf) (Nodes (cl_ClusterConfig conf)) testOverrides.

Definition with_prometheus (conf : ClusterLoaderConfig) (p : PrometheusConfig) : ClusterLoaderConfig :=
  mkClusterLoaderConfig (cl_ClusterConfig conf) (cl_ReportDir conf) (ExecService_Enable conf)
    (ExecService_ImageRegistry conf) (cl_ModifierConfig conf) p (OverridePaths conf).
Definition with_cluster (conf : ClusterLoaderConfig) (cc : ClusterConfig_) : ClusterLoaderConfig :=
  mkClusterLoaderConfig cc (cl_ReportDir conf) (ExecService_Enable conf)
    (ExecService_ImageRegistry conf) (cl_ModifierConfig conf) (cl_PrometheusConfig conf) (OverridePaths conf).
Definition with_exec (conf : ClusterLoaderConfig) (b : bool) : ClusterLoaderConfig :=
  mkClusterLoaderConfig (cl_ClusterConfig conf) (cl_ReportDir conf) b
    (ExecService_ImageRegistry conf) (cl_ModifierConfig conf) (cl_PrometheusConfig conf) (OverridePaths conf).

(** The provider, the options and the config. *)
Definition setup_config (testConfigPaths : list string) (testSuiteConfigPath : string) : prog unit :=
  s ← get;
  let conf := ms_config s in
  let conf := if String.eqb (prov_Name (cc_Provider (cl_ClusterConfig conf))) KubestellarName
              then with_exec conf false else conf in
  _ ← modify (fun s => set_config s conf);
  _ ← or_exit_list "Parsing flags error: %v" (validateFlags fl testConfigPaths testSuiteConfigPath conf);
  _ ← or_crash "Client creation error: %v" (NewMultiClientSet (newClient (KubeConfigPath (cl_ClusterConfig conf))) 1);
  r ← on_world (completeConfig (cl_ClusterConfig conf));
  match r with
  | Err err => stop (Exitf "Config completing error: %v" (AErr err))
  | Ok cc => modify (fun s => set_config s (with_cluster conf cc))
  end.

Definition setup_framework : prog unit :=
  s ← get;
  let conf := ms_config s in
  let cc := cl_ClusterConfig conf in
  err ← on_world (createReportDir (cl_ReportDir conf));
  _ ← or_exit "Cannot create report directory: %v" err;
  _ ← on_world LogClusterNodes;
  err ← (if SkipClusterVerification cc then mret None else on_world (verifyCluster cc));
  _ ← or_exit "Cluster verification error: %v" err;
  m ← or_crash "Framework creation error: %v" (newFramework (KubeConfigPath cc) (K8SClientsNumber cc));
  modify (fun s => set_framework s m).

Definition deploy_prometheus (conf : ClusterLoaderConfig) (pc : Controller) : prog unit :=
  _ ← modify (fun s => set_controller (set_config s (with_prometheus conf (pc_config pc))) (Some pc));
  r ← on_world (fun w => let '((pc, w), r) := SetUpPrometheusStack fl wmi_command exporter_order (pc, w) in (w, (pc, r)));
  _ ← modify (fun s => set_controller s (Some r.1));
  _ ← or_crash "Error while setting up prometheus stack: %v" r.2;
  if TearDownServer (cl_PrometheusConfig conf) then on_world (fun w => (handle_interrupts w, tt)) else mret tt.

Definition setup_prometheus : prog unit :=
  s ← get;
  let conf := ms_config s in
  let cc := cl_ClusterConfig conf in
  if EnableServer (cl_PrometheusConfig conf) then
    let root := match newFramework (NewRootFramework_path cc) 1 with
                | Returns _ => None | Fails e => Some e | Panics => None end in
    let '(err, endpoints) := kubernetes_service (ms_world s) in
    let ips := getMasterIps (MasterIPs cc) (MasterInternalIPs cc) (ScrapeMastersWithPublicIPs (cl_PrometheusConfig conf))
                 (getMasterIpsFromKubernetesService err endpoints) in
    pc ← or_crash "Error while creating Prometheus Controller: %v"
           (NewController fl (cl_PrometheusConfig conf) (cc_Provider cc) root (mapping_of conf (ms_world s) []) ips);
    deploy_prometheus conf pc
  else mret tt.

(** [SetUpExecService] takes a client once the mapping is made. *)
Definition setup_exec : prog unit :=
  s ← get;
  let conf := ms_config s in
  if ExecService_Enable conf then
    _ ← (if is_ok (LoadCL2Envs environ) then get_client else mret tt);
    with_state (fun s =>
      match ExecService.SetUpExecService exec_Apply environ (ExecService_ImageRegistry conf) (ms_podStore s, ms_world s) with
      | None => None
      | Some ((store, w), err) =>
          or_exit "Error while setting up exec service: %v" err (set_podStore (ms_set_world s w) store)
      end)
  else mret tt.

Definition setup_images : prog unit :=
  s ← get;
  let conf := ms_config s in
  let prov := cc_Provider (cl_ClusterConfig conf) in
  let mapping := mapping_of conf (ms_world s) [] in
  let preloads := negb (length images =? 0)%nat && prov_Features prov SupportImagePreload in
  _ ← (match mapping.2 with None => if preloads then get_client else mret tt | Some _ => mret tt end);
  err ← on_world (ImagePreload.Setup preload_Apply images prov mapping preload_rounds);
  or_exit "Error while preloading images: %v" err.

(** What is set up unless it is a dry run. *)
Definition setup_services : prog unit :=
  _ ← setup_prometheus;
  _ ← setup_exec;
  _ ← setup_images;
  s ← get;
  let conf := ms_config s in
  _ ← get_client;
  _ ← on_world (metadata_Dump gcloud_describe node_ProviderID json_Marshal main_WriteFile
                  (cc_Provider (cl_ClusterConfig conf)) (path_Join (cl_ReportDir conf) "cl2-metadata.json"));
  modify (fun s => ms_set_reporter s (BeginTestSuite (CreateSimpleReporter "ClusterLoaderV2")
                                        (Now (TestEnv := test_env (cl_ReportDir conf)) (ms_world s)))).

(** *** Scenarios *)

Definition load_scenarios (testConfigPaths : list string) (testSuiteConfigPath : string) : prog (list TestScenario) :=
  s ← get;
  if negb (String.eqb testSuiteConfigPath "") then
    match LoadTestSuite (ReadFile (ms_world s)) decodeSuite testSuiteConfigPath with
    | Err err => stop (Exitf "Error while reading test suite: %v" (AErr err))
    | Ok testSuite => mret testSuite
    end
  else mret (map (fun path => mkTestScenario "" path []) testConfigPaths).

(** A test context: the scenario, the template mapping, the compiled config. *)
Record test_context := mkTestContext {
  tc_scenario : TestScenario;
  tc_mapping : params;
  tc_config : Config;
}.

Definition dumpTestConfig (reportDir : string) (config : Config) (w : W) : W * option error :=
  match yaml_Marshal config with
  | Err err => (w, Some (Errorf "marshaling config error: %w" [AWrap err]))
  | Ok b =>
      match main_WriteFile (path_Join reportDir ("generatedConfig_" +:+ conf_Name config +:+ ".yaml")) b w with
      | (w, Some err) => (w, Some (Errorf "saving file error: %w" [AWrap err]))
      | (w, None) => (w, None)
      end
  end.

(** [CreateTestContext] takes a client for the chaos monkey. *)
Definition CreateTestContext (scenario : TestScenario) : prog params :=
  s ← get;
  match mapping_of (ms_config s) (ms_world s) (ts_OverridePaths scenario) with
  | (_, Some errList) => stop (Exitf "Test context creation failed: %s" (AStr (ErrorList_String errList)))
  | (mapping, None) => _ ← get_client; mret (default ∅ mapping)
  end.

Definition compile_scenario (scenario : TestScenario) : prog test_context :=
  mapping ← CreateTestContext scenario;
  s ← get;
  let conf := ms_config s in
  let dir := filepath_Dir (ts_ConfigPath scenario) in
  r ← with_state (fun s =>
         match CompileTestConfig (H := dir_templates dir mapping) (H0 := dir_loader dir) compile_fuel random_prefix
                 (cl_ModifierConfig conf) (cc_deprecated (cl_ClusterConfig conf))
                 (RegisteredDependencies (re_dependencies run)) (RegisteredMeasurements (re_measurements run))
                 file_IsNotExist cwd IsDNS1123Subdomain (filepath_Base (ts_ConfigPath scenario)) dir with
         | None => None
         | Some (Returns r) => Some (s, inl r)
         | Some _ => Some (s, inr Crash)
         end);
  _ ← (match r.1 with Some c => _ ← on_world (dumpTestConfig (cl_ReportDir conf) c); mret tt | None => mret tt end);
  _ ← or_exit_list "Test compilation failed: %s" r.2;
  match r.1 with
  | Some c => mret (mkTestContext scenario mapping c)
  | None => stop Crash
  end.

Fixpoint compile_all (scenarios : list TestScenario) : prog (list test_context) :=
  match scenarios with
  | [] => mret []
  | scenario :: scenarios' =>
      ctx ← compile_scenario scenario;
      contexts ← compile_all scenarios';
      mret (ctx :: contexts)
  end.

(** *** Running *)

Definition getTestID (ts : TestScenario) : string :=
  if negb (String.eqb (ts_Identifier ts) "") then Sprintf "%s(%s)" [FStr (ts_Identifier ts); FStr (ts_ConfigPath ts)]
  else ts_ConfigPath ts.

(** The test id is only logged. *)
Definition runSingleTest (ctx : test_context) : prog ErrorList := fun s =>
  let conf := ms_config s in
  let TE := test_env (cl_ReportDir conf) in
  let testStart := Now (TestEnv := TE) (ms_world s) in
  let tctx := mkContext newNamespacesState NewFactory CreateManager CreateDependencyManager (ms_reporter s) (ms_world s) in
  match RunTest (TP := dir_templates (filepath_Dir (ts_ConfigPath (tc_scenario ctx))) (tc_mapping ctx)) (TE := TE)
          run tctx (cl_ModifierConfig conf) (ts_Identifier (tc_scenario ctx)) (tc_config ctx) with
  | None => None
  | Some (tctx, Returns errList) =>
      let r := ReportTestFinish (ctx_reporter tctx) (Now (TestEnv := TE) (ctx_world tctx) - testStart)
                 (ts_ConfigPath (tc_scenario ctx)) errList in
      Some (ms_set_reporter (ms_set_world s (ctx_world tctx)) r, inl errList)
  | Some (tctx, _) => Some (ms_set_reporter (ms_set_world s (ctx_world tctx)) (ctx_reporter tctx), inr Crash)
  end.

(** The results are only logged. *)
Fixpoint run_tests (contexts : list test_context) : prog (list ErrorList) :=
  match contexts with
  | [] => mret []
  | ctx :: contexts' =>
      errList ← runSingleTest ctx;
      rest ← run_tests contexts';
      mret (errList :: rest)
  end.

(** [MakePrometheusSnapshotIfEnabled] on a controller that may be nil. *)
Definition snapshot_to_report_dir : prog unit :=
  s ← get;
  if negb (shouldSnapshotPrometheusToReportDir fl) then mret tt
  else match ms_controller s with
       | None => stop Crash
       | Some _ => _ ← on_world (makeSnapshot (path_Join (cl_ReportDir (ms_config s)) "prometheus_snapshot.tar.gz")); mret tt
       end.

Definition tear_down : prog unit :=
  s ← get;
  let p := cl_PrometheusConfig (ms_config s) in
  _ ← (if EnableServer p && TearDownServer p then
         match ms_controller s with
         | Some pc =>
             r ← on_world (fun w => let '((pc, w), err) := TearDownPrometheusStack fl (pc, w) in (w, pc));
             modify (fun s => set_controller s (Some r))
         | None => stop Crash
         end
       else mret tt);
  if ExecService_Enable (ms_config s) then
    _ ← get_client;
    with_state (fun s =>
      let '((store, w), _) := ExecService.TearDownExecService (ms_podStore s, ms_world s) in
      Some (set_podStore (ms_set_world s w) store, inl tt))
  else mret tt.

(** Everything before the first test, ending with the compiled tests. *)
Definition prepare (dryRun : bool) (testConfigPaths : list string) (testSuiteConfigPath : string)
  : prog (list test_context) :=
  _ ← setup_config testConfigPaths testSuiteConfigPath;
  _ ← setup_framework;
  _ ← (if dryRun then mret tt else setup_services);
  scenarios ← load_scenarios testConfigPaths testSuiteConfigPath;
  compile_all scenarios.

(** From the first test on. *)
Definition run_and_judge (contexts : list test_context) : prog unit :=
  _ ← run_tests contexts;
  _ ← with_state (fun s => Some (ms_set_reporter s (EndTestSuite (ms_reporter s)
                        (Now (TestEnv := test_env (cl_ReportDir (ms_config s))) (ms_world s))), inl tt));
  _ ← snapshot_to_report_dir;
  _ ← tear_down;
  s ← get;
  let failedTestItems := GetNumberOfFailedTestItems (ms_reporter s) in
  if 0 <? failedTestItems then stop (Exitf "%d tests have failed!" (AInt failedTestItems)) else mret tt.

Definition main_body (dryRun : bool) (testConfigPaths : list string) (testSuiteConfigPath : string) : prog unit :=
  contexts ← prepare dryRun testConfigPaths testSuiteConfigPath;
  if dryRun then
    s ← get; stop (Exitf "Dry run mode enabled, exiting after dumping test config in %s." (AStr (cl_ReportDir (ms_config s))))
  else run_and_judge contexts.

(** ** Reasoning about programs *)

(** When [p] returns from a state with [P], its result and state have [Q]. *)
Definition triple {X} (P : main_state -> Prop) (p : prog X) (Q : X -> main_state -> Prop) : Prop :=
  forall s s' x, P s -> p s = Some (s', inl x) -> Q x s'.

(** [p] preserves [I] and may return anything. *)
Definition keeps {X} (I : main_state -> Prop) (p : prog X) : Prop := triple I p (fun _ => I).

Lemma triple_bind {X Y} P (p : prog X) Q (f : X -> prog Y) R :
  triple P p Q -> (forall x, triple (Q x) (f x) R) -> triple P (p ≫= f) R.
Proof.
  intros Hp Hf s s' y HP. unfold mbind, prog_bind. destruct (p s) as [[s1 [x|e]]|] eqn:Hs; [|done..].
  intros Hy. eapply Hf; [|exact Hy]. by eapply Hp.
Qed.

Lemma keeps_bind {X Y} I (p : prog X) (f : X -> prog Y) :
  keeps I p -> (forall x, keeps I (f x)) -> keeps I (p ≫= f).
Proof. apply triple_bind. Qed.

Lemma triple_conseq {X} (P P' : main_state -> Prop) (p : prog X) (Q Q' : X -> main_state -> Prop) :
  (forall s, P' s -> P s) -> (forall x s, Q x s -> Q' x s) -> triple P p Q -> triple P' p Q'.
Proof. intros HP HQ Hp s s' x Hs He. eapply HQ, Hp; [by apply HP|done]. Qed.

Lemma keeps_ret {X} I (x : X) : keeps I (mret x : prog X).
Proof. by intros s s' y Hs [= <- <-]. Qed.
Lemma keeps_get I : keeps I get.
Proof. by intros s s' y Hs [= <- <-]. Qed.
Lemma keeps_stop {X} I e : keeps I (stop e : prog X).
Proof. by intros s s' y Hs [=]. Qed.
Lemma keeps_or_exit I format err : keeps I (or_exit format err).
Proof. destruct err; [apply keeps_stop|apply keeps_ret]. Qed.
Lemma keeps_or_exit_list I format errs : keeps I (or_exit_list format errs).
Proof. unfold or_exit_list. destruct (IsEmpty errs); [apply keeps_ret|apply keeps_stop]. Qed.
Lemma keeps_or_crash {X} I format (o : outcome X) : keeps I (or_crash format o).
Proof. destruct o; [apply keeps_ret|apply keeps_stop..]. Qed.

(** *** The invariant of the program after its set-up *)

Definition has_clients (s : main_state) : Prop := clients (ms_clients s) <> [].
Definition controlled (s : main_state) : Prop :=
  EnableServer (cl_PrometheusConfig (ms_config s)) = true -> is_Some (ms_controller s).
Definition no_failures (s : main_state) : Prop := NumberOfFailedSpecs (ms_reporter s) = 0.
Definition ready (s : main_state) : Prop := has_clients s /\ controlled s /\ no_failures s.

Lemma GetClient_clients (m : MultiClientSet (A := A)) :
  match GetClient m with
  | Returns (m', _) => clients m' = clients m /\ clients m <> []
  | _ => clients m = []
  end.
Proof.
  unfold GetClient. destruct (Z.eqb_spec (Z.of_nat (length (clients m))) 0) as [Hz|Hz].
  { by destruct (clients m). }
  pose proof (Z.rem_bound_abs (current m + 1) (Z.of_nat (length (clients m))) Hz) as Hb.
  destruct (lookup_lt_is_Some_2 (clients m) (Z.to_nat (Z.rem (current m + 1) (Z.of_nat (length (clients m)))))
              ltac:(lia)) as [a ->]. split; [done|]. by destruct (clients m).
Qed.

Lemma get_client_spec P :
  (forall s m, P s -> P (set_framework s m)) -> triple P get_client (fun _ s => P s /\ has_clients s).
Proof.
  intros HP s s' x Hs. unfold get_client. pose proof (GetClient_clients (ms_clients s)) as Hc.
  destruct (GetClient _) as [[m a]|e|]; [|done..]. intros [= <- _]. destruct Hc as [Hc Hne].
  split; [by apply HP|]. unfold has_clients. cbn. congruence.
Qed.

Lemma keeps_get_client_ready : keeps ready get_client.
Proof.
  intros s s' x Hr Hg. destruct (get_client_spec (fun s => controlled s /\ no_failures s)
    ltac:(by intros) s s' x (proj2 Hr) Hg) as [H1 H2]. by split.
Qed.

Lemma keeps_get_client_controlled : keeps controlled get_client.
Proof. intros s s' x Hs Hg. by destruct (get_client_spec controlled ltac:(by intros) s s' x Hs Hg). Qed.

(** What only changes the world, or nothing of the invariant. *)
Lemma keeps_on_world {X} I (f : W -> W * X) :
  (forall s w, I s -> I (ms_set_world s w)) -> keeps I (on_world f).
Proof. intros HI s s' x Hs. unfold on_world. destruct (f _) as [w y]. intros [= <- <-]. by apply HI. Qed.

(** Follow the structure of a program, with [t] for its other leaves. *)
Ltac keep t :=
  repeat first
    [ t | apply keeps_ret | apply keeps_get | apply keeps_stop | apply keeps_or_exit | apply keeps_or_exit_list
    | apply keeps_or_crash | apply keeps_on_world; by intros | apply keeps_bind; [|intros ?]
    | match goal with |- keeps _ (match ?x with _ => _ end) => destruct x end
    | progress cbv zeta ].

Lemma deploy_prometheus_controlled conf pc : triple (fun _ => True) (deploy_prometheus conf pc) (fun _ => controlled).
Proof.
  unfold deploy_prometheus.
  apply (triple_bind _ _ (fun _ _ => True)); [by intros|]. intros _.
  apply (triple_bind _ _ (fun _ _ => True)); [by intros|]. intros r.
  apply (triple_bind _ _ (fun _ s => is_Some (ms_controller s))); [intros s s' x _ [= <- _]; by eexists|]. intros _.
  apply (triple_conseq (fun s => is_Some (ms_controller s)) _ _ (fun _ s => is_Some (ms_controller s))); [done|by intros ????|].
  change (keeps (fun s => is_Some (ms_controller s))
    (or_crash "Error while setting up prometheus stack: %v" r.2 ≫= fun _ =>
      if TearDownServer (cl_PrometheusConfig conf) then on_world (fun w => (handle_interrupts w, tt)) else mret tt)).
  keep fail.
Qed.

Lemma triple_get P : triple P get (fun x s => x = s /\ P s).
Proof. by intros s s' x Hs [= <- <-]. Qed.

Lemma setup_prometheus_controlled : triple (fun _ => True) setup_prometheus (fun _ => controlled).
Proof.
  unfold setup_prometheus. eapply triple_bind; [apply triple_get|]. intros s0. cbv zeta beta.
  destruct (EnableServer (cl_PrometheusConfig (ms_config s0))) eqn:He.
  - destruct (kubernetes_service (ms_world s0)) as [err endpoints].
    eapply (triple_bind _ _ (fun _ _ => True)); [by intros|]. intros pc. apply deploy_prometheus_controlled.
  - intros s s' x [<- _] [= <- _] Hx. congruence.
Qed.

Lemma keeps_setup_exec : keeps controlled setup_exec.
Proof.
  unfold setup_exec. keep ltac:(apply keeps_get_client_controlled).
  intros ??? Hs. unfold with_state. destruct (ExecService.SetUpExecService _ _ _ _) as [[[store w] err]|]; [|done].
  apply keeps_or_exit. done.
Qed.

Lemma keeps_setup_images : keeps controlled setup_images.
Proof. unfold setup_images. keep ltac:(apply keeps_get_client_controlled). Qed.

Lemma setup_services_ready : triple (fun _ => True) setup_services (fun _ => ready).
Proof.
  unfold setup_services.
  eapply triple_bind; [apply setup_prometheus_controlled|]; intros ?; cbn beta.
  eapply triple_bind; [apply keeps_setup_exec|]; intros ?; cbn beta.
  eapply triple_bind; [apply keeps_setup_images|]; intros ?; cbn beta.
  eapply triple_bind; [apply keeps_get|]. intros s0. cbn beta zeta.
  eapply triple_bind; [by apply (get_client_spec controlled)|]; intros ?; cbn beta.
  eapply triple_bind; [by apply (keeps_on_world (fun s => controlled s /\ has_clients s))|]; intros ?; cbn beta.
  intros ??? [Hc Hh] [= <- _]. by split_and!.
Qed.

Lemma keeps_compile_scenario scenario : keeps ready (compile_scenario scenario).
Proof.
  unfold compile_scenario, CreateTestContext. keep ltac:(apply keeps_get_client_ready).
  intros ??? Hs. unfold with_state.
  destruct (CompileTestConfig _ _ _ _ _ _ _ _ _ _ _) as [[r'| |]|]; intros Hx; simplify_eq. done.
Qed.

Lemma keeps_compile_all scenarios : keeps ready (compile_all scenarios).
Proof.
  induction scenarios as [|scenario scenarios IH]; cbn [compile_all].
  - apply keeps_ret.
  - keep ltac:(first [apply keeps_compile_scenario | apply IH]).
Qed.

Lemma prepare_ready paths suite : triple (fun _ => True) (prepare false paths suite) (fun _ => ready).
Proof.
  unfold prepare.
  eapply (triple_bind _ _ (fun _ _ => True)); [by intros|]. intros _.
  eapply (triple_bind _ _ (fun _ _ => True)); [by intros|]. intros _.
  eapply triple_bind; [apply setup_services_ready|]; intros ?; cbn beta.
  unfold load_scenarios. keep ltac:(apply keeps_compile_all).
Qed.

(** One step of a program that returns. *)
Lemma bind_returns {X Y} (p : prog X) (f : X -> prog Y) s s1 x : p s = Some (s1, inl x) -> (p ≫= f) s = f x s1.
Proof. unfold mbind, prog_bind. by intros ->. Qed.

Lemma bind_stops {X Y} (p : prog X) (f : X -> prog Y) s s1 e :
  p s = Some (s1, inr e) -> (p ≫= f) s = Some (s1, inr e).
Proof. unfold mbind, prog_bind. by intros ->. Qed.

(** *** Running the tests *)

Definition failed (s : main_state) : Z := NumberOfFailedSpecs (ms_reporter s).

Lemma ReportTestFinish_counts str d path errs :
  NumberOfFailedSpecs (ReportTestFinish str d path errs) =
  NumberOfFailedSpecs str + (if IsEmpty errs then 0 else 1).
Proof. unfold ReportTestFinish, handleSummary. destruct (IsEmpty errs); cbn; lia. Qed.

(** A test leaves the variables of [main] alone, but for the reporter. *)
Definition same_setup (s s' : main_state) : Prop :=
  ms_config s' = ms_config s /\ ms_clients s' = ms_clients s /\ ms_controller s' = ms_controller s /\
  ms_podStore s' = ms_podStore s.

Lemma runSingleTest_counts ctx s s' errs :
  runSingleTest ctx s = Some (s', inl errs) ->
  same_setup s s' /\ (if IsEmpty errs then failed s' = failed s else failed s < failed s').
Proof.
  unfold runSingleTest. cbn zeta.
  match goal with |- context [RunTest ?e ?c ?m ?i ?t] => destruct (RunTest e c m i t) as [[tctx [e'| |]]|] eqn:Hr end; [|done..].
  intros [= <- <-]. split; [done|]. apply RunTest_counted in Hr as [Hle Hn]. unfold failures, failed in *.
  cbn [ctx_reporter ms_reporter ms_set_reporter] in *. rewrite ReportTestFinish_counts.
  destruct (IsEmpty e'); [rewrite Hn by done|]; lia.
Qed.

Lemma run_tests_counts contexts s s' errss :
  run_tests contexts s = Some (s', inl errss) ->
  same_setup s s' /\ length errss = length contexts /\
  (if forallb IsEmpty errss then failed s' = failed s else failed s < failed s').
Proof.
  revert s errss. induction contexts as [|ctx contexts IH]; intros s errss; cbn [run_tests].
  { intros [= <- <-]. done. }
  unfold mbind, prog_bind. destruct (runSingleTest ctx s) as [[s1 [e|]]|] eqn:H1; [|done..].
  destruct (run_tests contexts s1) as [[s2 [es|]]|] eqn:H2; [|done..]. intros [= <- <-].
  apply runSingleTest_counts in H1 as [(A1 & A2 & A3 & A4) Hc1]. apply IH in H2 as [(B1 & B2 & B3 & B4) [Hl Hc2]].
  split; [unfold same_setup; by rewrite B1, B2, B3, B4|]. cbn [length forallb]. split; [by f_equal|].
  destruct (IsEmpty e); cbn [andb]; destruct (forallb IsEmpty es); lia.
Qed.

(** *** Ending *)

Lemma get_client_ok s : has_clients s ->
  exists s', get_client s = Some (s', inl tt) /\ ms_reporter s' = ms_reporter s.
Proof.
  intros Hs. unfold get_client. pose proof (GetClient_clients (ms_clients s)) as Hc.
  destruct (GetClient _) as [[m a]|e|]; [by eexists|done..].
Qed.

Lemma tear_down_ok s : has_clients s -> controlled s ->
  exists s', tear_down s = Some (s', inl tt) /\ ms_reporter s' = ms_reporter s.
Proof.
  intros Hh Hc. unfold tear_down. rewrite (bind_returns get _ s s s) by done. cbv zeta.
  match goal with |- context [mbind ?f ?p s] => assert (exists s1, p s = Some (s1, inl tt) /\ ms_reporter s1 = ms_reporter s /\
    has_clients s1) as (s1 & Hp & Hr & Hh1) end.
  { unfold controlled in Hc. destruct (EnableServer _); cbn [andb]; [|by exists s].
    destruct (TearDownServer _); [|by exists s]. destruct (Hc eq_refl) as [pc ->].
    unfold mbind, prog_bind, on_world. destruct (TearDownPrometheusStack fl (pc, ms_world s)) as [[pc' w'] err].
    eexists. by split_and!. }
  rewrite (bind_returns _ _ _ _ _ Hp). destruct (ExecService_Enable _); [|by exists s1].
  destruct (get_client_ok s1 Hh1) as (s2 & Hg & Hr2). rewrite (bind_returns _ _ _ _ _ Hg). unfold with_state.
  destruct (ExecService.TearDownExecService _) as [[store w'] err]. eexists. split; [done|]. cbn. congruence.
Qed.

(** What the run ends with, once the tests returned these error lists. *)
Definition verdict (s : main_state) (errss : list ErrorList) (failed : Z) : unit + ending :=
  if shouldSnapshotPrometheusToReportDir fl && negb (bool_decide (is_Some (ms_controller s))) then inr Crash
  else if forallb IsEmpty errss then inl tt
  else inr (Exitf "%d tests have failed!" (AInt failed)).

Lemma judge_verdict s errss n :
  has_clients s -> controlled s -> failed s = n -> (if forallb IsEmpty errss then n = 0 else 0 < n) ->
  exists s', (tear_down ≫= fun _ => s ← get;
      let failedTestItems := GetNumberOfFailedTestItems (ms_reporter s) in
      if 0 <? failedTestItems then stop (Exitf "%d tests have failed!" (AInt failedTestItems)) else mret tt) s =
    Some (s', if forallb IsEmpty errss then inl tt else inr (Exitf "%d tests have failed!" (AInt n))).
Proof.
  intros Hh Hc Hf Hn. destruct (tear_down_ok s Hh Hc) as (s' & Ht & Hr). exists s'.
  rewrite (bind_returns _ _ _ _ _ Ht), (bind_returns get _ s' s' s') by done. cbv zeta.
  unfold GetNumberOfFailedTestItems. rewrite Hr. fold (failed s). rewrite Hf.
  destruct (forallb IsEmpty errss); [by rewrite Hn|]. by rewrite (proj2 (Z.ltb_lt _ _) Hn).
Qed.

Lemma run_and_judge_verdict contexts s s2 errss :
  ready s -> run_tests contexts s = Some (s2, inl errss) ->
  (exists s3, run_and_judge contexts s = Some (s3, verdict s errss (failed s2))) /\
  (if forallb IsEmpty errss then failed s2 = 0 else 0 < failed s2).
Proof.
  intros (Hh & Hc & Hn) Hr. destruct (run_tests_counts _ _ _ _ Hr) as ((S1 & S2 & S3 & S4) & _ & Hcount).
  unfold no_failures in Hn. unfold failed in Hcount at 2 3. rewrite Hn in Hcount. split; [|done].
  unfold run_and_judge, verdict. rewrite (bind_returns _ _ _ _ _ Hr).
  set (s2' := ms_set_reporter s2 (EndTestSuite (ms_reporter s2)
    (Now (TestEnv := test_env (cl_ReportDir (ms_config s2))) (ms_world s2)))).
  rewrite (bind_returns _ _ s2 s2' tt) by done.
  assert (failed s2' = failed s2) as Hf by done. assert (ms_controller s2' = ms_controller s) as Hct by done.
  assert (has_clients s2') as Hh2 by (unfold has_clients; cbn; by rewrite S2).
  assert (controlled s2') as Hc2 by (unfold controlled; cbn; by rewrite S1, S3). clearbody s2'.
  destruct (shouldSnapshotPrometheusToReportDir fl) eqn:Hs; cbn [andb].
  - destruct (ms_controller s) as [pc|] eqn:Hpc.
    + rewrite bool_decide_eq_true_2 by eauto. cbn [negb].
      set (ms := makeSnapshot (path_Join (cl_ReportDir (ms_config s2')) "prometheus_snapshot.tar.gz") (ms_world s2')).
      rewrite (bind_returns snapshot_to_report_dir _ s2' (ms_set_world s2' ms.1) tt).
      * by apply judge_verdict.
      * unfold snapshot_to_report_dir. rewrite (bind_returns get _ s2' s2' s2') by done. rewrite Hs, Hct. cbn [negb].
        unfold mbind, prog_bind, on_world. fold ms. by destruct ms.
    + rewrite bool_decide_eq_false_2 by (by intros [? [=]]). exists s2'.
      apply bind_stops. unfold snapshot_to_report_dir. rewrite (bind_returns get _ s2' s2' s2') by done. by rewrite Hs, Hct.
  - rewrite (bind_returns snapshot_to_report_dir _ s2' s2' tt).
    + by apply judge_verdict.
    + unfold snapshot_to_report_dir. rewrite (bind_returns get _ s2' s2' s2') by done. by rewrite Hs.
Qed.
End Main.

(** ** main *)

(** The values the program starts with. *)
Record options := mkOptions_ {
  opt_flags : SnapshotFlags;
  opt_images : list string;
  opt_dryRun : bool;
  opt_testConfigPaths : list string;
  opt_testSuite : string;
  opt_config : ClusterLoaderConfig;
}.

(** The command line, the environment and the provider. *)
Definition start (lookup : string -> option string) (settings : list (string * string)) : options + ending :=
  match Parse lookup initFlags (env_settings settings) ∅ with
  | Err err => inr (Exitf "Flag parse failed: %v" (AErr err))
  | Ok s =>
      match NewProvider (read_provider_options s) with
      | Panics => inr Crash
      | Fails err => inr (Exitf "Error init provider: %v" (AErr err))
      | Returns prov =>
          inl (mkOptions_ (read_snapshot s) (get_slice s "node-preload-images") (get_bool s "dry-run")
                 (array_values settings "testconfig") (get_string s "testsuite") (read_config s settings prov))
      end
  end.

Section Program.
Context {W A PS M F D DF : Type}.
Context `{GL : GoLib} `{MR : MapRange} `{AE : ApiErrors} `{BO : Backoff} `{CS : ClusterServer W}
  `{NS : NamespaceServer W} `{PM : PromServer W} `{ST : !ExecService.PodStores W PS} `{PE : !ImagePreload.PreloadEnv W}
  `{ME : MainEnv W A} `{FW : Framework W} `{ML : MeasurementLib W M F} `{DL : DependencyLib W D DF}.
Context (test_env : string -> TestEnv W) (run : run_env (W := W) (F := F) (DF := DF)).

Definition initial (o : options) (w : W) : main_state (W := W) (A := A) (PS := PS) :=
  mkMain (opt_config o) (mkMultiClientSet [] 0) None (CreateSimpleReporter "") None w.

Definition main (settings : list (string * string)) (w : W) : option (unit + ending) :=
  match start LookupEnv settings with
  | inr e => Some (inr e)
  | inl o => snd <$> main_body test_env run (opt_flags o) (opt_images o) (opt_dryRun o) (opt_testConfigPaths o)
               (opt_testSuite o) (initial o w)
  end.

(** C3: The exit status is right. When the options are good, everything could be
    set up and all the scenarios compiled, and the tests were run, the program
    exits with status 0 exactly when every test returned no error at all, and
    otherwise reports a positive number of failed items. The only other end is
    a panic, exactly when a snapshot into the report directory was asked for
    without the Prometheus server. Whatever ends the program before the tests
    is not a success, and neither is a dry run. *)
Theorem exit_status_correct settings w :
  match start LookupEnv settings with
  | inr e => main settings w = Some (inr e)
  | inl o =>
      let prepared := prepare test_env run (opt_flags o) (opt_images o) (opt_dryRun o) (opt_testConfigPaths o)
                        (opt_testSuite o) (initial o w) in
      (prepared = None -> main settings w = None) /\
      (forall s1 e, prepared = Some (s1, inr e) -> main settings w = Some (inr e)) /\
      (opt_dryRun o = true -> main settings w <> Some (inl tt)) /\
      (forall s1 contexts s2 errss, opt_dryRun o = false -> prepared = Some (s1, inl contexts) ->
         run_tests test_env run contexts s1 = Some (s2, inl errss) ->
         length errss = length contexts /\
         (main settings w = Some (inr Crash) <->
            shouldSnapshotPrometheusToReportDir (opt_flags o) = true /\ ms_controller s1 = None) /\
         (main settings w <> Some (inr Crash) ->
            (main settings w = Some (inl tt) <-> Forall (fun errs => IsEmpty errs = true) errss) /\
            (main settings w <> Some (inl tt) ->
               exists n, main settings w = Some (inr (Exitf "%d tests have failed!" (AInt n))) /\ 0 < n)))
  end.
Proof.
  unfold main. destruct (start LookupEnv settings) as [o|e]; [|done]. cbn zeta. unfold main_body.
  split_and!.
  - intros Hp. unfold mbind, prog_bind. by rewrite Hp.
  - intros s1 e Hp. by rewrite (bind_stops _ _ _ _ _ Hp).
  - intros ->. unfold mbind, prog_bind, get. by destruct (prepare _ _ _ _ _ _ _ _) as [[s1 [contexts|e]]|].
  - intros s1 contexts s2 errss Hd Hp Hr. rewrite Hd in *. rewrite (bind_returns _ _ _ _ _ Hp).
    assert (ready s1) as Hready by (by eapply (prepare_ready test_env run); [|exact Hp]).
    destruct (run_and_judge_verdict test_env run (opt_flags o) contexts s1 s2 errss Hready Hr) as [[s3 Hv] Hn].
    destruct (run_tests_counts test_env run _ _ _ _ Hr) as (_ & Hl & _).
    split; [done|]. rewrite Hv. cbn [fmap option_fmap option_map snd]. unfold verdict.
    assert (Forall (fun errs => IsEmpty errs = true) errss <-> forallb IsEmpty errss = true) as ->.
    { rewrite forallb_forall, Forall_forall. by setoid_rewrite list_elem_of_In. }
    destruct (shouldSnapshotPrometheusToReportDir _); cbn [andb].
    + case_bool_decide as Hc; cbn [negb].
      * split; [split; [by destruct (forallb IsEmpty errss)|intros [_ Hx]; rewrite Hx in Hc; by destruct Hc]|].
        intros _. destruct (forallb IsEmpty errss); [done|]. split; [done|]. intros _. eauto.
      * split; [|done]. split; [|done]. intros _. split; [done|]. destruct (ms_controller s1); [|done]. destruct Hc. eauto.
    + split; [split; [by destruct (forallb IsEmpty errss)|by intros []]|].
      intros _. destruct (forallb IsEmpty errss); [done|]. split; [done|]. intros _. eauto.
Qed.
End Program.

(** ** A run *)
Section SmallRun.
#[local] Existing Instance sample_golib.
#[local] Existing Instance list_range.
#[local] Existing Instance flaky_errors.
#[local] Existing Instance simple_backoff.
#[local] Existing Instance log_framework.
#[local] Existing Instance log_measurements.
#[local] Existing Instance logging_lib.

#[local] Instance log_cluster : ClusterServer log :=
  {| nodes_List := fun w => (w, Ok [mkNode "node-1" ∅ false [] [mkNodeCondition "Ready" "True"] []]);
     pods_List := fun w _ _ => (w, Ok []) |}.

#[local] Instance log_namespaces : NamespaceServer log :=
  {| ns_List := fun w => (w, Ok []);
     ns_Create := fun w n => (w, None);
     ns_Delete := fun w n => (w, None);
     ns_Get := fun w n => (w, None);
     PollImmediate := fun _ _ f w => let '(w', (_, e)) := f w in (w', e);
     MatchString := fun _ _ => Ok false |}.

#[local] Instance log_prom : PromServer log :=
  {| prom_TestClient := fun c => (c, None); prom_NewFramework := fun c => (c, None);
     DeleteStorageClass := fun _ c => (c, None); PromStack.ApplyTemplatedManifests := fun _ _ _ c => (c, None);
     sa_Get := fun c => (c, None); sa_Create := fun c => (c, None); sa_CreateToken := fun c => (c, Ok "token");
     secret_Get := fun c => (c, None); secret_Create := fun _ c => (c, None); secret_Update := fun _ c => (c, None);
     clusterRole_Create := fun c => (c, None); clusterRoleBinding_Create := fun c => (c, None);
     node_exporter_SSH := fun _ c => (c, None); windows_List := fun c => (c, Ok []);
     gcloud_SSH := fun _ _ _ _ c => (c, None); targets_Get := fun c => (c, Ok "");
     targets_Unmarshal := fun _ => Ok []; promPVs_List := fun c => (c, Ok []);
     gcloud_Snapshot := fun _ _ _ _ c => (c, None); gcloud_Delete := fun _ _ _ c => (c, None) |}.

#[local] Instance log_stores : ExecService.PodStores log unit :=
  {| ExecService.NewPodStore := fun w => (w, Ok tt);
     ExecService.ps_Stop := fun _ w => w ++ ["stop store"];
     ExecService.ps_List := fun _ _ => Ok [ready_pod "a"; ready_pod "b"; ready_pod "c"];
     ExecService.ps_String := fun _ => "exec";
     ExecService.ps_rounds := fun _ w => (w, [Interval 3 (Ok [ready_pod "a"; ready_pod "b"; ready_pod "c"])]) |}.

#[local] Instance log_preload : ImagePreload.PreloadEnv log :=
  {| ImagePreload.nodeInformer_synced := fun w => (w, true);
     ImagePreload.daemonset_Get := fun w => (w, None);
     ImagePreload.size_new := fun w => (w, None);
     ImagePreload.size_Start := fun w => (w, None) |}.

(** [name]: the measurement the test calls. *)
Definition ex_test (name : string) : Config :=
  mkConfig "load" [] 0 (mkNamespaceConfig 1 "p" None None None None)
    [mkStep [] [mkMeasurement name ∅ "m1" []] no_module "measure"] []
    (mkChaosMonkeyConfig None None).

#[local] Instance log_main : MainEnv log unit :=
  {| LookupEnv := fun _ => None; environ := [];
     newClient := fun _ _ => Ok tt; newDynamicClient := fun _ _ => Ok tt;
     frconfig_GetConfig := fun _ => None; NewDiscoveryClient := fun _ => None;
     Stat := fun _ _ => None; os_IsNotExist := fun _ => true; MkdirAll := fun _ w => (w, None);
     path_Join := fun a b => a +:+ "/" +:+ b; filepath_Base := fun p => p; filepath_Dir := fun _ => "dir";
     ReadFile := fun _ _ => Ok ""; main_WriteFile := fun f _ w => (w ++ ["write " +:+ f], None);
     decodeOverrides := fun _ => Ok ∅; decodeSuite := fun _ => Ok [];
     yaml_Marshal := fun _ => Ok ""; json_Marshal := fun _ => Ok "{}";
     dir_templates := fun _ _ => sample_provider;
     dir_loader := fun _ => {| TemplateInto := fun _ _ => Err (External "no such file");
                               TemplateToConfig := fun path _ => Ok (ex_test path) |};
     kubernetes_service := fun _ => (None, Ok []); gcloud_describe := fun _ _ _ => inl "";
     node_ProviderID := fun _ => ""; wmi_command := fun _ _ => ""; exporter_order := fun l => l;
     makeSnapshot := fun f w => (w, None); handle_interrupts := fun w => w;
     exec_Apply := fun _ _ w => (w ++ ["apply exec service"], None); preload_Apply := fun _ _ w => (w, None);
     preload_rounds := []; compile_fuel := 5; random_prefix := fun _ => 0%nat;
     file_IsNotExist := fun _ => false; cwd := "/"; IsDNS1123Subdomain := fun _ => [] |}.

Definition ex_main (settings : list (string * string)) : option (unit + ending) :=
  main (PS := unit) (A := unit) (fun _ => log_env) log_run settings ([] : log).

Definition ex_settings (tests : list string) : list (string * string) :=
  [("kubeconfig", "/k"); ("provider", "local")] ++ map (pair "testconfig") tests.

Example ex_main_succeeds : ex_main (ex_settings ["Timer"; "Timer"]) = Some (inl tt).
Proof. vm_compute. reflexivity. Qed.

Example ex_main_fails : ex_main (ex_settings ["Timer"; "Critical"; "Timer"]) = Some (inr (Exitf "%d tests have failed!" (AInt 2))).
Proof. vm_compute. reflexivity. Qed.

Example ex_main_panics : ex_main (ex_settings ["Timer"] ++ [("experimental-prometheus-snapshot-to-report-dir", "true")]) = Some (inr Crash).
Proof. vm_compute. reflexivity. Qed.
End SmallRun.
